(* ===== verification/_CoqProject ===== *)
-Q . S2P
Prelude.v
Text.v
CMonad.v
SmiWire.v
SmiCore.v
SmiSpec.v
SmiVlan.v
SmiImpl.v
SmiProps.v
Regs.v
SmiText.v
TableChip.v
Rtl8366s.v
Rtl8366sImpl.v
Rtl8366sProps.v
Rtl8366rb.v
Rtl8366rbImpl.v
Rtl8366rbProps.v
Smi67.v
Rtl8367b.v
Rtl8367.v
Table67.v
Rtl8367Impl.v
Rtl8367Props.v
SmiTextProps.v
Bmt.v
BmtMap.v
BmtScan.v
BmtProps.v
Buttons.v
ButtonsProps.v
R2ec.v
R2ecProps.v
Leds.v
LedsProps.v
Fit.v
FitProps.v
Mdio.v
Psb6970.v
Psb6970Props.v
Rtl8306.v
Rtl8306Regs.v
Rtl8306Props.v
Regmap.v
An8855Mfd.v
An8855MfdProps.v
An8855Regs.v
An8855.v
An8855Setup.v
An8855Link.v
An8855Phy.v
An8855Hw.v
An8855Stack.v
An8855VlanProps.v
An8855BridgeProps.v
An8855FdbProps.v
An8855DumpProps.v
An8855SetupProps.v
An8855Props.v
Rk3328Dmc.v
Rk3328DmcProps.v
Rk3328VoltProps.v
Phylib.v
Qca807x.v
Qca807xProps.v
Mt2p5ge.v
RockchipRng.v
UbootEnv.v
B53Io.v
B53IoProps.v
B53Access.v
B53.v
B53Hw.v
B53Props.v
B53Counters.v
B53Demo.v
Adm6996.v
AdmWire.v
AdmProps.v
