(* ===== verification/Prelude.v ===== *)
(** * OpenMPTCProuter kernel drivers: a verification development

    OpenMPTCProuter builds a router firmware: a build system on top of
    OpenWrt that carries, per kernel version, patches, packages and drivers
    of its own.  The drivers are its C code.  This development models the
    ones that hold logic of their own and proves what makes them correct:

    - the Realtek switch drivers under
      [src/6.18/target/linux/generic/files/drivers/net/phy/]: the core
      [rtl8366_smi.c] with its two register transports, and the chip drivers
      [rtl8366s.c], [rtl8366rb.c], [rtl8367.c] and [rtl8367b.c];
    - three older switch drivers of the same directory, [psb6970.c],
      [rtl8306.c] and [adm6996.c];
    - the drivers of the Broadcom RoboSwitch family, [b53/b53_mdio.c],
      [b53_srab.c], [b53_mmap.c] and [b53_phy_fixup.c] of the same directory,
      and [b53_common.c], which the repository has under [src/5.4/] only;
    - the drivers of the Airoha AN8855 switch under
      [src/6.18/target/linux/mediatek/files-6.18/]: the switch itself
      [drivers/net/dsa/an8855.c], its MDIO window [drivers/mfd/airoha-an8855.c],
      PHY bus [drivers/net/mdio/mdio-an8855.c], EFUSE
      [drivers/nvmem/an8855-efuse.c] and PHYs [drivers/net/phy/air_an8855.c];
    - the bad block management of MediaTek NAND,
      [src/6.12/target/linux/generic/files/drivers/mtd/nand/mtk_bmt_v2.c];
    - the button driver
      [src/6.18/package/kernel/gpio-button-hotplug/src/gpio-button-hotplug.c];
    - the LED triggers of switch ports,
      [src/6.1/target/linux/generic/files/drivers/net/phy/swconfig_leds.c];
    - the driver of the R2EC microcontroller,
      [src/6.1/package/kernel/r2ec/src/r2ec.c] and [io.h];
    - the partition parser for FIT images,
      [src/6.10/target/linux/mediatek/files-6.10/block/partitions/fit.c];
    - drivers of single devices: the DRAM scaling of the RK3328 and the random
      number generator of Rockchip SoCs
      ([drivers/devfreq/rk3328_dmc.c] and [drivers/char/hw_random/rockchip-rng.c]
      under [src/5.4/target/linux/rockchip/files/]), the PHYs QCA807x
      ([src/5.4/target/linux/ipq40xx/files/drivers/net/phy/qca807x.c], without
      the changes of the repository's kernel patches) and MT7988
      ([src/6.10/target/linux/mediatek/files-6.10/drivers/net/phy/mediatek-2p5ge.c]),
      and the U-Boot environment
      [src/6.18/package/kernel/ubootenv-nvram/src/ubootenv-nvram.c].

    ** Conventions

    A C integer is a [Z]; where its width matters the wrap-around is written
    out ([u8], [u16], [u32], [s32] below), and shifts and masks are those of
    [Z].  A function that changes a device or a structure and may fail is a
    state transformer [M W A] of [CMonad]: it returns a result and the state,
    also when it fails, because what was done before the failing call stays
    done.  [Err (- EINVAL)] is the kernel's [-EINVAL].  [EFAULT] stands for an
    access outside an array where the models check for it; the only code that
    returns that number itself is [fit.c].  Code outside the repository (the GPIO, MDIO,
    flash and timer calls of the kernel) is a section variable or a class.

    ** The switch drivers

    They are layers, and so is the model:

    - [SmiWire]: the lowest one, [rtl8366_smi.c] lines 30 to 260: two GPIO
      lines toggled under a lock.  The state has the level and direction of
      both lines and the history of what the other end saw; the other end is
      an arbitrary function of that history.  Its theorems say that the two
      register transactions produce the bits of the SMI protocol on every
      path, release the lines and the lock, deliver command, address and data
      to a device that acknowledges, return the word a device shifts out, and
      give up on an absent device after a fixed number of polls.
    - [Regs]: registers.  [RegBus] is the interface the chip drivers use:
      reading and writing a register.  [smi_bus] implements it by the wire or
      by the MDIO sequence ([__rtl8366_mdio_read_reg] and its counterpart);
      [SwitchHw] states what a driver relies on of the silicon: registers
      that hold what is written, and tables behind windows.
    - [SmiCore]: the core on top, everything in [rtl8366_smi.c] on VLANs,
      PVIDs, reset and start-up and the swconfig handlers, over the class
      [SmiOps] ([struct rtl8366_smi_ops]).
    - [SmiSpec]: the specification.  [vstate] is the switch as a set of
      tables; [ideal_ops] act on it; [VlanImpl] is the contract of a chip
      driver: each of its operations simulates the ideal one.  [impl_refines]
      (in [SmiProps]) then gives that every sequence of requests to the core
      on such a chip simulates the same sequence on the tables.
    - [SmiVlan], [SmiImpl] and [SmiProps]: what the core does to the tables
      and the properties of the core for every chip that keeps the contract:
      PVIDs and port lists read back, the cache of member configurations
      agrees with the 4K table in every reachable state, a PVID is refused
      exactly when no entry of that cache holds its VID, none is empty and all
      are in use, and after start-up every port is alone with the CPU port.
    - [SmiText]: the rest of [rtl8366_smi.c]: the handlers that print into the
      buffer of [struct rtl8366_smi] (counters of a port, a VLAN, the debugfs
      files), the PHY bus and the probe by the device tree.  [SmiTextProps]
      proves how long the table of all counters gets, that it does not fit
      the buffer on the RTL8367 and RTL8367B, and that it does otherwise.
    - [TableChip] and [Table67]: the contract, proved once for each of the two
      register layouts there are; [Rtl8366sImpl], [Rtl8366rbImpl] and
      [Rtl8367Impl] show that the drivers' operations are the operations of a
      layout and that the layout's laws hold, and so give the instances of
      [VlanImpl].
    - [Rtl8366s], [Rtl8366rb], [Rtl8367] and [Rtl8367b], with [Smi67] for what
      the last two share: the chip drivers, register map, tables of initial
      values, set-up, PHY access, counters, attributes.  The [...Props] files
      hold their theorems: the refinement at the level of registers, the
      registers after start-up, counter values, rate limits, length limits and
      LEDs that read back, the PHY windows, the bounded reset, the family D
      PVIDs, and the CPU port of a successful set-up.

    ** The older switch drivers

    They talk to an MDIO bus, the class [MiiBus] of [Mdio].  [EFAULT] also
    stands for a [BUG_ON], for the use of a freed structure and for an index
    outside an array here.

    [Psb6970] is [psb6970.c]: a configuration in memory ([psb6970_priv]),
    requests that change it, and [psb6970_hw_apply], which writes it out.
    [Psb6970Props] has the invariant of the configuration over every sequence
    of requests and the register contents after applying it.

    [Rtl8306] is [rtl8306.c]: the table [rtl_regs] says in which page, PHY,
    register and bits a setting lies, and [rtl_get] and [rtl_set] go through
    it.  [Rtl8306Regs] says what is relied on of the chip ([Rtl8306Hw]) and
    proves what one access does; [Rtl8306Props] that the settings are
    independent variables, that set-up isolates the ports, and that port
    lists read back.

    [Adm6996] is [adm6996.c], over the registers ([AdmIo]), which are reached
    through MDIO or three GPIO lines ([Gpio]); its header [adm6996.h] is not in
    the repository and is the class [AdmRegs].  [AdmWire] is about the lines:
    the bits a device samples at the edges of the clock, and what the driver
    makes of those it answers.  [AdmProps] says what is relied on of the header
    and of the registers ([AdmRegsOk], [AdmSwitch]) and proves that the
    registers follow the configuration over every sequence of requests, that
    the ports of a VLAN read back, and which model is detected.

    ** The AN8855

    The driver of the switch is written against two frameworks of the kernel:
    a register map (the class [Regmap] of [Regmap], which also has the
    kernel's bit-field macros and their algebra) and DSA, whose answers about
    ports are a record ([dsa_switch]).  The bottom and the top meet in the
    middle:

    - [An8855Mfd]: what is below the register map.  The 32-bit registers are
      behind a window of 16-bit registers in page 4 of an MDIO address that a
      PHY has as well; the driver keeps the page it selected and the PHY bus
      puts page 0 back.  [An8855MfdProps] says what is relied on of the chip
      ([PbusHw], over any registers [Core]) and proves that register and PHY
      accesses, interleaved in any way, are accesses to the registers.
    - [An8855Regs], [An8855], [An8855Setup] and [An8855Link]: the switch
      driver, the operations of its DSA, phylink and PCS tables, over any
      register map.  Uninitialised variables the code may read are parameters
      ([stack]).  [An8855Phy] is the driver of the PHYs.
    - [An8855Hw]: what the switch driver relies on of the switch, as a class
      of register maps: registers that keep what is written, the commands on
      the VLAN table and on the addresses; and the rules to run its code.
      [An8855Stack] discharges the class for the register map of [An8855Mfd],
      so the theorems hold down to the MDIO frames, and has the chip on which
      the examples run.
    - [An8855VlanProps], [An8855BridgeProps] and [An8855FdbProps]: the
      handlers implement tables (of VLANs and PVIDs; of who may forward to
      whom; of the ports of each address) for every sequence of requests.  The
      tables record what the code does, its mistakes included: a removal moves
      a VLAN to FID 0, a port that leaves a bridge is open to all but its
      mates.  [An8855DumpProps] has the listing of addresses, over a search of
      the switch ([AddressSearch]); [An8855SetupProps] the state after set-up;
      [An8855Props] the register of a link, ageing times and frame lengths.

    ** The RoboSwitches

    The registers of these switches have a page, a number and one of five
    widths, and there are three ways to them; the main driver uses the class
    [B53Io].  [B53Io] (the file) has the class and its three implementations:
    a pseudo PHY on an MDIO bus, a bridge that is shared with the switch's
    processor, and memory.  [B53IoProps] says what is relied on of each
    ([RoboPhy], [SrabHw], [MmioMemory]) over any registers [RoboCore];
    [B53Access] proves that every sequence of accesses is that sequence on the
    registers, errors included, and that a way that works keeps the promise
    [B53IoOk] to the main driver.  The MDIO bus may fail any access, which the
    driver does not notice of a read: the theorem says what is left of the
    value and of the sequence then.

    [B53] is [b53_common.c], with the probes of the front ends.  Its headers
    [b53_regs.h] and [b53_priv.h] are not in the repository: the numbers of the
    first are the class [B53Regs], the macros and inline functions of the
    second the class [B53Priv].  [B53Hw] has what is relied on of them
    ([B53RegsOk], [B53PrivOk]) and of the switch ([RoboSwitch]: the registers by
    what they are for, whatever their numbers, and the VLAN table behind its
    commands), and the rules to run the driver.  [B53Props] proves that the
    requests keep the configuration well formed, that applying it puts
    that configuration into the registers and the table, for all three
    families of switches (entry 0 of the older two aside, which the driver
    does not clear), and that port lists read back; [B53Counters] that
    the printed counters fit their buffer.  [B53Demo] has one numbering of the
    registers and a switch behind a pseudo PHY, on which the theorems run.

    ** Bad blocks

    [Bmt] is [mtk_bmt_v2.c] over the class [Flash]; [bmtd] is the
    [struct bmt_desc] as far as that file uses it.  [BmtMap] has the invariant of
    the map and remapping, [BmtScan] the three ways the first scan can end and
    which blocks decide it, [BmtProps] the life of the
    map over sequences of calls and when two blocks come to share a third, what
    a later attach finds of a table that was written ([FlashOk]: what is held
    and read back), garbage collection and the size of the buffer, and ends
    with a flash of twelve blocks on which all of it is instantiated.

    ** Buttons

    [Buttons] is the whole driver; what the outside does at the moment a
    handler runs is an argument ([moment]).  [ButtonsProps] proves debouncing
    against a specification that looks at the whole history of samples, what
    becomes of the edges of a button with an interrupt (a transition system of
    edges, work and time), that messages parse back, and what a successful
    probe yields.  An event for which there is no memory is lost for good, and
    the theorems say what user space is told then.

    ** LEDs, R2EC and FIT

    [Leds] is the trigger with its attached LEDs, over what the switch
    answers at the moment of a poll (the [port_link] of [SmiCore], which the
    chip drivers' [..._sw_get_port_link] return).  [LedsProps] makes it a
    transition system, in which others may set the LEDs, too, and proves what
    holds in all its states, what a poll makes of every LED, and the words of
    the mode file.

    [R2ec] is the driver over an arbitrary I2C bus; what an unset byte of a
    buffer holds is a parameter.  [R2ecProps] proves what the checksum
    detects, how reads retry and what they accept, how a probe ends, and the
    text of the version files.

    [Fit] is the parser over an interface to device trees.  [FitProps] proves
    that its partitions are those of the loaded images, where they lie, and
    when a remaining partition follows them.

    ** Single devices

    Each of these drivers is modelled over a class that holds the calls it
    makes into the kernel, with its theorems after it or in files of their own; the
    state is the driver's structure beside the state of the outside.

    [Rk3328Dmc] is [rk3328_dmc.c] over a clock, a regulator, a table of
    operating points and the firmware ([DmcKernel]).  The page shared with the
    firmware is a list of words whose fields are found by name
    ([timing_layout]).  [Rk3328DmcProps] proves that the timings of the device
    tree arrive there; [Rk3328VoltProps] says what is relied on of the
    regulator, the clock and the table, and proves that the voltage carries
    the clock at every moment of every sequence of requests.

    [Phylib] is the kernel's PHY device as far as the PHY drivers use it.
    [Qca807x] is [qca807x.c] over the accesses to a PHY ([PhyLib]);
    [Qca807xProps] has the status of the combo port on a bus any of whose
    accesses may fail ([QcaBus]), the diagnosis of a cable
    test, downshift, GPIO lines and interrupts.  [Mt2p5ge] is
    [mediatek-2p5ge.c]; its theorems say which words of a firmware reach the
    PHY's memory, by the length of the firmware.

    [RockchipRng] is [rockchip-rng.c] over its registers, clocks and power
    management; its theorems prove that a read ends balanced, with the
    generator stopped, within the words of its request.

    [UbootEnv] is [ubootenv-nvram.c]: one static structure, shared by the
    probe, the removal and the files that are open.  Its theorems prove
    that it implements a file of fixed size that outlives the device.

    ** Loops, fuel and bounds

    Loops with a counter are [for_each], [collect], [loop_until], [loop_while]
    and [loop_acc] of [CMonad] or structural fixpoints on the count, so they
    end by construction and no fuel can run out.  The polling loops recurse on
    the number of polls the code allows (6 for an acknowledge, 10 for a reset
    of any of the switches or a command of a RoboSwitch, 5 for the PHY window
    and for an access to a RoboSwitch, 20 for its bridge, 10 for a transfer or a start-up of the R2EC); the
    walk over the loadables of a FIT gets the length of the list, enough by
    [find_loadable_names]; the searches of the bad block table recurse on the distance to the bound
    they test, and [find_valid_block_first] and [upload_bmt]'s lemmas show
    that the fuel given covers every run.  The listing of the AN8855's
    addresses gets 2048 turns, the number of records at which it stops by
    itself: every turn counts four.  The poll of the random number generator
    recurses on the reads left until its timeout, which the outside decides
    ([poll_left]); copying a firmware gets one turn more than the
    firmware has bytes, and each turn copies four.  The loop over the ports of
    a RoboSwitch ([b53_for_each_port], a macro of a missing header) gets 17
    turns: the ports are the bits of a [u16] and every turn passes one
    ([runs_each_port]).  The button system has no loop of
    its own: what eventually happens is stated over its steps.

    ** Not modelled

    What registering a driver, a device, a GPIO or an MII bus does inside the
    kernel, console messages, and the copying of a buffer to user space.
    The other C code of the repository is listed
    with the reason in the manifest: drivers whose headers are not in the
    repository ([edma_ethtool.c]), glue and register tables of
    vendors ([pinctrl-mt7988.c], [rtl8367s_mdio.c], rtl8261n), and vendored
    projects (U-Boot, igc).

    This file holds what all parts share: integers at their width, error
    numbers, arrays, folds, and bit lemmas with their hint databases; [Text]
    has what they share on strings. *)

From Stdlib Require Export ZArith Lia.
From stdpp Require Export base numbers list gmap strings.

#[global] Open Scope Z_scope.
Set Default Proof Using "Type".

(** ** Machine integers

    A [w]-bit unsigned C integer is a [Z]; assigning to one wraps. *)

Definition uwrap (w x : Z) : Z := x mod 2 ^ w.
Definition u8 : Z -> Z := uwrap 8.
Definition u16 : Z -> Z := uwrap 16.
Definition u32 : Z -> Z := uwrap 32.
Definition u64 : Z -> Z := uwrap 64.

(** The value of an [int] that receives [x] (two's complement, 32 bits). *)
Definition s32 (x : Z) : Z :=
  let y := u32 x in if y <? 2 ^ 31 then y else y - 2 ^ 32.

(** C truth values: [!!x] is [cbool x]. *)
Definition cbool (x : Z) : bool := negb (x =? 0).
Definition b2z (b : bool) : Z := if b then 1 else 0.

(** The kernel's [BIT(n)]. *)
Definition BIT (n : Z) : Z := Z.shiftl 1 n.

(** ** Error numbers (the values of [asm-generic/errno.h]) *)

Definition ENOENT : Z := 2.
Definition EIO : Z := 5.
Definition ENXIO : Z := 6.
Definition ENOMEM : Z := 12.
Definition EBUSY : Z := 16.
Definition ENODEV : Z := 19.
Definition EINVAL : Z := 22.
Definition ENOSPC : Z := 28.
Definition EBADE : Z := 52.
Definition ENODATA : Z := 61.
Definition EFAULT : Z := 14.
Definition ETIMEDOUT : Z := 110.

(** ** Arrays *)

(** A C array held as a list, indexed by an [int] within its bounds. *)
Definition geti {A} (d : A) (l : list A) (i : Z) : A := nth (Z.to_nat i) l d.
Definition seti {A} (l : list A) (i : Z) (x : A) : list A := <[Z.to_nat i := x]> l.

Definition in_array {A} (l : list A) (i : Z) : bool := (0 <=? i) && (i <? Z.of_nat (length l)).

Lemma seti_length {A} (l : list A) i x : length (seti l i x) = length l.
Proof. apply length_insert. Qed.

Lemma geti_seti {A} (d : A) l i j x :
  0 <= i -> 0 <= j < Z.of_nat (length l) ->
  geti d (seti l j x) i = if i =? j then x else geti d l i.
Proof.
  intros Hi Hj. unfold geti, seti. rewrite !nth_lookup. destruct (Z.eqb_spec i j) as [-> | Hne].
  - rewrite list_lookup_insert_eq by lia. reflexivity.
  - rewrite list_lookup_insert_ne by lia. reflexivity.
Qed.

(** Lists of the same length are equal when their entries are. *)
Lemma geti_ext {A} (d : A) l1 l2 n :
  Z.of_nat (length l1) = n -> Z.of_nat (length l2) = n ->
  (forall i, 0 <= i < n -> geti d l1 i = geti d l2 i) -> l1 = l2.
Proof.
  intros H1 H2 H. apply nth_ext with (d := d) (d' := d); [lia |].
  intros k Hk. specialize (H (Z.of_nat k) ltac:(lia)). unfold geti in H.
  rewrite Nat2Z.id in H. exact H.
Qed.

Lemma seti_same {A} (d : A) l i : 0 <= i < Z.of_nat (length l) -> seti l i (geti d l i) = l.
Proof.
  intros Hi. eapply geti_ext; [apply f_equal, seti_length | reflexivity |].
  intros j Hj. rewrite geti_seti by lia. destruct (Z.eqb_spec j i) as [-> |]; reflexivity.
Qed.

(** ** Lemmas on wrapping *)

Lemma uwrap_range w x : 0 <= w -> 0 <= uwrap w x < 2 ^ w.
Proof. intros. unfold uwrap. apply Z.mod_pos_bound. lia. Qed.

Lemma uwrap_small w x : 0 <= x < 2 ^ w -> uwrap w x = x.
Proof. apply Z.mod_small. Qed.

Lemma u8_range x : 0 <= u8 x < 256.
Proof. apply (uwrap_range 8); lia. Qed.
Lemma u16_range x : 0 <= u16 x < 65536.
Proof. apply (uwrap_range 16); lia. Qed.
Lemma u32_range x : 0 <= u32 x < 4294967296.
Proof. apply (uwrap_range 32); lia. Qed.

Lemma u8_small x : 0 <= x < 256 -> u8 x = x.
Proof. apply (uwrap_small 8). Qed.
Lemma u16_small x : 0 <= x < 65536 -> u16 x = x.
Proof. apply (uwrap_small 16). Qed.
Lemma u32_small x : 0 <= x < 4294967296 -> u32 x = x.
Proof. apply (uwrap_small 32). Qed.

Lemma s32_small x : 0 <= x < 2 ^ 31 -> s32 x = x.
Proof.
  intros H. unfold s32. rewrite u32_small by lia. destruct (Z.ltb_spec x (2 ^ 31)); lia.
Qed.

Lemma s32_range x : - 2 ^ 31 <= s32 x < 2 ^ 31.
Proof. unfold s32. pose proof (u32_range x). destruct (Z.ltb_spec (u32 x) (2 ^ 31)); lia. Qed.

Lemma uwrap_idemp w x : 0 <= w -> uwrap w (uwrap w x) = uwrap w x.
Proof. intros. apply uwrap_small, uwrap_range. lia. Qed.

Lemma testbit_uwrap w x i :
  0 <= w -> Z.testbit (uwrap w x) i = (i <? w) && Z.testbit x i.
Proof.
  intros Hw. unfold uwrap. destruct (Z.ltb_spec i w); simpl.
  - apply Z.mod_pow2_bits_low; lia.
  - apply Z.mod_pow2_bits_high; lia.
Qed.

(** ** Bit fields *)

(** A nonnegative number below [2 ^ n] has no bit at or above [n]. *)
Lemma testbit_high x n i : 0 <= x < 2 ^ n -> n <= i -> Z.testbit x i = false.
Proof.
  intros [H0 H1] Hi. destruct (Z.eq_dec x 0) as [-> | Hx]; [apply Z.testbit_0_l |].
  apply Z.bits_above_log2; [lia |].
  apply Z.lt_le_trans with n; [| lia]. apply Z.log2_lt_pow2; lia.
Qed.

Lemma BIT_pow n : 0 <= n -> BIT n = 2 ^ n.
Proof. intros. unfold BIT. rewrite Z.shiftl_1_l. reflexivity. Qed.

Lemma BIT_range n w : 0 <= n < w -> 0 <= BIT n < 2 ^ w.
Proof. intros. rewrite BIT_pow by lia. split; [lia | apply Z.pow_lt_mono_r; lia]. Qed.

Lemma testbit_BIT n i : 0 <= n -> Z.testbit (BIT n) i = (n =? i).
Proof. intros. rewrite BIT_pow by lia. apply Z.pow2_bits_eqb. lia. Qed.

Lemma land_ones_mask x n : 0 <= n -> Z.land x (Z.ones n) = x mod 2 ^ n.
Proof. apply Z.land_ones. Qed.

Lemma testbit_ones n i :
  0 <= n -> Z.testbit (Z.ones n) i = (0 <=? i) && (i <? n).
Proof. apply Z.testbit_ones. Qed.

Create Rewrite HintDb cbits.
#[export] Hint Rewrite Z.lor_spec Z.land_spec Z.lxor_spec Z.ldiff_spec
  Z.testbit_0_l : cbits.
#[export] Hint Rewrite Z.shiftl_spec Z.shiftr_spec Z.lnot_spec testbit_ones
  testbit_uwrap testbit_BIT using lia : cbits.

(** Decide an equation between bit-field expressions bit by bit: push
    [Z.testbit] to the leaves, then split on the position of the bit until
    every leaf is known to be below, inside or above its field. *)
Ltac bit_known :=
  match goal with
  | |- context [Z.testbit (Z.shiftr _ _) _] => rewrite Z.shiftr_spec by lia
  | |- context [Z.testbit (Z.shiftl _ _) _] => rewrite Z.shiftl_spec by lia
  | |- context [Z.testbit (Z.lnot _) _] => rewrite Z.lnot_spec by lia
  | |- context [Z.testbit (uwrap _ _) _] => rewrite testbit_uwrap by lia
  | |- context [Z.testbit (Z.land _ _) _] => rewrite Z.land_spec
  | |- context [Z.testbit (Z.ones _) _] => rewrite testbit_ones by lia
  | |- context [Z.testbit ?x ?i] => rewrite (Z.testbit_neg_r x i) by lia
  | H : 0 <= ?x < 2 ^ ?n |- context [Z.testbit ?x ?i] =>
      rewrite (testbit_high x n i H) by lia
  | |- context [?a <? ?b] => destruct (Z.ltb_spec a b); try lia; cbn [andb orb negb]
  | |- context [?a <=? ?b] => destruct (Z.leb_spec a b); try lia; cbn [andb orb negb]
  | |- context [?a =? ?b] => destruct (Z.eqb_spec a b); try lia; cbn [andb orb negb]
  end.

Ltac bit_split :=
  match goal with
  | |- context [Z.testbit _ (?i - ?n)] =>
      tryif (assert (0 <= i - n) by lia) then fail else destruct (Z.lt_ge_cases i n)
  | H : 0 <= ?x < 2 ^ ?n |- context [Z.testbit ?x ?i] =>
      tryif (assert (i < n) by lia) then fail else destruct (Z.lt_ge_cases i n)
  end.

Ltac bit_simpl :=
  rewrite ?Bool.andb_true_r, ?Bool.andb_false_r, ?Bool.orb_false_r, ?Bool.orb_true_r,
    ?Bool.andb_true_l, ?Bool.andb_false_l, ?Bool.orb_false_l, ?Bool.orb_true_l;
  cbn [andb orb negb].

Ltac bit_solve :=
  apply Z.bits_inj'; intros ?i ?Hi; autorewrite with cbits;
  repeat first [bit_known | bit_split]; bit_simpl;
  try reflexivity; try (f_equal; lia).

(** Reading back the field a read-modify-write stored. *)
Lemma field_rmw_same t s n v :
  0 <= s -> 0 <= n -> 0 <= v < 2 ^ n ->
  Z.land (Z.shiftr (Z.lor (Z.land t (Z.lnot (Z.shiftl (Z.ones n) s)))
                          (Z.shiftl v s)) s) (Z.ones n) = v.
Proof. intros Hs Hn Hv. bit_solve. Qed.

(** A disjoint field is not disturbed by a read-modify-write. *)
Lemma field_rmw_other t s n v s' n' :
  0 <= s -> 0 <= n -> 0 <= s' -> 0 <= n' -> 0 <= v < 2 ^ n ->
  s + n <= s' \/ s' + n' <= s ->
  Z.land (Z.shiftr (Z.lor (Z.land t (Z.lnot (Z.shiftl (Z.ones n) s)))
                          (Z.shiftl v s)) s') (Z.ones n')
  = Z.land (Z.shiftr t s') (Z.ones n').
Proof. intros Hs Hn Hs' Hn' Hv Hd. bit_solve. Qed.

(** The same through the 16-bit register that stores the result. *)
Lemma field_u16 x s n :
  0 <= s -> 0 <= n -> s + n <= 16 ->
  Z.land (Z.shiftr (u16 x) s) (Z.ones n) = Z.land (Z.shiftr x s) (Z.ones n).
Proof. intros Hs Hn Hsn. unfold u16. bit_solve. Qed.

(** [a | b << n] is [a + b * 2^n] when [a] fits below bit [n]. *)
Lemma lor_shiftl_add a b n :
  0 <= n -> 0 <= a < 2 ^ n -> Z.lor a (Z.shiftl b n) = a + b * 2 ^ n.
Proof.
  intros Hn Ha. rewrite <- Z.shiftl_mul_pow2 by lia.
  assert (Hd : Z.land a (Z.shiftl b n) = 0) by bit_solve.
  rewrite <- Z.lxor_lor by exact Hd. symmetry. apply Z.add_nocarry_lxor, Hd.
Qed.

Lemma lor_range a b n :
  0 <= n -> 0 <= a < 2 ^ n -> 0 <= b < 2 ^ n -> 0 <= Z.lor a b < 2 ^ n.
Proof.
  intros Hn Ha Hb. assert (Z.lor a b = uwrap n (Z.lor a b)) as ->.
  { bit_solve. }
  apply uwrap_range, Hn.
Qed.

Lemma land_range a m n : 0 <= n -> 0 <= m < 2 ^ n -> 0 <= Z.land a m < 2 ^ n.
Proof.
  intros Hn Hm. assert (Z.land a m = uwrap n (Z.land a m)) as ->.
  { bit_solve. }
  apply uwrap_range, Hn.
Qed.

Lemma land_mask_range x n : 0 <= n -> 0 <= Z.land x (Z.ones n) <= Z.ones n.
Proof. intros Hn. rewrite Z.land_ones, Z.ones_equiv by exact Hn. pose proof (Z.mod_pos_bound x (2 ^ n)). lia. Qed.

Lemma lor_small a b n : 0 <= n -> 0 <= a < 2 ^ n -> 0 <= b < 2 ^ n -> 0 <= Z.lor a b < 2 ^ n.
Proof.
  intros Hn Ha Hb. replace (Z.lor a b) with (uwrap n (Z.lor a b)) by bit_solve. apply uwrap_range, Hn.
Qed.

(** [x & BIT(n)] as a truth value. *)
Lemma cbool_land_BIT x n : 0 <= n -> cbool (Z.land x (BIT n)) = Z.testbit x n.
Proof.
  intros Hn. unfold cbool. destruct (Z.testbit x n) eqn:Hb.
  - apply negb_true_iff, Z.eqb_neq. intros H0. apply (f_equal (fun y => Z.testbit y n)) in H0.
    rewrite Z.land_spec, testbit_BIT, Hb, Z.eqb_refl, Z.testbit_0_l in H0 by lia. discriminate.
  - apply negb_false_iff, Z.eqb_eq. apply Z.bits_inj'. intros k Hk.
    rewrite Z.land_spec, testbit_BIT, Z.testbit_0_l by lia.
    destruct (Z.eqb_spec n k) as [<- |]; [rewrite Hb; reflexivity | apply andb_false_r].
Qed.

(** ** Arrays given by a function *)

Definition tabulate {A} (n : Z) (f : Z -> A) : list A := map (fun k => f (Z.of_nat k)) (seq 0 (Z.to_nat n)).

Lemma tabulate_length {A} n (f : Z -> A) : 0 <= n -> Z.of_nat (length (tabulate n f)) = n.
Proof. intros. unfold tabulate. rewrite length_map, length_seq. lia. Qed.

Lemma geti_tabulate {A} (d : A) n f i : 0 <= i < n -> geti d (tabulate n f) i = f i.
Proof.
  intros Hi. unfold geti, tabulate. rewrite nth_lookup, list_lookup_fmap.
  rewrite lookup_seq_lt by lia. cbn. f_equal. lia.
Qed.

Lemma tabulate_snoc {A} n (f : Z -> A) : 0 <= n -> tabulate (n + 1) f = tabulate n f ++ [f n].
Proof.
  intros Hn. unfold tabulate. replace (Z.to_nat (n + 1)) with (S (Z.to_nat n)) by lia.
  rewrite seq_S, map_app. cbn [map]. do 3 f_equal. lia.
Qed.

(** ** Checking all numbers below a bound *)

Definition upto (n : nat) : list Z := map Z.of_nat (seq 0 n).

Lemma in_upto n x : 0 <= x < Z.of_nat n -> In x (upto n).
Proof.
  intros Hx. unfold upto. apply in_map_iff. exists (Z.to_nat x). rewrite in_seq. split; lia.
Qed.

Lemma forallb_upto n (P : Z -> bool) : forallb P (upto n) = true -> forall x, 0 <= x < Z.of_nat n -> P x = true.
Proof. intros H x Hx. apply (proj1 (forallb_forall _ _) H), in_upto, Hx. Qed.

(** ** Folds *)

Section Folds.
Context {A X : Type} (f : A -> X -> A).

Lemma fold_left_cons x l a : fold_left f (x :: l) a = fold_left f l (f a x).
Proof. reflexivity. Qed.
Lemma fold_left_snoc l x a : fold_left f (l ++ [x]) a = f (fold_left f l a) x.
Proof. apply fold_left_app. Qed.

Lemma fold_left_inv (P : A -> Prop) l a : (forall a x, P a -> P (f a x)) -> P a -> P (fold_left f l a).
Proof. intros Hf. revert a. induction l as [| x l IH]; intros a Ha; [exact Ha |]. apply IH, Hf, Ha. Qed.

(** A fold that keeps two states of [P] apart. *)
Lemma fold_left_inj (P : A -> Prop) (Q : X -> Prop) l a b :
  (forall a x, P a -> Q x -> P (f a x)) ->
  (forall a b x, P a -> P b -> Q x -> f a x = f b x -> a = b) ->
  Forall Q l -> P a -> P b -> fold_left f l a = fold_left f l b -> a = b.
Proof.
  intros HP Hinj Hl. revert a b. induction Hl as [| x l Hx Hl IH]; intros a b Ha Hb H; [exact H |].
  cbn [fold_left] in H. apply IH in H; eauto.
Qed.
End Folds.
