(* ===== verification/Text.v ===== *)
(** * Text

    What the drivers do with strings: decimal numbers as [printf] makes them,
    NUL-terminated strings packed in a buffer, and the lemmas on appending,
    length and splitting their theorems share. *)

From S2P Require Import Prelude.

(** What [%llu] makes of a number: twenty digits hold any of 64 bits. *)
Definition digit (n : Z) : string := String (Ascii.ascii_of_nat (48 + Z.to_nat n)) EmptyString.
Fixpoint digits (fuel : nat) (n : Z) : string :=
  match fuel with
  | O => EmptyString
  | S fuel' => if n <? 10 then digit n else digits fuel' (n / 10) +:+ digit (n mod 10)
  end.
Definition decimal (n : Z) : string := if n <? 0 then "-" +:+ digits 20 (- n) else digits 20 n.

(** What [%x] makes of one; [fuel] digits at most. *)
Definition hex_digit (n : Z) : string :=
  String (Ascii.ascii_of_nat (if n <? 10 then 48 + Z.to_nat n else 87 + Z.to_nat n)) EmptyString.
Fixpoint hex_digits (fuel : nat) (n : Z) : string :=
  match fuel with
  | O => EmptyString
  | S fuel' => if n <? 16 then hex_digit n else hex_digits fuel' (n / 16) +:+ hex_digit (n mod 16)
  end.

(** [%ns], [%-ns], and [%0nx]. *)
Fixpoint repeat_char (c : Ascii.ascii) (n : nat) : string :=
  match n with O => EmptyString | S n' => String c (repeat_char c n') end.
Definition pad_left (n : nat) (s : string) : string :=
  repeat_char (Ascii.ascii_of_nat 32) (n - String.length s) +:+ s.
Definition pad_right (n : nat) (s : string) : string :=
  s +:+ repeat_char (Ascii.ascii_of_nat 32) (n - String.length s).
Definition hex_padded (n : nat) (x : Z) : string :=
  let s := hex_digits 16 x in repeat_char (Ascii.ascii_of_nat 48) (n - String.length s) +:+ s.

Definition newline : string := String (Ascii.ascii_of_nat 10) EmptyString.

Definition NUL : string := String (Ascii.ascii_of_nat 0) EmptyString.

(** ** Appending *)

(** The strings of a buffer, each ended by a NUL. *)
Fixpoint split_nul (s : string) : list string :=
  match s with
  | EmptyString => []
  | String c s' =>
      if Ascii.eqb c (Ascii.ascii_of_nat 0) then EmptyString :: split_nul s'
      else match split_nul s' with x :: l => String c x :: l | [] => [String c EmptyString] end
  end.

Fixpoint no_nul (s : string) : bool :=
  match s with
  | EmptyString => true
  | String c s' => negb (Ascii.eqb c (Ascii.ascii_of_nat 0)) && no_nul s'
  end.

Fixpoint packed (l : list string) : string :=
  match l with [] => EmptyString | x :: l' => x +:+ NUL +:+ packed l' end.

Lemma append_cons c (a b : string) : String c a +:+ b = String c (a +:+ b).
Proof. reflexivity. Qed.
Lemma append_nil (b : string) : EmptyString +:+ b = b.
Proof. reflexivity. Qed.

Lemma app_assoc_s (a b c : string) : (a +:+ b) +:+ c = a +:+ (b +:+ c).
Proof. induction a as [| x a IH]; [reflexivity |]. rewrite !append_cons, IH. reflexivity. Qed.

Lemma app_empty_r (a : string) : a +:+ EmptyString = a.
Proof. induction a as [| x a IH]; [reflexivity |]. rewrite append_cons, IH. reflexivity. Qed.

Lemma length_app_s a b : String.length (a +:+ b) = (String.length a + String.length b)%nat.
Proof. induction a as [| x a IH]; [reflexivity |]. rewrite append_cons. cbn [String.length]. rewrite IH. reflexivity. Qed.

Lemma no_nul_app a b : no_nul (a +:+ b) = no_nul a && no_nul b.
Proof.
  induction a as [| x a IH]; [reflexivity |]. rewrite append_cons. cbn [no_nul]. rewrite IH. apply Bool.andb_assoc.
Qed.

Lemma split_packed l : forallb no_nul l = true -> split_nul (packed l) = l.
Proof.
  induction l as [| x l IH]; [reflexivity |]. cbn [forallb packed]. intros H. apply andb_prop in H. destruct H as [Hx Hl].
  induction x as [| c x IHx].
  - rewrite append_nil. cbn [NUL]. unfold NUL. rewrite append_cons, append_nil. cbn [split_nul].
    rewrite IH by exact Hl. reflexivity.
  - cbn [no_nul] in Hx. apply andb_prop in Hx. destruct Hx as [Hc Hx]. apply Bool.negb_true_iff in Hc.
    rewrite append_cons. cbn [split_nul]. rewrite Hc, IHx by exact Hx. reflexivity.
Qed.

Lemma packed_app l x : packed l +:+ (x +:+ NUL) = packed (l ++ [x]).
Proof.
  induction l as [| y l IH]; cbn [packed app]; [rewrite app_empty_r; reflexivity |].
  rewrite !app_assoc_s. do 2 f_equal. exact IH.
Qed.

Lemma packed_length l : (forall x, In x l -> (String.length x < 128)%nat) ->
  (String.length (packed l) <= 128 * length l)%nat.
Proof.
  induction l as [| x l IH]; intros H; [cbn; lia |]. cbn [packed length]. rewrite !length_app_s.
  pose proof (H x (or_introl eq_refl)). specialize (IH (fun y Hy => H y (or_intror Hy))).
  change (String.length NUL) with 1%nat. lia.
Qed.

Lemma substring_all n s : (String.length s <= n)%nat -> String.substring 0 n s = s.
Proof.
  revert n. induction s as [| c s IH]; intros [| n] Hn; cbn [String.length] in Hn; try reflexivity; [lia |].
  cbn [String.substring]. f_equal. apply IH. lia.
Qed.

Lemma length_substring n s : (String.length (String.substring 0 n s) <= n)%nat.
Proof.
  revert n. induction s as [| c s IH]; intros [| n]; cbn [String.substring String.length]; try lia.
  specialize (IH n). lia.
Qed.

(** ** Numbers *)

Lemma digit_char n : 0 <= n < 10 -> no_nul (digit n) = true.
Proof.
  revert n. apply (forallb_upto 10 (fun n => no_nul (digit n))). reflexivity.
Qed.

Lemma digits_ok f n : 0 <= n -> (String.length (digits f n) <= f)%nat /\ no_nul (digits f n) = true.
Proof.
  revert n. induction f as [| f IH]; intros n Hn; cbn [digits]; [split; [cbn; lia | reflexivity] |].
  destruct (Z.ltb_spec n 10) as [Hlt | Hge].
  - split; [cbn; lia | apply digit_char; lia].
  - destruct (IH (n / 10)) as [H1 H2]; [apply Z.div_pos; lia |]. rewrite length_app_s, no_nul_app, H2, digit_char
      by (apply Z.mod_pos_bound; lia). cbn [String.length digit]. split; [lia | reflexivity].
Qed.

Lemma decimal_ok n : (String.length (decimal n) <= 21)%nat /\ no_nul (decimal n) = true.
Proof.
  unfold decimal. destruct (Z.ltb_spec n 0).
  - destruct (digits_ok 20 (- n)) as [H1 H2]; [lia |]. rewrite length_app_s, no_nul_app, H2. cbn [String.length].
    split; [lia | reflexivity].
  - destruct (digits_ok 20 n) as [H1 H2]; [lia |]. split; [lia | exact H2].
Qed.

(** Reading a number back. *)
Fixpoint undecimal (acc : Z) (s : string) : Z :=
  match s with
  | EmptyString => acc
  | String c s' => undecimal (10 * acc + (Z.of_nat (Ascii.nat_of_ascii c) - 48)) s'
  end.

Lemma undecimal_app acc a b : undecimal acc (a +:+ b) = undecimal (undecimal acc a) b.
Proof. revert acc. induction a as [| c a IH]; intros acc; [reflexivity |]. rewrite append_cons. apply IH. Qed.

Lemma undecimal_digit acc n : 0 <= n < 10 -> undecimal acc (digit n) = 10 * acc + n.
Proof.
  intros Hn. unfold digit. cbn [undecimal]. rewrite Ascii.nat_ascii_embedding by lia. lia.
Qed.

Lemma undecimal_digits f n : 0 <= n < 10 ^ Z.of_nat f -> undecimal 0 (digits f n) = n.
Proof.
  revert n. induction f as [| f IH]; intros n Hn; [cbn in *; lia |]. cbn [digits].
  destruct (Z.ltb_spec n 10) as [Hlt | Hge]; [rewrite undecimal_digit by lia; lia |].
  rewrite Nat2Z.inj_succ, Z.pow_succ_r in Hn by lia.
  rewrite undecimal_app, IH by (split; [apply Z.div_pos; lia | apply Z.div_lt_upper_bound; lia]).
  rewrite undecimal_digit by (apply Z.mod_pos_bound; lia). pose proof (Z.div_mod n 10). lia.
Qed.

(** The decimal numbers in a text. *)
Definition is_digit (c : Ascii.ascii) : bool :=
  let n := Z.of_nat (Ascii.nat_of_ascii c) in (48 <=? n) && (n <=? 57).

Fixpoint numbers (cur : option Z) (s : string) : list Z :=
  match s with
  | EmptyString => match cur with Some n => [n] | None => [] end
  | String c s' =>
      if is_digit c then
        numbers (Some (10 * match cur with Some n => n | None => 0 end + (Z.of_nat (Ascii.nat_of_ascii c) - 48))) s'
      else match cur with Some n => n :: numbers None s' | None => numbers None s' end
  end.

Fixpoint all_digits (s : string) : bool :=
  match s with EmptyString => true | String c s' => is_digit c && all_digits s' end.

Lemma numbers_digits n t s :
  all_digits t = true -> numbers (Some n) (t +:+ s) = numbers (Some (undecimal n t)) s.
Proof.
  revert n. induction t as [| c t IH]; intros n Ht; [reflexivity |]. cbn [all_digits] in Ht. apply andb_prop in Ht.
  destruct Ht as [Hc Ht]. rewrite append_cons. cbn [numbers undecimal]. rewrite Hc. apply IH, Ht.
Qed.

(** A number, followed by something that is no digit. *)
Lemma numbers_field t c s :
  all_digits t = true -> t <> EmptyString -> is_digit c = false ->
  numbers None (t +:+ String c s) = undecimal 0 t :: numbers None s.
Proof.
  destruct t as [| x t]; [contradiction |]. cbn [all_digits]. intros Ht _ Hc. apply andb_prop in Ht.
  destruct Ht as [Hx Ht]. rewrite append_cons. cbn [numbers]. rewrite Hx, numbers_digits by exact Ht.
  cbn [numbers undecimal]. rewrite Hc. reflexivity.
Qed.

(** ** Widths *)

Lemma length_repeat_char c n : String.length (repeat_char c n) = n.
Proof. induction n as [| n IH]; [reflexivity |]. cbn [repeat_char String.length]. rewrite IH. reflexivity. Qed.

Lemma length_pad_left n s : String.length (pad_left n s) = Nat.max n (String.length s).
Proof. unfold pad_left. rewrite length_app_s, length_repeat_char. lia. Qed.

Lemma length_pad_right n s : String.length (pad_right n s) = Nat.max n (String.length s).
Proof. unfold pad_right. rewrite length_app_s, length_repeat_char. lia. Qed.

Lemma length_digit n : String.length (digit n) = 1%nat.
Proof. reflexivity. Qed.

(** A number below [10 ^ k] has at most [k] digits. *)
Lemma length_digits k f n : (0 < k)%nat -> 0 <= n < 10 ^ Z.of_nat k -> (String.length (digits f n) <= k)%nat.
Proof.
  revert k n. induction f as [| f IH]; intros k n Hk Hn; cbn [digits]; [cbn; lia |].
  destruct (Z.ltb_spec n 10) as [| Hge]; [rewrite length_digit; lia |].
  destruct k as [| k]; [lia |]. rewrite Nat2Z.inj_succ, Z.pow_succ_r in Hn by lia.
  assert (0 < k)%nat by (destruct k; [cbn in Hn; lia | lia]).
  rewrite length_app_s, length_digit. pose proof (IH k (n / 10) ltac:(assumption)
    ltac:(split; [apply Z.div_pos; lia | apply Z.div_lt_upper_bound; lia])). lia.
Qed.
