(* ===== verification/CMonad.v ===== *)
(** * Drivers as state transformers with a kernel error code

    A kernel function that returns [0] or [-errno] and changes the state it
    is handed (device, driver structure) is a function [M W A]: it maps the
    state to a result and a state, also when it fails, because what was done
    before the failing call stays done.  This file holds the monad, the loop
    shapes the drivers use, a weakest-precondition predicate with its rules,
    and refinement between two such programs. *)

From S2P Require Import Prelude.

Inductive res (A : Type) : Type :=
| Ok (a : A)
| Err (e : Z).
Arguments Ok {A} a.
Arguments Err {A} e.

Definition M (W A : Type) : Type := W -> res A * W.

Declare Scope c_scope.
Delimit Scope c_scope with c.

Section Operations.
Context {W : Type}.

Definition ret {A} (a : A) : M W A := fun w => (Ok a, w).
(** [return -e;] *)
Definition fail {A} (e : Z) : M W A := fun w => (Err (- e), w).
Definition bind {A B} (m : M W A) (k : A -> M W B) : M W B := fun w =>
  match m w with
  | (Ok a, w') => k a w'
  | (Err e, w') => (Err e, w')
  end.
Definition get_state : M W W := fun w => (Ok w, w).
Definition put_state (w : W) : M W unit := fun _ => (Ok tt, w).
Definition modify (f : W -> W) : M W unit := fun w => (Ok tt, f w).

(** A call whose error is not looked at, the out-parameter keeping the
    value [d] it had. *)
Definition unchecked {A} (d : A) (m : M W A) : M W A := fun w =>
  match m w with
  | (Ok a, w') => (Ok a, w')
  | (Err _, w') => (Ok d, w')
  end.

(** [err = m; if (err) ...]: the error as a value. *)
Definition catch {A} (m : M W A) : M W (res A) := fun w =>
  let (r, w') := m w in (Ok r, w').

(** [for (k = 0; k < n; k++)] from index [i], leaving early with
    [Some a] ([break] or [return]). *)
Fixpoint loop_until {A} (n : nat) (i : Z) (body : Z -> M W (option A)) : M W (option A) :=
  match n with
  | O => ret None
  | S n' =>
      bind (body i) (fun r =>
        match r with
        | Some a => ret (Some a)
        | None => loop_until n' (i + 1) body
        end)
  end.

(** The same loop carrying a local variable [s]: [inl s] goes round again,
    [inr a] is [break] or [return]. *)
Fixpoint loop_while {X A} (n : nat) (i : Z) (s : X) (body : Z -> X -> M W (X + A)) : M W (X + A) :=
  match n with
  | O => ret (inl s)
  | S n' =>
      bind (body i s) (fun r =>
        match r with
        | inl s' => loop_while n' (i + 1) s' body
        | inr a => ret (inr a)
        end)
  end.

(** The same loop with an accumulator and no early exit but the error. *)
Fixpoint loop_acc {A} (n : nat) (i : Z) (acc : A) (body : Z -> A -> M W A) : M W A :=
  match n with
  | O => ret acc
  | S n' => bind (body i acc) (fun acc' => loop_acc n' (i + 1) acc' body)
  end.

Definition search {A} (n : Z) (body : Z -> M W (option A)) : M W (option A) :=
  loop_until (Z.to_nat n) 0 body.
Definition for_each (n : Z) (body : Z -> M W unit) : M W unit :=
  loop_acc (Z.to_nat n) 0 tt (fun i _ => body i).
(** [for (i = 0; i < n; i++) data[i] = body(i);] *)
Definition collect {A} (n : Z) (body : Z -> M W A) : M W (list A) :=
  loop_acc (Z.to_nat n) 0 [] (fun i acc => bind (body i) (fun a => ret (acc ++ [a]))).
End Operations.

Notation "x <- m ;; k" := (bind m (fun x => k))
  (at level 20, m at level 99, k at level 200, right associativity) : c_scope.
Notation "' p <- m ;; k" := (bind m (fun x => let p := x in k))
  (at level 20, p pattern, m at level 99, k at level 200, right associativity) : c_scope.
Notation "m ;; k" := (bind m (fun _ => k))
  (at level 100, k at level 200, right associativity) : c_scope.
#[global] Open Scope c_scope.

(** ** Weakest precondition

    [wp m Q E w]: run from [w], [m] returns [a] with [Q a] of the final
    state, or an error [e] with [E e] of it. *)
Definition wp {W A} (m : M W A) (Q : A -> W -> Prop) (E : Z -> W -> Prop) (w : W) : Prop :=
  match m w with
  | (Ok a, w') => Q a w'
  | (Err e, w') => E e w'
  end.

Definition never {W} : Z -> W -> Prop := fun _ _ => False.

Section Wp.
Context {W : Type}.
Implicit Types (w : W) (E : Z -> W -> Prop).

Lemma wp_ret {A} (a : A) Q E w : Q a w -> wp (ret a) Q E w.
Proof. exact (fun H => H). Qed.

Lemma wp_fail {A} e (Q : A -> W -> Prop) E w : E (- e) w -> wp (fail e) Q E w.
Proof. exact (fun H => H). Qed.

Lemma wp_modify f (Q : unit -> W -> Prop) E w : Q tt (f w) -> wp (modify f) Q E w.
Proof. exact (fun H => H). Qed.

Lemma wp_get_state (Q : W -> W -> Prop) E w : Q w w -> wp get_state Q E w.
Proof. exact (fun H => H). Qed.

Lemma wp_bind {A B} (m : M W A) (k : A -> M W B) Q E w :
  wp m (fun a => wp (k a) Q E) E w -> wp (bind m k) Q E w.
Proof. unfold wp, bind. destruct (m w) as [[a | e] w']; auto. Qed.

Lemma wp_mono {A} (m : M W A) (Q Q' : A -> W -> Prop) E E' w :
  wp m Q E w -> (forall a w', Q a w' -> Q' a w') -> (forall e w', E e w' -> E' e w') ->
  wp m Q' E' w.
Proof. unfold wp. destruct (m w) as [[a | e] w']; auto. Qed.

Lemma wp_never {A} (m : M W A) Q w :
  wp m Q never w -> exists a w', m w = (Ok a, w') /\ Q a w'.
Proof. unfold wp, never. destruct (m w) as [[a | e] w']; [eauto | contradiction]. Qed.

(** A program that cannot fail, where errors are allowed. *)
Lemma wp_no_error {A} (m : M W A) Q E w : wp m Q never w -> wp m Q E w.
Proof. intros H. eapply wp_mono; [exact H | auto | intros ? ? []]. Qed.

Lemma wp_eq_ok {A} (m : M W A) Q E w a w' :
  m w = (Ok a, w') -> wp m Q E w <-> Q a w'.
Proof. unfold wp. intros ->. reflexivity. Qed.

Lemma wp_unchecked {A} d (m : M W A) Q E w :
  wp m Q (fun _ => Q d) w -> wp (unchecked d m) Q E w.
Proof. unfold wp, unchecked. destruct (m w) as [[a | e] w']; auto. Qed.

Lemma wp_catch {A} (m : M W A) Q E w :
  wp m (fun a => Q (Ok a)) (fun e => Q (Err e)) w -> wp (catch m) Q E w.
Proof. unfold wp, catch. destruct (m w) as [[a | e] w']; auto. Qed.

(** Loop rules: an invariant indexed by the loop counter. *)
Lemma wp_loop_acc {A} (I : Z -> A -> W -> Prop) E (body : Z -> A -> M W A) Q n i acc w :
  I i acc w ->
  (forall j acc w, i <= j < i + Z.of_nat n -> I j acc w ->
     wp (body j acc) (I (j + 1)) E w) ->
  (forall acc w, I (i + Z.of_nat n) acc w -> Q acc w) ->
  wp (loop_acc n i acc body) Q E w.
Proof.
  revert i acc w. induction n as [|n IH]; intros i acc w HI Hstep Hend; cbn [loop_acc].
  - apply wp_ret, Hend. rewrite Z.add_0_r. exact HI.
  - apply wp_bind. eapply wp_mono; [apply Hstep; [lia | exact HI] | | auto].
    intros acc' w' HI'. apply IH; [exact HI' | |].
    + intros j a v Hj. apply Hstep. lia.
    + intros a v Hv. apply Hend. replace (i + Z.of_nat (S n)) with (i + 1 + Z.of_nat n) by lia.
      exact Hv.
Qed.

Lemma wp_loop_while {X A} (I : Z -> X -> W -> Prop) E (body : Z -> X -> M W (X + A)) Q n i s w :
  I i s w ->
  (forall j s w, i <= j < i + Z.of_nat n -> I j s w ->
     wp (body j s)
        (fun r w' => match r with inl s' => I (j + 1) s' w' | inr a => Q (inr a) w' end) E w) ->
  (forall s w, I (i + Z.of_nat n) s w -> Q (inl s) w) ->
  wp (loop_while n i s body) Q E w.
Proof.
  revert i s w. induction n as [|n IH]; intros i s w HI Hstep Hend; cbn [loop_while].
  - apply wp_ret, Hend. rewrite Z.add_0_r. exact HI.
  - apply wp_bind. eapply wp_mono; [apply Hstep; [lia | exact HI] | | auto].
    intros [s' | a] w' HI'; [| apply wp_ret, HI']. apply IH; [exact HI' | |].
    + intros j a v Hj. apply Hstep. lia.
    + intros a v Hv. apply Hend. replace (i + Z.of_nat (S n)) with (i + 1 + Z.of_nat n) by lia.
      exact Hv.
Qed.

Lemma wp_loop_until {A} (I : Z -> W -> Prop) E (body : Z -> M W (option A)) Q n i w :
  I i w ->
  (forall j w, i <= j < i + Z.of_nat n -> I j w ->
     wp (body j) (fun r w' => match r with Some a => Q (Some a) w' | None => I (j + 1) w' end)
        E w) ->
  (forall w, I (i + Z.of_nat n) w -> Q None w) ->
  wp (loop_until n i body) Q E w.
Proof.
  revert i w. induction n as [|n IH]; intros i w HI Hstep Hend; cbn [loop_until].
  - apply wp_ret, Hend. rewrite Z.add_0_r. exact HI.
  - apply wp_bind. eapply wp_mono; [apply Hstep; [lia | exact HI] | | auto].
    intros [a |] w' HI'; [apply wp_ret, HI' |]. apply IH; [exact HI' | |].
    + intros j v Hj. apply Hstep. lia.
    + intros v Hv. apply Hend. replace (i + Z.of_nat (S n)) with (i + 1 + Z.of_nat n) by lia.
      exact Hv.
Qed.
End Wp.

(** Running a sequence. *)
Lemma bind_ok {W A B} (m : M W A) (k : A -> M W B) w a w' :
  m w = (Ok a, w') -> bind m k w = k a w'.
Proof. unfold bind. intros ->. reflexivity. Qed.

Lemma bind_err {W A B} (m : M W A) (k : A -> M W B) w e w' :
  m w = (Err e, w') -> bind m k w = (Err e, w').
Proof. unfold bind. intros ->. reflexivity. Qed.

(** A loop that lists the indices [f] accepts. *)
Lemma loop_acc_filter {V A} (f : Z -> bool) (g : Z -> A) (body : Z -> list A -> M V (list A)) n i l (w : V) :
  (forall j l, i <= j -> body j l w = (Ok (if f j then l ++ [g j] else l), w)) ->
  loop_acc n i l body w = (Ok (l ++ map g (List.filter f (map (fun k => i + Z.of_nat k) (seq 0 n)))), w).
Proof.
  revert i l. induction n as [| n IH]; intros i l Hb; cbn [loop_acc seq map List.filter]; [rewrite app_nil_r; reflexivity |].
  unfold bind. rewrite Hb by lia. rewrite IH by (intros; apply Hb; lia). rewrite <- seq_shift, map_map. rewrite Z.add_0_r.
  rewrite (map_ext (fun k => i + 1 + Z.of_nat k) (fun k => i + Z.of_nat (S k))) by (intros; lia).
  destruct (f i); cbn [map]; rewrite <- ?app_assoc; reflexivity.
Qed.

Create HintDb wp discriminated.
#[export] Hint Resolve wp_ret wp_fail : wp.

(** One symbolic step of a program under [wp]. *)
Ltac wp_step :=
  lazymatch goal with
  | |- wp (bind _ _) _ _ _ => apply wp_bind
  | |- wp (ret _) _ _ _ => apply wp_ret
  | |- wp (fail _) _ _ _ => apply wp_fail
  | |- wp (modify _) _ _ _ => apply wp_modify
  | |- wp (unchecked _ _) _ _ _ => apply wp_unchecked
  | |- wp (catch _) _ _ _ => apply wp_catch
  | |- wp (if ?b then _ else _) _ _ _ => destruct b eqn:?
  | |- wp (match ?r with Some _ => _ | None => _ end) _ _ _ => destruct r eqn:?
  end.

(** Use the specification [H] of the call at the head of the program. *)
Ltac wp_use H :=
  eapply wp_mono; [apply H | cbv beta | try (intros ? ? []); auto].

(** ** Simulation

    [sim R P m s]: from related states [m] and [s] return the same result,
    in related states, and a returned value satisfies [P].  [s] is the
    specification, usually the same program over an abstract state. *)
Section Sim.
Context {W V : Type} (R : W -> V -> Prop).

Definition sim {A} (P : A -> Prop) (m : M W A) (s : M V A) : Prop := forall w a,
  R w a ->
  fst (m w) = fst (s a) /\ R (snd (m w)) (snd (s a)) /\
  match fst (m w) with Ok x => P x | Err _ => True end.

Lemma sim_ret {A} (P : A -> Prop) x : P x -> sim P (ret x) (ret x).
Proof. intros HP w a HR. auto. Qed.

Lemma sim_fail {A} (P : A -> Prop) e : sim P (fail e) (fail e).
Proof. intros w a HR. simpl. auto. Qed.

Lemma sim_mono {A} (P Q : A -> Prop) m s :
  sim P m s -> (forall x, P x -> Q x) -> sim Q m s.
Proof.
  intros H HPQ w a HR. destruct (H w a HR) as (H1 & H2 & H3). split; [exact H1 |].
  split; [exact H2 |]. destruct (fst (m w)); auto.
Qed.

Lemma sim_bind {A B} (P : A -> Prop) (Q : B -> Prop) m s k t :
  sim P m s -> (forall x, P x -> sim Q (k x) (t x)) -> sim Q (bind m k) (bind s t).
Proof.
  intros Hm Hk w a HR. destruct (Hm w a HR) as (H1 & H2 & H3). unfold bind.
  destruct (m w) as [[x | e] w'], (s a) as [[y | e'] a']; simpl in *; try discriminate.
  - injection H1 as <-. apply Hk; assumption.
  - injection H1 as <-. auto.
Qed.

Lemma sim_unchecked {A} (P : A -> Prop) d m s :
  P d -> sim P m s -> sim P (unchecked d m) (unchecked d s).
Proof.
  intros Hd Hm w a HR. destruct (Hm w a HR) as (H1 & H2 & H3). unfold unchecked.
  destruct (m w) as [[x | e] w'], (s a) as [[y | e'] a']; simpl in *; try discriminate.
  - injection H1 as <-. auto.
  - auto.
Qed.

Lemma sim_loop_until {A} (Q : option A -> Prop) n i body body' :
  Q None ->
  (forall j, i <= j < i + Z.of_nat n ->
     sim (fun r => match r with Some _ => Q r | None => True end) (body j) (body' j)) ->
  sim Q (loop_until n i body) (loop_until n i body').
Proof.
  intros HQ. revert i. induction n as [|n IH]; intros i Hb; cbn [loop_until].
  - apply sim_ret, HQ.
  - eapply sim_bind; [apply Hb; lia |]. intros [x |] Hx; [apply sim_ret, Hx |].
    apply IH. intros j Hj. apply Hb. lia.
Qed.

Lemma sim_loop_while {X A} (I : X -> Prop) (Q : A -> Prop) n i x body body' :
  I x ->
  (forall j y, i <= j < i + Z.of_nat n -> I y ->
     sim (fun r => match r with inl y' => I y' | inr z => Q z end) (body j y) (body' j y)) ->
  sim (fun r => match r with inl y' => I y' | inr z => Q z end)
      (loop_while n i x body) (loop_while n i x body').
Proof.
  revert i x. induction n as [|n IH]; intros i x Hx Hb; cbn [loop_while].
  - apply sim_ret, Hx.
  - eapply sim_bind; [apply Hb; [lia | exact Hx] |]. intros [y | z] Hy; [| apply sim_ret, Hy].
    apply IH; [exact Hy |]. intros j y' Hj. apply Hb. lia.
Qed.

Lemma sim_loop_acc {X} (I : X -> Prop) n i x body body' :
  I x ->
  (forall j y, i <= j < i + Z.of_nat n -> I y -> sim I (body j y) (body' j y)) ->
  sim I (loop_acc n i x body) (loop_acc n i x body').
Proof.
  revert i x. induction n as [|n IH]; intros i x Hx Hb; cbn [loop_acc].
  - apply sim_ret, Hx.
  - eapply sim_bind; [apply Hb; [lia | exact Hx] |]. intros y Hy. apply IH; [exact Hy |].
    intros j z Hj. apply Hb. lia.
Qed.

(** From a specification of the concrete program. *)
Lemma sim_of_wp {A} (P : A -> Prop) (m : M W A) (s : M V A) :
  (forall w a, R w a ->
     wp m (fun x w' => fst (s a) = Ok x /\ R w' (snd (s a)) /\ P x)
          (fun e w' => fst (s a) = Err e /\ R w' (snd (s a))) w) ->
  sim P m s.
Proof.
  intros H w a HR. specialize (H w a HR). unfold wp in H.
  destruct (m w) as [[x | e] w']; simpl; [destruct H as (-> & H2 & H3) | destruct H as (-> & H2)]; auto.
Qed.

(** A program that agrees with [m'] where the relation holds. *)
Lemma sim_agree {A} (P : A -> Prop) m m' s :
  (forall w a, R w a -> m w = m' w) -> sim P m' s -> sim P m s.
Proof. intros He H w a HR. rewrite (He w a HR). apply H, HR. Qed.

(** The same for results that need not be equal: they are related by [P]. *)
Definition sim2 {A} (P : A -> A -> Prop) (m : M W A) (s : M V A) : Prop := forall w a,
  R w a ->
  match m w, s a with
  | (Ok x, w'), (Ok y, a') => P x y /\ R w' a'
  | (Err e, w'), (Err e', a') => e = e' /\ R w' a'
  | _, _ => False
  end.

Lemma sim2_of_sim {A} (P : A -> Prop) m s : sim P m s -> sim2 (fun x y => x = y /\ P x) m s.
Proof.
  intros H w a HR. destruct (H w a HR) as (H1 & H2 & H3).
  destruct (m w) as [[x | e] w'], (s a) as [[y | e'] a']; simpl in *; try discriminate; injection H1 as <-; auto.
Qed.

Lemma sim2_agree {A} (P : A -> A -> Prop) m m' s :
  (forall w a, R w a -> m w = m' w) -> sim2 P m' s -> sim2 P m s.
Proof. intros He H w a HR. rewrite (He w a HR). apply H, HR. Qed.

Lemma sim2_ret {A} (P : A -> A -> Prop) x y : P x y -> sim2 P (ret x) (ret y).
Proof. intros HP w a HR. split; assumption. Qed.

Lemma sim2_bind {A B} (P : A -> A -> Prop) (Q : B -> Prop) m s k t :
  sim2 P m s -> (forall x y, P x y -> sim Q (k x) (t y)) -> sim Q (bind m k) (bind s t).
Proof.
  intros Hm Hk w a HR. specialize (Hm w a HR). unfold bind.
  destruct (m w) as [[x | e] w'], (s a) as [[y | e'] a']; try contradiction; destruct Hm as [H1 H2].
  - apply Hk; assumption.
  - subst. simpl. auto.
Qed.

Lemma sim2_bind2 {A B} (P : A -> A -> Prop) (Q : B -> B -> Prop) m s k t :
  sim2 P m s -> (forall x y, P x y -> sim2 Q (k x) (t y)) -> sim2 Q (bind m k) (bind s t).
Proof.
  intros Hm Hk w a HR. specialize (Hm w a HR). unfold bind.
  destruct (m w) as [[x | e] w'], (s a) as [[y | e'] a']; try contradiction; destruct Hm as [H1 H2].
  - apply Hk; assumption.
  - auto.
Qed.

Lemma sim2_if {A} (P : A -> A -> Prop) (b : bool) m m' s s' :
  (b = true -> sim2 P m s) -> (b = false -> sim2 P m' s') ->
  sim2 P (if b then m else m') (if b then s else s').
Proof. destruct b; auto. Qed.

Lemma sim2_loop_while {X A} (I : X -> X -> Prop) (Q : A -> A -> Prop) n i x y body body' :
  let rel r r' := match r, r' with inl z, inl z' => I z z' | inr q, inr q' => Q q q' | _, _ => False end in
  I x y ->
  (forall j z z', i <= j < i + Z.of_nat n -> I z z' -> sim2 rel (body j z) (body' j z')) ->
  sim2 rel (loop_while n i x body) (loop_while n i y body').
Proof.
  intros rel. revert i x y. induction n as [|n IH]; intros i x y Hx Hb; cbn [loop_while].
  - apply sim2_ret, Hx.
  - eapply sim2_bind2; [apply Hb; [lia | exact Hx] |].
    intros [z | q] [z' | q'] H; try contradiction; [| apply sim2_ret, H].
    apply IH; [exact H |]. intros j u u' Hj. apply Hb. lia.
Qed.

Lemma sim_if {A} (P : A -> Prop) (b : bool) m m' s s' :
  (b = true -> sim P m s) -> (b = false -> sim P m' s') ->
  sim P (if b then m else m') (if b then s else s').
Proof. destruct b; auto. Qed.
End Sim.

(** The obvious postcondition. *)
Definition anything {A} : A -> Prop := fun _ => True.

(** ** Sequences of requests *)

Fixpoint run_all {Q W A} (do_ : Q -> M W A) (qs : list Q) : M W (list A) :=
  match qs with
  | [] => ret []
  | q :: qs' => a <- do_ q ;; l <- run_all do_ qs' ;; ret (a :: l)
  end.

Lemma run_all_sim {Q W V A} (R : W -> V -> Prop) (ok : Q -> Prop) (impl : Q -> M W A) (spec : Q -> M V A) qs :
  (forall q, ok q -> sim R anything (impl q) (spec q)) -> Forall ok qs -> sim R anything (run_all impl qs) (run_all spec qs).
Proof.
  intros H. induction 1 as [| q qs Hq _ IH]; cbn [run_all]; [apply sim_ret; exact I |].
  eapply sim_bind; [apply H, Hq |]. intros a _. eapply sim_bind; [exact IH |]. intros l _. apply sim_ret. exact I.
Qed.

Lemma run_all_total {Q W A} (do_ : Q -> M W A) : (forall q w, exists a w', do_ q w = (Ok a, w')) ->
  forall qs w, exists l w', run_all do_ qs w = (Ok l, w').
Proof.
  intros H. induction qs as [| q qs IH]; intros w; cbn [run_all]; [eexists _, _; reflexivity |]. unfold bind.
  destruct (H q w) as (a & w1 & ->). destruct (IH w1) as (l & w2 & ->). eexists _, _. reflexivity.
Qed.

(** Requests that are served like those of a specification that always
    answers are served, all of them, with its answers. *)
Lemma run_all_refines {Q W V A} (R : W -> V -> Prop) (ok : Q -> Prop) (impl : Q -> M W A) (spec : Q -> M V A) qs w v :
  (forall q, ok q -> sim R anything (impl q) (spec q)) -> (forall q v, exists a v', spec q v = (Ok a, v')) ->
  R w v -> Forall ok qs ->
  exists answers w' v', run_all impl qs w = (Ok answers, w') /\ run_all spec qs v = (Ok answers, v') /\ R w' v'.
Proof.
  intros Hs Ht HR Hq. destruct (run_all_sim R ok impl spec qs Hs Hq w v HR) as (H1 & H2 & _).
  destruct (run_all_total spec Ht qs v) as (l & v' & E). rewrite E in H1, H2. destruct (run_all impl qs w) as [r w'].
  cbn [fst snd] in *. subst r. exists l, w', v'. auto.
Qed.

(** ** State invariants

    [preserves P m]: [m] keeps [P] whatever its result, errors included. *)
Definition preserves {W A} (P : W -> Prop) (m : M W A) : Prop := forall w, P w -> P (snd (m w)).

Section Preserves.
Context {W : Type} (P : W -> Prop).

Lemma preserves_ret {A} (x : A) : preserves P (ret x).
Proof. intros w H. exact H. Qed.
Lemma preserves_fail {A} e : preserves P (@fail _ A e).
Proof. intros w H. exact H. Qed.
Lemma preserves_err {A} e : preserves P (fun w => (@Err A e, w)).
Proof. intros w H. exact H. Qed.
Lemma preserves_bind {A B} (m : M W A) (k : A -> M W B) :
  preserves P m -> (forall x, preserves P (k x)) -> preserves P (bind m k).
Proof.
  intros Hm Hk w H. specialize (Hm w H). unfold bind. destruct (m w) as [[x | e] w'].
  - apply Hk, Hm.
  - exact Hm.
Qed.
Lemma preserves_catch {A} (m : M W A) : preserves P m -> preserves P (catch m).
Proof. intros Hm w H. specialize (Hm w H). unfold catch. destruct (m w). exact Hm. Qed.
Lemma preserves_unchecked {A} (d : A) (m : M W A) : preserves P m -> preserves P (unchecked d m).
Proof. intros Hm w H. specialize (Hm w H). unfold unchecked. destruct (m w) as [[x | e] w']; exact Hm. Qed.
Lemma preserves_if {A} (b : bool) (m n : M W A) :
  preserves P m -> preserves P n -> preserves P (if b then m else n).
Proof. destruct b; auto. Qed.
Lemma preserves_until {A} n i (body : Z -> M W (option A)) :
  (forall j, preserves P (body j)) -> preserves P (loop_until n i body).
Proof.
  intros Hb. revert i. induction n as [|n IH]; intros i; cbn [loop_until]; [apply preserves_ret |].
  apply preserves_bind; [apply Hb |]. intros [x |]; [apply preserves_ret | apply IH].
Qed.
Lemma preserves_while {X A} n i x (body : Z -> X -> M W (X + A)) :
  (forall j y, preserves P (body j y)) -> preserves P (loop_while n i x body).
Proof.
  intros Hb. revert i x. induction n as [|n IH]; intros i x; cbn [loop_while]; [apply preserves_ret |].
  apply preserves_bind; [apply Hb |]. intros [y | z]; [apply IH | apply preserves_ret].
Qed.
Lemma preserves_acc {A} n i x (body : Z -> A -> M W A) :
  (forall j y, preserves P (body j y)) -> preserves P (loop_acc n i x body).
Proof.
  intros Hb. revert i x. induction n as [|n IH]; intros i x; cbn [loop_acc]; [apply preserves_ret |].
  apply preserves_bind; [apply Hb | intros y; apply IH].
Qed.

(** An invariant, as a specification: it holds of the state after an error, too. *)
Lemma wp_preserves {A} (m : M W A) w : preserves P m -> P w -> wp m (fun _ => P) (fun _ => P) w.
Proof. intros Hm Hw. specialize (Hm w Hw). unfold wp. destruct (m w) as [[x | e] w']; exact Hm. Qed.

(** Two continuations that agree where [P] holds. *)
Lemma bind_agree {A B} (m : M W A) (k k' : A -> M W B) w :
  preserves P m -> P w -> (forall x v, P v -> k x v = k' x v) -> bind m k w = bind m k' w.
Proof.
  intros Hm Hw Hk. specialize (Hm w Hw). unfold bind. destruct (m w) as [[x | e] v]; [apply Hk, Hm | reflexivity].
Qed.
End Preserves.

(** Walk through a program: the call lemmas are added by the clients. *)
Create HintDb preserves discriminated.
#[export] Hint Resolve preserves_ret preserves_fail preserves_err preserves_catch preserves_unchecked
  preserves_if preserves_until preserves_while preserves_acc : preserves.
#[export] Hint Extern 1 (preserves _ (bind _ _)) => apply preserves_bind : preserves.
#[export] Hint Extern 2 (preserves _ (match ?x with _ => _ end)) => destruct x : preserves.
#[export] Hint Extern 3 => progress intros : preserves.
