(* ===== verification/SmiWire.v ===== *)
(** * The SMI wire: [rtl8366_smi.c] driving two GPIO lines

    The driver talks to the switch by toggling SCK and SDA.  The state is the
    level and direction of the two lines as the [gpiod_*] calls leave them,
    the lock, the elapsed delay and, newest first, what the other end of the
    wire sees at each rising edge of SCK: the level the driver puts on SDA,
    or [None] when the driver has released it.  The other end is a parameter,
    a function from that history to the level it puts on SDA. *)

From S2P Require Import Prelude CMonad.

Definition RTL8366_SMI_ACK_RETRY_COUNT : Z := 5.

Record wire := Wire {
  sck_level : bool;
  sda_level : bool;
  sck_out : bool;            (* SCK is in output mode *)
  sda_out : bool;            (* SDA is in output mode *)
  locked : bool;             (* smi->lock *)
  elapsed : Z;               (* ns spent in ndelay *)
  edges : list (option bool) (* rising SCK edges, newest first *)
}.

(** A rising edge is seen by the other end only while SCK is driven. *)
Definition set_sck (v : bool) (w : wire) : wire :=
  let seen := if sda_out w then Some (sda_level w) else None in
  Wire v (sda_level w) (sck_out w) (sda_out w) (locked w) (elapsed w)
    (if sck_out w && v && negb (sck_level w) then seen :: edges w else edges w).
Definition set_sda (v : bool) (w : wire) : wire :=
  Wire (sck_level w) v (sck_out w) (sda_out w) (locked w) (elapsed w) (edges w).
Definition dir_out_sck (v : bool) (w : wire) : wire :=
  Wire v (sda_level w) true (sda_out w) (locked w) (elapsed w) (edges w).
Definition dir_out_sda (v : bool) (w : wire) : wire :=
  Wire (sck_level w) v (sck_out w) true (locked w) (elapsed w) (edges w).
Definition dir_in_sck (w : wire) : wire :=
  Wire (sck_level w) (sda_level w) false (sda_out w) (locked w) (elapsed w) (edges w).
Definition dir_in_sda (w : wire) : wire :=
  Wire (sck_level w) (sda_level w) (sck_out w) false (locked w) (elapsed w) (edges w).
Definition set_lock (b : bool) (w : wire) : wire :=
  Wire (sck_level w) (sda_level w) (sck_out w) (sda_out w) b (elapsed w) (edges w).
Definition wait_ns (n : Z) (w : wire) : wire :=
  Wire (sck_level w) (sda_level w) (sck_out w) (sda_out w) (locked w) (elapsed w + n) (edges w).

Section Smi.
(** The per-chip parameters of [struct rtl8366_smi] and the other end. *)
Variable clk_delay cmd_read cmd_write : Z.
Variable slave : list (option bool) -> bool.

Definition rtl8366_smi_clk_delay : M wire unit := modify (wait_ns clk_delay).

Definition rtl8366_smi_start : M wire unit :=
  modify (dir_out_sck false) ;;
  modify (dir_out_sda true) ;;
  rtl8366_smi_clk_delay ;;
  modify (set_sck true) ;;
  rtl8366_smi_clk_delay ;;
  modify (set_sck false) ;;
  rtl8366_smi_clk_delay ;;
  modify (set_sck true) ;;
  rtl8366_smi_clk_delay ;;
  modify (set_sda false) ;;
  rtl8366_smi_clk_delay ;;
  modify (set_sck false) ;;
  rtl8366_smi_clk_delay ;;
  modify (set_sda true).

Definition rtl8366_smi_stop : M wire unit :=
  rtl8366_smi_clk_delay ;;
  modify (set_sda false) ;;
  modify (set_sck true) ;;
  rtl8366_smi_clk_delay ;;
  modify (set_sda true) ;;
  rtl8366_smi_clk_delay ;;
  modify (set_sck true) ;;
  rtl8366_smi_clk_delay ;;
  modify (set_sck false) ;;
  rtl8366_smi_clk_delay ;;
  modify (set_sck true) ;;
  rtl8366_smi_clk_delay ;;
  modify (set_sck false) ;;
  rtl8366_smi_clk_delay ;;
  modify (set_sck true) ;;
  modify dir_in_sda ;;
  modify dir_in_sck.

(** [data & (1 << (len - 1))], most significant bit first. *)
Fixpoint rtl8366_smi_write_bits (data : Z) (len : nat) : M wire unit :=
  match len with
  | O => ret tt
  | S len' =>
      rtl8366_smi_clk_delay ;;
      modify (set_sda (Z.testbit data (Z.of_nat len'))) ;;
      rtl8366_smi_clk_delay ;;
      modify (set_sck true) ;;
      rtl8366_smi_clk_delay ;;
      modify (set_sck false) ;;
      rtl8366_smi_write_bits data len'
  end.

(** [gpiod_get_raw_value(sda)]: the line as the other end drives it, or
    the driver's own level in output mode. *)
Definition gpiod_get_sda : M wire bool := fun w =>
  (Ok (if sda_out w then sda_level w else slave (edges w)), w).

Fixpoint read_bits_loop (len : nat) (data : Z) : M wire Z :=
  match len with
  | O => ret data
  | S len' =>
      rtl8366_smi_clk_delay ;;
      modify (set_sck true) ;;
      rtl8366_smi_clk_delay ;;
      u <- gpiod_get_sda ;;
      modify (set_sck false) ;;
      read_bits_loop len' (Z.lor data (Z.shiftl (b2z u) (Z.of_nat len')))
  end.

Definition rtl8366_smi_read_bits (len : nat) : M wire Z :=
  modify dir_in_sda ;;
  data <- read_bits_loop len 0 ;;
  modify (dir_out_sda false) ;;
  ret data.

(** [do ... while (1)] leaves by the ack or after
    [RTL8366_SMI_ACK_RETRY_COUNT + 1] reads: [retries] counts the failed
    reads still allowed. *)
Fixpoint wait_for_ack_loop (retries : nat) : M wire unit :=
  ack <- rtl8366_smi_read_bits 1 ;;
  if ack =? 0 then ret tt
  else match retries with
       | O => fail ETIMEDOUT
       | S r => wait_for_ack_loop r
       end.

Definition rtl8366_smi_wait_for_ack : M wire unit :=
  wait_for_ack_loop (Z.to_nat RTL8366_SMI_ACK_RETRY_COUNT).

Definition rtl8366_smi_write_byte (data : Z) : M wire unit :=
  rtl8366_smi_write_bits (u8 data) 8 ;;
  rtl8366_smi_wait_for_ack.

Definition rtl8366_smi_write_byte_noack (data : Z) : M wire unit :=
  rtl8366_smi_write_bits (u8 data) 8 ;;
  ret tt.

Definition rtl8366_smi_read_byte0 : M wire Z :=
  t <- rtl8366_smi_read_bits 8 ;;
  rtl8366_smi_write_bits 0x00 1 ;;
  ret (Z.land t 0xff).

Definition rtl8366_smi_read_byte1 : M wire Z :=
  t <- rtl8366_smi_read_bits 8 ;;
  rtl8366_smi_write_bits 0x01 1 ;;
  ret (Z.land t 0xff).

(** [goto out]: the stop condition and the unlock run on every path. *)
Definition finally {A} (m : M wire A) (out : M wire unit) : M wire A :=
  r <- catch m ;;
  out ;;
  match r with Ok a => ret a | Err e => fun w => (Err e, w) end.

Definition smi_out : M wire unit :=
  rtl8366_smi_stop ;;
  modify (set_lock false).

Definition __rtl8366_smi_read_reg (addr : Z) : M wire Z :=
  modify (set_lock true) ;;
  rtl8366_smi_start ;;
  finally
    (rtl8366_smi_write_byte cmd_read ;;
     rtl8366_smi_write_byte (Z.land addr 0xff) ;;
     rtl8366_smi_write_byte (Z.shiftr addr 8) ;;
     lo <- rtl8366_smi_read_byte0 ;;
     hi <- rtl8366_smi_read_byte1 ;;
     ret (Z.lor lo (Z.shiftl hi 8)))
    smi_out.

Definition __rtl8366_smi_write_reg (addr data : Z) (ack : bool) : M wire unit :=
  modify (set_lock true) ;;
  rtl8366_smi_start ;;
  finally
    (rtl8366_smi_write_byte cmd_write ;;
     rtl8366_smi_write_byte (Z.land addr 0xff) ;;
     rtl8366_smi_write_byte (Z.shiftr addr 8) ;;
     rtl8366_smi_write_byte (Z.land data 0xff) ;;
     (if ack then rtl8366_smi_write_byte (Z.shiftr data 8)
      else rtl8366_smi_write_byte_noack (Z.shiftr data 8)))
    smi_out.
End Smi.

(** ** What the other end decodes

    A frame, oldest edge first: the two start edges, then bytes most
    significant bit first, each followed by the edges at which the driver
    released SDA to poll for the ack. *)

Fixpoint msb_bits (data : Z) (len : nat) : list (option bool) :=
  match len with
  | O => []
  | S len' => Some (Z.testbit data (Z.of_nat len')) :: msb_bits data len'
  end.

Fixpoint take_bits (n : nat) (es : list (option bool)) (acc : Z) : option (Z * list (option bool)) :=
  match n, es with
  | O, _ => Some (acc, es)
  | S n', Some b :: es' => take_bits n' es' (2 * acc + b2z b)
  | S _, _ => None
  end.

Fixpoint skip_released (es : list (option bool)) : list (option bool) :=
  match es with
  | None :: es' => skip_released es'
  | _ => es
  end.

(** The bytes of a frame after its start edges. *)
Fixpoint take_bytes (n : nat) (es : list (option bool)) : option (list Z) :=
  match n with
  | O => Some []
  | S n' =>
      match take_bits 8 es 0 with
      | Some (b, es') =>
          match take_bytes n' (skip_released es') with
          | Some bs => Some (b :: bs)
          | None => None
          end
      | None => None
      end
  end.

Definition decode_write (es : list (option bool)) : option (Z * Z * Z) :=
  match es with
  | Some true :: Some true :: es' =>
      match take_bytes 5 es' with
      | Some [cmd; alo; ahi; dlo; dhi] => Some (cmd, alo + 256 * ahi, dlo + 256 * dhi)
      | _ => None
      end
  | _ => None
  end.

(** The levels the other end puts on SDA over the next [n] edges. *)
Fixpoint samples (slave : list (option bool) -> bool) (n : nat) (es : list (option bool)) : list bool :=
  match n with
  | O => []
  | S n' => slave (None :: es) :: samples slave n' (None :: es)
  end.

Fixpoint bits_value (bs : list bool) : Z :=
  match bs with
  | [] => 0
  | b :: bs' => b2z b * 2 ^ Z.of_nat (length bs') + bits_value bs'
  end.

Fixpoint released (n : nat) (es : list (option bool)) : list (option bool) :=
  match n with
  | O => es
  | S n' => released n' (None :: es)
  end.

(** ** The transaction protocol, over histories

    What a transaction does seen from the wire alone: no pins, no delays. *)

(** Poll for the ack, [r] more times after a failure. *)
Fixpoint poll (slave : list (option bool) -> bool) (r : nat) (es : list (option bool)) :
    option (list (option bool)) :=
  let es' := None :: es in
  if slave es' then match r with O => None | S r' => poll slave r' es' end else Some es'.

Definition put_byte (b : Z) (es : list (option bool)) : list (option bool) :=
  rev (msb_bits b 8) ++ es.

Definition send_byte (slave : list (option bool) -> bool) (b : Z) (es : list (option bool)) :
    bool * list (option bool) :=
  match poll slave (Z.to_nat RTL8366_SMI_ACK_RETRY_COUNT) (put_byte b es) with
  | Some es' => (true, es')
  | None => (false, released (S (Z.to_nat RTL8366_SMI_ACK_RETRY_COUNT)) (put_byte b es))
  end.

Fixpoint send_bytes (slave : list (option bool) -> bool) (bs : list Z) (es : list (option bool)) :
    bool * list (option bool) :=
  match bs with
  | [] => (true, es)
  | b :: bs' =>
      match send_byte slave b es with
      | (true, es') => send_bytes slave bs' es'
      | (false, es') => (false, es')
      end
  end.

(** The line state between two bytes: SCK driven low, SDA driven. *)
Definition mid_frame (w : wire) : Prop :=
  sck_level w = false /\ sck_out w = true /\ sda_out w = true /\ locked w = true.

(** The line state outside a transaction. *)
Definition idle (w : wire) : Prop :=
  sck_out w = false /\ sda_out w = false /\ locked w = false.

Definition start_edges (es : list (option bool)) : list (option bool) :=
  Some true :: Some true :: es.
Definition stop_edges (es : list (option bool)) : list (option bool) :=
  Some true :: Some true :: Some false :: es.

(** ** Decoding lemmas *)

Lemma take_bits_msb data n rest acc :
  take_bits n (msb_bits data n ++ rest) acc = Some (acc * 2 ^ Z.of_nat n + uwrap (Z.of_nat n) data, rest).
Proof.
  revert acc. induction n as [|n IH]; intros acc; cbn [msb_bits take_bits app].
  - unfold uwrap. rewrite Z.mod_1_r. do 2 f_equal. lia.
  - rewrite IH. do 2 f_equal. rewrite Nat2Z.inj_succ, Z.pow_succ_r by lia.
    assert (Hs : uwrap (Z.succ (Z.of_nat n)) data
                 = b2z (Z.testbit data (Z.of_nat n)) * 2 ^ Z.of_nat n + uwrap (Z.of_nat n) data).
    { unfold uwrap. rewrite Z.pow_succ_r, (Z.mul_comm 2), Z.rem_mul_r by lia.
      pose proof (Z.testbit_spec' data (Z.of_nat n) ltac:(lia)) as Hb.
      destruct (Z.testbit data (Z.of_nat n)); simpl in *; lia. }
    lia.
Qed.

Lemma skip_released_cons b es : skip_released (Some b :: es) = Some b :: es.
Proof. reflexivity. Qed.

(** The bits of a byte, most significant first. *)
Fixpoint byte_bits (b : Z) (len : nat) : list bool :=
  match len with
  | O => []
  | S len' => Z.testbit b (Z.of_nat len') :: byte_bits b len'
  end.

Lemma bits_value_byte_bits b n : bits_value (byte_bits b n) = uwrap (Z.of_nat n) b.
Proof.
  pose proof (take_bits_msb b n [] 0) as H.
  assert (Hgen : forall n acc, take_bits n (msb_bits b n ++ []) acc
            = Some (acc * 2 ^ Z.of_nat n + bits_value (byte_bits b n), [])).
  { clear. induction n as [|n IH]; intros acc; cbn [msb_bits take_bits byte_bits bits_value app].
    - do 2 f_equal. lia.
    - rewrite IH. do 2 f_equal. rewrite Nat2Z.inj_succ, Z.pow_succ_r by lia.
      assert (Hl : length (byte_bits b n) = n) by (clear; induction n; simpl; auto).
      rewrite Hl. lia. }
  rewrite Hgen in H. injection H. lia.
Qed.

Lemma samples_length slave n es : length (samples slave n es) = n.
Proof. revert es. induction n; intros; simpl; [| f_equal]; auto. Qed.

Lemma bits_value_range bs : 0 <= bits_value bs < 2 ^ Z.of_nat (length bs).
Proof.
  induction bs as [|b bs IH]; cbn [bits_value length]; [lia |].
  rewrite Nat2Z.inj_succ, Z.pow_succ_r by lia. destruct b; simpl b2z; lia.
Qed.

Lemma bits_value_one b : (bits_value [b] =? 0) = negb b.
Proof. destruct b; reflexivity. Qed.

(** ** The transfer of one byte *)

Lemma wp_get_sda slave (Q : bool -> wire -> Prop) E w :
  Q (if sda_out w then sda_level w else slave (edges w)) w -> wp (gpiod_get_sda slave) Q E w.
Proof. exact (fun H => H). Qed.

(** Symbolic execution of straight-line pin code on a state given by its
    fields, one pin operation at a time so that the state stays normal. *)
Ltac pin_step :=
  lazymatch goal with
  | |- wp (gpiod_get_sda _) _ _ _ => apply wp_get_sda
  | |- wp _ _ _ _ => wp_step
  end.

Ltac pins := unfold rtl8366_smi_clk_delay;
  repeat (pin_step; cbv beta;
    cbn [set_sck set_sda dir_out_sck dir_out_sda dir_in_sck dir_in_sda set_lock wait_ns
         sck_level sda_level sck_out sda_out locked elapsed edges andb negb]).

Section Transfer.
Variable clk_delay : Z.
Variable slave : list (option bool) -> bool.


Lemma wp_write_bits data len w :
  mid_frame w ->
  wp (rtl8366_smi_write_bits clk_delay data len)
     (fun _ w' => mid_frame w' /\ edges w' = rev (msb_bits data len) ++ edges w) never w.
Proof.
  revert w. induction len as [|len IH]; intros w Hw; cbn [rtl8366_smi_write_bits msb_bits].
  - apply wp_ret. split; [exact Hw | reflexivity].
  - destruct w as [c d co do lk el es]. destruct Hw as (Hc & Hco & Hdo & Hlk). simpl in *. subst.
    pins. eapply wp_mono; [apply IH; repeat split | | intros ? ? []].
    intros [] w' [Hm He]. split; [exact Hm |]. rewrite He. cbn. rewrite <- app_assoc. reflexivity.
Qed.

(** Reading [len] bits samples the other end at each released edge. *)
Lemma wp_read_bits_loop len data w :
  sck_level w = false -> sck_out w = true -> sda_out w = false -> locked w = true ->
  0 <= data ->
  wp (read_bits_loop clk_delay slave len data)
     (fun v w' =>
        v = Z.lor data (bits_value (samples slave len (edges w))) /\
        edges w' = released len (edges w) /\
        sck_level w' = false /\ sck_out w' = true /\ sda_out w' = false /\ locked w' = true)
     never w.
Proof.
  revert data w. induction len as [|len IH]; intros data w Hc Hco Hdo Hlk Hd.
  - apply wp_ret. simpl. rewrite Z.lor_0_r. repeat split; assumption.
  - destruct w as [c d co do lk el es]. simpl in *. subst. pins.
    eapply wp_mono; [apply IH; cbn; auto; apply Z.lor_nonneg; split; [lia |] | | intros ? ? []].
    + apply Z.shiftl_nonneg. destruct (slave _); simpl; lia.
    + cbn. intros v w' (Hv & Hrest). split; [| exact Hrest]. rewrite Hv, <- Z.lor_assoc. f_equal.
      rewrite samples_length. rewrite Z.lor_comm, lor_shiftl_add; [lia | lia |].
      pose proof (bits_value_range (samples slave len (None :: es))) as Hr.
      rewrite samples_length in Hr. exact Hr.
Qed.

Lemma wp_read_bits len w :
  mid_frame w ->
  wp (rtl8366_smi_read_bits clk_delay slave len)
     (fun v w' => v = bits_value (samples slave len (edges w)) /\
                  mid_frame w' /\ edges w' = released len (edges w)) never w.
Proof.
  intros (Hc & Hco & Hdo & Hlk). unfold rtl8366_smi_read_bits.
  apply wp_bind. unfold modify at 1, wp at 1. cbn.
  apply wp_bind. eapply wp_mono; [apply wp_read_bits_loop; cbn; auto; lia | | intros ? ? []].
  cbn. intros v w' (-> & He & Hc' & Hco' & _ & Hlk').
  pins. unfold mid_frame. cbn. rewrite He. repeat split; auto.
Qed.

(** The ack: exactly what [poll] says, for every other end. *)
Lemma wp_wait_for_ack_loop r w :
  mid_frame w ->
  wp (wait_for_ack_loop clk_delay slave r)
     (fun _ w' => mid_frame w' /\ poll slave r (edges w) = Some (edges w'))
     (fun e w' => e = - ETIMEDOUT /\ mid_frame w' /\ poll slave r (edges w) = None /\
                  edges w' = released (S r) (edges w)) w.
Proof.
  revert w. induction r as [|r IH]; intros w Hm; cbn [wait_for_ack_loop]; wp_step;
    (eapply wp_mono; [apply wp_read_bits, Hm | | intros ? ? []]);
    cbv beta; intros v w' (-> & Hm' & He); cbn [samples released poll] in *;
    rewrite bits_value_one; destruct (slave (None :: edges w)); cbn [negb]; try wp_step;
    rewrite <- ?He; auto.
Qed.
End Transfer.

(** ** Whole transactions *)

Definition write_spec (slave : list (option bool) -> bool) (cmd addr data : Z) (ack : bool)
    (es : list (option bool)) : res unit * list (option bool) :=
  let hd := [u8 cmd; u8 (Z.land addr 0xff); u8 (Z.shiftr addr 8); u8 (Z.land data 0xff)] in
  let last := u8 (Z.shiftr data 8) in
  let (ok, h) := send_bytes slave (if ack then hd ++ [last] else hd) (start_edges es) in
  if ok then (Ok tt, stop_edges (if ack then h else put_byte last h))
  else (Err (- ETIMEDOUT), stop_edges h).

Definition read_spec (slave : list (option bool) -> bool) (cmd addr : Z)
    (es : list (option bool)) : res Z * list (option bool) :=
  let (ok, h) := send_bytes slave [u8 cmd; u8 (Z.land addr 0xff); u8 (Z.shiftr addr 8)]
                   (start_edges es) in
  if ok then
    let h1 := Some false :: released 8 h in
    (Ok (bits_value (samples slave 8 h) + 256 * bits_value (samples slave 8 h1)),
     stop_edges (Some true :: released 8 h1))
  else (Err (- ETIMEDOUT), stop_edges h).

Section Transactions.
Variable clk_delay cmd_read cmd_write : Z.
Variable slave : list (option bool) -> bool.


Lemma wp_start w :
  locked w = true ->
  wp (rtl8366_smi_start clk_delay)
     (fun _ w' => mid_frame w' /\ edges w' = start_edges (edges w)) never w.
Proof.
  intros Hl. destruct w; simpl in *; subst. unfold rtl8366_smi_start. pins.
  unfold mid_frame. simpl. auto.
Qed.

Lemma wp_out E w :
  mid_frame w ->
  wp (smi_out clk_delay)
     (fun _ w' => idle w' /\ edges w' = stop_edges (edges w)) E w.
Proof.
  intros (Hc & Hco & Hdo & Hl). destruct w; simpl in *; subst.
  unfold smi_out, rtl8366_smi_stop. pins. unfold idle. simpl. auto.
Qed.

Lemma wp_finally {A} (m : M wire A) out Q E w :
  wp m (fun a w' => wp out (fun _ => Q a) E w')
       (fun e w' => wp out (fun _ => E e) E w') w ->
  wp (finally m out) Q E w.
Proof.
  unfold finally. intros H. do 2 wp_step. eapply wp_mono; [exact H | |]; cbv beta.
  - intros a w' Ho. wp_step. eapply wp_mono; [exact Ho | auto | auto].
  - intros e w' Ho. wp_step. eapply wp_mono; [exact Ho | | auto]. auto.
Qed.

(** One byte of the frame: go on, or leave by [out] when there is no ack. *)
Lemma wp_write_byte b bs w Q E :
  mid_frame w ->
  (forall w', mid_frame w' -> send_bytes slave (u8 b :: bs) (edges w) = send_bytes slave bs (edges w') ->
     Q tt w') ->
  (forall w', mid_frame w' -> send_bytes slave (u8 b :: bs) (edges w) = (false, edges w') ->
     E (- ETIMEDOUT) w') ->
  wp (rtl8366_smi_write_byte clk_delay slave b) Q E w.
Proof.
  intros Hm HQ HE. unfold rtl8366_smi_write_byte. wp_step.
  eapply wp_mono; [apply wp_write_bits, Hm | | intros ? ? []]. cbv beta.
  intros [] w' (Hm' & He). unfold rtl8366_smi_wait_for_ack.
  eapply wp_mono; [apply wp_wait_for_ack_loop, Hm' | |]; cbv beta.
  - intros [] w'' (Hm'' & Hp). apply HQ; [exact Hm'' |].
    cbn [send_bytes]. unfold send_byte, put_byte. cbv zeta. rewrite <- He, Hp. reflexivity.
  - intros e w'' (-> & Hm'' & Hp & He'). apply HE; [exact Hm'' |].
    cbn [send_bytes]. unfold send_byte, put_byte. cbv zeta. rewrite <- He, Hp, He'. reflexivity.
Qed.

Lemma wp_read_byte (nack : bool) w :
  mid_frame w ->
  wp (if nack then rtl8366_smi_read_byte1 clk_delay slave else rtl8366_smi_read_byte0 clk_delay slave)
     (fun v w' => v = bits_value (samples slave 8 (edges w)) /\ mid_frame w' /\
                  edges w' = Some nack :: released 8 (edges w)) never w.
Proof.
  intros Hm. pose proof (bits_value_range (samples slave 8 (edges w))) as Hr.
  rewrite samples_length in Hr. change (2 ^ Z.of_nat 8) with (2 ^ 8) in Hr.
  destruct nack; unfold rtl8366_smi_read_byte0, rtl8366_smi_read_byte1; wp_step;
    (eapply wp_mono; [apply wp_read_bits, Hm | | intros ? ? []]); cbv beta;
    intros v w' (-> & Hm' & He); wp_step;
    (eapply wp_mono; [apply wp_write_bits, Hm' | | intros ? ? []]); cbv beta;
    intros [] w'' (Hm'' & He'); wp_step; rewrite He', He;
    (split; [| split; [exact Hm'' | reflexivity]]);
    change 255 with (Z.ones 8); rewrite Z.land_ones by lia; apply Z.mod_small, Hr.
Qed.

(** The out path of a failed transaction. *)
Lemma wp_out_failed h w :
  mid_frame w -> h = edges w ->
  wp (smi_out clk_delay)
     (fun _ w' => - ETIMEDOUT = - ETIMEDOUT /\ idle w' /\ edges w' = stop_edges h)
     (fun e w' => e = - ETIMEDOUT /\ idle w' /\ edges w' = stop_edges h) w.
Proof. intros Hm ->. eapply wp_mono; [apply (wp_out never), Hm | cbv beta; tauto | intros ? ? []]. Qed.

(** [finally] around the last [smi_out] of a transaction that computed
    [a] and leaves the history [h]. *)
Lemma wp_out_done {A} (a : A) r h w :
  mid_frame w -> r = Ok a -> h = stop_edges (edges w) ->
  wp (smi_out clk_delay) (fun _ w' => Ok a = r /\ idle w' /\ edges w' = h)
     (fun e w' => Err e = r /\ idle w' /\ edges w' = h) w.
Proof. intros Hm -> ->. eapply wp_mono; [apply (wp_out never), Hm | cbv beta; tauto | intros ? ? []]. Qed.

Lemma wp_out_timeout {A} (r : res A) h w :
  mid_frame w -> r = Err (- ETIMEDOUT) -> h = stop_edges (edges w) ->
  wp (smi_out clk_delay) (fun _ w' => Err (- ETIMEDOUT) = r /\ idle w' /\ edges w' = h)
     (fun e w' => Err e = r /\ idle w' /\ edges w' = h) w.
Proof. intros Hm -> ->. eapply wp_mono; [apply (wp_out never), Hm | cbv beta; tauto | intros ? ? []]. Qed.

(** Send the next byte of a frame whose protocol outcome is [Hspec]. *)
Ltac send_byte bytes :=
  wp_step; apply wp_write_byte with (bs := bytes); [assumption | |];
  [ let w' := fresh "w" in let H := fresh "Hm" in let S := fresh "Hs" in
    intros w' H S; rewrite S; clear S
  | let w' := fresh "w" in let H := fresh "Hm" in let S := fresh "Hs" in
    intros w' H S; apply wp_out_timeout; [assumption | rewrite S; reflexivity | rewrite S; reflexivity] ].

Lemma write_reg_wp addr data ack w :
  wp (__rtl8366_smi_write_reg clk_delay cmd_write slave addr data ack)
     (fun a w' => Ok a = fst (write_spec slave cmd_write addr data ack (edges w)) /\ idle w' /\
                  edges w' = snd (write_spec slave cmd_write addr data ack (edges w)))
     (fun e w' => Err e = fst (write_spec slave cmd_write addr data ack (edges w)) /\ idle w' /\
                  edges w' = snd (write_spec slave cmd_write addr data ack (edges w))) w.
Proof.
  unfold __rtl8366_smi_write_reg. do 2 wp_step.
  wp_step. eapply wp_mono; [apply wp_start; reflexivity | | intros ? ? []]. cbv beta.
  cbn [edges set_lock]. intros [] w1 (Hm & He). apply wp_finally.
  unfold write_spec. rewrite <- He. clear He. destruct ack; cbn [app].
  - send_byte [u8 (Z.land addr 0xff); u8 (Z.shiftr addr 8); u8 (Z.land data 0xff); u8 (Z.shiftr data 8)].
    send_byte [u8 (Z.shiftr addr 8); u8 (Z.land data 0xff); u8 (Z.shiftr data 8)].
    send_byte [u8 (Z.land data 0xff); u8 (Z.shiftr data 8)].
    send_byte [u8 (Z.shiftr data 8)].
    apply wp_write_byte with (bs := []); [assumption | |]; intros w' Hm' Hs; rewrite Hs.
    + apply wp_out_done; auto.
    + apply wp_out_timeout; auto.
  - send_byte [u8 (Z.land addr 0xff); u8 (Z.shiftr addr 8); u8 (Z.land data 0xff)].
    send_byte [u8 (Z.shiftr addr 8); u8 (Z.land data 0xff)].
    send_byte [u8 (Z.land data 0xff)].
    send_byte (@nil Z).
    unfold rtl8366_smi_write_byte_noack. wp_step.
    eapply wp_mono; [apply wp_write_bits; assumption | | intros ? ? []]. cbv beta.
    intros [] w' (Hm' & He). wp_step. apply wp_out_done; [assumption | reflexivity |].
    rewrite He. reflexivity.
Qed.

Lemma read_reg_wp addr w :
  wp (__rtl8366_smi_read_reg clk_delay cmd_read slave addr)
     (fun a w' => Ok a = fst (read_spec slave cmd_read addr (edges w)) /\ idle w' /\
                  edges w' = snd (read_spec slave cmd_read addr (edges w)))
     (fun e w' => Err e = fst (read_spec slave cmd_read addr (edges w)) /\ idle w' /\
                  edges w' = snd (read_spec slave cmd_read addr (edges w))) w.
Proof.
  unfold __rtl8366_smi_read_reg. do 2 wp_step.
  wp_step. eapply wp_mono; [apply wp_start; reflexivity | | intros ? ? []]. cbv beta.
  cbn [edges set_lock]. intros [] w1 (Hm & He). apply wp_finally.
  unfold read_spec. rewrite <- He. clear He.
  send_byte [u8 (Z.land addr 0xff); u8 (Z.shiftr addr 8)].
  send_byte [u8 (Z.shiftr addr 8)].
  send_byte (@nil Z). cbn [send_bytes].
  wp_step. eapply wp_mono; [apply (wp_read_byte false); assumption | | intros ? ? []]. cbv beta.
  intros lo w' (-> & Hm' & He). rewrite <- He. wp_step.
  eapply wp_mono; [apply (wp_read_byte true), Hm' | | intros ? ? []]. cbv beta.
  intros hi w'' (-> & Hm'' & He'). wp_step. cbn [fst snd]. rewrite <- He'.
  apply wp_out_done; [assumption | | reflexivity].
  f_equal. rewrite lor_shiftl_add; [lia | lia |].
  match goal with |- context [bits_value ?l] => pose proof (bits_value_range l) as Hr end.
  rewrite samples_length in Hr. exact Hr.
Qed.
End Transactions.

(** ** The frame on the wire *)

Lemma poll_edges slave r es es' :
  poll slave r es = Some es' -> exists k, es' = rev (repeat None (S k)) ++ es.
Proof.
  revert es. induction r as [|r IH]; intros es; cbn [poll]; destruct (slave (None :: es)); intros [= H].
  - exists O. rewrite <- H. reflexivity.
  - destruct (IH _ H) as [k ->]. exists (S k).
    change (repeat None (S (S k))) with ([@None bool] ++ repeat None (S k)).
    rewrite rev_app_distr, <- app_assoc. reflexivity.
  - exists O. rewrite <- H. reflexivity.
Qed.

Lemma skip_released_repeat k rest :
  skip_released (repeat None k ++ rest) = skip_released rest.
Proof. induction k; [reflexivity | exact IHk]. Qed.

(** An acked run of bytes is a prefix the other end reads back, whatever
    number of polls each ack took. *)
Lemma send_bytes_frame slave bs es es' :
  send_bytes slave bs es = (true, es') ->
  exists fr, es' = rev fr ++ es /\
    forall n rest, rest = skip_released rest ->
      fr ++ rest = skip_released (fr ++ rest) /\
      take_bytes (length bs + n) (fr ++ rest) = option_map (app (map u8 bs)) (take_bytes n rest).
Proof.
  revert es. induction bs as [|b bs IH]; intros es; cbn [send_bytes].
  - intros [= ->]. exists []. split; [reflexivity |]. intros n rest Hrest. split; [exact Hrest |].
    cbn. destruct (take_bytes n rest); reflexivity.
  - unfold send_byte. destruct (poll _ _ _) as [h |] eqn:Hp; [| discriminate]. intros Hs.
    destruct (poll_edges _ _ _ _ Hp) as [k ->]. destruct (IH _ Hs) as (fr & -> & Hfr).
    exists (msb_bits b 8 ++ repeat None (S k) ++ fr). split.
    + unfold put_byte. rewrite !rev_app_distr, <- !app_assoc. reflexivity.
    + intros n rest Hrest. destruct (Hfr n rest Hrest) as [Hsk Htk]. split; [reflexivity |].
      cbn [length Nat.add take_bytes map]. rewrite <- !app_assoc, take_bits_msb,
        skip_released_repeat, <- Hsk, Htk. destruct (take_bytes n rest); reflexivity.
Qed.

(** The edges a whole write transaction puts on the wire decode to the
    command, address and data. *)
Lemma write_spec_frame slave cmd addr data ack es :
  fst (write_spec slave cmd addr data ack es) = Ok tt ->
  exists fr, snd (write_spec slave cmd addr data ack es) = rev fr ++ es /\
    decode_write fr = Some (u8 cmd, u16 addr, u16 data).
Proof.
  unfold write_spec. destruct (send_bytes _ _ _) as [ok h] eqn:Hs. destruct ok; [| discriminate].
  intros _. destruct (send_bytes_frame _ _ _ _ Hs) as (fr & -> & Hfr).
  set (last := u8 (Z.shiftr data 8)) in *.
  assert (H8 : forall x, u8 (u8 x) = u8 x) by (intros; apply uwrap_idemp; lia).
  assert (H16 : forall x, u8 (Z.land x 0xff) + 256 * u8 (Z.shiftr x 8) = u16 x).
  { intros x. rewrite (Z.mul_comm 256), <- lor_shiftl_add with (n := 8) by (try apply u8_range; lia).
    change 0xff with (Z.ones 8). unfold u8, u16. bit_solve. }
  exists (Some true :: Some true :: fr ++ (if ack then [] else msb_bits last 8) ++
          [Some false; Some true; Some true]).
  destruct ack; cbn [app] in *.
  - destruct (Hfr O [Some false; Some true; Some true] eq_refl) as [_ Ht].
    split; [cbn [rev]; rewrite !rev_app_distr, <- !app_assoc; reflexivity |].
    cbn [decode_write]. cbn [length Nat.add] in Ht. rewrite Ht. cbn. subst last.
    rewrite !H8, !H16. reflexivity.
  - destruct (Hfr 1%nat (msb_bits last 8 ++ [Some false; Some true; Some true]) eq_refl) as [_ Ht].
    split; [cbn [rev]; rewrite !rev_app_distr, <- !app_assoc; reflexivity |].
    cbn [decode_write]. cbn [length Nat.add] in Ht. rewrite Ht.
    cbn [take_bytes]. rewrite take_bits_msb. cbn. subst last.
    change (uwrap 8) with u8. rewrite !H8, !H16. reflexivity.
Qed.

(** ** Properties of the transport *)

(** C3: the pin-level code of a register write implements the transaction
    protocol for every device on the wire, with or without a final ack: its
    result and the edges it makes are those of [write_spec], and on every
    path, the timeouts included, both lines are released and the lock is
    dropped. *)
Theorem write_reg_refines_protocol clk_delay cmd_write slave addr data ack w :
  exists w',
    __rtl8366_smi_write_reg clk_delay cmd_write slave addr data ack w
      = (fst (write_spec slave cmd_write addr data ack (edges w)), w') /\
    idle w' /\ edges w' = snd (write_spec slave cmd_write addr data ack (edges w)).
Proof.
  pose proof (write_reg_wp clk_delay cmd_write slave addr data ack w) as H. unfold wp in H.
  destruct (__rtl8366_smi_write_reg _ _ _ _ _ _ _) as [[a | e] w'];
    destruct H as (Hr & Hi & He); exists w'; rewrite Hr; auto.
Qed.

(** C4: the pin-level code of a register read implements the transaction
    protocol for every device on the wire: the value is the sixteen levels
    the device put on SDA, low byte first, and every path releases the lines
    and the lock. *)
Theorem read_reg_refines_protocol clk_delay cmd_read slave addr w :
  exists w',
    __rtl8366_smi_read_reg clk_delay cmd_read slave addr w
      = (fst (read_spec slave cmd_read addr (edges w)), w') /\
    idle w' /\ edges w' = snd (read_spec slave cmd_read addr (edges w)).
Proof.
  pose proof (read_reg_wp clk_delay cmd_read slave addr w) as H. unfold wp in H.
  destruct (__rtl8366_smi_read_reg _ _ _ _ _) as [[a | e] w'];
    destruct H as (Hr & Hi & He); exists w'; rewrite Hr; auto.
Qed.

(** Round trip over the wire: when the device acks every byte within the
    six polls the driver allows, a register write succeeds and a device that
    decodes the rising edges finds the write command, the 16-bit address and
    the 16-bit data that were passed. *)
Theorem write_reg_roundtrip clk_delay cmd_write slave addr data ack w :
  (forall es, poll slave (Z.to_nat RTL8366_SMI_ACK_RETRY_COUNT) es <> None) ->
  exists w' frame,
    __rtl8366_smi_write_reg clk_delay cmd_write slave addr data ack w = (Ok tt, w') /\
    edges w' = rev frame ++ edges w /\
    decode_write frame = Some (u8 cmd_write, u16 addr, u16 data).
Proof.
  intros Hack.
  assert (Hall : forall bs es, fst (send_bytes slave bs es) = true).
  { induction bs as [|b bs IH]; intros es; [reflexivity |]. cbn [send_bytes]. unfold send_byte.
    destruct (poll _ _ _) eqn:Hp; [apply IH | destruct (Hack _ Hp)]. }
  assert (Hok : fst (write_spec slave cmd_write addr data ack (edges w)) = Ok tt).
  { unfold write_spec. cbv zeta. match goal with |- context [send_bytes _ ?bs ?es] =>
      specialize (Hall bs es); destruct (send_bytes slave bs es) as [ok h] end.
    cbn in Hall. rewrite Hall. reflexivity. }
  destruct (write_spec_frame _ _ _ _ _ _ Hok) as (fr & He & Hd).
  pose proof (write_reg_wp clk_delay cmd_write slave addr data ack w) as H. unfold wp in H.
  destruct (__rtl8366_smi_write_reg _ _ _ _ _ _ _) as [[[] | e] w'];
    destruct H as (Hr & _ & He'); [| congruence].
  exists w', fr. rewrite He', He. auto.
Qed.

Lemma write_reg_roundtrip_witness :
  exists w' frame,
    __rtl8366_smi_write_reg 10 0xa8 (fun es => Nat.even (length es)) 0x0f05 0x12345 true
      (Wire true true false false false 0 []) = (Ok tt, w') /\
    edges w' = rev frame ++ [] /\ decode_write frame = Some (0xa8, 0x0f05, 0x2345).
Proof.
  apply (write_reg_roundtrip 10 0xa8 (fun es => Nat.even (length es)) 0x0f05 0x12345 true
           (Wire true true false false false 0 [])).
  intros es. change (Z.to_nat RTL8366_SMI_ACK_RETRY_COUNT) with 5%nat.
  cbn [poll length]. destruct (Nat.even (S (length es))) eqn:H1; [| discriminate].
  rewrite Nat.even_succ, <- Nat.negb_even in H1.
  change (Nat.even (S (S (length es)))) with (Nat.even (length es)).
  destruct (Nat.even (length es)); [discriminate H1 | discriminate].
Defined.

(** When the device acks the read command and both address bytes and then
    shifts out the bits of [d], most significant bit of the low byte first, a
    register read returns [d]. *)
Theorem read_reg_roundtrip clk_delay cmd_read slave addr d w h :
  0 <= d < 65536 ->
  send_bytes slave [u8 cmd_read; u8 (Z.land addr 0xff); u8 (Z.shiftr addr 8)]
    (start_edges (edges w)) = (true, h) ->
  samples slave 8 h = byte_bits d 8 ->
  samples slave 8 (Some false :: released 8 h) = byte_bits (Z.shiftr d 8) 8 ->
  exists w', __rtl8366_smi_read_reg clk_delay cmd_read slave addr w = (Ok d, w') /\ idle w'.
Proof.
  intros Hd Hs Hlo Hhi. pose proof (read_reg_wp clk_delay cmd_read slave addr w) as H.
  unfold wp, read_spec in H. rewrite Hs in H. cbv zeta iota in H. cbn [fst] in H.
  rewrite Hlo, Hhi, !bits_value_byte_bits in H.
  assert (Hv : uwrap (Z.of_nat 8) d + 256 * uwrap (Z.of_nat 8) (Z.shiftr d 8) = d).
  { rewrite (Z.mul_comm 256), <- lor_shiftl_add with (n := 8) by (try apply u8_range; lia).
    change (Z.of_nat 8) with 8. change 65536 with (2 ^ 16) in Hd. bit_solve. }
  rewrite Hv in H. destruct (__rtl8366_smi_read_reg _ _ _ _ _) as [[a | e] w'];
    destruct H as (Hr & Hi & _); [| discriminate]. exists w'. injection Hr as ->. auto.
Qed.

(** A device that acks and then answers 0xA53C: SDA as a function of the
    number of clock edges it has seen. *)
Definition demo_slave (es : list (option bool)) : bool :=
  let n := length es in
  if (n <=? 29)%nat then false
  else if (n <=? 37)%nat then Z.testbit 0x3c (37 - Z.of_nat n)
  else Z.testbit 0xa5 (46 - Z.of_nat n).

Lemma read_reg_roundtrip_witness :
  exists w', __rtl8366_smi_read_reg 10 0xa9 demo_slave 0x0100
               (Wire true true false false false 0 []) = (Ok 0xa53c, w') /\ idle w'.
Proof.
  eapply (read_reg_roundtrip 10 0xa9 demo_slave 0x0100 0xa53c (Wire true true false false false 0 []));
    [lia | vm_compute; reflexivity | vm_compute; reflexivity | vm_compute; reflexivity].
Defined.

(** With no device on the wire (SDA floats high), a read and a write
    both fail with [-ETIMEDOUT] after the command byte and exactly six ack
    polls: no address or data bit is ever sent. *)
Theorem absent_device_times_out clk_delay cmd slave addr data ack w :
  (forall es, slave (None :: es) = true) ->
  exists wr ww,
    __rtl8366_smi_read_reg clk_delay cmd slave addr w = (Err (- ETIMEDOUT), wr) /\
    __rtl8366_smi_write_reg clk_delay cmd slave addr data ack w = (Err (- ETIMEDOUT), ww) /\
    idle wr /\ idle ww /\
    edges wr = stop_edges (repeat None 6 ++ put_byte (u8 cmd) (start_edges (edges w))) /\
    edges ww = edges wr.
Proof.
  intros Hn.
  assert (Hp : forall r es, poll slave r es = None).
  { induction r; intros es; cbn [poll]; rewrite Hn; auto. }
  pose proof (read_reg_wp clk_delay cmd slave addr w) as Hr.
  pose proof (write_reg_wp clk_delay cmd slave addr data ack w) as Hw.
  unfold wp, read_spec in Hr. unfold wp, write_spec in Hw. cbn [send_bytes] in Hr.
  assert (Hsb : forall b bs es, send_bytes slave (b :: bs) es = (false, released 6 (put_byte b es))).
  { intros. cbn [send_bytes]. unfold send_byte. rewrite Hp. reflexivity. }
  unfold send_byte in Hr. rewrite Hp in Hr.
  assert (Hsw : forall l, (if ack then (u8 cmd :: l) ++ [u8 (Z.shiftr data 8)] else u8 cmd :: l)
            = u8 cmd :: if ack then l ++ [u8 (Z.shiftr data 8)] else l) by (destruct ack; reflexivity).
  rewrite Hsw, Hsb in Hw. cbv zeta iota in Hr, Hw.
  destruct (__rtl8366_smi_read_reg _ _ _ _ _) as [[a | e] wr]; destruct Hr as (Hr1 & Hr2 & Hr3);
    [discriminate |].
  destruct (__rtl8366_smi_write_reg _ _ _ _ _ _ _) as [[b | e'] ww]; destruct Hw as (Hw1 & Hw2 & Hw3);
    [discriminate |].
  exists wr, ww. rewrite Hr1, Hw1, Hw3, Hr3. auto 10.
Qed.

Lemma absent_device_times_out_witness :
  exists wr ww,
    __rtl8366_smi_read_reg 10 0xa9 (fun _ => true) 5 (Wire true true false false false 0 [])
      = (Err (- ETIMEDOUT), wr) /\
    __rtl8366_smi_write_reg 10 0xa9 (fun _ => true) 5 6 true (Wire true true false false false 0 [])
      = (Err (- ETIMEDOUT), ww) /\
    idle wr /\ idle ww /\
    edges wr = stop_edges (repeat None 6 ++ put_byte 0xa9 (start_edges [])) /\ edges ww = edges wr.
Proof.
  apply (absent_device_times_out 10 0xa9 (fun _ => true) 5 6 true (Wire true true false false false 0 [])).
  reflexivity.
Defined.
