(* ===== verification/SmiCore.v ===== *)
(** * The switch-independent core: [rtl8366_smi.c]

    The part of the driver above the register transport that every Realtek
    switch shares: the VLAN member-configuration (MC) cache in front of the
    4K VLAN table, port VLAN ids, the enable flags, reset and start-up, and
    the swconfig attribute handlers.  [struct rtl8366_smi_ops] is the class
    [SmiOps]: the handlers are written once, for every instance of it. *)

From S2P Require Import Prelude CMonad.

(** ** Data *)

Record vlan_mc := VlanMc {
  mc_vid : Z;        (* u16 *)
  mc_untag : Z;      (* u16 *)
  mc_member : Z;     (* u16 *)
  mc_fid : Z;        (* u8 *)
  mc_priority : Z    (* u8 *)
}.

Record vlan_4k := Vlan4k {
  v4_vid : Z;        (* u16 *)
  v4_untag : Z;      (* u16 *)
  v4_member : Z;     (* u16 *)
  v4_fid : Z         (* u8 *)
}.

Record rtl8366_mib_counter := MibCounter {
  mib_base : Z;
  mib_offset : Z;
  mib_length : Z;
  mib_name : string
}.

(** [struct switch_port_link], the fields the drivers fill. *)
Record port_link := PortLink {
  link_duplex : bool;
  link_rx_flow : bool;
  link_tx_flow : bool;
  link_aneg : bool;
  link_speed : Z
}.

#[export] Instance vlan_mc_eq_dec : EqDecision vlan_mc.
Proof. solve_decision. Defined.
#[export] Instance vlan_4k_eq_dec : EqDecision vlan_4k.
Proof. solve_decision. Defined.

(** What a chip driver supplies, over the state [W] of the chip and the bus:
    the constants it puts into [struct rtl8366_smi] and the part of its
    [struct rtl8366_smi_ops] the VLAN code uses ... *)
Class SmiOps (W : Type) := {
  cpu_port : Z;
  num_ports : Z;
  num_vlan_mc : Z;
  get_vlan_mc : Z -> M W vlan_mc;
  set_vlan_mc : Z -> vlan_mc -> M W unit;
  get_vlan_4k : Z -> M W vlan_4k;
  set_vlan_4k : vlan_4k -> M W unit;
  get_mc_index : Z -> M W Z;
  set_mc_index : Z -> Z -> M W unit;
  is_vlan_valid : bool -> Z -> bool;     (* smi->vlan4k_enabled, vlan *)
  enable_vlan : Z -> M W unit;
  enable_vlan4k : Z -> M W unit;
  enable_port : Z -> Z -> M W unit
}.

(** ... and the rest of it, with the [hw_reset] hook of the board. *)
Class ChipOps (W : Type) := {
  hw_reset : option (bool -> M W unit);
  detect : M W unit;
  reset_chip : M W unit;
  setup : M W unit;
  get_mib_counter : Z -> Z -> M W Z      (* counter, port *)
}.

(** The mutable part of [struct rtl8366_smi] beside the chip itself. *)
Record smi (W : Type) := Smi {
  vlan_enabled : Z;
  vlan4k_enabled : Z;
  hw : W
}.
Arguments Smi {W}.
Arguments vlan_enabled {W}.
Arguments vlan4k_enabled {W}.
Arguments hw {W}.

(** A call through [smi->ops]: it does not touch the driver's own fields. *)
Definition ops {W A} (m : M W A) : M (smi W) A := fun s =>
  let (r, w') := m (hw s) in (r, Smi (vlan_enabled s) (vlan4k_enabled s) w').

Definition set_vlan_enabled {W} (v : Z) (s : smi W) : smi W :=
  Smi v (vlan4k_enabled s) (hw s).
Definition set_vlan4k_enabled {W} (v : Z) (s : smi W) : smi W :=
  Smi (vlan_enabled s) v (hw s).

(** The entry written for [vid] from its row of the 4K table; the priority
    stays what the local variable held. *)
Definition mc_from_4k (vid : Z) (vlan4k : vlan_4k) (vlanmc : vlan_mc) : vlan_mc :=
  VlanMc (u16 vid) (v4_untag vlan4k) (v4_member vlan4k) (v4_fid vlan4k) (mc_priority vlanmc).

(** [struct switch_port]: a port id and its flags. *)
Abbreviation switch_port := (Z * Z)%type.

Section Core.
Context {W : Type} {O : SmiOps W}.

(** ** The MC cache and the 4K table *)

Definition rtl8366_mc_is_used (mc_index : Z) : M (smi W) bool :=
  r <- search num_ports (fun i =>
    index <- ops (get_mc_index i) ;;
    if mc_index =? index then ret (Some tt) else ret None) ;;
  ret (match r with Some _ => true | None => false end).

Definition rtl8366_set_vlan (vid member untag fid : Z) : M (smi W) unit :=
  vlan4k <- ops (get_vlan_4k (u32 vid)) ;;
  ops (set_vlan_4k (Vlan4k (v4_vid vlan4k) (u16 untag) (u16 member) (u8 fid))) ;;
  search num_vlan_mc (fun i =>
    vlanmc <- ops (get_vlan_mc i) ;;
    if vid =? mc_vid vlanmc then
      ops (set_vlan_mc i
        (VlanMc (mc_vid vlanmc) (u16 untag) (u16 member) (u8 fid) (mc_priority vlanmc))) ;;
      ret (Some tt)
    else ret None) ;;
  ret tt.

Definition rtl8366_get_pvid (port : Z) : M (smi W) Z :=
  index <- ops (get_mc_index port) ;;
  vlanmc <- ops (get_vlan_mc (u32 index)) ;;
  ret (mc_vid vlanmc).

(** The first two loops look for an entry of [vid] and for an empty one;
    the third replaces an unused entry.  The third uses the variable
    [vlanmc] as the second left it. *)
Definition rtl8366_set_pvid (port vid : Z) : M (smi W) unit :=
  found <- search num_vlan_mc (fun i =>
    vlanmc <- ops (get_vlan_mc i) ;;
    if vid =? mc_vid vlanmc then
      ops (set_vlan_mc i vlanmc) ;;
      ops (set_mc_index (s32 port) i) ;;
      ret (Some tt)
    else ret None) ;;
  match found with
  | Some _ => ret tt
  | None =>
      empty <- loop_while (Z.to_nat num_vlan_mc) 0 (VlanMc 0 0 0 0 0) (fun i _ =>
        vlanmc <- ops (get_vlan_mc i) ;;
        if (mc_vid vlanmc =? 0) && (mc_member vlanmc =? 0) then
          vlan4k <- ops (get_vlan_4k vid) ;;
          ops (set_vlan_mc i (mc_from_4k vid vlan4k vlanmc)) ;;
          ops (set_mc_index (s32 port) i) ;;
          ret (inr tt)
        else ret (inl vlanmc)) ;;
      match empty with
      | inr _ => ret tt
      | inl vlanmc =>
          replaced <- search num_vlan_mc (fun i =>
            used <- rtl8366_mc_is_used i ;;
            if negb used then
              vlan4k <- ops (get_vlan_4k vid) ;;
              ops (set_vlan_mc i (mc_from_4k vid vlan4k vlanmc)) ;;
              ops (set_mc_index (s32 port) i) ;;
              ret (Some tt)
            else ret None) ;;
          match replaced with
          | Some _ => ret tt
          | None => fail ENOSPC
          end
      end
  end.

(** ** Enable flags *)

Definition rtl8366_smi_enable_vlan (enable : Z) : M (smi W) unit :=
  ops (enable_vlan enable) ;;
  modify (set_vlan_enabled enable) ;;
  if negb (cbool enable) then
    modify (set_vlan4k_enabled 0) ;;
    ops (enable_vlan4k enable)
  else ret tt.

Definition rtl8366_smi_enable_vlan4k (enable : Z) : M (smi W) unit :=
  (if cbool enable then
     ops (enable_vlan enable) ;;
     modify (set_vlan_enabled enable)
   else ret tt) ;;
  ops (enable_vlan4k enable) ;;
  modify (set_vlan4k_enabled enable).

Definition rtl8366_smi_enable_all_ports (enable : Z) : M (smi W) unit :=
  for_each num_ports (fun port => ops (enable_port port enable)).

Definition rtl8366_smi_reset_vlan : M (smi W) unit :=
  unchecked tt (rtl8366_smi_enable_vlan 0) ;;
  unchecked tt (rtl8366_smi_enable_vlan4k 0) ;;
  for_each num_vlan_mc (fun i => ops (set_vlan_mc i (VlanMc 0 0 0 0 0))).

Definition init_vlan_mask (port : Z) : Z :=
  u32 (if port =? cpu_port then Z.shiftl 1 num_ports - 1
       else Z.lor (Z.shiftl 1 port) (Z.shiftl 1 cpu_port)).

Definition rtl8366_init_vlan : M (smi W) unit :=
  rtl8366_smi_reset_vlan ;;
  for_each num_ports (fun port =>
    rtl8366_set_vlan (port + 1) (init_vlan_mask port) (init_vlan_mask port) 0 ;;
    rtl8366_set_pvid port (u32 (port + 1))) ;;
  rtl8366_smi_enable_vlan 1.

(** ** swconfig handlers *)

Definition rtl8366_sw_get_port_pvid (port : Z) : M (smi W) Z := rtl8366_get_pvid port.
Definition rtl8366_sw_set_port_pvid (port val : Z) : M (smi W) unit :=
  rtl8366_set_pvid (u32 port) (u32 val).

Definition vlan_is_valid (vlan : Z) : M (smi W) bool := fun s =>
  (Ok (is_vlan_valid (cbool (vlan4k_enabled s)) vlan), s).

Section Ports.
(** The number of the "tagged" flag is the switch framework's. *)
Variable SWITCH_PORT_FLAG_TAGGED : Z.

(** An error of [get_vlan_4k] is not looked at: the 4K row it left
    behind is the zeroed structure the chip drivers start with. *)
Definition rtl8366_sw_get_vlan_ports (port_vlan : Z) : M (smi W) (list switch_port) :=
  valid <- vlan_is_valid port_vlan ;;
  if negb valid then fail EINVAL else
  vlan4k <- unchecked (Vlan4k 0 0 0 0) (ops (get_vlan_4k port_vlan)) ;;
  loop_acc (Z.to_nat num_ports) 0 [] (fun i ports =>
    if negb (cbool (Z.land (v4_member vlan4k) (BIT i))) then ret ports
    else ret (ports ++ [(i, if cbool (Z.land (v4_untag vlan4k) (BIT i)) then 0
                            else BIT SWITCH_PORT_FLAG_TAGGED)])).

(** One port of the list: its bit in [member] and [untag], and a PVID if
    it has none. *)
Definition sw_set_vlan_port (port_vlan : Z) (port : switch_port) (acc : Z * Z) : M (smi W) (Z * Z) :=
  let '(id, flags) := port in
  let '(member, untag) := acc in
  pvid <- rtl8366_get_pvid (s32 id) ;;
  (if pvid =? 0 then rtl8366_set_pvid id port_vlan else ret tt) ;;
  ret (u32 (Z.lor member (BIT id)),
       if negb (cbool (Z.land flags (BIT SWITCH_PORT_FLAG_TAGGED)))
       then u32 (Z.lor untag (BIT id)) else untag).

Fixpoint sw_set_vlan_ports_loop (port_vlan : Z) (ports : list switch_port) (acc : Z * Z) :
    M (smi W) (Z * Z) :=
  match ports with
  | [] => ret acc
  | port :: ports' =>
      acc' <- sw_set_vlan_port port_vlan port acc ;;
      sw_set_vlan_ports_loop port_vlan ports' acc'
  end.

Definition rtl8366_sw_set_vlan_ports (port_vlan : Z) (ports : list switch_port) : M (smi W) unit :=
  valid <- vlan_is_valid port_vlan ;;
  if negb valid then fail EINVAL else
  acc <- sw_set_vlan_ports_loop port_vlan ports (0, 0) ;;
  rtl8366_set_vlan (s32 port_vlan) (fst acc) (snd acc) 0.
End Ports.

Definition rtl8366_sw_get_vlan_fid (port_vlan : Z) : M (smi W) Z :=
  valid <- vlan_is_valid port_vlan ;;
  if negb valid then fail EINVAL else
  vlan4k <- ops (get_vlan_4k port_vlan) ;;
  ret (v4_fid vlan4k).

Definition rtl8366_sw_set_vlan_fid (attr_max port_vlan value : Z) : M (smi W) unit :=
  valid <- vlan_is_valid port_vlan ;;
  if negb valid then fail EINVAL else
  if (value <? 0) || (attr_max <? value) then fail EINVAL else
  vlan4k <- ops (get_vlan_4k port_vlan) ;;
  rtl8366_set_vlan (s32 port_vlan) (v4_member vlan4k) (v4_untag vlan4k) value.

Definition rtl8366_sw_get_vlan_enable (attr_ofs : Z) : M (smi W) Z := fun s =>
  if 2 <? attr_ofs then (Err (- EINVAL), s)
  else (Ok (if attr_ofs =? 1 then vlan_enabled s else vlan4k_enabled s), s).

Definition rtl8366_sw_set_vlan_enable (attr_ofs value : Z) : M (smi W) unit :=
  if 2 <? attr_ofs then fail EINVAL
  else if attr_ofs =? 1 then rtl8366_smi_enable_vlan value
  else rtl8366_smi_enable_vlan4k value.
End Core.

Section Chip.
Context {W : Type} {O : SmiOps W} {C : ChipOps W}.

(** ** Reset *)

Definition rtl8366_reset : M (smi W) unit :=
  match hw_reset with
  | Some reset => ops (reset true) ;; ops (reset false) ;; ret tt
  | None => ops reset_chip
  end.

Definition rtl8366_sw_reset_switch : M (smi W) unit :=
  rtl8366_reset ;;
  ops setup ;;
  rtl8366_smi_reset_vlan ;;
  rtl8366_smi_enable_vlan 1 ;;
  rtl8366_smi_enable_all_ports 1.

(** [struct switch_port_stats]: the two byte counters the driver fills. *)
Definition rtl8366_sw_get_port_stats (port txb_id rxb_id : Z) : M (smi W) (Z * Z) :=
  if num_ports <=? u32 port then fail EINVAL else
  tx_bytes <- ops (get_mib_counter txb_id port) ;;
  rx_bytes <- ops (get_mib_counter rxb_id port) ;;
  ret (tx_bytes, rx_bytes).

(** ** Start-up and removal *)

Definition __rtl8366_smi_init : M (smi W) unit :=
  match hw_reset with
  | Some reset => ops (reset false) ;; ret tt
  | None => ret tt
  end.

Definition __rtl8366_smi_cleanup : M (smi W) unit :=
  match hw_reset with Some reset => ops (reset true) | None => ret tt end.

(** [mii_init] registers the PHY bus with the MDIO core, which is not
    part of the driver. *)
Definition rtl8366_smi_init (mii_init : M W unit) : M (smi W) unit :=
  __rtl8366_smi_init ;;
  r <- catch (
    ops detect ;;
    rtl8366_reset ;;
    ops setup ;;
    rtl8366_init_vlan ;;
    rtl8366_smi_enable_all_ports 1 ;;
    ops mii_init) ;;
  match r with
  | Ok _ => ret tt
  | Err e => __rtl8366_smi_cleanup ;; (fun s => (Err e, s))
  end.
End Chip.
