(* ===== verification/SmiSpec.v ===== *)
(** * What a chip driver promises the core, and what the core then does

    [vstate] is the switch as the core thinks of it: tables and bits, no
    registers.  [ideal_ops] are the VLAN operations on it.  [VlanImpl] is the
    contract of a chip driver: each of its operations simulates the ideal
    one.  Under that contract every VLAN function of the core, run against
    the chip, simulates the same function run against the tables. *)

From S2P Require Import Prelude CMonad SmiCore.

(** ** The abstract switch *)

(** The sizes and field limits of a chip. *)
Record limits := Limits {
  l_cpu : Z;
  l_ports : Z;
  l_mcs : Z;
  l_vids : Z;
  l_prio : Z;
  l_member : Z;
  l_untag : Z;
  l_fid : Z;
  l_valid : bool -> Z -> bool
}.

Record vstate := VState {
  a_mc : list vlan_mc;     (* member configurations *)
  a_4k : list vlan_4k;     (* the 4K table, row [vid] for [vid] *)
  a_idx : list Z;          (* per port, the MC entry that gives its PVID *)
  a_vlan_on : bool;
  a_4k_on : bool;
  a_ports_on : list bool
}.

Definition mc0 : vlan_mc := VlanMc 0 0 0 0 0.
Definition row0 : vlan_4k := Vlan4k 0 0 0 0.

Definition mc_at (a : vstate) (i : Z) : vlan_mc := geti mc0 (a_mc a) i.
Definition row_at (a : vstate) (vid : Z) : vlan_4k := geti row0 (a_4k a) vid.
Definition idx_at (a : vstate) (port : Z) : Z := geti 0 (a_idx a) port.

Definition with_mc (l : list vlan_mc) (a : vstate) : vstate :=
  VState l (a_4k a) (a_idx a) (a_vlan_on a) (a_4k_on a) (a_ports_on a).
Definition with_4k (l : list vlan_4k) (a : vstate) : vstate :=
  VState (a_mc a) l (a_idx a) (a_vlan_on a) (a_4k_on a) (a_ports_on a).
Definition with_idx (l : list Z) (a : vstate) : vstate :=
  VState (a_mc a) (a_4k a) l (a_vlan_on a) (a_4k_on a) (a_ports_on a).
Definition with_vlan_on (b : bool) (a : vstate) : vstate :=
  VState (a_mc a) (a_4k a) (a_idx a) b (a_4k_on a) (a_ports_on a).
Definition with_4k_on (b : bool) (a : vstate) : vstate :=
  VState (a_mc a) (a_4k a) (a_idx a) (a_vlan_on a) b (a_ports_on a).
Definition with_ports_on (l : list bool) (a : vstate) : vstate :=
  VState (a_mc a) (a_4k a) (a_idx a) (a_vlan_on a) (a_4k_on a) l.

(** Entries a chip accepts. *)
Definition mc_fits (L : limits) (mc : vlan_mc) : bool :=
  (mc_vid mc <? l_vids L) && (mc_priority mc <=? l_prio L) && (mc_member mc <=? l_member L) &&
  (mc_untag mc <=? l_untag L) && (mc_fid mc <=? l_fid L).
Definition row_fits (L : limits) (row : vlan_4k) : bool :=
  (v4_vid row <? l_vids L) && (v4_member row <=? l_member L) &&
  (v4_untag row <=? l_untag L) && (v4_fid row <=? l_fid L).

Definition mc_nonneg (mc : vlan_mc) : Prop :=
  0 <= mc_vid mc /\ 0 <= mc_untag mc /\ 0 <= mc_member mc /\ 0 <= mc_fid mc /\ 0 <= mc_priority mc.
Definition row_nonneg (row : vlan_4k) : Prop :=
  0 <= v4_vid row /\ 0 <= v4_untag row /\ 0 <= v4_member row /\ 0 <= v4_fid row.

Definition mc_ok (L : limits) (mc : vlan_mc) : Prop := mc_nonneg mc /\ mc_fits L mc = true.
Definition row_ok (L : limits) (row : vlan_4k) : Prop := row_nonneg row /\ row_fits L row = true.

(** The table sizes are the chip's and every entry is one it could hold. *)
Record wf (L : limits) (a : vstate) : Prop := {
  wf_mc_len : Z.of_nat (length (a_mc a)) = l_mcs L;
  wf_4k_len : Z.of_nat (length (a_4k a)) = l_vids L;
  wf_idx_len : Z.of_nat (length (a_idx a)) = l_ports L;
  wf_ports_len : Z.of_nat (length (a_ports_on a)) = l_ports L;
  wf_mc : forall i, 0 <= i < l_mcs L -> mc_ok L (mc_at a i);
  wf_row : forall v, 0 <= v < l_vids L -> row_ok L (row_at a v) /\ v4_vid (row_at a v) = v;
  wf_idx : forall p, 0 <= p < l_ports L -> 0 <= idx_at a p < l_mcs L
}.

(** ** The ideal operations *)

Definition ideal_ops (L : limits) : SmiOps vstate := {|
  cpu_port := l_cpu L;
  num_ports := l_ports L;
  num_vlan_mc := l_mcs L;
  get_vlan_mc i := if l_mcs L <=? i then fail EINVAL else fun a => (Ok (mc_at a i), a);
  set_vlan_mc i mc :=
    if (l_mcs L <=? i) || negb (mc_fits L mc) then fail EINVAL
    else modify (fun a => with_mc (seti (a_mc a) i mc) a);
  get_vlan_4k vid := if l_vids L <=? vid then fail EINVAL else fun a => (Ok (row_at a vid), a);
  set_vlan_4k row :=
    if negb (row_fits L row) then fail EINVAL
    else modify (fun a => with_4k (seti (a_4k a) (v4_vid row) row) a);
  get_mc_index port := if l_ports L <=? port then fail EINVAL else fun a => (Ok (idx_at a port), a);
  set_mc_index port i :=
    if (l_ports L <=? port) || (l_mcs L <=? i) then fail EINVAL
    else modify (fun a => with_idx (seti (a_idx a) port i) a);
  is_vlan_valid := l_valid L;
  enable_vlan e := modify (with_vlan_on (cbool e));
  enable_vlan4k e := modify (with_4k_on (cbool e));
  enable_port port e := modify (fun a => with_ports_on (seti (a_ports_on a) port (cbool e)) a)
|}.

(** ** The contract of a chip driver *)

(** [rep w a]: the registers [w] hold the tables [a].  Each law is the
    behaviour of one [struct rtl8366_smi_ops] member for the arguments the
    core passes.  A chip need not keep every field of an MC entry:
    [mc_same] are the entries it does not tell apart; they agree in what
    the core looks at. *)
Class VlanImpl (W : Type) {O : SmiOps W} (L : limits) := {
  rep : W -> vstate -> Prop;
  rep_wf w a : rep w a -> wf L a;
  impl_cpu : cpu_port = l_cpu L;
  impl_ports : num_ports = l_ports L;
  impl_mcs : num_vlan_mc = l_mcs L;
  impl_valid b v : 0 <= v -> is_vlan_valid b v = l_valid L b v;
  mc_same : vlan_mc -> vlan_mc -> Prop;
  mc_same_refl mc : mc_same mc mc;
  mc_same_key x y : mc_same x y -> mc_vid x = mc_vid y /\ mc_member x = mc_member y;
  mc_same_put x y vid untag member fid : mc_same x y ->
    mc_same (VlanMc vid untag member fid (mc_priority x)) (VlanMc vid untag member fid (mc_priority y));
  impl_get_vlan_mc i : 0 <= i ->
    sim2 rep (fun x y => mc_same x y /\ mc_ok L x /\ mc_ok L y)
         (get_vlan_mc i) (@get_vlan_mc _ (ideal_ops L) i);
  impl_set_vlan_mc i x y : 0 <= i -> mc_nonneg x -> mc_nonneg y -> mc_same x y ->
    sim rep anything (set_vlan_mc i x) (@set_vlan_mc _ (ideal_ops L) i y);
  impl_get_vlan_4k v : 0 <= v ->
    sim rep (fun row => row_ok L row /\ v4_vid row = v)
        (get_vlan_4k v) (@get_vlan_4k _ (ideal_ops L) v);
  impl_set_vlan_4k row : row_nonneg row ->
    sim rep anything (set_vlan_4k row) (@set_vlan_4k _ (ideal_ops L) row);
  impl_get_mc_index p : 0 <= p ->
    sim rep (fun i => 0 <= i < l_mcs L)
        (get_mc_index p) (@get_mc_index _ (ideal_ops L) p);
  impl_set_mc_index p i : 0 <= p -> 0 <= i ->
    sim rep anything (set_mc_index p i) (@set_mc_index _ (ideal_ops L) p i);
  impl_enable_vlan e :
    sim rep anything (enable_vlan e) (@enable_vlan _ (ideal_ops L) e);
  impl_enable_vlan4k e :
    sim rep anything (enable_vlan4k e) (@enable_vlan4k _ (ideal_ops L) e);
  impl_enable_port p e : 0 <= p < l_ports L ->
    sim rep anything (enable_port p e) (@enable_port _ (ideal_ops L) p e)
}.

(** The flags of [struct rtl8366_smi] are the same on both sides. *)
Definition rep_smi {W} {O : SmiOps W} {L} {I : VlanImpl W L} (s : smi W) (a : smi vstate) : Prop :=
  vlan_enabled s = vlan_enabled a /\ vlan4k_enabled s = vlan4k_enabled a /\ rep (hw s) (hw a).

(** ** The core, simulated *)

Lemma u16_nonneg x : 0 <= u16 x. Proof. apply u16_range. Qed.
Lemma u8_nonneg x : 0 <= u8 x. Proof. apply u8_range. Qed.
Lemma u32_nonneg x : 0 <= u32 x. Proof. apply u32_range. Qed.

Create HintDb smi discriminated.
#[export] Hint Resolve u16_nonneg u8_nonneg u32_nonneg : smi.
#[export] Hint Unfold anything : smi.

Section Refinement.
Context {W : Type} {O : SmiOps W} {L : limits} {I : VlanImpl W L}.

#[local] Abbreviation simR := (sim (rep_smi (I := I))).

Lemma sim_ops {A} (P : A -> Prop) (m : M W A) s : sim rep P m s -> simR P (ops m) (ops s).
Proof.
  intros Hm w a (H1 & H2 & H3). destruct (Hm _ _ H3) as (Hr & Hs & HP). unfold ops.
  destruct (m (hw w)), (s (hw a)). simpl in *. unfold rep_smi. auto.
Qed.

Lemma sim2_ops {A} (P : A -> A -> Prop) (m : M W A) s :
  sim2 rep P m s -> sim2 (rep_smi (I := I)) P (ops m) (ops s).
Proof.
  intros Hm w a (H1 & H2 & H3). specialize (Hm _ _ H3). unfold ops.
  destruct (m (hw w)) as [[x | e] w'], (s (hw a)) as [[y | e'] a']; try contradiction;
    destruct Hm; split; auto; unfold rep_smi; simpl; auto.
Qed.

Lemma sim_modify_vlan e : simR anything (modify (set_vlan_enabled e)) (modify (set_vlan_enabled e)).
Proof. intros w a (H1 & H2 & H3). unfold rep_smi, anything. simpl. auto. Qed.
Lemma sim_modify_4k e : simR anything (modify (set_vlan4k_enabled e)) (modify (set_vlan4k_enabled e)).
Proof. intros w a (H1 & H2 & H3). unfold rep_smi, anything. simpl. auto. Qed.

Lemma mc_ok_nonneg mc : mc_ok L mc -> mc_nonneg mc.
Proof. intros []. assumption. Qed.
Lemma row_ok_nonneg row : row_ok L row -> row_nonneg row.
Proof. intros []. assumption. Qed.

(** One call of the chip driver on each side, then the rest. *)
Ltac call law := eapply sim_bind; [apply sim_ops, law | cbv beta; intros ? ?].
(** Reading an MC entry: the two sides' entries are the same for the chip. *)
Ltac call_mc x y := eapply sim2_bind; [apply sim2_ops, impl_get_vlan_mc; auto with smi; lia |];
  cbv beta; intros x y (?Hsame & ?Hx & ?Hy);
  lazymatch goal with H : mc_same _ _ |- _ => let Ev := fresh "Ev" in let Em := fresh "Em" in destruct (mc_same_key _ _ H) as [Ev Em]; rewrite ?Ev, ?Em end.
Ltac fields := repeat match goal with
  | H : mc_ok _ ?m |- _ => apply mc_ok_nonneg in H; destruct m; unfold mc_nonneg in H; cbn in *
  | H : row_ok _ ?r /\ _ |- _ => destruct H as [H _]
  | H : row_ok _ ?r |- _ => apply row_ok_nonneg in H; destruct r; unfold row_nonneg in H; cbn in *
  end; unfold mc_nonneg, row_nonneg, mc_from_4k, mc0; cbn; repeat split; try lia; auto with smi.

Lemma sim_mc_is_used i :
  simR anything (rtl8366_mc_is_used i) (@rtl8366_mc_is_used _ (ideal_ops L) i).
Proof.
  unfold rtl8366_mc_is_used, search. rewrite impl_ports. cbn [num_ports ideal_ops].
  eapply sim_bind with (P := anything).
  - apply sim_loop_until; [exact Logic.I |]. intros j Hj.
    call impl_get_mc_index; [lia |]. apply sim_if; intros _; apply sim_ret; exact Logic.I.
  - intros r _. apply sim_ret. exact Logic.I.
Qed.

Lemma sim_set_vlan vid member untag fid :
  simR anything (rtl8366_set_vlan vid member untag fid)
       (@rtl8366_set_vlan _ (ideal_ops L) vid member untag fid).
Proof.
  unfold rtl8366_set_vlan, search. rewrite impl_mcs. cbn [num_vlan_mc ideal_ops].
  call impl_get_vlan_4k; [auto with smi |].
  call impl_set_vlan_4k; [fields |].
  eapply sim_bind with (P := anything); [| intros; apply sim_ret; exact Logic.I].
  apply sim_loop_until; [exact Logic.I |]. intros j Hj.
  call_mc mx my. apply sim_if; intros _; [| apply sim_ret; exact Logic.I].
  call impl_set_vlan_mc; [lia | fields | fields | |]; [| apply sim_ret; exact Logic.I].
  apply mc_same_put, Hsame.
Qed.

Lemma sim_get_pvid port :
  0 <= port ->
  simR (fun v => 0 <= v) (rtl8366_get_pvid port) (@rtl8366_get_pvid _ (ideal_ops L) port).
Proof.
  intros Hp. unfold rtl8366_get_pvid. call impl_get_mc_index; [exact Hp |].
  call_mc mx my. apply sim_ret. fields.
Qed.

Lemma sim_set_pvid port vid :
  0 <= s32 port -> 0 <= vid ->
  simR anything (rtl8366_set_pvid port vid) (@rtl8366_set_pvid _ (ideal_ops L) port vid).
Proof.
  intros Hp Hv. unfold rtl8366_set_pvid, search. rewrite impl_mcs. cbn [num_vlan_mc ideal_ops].
  eapply sim_bind with (P := anything).
  { apply sim_loop_until; [exact Logic.I |]. intros j Hj.
    call_mc mx my. apply sim_if; intros _; [| apply sim_ret; exact Logic.I].
    call impl_set_vlan_mc; [lia | apply mc_ok_nonneg; eassumption .. | exact Hsame |].
    call impl_set_mc_index; [exact Hp | lia |]. apply sim_ret. exact Logic.I. }
  intros [u |] _; [apply sim_ret; exact Logic.I |].
  eapply sim2_bind.
  { apply sim2_loop_while with (I := fun x y => mc_same x y /\ mc_nonneg x /\ mc_nonneg y) (Q := fun _ _ => True).
    { split; [apply mc_same_refl | split; fields]. }
    intros j x0 y0 Hj _. eapply sim2_bind2; [apply sim2_ops, impl_get_vlan_mc; lia |]. cbv beta.
    intros x y (Hsame & Hx & Hy). destruct (mc_same_key _ _ Hsame) as [-> ->]. apply sim2_if; intros _.
    - eapply sim2_bind2; [apply sim2_of_sim, sim_ops, impl_get_vlan_4k; exact Hv |]. intros row ? [<- Hrow].
      eapply sim2_bind2; [apply sim2_of_sim, sim_ops, impl_set_vlan_mc;
        [lia | apply mc_ok_nonneg in Hx; unfold mc_nonneg in Hx; fields
         | apply mc_ok_nonneg in Hy; unfold mc_nonneg in Hy; fields | apply mc_same_put, Hsame] |].
      intros ? ? _. eapply sim2_bind2; [apply sim2_of_sim, sim_ops, impl_set_mc_index; [exact Hp | lia] |].
      intros ? ? _. apply sim2_ret. exact Logic.I.
    - apply sim2_ret. split; [exact Hsame |]. split; apply mc_ok_nonneg; assumption. }
  intros [x | u] [y | u'] H; try contradiction; [| apply sim_ret; exact Logic.I].
  destruct H as (Hsame & Hx & Hy). eapply sim_bind with (P := anything).
  { apply sim_loop_until; [exact Logic.I |]. intros j Hj.
    eapply sim_bind; [apply sim_mc_is_used | intros used _].
    apply sim_if; intros _; [| apply sim_ret; exact Logic.I].
    call impl_get_vlan_4k; [exact Hv |]. unfold mc_nonneg in Hx, Hy.
    call impl_set_vlan_mc; [lia | fields | fields | apply mc_same_put, Hsame |].
    call impl_set_mc_index; [exact Hp | lia |]. apply sim_ret. exact Logic.I. }
  intros [u |] _; [apply sim_ret; exact Logic.I | apply sim_fail].
Qed.

Lemma sim_smi_enable_vlan e :
  simR anything (rtl8366_smi_enable_vlan e) (@rtl8366_smi_enable_vlan _ (ideal_ops L) e).
Proof.
  unfold rtl8366_smi_enable_vlan. call impl_enable_vlan.
  eapply sim_bind; [apply sim_modify_vlan | intros ? _].
  apply sim_if; intros _; [| apply sim_ret; exact Logic.I].
  eapply sim_bind; [apply sim_modify_4k | intros ? _]. apply sim_ops, impl_enable_vlan4k.
Qed.

Lemma sim_smi_enable_vlan4k e :
  simR anything (rtl8366_smi_enable_vlan4k e) (@rtl8366_smi_enable_vlan4k _ (ideal_ops L) e).
Proof.
  unfold rtl8366_smi_enable_vlan4k. eapply sim_bind with (P := anything).
  - apply sim_if; intros _; [| apply sim_ret; exact Logic.I].
    call impl_enable_vlan. apply sim_modify_vlan.
  - intros ? _. call impl_enable_vlan4k. apply sim_modify_4k.
Qed.

Lemma sim_enable_all_ports e :
  simR anything (rtl8366_smi_enable_all_ports e) (@rtl8366_smi_enable_all_ports _ (ideal_ops L) e).
Proof.
  unfold rtl8366_smi_enable_all_ports, for_each. rewrite impl_ports. cbn [num_ports ideal_ops].
  apply sim_loop_acc; [exact Logic.I |]. intros j u Hj _. apply sim_ops, impl_enable_port. lia.
Qed.

Lemma sim_reset_vlan :
  simR anything rtl8366_smi_reset_vlan (@rtl8366_smi_reset_vlan _ (ideal_ops L)).
Proof.
  unfold rtl8366_smi_reset_vlan, for_each. rewrite impl_mcs. cbn [num_vlan_mc ideal_ops].
  eapply (sim_bind _ anything); [apply sim_unchecked; [exact Logic.I | apply sim_smi_enable_vlan] | intros ? _].
  eapply (sim_bind _ anything); [apply sim_unchecked; [exact Logic.I | apply sim_smi_enable_vlan4k] | intros ? _].
  apply sim_loop_acc; [exact Logic.I |]. intros j u Hj _.
  apply sim_ops, impl_set_vlan_mc; [lia | fields | fields | apply mc_same_refl].
Qed.

Lemma init_vlan_mask_impl p : init_vlan_mask p = @init_vlan_mask _ (ideal_ops L) p.
Proof. unfold init_vlan_mask. rewrite impl_cpu, impl_ports. reflexivity. Qed.

Lemma sim_init_vlan :
  l_ports L < 2 ^ 31 ->
  simR anything rtl8366_init_vlan (@rtl8366_init_vlan _ (ideal_ops L)).
Proof.
  intros Hl. unfold rtl8366_init_vlan, for_each. rewrite impl_ports. cbn [num_ports ideal_ops].
  eapply sim_bind; [apply sim_reset_vlan | intros ? _].
  apply (sim_bind _ anything); [| intros ? _; apply sim_smi_enable_vlan].
  apply sim_loop_acc; [exact Logic.I |]. intros j u Hj _. rewrite init_vlan_mask_impl.
  eapply sim_bind; [apply sim_set_vlan | intros ? _].
  apply sim_set_pvid; [| auto with smi]. rewrite s32_small by lia. lia.
Qed.

Lemma sim_vlan_is_valid v :
  0 <= v -> simR anything (vlan_is_valid v) (@vlan_is_valid _ (ideal_ops L) v).
Proof.
  intros Hv w a (H1 & H2 & H3). unfold vlan_is_valid, rep_smi, anything. simpl.
  rewrite impl_valid, H2 by exact Hv. auto.
Qed.

(** A handler that starts by rejecting an invalid VLAN. *)
Ltac valid_first := eapply sim_bind; [apply sim_vlan_is_valid; assumption | intros valid _];
  apply sim_if; intros _; [apply sim_fail |].

Lemma sim_sw_get_vlan_ports tagged vid :
  0 <= vid ->
  simR anything (rtl8366_sw_get_vlan_ports tagged vid)
       (@rtl8366_sw_get_vlan_ports _ (ideal_ops L) tagged vid).
Proof.
  intros Hv. unfold rtl8366_sw_get_vlan_ports. rewrite impl_ports. cbn [num_ports ideal_ops].
  valid_first. eapply sim_bind with (P := anything).
  - apply sim_unchecked; [exact Logic.I |]. eapply sim_mono; [apply sim_ops, impl_get_vlan_4k, Hv |].
    intros; exact Logic.I.
  - intros row _. apply sim_loop_acc; [exact Logic.I |]. intros j ps _ _.
    apply sim_if; intros _; apply sim_ret; exact Logic.I.
Qed.

Lemma sim_sw_set_vlan_ports tagged vid ports :
  0 <= vid -> Forall (fun p => 0 <= s32 (fst p)) ports ->
  simR anything (rtl8366_sw_set_vlan_ports tagged vid ports)
       (@rtl8366_sw_set_vlan_ports _ (ideal_ops L) tagged vid ports).
Proof.
  intros Hv Hp. unfold rtl8366_sw_set_vlan_ports. valid_first.
  eapply sim_bind with (P := anything); [| intros acc _; apply sim_set_vlan].
  generalize (0, 0) as acc. induction Hp as [| [id flags] ps Hid _ IH]; intros acc;
    cbn [sw_set_vlan_ports_loop].
  - apply sim_ret. exact Logic.I.
  - eapply sim_bind with (P := anything); [| intros acc' _; apply IH].
    unfold sw_set_vlan_port. destruct acc as [member untag].
    eapply sim_bind; [apply sim_get_pvid, Hid | intros pvid _].
    eapply sim_bind with (P := anything); [| intros; apply sim_ret; exact Logic.I].
    apply sim_if; intros _; [apply sim_set_pvid; assumption | apply sim_ret; exact Logic.I].
Qed.

Lemma sim_sw_get_vlan_fid vid :
  0 <= vid ->
  simR anything (rtl8366_sw_get_vlan_fid vid) (@rtl8366_sw_get_vlan_fid _ (ideal_ops L) vid).
Proof.
  intros Hv. unfold rtl8366_sw_get_vlan_fid. valid_first.
  call impl_get_vlan_4k; [exact Hv |]. apply sim_ret. exact Logic.I.
Qed.

Lemma sim_sw_set_vlan_fid max vid v :
  0 <= vid ->
  simR anything (rtl8366_sw_set_vlan_fid max vid v)
       (@rtl8366_sw_set_vlan_fid _ (ideal_ops L) max vid v).
Proof.
  intros Hv. unfold rtl8366_sw_set_vlan_fid. valid_first.
  apply sim_if; intros _; [apply sim_fail |].
  call impl_get_vlan_4k; [exact Hv |]. apply sim_set_vlan.
Qed.
End Refinement.
