(* ===== verification/SmiVlan.v ===== *)
(** * VLAN behaviour of the core

    First the effect of the core's VLAN functions on the abstract tables, as
    closed forms; then the properties of the driver, stated for every chip
    that keeps the contract [VlanImpl]. *)

From S2P Require Import Prelude CMonad SmiCore SmiSpec.

(** ** Searching *)

(** The first index in [i, i + n) that satisfies [f]. *)
Fixpoint find_from (n : nat) (i : Z) (f : Z -> bool) : option Z :=
  match n with
  | O => None
  | S n' => if f i then Some i else find_from n' (i + 1) f
  end.
Definition find (n : Z) (f : Z -> bool) : option Z := find_from (Z.to_nat n) 0 f.

Lemma find_from_Some n i f k :
  find_from n i f = Some k ->
  i <= k < i + Z.of_nat n /\ f k = true /\ forall j, i <= j < k -> f j = false.
Proof.
  revert i. induction n as [|n IH]; intros i; cbn [find_from]; [discriminate |].
  destruct (f i) eqn:Hf.
  - intros [= <-]. split; [lia |]. split; [exact Hf |]. intros j Hj. lia.
  - intros H. destruct (IH _ H) as (H1 & H2 & H3). split; [lia |]. split; [exact H2 |].
    intros j Hj. destruct (Z.eq_dec j i) as [-> |]; [exact Hf |]. apply H3. lia.
Qed.

Lemma find_from_None n i f :
  find_from n i f = None <-> forall j, i <= j < i + Z.of_nat n -> f j = false.
Proof.
  revert i. induction n as [|n IH]; intros i; cbn [find_from].
  - split; [intros _ j Hj; lia | reflexivity].
  - destruct (f i) eqn:Hf.
    + split; [discriminate |]. intros H. rewrite H in Hf by lia. discriminate.
    + rewrite IH. split; intros H j Hj; [| apply H; lia].
      destruct (Z.eq_dec j i) as [-> |]; [exact Hf |]. apply H. lia.
Qed.

Lemma find_Some n f k :
  find n f = Some k -> 0 <= k < n /\ f k = true /\ forall j, 0 <= j < k -> f j = false.
Proof. intros H. apply find_from_Some in H. destruct H as (H1 & H2 & H3). split; [lia | auto]. Qed.

Lemma find_None n f : find n f = None <-> forall j, 0 <= j < n -> f j = false.
Proof.
  unfold find. rewrite find_from_None. split; intros H j Hj; apply H; lia.
Qed.

Lemma find_ext n (f g : Z -> bool) : (forall j, 0 <= j < n -> f j = g j) -> find n f = find n g.
Proof.
  intros H. unfold find.
  assert (Hgen : forall k i, 0 <= i -> i + Z.of_nat k <= n -> find_from k i f = find_from k i g).
  { induction k as [|k IH]; intros i Hi Hk; cbn [find_from]; [reflexivity |].
    rewrite H by lia. destruct (g i); [reflexivity |]. apply IH; lia. }
  destruct (Z.le_gt_cases n 0) as [Hn |]; [| apply Hgen; lia].
  replace (Z.to_nat n) with O by lia. reflexivity.
Qed.

(** A loop whose body leaves the state alone until it finds its index. *)
Lemma search_run {W A} n (body : Z -> M W (option A)) (f : Z -> bool) g w :
  (forall j, 0 <= j < n -> body j w = if f j then g j else (Ok None, w)) ->
  (forall j, fst (g j) <> Ok None) ->
  search n body w = match find n f with Some j => g j | None => (Ok None, w) end.
Proof.
  intros Hb Hg. unfold search, find.
  assert (Hgen : forall k i, 0 <= i -> i + Z.of_nat k <= n ->
    loop_until k i body w = match find_from k i f with Some j => g j | None => (Ok None, w) end).
  { induction k as [|k IH]; intros i Hi Hk; cbn [loop_until find_from]; [reflexivity |].
    unfold bind. rewrite Hb by lia. destruct (f i).
    - specialize (Hg i). destruct (g i) as [[[a |] | e] w']; try reflexivity. simpl in Hg. congruence.
    - apply IH; lia. }
  destruct (Z.le_gt_cases n 0) as [Hn |]; [| apply Hgen; lia].
  replace (Z.to_nat n) with O by lia. reflexivity.
Qed.

(** The same with a local variable, which the last iteration leaves as [v]. *)
Lemma loop_while_run {W X A} n x (body : Z -> X -> M W (X + A)) (f : Z -> bool) g v w :
  (forall j y, 0 <= j < n -> body j y w = if f j then g j else (Ok (inl (v j)), w)) ->
  (forall j y, fst (g j) <> Ok (inl y)) ->
  loop_while (Z.to_nat n) 0 x body w
  = match find n f with
    | Some j => g j
    | None => (Ok (inl (if n <=? 0 then x else v (n - 1))), w)
    end.
Proof.
  intros Hb Hg. unfold find.
  assert (Hgen : forall k i y, 0 <= i -> i + Z.of_nat k <= n ->
    loop_while k i y body w
    = match find_from k i f with
      | Some j => g j
      | None => (Ok (inl (match k with O => y | _ => v (i + Z.of_nat k - 1) end)), w)
      end).
  { induction k as [|k IH]; intros i y Hi Hk; cbn [loop_while find_from]; [reflexivity |].
    unfold bind. rewrite Hb by lia. destruct (f i).
    - specialize (Hg i). destruct (g i) as [[[s | a] | e] w']; try reflexivity.
      simpl in Hg. specialize (Hg s). congruence.
    - rewrite IH by lia. destruct (find_from k (i + 1) f); [reflexivity |].
      destruct k; do 4 f_equal; lia. }
  destruct (Z.leb_spec n 0) as [Hn | Hn].
  - replace (Z.to_nat n) with O by lia. reflexivity.
  - rewrite Hgen by lia. destruct (find_from _ _ _); [reflexivity |].
    destruct (Z.to_nat n) eqn:Hk; [lia |]. do 4 f_equal. lia.
Qed.

(** A loop that does not look at the state does not depend on it. *)
Lemma loop_acc_pure {W A} n i (acc : A) (body : Z -> A -> M W A) (f : Z -> A -> A) :
  (forall j x w, body j x w = (Ok (f j x), w)) ->
  exists v, forall w, loop_acc n i acc body w = (Ok v, w).
Proof.
  intros Hb. revert i acc. induction n as [|n IH]; intros i acc; cbn [loop_acc]; [exists acc; reflexivity |].
  destruct (IH (i + 1) (f i acc)) as [v Hv]. exists v. intros w. unfold bind. rewrite Hb. apply Hv.
Qed.

(** ** The chip limits the core relies on *)

Record limits_ok (L : limits) : Prop := {
  lo_ports : 0 < l_ports L <= 31;
  lo_cpu : 0 <= l_cpu L < l_ports L;
  lo_mcs : 0 < l_mcs L < 2 ^ 31;
  lo_vids : 0 < l_vids L <= 65536;
  lo_prio : 0 <= l_prio L < 256;
  lo_member : 0 <= l_member L < 65536;
  lo_untag : 0 <= l_untag L < 65536;
  lo_fid : 0 <= l_fid L < 256;
  lo_valid b v : 0 <= v -> l_valid L b v = true -> 0 < v < l_vids L
}.

Definition set_hw {W} (f : W -> W) (s : smi W) : smi W :=
  Smi (vlan_enabled s) (vlan4k_enabled s) (f (hw s)).

(** ** Closed forms *)

Definition mc_used (L : limits) (a : vstate) (i : Z) : bool :=
  match find (l_ports L) (fun p => i =? idx_at a p) with Some _ => true | None => false end.

(** The MC entry a new PVID [vid] goes to, and its contents: the entry of
    [vid], else an empty one, else one no port uses. *)
Definition pick (L : limits) (a : vstate) (vid : Z) : option (Z * vlan_mc) :=
  match find (l_mcs L) (fun i => vid =? mc_vid (mc_at a i)) with
  | Some i => Some (i, mc_at a i)
  | None =>
      match find (l_mcs L) (fun i => (mc_vid (mc_at a i) =? 0) && (mc_member (mc_at a i) =? 0)) with
      | Some i => Some (i, mc_from_4k vid (row_at a vid) (mc_at a i))
      | None =>
          match find (l_mcs L) (fun i => negb (mc_used L a i)) with
          | Some i => Some (i, mc_from_4k vid (row_at a vid) (mc_at a (l_mcs L - 1)))
          | None => None
          end
      end
  end.

Definition put_mc (i : Z) (mc : vlan_mc) (a : vstate) : vstate := with_mc (seti (a_mc a) i mc) a.
Definition put_pvid (port i : Z) (mc : vlan_mc) (a : vstate) : vstate :=
  with_idx (seti (a_idx a) port i) (with_mc (seti (a_mc a) i mc) a).

(** The tables after [rtl8366_set_vlan]. *)
Definition put_vlan (L : limits) (vid member untag fid : Z) (a : vstate) : vstate :=
  with_mc
    (match find (l_mcs L) (fun i => vid =? mc_vid (mc_at a i)) with
     | Some i => seti (a_mc a) i (VlanMc vid untag member fid (mc_priority (mc_at a i)))
     | None => a_mc a
     end)
    (with_4k (seti (a_4k a) vid (Vlan4k vid untag member fid)) a).

Section Ideal.
Context (L : limits) (HL : limits_ok L).
#[local] Hint Extern 0 (SmiOps vstate) => exact (ideal_ops L) : typeclass_instances.
Implicit Types (s : smi vstate) (a : vstate).

(** ** The ideal operations on arguments in range *)

Lemma mc_ok_fits mc : mc_ok L mc -> mc_fits L mc = true.
Proof. intros []; assumption. Qed.

Lemma run_get_mc i s : 0 <= i < l_mcs L -> ops (get_vlan_mc i) s = (Ok (mc_at (hw s) i), s).
Proof.
  intros Hi. unfold ops. cbn. destruct (Z.leb_spec (l_mcs L) i); [lia |].
  destruct s; reflexivity.
Qed.

Lemma run_set_mc i mc s :
  0 <= i < l_mcs L -> mc_fits L mc = true ->
  ops (set_vlan_mc i mc) s = (Ok tt, set_hw (fun a => with_mc (seti (a_mc a) i mc) a) s).
Proof.
  intros Hi Hf. unfold ops. cbn. rewrite Hf. destruct (Z.leb_spec (l_mcs L) i); [lia | reflexivity].
Qed.

Lemma run_get_4k v s : 0 <= v < l_vids L -> ops (get_vlan_4k v) s = (Ok (row_at (hw s) v), s).
Proof.
  intros Hi. unfold ops. cbn. destruct (Z.leb_spec (l_vids L) v); [lia |].
  destruct s; reflexivity.
Qed.

Lemma run_set_4k row s :
  row_fits L row = true ->
  ops (set_vlan_4k row) s = (Ok tt, set_hw (fun a => with_4k (seti (a_4k a) (v4_vid row) row) a) s).
Proof. intros Hf. unfold ops. cbn. rewrite Hf. reflexivity. Qed.

Lemma run_get_idx p s : 0 <= p < l_ports L -> ops (get_mc_index p) s = (Ok (idx_at (hw s) p), s).
Proof.
  intros Hi. unfold ops. cbn. destruct (Z.leb_spec (l_ports L) p); [lia |].
  destruct s; reflexivity.
Qed.

Lemma run_set_idx p i s :
  0 <= p < l_ports L -> 0 <= i < l_mcs L ->
  ops (set_mc_index p i) s = (Ok tt, set_hw (fun a => with_idx (seti (a_idx a) p i) a) s).
Proof.
  intros Hp Hi. unfold ops. cbn. destruct (Z.leb_spec (l_ports L) p); [lia |].
  destruct (Z.leb_spec (l_mcs L) i); [lia | reflexivity].
Qed.

Lemma mc_ok_get a i : wf L a -> 0 <= i < l_mcs L -> mc_ok L (mc_at a i).
Proof. intros Hwf Hi. apply (wf_mc _ _ Hwf), Hi. Qed.

Lemma mc_used_run i s : rtl8366_mc_is_used i s = (Ok (mc_used L (hw s) i), s).
Proof.
  unfold rtl8366_mc_is_used, mc_used. change num_ports with (l_ports L). unfold bind at 1.
  rewrite search_run with (f := fun p => i =? idx_at (hw s) p) (g := fun _ => (Ok (Some tt), s)).
  - destruct (find _ _); reflexivity.
  - intros p Hp. rewrite (bind_ok _ _ _ _ _ (run_get_idx _ _ Hp)). destruct (_ =? _); reflexivity.
  - discriminate.
Qed.

(** Wrapping to the width of a C structure member changes nothing here. *)
Lemma mc_from_4k_ok a vid mc :
  wf L a -> 0 <= vid < l_vids L -> mc_ok L mc -> mc_ok L (mc_from_4k vid (row_at a vid) mc).
Proof.
  intros Hwf Hv [Hn Hf]. destruct (wf_row _ _ Hwf _ Hv) as [[Hrn Hrf] _].
  pose proof (lo_vids _ HL). unfold mc_ok, mc_nonneg, mc_fits, row_nonneg, row_fits, mc_from_4k in *.
  cbn [mc_vid mc_untag mc_member mc_fid mc_priority]. rewrite u16_small by lia. lia.
Qed.

Lemma pick_Some a vid i mc :
  wf L a -> 0 <= vid < l_vids L -> pick L a vid = Some (i, mc) ->
  0 <= i < l_mcs L /\ mc_ok L mc /\ mc_vid mc = vid.
Proof.
  intros Hwf Hv. unfold pick. pose proof (lo_vids _ HL).
  assert (Hu : u16 vid = vid) by (apply u16_small; lia).
  destruct (find _ _) as [k |] eqn:H1.
  - intros [= <- <-]. apply find_Some in H1. destruct H1 as (Hk & He & _).
    split; [exact Hk |]. split; [apply (wf_mc _ _ Hwf), Hk | lia].
  - destruct (find (l_mcs L) (fun i => (_ =? 0) && _)) as [k |] eqn:H2.
    + intros [= <- <-]. apply find_Some in H2. destruct H2 as (Hk & _ & _).
      split; [exact Hk |]. split; [| exact Hu].
      apply mc_from_4k_ok; [exact Hwf | exact Hv | apply (wf_mc _ _ Hwf), Hk].
    + destruct (find _ (fun i => negb _)) as [k |] eqn:H3; [| discriminate].
      intros [= <- <-]. apply find_Some in H3. destruct H3 as (Hk & _ & _).
      split; [exact Hk |]. split; [| exact Hu].
      apply mc_from_4k_ok; [exact Hwf | exact Hv | apply (wf_mc _ _ Hwf); lia].
Qed.

(** What the branches of [rtl8366_set_pvid] have in common: the entry is
    written, then the port is pointed at it, which fails for a port the
    chip does not have. *)
Definition finish {A} (r : A) port i mc s : res A * smi vstate :=
  if s32 port <? l_ports L then (Ok r, set_hw (put_pvid (s32 port) i mc) s)
  else (Err (- EINVAL), set_hw (put_mc i mc) s).

Lemma finish_run {A} (r : A) port i mc s :
  0 <= s32 port -> 0 <= i < l_mcs L -> mc_fits L mc = true ->
  (ops (set_vlan_mc i mc) ;; ops (set_mc_index (s32 port) i) ;; ret r) s = finish r port i mc s.
Proof.
  intros Hp Hi Hf. rewrite (bind_ok _ _ _ _ _ (run_set_mc _ _ _ Hi Hf)). unfold finish.
  destruct (Z.ltb_spec (s32 port) (l_ports L)) as [Hlt | Hge].
  - rewrite (bind_ok _ _ _ _ _ (run_set_idx _ _ _ (conj Hp Hlt) Hi)). reflexivity.
  - unfold bind, ops. cbn. destruct (Z.leb_spec (l_ports L) (s32 port)); [reflexivity | lia].
Qed.

Lemma finish_found {A} (r : A) port i mc s : fst (finish (Some r) port i mc s) <> Ok None.
Proof. unfold finish. destruct (_ <? _); discriminate. Qed.
Lemma finish_left {A X} (r : A) (x : X) port i mc s : fst (finish (inr r) port i mc s) <> Ok (inl x).
Proof. unfold finish. destruct (_ <? _); discriminate. Qed.

Lemma set_pvid_run port vid s :
  wf L (hw s) -> 0 <= s32 port -> 0 <= vid < l_vids L ->
  rtl8366_set_pvid port vid s
  = match pick L (hw s) vid with
    | Some (i, mc) => finish tt port i mc s
    | None => (Err (- ENOSPC), s)
    end.
Proof.
  intros Hwf Hp Hv. unfold rtl8366_set_pvid, pick. change num_vlan_mc with (l_mcs L).
  assert (Hok : forall i vid0, 0 <= i < l_mcs L -> vid0 = vid ->
            mc_fits L (mc_from_4k vid0 (row_at (hw s) vid) (mc_at (hw s) i)) = true).
  { intros i vid0 Hi ->. apply mc_ok_fits, mc_from_4k_ok; [exact Hwf | exact Hv |].
    apply (wf_mc _ _ Hwf), Hi. }
  unfold bind at 1.
  rewrite search_run with (f := fun i => vid =? mc_vid (mc_at (hw s) i))
    (g := fun i => finish (Some tt) port i (mc_at (hw s) i) s); [| | intros; apply finish_found].
  2: { intros i Hi. rewrite (bind_ok _ _ _ _ _ (run_get_mc _ _ Hi)).
       destruct (_ =? _); [| reflexivity].
       apply finish_run; [exact Hp | exact Hi | apply mc_ok_fits, (wf_mc _ _ Hwf), Hi]. }
  destruct (find _ (fun i => vid =? _)) as [k |];
    [unfold finish; destruct (_ <? _); reflexivity |]. unfold bind at 1.
  rewrite loop_while_run
    with (f := fun i => (mc_vid (mc_at (hw s) i) =? 0) && (mc_member (mc_at (hw s) i) =? 0))
    (g := fun i => finish (inr tt) port i (mc_from_4k vid (row_at (hw s) vid) (mc_at (hw s) i)) s)
    (v := mc_at (hw s)); [| | intros; apply finish_left].
  2: { intros i y Hi. rewrite (bind_ok _ _ _ _ _ (run_get_mc _ _ Hi)).
       destruct (_ && _); [| reflexivity]. rewrite (bind_ok _ _ _ _ _ (run_get_4k _ _ Hv)).
       apply finish_run; [exact Hp | exact Hi | auto]. }
  destruct (find _ (fun i => _ && _)) as [k |];
    [unfold finish; destruct (_ <? _); reflexivity |]. unfold bind at 1.
  rewrite search_run with (f := fun i => negb (mc_used L (hw s) i))
    (g := fun i => finish (Some tt) port i
            (mc_from_4k vid (row_at (hw s) vid) (mc_at (hw s) (l_mcs L - 1))) s);
    [| | intros; apply finish_found].
  2: { intros i Hi. rewrite (bind_ok _ _ _ _ _ (mc_used_run i s)).
       destruct (negb _); [| reflexivity]. rewrite (bind_ok _ _ _ _ _ (run_get_4k _ _ Hv)).
       destruct (Z.leb_spec (l_mcs L) 0); [lia |].
       apply finish_run; [exact Hp | exact Hi | apply Hok; lia]. }
  destruct (find _ (fun i => negb _)) as [k |]; [unfold finish; destruct (_ <? _) |]; reflexivity.
Qed.

(** A VID the chip does not have: nothing is written. *)
Lemma set_pvid_run_bad_vid port vid s :
  wf L (hw s) -> l_vids L <= vid -> exists e, rtl8366_set_pvid port vid s = (Err e, s).
Proof.
  intros Hwf Hv. unfold rtl8366_set_pvid. change num_vlan_mc with (l_mcs L).
  assert (Hbad : forall A (k : vlan_4k -> M (smi vstate) A),
            bind (ops (get_vlan_4k vid)) k s = (Err (- EINVAL), s)).
  { intros A k. unfold bind, ops. cbn. destruct (Z.leb_spec (l_vids L) vid); [| lia].
    destruct s; reflexivity. }
  unfold bind at 1. rewrite search_run with (f := fun _ => false) (g := fun _ => (Err 0, s)).
  2: { intros i Hi. rewrite (bind_ok _ _ _ _ _ (run_get_mc _ _ Hi)).
       destruct (wf_mc _ _ Hwf _ Hi) as [_ Hf]. unfold mc_fits in Hf.
       destruct (Z.eqb_spec vid (mc_vid (mc_at (hw s) i))); [lia | reflexivity]. }
  2: discriminate.
  destruct (find (l_mcs L) (fun _ => false)) as [k |]; [eauto |]. unfold bind at 1.
  rewrite loop_while_run
    with (f := fun i => (mc_vid (mc_at (hw s) i) =? 0) && (mc_member (mc_at (hw s) i) =? 0))
    (g := fun i => (Err (- EINVAL), s)) (v := mc_at (hw s)); [| | discriminate].
  2: { intros i y Hi. rewrite (bind_ok _ _ _ _ _ (run_get_mc _ _ Hi)).
       destruct (_ && _); [apply Hbad | reflexivity]. }
  destruct (find _ (fun i => _ && _)) as [k |]; [eauto |]. unfold bind at 1.
  rewrite search_run with (f := fun i => negb (mc_used L (hw s) i)) (g := fun i => (Err (- EINVAL), s));
    [| | discriminate].
  2: { intros i Hi. rewrite (bind_ok _ _ _ _ _ (mc_used_run i s)).
       destruct (negb _); [apply Hbad | reflexivity]. }
  destruct (find _ (fun i => negb _)) as [k |]; eauto.
Qed.

(** The arguments [rtl8366_set_vlan] accepts, after their conversion to
    the members of [struct rtl8366_vlan_4k]. *)
Definition vlan_fits (vid member untag fid : Z) : bool :=
  (u32 vid <? l_vids L) && (u16 member <=? l_member L) && (u16 untag <=? l_untag L) &&
  (u8 fid <=? l_fid L).

Lemma set_vlan_run_bad vid member untag fid s :
  wf L (hw s) -> vlan_fits vid member untag fid = false ->
  rtl8366_set_vlan vid member untag fid s = (Err (- EINVAL), s).
Proof.
  intros Hwf Hbad. unfold rtl8366_set_vlan. unfold vlan_fits in Hbad.
  destruct (Z.ltb_spec (u32 vid) (l_vids L)) as [Hv | Hv].
  - rewrite (bind_ok _ _ _ _ _ (run_get_4k _ _ (conj (proj1 (u32_range vid)) Hv))).
    unfold bind at 1, ops. cbn [set_vlan_4k ideal_ops]. unfold row_fits.
    cbn [v4_vid v4_member v4_untag v4_fid].
    destruct (wf_row _ _ Hwf _ (conj (proj1 (u32_range vid)) Hv)) as [_ ->].
    destruct (Z.ltb_spec (u32 vid) (l_vids L)); [| lia]. cbn [andb] in *. rewrite Hbad.
    destruct s; reflexivity.
  - unfold bind at 1, ops. cbn. destruct (Z.leb_spec (l_vids L) (u32 vid)); [| lia].
    destruct s; reflexivity.
Qed.

Lemma set_vlan_run vid member untag fid s :
  wf L (hw s) -> 0 <= vid < l_vids L -> 0 <= member <= l_member L -> 0 <= untag <= l_untag L ->
  0 <= fid <= l_fid L ->
  rtl8366_set_vlan vid member untag fid s = (Ok tt, set_hw (put_vlan L vid member untag fid) s).
Proof.
  intros Hwf Hv Hm Hu Hf. unfold rtl8366_set_vlan, put_vlan. change num_vlan_mc with (l_mcs L).
  pose proof (lo_vids _ HL). pose proof (lo_member _ HL). pose proof (lo_untag _ HL).
  pose proof (lo_fid _ HL).
  rewrite u32_small, !u16_small, u8_small by lia.
  rewrite (bind_ok _ _ _ _ _ (run_get_4k _ _ Hv)).
  destruct (wf_row _ _ Hwf _ Hv) as [_ Hrv]. rewrite Hrv.
  assert (Hfit : row_fits L (Vlan4k vid untag member fid) = true) by (unfold row_fits; cbn; lia).
  rewrite (bind_ok _ _ _ _ _ (run_set_4k _ _ Hfit)). cbn [v4_vid].
  set (s1 := set_hw _ s). unfold bind at 1.
  rewrite search_run with (f := fun i => vid =? mc_vid (mc_at (hw s) i))
    (g := fun i => (Ok (Some tt), set_hw (fun a => with_mc (seti (a_mc a) i
       (VlanMc vid untag member fid (mc_priority (mc_at (hw s) i)))) a) s1)); [| | discriminate].
  - unfold set_hw, s1. destruct (find _ _); reflexivity.
  - intros i Hi. rewrite (bind_ok _ _ _ _ _ (run_get_mc _ _ Hi)).
    change (mc_at (hw s1) i) with (mc_at (hw s) i). destruct (Z.eqb_spec vid (mc_vid (mc_at (hw s) i))) as [He |];
      [| reflexivity]. rewrite <- He.
    assert (Hf' : mc_fits L (VlanMc vid untag member fid (mc_priority (mc_at (hw s) i))) = true).
    { destruct (wf_mc _ _ Hwf _ Hi) as [_ Hok]. unfold mc_fits in *. cbn. lia. }
    rewrite (bind_ok _ _ _ _ _ (run_set_mc _ _ _ Hi Hf')). reflexivity.
Qed.

(** The members are converted on the way. *)
Lemma set_vlan_run_trunc vid member untag fid s :
  wf L (hw s) -> - 2 ^ 31 <= vid < 2 ^ 31 -> vlan_fits vid member untag fid = true ->
  rtl8366_set_vlan vid member untag fid s
  = (Ok tt, set_hw (put_vlan L vid (u16 member) (u16 untag) (u8 fid)) s) /\ 0 <= vid < l_vids L.
Proof.
  intros Hwf Hv Hfit. unfold vlan_fits in Hfit. pose proof (lo_vids _ HL).
  pose proof (u16_range member). pose proof (u16_range untag). pose proof (u8_range fid).
  assert (Hvid : 0 <= vid < l_vids L).
  { destruct (Z.lt_ge_cases vid 0).
    - assert (u32 vid = vid + 4294967296); [| lia].
      unfold u32, uwrap. rewrite <- (Z.mod_add vid 1) by lia. apply Z.mod_small. lia.
    - rewrite u32_small in Hfit by lia. lia. }
  split; [| exact Hvid]. rewrite <- set_vlan_run by (try assumption; lia).
  unfold rtl8366_set_vlan. rewrite (u16_small (u16 member)), (u16_small (u16 untag)), (u8_small (u8 fid)) by lia.
  reflexivity.
Qed.

Lemma get_pvid_run port s :
  wf L (hw s) -> 0 <= port < l_ports L ->
  rtl8366_get_pvid port s = (Ok (mc_vid (mc_at (hw s) (idx_at (hw s) port))), s).
Proof.
  intros Hwf Hp. unfold rtl8366_get_pvid. rewrite (bind_ok _ _ _ _ _ (run_get_idx _ _ Hp)).
  pose proof (wf_idx _ _ Hwf _ Hp) as Hi. pose proof (lo_mcs _ HL). rewrite u32_small by lia.
  rewrite (bind_ok _ _ _ _ _ (run_get_mc _ _ Hi)). reflexivity.
Qed.
End Ideal.

(** ** Effect on the tables *)

Definition pvid_at (a : vstate) (port : Z) : Z := mc_vid (mc_at a (idx_at a port)).

(** A cached VLAN is the row of the 4K table, and is cached once. *)
Definition coherent (L : limits) (a : vstate) : Prop :=
  forall i, 0 <= i < l_mcs L -> mc_vid (mc_at a i) <> 0 ->
    mc_member (mc_at a i) = v4_member (row_at a (mc_vid (mc_at a i))) /\
    mc_untag (mc_at a i) = v4_untag (row_at a (mc_vid (mc_at a i))) /\
    mc_fid (mc_at a i) = v4_fid (row_at a (mc_vid (mc_at a i))).
Definition cached_once (L : limits) (a : vstate) : Prop :=
  forall i j, 0 <= i < l_mcs L -> 0 <= j < l_mcs L ->
    mc_vid (mc_at a i) = mc_vid (mc_at a j) -> mc_vid (mc_at a i) <> 0 -> i = j.

Section Tables.
Context (L : limits) (HL : limits_ok L) (a : vstate) (Hwf : wf L a).

Lemma mc_at_put_pvid p i mc j :
  0 <= i < l_mcs L -> 0 <= j -> mc_at (put_pvid p i mc a) j = if j =? i then mc else mc_at a j.
Proof. intros Hi Hj. apply geti_seti; [exact Hj | rewrite (wf_mc_len _ _ Hwf); exact Hi]. Qed.

Lemma idx_at_put_pvid p i mc q :
  0 <= p < l_ports L -> 0 <= q -> idx_at (put_pvid p i mc a) q = if q =? p then i else idx_at a q.
Proof. intros Hp Hq. apply geti_seti; [exact Hq | rewrite (wf_idx_len _ _ Hwf); exact Hp]. Qed.

Lemma row_at_put_vlan vid m u f v :
  0 <= vid < l_vids L -> 0 <= v ->
  row_at (put_vlan L vid m u f a) v = if v =? vid then Vlan4k vid u m f else row_at a v.
Proof. intros Hi Hj. apply geti_seti; [exact Hj | rewrite (wf_4k_len _ _ Hwf); exact Hi]. Qed.

Lemma mc_at_put_vlan vid m u f j :
  0 <= j ->
  mc_at (put_vlan L vid m u f a) j
  = match find (l_mcs L) (fun i => vid =? mc_vid (mc_at a i)) with
    | Some i => if j =? i then VlanMc vid u m f (mc_priority (mc_at a i)) else mc_at a j
    | None => mc_at a j
    end.
Proof.
  intros Hj. unfold put_vlan, mc_at at 1. cbn [a_mc with_mc].
  destruct (find _ _) as [i |] eqn:Hf; [| reflexivity].
  apply find_Some in Hf. apply geti_seti; [exact Hj | rewrite (wf_mc_len _ _ Hwf); lia].
Qed.

Lemma wf_put_pvid p i mc :
  0 <= p < l_ports L -> 0 <= i < l_mcs L -> mc_ok L mc -> wf L (put_pvid p i mc a).
Proof.
  intros Hp Hi Hmc. pose proof Hwf as [H1 H2 H3 H4 H5 H6 H7].
  split; cbn [a_mc a_4k a_idx a_ports_on put_pvid with_mc with_idx]; rewrite ?seti_length; auto.
  - intros j Hj. rewrite mc_at_put_pvid by lia. destruct (_ =? _); auto.
  - intros q Hq. rewrite idx_at_put_pvid by lia. destruct (_ =? _); auto.
Qed.

Lemma wf_put_mc i mc : 0 <= i < l_mcs L -> mc_ok L mc -> wf L (put_mc i mc a).
Proof.
  intros Hi Hmc. pose proof Hwf as [H1 H2 H3 H4 H5 H6 H7].
  split; cbn [a_mc a_4k a_idx a_ports_on put_mc with_mc]; rewrite ?seti_length; auto.
  intros j Hj. change (mc_at (put_mc i mc a) j) with (mc_at (put_pvid 0 i mc a) j).
  rewrite mc_at_put_pvid by lia. destruct (_ =? _); auto.
Qed.

Lemma wf_put_vlan vid m u f :
  0 <= vid < l_vids L -> 0 <= m <= l_member L -> 0 <= u <= l_untag L -> 0 <= f <= l_fid L ->
  wf L (put_vlan L vid m u f a).
Proof.
  intros Hv Hm Hu Hf. pose proof Hwf as [H1 H2 H3 H4 H5 H6 H7].
  split; cbn [a_mc a_4k a_idx a_ports_on put_vlan with_mc with_4k]; rewrite ?seti_length; auto.
  - destruct (find _ _); rewrite ?seti_length; exact H1.
  - intros j Hj. rewrite mc_at_put_vlan by lia. destruct (find _ _) as [i |] eqn:Hfi; [| auto].
    apply find_Some in Hfi. destruct Hfi as (Hi & _ & _). destruct (_ =? _); [| auto].
    destruct (H5 _ Hi) as [Hn Hk]. unfold mc_ok, mc_nonneg, mc_fits in *. cbn. lia.
  - intros v Hv'. rewrite row_at_put_vlan by lia. destruct (Z.eqb_spec v vid) as [-> |]; [| auto].
    unfold row_ok, row_nonneg, row_fits. cbn. lia.
Qed.

(** The three ways an entry is picked. *)
Lemma pick_cases vid i mc :
  pick L a vid = Some (i, mc) ->
  0 <= i < l_mcs L /\
  ((mc = mc_at a i /\ vid = mc_vid mc) \/
   ((forall j, 0 <= j < l_mcs L -> mc_vid (mc_at a j) <> vid) /\
    ((mc_vid (mc_at a i) = 0 /\ mc_member (mc_at a i) = 0) \/
     (forall q, 0 <= q < l_ports L -> idx_at a q <> i)) /\
    exists prio, mc = VlanMc (u16 vid) (v4_untag (row_at a vid)) (v4_member (row_at a vid))
                        (v4_fid (row_at a vid)) prio)).
Proof.
  unfold pick. destruct (find _ _) as [k |] eqn:H1.
  { intros [= <- <-]. apply find_Some in H1. destruct H1 as (Hk & He & _).
    split; [exact Hk |]. left. split; [reflexivity | lia]. }
  assert (Hno : forall j, 0 <= j < l_mcs L -> mc_vid (mc_at a j) <> vid).
  { intros j Hj. apply find_None with (j := j) in H1; [lia | exact Hj]. }
  destruct (find (l_mcs L) (fun i => (_ =? 0) && _)) as [k |] eqn:H2.
  { intros [= <- <-]. apply find_Some in H2. destruct H2 as (Hk & He & _).
    split; [exact Hk |]. right. split; [exact Hno |]. split; [left; lia |]. eexists. reflexivity. }
  destruct (find _ (fun i => negb _)) as [k |] eqn:H3; [| discriminate].
  intros [= <- <-]. apply find_Some in H3. destruct H3 as (Hk & He & _).
  split; [exact Hk |]. right. split; [exact Hno |]. split; [right | eexists; reflexivity].
  intros q Hq Heq. unfold mc_used in He.
  destruct (find (l_ports L) (fun p => k =? _)) eqn:H4; [discriminate He |].
  apply find_None with (j := q) in H4; [lia | exact Hq].
Qed.

Lemma pvid_at_put_pvid p vid i mc q :
  0 <= p < l_ports L -> 0 <= vid < l_vids L -> 0 <= q < l_ports L ->
  pick L a vid = Some (i, mc) ->
  (q = p -> pvid_at (put_pvid p i mc a) q = vid) /\
  (q <> p -> pvid_at a q <> 0 -> pvid_at (put_pvid p i mc a) q = pvid_at a q).
Proof.
  intros Hp Hv Hq Hpick. destruct (pick_Some L HL _ _ _ _ Hwf Hv Hpick) as (Hi & _ & Hvid).
  destruct (pick_cases _ _ _ Hpick) as (_ & Hc).
  pose proof (wf_idx _ _ Hwf _ Hq) as Hiq. unfold pvid_at. rewrite idx_at_put_pvid by lia.
  destruct (Z.eqb_spec q p) as [-> |]; (split; [intros He | intros Hne Hnz]); try lia.
  - rewrite mc_at_put_pvid, Z.eqb_refl by lia. exact Hvid.
  - rewrite mc_at_put_pvid by lia. destruct (Z.eqb_spec (idx_at a q) i) as [He |]; [| reflexivity].
    destruct Hc as [[-> _] | (_ & [[H0 _] | Hun] & _)].
    + rewrite He. reflexivity.
    + rewrite He in Hnz. contradiction.
    + destruct (Hun q Hq He).
Qed.

(** The port shares the empty entry that a new PVID takes. *)
Definition shares_taken (vid q : Z) : bool :=
  match find (l_mcs L) (fun i => vid =? mc_vid (mc_at a i)) with
  | Some _ => false
  | None =>
      match find (l_mcs L) (fun i => (mc_vid (mc_at a i) =? 0) && (mc_member (mc_at a i) =? 0)) with
      | Some i => i =? idx_at a q
      | None => false
      end
  end.

Lemma pvid_at_others p vid i mc q :
  0 <= p < l_ports L -> 0 <= vid < l_vids L -> 0 <= q < l_ports L -> q <> p ->
  pick L a vid = Some (i, mc) ->
  if shares_taken vid q then pvid_at a q = 0 /\ pvid_at (put_pvid p i mc a) q = vid
  else pvid_at (put_pvid p i mc a) q = pvid_at a q.
Proof.
  intros Hp Hv Hq Hne Hpick. destruct (pick_Some L HL _ _ _ _ Hwf Hv Hpick) as (Hi & _ & Hvid).
  pose proof (wf_idx _ _ Hwf _ Hq) as Hiq. unfold pvid_at. rewrite idx_at_put_pvid by lia.
  rewrite (proj2 (Z.eqb_neq q p)), mc_at_put_pvid by lia. unfold shares_taken. revert Hpick. unfold pick.
  destruct (find (l_mcs L) (fun j => vid =? mc_vid (mc_at a j))) as [k |] eqn:H1;
    [| destruct (find (l_mcs L) (fun j => (mc_vid (mc_at a j) =? 0) && (mc_member (mc_at a j) =? 0))) as [k |] eqn:H2;
    [| destruct (find (l_mcs L) (fun j => negb (mc_used L a j))) as [k |] eqn:H3]];
    intros Hpick; cbv beta iota in Hpick; try discriminate; injection Hpick as <- <-.
  - destruct (Z.eqb_spec (idx_at a q) k) as [-> |]; reflexivity.
  - rewrite Z.eqb_sym. destruct (Z.eqb_spec (idx_at a q) k) as [-> |]; [| reflexivity].
    apply find_Some in H2. split; [lia | exact Hvid].
  - destruct (Z.eqb_spec (idx_at a q) k) as [E |]; [| reflexivity]. apply find_Some in H3. destruct H3 as (_ & H3 & _). unfold mc_used in H3.
    destruct (find (l_ports L) _) eqn:H4; [discriminate |]. pose proof (proj1 (find_None _ _) H4 q Hq) as H5. cbn beta in H5. rewrite E, Z.eqb_refl in H5. discriminate.
Qed.

Lemma coherent_put_pvid p vid i mc :
  0 <= p < l_ports L -> 0 <= vid < l_vids L -> pick L a vid = Some (i, mc) ->
  coherent L a -> coherent L (put_pvid p i mc a).
Proof.
  intros Hp Hv Hpick Hco j Hj. destruct (pick_cases _ _ _ Hpick) as (Hi & Hc).
  pose proof (lo_vids _ HL). rewrite mc_at_put_pvid by lia. change (row_at (put_pvid p i mc a)) with (row_at a).
  destruct (Z.eqb_spec j i) as [-> |]; [| apply Hco, Hj].
  destruct Hc as [[-> _] | (_ & _ & prio & ->)]; [apply Hco, Hi |].
  cbn [mc_vid mc_member mc_untag mc_fid]. rewrite u16_small by lia. auto.
Qed.

Lemma cached_once_put_pvid p vid i mc :
  0 <= p < l_ports L -> 0 <= vid < l_vids L -> pick L a vid = Some (i, mc) ->
  cached_once L a -> cached_once L (put_pvid p i mc a).
Proof.
  intros Hp Hv Hpick Hco j k Hj Hk. destruct (pick_cases _ _ _ Hpick) as (Hi & Hc).
  pose proof (lo_vids _ HL). rewrite !mc_at_put_pvid by lia.
  destruct Hc as [[-> _] | (Hno & _ & prio & ->)].
  - intros He Hn. apply Hco; auto; destruct (Z.eqb_spec j i), (Z.eqb_spec k i); congruence.
  - cbn [mc_vid]. destruct (Z.eqb_spec j i), (Z.eqb_spec k i); cbn [mc_vid];
      rewrite ?u16_small by lia; try lia; intros He Hn.
    + destruct (Hno k Hk); auto.
    + destruct (Hno j Hj); auto.
    + apply Hco; auto.
Qed.

Lemma coherent_put_vlan vid m u f :
  0 <= vid < l_vids L -> coherent L a -> cached_once L a -> coherent L (put_vlan L vid m u f a).
Proof.
  intros Hv Hco Hone j Hj. rewrite mc_at_put_vlan by lia.
  destruct (find _ _) as [i |] eqn:Hf.
  - apply find_Some in Hf. destruct Hf as (Hi & He & _). destruct (Z.eqb_spec j i) as [-> | Hji].
    + cbn [mc_vid mc_member mc_untag mc_fid]. rewrite row_at_put_vlan, Z.eqb_refl by lia. auto.
    + intros Hn. pose proof (wf_mc _ _ Hwf _ Hj) as [Hnn _]. unfold mc_nonneg in Hnn.
      rewrite row_at_put_vlan by lia. destruct (Z.eqb_spec (mc_vid (mc_at a j)) vid) as [Hjv |].
      * destruct Hji. apply Hone; auto. lia.
      * apply Hco; assumption.
  - intros Hn. pose proof (wf_mc _ _ Hwf _ Hj) as [Hnn _]. unfold mc_nonneg in Hnn.
    rewrite row_at_put_vlan by lia. rewrite find_None in Hf. specialize (Hf j Hj).
    destruct (Z.eqb_spec (mc_vid (mc_at a j)) vid); [lia |]. apply Hco; assumption.
Qed.

Lemma mc_vid_put_vlan vid m u f j :
  0 <= j -> mc_vid (mc_at (put_vlan L vid m u f a) j) = mc_vid (mc_at a j).
Proof.
  intros Hj. rewrite mc_at_put_vlan by lia. destruct (find _ _) as [i |] eqn:Hf; [| reflexivity].
  apply find_Some in Hf. destruct (Z.eqb_spec j i) as [-> |]; [cbn; lia | reflexivity].
Qed.

Lemma cached_once_put_vlan vid m u f : cached_once L a -> cached_once L (put_vlan L vid m u f a).
Proof. intros Hco i j Hi Hj. rewrite !mc_vid_put_vlan by lia. apply Hco; assumption. Qed.

Lemma pvid_at_put_vlan vid m u f p :
  0 <= p < l_ports L -> pvid_at (put_vlan L vid m u f a) p = pvid_at a p.
Proof.
  intros Hp. unfold pvid_at. change (idx_at (put_vlan L vid m u f a) p) with (idx_at a p).
  apply mc_vid_put_vlan. apply (wf_idx _ _ Hwf), Hp.
Qed.

(** There are more entries than ports to use them. *)
Lemma unused_exists : l_ports L < l_mcs L -> exists i, 0 <= i < l_mcs L /\ mc_used L a i = false.
Proof.
  intros Hlt. destruct (find (l_mcs L) (fun i => negb (mc_used L a i))) as [i |] eqn:Hf.
  - apply find_Some in Hf. destruct Hf as (Hi & Hn & _). exists i. split; [exact Hi |].
    destruct (mc_used L a i); [discriminate | reflexivity].
  - exfalso. rewrite find_None in Hf.
    assert (Hincl : incl (map Z.of_nat (seq 0 (Z.to_nat (l_mcs L))))
                         (map (fun p => idx_at a (Z.of_nat p)) (seq 0 (Z.to_nat (l_ports L))))).
    { intros i Hi. apply in_map_iff in Hi. destruct Hi as (k & <- & Hk). apply in_seq in Hk.
      specialize (Hf (Z.of_nat k) ltac:(lia)). unfold mc_used in Hf.
      destruct (find (l_ports L) _) as [p |] eqn:Hp; [| discriminate].
      apply find_Some in Hp. destruct Hp as (Hp & He & _). apply in_map_iff.
      exists (Z.to_nat p). rewrite in_seq, Z2Nat.id by lia. apply Z.eqb_eq in He.
      split; [symmetry; exact He | lia]. }
    apply NoDup_incl_length in Hincl.
    + rewrite !length_map, !length_seq in Hincl. pose proof (lo_ports _ HL). lia.
    + apply Finite.Injective_map_NoDup; [intros x y; apply Nat2Z.inj | apply seq_NoDup].
Qed.

Lemma pick_succeeds vid : l_ports L < l_mcs L -> pick L a vid <> None.
Proof.
  intros Hlt. destruct (unused_exists Hlt) as (i & Hi & Hu). unfold pick.
  destruct (find _ _); [discriminate |]. destruct (find _ _); [discriminate |].
  destruct (find _ _) eqn:Hf; [discriminate |].
  apply find_None with (j := i) in Hf; [| exact Hi]. rewrite Hu in Hf. discriminate.
Qed.

Lemma pick_fails vid :
  pick L a vid = None <->
  forall i, 0 <= i < l_mcs L ->
    mc_vid (mc_at a i) <> vid /\ ~ (mc_vid (mc_at a i) = 0 /\ mc_member (mc_at a i) = 0) /\
    exists p, 0 <= p < l_ports L /\ idx_at a p = i.
Proof.
  unfold pick. destruct (find _ _) as [k |] eqn:H1.
  { apply find_Some in H1. destruct H1 as (Hk & He & _). split; [discriminate |]. intros H.
    apply Z.eqb_eq in He. destruct (H k Hk) as [Hne _]. congruence. }
  destruct (find _ (fun i => _ && _)) as [k |] eqn:H2.
  { apply find_Some in H2. destruct H2 as (Hk & He & _). split; [discriminate |]. intros H.
    destruct (H k Hk) as (_ & Hn & _). lia. }
  rewrite find_None in H1, H2. destruct (find _ _) as [k |] eqn:H3.
  - apply find_Some in H3. destruct H3 as (Hk & Hu & _). split; [discriminate |]. intros H.
    destruct (H k Hk) as (_ & _ & p & Hp & He). unfold mc_used in Hu.
    destruct (find (l_ports L) (fun p => k =? _)) eqn:H4; [discriminate |]. rewrite find_None in H4. specialize (H4 p Hp). lia.
  - rewrite find_None in H3. split; [intros _ i Hi | reflexivity].
    specialize (H1 i Hi). specialize (H2 i Hi). specialize (H3 i Hi). cbv beta in *.
    split; [lia |]. split; [lia |]. unfold mc_used in H3.
    destruct (find (l_ports L) (fun p => i =? _)) as [p |] eqn:H4; [| discriminate]. apply find_Some in H4.
    exists p. lia.
Qed.
End Tables.
