(* ===== verification/SmiImpl.v ===== *)
(** * The abstract switch is itself an implementation

    The ideal operations keep the table invariant [wf], so the abstract
    switch satisfies the contract [VlanImpl] it defines; a blank switch is
    the state the examples start from.  The transfer lemmas at the end carry
    a computation on the tables over to any chip with the contract. *)

From S2P Require Import Prelude CMonad SmiCore SmiSpec SmiVlan.

Definition blank (L : limits) : vstate :=
  VState (replicate (Z.to_nat (l_mcs L)) mc0)
         (map (fun k => Vlan4k (Z.of_nat k) 0 0 0) (seq 0 (Z.to_nat (l_vids L))))
         (replicate (Z.to_nat (l_ports L)) 0) false false
         (replicate (Z.to_nat (l_ports L)) true).

Lemma geti_replicate {A} (d x : A) n i : 0 <= i < Z.of_nat n -> geti d (replicate n x) i = x.
Proof.
  intros Hi. unfold geti. apply nth_lookup_Some. apply lookup_replicate. split; [reflexivity | lia].
Qed.

Lemma wf_blank L : limits_ok L -> wf L (blank L).
Proof.
  intros HL. pose proof (lo_ports _ HL). pose proof (lo_vids _ HL). pose proof (lo_prio _ HL).
  pose proof (lo_member _ HL). pose proof (lo_untag _ HL). pose proof (lo_fid _ HL).
  pose proof (lo_mcs _ HL).
  split; cbn [blank a_mc a_4k a_idx a_ports_on];
    rewrite ?length_replicate, ?length_map, ?length_seq; try lia.
  - intros i Hi. unfold mc_at. cbn [blank a_mc]. rewrite geti_replicate by lia.
    unfold mc_ok, mc_nonneg, mc_fits, mc0. cbn. lia.
  - intros v Hv. assert (Hr : row_at (blank L) v = Vlan4k v 0 0 0).
    { unfold row_at, geti, blank. cbn [a_4k].
      change row0 with ((fun k => Vlan4k (Z.of_nat k) 0 0 0) O).
      rewrite map_nth, seq_nth by lia. f_equal. lia. }
    rewrite Hr. unfold row_ok, row_nonneg, row_fits. cbn. lia.
  - intros p Hp. unfold idx_at. cbn [blank a_idx]. rewrite geti_replicate by lia. lia.
Qed.

(** ** The ideal operations preserve [wf] *)

Definition same_wf (L : limits) (w a : vstate) : Prop := w = a /\ wf L a.

(** An operation that keeps [wf] simulates itself. *)
Lemma sim_self {A} L (P : A -> Prop) (m : M vstate A) :
  (forall a, wf L a -> wf L (snd (m a)) /\ match fst (m a) with Ok x => P x | Err _ => True end) ->
  sim (same_wf L) P m m.
Proof.
  intros H w a [-> Hwf]. destruct (H a Hwf) as [H1 H2]. unfold same_wf. auto.
Qed.

Lemma wf_set_row L a row :
  row_nonneg row -> row_fits L row = true -> wf L a ->
  wf L (with_4k (seti (a_4k a) (v4_vid row) row) a).
Proof.
  intros Hn Hf Hwf. pose proof Hwf as [H1 H2 H3 H4 H5 H6 H7].
  split; cbn [a_mc a_4k a_idx a_ports_on with_4k]; rewrite ?seti_length; try assumption.
  intros v Hv. unfold row_at. cbn [a_4k with_4k].
  rewrite geti_seti by (unfold row_nonneg, row_fits in *; lia).
  destruct (Z.eqb_spec v (v4_vid row)) as [-> |]; [| apply H6, Hv]. split; [split; assumption | reflexivity].
Qed.

Lemma wf_set_idx L a p i :
  0 <= p < l_ports L -> 0 <= i < l_mcs L -> wf L a -> wf L (with_idx (seti (a_idx a) p i) a).
Proof.
  intros Hp Hi Hwf. pose proof Hwf as [H1 H2 H3 H4 H5 H6 H7].
  split; cbn [a_mc a_4k a_idx a_ports_on with_idx]; rewrite ?seti_length; try assumption.
  intros q Hq. unfold idx_at. cbn [a_idx with_idx]. rewrite geti_seti by lia.
  destruct (_ =? _); [exact Hi | apply H7, Hq].
Qed.

Lemma wf_set_ports_on L a l :
  length l = length (a_ports_on a) -> wf L a -> wf L (with_ports_on l a).
Proof.
  intros Hl [H1 H2 H3 H4 H5 H6 H7]. split; cbn [a_mc a_4k a_idx a_ports_on with_ports_on]; try assumption.
  rewrite Hl. exact H4.
Qed.

Lemma wf_vlan_on L a b : wf L a -> wf L (with_vlan_on b a).
Proof. intros [H1 H2 H3 H4 H5 H6 H7]. split; assumption. Qed.
Lemma wf_4k_on L a b : wf L a -> wf L (with_4k_on b a).
Proof. intros [H1 H2 H3 H4 H5 H6 H7]. split; assumption. Qed.

(** A chip that keeps every field of its MC entries. *)
Lemma sim2_self {W} (R : W -> vstate -> Prop) L m s :
  sim R (mc_ok L) m s -> sim2 R (fun x y => x = y /\ mc_ok L x /\ mc_ok L y) m s.
Proof.
  intros H w a Hr. pose proof (sim2_of_sim R (mc_ok L) m s H w a Hr) as H2.
  destruct (m w) as [[x | e] w'], (s a) as [[y | e'] a']; auto. destruct H2 as [[<- Hx] H2]. auto.
Qed.

#[export] Instance ideal_impl (L : limits) : @VlanImpl vstate (ideal_ops L) L.
Proof.
  refine {| rep := same_wf L; mc_same := eq |}; try reflexivity.
  - intros w a [_ H]. exact H.
  - intros x y ->. auto.
  - intros x y vid untag member fid ->. reflexivity.
  - intros i Hi. apply sim2_self. apply sim_self. intros a Hwf. cbn.
    destruct (Z.leb_spec (l_mcs L) i); cbn; [auto |]. split; [exact Hwf |].
    apply (wf_mc _ _ Hwf). lia.
  - intros i mc ? Hi Hn _ <-. apply sim_self. intros a Hwf. cbn.
    destruct (Z.leb_spec (l_mcs L) i); cbn; [auto |].
    destruct (mc_fits L mc) eqn:Hf; cbn; [| auto]. split; [| exact Logic.I].
    apply wf_put_mc; [exact Hwf | lia | split; assumption].
  - intros v Hv. apply sim_self. intros a Hwf. cbn.
    destruct (Z.leb_spec (l_vids L) v); cbn; [auto |]. split; [exact Hwf |].
    apply (wf_row _ _ Hwf). lia.
  - intros row Hn. apply sim_self. intros a Hwf. cbn.
    destruct (row_fits L row) eqn:Hf; cbn; [| auto]. split; [| exact Logic.I].
    apply wf_set_row; assumption.
  - intros p Hp. apply sim_self. intros a Hwf. cbn.
    destruct (Z.leb_spec (l_ports L) p); cbn; [auto |]. split; [exact Hwf |].
    apply (wf_idx _ _ Hwf). lia.
  - intros p i Hp Hi. apply sim_self. intros a Hwf. cbn.
    destruct (Z.leb_spec (l_ports L) p); cbn; [auto |].
    destruct (Z.leb_spec (l_mcs L) i); cbn; [auto |]. split; [| exact Logic.I].
    apply wf_set_idx; [lia | lia | exact Hwf].
  - intros e. apply sim_self. intros a Hwf. split; [apply wf_vlan_on, Hwf | exact Logic.I].
  - intros e. apply sim_self. intros a Hwf. split; [apply wf_4k_on, Hwf | exact Logic.I].
  - intros p e Hp. apply sim_self. intros a Hwf. split; [| exact Logic.I].
    apply wf_set_ports_on; [apply seti_length | exact Hwf].
Defined.

(** ** Transfer *)

Section Transfer.
Context {W : Type} {O : SmiOps W} {L : limits} {I : VlanImpl W L}.

(** What the tables do, the chip does. *)
Lemma transfer {A} (P : A -> Prop) (m : M (smi W) A) (i : M (smi vstate) A) s a r a' :
  sim (rep_smi (I := I)) P m i -> rep_smi s a -> i a = (r, a') ->
  exists s', m s = (r, s') /\ rep_smi s' a'.
Proof.
  intros Hs Hr Hi. destruct (Hs s a Hr) as (H1 & H2 & _). rewrite Hi in H1, H2.
  destruct (m s) as [r' s']. simpl in *. subst r'. exists s'. auto.
Qed.

Lemma rep_smi_wf s a : rep_smi s a -> wf L (hw a).
Proof. intros (_ & _ & H). eapply rep_wf, H. Qed.

(** The PVID of a port is read off the tables. *)
Lemma get_pvid_transfer (HL : limits_ok L) s a port :
  rep_smi s a -> 0 <= port < l_ports L ->
  fst (rtl8366_get_pvid port s) = Ok (pvid_at (hw a) port).
Proof.
  intros Hr Hp.
  destruct (transfer _ _ _ s a _ _ (sim_get_pvid port (proj1 Hp)) Hr
              (get_pvid_run L HL port a (rep_smi_wf _ _ Hr) Hp)) as (s' & -> & _).
  reflexivity.
Qed.
End Transfer.

(** A switch in step with a table, to instantiate the theorems on. *)
Definition demo (L : limits) : smi vstate := Smi 0 0 (blank L).

Lemma rep_demo L : limits_ok L -> rep_smi (I := ideal_impl L) (demo L) (demo L).
Proof. intros HL. split; [reflexivity |]. split; [reflexivity |]. split; [reflexivity | apply wf_blank, HL]. Qed.

(** The limits of the RTL8366S. *)
Definition rtl8366s_limits : limits :=
  Limits 5 6 16 4096 7 0x3f 0x3f 7
    (fun vlan4k vlan => negb ((vlan =? 0) || ((if vlan4k then 4095 else 16) <=? vlan))).

Lemma rtl8366s_limits_ok : limits_ok rtl8366s_limits.
Proof.
  split; cbn; try lia. intros [] v; lia.
Qed.

(** ** The cache invariant on the tables *)

Section Cache.
Context (L : limits) (HL : limits_ok L).
#[local] Hint Extern 0 (SmiOps vstate) => exact (ideal_ops L) : typeclass_instances.

Definition cache_inv (a : vstate) : Prop := wf L a /\ coherent L a /\ cached_once L a.

Definition keeps {A} (m : M (smi vstate) A) : Prop := preserves (fun a => cache_inv (hw a)) m.

Lemma keeps_set_vlan vid m u f : - 2 ^ 31 <= vid < 2 ^ 31 -> keeps (rtl8366_set_vlan vid m u f).
Proof.
  intros Hv a (Hwf & Hco & Hone). destruct (vlan_fits L vid m u f) eqn:Hfit.
  - destruct (set_vlan_run_trunc L HL vid m u f a Hwf Hv Hfit) as [-> Hvid].
    unfold vlan_fits in Hfit. pose proof (u16_range m). pose proof (u16_range u).
    pose proof (u8_range f). split; [| split].
    + apply wf_put_vlan; auto; lia.
    + apply coherent_put_vlan; auto.
    + apply cached_once_put_vlan; auto.
  - rewrite (set_vlan_run_bad L vid m u f a Hwf Hfit). exact (conj Hwf (conj Hco Hone)).
Qed.

Lemma keeps_set_pvid port vid : 0 <= s32 port -> 0 <= vid -> keeps (rtl8366_set_pvid port vid).
Proof.
  intros Hp Hv a (Hwf & Hco & Hone). destruct (Z.lt_ge_cases vid (l_vids L)) as [Hlt | Hge].
  - rewrite (set_pvid_run L HL port vid a Hwf Hp (conj Hv Hlt)).
    destruct (pick L (hw a) vid) as [[i mc] |] eqn:Hpk; [| exact (conj Hwf (conj Hco Hone))].
    destruct (pick_Some L HL _ _ _ _ Hwf (conj Hv Hlt) Hpk) as (Hi & Hmc & _).
    unfold finish. destruct (Z.ltb_spec (s32 port) (l_ports L)); cbn [snd set_hw hw].
    + split; [apply wf_put_pvid; auto |]. split.
      * eapply coherent_put_pvid; eauto.
      * eapply cached_once_put_pvid; eauto.
    + (* the entry is written although the port does not exist *)
      pose proof (lo_ports _ HL). assert (Hp0 : 0 <= 0 < l_ports L) by lia.
      split; [apply wf_put_mc; auto |]. split.
      * exact (coherent_put_pvid L HL _ Hwf 0 vid i mc Hp0 (conj Hv Hlt) Hpk Hco).
      * exact (cached_once_put_pvid L HL _ Hwf 0 vid i mc Hp0 (conj Hv Hlt) Hpk Hone).
  - destruct (set_pvid_run_bad_vid L port vid a Hwf Hge) as [e ->]. exact (conj Hwf (conj Hco Hone)).
Qed.

Lemma keeps_same {A} (m : M (smi vstate) A) : (forall a, hw (snd (m a)) = hw a) -> keeps m.
Proof. intros H a Ha. rewrite H. exact Ha. Qed.

Lemma keeps_get_pvid port : keeps (rtl8366_get_pvid port).
Proof.
  apply keeps_same. intros a. unfold rtl8366_get_pvid, bind, ops. cbn.
  destruct (_ <=? _); cbn; [reflexivity |]. destruct (_ <=? _); reflexivity.
Qed.

Lemma keeps_valid v : keeps (vlan_is_valid v).
Proof. apply keeps_same. reflexivity. Qed.

Lemma keeps_get_4k v : keeps (ops (get_vlan_4k v)).
Proof. apply keeps_same. intros a. unfold ops. cbn. destruct (_ <=? _); reflexivity. Qed.

Lemma keeps_enable_vlan e : keeps (rtl8366_smi_enable_vlan e).
Proof.
  intros a (H1 & H2 & H3). unfold rtl8366_smi_enable_vlan.
  destruct (cbool e) eqn:He; cbn; rewrite He; cbn;
    (split; [repeat first [apply wf_vlan_on | apply wf_4k_on | assumption] | split; assumption]).
Qed.

Lemma keeps_enable_vlan4k e : keeps (rtl8366_smi_enable_vlan4k e).
Proof.
  intros a (H1 & H2 & H3). unfold rtl8366_smi_enable_vlan4k.
  destruct (cbool e) eqn:He; cbn; rewrite He; cbn;
    (split; [repeat first [apply wf_vlan_on | apply wf_4k_on | assumption] | split; assumption]).
Qed.

Lemma keeps_set_vlan_ports tagged vid ports :
  0 <= vid -> Forall (fun p => 0 <= s32 (fst p)) ports ->
  keeps (rtl8366_sw_set_vlan_ports tagged vid ports).
Proof.
  intros Hv Hp. unfold rtl8366_sw_set_vlan_ports. apply preserves_bind; [apply keeps_valid | intros valid].
  apply preserves_if; [apply preserves_fail |].
  apply preserves_bind; [| intros acc; apply keeps_set_vlan, s32_range].
  generalize (0, 0) as acc. induction Hp as [| [id flags] ps Hid _ IH]; intros acc;
    cbn [sw_set_vlan_ports_loop]; [apply preserves_ret |].
  apply preserves_bind; [| exact IH]. unfold sw_set_vlan_port. destruct acc as [m u].
  apply preserves_bind; [apply keeps_get_pvid | intros pvid].
  apply preserves_bind; [| intros ?; apply preserves_ret].
  apply preserves_if; [apply keeps_set_pvid; assumption | apply preserves_ret].
Qed.

Lemma keeps_set_vlan_fid max vid v : keeps (rtl8366_sw_set_vlan_fid max vid v).
Proof.
  unfold rtl8366_sw_set_vlan_fid. apply preserves_bind; [apply keeps_valid | intros valid].
  apply preserves_if; [apply preserves_fail |]. apply preserves_if; [apply preserves_fail |].
  apply preserves_bind; [apply keeps_get_4k | intros row]. apply keeps_set_vlan, s32_range.
Qed.
End Cache.

(** ** Clearing the cache, and start-up *)

Section Startup.
Context (L : limits) (HL : limits_ok L).
#[local] Hint Extern 0 (SmiOps vstate) => exact (ideal_ops L) : typeclass_instances.

Lemma mc0_fits : mc_fits L mc0 = true.
Proof.
  pose proof (lo_vids _ HL). pose proof (lo_prio _ HL). pose proof (lo_member _ HL).
  pose proof (lo_untag _ HL). pose proof (lo_fid _ HL). unfold mc_fits, mc0. cbn. lia.
Qed.

(** What [rtl8366_smi_reset_vlan] leaves: all entries empty, the flags and
    the two enable bits off, everything else as it was. *)
Definition cleared (b a : smi vstate) : Prop :=
  vlan_enabled b = 0 /\ vlan4k_enabled b = 0 /\ a_vlan_on (hw b) = false /\ a_4k_on (hw b) = false /\
  a_4k (hw b) = a_4k (hw a) /\ a_idx (hw b) = a_idx (hw a) /\ a_ports_on (hw b) = a_ports_on (hw a) /\
  length (a_mc (hw b)) = length (a_mc (hw a)) /\
  forall i, 0 <= i < l_mcs L -> mc_at (hw b) i = mc0.

Lemma reset_vlan_run a :
  wf L (hw a) -> exists b, rtl8366_smi_reset_vlan a = (Ok tt, b) /\ cleared b a /\ wf L (hw b).
Proof.
  intros Hwf. unfold rtl8366_smi_reset_vlan, for_each. change num_vlan_mc with (l_mcs L).
  set (a1 := Smi 0 0 (with_4k_on false (with_vlan_on false (hw a)))).
  set (clear := loop_acc _ _ _ _).
  assert (Hloop : wp clear (fun _ b => cleared b a) never a1).
  { apply wp_loop_acc with (I := fun j _ b =>
      exists l, b = set_hw (with_mc l) a1 /\ length l = length (a_mc (hw a)) /\
                forall i, 0 <= i < j -> geti mc0 l i = mc0).
    - exists (a_mc (hw a)). split; [reflexivity |]. split; [reflexivity |]. intros i Hi. lia.
    - intros j acc b Hj (l & -> & Hlen & Hl). unfold wp.
      rewrite (run_set_mc L j mc0) by (try apply mc0_fits; lia).
      exists (seti l j mc0). split; [reflexivity |]. split; [rewrite seti_length; exact Hlen |].
      intros i Hi. pose proof (wf_mc_len _ _ Hwf). rewrite geti_seti by lia.
      destruct (Z.eqb_spec i j); [reflexivity | apply Hl; lia].
    - intros acc b (l & -> & Hlen & Hl). unfold cleared. cbn. repeat split; try assumption.
      intros i Hi. apply Hl. lia. }
  destruct (wp_never _ _ _ Hloop) as ([] & b & Hrun & Hb). exists b.
  split; [exact Hrun |]. split; [exact Hb |].
  destruct Hb as (_ & _ & _ & _ & H4 & Hi & Hp & Hl & Hm).
  pose proof Hwf as [H1 H2 H3 H5 H6 H7 H8]. split.
  - lia.
  - rewrite H4. exact H2.
  - rewrite Hi. exact H3.
  - rewrite Hp. exact H5.
  - intros i Hr. rewrite Hm by exact Hr. split; [| apply mc0_fits].
    unfold mc_nonneg, mc0. cbn. lia.
  - intros v Hv. unfold row_at. rewrite H4. apply H7, Hv.
  - intros p Hr. unfold idx_at. rewrite Hi. apply H8, Hr.
Qed.

Lemma cleared_inv b a : wf L (hw b) -> cleared b a -> cache_inv L (hw b).
Proof.
  intros Hwf (_ & _ & _ & _ & _ & _ & _ & _ & Hm). split; [exact Hwf |]. split.
  - intros i Hi Hn. rewrite Hm in Hn by exact Hi. destruct (Hn eq_refl).
  - intros i j Hi Hj _ Hn. rewrite Hm in Hn by exact Hi. destruct (Hn eq_refl).
Qed.

(** *** Start-up: one VLAN per port *)

#[local] Abbreviation mask := (@init_vlan_mask vstate (ideal_ops L)).

Definition startup_limits : Prop :=
  l_ports L <= l_mcs L /\ l_ports L < l_vids L /\
  Z.ones (l_ports L) <= l_member L /\ Z.ones (l_ports L) <= l_untag L.

Lemma init_vlan_mask_bits p q :
  0 <= p < l_ports L -> 0 <= q < l_ports L ->
  Z.testbit (mask p) q = (q =? p) || (q =? l_cpu L) || (p =? l_cpu L).
Proof.
  intros Hp Hq. pose proof (lo_ports _ HL). pose proof (lo_cpu _ HL).
  unfold init_vlan_mask. cbn [cpu_port num_ports ideal_ops]. unfold u32. rewrite testbit_uwrap by lia.
  destruct (Z.ltb_spec q 32); [| lia]. cbn [andb]. destruct (Z.eqb_spec p (l_cpu L)).
  - rewrite orb_true_r. replace (Z.shiftl 1 (l_ports L) - 1) with (Z.ones (l_ports L)).
    + rewrite testbit_ones by lia. lia.
    + rewrite Z.ones_equiv, Z.shiftl_1_l. lia.
  - rewrite orb_false_r, Z.lor_spec. fold (BIT p) (BIT (l_cpu L)).
    rewrite !testbit_BIT by lia. f_equal; lia.
Qed.

Lemma init_vlan_mask_range p :
  0 <= p < l_ports L -> 0 <= mask p <= Z.ones (l_ports L).
Proof.
  intros Hp. pose proof (lo_ports _ HL). pose proof (lo_cpu _ HL).
  assert (Hpow : 2 ^ l_ports L <= 2 ^ 31) by (apply Z.pow_le_mono_r; lia).
  assert (Hbit : forall k, 0 <= k < l_ports L -> 0 <= Z.shiftl 1 k < 2 ^ l_ports L).
  { intros k Hk. rewrite Z.shiftl_1_l. split; [lia |]. apply Z.pow_lt_mono_r; lia. }
  rewrite Z.ones_equiv. unfold init_vlan_mask. cbn [cpu_port num_ports ideal_ops].
  destruct (_ =? _).
  - rewrite Z.shiftl_1_l, u32_small; lia.
  - pose proof (lor_range (Z.shiftl 1 p) (Z.shiftl 1 (l_cpu L)) (l_ports L) ltac:(lia)
                  (Hbit _ Hp) (Hbit _ (lo_cpu _ HL))).
    rewrite u32_small; lia.
Qed.

(** The tables when ports [0 .. j-1] have their VLANs. *)
Record started (j : Z) (a : vstate) : Prop := {
  st_wf : wf L a;
  st_mc i : 0 <= i < l_mcs L -> mc_vid (mc_at a i) = if i <? j then i + 1 else 0;
  st_empty i : j <= i < l_mcs L -> mc_member (mc_at a i) = 0;
  st_idx p : 0 <= p < j -> idx_at a p = p;
  st_row p : 0 <= p < j ->
    row_at a (p + 1) = Vlan4k (p + 1) (mask p) (mask p) 0;
  st_cache p : 0 <= p < j ->
    mc_at a p = VlanMc (p + 1) (mask p) (mask p) 0 (mc_priority (mc_at a p))
}.

Lemma started_vlan j a :
  startup_limits -> 0 <= j < l_ports L -> started j a ->
  started j (put_vlan L (j + 1) (mask j) (mask j) 0 a) /\
  row_at (put_vlan L (j + 1) (mask j) (mask j) 0 a) (j + 1)
  = Vlan4k (j + 1) (mask j) (mask j) 0 /\
  pick L (put_vlan L (j + 1) (mask j) (mask j) 0 a) (j + 1)
  = Some (j, VlanMc (j + 1) (mask j) (mask j) 0
               (mc_priority (mc_at (put_vlan L (j + 1) (mask j) (mask j) 0 a) j))).
Proof.
  intros (Hm & Hv & H1 & H2) Hj [Hwf Hmc Hem Hidx Hrow Hca]. pose proof (init_vlan_mask_range j Hj) as Hr.
  pose proof (lo_fid _ HL). pose proof (lo_vids _ HL).
  set (b := put_vlan _ _ _ _ _ _).
  assert (Hno : find (l_mcs L) (fun i => j + 1 =? mc_vid (mc_at a i)) = None).
  { apply find_None. intros i Hi. rewrite Hmc by exact Hi. destruct (Z.ltb_spec i j); lia. }
  assert (Hat : forall i, 0 <= i -> mc_at b i = mc_at a i).
  { intros i Hi. unfold b. rewrite mc_at_put_vlan by (exact Hwf || lia). rewrite Hno. reflexivity. }
  assert (Hrb : forall v, 0 <= v -> row_at b v = if v =? j + 1
            then Vlan4k (j + 1) (mask j) (mask j) 0 else row_at a v).
  { intros v Hv'. unfold b. apply row_at_put_vlan; [exact Hwf | lia | exact Hv']. }
  assert (Hb : started j b).
  { split.
    - apply wf_put_vlan; auto; lia.
    - intros i Hi. rewrite Hat by lia. apply Hmc, Hi.
    - intros i Hi. rewrite Hat by lia. apply Hem, Hi.
    - exact Hidx.
    - intros p Hp. rewrite Hrb by lia. destruct (Z.eqb_spec (p + 1) (j + 1)); [lia | apply Hrow, Hp].
    - intros p Hp. rewrite !Hat by lia. apply Hca, Hp. }
  assert (Hrj : row_at b (j + 1) = Vlan4k (j + 1) (mask j) (mask j) 0).
  { rewrite Hrb, Z.eqb_refl by lia. reflexivity. }
  split; [exact Hb |]. split; [exact Hrj |].
  unfold pick. rewrite (find_ext _ _ (fun i => j + 1 =? mc_vid (mc_at a i))), Hno
    by (intros i Hi; rewrite Hat by lia; reflexivity).
  destruct (find (l_mcs L) (fun i => _ && _)) as [k |] eqn:Hk.
  - apply find_Some in Hk. destruct Hk as (Hk & He & Hfirst). cbv beta in *. rewrite (st_mc _ _ Hb k Hk) in He.
    assert (k = j) as ->.
    { destruct (Z.ltb_spec k j); [lia |]. destruct (Z.eq_dec k j); [assumption |].
      specialize (Hfirst j ltac:(lia)). rewrite (st_mc _ _ Hb), (st_empty _ _ Hb) in Hfirst by lia.
      destruct (Z.ltb_spec j j); lia. }
    unfold mc_from_4k. rewrite Hrj, u16_small by lia. reflexivity.
  - rewrite find_None in Hk. specialize (Hk j ltac:(lia)). cbv beta in Hk.
    rewrite (st_mc _ _ Hb), (st_empty _ _ Hb) in Hk by lia. destruct (Z.ltb_spec j j); lia.
Qed.

Lemma started_pvid j a prio :
  startup_limits -> 0 <= j < l_ports L -> started j a ->
  row_at a (j + 1) = Vlan4k (j + 1) (mask j) (mask j) 0 ->
  0 <= prio <= l_prio L ->
  started (j + 1) (put_pvid j j
    (VlanMc (j + 1) (mask j) (mask j) 0 prio) a).
Proof.
  intros (Hm & Hv & H1 & H2) Hj [Hwf Hmc Hem Hidx Hrow Hca] Hr Hprio.
  pose proof (init_vlan_mask_range j Hj) as Hk. pose proof (lo_fid _ HL).
  assert (Hok : mc_ok L (VlanMc (j + 1) (mask j) (mask j) 0 prio)).
  { unfold mc_ok, mc_nonneg, mc_fits. cbn. lia. }
  split.
  - apply wf_put_pvid; auto; lia.
  - intros i Hi. rewrite (mc_at_put_pvid L _ Hwf) by lia. destruct (Z.eqb_spec i j) as [-> |].
    + cbn [mc_vid]. destruct (Z.ltb_spec j (j + 1)); lia.
    + rewrite Hmc by exact Hi. destruct (Z.ltb_spec i j), (Z.ltb_spec i (j + 1)); lia.
  - intros i Hi. rewrite (mc_at_put_pvid L _ Hwf) by lia.
    destruct (Z.eqb_spec i j); [lia | apply Hem; lia].
  - intros p Hp. rewrite (idx_at_put_pvid L _ Hwf) by lia.
    destruct (Z.eqb_spec p j) as [-> |]; [reflexivity | apply Hidx; lia].
  - intros p Hp. destruct (Z.eq_dec p j) as [-> |]; [exact Hr | apply Hrow; lia].
  - intros p Hp. rewrite (mc_at_put_pvid L _ Hwf) by lia.
    destruct (Z.eqb_spec p j) as [-> |]; [reflexivity | apply Hca; lia].
Qed.

Lemma init_vlan_run a :
  startup_limits -> wf L (hw a) ->
  exists b, rtl8366_init_vlan a = (Ok tt, b) /\ started (l_ports L) (hw b) /\
    vlan_enabled b = 1 /\ vlan4k_enabled b = 0 /\ a_vlan_on (hw b) = true /\ a_4k_on (hw b) = false /\
    a_ports_on (hw b) = a_ports_on (hw a).
Proof.
  intros Hst Hwf. destruct (reset_vlan_run a Hwf) as (a1 & Hreset & Hcl & Hwf1).
  destruct Hcl as (Hf1 & Hf2 & Hon & H4on & _ & _ & Hpo & _ & Hm).
  unfold rtl8366_init_vlan, for_each. rewrite (bind_ok _ _ _ _ _ Hreset).
  change num_ports with (l_ports L). set (body := fun (i : Z) (_ : unit) => _).
  pose proof (lo_ports _ HL) as Hports.
  assert (Hloop : wp (loop_acc (Z.to_nat (l_ports L)) 0 tt body)
    (fun _ b => started (l_ports L) (hw b) /\ vlan4k_enabled b = 0 /\ a_4k_on (hw b) = false /\
                a_ports_on (hw b) = a_ports_on (hw a)) never a1).
  { apply wp_loop_acc with (I := fun j _ b => started j (hw b) /\ vlan4k_enabled b = 0 /\
      a_4k_on (hw b) = false /\ a_ports_on (hw b) = a_ports_on (hw a)).
    - split; [| auto]. split; auto; try (intros; lia).
      + intros i Hi. rewrite Hm by exact Hi. destruct (Z.ltb_spec i 0); [lia | reflexivity].
      + intros i Hi. rewrite Hm by lia. reflexivity.
    - intros j u b Hj (Hs & Hrest). unfold body, wp.
      destruct Hst as (Hst1 & Hst2 & Hst3 & Hst4).
      pose proof (init_vlan_mask_range j ltac:(lia)). pose proof (lo_fid _ HL). pose proof (lo_vids _ HL).
      rewrite (bind_ok _ _ _ _ _ (set_vlan_run L HL (j + 1) (mask j) (mask j) 0 b
        (st_wf _ _ Hs) ltac:(lia) ltac:(lia) ltac:(lia) ltac:(lia))).
      destruct (started_vlan j (hw b) (conj Hst1 (conj Hst2 (conj Hst3 Hst4))) ltac:(lia) Hs)
        as (Hs1 & Hrow & Hpick).
      assert (Hj32 : s32 j = j) by (apply s32_small; lia). rewrite u32_small by lia.
      rewrite set_pvid_run; [| exact HL | exact (st_wf _ _ Hs1) | lia | lia].
      cbn [hw set_hw]. rewrite Hpick. unfold finish. rewrite Hj32.
      destruct (Z.ltb_spec j (l_ports L)); [| lia]. split; [| exact Hrest].
      apply started_pvid; [repeat split; assumption | lia | exact Hs1 | exact Hrow |].
      destruct (wf_mc _ _ (st_wf _ _ Hs1) j ltac:(lia)) as [Hn Hf].
      unfold mc_nonneg, mc_fits in *. lia.
    - intros u b. rewrite Z2Nat.id by lia. auto. }
  destruct (wp_never _ _ _ Hloop) as ([] & b & Hrun & Hs & H1 & H2 & H3).
  rewrite (bind_ok _ _ _ _ _ Hrun). eexists. split; [reflexivity |]. cbn.
  split; [| auto]. destruct Hs as [Hw Hmc Hem Hidx Hrow Hca]. split; auto. apply wf_vlan_on, Hw.
Qed.
End Startup.

(** ** Port lists of a VLAN *)

Section Ports.
Context (L : limits) (HL : limits_ok L) (tagged : Z) (Ht : 0 <= tagged).
#[local] Hint Extern 0 (SmiOps vstate) => exact (ideal_ops L) : typeclass_instances.

(** Ports in increasing order from [i] up to [n], each tagged or not. *)
Fixpoint ports_from (i n : Z) (ports : list switch_port) : Prop :=
  match ports with
  | [] => True
  | (id, flags) :: ps =>
      i <= id < n /\ (flags = 0 \/ flags = BIT tagged) /\ ports_from (id + 1) n ps
  end.

Definition has_port (ports : list switch_port) (q : Z) : bool :=
  existsb (fun p => fst p =? q) ports.
Definition has_untagged (ports : list switch_port) (q : Z) : bool :=
  existsb (fun p => (fst p =? q) && (snd p =? 0)) ports.

Lemma BIT_pos n : 0 <= n -> 0 < BIT n.
Proof. intros. rewrite BIT_pow by lia. lia. Qed.

(** The test of one bit, as the C code writes it. *)
Lemma flag_untagged flags :
  flags = 0 \/ flags = BIT tagged -> cbool (Z.land flags (BIT tagged)) = negb (flags =? 0).
Proof.
  pose proof (BIT_pos tagged Ht). intros [-> | ->]; rewrite cbool_land_BIT by lia.
  - apply Z.testbit_0_l.
  - rewrite testbit_BIT, Z.eqb_refl by lia. destruct (Z.eqb_spec (BIT tagged) 0); [lia | reflexivity].
Qed.

(** Adding the bit of a port to a port mask. *)
Lemma port_mask_add m id :
  0 <= m < 2 ^ l_ports L -> 0 <= id < l_ports L ->
  0 <= u32 (Z.lor m (BIT id)) < 2 ^ l_ports L /\
  forall q, 0 <= q -> Z.testbit (u32 (Z.lor m (BIT id))) q = Z.testbit m q || (id =? q).
Proof.
  intros Hm Hid. pose proof (lo_ports _ HL).
  assert (Hpow : 2 ^ l_ports L <= 2 ^ 31) by (apply Z.pow_le_mono_r; lia).
  assert (Hb : 0 <= BIT id < 2 ^ l_ports L).
  { rewrite BIT_pow by lia. split; [lia |]. apply Z.pow_lt_mono_r; lia. }
  pose proof (lor_range m (BIT id) (l_ports L) ltac:(lia) Hm Hb) as Hr.
  rewrite u32_small by lia. split; [exact Hr |].
  intros q Hq. rewrite Z.lor_spec, testbit_BIT by lia. reflexivity.
Qed.

Record ports_acc (ports : list switch_port) (m u m' u' : Z) : Prop := {
  pa_member : 0 <= m' < 2 ^ l_ports L;
  pa_untag : 0 <= u' < 2 ^ l_ports L;
  pa_mbits q : 0 <= q -> Z.testbit m' q = Z.testbit m q || has_port ports q;
  pa_ubits q : 0 <= q -> Z.testbit u' q = Z.testbit u q || has_untagged ports q
}.

Lemma set_vlan_ports_loop_run vid ports i m u a :
  l_ports L < l_mcs L -> 0 <= vid < l_vids L -> 0 <= i -> ports_from i (l_ports L) ports ->
  0 <= m < 2 ^ l_ports L -> 0 <= u < 2 ^ l_ports L -> wf L (hw a) ->
  exists m' u' b,
    sw_set_vlan_ports_loop tagged vid ports (m, u) a = (Ok (m', u'), b) /\
    ports_acc ports m u m' u' /\ wf L (hw b) /\
    vlan_enabled b = vlan_enabled a /\ vlan4k_enabled b = vlan4k_enabled a.
Proof.
  intros Hlt Hv Hi Hp Hm Hu Hwf. pose proof (lo_ports _ HL).
  revert i m u a Hi Hp Hm Hu Hwf.
  induction ports as [| [id flags] ps IH]; intros i m u a Hi Hp Hm Hu Hwf; cbn [sw_set_vlan_ports_loop].
  - exists m, u, a. split; [reflexivity |]. split; [| auto].
    split; auto; intros q Hq; unfold has_port, has_untagged; cbn; rewrite orb_false_r; reflexivity.
  - destruct Hp as (Hid & Hfl & Hps). assert (Hid' : 0 <= id < l_ports L) by lia.
    destruct (port_mask_add m id Hm Hid') as [Hm1 Hm2].
    destruct (port_mask_add u id Hu Hid') as [Hu1 Hu2].
    assert (Hs : s32 id = id) by (apply s32_small; lia).
    unfold sw_set_vlan_port. rewrite flag_untagged by exact Hfl. rewrite negb_involutive, Hs.
    (* the port's PVID, set when it had none *)
    assert (Hpv : exists c,
      (pvid <- rtl8366_get_pvid id ;; (if pvid =? 0 then rtl8366_set_pvid id vid else ret tt) ;;
       ret (u32 (Z.lor m (BIT id)), if flags =? 0 then u32 (Z.lor u (BIT id)) else u)) a
      = (Ok (u32 (Z.lor m (BIT id)), if flags =? 0 then u32 (Z.lor u (BIT id)) else u), c) /\
      wf L (hw c) /\ vlan_enabled c = vlan_enabled a /\ vlan4k_enabled c = vlan4k_enabled a).
    { rewrite (bind_ok _ _ _ _ _ (get_pvid_run L HL id a Hwf Hid')).
      destruct (_ =? 0); [| exists a; split; [reflexivity | auto]].
      pose proof (set_pvid_run L HL id vid a Hwf ltac:(lia) Hv) as Hrun.
      pose proof (pick_succeeds L HL (hw a) vid Hlt) as Hpk.
      destruct (pick L (hw a) vid) as [[k mc] |] eqn:Hpick; [| contradiction].
      unfold finish in Hrun. rewrite Hs in Hrun.
      destruct (Z.ltb_spec id (l_ports L)); [| lia]. rewrite (bind_ok _ _ _ _ _ Hrun).
      eexists. split; [reflexivity |]. split; [| auto]. cbn [hw set_hw].
      destruct (pick_Some L HL _ _ _ _ Hwf Hv Hpick) as (Hk & Hmc & _).
      apply (wf_put_pvid L _ Hwf); assumption. }
    destruct Hpv as (c & Hc & Hwfc & Hf1 & Hf2). rewrite (bind_ok _ _ _ _ _ Hc).
    destruct (IH (id + 1) (u32 (Z.lor m (BIT id))) (if flags =? 0 then u32 (Z.lor u (BIT id)) else u) c
                ltac:(lia) Hps Hm1 ltac:(destruct (flags =? 0); assumption) Hwfc)
      as (m' & u' & b & Hrun & [H1 H2 H3 H4] & Hwfb & Hb1 & Hb2).
    exists m', u', b. split; [exact Hrun |]. split; [| split; [exact Hwfb | split; congruence]].
    split; auto; intros q Hq; unfold has_port, has_untagged; cbn [existsb fst snd].
    + rewrite H3, Hm2 by exact Hq. rewrite <- orb_assoc. reflexivity.
    + rewrite H4 by exact Hq. destruct (flags =? 0); [rewrite Hu2 by exact Hq |];
        rewrite ?andb_true_r, ?andb_false_r, <- ?orb_assoc; reflexivity.
Qed.

(** The handler that reads the list back goes through the ports in order. *)
Lemma get_vlan_ports_loop {X} (row : vlan_4k) ports k i acc (s : X) :
  0 <= i -> ports_from i (i + Z.of_nat k) ports ->
  (forall q, i <= q < i + Z.of_nat k -> Z.testbit (v4_member row) q = has_port ports q) ->
  (forall q, i <= q < i + Z.of_nat k -> Z.testbit (v4_untag row) q = has_untagged ports q) ->
  loop_acc k i acc (fun j ps =>
    if negb (cbool (Z.land (v4_member row) (BIT j))) then ret ps
    else ret (ps ++ [(j, if cbool (Z.land (v4_untag row) (BIT j)) then 0 else BIT tagged)])) s
  = (Ok (acc ++ ports), s).
Proof.
  revert ports i acc. induction k as [|k IH]; intros ports i acc Hi Hp Hm Hu; cbn [loop_acc].
  - destruct ports as [| [id fl] ps]; [rewrite app_nil_r; reflexivity |]. destruct Hp as (Hp & _). lia.
  - rewrite !cbool_land_BIT, Hm, Hu by lia. unfold bind at 1.
    assert (Habs : forall ps q, q < i + 1 -> ports_from (i + 1) (i + 1 + Z.of_nat k) ps ->
              has_port ps q = false /\ has_untagged ps q = false).
    { assert (Hgen : forall ps q j n, q < j -> ports_from j n ps -> has_port ps q = false /\ has_untagged ps q = false).
      { induction ps as [| [id fl] ps IHps]; intros q j n Hq Hps; [auto |].
        destruct Hps as (Hid & _ & Hps). destruct (IHps q (id + 1) n ltac:(lia) Hps) as [H1 H2].
        unfold has_port, has_untagged in *. cbn. rewrite H1, H2.
        destruct (Z.eqb_spec id q); [lia | auto]. }
      intros ps q Hq Hps. eapply Hgen; eassumption. }
    replace (i + Z.of_nat (S k)) with (i + 1 + Z.of_nat k) in * by lia.
    destruct ports as [| [id fl] ps].
    + cbn. apply IH; [lia | exact Logic.I | |]; intros q Hq; [apply Hm | apply Hu]; lia.
    + destruct Hp as (Hid & Hfl & Hps). destruct (Z.eq_dec id i) as [-> | Hne].
      * destruct (Habs ps i ltac:(lia) Hps) as [H1 H2].
        unfold has_port at 1, has_untagged at 1. cbn [existsb fst snd]. rewrite Z.eqb_refl.
        fold (has_port ps i) (has_untagged ps i). rewrite H2. cbn [negb orb andb].
        rewrite orb_false_r.
        assert (Hfl' : (if fl =? 0 then 0 else BIT tagged) = fl).
        { pose proof (BIT_pos tagged Ht). destruct Hfl as [-> | ->]; [reflexivity |].
          destruct (Z.eqb_spec (BIT tagged) 0); [lia | reflexivity]. }
        cbn. rewrite Hfl'. rewrite IH with (ports := ps); [rewrite <- app_assoc; reflexivity | lia | exact Hps | |];
          intros q Hq; [rewrite Hm by lia | rewrite Hu by lia]; unfold has_port, has_untagged; cbn;
          destruct (Z.eqb_spec i q); try lia; reflexivity.
      * assert (Hps' : ports_from (i + 1) (i + 1 + Z.of_nat k) ((id, fl) :: ps)).
        { split; [lia | auto]. }
        destruct (Habs _ i ltac:(lia) Hps') as [H1 H2]. rewrite H1. cbn.
        apply IH; [lia | exact Hps' | |]; intros q Hq; [apply Hm | apply Hu]; lia.
Qed.

Lemma valid_run v (a : smi vstate) :
  vlan_is_valid v a = (Ok (l_valid L (cbool (vlan4k_enabled a)) v), a).
Proof. reflexivity. Qed.

Lemma mask_bound m lim :
  Z.ones (l_ports L) <= lim -> 0 <= m < 2 ^ l_ports L -> 0 <= m <= lim.
Proof. rewrite Z.ones_equiv. lia. Qed.

(** Writing a port list and reading it back, on the tables. *)
Lemma vlan_ports_run vid ports a :
  startup_limits L -> l_ports L < l_mcs L -> wf L (hw a) -> 0 <= vid ->
  l_valid L (cbool (vlan4k_enabled a)) vid = true -> ports_from 0 (l_ports L) ports ->
  exists b, rtl8366_sw_set_vlan_ports tagged vid ports a = (Ok tt, b) /\ wf L (hw b) /\
    rtl8366_sw_get_vlan_ports tagged vid b = (Ok ports, b).
Proof.
  intros (_ & _ & Hm & Hu) Hlt Hwf Hv0 Hvalid Hp. pose proof (lo_valid _ HL _ _ Hv0 Hvalid) as Hv.
  pose proof (lo_ports _ HL). pose proof (lo_vids _ HL). pose proof (lo_fid _ HL).
  assert (Hz : 0 <= 0 < 2 ^ l_ports L) by lia.
  destruct (set_vlan_ports_loop_run vid ports 0 0 0 a Hlt ltac:(lia) ltac:(lia) Hp Hz Hz Hwf)
    as (m & u & b & Hloop & [Hm1 Hu1 Hmb Hub] & Hwfb & Hb1 & Hb2).
  assert (Hs : s32 vid = vid) by (apply s32_small; lia).
  assert (Hset : rtl8366_sw_set_vlan_ports tagged vid ports a
                 = (Ok tt, set_hw (put_vlan L vid m u 0) b)).
  { unfold rtl8366_sw_set_vlan_ports. rewrite (bind_ok _ _ _ _ _ (valid_run vid a)), Hvalid.
    cbn [negb]. rewrite (bind_ok _ _ _ _ _ Hloop). cbn [fst snd]. rewrite Hs.
    apply set_vlan_run; [exact HL | exact Hwfb | lia | apply mask_bound; assumption
                        | apply mask_bound; assumption | lia]. }
  assert (Hwfc : wf L (put_vlan L vid m u 0 (hw b))).
  { apply wf_put_vlan; [exact Hwfb | lia | apply mask_bound; assumption
                       | apply mask_bound; assumption | lia]. }
  eexists. split; [exact Hset |]. split; [exact Hwfc |].
  unfold rtl8366_sw_get_vlan_ports. rewrite (bind_ok _ _ _ _ _ (valid_run vid _)).
  cbn [set_hw vlan4k_enabled]. rewrite Hb2, Hvalid. cbn [negb].
  set (c := set_hw _ b). unfold bind at 1, unchecked.
  rewrite run_get_4k by (try exact L; lia). change (hw c) with (put_vlan L vid m u 0 (hw b)).
  rewrite (row_at_put_vlan L _ Hwfb), Z.eqb_refl by lia. change num_ports with (l_ports L).
  rewrite <- (app_nil_l ports) at 1. rewrite Z2Nat.id || idtac.
  apply get_vlan_ports_loop with (i := 0) (acc := []); [lia | | |].
  - rewrite Z2Nat.id by lia. exact Hp.
  - intros q Hq. cbn [v4_member]. rewrite Hmb, Z.testbit_0_l by lia. reflexivity.
  - intros q Hq. cbn [v4_untag]. rewrite Hub, Z.testbit_0_l by lia. reflexivity.
Qed.

(** Writing the FID of a VLAN, on the tables. *)
Lemma vlan_fid_run max vid fid a :
  wf L (hw a) -> 0 <= vid -> l_valid L (cbool (vlan4k_enabled a)) vid = true ->
  0 <= fid <= max -> fid <= l_fid L ->
  exists b, rtl8366_sw_set_vlan_fid max vid fid a = (Ok tt, b) /\ wf L (hw b) /\
    rtl8366_sw_get_vlan_fid vid b = (Ok fid, b) /\
    forall row, rtl8366_sw_get_vlan_ports tagged vid a = (Ok row, a) ->
      rtl8366_sw_get_vlan_ports tagged vid b = (Ok row, b).
Proof.
  intros Hwf Hv0 Hvalid Hf Hfl. pose proof (lo_valid _ HL _ _ Hv0 Hvalid) as Hv.
  pose proof (lo_vids _ HL). assert (Hs : s32 vid = vid) by (apply s32_small; lia).
  destruct (wf_row _ _ Hwf vid ltac:(lia)) as [[Hn Hfit] Hrv]. unfold row_nonneg, row_fits in *.
  set (row := row_at (hw a) vid) in *.
  assert (Hset : rtl8366_sw_set_vlan_fid max vid fid a
                 = (Ok tt, set_hw (put_vlan L vid (v4_member row) (v4_untag row) fid) a)).
  { unfold rtl8366_sw_set_vlan_fid. rewrite (bind_ok _ _ _ _ _ (valid_run vid a)), Hvalid.
    cbn [negb]. destruct (Z.ltb_spec fid 0); [lia |]. destruct (Z.ltb_spec max fid); [lia |].
    cbn [orb]. rewrite (bind_ok _ _ _ _ _ (run_get_4k L vid a ltac:(lia))). rewrite Hs.
    apply set_vlan_run; [exact HL | exact Hwf | lia ..]. }
  assert (Hwfb : wf L (put_vlan L vid (v4_member row) (v4_untag row) fid (hw a))).
  { apply wf_put_vlan; [exact Hwf | lia ..]. }
  eexists. split; [exact Hset |]. split; [exact Hwfb |]. set (b := set_hw _ a).
  assert (Hrow : row_at (hw b) vid = Vlan4k vid (v4_untag row) (v4_member row) fid).
  { unfold b. cbn [hw set_hw]. rewrite (row_at_put_vlan L _ Hwf), Z.eqb_refl by lia. reflexivity. }
  split.
  - unfold rtl8366_sw_get_vlan_fid. rewrite (bind_ok _ _ _ _ _ (valid_run vid b)).
    change (vlan4k_enabled b) with (vlan4k_enabled a). rewrite Hvalid. cbn [negb].
    rewrite (bind_ok _ _ _ _ _ (run_get_4k L vid b ltac:(lia))), Hrow. reflexivity.
  - intros ports. unfold rtl8366_sw_get_vlan_ports.
    rewrite (bind_ok _ _ _ _ _ (valid_run vid a)), (bind_ok _ _ _ _ _ (valid_run vid b)).
    change (vlan4k_enabled b) with (vlan4k_enabled a). rewrite Hvalid. cbn [negb].
    unfold bind at 1, unchecked. rewrite run_get_4k by lia. fold row.
    unfold bind at 1. rewrite run_get_4k, Hrow by lia. cbn [v4_member v4_untag].
    match goal with |- loop_acc ?n ?i ?acc ?body _ = _ -> _ =>
      destruct (loop_acc_pure n i acc body (fun j ps => if negb (cbool (Z.land (v4_member row) (BIT j)))
        then ps else ps ++ [(j, if cbool (Z.land (v4_untag row) (BIT j)) then 0 else BIT tagged)]))
        as [v Hpure] end; [intros j ps s; destruct (negb _); reflexivity |].
    rewrite !Hpure. intros [= <-]. reflexivity.
Qed.

(** Reading changes nothing. *)
Lemma get_vlan_ports_same vid (a : smi vstate) : snd (rtl8366_sw_get_vlan_ports tagged vid a) = a.
Proof.
  unfold rtl8366_sw_get_vlan_ports. rewrite (bind_ok _ _ _ _ _ (valid_run vid a)).
  destruct (negb _); [reflexivity |].
  assert (Hget : exists row, unchecked (Vlan4k 0 0 0 0) (ops (get_vlan_4k vid)) a = (Ok row, a)).
  { unfold unchecked, ops. cbn. destruct (_ <=? _); cbn; destruct a; eauto. }
  destruct Hget as [row Hget]. rewrite (bind_ok _ _ _ _ _ Hget).
  match goal with |- snd (loop_acc ?n ?i ?acc ?body _) = _ =>
    destruct (loop_acc_pure n i acc body (fun j ps => if negb (cbool (Z.land (v4_member row) (BIT j)))
      then ps else ps ++ [(j, if cbool (Z.land (v4_untag row) (BIT j)) then 0 else BIT tagged)]))
      as [v Hpure] end; [intros j ps s; destruct (negb _); reflexivity |].
  rewrite Hpure. reflexivity.
Qed.
End Ports.
