(* ===== verification/SmiProps.v ===== *)
(** * Properties of the switch-independent core

    Each is stated for every chip that keeps the contract [VlanImpl], in
    terms of what the driver's own functions return; the instances are
    examples on the abstract switch with the limits of the RTL8366S. *)

From S2P Require Import Prelude CMonad SmiCore SmiSpec SmiVlan SmiImpl.

#[local] Abbreviation demoL := rtl8366s_limits.
#[local] Abbreviation demo_ops := (ideal_ops rtl8366s_limits).

Section Chip.
Context {W : Type} {O : SmiOps W} {L : limits} {I : VlanImpl W L}.

(** [rtl8366_set_pvid] on a port the chip has, seen on the tables. *)
Lemma set_pvid_effect (HL : limits_ok L) s a port vid :
  rep_smi s a -> 0 <= port < l_ports L -> 0 <= vid < l_vids L ->
  exists s',
    rtl8366_set_pvid port vid s
    = (match pick L (hw a) vid with Some _ => Ok tt | None => Err (- ENOSPC) end, s') /\
    rep_smi s' (match pick L (hw a) vid with
                | Some (i, mc) => set_hw (put_pvid port i mc) a
                | None => a
                end).
Proof.
  intros Hr Hp Hv. pose proof (lo_ports _ HL).
  assert (Hs : s32 port = port) by (apply s32_small; lia).
  assert (Hp' : 0 <= s32 port) by lia.
  pose proof (set_pvid_run L HL port vid a (rep_smi_wf _ _ Hr) Hp' Hv) as Hrun.
  unfold finish in Hrun. rewrite Hs in Hrun. destruct (Z.ltb_spec port (l_ports L)); [| lia].
  destruct (pick L (hw a) vid) as [[i mc] |];
    apply (transfer _ _ _ s a _ _ (sim_set_pvid port vid Hp' (proj1 Hv)) Hr Hrun).
Qed.
End Chip.

(** C1: when the chip has more member configurations than ports (all the
    supported ones do), setting the PVID of a port always succeeds, and
    reading it back gives the VID.  Of the other ports exactly those change
    that point to the empty MC entry a new VID is put into: they had no PVID
    (it read 0) and have the new one too.  Every other port reads what it
    did, although its MC entry may be shared or the table full. *)
Theorem set_pvid_get_pvid {W} {O : SmiOps W} {L} {I : VlanImpl W L} s a port vid :
  limits_ok L -> l_ports L < l_mcs L -> rep_smi s a ->
  0 <= port < l_ports L -> 0 <= vid < l_vids L ->
  exists s',
    rtl8366_set_pvid port vid s = (Ok tt, s') /\
    fst (rtl8366_get_pvid port s') = Ok vid /\
    forall q, 0 <= q < l_ports L -> q <> port ->
      if shares_taken L (hw a) vid q then fst (rtl8366_get_pvid q s) = Ok 0 /\ fst (rtl8366_get_pvid q s') = Ok vid
      else fst (rtl8366_get_pvid q s') = fst (rtl8366_get_pvid q s).
Proof.
  intros HL Hlt Hr Hp Hv. destruct (set_pvid_effect HL s a port vid Hr Hp Hv) as (s' & He & Hr').
  pose proof (rep_smi_wf _ _ Hr) as Hwf.
  pose proof (pick_succeeds L HL (hw a) vid Hlt) as Hpick.
  destruct (pick L (hw a) vid) as [[i mc] |] eqn:Hpk; [| contradiction].
  exists s'. split; [exact He |]. split.
  - rewrite (get_pvid_transfer HL _ _ _ Hr' Hp). f_equal.
    apply (pvid_at_put_pvid L HL _ Hwf port vid i mc port Hp Hv Hp Hpk). reflexivity.
  - intros q Hq Hne. rewrite (get_pvid_transfer HL _ _ _ Hr Hq), (get_pvid_transfer HL _ _ _ Hr' Hq).
    pose proof (pvid_at_others L HL _ Hwf port vid i mc q Hp Hv Hq Hne Hpk) as H. cbn [hw set_hw].
    destruct (shares_taken L (hw a) vid q); [destruct H as [-> ->]; auto | f_equal; exact H].
Qed.

(** A switch on which port 3 has the PVID 200 and the others have none: they
    point to the entry 0 that port 3 has taken, and with it to its VID. *)
Definition one_pvid : smi vstate := snd (@rtl8366_set_pvid _ demo_ops 3 200 (demo demoL)).

Lemma rep_one_pvid : rep_smi (I := ideal_impl demoL) one_pvid one_pvid.
Proof.
  destruct (set_pvid_effect (I := ideal_impl demoL) rtl8366s_limits_ok (demo demoL) (demo demoL) 3 200 (rep_demo _ rtl8366s_limits_ok))
    as (s' & He & Hr); [cbn; lia | cbn; lia |].
  unfold one_pvid. rewrite He. cbn [snd]. pose proof (rep_smi_wf _ _ Hr) as Hwf. destruct Hr as (_ & _ & Hr & _).
  split; [reflexivity |]. split; [reflexivity |]. split; [reflexivity |]. rewrite Hr. exact Hwf.
Qed.

Lemma set_pvid_get_pvid_witness :
  (exists s',
    @rtl8366_set_pvid _ demo_ops 2 100 (demo demoL) = (Ok tt, s') /\
    map (fun q => fst (@rtl8366_get_pvid _ demo_ops q s')) (upto 6) = replicate 6 (Ok 100)) /\
  (exists s',
    @rtl8366_set_pvid _ demo_ops 2 100 one_pvid = (Ok tt, s') /\
    map (fun q => fst (@rtl8366_get_pvid _ demo_ops q s')) (upto 6) = [Ok 200; Ok 200; Ok 100; Ok 200; Ok 200; Ok 200]).
Proof.
  split.
  - destruct (set_pvid_get_pvid (I := ideal_impl demoL) (demo demoL) (demo demoL) 2 100 rtl8366s_limits_ok) as (s' & H1 & H2 & H3);
      [reflexivity | apply rep_demo, rtl8366s_limits_ok | cbn; lia | cbn; lia |].
    exists s'. split; [exact H1 |].
    apply (f_equal snd) in H1. cbn [snd] in H1. rewrite <- H1. vm_compute. reflexivity.
  - destruct (set_pvid_get_pvid (I := ideal_impl demoL) one_pvid one_pvid 2 100 rtl8366s_limits_ok) as (s' & H1 & H2 & H3);
      [reflexivity | apply rep_one_pvid | cbn; lia | cbn; lia |].
    exists s'. split; [exact H1 |].
    apply (f_equal snd) in H1. cbn [snd] in H1. rewrite <- H1. vm_compute. reflexivity.
Defined.

(** C19: setting a PVID fails with [-ENOSPC], and with nothing changed, exactly
    when no MC entry holds the VID, none is empty and every one is the entry
    of some port; there is no other failure. *)
Theorem set_pvid_enospc_iff {W} {O : SmiOps W} {L} {I : VlanImpl W L} s a port vid :
  limits_ok L -> rep_smi s a -> 0 <= port < l_ports L -> 0 <= vid < l_vids L ->
  (fst (rtl8366_set_pvid port vid s) = Err (- ENOSPC) <->
   forall i, 0 <= i < l_mcs L ->
     mc_vid (mc_at (hw a) i) <> vid /\
     ~ (mc_vid (mc_at (hw a) i) = 0 /\ mc_member (mc_at (hw a) i) = 0) /\
     exists p, 0 <= p < l_ports L /\ idx_at (hw a) p = i) /\
  (fst (rtl8366_set_pvid port vid s) <> Ok tt ->
   fst (rtl8366_set_pvid port vid s) = Err (- ENOSPC) /\ rep_smi (snd (rtl8366_set_pvid port vid s)) a).
Proof.
  intros HL Hr Hp Hv. destruct (set_pvid_effect HL s a port vid Hr Hp Hv) as (s' & He & Hr').
  rewrite He. rewrite <- (pick_fails L (hw a) vid). cbn [fst snd].
  destruct (pick L (hw a) vid) as [[i mc] |]; (split; [split | intros Hn]); try discriminate;
    try reflexivity; try contradiction. auto.
Qed.

(** A switch of two ports and two MC entries, each the entry of a port. *)
Definition two_limits : limits := Limits 1 2 2 16 7 3 3 7 (fun _ vlan => (0 <? vlan) && (vlan <? 16)).
Definition two_full : smi vstate := Smi 0 0 (VState [VlanMc 1 0 1 0 0; VlanMc 2 0 2 0 0] (a_4k (blank two_limits)) [0; 1] false false [true; true]).

Lemma two_limits_ok : limits_ok two_limits.
Proof. split; cbn; lia. Qed.

Lemma rep_two_full : rep_smi (I := ideal_impl two_limits) two_full two_full.
Proof.
  split; [reflexivity |]. split; [reflexivity |]. split; [reflexivity |].
  destruct (wf_blank two_limits two_limits_ok) as [H1 H2 H3 H4 H5 H6 H7]. split; try assumption; try reflexivity.
  - intros i Hi. cbn in Hi. assert (i = 0 \/ i = 1) as [-> | ->] by lia; vm_compute; intuition discriminate.
  - intros p Hp. cbn in Hp. assert (p = 0 \/ p = 1) as [-> | ->] by lia; vm_compute; intuition discriminate.
Qed.

Lemma set_pvid_enospc_iff_witness :
  fst (@rtl8366_set_pvid _ (ideal_ops two_limits) 0 3 two_full) = Err (- ENOSPC) /\
  rep_smi (I := ideal_impl two_limits) (snd (@rtl8366_set_pvid _ (ideal_ops two_limits) 0 3 two_full)) two_full /\
  fst (@rtl8366_set_pvid _ (ideal_ops two_limits) 0 2 two_full) = Ok tt.
Proof.
  destruct (set_pvid_enospc_iff (I := ideal_impl two_limits) two_full two_full 0 3 two_limits_ok rep_two_full) as (H1 & H2); [cbn; lia | cbn; lia |].
  assert (E : fst (@rtl8366_set_pvid _ (ideal_ops two_limits) 0 3 two_full) = Err (- ENOSPC)).
  { apply H1. intros i Hi. cbn in Hi. assert (i = 0 \/ i = 1) as [-> | ->] by lia; cbn;
      (split; [discriminate | split; [intros [E _]; discriminate |]]); [exists 0 | exists 1]; (split; [lia | reflexivity]). }
  split; [exact E |]. split; [apply H2; rewrite E; discriminate | vm_compute; reflexivity].
Defined.

(** ** Sequences of requests *)

(** A request of the switch framework. *)
Inductive request :=
| SetPvid (port val : Z)
| SetVlanPorts (vlan : Z) (ports : list switch_port)
| SetVlanFid (attr_max vlan value : Z)
| SetVlanEnable (attr_ofs value : Z).

Definition serve {W} {O : SmiOps W} (tagged : Z) (r : request) : M (smi W) unit :=
  match r with
  | SetPvid port val => rtl8366_sw_set_port_pvid port val
  | SetVlanPorts vlan ports => rtl8366_sw_set_vlan_ports tagged vlan ports
  | SetVlanFid attr_max vlan value => rtl8366_sw_set_vlan_fid attr_max vlan value
  | SetVlanEnable attr_ofs value => rtl8366_sw_set_vlan_enable attr_ofs value
  end.

(** Port numbers and VLANs are not negative (the framework passes unsigned
    numbers below [2^31]); nothing else is asked of a request. *)
Definition request_ok (r : request) : Prop :=
  match r with
  | SetPvid port _ => 0 <= s32 (u32 port)
  | SetVlanPorts vlan ports => 0 <= vlan /\ Forall (fun p => 0 <= s32 (fst p)) ports
  | SetVlanFid _ vlan _ => 0 <= vlan
  | SetVlanEnable _ _ => True
  end.

(** The states of a switch after its cache was cleared and any number of
    requests were served, whether they succeeded or not. *)
Inductive reachable {W} {O : SmiOps W} {L} {I : VlanImpl W L} (tagged : Z) : smi W -> Prop :=
| reach_reset s a : rep_smi s a -> reachable tagged (snd (rtl8366_smi_reset_vlan s))
| reach_request s r : reachable tagged s -> request_ok r -> reachable tagged (snd (serve tagged r s)).

Lemma serve_keeps L (HL : limits_ok L) tagged r :
  request_ok r -> keeps L (@serve _ (ideal_ops L) tagged r).
Proof.
  intros Hr. destruct r as [port val | vlan ports | mx vlan v | ofs v]; cbn in *.
  - apply keeps_set_pvid; [exact HL | exact Hr | apply u32_range].
  - apply keeps_set_vlan_ports; [exact HL | apply Hr | apply Hr].
  - apply keeps_set_vlan_fid. exact HL.
  - unfold rtl8366_sw_set_vlan_enable. apply preserves_if; [apply preserves_fail |].
    apply preserves_if; [apply keeps_enable_vlan | apply keeps_enable_vlan4k].
Qed.

Lemma sim_serve {W} {O : SmiOps W} {L} {I : VlanImpl W L} tagged r :
  request_ok r ->
  sim (rep_smi (I := I)) anything (serve tagged r) (@serve _ (ideal_ops L) tagged r).
Proof.
  intros Hr. destruct r as [port val | vlan ports | mx vlan v | ofs v]; cbn in *.
  - apply sim_set_pvid; [exact Hr | apply u32_range].
  - apply sim_sw_set_vlan_ports; apply Hr.
  - apply sim_sw_set_vlan_fid, Hr.
  - unfold rtl8366_sw_set_vlan_enable. apply sim_if; intros _; [apply sim_fail |].
    apply sim_if; intros _; [apply sim_smi_enable_vlan | apply sim_smi_enable_vlan4k].
Qed.

(** Serve a list of requests in turn, collecting the results. *)
Fixpoint serve_all {W} {O : SmiOps W} (tagged : Z) (rs : list request) (s : smi W) : list (res unit) * smi W :=
  match rs with
  | [] => ([], s)
  | r :: rs' =>
      let (x, s') := serve tagged r s in
      let (xs, s'') := serve_all tagged rs' s' in
      (x :: xs, s'')
  end.

(** Refinement, for a whole sequence of requests. *)
Lemma impl_refines {W} {O : SmiOps W} {L} {I : VlanImpl W L} tagged rs s a :
  rep_smi (I := I) s a -> Forall request_ok rs ->
  let c := @serve_all W O tagged rs s in
  let t := @serve_all vstate (ideal_ops L) tagged rs a in
  fst c = fst t /\ rep_smi (I := I) (snd c) (snd t).
Proof.
  intros Hr Hrs. cbv zeta. revert s a Hr.
  induction Hrs as [| r rs Hr0 _ IH]; intros s a Hr; [auto |]. cbn [serve_all].
  destruct (sim_serve (I := I) tagged r Hr0 s a Hr) as (H1 & H2 & _).
  destruct (@serve W _ tagged r s) as [x s1], (@serve vstate _ tagged r a) as [y a1]. cbn [fst snd] in *.
  destruct (IH s1 a1 H2) as [H3 H4].
  destruct (serve_all tagged rs s1) as [xs s2], (serve_all tagged rs a1) as [ys a2]. cbn [fst snd] in *.
  subst. auto.
Qed.

(** Start-up, seen on the tables. *)
Lemma impl_startup {W} {O : SmiOps W} {L} {I : VlanImpl W L} (HL : limits_ok L) s a :
  startup_limits L -> rep_smi (I := I) s a ->
  exists s' b, rtl8366_init_vlan s = (Ok tt, s') /\ rep_smi (I := I) s' b /\
    started L (l_ports L) (hw b) /\ a_vlan_on (hw b) = true /\ a_4k_on (hw b) = false.
Proof.
  intros Hst Hr. pose proof (lo_ports _ HL).
  destruct (init_vlan_run L HL _ Hst (rep_smi_wf _ _ Hr)) as (b & Hb & Hs & _ & _ & Hon & H4on & _).
  assert (Hsmall : l_ports L < 2 ^ 31) by lia.
  destruct (transfer (I := I) _ _ _ s _ _ _ (sim_init_vlan Hsmall) Hr Hb) as (s' & Hs' & Hr').
  exists s', b. auto.
Qed.

Lemma reachable_tables {W} {O : SmiOps W} {L} {I : VlanImpl W L} tagged s :
  limits_ok L -> reachable tagged s -> exists a, rep_smi s a /\ cache_inv L (hw a).
Proof.
  intros HL Hreach. induction Hreach as [s a Hr | s r _ (a & Hr & Hinv) Hok].
  - destruct (reset_vlan_run L HL a (rep_smi_wf _ _ Hr)) as (b & Hb & Hcl & Hwf).
    destruct (transfer _ _ _ s a _ _ sim_reset_vlan Hr Hb) as (s' & Hs & Hr'). rewrite Hs.
    exists b. split; [exact Hr' | eapply cleared_inv; eassumption].
  - pose proof (sim_serve tagged r Hok s a Hr) as (_ & Hr' & _).
    exists (snd (@serve _ (ideal_ops L) tagged r a)). split; [exact Hr' |].
    apply serve_keeps; assumption.
Qed.

(** What the driver reads of an MC entry is the entry of the tables. *)
Lemma cached_entry {W} {O : SmiOps W} {L} {I : VlanImpl W L} (s : smi W) a i mc :
  rep_smi s a -> wf L (hw a) -> 0 <= i < l_mcs L -> fst (ops (get_vlan_mc i) s) = Ok mc ->
  mc_same mc (mc_at (hw a) i) /\ mc_vid mc = mc_vid (mc_at (hw a) i).
Proof.
  intros Hr Hwf Hi Hget. pose proof (sim2_ops _ _ _ (impl_get_vlan_mc i (proj1 Hi)) s a Hr) as H.
  rewrite run_get_mc in H by exact Hi. destruct (ops (get_vlan_mc i) s) as [[x | e] s']; [| contradiction].
  injection Hget as ->. destruct H as [[H _] _]. split; [exact H |]. apply (mc_same_key _ _ H).
Qed.

(** C5: cache coherence. In every state reached from a cleared cache by
    requests of the switch framework, failed ones included, each MC entry
    that caches a VLAN holds the member set, untag set and FID of that VLAN's
    row of the 4K table, as far as the chip keeps them in an entry, and no
    VLAN is cached twice.  Read through the driver's own table accessors. *)
Theorem vlan_cache_coherent {W} {O : SmiOps W} {L} {I : VlanImpl W L} tagged s i mc :
  limits_ok L -> reachable tagged s -> 0 <= i < l_mcs L ->
  fst (ops (get_vlan_mc i) s) = Ok mc -> mc_vid mc <> 0 ->
  (exists row prio, fst (ops (get_vlan_4k (mc_vid mc)) s) = Ok row /\ v4_vid row = mc_vid mc /\
     mc_same mc (VlanMc (v4_vid row) (v4_untag row) (v4_member row) (v4_fid row) prio)) /\
  forall j mc', 0 <= j < l_mcs L -> fst (ops (get_vlan_mc j) s) = Ok mc' ->
    mc_vid mc' = mc_vid mc -> j = i.
Proof.
  intros HL Hreach Hi Hget Hn.
  destruct (reachable_tables tagged s HL Hreach) as (a & Hr & Hwf & Hco & Hone).
  pose proof (fun i mc => cached_entry s a i mc Hr Hwf) as Hmc.
  destruct (Hmc i mc Hi Hget) as [Hs Ev]. rewrite Ev in *.
  destruct (wf_mc _ _ Hwf _ Hi) as [Hnn Hfit]. unfold mc_nonneg, mc_fits in *.
  assert (Hv : 0 <= mc_vid (mc_at (hw a) i) < l_vids L) by lia. split.
  - exists (row_at (hw a) (mc_vid (mc_at (hw a) i))), (mc_priority (mc_at (hw a) i)).
    destruct (sim_ops _ _ _ (impl_get_vlan_4k _ (proj1 Hv)) s a Hr) as (H1 & _).
    rewrite H1, run_get_4k by exact Hv. destruct (wf_row _ _ Hwf _ Hv) as [_ Hrv].
    split; [reflexivity |]. split; [exact Hrv |]. rewrite Hrv.
    destruct (Hco i Hi Hn) as (<- & <- & <-). destruct (mc_at (hw a) i). exact Hs.
  - intros j mc' Hj Hget' He. destruct (Hmc j mc' Hj Hget') as [_ Ev'].
    apply Hone; try assumption; congruence.
Qed.

Lemma vlan_cache_coherent_witness :
  exists row prio,
  fst (@ops vstate _ (@get_vlan_4k _ demo_ops 100)
    (snd (@serve _ demo_ops 0 (SetPvid 2 100) (snd (@rtl8366_smi_reset_vlan _ demo_ops (demo demoL))))))
  = Ok row /\ v4_vid row = 100 /\
  VlanMc 100 0 0 0 0 = VlanMc (v4_vid row) (v4_untag row) (v4_member row) (v4_fid row) prio.
Proof.
  refine (proj1 (vlan_cache_coherent (I := ideal_impl demoL) 0 _ 0 (VlanMc 100 0 0 0 0)
    rtl8366s_limits_ok _ _ _ _)).
  - apply reach_request; [| cbn; discriminate].
    eapply reach_reset. apply rep_demo, rtl8366s_limits_ok.
  - cbn; lia.
  - vm_compute. reflexivity.
  - discriminate.
Defined.

(** Types. In every state reached from a cleared cache by requests, what
    the chip driver returns has the ranges its fields promise: the reads of a
    port, a VID or an index the switch has succeed, every entry read fits the
    limits of the chip and could be written back, a row is the row of its
    VID, and an MC index names an entry. *)
Theorem reachable_reads_typed {W} {O : SmiOps W} {L} {I : VlanImpl W L} tagged s :
  limits_ok L -> reachable tagged s ->
  (forall i, 0 <= i < l_mcs L -> exists mc s',
     ops (get_vlan_mc i) s = (Ok mc, s') /\ mc_ok L mc /\ fst (ops (set_vlan_mc i mc) s') = Ok tt) /\
  (forall v, 0 <= v < l_vids L -> exists row s',
     ops (get_vlan_4k v) s = (Ok row, s') /\ row_ok L row /\ v4_vid row = v /\
     fst (ops (set_vlan_4k row) s') = Ok tt) /\
  (forall p, 0 <= p < l_ports L -> exists i s',
     ops (get_mc_index p) s = (Ok i, s') /\ 0 <= i < l_mcs L /\ fst (ops (set_mc_index p i) s') = Ok tt).
Proof.
  intros HL Hreach. destruct (reachable_tables tagged s HL Hreach) as (a & Hr & Hwf & _).
  split; [| split].
  - intros i Hi. pose proof (sim2_ops _ _ _ (impl_get_vlan_mc i (proj1 Hi)) s a Hr) as H.
    rewrite run_get_mc in H by exact Hi. destruct (ops (get_vlan_mc i) s) as [[mc | e] s']; [| contradiction].
    destruct H as ((Hs & Hx & Hy) & Hr'). exists mc, s'. split; [reflexivity |]. split; [exact Hx |].
    destruct (sim_ops _ _ _ (impl_set_vlan_mc i mc _ (proj1 Hi) (mc_ok_nonneg _ Hx) (mc_ok_nonneg _ Hy) Hs) s' a Hr')
      as (H1 & _).
    rewrite H1, run_set_mc by (assumption || apply Hy). reflexivity.
  - intros v Hv. destruct (sim_ops _ _ _ (impl_get_vlan_4k v (proj1 Hv)) s a Hr) as (H1 & H2 & H3).
    rewrite run_get_4k in H1, H2 by exact Hv. destruct (ops (get_vlan_4k v) s) as [[row | e] s']; cbn in *; [| discriminate].
    destruct H3 as [Hok Hvid]. exists row, s'. split; [reflexivity |]. split; [exact Hok |]. split; [exact Hvid |].
    destruct (sim_ops _ _ _ (impl_set_vlan_4k row (row_ok_nonneg _ Hok)) s' a H2) as (H4 & _).
    rewrite H4, run_set_4k by apply Hok. reflexivity.
  - intros p Hp. destruct (sim_ops _ _ _ (impl_get_mc_index p (proj1 Hp)) s a Hr) as (H1 & H2 & H3).
    rewrite run_get_idx in H1, H2 by exact Hp. destruct (ops (get_mc_index p) s) as [[i | e] s']; cbn in *; [| discriminate].
    exists i, s'. split; [reflexivity |]. split; [exact H3 |].
    destruct (sim_ops _ _ _ (impl_set_mc_index p i (proj1 Hp) (proj1 H3)) s' a H2) as (H4 & _).
    rewrite H4, run_set_idx by assumption. reflexivity.
Qed.

Lemma reachable_reads_typed_witness :
  exists i s',
    @ops vstate _ (@get_mc_index _ demo_ops 2)
      (snd (@serve _ demo_ops 0 (SetPvid 2 100) (snd (@rtl8366_smi_reset_vlan _ demo_ops (demo demoL)))))
    = (Ok i, s') /\ 0 <= i < 16 /\ fst (@ops vstate _ (@set_mc_index _ demo_ops 2 i) s') = Ok tt.
Proof.
  apply (proj2 (proj2 (reachable_reads_typed (I := ideal_impl demoL) 0
    (snd (@serve _ demo_ops 0 (SetPvid 2 100) (snd (@rtl8366_smi_reset_vlan _ demo_ops (demo demoL)))))
    rtl8366s_limits_ok (reach_request 0 _ (SetPvid 2 100)
      (reach_reset 0 _ _ (rep_demo _ rtl8366s_limits_ok)) ltac:(cbn; discriminate))))).
  cbn. lia.
Defined.

(** C6: start-up isolates the ports. After [rtl8366_init_vlan] every port [p]
    has its own VLAN [p + 1] as PVID; the CPU port's VLAN has all ports, any
    other port's VLAN has that port and the CPU port only, all untagged; the
    flags say VLANs on, 4K mode off. *)
Theorem init_vlan_isolates_ports {W} {O : SmiOps W} {L} {I : VlanImpl W L} s a :
  limits_ok L -> startup_limits L -> rep_smi s a ->
  exists s',
    rtl8366_init_vlan s = (Ok tt, s') /\ vlan_enabled s' = 1 /\ vlan4k_enabled s' = 0 /\
    forall p, 0 <= p < l_ports L ->
      fst (rtl8366_get_pvid p s') = Ok (p + 1) /\
      exists row, fst (ops (get_vlan_4k (p + 1)) s') = Ok row /\
        v4_untag row = v4_member row /\ v4_fid row = 0 /\
        forall q, 0 <= q < l_ports L ->
          Z.testbit (v4_member row) q = (q =? p) || (q =? l_cpu L) || (p =? l_cpu L).
Proof.
  intros HL Hst Hr. pose proof (lo_ports _ HL).
  destruct (init_vlan_run L HL a Hst (rep_smi_wf _ _ Hr)) as (b & Hb & Hs & He & H4 & _ & _ & _).
  assert (Hsmall : l_ports L < 2 ^ 31) by lia.
  destruct (transfer _ _ _ s a _ _ (sim_init_vlan Hsmall) Hr Hb) as (s' & Hs' & Hr').
  exists s'. split; [exact Hs' |]. destruct Hr' as (Hf1 & Hf2 & Hrep).
  split; [congruence |]. split; [congruence |]. intros p Hp.
  assert (Hr' : rep_smi s' b) by (split; [exact Hf1 | split; [exact Hf2 | exact Hrep]]).
  destruct Hst as (Hst1 & Hst2 & _). split.
  - rewrite (get_pvid_transfer HL _ _ _ Hr' Hp). f_equal. unfold pvid_at.
    rewrite (st_idx _ _ _ Hs p) by lia. rewrite (st_mc _ _ _ Hs) by lia.
    destruct (Z.ltb_spec p (l_ports L)); lia.
  - exists (row_at (hw b) (p + 1)).
    destruct (sim_ops _ _ _ (impl_get_vlan_4k (p + 1) ltac:(lia)) s' b Hr') as (H1 & _).
    rewrite H1, run_get_4k by lia. rewrite (st_row _ _ _ Hs p Hp). cbn [v4_untag v4_member v4_fid].
    repeat split. intros q Hq. apply init_vlan_mask_bits; assumption.
Qed.

Lemma init_vlan_isolates_ports_witness :
  exists s',
    @rtl8366_init_vlan _ demo_ops (demo demoL) = (Ok tt, s') /\ vlan_enabled s' = 1 /\
    vlan4k_enabled s' = 0 /\
    forall p, 0 <= p < 6 ->
      fst (@rtl8366_get_pvid _ demo_ops p s') = Ok (p + 1) /\
      exists row, fst (ops (@get_vlan_4k _ demo_ops (p + 1)) s') = Ok row /\
        v4_untag row = v4_member row /\ v4_fid row = 0 /\
        forall q, 0 <= q < 6 -> Z.testbit (v4_member row) q = (q =? p) || (q =? 5) || (p =? 5).
Proof.
  apply (init_vlan_isolates_ports (I := ideal_impl demoL) (demo demoL) (demo demoL));
    [apply rtl8366s_limits_ok | | apply rep_demo, rtl8366s_limits_ok].
  unfold startup_limits. change (Z.ones (l_ports demoL)) with 63. cbn. lia.
Defined.

(** ** Attribute round trips *)

Lemma ports_from_ids tagged i n ports :
  0 <= i -> n <= 2 ^ 31 -> ports_from tagged i n ports -> Forall (fun p => 0 <= s32 (fst p)) ports.
Proof.
  intros Hi Hn. revert i Hi. induction ports as [| [id fl] ps IH]; intros i Hi Hp; constructor.
  - destruct Hp as (Hid & _). cbn. rewrite s32_small; lia.
  - destruct Hp as (Hid & _ & Hps). apply (IH (id + 1)); [lia | exact Hps].
Qed.

(** Round trip of a VLAN's port list: storing a list of tagged and
    untagged ports, in port order, and reading the VLAN's ports gives the
    same list, from any state in which the VLAN number is valid. *)
Theorem vlan_ports_roundtrip {W} {O : SmiOps W} {L} {I : VlanImpl W L} tagged s a vlan ports :
  limits_ok L -> startup_limits L -> l_ports L < l_mcs L -> 0 <= tagged -> rep_smi s a ->
  0 <= vlan -> is_vlan_valid (cbool (vlan4k_enabled s)) vlan = true -> ports_from tagged 0 (l_ports L) ports ->
  exists s', rtl8366_sw_set_vlan_ports tagged vlan ports s = (Ok tt, s') /\
    fst (rtl8366_sw_get_vlan_ports tagged vlan s') = Ok ports.
Proof.
  intros HL Hst Hlt Ht Hr Hv0 Hv Hp. pose proof (lo_ports _ HL). pose proof Hr as (_ & Hf2 & _).
  rewrite impl_valid, Hf2 in Hv by exact Hv0. pose proof (lo_valid _ HL _ _ Hv0 Hv) as Hrange.
  destruct (vlan_ports_run L HL tagged Ht vlan ports a Hst Hlt (rep_smi_wf _ _ Hr) Hv0 Hv Hp)
    as (b & Hset & Hwf & Hget).
  assert (Hids : Forall (fun p => 0 <= s32 (fst p)) ports).
  { eapply ports_from_ids; [| | exact Hp]; lia. }
  destruct (transfer _ _ _ s a _ _ (sim_sw_set_vlan_ports tagged vlan ports Hv0 Hids) Hr Hset)
    as (s' & Hs & Hr').
  exists s'. split; [exact Hs |].
  destruct (transfer _ _ _ s' b _ _ (sim_sw_get_vlan_ports tagged vlan Hv0) Hr' Hget)
    as (s'' & -> & _). reflexivity.
Qed.

Lemma vlan_ports_roundtrip_witness :
  exists s', @rtl8366_sw_set_vlan_ports _ demo_ops 0 9 [(0, 0); (3, 0); (5, 1)] (demo demoL) = (Ok tt, s') /\
    fst (@rtl8366_sw_get_vlan_ports _ demo_ops 0 9 s') = Ok [(0, 0); (3, 0); (5, 1)].
Proof.
  apply (vlan_ports_roundtrip (I := ideal_impl demoL) 0 (demo demoL) (demo demoL) 9 [(0, 0); (3, 0); (5, 1)]);
    [apply rtl8366s_limits_ok | | reflexivity | lia | apply rep_demo, rtl8366s_limits_ok | lia | reflexivity
    | unfold ports_from; change (BIT 0) with 1; cbn; lia].
  unfold startup_limits. change (Z.ones (l_ports demoL)) with 63. cbn. lia.
Defined.

(** Round trip of a VLAN's FID: storing a FID in range and reading it
    gives that FID and leaves the port list of the VLAN as it was. *)
Theorem vlan_fid_roundtrip {W} {O : SmiOps W} {L} {I : VlanImpl W L} tagged attr_max s a vlan fid ports :
  limits_ok L -> 0 <= tagged -> rep_smi s a ->
  0 <= vlan -> is_vlan_valid (cbool (vlan4k_enabled s)) vlan = true -> 0 <= fid <= attr_max -> fid <= l_fid L ->
  fst (rtl8366_sw_get_vlan_ports tagged vlan s) = Ok ports ->
  exists s', rtl8366_sw_set_vlan_fid attr_max vlan fid s = (Ok tt, s') /\
    fst (rtl8366_sw_get_vlan_fid vlan s') = Ok fid /\
    fst (rtl8366_sw_get_vlan_ports tagged vlan s') = Ok ports.
Proof.
  intros HL Ht Hr Hv0 Hv Hf Hfl Hports. pose proof Hr as (_ & Hf2 & _).
  rewrite impl_valid, Hf2 in Hv by exact Hv0. pose proof (lo_valid _ HL _ _ Hv0 Hv) as Hrange.
  destruct (vlan_fid_run L HL tagged attr_max vlan fid a (rep_smi_wf _ _ Hr) Hv0 Hv Hf Hfl)
    as (b & Hset & Hwf & Hget & Hsame).
  destruct (transfer _ _ _ s a _ _ (sim_sw_set_vlan_fid attr_max vlan fid Hv0) Hr Hset)
    as (s' & Hs & Hr').
  exists s'. split; [exact Hs |]. split.
  - destruct (transfer _ _ _ s' b _ _ (sim_sw_get_vlan_fid vlan Hv0) Hr' Hget) as (s'' & -> & _).
    reflexivity.
  - destruct (sim_sw_get_vlan_ports (I := I) tagged vlan Hv0 s a Hr) as (H1 & _).
    destruct (sim_sw_get_vlan_ports (I := I) tagged vlan Hv0 s' b Hr') as (H2 & _).
    rewrite Hports in H1. rewrite H2.
    assert (Hst : @rtl8366_sw_get_vlan_ports _ (ideal_ops L) tagged vlan a = (Ok ports, a)).
    { rewrite (surjective_pairing (@rtl8366_sw_get_vlan_ports _ (ideal_ops L) tagged vlan a)), <- H1.
      f_equal. apply get_vlan_ports_same. }
    rewrite (Hsame _ Hst). reflexivity.
Qed.

Lemma vlan_fid_roundtrip_witness :
  exists s', @rtl8366_sw_set_vlan_fid _ demo_ops 7 9 5 (demo demoL) = (Ok tt, s') /\
    fst (@rtl8366_sw_get_vlan_fid _ demo_ops 9 s') = Ok 5 /\
    fst (@rtl8366_sw_get_vlan_ports _ demo_ops 0 9 s') = Ok [].
Proof.
  apply (vlan_fid_roundtrip (I := ideal_impl demoL) 0 7 (demo demoL) (demo demoL) 9 5 []);
    [apply rtl8366s_limits_ok | lia | apply rep_demo, rtl8366s_limits_ok | lia | reflexivity
    | lia | cbn; lia | vm_compute; reflexivity].
Defined.

(** ** The enable flags *)

(** 4K mode only with VLANs on. *)
Definition flags_ok {W} (s : smi W) : Prop := vlan4k_enabled s <> 0 -> vlan_enabled s <> 0.

Section Flags.
Context {W : Type} {O : SmiOps W} {C : ChipOps W}.
#[local] Abbreviation keeps_flags := (preserves flags_ok).

Lemma flags_ops {A} (m : M W A) : keeps_flags (ops m).
Proof. intros s H. unfold ops. destruct (m (hw s)). exact H. Qed.

Lemma flags_enable_vlan e : keeps_flags (rtl8366_smi_enable_vlan e).
Proof.
  intros s H. unfold rtl8366_smi_enable_vlan, bind, ops, modify, flags_ok, cbool in *.
  destruct (enable_vlan e (hw s)) as [[u | err] w]; cbn in *; [| exact H].
  destruct (Z.eqb_spec e 0) as [-> | Hne]; cbn.
  - destruct (enable_vlan4k 0 w) as [r w']. cbn. lia.
  - intros _. exact Hne.
Qed.

Lemma flags_enable_vlan4k e : keeps_flags (rtl8366_smi_enable_vlan4k e).
Proof.
  intros s H. unfold rtl8366_smi_enable_vlan4k, bind, ops, modify, flags_ok, cbool in *.
  destruct (Z.eqb_spec e 0) as [-> | Hne]; cbn.
  - destruct (enable_vlan4k 0 (hw s)) as [[u | err] w]; cbn in *; [lia | exact H].
  - destruct (enable_vlan e (hw s)) as [[u | err] w]; cbn in *; [| exact H].
    destruct (enable_vlan4k e w) as [[u' | err] w']; cbn in *; intros; exact Hne.
Qed.

Lemma flags_valid v : keeps_flags (vlan_is_valid v).
Proof. intros s H. exact H. Qed.
#[local] Hint Resolve flags_ops flags_enable_vlan flags_enable_vlan4k flags_valid : preserves.

Lemma flags_mc_is_used i : keeps_flags (rtl8366_mc_is_used i).
Proof. unfold rtl8366_mc_is_used, search. auto 10 with preserves. Qed.
#[local] Hint Resolve flags_mc_is_used : preserves.
Lemma flags_set_vlan vid m u f : keeps_flags (rtl8366_set_vlan vid m u f).
Proof. unfold rtl8366_set_vlan, search. auto 12 with preserves. Qed.
Lemma flags_get_pvid p : keeps_flags (rtl8366_get_pvid p).
Proof. unfold rtl8366_get_pvid. auto with preserves. Qed.
Lemma flags_set_pvid p v : keeps_flags (rtl8366_set_pvid p v).
Proof. unfold rtl8366_set_pvid, search. auto 30 with preserves. Qed.
#[local] Hint Resolve flags_set_vlan flags_get_pvid flags_set_pvid : preserves.
Lemma flags_ports_loop tagged v ps acc : keeps_flags (sw_set_vlan_ports_loop tagged v ps acc).
Proof.
  revert acc. induction ps as [| [id fl] ps IH]; intros [m u]; cbn [sw_set_vlan_ports_loop];
    unfold sw_set_vlan_port; auto 12 with preserves.
Qed.
Lemma flags_reset_vlan : keeps_flags rtl8366_smi_reset_vlan.
Proof. unfold rtl8366_smi_reset_vlan, for_each. auto 12 with preserves. Qed.
#[local] Hint Resolve flags_ports_loop flags_reset_vlan : preserves.
Lemma flags_serve tagged r : keeps_flags (serve tagged r).
Proof.
  destruct r; cbn [serve]; unfold rtl8366_sw_set_port_pvid, rtl8366_sw_set_vlan_ports,
    rtl8366_sw_set_vlan_fid, rtl8366_sw_set_vlan_enable; auto 20 with preserves.
Qed.
Lemma flags_init_vlan : keeps_flags rtl8366_init_vlan.
Proof. unfold rtl8366_init_vlan, for_each. auto 12 with preserves. Qed.
Lemma flags_reset : keeps_flags rtl8366_reset.
Proof. unfold rtl8366_reset. auto 10 with preserves. Qed.
Lemma flags_all_ports e : keeps_flags (rtl8366_smi_enable_all_ports e).
Proof. unfold rtl8366_smi_enable_all_ports, for_each. auto 10 with preserves. Qed.
#[local] Hint Resolve flags_init_vlan flags_reset flags_all_ports : preserves.
Lemma flags_reset_switch : keeps_flags rtl8366_sw_reset_switch.
Proof. unfold rtl8366_sw_reset_switch. auto 12 with preserves. Qed.
Lemma flags_smi_init mii : keeps_flags (rtl8366_smi_init mii).
Proof.
  unfold rtl8366_smi_init, __rtl8366_smi_init, __rtl8366_smi_cleanup. auto 20 with preserves.
Qed.
End Flags.

(** 4K mode is never recorded as on while VLANs are recorded as off. This
    holds for every chip driver and every way its operations may fail: each
    request, start-up, and a switch reset keep it. *)
Theorem vlan4k_implies_vlan {W} {O : SmiOps W} {C : ChipOps W} tagged r mii (s : smi W) :
  flags_ok s ->
  flags_ok (snd (serve tagged r s)) /\ flags_ok (snd (rtl8366_smi_init mii s)) /\
  flags_ok (snd (rtl8366_sw_reset_switch s)).
Proof.
  intros H. split; [apply flags_serve, H |]. split; [apply flags_smi_init, H | apply flags_reset_switch, H].
Qed.

(** A board without a reset line around the abstract switch. *)
#[local] Instance demo_chip : ChipOps vstate := {|
  hw_reset := None; detect := ret tt; reset_chip := ret tt; setup := ret tt;
  get_mib_counter _ _ := ret 0
|}.

Lemma vlan4k_implies_vlan_witness :
  flags_ok (snd (@serve _ demo_ops 0 (SetVlanEnable 2 1) (demo demoL))) /\
  flags_ok (snd (@rtl8366_smi_init _ demo_ops demo_chip (ret tt) (demo demoL))) /\
  flags_ok (snd (@rtl8366_sw_reset_switch _ demo_ops demo_chip (demo demoL))).
Proof.
  apply (@vlan4k_implies_vlan _ demo_ops demo_chip 0 (SetVlanEnable 2 1) (ret tt) (demo demoL)).
  intros H. exact H.
Defined.
