(* ===== verification/Regs.v ===== *)
(** * Registers of a switch

    The register interface the chip drivers are written against, its two
    transports (the SMI wire of [SmiWire] and the MDIO window), and what a
    chip driver relies on of the silicon behind it. *)

From S2P Require Import Prelude CMonad SmiWire.

(** ** The interface: [rtl8366_smi_read_reg] and its siblings *)

Class RegBus (W : Type) := {
  rtl8366_smi_read_reg : Z -> M W Z;
  rtl8366_smi_write_reg : Z -> Z -> M W unit;
  rtl8366_smi_write_reg_noack : Z -> Z -> M W unit
}.

Definition rtl8366_smi_rmwr {W} `{RegBus W} (addr mask data : Z) : M W unit :=
  t <- rtl8366_smi_read_reg addr ;;
  rtl8366_smi_write_reg addr (u32 (Z.lor (Z.land t (Z.lnot mask)) data)).

(** The names the chip drivers' code is written with below. *)
Definition rd {W} `{RegBus W} (addr : Z) : M W Z := rtl8366_smi_read_reg addr.
Definition wr {W} `{RegBus W} (addr data : Z) : M W unit := rtl8366_smi_write_reg addr data.

(** The words of a counter, most significant first: [i] words to go. *)
Fixpoint read_mib_words {W} `{RegBus W} (addr : Z) (i : nat) (mibvalue : Z) : M W Z :=
  match i with
  | O => ret mibvalue
  | S i' =>
      data <- rd (u32 (addr + Z.of_nat i')) ;;
      read_mib_words addr i' (u64 (Z.lor (Z.shiftl mibvalue 16) (Z.land data 0xFFFF)))
  end.

(** ** The transports *)

Definition MDC_MDIO_CTRL0_REG : Z := 31.
Definition MDC_MDIO_START_REG : Z := 29.
Definition MDC_MDIO_CTRL1_REG : Z := 21.
Definition MDC_MDIO_ADDRESS_REG : Z := 23.
Definition MDC_MDIO_DATA_WRITE_REG : Z := 24.
Definition MDC_MDIO_DATA_READ_REG : Z := 25.
Definition MDC_MDIO_START_OP : Z := 0xFFFF.
Definition MDC_MDIO_ADDR_OP : Z := 0x000E.
Definition MDC_MDIO_READ_OP : Z := 0x0001.
Definition MDC_MDIO_WRITE_OP : Z := 0x0003.
Definition MDC_REALTEK_PHY_ADDR : Z := 0x0.

(** The part of [struct rtl8366_smi] the transports use.  [bus] is the state
    of the external MDIO bus and [mdio_lock] its lock. *)
Record transport (B : Type) := Transport {
  pins_of : wire;
  bus_of : B;
  mdio_lock : bool
}.
Arguments Transport {B}.
Arguments pins_of {B}.
Arguments bus_of {B}.
Arguments mdio_lock {B}.

Section Transport.
(** [mbus->write] and [mbus->read]: both return an [int]. *)
Context {B : Type}.
Variable mbus_write : Z -> Z -> Z -> B -> Z * B.
Variable mbus_read : Z -> Z -> B -> Z * B.
Variable ext_mbus : bool.
Variable phy_id clk_delay cmd_read cmd_write : Z.
Variable slave : list (option bool) -> bool.

Definition set_mdio_lock (b : bool) (t : transport B) : transport B :=
  Transport (pins_of t) (bus_of t) b.
(** The result of the bus write is dropped; the value is a [u16]. *)
Definition mbus_put (reg val : Z) : M (transport B) unit := modify (fun t =>
  Transport (pins_of t) (snd (mbus_write phy_id reg (u16 val) (bus_of t))) (mdio_lock t)).
(** [*data = mbus->read(...)]: a negative error becomes a [u32]. *)
Definition mbus_get (reg : Z) : M (transport B) Z := fun t =>
  let (v, b) := mbus_read phy_id reg (bus_of t) in
  (Ok (u32 v), Transport (pins_of t) b (mdio_lock t)).

Definition __rtl8366_mdio_read_reg (addr : Z) : M (transport B) Z :=
  modify (set_mdio_lock true) ;;
  mbus_put MDC_MDIO_START_REG MDC_MDIO_START_OP ;;
  mbus_put MDC_MDIO_CTRL0_REG MDC_MDIO_ADDR_OP ;;
  mbus_put MDC_MDIO_START_REG MDC_MDIO_START_OP ;;
  mbus_put MDC_MDIO_ADDRESS_REG addr ;;
  mbus_put MDC_MDIO_START_REG MDC_MDIO_START_OP ;;
  mbus_put MDC_MDIO_CTRL1_REG MDC_MDIO_READ_OP ;;
  mbus_put MDC_MDIO_START_REG MDC_MDIO_START_OP ;;
  data <- mbus_get MDC_MDIO_DATA_READ_REG ;;
  modify (set_mdio_lock false) ;;
  ret data.

Definition __rtl8366_mdio_write_reg (addr data : Z) : M (transport B) unit :=
  modify (set_mdio_lock true) ;;
  mbus_put MDC_MDIO_START_REG MDC_MDIO_START_OP ;;
  mbus_put MDC_MDIO_CTRL0_REG MDC_MDIO_ADDR_OP ;;
  mbus_put MDC_MDIO_START_REG MDC_MDIO_START_OP ;;
  mbus_put MDC_MDIO_ADDRESS_REG addr ;;
  mbus_put MDC_MDIO_START_REG MDC_MDIO_START_OP ;;
  mbus_put MDC_MDIO_DATA_WRITE_REG data ;;
  mbus_put MDC_MDIO_START_REG MDC_MDIO_START_OP ;;
  mbus_put MDC_MDIO_CTRL1_REG MDC_MDIO_WRITE_OP ;;
  modify (set_mdio_lock false).

(** A transaction on the wire: [phy] is the state of the pins. *)
Definition on_wire {A} (m : M wire A) : M (transport B) A := fun t =>
  let (r, w) := m (pins_of t) in (r, Transport w (bus_of t) (mdio_lock t)).

#[export] Instance smi_bus : RegBus (transport B) := {|
  rtl8366_smi_read_reg addr :=
    if ext_mbus then __rtl8366_mdio_read_reg addr
    else on_wire (__rtl8366_smi_read_reg clk_delay cmd_read slave addr);
  rtl8366_smi_write_reg addr data :=
    if ext_mbus then __rtl8366_mdio_write_reg addr data
    else on_wire (__rtl8366_smi_write_reg clk_delay cmd_write slave addr data true);
  rtl8366_smi_write_reg_noack addr data :=
    on_wire (__rtl8366_smi_write_reg clk_delay cmd_write slave addr data false)
|}.
End Transport.

(** ** The silicon

    A switch keeps its configuration in 16-bit registers and its 4K VLAN
    table behind a window: a command written to the control register copies
    the row a key register selects to the read words, or the write words to
    that row. *)

Record geometry := Geometry {
  g_storage : Z -> bool;   (* configuration registers: they hold what is written *)
  g_ctrl : Z;              (* table access control *)
  g_rd : Z;                (* its read command *)
  g_wr : Z;                (* its write command *)
  g_rbase : Z;             (* first read word *)
  g_key : Z;               (* the register that selects the row *)
  g_wbase : Z;             (* first write word *)
  g_words : Z              (* words per row *)
}.

Definition is_rword (G : geometry) (a : Z) : bool :=
  (g_rbase G <=? a) && (a <? g_rbase G + g_words G).

Definition visible (G : geometry) (a : Z) : bool := g_storage G a || is_rword G a.

(** Registers that take a write: the window and the key, too. *)
Definition is_wword (G : geometry) (a : Z) : bool :=
  (g_wbase G <=? a) && (a <? g_wbase G + g_words G).
Definition writable (G : geometry) (a : Z) : bool := g_storage G a || is_wword G a || (a =? g_key G).

Lemma writable_storage G a : g_storage G a = true -> writable G a = true.
Proof. unfold writable. intros ->. reflexivity. Qed.

Lemma writable_word G k : 0 <= k < g_words G -> writable G (g_wbase G + k) = true.
Proof. intros Hk. unfold writable, is_wword. lia. Qed.

Lemma writable_key G : writable G (g_key G) = true.
Proof. unfold writable. rewrite Z.eqb_refl. apply orb_true_r. Qed.

Create HintDb regs discriminated.
#[export] Hint Resolve writable_storage writable_word writable_key : regs.

Lemma visible_storage G a : g_storage G a = true -> visible G a = true.
Proof. unfold visible. intros ->. reflexivity. Qed.

(** What the chip drivers rely on.  [hw_ok] holds while the bus works. *)
Class SwitchHw (W : Type) {B : RegBus W} (G : geometry) := {
  hw_ok : W -> Prop;
  hw_reg : W -> Z -> Z;             (* the registers *)
  hw_row : W -> Z -> Z -> Z;        (* word [i] of row [vid] *)
  hw_reg_range w a : 0 <= hw_reg w a < 65536;
  hw_row_range w v i : 0 <= hw_row w v i < 65536;
  hw_read a w : hw_ok w -> visible G a = true ->
    wp (rtl8366_smi_read_reg a)
       (fun d w' => d = hw_reg w a /\ hw_ok w' /\
                    (forall b, visible G b = true -> hw_reg w' b = hw_reg w b) /\
                    (forall v i, hw_row w' v i = hw_row w v i)) never w;
  hw_write a d w : hw_ok w -> writable G a = true ->
    wp (rtl8366_smi_write_reg a d)
       (fun _ w' => hw_ok w' /\
                    (forall b, writable G b = true ->
                       hw_reg w' b = if b =? a then u16 d else hw_reg w b) /\
                    (forall v i, hw_row w' v i = hw_row w v i)) never w;
  hw_table_read w : hw_ok w ->
    wp (rtl8366_smi_write_reg (g_ctrl G) (g_rd G))
       (fun _ w' => hw_ok w' /\
          (forall i, 0 <= i < g_words G ->
             hw_reg w' (g_rbase G + i) = hw_row w (Z.land (hw_reg w (g_key G)) 0xfff) i) /\
          (forall b, g_storage G b = true -> hw_reg w' b = hw_reg w b) /\
          (forall v i, hw_row w' v i = hw_row w v i)) never w;
  hw_table_write w : hw_ok w ->
    wp (rtl8366_smi_write_reg (g_ctrl G) (g_wr G))
       (fun _ w' => hw_ok w' /\ (forall b, g_storage G b = true -> hw_reg w' b = hw_reg w b) /\
          (forall v i, 0 <= i < g_words G ->
             hw_row w' v i = if v =? Z.land (hw_reg w (g_key G)) 0xfff
                             then hw_reg w (g_wbase G + i) else hw_row w v i)) never w
}.

(** A read-modify-write of a configuration register. *)
Lemma hw_rmwr {W} {B : RegBus W} {G} {HW : SwitchHw W G} a mask d w :
  hw_ok w -> g_storage G a = true -> 0 <= mask < 2 ^ 32 -> 0 <= d < 2 ^ 32 ->
  wp (rtl8366_smi_rmwr a mask d)
     (fun _ w' => hw_ok w' /\
        (forall b, g_storage G b = true ->
           hw_reg w' b = if b =? a then u16 (Z.lor (Z.land (hw_reg w a) (Z.lnot mask)) d)
                         else hw_reg w b) /\
        (forall v i, hw_row w' v i = hw_row w v i)) never w.
Proof.
  intros Hok Hs Hm Hd. unfold rtl8366_smi_rmwr. wp_step.
  wp_use (hw_read a w Hok); [apply visible_storage, Hs |].
  intros t w1 (-> & Hok1 & Hr1 & Hrow1). eapply wp_mono; [apply (hw_write a); auto with regs | cbv beta | intros ? ? []].
  intros [] w2 (Hok2 & Hr2 & Hrow2). split; [exact Hok2 |]. split.
  - intros b Hb. rewrite Hr2, Hr1 by (auto with regs || apply visible_storage, Hb). destruct (b =? a); [| reflexivity].
    unfold u16, u32. apply Z.bits_inj'. intros i Hi. rewrite !testbit_uwrap by lia.
    destruct (Z.ltb_spec i 16), (Z.ltb_spec i 32); try lia; reflexivity.
  - intros v i. rewrite Hrow2. apply Hrow1.
Qed.

(** Setting or clearing one bit of a register. *)
Lemma bit_rmw t n (b : bool) i :
  0 <= n < 16 -> 0 <= i ->
  Z.testbit (u16 (Z.lor (Z.land t (Z.lnot (BIT n))) (if b then BIT n else 0))) i
  = if i =? n then b else (i <? 16) && Z.testbit t i.
Proof.
  intros Hn Hi. unfold u16. rewrite testbit_uwrap, Z.lor_spec, Z.land_spec, Z.lnot_spec, testbit_BIT by lia.
  assert (Hb : Z.testbit (if b then BIT n else 0) i = b && (n =? i)).
  { destruct b; [rewrite testbit_BIT by lia | rewrite Z.testbit_0_l]; reflexivity. }
  rewrite Hb. destruct (Z.eqb_spec n i), (Z.eqb_spec i n), (Z.ltb_spec i 16); try lia;
    destruct b, (Z.testbit t i); reflexivity.
Qed.

(** A field of a register after [rtl8366_smi_rmwr] on that field. *)
Lemma rmwr_field {W} {B : RegBus W} {G} {HW : SwitchHw W G} r sh n v w :
  hw_ok w -> g_storage G r = true -> 0 <= sh -> 0 < n -> sh + n <= 16 -> 0 <= v < 2 ^ n ->
  exists w', rtl8366_smi_rmwr r (Z.shiftl (Z.ones n) sh) (Z.shiftl v sh) w = (Ok tt, w') /\ hw_ok w' /\
    Z.land (Z.shiftr (hw_reg w' r) sh) (Z.ones n) = v /\
    (forall sh' n', 0 <= sh' -> 0 <= n' -> sh' + n' <= 16 -> sh + n <= sh' \/ sh' + n' <= sh ->
       Z.land (Z.shiftr (hw_reg w' r) sh') (Z.ones n') = Z.land (Z.shiftr (hw_reg w r) sh') (Z.ones n')) /\
    (forall b, g_storage G b = true -> b <> r -> hw_reg w' b = hw_reg w b).
Proof.
  intros Hok Hs Hsh Hn Hle Hv.
  assert (Hsmall : forall x, 0 <= x < 2 ^ n -> 0 <= Z.shiftl x sh < 2 ^ 32).
  { intros x Hx. rewrite Z.shiftl_mul_pow2 by lia.
    pose proof (Z.pow_pos_nonneg 2 sh ltac:(lia) ltac:(lia)).
    assert (x * 2 ^ sh < 2 ^ n * 2 ^ sh) by nia.
    rewrite <- Z.pow_add_r in * by lia.
    pose proof (Z.pow_le_mono_r 2 (n + sh) 16 ltac:(lia) ltac:(lia)). nia. }
  assert (Hones : 0 <= Z.ones n < 2 ^ n) by (rewrite Z.ones_equiv; pose proof (Z.pow_pos_nonneg 2 n); lia).
  pose proof (hw_rmwr r (Z.shiftl (Z.ones n) sh) (Z.shiftl v sh) w Hok Hs (Hsmall _ Hones) (Hsmall _ Hv)) as H.
  destruct (wp_never _ _ _ H) as ([] & w' & Hrun & Hok' & Hreg & _). exists w'.
  split; [exact Hrun |]. split; [exact Hok' |].
  assert (Hr : hw_reg w' r = u16 (Z.lor (Z.land (hw_reg w r) (Z.lnot (Z.shiftl (Z.ones n) sh))) (Z.shiftl v sh))).
  { rewrite Hreg, Z.eqb_refl by exact Hs. reflexivity. }
  split; [| split].
  - rewrite Hr, field_u16 by lia. apply field_rmw_same; lia.
  - intros sh' n' H1 H2 H3 H4. rewrite Hr, field_u16 by lia. apply field_rmw_other; lia.
  - intros b Hb Hne. rewrite Hreg by exact Hb. apply Z.eqb_neq in Hne. rewrite Hne. reflexivity.
Qed.

(** A read of a configuration register. *)
Lemma rd_run {W} {B : RegBus W} {G} {HW : SwitchHw W G} r w :
  hw_ok w -> g_storage G r = true -> exists w', rd r w = (Ok (hw_reg w r), w').
Proof.
  intros Hok Hs. destruct (wp_never _ _ _ (hw_read r w Hok (visible_storage _ _ Hs))) as (d & w' & Hr & -> & _).
  exists w'. exact Hr.
Qed.

Lemma unchecked_ok {W A} (d : A) (m : M W A) w a w' : m w = (Ok a, w') -> unchecked d m w = (Ok a, w').
Proof. unfold unchecked. intros ->. reflexivity. Qed.


(** A getter: read a configuration register, ignore an error, look at it. *)
Lemma get_attr {W} {B : RegBus W} {G} {HW : SwitchHw W G} {A} r u (f : Z -> A) w :
  hw_ok w -> g_storage G r = true ->
  fst ((data <- unchecked u (rd r) ;; ret (f data)) w) = Ok (f (hw_reg w r)).
Proof.
  intros Hok Hs. destruct (rd_run r w Hok Hs) as [w' Hr].
  unfold bind. rewrite (unchecked_ok _ _ _ _ _ Hr). reflexivity.
Qed.

(** One bit, as a number. *)
Lemma bit_value d n : 0 <= n -> (if cbool (Z.land d (BIT n)) then 1 else 0) = Z.land (Z.shiftr d n) (Z.ones 1).
Proof.
  intros Hn. assert (H : Z.land (Z.shiftr d n) (Z.ones 1) = b2z (Z.testbit d n)).
  { rewrite Z.land_ones by lia. change (2 ^ 1) with 2.
    rewrite <- Z.bit0_mod, Z.shiftr_spec by lia. rewrite Z.add_0_l. destruct (Z.testbit d n); reflexivity. }
  rewrite H, cbool_land_BIT by lia. reflexivity.
Qed.

(** Reading [n] consecutive registers. *)
Lemma wp_read_words {W} {B : RegBus W} {G} {HW : SwitchHw W G} base n w :
  hw_ok w -> (forall k, 0 <= k < n -> visible G (base + k) = true) ->
  wp (collect n (fun i => rd (base + i)))
     (fun l w' => l = tabulate n (fun k => hw_reg w (base + k)) /\ hw_ok w' /\
        (forall b, visible G b = true -> hw_reg w' b = hw_reg w b) /\
        (forall v i, hw_row w' v i = hw_row w v i)) never w.
Proof.
  intros Hok Hvis. unfold collect.
  apply wp_loop_acc with (I := fun j l v =>
    l = tabulate j (fun k => hw_reg w (base + k)) /\ hw_ok v /\
    (forall b, visible G b = true -> hw_reg v b = hw_reg w b) /\
    (forall x i, hw_row v x i = hw_row w x i)).
  - repeat split; auto.
  - intros j l v Hj (-> & Hv & Hr & Hrow). wp_step.
    wp_use (hw_read (base + j) v Hv); [apply Hvis; lia |].
    intros d v' (-> & Hv' & Hr' & Hrow'). wp_step. rewrite tabulate_snoc, Hr by (apply Hvis || lia; lia).
    repeat split; auto; intros; [rewrite Hr', Hr by assumption; reflexivity | rewrite Hrow'; apply Hrow].
  - intros l v (-> & Hv & Hr & Hrow). split; [| auto]. unfold tabulate. do 2 f_equal. lia.
Qed.

(** Writing [n] consecutive registers. *)
Lemma wp_write_words {W} {B : RegBus W} {G} {HW : SwitchHw W G} base n data w :
  hw_ok w -> (forall k, 0 <= k < n -> writable G (base + k) = true) ->
  wp (for_each n (fun i => wr (base + i) (geti 0 data i)))
     (fun _ w' => hw_ok w' /\
        (forall b, writable G b = true ->
           hw_reg w' b = if (base <=? b) && (b <? base + n) then u16 (geti 0 data (b - base))
                         else hw_reg w b) /\
        (forall v i, hw_row w' v i = hw_row w v i)) never w.
Proof.
  intros Hok Hst. unfold for_each.
  apply wp_loop_acc with (I := fun j _ v =>
    hw_ok v /\
    (forall b, writable G b = true ->
       hw_reg v b = if (base <=? b) && (b <? base + j) then u16 (geti 0 data (b - base)) else hw_reg w b) /\
    (forall x i, hw_row v x i = hw_row w x i)).
  - split; [exact Hok |]. split; [| reflexivity]. intros b _.
    destruct (Z.leb_spec base b), (Z.ltb_spec b (base + 0)); try lia; reflexivity.
  - intros j _ v Hj (Hv & Hr & Hrow).
    wp_use (hw_write (base + j) (geti 0 data j) v Hv); [apply Hst; lia |].
    intros u v' (Hv' & Hr' & Hrow'). split; [exact Hv' |]. split; [| intros; rewrite Hrow'; apply Hrow].
    intros b Hb. rewrite Hr', Hr by exact Hb.
    destruct (Z.eqb_spec b (base + j)), (Z.leb_spec base b), (Z.ltb_spec b (base + j)),
      (Z.ltb_spec b (base + (j + 1))); try lia; cbn [andb]; try reflexivity.
    do 2 f_equal. lia.
  - intros u v (Hv & Hr & Hrow). split; [exact Hv |]. split; [| exact Hrow]. intros b Hb.
    rewrite Hr by exact Hb. destruct (Z.leb_spec base b); [| reflexivity]. cbn [andb].
    destruct (Z.ltb_spec b (base + (0 + Z.of_nat (Z.to_nat n)))), (Z.ltb_spec b (base + n)); try lia; reflexivity.
Qed.

(** ** Counter words *)

(** The number held by [n] consecutive 16-bit words, least significant first. *)
Fixpoint words_value (mem : Z -> Z) (addr : Z) (n : nat) : Z :=
  match n with
  | O => 0
  | S n' => u16 (mem (addr + Z.of_nat n')) * 2 ^ (16 * Z.of_nat n') + words_value mem addr n'
  end.

(** What a driver makes of the counter control register and the counter. *)
Definition mib_result (ctrl value : Z) : res Z :=
  if Z.testbit ctrl 0 then Err (- EBUSY) else if Z.testbit ctrl 1 then Err (- EIO) else Ok value.

Section Mib.
Context {W : Type} {B : RegBus W}.
(** The counter memory: while [good], a register read returns [mem]. *)
Variables (good : W -> Prop) (mem : Z -> Z).
Hypothesis good_write : forall a d w, good w -> wp (wr a d) (fun _ => good) never w.
Hypothesis good_read : forall a w, good w -> wp (rd a) (fun d w' => d = mem a /\ good w') never w.

Lemma mib_words_run addr n acc w :
  good w -> 0 <= addr -> addr + Z.of_nat n <= 2 ^ 31 -> 0 <= acc ->
  (acc + 1) * 2 ^ (16 * Z.of_nat n) <= 2 ^ 64 ->
  wp (read_mib_words addr n acc)
     (fun v w' => v = acc * 2 ^ (16 * Z.of_nat n) + words_value mem addr n /\ good w') never w.
Proof.
  revert acc w. induction n as [|n IH]; intros acc w Hw Ha Hn Hacc Hfit; cbn [read_mib_words words_value].
  - apply wp_ret. split; [cbn; lia | exact Hw].
  - rewrite u32_small by lia. wp_step. wp_use (good_read (addr + Z.of_nat n) w Hw).
    intros d w' (-> & Hw').
    assert (Hexp : 2 ^ (16 * Z.of_nat (S n)) = 2 ^ (16 * Z.of_nat n) * 65536).
    { replace (16 * Z.of_nat (S n)) with (16 * Z.of_nat n + 16) by lia. rewrite Z.pow_add_r by lia. reflexivity. }
    pose proof (Z.pow_pos_nonneg 2 (16 * Z.of_nat n) ltac:(lia) ltac:(lia)) as Hpos.
    rewrite Hexp in Hfit. pose proof (u16_range (mem (addr + Z.of_nat n))) as Hd.
    assert (Hval : u64 (Z.lor (Z.shiftl acc 16) (Z.land (mem (addr + Z.of_nat n)) 0xFFFF))
                   = acc * 65536 + u16 (mem (addr + Z.of_nat n))).
    { change 0xFFFF with (Z.ones 16). rewrite Z.land_ones, Z.lor_comm by lia.
      fold (uwrap 16 (mem (addr + Z.of_nat n))). rewrite lor_shiftl_add by (exact Hd || lia).
      fold (u16 (mem (addr + Z.of_nat n))). unfold u64. rewrite uwrap_small; [lia |]. nia. }
    rewrite Hval. eapply wp_mono; [apply IH; [exact Hw' | exact Ha | lia | lia | nia] | cbv beta | auto].
    intros v w'' (-> & Hw''). split; [rewrite Hexp; ring | exact Hw''].
Qed.

(** The read of a counter at an address, as both chip drivers write it. *)
Lemma mib_read_run ctrl addr n w :
  good w -> 0 <= addr < 2 ^ 20 -> 0 <= n <= 4 ->
  fst ((wr (u32 addr) 0 ;;
        data <- rd ctrl ;;
        if cbool (Z.land data (BIT 0)) then fail EBUSY else
        if cbool (Z.land data (BIT 1)) then fail EIO else
        read_mib_words (u32 addr) (Z.to_nat n) 0) w)
  = mib_result (mem ctrl) (words_value mem addr (Z.to_nat n)).
Proof.
  intros Hw Ha Hn. destruct (wp_never _ _ _ (good_write (u32 addr) 0 w Hw)) as ([] & v1 & Hr1 & Hv1).
  rewrite (bind_ok _ _ _ _ _ Hr1).
  destruct (wp_never _ _ _ (good_read ctrl v1 Hv1)) as (d & v2 & Hr2 & -> & Hv2).
  rewrite (bind_ok _ _ _ _ _ Hr2), !cbool_land_BIT by lia. unfold mib_result.
  destruct (Z.testbit _ 0); [reflexivity |]. destruct (Z.testbit _ 1); [reflexivity |].
  rewrite u32_small by lia.
  assert (Hfit : (0 + 1) * 2 ^ (16 * Z.of_nat (Z.to_nat n)) <= 2 ^ 64).
  { rewrite Z.mul_1_l. apply Z.pow_le_mono_r; lia. }
  destruct (wp_never _ _ _ (mib_words_run addr (Z.to_nat n) 0 v2 Hv2
    ltac:(lia) ltac:(lia) ltac:(lia) Hfit)) as (x & v3 & -> & -> & _).
  cbn [fst]. f_equal.
Qed.
End Mib.

(** Registers that ignore writes. *)
Definition rom_bus (f : Z -> Z) : RegBus unit := {|
  rtl8366_smi_read_reg a := ret (f a);
  rtl8366_smi_write_reg _ _ := ret tt;
  rtl8366_smi_write_reg_noack _ _ := ret tt
|}.

(** ** A switch in memory

    The assumptions about the silicon are satisfiable: a switch whose
    registers and table are two functions keeps them.  Examples run on it. *)

Record memchip := MemChip { mem_reg : Z -> Z; mem_row : Z -> Z -> Z }.

Definition mem_write (G : geometry) (a d : Z) (c : memchip) : memchip :=
  if a =? g_ctrl G then
    let row := Z.land (u16 (mem_reg c (g_key G))) 0xfff in
    if d =? g_rd G then
      MemChip (fun b => if is_rword G b then mem_row c row (b - g_rbase G) else mem_reg c b) (mem_row c)
    else if d =? g_wr G then
      MemChip (mem_reg c) (fun v i => if v =? row then mem_reg c (g_wbase G + i) else mem_row c v i)
    else c
  else MemChip (fun b => if b =? a then u16 d else mem_reg c b) (mem_row c).

Definition mem_bus (G : geometry) : RegBus memchip := {|
  rtl8366_smi_read_reg a := fun c => (Ok (u16 (mem_reg c a)), c);
  rtl8366_smi_write_reg a d := modify (mem_write G a d);
  rtl8366_smi_write_reg_noack a d := modify (mem_write G a d)
|}.

Record geometry_ok (G : geometry) : Prop := {
  go_ctrl : writable G (g_ctrl G) = false;
  go_rwords b : g_storage G b = true -> is_rword G b = false;
  go_cmds : g_rd G <> g_wr G
}.

Definition mem_hw (G : geometry) (HG : geometry_ok G) : @SwitchHw memchip (mem_bus G) G.
Proof.
  pose proof (go_cmds _ HG) as Hcmds.
  assert (Hctrl : forall b, writable G b = true -> (b =? g_ctrl G) = false).
  { intros b Hb. apply Z.eqb_neq. intros ->. rewrite (go_ctrl _ HG) in Hb. discriminate. }
  refine {| hw_ok := fun _ => True; hw_reg w a := u16 (mem_reg w a); hw_row w v i := u16 (mem_row w v i) |}.
  - intros. apply u16_range.
  - intros. apply u16_range.
  - intros a w _ _. cbn. auto.
  - intros a d w _ Ha. cbn. unfold mem_write. rewrite (Hctrl _ Ha). split; [exact Logic.I |]. split.
    + intros b _. cbn. destruct (b =? a); [apply uwrap_idemp; lia | reflexivity].
    + reflexivity.
  - intros w _. cbn. unfold mem_write. rewrite !Z.eqb_refl. split; [exact Logic.I |]. split; [| split].
    + intros i Hi. cbn. unfold is_rword.
      destruct (Z.leb_spec (g_rbase G) (g_rbase G + i)); [| lia].
      destruct (Z.ltb_spec (g_rbase G + i) (g_rbase G + g_words G)); [| lia]. cbn [andb].
      do 2 f_equal. lia.
    + intros b Hb. cbn. rewrite (go_rwords _ HG b Hb). reflexivity.
    + reflexivity.
  - intros w _. cbn. unfold mem_write. rewrite Z.eqb_refl.
    destruct (Z.eqb_spec (g_wr G) (g_rd G)); [congruence |]. rewrite Z.eqb_refl.
    split; [exact Logic.I |]. split; [reflexivity |].
    intros v i Hi. cbn. destruct (_ =? _); reflexivity.
Defined.
