(* ===== verification/SmiText.v ===== *)
(** * Texts of the switch core: [rtl8366_smi.c]

    The handlers that print into [smi->buf]: two attributes (the counters of
    a port, a line on a VLAN) and the debugfs files; and the rest of the file:
    the registration of the PHY bus, the debugfs files and the probe.  What a
    handler leaves is the length it hands on with the buffer, and what is in
    the buffer.  The C library's formats are those of [Text]. *)

From S2P Require Import Prelude Text CMonad SmiWire SmiCore Regs.

Definition EPROBE_DEFER : Z := 517.
Definition RTL8366_VLAN4K_PAGE_SIZE : Z := 64.
Definition RTL8366_VLAN4K_NUM_PAGES : Z := 4096 / RTL8366_VLAN4K_PAGE_SIZE.

(** ** Printing

    [len] and the characters in the buffer of 4096 bytes, without the NUL. *)

Definition sizeof_buf : Z := 4096.

Record out := Out { o_len : Z; o_buf : string }.

Definition start : out := Out 0 EmptyString.

(** [len += snprintf(buf + len, sizeof(smi->buf) - len, ...)]: what does not
    fit is cut, with room for a NUL, but counted; with [len] past the end the
    size wraps to one the kernel refuses, and nothing is printed. *)
Definition emit (text : string) (o : out) : out :=
  let size := sizeof_buf - o_len o in
  if size <? 0 then o
  else Out (o_len o + Z.of_nat (String.length text)) (o_buf o +:+ String.substring 0 (Z.to_nat (size - 1)) text).

Definition hex4 (x : Z) : string := "0x" +:+ hex_padded 4 x.

Section Texts.
Context {W : Type} {O : SmiOps W} {C : ChipOps W}.
(** What the local structures hold that a failed read leaves as they are. *)
Variable vlanmc0 : vlan_mc.
Variable vlan4k0 : vlan_4k.

(** [for (i = 0; i < n; i++)] around prints. *)
Definition print_each (n : Z) (o : out) (body : Z -> out -> M (smi W) out) : M (smi W) out :=
  loop_acc (Z.to_nat n) 0 o body.

Definition rtl8366_read_debugfs_vlan_mc : M (smi W) out :=
  let o := emit (pad_left 2 "id" +:+ " " +:+ pad_left 6 "vid" +:+ " " +:+ pad_left 4 "prio" +:+ " " +:+
    pad_left 6 "member" +:+ " " +:+ pad_left 6 "untag" +:+ " " +:+ pad_left 3 "fid" +:+ newline) start in
  print_each num_vlan_mc o (fun i o =>
    vlanmc <- unchecked vlanmc0 (ops (get_vlan_mc i)) ;;
    ret (emit (pad_left 2 (decimal i) +:+ " " +:+ pad_left 6 (decimal (mc_vid vlanmc)) +:+ " " +:+
      pad_left 4 (decimal (mc_priority vlanmc)) +:+ " " +:+ hex4 (mc_member vlanmc) +:+ " " +:+
      hex4 (mc_untag vlanmc) +:+ " " +:+ pad_left 3 (decimal (mc_fid vlanmc)) +:+ newline) o)).

Definition rtl8366_read_debugfs_vlan_4k (dbg_vlan_4k_page : Z) : M (smi W) out :=
  if RTL8366_VLAN4K_NUM_PAGES <=? dbg_vlan_4k_page then
    ret (emit ("invalid page: " +:+ decimal dbg_vlan_4k_page +:+ newline) start)
  else
    let o := emit (pad_left 4 "vid" +:+ " " +:+ pad_left 6 "member" +:+ " " +:+ pad_left 6 "untag" +:+ " " +:+
      pad_left 3 "fid" +:+ newline) start in
    let offset := RTL8366_VLAN4K_PAGE_SIZE * dbg_vlan_4k_page in
    print_each RTL8366_VLAN4K_PAGE_SIZE o (fun i o =>
      vlan4k <- unchecked vlan4k0 (ops (get_vlan_4k (offset + i))) ;;
      ret (emit (pad_left 4 (decimal (v4_vid vlan4k)) +:+ " " +:+ hex4 (v4_member vlan4k) +:+ " " +:+
        hex4 (v4_untag vlan4k) +:+ " " +:+ pad_left 3 (decimal (v4_fid vlan4k)) +:+ newline) o)).

Definition rtl8366_read_debugfs_pvid : M (smi W) out :=
  let o := emit (pad_left 4 "port" +:+ " " +:+ pad_left 4 "pvid" +:+ newline) start in
  print_each num_ports o (fun i o =>
    pvid <- catch (rtl8366_get_pvid i) ;;
    ret (match pvid with
         | Err _ => emit (pad_left 4 (decimal i) +:+ " error" +:+ newline) o
         | Ok pvid => emit (pad_left 4 (decimal i) +:+ " " +:+ pad_left 4 (decimal pvid) +:+ newline) o
         end)).

Definition rtl8366_read_debugfs_reg `{RegBus W} (dbg_reg : Z) : M (smi W) out :=
  t <- catch (ops (rd dbg_reg)) ;;
  ret (match t with
       | Err _ => emit ("Read failed (reg: " +:+ hex4 dbg_reg +:+ ")" +:+ newline) start
       | Ok t => emit ("reg = " +:+ hex4 dbg_reg +:+ ", val = " +:+ hex4 t +:+ newline) start
       end).

(** [user]: the bytes [copy_from_user] copies, if it succeeds. *)
Definition rtl8366_write_debugfs_reg `{RegBus W} (kstrtoul : string -> res Z) (dbg_reg : Z)
    (user : option string) (count : Z) : M (smi W) Z :=
  match user with
  | None => fail EFAULT
  | Some buf =>
      let n := String.length buf in
      let buf := if (0 <? Z.of_nat n) && (String.substring (n - 1) 1 buf =? newline)%string
                 then String.substring 0 (n - 1) buf else buf in
      match kstrtoul buf with
      | Err _ => ret count
      | Ok data => unchecked tt (ops (wr dbg_reg (u32 data))) ;; ret count
      end
  end.

(** One line of the table of counters. *)
Definition print_mib_line (i : Z) (name : string) (o : out) : M (smi W) out :=
  o <- print_each num_ports (emit (pad_right 36 name +:+ " ") o) (fun j o =>
    counter <- catch (ops (get_mib_counter i j)) ;;
    ret (match counter with
         | Ok counter => emit (pad_left 12 (decimal counter) +:+ " ") o
         | Err _ => emit (pad_left 12 "error" +:+ " ") o
         end)) ;;
  ret (emit newline o).

(** [smi->mib_counters] is an argument. *)
Fixpoint print_mib_lines (i : Z) (counters : list rtl8366_mib_counter) (o : out) : M (smi W) out :=
  match counters with
  | [] => ret o
  | c :: counters' =>
      o <- print_mib_line i (mib_name c) o ;;
      print_mib_lines (i + 1) counters' o
  end.

(** [port_buf] holds nine characters. *)
Definition rtl8366_read_debugfs_mibs (counters : list rtl8366_mib_counter) : M (smi W) out :=
  let o := emit (pad_right 36 "Counter") start in
  o <- print_each num_ports o (fun i o =>
    ret (emit (" " +:+ pad_left 12 (String.substring 0 9 ("Port " +:+ decimal i))) o)) ;;
  print_mib_lines 0 counters (emit newline o).

Fixpoint print_port_mibs (i port : Z) (counters : list rtl8366_mib_counter) (o : out) : M (smi W) out :=
  match counters with
  | [] => ret o
  | c :: counters' =>
      let o := emit (pad_right 36 (mib_name c) +:+ ": ") o in
      counter <- catch (ops (get_mib_counter i port)) ;;
      print_port_mibs (i + 1) port counters'
        (match counter with
         | Ok counter => emit (decimal counter +:+ newline) o
         | Err _ => emit ("error" +:+ newline) o
         end)
  end.

Definition rtl8366_sw_get_port_mib (counters : list rtl8366_mib_counter) (port_vlan : Z) : M (smi W) out :=
  if num_ports <=? u32 port_vlan then fail EINVAL else
  print_port_mibs 0 port_vlan counters (emit ("Port " +:+ decimal port_vlan +:+ " MIB counters" +:+ newline) start).

Definition rtl8366_sw_get_vlan_info (port_vlan : Z) : M (smi W) out :=
  valid <- vlan_is_valid port_vlan ;;
  if negb valid then fail EINVAL else
  vlan4k <- ops (get_vlan_4k port_vlan) ;;
  let o := emit ("VLAN " +:+ decimal (v4_vid vlan4k) +:+ ": Ports: '") start in
  o <- print_each num_ports o (fun i o =>
    ret (if negb (cbool (Z.land (v4_member vlan4k) (BIT i))) then o
         else emit (decimal i +:+ (if cbool (Z.land (v4_untag vlan4k) (BIT i)) then "" else "t")) o)) ;;
  ret (emit ("', members=" +:+ hex_padded 4 (v4_member vlan4k) +:+ ", untag=" +:+ hex_padded 4 (v4_untag vlan4k) +:+
    ", fid=" +:+ decimal (v4_fid vlan4k)) o).
End Texts.

(** ** Registration *)

(** The PHY bus of the driver. *)
Record mii := Mii { mii_allocated : bool; mii_registered : bool }.

(** [alloc]: [mdiobus_alloc] succeeds; [register]: the result of registering
    the bus, with or without a node of its own. *)
Definition rtl8366_smi_mii_init (alloc : bool) (register : Z) : M mii unit :=
  if negb alloc then fail ENOMEM else
  modify (fun _ => Mii true false) ;;
  if cbool register then
    modify (fun _ => Mii false false) ;; (fun m => (Err register, m))
  else modify (fun _ => Mii true true).

Definition rtl8366_smi_mii_cleanup : M mii unit := modify (fun _ => Mii false false).

(** The files that are created: all up to the first that cannot be. *)
Definition debugfs_files : list string := ["reg"; "val"; "vlan_mc"; "vlan_4k_page"; "vlan_4k"; "pvid"; "mibs"].
Definition rtl8366_debugfs_init (root : bool) (create : string -> bool) : list string :=
  let fix go (files : list string) : list string :=
    match files with
    | [] => []
    | f :: files' => if create f then f :: go files' else []
    end in
  if root then go debugfs_files else [].

(** How the chip is reached. *)
Inductive smi_config :=
| OnMdio (phy_id : Z)
| OnGpio (hw_reset : bool).

(** [mdio_node]: the node of the bus, if there is one, and whether its bus is
    there yet; [phy_id]: the property; the errors of getting the lines, 0 for
    none; [reset]: there is a reset control. *)
Definition rtl8366_smi_probe_of (mdio_node : option bool) (phy_id : option Z) (sck sda : Z) (reset : bool) :
    res smi_config :=
  match mdio_node with
  | Some true => Ok (OnMdio (match phy_id with Some id => id | None => MDC_REALTEK_PHY_ADDR end))
  | Some false => Err (- EPROBE_DEFER)
  | None => if cbool sck then Err sck else if cbool sda then Err sda else Ok (OnGpio reset)
  end.

(** [None] is the null pointer. *)
Definition rtl8366_smi_probe (alloc : bool) (mdio_node : option bool) (phy_id : option Z) (sck sda : Z) (reset : bool) :
    option (res smi_config) :=
  if negb alloc then None else Some (rtl8366_smi_probe_of mdio_node phy_id sck sda reset).
