(* ===== verification/TableChip.v ===== *)
(** * Chips that keep their VLAN tables in registers

    The RTL8366S and the RTL8366RB differ in addresses, in the words an
    entry takes and in the fields of those words, and in nothing else as far
    as VLANs go.  A [layout] is that difference.  [chip_ops] are the VLAN
    operations of a chip with a given layout; under the laws [layout_ok] they
    keep the contract [VlanImpl], with [chip_rep] reading the abstract tables
    off the registers.  A driver's own operations are shown to be
    [chip_ops] of its layout in its own file. *)

From S2P Require Import Prelude CMonad SmiCore SmiSpec SmiVlan SmiImpl SmiProps Regs.

Record layout := Layout {
  ly_geom : geometry;
  ly_limits : limits;
  ly_mc_words : Z;                           (* registers per MC entry *)
  ly_mc_base : Z -> Z;                       (* the first of them *)
  ly_mc_dec : list Z -> vlan_mc;
  ly_mc_enc : vlan_mc -> list Z;
  ly_mc_bad : Z -> vlan_mc -> bool;          (* arguments [set_vlan_mc] rejects *)
  ly_row_dec : Z -> list Z -> vlan_4k;
  ly_row_enc : vlan_4k -> list Z;
  ly_row_bad : vlan_4k -> bool;
  ly_idx_base : Z;                           (* MC index fields, four ports a register *)
  ly_on_reg : Z; ly_on_bit : Z;              (* VLAN enable *)
  ly_4k_reg : Z; ly_4k_bit : Z;              (* 4K table enable *)
  ly_pe_reg : Z                              (* port disable bits *)
}.

Section Layout.
Variable Y : layout.
#[local] Abbreviation L := (ly_limits Y).
#[local] Abbreviation G := (ly_geom Y).

Definition idx_reg (p : Z) : Z := ly_idx_base Y + Z.quot p 4.
Definition idx_shift (p : Z) : Z := 4 * Z.rem p 4.
Definition idx_of_reg (p d : Z) : Z := Z.land (Z.shiftr d (idx_shift p)) 0xf.

(** A register [rep] depends on: not a word of the table window. *)
Definition table_reg (b : Z) : bool :=
  g_storage G b && negb ((g_wbase G <=? b) && (b <? g_wbase G + g_words G)).

(** The registers of the bits and of the MC indices. *)
Definition ctl_reg (b : Z) : bool :=
  (b =? ly_on_reg Y) || (b =? ly_4k_reg Y) || (b =? ly_pe_reg Y) ||
  ((ly_idx_base Y <=? b) && (b <=? idx_reg (l_ports L - 1))).
Definition is_idx_reg (b : Z) : bool := (ly_idx_base Y <=? b) && (b <=? idx_reg (l_ports L - 1)).

(** ** The operations *)

Definition chip_ops {W} {B : RegBus W} : SmiOps W := {|
  cpu_port := l_cpu L;
  num_ports := l_ports L;
  num_vlan_mc := l_mcs L;
  get_vlan_mc i :=
    if l_mcs L <=? i then fail EINVAL else
    data <- collect (ly_mc_words Y) (fun k => rd (ly_mc_base Y i + k)) ;;
    ret (ly_mc_dec Y data);
  set_vlan_mc i mc :=
    if ly_mc_bad Y i mc then fail EINVAL else
    let data := ly_mc_enc Y mc in
    for_each (ly_mc_words Y) (fun k => wr (ly_mc_base Y i + k) (geti 0 data k));
  get_vlan_4k vid :=
    if l_vids L <=? vid then fail EINVAL else
    wr (g_wbase G) (Z.land vid 0xfff) ;;
    wr (g_ctrl G) (g_rd G) ;;
    data <- collect (g_words G) (fun k => rd (g_rbase G + k)) ;;
    ret (ly_row_dec Y vid data);
  set_vlan_4k row :=
    if ly_row_bad Y row then fail EINVAL else
    let data := ly_row_enc Y row in
    for_each (g_words G) (fun k => wr (g_wbase G + k) (geti 0 data k)) ;;
    wr (g_ctrl G) (g_wr G);
  get_mc_index p :=
    if l_ports L <=? p then fail EINVAL else
    data <- rd (idx_reg p) ;;
    ret (idx_of_reg p data);
  set_mc_index p i :=
    if (l_ports L <=? p) || (l_mcs L <=? i) then fail EINVAL else
    rtl8366_smi_rmwr (idx_reg p) (Z.shiftl 0xf (idx_shift p)) (Z.shiftl (Z.land i 0xf) (idx_shift p));
  is_vlan_valid := l_valid L;
  enable_vlan e :=
    rtl8366_smi_rmwr (ly_on_reg Y) (BIT (ly_on_bit Y)) (if cbool e then BIT (ly_on_bit Y) else 0);
  enable_vlan4k e :=
    rtl8366_smi_rmwr (ly_4k_reg Y) (BIT (ly_4k_bit Y)) (if cbool e then BIT (ly_4k_bit Y) else 0);
  enable_port p e :=
    rtl8366_smi_rmwr (ly_pe_reg Y) (u32 (Z.shiftl 1 p)) (if cbool e then 0 else u32 (Z.shiftl 1 p))
|}.

(** ** The laws of a layout *)

Definition words16 (n : Z) (data : list Z) : list Z := tabulate n (fun k => u16 (geti 0 data k)).

Record layout_ok : Prop := {
  lk_limits : limits_ok L;
  lk_ports : 0 < l_ports L <= 16;
  lk_mcs : l_mcs L = 16;
  lk_vids : l_vids L <= 4096;
  lk_words : 0 < g_words G;
  lk_key : g_key G = g_wbase G;
  lk_mc_words : 0 <= ly_mc_words Y;
  (* addresses *)
  lk_window k : 0 <= k < g_words G ->
    g_storage G (g_wbase G + k) = true /\ visible G (g_rbase G + k) = true;
  lk_mc_reg i k : 0 <= i < l_mcs L -> 0 <= k < ly_mc_words Y ->
    table_reg (ly_mc_base Y i + k) = true /\ ctl_reg (ly_mc_base Y i + k) = false;
  lk_mc_sep i j k : 0 <= i < l_mcs L -> 0 <= j < l_mcs L -> i <> j -> 0 <= k < ly_mc_words Y ->
    ~ ly_mc_base Y i <= ly_mc_base Y j + k < ly_mc_base Y i + ly_mc_words Y;
  lk_ctl b : ctl_reg b = true -> table_reg b = true;
  lk_bits : is_idx_reg (ly_on_reg Y) = false /\ is_idx_reg (ly_4k_reg Y) = false /\
            is_idx_reg (ly_pe_reg Y) = false /\
            ly_pe_reg Y <> ly_on_reg Y /\ ly_pe_reg Y <> ly_4k_reg Y /\
            (ly_on_reg Y <> ly_4k_reg Y \/ ly_on_bit Y <> ly_4k_bit Y) /\
            0 <= ly_on_bit Y < 16 /\ 0 <= ly_4k_bit Y < 16;
  (* words *)
  lk_mc_bad i mc : 0 <= i -> mc_nonneg mc -> ly_mc_bad Y i mc = (l_mcs L <=? i) || negb (mc_fits L mc);
  lk_mc_round mc : mc_ok L mc -> ly_mc_dec Y (words16 (ly_mc_words Y) (ly_mc_enc Y mc)) = mc;
  lk_mc_dec l : mc_ok L (ly_mc_dec Y l);
  lk_row_bad row : row_nonneg row -> ly_row_bad Y row = negb (row_fits L row);
  lk_row_key row : row_ok L row -> Z.land (u16 (geti 0 (ly_row_enc Y row) 0)) 0xfff = v4_vid row;
  lk_row_round row : row_ok L row ->
    ly_row_dec Y (v4_vid row) (words16 (g_words G) (ly_row_enc Y row)) = row;
  lk_row_dec v l : 0 <= v < l_vids L -> row_ok L (ly_row_dec Y v l) /\ v4_vid (ly_row_dec Y v l) = v
}.
End Layout.

(** ** Words shared by the layouts *)

Lemma geti_words16 n data k : 0 <= k < n -> geti 0 (words16 n data) k = u16 (geti 0 data k).
Proof. intros Hk. unfold words16. rewrite geti_tabulate by exact Hk. reflexivity. Qed.

(** Compute the words an encoder writes and a decoder reads. *)
Ltac open_words :=
  cbn -[geti words16 u16 Z.land Z.lor Z.shiftl Z.shiftr];
  rewrite ?geti_words16 by lia; unfold geti;
  change (Z.to_nat 0) with 0%nat; change (Z.to_nat 1) with 1%nat; change (Z.to_nat 2) with 2%nat; change (Z.to_nat 3) with 3%nat;
  cbn [nth].

(** VID and priority in one word. *)
Lemma vid_prio_roundtrip v p :
  0 <= v < 2 ^ 12 -> 0 <= p < 2 ^ 3 ->
  let d := u16 (Z.lor (Z.land v 0xfff) (Z.shiftl (Z.land p 0x7) 12)) in
  Z.land d 0xfff = v /\ Z.land (Z.shiftr d 12) 0x7 = p.
Proof.
  intros Hv Hp. cbv zeta. change 0xfff with (Z.ones 12). change 0x7 with (Z.ones 3).
  unfold u16. split; bit_solve.
Qed.

Lemma vid_word_key v : 0 <= v < 4096 -> Z.land (u16 (Z.land v 0xfff)) 0xfff = v.
Proof. intros Hv. destruct (vid_prio_roundtrip v 0 Hv ltac:(lia)) as [H _]. rewrite Z.lor_0_r in H. exact H. Qed.

(** The ranges of the fields the goal takes out of the word [x]. *)
Ltac mask_ranges x :=
  repeat match goal with
  | |- context [Z.land ?e 0xfff] =>
      match e with context [x] => pose proof (land_mask_range e 12 ltac:(lia));
        change (Z.ones 12) with 0xfff in *; generalize dependent (Z.land e 0xfff); intros end
  | |- context [Z.land ?e 0xff] =>
      match e with context [x] => pose proof (land_mask_range e 8 ltac:(lia));
        change (Z.ones 8) with 0xff in *; generalize dependent (Z.land e 0xff); intros end
  | |- context [Z.land ?e 0x3f] =>
      match e with context [x] => pose proof (land_mask_range e 6 ltac:(lia));
        change (Z.ones 6) with 0x3f in *; generalize dependent (Z.land e 0x3f); intros end
  | |- context [Z.land ?e 0x7] =>
      match e with context [x] => pose proof (land_mask_range e 3 ltac:(lia));
        change (Z.ones 3) with 0x7 in *; generalize dependent (Z.land e 0x7); intros end
  end.

(** ** The operations keep the contract *)

(** Both sides reject the same arguments. *)
Lemma sim_reject {W V A} (R : W -> V -> Prop) (P : A -> Prop) (b b' : bool) (m : M W A) (s : M V A) :
  b = b' -> (b = false -> sim R P m s) ->
  sim R P (if b then fail EINVAL else m) (if b' then fail EINVAL else s).
Proof. intros <- H. apply sim_if; intros Hb; [apply sim_fail | apply H, Hb]. Qed.

(** A list built from the values of a function depends on those only. *)
Lemma tabulate_ext {A} n (f g : Z -> A) :
  (forall k, 0 <= k < n -> f k = g k) -> tabulate n f = tabulate n g.
Proof.
  intros H. unfold tabulate. apply map_ext_in. intros k Hk. apply in_seq in Hk. apply H. lia.
Qed.

Section Impl.
Context (Y : layout) (HY : layout_ok Y).
#[local] Abbreviation L := (ly_limits Y).
#[local] Abbreviation G := (ly_geom Y).
Context {W : Type} {B : RegBus W} {HW : SwitchHw W G}.
#[local] Abbreviation cops := (@chip_ops Y W B).
#[local] Abbreviation iops := (ideal_ops L).

Definition mc_words (w : W) (i : Z) : list Z :=
  tabulate (ly_mc_words Y) (fun k => hw_reg w (ly_mc_base Y i + k)).
Definition row_words (w : W) (v : Z) : list Z := tabulate (g_words G) (fun k => hw_row w v k).

Record chip_rep (w : W) (a : vstate) : Prop := {
  rp_ok : hw_ok w;
  rp_wf : wf L a;
  rp_mc i : 0 <= i < l_mcs L -> mc_at a i = ly_mc_dec Y (mc_words w i);
  rp_row v : 0 <= v < l_vids L -> row_at a v = ly_row_dec Y v (row_words w v);
  rp_idx p : 0 <= p < l_ports L -> idx_at a p = idx_of_reg p (hw_reg w (idx_reg Y p));
  rp_on : a_vlan_on a = Z.testbit (hw_reg w (ly_on_reg Y)) (ly_on_bit Y);
  rp_4k : a_4k_on a = Z.testbit (hw_reg w (ly_4k_reg Y)) (ly_4k_bit Y);
  rp_ports p : 0 <= p < l_ports L ->
    geti true (a_ports_on a) p = negb (Z.testbit (hw_reg w (ly_pe_reg Y)) p)
}.

Lemma table_storage b : table_reg Y b = true -> g_storage G b = true.
Proof. unfold table_reg. intros H. apply andb_prop in H. apply H. Qed.

Lemma table_visible b : table_reg Y b = true -> visible G b = true.
Proof. intros H. apply visible_storage, table_storage, H. Qed.

Lemma idx_reg_range p : 0 <= p < l_ports L -> is_idx_reg Y (idx_reg Y p) = true.
Proof.
  intros Hp. pose proof (lk_ports Y HY). unfold is_idx_reg, idx_reg.
  assert (0 <= Z.quot p 4 <= Z.quot (l_ports L - 1) 4) by (Z.to_euclidean_division_equations; lia). lia.
Qed.

Lemma idx_ctl b : is_idx_reg Y b = true -> ctl_reg Y b = true.
Proof. unfold ctl_reg, is_idx_reg. lia. Qed.

Lemma on_ctl : ctl_reg Y (ly_on_reg Y) = true.
Proof. unfold ctl_reg. lia. Qed.
Lemma fourk_ctl : ctl_reg Y (ly_4k_reg Y) = true.
Proof. unfold ctl_reg. lia. Qed.
Lemma pe_ctl : ctl_reg Y (ly_pe_reg Y) = true.
Proof. unfold ctl_reg. lia. Qed.

Lemma ctl_table b : ctl_reg Y b = true -> table_reg Y b = true.
Proof. apply (lk_ctl Y HY). Qed.

#[local] Hint Resolve idx_reg_range idx_ctl on_ctl fourk_ctl pe_ctl ctl_table : core.

(** The parts of [chip_rep], each from the registers it depends on. *)
Definition same_mc (w w' : W) : Prop := forall i k, 0 <= i < l_mcs L -> 0 <= k < ly_mc_words Y ->
  hw_reg w' (ly_mc_base Y i + k) = hw_reg w (ly_mc_base Y i + k).
Definition same_ctl (w w' : W) : Prop := forall b, ctl_reg Y b = true -> hw_reg w' b = hw_reg w b.
Definition same_rows (w w' : W) : Prop := forall v i, 0 <= i < g_words G -> hw_row w' v i = hw_row w v i.

Lemma same_table w w' :
  (forall b, table_reg Y b = true -> hw_reg w' b = hw_reg w b) -> same_mc w w' /\ same_ctl w w'.
Proof.
  intros H. split; [intros i k Hi Hk | intros b Hb]; apply H;
    [apply (lk_mc_reg Y HY); assumption | auto].
Qed.

Lemma mc_words_same w w' i : same_mc w w' -> 0 <= i < l_mcs L -> mc_words w' i = mc_words w i.
Proof. intros H Hi. apply tabulate_ext. intros k Hk. apply H; assumption. Qed.

Lemma row_words_same w w' v : same_rows w w' -> row_words w' v = row_words w v.
Proof. intros H. apply tabulate_ext. intros k Hk. apply H, Hk. Qed.

Lemma rep_frame w w' a :
  chip_rep w a -> hw_ok w' -> same_mc w w' -> same_ctl w w' -> same_rows w w' -> chip_rep w' a.
Proof.
  intros [H1 H2 H3 H4 H5 H6 H7 H8] Hok Hmc Hctl Hrow. split; auto.
  - intros i Hi. rewrite (mc_words_same w w') by assumption. apply H3, Hi.
  - intros v Hv. rewrite (row_words_same w w') by assumption. apply H4, Hv.
  - intros p Hp. rewrite Hctl by auto. apply H5, Hp.
  - rewrite Hctl by auto. exact H6.
  - rewrite Hctl by auto. exact H7.
  - intros p Hp. rewrite Hctl by auto. apply H8, Hp.
Qed.

(** A read changes nothing [chip_rep] sees. *)
Lemma rep_after_read w w' a :
  chip_rep w a -> hw_ok w' -> (forall b, visible G b = true -> hw_reg w' b = hw_reg w b) ->
  (forall v i, hw_row w' v i = hw_row w v i) -> chip_rep w' a.
Proof.
  intros Hr Hok Hreg Hrow. destruct (same_table w w') as [Hm Hc].
  - intros b Hb. apply Hreg, table_visible, Hb.
  - apply (rep_frame w); auto. intros v i _. apply Hrow.
Qed.

Lemma sim_chip_get_vlan_mc i : 0 <= i ->
  sim chip_rep (mc_ok L) (@get_vlan_mc _ cops i) (@get_vlan_mc _ iops i).
Proof.
  intros Hi. apply sim_reject; [reflexivity | intros Hlt]. apply sim_of_wp. intros w a Hr.
  assert (Hi' : 0 <= i < l_mcs L) by lia. wp_step.
  wp_use (wp_read_words (ly_mc_base Y i) (ly_mc_words Y) w (rp_ok _ _ Hr)).
  { intros k Hk. apply table_visible, (lk_mc_reg Y HY); assumption. }
  intros d w' (-> & Hok & Hreg & Hrow). wp_step. cbn [fst snd].
  split; [f_equal; apply (rp_mc _ _ Hr i Hi') |]. split; [| apply (lk_mc_dec Y HY)].
  apply (rep_after_read w); assumption.
Qed.

Lemma sim_chip_set_vlan_mc i mc : 0 <= i -> mc_nonneg mc ->
  sim chip_rep anything (@set_vlan_mc _ cops i mc) (@set_vlan_mc _ iops i mc).
Proof.
  intros Hi Hn. apply sim_reject; [apply (lk_mc_bad Y HY); assumption |].
  rewrite (lk_mc_bad Y HY) by assumption. intros Hfit. apply sim_of_wp. intros w a Hr.
  assert (Hi' : 0 <= i < l_mcs L) by lia.
  assert (Hmc : mc_ok L mc) by (split; [exact Hn | destruct (mc_fits L mc); [reflexivity | lia]]).
  assert (Hst : forall k, 0 <= k < ly_mc_words Y -> writable G (ly_mc_base Y i + k) = true).
  { intros k Hk. apply writable_storage, table_storage, (lk_mc_reg Y HY); assumption. }
  eapply wp_mono; [apply (wp_write_words _ _ (ly_mc_enc Y mc) w (rp_ok _ _ Hr) Hst) | cbv beta | intros ? ? []].
  intros [] w' (Hok & Hreg & Hrow). cbn [fst snd modify]. split; [reflexivity |]. split; [| exact Logic.I].
  pose proof Hr as [H1 H2 H3 H4 H5 H6 H7 H8].
  assert (Hctl : same_ctl w w').
  { intros b Hb. rewrite Hreg by (apply writable_storage, table_storage; auto).
    destruct (Z.leb_spec (ly_mc_base Y i) b), (Z.ltb_spec b (ly_mc_base Y i + ly_mc_words Y)); try reflexivity.
    destruct (lk_mc_reg Y HY i (b - ly_mc_base Y i) Hi' ltac:(lia)) as [_ Hne].
    replace (ly_mc_base Y i + (b - ly_mc_base Y i)) with b in Hne by lia. congruence. }
  assert (Hrows : same_rows w w') by (intros v j _; apply Hrow).
  split; cbn [with_mc a_mc a_4k a_idx a_vlan_on a_4k_on a_ports_on]; auto.
  - apply (wf_put_mc L a H2); assumption.
  - intros j Hj. change (mc_at (with_mc _ a) j) with (mc_at (put_pvid 0 i mc a) j).
    rewrite (mc_at_put_pvid L a H2) by (assumption || lia). destruct (Z.eqb_spec j i) as [-> | Hne].
    + rewrite <- (lk_mc_round Y HY mc Hmc) at 1. f_equal. apply tabulate_ext. intros k Hk.
      rewrite Hreg by (apply Hst, Hk).
      destruct (Z.leb_spec (ly_mc_base Y i) (ly_mc_base Y i + k)); [| lia].
      destruct (Z.ltb_spec (ly_mc_base Y i + k) (ly_mc_base Y i + ly_mc_words Y)); [| lia]. cbn [andb].
      do 2 f_equal. lia.
    + rewrite H3 by exact Hj. f_equal. symmetry. apply tabulate_ext. intros k Hk.
      rewrite Hreg by (apply writable_storage, table_storage, (lk_mc_reg Y HY); assumption).
      pose proof (lk_mc_sep Y HY i j k Hi' Hj ltac:(congruence) Hk) as Hsep.
      destruct (Z.leb_spec (ly_mc_base Y i) (ly_mc_base Y j + k)),
        (Z.ltb_spec (ly_mc_base Y j + k) (ly_mc_base Y i + ly_mc_words Y)); try lia; reflexivity.
  - intros v Hv. rewrite (row_words_same w w') by exact Hrows. apply H4, Hv.
  - intros p Hp. rewrite Hctl by auto. apply H5, Hp.
  - rewrite Hctl by auto. exact H6.
  - rewrite Hctl by auto. exact H7.
  - intros p Hp. rewrite Hctl by auto. apply H8, Hp.
Qed.

(** The row a window word selects. *)
Lemma land_fff v : 0 <= v < l_vids L -> Z.land v 0xfff = v.
Proof.
  intros Hv. pose proof (lk_vids Y HY). change 0xfff with (Z.ones 12). rewrite Z.land_ones by lia.
  apply Z.mod_small. lia.
Qed.

(** Writing window words changes nothing [chip_rep] sees. *)
Lemma outside_window w w' :
  (forall b, table_reg Y b = true -> hw_reg w' b = hw_reg w b) ->
  (forall v i, hw_row w' v i = hw_row w v i) -> same_mc w w' /\ same_ctl w w' /\ same_rows w w'.
Proof. intros H Hr. destruct (same_table w w' H). repeat split; auto. intros v i _. apply Hr. Qed.

Lemma sim_chip_get_vlan_4k v : 0 <= v ->
  sim chip_rep (fun row => row_ok L row /\ v4_vid row = v) (@get_vlan_4k _ cops v) (@get_vlan_4k _ iops v).
Proof.
  intros Hv. apply sim_reject; [reflexivity | intros Hlt]. apply sim_of_wp. intros w a Hr.
  assert (Hv' : 0 <= v < l_vids L) by lia. pose proof (lk_vids Y HY). pose proof (lk_words Y HY).
  rewrite land_fff by exact Hv'. wp_step.
  destruct (lk_window Y HY 0 ltac:(lia)) as [Hsel _]. rewrite Z.add_0_r in Hsel.
  wp_use (hw_write (g_wbase G) v w (rp_ok _ _ Hr) (writable_storage _ _ Hsel)).
  intros _ w1 (Hok1 & Hr1 & Hrow1). wp_step. wp_use (hw_table_read w1 Hok1).
  intros _ w2 (Hok2 & Hd2 & Hr2 & Hrow2). wp_step.
  wp_use (wp_read_words (g_rbase G) (g_words G) w2 Hok2); [apply (lk_window Y HY) |].
  intros d w3 (-> & Hok3 & Hr3 & Hrow3). wp_step. cbn [fst snd].
  assert (Hdata : tabulate (g_words G) (fun k => hw_reg w2 (g_rbase G + k)) = row_words w v).
  { apply tabulate_ext. intros k Hk. rewrite Hd2, (lk_key Y HY), Hr1, Z.eqb_refl, u16_small, land_fff by (assumption || auto with regs || lia).
    apply Hrow1. }
  rewrite Hdata, <- (rp_row _ _ Hr v Hv').
  split; [reflexivity |]. split; [| apply (wf_row _ _ (rp_wf _ _ Hr)), Hv'].
  destruct (outside_window w w3) as (Hm & Hc & Hrows).
  - intros b Hb. pose proof (table_storage b Hb) as Hs. rewrite Hr3 by (apply visible_storage, Hs).
    rewrite Hr2, Hr1 by auto with regs. destruct (Z.eqb_spec b (g_wbase G)) as [-> |]; [| reflexivity].
    unfold table_reg in Hb. lia.
  - intros x i. rewrite Hrow3, Hrow2. apply Hrow1.
  - apply (rep_frame w); assumption.
Qed.

Lemma sim_chip_set_vlan_4k row : row_nonneg row ->
  sim chip_rep anything (@set_vlan_4k _ cops row) (@set_vlan_4k _ iops row).
Proof.
  intros Hn. apply sim_reject; [apply (lk_row_bad Y HY), Hn |].
  rewrite (lk_row_bad Y HY) by exact Hn. intros Hfit. apply sim_of_wp. intros w a Hr.
  assert (Hrow : row_ok L row) by (split; [exact Hn | destruct (row_fits L row); [reflexivity | discriminate]]).
  pose proof (lk_words Y HY). cbv zeta. wp_step.
  eapply wp_mono; [apply (wp_write_words (g_wbase G) _ (ly_row_enc Y row) w (rp_ok _ _ Hr)); auto with regs
                  | cbv beta | intros ? ? []].
  intros _ w1 (Hok1 & Hr1 & Hrow1).
  assert (Hword : forall k, 0 <= k < g_words G -> hw_reg w1 (g_wbase G + k) = u16 (geti 0 (ly_row_enc Y row) k)).
  { intros k Hk. rewrite Hr1 by auto with regs.
    destruct (Z.leb_spec (g_wbase G) (g_wbase G + k)); [| lia].
    destruct (Z.ltb_spec (g_wbase G + k) (g_wbase G + g_words G)); [| lia]. cbn [andb]. do 2 f_equal. lia. }
  assert (Hkey : Z.land (hw_reg w1 (g_wbase G)) 0xfff = v4_vid row).
  { rewrite <- (Z.add_0_r (g_wbase G)), Hword by lia. apply (lk_row_key Y HY), Hrow. }
  wp_use (hw_table_write w1 Hok1). intros [] w2 (Hok2 & Hr2 & Hrow2). cbn [fst snd modify].
  split; [reflexivity |]. split; [| exact Logic.I]. pose proof Hr as [H1 H2 H3 H4 H5 H6 H7 H8].
  destruct (same_table w w2) as [Hm Hc].
  { intros b Hb. pose proof (table_storage b Hb) as Hs. rewrite Hr2, Hr1 by auto with regs.
    unfold table_reg in Hb. destruct ((g_wbase G <=? b) && (b <? g_wbase G + g_words G)); [lia | reflexivity]. }
  split; cbn [with_4k a_mc a_4k a_idx a_vlan_on a_4k_on a_ports_on]; auto.
  - apply wf_set_row; [exact Hn | apply Hrow | exact H2].
  - intros i Hi. rewrite (mc_words_same w w2) by assumption. apply H3, Hi.
  - intros v Hv. unfold row_at. cbn [a_4k with_4k].
    assert (0 <= v4_vid row < l_vids L) by (destruct Hrow as [Hp Hf]; unfold row_nonneg, row_fits in *; lia).
    rewrite geti_seti by (rewrite ?(wf_4k_len _ _ H2); lia).
    destruct (Z.eqb_spec v (v4_vid row)) as [-> | Hne].
    + rewrite <- (lk_row_round Y HY row Hrow) at 1. f_equal. apply tabulate_ext. intros k Hk.
      rewrite Hrow2, (lk_key Y HY), Hkey, Z.eqb_refl by exact Hk. symmetry. apply Hword, Hk.
    + fold (row_at a v). rewrite H4 by exact Hv. f_equal. symmetry. apply tabulate_ext. intros k Hk.
      rewrite Hrow2, (lk_key Y HY), Hkey by exact Hk. destruct (Z.eqb_spec v (v4_vid row)); [contradiction | apply Hrow1].
  - intros p Hp. rewrite Hc by auto. apply H5, Hp.
  - rewrite Hc by auto. exact H6.
  - rewrite Hc by auto. exact H7.
  - intros p Hp. rewrite Hc by auto. apply H8, Hp.
Qed.

Lemma sim_chip_get_mc_index p : 0 <= p ->
  sim chip_rep (fun i => 0 <= i < l_mcs L) (@get_mc_index _ cops p) (@get_mc_index _ iops p).
Proof.
  intros Hp. apply sim_reject; [reflexivity | intros Hlt]. apply sim_of_wp. intros w a Hr.
  assert (Hp' : 0 <= p < l_ports L) by lia. wp_step.
  wp_use (hw_read (idx_reg Y p) w (rp_ok _ _ Hr)); [apply table_visible; auto |].
  intros d w' (-> & Hok & Hreg & Hrow). wp_step. cbn [fst snd].
  rewrite <- (rp_idx _ _ Hr p Hp'). split; [reflexivity |].
  split; [apply (rep_after_read w); assumption | apply (wf_idx _ _ (rp_wf _ _ Hr)), Hp'].
Qed.

(** A read-modify-write of one of the control registers. *)
Lemma rmwr_ctl r mask d w a :
  chip_rep w a -> ctl_reg Y r = true -> 0 <= mask < 2 ^ 32 -> 0 <= d < 2 ^ 32 ->
  wp (rtl8366_smi_rmwr r mask d)
     (fun _ w' => hw_ok w' /\ same_mc w w' /\ same_rows w w' /\
        hw_reg w' r = u16 (Z.lor (Z.land (hw_reg w r) (Z.lnot mask)) d) /\
        (forall b, ctl_reg Y b = true -> b <> r -> hw_reg w' b = hw_reg w b)) never w.
Proof.
  intros Hr Ht Hm Hd. wp_use (hw_rmwr r mask d w (rp_ok _ _ Hr)); [apply table_storage; auto | assumption .. |].
  intros u w' (Hok & Hreg & Hrow).
  assert (Hother : forall b, table_reg Y b = true -> b <> r -> hw_reg w' b = hw_reg w b).
  { intros b Hb Hne. rewrite Hreg by (apply table_storage, Hb). apply Z.eqb_neq in Hne. rewrite Hne. reflexivity. }
  split; [exact Hok |]. split; [| split; [intros v i _; apply Hrow | split]].
  - intros i k Hi Hk. destruct (lk_mc_reg Y HY i k Hi Hk) as [Hb Hc]. apply Hother; [exact Hb | congruence].
  - rewrite Hreg, Z.eqb_refl by (apply table_storage; auto). reflexivity.
  - intros b Hb Hne. apply Hother; auto.
Qed.

Lemma idx_shift_range p : 0 <= p -> 0 <= idx_shift p <= 12.
Proof. intros Hp. unfold idx_shift. Z.to_euclidean_division_equations. lia. Qed.

(** Storing an MC index in its field, seen from every port. *)
Lemma idx_rmw p q i t :
  0 <= p -> 0 <= q -> 0 <= i < 16 -> idx_reg Y q = idx_reg Y p ->
  idx_of_reg q (u16 (Z.lor (Z.land t (Z.lnot (Z.shiftl 0xf (idx_shift p)))) (Z.shiftl i (idx_shift p))))
  = if q =? p then i else idx_of_reg q t.
Proof.
  intros Hp Hq Hi He. pose proof (idx_shift_range p Hp). pose proof (idx_shift_range q Hq).
  unfold idx_of_reg. change 0xf with (Z.ones 4). rewrite field_u16 by lia.
  destruct (Z.eqb_spec q p) as [-> | Hne].
  - apply field_rmw_same; lia.
  - apply field_rmw_other; [lia .. |]. revert He. unfold idx_reg, idx_shift.
    Z.to_euclidean_division_equations. lia.
Qed.

Lemma sim_chip_set_mc_index p i : 0 <= p -> 0 <= i ->
  sim chip_rep anything (@set_mc_index _ cops p i) (@set_mc_index _ iops p i).
Proof.
  intros Hp Hi. apply sim_reject; [reflexivity | intros Hfit]. apply sim_of_wp. intros w a Hr.
  pose proof (lk_ports Y HY). pose proof (lk_mcs Y HY). assert (Hp' : 0 <= p < l_ports L) by lia.
  pose proof (idx_shift_range p Hp) as Hsh.
  assert (Hland : Z.land i 0xf = i).
  { change 0xf with (Z.ones 4). rewrite Z.land_ones by lia. apply Z.mod_small. lia. }
  rewrite Hland.
  assert (Hshift : forall x, 0 <= x < 16 -> 0 <= Z.shiftl x (idx_shift p) < 2 ^ 32).
  { intros x Hx. rewrite Z.shiftl_mul_pow2 by lia.
    pose proof (Z.pow_le_mono_r 2 (idx_shift p) 12 ltac:(lia) ltac:(lia)).
    pose proof (Z.pow_pos_nonneg 2 (idx_shift p) ltac:(lia) ltac:(lia)). nia. }
  assert (Hctl : ctl_reg Y (idx_reg Y p) = true) by auto.
  wp_use (rmwr_ctl (idx_reg Y p) _ _ w a Hr Hctl (Hshift 0xf ltac:(lia)) (Hshift i ltac:(lia))).
  intros [] w' (Hok & Hm & Hrow & Hreg & Hsame). cbn [fst snd modify].
  split; [reflexivity |]. split; [| exact Logic.I]. pose proof Hr as [H1 H2 H3 H4 H5 H6 H7 H8].
  pose proof (idx_reg_range p Hp') as Hin. destruct (lk_bits Y HY) as (B1 & B2 & B3 & _).
  assert (Hbit : forall b, ctl_reg Y b = true -> is_idx_reg Y b = false -> hw_reg w' b = hw_reg w b).
  { intros b Hb Hni. apply Hsame; [exact Hb | congruence]. }
  split; cbn [with_idx a_mc a_4k a_idx a_vlan_on a_4k_on a_ports_on]; auto.
  - apply wf_set_idx; [exact Hp' | lia | exact H2].
  - intros j Hj. rewrite (mc_words_same w w') by assumption. apply H3, Hj.
  - intros v Hv. rewrite (row_words_same w w') by assumption. apply H4, Hv.
  - intros q Hq. unfold idx_at. cbn [a_idx with_idx]. rewrite geti_seti by (rewrite ?(wf_idx_len _ _ H2); lia).
    destruct (Z.eq_dec (idx_reg Y q) (idx_reg Y p)) as [He | Hne].
    + rewrite He, Hreg, idx_rmw by (assumption || lia).
      destruct (q =? p); [reflexivity |]. rewrite <- He. apply H5, Hq.
    + rewrite Hsame by auto. destruct (Z.eqb_spec q p) as [-> |]; [contradiction | apply H5, Hq].
  - rewrite Hbit by auto. exact H6.
  - rewrite Hbit by auto. exact H7.
  - intros q Hq. rewrite Hbit by auto. apply H8, Hq.
Qed.

(** Setting one bit of a control register that holds no MC index. *)
Lemma rep_bit r n (b : bool) w a a' :
  chip_rep w a -> ctl_reg Y r = true -> is_idx_reg Y r = false -> 0 <= n < 16 -> wf L a' ->
  a_mc a' = a_mc a -> a_4k a' = a_4k a -> a_idx a' = a_idx a ->
  let seen (r' m : Z) (x : bool) := if (r' =? r) && (m =? n) then b else x in
  a_vlan_on a' = seen (ly_on_reg Y) (ly_on_bit Y) (a_vlan_on a) ->
  a_4k_on a' = seen (ly_4k_reg Y) (ly_4k_bit Y) (a_4k_on a) ->
  (forall p, 0 <= p < l_ports L ->
     geti true (a_ports_on a') p = negb (seen (ly_pe_reg Y) p (negb (geti true (a_ports_on a) p)))) ->
  wp (rtl8366_smi_rmwr r (BIT n) (if b then BIT n else 0))
     (fun _ w' => chip_rep w' a') never w.
Proof.
  intros Hr Hctl Hni Hn Hwf E1 E2 E3 seen Eon E4 Epe. pose proof Hr as [H1 H2 H3 H4 H5 H6 H7 H8].
  pose proof (BIT_range n 32 ltac:(lia)) as Hbit. pose proof (lk_ports Y HY).
  wp_use (rmwr_ctl r (BIT n) (if b then BIT n else 0) w a Hr Hctl Hbit); [destruct b; lia |].
  intros _ w' (Hok & Hm & Hrow & Hreg & Hsame).
  assert (Hseen : forall r' m, ctl_reg Y r' = true -> 0 <= m < 16 ->
    Z.testbit (hw_reg w' r') m = seen r' m (Z.testbit (hw_reg w r') m)).
  { intros r' m Hr' Hm'. unfold seen. destruct (Z.eqb_spec r' r) as [-> | Hne]; cbn [andb].
    - rewrite Hreg, bit_rmw by lia. destruct (m =? n); [reflexivity |].
      destruct (Z.ltb_spec m 16); [reflexivity | lia].
    - rewrite Hsame by assumption. reflexivity. }
  destruct (lk_bits Y HY) as (_ & _ & _ & _ & _ & _ & Bon & B4). split; auto.
  - intros i Hi. unfold mc_at. rewrite E1, (mc_words_same w w') by assumption. apply H3, Hi.
  - intros v Hv. unfold row_at. rewrite E2, (row_words_same w w') by assumption. apply H4, Hv.
  - intros p Hp. unfold idx_at. rewrite E3, Hsame; [apply H5, Hp | auto |].
    intros He. pose proof (idx_reg_range p Hp). congruence.
  - rewrite Eon, Hseen, H6 by auto. reflexivity.
  - rewrite E4, Hseen, H7 by auto. reflexivity.
  - intros p Hp. rewrite Epe, Hseen, H8, Bool.negb_involutive by (auto || lia). reflexivity.
Qed.

(** Two places are not the same place. *)
Ltac elsewhere := match goal with |- context [?b && ?c] =>
  replace (b && c) with false by lia end; reflexivity.

Lemma sim_chip_enable_vlan e : sim chip_rep anything (@enable_vlan _ cops e) (@enable_vlan _ iops e).
Proof.
  apply sim_of_wp. intros w a Hr. destruct (lk_bits Y HY) as (B1 & B2 & B3 & B4 & B5 & B6 & B7 & B8).
  cbn [enable_vlan chip_ops]. eapply wp_mono with (E := never); [| cbv beta | intros ? ? []].
  - apply (rep_bit (ly_on_reg Y) (ly_on_bit Y) (cbool e) w a (with_vlan_on (cbool e) a) Hr); auto.
    + apply wf_vlan_on, (rp_wf _ _ Hr).
    + rewrite !Z.eqb_refl. reflexivity.
    + elsewhere.
    + intros p Hp. replace (_ && _) with false by lia. rewrite Bool.negb_involutive. reflexivity.
  - intros [] w' Hr'. split; [reflexivity |]. split; [exact Hr' | exact Logic.I].
Qed.

Lemma sim_chip_enable_vlan4k e : sim chip_rep anything (@enable_vlan4k _ cops e) (@enable_vlan4k _ iops e).
Proof.
  apply sim_of_wp. intros w a Hr. destruct (lk_bits Y HY) as (B1 & B2 & B3 & B4 & B5 & B6 & B7 & B8).
  cbn [enable_vlan4k chip_ops]. eapply wp_mono with (E := never); [| cbv beta | intros ? ? []].
  - apply (rep_bit (ly_4k_reg Y) (ly_4k_bit Y) (cbool e) w a (with_4k_on (cbool e) a) Hr); auto.
    + apply wf_4k_on, (rp_wf _ _ Hr).
    + elsewhere.
    + rewrite !Z.eqb_refl. reflexivity.
    + intros p Hp. replace (_ && _) with false by lia. rewrite Bool.negb_involutive. reflexivity.
  - intros [] w' Hr'. split; [reflexivity |]. split; [exact Hr' | exact Logic.I].
Qed.

Lemma sim_chip_enable_port p e : 0 <= p < l_ports L ->
  sim chip_rep anything (@enable_port _ cops p e) (@enable_port _ iops p e).
Proof.
  intros Hp. pose proof (lk_ports Y HY). apply sim_of_wp. intros w a Hr.
  destruct (lk_bits Y HY) as (B1 & B2 & B3 & B4 & B5 & B6 & B7 & B8). cbn [enable_port chip_ops].
  assert (Hb : u32 (Z.shiftl 1 p) = BIT p) by (apply u32_small, (BIT_range p 32); lia).
  rewrite Hb, <- (if_negb _ (cbool e) (BIT p) 0). eapply wp_mono with (E := never); [| cbv beta | intros ? ? []].
  - apply (rep_bit (ly_pe_reg Y) p (negb (cbool e)) w a (with_ports_on (seti (a_ports_on a) p (cbool e)) a) Hr);
      auto; try lia.
    + apply wf_set_ports_on; [apply seti_length | apply (rp_wf _ _ Hr)].
    + elsewhere.
    + elsewhere.
    + intros q Hq. cbn [a_ports_on with_ports_on].
      rewrite geti_seti by (rewrite ?(wf_ports_len _ _ (rp_wf _ _ Hr)); lia). rewrite Z.eqb_refl. cbn [andb].
      destruct (q =? p); rewrite Bool.negb_involutive; reflexivity.
  - intros [] w' Hr'. split; [reflexivity |]. split; [exact Hr' | exact Logic.I].
Qed.

(** The contract. *)
Definition chip_impl : @VlanImpl W cops L.
Proof.
  refine {| rep := chip_rep; rep_wf := rp_wf; mc_same := eq |}; try reflexivity.
  - intros x y ->. auto.
  - intros x y vid untag member fid ->. reflexivity.
  - intros i Hi. apply sim2_self, sim_chip_get_vlan_mc, Hi.
  - intros i mc ? Hi Hn _ <-. apply sim_chip_set_vlan_mc; assumption.
  - exact sim_chip_get_vlan_4k.
  - exact sim_chip_set_vlan_4k.
  - exact sim_chip_get_mc_index.
  - exact sim_chip_set_mc_index.
  - exact sim_chip_enable_vlan.
  - exact sim_chip_enable_vlan4k.
  - exact sim_chip_enable_port.
Defined.

(** ** Every working chip holds some tables *)

Definition tables_of (w : W) : vstate := {|
  a_mc := tabulate (l_mcs L) (fun i => ly_mc_dec Y (mc_words w i));
  a_4k := tabulate (l_vids L) (fun v => ly_row_dec Y v (row_words w v));
  a_idx := tabulate (l_ports L) (fun p => idx_of_reg p (hw_reg w (idx_reg Y p)));
  a_vlan_on := Z.testbit (hw_reg w (ly_on_reg Y)) (ly_on_bit Y);
  a_4k_on := Z.testbit (hw_reg w (ly_4k_reg Y)) (ly_4k_bit Y);
  a_ports_on := tabulate (l_ports L) (fun p => negb (Z.testbit (hw_reg w (ly_pe_reg Y)) p))
|}.

Lemma rep_tables w : hw_ok w -> chip_rep w (tables_of w).
Proof.
  intros Hok. pose proof (lk_ports Y HY). pose proof (lo_mcs _ (lk_limits Y HY)).
  pose proof (lo_vids _ (lk_limits Y HY)). pose proof (lk_mcs Y HY).
  assert (Hm : forall i, 0 <= i < l_mcs L -> mc_at (tables_of w) i = ly_mc_dec Y (mc_words w i)).
  { intros i Hi. unfold mc_at. cbn [a_mc tables_of]. rewrite geti_tabulate by exact Hi. reflexivity. }
  assert (Hrow : forall v, 0 <= v < l_vids L -> row_at (tables_of w) v = ly_row_dec Y v (row_words w v)).
  { intros v Hv. unfold row_at. cbn [a_4k tables_of]. rewrite geti_tabulate by exact Hv. reflexivity. }
  assert (Hidx : forall p, 0 <= p < l_ports L ->
    idx_at (tables_of w) p = idx_of_reg p (hw_reg w (idx_reg Y p))).
  { intros p Hp. unfold idx_at. cbn [a_idx tables_of]. rewrite geti_tabulate by exact Hp. reflexivity. }
  split; auto.
  - split; try (apply tabulate_length; lia).
    + intros i Hi. rewrite Hm by exact Hi. apply (lk_mc_dec Y HY).
    + intros v Hv. rewrite Hrow by exact Hv. apply (lk_row_dec Y HY), Hv.
    + intros p Hp. rewrite Hidx by exact Hp. unfold idx_of_reg.
      pose proof (land_mask_range (Z.shiftr (hw_reg w (idx_reg Y p)) (idx_shift p)) 4 ltac:(lia)).
      change (Z.ones 4) with 15 in *. lia.
  - intros p Hp. cbn [a_ports_on tables_of]. rewrite geti_tabulate by exact Hp. reflexivity.
Qed.

Definition smi_tables (s : smi W) : smi vstate :=
  Smi (vlan_enabled s) (vlan4k_enabled s) (tables_of (hw s)).

Lemma rep_smi_tables (s : smi W) : hw_ok (hw s) -> rep_smi (I := chip_impl) s (smi_tables s).
Proof. intros Hok. split; [reflexivity |]. split; [reflexivity | apply rep_tables, Hok]. Qed.

(** ** Refinement *)

Lemma chip_refines tagged rs (s : smi W) a :
  rep_smi (I := chip_impl) s a -> Forall request_ok rs ->
  let c := @serve_all W cops tagged rs s in
  let t := @serve_all vstate iops tagged rs a in
  fst c = fst t /\ rep_smi (I := chip_impl) (snd c) (snd t).
Proof. apply impl_refines. Qed.

(** ** Start-up *)

(** What start-up leaves in the registers. *)
Record started_chip (w : W) : Prop := {
  sc_on : Z.testbit (hw_reg w (ly_on_reg Y)) (ly_on_bit Y) = true;
  sc_4k : Z.testbit (hw_reg w (ly_4k_reg Y)) (ly_4k_bit Y) = false;
  sc_idx p : 0 <= p < l_ports L -> idx_of_reg p (hw_reg w (idx_reg Y p)) = p;
  sc_mc p : 0 <= p < l_ports L -> exists prio,
    ly_mc_dec Y (mc_words w p)
    = VlanMc (p + 1) (@init_vlan_mask _ iops p) (@init_vlan_mask _ iops p) 0 prio
}.

Lemma chip_startup (s : smi W) :
  startup_limits L -> hw_ok (hw s) ->
  exists s', @rtl8366_init_vlan W cops s = (Ok tt, s') /\ hw_ok (hw s') /\ started_chip (hw s').
Proof.
  intros Hst Hok. pose proof (lk_ports Y HY).
  destruct (impl_startup (I := chip_impl) (lk_limits Y HY) s _ Hst (rep_smi_tables s Hok))
    as (s' & b & Hs' & Hr' & Hs & Hon & H4on).
  exists s'. split; [exact Hs' |]. destruct Hr' as (_ & _ & [Hok' Hwf Hmc _ Hidx Hv H4 _]).
  split; [exact Hok' |]. split.
  - rewrite <- Hv. exact Hon.
  - rewrite <- H4. exact H4on.
  - intros p Hp. rewrite <- Hidx by exact Hp. apply (st_idx _ _ _ Hs p Hp).
  - intros p Hp. pose proof (st_cache _ _ _ Hs p Hp) as Hc.
    assert (Hp' : 0 <= p < l_mcs L) by (destruct Hst; lia).
    rewrite Hmc in Hc by exact Hp'. destruct (ly_mc_dec Y (mc_words (hw s') p)) as [x1 x2 x3 x4 x5].
    cbn in Hc. injection Hc as -> -> -> ->. exists x5. reflexivity.
Qed.
End Impl.
