(* ===== verification/Rtl8366s.v ===== *)
(** * The RTL8366S: [rtl8366s.c]

    The chip driver of the six-port RTL8366S: its register map, the
    [struct rtl8366_smi_ops] it supplies to the core, PHY access, the counter
    table and the swconfig attributes, each as a program over the register
    interface of [Regs]. *)

From S2P Require Import Prelude CMonad SmiCore Regs.

(** ** Register map *)

Definition RTL8366S_PHY_NO_MAX : Z := 4.
Definition RTL8366S_PHY_PAGE_MAX : Z := 7.
Definition RTL8366S_PHY_ADDR_MAX : Z := 31.
Definition RTL8366S_SGCR : Z := 0x0000.
Definition RTL8366S_SGCR_EN_VLAN : Z := BIT 13.
Definition RTL8366S_PECR : Z := 0x0001.
Definition RTL8366S_GREEN_ETHERNET_CTRL_REG : Z := 0x000a.
Definition RTL8366S_GREEN_ETHERNET_CTRL_MASK : Z := 0x0018.
Definition RTL8366S_GREEN_ETHERNET_TX_BIT : Z := Z.shiftl 1 3.
Definition RTL8366S_GREEN_ETHERNET_RX_BIT : Z := Z.shiftl 1 4.
Definition RTL8366S_SSCR0 : Z := 0x0002.
Definition RTL8366S_SSCR1 : Z := 0x0003.
Definition RTL8366S_SSCR2 : Z := 0x0004.
Definition RTL8366S_SSCR2_DROP_UNKNOWN_DA : Z := BIT 0.
Definition RTL8366S_RESET_CTRL_REG : Z := 0x0100.
Definition RTL8366S_CHIP_CTRL_RESET_HW : Z := 1.
Definition RTL8366S_CHIP_VERSION_CTRL_REG : Z := 0x0104.
Definition RTL8366S_CHIP_ID_REG : Z := 0x0105.
Definition RTL8366S_CHIP_ID_8366 : Z := 0x8366.
Definition RTL8366S_PHY_ACCESS_CTRL_REG : Z := 0x8028.
Definition RTL8366S_PHY_ACCESS_DATA_REG : Z := 0x8029.
Definition RTL8366S_PHY_CTRL_READ : Z := 1.
Definition RTL8366S_PHY_CTRL_WRITE : Z := 0.
Definition RTL8366S_PHY_REG_MASK : Z := 0x1f.
Definition RTL8366S_PHY_PAGE_OFFSET : Z := 5.
Definition RTL8366S_PHY_PAGE_MASK : Z := Z.shiftl 0x7 5.
Definition RTL8366S_PHY_NO_OFFSET : Z := 9.
Definition RTL8366S_PHY_POWER_SAVING_CTRL_REG : Z := 12.
Definition RTL8366S_PHY_POWER_SAVING_MASK : Z := 0x1000.
Definition RTL8366S_LED_BLINKRATE_REG : Z := 0x0420.
Definition RTL8366S_LED_BLINKRATE_MASK : Z := 0x0007.
Definition RTL8366S_LED_CTRL_REG : Z := 0x0421.
Definition RTL8366S_MIB_COUNT : Z := 33.
Definition RTL8366S_MIB_COUNTER_PORT_OFFSET : Z := 0x0040.
Definition RTL8366S_MIB_COUNTER_BASE : Z := 0x1000.
Definition RTL8366S_MIB_COUNTER_PORT_OFFSET2 : Z := 0x0008.
Definition RTL8366S_MIB_COUNTER_BASE2 : Z := 0x1180.
Definition RTL8366S_MIB_CTRL_REG : Z := 0x11F0.
Definition RTL8366S_MIB_CTRL_BUSY_MASK : Z := 0x0001.
Definition RTL8366S_MIB_CTRL_RESET_MASK : Z := 0x0002.
Definition RTL8366S_PORT_VLAN_CTRL_BASE : Z := 0x0058.
Definition RTL8366S_PORT_VLAN_CTRL_MASK : Z := 0xf.
Definition RTL8366S_VLAN_TABLE_READ_BASE : Z := 0x018B.
Definition RTL8366S_VLAN_TABLE_WRITE_BASE : Z := 0x0185.
Definition RTL8366S_VLAN_TB_CTRL_REG : Z := 0x010F.
Definition RTL8366S_TABLE_ACCESS_CTRL_REG : Z := 0x0180.
Definition RTL8366S_TABLE_VLAN_READ_CTRL : Z := 0x0E01.
Definition RTL8366S_TABLE_VLAN_WRITE_CTRL : Z := 0x0F01.
Definition RTL8366S_VLAN_MEMBERINGRESS_REG : Z := 0x0379.
Definition RTL8366S_PORT_LINK_STATUS_BASE : Z := 0x0060.
Definition RTL8366S_PORT_STATUS_SPEED_MASK : Z := 0x0003.
Definition RTL8366S_PORT_STATUS_DUPLEX_MASK : Z := 0x0004.
Definition RTL8366S_PORT_STATUS_LINK_MASK : Z := 0x0010.
Definition RTL8366S_PORT_STATUS_TXPAUSE_MASK : Z := 0x0020.
Definition RTL8366S_PORT_STATUS_RXPAUSE_MASK : Z := 0x0040.
Definition RTL8366S_PORT_STATUS_AN_MASK : Z := 0x0080.
Definition RTL8366S_PORT_NUM_CPU : Z := 5.
Definition RTL8366S_NUM_PORTS : Z := 6.
Definition RTL8366S_NUM_VLANS : Z := 16.
Definition RTL8366S_NUM_LEDGROUPS : Z := 4.
Definition RTL8366S_NUM_VIDS : Z := 4096.
Definition RTL8366S_PRIORITYMAX : Z := 7.
Definition RTL8366S_FIDMAX : Z := 7.
Definition RTL8366S_PORT_1 : Z := Z.shiftl 1 0.
Definition RTL8366S_PORT_2 : Z := Z.shiftl 1 1.
Definition RTL8366S_PORT_3 : Z := Z.shiftl 1 2.
Definition RTL8366S_PORT_4 : Z := Z.shiftl 1 3.
Definition RTL8366S_PORT_UNKNOWN : Z := Z.shiftl 1 4.
Definition RTL8366S_PORT_CPU : Z := Z.shiftl 1 5.
Definition RTL8366S_VLAN_VID_MASK : Z := 0xfff.
Definition RTL8366S_VLAN_PRIORITY_SHIFT : Z := 12.
Definition RTL8366S_VLAN_PRIORITY_MASK : Z := 0x7.
Definition RTL8366S_VLAN_MEMBER_MASK : Z := 0x3f.
Definition RTL8366S_VLAN_UNTAG_SHIFT : Z := 6.
Definition RTL8366S_VLAN_UNTAG_MASK : Z := 0x3f.
Definition RTL8366S_VLAN_FID_SHIFT : Z := 12.
Definition RTL8366S_VLAN_FID_MASK : Z := 0x7.
Definition RTL8366S_MIB_RXB_ID : Z := 0.
Definition RTL8366S_MIB_TXB_ID : Z := 20.

Definition RTL8366S_SGCR_MAX_LENGTH (x : Z) : Z := Z.shiftl x 4.
Definition RTL8366S_SGCR_MAX_LENGTH_MASK : Z := RTL8366S_SGCR_MAX_LENGTH 0x3.
Definition RTL8366S_SGCR_MAX_LENGTH_1522 : Z := RTL8366S_SGCR_MAX_LENGTH 0x0.
Definition RTL8366S_SGCR_MAX_LENGTH_1536 : Z := RTL8366S_SGCR_MAX_LENGTH 0x1.
Definition RTL8366S_SGCR_MAX_LENGTH_1552 : Z := RTL8366S_SGCR_MAX_LENGTH 0x2.
Definition RTL8366S_SGCR_MAX_LENGTH_16000 : Z := RTL8366S_SGCR_MAX_LENGTH 0x3.
Definition RTL8366S_PORT_VLAN_CTRL_REG (p : Z) : Z := RTL8366S_PORT_VLAN_CTRL_BASE + Z.quot p 4.
Definition RTL8366S_PORT_VLAN_CTRL_SHIFT (p : Z) : Z := 4 * Z.rem p 4.
Definition RTL8366S_VLAN_MC_BASE (x : Z) : Z := 0x0016 + x * 2.
Definition RTL8366S_PORT_ALL : Z :=
  Z.lor (Z.lor (Z.lor (Z.lor (Z.lor RTL8366S_PORT_1 RTL8366S_PORT_2) RTL8366S_PORT_3)
    RTL8366S_PORT_4) RTL8366S_PORT_UNKNOWN) RTL8366S_PORT_CPU.

(** ** Counters *)

Definition rtl8366s_mib_counters : list rtl8366_mib_counter := [
  MibCounter 0 0 4 "IfInOctets";
  MibCounter 0 4 4 "EtherStatsOctets";
  MibCounter 0 8 2 "EtherStatsUnderSizePkts";
  MibCounter 0 10 2 "EtherFragments";
  MibCounter 0 12 2 "EtherStatsPkts64Octets";
  MibCounter 0 14 2 "EtherStatsPkts65to127Octets";
  MibCounter 0 16 2 "EtherStatsPkts128to255Octets";
  MibCounter 0 18 2 "EtherStatsPkts256to511Octets";
  MibCounter 0 20 2 "EtherStatsPkts512to1023Octets";
  MibCounter 0 22 2 "EtherStatsPkts1024to1518Octets";
  MibCounter 0 24 2 "EtherOversizeStats";
  MibCounter 0 26 2 "EtherStatsJabbers";
  MibCounter 0 28 2 "IfInUcastPkts";
  MibCounter 0 30 2 "EtherStatsMulticastPkts";
  MibCounter 0 32 2 "EtherStatsBroadcastPkts";
  MibCounter 0 34 2 "EtherStatsDropEvents";
  MibCounter 0 36 2 "Dot3StatsFCSErrors";
  MibCounter 0 38 2 "Dot3StatsSymbolErrors";
  MibCounter 0 40 2 "Dot3InPauseFrames";
  MibCounter 0 42 2 "Dot3ControlInUnknownOpcodes";
  MibCounter 0 44 4 "IfOutOctets";
  MibCounter 0 48 2 "Dot3StatsSingleCollisionFrames";
  MibCounter 0 50 2 "Dot3StatMultipleCollisionFrames";
  MibCounter 0 52 2 "Dot3sDeferredTransmissions";
  MibCounter 0 54 2 "Dot3StatsLateCollisions";
  MibCounter 0 56 2 "EtherStatsCollisions";
  MibCounter 0 58 2 "Dot3StatsExcessiveCollisions";
  MibCounter 0 60 2 "Dot3OutPauseFrames";
  MibCounter 0 62 2 "Dot1dBasePortDelayExceededDiscards";
  MibCounter 1 0 2 "Dot1dTpPortInDiscards";
  MibCounter 1 2 2 "IfOutUcastPkts";
  MibCounter 1 4 2 "IfOutMulticastPkts";
  MibCounter 1 6 2 "IfOutBroadcastPkts"
].

(** ** Operations *)

Section Driver.
Context {W : Type} {B : RegBus W}.
(** What an uninitialised local variable happens to hold. *)
Variable uninit : Z.

(** [do { ... } while (--timeout)] *)
Fixpoint rtl8366s_reset_poll (timeout : nat) : M W unit :=
  match timeout with
  | O => fail EIO
  | S timeout' =>
      data <- catch (rd RTL8366S_RESET_CTRL_REG) ;;
      match data with
      | Err _ => fail EIO
      | Ok data =>
          if negb (cbool (Z.land data RTL8366S_CHIP_CTRL_RESET_HW)) then ret tt
          else rtl8366s_reset_poll timeout'
      end
  end.

Definition rtl8366s_reset_chip : M W unit :=
  unchecked tt (rtl8366_smi_write_reg_noack RTL8366S_RESET_CTRL_REG RTL8366S_CHIP_CTRL_RESET_HW) ;;
  rtl8366s_reset_poll 10.

(** *** PHY access *)

Definition rtl8366s_phy_reg (phy_no page addr : Z) : Z :=
  Z.lor (Z.lor (Z.lor 0x8000 (Z.shiftl 1 (phy_no + RTL8366S_PHY_NO_OFFSET)))
               (Z.land (Z.shiftl page RTL8366S_PHY_PAGE_OFFSET) RTL8366S_PHY_PAGE_MASK))
        (Z.land addr RTL8366S_PHY_REG_MASK).

Definition rtl8366s_read_phy_reg (phy_no page addr : Z) : M W Z :=
  if RTL8366S_PHY_NO_MAX <? phy_no then fail EINVAL else
  if RTL8366S_PHY_PAGE_MAX <? page then fail EINVAL else
  if RTL8366S_PHY_ADDR_MAX <? addr then fail EINVAL else
  wr RTL8366S_PHY_ACCESS_CTRL_REG RTL8366S_PHY_CTRL_READ ;;
  wr (rtl8366s_phy_reg phy_no page addr) 0 ;;
  rd RTL8366S_PHY_ACCESS_DATA_REG.

Definition rtl8366s_write_phy_reg (phy_no page addr data : Z) : M W unit :=
  if RTL8366S_PHY_NO_MAX <? phy_no then fail EINVAL else
  if RTL8366S_PHY_PAGE_MAX <? page then fail EINVAL else
  if RTL8366S_PHY_ADDR_MAX <? addr then fail EINVAL else
  wr RTL8366S_PHY_ACCESS_CTRL_REG RTL8366S_PHY_CTRL_WRITE ;;
  wr (rtl8366s_phy_reg phy_no page addr) data.

Definition rtl8366s_mii_read (addr reg : Z) : M W Z :=
  val <- catch (rtl8366s_read_phy_reg (u32 addr) 0 (u32 reg)) ;;
  ret (match val with Ok v => s32 v | Err _ => 0xffff end).

(** The read flushes the write; its result is dropped. *)
Definition rtl8366s_mii_write (addr reg val : Z) : M W unit :=
  err <- catch (rtl8366s_write_phy_reg (u32 addr) 0 (u32 reg) (u16 val)) ;;
  unchecked 0 (rtl8366s_read_phy_reg (u32 addr) 0 (u32 reg)) ;;
  match err with Ok _ => ret tt | Err e => fun w => (Err e, w) end.

(** *** Green Ethernet and setup *)

Definition rtl8366s_set_green_port (port enable : Z) : M W unit :=
  if RTL8366S_NUM_PORTS <=? port then fail EINVAL else
  phyData <- rtl8366s_read_phy_reg (u32 port) 0 RTL8366S_PHY_POWER_SAVING_CTRL_REG ;;
  rtl8366s_write_phy_reg (u32 port) 0 RTL8366S_PHY_POWER_SAVING_CTRL_REG
    (if cbool enable then Z.lor phyData RTL8366S_PHY_POWER_SAVING_MASK
     else Z.land phyData (Z.lnot RTL8366S_PHY_POWER_SAVING_MASK)).

Definition rtl8366s_set_green (enable : Z) : M W unit :=
  (if negb (cbool enable) then
     for_each (RTL8366S_PHY_NO_MAX + 1) (fun i => unchecked tt (rtl8366s_set_green_port i 0))
   else ret tt) ;;
  rtl8366_smi_rmwr RTL8366S_GREEN_ETHERNET_CTRL_REG RTL8366S_GREEN_ETHERNET_CTRL_MASK
    (if cbool enable then Z.lor RTL8366S_GREEN_ETHERNET_TX_BIT RTL8366S_GREEN_ETHERNET_RX_BIT else 0).

(** [for (i = 0; i < num_initvals - 1; i += 2)] *)
Fixpoint rtl8366s_apply_initvals (words : list Z) : M W unit :=
  match words with
  | reg :: val :: words' => wr reg val ;; rtl8366s_apply_initvals words'
  | _ => ret tt
  end.

(** The device tree: the words of [realtek,initvals], and whether
    [realtek,green-ethernet-features] is there. *)
Definition rtl8366s_setup (initvals : option (list Z)) (green : bool) : M W unit :=
  match initvals with
  | Some words =>
      if Z.of_nat (length words) <? 2 then fail EINVAL else rtl8366s_apply_initvals words
  | None => ret tt
  end ;;
  (if green then
     rtl8366s_set_green 1 ;;
     for_each (RTL8366S_PHY_NO_MAX + 1) (fun i => rtl8366s_set_green_port i 1)
   else ret tt) ;;
  rtl8366_smi_rmwr RTL8366S_SGCR RTL8366S_SGCR_MAX_LENGTH_MASK RTL8366S_SGCR_MAX_LENGTH_1536 ;;
  wr RTL8366S_SSCR0 0 ;;
  wr RTL8366S_SSCR1 0 ;;
  wr RTL8366S_VLAN_MEMBERINGRESS_REG RTL8366S_PORT_ALL ;;
  rtl8366_smi_rmwr RTL8366S_SSCR2 RTL8366S_SSCR2_DROP_UNKNOWN_DA 0.

(** *** MIB counters *)

Definition rtl8366_get_mib_counter (counter port : Z) : M W Z :=
  if (RTL8366S_NUM_PORTS <? port) || (RTL8366S_MIB_COUNT <=? counter) then fail EINVAL else
  let mib := geti (MibCounter (-1) 0 0 "") rtl8366s_mib_counters counter in
  let at_base (base : Z) : M W Z :=
    let addr := u32 (base + mib_offset mib) in
    wr addr 0 ;;
    data <- rd RTL8366S_MIB_CTRL_REG ;;
    if cbool (Z.land data RTL8366S_MIB_CTRL_BUSY_MASK) then fail EBUSY else
    if cbool (Z.land data RTL8366S_MIB_CTRL_RESET_MASK) then fail EIO else
    read_mib_words addr (Z.to_nat (mib_length mib)) 0 in
  if mib_base mib =? 0 then
    at_base (RTL8366S_MIB_COUNTER_BASE + RTL8366S_MIB_COUNTER_PORT_OFFSET * port)
  else if mib_base mib =? 1 then
    at_base (RTL8366S_MIB_COUNTER_BASE2 + RTL8366S_MIB_COUNTER_PORT_OFFSET2 * port)
  else fail EINVAL.

(** *** VLAN tables *)

Definition rtl8366s_get_vlan_4k (vid : Z) : M W vlan_4k :=
  if RTL8366S_NUM_VIDS <=? vid then fail EINVAL else
  wr RTL8366S_VLAN_TABLE_WRITE_BASE (Z.land vid RTL8366S_VLAN_VID_MASK) ;;
  wr RTL8366S_TABLE_ACCESS_CTRL_REG RTL8366S_TABLE_VLAN_READ_CTRL ;;
  data <- collect 2 (fun i => rd (RTL8366S_VLAN_TABLE_READ_BASE + i)) ;;
  ret (Vlan4k (u16 vid)
    (Z.land (Z.shiftr (geti 0 data 1) RTL8366S_VLAN_UNTAG_SHIFT) RTL8366S_VLAN_UNTAG_MASK)
    (Z.land (geti 0 data 1) RTL8366S_VLAN_MEMBER_MASK)
    (Z.land (Z.shiftr (geti 0 data 1) RTL8366S_VLAN_FID_SHIFT) RTL8366S_VLAN_FID_MASK)).

Definition rtl8366s_set_vlan_4k (vlan4k : vlan_4k) : M W unit :=
  if (RTL8366S_NUM_VIDS <=? v4_vid vlan4k) || (RTL8366S_VLAN_MEMBER_MASK <? v4_member vlan4k) ||
     (RTL8366S_VLAN_UNTAG_MASK <? v4_untag vlan4k) || (RTL8366S_FIDMAX <? v4_fid vlan4k)
  then fail EINVAL else
  let data := [
    Z.land (v4_vid vlan4k) RTL8366S_VLAN_VID_MASK;
    Z.lor (Z.lor (Z.land (v4_member vlan4k) RTL8366S_VLAN_MEMBER_MASK)
                 (Z.shiftl (Z.land (v4_untag vlan4k) RTL8366S_VLAN_UNTAG_MASK) RTL8366S_VLAN_UNTAG_SHIFT))
          (Z.shiftl (Z.land (v4_fid vlan4k) RTL8366S_VLAN_FID_MASK) RTL8366S_VLAN_FID_SHIFT)] in
  for_each 2 (fun i => wr (RTL8366S_VLAN_TABLE_WRITE_BASE + i) (geti 0 data i)) ;;
  wr RTL8366S_TABLE_ACCESS_CTRL_REG RTL8366S_TABLE_VLAN_WRITE_CTRL.

Definition rtl8366s_get_vlan_mc (index : Z) : M W vlan_mc :=
  if RTL8366S_NUM_VLANS <=? index then fail EINVAL else
  data <- collect 2 (fun i => rd (RTL8366S_VLAN_MC_BASE index + i)) ;;
  ret (VlanMc
    (Z.land (geti 0 data 0) RTL8366S_VLAN_VID_MASK)
    (Z.land (Z.shiftr (geti 0 data 1) RTL8366S_VLAN_UNTAG_SHIFT) RTL8366S_VLAN_UNTAG_MASK)
    (Z.land (geti 0 data 1) RTL8366S_VLAN_MEMBER_MASK)
    (Z.land (Z.shiftr (geti 0 data 1) RTL8366S_VLAN_FID_SHIFT) RTL8366S_VLAN_FID_MASK)
    (Z.land (Z.shiftr (geti 0 data 0) RTL8366S_VLAN_PRIORITY_SHIFT) RTL8366S_VLAN_PRIORITY_MASK)).

Definition rtl8366s_set_vlan_mc (index : Z) (vlanmc : vlan_mc) : M W unit :=
  if (RTL8366S_NUM_VLANS <=? index) || (RTL8366S_NUM_VIDS <=? mc_vid vlanmc) ||
     (RTL8366S_PRIORITYMAX <? mc_priority vlanmc) ||
     (RTL8366S_VLAN_MEMBER_MASK <? mc_member vlanmc) ||
     (RTL8366S_VLAN_UNTAG_MASK <? mc_untag vlanmc) || (RTL8366S_FIDMAX <? mc_fid vlanmc)
  then fail EINVAL else
  let data := [
    Z.lor (Z.land (mc_vid vlanmc) RTL8366S_VLAN_VID_MASK)
          (Z.shiftl (Z.land (mc_priority vlanmc) RTL8366S_VLAN_PRIORITY_MASK) RTL8366S_VLAN_PRIORITY_SHIFT);
    Z.lor (Z.lor (Z.land (mc_member vlanmc) RTL8366S_VLAN_MEMBER_MASK)
                 (Z.shiftl (Z.land (mc_untag vlanmc) RTL8366S_VLAN_UNTAG_MASK) RTL8366S_VLAN_UNTAG_SHIFT))
          (Z.shiftl (Z.land (mc_fid vlanmc) RTL8366S_VLAN_FID_MASK) RTL8366S_VLAN_FID_SHIFT)] in
  for_each 2 (fun i => wr (RTL8366S_VLAN_MC_BASE index + i) (geti 0 data i)).

Definition rtl8366s_get_mc_index (port : Z) : M W Z :=
  if RTL8366S_NUM_PORTS <=? port then fail EINVAL else
  data <- rd (RTL8366S_PORT_VLAN_CTRL_REG port) ;;
  ret (Z.land (Z.shiftr data (RTL8366S_PORT_VLAN_CTRL_SHIFT port)) RTL8366S_PORT_VLAN_CTRL_MASK).

Definition rtl8366s_set_mc_index (port index : Z) : M W unit :=
  if (RTL8366S_NUM_PORTS <=? port) || (RTL8366S_NUM_VLANS <=? index) then fail EINVAL else
  rtl8366_smi_rmwr (RTL8366S_PORT_VLAN_CTRL_REG port)
    (Z.shiftl RTL8366S_PORT_VLAN_CTRL_MASK (RTL8366S_PORT_VLAN_CTRL_SHIFT port))
    (Z.shiftl (Z.land index RTL8366S_PORT_VLAN_CTRL_MASK) (RTL8366S_PORT_VLAN_CTRL_SHIFT port)).

Definition rtl8366s_enable_vlan (enable : Z) : M W unit :=
  rtl8366_smi_rmwr RTL8366S_SGCR RTL8366S_SGCR_EN_VLAN
    (if cbool enable then RTL8366S_SGCR_EN_VLAN else 0).

Definition rtl8366s_enable_vlan4k (enable : Z) : M W unit :=
  rtl8366_smi_rmwr RTL8366S_VLAN_TB_CTRL_REG 1 (if cbool enable then 1 else 0).

(** [vlan4k_enabled] is the flag of [struct rtl8366_smi]. *)
Definition rtl8366s_is_vlan_valid (vlan4k_enabled : bool) (vlan : Z) : bool :=
  let max := if vlan4k_enabled then RTL8366S_NUM_VIDS - 1 else RTL8366S_NUM_VLANS in
  negb ((vlan =? 0) || (max <=? vlan)).

Definition rtl8366s_enable_port (port enable : Z) : M W unit :=
  rtl8366_smi_rmwr RTL8366S_PECR (u32 (Z.shiftl 1 port))
    (if cbool enable then 0 else u32 (Z.shiftl 1 port)).

(** *** swconfig attributes

    [value] is [val->value.i], [port] is [val->port_vlan]. *)

Definition rtl8366s_sw_reset_mibs : M W unit :=
  rtl8366_smi_rmwr RTL8366S_MIB_CTRL_REG 0 (Z.shiftl 1 2).

(** A failed read leaves the local variable as it was. *)
Definition rtl8366s_sw_get_blinkrate : M W Z :=
  data <- unchecked uninit (rd RTL8366S_LED_BLINKRATE_REG) ;;
  ret (Z.land data RTL8366S_LED_BLINKRATE_MASK).

Definition rtl8366s_sw_set_blinkrate (value : Z) : M W unit :=
  if 6 <=? value then fail EINVAL else
  rtl8366_smi_rmwr RTL8366S_LED_BLINKRATE_REG RTL8366S_LED_BLINKRATE_MASK value.

Definition rtl8366s_sw_get_max_length : M W Z :=
  data <- unchecked uninit (rd RTL8366S_SGCR) ;;
  ret (Z.shiftr (Z.land data RTL8366S_SGCR_MAX_LENGTH_MASK) 4).

Definition rtl8366s_sw_set_max_length (value : Z) : M W unit :=
  let set length_code :=
    rtl8366_smi_rmwr RTL8366S_SGCR RTL8366S_SGCR_MAX_LENGTH_MASK length_code in
  if value =? 0 then set RTL8366S_SGCR_MAX_LENGTH_1522
  else if value =? 1 then set RTL8366S_SGCR_MAX_LENGTH_1536
  else if value =? 2 then set RTL8366S_SGCR_MAX_LENGTH_1552
  else if value =? 3 then set RTL8366S_SGCR_MAX_LENGTH_16000
  else fail EINVAL.

Definition rtl8366s_sw_get_learning_enable : M W Z :=
  data <- unchecked uninit (rd RTL8366S_SSCR0) ;;
  ret (b2z (negb (cbool data))).

Definition rtl8366s_sw_set_learning_enable (value : Z) : M W unit :=
  let portmask := if negb (cbool value) then RTL8366S_PORT_ALL else 0 in
  wr RTL8366S_SSCR0 portmask ;;
  wr RTL8366S_SSCR1 portmask.

Definition rtl8366s_sw_get_green : M W Z :=
  data <- rd RTL8366S_GREEN_ETHERNET_CTRL_REG ;;
  ret (b2z (cbool (Z.land data
    (Z.lor RTL8366S_GREEN_ETHERNET_TX_BIT RTL8366S_GREEN_ETHERNET_RX_BIT)))).

Definition rtl8366s_sw_set_green (value : Z) : M W unit := rtl8366s_set_green (s32 value).

(** [None] when the link is down.  The speed codes are the framework's. *)
Definition rtl8366s_sw_get_port_link (speed_10 speed_100 speed_1000 speed_unknown : Z) (port : Z) :
    M W (option port_link) :=
  if RTL8366S_NUM_PORTS <=? port then fail EINVAL else
  data <- unchecked 0 (rd (RTL8366S_PORT_LINK_STATUS_BASE + Z.quot port 2)) ;;
  let data := if cbool (Z.rem port 2) then Z.shiftr data 8 else data in
  if negb (cbool (Z.land data RTL8366S_PORT_STATUS_LINK_MASK)) then ret None else
  let speed := Z.land data RTL8366S_PORT_STATUS_SPEED_MASK in
  ret (Some (PortLink
    (cbool (Z.land data RTL8366S_PORT_STATUS_DUPLEX_MASK))
    (cbool (Z.land data RTL8366S_PORT_STATUS_RXPAUSE_MASK))
    (cbool (Z.land data RTL8366S_PORT_STATUS_TXPAUSE_MASK))
    (cbool (Z.land data RTL8366S_PORT_STATUS_AN_MASK))
    (if speed =? 0 then speed_10 else if speed =? 1 then speed_100
     else if speed =? 2 then speed_1000 else speed_unknown))).

Definition rtl8366s_sw_set_port_led (port value : Z) : M W unit :=
  if (RTL8366S_NUM_PORTS <=? port) || (Z.shiftl 1 port =? RTL8366S_PORT_UNKNOWN) then fail EINVAL else
  if port =? RTL8366S_PORT_NUM_CPU then
    rtl8366_smi_rmwr RTL8366S_LED_BLINKRATE_REG (Z.shiftl 0xF 4) (u32 (Z.shiftl value 4))
  else
    rtl8366_smi_rmwr RTL8366S_LED_CTRL_REG (Z.shiftl 0xF (port * 4)) (u32 (Z.shiftl value (port * 4))).

Definition rtl8366s_sw_get_port_led (port : Z) : M W Z :=
  if RTL8366S_NUM_LEDGROUPS <=? port then fail EINVAL else
  data <- unchecked 0 (rd RTL8366S_LED_CTRL_REG) ;;
  ret (Z.land (Z.shiftr data (port * 4)) 0x000F).

Definition rtl8366s_sw_get_green_port (port : Z) : M W Z :=
  if RTL8366S_NUM_PORTS <=? port then fail EINVAL else
  phyData <- rtl8366s_read_phy_reg port 0 RTL8366S_PHY_POWER_SAVING_CTRL_REG ;;
  ret (b2z (cbool (Z.land phyData RTL8366S_PHY_POWER_SAVING_MASK))).

Definition rtl8366s_sw_set_green_port (port value : Z) : M W unit :=
  rtl8366s_set_green_port (s32 port) (s32 value).

Definition rtl8366s_sw_reset_port_mibs (port : Z) : M W unit :=
  if RTL8366S_NUM_PORTS <=? port then fail EINVAL else
  rtl8366_smi_rmwr RTL8366S_MIB_CTRL_REG 0 (Z.shiftl 1 (port + 3)).

(** *** Detection *)

Definition rtl8366s_detect : M W unit :=
  chip_id <- rd RTL8366S_CHIP_ID_REG ;;
  if chip_id =? RTL8366S_CHIP_ID_8366 then
    chip_ver <- rd RTL8366S_CHIP_VERSION_CTRL_REG ;;
    ret tt
  else fail ENODEV.
End Driver.

(** ** The operations table, [rtl8366s_smi_ops] and [rtl8366s_probe] *)

Definition rtl8366s_smi_ops {W} {B : RegBus W} : SmiOps W := {|
  cpu_port := RTL8366S_PORT_NUM_CPU;
  num_ports := RTL8366S_NUM_PORTS;
  num_vlan_mc := RTL8366S_NUM_VLANS;
  get_vlan_mc := rtl8366s_get_vlan_mc;
  set_vlan_mc := rtl8366s_set_vlan_mc;
  get_vlan_4k := rtl8366s_get_vlan_4k;
  set_vlan_4k := rtl8366s_set_vlan_4k;
  get_mc_index := rtl8366s_get_mc_index;
  set_mc_index := rtl8366s_set_mc_index;
  is_vlan_valid := rtl8366s_is_vlan_valid;
  enable_vlan := rtl8366s_enable_vlan;
  enable_vlan4k := rtl8366s_enable_vlan4k;
  enable_port := rtl8366s_enable_port
|}.

(** The board: its reset line, if any, and its device tree. *)
Definition rtl8366s_chip_ops {W} {B : RegBus W} (reset : option (bool -> M W unit))
    (initvals : option (list Z)) (green : bool) : ChipOps W := {|
  hw_reset := reset;
  detect := rtl8366s_detect;
  reset_chip := rtl8366s_reset_chip;
  setup := rtl8366s_setup initvals green;
  get_mib_counter := rtl8366_get_mib_counter
|}.

(** The bus parameters [rtl8366s_probe] puts into [struct rtl8366_smi]. *)
Definition rtl8366s_clk_delay : Z := 10.
Definition rtl8366s_cmd_read : Z := 0xa9.
Definition rtl8366s_cmd_write : Z := 0xa8.

Definition rtl8366s_sw_get_port_stats {W} {B : RegBus W} reset initvals green (port : Z) :
    M (smi W) (Z * Z) :=
  @rtl8366_sw_get_port_stats W rtl8366s_smi_ops (rtl8366s_chip_ops reset initvals green)
    port RTL8366S_MIB_TXB_ID RTL8366S_MIB_RXB_ID.
