(* ===== verification/Rtl8366sImpl.v ===== *)
(** * The RTL8366S driver keeps the contract

    The layout of the RTL8366S: its VLAN operations, as [Rtl8366s] writes
    them, are the operations of [TableChip] on this layout, and the layout
    satisfies the laws, so the driver is a [VlanImpl]. *)

From S2P Require Import Prelude CMonad SmiCore SmiSpec SmiVlan SmiImpl Regs TableChip Rtl8366s.

(** The configuration registers: they hold what is written to them. *)
Definition rtl8366s_geometry : geometry := {|
  g_storage b :=
    ((RTL8366S_VLAN_MC_BASE 0 <=? b) && (b <? RTL8366S_VLAN_MC_BASE RTL8366S_NUM_VLANS)) ||
    ((RTL8366S_PORT_VLAN_CTRL_BASE <=? b) && (b <=? RTL8366S_PORT_VLAN_CTRL_BASE + 1)) ||
    ((RTL8366S_SGCR <=? b) && (b <=? RTL8366S_SSCR2)) ||
    (b =? RTL8366S_GREEN_ETHERNET_CTRL_REG) || (b =? RTL8366S_VLAN_TB_CTRL_REG) ||
    ((RTL8366S_VLAN_TABLE_WRITE_BASE <=? b) && (b <? RTL8366S_VLAN_TABLE_WRITE_BASE + 2)) ||
    (b =? RTL8366S_VLAN_MEMBERINGRESS_REG) ||
    ((RTL8366S_LED_BLINKRATE_REG <=? b) && (b <=? RTL8366S_LED_CTRL_REG + 2));
  g_ctrl := RTL8366S_TABLE_ACCESS_CTRL_REG;
  g_rd := RTL8366S_TABLE_VLAN_READ_CTRL;
  g_wr := RTL8366S_TABLE_VLAN_WRITE_CTRL;
  g_rbase := RTL8366S_VLAN_TABLE_READ_BASE;
  g_key := RTL8366S_VLAN_TABLE_WRITE_BASE;
  g_wbase := RTL8366S_VLAN_TABLE_WRITE_BASE;
  g_words := 2
|}.

Lemma rtl8366s_geometry_ok : geometry_ok rtl8366s_geometry.
Proof.
  split; [reflexivity | | discriminate].
  intros b. cbv -[Z.leb Z.ltb Z.eqb orb andb]. lia.
Qed.

(** VID and priority share the first word of an entry; members, untagged
    ports and FID the second, as they do in a row of the 4K table. *)
Definition rtl8366s_layout : layout := {|
  ly_geom := rtl8366s_geometry;
  ly_limits := rtl8366s_limits;
  ly_mc_words := 2;
  ly_mc_base := RTL8366S_VLAN_MC_BASE;
  ly_mc_dec data := VlanMc
    (Z.land (geti 0 data 0) 0xfff)
    (Z.land (Z.shiftr (geti 0 data 1) 6) 0x3f)
    (Z.land (geti 0 data 1) 0x3f)
    (Z.land (Z.shiftr (geti 0 data 1) 12) 0x7)
    (Z.land (Z.shiftr (geti 0 data 0) 12) 0x7);
  ly_mc_enc mc := [
    Z.lor (Z.land (mc_vid mc) 0xfff) (Z.shiftl (Z.land (mc_priority mc) 0x7) 12);
    Z.lor (Z.lor (Z.land (mc_member mc) 0x3f) (Z.shiftl (Z.land (mc_untag mc) 0x3f) 6))
          (Z.shiftl (Z.land (mc_fid mc) 0x7) 12)];
  ly_mc_bad i mc :=
    (16 <=? i) || (4096 <=? mc_vid mc) || (7 <? mc_priority mc) || (0x3f <? mc_member mc) ||
    (0x3f <? mc_untag mc) || (7 <? mc_fid mc);
  ly_row_dec vid data := Vlan4k (u16 vid)
    (Z.land (Z.shiftr (geti 0 data 1) 6) 0x3f)
    (Z.land (geti 0 data 1) 0x3f)
    (Z.land (Z.shiftr (geti 0 data 1) 12) 0x7);
  ly_row_enc row := [
    Z.land (v4_vid row) 0xfff;
    Z.lor (Z.lor (Z.land (v4_member row) 0x3f) (Z.shiftl (Z.land (v4_untag row) 0x3f) 6))
          (Z.shiftl (Z.land (v4_fid row) 0x7) 12)];
  ly_row_bad row :=
    (4096 <=? v4_vid row) || (0x3f <? v4_member row) || (0x3f <? v4_untag row) || (7 <? v4_fid row);
  ly_idx_base := RTL8366S_PORT_VLAN_CTRL_BASE;
  ly_on_reg := RTL8366S_SGCR; ly_on_bit := 13;
  ly_4k_reg := RTL8366S_VLAN_TB_CTRL_REG; ly_4k_bit := 0;
  ly_pe_reg := RTL8366S_PECR
|}.

(** The driver's operations are those of its layout. *)
Lemma rtl8366s_ops_layout {W} {B : RegBus W} : @rtl8366s_smi_ops W B = chip_ops rtl8366s_layout.
Proof. reflexivity. Qed.

(** Storing fields in a word and reading them back. *)
Lemma members_roundtrip m u f :
  0 <= m < 2 ^ 6 -> 0 <= u < 2 ^ 6 -> 0 <= f < 2 ^ 3 ->
  let d := u16 (Z.lor (Z.lor (Z.land m 0x3f) (Z.shiftl (Z.land u 0x3f) 6)) (Z.shiftl (Z.land f 0x7) 12)) in
  Z.land (Z.shiftr d 6) 0x3f = u /\ Z.land d 0x3f = m /\ Z.land (Z.shiftr d 12) 0x7 = f.
Proof.
  intros Hm Hu Hf. cbv zeta. change 0x3f with (Z.ones 6). change 0x7 with (Z.ones 3).
  unfold u16. repeat split; bit_solve.
Qed.

Lemma rtl8366s_layout_ok : layout_ok rtl8366s_layout.
Proof.
  split.
  - exact rtl8366s_limits_ok.
  - cbn. lia.
  - reflexivity.
  - cbn. lia.
  - cbn. lia.
  - reflexivity.
  - cbn. lia.
  - intros k Hk. cbn in Hk. assert (Hc : k = 0 \/ k = 1) by lia. destruct Hc as [-> | ->]; split; reflexivity.
  - intros i k Hi Hk. cbn in Hi, Hk. revert Hi Hk.
    cbv -[Z.leb Z.ltb Z.eqb Z.le Z.lt Z.add Z.mul orb andb negb]. lia.
  - intros i j k. cbv -[Z.le Z.lt Z.add Z.mul not]. lia.
  - intros b. cbv -[Z.leb Z.ltb Z.eqb orb andb negb]. lia.
  - cbn. repeat split; try reflexivity; try lia; discriminate.
  - intros i mc _ _. unfold mc_fits. cbn. lia.
  - intros mc [Hn Hf]. unfold mc_nonneg, mc_fits in *. cbn in Hf.
    destruct (members_roundtrip (mc_member mc) (mc_untag mc) (mc_fid mc)) as (E1 & E2 & E3); [lia .. |].
    destruct (vid_prio_roundtrip (mc_vid mc) (mc_priority mc)) as (E4 & E5); [lia .. |].
    cbv zeta in E1, E2, E3, E4, E5.
    open_words. rewrite E1, E2, E3, E4, E5. destruct mc; reflexivity.
  - intros l. unfold mc_ok, mc_nonneg, mc_fits. cbn.
    mask_ranges (geti 0 l 0). mask_ranges (geti 0 l 1). lia.
  - intros row _. unfold row_fits. cbn. lia.
  - intros row [Hn Hf]. unfold row_nonneg, row_fits in *. cbn in *. apply (vid_word_key (v4_vid row)). lia.
  - intros row [Hn Hf]. unfold row_nonneg, row_fits in *. cbn in Hf.
    destruct (members_roundtrip (v4_member row) (v4_untag row) (v4_fid row)) as (E1 & E2 & E3); [lia .. |].
    cbv zeta in E1, E2, E3.
    open_words. rewrite (u16_small (v4_vid row)), E1, E2, E3 by lia. destruct row; reflexivity.
  - intros v l Hv. cbn in Hv. unfold row_ok, row_nonneg, row_fits. cbn. rewrite u16_small by lia.
    mask_ranges (geti 0 l 1). lia.
Qed.

#[export] Instance rtl8366s_impl {W} {B : RegBus W} {HW : SwitchHw W rtl8366s_geometry} :
  @VlanImpl W rtl8366s_smi_ops rtl8366s_limits := chip_impl rtl8366s_layout rtl8366s_layout_ok.
