(* ===== verification/Rtl8366sProps.v ===== *)
(** * Properties of the RTL8366S driver

    The core's refinement and start-up theorems at the level of the
    registers, the read-back of the configuration attributes, the counter
    words, and the PHY register window. *)

From S2P Require Import Prelude CMonad SmiCore SmiSpec SmiVlan SmiImpl SmiProps Regs TableChip Rtl8366s Rtl8366sImpl.

#[local] Abbreviation L := rtl8366s_limits.
#[local] Abbreviation G := rtl8366s_geometry.

(** ** Refinement *)

(** C2: refinement. The whole driver, the core on top of the RTL8366S
    register code, implements the abstract switch: whatever the registers
    hold, any sequence of framework requests gets from the chip exactly the
    results the tables give, and leaves registers that again represent the
    tables. *)
Theorem rtl8366s_refines_tables {W} {B : RegBus W} {HW : SwitchHw W G} tagged rs (s : smi W) :
  hw_ok (hw s) -> Forall request_ok rs ->
  let c := @serve_all W rtl8366s_smi_ops tagged rs s in
  let t := @serve_all vstate (ideal_ops L) tagged rs (smi_tables rtl8366s_layout s) in
  fst c = fst t /\ rep_smi (I := rtl8366s_impl) (snd c) (snd t).
Proof.
  intros Hok Hrs. apply (chip_refines rtl8366s_layout rtl8366s_layout_ok); [| exact Hrs].
  apply rep_smi_tables, Hok.
Qed.

#[local] Abbreviation mem_ops := (@rtl8366s_smi_ops memchip (mem_bus G)).
#[local] Abbreviation mem_hw_s := (mem_hw G rtl8366s_geometry_ok).

Definition zero_chip : smi memchip := Smi 0 0 (MemChip (fun _ => 0) (fun _ _ => 0)).

Lemma rtl8366s_refines_tables_witness :
  let rs := [SetVlanEnable 1 1; SetPvid 2 100; SetVlanPorts 9 [(0, 0); (5, 1)]; SetPvid 2 5000] in
  let c := @serve_all memchip mem_ops 0 rs zero_chip in
  let t := @serve_all vstate (ideal_ops L) 0 rs
             (@smi_tables rtl8366s_layout memchip (mem_bus G) mem_hw_s zero_chip) in
  fst c = fst t /\ rep_smi (I := @rtl8366s_impl memchip (mem_bus G) mem_hw_s) (snd c) (snd t).
Proof.
  apply (@rtl8366s_refines_tables memchip (mem_bus G) mem_hw_s 0
           [SetVlanEnable 1 1; SetPvid 2 100; SetVlanPorts 9 [(0, 0); (5, 1)]; SetPvid 2 5000] zero_chip).
  - exact Logic.I.
  - repeat constructor; cbn; try lia; discriminate.
Defined.

(** ** Start-up on the registers *)

(** Start-up of an RTL8366S in any state. After [rtl8366_init_vlan]
    the VLAN bit of the global control register is set and the 4K bit clear,
    the PVID register field of port [p] selects member configuration [p], and
    that configuration's two registers hold VID [p + 1], the ports of its
    VLAN (all of them for the CPU port, else the port and the CPU port) as
    members and as untagged members, and FID 0. *)
Theorem rtl8366s_startup_registers {W} {B : RegBus W} {HW : SwitchHw W G} (s : smi W) :
  hw_ok (hw s) ->
  exists s', @rtl8366_init_vlan W rtl8366s_smi_ops s = (Ok tt, s') /\
    Z.testbit (hw_reg (hw s') RTL8366S_SGCR) 13 = true /\
    Z.testbit (hw_reg (hw s') RTL8366S_VLAN_TB_CTRL_REG) 0 = false /\
    forall p, 0 <= p < RTL8366S_NUM_PORTS ->
      let ports := if p =? RTL8366S_PORT_NUM_CPU then 0x3f else Z.lor (BIT p) RTL8366S_PORT_CPU in
      let d0 := hw_reg (hw s') (RTL8366S_VLAN_MC_BASE p) in
      let d1 := hw_reg (hw s') (RTL8366S_VLAN_MC_BASE p + 1) in
      Z.land (Z.shiftr (hw_reg (hw s') (RTL8366S_PORT_VLAN_CTRL_REG p))
                (RTL8366S_PORT_VLAN_CTRL_SHIFT p)) RTL8366S_PORT_VLAN_CTRL_MASK = p /\
      Z.land d0 RTL8366S_VLAN_VID_MASK = p + 1 /\
      Z.land d1 RTL8366S_VLAN_MEMBER_MASK = ports /\
      Z.land (Z.shiftr d1 RTL8366S_VLAN_UNTAG_SHIFT) RTL8366S_VLAN_UNTAG_MASK = ports /\
      Z.land (Z.shiftr d1 RTL8366S_VLAN_FID_SHIFT) RTL8366S_VLAN_FID_MASK = 0.
Proof.
  intros Hok. assert (Hst : startup_limits L).
  { unfold startup_limits. change (Z.ones (l_ports L)) with 63. cbn. lia. }
  destruct (chip_startup rtl8366s_layout rtl8366s_layout_ok s Hst Hok) as (s' & Hs' & _ & [Hon H4 Hidx Hmc]).
  exists s'. split; [exact Hs' |]. split; [exact Hon |]. split; [exact H4 |]. intros p Hp. cbv zeta.
  split; [apply Hidx, Hp |]. destruct (Hmc p Hp) as [prio Hp'].
  assert (Hmask : @init_vlan_mask vstate (ideal_ops L) p
                  = if p =? RTL8366S_PORT_NUM_CPU then 0x3f else Z.lor (BIT p) RTL8366S_PORT_CPU).
  { apply Z.eqb_eq. revert Hp. apply (forallb_upto 6 (fun p => @init_vlan_mask vstate (ideal_ops L) p
      =? if p =? RTL8366S_PORT_NUM_CPU then 0x3f else Z.lor (BIT p) RTL8366S_PORT_CPU)). reflexivity. }
  rewrite <- Hmask. clear Hmask. unfold mc_words in Hp'.
  change (tabulate _ _) with [hw_reg (hw s') (RTL8366S_VLAN_MC_BASE p + 0); hw_reg (hw s') (RTL8366S_VLAN_MC_BASE p + 1)] in Hp'.
  rewrite Z.add_0_r in Hp'. cbn -[Z.land Z.shiftr init_vlan_mask] in Hp'. injection Hp' as E1 E2 E3 E4 _.
  auto.
Qed.

Lemma rtl8366s_startup_registers_witness :
  exists s', @rtl8366_init_vlan memchip mem_ops zero_chip = (Ok tt, s') /\
    Z.testbit (@hw_reg memchip (mem_bus G) G mem_hw_s (hw s') RTL8366S_SGCR) 13 = true.
Proof.
  destruct (@rtl8366s_startup_registers memchip (mem_bus G) mem_hw_s zero_chip Logic.I)
    as (s' & H1 & H2 & _).
  exists s'. split; [exact H1 | exact H2].
Defined.

(** ** Configuration attributes *)

(** The maximum frame length attribute reads back as the value that was
    set, 0 to 3, and setting it leaves the VLAN enable bit of the same
    register alone; any other value is rejected with [-EINVAL] before the
    register is touched. *)
Theorem rtl8366s_max_length_roundtrip {W} {B : RegBus W} {HW : SwitchHw W G} uninit v (w : W) :
  hw_ok w ->
  (0 <= v <= 3 ->
   exists w', rtl8366s_sw_set_max_length v w = (Ok tt, w') /\
     fst (rtl8366s_sw_get_max_length uninit w') = Ok v /\
     Z.testbit (hw_reg w' RTL8366S_SGCR) 13 = Z.testbit (hw_reg w RTL8366S_SGCR) 13) /\
  (3 < v -> rtl8366s_sw_set_max_length v w = (Err (- EINVAL), w)).
Proof.
  intros Hok. split.
  - intros Hv. assert (Hv' : 0 <= v < 2 ^ 2) by lia.
    destruct (rmwr_field RTL8366S_SGCR 4 2 v w Hok eq_refl ltac:(lia) ltac:(lia) ltac:(lia) Hv')
      as (w' & Hrun & Hok' & Hget & Hother & _). exists w'. split; [| split].
    + unfold rtl8366s_sw_set_max_length. rewrite <- Hrun.
      assert (Hcase : v = 0 \/ v = 1 \/ v = 2 \/ v = 3) by lia.
      destruct Hcase as [-> | [-> | [-> | ->]]]; reflexivity.
    + unfold rtl8366s_sw_get_max_length. destruct (rd_run RTL8366S_SGCR w' Hok' eq_refl) as [w'' Hr].
      unfold bind. rewrite (unchecked_ok _ _ _ _ _ Hr). cbn [fst ret]. f_equal. rewrite <- Hget.
      change RTL8366S_SGCR_MAX_LENGTH_MASK with (Z.shiftl (Z.ones 2) 4).
      generalize (hw_reg w' RTL8366S_SGCR). intros x. bit_solve.
    + specialize (Hother 13 1 ltac:(lia) ltac:(lia) ltac:(lia) ltac:(lia)).
      apply (f_equal (fun x => Z.testbit x 0)) in Hother.
      rewrite !Z.land_spec, !Z.shiftr_spec in Hother by lia. cbn in Hother.
      rewrite !andb_true_r in Hother. exact Hother.
  - intros Hv. unfold rtl8366s_sw_set_max_length.
    destruct (Z.eqb_spec v 0), (Z.eqb_spec v 1), (Z.eqb_spec v 2), (Z.eqb_spec v 3); try lia. reflexivity.
Qed.

Lemma rtl8366s_max_length_roundtrip_witness :
  let w := MemChip (fun _ => 0xffff) (fun _ _ => 0) in
  (0 <= 2 <= 3 ->
   exists w', @rtl8366s_sw_set_max_length memchip (mem_bus G) 2 w = (Ok tt, w') /\
     fst (@rtl8366s_sw_get_max_length memchip (mem_bus G) 77 w') = Ok 2 /\
     Z.testbit (@hw_reg memchip (mem_bus G) G mem_hw_s w' RTL8366S_SGCR) 13
     = Z.testbit (@hw_reg memchip (mem_bus G) G mem_hw_s w RTL8366S_SGCR) 13) /\
  (3 < 2 -> @rtl8366s_sw_set_max_length memchip (mem_bus G) 2 w = (Err (- EINVAL), w)).
Proof.
  apply (@rtl8366s_max_length_roundtrip memchip (mem_bus G) mem_hw_s 77 2). exact Logic.I.
Defined.

(** The LED mode of each of the four LED groups (0 to 15) reads back as it
    was set and the other three groups keep theirs. *)
Theorem rtl8366s_port_led_roundtrip {W} {B : RegBus W} {HW : SwitchHw W G} port v (w : W) :
  hw_ok w -> 0 <= port < RTL8366S_NUM_LEDGROUPS -> 0 <= v <= 15 ->
  exists w', rtl8366s_sw_set_port_led port v w = (Ok tt, w') /\
    fst (rtl8366s_sw_get_port_led port w') = Ok v /\
    forall q, 0 <= q < RTL8366S_NUM_LEDGROUPS -> q <> port ->
      fst (rtl8366s_sw_get_port_led q w') = fst (rtl8366s_sw_get_port_led q w).
Proof.
  intros Hok Hp Hv. unfold RTL8366S_NUM_LEDGROUPS in Hp. assert (Hv' : 0 <= v < 2 ^ 4) by lia.
  destruct (rmwr_field RTL8366S_LED_CTRL_REG (port * 4) 4 v w Hok eq_refl ltac:(lia) ltac:(lia) ltac:(lia) Hv')
    as (w' & Hrun & Hok' & Hget & Hother & _).
  assert (Hled : forall u, hw_ok u -> forall q, 0 <= q < 4 ->
    fst (rtl8366s_sw_get_port_led q u)
    = Ok (Z.land (Z.shiftr (hw_reg u RTL8366S_LED_CTRL_REG) (q * 4)) 0xf)).
  { intros u Hu q Hq. unfold rtl8366s_sw_get_port_led, RTL8366S_NUM_LEDGROUPS.
    destruct (Z.leb_spec 4 q); [lia |]. destruct (rd_run RTL8366S_LED_CTRL_REG u Hu eq_refl) as [u' Hr].
    unfold bind. rewrite (unchecked_ok _ _ _ _ _ Hr). reflexivity. }
  exists w'. split; [| split].
  - rewrite <- Hrun. assert (Hcase : port = 0 \/ port = 1 \/ port = 2 \/ port = 3) by lia.
    unfold rtl8366s_sw_set_port_led.
    assert (Hu : u32 (Z.shiftl v (port * 4)) = Z.shiftl v (port * 4)).
    { apply u32_small. rewrite Z.shiftl_mul_pow2 by lia.
      destruct Hcase as [-> | [-> | [-> | ->]]]; cbn; lia. }
    rewrite Hu. destruct Hcase as [-> | [-> | [-> | ->]]]; reflexivity.
  - rewrite Hled by (assumption || lia). f_equal. exact Hget.
  - intros q Hq Hne. unfold RTL8366S_NUM_LEDGROUPS in Hq. rewrite !Hled by (assumption || lia). f_equal.
    apply (Hother (q * 4) 4); lia.
Qed.

Lemma rtl8366s_port_led_roundtrip_witness :
  exists w', @rtl8366s_sw_set_port_led memchip (mem_bus G) 2 9 (hw zero_chip) = (Ok tt, w') /\
    fst (@rtl8366s_sw_get_port_led memchip (mem_bus G) 2 w') = Ok 9 /\
    forall q, 0 <= q < RTL8366S_NUM_LEDGROUPS -> q <> 2 ->
      fst (@rtl8366s_sw_get_port_led memchip (mem_bus G) q w')
      = fst (@rtl8366s_sw_get_port_led memchip (mem_bus G) q (hw zero_chip)).
Proof.
  apply (@rtl8366s_port_led_roundtrip memchip (mem_bus G) mem_hw_s 2 9 (hw zero_chip));
    [exact Logic.I | cbn; unfold RTL8366S_NUM_LEDGROUPS; lia | lia].
Defined.

(** ** Counters *)

Definition mib_addr (counter port : Z) : Z :=
  let mib := geti (MibCounter (-1) 0 0 "") rtl8366s_mib_counters counter in
  (if mib_base mib =? 0 then RTL8366S_MIB_COUNTER_BASE + RTL8366S_MIB_COUNTER_PORT_OFFSET * port
   else RTL8366S_MIB_COUNTER_BASE2 + RTL8366S_MIB_COUNTER_PORT_OFFSET2 * port) + mib_offset mib.
Definition mib_words (counter : Z) : nat :=
  Z.to_nat (mib_length (geti (MibCounter (-1) 0 0 "") rtl8366s_mib_counters counter)).

(** Every entry of the table has a known base, and two or four words. *)
Lemma mib_table_ok counter :
  0 <= counter < RTL8366S_MIB_COUNT ->
  let mib := geti (MibCounter (-1) 0 0 "") rtl8366s_mib_counters counter in
  (mib_base mib = 0 \/ mib_base mib = 1) /\ 0 <= mib_offset mib < 64 /\ 0 <= mib_length mib <= 4.
Proof.
  intros Hc. unfold RTL8366S_MIB_COUNT in Hc. cbv zeta.
  assert (Hall : forallb (fun m => ((mib_base m =? 0) || (mib_base m =? 1)) && (0 <=? mib_offset m) &&
    (mib_offset m <? 64) && (0 <=? mib_length m) && (mib_length m <=? 4)) rtl8366s_mib_counters = true)
    by reflexivity.
  rewrite forallb_forall in Hall. specialize (Hall (geti (MibCounter (-1) 0 0 "") rtl8366s_mib_counters counter)).
  lapply Hall; [lia |]. apply nth_In. cbn [length rtl8366s_mib_counters]. lia.
Qed.

Section Mib.
Context {W : Type} {B : RegBus W}.
Variables (good : W -> Prop) (mem : Z -> Z).
Hypothesis good_write : forall a d w, good w -> wp (wr a d) (fun _ => good) never w.
Hypothesis good_read : forall a w, good w -> wp (rd a) (fun d w' => d = mem a /\ good w') never w.

(** Reading a MIB counter of a port the switch has: the value is the
    two or four 16-bit words of that counter put together, exact in 64
    bits; the call fails with [-EBUSY] exactly when the control register
    says the counters are being prepared, and with [-EIO] when they are
    being reset. *)
Theorem rtl8366s_mib_value counter port w :
  good w -> 0 <= counter < RTL8366S_MIB_COUNT -> 0 <= port < RTL8366S_NUM_PORTS ->
  fst (rtl8366_get_mib_counter counter port w)
  = mib_result (mem RTL8366S_MIB_CTRL_REG) (words_value mem (mib_addr counter port) (mib_words counter)).
Proof.
  intros Hw Hc Hp. destruct (mib_table_ok counter Hc) as (Hb & Ho & Hl).
  unfold rtl8366_get_mib_counter, mib_addr, mib_words.
  unfold RTL8366S_MIB_COUNT, RTL8366S_NUM_PORTS in *.
  destruct (Z.ltb_spec 6 port); [lia |]. destruct (Z.leb_spec 33 counter); [lia |]. cbn [orb].
  set (mib := geti _ _ _) in *. cbv zeta.
  destruct Hb as [Hb | Hb]; rewrite Hb; cbn [Z.eqb];
    apply (mib_read_run good mem good_write good_read); try exact Hw; try lia;
    unfold RTL8366S_MIB_COUNTER_BASE, RTL8366S_MIB_COUNTER_PORT_OFFSET, RTL8366S_MIB_COUNTER_BASE2,
      RTL8366S_MIB_COUNTER_PORT_OFFSET2; lia.
Qed.
End Mib.

Lemma rtl8366s_mib_value_witness :
  let mem := fun a => if a =? RTL8366S_MIB_CTRL_REG then 0 else a in
  fst (@rtl8366_get_mib_counter unit (rom_bus mem) 0 1 tt)
  = mib_result (mem RTL8366S_MIB_CTRL_REG) 0x1043104210411040.
Proof.
  apply (@rtl8366s_mib_value unit (rom_bus (fun a => if a =? RTL8366S_MIB_CTRL_REG then 0 else a))
    (fun _ => True) (fun a => if a =? RTL8366S_MIB_CTRL_REG then 0 else a)) with (counter := 0) (port := 1);
    cbn; auto; unfold RTL8366S_MIB_COUNT, RTL8366S_NUM_PORTS; lia.
Defined.

(** The port bound is one too high: the driver accepts port 6, which the
    switch does not have, and its counter registers are the second group of
    counters of the real ports. *)
Lemma rtl8366s_mib_port_6 {W} {B : RegBus W} (w : W) :
  rtl8366_get_mib_counter 2 6 w = rtl8366_get_mib_counter 29 1 w.
Proof. reflexivity. Qed.

(** ** The PHY window *)

(** Port, page and register of a PHY window address. *)
Definition phy_decode (reg : Z) : Z * Z * Z :=
  (Z.log2 (Z.land reg 0x3e00) - RTL8366S_PHY_NO_OFFSET, Z.land (Z.shiftr reg RTL8366S_PHY_PAGE_OFFSET) 7,
   Z.land reg RTL8366S_PHY_REG_MASK).

(** The PHY window: for every port, page and register the driver
    accepts, the window address lies in [0x8200, 0xFFFF] and port, page and
    register can be read back from it, so no two PHY registers share an
    address; anything out of range is refused with [-EINVAL] without a single
    register access. *)
Theorem rtl8366s_phy_window {W} {B : RegBus W} (phy_no page addr data : Z) (w : W) :
  0 <= phy_no -> 0 <= page -> 0 <= addr ->
  (phy_no <= RTL8366S_PHY_NO_MAX /\ page <= RTL8366S_PHY_PAGE_MAX /\ addr <= RTL8366S_PHY_ADDR_MAX ->
   phy_decode (rtl8366s_phy_reg phy_no page addr) = (phy_no, page, addr) /\
   0x8200 <= rtl8366s_phy_reg phy_no page addr <= 0xffff) /\
  (~ (phy_no <= RTL8366S_PHY_NO_MAX /\ page <= RTL8366S_PHY_PAGE_MAX /\ addr <= RTL8366S_PHY_ADDR_MAX) ->
   rtl8366s_read_phy_reg phy_no page addr w = (Err (- EINVAL), w) /\
   rtl8366s_write_phy_reg phy_no page addr data w = (Err (- EINVAL), w)).
Proof.
  unfold RTL8366S_PHY_NO_MAX, RTL8366S_PHY_PAGE_MAX, RTL8366S_PHY_ADDR_MAX. intros Hn Hp Ha. split.
  - intros Hr.
    assert (Hall : forallb (fun n => forallb (fun p => forallb (fun a =>
      let '(n', p', a') := phy_decode (rtl8366s_phy_reg n p a) in
      (n' =? n) && (p' =? p) && (a' =? a) && (0x8200 <=? rtl8366s_phy_reg n p a) &&
      (rtl8366s_phy_reg n p a <=? 0xffff)) (upto 32)) (upto 8)) (upto 5) = true) by (vm_compute; reflexivity).
    apply (forallb_upto 5) with (x := phy_no) in Hall; [| lia].
    apply (forallb_upto 8) with (x := page) in Hall; [| lia].
    apply (forallb_upto 32) with (x := addr) in Hall; [| lia].
    destruct (phy_decode _) as [[n' p'] a']. repeat rewrite andb_true_iff in Hall.
    destruct Hall as ((((H1 & H2) & H3) & H4) & H5). apply Z.eqb_eq in H1, H2, H3.
    apply Z.leb_le in H4, H5. subst. auto.
  - intros Hr. unfold rtl8366s_read_phy_reg, rtl8366s_write_phy_reg.
    unfold RTL8366S_PHY_NO_MAX, RTL8366S_PHY_PAGE_MAX, RTL8366S_PHY_ADDR_MAX.
    destruct (Z.ltb_spec 4 phy_no); [auto |]. destruct (Z.ltb_spec 7 page); [auto |].
    destruct (Z.ltb_spec 31 addr); [auto | lia].
Qed.

Lemma rtl8366s_phy_window_witness :
  (4 <= 4 /\ 7 <= 7 /\ 31 <= 31 ->
   phy_decode (rtl8366s_phy_reg 4 7 31) = (4, 7, 31) /\ 0x8200 <= rtl8366s_phy_reg 4 7 31 <= 0xffff) /\
  (~ (4 <= 4 /\ 7 <= 7 /\ 31 <= 31) ->
   @rtl8366s_read_phy_reg unit (rom_bus id) 4 7 31 tt = (Err (- EINVAL), tt) /\
   @rtl8366s_write_phy_reg unit (rom_bus id) 4 7 31 5 tt = (Err (- EINVAL), tt)).
Proof. apply (@rtl8366s_phy_window unit (rom_bus id) 4 7 31 5 tt); lia. Defined.
