(* ===== verification/Rtl8366rb.v ===== *)
(** * The RTL8366RB: [rtl8366rb.c]

    The chip driver of the RTL8366RB: its register map, the
    [struct rtl8366_smi_ops] it supplies to the core, PHY access, the counter
    table and the swconfig attributes (LEDs, port state, rate limits, QoS,
    mirroring), over the register interface of [Regs]. *)

From S2P Require Import Prelude CMonad SmiCore Regs.

(** ** Register map *)

Definition RTL8366RB_PHY_NO_MAX : Z := 4.
Definition RTL8366RB_PHY_PAGE_MAX : Z := 7.
Definition RTL8366RB_PHY_ADDR_MAX : Z := 31.
Definition RTL8366RB_SGCR : Z := 0x0000.
Definition RTL8366RB_SGCR_MAX_LENGTH (p : Z) : Z := Z.shiftl p 4.
Definition RTL8366RB_SGCR_MAX_LENGTH_MASK : Z := RTL8366RB_SGCR_MAX_LENGTH 0x3.
Definition RTL8366RB_SGCR_MAX_LENGTH_1536 : Z := RTL8366RB_SGCR_MAX_LENGTH 0x1.
Definition RTL8366RB_SGCR_EN_VLAN : Z := BIT 13.
Definition RTL8366RB_SGCR_EN_VLAN_4KTB : Z := BIT 14.
Definition RTL8366RB_PECR : Z := 0x0001.
Definition RTL8366RB_PMCR : Z := 0x0007.
Definition RTL8366RB_PMCR_SOURCE_PORT (p : Z) : Z := p.
Definition RTL8366RB_PMCR_SOURCE_PORT_MASK : Z := 0x000f.
Definition RTL8366RB_PMCR_MONITOR_PORT (p : Z) : Z := Z.shiftl p 4.
Definition RTL8366RB_PMCR_MONITOR_PORT_MASK : Z := 0x00f0.
Definition RTL8366RB_PMCR_MIRROR_RX : Z := BIT 8.
Definition RTL8366RB_PMCR_MIRROR_TX : Z := BIT 9.
Definition RTL8366RB_PMCR_MIRROR_SPC : Z := BIT 10.
Definition RTL8366RB_PMCR_MIRROR_ISO : Z := BIT 11.
Definition RTL8366RB_SSCR0 : Z := 0x0002.
Definition RTL8366RB_SSCR1 : Z := 0x0003.
Definition RTL8366RB_SSCR2 : Z := 0x0004.
Definition RTL8366RB_SSCR2_DROP_UNKNOWN_DA : Z := BIT 0.
Definition RTL8366RB_RESET_CTRL_REG : Z := 0x0100.
Definition RTL8366RB_CHIP_CTRL_RESET_HW : Z := 1.
Definition RTL8366RB_CHIP_VERSION_CTRL_REG : Z := 0x050A.
Definition RTL8366RB_CHIP_ID_REG : Z := 0x0509.
Definition RTL8366RB_CHIP_ID_8366 : Z := 0x5937.
Definition RTL8366RB_PHY_ACCESS_CTRL_REG : Z := 0x8000.
Definition RTL8366RB_PHY_ACCESS_DATA_REG : Z := 0x8002.
Definition RTL8366RB_PHY_CTRL_READ : Z := 1.
Definition RTL8366RB_PHY_CTRL_WRITE : Z := 0.
Definition RTL8366RB_PHY_REG_MASK : Z := 0x1f.
Definition RTL8366RB_PHY_PAGE_OFFSET : Z := 5.
Definition RTL8366RB_PHY_PAGE_MASK : Z := Z.shiftl 0xf 5.
Definition RTL8366RB_PHY_NO_OFFSET : Z := 9.
Definition RTL8366RB_VLAN_INGRESS_CTRL2_REG : Z := 0x037f.
Definition RTL8366RB_LED_BLINKRATE_REG : Z := 0x0430.
Definition RTL8366RB_LED_BLINKRATE_MASK : Z := 0x0007.
Definition RTL8366RB_LED_CTRL_REG : Z := 0x0431.
Definition RTL8366RB_MIB_COUNT : Z := 33.
Definition RTL8366RB_MIB_COUNTER_PORT_OFFSET : Z := 0x0050.
Definition RTL8366RB_MIB_COUNTER_BASE : Z := 0x1000.
Definition RTL8366RB_MIB_CTRL_REG : Z := 0x13F0.
Definition RTL8366RB_MIB_CTRL_BUSY_MASK : Z := BIT 0.
Definition RTL8366RB_MIB_CTRL_RESET_MASK : Z := BIT 1.
Definition RTL8366RB_MIB_CTRL_PORT_RESET (p : Z) : Z := BIT (2 + p).
Definition RTL8366RB_MIB_CTRL_GLOBAL_RESET : Z := BIT 11.
Definition RTL8366RB_PORT_VLAN_CTRL_BASE : Z := 0x0063.
Definition RTL8366RB_PORT_VLAN_CTRL_REG (p : Z) : Z := RTL8366RB_PORT_VLAN_CTRL_BASE + Z.quot p 4.
Definition RTL8366RB_PORT_VLAN_CTRL_MASK : Z := 0xf.
Definition RTL8366RB_PORT_VLAN_CTRL_SHIFT (p : Z) : Z := 4 * Z.rem p 4.
Definition RTL8366RB_VLAN_TABLE_READ_BASE : Z := 0x018C.
Definition RTL8366RB_VLAN_TABLE_WRITE_BASE : Z := 0x0185.
Definition RTL8366RB_TABLE_ACCESS_CTRL_REG : Z := 0x0180.
Definition RTL8366RB_TABLE_VLAN_READ_CTRL : Z := 0x0E01.
Definition RTL8366RB_TABLE_VLAN_WRITE_CTRL : Z := 0x0F01.
Definition RTL8366RB_VLAN_MC_BASE (p : Z) : Z := 0x0020 + p * 3.
Definition RTL8366RB_PORT_LINK_STATUS_BASE : Z := 0x0014.
Definition RTL8366RB_PORT_STATUS_SPEED_MASK : Z := 0x0003.
Definition RTL8366RB_PORT_STATUS_DUPLEX_MASK : Z := 0x0004.
Definition RTL8366RB_PORT_STATUS_LINK_MASK : Z := 0x0010.
Definition RTL8366RB_PORT_STATUS_TXPAUSE_MASK : Z := 0x0020.
Definition RTL8366RB_PORT_STATUS_RXPAUSE_MASK : Z := 0x0040.
Definition RTL8366RB_PORT_STATUS_AN_MASK : Z := 0x0080.
Definition RTL8366RB_PORT_NUM_CPU : Z := 5.
Definition RTL8366RB_NUM_PORTS : Z := 6.
Definition RTL8366RB_NUM_VLANS : Z := 16.
Definition RTL8366RB_NUM_LEDGROUPS : Z := 4.
Definition RTL8366RB_NUM_VIDS : Z := 4096.
Definition RTL8366RB_PRIORITYMAX : Z := 7.
Definition RTL8366RB_FIDMAX : Z := 7.
Definition RTL8366RB_PORT_1 : Z := Z.shiftl 1 0.
Definition RTL8366RB_PORT_2 : Z := Z.shiftl 1 1.
Definition RTL8366RB_PORT_3 : Z := Z.shiftl 1 2.
Definition RTL8366RB_PORT_4 : Z := Z.shiftl 1 3.
Definition RTL8366RB_PORT_5 : Z := Z.shiftl 1 4.
Definition RTL8366RB_PORT_CPU : Z := Z.shiftl 1 5.
Definition RTL8366RB_PORT_ALL : Z :=
  Z.lor (Z.lor (Z.lor (Z.lor (Z.lor RTL8366RB_PORT_1 RTL8366RB_PORT_2)
    RTL8366RB_PORT_3) RTL8366RB_PORT_4) RTL8366RB_PORT_5) RTL8366RB_PORT_CPU.
Definition RTL8366RB_VLAN_VID_MASK : Z := 0xfff.
Definition RTL8366RB_VLAN_PRIORITY_SHIFT : Z := 12.
Definition RTL8366RB_VLAN_PRIORITY_MASK : Z := 0x7.
Definition RTL8366RB_VLAN_UNTAG_SHIFT : Z := 8.
Definition RTL8366RB_VLAN_UNTAG_MASK : Z := 0xff.
Definition RTL8366RB_VLAN_MEMBER_MASK : Z := 0xff.
Definition RTL8366RB_VLAN_FID_MASK : Z := 0x7.
Definition RTL8366RB_IB_BASE : Z := 0x0200.
Definition RTL8366RB_IB_REG (p : Z) : Z := RTL8366RB_IB_BASE + p.
Definition RTL8366RB_IB_BDTH_MASK : Z := 0x3fff.
Definition RTL8366RB_IB_PREIFG_OFFSET : Z := 14.
Definition RTL8366RB_IB_PREIFG_MASK : Z := Z.shiftl 1 RTL8366RB_IB_PREIFG_OFFSET.
Definition RTL8366RB_EB_BASE : Z := 0x02d1.
Definition RTL8366RB_EB_REG (p : Z) : Z := RTL8366RB_EB_BASE + p.
Definition RTL8366RB_EB_BDTH_MASK : Z := 0x3fff.
Definition RTL8366RB_EB_PREIFG_REG : Z := 0x02f8.
Definition RTL8366RB_EB_PREIFG_OFFSET : Z := 9.
Definition RTL8366RB_EB_PREIFG_MASK : Z := Z.shiftl 1 RTL8366RB_EB_PREIFG_OFFSET.
Definition RTL8366RB_BDTH_SW_MAX : Z := 1048512.
Definition RTL8366RB_BDTH_UNIT : Z := 64.
Definition RTL8366RB_BDTH_REG_DEFAULT : Z := 16383.
Definition RTL8366RB_QOS_BIT : Z := 15.
Definition RTL8366RB_QOS_MASK : Z := Z.shiftl 1 RTL8366RB_QOS_BIT.
Definition RTL8366RB_QOS_DEFAULT_PREIFG : Z := 1.
Definition RTL8366RB_MIB_RXB_ID : Z := 0.
Definition RTL8366RB_MIB_TXB_ID : Z := 20.

(** ** Counters *)

Definition rtl8366rb_mib_counters : list rtl8366_mib_counter := [
  MibCounter 0 0 4 "IfInOctets";
  MibCounter 0 4 4 "EtherStatsOctets";
  MibCounter 0 8 2 "EtherStatsUnderSizePkts";
  MibCounter 0 10 2 "EtherFragments";
  MibCounter 0 12 2 "EtherStatsPkts64Octets";
  MibCounter 0 14 2 "EtherStatsPkts65to127Octets";
  MibCounter 0 16 2 "EtherStatsPkts128to255Octets";
  MibCounter 0 18 2 "EtherStatsPkts256to511Octets";
  MibCounter 0 20 2 "EtherStatsPkts512to1023Octets";
  MibCounter 0 22 2 "EtherStatsPkts1024to1518Octets";
  MibCounter 0 24 2 "EtherOversizeStats";
  MibCounter 0 26 2 "EtherStatsJabbers";
  MibCounter 0 28 2 "IfInUcastPkts";
  MibCounter 0 30 2 "EtherStatsMulticastPkts";
  MibCounter 0 32 2 "EtherStatsBroadcastPkts";
  MibCounter 0 34 2 "EtherStatsDropEvents";
  MibCounter 0 36 2 "Dot3StatsFCSErrors";
  MibCounter 0 38 2 "Dot3StatsSymbolErrors";
  MibCounter 0 40 2 "Dot3InPauseFrames";
  MibCounter 0 42 2 "Dot3ControlInUnknownOpcodes";
  MibCounter 0 44 4 "IfOutOctets";
  MibCounter 0 48 2 "Dot3StatsSingleCollisionFrames";
  MibCounter 0 50 2 "Dot3StatMultipleCollisionFrames";
  MibCounter 0 52 2 "Dot3sDeferredTransmissions";
  MibCounter 0 54 2 "Dot3StatsLateCollisions";
  MibCounter 0 56 2 "EtherStatsCollisions";
  MibCounter 0 58 2 "Dot3StatsExcessiveCollisions";
  MibCounter 0 60 2 "Dot3OutPauseFrames";
  MibCounter 0 62 2 "Dot1dBasePortDelayExceededDiscards";
  MibCounter 0 64 2 "Dot1dTpPortInDiscards";
  MibCounter 0 66 2 "IfOutUcastPkts";
  MibCounter 0 68 2 "IfOutMulticastPkts";
  MibCounter 0 70 2 "IfOutBroadcastPkts"
].

(** ** Operations *)

Section Driver.
Context {W : Type} {B : RegBus W}.
(** What an uninitialised local variable happens to hold. *)
Variable uninit : Z.

(** [do { ... } while (--timeout)] *)
Fixpoint rtl8366rb_reset_poll (timeout : nat) : M W unit :=
  match timeout with
  | O => fail EIO
  | S timeout' =>
      data <- catch (rd RTL8366RB_RESET_CTRL_REG) ;;
      match data with
      | Err _ => fail EIO
      | Ok data =>
          if negb (cbool (Z.land data RTL8366RB_CHIP_CTRL_RESET_HW)) then ret tt
          else rtl8366rb_reset_poll timeout'
      end
  end.

Definition rtl8366rb_reset_chip : M W unit :=
  unchecked tt (rtl8366_smi_write_reg_noack RTL8366RB_RESET_CTRL_REG RTL8366RB_CHIP_CTRL_RESET_HW) ;;
  rtl8366rb_reset_poll 10.

(** [for (i = 0; i < num_initvals - 1; i += 2)] *)
Fixpoint rtl8366rb_apply_initvals (words : list Z) : M W unit :=
  match words with
  | reg :: val :: words' => wr reg val ;; rtl8366rb_apply_initvals words'
  | _ => ret tt
  end.

(** [initvals]: the words of the device tree's [realtek,initvals]. *)
Definition rtl8366rb_setup (initvals : option (list Z)) : M W unit :=
  match initvals with
  | Some words =>
      if Z.of_nat (length words) <? 2 then fail EINVAL else rtl8366rb_apply_initvals words
  | None => ret tt
  end ;;
  rtl8366_smi_rmwr RTL8366RB_SGCR RTL8366RB_SGCR_MAX_LENGTH_MASK RTL8366RB_SGCR_MAX_LENGTH_1536 ;;
  wr RTL8366RB_SSCR0 0 ;;
  wr RTL8366RB_SSCR1 0 ;;
  wr RTL8366RB_VLAN_INGRESS_CTRL2_REG RTL8366RB_PORT_ALL ;;
  rtl8366_smi_rmwr RTL8366RB_SSCR2 RTL8366RB_SSCR2_DROP_UNKNOWN_DA 0.

(** *** PHY access *)

Definition rtl8366rb_phy_reg (phy_no page addr : Z) : Z :=
  Z.lor (Z.lor (Z.lor 0x8000 (Z.shiftl 1 (phy_no + RTL8366RB_PHY_NO_OFFSET)))
               (Z.land (Z.shiftl page RTL8366RB_PHY_PAGE_OFFSET) RTL8366RB_PHY_PAGE_MASK))
        (Z.land addr RTL8366RB_PHY_REG_MASK).

Definition rtl8366rb_read_phy_reg (phy_no page addr : Z) : M W Z :=
  if RTL8366RB_PHY_NO_MAX <? phy_no then fail EINVAL else
  if RTL8366RB_PHY_PAGE_MAX <? page then fail EINVAL else
  if RTL8366RB_PHY_ADDR_MAX <? addr then fail EINVAL else
  wr RTL8366RB_PHY_ACCESS_CTRL_REG RTL8366RB_PHY_CTRL_READ ;;
  wr (rtl8366rb_phy_reg phy_no page addr) 0 ;;
  rd RTL8366RB_PHY_ACCESS_DATA_REG.

Definition rtl8366rb_write_phy_reg (phy_no page addr data : Z) : M W unit :=
  if RTL8366RB_PHY_NO_MAX <? phy_no then fail EINVAL else
  if RTL8366RB_PHY_PAGE_MAX <? page then fail EINVAL else
  if RTL8366RB_PHY_ADDR_MAX <? addr then fail EINVAL else
  wr RTL8366RB_PHY_ACCESS_CTRL_REG RTL8366RB_PHY_CTRL_WRITE ;;
  wr (rtl8366rb_phy_reg phy_no page addr) data.

Definition rtl8366rb_mii_read (addr reg : Z) : M W Z :=
  val <- catch (rtl8366rb_read_phy_reg (u32 addr) 0 (u32 reg)) ;;
  ret (match val with Ok v => s32 v | Err _ => 0xffff end).

(** The read flushes the write; its result is dropped. *)
Definition rtl8366rb_mii_write (addr reg val : Z) : M W unit :=
  err <- catch (rtl8366rb_write_phy_reg (u32 addr) 0 (u32 reg) (u16 val)) ;;
  unchecked 0 (rtl8366rb_read_phy_reg (u32 addr) 0 (u32 reg)) ;;
  match err with Ok _ => ret tt | Err e => fun w => (Err e, w) end.

(** *** MIB counters *)

Definition rtl8366rb_get_mib_counter (counter port : Z) : M W Z :=
  if (RTL8366RB_NUM_PORTS <? port) || (RTL8366RB_MIB_COUNT <=? counter) then fail EINVAL else
  let mib := geti (MibCounter (-1) 0 0 "") rtl8366rb_mib_counters counter in
  let addr := u32 (RTL8366RB_MIB_COUNTER_BASE + RTL8366RB_MIB_COUNTER_PORT_OFFSET * port + mib_offset mib) in
  wr addr 0 ;;
  data <- rd RTL8366RB_MIB_CTRL_REG ;;
  if cbool (Z.land data RTL8366RB_MIB_CTRL_BUSY_MASK) then fail EBUSY else
  if cbool (Z.land data RTL8366RB_MIB_CTRL_RESET_MASK) then fail EIO else
  read_mib_words addr (Z.to_nat (mib_length mib)) 0.

(** *** VLAN tables *)

Definition rtl8366rb_get_vlan_4k (vid : Z) : M W vlan_4k :=
  if RTL8366RB_NUM_VIDS <=? vid then fail EINVAL else
  wr RTL8366RB_VLAN_TABLE_WRITE_BASE (Z.land vid RTL8366RB_VLAN_VID_MASK) ;;
  wr RTL8366RB_TABLE_ACCESS_CTRL_REG RTL8366RB_TABLE_VLAN_READ_CTRL ;;
  data <- collect 3 (fun i => rd (RTL8366RB_VLAN_TABLE_READ_BASE + i)) ;;
  ret (Vlan4k (u16 vid)
    (Z.land (Z.shiftr (geti 0 data 1) RTL8366RB_VLAN_UNTAG_SHIFT) RTL8366RB_VLAN_UNTAG_MASK)
    (Z.land (geti 0 data 1) RTL8366RB_VLAN_MEMBER_MASK)
    (Z.land (geti 0 data 2) RTL8366RB_VLAN_FID_MASK)).

Definition rtl8366rb_set_vlan_4k (vlan4k : vlan_4k) : M W unit :=
  if (RTL8366RB_NUM_VIDS <=? v4_vid vlan4k) || (RTL8366RB_VLAN_MEMBER_MASK <? v4_member vlan4k) ||
     (RTL8366RB_VLAN_UNTAG_MASK <? v4_untag vlan4k) || (RTL8366RB_FIDMAX <? v4_fid vlan4k)
  then fail EINVAL else
  let data := [
    Z.land (v4_vid vlan4k) RTL8366RB_VLAN_VID_MASK;
    Z.lor (Z.land (v4_member vlan4k) RTL8366RB_VLAN_MEMBER_MASK)
          (Z.shiftl (Z.land (v4_untag vlan4k) RTL8366RB_VLAN_UNTAG_MASK) RTL8366RB_VLAN_UNTAG_SHIFT);
    Z.land (v4_fid vlan4k) RTL8366RB_VLAN_FID_MASK] in
  for_each 3 (fun i => wr (RTL8366RB_VLAN_TABLE_WRITE_BASE + i) (geti 0 data i)) ;;
  wr RTL8366RB_TABLE_ACCESS_CTRL_REG RTL8366RB_TABLE_VLAN_WRITE_CTRL.

Definition rtl8366rb_get_vlan_mc (index : Z) : M W vlan_mc :=
  if RTL8366RB_NUM_VLANS <=? index then fail EINVAL else
  data <- collect 3 (fun i => rd (RTL8366RB_VLAN_MC_BASE index + i)) ;;
  ret (VlanMc
    (Z.land (geti 0 data 0) RTL8366RB_VLAN_VID_MASK)
    (Z.land (Z.shiftr (geti 0 data 1) RTL8366RB_VLAN_UNTAG_SHIFT) RTL8366RB_VLAN_UNTAG_MASK)
    (Z.land (geti 0 data 1) RTL8366RB_VLAN_MEMBER_MASK)
    (Z.land (geti 0 data 2) RTL8366RB_VLAN_FID_MASK)
    (Z.land (Z.shiftr (geti 0 data 0) RTL8366RB_VLAN_PRIORITY_SHIFT) RTL8366RB_VLAN_PRIORITY_MASK)).

Definition rtl8366rb_set_vlan_mc (index : Z) (vlanmc : vlan_mc) : M W unit :=
  if (RTL8366RB_NUM_VLANS <=? index) || (RTL8366RB_NUM_VIDS <=? mc_vid vlanmc) ||
     (RTL8366RB_PRIORITYMAX <? mc_priority vlanmc) ||
     (RTL8366RB_VLAN_MEMBER_MASK <? mc_member vlanmc) ||
     (RTL8366RB_VLAN_UNTAG_MASK <? mc_untag vlanmc) || (RTL8366RB_FIDMAX <? mc_fid vlanmc)
  then fail EINVAL else
  let data := [
    Z.lor (Z.land (mc_vid vlanmc) RTL8366RB_VLAN_VID_MASK)
          (Z.shiftl (Z.land (mc_priority vlanmc) RTL8366RB_VLAN_PRIORITY_MASK) RTL8366RB_VLAN_PRIORITY_SHIFT);
    Z.lor (Z.land (mc_member vlanmc) RTL8366RB_VLAN_MEMBER_MASK)
          (Z.shiftl (Z.land (mc_untag vlanmc) RTL8366RB_VLAN_UNTAG_MASK) RTL8366RB_VLAN_UNTAG_SHIFT);
    Z.land (mc_fid vlanmc) RTL8366RB_VLAN_FID_MASK] in
  for_each 3 (fun i => wr (RTL8366RB_VLAN_MC_BASE index + i) (geti 0 data i)).

Definition rtl8366rb_get_mc_index (port : Z) : M W Z :=
  if RTL8366RB_NUM_PORTS <=? port then fail EINVAL else
  data <- rd (RTL8366RB_PORT_VLAN_CTRL_REG port) ;;
  ret (Z.land (Z.shiftr data (RTL8366RB_PORT_VLAN_CTRL_SHIFT port)) RTL8366RB_PORT_VLAN_CTRL_MASK).

Definition rtl8366rb_set_mc_index (port index : Z) : M W unit :=
  if (RTL8366RB_NUM_PORTS <=? port) || (RTL8366RB_NUM_VLANS <=? index) then fail EINVAL else
  rtl8366_smi_rmwr (RTL8366RB_PORT_VLAN_CTRL_REG port)
    (Z.shiftl RTL8366RB_PORT_VLAN_CTRL_MASK (RTL8366RB_PORT_VLAN_CTRL_SHIFT port))
    (Z.shiftl (Z.land index RTL8366RB_PORT_VLAN_CTRL_MASK) (RTL8366RB_PORT_VLAN_CTRL_SHIFT port)).

(** [vlan4k_enabled] is the flag of [struct rtl8366_smi]. *)
Definition rtl8366rb_is_vlan_valid (vlan4k_enabled : bool) (vlan : Z) : bool :=
  let max := if vlan4k_enabled then RTL8366RB_NUM_VIDS - 1 else RTL8366RB_NUM_VLANS in
  negb ((vlan =? 0) || (max <=? vlan)).

Definition rtl8366rb_enable_vlan (enable : Z) : M W unit :=
  rtl8366_smi_rmwr RTL8366RB_SGCR RTL8366RB_SGCR_EN_VLAN
    (if cbool enable then RTL8366RB_SGCR_EN_VLAN else 0).

Definition rtl8366rb_enable_vlan4k (enable : Z) : M W unit :=
  rtl8366_smi_rmwr RTL8366RB_SGCR RTL8366RB_SGCR_EN_VLAN_4KTB
    (if cbool enable then RTL8366RB_SGCR_EN_VLAN_4KTB else 0).

Definition rtl8366rb_enable_port (port enable : Z) : M W unit :=
  rtl8366_smi_rmwr RTL8366RB_PECR (u32 (Z.shiftl 1 port))
    (if cbool enable then 0 else u32 (Z.shiftl 1 port)).

(** *** swconfig attributes

    [value] is [val->value.i], [port] is [val->port_vlan]; both are unsigned.
    A getter whose register read fails goes on with its uninitialised local
    variable. *)

Definition rtl8366rb_sw_reset_mibs : M W unit :=
  rtl8366_smi_rmwr RTL8366RB_MIB_CTRL_REG 0 RTL8366RB_MIB_CTRL_GLOBAL_RESET.

Definition rtl8366rb_sw_get_blinkrate : M W Z :=
  data <- unchecked uninit (rd RTL8366RB_LED_BLINKRATE_REG) ;;
  ret (Z.land data RTL8366RB_LED_BLINKRATE_MASK).

Definition rtl8366rb_sw_set_blinkrate (value : Z) : M W unit :=
  if 6 <=? value then fail EINVAL else
  rtl8366_smi_rmwr RTL8366RB_LED_BLINKRATE_REG RTL8366RB_LED_BLINKRATE_MASK value.

Definition rtl8366rb_sw_get_learning_enable : M W Z :=
  data <- unchecked uninit (rd RTL8366RB_SSCR0) ;;
  ret (b2z (negb (cbool data))).

Definition rtl8366rb_sw_set_learning_enable (value : Z) : M W unit :=
  let portmask := if negb (cbool value) then RTL8366RB_PORT_ALL else 0 in
  wr RTL8366RB_SSCR0 portmask ;;
  wr RTL8366RB_SSCR1 portmask.

(** [None] when the link is down.  The speed codes are the framework's. *)
Definition rtl8366rb_sw_get_port_link (speed_10 speed_100 speed_1000 speed_unknown : Z) (port : Z) :
    M W (option port_link) :=
  if RTL8366RB_NUM_PORTS <=? port then fail EINVAL else
  data <- unchecked 0 (rd (RTL8366RB_PORT_LINK_STATUS_BASE + Z.quot port 2)) ;;
  let data := if cbool (Z.rem port 2) then Z.shiftr data 8 else data in
  if negb (cbool (Z.land data RTL8366RB_PORT_STATUS_LINK_MASK)) then ret None else
  let speed := Z.land data RTL8366RB_PORT_STATUS_SPEED_MASK in
  ret (Some (PortLink
    (cbool (Z.land data RTL8366RB_PORT_STATUS_DUPLEX_MASK))
    (cbool (Z.land data RTL8366RB_PORT_STATUS_RXPAUSE_MASK))
    (cbool (Z.land data RTL8366RB_PORT_STATUS_TXPAUSE_MASK))
    (cbool (Z.land data RTL8366RB_PORT_STATUS_AN_MASK))
    (if speed =? 0 then speed_10 else if speed =? 1 then speed_100
     else if speed =? 2 then speed_1000 else speed_unknown))).

Definition rtl8366rb_sw_set_port_led (port value : Z) : M W unit :=
  if RTL8366RB_NUM_PORTS <=? port then fail EINVAL else
  if port =? RTL8366RB_PORT_NUM_CPU then
    rtl8366_smi_rmwr RTL8366RB_LED_BLINKRATE_REG (Z.shiftl 0xF 4) (u32 (Z.shiftl value 4))
  else
    rtl8366_smi_rmwr RTL8366RB_LED_CTRL_REG (Z.shiftl 0xF (port * 4)) (u32 (Z.shiftl value (port * 4))).

Definition rtl8366rb_sw_get_port_led (port : Z) : M W Z :=
  if RTL8366RB_NUM_LEDGROUPS <=? port then fail EINVAL else
  data <- unchecked 0 (rd RTL8366RB_LED_CTRL_REG) ;;
  ret (Z.land (Z.shiftr data (port * 4)) 0x000F).

Definition rtl8366rb_sw_set_port_disable (port value : Z) : M W unit :=
  if RTL8366RB_NUM_PORTS <=? port then fail EINVAL else
  let mask := Z.shiftl 1 port in
  let data := if cbool value then mask else 0 in
  rtl8366_smi_rmwr RTL8366RB_PECR mask data.

Definition rtl8366rb_sw_get_port_disable (port : Z) : M W Z :=
  if RTL8366RB_NUM_PORTS <=? port then fail EINVAL else
  data <- unchecked uninit (rd RTL8366RB_PECR) ;;
  ret (if cbool (Z.land data (Z.shiftl 1 port)) then 1 else 0).

(** The register code of a rate in kbit/s: units of 64, the top code means
    no limit. *)
Definition bdth_code (value : Z) : Z :=
  if (0 <? value) && (value <? RTL8366RB_BDTH_SW_MAX)
  then Z.quot (value - 1) RTL8366RB_BDTH_UNIT
  else RTL8366RB_BDTH_REG_DEFAULT.

Definition rtl8366rb_sw_set_port_rate_in (port value : Z) : M W unit :=
  if RTL8366RB_NUM_PORTS <=? port then fail EINVAL else
  rtl8366_smi_rmwr (RTL8366RB_IB_REG port)
    (Z.lor RTL8366RB_IB_BDTH_MASK RTL8366RB_IB_PREIFG_MASK)
    (Z.lor (bdth_code value) (Z.shiftl RTL8366RB_QOS_DEFAULT_PREIFG RTL8366RB_IB_PREIFG_OFFSET)).

Definition rtl8366rb_sw_get_port_rate_in (port : Z) : M W Z :=
  if RTL8366RB_NUM_PORTS <=? port then fail EINVAL else
  data <- unchecked uninit (rd (RTL8366RB_IB_REG port)) ;;
  let data := Z.land data RTL8366RB_IB_BDTH_MASK in
  let data := if data <? RTL8366RB_IB_BDTH_MASK then data + 1 else data in
  ret (u32 (s32 data * RTL8366RB_BDTH_UNIT)).

(** The result of the first write is dropped. *)
Definition rtl8366rb_sw_set_port_rate_out (port value : Z) : M W unit :=
  if RTL8366RB_NUM_PORTS <=? port then fail EINVAL else
  unchecked tt (rtl8366_smi_rmwr RTL8366RB_EB_PREIFG_REG RTL8366RB_EB_PREIFG_MASK
    (Z.shiftl RTL8366RB_QOS_DEFAULT_PREIFG RTL8366RB_EB_PREIFG_OFFSET)) ;;
  rtl8366_smi_rmwr (RTL8366RB_EB_REG port) RTL8366RB_EB_BDTH_MASK (bdth_code value).

Definition rtl8366rb_sw_get_port_rate_out (port : Z) : M W Z :=
  if RTL8366RB_NUM_PORTS <=? port then fail EINVAL else
  data <- unchecked uninit (rd (RTL8366RB_EB_REG port)) ;;
  let data := Z.land data RTL8366RB_EB_BDTH_MASK in
  let data := if data <? RTL8366RB_EB_BDTH_MASK then data + 1 else data in
  ret (u32 (s32 data * RTL8366RB_BDTH_UNIT)).

Definition rtl8366rb_sw_set_qos_enable (value : Z) : M W unit :=
  let data := if cbool value then RTL8366RB_QOS_MASK else 0 in
  rtl8366_smi_rmwr RTL8366RB_SGCR RTL8366RB_QOS_MASK data.

Definition rtl8366rb_sw_get_qos_enable : M W Z :=
  data <- unchecked uninit (rd RTL8366RB_SGCR) ;;
  ret (if cbool (Z.land data RTL8366RB_QOS_MASK) then 1 else 0).

Definition rtl8366rb_sw_set_mirror_rx_enable (value : Z) : M W unit :=
  let data := if cbool value then RTL8366RB_PMCR_MIRROR_RX else 0 in
  rtl8366_smi_rmwr RTL8366RB_PMCR RTL8366RB_PMCR_MIRROR_RX data.

Definition rtl8366rb_sw_get_mirror_rx_enable : M W Z :=
  data <- unchecked uninit (rd RTL8366RB_PMCR) ;;
  ret (if cbool (Z.land data RTL8366RB_PMCR_MIRROR_RX) then 1 else 0).

Definition rtl8366rb_sw_set_mirror_tx_enable (value : Z) : M W unit :=
  let data := if cbool value then RTL8366RB_PMCR_MIRROR_TX else 0 in
  rtl8366_smi_rmwr RTL8366RB_PMCR RTL8366RB_PMCR_MIRROR_TX data.

Definition rtl8366rb_sw_get_mirror_tx_enable : M W Z :=
  data <- unchecked uninit (rd RTL8366RB_PMCR) ;;
  ret (if cbool (Z.land data RTL8366RB_PMCR_MIRROR_TX) then 1 else 0).

Definition rtl8366rb_sw_set_monitor_isolation_enable (value : Z) : M W unit :=
  let data := if cbool value then RTL8366RB_PMCR_MIRROR_ISO else 0 in
  rtl8366_smi_rmwr RTL8366RB_PMCR RTL8366RB_PMCR_MIRROR_ISO data.

Definition rtl8366rb_sw_get_monitor_isolation_enable : M W Z :=
  data <- unchecked uninit (rd RTL8366RB_PMCR) ;;
  ret (if cbool (Z.land data RTL8366RB_PMCR_MIRROR_ISO) then 1 else 0).

Definition rtl8366rb_sw_set_mirror_pause_frames_enable (value : Z) : M W unit :=
  let data := if cbool value then RTL8366RB_PMCR_MIRROR_SPC else 0 in
  rtl8366_smi_rmwr RTL8366RB_PMCR RTL8366RB_PMCR_MIRROR_SPC data.

Definition rtl8366rb_sw_get_mirror_pause_frames_enable : M W Z :=
  data <- unchecked uninit (rd RTL8366RB_PMCR) ;;
  ret (if cbool (Z.land data RTL8366RB_PMCR_MIRROR_SPC) then 1 else 0).

Definition rtl8366rb_sw_set_mirror_monitor_port (value : Z) : M W unit :=
  rtl8366_smi_rmwr RTL8366RB_PMCR RTL8366RB_PMCR_MONITOR_PORT_MASK
    (u32 (RTL8366RB_PMCR_MONITOR_PORT value)).

Definition rtl8366rb_sw_get_mirror_monitor_port : M W Z :=
  data <- unchecked uninit (rd RTL8366RB_PMCR) ;;
  ret (Z.shiftr (Z.land data RTL8366RB_PMCR_MONITOR_PORT_MASK) 4).

Definition rtl8366rb_sw_set_mirror_source_port (value : Z) : M W unit :=
  rtl8366_smi_rmwr RTL8366RB_PMCR RTL8366RB_PMCR_SOURCE_PORT_MASK
    (RTL8366RB_PMCR_SOURCE_PORT value).

Definition rtl8366rb_sw_get_mirror_source_port : M W Z :=
  data <- unchecked uninit (rd RTL8366RB_PMCR) ;;
  ret (Z.land data RTL8366RB_PMCR_SOURCE_PORT_MASK).

Definition rtl8366rb_sw_reset_port_mibs (port : Z) : M W unit :=
  if RTL8366RB_NUM_PORTS <=? port then fail EINVAL else
  rtl8366_smi_rmwr RTL8366RB_MIB_CTRL_REG 0 (RTL8366RB_MIB_CTRL_PORT_RESET port).

(** *** Detection *)

Definition rtl8366rb_detect : M W unit :=
  chip_id <- rd RTL8366RB_CHIP_ID_REG ;;
  if chip_id =? RTL8366RB_CHIP_ID_8366 then
    chip_ver <- rd RTL8366RB_CHIP_VERSION_CTRL_REG ;;
    ret tt
  else fail ENODEV.
End Driver.

(** ** The operations table, [rtl8366rb_smi_ops] and [rtl8366rb_probe] *)

Definition rtl8366rb_smi_ops {W} {B : RegBus W} : SmiOps W := {|
  cpu_port := RTL8366RB_PORT_NUM_CPU;
  num_ports := RTL8366RB_NUM_PORTS;
  num_vlan_mc := RTL8366RB_NUM_VLANS;
  get_vlan_mc := rtl8366rb_get_vlan_mc;
  set_vlan_mc := rtl8366rb_set_vlan_mc;
  get_vlan_4k := rtl8366rb_get_vlan_4k;
  set_vlan_4k := rtl8366rb_set_vlan_4k;
  get_mc_index := rtl8366rb_get_mc_index;
  set_mc_index := rtl8366rb_set_mc_index;
  is_vlan_valid := rtl8366rb_is_vlan_valid;
  enable_vlan := rtl8366rb_enable_vlan;
  enable_vlan4k := rtl8366rb_enable_vlan4k;
  enable_port := rtl8366rb_enable_port
|}.

(** The board: its reset line, if any, and its device tree. *)
Definition rtl8366rb_chip_ops {W} {B : RegBus W} (reset : option (bool -> M W unit))
    (initvals : option (list Z)) : ChipOps W := {|
  hw_reset := reset;
  detect := rtl8366rb_detect;
  reset_chip := rtl8366rb_reset_chip;
  setup := rtl8366rb_setup initvals;
  get_mib_counter := rtl8366rb_get_mib_counter
|}.

(** The bus parameters [rtl8366rb_probe] puts into [struct rtl8366_smi]. *)
Definition rtl8366rb_clk_delay : Z := 10.
Definition rtl8366rb_cmd_read : Z := 0xa9.
Definition rtl8366rb_cmd_write : Z := 0xa8.

Definition rtl8366rb_sw_get_port_stats {W} {B : RegBus W} reset initvals (port : Z) : M (smi W) (Z * Z) :=
  @rtl8366_sw_get_port_stats W rtl8366rb_smi_ops (rtl8366rb_chip_ops reset initvals)
    port RTL8366RB_MIB_TXB_ID RTL8366RB_MIB_RXB_ID.
