(* ===== verification/Rtl8366rbImpl.v ===== *)
(** * The RTL8366RB driver keeps the contract

    The layout of the RTL8366RB: three words per member configuration and
    per row of the 4K table, eight-bit member and untag fields, both enable
    bits in the global control register. *)

From S2P Require Import Prelude CMonad SmiCore SmiSpec SmiVlan SmiImpl Regs TableChip Rtl8366rb.

(** The configuration registers: they hold what is written to them. *)
Definition rtl8366rb_geometry : geometry := {|
  g_storage b :=
    ((RTL8366RB_VLAN_MC_BASE 0 <=? b) && (b <? RTL8366RB_VLAN_MC_BASE RTL8366RB_NUM_VLANS)) ||
    ((RTL8366RB_PORT_VLAN_CTRL_BASE <=? b) && (b <=? RTL8366RB_PORT_VLAN_CTRL_BASE + 1)) ||
    ((RTL8366RB_SGCR <=? b) && (b <=? RTL8366RB_SSCR2)) || (b =? RTL8366RB_PMCR) ||
    ((RTL8366RB_VLAN_TABLE_WRITE_BASE <=? b) && (b <? RTL8366RB_VLAN_TABLE_WRITE_BASE + 3)) ||
    (b =? RTL8366RB_VLAN_INGRESS_CTRL2_REG) ||
    ((RTL8366RB_LED_BLINKRATE_REG <=? b) && (b <=? RTL8366RB_LED_CTRL_REG + 2)) ||
    ((RTL8366RB_IB_BASE <=? b) && (b <? RTL8366RB_IB_REG RTL8366RB_NUM_PORTS)) ||
    ((RTL8366RB_EB_BASE <=? b) && (b <? RTL8366RB_EB_REG RTL8366RB_NUM_PORTS)) ||
    (b =? RTL8366RB_EB_PREIFG_REG);
  g_ctrl := RTL8366RB_TABLE_ACCESS_CTRL_REG;
  g_rd := RTL8366RB_TABLE_VLAN_READ_CTRL;
  g_wr := RTL8366RB_TABLE_VLAN_WRITE_CTRL;
  g_rbase := RTL8366RB_VLAN_TABLE_READ_BASE;
  g_key := RTL8366RB_VLAN_TABLE_WRITE_BASE;
  g_wbase := RTL8366RB_VLAN_TABLE_WRITE_BASE;
  g_words := 3
|}.

Lemma rtl8366rb_geometry_ok : geometry_ok rtl8366rb_geometry.
Proof.
  split; [reflexivity | | discriminate].
  intros b. cbv -[Z.leb Z.ltb Z.eqb orb andb]. lia.
Qed.

Definition rtl8366rb_limits : limits :=
  Limits 5 6 16 4096 7 0xff 0xff 7
    (fun vlan4k vlan => negb ((vlan =? 0) || ((if vlan4k then 4095 else 16) <=? vlan))).

Lemma rtl8366rb_limits_ok : limits_ok rtl8366rb_limits.
Proof.
  split; cbn; try lia. intros [] v; lia.
Qed.

Definition rtl8366rb_layout : layout := {|
  ly_geom := rtl8366rb_geometry;
  ly_limits := rtl8366rb_limits;
  ly_mc_words := 3;
  ly_mc_base := RTL8366RB_VLAN_MC_BASE;
  ly_mc_dec data := VlanMc
    (Z.land (geti 0 data 0) 0xfff)
    (Z.land (Z.shiftr (geti 0 data 1) 8) 0xff)
    (Z.land (geti 0 data 1) 0xff)
    (Z.land (geti 0 data 2) 0x7)
    (Z.land (Z.shiftr (geti 0 data 0) 12) 0x7);
  ly_mc_enc mc := [
    Z.lor (Z.land (mc_vid mc) 0xfff) (Z.shiftl (Z.land (mc_priority mc) 0x7) 12);
    Z.lor (Z.land (mc_member mc) 0xff) (Z.shiftl (Z.land (mc_untag mc) 0xff) 8);
    Z.land (mc_fid mc) 0x7];
  ly_mc_bad i mc :=
    (16 <=? i) || (4096 <=? mc_vid mc) || (7 <? mc_priority mc) || (0xff <? mc_member mc) ||
    (0xff <? mc_untag mc) || (7 <? mc_fid mc);
  ly_row_dec vid data := Vlan4k (u16 vid)
    (Z.land (Z.shiftr (geti 0 data 1) 8) 0xff)
    (Z.land (geti 0 data 1) 0xff)
    (Z.land (geti 0 data 2) 0x7);
  ly_row_enc row := [
    Z.land (v4_vid row) 0xfff;
    Z.lor (Z.land (v4_member row) 0xff) (Z.shiftl (Z.land (v4_untag row) 0xff) 8);
    Z.land (v4_fid row) 0x7];
  ly_row_bad row :=
    (4096 <=? v4_vid row) || (0xff <? v4_member row) || (0xff <? v4_untag row) || (7 <? v4_fid row);
  ly_idx_base := RTL8366RB_PORT_VLAN_CTRL_BASE;
  ly_on_reg := RTL8366RB_SGCR; ly_on_bit := 13;
  ly_4k_reg := RTL8366RB_SGCR; ly_4k_bit := 14;
  ly_pe_reg := RTL8366RB_PECR
|}.

(** The driver's operations are those of its layout. *)
Lemma rtl8366rb_ops_layout {W} {B : RegBus W} : @rtl8366rb_smi_ops W B = chip_ops rtl8366rb_layout.
Proof. reflexivity. Qed.

(** Storing fields in a word and reading them back. *)
Lemma rb_members_roundtrip m u :
  0 <= m < 2 ^ 8 -> 0 <= u < 2 ^ 8 ->
  let d := u16 (Z.lor (Z.land m 0xff) (Z.shiftl (Z.land u 0xff) 8)) in
  Z.land (Z.shiftr d 8) 0xff = u /\ Z.land d 0xff = m.
Proof.
  intros Hm Hu. cbv zeta. change 0xff with (Z.ones 8). unfold u16. split; bit_solve.
Qed.

Lemma rb_fid_roundtrip f : 0 <= f < 2 ^ 3 -> Z.land (u16 (Z.land f 0x7)) 0x7 = f.
Proof. intros Hf. change 0x7 with (Z.ones 3). unfold u16. bit_solve. Qed.

Lemma rtl8366rb_layout_ok : layout_ok rtl8366rb_layout.
Proof.
  split.
  - exact rtl8366rb_limits_ok.
  - cbn. lia.
  - reflexivity.
  - cbn. lia.
  - cbn. lia.
  - reflexivity.
  - cbn. lia.
  - intros k Hk. cbn in Hk. assert (Hc : k = 0 \/ k = 1 \/ k = 2) by lia.
    destruct Hc as [-> | [-> | ->]]; split; reflexivity.
  - intros i k Hi Hk. cbn in Hi, Hk. revert Hi Hk.
    cbv -[Z.leb Z.ltb Z.eqb Z.le Z.lt Z.add Z.mul orb andb negb]. lia.
  - intros i j k. cbv -[Z.le Z.lt Z.add Z.mul not]. lia.
  - intros b. cbv -[Z.leb Z.ltb Z.eqb orb andb negb]. lia.
  - cbn. repeat split; try reflexivity; try lia; discriminate.
  - intros i mc _ _. unfold mc_fits. cbn. lia.
  - intros mc [Hn Hf]. unfold mc_nonneg, mc_fits in *. cbn in Hf.
    destruct (rb_members_roundtrip (mc_member mc) (mc_untag mc)) as (E1 & E2); [lia .. |].
    destruct (vid_prio_roundtrip (mc_vid mc) (mc_priority mc)) as (E4 & E5); [lia .. |].
    cbv zeta in E1, E2, E4, E5.
    open_words. rewrite E1, E2, E4, E5, rb_fid_roundtrip by lia. destruct mc; reflexivity.
  - intros l. unfold mc_ok, mc_nonneg, mc_fits. cbn.
    mask_ranges (geti 0 l 0). mask_ranges (geti 0 l 1). mask_ranges (geti 0 l 2). lia.
  - intros row _. unfold row_fits. cbn. lia.
  - intros row [Hn Hf]. unfold row_nonneg, row_fits in *. cbn in *. apply (vid_word_key (v4_vid row)). lia.
  - intros row [Hn Hf]. unfold row_nonneg, row_fits in *. cbn in Hf.
    destruct (rb_members_roundtrip (v4_member row) (v4_untag row)) as (E1 & E2); [lia .. |].
    cbv zeta in E1, E2.
    open_words. rewrite (u16_small (v4_vid row)), E1, E2, rb_fid_roundtrip by lia. destruct row; reflexivity.
  - intros v l Hv. cbn in Hv. unfold row_ok, row_nonneg, row_fits. cbn. rewrite u16_small by lia.
    mask_ranges (geti 0 l 1). mask_ranges (geti 0 l 2). lia.
Qed.

#[export] Instance rtl8366rb_impl {W} {B : RegBus W} {HW : SwitchHw W rtl8366rb_geometry} :
  @VlanImpl W rtl8366rb_smi_ops rtl8366rb_limits := chip_impl rtl8366rb_layout rtl8366rb_layout_ok.
