(* ===== verification/Rtl8366rbProps.v ===== *)
(** * Properties of the RTL8366RB driver

    The refinement at the level of the registers, the rate limits, the
    mirroring attributes, the LED modes, the counter words and the bounded
    wait of the chip reset. *)

From S2P Require Import Prelude CMonad SmiCore SmiSpec SmiVlan SmiImpl SmiProps Regs TableChip Rtl8366s Rtl8366rb Rtl8366rbImpl.

#[local] Abbreviation L := rtl8366rb_limits.
#[local] Abbreviation G := rtl8366rb_geometry.
#[local] Abbreviation mem_ops := (@rtl8366rb_smi_ops memchip (mem_bus G)).
#[local] Abbreviation mem_hw_rb := (mem_hw G rtl8366rb_geometry_ok).

Definition zero_rb : smi memchip := Smi 0 0 (MemChip (fun _ => 0) (fun _ _ => 0)).

(** ** Refinement *)

(** C21: refinement. The core on top of the RTL8366RB register code
    implements the abstract switch: whatever the registers hold, any sequence
    of framework requests gets from the chip exactly the results the tables
    give, and leaves registers that again represent the tables. *)
Theorem rtl8366rb_refines_tables {W} {B : RegBus W} {HW : SwitchHw W G} tagged rs (s : smi W) :
  hw_ok (hw s) -> Forall request_ok rs ->
  let c := @serve_all W rtl8366rb_smi_ops tagged rs s in
  let t := @serve_all vstate (ideal_ops L) tagged rs (smi_tables rtl8366rb_layout s) in
  fst c = fst t /\ rep_smi (I := rtl8366rb_impl) (snd c) (snd t).
Proof.
  intros Hok Hrs. apply (chip_refines rtl8366rb_layout rtl8366rb_layout_ok); [| exact Hrs].
  apply rep_smi_tables, Hok.
Qed.

Lemma rtl8366rb_refines_tables_witness :
  let rs := [SetVlanEnable 2 1; SetPvid 2 100; SetVlanPorts 9 [(0, 0); (5, 1)]; SetVlanFid 7 9 3] in
  let c := @serve_all memchip mem_ops 0 rs zero_rb in
  let t := @serve_all vstate (ideal_ops L) 0 rs (@smi_tables rtl8366rb_layout memchip (mem_bus G) mem_hw_rb zero_rb) in
  fst c = fst t /\ rep_smi (I := @rtl8366rb_impl memchip (mem_bus G) mem_hw_rb) (snd c) (snd t).
Proof.
  apply (@rtl8366rb_refines_tables memchip (mem_bus G) mem_hw_rb 0
           [SetVlanEnable 2 1; SetPvid 2 100; SetVlanPorts 9 [(0, 0); (5, 1)]; SetVlanFid 7 9 3] zero_rb).
  - exact Logic.I.
  - repeat constructor; cbn; try lia; discriminate.
Defined.

(** ** Rate limits *)

(** What a bandwidth code reads back as. *)
Definition rate_of (code : Z) : Z :=
  u32 (s32 (if code <? RTL8366RB_IB_BDTH_MASK then code + 1 else code) * RTL8366RB_BDTH_UNIT).

(** The rate in force for a requested one: rounded up to a multiple of 64
    kbit/s; zero and too large a value mean no limit. *)
Definition rate_in_force (v : Z) : Z :=
  if (0 <? v) && (v <? RTL8366RB_BDTH_SW_MAX) then 64 * ((v + 63) / 64) else RTL8366RB_BDTH_SW_MAX.

Lemma bdth_code_range v : 0 <= bdth_code v < 2 ^ 14.
Proof.
  unfold bdth_code, RTL8366RB_BDTH_SW_MAX, RTL8366RB_BDTH_UNIT, RTL8366RB_BDTH_REG_DEFAULT.
  destruct (Z.ltb_spec 0 v), (Z.ltb_spec v 1048512); cbn [andb]; try lia.
  Z.to_euclidean_division_equations. lia.
Qed.

Lemma rate_of_code v : rate_of (bdth_code v) = rate_in_force v.
Proof.
  pose proof (bdth_code_range v) as Hr. unfold rate_of, RTL8366RB_IB_BDTH_MASK, RTL8366RB_BDTH_UNIT.
  rewrite s32_small by (destruct (_ <? _); lia). rewrite u32_small by (destruct (_ <? _); lia).
  revert Hr. unfold bdth_code, rate_in_force, RTL8366RB_BDTH_SW_MAX, RTL8366RB_BDTH_UNIT, RTL8366RB_BDTH_REG_DEFAULT.
  destruct (Z.ltb_spec 0 v), (Z.ltb_spec v 1048512); cbn [andb]; intros Hr; try reflexivity.
  assert (E : (v + 63) / 64 = Z.quot (v - 1) 64 + 1) by (Z.to_euclidean_division_equations; lia).
  rewrite E. destruct (Z.ltb_spec (Z.quot (v - 1) 64) 0x3fff); [lia |].
  Z.to_euclidean_division_equations. lia.
Qed.

Section Rates.
Context {W : Type} {B : RegBus W} {HW : SwitchHw W G}.

Lemma rate_regs q : 0 <= q < RTL8366RB_NUM_PORTS ->
  g_storage G (RTL8366RB_IB_REG q) = true /\ g_storage G (RTL8366RB_EB_REG q) = true.
Proof. cbv -[Z.leb Z.ltb Z.eqb Z.le Z.lt Z.add orb andb]. lia. Qed.

(** The limits as the registers hold them. *)
Definition limit_in (w : W) (q : Z) : Z := rate_of (Z.land (hw_reg w (RTL8366RB_IB_REG q)) 0x3fff).
Definition limit_out (w : W) (q : Z) : Z := rate_of (Z.land (hw_reg w (RTL8366RB_EB_REG q)) 0x3fff).

Lemma get_rate_in uninit q w : hw_ok w -> 0 <= q < RTL8366RB_NUM_PORTS ->
  fst (rtl8366rb_sw_get_port_rate_in uninit q w) = Ok (limit_in w q).
Proof.
  intros Hok Hq. unfold rtl8366rb_sw_get_port_rate_in. destruct (Z.leb_spec RTL8366RB_NUM_PORTS q); [lia |].
  apply (get_attr (RTL8366RB_IB_REG q) uninit (fun d => rate_of (Z.land d 0x3fff)) w Hok), rate_regs, Hq.
Qed.

Lemma get_rate_out uninit q w : hw_ok w -> 0 <= q < RTL8366RB_NUM_PORTS ->
  fst (rtl8366rb_sw_get_port_rate_out uninit q w) = Ok (limit_out w q).
Proof.
  intros Hok Hq. unfold rtl8366rb_sw_get_port_rate_out. destruct (Z.leb_spec RTL8366RB_NUM_PORTS q); [lia |].
  apply (get_attr (RTL8366RB_EB_REG q) uninit (fun d => rate_of (Z.land d 0x3fff)) w Hok), rate_regs, Hq.
Qed.

Lemma set_rate_in port v w : hw_ok w -> 0 <= port < RTL8366RB_NUM_PORTS ->
  exists w', rtl8366rb_sw_set_port_rate_in port v w = (Ok tt, w') /\ hw_ok w' /\
    limit_in w' port = rate_in_force v /\
    (forall b, g_storage G b = true -> b <> RTL8366RB_IB_REG port -> hw_reg w' b = hw_reg w b).
Proof.
  intros Hok Hp. pose proof (bdth_code_range v) as Hc. destruct (rate_regs port Hp) as [Hs _].
  assert (Hv : 0 <= Z.lor (bdth_code v) (Z.shiftl 1 14) < 2 ^ 15) by (change (Z.shiftl 1 14) with 16384; apply lor_range; lia).
  destruct (rmwr_field (RTL8366RB_IB_REG port) 0 15 _ w Hok Hs ltac:(lia) ltac:(lia) ltac:(lia) Hv)
    as (w' & Hrun & Hok' & Hget & _ & Hother).
  exists w'. split; [| split; [exact Hok' | split; [| exact Hother]]].
  - unfold rtl8366rb_sw_set_port_rate_in. destruct (Z.leb_spec RTL8366RB_NUM_PORTS port); [lia |].
    rewrite <- Hrun, !Z.shiftl_0_r. reflexivity.
  - unfold limit_in. rewrite <- rate_of_code. f_equal. rewrite Z.shiftr_0_r in Hget.
    change 0x3fff with (Z.ones 14).
    transitivity (Z.land (Z.land (hw_reg w' (RTL8366RB_IB_REG port)) (Z.ones 15)) (Z.ones 14)); [bit_solve |].
    rewrite Hget. change (Z.shiftl 1 14) with (BIT 14). bit_solve.
Qed.

Lemma set_rate_out port v w : hw_ok w -> 0 <= port < RTL8366RB_NUM_PORTS ->
  exists w', rtl8366rb_sw_set_port_rate_out port v w = (Ok tt, w') /\ hw_ok w' /\
    limit_out w' port = rate_in_force v /\
    (forall b, g_storage G b = true -> b <> RTL8366RB_EB_REG port -> b <> RTL8366RB_EB_PREIFG_REG ->
       hw_reg w' b = hw_reg w b).
Proof.
  intros Hok Hp. pose proof (bdth_code_range v) as Hc. destruct (rate_regs port Hp) as [_ Hs].
  destruct (rmwr_field RTL8366RB_EB_PREIFG_REG 9 1 1 w Hok eq_refl ltac:(lia) ltac:(lia) ltac:(lia) ltac:(lia))
    as (w1 & Hrun1 & Hok1 & _ & _ & Hother1).
  destruct (rmwr_field (RTL8366RB_EB_REG port) 0 14 _ w1 Hok1 Hs ltac:(lia) ltac:(lia) ltac:(lia) Hc)
    as (w' & Hrun & Hok' & Hget & _ & Hother).
  exists w'. split; [| split; [exact Hok' | split]].
  - unfold rtl8366rb_sw_set_port_rate_out. destruct (Z.leb_spec RTL8366RB_NUM_PORTS port); [lia |].
    unfold bind at 1. rewrite (unchecked_ok _ _ _ _ _ Hrun1), <- Hrun, !Z.shiftl_0_r. reflexivity.
  - unfold limit_out. rewrite <- rate_of_code. f_equal. rewrite Z.shiftr_0_r in Hget. exact Hget.
  - intros b Hb N1 N2. rewrite Hother, Hother1 by assumption. reflexivity.
Qed.
End Rates.

(** Rate limits. A limit set on a port reads back rounded up to the next
    multiple of 64 kbit/s (0 and values from 1048512 mean no limit), the
    limits of the other ports are kept, and the ingress and egress limits of
    a port do not disturb each other. *)
Theorem rtl8366rb_rate_roundtrip {W} {B : RegBus W} {HW : SwitchHw W G} uninit port v (w : W) :
  hw_ok w -> 0 <= port < RTL8366RB_NUM_PORTS ->
  (exists w', rtl8366rb_sw_set_port_rate_in port v w = (Ok tt, w') /\
     fst (rtl8366rb_sw_get_port_rate_in uninit port w') = Ok (rate_in_force v) /\
     forall q, 0 <= q < RTL8366RB_NUM_PORTS ->
       (q <> port -> fst (rtl8366rb_sw_get_port_rate_in uninit q w')
                     = fst (rtl8366rb_sw_get_port_rate_in uninit q w)) /\
       fst (rtl8366rb_sw_get_port_rate_out uninit q w') = fst (rtl8366rb_sw_get_port_rate_out uninit q w)) /\
  (exists w', rtl8366rb_sw_set_port_rate_out port v w = (Ok tt, w') /\
     fst (rtl8366rb_sw_get_port_rate_out uninit port w') = Ok (rate_in_force v) /\
     forall q, 0 <= q < RTL8366RB_NUM_PORTS ->
       (q <> port -> fst (rtl8366rb_sw_get_port_rate_out uninit q w')
                     = fst (rtl8366rb_sw_get_port_rate_out uninit q w)) /\
       fst (rtl8366rb_sw_get_port_rate_in uninit q w') = fst (rtl8366rb_sw_get_port_rate_in uninit q w)).
Proof.
  intros Hok Hp. split.
  - destruct (set_rate_in port v w Hok Hp) as (w' & Hrun & Hok' & Hget & Hother). exists w'.
    split; [exact Hrun |]. split; [rewrite get_rate_in, Hget by assumption; reflexivity |].
    intros q Hq. destruct (rate_regs q Hq) as [Hi Ho].
    rewrite !get_rate_in, !get_rate_out by assumption. unfold limit_in, limit_out.
    unfold RTL8366RB_IB_REG, RTL8366RB_EB_REG, RTL8366RB_IB_BASE, RTL8366RB_EB_BASE, RTL8366RB_NUM_PORTS in *.
    split; [intros Hne |]; rewrite Hother by (assumption || lia); reflexivity.
  - destruct (set_rate_out port v w Hok Hp) as (w' & Hrun & Hok' & Hget & Hother). exists w'.
    split; [exact Hrun |]. split; [rewrite get_rate_out, Hget by assumption; reflexivity |].
    intros q Hq. destruct (rate_regs q Hq) as [Hi Ho].
    rewrite !get_rate_in, !get_rate_out by assumption. unfold limit_in, limit_out.
    unfold RTL8366RB_IB_REG, RTL8366RB_EB_REG, RTL8366RB_IB_BASE, RTL8366RB_EB_BASE, RTL8366RB_EB_PREIFG_REG,
      RTL8366RB_NUM_PORTS in *.
    split; [intros Hne |]; rewrite Hother by (assumption || lia); reflexivity.
Qed.

Lemma rtl8366rb_rate_roundtrip_witness :
  exists w', @rtl8366rb_sw_set_port_rate_in memchip (mem_bus G) 3 1000 (hw zero_rb) = (Ok tt, w') /\
    fst (@rtl8366rb_sw_get_port_rate_in memchip (mem_bus G) 77 3 w') = Ok 1024.
Proof.
  destruct (@rtl8366rb_rate_roundtrip memchip (mem_bus G) mem_hw_rb 77 3 1000 (hw zero_rb) Logic.I)
    as [(w' & H1 & H2 & _) _]; [unfold RTL8366RB_NUM_PORTS; lia |].
  exists w'. split; [exact H1 | exact H2].
Defined.

(** ** Port mirroring *)

(** The six mirroring attributes share the port mirror control register. *)
Inductive mirror_attr := MirrorRx | MirrorTx | MirrorPause | MonitorIsolation | MonitorPort | SourcePort.

#[export] Instance mirror_attr_eq_dec : EqDecision mirror_attr.
Proof. solve_decision. Defined.

Section Mirror.
Context {W : Type} {B : RegBus W}.

Definition mirror_set (a : mirror_attr) : Z -> M W unit :=
  match a with
  | MirrorRx => rtl8366rb_sw_set_mirror_rx_enable
  | MirrorTx => rtl8366rb_sw_set_mirror_tx_enable
  | MirrorPause => rtl8366rb_sw_set_mirror_pause_frames_enable
  | MonitorIsolation => rtl8366rb_sw_set_monitor_isolation_enable
  | MonitorPort => rtl8366rb_sw_set_mirror_monitor_port
  | SourcePort => rtl8366rb_sw_set_mirror_source_port
  end.

Definition mirror_get (uninit : Z) (a : mirror_attr) : M W Z :=
  match a with
  | MirrorRx => rtl8366rb_sw_get_mirror_rx_enable uninit
  | MirrorTx => rtl8366rb_sw_get_mirror_tx_enable uninit
  | MirrorPause => rtl8366rb_sw_get_mirror_pause_frames_enable uninit
  | MonitorIsolation => rtl8366rb_sw_get_monitor_isolation_enable uninit
  | MonitorPort => rtl8366rb_sw_get_mirror_monitor_port uninit
  | SourcePort => rtl8366rb_sw_get_mirror_source_port uninit
  end.
End Mirror.

(** The value an attribute takes: a flag, or a port number of four bits. *)
Definition mirror_value (a : mirror_attr) (v : Z) : Z :=
  match a with MonitorPort | SourcePort => v | _ => b2z (cbool v) end.

(** Its bits of the register: the lowest and how many. *)
Definition mirror_field (a : mirror_attr) : Z * Z :=
  match a with
  | MirrorRx => (8, 1) | MirrorTx => (9, 1) | MirrorPause => (10, 1) | MonitorIsolation => (11, 1)
  | MonitorPort => (4, 4) | SourcePort => (0, 4)
  end.

Section MirrorRuns.
Context {W : Type} {B : RegBus W} {HW : SwitchHw W G}.

Lemma mirror_get_run uninit a w : hw_ok w ->
  fst (mirror_get uninit a w)
  = Ok (Z.land (Z.shiftr (hw_reg w RTL8366RB_PMCR) (fst (mirror_field a))) (Z.ones (snd (mirror_field a)))).
Proof.
  intros Hok. destruct a; cbn [mirror_get mirror_field fst snd];
    unfold rtl8366rb_sw_get_mirror_rx_enable, rtl8366rb_sw_get_mirror_tx_enable,
      rtl8366rb_sw_get_mirror_pause_frames_enable, rtl8366rb_sw_get_monitor_isolation_enable,
      rtl8366rb_sw_get_mirror_monitor_port, rtl8366rb_sw_get_mirror_source_port;
    erewrite get_attr by (exact Hok || reflexivity); cbv beta; f_equal;
    try (apply (bit_value (hw_reg w RTL8366RB_PMCR)); lia).
  change RTL8366RB_PMCR_MONITOR_PORT_MASK with (Z.shiftl (Z.ones 4) 4).
  generalize (hw_reg w RTL8366RB_PMCR). intros d. bit_solve.
Qed.

Lemma mirror_set_run a v : 0 <= v < 16 ->
  let (sh, n) := mirror_field a in
  mirror_set a v = rtl8366_smi_rmwr RTL8366RB_PMCR (Z.shiftl (Z.ones n) sh) (Z.shiftl (mirror_value a v) sh).
Proof.
  intros Hv. destruct a; cbn [mirror_field mirror_set mirror_value];
    try (destruct (cbool v) eqn:E;
      unfold rtl8366rb_sw_set_mirror_rx_enable, rtl8366rb_sw_set_mirror_tx_enable,
        rtl8366rb_sw_set_mirror_pause_frames_enable, rtl8366rb_sw_set_monitor_isolation_enable;
      rewrite E; reflexivity).
  - unfold rtl8366rb_sw_set_mirror_monitor_port, RTL8366RB_PMCR_MONITOR_PORT.
    rewrite u32_small by (rewrite Z.shiftl_mul_pow2 by lia; lia). reflexivity.
  - unfold rtl8366rb_sw_set_mirror_source_port, RTL8366RB_PMCR_SOURCE_PORT. rewrite Z.shiftl_0_r. reflexivity.
Qed.
End MirrorRuns.

(** Mirroring. Setting one of the six mirroring attributes to a value of
    four bits succeeds, the attribute reads back (a flag as 0 or 1) and the
    other five keep their values. *)
Theorem rtl8366rb_mirror_attributes {W} {B : RegBus W} {HW : SwitchHw W G} uninit a v (w : W) :
  hw_ok w -> 0 <= v < 16 ->
  exists w', mirror_set a v w = (Ok tt, w') /\
    forall a', fst (mirror_get uninit a' w')
               = if decide (a' = a) then Ok (mirror_value a v) else fst (mirror_get uninit a' w).
Proof.
  intros Hok Hv. pose proof (mirror_set_run a v Hv) as Hset.
  destruct (mirror_field a) as [sh n] eqn:Hf.
  assert (Hfit : 0 <= sh /\ 0 < n /\ sh + n <= 16 /\ 0 <= mirror_value a v < 2 ^ n).
  { destruct a; injection Hf as <- <-; cbn [mirror_value]; try (destruct (cbool v); cbn); lia. }
  destruct Hfit as (Hsh & Hn & Hle & Hval).
  destruct (rmwr_field RTL8366RB_PMCR sh n _ w Hok eq_refl Hsh Hn Hle Hval) as (w' & Hrun & Hok' & Hget & Hother & _).
  exists w'. rewrite Hset. split; [exact Hrun |]. intros a'. rewrite !mirror_get_run by assumption.
  destruct (decide (a' = a)) as [-> | Hne].
  - rewrite Hf. cbn [fst snd]. f_equal. exact Hget.
  - f_equal. apply Hother; destruct a'; cbn [mirror_field fst snd]; try lia;
      destruct a; injection Hf as <- <-; try lia; contradiction.
Qed.

Lemma rtl8366rb_mirror_attributes_witness :
  exists w', @mirror_set memchip (mem_bus G) MonitorPort 5 (hw zero_rb) = (Ok tt, w') /\
    forall a', fst (@mirror_get memchip (mem_bus G) 77 a' w')
               = if decide (a' = MonitorPort) then Ok (mirror_value MonitorPort 5)
                 else fst (@mirror_get memchip (mem_bus G) 77 a' (hw zero_rb)).
Proof.
  apply (@rtl8366rb_mirror_attributes memchip (mem_bus G) mem_hw_rb 77 MonitorPort 5 (hw zero_rb) Logic.I). lia.
Defined.

(** ** LEDs *)

(** The LED mode of port 4. The driver accepts port 4, which has no LED
    group; its four bits would be bits 16 to 19 of the 16-bit LED register, so
    the call reports success and leaves every configuration register as it
    was. *)
Theorem rtl8366rb_led_port_4_ignored {W} {B : RegBus W} {HW : SwitchHw W G} v (w : W) :
  hw_ok w -> 0 <= v < 16 ->
  exists w', rtl8366rb_sw_set_port_led 4 v w = (Ok tt, w') /\
    forall b, g_storage G b = true -> hw_reg w' b = hw_reg w b.
Proof.
  intros Hok Hv.
  change (rtl8366rb_sw_set_port_led 4 v) with
    (rtl8366_smi_rmwr (H := B) RTL8366RB_LED_CTRL_REG (Z.shiftl 0xF 16) (u32 (Z.shiftl v 16))).
  assert (Hd : 0 <= u32 (Z.shiftl v 16) < 2 ^ 32) by (apply u32_range).
  pose proof (hw_rmwr RTL8366RB_LED_CTRL_REG (Z.shiftl 0xF 16) _ w Hok eq_refl ltac:(change (Z.shiftl 0xF 16) with 983040; lia) Hd) as H.
  destruct (wp_never _ _ _ H) as ([] & w' & Hrun & _ & Hreg & _). exists w'. split; [exact Hrun |].
  intros b Hb. rewrite Hreg by exact Hb. destruct (Z.eqb_spec b RTL8366RB_LED_CTRL_REG) as [-> |]; [| reflexivity].
  pose proof (hw_reg_range w RTL8366RB_LED_CTRL_REG) as Hr. change 65536 with (2 ^ 16) in Hr.
  revert Hr. generalize (hw_reg w RTL8366RB_LED_CTRL_REG). intros t Ht.
  change 0xF with (Z.ones 4). unfold u16, u32. bit_solve.
Qed.

Lemma rtl8366rb_led_port_4_ignored_witness :
  exists w', @rtl8366rb_sw_set_port_led memchip (mem_bus G) 4 9 (hw zero_rb) = (Ok tt, w') /\
    forall b, g_storage G b = true ->
      @hw_reg memchip (mem_bus G) G mem_hw_rb w' b = @hw_reg memchip (mem_bus G) G mem_hw_rb (hw zero_rb) b.
Proof.
  apply (@rtl8366rb_led_port_4_ignored memchip (mem_bus G) mem_hw_rb 9 (hw zero_rb) Logic.I). lia.
Defined.

(** ** Counters *)

Definition rb_mib_addr (counter port : Z) : Z :=
  RTL8366RB_MIB_COUNTER_BASE + RTL8366RB_MIB_COUNTER_PORT_OFFSET * port +
  mib_offset (geti (MibCounter (-1) 0 0 "") rtl8366rb_mib_counters counter).
Definition rb_mib_words (counter : Z) : nat :=
  Z.to_nat (mib_length (geti (MibCounter (-1) 0 0 "") rtl8366rb_mib_counters counter)).

Lemma rb_mib_table_ok counter :
  0 <= counter < RTL8366RB_MIB_COUNT ->
  let mib := geti (MibCounter (-1) 0 0 "") rtl8366rb_mib_counters counter in
  0 <= mib_offset mib /\ 2 <= mib_length mib <= 4 /\
  mib_offset mib + mib_length mib <= RTL8366RB_MIB_COUNTER_PORT_OFFSET.
Proof.
  intros Hc. unfold RTL8366RB_MIB_COUNT in Hc. cbv zeta.
  assert (Hall : forallb (fun m => (0 <=? mib_offset m) && (2 <=? mib_length m) && (mib_length m <=? 4) &&
    (mib_offset m + mib_length m <=? RTL8366RB_MIB_COUNTER_PORT_OFFSET)) rtl8366rb_mib_counters = true)
    by reflexivity.
  rewrite forallb_forall in Hall. specialize (Hall (geti (MibCounter (-1) 0 0 "") rtl8366rb_mib_counters counter)).
  lapply Hall; [lia |]. apply nth_In. cbn [length rtl8366rb_mib_counters]. lia.
Qed.

Section Mib.
Context {W : Type} {B : RegBus W}.
Variables (good : W -> Prop) (mem : Z -> Z).
Hypothesis good_write : forall a d w, good w -> wp (wr a d) (fun _ => good) never w.
Hypothesis good_read : forall a w, good w -> wp (rd a) (fun d w' => d = mem a /\ good w') never w.

(** A MIB counter of an RTL8366RB port: the value is the counter's 16-bit
    words put together, exact in 64 bits, [-EBUSY] and [-EIO] exactly as the
    control register says; and the words lie in the port's own window of
    counter registers, so that no two ports share one. *)
Theorem rtl8366rb_mib_value counter port w :
  good w -> 0 <= counter < RTL8366RB_MIB_COUNT -> 0 <= port < RTL8366RB_NUM_PORTS ->
  fst (rtl8366rb_get_mib_counter counter port w)
  = mib_result (mem RTL8366RB_MIB_CTRL_REG) (words_value mem (rb_mib_addr counter port) (rb_mib_words counter)) /\
  RTL8366RB_MIB_COUNTER_BASE + RTL8366RB_MIB_COUNTER_PORT_OFFSET * port <= rb_mib_addr counter port /\
  rb_mib_addr counter port + Z.of_nat (rb_mib_words counter)
  <= RTL8366RB_MIB_COUNTER_BASE + RTL8366RB_MIB_COUNTER_PORT_OFFSET * (port + 1).
Proof.
  intros Hw Hc Hp. destruct (rb_mib_table_ok counter Hc) as (Ho & Hl & Hfit).
  unfold rtl8366rb_get_mib_counter, rb_mib_addr, rb_mib_words.
  unfold RTL8366RB_MIB_COUNT, RTL8366RB_NUM_PORTS, RTL8366RB_MIB_COUNTER_BASE,
    RTL8366RB_MIB_COUNTER_PORT_OFFSET in *.
  destruct (Z.ltb_spec 6 port); [lia |]. destruct (Z.leb_spec 33 counter); [lia |]. cbn [orb].
  set (mib := geti _ _ _) in *. cbv zeta. split; [| lia].
  apply (mib_read_run good mem good_write good_read); [exact Hw | lia | lia].
Qed.
End Mib.

Lemma rtl8366rb_mib_value_witness :
  let mem := fun a => if a =? RTL8366RB_MIB_CTRL_REG then 0 else a in
  fst (@rtl8366rb_get_mib_counter unit (rom_bus mem) 0 1 tt)
  = mib_result (mem RTL8366RB_MIB_CTRL_REG) 0x1053105210511050.
Proof.
  apply (@rtl8366rb_mib_value unit (rom_bus (fun a => if a =? RTL8366RB_MIB_CTRL_REG then 0 else a))
    (fun _ => True) (fun a => if a =? RTL8366RB_MIB_CTRL_REG then 0 else a)) with (counter := 0) (port := 1);
    cbn; auto; unfold RTL8366RB_MIB_COUNT, RTL8366RB_NUM_PORTS; lia.
Defined.

(** The port bound is one too high here as well: "port 6" is read from the
    registers past those of the last port. *)
Lemma rtl8366rb_mib_port_6 {W} {B : RegBus W} (w : W) :
  rtl8366rb_get_mib_counter 0 6 w
  = (wr 0x11e0 0 ;; data <- rd RTL8366RB_MIB_CTRL_REG ;;
     if cbool (Z.land data RTL8366RB_MIB_CTRL_BUSY_MASK) then fail EBUSY else
     if cbool (Z.land data RTL8366RB_MIB_CTRL_RESET_MASK) then fail EIO else
     read_mib_words 0x11e0 4 0) w.
Proof. reflexivity. Qed.

(** ** Chip reset *)

(** A device whose [k]th register read gives [answer k]; the state counts the
    reads. *)
Definition answer_bus (answer : nat -> res Z) : RegBus nat := {|
  rtl8366_smi_read_reg _ k := (answer k, S k);
  rtl8366_smi_write_reg _ _ := ret tt;
  rtl8366_smi_write_reg_noack _ _ := ret tt
|}.

Definition in_reset (r : res Z) : bool :=
  match r with Ok d => Z.testbit d 0 | Err _ => false end.
Definition out_of_reset (r : res Z) : bool :=
  match r with Ok d => negb (Z.testbit d 0) | Err _ => false end.

Lemma reset_poll_run answer n k :
  exists j, (j <= n)%nat /\ snd (@rtl8366rb_reset_poll nat (answer_bus answer) n k) = (k + j)%nat /\
    ((fst (@rtl8366rb_reset_poll nat (answer_bus answer) n k) = Ok tt /\
      exists i, (i < n)%nat /\ out_of_reset (answer (k + i)%nat) = true /\
                forall m, (m < i)%nat -> in_reset (answer (k + m)%nat) = true) \/
     (fst (@rtl8366rb_reset_poll nat (answer_bus answer) n k) = Err (- EIO) /\
      ~ exists i, (i < n)%nat /\ out_of_reset (answer (k + i)%nat) = true /\
                forall m, (m < i)%nat -> in_reset (answer (k + m)%nat) = true)).
Proof.
  revert k. induction n as [|n IH]; intros k.
  { exists O. cbn. split; [lia |]. split; [lia |]. right. split; [reflexivity |]. intros (i & Hi & _). lia. }
  cbn [rtl8366rb_reset_poll]. unfold bind, catch. cbn [rd rtl8366_smi_read_reg answer_bus].
  destruct (answer k) as [d | e] eqn:Ha.
  - change RTL8366RB_CHIP_CTRL_RESET_HW with (BIT 0). rewrite cbool_land_BIT by lia.
    destruct (Z.testbit d 0) eqn:Hd; cbn [negb].
    + destruct (IH (S k)) as (j & Hj & Hs & Hr). exists (S j). split; [lia |].
      split; [rewrite Hs; lia |].
      destruct Hr as [[Hr (i & Hi & Ho & Hb)] | [Hr Hno]]; [left | right]; (split; [exact Hr |]).
      * exists (S i). split; [lia |]. replace (k + S i)%nat with (S k + i)%nat by lia. split; [exact Ho |].
        intros [|m] Hm; [rewrite Nat.add_0_r, Ha; exact Hd |].
        replace (k + S m)%nat with (S k + m)%nat by lia. apply Hb. lia.
      * intros ([|i] & Hi & Ho & Hb).
        { rewrite Nat.add_0_r, Ha in Ho. cbn [out_of_reset] in Ho. rewrite Hd in Ho. discriminate. }
        apply Hno. exists i. split; [lia |]. replace (S k + i)%nat with (k + S i)%nat by lia.
        split; [exact Ho |]. intros m Hm. replace (S k + m)%nat with (k + S m)%nat by lia. apply Hb. lia.
    + exists 1%nat. split; [lia |]. split; [cbn; lia |]. left. split; [reflexivity |]. exists O.
      split; [lia |]. rewrite Nat.add_0_r, Ha. cbn [out_of_reset]. rewrite Hd. split; [reflexivity | lia].
  - exists 1%nat. split; [lia |]. split; [cbn; lia |]. right. split; [reflexivity |].
    intros ([|i] & Hi & Ho & Hb).
    + rewrite Nat.add_0_r, Ha in Ho. discriminate.
    + specialize (Hb O ltac:(lia)). rewrite Nat.add_0_r, Ha in Hb. discriminate.
Qed.

(** Chip reset, on both chips, for every device and every failure of the
    bus: it reads the reset register at most ten times, and succeeds exactly
    when one of the first ten answers has the reset bit clear and every
    answer before it is a value with the bit set; any other outcome is
    [-EIO]. *)
Theorem rtl8366_reset_chip_bounded answer :
  let rb := @rtl8366rb_reset_chip nat (answer_bus answer) O in
  let s := @rtl8366s_reset_chip nat (answer_bus answer) O in
  s = rb /\ (snd rb <= 10)%nat /\
  (fst rb = Ok tt <->
   exists i, (i < 10)%nat /\ out_of_reset (answer i) = true /\
     forall m, (m < i)%nat -> in_reset (answer m) = true) /\
  (fst rb <> Ok tt -> fst rb = Err (- EIO)).
Proof.
  cbv zeta. split; [reflexivity |].
  change (@rtl8366rb_reset_chip nat (answer_bus answer) O)
    with (@rtl8366rb_reset_poll nat (answer_bus answer) 10 O).
  destruct (reset_poll_run answer 10 O) as (j & Hj & -> & Hr). split; [lia |].
  destruct Hr as [[-> H] | [-> H]].
  - split; [split; auto | contradiction].
  - split; [split; [discriminate | contradiction] | reflexivity].
Qed.
