(* ===== verification/Smi67.v ===== *)
(** * What the RTL8367 and the RTL8367B drivers share

    The fields of [struct rtl8366_smi] only these two drivers use, the data
    types of [rtl8367.h], and the loops both drivers have in the same form:
    writing an initialisation table, waiting for the chip to leave reset,
    waiting for the PHY window, and reading a counter through its window. *)

From S2P Require Import Prelude CMonad SmiCore Regs.

Definition UINT_MAX : Z := 0xffffffff.

(** ** Data *)

Inductive rtl8367b_chip_t :=
| RTL8367B_CHIP_UNKNOWN
| RTL8367B_CHIP_RTL8367RB
| RTL8367B_CHIP_RTL8367R_VB
| RTL8367B_CHIP_RTL8367RB_VB
| RTL8367B_CHIP_RTL8367S
| RTL8367B_CHIP_RTL8367S_VB.

#[export] Instance rtl8367b_chip_eq_dec : EqDecision rtl8367b_chip_t.
Proof. solve_decision. Defined.

(** [smi->rtl8367b_chip >= RTL8367B_CHIP_RTL8367S_VB]: family D, the last. *)
Definition family_d (c : rtl8367b_chip_t) : bool := bool_decide (c = RTL8367B_CHIP_RTL8367S_VB).

(** [smi->phy] or [smi->ext_mbus] and whatever is behind it, with the fields
    of [struct rtl8366_smi] the two drivers change. *)
Record smi67 (W : Type) := Smi67 {
  bus67 : W;
  cpu_port67 : Z;
  chip67 : rtl8367b_chip_t;
  emu_vlanmc : option (list vlan_mc)
}.
Arguments Smi67 {W}. Arguments bus67 {W}. Arguments cpu_port67 {W}.
Arguments chip67 {W}. Arguments emu_vlanmc {W}.

Definition set_bus67 {W} (w : W) (s : smi67 W) : smi67 W := Smi67 w (cpu_port67 s) (chip67 s) (emu_vlanmc s).
Definition set_cpu_port67 {W} (p : Z) (s : smi67 W) : smi67 W := Smi67 (bus67 s) p (chip67 s) (emu_vlanmc s).
Definition set_chip67 {W} (c : rtl8367b_chip_t) (s : smi67 W) : smi67 W :=
  Smi67 (bus67 s) (cpu_port67 s) c (emu_vlanmc s).
Definition set_emu {W} (e : option (list vlan_mc)) (s : smi67 W) : smi67 W :=
  Smi67 (bus67 s) (cpu_port67 s) (chip67 s) e.

(** A register access does not touch the driver's fields. *)
Definition on_bus {W A} (m : M W A) : M (smi67 W) A := fun s =>
  let (r, w) := m (bus67 s) in (r, set_bus67 w s).

#[export] Instance bus_of_67 {W} {B : RegBus W} : RegBus (smi67 W) := {|
  rtl8366_smi_read_reg a := on_bus (rtl8366_smi_read_reg a);
  rtl8366_smi_write_reg a d := on_bus (rtl8366_smi_write_reg a d);
  rtl8366_smi_write_reg_noack a d := on_bus (rtl8366_smi_write_reg_noack a d)
|}.

Record rtl8367_port_ability := Ability {
  force_mode : Z; nway : Z; txpause : Z; rxpause : Z; link : Z; duplex : Z; speed : Z
}.

(** [enum rtl8367_extif_mode]; any other number may come from the device tree. *)
Definition RTL8367_EXTIF_MODE_DISABLED : Z := 0.
Definition RTL8367_EXTIF_MODE_RGMII : Z := 1.
Definition RTL8367_EXTIF_MODE_MII_MAC : Z := 2.
Definition RTL8367_EXTIF_MODE_MII_PHY : Z := 3.
Definition RTL8367_EXTIF_MODE_TMII_MAC : Z := 4.
Definition RTL8367_EXTIF_MODE_TMII_PHY : Z := 5.
Definition RTL8367_EXTIF_MODE_GMII : Z := 6.
Definition RTL8367_EXTIF_MODE_RGMII_33V : Z := 7.

Record rtl8367_extif_config := ExtifConfig {
  txdelay : Z; rxdelay : Z; mode : Z; ability : rtl8367_port_ability
}.

(** The ten words of the property [realtek,extif], behind the port number.
    The structure is zeroed first and no word is for [nway]. *)
Definition extif_config_of (words : list Z) : option (Z * rtl8367_extif_config) :=
  match words with
  | [cpu_port; tx; rx; md; fm; txp; rxp; lk; dx; sp] =>
      Some (cpu_port, ExtifConfig tx rx md (Ability fm 0 txp rxp lk dx sp))
  | _ => None
  end.

Section Loops.
Context {W : Type} {B : RegBus W}.

Fixpoint write_initvals (initvals : list (Z * Z)) : M W unit :=
  match initvals with
  | [] => ret tt
  | (reg, val) :: initvals' => wr reg val ;; write_initvals initvals'
  end.

(** [do { REG_RD; if (!(data & hw)) break; } while (--timeout)], and the
    error when [timeout] is 0 behind it. *)
Fixpoint reset_poll (reg hw : Z) (timeout : nat) : M W unit :=
  match timeout with
  | O => fail ETIMEDOUT
  | S timeout' =>
      data <- rd reg ;;
      if negb (cbool (Z.land data hw)) then ret tt else reset_poll reg hw timeout'
  end.

(** [if (timeout--) return -ETIMEDOUT]: the test is of the old value, so
    the first busy answer ends the loop unless [timeout] is 0.  At 0 the
    counter goes negative, and the next busy answer ends it. *)
Fixpoint phy_poll (reg busy : Z) (fuel : nat) (timeout : Z) : M W unit :=
  match fuel with
  | O => fail EFAULT
  | S fuel' =>
      data <- rd reg ;;
      if Z.land data busy =? 0 then ret tt else
      if cbool timeout then fail ETIMEDOUT else phy_poll reg busy fuel' (timeout - 1)
  end.

(** [n] words of the counter window, downwards from word [offset]. *)
Fixpoint read_window (base offset : Z) (n : nat) (mibvalue : Z) : M W Z :=
  match n with
  | O => ret mibvalue
  | S n' =>
      data <- rd (u32 (base + offset)) ;;
      read_window base (offset - 1) n' (u64 (Z.lor (Z.shiftl mibvalue 16) (Z.land data 0xFFFF)))
  end.
End Loops.
