(* ===== verification/Rtl8367b.v ===== *)
(** * The RTL8367B: [rtl8367b.c]

    The chip driver of the RTL8367B family: the register map as far as the
    driver uses it, the initialisation tables, detection and set-up with the
    external interfaces, PHY access, counters, the VLAN operations with the
    emulated MC table of family D, and the swconfig attributes. *)

From S2P Require Import Prelude CMonad SmiCore Regs Smi67.

(** ** Register map *)

Definition RTL8367B_PHY_ADDR_MAX : Z := 8.
Definition RTL8367B_PHY_REG_MAX : Z := 31.
Definition RTL8367B_VID_MASK : Z := 0x3fff.
Definition RTL8367B_FID_MASK : Z := 0xf.
Definition RTL8367B_UNTAG_MASK : Z := 0xff.
Definition RTL8367B_MEMBER_MASK : Z := 0xff.
Definition RTL8367B_PORT_MISC_CFG_REG (p : Z) : Z := 0x000e + (0x20 * p).
Definition RTL8367B_PORT_MISC_CFG_EGRESS_MODE_SHIFT : Z := 4.
Definition RTL8367B_PORT_MISC_CFG_EGRESS_MODE_MASK : Z := 0x3.
Definition RTL8367B_PORT_MISC_CFG_EGRESS_MODE_ORIGINAL : Z := 0.
Definition RTL8367B_BYPASS_LINE_RATE_REG : Z := 0x03f7.
Definition RTL8367B_TA_CTRL_REG : Z := 0x0500.
Definition RTL8367B_TA_CTRL_CMD_SHIFT : Z := 3.
Definition RTL8367B_TA_CTRL_CMD_READ : Z := 0.
Definition RTL8367B_TA_CTRL_CMD_WRITE : Z := 1.
Definition RTL8367B_TA_CTRL_TABLE_CVLAN : Z := 3.
Definition RTL8367B_TA_CTRL_CVLAN_READ : Z :=
  Z.lor (Z.shiftl RTL8367B_TA_CTRL_CMD_READ RTL8367B_TA_CTRL_CMD_SHIFT) RTL8367B_TA_CTRL_TABLE_CVLAN.
Definition RTL8367B_TA_CTRL_CVLAN_WRITE : Z :=
  Z.lor (Z.shiftl RTL8367B_TA_CTRL_CMD_WRITE RTL8367B_TA_CTRL_CMD_SHIFT) RTL8367B_TA_CTRL_TABLE_CVLAN.
Definition RTL8367B_TA_ADDR_REG : Z := 0x0501.
Definition RTL8367B_TA_WRDATA_REG (x : Z) : Z := 0x0510 + x.
Definition RTL8367B_TA_VLAN_NUM_WORDS : Z := 2.
Definition RTL8367B_TA_VLAN_VID_MASK : Z := RTL8367B_VID_MASK.
Definition RTL8367B_TA_VLAN0_MEMBER_SHIFT : Z := 0.
Definition RTL8367B_TA_VLAN0_MEMBER_MASK : Z := RTL8367B_MEMBER_MASK.
Definition RTL8367B_TA_VLAN0_UNTAG_SHIFT : Z := 8.
Definition RTL8367B_TA_VLAN0_UNTAG_MASK : Z := RTL8367B_MEMBER_MASK.
Definition RTL8367B_TA_VLAN1_FID_SHIFT : Z := 0.
Definition RTL8367B_TA_VLAN1_FID_MASK : Z := RTL8367B_FID_MASK.
Definition RTL8367B_TA_RDDATA_REG (x : Z) : Z := 0x0520 + x.
Definition RTL8367B_VLAN_PVID_CTRL_REG (p : Z) : Z := 0x0700 + (Z.quot p 2).
Definition RTL8367B_VLAN_PVID_CTRL_MASK : Z := 0x1f.
Definition RTL8367B_VLAN_PVID_CTRL_SHIFT (p : Z) : Z := 8 * (Z.rem p 2).
Definition RTL8367B_VLAN_MC_BASE (x : Z) : Z := 0x0728 + (x * 4).
Definition RTL8367B_VLAN_MC_NUM_WORDS : Z := 4.
Definition RTL8367B_VLAN_MC0_MEMBER_SHIFT : Z := 0.
Definition RTL8367B_VLAN_MC0_MEMBER_MASK : Z := RTL8367B_MEMBER_MASK.
Definition RTL8367B_VLAN_MC1_FID_SHIFT : Z := 0.
Definition RTL8367B_VLAN_MC1_FID_MASK : Z := RTL8367B_FID_MASK.
Definition RTL8367B_VLAN_MC3_EVID_SHIFT : Z := 0.
Definition RTL8367B_VLAN_MC3_EVID_MASK : Z := RTL8367B_VID_MASK.
Definition RTL8367B_VLAN_CTRL_REG : Z := 0x07a8.
Definition RTL8367B_VLAN_CTRL_ENABLE : Z := BIT 0.
Definition RTL8367B_VLAN_INGRESS_REG : Z := 0x07a9.
Definition RTL8367B_PORT_ISOLATION_REG (p : Z) : Z := 0x08a2 + p.
Definition RTL8367B_MIB_COUNTER_REG (x : Z) : Z := 0x1000 + x.
Definition RTL8367B_MIB_COUNTER_PORT_OFFSET : Z := 0x007c.
Definition RTL8367B_MIB_ADDRESS_REG : Z := 0x1004.
Definition RTL8367B_MIB_CTRL0_REG (x : Z) : Z := 0x1005 + x.
Definition RTL8367B_MIB_CTRL0_GLOBAL_RESET_MASK : Z := BIT 11.
Definition RTL8367B_MIB_CTRL0_PORT_RESET_MASK (p : Z) : Z := BIT (2 + p).
Definition RTL8367B_MIB_CTRL0_RESET_MASK : Z := BIT 1.
Definition RTL8367B_MIB_CTRL0_BUSY_MASK : Z := BIT 0.
Definition RTL8367B_SWC0_REG : Z := 0x1200.
Definition RTL8367B_SWC0_MAX_LENGTH_SHIFT : Z := 13.
Definition RTL8367B_SWC0_MAX_LENGTH (x : Z) : Z := Z.shiftl x 13.
Definition RTL8367B_SWC0_MAX_LENGTH_MASK : Z := RTL8367B_SWC0_MAX_LENGTH 0x3.
Definition RTL8367B_SWC0_MAX_LENGTH_1522 : Z := RTL8367B_SWC0_MAX_LENGTH 0.
Definition RTL8367B_SWC0_MAX_LENGTH_1536 : Z := RTL8367B_SWC0_MAX_LENGTH 1.
Definition RTL8367B_SWC0_MAX_LENGTH_1552 : Z := RTL8367B_SWC0_MAX_LENGTH 2.
Definition RTL8367B_SWC0_MAX_LENGTH_16000 : Z := RTL8367B_SWC0_MAX_LENGTH 3.
Definition RTL8367B_CHIP_NUMBER_REG : Z := 0x1300.
Definition RTL8367B_CHIP_VER_REG : Z := 0x1301.
Definition RTL8367B_CHIP_DEBUG0_REG : Z := 0x1303.
Definition RTL8367B_DEBUG0_SEL33 (x : Z) : Z := BIT (8 + x).
Definition RTL8367B_DEBUG0_DRI_RG (x : Z) : Z := BIT (5 + x).
Definition RTL8367B_DEBUG0_DRI (x : Z) : Z := BIT (3 + x).
Definition RTL8367B_DEBUG0_SLR (x : Z) : Z := BIT x.
Definition RTL8367B_CHIP_DEBUG1_REG : Z := 0x1304.
Definition RTL8367B_DEBUG1_DN_MASK (x : Z) : Z :=
  Z.shiftl (Z.ones ((6 + (x * 8)) - (4 + (x * 8)) + 1)) (4 + (x * 8)).
Definition RTL8367B_DEBUG1_DN_SHIFT (x : Z) : Z := 4 + (x * 8).
Definition RTL8367B_DEBUG1_DP_MASK (x : Z) : Z := Z.shiftl (Z.ones ((2 + (x * 8)) - (x * 8) + 1)) (x * 8).
Definition RTL8367B_DEBUG1_DP_SHIFT (x : Z) : Z := x * 8.
Definition RTL8367B_CHIP_DEBUG2_REG : Z := 0x13e2.
Definition RTL8367B_DEBUG2_RG2_DN_MASK : Z := Z.shiftl (Z.ones (8 - 6 + 1)) 6.
Definition RTL8367B_DEBUG2_RG2_DN_SHIFT : Z := 6.
Definition RTL8367B_DEBUG2_RG2_DP_MASK : Z := Z.shiftl (Z.ones (5 - 3 + 1)) 3.
Definition RTL8367B_DEBUG2_RG2_DP_SHIFT : Z := 3.
Definition RTL8367B_DEBUG2_DRI_EXT2_RG : Z := BIT 2.
Definition RTL8367B_DEBUG2_DRI_EXT2 : Z := BIT 1.
Definition RTL8367B_DEBUG2_SLR_EXT2 : Z := BIT 0.
Definition RTL8367B_DIS_REG : Z := 0x1305.
Definition RTL8367B_DIS_RGMII_SHIFT (x : Z) : Z := 4 * x.
Definition RTL8367B_DIS_RGMII_MASK : Z := 0x7.
Definition RTL8367B_DIS2_REG : Z := 0x13c3.
Definition RTL8367B_DIS2_RGMII_SHIFT : Z := 0.
Definition RTL8367B_DIS2_RGMII_MASK : Z := 0xf.
Definition RTL8367B_EXT_RGMXF_REG (x : Z) : Z := if x =? 2 then 0x13c5 else 0x1306 + x.
Definition RTL8367B_EXT_RGMXF_TXDELAY_SHIFT : Z := 3.
Definition RTL8367B_EXT_RGMXF_TXDELAY_MASK : Z := 1.
Definition RTL8367B_EXT_RGMXF_RXDELAY_MASK : Z := 0x7.
Definition RTL8367B_DI_FORCE_REG (x : Z) : Z := if x =? 2 then 0x13c4 else 0x1310 + x.
Definition RTL8367B_DI_FORCE_MODE : Z := BIT 12.
Definition RTL8367B_DI_FORCE_NWAY : Z := BIT 7.
Definition RTL8367B_DI_FORCE_TXPAUSE : Z := BIT 6.
Definition RTL8367B_DI_FORCE_RXPAUSE : Z := BIT 5.
Definition RTL8367B_DI_FORCE_LINK : Z := BIT 4.
Definition RTL8367B_DI_FORCE_DUPLEX : Z := BIT 2.
Definition RTL8367B_DI_FORCE_SPEED_MASK : Z := 3.
Definition RTL8367B_CHIP_RESET_REG : Z := 0x1322.
Definition RTL8367B_CHIP_RESET_HW : Z := BIT 0.
Definition RTL8367B_PORT_STATUS_REG (p : Z) : Z := 0x1352 + p.
Definition RTL8367B_PORT_STATUS_NWAY : Z := BIT 7.
Definition RTL8367B_PORT_STATUS_TXPAUSE : Z := BIT 6.
Definition RTL8367B_PORT_STATUS_RXPAUSE : Z := BIT 5.
Definition RTL8367B_PORT_STATUS_LINK : Z := BIT 4.
Definition RTL8367B_PORT_STATUS_DUPLEX : Z := BIT 2.
Definition RTL8367B_PORT_STATUS_SPEED_MASK : Z := 0x0003.
Definition RTL8367B_PORT_STATUS_SPEED_10 : Z := 0.
Definition RTL8367B_PORT_STATUS_SPEED_100 : Z := 1.
Definition RTL8367B_PORT_STATUS_SPEED_1000 : Z := 2.
Definition RTL8367B_RTL_MAGIC_ID_REG : Z := 0x13c2.
Definition RTL8367B_RTL_MAGIC_ID_VAL : Z := 0x0249.
Definition RTL8367B_IA_CTRL_REG : Z := 0x1f00.
Definition RTL8367B_IA_CTRL_RW (x : Z) : Z := Z.shiftl x 1.
Definition RTL8367B_IA_CTRL_RW_READ : Z := RTL8367B_IA_CTRL_RW 0.
Definition RTL8367B_IA_CTRL_RW_WRITE : Z := RTL8367B_IA_CTRL_RW 1.
Definition RTL8367B_IA_CTRL_CMD_MASK : Z := BIT 0.
Definition RTL8367B_IA_STATUS_REG : Z := 0x1f01.
Definition RTL8367B_IA_STATUS_PHY_BUSY : Z := BIT 2.
Definition RTL8367B_IA_ADDRESS_REG : Z := 0x1f02.
Definition RTL8367B_IA_WRITE_DATA_REG : Z := 0x1f03.
Definition RTL8367B_IA_READ_DATA_REG : Z := 0x1f04.
Definition RTL8367B_INTERNAL_PHY_REG (a : Z) (r : Z) : Z := (0x2000 + (32 * a)) + r.
Definition RTL8367B_NUM_MIB_COUNTERS : Z := 58.
Definition RTL8367B_CPU_PORT_NUM : Z := 5.
Definition RTL8367B_NUM_PORTS : Z := 8.
Definition RTL8367B_NUM_VLANS : Z := 32.
Definition RTL8367B_NUM_VIDS : Z := 4096.
Definition RTL8367B_PRIORITYMAX : Z := 7.
Definition RTL8367B_FIDMAX : Z := 7.
Definition RTL8367B_PORT_0 : Z := BIT 0.
Definition RTL8367B_PORT_1 : Z := BIT 1.
Definition RTL8367B_PORT_2 : Z := BIT 2.
Definition RTL8367B_PORT_3 : Z := BIT 3.
Definition RTL8367B_PORT_4 : Z := BIT 4.
Definition RTL8367B_PORT_E0 : Z := BIT 5.
Definition RTL8367B_PORT_E1 : Z := BIT 6.
Definition RTL8367B_PORT_E2 : Z := BIT 7.
Definition RTL8367B_PORTS_ALL : Z :=
  Z.lor (Z.lor (Z.lor (Z.lor (Z.lor (Z.lor (Z.lor RTL8367B_PORT_0 RTL8367B_PORT_1) RTL8367B_PORT_2)
    RTL8367B_PORT_3) RTL8367B_PORT_4) RTL8367B_PORT_E0) RTL8367B_PORT_E1) RTL8367B_PORT_E2.
Definition RTL8367B_MIB_RXB_ID : Z := 0.
Definition RTL8367B_MIB_TXB_ID : Z := 28.
Definition RTL8367D_PORT_STATUS_REG (p : Z) : Z := 0x12d0 + p.
Definition RTL8367D_PORT_STATUS_SPEED1_MASK : Z := 0x3000.
Definition RTL8367D_PORT_STATUS_SPEED1_SHIFT : Z := 10.
Definition RTL8367D_REG_MAC0_FORCE_SELECT : Z := 0x12c0.
Definition RTL8367D_REG_MAC0_FORCE_SELECT_EN : Z := 0x12c8.
Definition RTL8367D_VLAN_PVID_CTRL_REG (p : Z) : Z := 0x0700 + p.
Definition RTL8367D_VLAN_PVID_CTRL_MASK : Z := 0xfff.
Definition RTL8367D_FIDMAX : Z := 3.
Definition RTL8367D_FID_MASK : Z := 3.
Definition RTL8367D_TA_VLAN1_FID_SHIFT : Z := 0.
Definition RTL8367D_TA_VLAN1_FID_MASK : Z := RTL8367D_FID_MASK.
Definition RTL8367D_VID_MASK : Z := 0xfff.
Definition RTL8367D_TA_VLAN_VID_MASK : Z := RTL8367D_VID_MASK.
Definition RTL8367D_REG_EXT_TXC_DLY : Z := 0x13f9.
Definition RTL8367D_EXT1_RGMII_TX_DLY_MASK : Z := 0x38.
Definition RTL8367D_REG_TOP_CON0 : Z := 0x1d70.
Definition RTL8367D_MAC7_SEL_EXT1_MASK : Z := 0x2000.
Definition RTL8367D_MAC4_SEL_EXT1_MASK : Z := 0x1000.
Definition RTL8367D_REG_SDS1_MISC0 : Z := 0x1d78.
Definition RTL8367D_SDS1_MODE_MASK : Z := 0x1f.
Definition RTL8367D_PORT_SDS_MODE_DISABLE : Z := 0x1f.

(** ** Counters *)

Definition rtl8367b_mib_counters : list rtl8366_mib_counter := [
  MibCounter 0 0 4 "ifInOctets";
  MibCounter 0 4 2 "dot3StatsFCSErrors";
  MibCounter 0 6 2 "dot3StatsSymbolErrors";
  MibCounter 0 8 2 "dot3InPauseFrames";
  MibCounter 0 10 2 "dot3ControlInUnknownOpcodes";
  MibCounter 0 12 2 "etherStatsFragments";
  MibCounter 0 14 2 "etherStatsJabbers";
  MibCounter 0 16 2 "ifInUcastPkts";
  MibCounter 0 18 2 "etherStatsDropEvents";
  MibCounter 0 20 2 "ifInMulticastPkts";
  MibCounter 0 22 2 "ifInBroadcastPkts";
  MibCounter 0 24 2 "inMldChecksumError";
  MibCounter 0 26 2 "inIgmpChecksumError";
  MibCounter 0 28 2 "inMldSpecificQuery";
  MibCounter 0 30 2 "inMldGeneralQuery";
  MibCounter 0 32 2 "inIgmpSpecificQuery";
  MibCounter 0 34 2 "inIgmpGeneralQuery";
  MibCounter 0 36 2 "inMldLeaves";
  MibCounter 0 38 2 "inIgmpLeaves";
  MibCounter 0 40 4 "etherStatsOctets";
  MibCounter 0 44 2 "etherStatsUnderSizePkts";
  MibCounter 0 46 2 "etherOversizeStats";
  MibCounter 0 48 2 "etherStatsPkts64Octets";
  MibCounter 0 50 2 "etherStatsPkts65to127Octets";
  MibCounter 0 52 2 "etherStatsPkts128to255Octets";
  MibCounter 0 54 2 "etherStatsPkts256to511Octets";
  MibCounter 0 56 2 "etherStatsPkts512to1023Octets";
  MibCounter 0 58 2 "etherStatsPkts1024to1518Octets";
  MibCounter 0 60 4 "ifOutOctets";
  MibCounter 0 64 2 "dot3StatsSingleCollisionFrames";
  MibCounter 0 66 2 "dot3StatMultipleCollisionFrames";
  MibCounter 0 68 2 "dot3sDeferredTransmissions";
  MibCounter 0 70 2 "dot3StatsLateCollisions";
  MibCounter 0 72 2 "etherStatsCollisions";
  MibCounter 0 74 2 "dot3StatsExcessiveCollisions";
  MibCounter 0 76 2 "dot3OutPauseFrames";
  MibCounter 0 78 2 "ifOutDiscards";
  MibCounter 0 80 2 "dot1dTpPortInDiscards";
  MibCounter 0 82 2 "ifOutUcastPkts";
  MibCounter 0 84 2 "ifOutMulticastPkts";
  MibCounter 0 86 2 "ifOutBroadcastPkts";
  MibCounter 0 88 2 "outOampduPkts";
  MibCounter 0 90 2 "inOampduPkts";
  MibCounter 0 92 2 "inIgmpJoinsSuccess";
  MibCounter 0 94 2 "inIgmpJoinsFail";
  MibCounter 0 96 2 "inMldJoinsSuccess";
  MibCounter 0 98 2 "inMldJoinsFail";
  MibCounter 0 100 2 "inReportSuppressionDrop";
  MibCounter 0 102 2 "inLeaveSuppressionDrop";
  MibCounter 0 104 2 "outIgmpReports";
  MibCounter 0 106 2 "outIgmpLeaves";
  MibCounter 0 108 2 "outIgmpGeneralQuery";
  MibCounter 0 110 2 "outIgmpSpecificQuery";
  MibCounter 0 112 2 "outMldReports";
  MibCounter 0 114 2 "outMldLeaves";
  MibCounter 0 116 2 "outMldGeneralQuery";
  MibCounter 0 118 2 "outMldSpecificQuery";
  MibCounter 0 120 2 "inKnownMulticastPkts"].

(** ** Initialisation tables *)

Definition rtl8367b_initvals : list (Z * Z) := [
  (0x1b03, 0x0876); (0x1200, 0x7fc4); (0x1305, 0xc000); (0x121e, 0x03ca); (0x1233, 0x0352); (0x1234, 0x0064);
  (0x1237, 0x0096); (0x1238, 0x0078); (0x1239, 0x0084); (0x123a, 0x0030); (0x205f, 0x0002); (0x2059, 0x1a00);
  (0x205f, 0x0000); (0x207f, 0x0002); (0x2077, 0x0000); (0x2078, 0x0000); (0x2079, 0x0000); (0x207a, 0x0000);
  (0x207b, 0x0000); (0x207f, 0x0000); (0x205f, 0x0002); (0x2053, 0x0000); (0x2054, 0x0000); (0x2055, 0x0000);
  (0x2056, 0x0000); (0x2057, 0x0000); (0x205f, 0x0000); (0x133f, 0x0030); (0x133e, 0x000e); (0x221f, 0x0005);
  (0x2205, 0x8b86); (0x2206, 0x800e); (0x221f, 0x0000); (0x133f, 0x0010); (0x12a3, 0x2200); (0x6107, 0xe58b);
  (0x6103, 0xa970); (0x0018, 0x0f00); (0x0038, 0x0f00); (0x0058, 0x0f00); (0x0078, 0x0f00); (0x0098, 0x0f00);
  (0x133f, 0x0030); (0x133e, 0x000e); (0x221f, 0x0005); (0x2205, 0x8b6e); (0x2206, 0x0000); (0x220f, 0x0100);
  (0x2205, 0xfff6); (0x2206, 0x0080); (0x2205, 0x8000); (0x2206, 0x0280); (0x2206, 0x2bf7); (0x2206, 0x00e0);
  (0x2206, 0xfff7); (0x2206, 0xa080); (0x2206, 0x02ae); (0x2206, 0xf602); (0x2206, 0x0153); (0x2206, 0x0201);
  (0x2206, 0x6602); (0x2206, 0x8044); (0x2206, 0x0201); (0x2206, 0x7ce0); (0x2206, 0x8b8c); (0x2206, 0xe18b);
  (0x2206, 0x8d1e); (0x2206, 0x01e1); (0x2206, 0x8b8e); (0x2206, 0x1e01); (0x2206, 0xa000); (0x2206, 0xe4ae);
  (0x2206, 0xd8ee); (0x2206, 0x85c0); (0x2206, 0x00ee); (0x2206, 0x85c1); (0x2206, 0x00ee); (0x2206, 0x8afc);
  (0x2206, 0x07ee); (0x2206, 0x8afd); (0x2206, 0x73ee); (0x2206, 0xfff6); (0x2206, 0x00ee); (0x2206, 0xfff7);
  (0x2206, 0xfc04); (0x2206, 0xf8e0); (0x2206, 0x8b8e); (0x2206, 0xad20); (0x2206, 0x0302); (0x2206, 0x8050);
  (0x2206, 0xfc04); (0x2206, 0xf8f9); (0x2206, 0xe08b); (0x2206, 0x85ad); (0x2206, 0x2548); (0x2206, 0xe08a);
  (0x2206, 0xe4e1); (0x2206, 0x8ae5); (0x2206, 0x7c00); (0x2206, 0x009e); (0x2206, 0x35ee); (0x2206, 0x8ae4);
  (0x2206, 0x00ee); (0x2206, 0x8ae5); (0x2206, 0x00e0); (0x2206, 0x8afc); (0x2206, 0xe18a); (0x2206, 0xfde2);
  (0x2206, 0x85c0); (0x2206, 0xe385); (0x2206, 0xc102); (0x2206, 0x2dac); (0x2206, 0xad20); (0x2206, 0x12ee);
  (0x2206, 0x8ae4); (0x2206, 0x03ee); (0x2206, 0x8ae5); (0x2206, 0xb7ee); (0x2206, 0x85c0); (0x2206, 0x00ee);
  (0x2206, 0x85c1); (0x2206, 0x00ae); (0x2206, 0x1115); (0x2206, 0xe685); (0x2206, 0xc0e7); (0x2206, 0x85c1);
  (0x2206, 0xae08); (0x2206, 0xee85); (0x2206, 0xc000); (0x2206, 0xee85); (0x2206, 0xc100); (0x2206, 0xfdfc);
  (0x2206, 0x0400); (0x2205, 0xe142); (0x2206, 0x0701); (0x2205, 0xe140); (0x2206, 0x0405); (0x220f, 0x0000);
  (0x221f, 0x0000); (0x133e, 0x000e); (0x133f, 0x0010); (0x13eb, 0x11bb); (0x207f, 0x0002); (0x2073, 0x1d22);
  (0x207f, 0x0000); (0x133f, 0x0030); (0x133e, 0x000e); (0x2200, 0x1340); (0x133e, 0x000e); (0x133f, 0x0010)].

Definition rtl8367c_initvals : list (Z * Z) := [
  (0x13c2, 0x0000); (0x0018, 0x0f00); (0x0038, 0x0f00); (0x0058, 0x0f00); (0x0078, 0x0f00); (0x0098, 0x0f00);
  (0x1d15, 0x0a69); (0x2000, 0x1340); (0x2020, 0x1340); (0x2040, 0x1340); (0x2060, 0x1340); (0x2080, 0x1340);
  (0x13eb, 0x15bb); (0x1303, 0x06d6); (0x1304, 0x0700); (0x13e2, 0x003f); (0x13f9, 0x0090); (0x121e, 0x03ca);
  (0x1233, 0x0352); (0x1237, 0x00a0); (0x123a, 0x0030); (0x1239, 0x0084); (0x0301, 0x1000); (0x1349, 0x001f);
  (0x18e0, 0x4004); (0x122b, 0x641c); (0x1305, 0xc000); (0x1200, 0x7fcb); (0x0884, 0x0003); (0x06eb, 0x0001);
  (0x00cf, 0xffff); (0x00d0, 0x0007); (0x00ce, 0x48b0); (0x00ce, 0x48b0); (0x0398, 0xffff); (0x0399, 0x0007);
  (0x0300, 0x0001); (0x03fa, 0x0007); (0x08c8, 0x00c0); (0x0a30, 0x020e); (0x0800, 0x0000); (0x0802, 0x0000);
  (0x09da, 0x0017); (0x1d32, 0x0002)].

Section Driver.
Context {W : Type} {B : RegBus W}.
#[local] Abbreviation MD := (M (smi67 W)).
(** What a variable the code does not initialise holds. *)
Variable uninit : Z.

(** ** Initialisation *)

Definition rtl8367b_write_initvals (initvals : list (Z * Z)) : MD unit := write_initvals initvals.

(** *** PHY access *)

Definition rtl8367b_read_phy_reg (phy_addr phy_reg : Z) : MD Z :=
  if RTL8367B_PHY_ADDR_MAX <? phy_addr then fail EINVAL else
  if RTL8367B_PHY_REG_MAX <? phy_reg then fail EINVAL else
  data <- rd RTL8367B_IA_STATUS_REG ;;
  if cbool (Z.land data RTL8367B_IA_STATUS_PHY_BUSY) then fail ETIMEDOUT else
  wr RTL8367B_IA_ADDRESS_REG (RTL8367B_INTERNAL_PHY_REG phy_addr phy_reg) ;;
  wr RTL8367B_IA_CTRL_REG (Z.lor RTL8367B_IA_CTRL_CMD_MASK RTL8367B_IA_CTRL_RW_READ) ;;
  phy_poll RTL8367B_IA_STATUS_REG RTL8367B_IA_STATUS_PHY_BUSY 7 5 ;;
  rd RTL8367B_IA_READ_DATA_REG.

Definition rtl8367b_write_phy_reg (phy_addr phy_reg val : Z) : MD unit :=
  if RTL8367B_PHY_ADDR_MAX <? phy_addr then fail EINVAL else
  if RTL8367B_PHY_REG_MAX <? phy_reg then fail EINVAL else
  data <- rd RTL8367B_IA_STATUS_REG ;;
  if cbool (Z.land data RTL8367B_IA_STATUS_PHY_BUSY) then fail ETIMEDOUT else
  wr RTL8367B_IA_WRITE_DATA_REG val ;;
  wr RTL8367B_IA_ADDRESS_REG (RTL8367B_INTERNAL_PHY_REG phy_addr phy_reg) ;;
  wr RTL8367B_IA_CTRL_REG (Z.lor RTL8367B_IA_CTRL_CMD_MASK RTL8367B_IA_CTRL_RW_WRITE) ;;
  phy_poll RTL8367B_IA_STATUS_REG RTL8367B_IA_STATUS_PHY_BUSY 7 5.

(** [alloc]: the table of [kzalloc], or none; a failure is not looked at. *)
Definition rtl8367b_init_regs (alloc : option (list vlan_mc)) : MD unit :=
  s <- get_state ;;
  match chip67 s with
  | RTL8367B_CHIP_RTL8367RB | RTL8367B_CHIP_RTL8367R_VB => rtl8367b_write_initvals rtl8367b_initvals
  | RTL8367B_CHIP_RTL8367RB_VB | RTL8367B_CHIP_RTL8367S =>
      rtl8367b_write_initvals rtl8367c_initvals
  | RTL8367B_CHIP_RTL8367S_VB =>
      (match emu_vlanmc s with None => modify (set_emu alloc) | Some _ => ret tt end) ;;
      rtl8367b_write_initvals rtl8367c_initvals
  | RTL8367B_CHIP_UNKNOWN => fail ENODEV
  end.

Definition rtl8367b_reset_chip : MD unit :=
  wr RTL8367B_CHIP_RESET_REG RTL8367B_CHIP_RESET_HW ;;
  reset_poll RTL8367B_CHIP_RESET_REG RTL8367B_CHIP_RESET_HW 10.

(** *** The external interfaces *)

Definition rtl8367b_extif_set_mode (id mode : Z) : MD unit :=
  (if mode =? RTL8367_EXTIF_MODE_RGMII then
     rtl8366_smi_rmwr RTL8367B_CHIP_DEBUG0_REG (RTL8367B_DEBUG0_SEL33 id) (RTL8367B_DEBUG0_SEL33 id) ;;
     if id <=? 1 then
       rtl8366_smi_rmwr RTL8367B_CHIP_DEBUG0_REG
         (Z.lor (Z.lor (RTL8367B_DEBUG0_DRI id) (RTL8367B_DEBUG0_DRI_RG id)) (RTL8367B_DEBUG0_SLR id))
         (Z.lor (RTL8367B_DEBUG0_DRI_RG id) (RTL8367B_DEBUG0_SLR id)) ;;
       rtl8366_smi_rmwr RTL8367B_CHIP_DEBUG1_REG
         (Z.lor (RTL8367B_DEBUG1_DN_MASK id) (RTL8367B_DEBUG1_DP_MASK id))
         (Z.lor (Z.shiftl 7 (RTL8367B_DEBUG1_DN_SHIFT id)) (Z.shiftl 7 (RTL8367B_DEBUG1_DP_SHIFT id))) ;;
       s <- get_state ;;
       if family_d (chip67 s) && (id =? 1) then
         rtl8366_smi_rmwr RTL8367D_REG_EXT_TXC_DLY RTL8367D_EXT1_RGMII_TX_DLY_MASK 0 ;;
         data <- rd RTL8367D_REG_TOP_CON0 ;;
         (if Z.land data RTL8367D_MAC4_SEL_EXT1_MASK =? 0 then
            rtl8366_smi_rmwr RTL8367D_REG_TOP_CON0 RTL8367D_MAC7_SEL_EXT1_MASK RTL8367D_MAC7_SEL_EXT1_MASK
          else ret tt) ;;
         rtl8366_smi_rmwr RTL8367D_REG_SDS1_MISC0 RTL8367D_SDS1_MODE_MASK RTL8367D_PORT_SDS_MODE_DISABLE
       else ret tt
     else
       rtl8366_smi_rmwr RTL8367B_CHIP_DEBUG2_REG
         (Z.lor (Z.lor (Z.lor (Z.lor RTL8367B_DEBUG2_DRI_EXT2 RTL8367B_DEBUG2_DRI_EXT2_RG)
            RTL8367B_DEBUG2_SLR_EXT2) RTL8367B_DEBUG2_RG2_DN_MASK) RTL8367B_DEBUG2_RG2_DP_MASK)
         (Z.lor (Z.lor (Z.lor RTL8367B_DEBUG2_DRI_EXT2_RG RTL8367B_DEBUG2_SLR_EXT2)
            (Z.shiftl 7 RTL8367B_DEBUG2_RG2_DN_SHIFT)) (Z.shiftl 7 RTL8367B_DEBUG2_RG2_DP_SHIFT))
   else if (mode =? RTL8367_EXTIF_MODE_TMII_MAC) || (mode =? RTL8367_EXTIF_MODE_TMII_PHY) then
     rtl8366_smi_rmwr RTL8367B_BYPASS_LINE_RATE_REG (BIT id) (BIT id)
   else if mode =? RTL8367_EXTIF_MODE_GMII then
     rtl8366_smi_rmwr RTL8367B_CHIP_DEBUG0_REG (RTL8367B_DEBUG0_SEL33 id) (RTL8367B_DEBUG0_SEL33 id) ;;
     rtl8366_smi_rmwr (RTL8367B_EXT_RGMXF_REG id) (BIT 6) (BIT 6)
   else if (mode =? RTL8367_EXTIF_MODE_MII_MAC) || (mode =? RTL8367_EXTIF_MODE_MII_PHY) ||
           (mode =? RTL8367_EXTIF_MODE_DISABLED) then
     rtl8366_smi_rmwr RTL8367B_BYPASS_LINE_RATE_REG (BIT id) 0 ;;
     rtl8366_smi_rmwr (RTL8367B_EXT_RGMXF_REG id) (BIT 6) 0
   else fail EINVAL) ;;
  if id <=? 1 then
    rtl8366_smi_rmwr RTL8367B_DIS_REG
      (Z.shiftl RTL8367B_DIS_RGMII_MASK (RTL8367B_DIS_RGMII_SHIFT id))
      (Z.shiftl mode (RTL8367B_DIS_RGMII_SHIFT id))
  else
    rtl8366_smi_rmwr RTL8367B_DIS2_REG
      (Z.shiftl RTL8367B_DIS2_RGMII_MASK RTL8367B_DIS2_RGMII_SHIFT)
      (Z.shiftl mode RTL8367B_DIS2_RGMII_SHIFT).

(** The value both families start from. *)
Definition rtl8367b_force_val (pa : rtl8367_port_ability) : Z :=
  Z.lor (Z.lor (Z.lor (Z.lor (Z.lor (Z.land (speed pa) RTL8367B_DI_FORCE_SPEED_MASK)
    (if cbool (nway pa) then RTL8367B_DI_FORCE_NWAY else 0))
    (if cbool (txpause pa) then RTL8367B_DI_FORCE_TXPAUSE else 0))
    (if cbool (rxpause pa) then RTL8367B_DI_FORCE_RXPAUSE else 0))
    (if cbool (link pa) then RTL8367B_DI_FORCE_LINK else 0))
    (if cbool (duplex pa) then RTL8367B_DI_FORCE_DUPLEX else 0).

Definition rtl8367b_extif_set_force (id : Z) (pa : rtl8367_port_ability) : MD unit :=
  let val := rtl8367b_force_val pa in
  s <- get_state ;;
  if family_d (chip67 s) then
    let val := Z.lor val (Z.land (u32 (Z.shiftl (speed pa) RTL8367D_PORT_STATUS_SPEED1_SHIFT))
                                 RTL8367D_PORT_STATUS_SPEED1_MASK) in
    if negb (cpu_port67 s =? UINT_MAX) then
      wr (RTL8367D_REG_MAC0_FORCE_SELECT + cpu_port67 s) val ;;
      wr (RTL8367D_REG_MAC0_FORCE_SELECT_EN + cpu_port67 s) (if cbool (force_mode pa) then 0xffff else 0x0000)
    else ret tt
  else
    let val := Z.lor val (if cbool (force_mode pa) then RTL8367B_DI_FORCE_MODE else 0) in
    let mask := Z.lor (Z.lor (Z.lor (Z.lor (Z.lor (Z.lor RTL8367B_DI_FORCE_MODE RTL8367B_DI_FORCE_NWAY)
      RTL8367B_DI_FORCE_TXPAUSE) RTL8367B_DI_FORCE_RXPAUSE) RTL8367B_DI_FORCE_LINK)
      RTL8367B_DI_FORCE_DUPLEX) RTL8367B_DI_FORCE_SPEED_MASK in
    rtl8366_smi_rmwr (RTL8367B_DI_FORCE_REG id) mask val.

Definition rtl8367b_extif_set_rgmii_delay (id txdelay rxdelay : Z) : MD unit :=
  let mask := Z.lor RTL8367B_EXT_RGMXF_RXDELAY_MASK
    (Z.shiftl RTL8367B_EXT_RGMXF_TXDELAY_MASK RTL8367B_EXT_RGMXF_TXDELAY_SHIFT) in
  let val := Z.lor rxdelay (u32 (Z.shiftl txdelay RTL8367B_EXT_RGMXF_TXDELAY_SHIFT)) in
  rtl8366_smi_rmwr (RTL8367B_EXT_RGMXF_REG id) mask val.

Definition rtl8367b_extif_init (id : Z) (cfg : option rtl8367_extif_config) : MD unit :=
  let md := match cfg with Some c => mode c | None => RTL8367_EXTIF_MODE_DISABLED end in
  rtl8367b_extif_set_mode id md ;;
  match cfg with
  | Some c =>
      if negb (md =? RTL8367_EXTIF_MODE_DISABLED) then
        rtl8367b_extif_set_force id (ability c) ;;
        rtl8367b_extif_set_rgmii_delay id (txdelay c) (rxdelay c)
      else ret tt
  | None => ret tt
  end.

(** The interface behind a CPU port, on the chips that have it. *)
Definition rtl8367b_extif_id (chip : rtl8367b_chip_t) (cpu_port : Z) : option Z :=
  if (RTL8367B_CPU_PORT_NUM <=? cpu_port) && (cpu_port <=? RTL8367B_CPU_PORT_NUM + 2) then
    match chip with
    | RTL8367B_CHIP_RTL8367R_VB => if cpu_port =? RTL8367B_CPU_PORT_NUM then Some 1 else None
    | RTL8367B_CHIP_RTL8367S_VB =>
        if negb (cpu_port =? RTL8367B_CPU_PORT_NUM) then Some (cpu_port - RTL8367B_CPU_PORT_NUM - 1) else None
    | _ => Some (cpu_port - RTL8367B_CPU_PORT_NUM)
    end
  else None.

(** [err_init]: the other interfaces are disabled, their errors dropped. *)
Definition rtl8367b_disable_others (id : Z) : MD unit :=
  (if negb (id =? 0) then unchecked tt (rtl8367b_extif_init 0 None) else ret tt) ;;
  (if negb (id =? 1) then unchecked tt (rtl8367b_extif_init 1 None) else ret tt) ;;
  (if negb (id =? 2) then unchecked tt (rtl8367b_extif_init 2 None) else ret tt).

(** [prop]: the words of the property, if the device tree has it. *)
Definition rtl8367b_extif_init_of (alloc : bool) (prop : option (list Z)) : MD unit :=
  match prop with
  | Some words =>
      match extif_config_of words with
      | Some (cpu_port, cfg) =>
          s <- get_state ;;
          match rtl8367b_extif_id (chip67 s) cpu_port with
          | Some id =>
              (if cpu_port67 s =? UINT_MAX then modify (set_cpu_port67 cpu_port) else ret tt) ;;
              if negb alloc then fail ENOMEM else
              err <- catch (rtl8367b_extif_init id (Some cfg)) ;;
              rtl8367b_disable_others id ;;
              match err with Ok _ => ret tt | Err e => fun s => (Err e, s) end
          | None => rtl8367b_disable_others UINT_MAX ;; fail EINVAL
          end
      | None => rtl8367b_disable_others UINT_MAX ;; fail EINVAL
      end
  | None => rtl8367b_disable_others UINT_MAX ;; fail EINVAL
  end.

Definition rtl8367b_setup (emu : option (list vlan_mc)) (alloc : bool) (prop : option (list Z)) : MD unit :=
  rtl8367b_init_regs emu ;;
  rtl8367b_extif_init_of alloc prop ;;
  rtl8366_smi_rmwr RTL8367B_SWC0_REG RTL8367B_SWC0_MAX_LENGTH_MASK RTL8367B_SWC0_MAX_LENGTH_1536 ;;
  wr RTL8367B_VLAN_INGRESS_REG RTL8367B_PORTS_ALL ;;
  for_each RTL8367B_NUM_PORTS (fun i =>
    rtl8366_smi_rmwr (RTL8367B_PORT_MISC_CFG_REG i)
      (Z.shiftl RTL8367B_PORT_MISC_CFG_EGRESS_MODE_MASK RTL8367B_PORT_MISC_CFG_EGRESS_MODE_SHIFT)
      (Z.shiftl RTL8367B_PORT_MISC_CFG_EGRESS_MODE_ORIGINAL RTL8367B_PORT_MISC_CFG_EGRESS_MODE_SHIFT)).

(** *** Counters *)

Definition rtl8367b_get_mib_counter (counter port : Z) : MD Z :=
  if (RTL8367B_NUM_PORTS <? port) || (RTL8367B_NUM_MIB_COUNTERS <=? counter) then fail EINVAL else
  let mib := geti (MibCounter (-1) 0 0 "") rtl8367b_mib_counters counter in
  let addr := u32 (RTL8367B_MIB_COUNTER_PORT_OFFSET * port + mib_offset mib) in
  wr RTL8367B_MIB_ADDRESS_REG (Z.shiftr addr 2) ;;
  data <- rd (RTL8367B_MIB_CTRL0_REG 0) ;;
  if cbool (Z.land data RTL8367B_MIB_CTRL0_BUSY_MASK) then fail EBUSY else
  if cbool (Z.land data RTL8367B_MIB_CTRL0_RESET_MASK) then fail EIO else
  let offset := if mib_length mib =? 4 then 3 else Z.rem (mib_offset mib + 1) 4 in
  read_window (RTL8367B_MIB_COUNTER_REG 0) offset (Z.to_nat (mib_length mib)) 0.

(** *** VLAN tables *)

Definition rtl8367b_get_vlan_4k (vid : Z) : MD vlan_4k :=
  if RTL8367B_NUM_VIDS <=? vid then fail EINVAL else
  wr RTL8367B_TA_ADDR_REG vid ;;
  wr RTL8367B_TA_CTRL_REG RTL8367B_TA_CTRL_CVLAN_READ ;;
  data <- collect RTL8367B_TA_VLAN_NUM_WORDS (fun i => rd (RTL8367B_TA_RDDATA_REG i)) ;;
  s <- get_state ;;
  ret (Vlan4k (u16 vid)
    (Z.land (Z.shiftr (geti 0 data 0) RTL8367B_TA_VLAN0_UNTAG_SHIFT) RTL8367B_TA_VLAN0_UNTAG_MASK)
    (Z.land (Z.shiftr (geti 0 data 0) RTL8367B_TA_VLAN0_MEMBER_SHIFT) RTL8367B_TA_VLAN0_MEMBER_MASK)
    (if family_d (chip67 s)
     then Z.land (Z.shiftr (geti 0 data 1) RTL8367D_TA_VLAN1_FID_SHIFT) RTL8367D_TA_VLAN1_FID_MASK
     else Z.land (Z.shiftr (geti 0 data 1) RTL8367B_TA_VLAN1_FID_SHIFT) RTL8367B_TA_VLAN1_FID_MASK)).

Definition rtl8367b_set_vlan_4k (vlan4k : vlan_4k) : MD unit :=
  s <- get_state ;;
  if (RTL8367B_NUM_VIDS <=? v4_vid vlan4k) || (RTL8367B_TA_VLAN0_MEMBER_MASK <? v4_member vlan4k) ||
     (RTL8367B_UNTAG_MASK <? v4_untag vlan4k) ||
     ((if family_d (chip67 s) then RTL8367D_FIDMAX else RTL8367B_FIDMAX) <? v4_fid vlan4k)
  then fail EINVAL else
  let data := [
    Z.lor (Z.shiftl (Z.land (v4_member vlan4k) RTL8367B_TA_VLAN0_MEMBER_MASK) RTL8367B_TA_VLAN0_MEMBER_SHIFT)
          (Z.shiftl (Z.land (v4_untag vlan4k) RTL8367B_TA_VLAN0_UNTAG_MASK) RTL8367B_TA_VLAN0_UNTAG_SHIFT);
    if family_d (chip67 s)
    then Z.lor (Z.shiftl (Z.land (v4_fid vlan4k) RTL8367D_TA_VLAN1_FID_MASK) RTL8367D_TA_VLAN1_FID_SHIFT) 12
    else Z.shiftl (Z.land (v4_fid vlan4k) RTL8367B_TA_VLAN1_FID_MASK) RTL8367B_TA_VLAN1_FID_SHIFT] in
  for_each RTL8367B_TA_VLAN_NUM_WORDS (fun i => wr (RTL8367B_TA_WRDATA_REG i) (geti 0 data i)) ;;
  (if family_d (chip67 s)
   then wr RTL8367B_TA_ADDR_REG (Z.land (v4_vid vlan4k) RTL8367D_TA_VLAN_VID_MASK)
   else wr RTL8367B_TA_ADDR_REG (Z.land (v4_vid vlan4k) RTL8367B_TA_VLAN_VID_MASK)) ;;
  wr RTL8367B_TA_CTRL_REG RTL8367B_TA_CTRL_CVLAN_WRITE.

Definition rtl8367b_get_vlan_mc (index : Z) : MD vlan_mc :=
  if RTL8367B_NUM_VLANS <=? index then fail EINVAL else
  s <- get_state ;;
  match emu_vlanmc s with
  | Some emu =>
      let e := geti (VlanMc 0 0 0 0 0) emu index in
      ret (VlanMc (mc_vid e) (mc_untag e) (mc_member e) (mc_fid e) 0)
  | None =>
      data <- collect RTL8367B_VLAN_MC_NUM_WORDS (fun i => rd (RTL8367B_VLAN_MC_BASE index + i)) ;;
      ret (VlanMc
        (Z.land (Z.shiftr (geti 0 data 3) RTL8367B_VLAN_MC3_EVID_SHIFT) RTL8367B_VLAN_MC3_EVID_MASK)
        0
        (Z.land (Z.shiftr (geti 0 data 0) RTL8367B_VLAN_MC0_MEMBER_SHIFT) RTL8367B_VLAN_MC0_MEMBER_MASK)
        (Z.land (Z.shiftr (geti 0 data 1) RTL8367B_VLAN_MC1_FID_SHIFT) RTL8367B_VLAN_MC1_FID_MASK)
        0)
  end.

Definition rtl8367b_set_vlan_mc (index : Z) (vlanmc : vlan_mc) : MD unit :=
  s <- get_state ;;
  if (RTL8367B_NUM_VLANS <=? index) || (RTL8367B_NUM_VIDS <=? mc_vid vlanmc) ||
     (RTL8367B_PRIORITYMAX <? mc_priority vlanmc) ||
     (RTL8367B_VLAN_MC0_MEMBER_MASK <? mc_member vlanmc) || (RTL8367B_UNTAG_MASK <? mc_untag vlanmc) ||
     ((if family_d (chip67 s) then RTL8367D_FIDMAX else RTL8367B_FIDMAX) <? mc_fid vlanmc)
  then fail EINVAL else
  match emu_vlanmc s with
  | Some emu =>
      let e := geti (VlanMc 0 0 0 0 0) emu index in
      modify (set_emu (Some (seti emu index
        (VlanMc (mc_vid vlanmc) (mc_untag vlanmc) (mc_member vlanmc) (mc_fid vlanmc) (mc_priority e)))))
  | None =>
      let data := [
        Z.shiftl (Z.land (mc_member vlanmc) RTL8367B_VLAN_MC0_MEMBER_MASK) RTL8367B_VLAN_MC0_MEMBER_SHIFT;
        Z.shiftl (Z.land (mc_fid vlanmc) RTL8367B_VLAN_MC1_FID_MASK) RTL8367B_VLAN_MC1_FID_SHIFT;
        0;
        Z.shiftl (Z.land (mc_vid vlanmc) RTL8367B_VLAN_MC3_EVID_MASK) RTL8367B_VLAN_MC3_EVID_SHIFT] in
      for_each RTL8367B_VLAN_MC_NUM_WORDS (fun i => wr (RTL8367B_VLAN_MC_BASE index + i) (geti 0 data i))
  end.

(** Family D keeps the PVID of a port itself; the index is looked up. *)
Definition rtl8367b_get_mc_index (port : Z) : MD Z :=
  if RTL8367B_NUM_PORTS <=? port then fail EINVAL else
  s <- get_state ;;
  if family_d (chip67 s) then
    data <- rd (RTL8367D_VLAN_PVID_CTRL_REG port) ;;
    let data := Z.land data RTL8367D_VLAN_PVID_CTRL_MASK in
    r <- search RTL8367B_NUM_VLANS (fun i =>
      vlanmc <- rtl8367b_get_vlan_mc i ;;
      if data =? mc_vid vlanmc then ret (Some i) else ret None) ;;
    match r with Some i => ret i | None => fail EINVAL end
  else
    data <- rd (RTL8367B_VLAN_PVID_CTRL_REG port) ;;
    ret (Z.land (Z.shiftr data (RTL8367B_VLAN_PVID_CTRL_SHIFT port)) RTL8367B_VLAN_PVID_CTRL_MASK).

Definition rtl8367b_set_mc_index (port index : Z) : MD unit :=
  if (RTL8367B_NUM_PORTS <=? port) || (RTL8367B_NUM_VLANS <=? index) then fail EINVAL else
  s <- get_state ;;
  if family_d (chip67 s) then
    vlanmc <- rtl8367b_get_vlan_mc index ;;
    wr (RTL8367D_VLAN_PVID_CTRL_REG port) (Z.land (mc_vid vlanmc) RTL8367D_VLAN_PVID_CTRL_MASK)
  else
    rtl8366_smi_rmwr (RTL8367B_VLAN_PVID_CTRL_REG port)
      (Z.shiftl RTL8367B_VLAN_PVID_CTRL_MASK (RTL8367B_VLAN_PVID_CTRL_SHIFT port))
      (Z.shiftl (Z.land index RTL8367B_VLAN_PVID_CTRL_MASK) (RTL8367B_VLAN_PVID_CTRL_SHIFT port)).

Definition rtl8367b_enable_vlan (enable : Z) : MD unit :=
  rtl8366_smi_rmwr RTL8367B_VLAN_CTRL_REG RTL8367B_VLAN_CTRL_ENABLE
    (if cbool enable then RTL8367B_VLAN_CTRL_ENABLE else 0).

Definition rtl8367b_enable_vlan4k (enable : Z) : MD unit := ret tt.

(** [vlan4k_enabled] is the flag of [struct rtl8366_smi]. *)
Definition rtl8367b_is_vlan_valid (vlan4k_enabled : bool) (vlan : Z) : bool :=
  let max := if vlan4k_enabled then RTL8367B_NUM_VIDS - 1 else RTL8367B_NUM_VLANS in
  negb ((vlan =? 0) || (max <=? vlan)).

Definition rtl8367b_enable_port (port enable : Z) : MD unit :=
  wr (RTL8367B_PORT_ISOLATION_REG port) (if cbool enable then RTL8367B_PORTS_ALL else 0).

(** ** swconfig attributes *)

Definition rtl8367b_sw_reset_mibs : MD unit :=
  rtl8366_smi_rmwr (RTL8367B_MIB_CTRL0_REG 0) 0 RTL8367B_MIB_CTRL0_GLOBAL_RESET_MASK.

(** [None] when the link is down.  The speed codes are the framework's. *)
Definition rtl8367b_sw_get_port_link (speed_10 speed_100 speed_1000 speed_unknown : Z) (port : Z) :
    MD (option port_link) :=
  if RTL8367B_NUM_PORTS <=? port then fail EINVAL else
  s <- get_state ;;
  data <- unchecked 0 (rd (if family_d (chip67 s) then RTL8367D_PORT_STATUS_REG port
                           else RTL8367B_PORT_STATUS_REG port)) ;;
  if negb (cbool (Z.land data RTL8367B_PORT_STATUS_LINK)) then ret None else
  let speed :=
    if family_d (chip67 s)
    then Z.lor (Z.land data RTL8367B_PORT_STATUS_SPEED_MASK)
               (Z.shiftr (Z.land data RTL8367D_PORT_STATUS_SPEED1_MASK) RTL8367D_PORT_STATUS_SPEED1_SHIFT)
    else Z.land data RTL8367B_PORT_STATUS_SPEED_MASK in
  ret (Some (PortLink
    (cbool (Z.land data RTL8367B_PORT_STATUS_DUPLEX))
    (cbool (Z.land data RTL8367B_PORT_STATUS_RXPAUSE))
    (cbool (Z.land data RTL8367B_PORT_STATUS_TXPAUSE))
    (cbool (Z.land data RTL8367B_PORT_STATUS_NWAY))
    (if speed =? RTL8367B_PORT_STATUS_SPEED_10 then speed_10
     else if speed =? RTL8367B_PORT_STATUS_SPEED_100 then speed_100
     else if speed =? RTL8367B_PORT_STATUS_SPEED_1000 then speed_1000 else speed_unknown))).

Definition rtl8367b_sw_get_max_length : MD Z :=
  data <- unchecked uninit (rd RTL8367B_SWC0_REG) ;;
  ret (Z.shiftr (Z.land data RTL8367B_SWC0_MAX_LENGTH_MASK) RTL8367B_SWC0_MAX_LENGTH_SHIFT).

Definition rtl8367b_sw_set_max_length (value : Z) : MD unit :=
  let set max_len := rtl8366_smi_rmwr RTL8367B_SWC0_REG RTL8367B_SWC0_MAX_LENGTH_MASK max_len in
  if value =? 0 then set RTL8367B_SWC0_MAX_LENGTH_1522 else
  if value =? 1 then set RTL8367B_SWC0_MAX_LENGTH_1536 else
  if value =? 2 then set RTL8367B_SWC0_MAX_LENGTH_1552 else
  if value =? 3 then set RTL8367B_SWC0_MAX_LENGTH_16000 else fail EINVAL.

Definition rtl8367b_sw_reset_port_mibs (port : Z) : MD unit :=
  if RTL8367B_NUM_PORTS <=? port then fail EINVAL else
  rtl8366_smi_rmwr (RTL8367B_MIB_CTRL0_REG (Z.quot port 8)) 0
    (RTL8367B_MIB_CTRL0_PORT_RESET_MASK (Z.rem port 8)).

(** ** The PHY bus *)

Definition rtl8367b_mii_read (addr reg : Z) : MD Z :=
  val <- catch (rtl8367b_read_phy_reg (u32 addr) (u32 reg)) ;;
  ret (match val with Ok v => s32 v | Err _ => 0xffff end).

(** The read flushes the write; its result is dropped. *)
Definition rtl8367b_mii_write (addr reg val : Z) : MD unit :=
  rtl8367b_write_phy_reg (u32 addr) (u32 reg) (u16 val) ;;
  r <- catch (rtl8367b_read_phy_reg (u32 addr) (u32 reg)) ;;
  ret tt.

(** ** Detection *)

(** The chip a version and a number stand for. *)
Definition rtl8367b_chip_of (chip_num chip_ver : Z) : option rtl8367b_chip_t :=
  if chip_ver =? 0x0010 then if chip_num =? 0x6642 then Some RTL8367B_CHIP_RTL8367S_VB else None else
  if chip_ver =? 0x0020 then if chip_num =? 0x6367 then Some RTL8367B_CHIP_RTL8367RB_VB else None else
  if chip_ver =? 0x00A0 then if chip_num =? 0x6367 then Some RTL8367B_CHIP_RTL8367S else None else
  if chip_ver =? 0x1000 then Some RTL8367B_CHIP_RTL8367RB else
  if chip_ver =? 0x1010 then Some RTL8367B_CHIP_RTL8367R_VB else None.

Definition rtl8367b_detect : MD unit :=
  modify (set_emu None) ;;
  modify (set_chip67 RTL8367B_CHIP_UNKNOWN) ;;
  unchecked tt (wr RTL8367B_RTL_MAGIC_ID_REG RTL8367B_RTL_MAGIC_ID_VAL) ;;
  chip_num <- rd RTL8367B_CHIP_NUMBER_REG ;;
  chip_ver <- rd RTL8367B_CHIP_VER_REG ;;
  match rtl8367b_chip_of chip_num chip_ver with
  | Some c => modify (set_chip67 c)
  | None => fail ENODEV
  end.
End Driver.

(** ** The operations table, [rtl8367b_smi_ops] and [rtl8367b_probe] *)

(** [cpu]: [smi->cpu_port] as [rtl8367b_setup] leaves it. *)
Definition rtl8367b_smi_ops {W} {B : RegBus W} (cpu : Z) : SmiOps (smi67 W) := {|
  cpu_port := cpu;
  num_ports := RTL8367B_NUM_PORTS;
  num_vlan_mc := RTL8367B_NUM_VLANS;
  get_vlan_mc := rtl8367b_get_vlan_mc;
  set_vlan_mc := rtl8367b_set_vlan_mc;
  get_vlan_4k := rtl8367b_get_vlan_4k;
  set_vlan_4k := rtl8367b_set_vlan_4k;
  get_mc_index := rtl8367b_get_mc_index;
  set_mc_index := rtl8367b_set_mc_index;
  is_vlan_valid := rtl8367b_is_vlan_valid;
  enable_vlan := rtl8367b_enable_vlan;
  enable_vlan4k := rtl8367b_enable_vlan4k;
  enable_port := rtl8367b_enable_port
|}.

(** The board: its reset line, if any, and its device tree. *)
Definition rtl8367b_chip_ops {W} {B : RegBus W} (reset : option (bool -> M (smi67 W) unit))
    (emu : option (list vlan_mc)) (alloc : bool) (prop : option (list Z)) : ChipOps (smi67 W) := {|
  hw_reset := reset;
  detect := rtl8367b_detect;
  reset_chip := rtl8367b_reset_chip;
  setup := rtl8367b_setup emu alloc prop;
  get_mib_counter := rtl8367b_get_mib_counter
|}.

(** The parameters [rtl8367b_probe] puts into [struct rtl8366_smi]. *)
Definition rtl8367b_clk_delay : Z := 1500.
Definition rtl8367b_cmd_read : Z := 0xb9.
Definition rtl8367b_cmd_write : Z := 0xb8.
Definition rtl8367b_probed {W} (w : W) : smi67 W := Smi67 w UINT_MAX RTL8367B_CHIP_UNKNOWN None.

Definition rtl8367b_sw_get_port_stats {W} {B : RegBus W} cpu reset emu alloc prop (port : Z) :
    M (smi (smi67 W)) (Z * Z) :=
  @rtl8366_sw_get_port_stats (smi67 W) (rtl8367b_smi_ops cpu) (rtl8367b_chip_ops reset emu alloc prop)
    port RTL8367B_MIB_TXB_ID RTL8367B_MIB_RXB_ID.
