(* ===== verification/Rtl8367.v ===== *)
(** * The RTL8367R and RTL8367M: [rtl8367.c]

    The chip driver of the RTL8367: the register map as far as the driver
    uses it, the initialisation tables and the choice between them, set-up
    with the external interfaces and the LEDs, PHY access, counters, the VLAN
    operations and the swconfig attributes. *)

From S2P Require Import Prelude CMonad SmiCore Regs Smi67.

(** ** Register map *)

Definition RTL8367_PHY_ADDR_MAX : Z := 8.
Definition RTL8367_PHY_REG_MAX : Z := 31.
Definition RTL8367_VID_MASK : Z := 0xffff.
Definition RTL8367_FID_MASK : Z := 0xfff.
Definition RTL8367_UNTAG_MASK : Z := 0xffff.
Definition RTL8367_MEMBER_MASK : Z := 0xffff.
Definition RTL8367_PORT_CFG_REG (p : Z) : Z := 0x000e + (0x20 * p).
Definition RTL8367_PORT_CFG_EGRESS_MODE_SHIFT : Z := 4.
Definition RTL8367_PORT_CFG_EGRESS_MODE_MASK : Z := 0x3.
Definition RTL8367_PORT_CFG_EGRESS_MODE_ORIGINAL : Z := 0.
Definition RTL8367_BYPASS_LINE_RATE_REG : Z := 0x03f7.
Definition RTL8367_TA_CTRL_REG : Z := 0x0500.
Definition RTL8367_TA_CTRL_CMD_SHIFT : Z := 4.
Definition RTL8367_TA_CTRL_CMD_READ : Z := 0.
Definition RTL8367_TA_CTRL_CMD_WRITE : Z := 1.
Definition RTL8367_TA_CTRL_TABLE_CVLAN : Z := 3.
Definition RTL8367_TA_CTRL_CVLAN_READ : Z :=
  Z.lor (Z.shiftl RTL8367_TA_CTRL_CMD_READ RTL8367_TA_CTRL_CMD_SHIFT) RTL8367_TA_CTRL_TABLE_CVLAN.
Definition RTL8367_TA_CTRL_CVLAN_WRITE : Z :=
  Z.lor (Z.shiftl RTL8367_TA_CTRL_CMD_WRITE RTL8367_TA_CTRL_CMD_SHIFT) RTL8367_TA_CTRL_TABLE_CVLAN.
Definition RTL8367_TA_ADDR_REG : Z := 0x0501.
Definition RTL8367_TA_DATA_REG (x : Z) : Z := 0x0503 + x.
Definition RTL8367_TA_VLAN_DATA_SIZE : Z := 4.
Definition RTL8367_TA_VLAN_VID_MASK : Z := RTL8367_VID_MASK.
Definition RTL8367_TA_VLAN_MEMBER_SHIFT : Z := 0.
Definition RTL8367_TA_VLAN_MEMBER_MASK : Z := RTL8367_MEMBER_MASK.
Definition RTL8367_TA_VLAN_FID_SHIFT : Z := 0.
Definition RTL8367_TA_VLAN_FID_MASK : Z := RTL8367_FID_MASK.
Definition RTL8367_TA_VLAN_UNTAG1_SHIFT : Z := 14.
Definition RTL8367_TA_VLAN_UNTAG1_MASK : Z := 0x3.
Definition RTL8367_TA_VLAN_UNTAG2_SHIFT : Z := 0.
Definition RTL8367_TA_VLAN_UNTAG2_MASK : Z := 0x3fff.
Definition RTL8367_VLAN_PVID_CTRL_REG (p : Z) : Z := 0x0700 + (Z.quot p 2).
Definition RTL8367_VLAN_PVID_CTRL_MASK : Z := 0x1f.
Definition RTL8367_VLAN_PVID_CTRL_SHIFT (p : Z) : Z := 8 * (Z.rem p 2).
Definition RTL8367_VLAN_MC_BASE (x : Z) : Z := 0x0728 + (x * 4).
Definition RTL8367_VLAN_MC_DATA_SIZE : Z := 4.
Definition RTL8367_VLAN_MC_MEMBER_SHIFT : Z := 0.
Definition RTL8367_VLAN_MC_MEMBER_MASK : Z := RTL8367_MEMBER_MASK.
Definition RTL8367_VLAN_MC_FID_SHIFT : Z := 0.
Definition RTL8367_VLAN_MC_FID_MASK : Z := RTL8367_FID_MASK.
Definition RTL8367_VLAN_MC_EVID_SHIFT : Z := 0.
Definition RTL8367_VLAN_MC_EVID_MASK : Z := RTL8367_VID_MASK.
Definition RTL8367_VLAN_CTRL_REG : Z := 0x07a8.
Definition RTL8367_VLAN_CTRL_ENABLE : Z := BIT 0.
Definition RTL8367_VLAN_INGRESS_REG : Z := 0x07a9.
Definition RTL8367_PORT_ISOLATION_REG (p : Z) : Z := 0x08a2 + p.
Definition RTL8367_MIB_COUNTER_REG (x : Z) : Z := 0x1000 + x.
Definition RTL8367_MIB_ADDRESS_REG : Z := 0x1004.
Definition RTL8367_MIB_CTRL_REG (x : Z) : Z := 0x1005 + x.
Definition RTL8367_MIB_CTRL_GLOBAL_RESET_MASK : Z := BIT 11.
Definition RTL8367_MIB_CTRL_PORT_RESET_MASK (p : Z) : Z := BIT (2 + p).
Definition RTL8367_MIB_CTRL_RESET_MASK : Z := BIT 1.
Definition RTL8367_MIB_CTRL_BUSY_MASK : Z := BIT 0.
Definition RTL8367_MIB_COUNT : Z := 36.
Definition RTL8367_MIB_COUNTER_PORT_OFFSET : Z := 0x0050.
Definition RTL8367_SWC0_REG : Z := 0x1200.
Definition RTL8367_SWC0_MAX_LENGTH_SHIFT : Z := 13.
Definition RTL8367_SWC0_MAX_LENGTH (x : Z) : Z := Z.shiftl x 13.
Definition RTL8367_SWC0_MAX_LENGTH_MASK : Z := RTL8367_SWC0_MAX_LENGTH 0x3.
Definition RTL8367_SWC0_MAX_LENGTH_1522 : Z := RTL8367_SWC0_MAX_LENGTH 0.
Definition RTL8367_SWC0_MAX_LENGTH_1536 : Z := RTL8367_SWC0_MAX_LENGTH 1.
Definition RTL8367_SWC0_MAX_LENGTH_1552 : Z := RTL8367_SWC0_MAX_LENGTH 2.
Definition RTL8367_SWC0_MAX_LENGTH_16000 : Z := RTL8367_SWC0_MAX_LENGTH 3.
Definition RTL8367_CHIP_VER_REG : Z := 0x1301.
Definition RTL8367_CHIP_VER_RLVID_SHIFT : Z := 12.
Definition RTL8367_CHIP_VER_RLVID_MASK : Z := 0xf.
Definition RTL8367_CHIP_MODE_REG : Z := 0x1302.
Definition RTL8367_CHIP_MODE_MASK : Z := 0x7.
Definition RTL8367_CHIP_DEBUG0_REG : Z := 0x1303.
Definition RTL8367_CHIP_DEBUG0_DUMMY0 (x : Z) : Z := BIT (8 + x).
Definition RTL8367_CHIP_DEBUG1_REG : Z := 0x1304.
Definition RTL8367_DIS_REG : Z := 0x1305.
Definition RTL8367_DIS_RGMII_SHIFT (x : Z) : Z := 4 * x.
Definition RTL8367_DIS_RGMII_MASK : Z := 0x7.
Definition RTL8367_EXT_RGMXF_REG (x : Z) : Z := 0x1306 + x.
Definition RTL8367_EXT_RGMXF_TXDELAY_SHIFT : Z := 3.
Definition RTL8367_EXT_RGMXF_TXDELAY_MASK : Z := 1.
Definition RTL8367_EXT_RGMXF_RXDELAY_MASK : Z := 0x7.
Definition RTL8367_DI_FORCE_REG (x : Z) : Z := 0x1310 + x.
Definition RTL8367_DI_FORCE_MODE : Z := BIT 12.
Definition RTL8367_DI_FORCE_NWAY : Z := BIT 7.
Definition RTL8367_DI_FORCE_TXPAUSE : Z := BIT 6.
Definition RTL8367_DI_FORCE_RXPAUSE : Z := BIT 5.
Definition RTL8367_DI_FORCE_LINK : Z := BIT 4.
Definition RTL8367_DI_FORCE_DUPLEX : Z := BIT 2.
Definition RTL8367_DI_FORCE_SPEED_MASK : Z := 3.
Definition RTL8367_CHIP_RESET_REG : Z := 0x1322.
Definition RTL8367_CHIP_RESET_HW : Z := BIT 0.
Definition RTL8367_PORT_STATUS_REG (p : Z) : Z := 0x1352 + p.
Definition RTL8367_PORT_STATUS_NWAY : Z := BIT 7.
Definition RTL8367_PORT_STATUS_TXPAUSE : Z := BIT 6.
Definition RTL8367_PORT_STATUS_RXPAUSE : Z := BIT 5.
Definition RTL8367_PORT_STATUS_LINK : Z := BIT 4.
Definition RTL8367_PORT_STATUS_DUPLEX : Z := BIT 2.
Definition RTL8367_PORT_STATUS_SPEED_MASK : Z := 0x0003.
Definition RTL8367_RTL_NO_REG : Z := 0x13c0.
Definition RTL8367_RTL_NO_8367R : Z := 0x3670.
Definition RTL8367_RTL_NO_8367M : Z := 0x3671.
Definition RTL8367_RTL_VER_REG : Z := 0x13c1.
Definition RTL8367_RTL_MAGIC_ID_REG : Z := 0x13c2.
Definition RTL8367_RTL_MAGIC_ID_VAL : Z := 0x0249.
Definition RTL8367_LED_SYS_CONFIG_REG : Z := 0x1b00.
Definition RTL8367_LED_MODE_REG : Z := 0x1b02.
Definition RTL8367_LED_MODE_RATE_M : Z := 0x7.
Definition RTL8367_LED_MODE_RATE_S : Z := 1.
Definition RTL8367_LED_CONFIG_REG : Z := 0x1b03.
Definition RTL8367_LED_CONFIG_DATA_S : Z := 12.
Definition RTL8367_LED_CONFIG_DATA_M : Z := 0x3.
Definition RTL8367_LED_CONFIG_SEL : Z := BIT 14.
Definition RTL8367_LED_CONFIG_LED_CFG_M : Z := 0xf.
Definition RTL8367_PARA_LED_IO_EN1_REG : Z := 0x1b24.
Definition RTL8367_PARA_LED_IO_EN_PMASK : Z := 0xff.
Definition RTL8367_IA_CTRL_REG : Z := 0x1f00.
Definition RTL8367_IA_CTRL_RW (x : Z) : Z := Z.shiftl x 1.
Definition RTL8367_IA_CTRL_RW_READ : Z := RTL8367_IA_CTRL_RW 0.
Definition RTL8367_IA_CTRL_RW_WRITE : Z := RTL8367_IA_CTRL_RW 1.
Definition RTL8367_IA_CTRL_CMD_MASK : Z := BIT 0.
Definition RTL8367_IA_STATUS_REG : Z := 0x1f01.
Definition RTL8367_IA_STATUS_PHY_BUSY : Z := BIT 2.
Definition RTL8367_IA_ADDRESS_REG : Z := 0x1f02.
Definition RTL8367_IA_WRITE_DATA_REG : Z := 0x1f03.
Definition RTL8367_IA_READ_DATA_REG : Z := 0x1f04.
Definition RTL8367_INTERNAL_PHY_REG (a : Z) (r : Z) : Z := (0x2000 + (32 * a)) + r.
Definition RTL8367_CPU_PORT_NUM : Z := 9.
Definition RTL8367_NUM_PORTS : Z := 10.
Definition RTL8367_NUM_VLANS : Z := 32.
Definition RTL8367_NUM_VIDS : Z := 4096.
Definition RTL8367_PRIORITYMAX : Z := 7.
Definition RTL8367_FIDMAX : Z := 7.
Definition RTL8367_PORT_0 : Z := BIT 0.
Definition RTL8367_PORT_1 : Z := BIT 1.
Definition RTL8367_PORT_2 : Z := BIT 2.
Definition RTL8367_PORT_3 : Z := BIT 3.
Definition RTL8367_PORT_4 : Z := BIT 4.
Definition RTL8367_PORT_5 : Z := BIT 5.
Definition RTL8367_PORT_6 : Z := BIT 6.
Definition RTL8367_PORT_7 : Z := BIT 7.
Definition RTL8367_PORT_E1 : Z := BIT 8.
Definition RTL8367_PORT_E0 : Z := BIT 9.
Definition RTL8367_PORTS_ALL : Z :=
  Z.lor (Z.lor (Z.lor (Z.lor (Z.lor (Z.lor (Z.lor (Z.lor (Z.lor RTL8367_PORT_0 RTL8367_PORT_1) RTL8367_PORT_2)
    RTL8367_PORT_3) RTL8367_PORT_4) RTL8367_PORT_5) RTL8367_PORT_6) RTL8367_PORT_7) RTL8367_PORT_E1)
    RTL8367_PORT_E0.
Definition RTL8367_MIB_RXB_ID : Z := 0.
Definition RTL8367_MIB_TXB_ID : Z := 20.

(** ** Counters *)

Definition rtl8367_mib_counters : list rtl8366_mib_counter := [
  MibCounter 0 0 4 "IfInOctets";
  MibCounter 0 4 2 "Dot3StatsFCSErrors";
  MibCounter 0 6 2 "Dot3StatsSymbolErrors";
  MibCounter 0 8 2 "Dot3InPauseFrames";
  MibCounter 0 10 2 "Dot3ControlInUnknownOpcodes";
  MibCounter 0 12 2 "EtherStatsFragments";
  MibCounter 0 14 2 "EtherStatsJabbers";
  MibCounter 0 16 2 "IfInUcastPkts";
  MibCounter 0 18 2 "EtherStatsDropEvents";
  MibCounter 0 20 4 "EtherStatsOctets";
  MibCounter 0 24 2 "EtherStatsUnderSizePkts";
  MibCounter 0 26 2 "EtherOversizeStats";
  MibCounter 0 28 2 "EtherStatsPkts64Octets";
  MibCounter 0 30 2 "EtherStatsPkts65to127Octets";
  MibCounter 0 32 2 "EtherStatsPkts128to255Octets";
  MibCounter 0 34 2 "EtherStatsPkts256to511Octets";
  MibCounter 0 36 2 "EtherStatsPkts512to1023Octets";
  MibCounter 0 38 2 "EtherStatsPkts1024to1518Octets";
  MibCounter 0 40 2 "EtherStatsMulticastPkts";
  MibCounter 0 42 2 "EtherStatsBroadcastPkts";
  MibCounter 0 44 4 "IfOutOctets";
  MibCounter 0 48 2 "Dot3StatsSingleCollisionFrames";
  MibCounter 0 50 2 "Dot3StatMultipleCollisionFrames";
  MibCounter 0 52 2 "Dot3sDeferredTransmissions";
  MibCounter 0 54 2 "Dot3StatsLateCollisions";
  MibCounter 0 56 2 "EtherStatsCollisions";
  MibCounter 0 58 2 "Dot3StatsExcessiveCollisions";
  MibCounter 0 60 2 "Dot3OutPauseFrames";
  MibCounter 0 62 2 "Dot1dBasePortDelayExceededDiscards";
  MibCounter 0 64 2 "Dot1dTpPortInDiscards";
  MibCounter 0 66 2 "IfOutUcastPkts";
  MibCounter 0 68 2 "IfOutMulticastPkts";
  MibCounter 0 70 2 "IfOutBroadcastPkts";
  MibCounter 0 72 2 "OutOampduPkts";
  MibCounter 0 74 2 "InOampduPkts";
  MibCounter 0 76 2 "PktgenPkts"].

(** ** Initialisation tables *)

Definition rtl8367_initvals_0_0 : list (Z * Z) := [
  (0x133f, 0x0030); (0x133e, 0x000e); (0x221f, 0x0000); (0x2215, 0x1006); (0x221f, 0x0005); (0x2200, 0x00c6);
  (0x221f, 0x0007); (0x221e, 0x0048); (0x2215, 0x6412); (0x2216, 0x6412); (0x2217, 0x6412); (0x2218, 0x6412);
  (0x2219, 0x6412); (0x221a, 0x6412); (0x221f, 0x0001); (0x220c, 0xdbf0); (0x2209, 0x2576); (0x2207, 0x287e);
  (0x220a, 0x68e5); (0x221d, 0x3da4); (0x221c, 0xe7f7); (0x2214, 0x7f52); (0x2218, 0x7fce); (0x2208, 0x04b7);
  (0x2206, 0x4072); (0x2210, 0xf05e); (0x221b, 0xb414); (0x221f, 0x0003); (0x221a, 0x06a6); (0x2210, 0xf05e);
  (0x2213, 0x06eb); (0x2212, 0xf4d2); (0x220e, 0xe120); (0x2200, 0x7c00); (0x2202, 0x5fd0); (0x220d, 0x0207);
  (0x221f, 0x0002); (0x2205, 0x0978); (0x2202, 0x8c01); (0x2207, 0x3620); (0x221c, 0x0001); (0x2203, 0x0420);
  (0x2204, 0x80c8); (0x133e, 0x0ede); (0x221f, 0x0002); (0x220c, 0x0073); (0x220d, 0xeb65); (0x220e, 0x51d1);
  (0x220f, 0x5dcb); (0x2210, 0x3044); (0x2211, 0x1800); (0x2212, 0x7e00); (0x2213, 0x0000); (0x133f, 0x0010);
  (0x133e, 0x0ffe); (0x207f, 0x0002); (0x2074, 0x3d22); (0x2075, 0x2000); (0x2076, 0x6040); (0x2077, 0x0000);
  (0x2078, 0x0f0a); (0x2079, 0x50ab); (0x207a, 0x0000); (0x207b, 0x0f0f); (0x205f, 0x0002); (0x2054, 0xff00);
  (0x2055, 0x000a); (0x2056, 0x000a); (0x2057, 0x0005); (0x2058, 0x0005); (0x2059, 0x0000); (0x205a, 0x0005);
  (0x205b, 0x0005); (0x205c, 0x0005); (0x209f, 0x0002); (0x2094, 0x00aa); (0x2095, 0x00aa); (0x2096, 0x00aa);
  (0x2097, 0x00aa); (0x2098, 0x0055); (0x2099, 0x00aa); (0x209a, 0x00aa); (0x209b, 0x00aa); (0x1363, 0x8354);
  (0x1270, 0x3333); (0x1271, 0x3333); (0x1272, 0x3333); (0x1330, 0x00db); (0x1203, 0xff00); (0x1200, 0x7fc4);
  (0x121d, 0x1006); (0x121e, 0x03e8); (0x121f, 0x02b3); (0x1220, 0x028f); (0x1221, 0x029b); (0x1222, 0x0277);
  (0x1223, 0x02b3); (0x1224, 0x028f); (0x1225, 0x029b); (0x1226, 0x0277); (0x1227, 0x00c0); (0x1228, 0x00b4);
  (0x122f, 0x00c0); (0x1230, 0x00b4); (0x1229, 0x0020); (0x122a, 0x000c); (0x1231, 0x0030); (0x1232, 0x0024);
  (0x0219, 0x0032); (0x0200, 0x03e8); (0x0201, 0x03e8); (0x0202, 0x03e8); (0x0203, 0x03e8); (0x0204, 0x03e8);
  (0x0205, 0x03e8); (0x0206, 0x03e8); (0x0207, 0x03e8); (0x0218, 0x0032); (0x0208, 0x029b); (0x0209, 0x029b);
  (0x020a, 0x029b); (0x020b, 0x029b); (0x020c, 0x029b); (0x020d, 0x029b); (0x020e, 0x029b); (0x020f, 0x029b);
  (0x0210, 0x029b); (0x0211, 0x029b); (0x0212, 0x029b); (0x0213, 0x029b); (0x0214, 0x029b); (0x0215, 0x029b);
  (0x0216, 0x029b); (0x0217, 0x029b); (0x0900, 0x0000); (0x0901, 0x0000); (0x0902, 0x0000); (0x0903, 0x0000);
  (0x0865, 0x3210); (0x087b, 0x0000); (0x087c, 0xff00); (0x087d, 0x0000); (0x087e, 0x0000); (0x0801, 0x0100);
  (0x0802, 0x0100); (0x1700, 0x014c); (0x0301, 0x00ff); (0x12aa, 0x0096); (0x133f, 0x0030); (0x133e, 0x000e);
  (0x221f, 0x0005); (0x2200, 0x00c4); (0x221f, 0x0000); (0x2210, 0x05ef); (0x2204, 0x05e1); (0x2200, 0x1340);
  (0x133f, 0x0010); (0x20a0, 0x1940); (0x20c0, 0x1940); (0x20e0, 0x1940)].

Definition rtl8367_initvals_0_1 : list (Z * Z) := [
  (0x133f, 0x0030); (0x133e, 0x000e); (0x221f, 0x0000); (0x2215, 0x1006); (0x221f, 0x0005); (0x2200, 0x00c6);
  (0x221f, 0x0007); (0x221e, 0x0048); (0x2215, 0x6412); (0x2216, 0x6412); (0x2217, 0x6412); (0x2218, 0x6412);
  (0x2219, 0x6412); (0x221a, 0x6412); (0x221f, 0x0001); (0x220c, 0xdbf0); (0x2209, 0x2576); (0x2207, 0x287e);
  (0x220a, 0x68e5); (0x221d, 0x3da4); (0x221c, 0xe7f7); (0x2214, 0x7f52); (0x2218, 0x7fce); (0x2208, 0x04b7);
  (0x2206, 0x4072); (0x2210, 0xf05e); (0x221b, 0xb414); (0x221f, 0x0003); (0x221a, 0x06a6); (0x2210, 0xf05e);
  (0x2213, 0x06eb); (0x2212, 0xf4d2); (0x220e, 0xe120); (0x2200, 0x7c00); (0x2202, 0x5fd0); (0x220d, 0x0207);
  (0x221f, 0x0002); (0x2205, 0x0978); (0x2202, 0x8c01); (0x2207, 0x3620); (0x221c, 0x0001); (0x2203, 0x0420);
  (0x2204, 0x80c8); (0x133e, 0x0ede); (0x221f, 0x0002); (0x220c, 0x0073); (0x220d, 0xeb65); (0x220e, 0x51d1);
  (0x220f, 0x5dcb); (0x2210, 0x3044); (0x2211, 0x1800); (0x2212, 0x7e00); (0x2213, 0x0000); (0x133f, 0x0010);
  (0x133e, 0x0ffe); (0x207f, 0x0002); (0x2074, 0x3d22); (0x2075, 0x2000); (0x2076, 0x6040); (0x2077, 0x0000);
  (0x2078, 0x0f0a); (0x2079, 0x50ab); (0x207a, 0x0000); (0x207b, 0x0f0f); (0x205f, 0x0002); (0x2054, 0xff00);
  (0x2055, 0x000a); (0x2056, 0x000a); (0x2057, 0x0005); (0x2058, 0x0005); (0x2059, 0x0000); (0x205a, 0x0005);
  (0x205b, 0x0005); (0x205c, 0x0005); (0x209f, 0x0002); (0x2094, 0x00aa); (0x2095, 0x00aa); (0x2096, 0x00aa);
  (0x2097, 0x00aa); (0x2098, 0x0055); (0x2099, 0x00aa); (0x209a, 0x00aa); (0x209b, 0x00aa); (0x1363, 0x8354);
  (0x1270, 0x3333); (0x1271, 0x3333); (0x1272, 0x3333); (0x1330, 0x00db); (0x1203, 0xff00); (0x1200, 0x7fc4);
  (0x121d, 0x1b06); (0x121e, 0x07f0); (0x121f, 0x0438); (0x1220, 0x040f); (0x1221, 0x040f); (0x1222, 0x03eb);
  (0x1223, 0x0438); (0x1224, 0x040f); (0x1225, 0x040f); (0x1226, 0x03eb); (0x1227, 0x0144); (0x1228, 0x0138);
  (0x122f, 0x0144); (0x1230, 0x0138); (0x1229, 0x0020); (0x122a, 0x000c); (0x1231, 0x0030); (0x1232, 0x0024);
  (0x0219, 0x0032); (0x0200, 0x07d0); (0x0201, 0x07d0); (0x0202, 0x07d0); (0x0203, 0x07d0); (0x0204, 0x07d0);
  (0x0205, 0x07d0); (0x0206, 0x07d0); (0x0207, 0x07d0); (0x0218, 0x0032); (0x0208, 0x0190); (0x0209, 0x0190);
  (0x020a, 0x0190); (0x020b, 0x0190); (0x020c, 0x0190); (0x020d, 0x0190); (0x020e, 0x0190); (0x020f, 0x0190);
  (0x0210, 0x0190); (0x0211, 0x0190); (0x0212, 0x0190); (0x0213, 0x0190); (0x0214, 0x0190); (0x0215, 0x0190);
  (0x0216, 0x0190); (0x0217, 0x0190); (0x0900, 0x0000); (0x0901, 0x0000); (0x0902, 0x0000); (0x0903, 0x0000);
  (0x0865, 0x3210); (0x087b, 0x0000); (0x087c, 0xff00); (0x087d, 0x0000); (0x087e, 0x0000); (0x0801, 0x0100);
  (0x0802, 0x0100); (0x1700, 0x0125); (0x0301, 0x00ff); (0x12aa, 0x0096); (0x133f, 0x0030); (0x133e, 0x000e);
  (0x221f, 0x0005); (0x2200, 0x00c4); (0x221f, 0x0000); (0x2210, 0x05ef); (0x2204, 0x05e1); (0x2200, 0x1340);
  (0x133f, 0x0010)].

Definition rtl8367_initvals_1_0 : list (Z * Z) := [
  (0x1b24, 0x0000); (0x1b25, 0x0000); (0x1b26, 0x0000); (0x1b27, 0x0000); (0x207f, 0x0002); (0x2079, 0x0200);
  (0x207f, 0x0000); (0x133f, 0x0030); (0x133e, 0x000e); (0x221f, 0x0005); (0x2201, 0x0700); (0x2205, 0x8b82);
  (0x2206, 0x05cb); (0x221f, 0x0002); (0x2204, 0x80c2); (0x2205, 0x0938); (0x221f, 0x0003); (0x2212, 0xc4d2);
  (0x220d, 0x0207); (0x221f, 0x0001); (0x2207, 0x267e); (0x221c, 0xe5f7); (0x221b, 0x0424); (0x221f, 0x0007);
  (0x221e, 0x0040); (0x2218, 0x0000); (0x221f, 0x0007); (0x221e, 0x002c); (0x2218, 0x008b); (0x221f, 0x0005);
  (0x2205, 0xfff6); (0x2206, 0x0080); (0x2205, 0x8000); (0x2206, 0xf8e0); (0x2206, 0xe000); (0x2206, 0xe1e0);
  (0x2206, 0x01ac); (0x2206, 0x2408); (0x2206, 0xe08b); (0x2206, 0x84f7); (0x2206, 0x20e4); (0x2206, 0x8b84);
  (0x2206, 0xfc05); (0x2206, 0xf8fa); (0x2206, 0xef69); (0x2206, 0xe08b); (0x2206, 0x86ac); (0x2206, 0x201a);
  (0x2206, 0xbf80); (0x2206, 0x59d0); (0x2206, 0x2402); (0x2206, 0x803d); (0x2206, 0xe0e0); (0x2206, 0xe4e1);
  (0x2206, 0xe0e5); (0x2206, 0x5806); (0x2206, 0x68c0); (0x2206, 0xd1d2); (0x2206, 0xe4e0); (0x2206, 0xe4e5);
  (0x2206, 0xe0e5); (0x2206, 0xef96); (0x2206, 0xfefc); (0x2206, 0x05fb); (0x2206, 0x0bfb); (0x2206, 0x58ff);
  (0x2206, 0x9e11); (0x2206, 0x06f0); (0x2206, 0x0c81); (0x2206, 0x8ae0); (0x2206, 0x0019); (0x2206, 0x1b89);
  (0x2206, 0xcfeb); (0x2206, 0x19eb); (0x2206, 0x19b0); (0x2206, 0xefff); (0x2206, 0x0bff); (0x2206, 0x0425);
  (0x2206, 0x0807); (0x2206, 0x2640); (0x2206, 0x7227); (0x2206, 0x267e); (0x2206, 0x2804); (0x2206, 0xb729);
  (0x2206, 0x2576); (0x2206, 0x2a68); (0x2206, 0xe52b); (0x2206, 0xad00); (0x2206, 0x2cdb); (0x2206, 0xf02d);
  (0x2206, 0x67bb); (0x2206, 0x2e7b); (0x2206, 0x0f2f); (0x2206, 0x7365); (0x2206, 0x31ac); (0x2206, 0xcc32);
  (0x2206, 0x2300); (0x2206, 0x332d); (0x2206, 0x1734); (0x2206, 0x7f52); (0x2206, 0x3510); (0x2206, 0x0036);
  (0x2206, 0x0600); (0x2206, 0x370c); (0x2206, 0xc038); (0x2206, 0x7fce); (0x2206, 0x3ce5); (0x2206, 0xf73d);
  (0x2206, 0x3da4); (0x2206, 0x6530); (0x2206, 0x3e67); (0x2206, 0x0053); (0x2206, 0x69d2); (0x2206, 0x0f6a);
  (0x2206, 0x012c); (0x2206, 0x6c2b); (0x2206, 0x136e); (0x2206, 0xe100); (0x2206, 0x6f12); (0x2206, 0xf771);
  (0x2206, 0x006b); (0x2206, 0x7306); (0x2206, 0xeb74); (0x2206, 0x94c7); (0x2206, 0x7698); (0x2206, 0x0a77);
  (0x2206, 0x5000); (0x2206, 0x788a); (0x2206, 0x1579); (0x2206, 0x7f6f); (0x2206, 0x7a06); (0x2206, 0xa600);
  (0x2205, 0x8b90); (0x2206, 0x8000); (0x2205, 0x8b92); (0x2206, 0x8000); (0x2205, 0x8b94); (0x2206, 0x8014);
  (0x2208, 0xfffa); (0x2202, 0x3c65); (0x2205, 0xfff6); (0x2206, 0x00f7); (0x221f, 0x0000); (0x221f, 0x0007);
  (0x221e, 0x0042); (0x2218, 0x0000); (0x221e, 0x002d); (0x2218, 0xf010); (0x221e, 0x0020); (0x2215, 0x0000);
  (0x221e, 0x0023); (0x2216, 0x8000); (0x221f, 0x0000); (0x133f, 0x0010); (0x133e, 0x0ffe); (0x1362, 0x0115);
  (0x1363, 0x0002); (0x1363, 0x0000); (0x1306, 0x000c); (0x1307, 0x000c); (0x1303, 0x0067); (0x1304, 0x4444);
  (0x1203, 0xff00); (0x1200, 0x7fc4); (0x121d, 0x7d16); (0x121e, 0x03e8); (0x121f, 0x024e); (0x1220, 0x0230);
  (0x1221, 0x0244); (0x1222, 0x0226); (0x1223, 0x024e); (0x1224, 0x0230); (0x1225, 0x0244); (0x1226, 0x0226);
  (0x1227, 0x00c0); (0x1228, 0x00b4); (0x122f, 0x00c0); (0x1230, 0x00b4); (0x0208, 0x03e8); (0x0209, 0x03e8);
  (0x020a, 0x03e8); (0x020b, 0x03e8); (0x020c, 0x03e8); (0x020d, 0x03e8); (0x020e, 0x03e8); (0x020f, 0x03e8);
  (0x0210, 0x03e8); (0x0211, 0x03e8); (0x0212, 0x03e8); (0x0213, 0x03e8); (0x0214, 0x03e8); (0x0215, 0x03e8);
  (0x0216, 0x03e8); (0x0217, 0x03e8); (0x0900, 0x0000); (0x0901, 0x0000); (0x0902, 0x0000); (0x0903, 0x0000);
  (0x0865, 0x3210); (0x087b, 0x0000); (0x087c, 0xff00); (0x087d, 0x0000); (0x087e, 0x0000); (0x0801, 0x0100);
  (0x0802, 0x0100); (0x0a20, 0x2040); (0x0a21, 0x2040); (0x0a22, 0x2040); (0x0a23, 0x2040); (0x0a24, 0x2040);
  (0x0a28, 0x2040); (0x0a29, 0x2040); (0x133f, 0x0030); (0x133e, 0x000e); (0x221f, 0x0000); (0x2200, 0x1340);
  (0x221f, 0x0000); (0x133f, 0x0010); (0x133e, 0x0ffe); (0x20a0, 0x1940); (0x20c0, 0x1940); (0x20e0, 0x1940);
  (0x130c, 0x0050)].

Definition rtl8367_initvals_1_1 : list (Z * Z) := [
  (0x1b24, 0x0000); (0x1b25, 0x0000); (0x1b26, 0x0000); (0x1b27, 0x0000); (0x207f, 0x0002); (0x2079, 0x0200);
  (0x207f, 0x0000); (0x133f, 0x0030); (0x133e, 0x000e); (0x221f, 0x0005); (0x2201, 0x0700); (0x2205, 0x8b82);
  (0x2206, 0x05cb); (0x221f, 0x0002); (0x2204, 0x80c2); (0x2205, 0x0938); (0x221f, 0x0003); (0x2212, 0xc4d2);
  (0x220d, 0x0207); (0x221f, 0x0001); (0x2207, 0x267e); (0x221c, 0xe5f7); (0x221b, 0x0424); (0x221f, 0x0007);
  (0x221e, 0x0040); (0x2218, 0x0000); (0x221f, 0x0007); (0x221e, 0x002c); (0x2218, 0x008b); (0x221f, 0x0005);
  (0x2205, 0xfff6); (0x2206, 0x0080); (0x2205, 0x8000); (0x2206, 0xf8e0); (0x2206, 0xe000); (0x2206, 0xe1e0);
  (0x2206, 0x01ac); (0x2206, 0x2408); (0x2206, 0xe08b); (0x2206, 0x84f7); (0x2206, 0x20e4); (0x2206, 0x8b84);
  (0x2206, 0xfc05); (0x2206, 0xf8fa); (0x2206, 0xef69); (0x2206, 0xe08b); (0x2206, 0x86ac); (0x2206, 0x201a);
  (0x2206, 0xbf80); (0x2206, 0x59d0); (0x2206, 0x2402); (0x2206, 0x803d); (0x2206, 0xe0e0); (0x2206, 0xe4e1);
  (0x2206, 0xe0e5); (0x2206, 0x5806); (0x2206, 0x68c0); (0x2206, 0xd1d2); (0x2206, 0xe4e0); (0x2206, 0xe4e5);
  (0x2206, 0xe0e5); (0x2206, 0xef96); (0x2206, 0xfefc); (0x2206, 0x05fb); (0x2206, 0x0bfb); (0x2206, 0x58ff);
  (0x2206, 0x9e11); (0x2206, 0x06f0); (0x2206, 0x0c81); (0x2206, 0x8ae0); (0x2206, 0x0019); (0x2206, 0x1b89);
  (0x2206, 0xcfeb); (0x2206, 0x19eb); (0x2206, 0x19b0); (0x2206, 0xefff); (0x2206, 0x0bff); (0x2206, 0x0425);
  (0x2206, 0x0807); (0x2206, 0x2640); (0x2206, 0x7227); (0x2206, 0x267e); (0x2206, 0x2804); (0x2206, 0xb729);
  (0x2206, 0x2576); (0x2206, 0x2a68); (0x2206, 0xe52b); (0x2206, 0xad00); (0x2206, 0x2cdb); (0x2206, 0xf02d);
  (0x2206, 0x67bb); (0x2206, 0x2e7b); (0x2206, 0x0f2f); (0x2206, 0x7365); (0x2206, 0x31ac); (0x2206, 0xcc32);
  (0x2206, 0x2300); (0x2206, 0x332d); (0x2206, 0x1734); (0x2206, 0x7f52); (0x2206, 0x3510); (0x2206, 0x0036);
  (0x2206, 0x0600); (0x2206, 0x370c); (0x2206, 0xc038); (0x2206, 0x7fce); (0x2206, 0x3ce5); (0x2206, 0xf73d);
  (0x2206, 0x3da4); (0x2206, 0x6530); (0x2206, 0x3e67); (0x2206, 0x0053); (0x2206, 0x69d2); (0x2206, 0x0f6a);
  (0x2206, 0x012c); (0x2206, 0x6c2b); (0x2206, 0x136e); (0x2206, 0xe100); (0x2206, 0x6f12); (0x2206, 0xf771);
  (0x2206, 0x006b); (0x2206, 0x7306); (0x2206, 0xeb74); (0x2206, 0x94c7); (0x2206, 0x7698); (0x2206, 0x0a77);
  (0x2206, 0x5000); (0x2206, 0x788a); (0x2206, 0x1579); (0x2206, 0x7f6f); (0x2206, 0x7a06); (0x2206, 0xa600);
  (0x2205, 0x8b90); (0x2206, 0x8000); (0x2205, 0x8b92); (0x2206, 0x8000); (0x2205, 0x8b94); (0x2206, 0x8014);
  (0x2208, 0xfffa); (0x2202, 0x3c65); (0x2205, 0xfff6); (0x2206, 0x00f7); (0x221f, 0x0000); (0x221f, 0x0007);
  (0x221e, 0x0042); (0x2218, 0x0000); (0x221e, 0x002d); (0x2218, 0xf010); (0x221e, 0x0020); (0x2215, 0x0000);
  (0x221e, 0x0023); (0x2216, 0x8000); (0x221f, 0x0000); (0x133f, 0x0010); (0x133e, 0x0ffe); (0x1362, 0x0115);
  (0x1363, 0x0002); (0x1363, 0x0000); (0x1306, 0x000c); (0x1307, 0x000c); (0x1303, 0x0067); (0x1304, 0x4444);
  (0x1203, 0xff00); (0x1200, 0x7fc4); (0x0900, 0x0000); (0x0901, 0x0000); (0x0902, 0x0000); (0x0903, 0x0000);
  (0x0865, 0x3210); (0x087b, 0x0000); (0x087c, 0xff00); (0x087d, 0x0000); (0x087e, 0x0000); (0x0801, 0x0100);
  (0x0802, 0x0100); (0x0a20, 0x2040); (0x0a21, 0x2040); (0x0a22, 0x2040); (0x0a23, 0x2040); (0x0a24, 0x2040);
  (0x0a25, 0x2040); (0x0a26, 0x2040); (0x0a27, 0x2040); (0x0a28, 0x2040); (0x0a29, 0x2040); (0x133f, 0x0030);
  (0x133e, 0x000e); (0x221f, 0x0000); (0x2200, 0x1340); (0x221f, 0x0000); (0x133f, 0x0010); (0x133e, 0x0ffe);
  (0x1b03, 0x0876)].

Definition rtl8367_initvals_2_0 : list (Z * Z) := [
  (0x1b24, 0x0000); (0x1b25, 0x0000); (0x1b26, 0x0000); (0x1b27, 0x0000); (0x133f, 0x0030); (0x133e, 0x000e);
  (0x221f, 0x0007); (0x221e, 0x0048); (0x2219, 0x4012); (0x221f, 0x0003); (0x2201, 0x3554); (0x2202, 0x63e8);
  (0x2203, 0x99c2); (0x2204, 0x0113); (0x2205, 0x303e); (0x220d, 0x0207); (0x220e, 0xe100); (0x221f, 0x0007);
  (0x221e, 0x0040); (0x2218, 0x0000); (0x221f, 0x0007); (0x221e, 0x002c); (0x2218, 0x008b); (0x221f, 0x0005);
  (0x2205, 0xfff6); (0x2206, 0x0080); (0x221f, 0x0005); (0x2205, 0x8000); (0x2206, 0x0280); (0x2206, 0x2bf7);
  (0x2206, 0x00e0); (0x2206, 0xfff7); (0x2206, 0xa080); (0x2206, 0x02ae); (0x2206, 0xf602); (0x2206, 0x804e);
  (0x2206, 0x0201); (0x2206, 0x5002); (0x2206, 0x0163); (0x2206, 0x0201); (0x2206, 0x79e0); (0x2206, 0x8b8c);
  (0x2206, 0xe18b); (0x2206, 0x8d1e); (0x2206, 0x01e1); (0x2206, 0x8b8e); (0x2206, 0x1e01); (0x2206, 0xa000);
  (0x2206, 0xe4ae); (0x2206, 0xd8bf); (0x2206, 0x8b88); (0x2206, 0xec00); (0x2206, 0x19a9); (0x2206, 0x8b90);
  (0x2206, 0xf9ee); (0x2206, 0xfff6); (0x2206, 0x00ee); (0x2206, 0xfff7); (0x2206, 0xfce0); (0x2206, 0xe140);
  (0x2206, 0xe1e1); (0x2206, 0x41f7); (0x2206, 0x2ff6); (0x2206, 0x28e4); (0x2206, 0xe140); (0x2206, 0xe5e1);
  (0x2206, 0x4104); (0x2206, 0xf8fa); (0x2206, 0xef69); (0x2206, 0xe08b); (0x2206, 0x86ac); (0x2206, 0x201a);
  (0x2206, 0xbf80); (0x2206, 0x77d0); (0x2206, 0x6c02); (0x2206, 0x2978); (0x2206, 0xe0e0); (0x2206, 0xe4e1);
  (0x2206, 0xe0e5); (0x2206, 0x5806); (0x2206, 0x68c0); (0x2206, 0xd1d2); (0x2206, 0xe4e0); (0x2206, 0xe4e5);
  (0x2206, 0xe0e5); (0x2206, 0xef96); (0x2206, 0xfefc); (0x2206, 0x0425); (0x2206, 0x0807); (0x2206, 0x2640);
  (0x2206, 0x7227); (0x2206, 0x267e); (0x2206, 0x2804); (0x2206, 0xb729); (0x2206, 0x2576); (0x2206, 0x2a68);
  (0x2206, 0xe52b); (0x2206, 0xad00); (0x2206, 0x2cdb); (0x2206, 0xf02d); (0x2206, 0x67bb); (0x2206, 0x2e7b);
  (0x2206, 0x0f2f); (0x2206, 0x7365); (0x2206, 0x31ac); (0x2206, 0xcc32); (0x2206, 0x2300); (0x2206, 0x332d);
  (0x2206, 0x1734); (0x2206, 0x7f52); (0x2206, 0x3510); (0x2206, 0x0036); (0x2206, 0x0600); (0x2206, 0x370c);
  (0x2206, 0xc038); (0x2206, 0x7fce); (0x2206, 0x3ce5); (0x2206, 0xf73d); (0x2206, 0x3da4); (0x2206, 0x6530);
  (0x2206, 0x3e67); (0x2206, 0x0053); (0x2206, 0x69d2); (0x2206, 0x0f6a); (0x2206, 0x012c); (0x2206, 0x6c2b);
  (0x2206, 0x136e); (0x2206, 0xe100); (0x2206, 0x6f12); (0x2206, 0xf771); (0x2206, 0x006b); (0x2206, 0x7306);
  (0x2206, 0xeb74); (0x2206, 0x94c7); (0x2206, 0x7698); (0x2206, 0x0a77); (0x2206, 0x5000); (0x2206, 0x788a);
  (0x2206, 0x1579); (0x2206, 0x7f6f); (0x2206, 0x7a06); (0x2206, 0xa600); (0x2201, 0x0701); (0x2200, 0x0405);
  (0x221f, 0x0000); (0x2200, 0x1340); (0x221f, 0x0000); (0x133f, 0x0010); (0x133e, 0x0ffe); (0x1203, 0xff00);
  (0x1200, 0x7fc4); (0x121d, 0x7d16); (0x121e, 0x03e8); (0x121f, 0x024e); (0x1220, 0x0230); (0x1221, 0x0244);
  (0x1222, 0x0226); (0x1223, 0x024e); (0x1224, 0x0230); (0x1225, 0x0244); (0x1226, 0x0226); (0x1227, 0x00c0);
  (0x1228, 0x00b4); (0x122f, 0x00c0); (0x1230, 0x00b4); (0x0208, 0x03e8); (0x0209, 0x03e8); (0x020a, 0x03e8);
  (0x020b, 0x03e8); (0x020c, 0x03e8); (0x020d, 0x03e8); (0x020e, 0x03e8); (0x020f, 0x03e8); (0x0210, 0x03e8);
  (0x0211, 0x03e8); (0x0212, 0x03e8); (0x0213, 0x03e8); (0x0214, 0x03e8); (0x0215, 0x03e8); (0x0216, 0x03e8);
  (0x0217, 0x03e8); (0x0900, 0x0000); (0x0901, 0x0000); (0x0902, 0x0000); (0x0903, 0x0000); (0x0865, 0x3210);
  (0x087b, 0x0000); (0x087c, 0xff00); (0x087d, 0x0000); (0x087e, 0x0000); (0x0801, 0x0100); (0x0802, 0x0100);
  (0x0a20, 0x2040); (0x0a21, 0x2040); (0x0a22, 0x2040); (0x0a23, 0x2040); (0x0a24, 0x2040); (0x0a28, 0x2040);
  (0x0a29, 0x2040); (0x20a0, 0x1940); (0x20c0, 0x1940); (0x20e0, 0x1940); (0x130c, 0x0050)].

Definition rtl8367_initvals_2_1 : list (Z * Z) := [
  (0x1b24, 0x0000); (0x1b25, 0x0000); (0x1b26, 0x0000); (0x1b27, 0x0000); (0x133f, 0x0030); (0x133e, 0x000e);
  (0x221f, 0x0007); (0x221e, 0x0048); (0x2219, 0x4012); (0x221f, 0x0003); (0x2201, 0x3554); (0x2202, 0x63e8);
  (0x2203, 0x99c2); (0x2204, 0x0113); (0x2205, 0x303e); (0x220d, 0x0207); (0x220e, 0xe100); (0x221f, 0x0007);
  (0x221e, 0x0040); (0x2218, 0x0000); (0x221f, 0x0007); (0x221e, 0x002c); (0x2218, 0x008b); (0x221f, 0x0005);
  (0x2205, 0xfff6); (0x2206, 0x0080); (0x221f, 0x0005); (0x2205, 0x8000); (0x2206, 0x0280); (0x2206, 0x2bf7);
  (0x2206, 0x00e0); (0x2206, 0xfff7); (0x2206, 0xa080); (0x2206, 0x02ae); (0x2206, 0xf602); (0x2206, 0x804e);
  (0x2206, 0x0201); (0x2206, 0x5002); (0x2206, 0x0163); (0x2206, 0x0201); (0x2206, 0x79e0); (0x2206, 0x8b8c);
  (0x2206, 0xe18b); (0x2206, 0x8d1e); (0x2206, 0x01e1); (0x2206, 0x8b8e); (0x2206, 0x1e01); (0x2206, 0xa000);
  (0x2206, 0xe4ae); (0x2206, 0xd8bf); (0x2206, 0x8b88); (0x2206, 0xec00); (0x2206, 0x19a9); (0x2206, 0x8b90);
  (0x2206, 0xf9ee); (0x2206, 0xfff6); (0x2206, 0x00ee); (0x2206, 0xfff7); (0x2206, 0xfce0); (0x2206, 0xe140);
  (0x2206, 0xe1e1); (0x2206, 0x41f7); (0x2206, 0x2ff6); (0x2206, 0x28e4); (0x2206, 0xe140); (0x2206, 0xe5e1);
  (0x2206, 0x4104); (0x2206, 0xf8fa); (0x2206, 0xef69); (0x2206, 0xe08b); (0x2206, 0x86ac); (0x2206, 0x201a);
  (0x2206, 0xbf80); (0x2206, 0x77d0); (0x2206, 0x6c02); (0x2206, 0x2978); (0x2206, 0xe0e0); (0x2206, 0xe4e1);
  (0x2206, 0xe0e5); (0x2206, 0x5806); (0x2206, 0x68c0); (0x2206, 0xd1d2); (0x2206, 0xe4e0); (0x2206, 0xe4e5);
  (0x2206, 0xe0e5); (0x2206, 0xef96); (0x2206, 0xfefc); (0x2206, 0x0425); (0x2206, 0x0807); (0x2206, 0x2640);
  (0x2206, 0x7227); (0x2206, 0x267e); (0x2206, 0x2804); (0x2206, 0xb729); (0x2206, 0x2576); (0x2206, 0x2a68);
  (0x2206, 0xe52b); (0x2206, 0xad00); (0x2206, 0x2cdb); (0x2206, 0xf02d); (0x2206, 0x67bb); (0x2206, 0x2e7b);
  (0x2206, 0x0f2f); (0x2206, 0x7365); (0x2206, 0x31ac); (0x2206, 0xcc32); (0x2206, 0x2300); (0x2206, 0x332d);
  (0x2206, 0x1734); (0x2206, 0x7f52); (0x2206, 0x3510); (0x2206, 0x0036); (0x2206, 0x0600); (0x2206, 0x370c);
  (0x2206, 0xc038); (0x2206, 0x7fce); (0x2206, 0x3ce5); (0x2206, 0xf73d); (0x2206, 0x3da4); (0x2206, 0x6530);
  (0x2206, 0x3e67); (0x2206, 0x0053); (0x2206, 0x69d2); (0x2206, 0x0f6a); (0x2206, 0x012c); (0x2206, 0x6c2b);
  (0x2206, 0x136e); (0x2206, 0xe100); (0x2206, 0x6f12); (0x2206, 0xf771); (0x2206, 0x006b); (0x2206, 0x7306);
  (0x2206, 0xeb74); (0x2206, 0x94c7); (0x2206, 0x7698); (0x2206, 0x0a77); (0x2206, 0x5000); (0x2206, 0x788a);
  (0x2206, 0x1579); (0x2206, 0x7f6f); (0x2206, 0x7a06); (0x2206, 0xa600); (0x2201, 0x0701); (0x2200, 0x0405);
  (0x221f, 0x0000); (0x2200, 0x1340); (0x221f, 0x0000); (0x133f, 0x0010); (0x133e, 0x0ffe); (0x1203, 0xff00);
  (0x1200, 0x7fc4); (0x0900, 0x0000); (0x0901, 0x0000); (0x0902, 0x0000); (0x0903, 0x0000); (0x0865, 0x3210);
  (0x087b, 0x0000); (0x087c, 0xff00); (0x087d, 0x0000); (0x087e, 0x0000); (0x0801, 0x0100); (0x0802, 0x0100);
  (0x0a20, 0x2040); (0x0a21, 0x2040); (0x0a22, 0x2040); (0x0a23, 0x2040); (0x0a24, 0x2040); (0x0a25, 0x2040);
  (0x0a26, 0x2040); (0x0a27, 0x2040); (0x0a28, 0x2040); (0x0a29, 0x2040); (0x130c, 0x0050)].

Section Driver.
Context {W : Type} {B : RegBus W}.
#[local] Abbreviation MD := (M (smi67 W)).
(** What a variable the code does not initialise holds. *)
Variable uninit : Z.

(** ** Initialisation *)

Definition rtl8367_write_initvals (initvals : list (Z * Z)) : MD unit := write_initvals initvals.

(** *** PHY access *)

Definition rtl8367_read_phy_reg (phy_addr phy_reg : Z) : MD Z :=
  if RTL8367_PHY_ADDR_MAX <? phy_addr then fail EINVAL else
  if RTL8367_PHY_REG_MAX <? phy_reg then fail EINVAL else
  data <- rd RTL8367_IA_STATUS_REG ;;
  if cbool (Z.land data RTL8367_IA_STATUS_PHY_BUSY) then fail ETIMEDOUT else
  wr RTL8367_IA_ADDRESS_REG (RTL8367_INTERNAL_PHY_REG phy_addr phy_reg) ;;
  wr RTL8367_IA_CTRL_REG (Z.lor RTL8367_IA_CTRL_CMD_MASK RTL8367_IA_CTRL_RW_READ) ;;
  phy_poll RTL8367_IA_STATUS_REG RTL8367_IA_STATUS_PHY_BUSY 7 5 ;;
  rd RTL8367_IA_READ_DATA_REG.

Definition rtl8367_write_phy_reg (phy_addr phy_reg val : Z) : MD unit :=
  if RTL8367_PHY_ADDR_MAX <? phy_addr then fail EINVAL else
  if RTL8367_PHY_REG_MAX <? phy_reg then fail EINVAL else
  data <- rd RTL8367_IA_STATUS_REG ;;
  if cbool (Z.land data RTL8367_IA_STATUS_PHY_BUSY) then fail ETIMEDOUT else
  wr RTL8367_IA_WRITE_DATA_REG val ;;
  wr RTL8367_IA_ADDRESS_REG (RTL8367_INTERNAL_PHY_REG phy_addr phy_reg) ;;
  wr RTL8367_IA_CTRL_REG (Z.lor RTL8367_IA_CTRL_CMD_MASK RTL8367_IA_CTRL_RW_WRITE) ;;
  phy_poll RTL8367_IA_STATUS_REG RTL8367_IA_STATUS_PHY_BUSY 7 5.

Definition rtl8367_init_regs0 (mode : Z) : MD unit :=
  if mode =? 0 then rtl8367_write_initvals rtl8367_initvals_0_0 else
  if (mode =? 1) || (mode =? 2) then rtl8367_write_initvals rtl8367_initvals_0_1 else fail ENODEV.

Definition rtl8367_init_regs1 (mode : Z) : MD unit :=
  if mode =? 0 then rtl8367_write_initvals rtl8367_initvals_1_0 else
  if (mode =? 1) || (mode =? 2) then rtl8367_write_initvals rtl8367_initvals_1_1 else fail ENODEV.

Definition rtl8367_init_regs2 (mode : Z) : MD unit :=
  if mode =? 0 then rtl8367_write_initvals rtl8367_initvals_2_0 else
  if (mode =? 1) || (mode =? 2) then rtl8367_write_initvals rtl8367_initvals_2_1 else fail ENODEV.

Definition rtl8367_init_regs : MD unit :=
  wr RTL8367_RTL_MAGIC_ID_REG RTL8367_RTL_MAGIC_ID_VAL ;;
  data <- rd RTL8367_CHIP_VER_REG ;;
  let rlvid := Z.land (Z.shiftr data RTL8367_CHIP_VER_RLVID_SHIFT) RTL8367_CHIP_VER_RLVID_MASK in
  data <- rd RTL8367_CHIP_MODE_REG ;;
  let mode := Z.land data RTL8367_CHIP_MODE_MASK in
  if rlvid =? 0 then rtl8367_init_regs0 mode else
  if rlvid =? 1 then
    rtl8367_write_phy_reg 0 31 5 ;;
    rtl8367_write_phy_reg 0 5 0x3ffe ;;
    data <- rtl8367_read_phy_reg 0 6 ;;
    if data =? 0x94eb then rtl8367_init_regs1 mode else
    if data =? 0x2104 then rtl8367_init_regs2 mode else fail ENODEV
  else fail ENODEV.

Definition rtl8367_reset_chip : MD unit :=
  wr RTL8367_CHIP_RESET_REG RTL8367_CHIP_RESET_HW ;;
  reset_poll RTL8367_CHIP_RESET_REG RTL8367_CHIP_RESET_HW 10.

(** *** The external interfaces *)

Definition rtl8367_extif_set_mode (id mode : Z) : MD unit :=
  (if (mode =? RTL8367_EXTIF_MODE_RGMII) || (mode =? RTL8367_EXTIF_MODE_RGMII_33V) then
     wr RTL8367_CHIP_DEBUG0_REG 0x0367 ;;
     wr RTL8367_CHIP_DEBUG1_REG 0x7777
   else if (mode =? RTL8367_EXTIF_MODE_TMII_MAC) || (mode =? RTL8367_EXTIF_MODE_TMII_PHY) then
     rtl8366_smi_rmwr RTL8367_BYPASS_LINE_RATE_REG (BIT (Z.rem (id + 1) 2)) (BIT (Z.rem (id + 1) 2))
   else if mode =? RTL8367_EXTIF_MODE_GMII then
     rtl8366_smi_rmwr RTL8367_CHIP_DEBUG0_REG (RTL8367_CHIP_DEBUG0_DUMMY0 id) (RTL8367_CHIP_DEBUG0_DUMMY0 id) ;;
     rtl8366_smi_rmwr (RTL8367_EXT_RGMXF_REG id) (BIT 6) (BIT 6)
   else if (mode =? RTL8367_EXTIF_MODE_MII_MAC) || (mode =? RTL8367_EXTIF_MODE_MII_PHY) ||
           (mode =? RTL8367_EXTIF_MODE_DISABLED) then
     rtl8366_smi_rmwr RTL8367_BYPASS_LINE_RATE_REG (BIT (Z.rem (id + 1) 2)) 0 ;;
     rtl8366_smi_rmwr (RTL8367_EXT_RGMXF_REG id) (BIT 6) 0
   else fail EINVAL) ;;
  rtl8366_smi_rmwr RTL8367_DIS_REG
    (Z.shiftl RTL8367_DIS_RGMII_MASK (RTL8367_DIS_RGMII_SHIFT id))
    (Z.shiftl mode (RTL8367_DIS_RGMII_SHIFT id)).

(** The speed is not masked. *)
Definition rtl8367_force_val (pa : rtl8367_port_ability) : Z :=
  Z.lor (Z.lor (Z.lor (Z.lor (Z.lor (Z.lor (speed pa)
    (if cbool (force_mode pa) then RTL8367_DI_FORCE_MODE else 0))
    (if cbool (nway pa) then RTL8367_DI_FORCE_NWAY else 0))
    (if cbool (txpause pa) then RTL8367_DI_FORCE_TXPAUSE else 0))
    (if cbool (rxpause pa) then RTL8367_DI_FORCE_RXPAUSE else 0))
    (if cbool (link pa) then RTL8367_DI_FORCE_LINK else 0))
    (if cbool (duplex pa) then RTL8367_DI_FORCE_DUPLEX else 0).

Definition rtl8367_extif_set_force (id : Z) (pa : rtl8367_port_ability) : MD unit :=
  let mask := Z.lor (Z.lor (Z.lor (Z.lor (Z.lor (Z.lor RTL8367_DI_FORCE_MODE RTL8367_DI_FORCE_NWAY)
    RTL8367_DI_FORCE_TXPAUSE) RTL8367_DI_FORCE_RXPAUSE) RTL8367_DI_FORCE_LINK)
    RTL8367_DI_FORCE_DUPLEX) RTL8367_DI_FORCE_SPEED_MASK in
  rtl8366_smi_rmwr (RTL8367_DI_FORCE_REG id) mask (rtl8367_force_val pa).

Definition rtl8367_extif_set_rgmii_delay (id txdelay rxdelay : Z) : MD unit :=
  let mask := Z.lor RTL8367_EXT_RGMXF_RXDELAY_MASK
    (Z.shiftl RTL8367_EXT_RGMXF_TXDELAY_MASK RTL8367_EXT_RGMXF_TXDELAY_SHIFT) in
  let val := Z.lor rxdelay (u32 (Z.shiftl txdelay RTL8367_EXT_RGMXF_TXDELAY_SHIFT)) in
  rtl8366_smi_rmwr (RTL8367_EXT_RGMXF_REG id) mask val.

Definition rtl8367_extif_init (id : Z) (cfg : option rtl8367_extif_config) : MD unit :=
  let md := match cfg with Some c => mode c | None => RTL8367_EXTIF_MODE_DISABLED end in
  rtl8367_extif_set_mode id md ;;
  match cfg with
  | Some c =>
      if negb (md =? RTL8367_EXTIF_MODE_DISABLED) then
        rtl8367_extif_set_force id (ability c) ;;
        rtl8367_extif_set_rgmii_delay id (txdelay c) (rxdelay c)
      else ret tt
  | None => ret tt
  end.

(** *** LEDs *)

Definition rtl8367_led_group_set_ports (group port_mask : Z) : MD unit :=
  let port_mask := Z.land (u16 port_mask) RTL8367_PARA_LED_IO_EN_PMASK in
  let s := Z.rem group 2 * 8 in
  let reg := RTL8367_PARA_LED_IO_EN1_REG + Z.quot group 2 in
  rtl8366_smi_rmwr reg (Z.shiftl RTL8367_PARA_LED_IO_EN_PMASK s) (Z.shiftl port_mask s).

Definition rtl8367_led_group_set_mode (mode : Z) : MD unit :=
  let mode := Z.land mode RTL8367_LED_CONFIG_DATA_M in
  let mask := u16 (Z.lor (Z.shiftl RTL8367_LED_CONFIG_DATA_M RTL8367_LED_CONFIG_DATA_S) RTL8367_LED_CONFIG_SEL) in
  let set := u16 (Z.lor (Z.shiftl mode RTL8367_LED_CONFIG_DATA_S) RTL8367_LED_CONFIG_SEL) in
  rtl8366_smi_rmwr RTL8367_LED_CONFIG_REG mask set.

Definition rtl8367_led_group_set_config (led cfg : Z) : MD unit :=
  let mask := u16 (Z.lor (Z.shiftl RTL8367_LED_CONFIG_LED_CFG_M (led * 4)) RTL8367_LED_CONFIG_SEL) in
  let set := u16 (Z.shiftl (Z.land cfg RTL8367_LED_CONFIG_LED_CFG_M) (led * 4)) in
  rtl8366_smi_rmwr RTL8367_LED_CONFIG_REG mask set.

Definition rtl8367_led_op_select_parallel : MD unit := wr RTL8367_LED_SYS_CONFIG_REG 0x1472.

Definition rtl8367_led_blinkrate_set (rate : Z) : MD unit :=
  let mask := u16 (Z.shiftl RTL8367_LED_MODE_RATE_M RTL8367_LED_MODE_RATE_S) in
  let set := u16 (Z.shiftl (Z.land rate RTL8367_LED_MODE_RATE_M) RTL8367_LED_MODE_RATE_S) in
  rtl8366_smi_rmwr RTL8367_LED_MODE_REG mask set.

(** *** Set-up *)

(** The interface behind a CPU port. *)
Definition rtl8367_extif_id (cpu_port : Z) : option Z :=
  if (cpu_port =? RTL8367_CPU_PORT_NUM - 1) || (cpu_port =? RTL8367_CPU_PORT_NUM)
  then Some (RTL8367_CPU_PORT_NUM - cpu_port) else None.

(** [err_init]: the other interfaces are disabled, their errors dropped. *)
Definition rtl8367_disable_others (id : Z) : MD unit :=
  (if negb (id =? 0) then unchecked tt (rtl8367_extif_init 0 None) else ret tt) ;;
  (if negb (id =? 1) then unchecked tt (rtl8367_extif_init 1 None) else ret tt).

(** [prop]: the words of the property, if the device tree has it. *)
Definition rtl8367_extif_init_of (alloc : bool) (prop : option (list Z)) : MD unit :=
  match prop with
  | Some words =>
      match extif_config_of words with
      | Some (cpu_port, cfg) =>
          match rtl8367_extif_id cpu_port with
          | Some id =>
              s <- get_state ;;
              (if cpu_port67 s =? UINT_MAX then modify (set_cpu_port67 cpu_port) else ret tt) ;;
              if negb alloc then fail ENOMEM else
              err <- catch (rtl8367_extif_init id (Some cfg)) ;;
              rtl8367_disable_others id ;;
              match err with Ok _ => ret tt | Err e => fun s => (Err e, s) end
          | None => rtl8367_disable_others UINT_MAX ;; fail EINVAL
          end
      | None => rtl8367_disable_others UINT_MAX ;; fail EINVAL
      end
  | None => rtl8367_disable_others UINT_MAX ;; fail EINVAL
  end.

Definition rtl8367_setup (alloc : bool) (prop : option (list Z)) : MD unit :=
  rtl8367_init_regs ;;
  rtl8367_extif_init_of alloc prop ;;
  rtl8366_smi_rmwr RTL8367_SWC0_REG RTL8367_SWC0_MAX_LENGTH_MASK RTL8367_SWC0_MAX_LENGTH_1536 ;;
  wr RTL8367_VLAN_INGRESS_REG RTL8367_PORTS_ALL ;;
  for_each RTL8367_NUM_PORTS (fun i =>
    rtl8366_smi_rmwr (RTL8367_PORT_CFG_REG i)
      (Z.shiftl RTL8367_PORT_CFG_EGRESS_MODE_MASK RTL8367_PORT_CFG_EGRESS_MODE_SHIFT)
      (Z.shiftl RTL8367_PORT_CFG_EGRESS_MODE_ORIGINAL RTL8367_PORT_CFG_EGRESS_MODE_SHIFT)) ;;
  rtl8367_led_group_set_ports 0 RTL8367_PORTS_ALL ;;
  rtl8367_led_group_set_mode 0 ;;
  rtl8367_led_op_select_parallel ;;
  rtl8367_led_blinkrate_set 1 ;;
  rtl8367_led_group_set_config 0 2.

(** *** Counters *)

Definition rtl8367_get_mib_counter (counter port : Z) : MD Z :=
  if (RTL8367_NUM_PORTS <? port) || (RTL8367_MIB_COUNT <=? counter) then fail EINVAL else
  let mib := geti (MibCounter (-1) 0 0 "") rtl8367_mib_counters counter in
  let addr := u32 (RTL8367_MIB_COUNTER_PORT_OFFSET * port + mib_offset mib) in
  wr RTL8367_MIB_ADDRESS_REG (Z.shiftr addr 2) ;;
  data <- rd (RTL8367_MIB_CTRL_REG 0) ;;
  if cbool (Z.land data RTL8367_MIB_CTRL_BUSY_MASK) then fail EBUSY else
  if cbool (Z.land data RTL8367_MIB_CTRL_RESET_MASK) then fail EIO else
  let offset := if mib_length mib =? 4 then 3 else Z.rem (mib_offset mib + 1) 4 in
  read_window (RTL8367_MIB_COUNTER_REG 0) offset (Z.to_nat (mib_length mib)) 0.

(** *** VLAN tables *)

Definition rtl8367_get_vlan_4k (vid : Z) : MD vlan_4k :=
  if RTL8367_NUM_VIDS <=? vid then fail EINVAL else
  wr RTL8367_TA_ADDR_REG vid ;;
  wr RTL8367_TA_CTRL_REG RTL8367_TA_CTRL_CVLAN_READ ;;
  data <- collect RTL8367_TA_VLAN_DATA_SIZE (fun i => rd (RTL8367_TA_DATA_REG i)) ;;
  ret (Vlan4k (u16 vid)
    (Z.lor (Z.land (Z.shiftr (geti 0 data 2) RTL8367_TA_VLAN_UNTAG1_SHIFT) RTL8367_TA_VLAN_UNTAG1_MASK)
           (Z.shiftl (Z.land (Z.shiftr (geti 0 data 3) RTL8367_TA_VLAN_UNTAG2_SHIFT) RTL8367_TA_VLAN_UNTAG2_MASK) 2))
    (Z.land (Z.shiftr (geti 0 data 0) RTL8367_TA_VLAN_MEMBER_SHIFT) RTL8367_TA_VLAN_MEMBER_MASK)
    (u8 (Z.land (Z.shiftr (geti 0 data 1) RTL8367_TA_VLAN_FID_SHIFT) RTL8367_TA_VLAN_FID_MASK))).

Definition rtl8367_set_vlan_4k (vlan4k : vlan_4k) : MD unit :=
  if (RTL8367_NUM_VIDS <=? v4_vid vlan4k) || (RTL8367_TA_VLAN_MEMBER_MASK <? v4_member vlan4k) ||
     (RTL8367_UNTAG_MASK <? v4_untag vlan4k) || (RTL8367_FIDMAX <? v4_fid vlan4k)
  then fail EINVAL else
  let data := [
    Z.shiftl (Z.land (v4_member vlan4k) RTL8367_TA_VLAN_MEMBER_MASK) RTL8367_TA_VLAN_MEMBER_SHIFT;
    Z.shiftl (Z.land (v4_fid vlan4k) RTL8367_TA_VLAN_FID_MASK) RTL8367_TA_VLAN_FID_SHIFT;
    Z.shiftl (Z.land (v4_untag vlan4k) RTL8367_TA_VLAN_UNTAG1_MASK) RTL8367_TA_VLAN_UNTAG1_SHIFT;
    Z.shiftl (Z.land (Z.shiftr (v4_untag vlan4k) 2) RTL8367_TA_VLAN_UNTAG2_MASK) RTL8367_TA_VLAN_UNTAG2_SHIFT] in
  for_each RTL8367_TA_VLAN_DATA_SIZE (fun i => wr (RTL8367_TA_DATA_REG i) (geti 0 data i)) ;;
  wr RTL8367_TA_ADDR_REG (Z.land (v4_vid vlan4k) RTL8367_TA_VLAN_VID_MASK) ;;
  wr RTL8367_TA_CTRL_REG RTL8367_TA_CTRL_CVLAN_WRITE.

Definition rtl8367_get_vlan_mc (index : Z) : MD vlan_mc :=
  if RTL8367_NUM_VLANS <=? index then fail EINVAL else
  data <- collect RTL8367_VLAN_MC_DATA_SIZE (fun i => rd (RTL8367_VLAN_MC_BASE index + i)) ;;
  ret (VlanMc
    (Z.land (Z.shiftr (geti 0 data 3) RTL8367_VLAN_MC_EVID_SHIFT) RTL8367_VLAN_MC_EVID_MASK)
    0
    (Z.land (Z.shiftr (geti 0 data 0) RTL8367_VLAN_MC_MEMBER_SHIFT) RTL8367_VLAN_MC_MEMBER_MASK)
    (u8 (Z.land (Z.shiftr (geti 0 data 1) RTL8367_VLAN_MC_FID_SHIFT) RTL8367_VLAN_MC_FID_MASK))
    0).

Definition rtl8367_set_vlan_mc (index : Z) (vlanmc : vlan_mc) : MD unit :=
  if (RTL8367_NUM_VLANS <=? index) || (RTL8367_NUM_VIDS <=? mc_vid vlanmc) ||
     (RTL8367_PRIORITYMAX <? mc_priority vlanmc) ||
     (RTL8367_VLAN_MC_MEMBER_MASK <? mc_member vlanmc) || (RTL8367_UNTAG_MASK <? mc_untag vlanmc) ||
     (RTL8367_FIDMAX <? mc_fid vlanmc)
  then fail EINVAL else
  let data := [
    Z.shiftl (Z.land (mc_member vlanmc) RTL8367_VLAN_MC_MEMBER_MASK) RTL8367_VLAN_MC_MEMBER_SHIFT;
    Z.shiftl (Z.land (mc_fid vlanmc) RTL8367_VLAN_MC_FID_MASK) RTL8367_VLAN_MC_FID_SHIFT;
    0;
    Z.shiftl (Z.land (mc_vid vlanmc) RTL8367_VLAN_MC_EVID_MASK) RTL8367_VLAN_MC_EVID_SHIFT] in
  for_each RTL8367_VLAN_MC_DATA_SIZE (fun i => wr (RTL8367_VLAN_MC_BASE index + i) (geti 0 data i)).

Definition rtl8367_get_mc_index (port : Z) : MD Z :=
  if RTL8367_NUM_PORTS <=? port then fail EINVAL else
  data <- rd (RTL8367_VLAN_PVID_CTRL_REG port) ;;
  ret (Z.land (Z.shiftr data (RTL8367_VLAN_PVID_CTRL_SHIFT port)) RTL8367_VLAN_PVID_CTRL_MASK).

Definition rtl8367_set_mc_index (port index : Z) : MD unit :=
  if (RTL8367_NUM_PORTS <=? port) || (RTL8367_NUM_VLANS <=? index) then fail EINVAL else
  rtl8366_smi_rmwr (RTL8367_VLAN_PVID_CTRL_REG port)
    (Z.shiftl RTL8367_VLAN_PVID_CTRL_MASK (RTL8367_VLAN_PVID_CTRL_SHIFT port))
    (Z.shiftl (Z.land index RTL8367_VLAN_PVID_CTRL_MASK) (RTL8367_VLAN_PVID_CTRL_SHIFT port)).

Definition rtl8367_enable_vlan (enable : Z) : MD unit :=
  rtl8366_smi_rmwr RTL8367_VLAN_CTRL_REG RTL8367_VLAN_CTRL_ENABLE
    (if cbool enable then RTL8367_VLAN_CTRL_ENABLE else 0).

Definition rtl8367_enable_vlan4k (enable : Z) : MD unit := ret tt.

(** [vlan4k_enabled] is the flag of [struct rtl8366_smi]. *)
Definition rtl8367_is_vlan_valid (vlan4k_enabled : bool) (vlan : Z) : bool :=
  let max := if vlan4k_enabled then RTL8367_NUM_VIDS - 1 else RTL8367_NUM_VLANS in
  negb ((vlan =? 0) || (max <=? vlan)).

Definition rtl8367_enable_port (port enable : Z) : MD unit :=
  wr (RTL8367_PORT_ISOLATION_REG port) (if cbool enable then RTL8367_PORTS_ALL else 0).

(** ** swconfig attributes *)

Definition rtl8367_sw_reset_mibs : MD unit :=
  rtl8366_smi_rmwr (RTL8367_MIB_CTRL_REG 0) 0 RTL8367_MIB_CTRL_GLOBAL_RESET_MASK.

(** [None] when the link is down.  The speed codes are the framework's. *)
Definition rtl8367_sw_get_port_link (speed_10 speed_100 speed_1000 speed_unknown : Z) (port : Z) :
    MD (option port_link) :=
  if RTL8367_NUM_PORTS <=? port then fail EINVAL else
  data <- unchecked 0 (rd (RTL8367_PORT_STATUS_REG port)) ;;
  if negb (cbool (Z.land data RTL8367_PORT_STATUS_LINK)) then ret None else
  let speed := Z.land data RTL8367_PORT_STATUS_SPEED_MASK in
  ret (Some (PortLink
    (cbool (Z.land data RTL8367_PORT_STATUS_DUPLEX))
    (cbool (Z.land data RTL8367_PORT_STATUS_RXPAUSE))
    (cbool (Z.land data RTL8367_PORT_STATUS_TXPAUSE))
    (cbool (Z.land data RTL8367_PORT_STATUS_NWAY))
    (if speed =? 0 then speed_10 else if speed =? 1 then speed_100
     else if speed =? 2 then speed_1000 else speed_unknown))).

Definition rtl8367_sw_get_max_length : MD Z :=
  data <- unchecked uninit (rd RTL8367_SWC0_REG) ;;
  ret (Z.shiftr (Z.land data RTL8367_SWC0_MAX_LENGTH_MASK) RTL8367_SWC0_MAX_LENGTH_SHIFT).

Definition rtl8367_sw_set_max_length (value : Z) : MD unit :=
  let set max_len := rtl8366_smi_rmwr RTL8367_SWC0_REG RTL8367_SWC0_MAX_LENGTH_MASK max_len in
  if value =? 0 then set RTL8367_SWC0_MAX_LENGTH_1522 else
  if value =? 1 then set RTL8367_SWC0_MAX_LENGTH_1536 else
  if value =? 2 then set RTL8367_SWC0_MAX_LENGTH_1552 else
  if value =? 3 then set RTL8367_SWC0_MAX_LENGTH_16000 else fail EINVAL.

Definition rtl8367_sw_reset_port_mibs (port : Z) : MD unit :=
  if RTL8367_NUM_PORTS <=? port then fail EINVAL else
  rtl8366_smi_rmwr (RTL8367_MIB_CTRL_REG (Z.quot port 8)) 0
    (RTL8367_MIB_CTRL_PORT_RESET_MASK (Z.rem port 8)).

(** ** The PHY bus *)

Definition rtl8367_mii_read (addr reg : Z) : MD Z :=
  val <- catch (rtl8367_read_phy_reg (u32 addr) (u32 reg)) ;;
  ret (match val with Ok v => s32 v | Err _ => 0xffff end).

(** The read flushes the write; its result is dropped. *)
Definition rtl8367_mii_write (addr reg val : Z) : MD unit :=
  rtl8367_write_phy_reg (u32 addr) (u32 reg) (u16 val) ;;
  r <- catch (rtl8367_read_phy_reg (u32 addr) (u32 reg)) ;;
  ret tt.

(** ** Detection *)

Definition rtl8367_detect : MD unit :=
  rtl_no <- rd RTL8367_RTL_NO_REG ;;
  if (rtl_no =? RTL8367_RTL_NO_8367R) || (rtl_no =? RTL8367_RTL_NO_8367M) then
    rtl_ver <- rd RTL8367_RTL_VER_REG ;;
    ret tt
  else fail ENODEV.
End Driver.

(** ** The operations table, [rtl8367_smi_ops] and [rtl8367_probe] *)

(** [cpu]: [smi->cpu_port] as [rtl8367_setup] leaves it. *)
Definition rtl8367_smi_ops {W} {B : RegBus W} (cpu : Z) : SmiOps (smi67 W) := {|
  cpu_port := cpu;
  num_ports := RTL8367_NUM_PORTS;
  num_vlan_mc := RTL8367_NUM_VLANS;
  get_vlan_mc := rtl8367_get_vlan_mc;
  set_vlan_mc := rtl8367_set_vlan_mc;
  get_vlan_4k := rtl8367_get_vlan_4k;
  set_vlan_4k := rtl8367_set_vlan_4k;
  get_mc_index := rtl8367_get_mc_index;
  set_mc_index := rtl8367_set_mc_index;
  is_vlan_valid := rtl8367_is_vlan_valid;
  enable_vlan := rtl8367_enable_vlan;
  enable_vlan4k := rtl8367_enable_vlan4k;
  enable_port := rtl8367_enable_port
|}.

(** The board: its reset line, if any, and its device tree. *)
Definition rtl8367_chip_ops {W} {B : RegBus W} (reset : option (bool -> M (smi67 W) unit))
    (alloc : bool) (prop : option (list Z)) : ChipOps (smi67 W) := {|
  hw_reset := reset;
  detect := rtl8367_detect;
  reset_chip := rtl8367_reset_chip;
  setup := rtl8367_setup alloc prop;
  get_mib_counter := rtl8367_get_mib_counter
|}.

(** The parameters [rtl8367_probe] puts into [struct rtl8366_smi]. *)
Definition rtl8367_clk_delay : Z := 1500.
Definition rtl8367_cmd_read : Z := 0xb9.
Definition rtl8367_cmd_write : Z := 0xb8.
Definition rtl8367_probed {W} (w : W) : smi67 W := Smi67 w UINT_MAX RTL8367B_CHIP_UNKNOWN None.

Definition rtl8367_sw_get_port_stats {W} {B : RegBus W} cpu reset alloc prop (port : Z) :
    M (smi (smi67 W)) (Z * Z) :=
  @rtl8366_sw_get_port_stats (smi67 W) (rtl8367_smi_ops cpu) (rtl8367_chip_ops reset alloc prop)
    port RTL8367_MIB_TXB_ID RTL8367_MIB_RXB_ID.
