(* ===== verification/Table67.v ===== *)
(** * The VLAN tables of the RTL8367 and the RTL8367B

    Both chips keep 32 member configurations of four words, two MC indices
    to a register, a register per port for the port isolation, and the 4K
    table behind a window with a key register of its own.  They do not keep
    the untag mask and the priority of a member configuration: the driver
    reads them as zero.  A [layout67] is what the two chips do not share;
    [ops67] are the VLAN operations of a chip with a given layout and
    [impl67] says they keep the contract [VlanImpl], where two member
    configurations the chip holds in the same words count as the same. *)

From S2P Require Import Prelude CMonad SmiCore SmiSpec SmiVlan SmiImpl SmiProps Regs TableChip Smi67.

Record layout67 := Layout67 {
  lz_geom : geometry;
  lz_limits : limits;
  lz_mc_dec : list Z -> vlan_mc;
  lz_mc_enc : vlan_mc -> list Z;
  lz_row_dec : Z -> list Z -> vlan_4k;
  lz_row_enc : vlan_4k -> list Z;
  lz_vid_mask : Z;                           (* applied to the key *)
  lz_all : Z                                 (* every port, for the isolation register *)
}.

(** ** Addresses *)

Definition idx67_reg (p : Z) : Z := 0x0700 + Z.quot p 2.
Definition idx67_shift (p : Z) : Z := 8 * Z.rem p 2.
Definition idx67_of (p d : Z) : Z := Z.land (Z.shiftr d (idx67_shift p)) 0x1f.
Definition mc67_base (i : Z) : Z := 0x0728 + i * 4.
Definition on67_reg : Z := 0x07a8.
Definition iso67_reg (p : Z) : Z := 0x08a2 + p.

Section Ops.
Variable Y : layout67.
#[local] Abbreviation L := (lz_limits Y).
#[local] Abbreviation G := (lz_geom Y).

Definition mc67_bad (i : Z) (mc : vlan_mc) : bool :=
  (l_mcs L <=? i) || (l_vids L <=? mc_vid mc) || (l_prio L <? mc_priority mc) ||
  (l_member L <? mc_member mc) || (l_untag L <? mc_untag mc) || (l_fid L <? mc_fid mc).
Definition row67_bad (row : vlan_4k) : bool :=
  (l_vids L <=? v4_vid row) || (l_member L <? v4_member row) || (l_untag L <? v4_untag row) ||
  (l_fid L <? v4_fid row).

Definition ops67 {W} {B : RegBus W} : SmiOps W := {|
  cpu_port := l_cpu L;
  num_ports := l_ports L;
  num_vlan_mc := l_mcs L;
  get_vlan_mc i :=
    if l_mcs L <=? i then fail EINVAL else
    data <- collect 4 (fun k => rd (mc67_base i + k)) ;;
    ret (lz_mc_dec Y data);
  set_vlan_mc i mc :=
    if mc67_bad i mc then fail EINVAL else
    let data := lz_mc_enc Y mc in
    for_each 4 (fun k => wr (mc67_base i + k) (geti 0 data k));
  get_vlan_4k vid :=
    if l_vids L <=? vid then fail EINVAL else
    wr (g_key G) vid ;;
    wr (g_ctrl G) (g_rd G) ;;
    data <- collect (g_words G) (fun k => rd (g_rbase G + k)) ;;
    ret (lz_row_dec Y vid data);
  set_vlan_4k row :=
    if row67_bad row then fail EINVAL else
    let data := lz_row_enc Y row in
    for_each (g_words G) (fun k => wr (g_wbase G + k) (geti 0 data k)) ;;
    wr (g_key G) (Z.land (v4_vid row) (lz_vid_mask Y)) ;;
    wr (g_ctrl G) (g_wr G);
  get_mc_index p :=
    if l_ports L <=? p then fail EINVAL else
    data <- rd (idx67_reg p) ;;
    ret (idx67_of p data);
  set_mc_index p i :=
    if (l_ports L <=? p) || (l_mcs L <=? i) then fail EINVAL else
    rtl8366_smi_rmwr (idx67_reg p) (Z.shiftl 0x1f (idx67_shift p)) (Z.shiftl (Z.land i 0x1f) (idx67_shift p));
  is_vlan_valid := l_valid L;
  enable_vlan e := rtl8366_smi_rmwr on67_reg (BIT 0) (if cbool e then BIT 0 else 0);
  enable_vlan4k e := ret tt;
  enable_port p e := wr (iso67_reg p) (if cbool e then lz_all Y else 0)
|}.

(** The configuration registers the tables are kept in. *)
Definition cfg67 (b : Z) : bool :=
  ((0x0700 <=? b) && (b <=? idx67_reg (l_ports L - 1))) ||
  ((0x0728 <=? b) && (b <=? on67_reg)) ||
  ((iso67_reg 0 <=? b) && (b <? iso67_reg (l_ports L))).

(** What the chip keeps of a member configuration. *)
Definition mc_key (mc : vlan_mc) : Z * Z * Z := (mc_vid mc, mc_member mc, mc_fid mc).

Record layout67_ok : Prop := {
  zk_limits : limits_ok L;
  zk_ports : 0 < l_ports L <= 16;
  zk_mcs : l_mcs L = 32;
  zk_vids : l_vids L = 4096;
  zk_all : 0 < lz_all Y < 65536;
  zk_vid_mask v : 0 <= v < l_vids L -> Z.land v (lz_vid_mask Y) = v;
  zk_words : 0 < g_words G;
  zk_cfg b : cfg67 b = true -> g_storage G b = true /\ is_wword G b = false /\ b <> g_key G;
  zk_key : is_wword G (g_key G) = false;
  zk_mc_zero l : mc_untag (lz_mc_dec Y l) = 0 /\ mc_priority (lz_mc_dec Y l) = 0;
  zk_mc_round mc : mc_ok L mc -> mc_key (lz_mc_dec Y (words16 4 (lz_mc_enc Y mc))) = mc_key mc;
  zk_row_round row : row_ok L row ->
    lz_row_dec Y (v4_vid row) (words16 (g_words G) (lz_row_enc Y row)) = row
}.
End Ops.

(** ** On the state of the two drivers

    The hardware assumptions for [smi67]: the chip works, no MC table is
    emulated, and the chip is not of family D. *)
#[export] Instance hw67 {W} {B : RegBus W} {G} (HW : SwitchHw W G) : SwitchHw (smi67 W) G.
Proof.
  refine {| hw_ok s := hw_ok (bus67 s) /\ emu_vlanmc s = None /\ family_d (chip67 s) = false;
            hw_reg s := hw_reg (bus67 s); hw_row s := hw_row (bus67 s) |}.
  - intros. apply hw_reg_range.
  - intros. apply hw_row_range.
  - intros a w (Hok & He) Hv. pose proof (hw_read a _ Hok Hv) as H. unfold wp in *. cbn. unfold on_bus.
    destruct (rtl8366_smi_read_reg a (bus67 w)) as [[d | e] w']; [| contradiction].
    destruct H as (H1 & H2 & H3). cbn. auto.
  - intros a d w (Hok & He) Hv. pose proof (hw_write a d _ Hok Hv) as H. unfold wp in *. cbn. unfold on_bus.
    destruct (rtl8366_smi_write_reg a d (bus67 w)) as [[u | e] w']; [| contradiction].
    destruct H as (H1 & H2). cbn. auto.
  - intros w (Hok & He). pose proof (hw_table_read _ Hok) as H. unfold wp in *. cbn. unfold on_bus.
    destruct (rtl8366_smi_write_reg _ _ (bus67 w)) as [[u | e] w']; [| contradiction].
    destruct H as (H1 & H2). cbn. auto.
  - intros w (Hok & He). pose proof (hw_table_write _ Hok) as H. unfold wp in *. cbn. unfold on_bus.
    destruct (rtl8366_smi_write_reg _ _ (bus67 w)) as [[u | e] w']; [| contradiction].
    destruct H as (H1 & H2). cbn. auto.
Defined.

(** ** The operations keep the contract *)

Section Impl67.
Context (Y : layout67) (HY : layout67_ok Y).
#[local] Abbreviation L := (lz_limits Y).
#[local] Abbreviation G := (lz_geom Y).
Context {W : Type} {B : RegBus W} {HW : SwitchHw W G}.
#[local] Abbreviation cops := (@ops67 Y W B).
#[local] Abbreviation iops := (ideal_ops L).

(** Two numbers the chip does not tell apart: both within the limit. *)
Definition blind (m x y : Z) : Prop := x = y \/ (x <= m /\ y <= m).

Definition mc_same67 (x y : vlan_mc) : Prop :=
  mc_key x = mc_key y /\ blind (l_untag L) (mc_untag x) (mc_untag y) /\
  blind (l_prio L) (mc_priority x) (mc_priority y).

Definition mc67_words (w : W) (i : Z) : list Z := tabulate 4 (fun k => hw_reg w (mc67_base i + k)).
Definition row67_words (w : W) (v : Z) : list Z := tabulate (g_words G) (fun k => hw_row w v k).

Record rep67 (w : W) (a : vstate) : Prop := {
  rq_ok : hw_ok w;
  rq_wf : wf L a;
  rq_mc i : 0 <= i < l_mcs L -> mc_key (mc_at a i) = mc_key (lz_mc_dec Y (mc67_words w i));
  rq_row v : 0 <= v < l_vids L -> row_at a v = lz_row_dec Y v (row67_words w v);
  rq_idx p : 0 <= p < l_ports L -> idx_at a p = idx67_of p (hw_reg w (idx67_reg p));
  rq_on : a_vlan_on a = Z.testbit (hw_reg w on67_reg) 0;
  rq_ports p : 0 <= p < l_ports L -> geti true (a_ports_on a) p = negb (hw_reg w (iso67_reg p) =? 0)
}.

(** *** Addresses *)

Lemma cfg_mc i k : 0 <= i < l_mcs L -> 0 <= k < 4 -> cfg67 Y (mc67_base i + k) = true.
Proof. pose proof (zk_mcs Y HY). unfold cfg67, mc67_base, on67_reg. lia. Qed.
Lemma cfg_on : cfg67 Y on67_reg = true.
Proof. unfold cfg67, on67_reg. lia. Qed.
Lemma cfg_iso p : 0 <= p < l_ports L -> cfg67 Y (iso67_reg p) = true.
Proof. unfold cfg67, iso67_reg. lia. Qed.
Lemma idx67_range p : 0 <= p < l_ports L -> 0x700 <= idx67_reg p <= idx67_reg (l_ports L - 1) /\ idx67_reg p < 0x728.
Proof. pose proof (zk_ports Y HY). unfold idx67_reg. Z.to_euclidean_division_equations. lia. Qed.
Lemma cfg_idx p : 0 <= p < l_ports L -> cfg67 Y (idx67_reg p) = true.
Proof. intros Hp. pose proof (idx67_range p Hp). unfold cfg67. lia. Qed.
Lemma cfg_storage b : cfg67 Y b = true -> g_storage G b = true.
Proof. apply (zk_cfg Y HY). Qed.
Lemma cfg_writable b : cfg67 Y b = true -> writable G b = true.
Proof. intros H. apply writable_storage, cfg_storage, H. Qed.
Lemma cfg_visible b : cfg67 Y b = true -> visible G b = true.
Proof. intros H. apply visible_storage, cfg_storage, H. Qed.
#[local] Hint Resolve cfg_mc cfg_on cfg_iso cfg_idx cfg_storage cfg_writable cfg_visible : core.
#[local] Hint Resolve writable_key writable_word : core.

(** *** Frames *)

Definition same_cfg (w w' : W) : Prop := forall b, cfg67 Y b = true -> hw_reg w' b = hw_reg w b.
Definition same_table67 (w w' : W) : Prop := forall v i, 0 <= i < g_words G -> hw_row w' v i = hw_row w v i.

Lemma mc67_words_same w w' i :
  (forall k, 0 <= k < 4 -> hw_reg w' (mc67_base i + k) = hw_reg w (mc67_base i + k)) ->
  mc67_words w' i = mc67_words w i.
Proof. intros H. apply tabulate_ext. exact H. Qed.

Lemma row67_words_same w w' v : same_table67 w w' -> row67_words w' v = row67_words w v.
Proof. intros H. apply tabulate_ext. intros k Hk. apply H, Hk. Qed.

Lemma rep67_frame w w' a : rep67 w a -> hw_ok w' -> same_cfg w w' -> same_table67 w w' -> rep67 w' a.
Proof.
  intros [H1 H2 H3 H4 H5 H6 H7] Hok Hc Ht. split; auto.
  - intros i Hi. rewrite (mc67_words_same w) by auto. apply H3, Hi.
  - intros v Hv. rewrite (row67_words_same w) by assumption. apply H4, Hv.
  - intros p Hp. rewrite Hc by auto. apply H5, Hp.
  - rewrite Hc by auto. exact H6.
  - intros p Hp. rewrite Hc by auto. apply H7, Hp.
Qed.

Lemma rep67_after_read w w' a :
  rep67 w a -> hw_ok w' -> (forall b, visible G b = true -> hw_reg w' b = hw_reg w b) ->
  (forall v i, hw_row w' v i = hw_row w v i) -> rep67 w' a.
Proof.
  intros Hr Hok Hreg Hrow. apply (rep67_frame w); auto; [intros b Hb; auto | intros v i _; apply Hrow].
Qed.

(** *** Member configurations *)

Lemma mc_same_bad i x y : mc_same67 x y -> mc67_bad Y i x = (l_mcs L <=? i) || negb (mc_fits L y).
Proof.
  intros (Hk & Hu & Hp). unfold mc_key in Hk. injection Hk as E1 E2 E3.
  unfold mc67_bad, mc_fits, blind in *. rewrite E1, E2, E3. lia.
Qed.

(** What the chip reads back is an entry it could hold. *)
Lemma mc_dec_ok w a i : rep67 w a -> 0 <= i < l_mcs L ->
  let x := lz_mc_dec Y (mc67_words w i) in mc_same67 x (mc_at a i) /\ mc_ok L x /\ mc_ok L (mc_at a i).
Proof.
  intros Hr Hi x. pose proof (rq_mc _ _ Hr i Hi) as Hk. fold x in Hk.
  pose proof (wf_mc _ _ (rq_wf _ _ Hr) i Hi) as Ho. destruct Ho as [Hn Hf].
  destruct (zk_mc_zero Y HY (mc67_words w i)) as [Zu Zp]. fold x in Zu, Zp.
  destruct (zk_limits Y HY). unfold mc_same67, mc_ok, mc_nonneg, mc_fits, mc_key, blind in *.
  injection Hk as E1 E2 E3. rewrite Zu, Zp, <- E1, <- E2, <- E3. repeat split; try lia; auto.
Qed.

Lemma sim_get_mc67 i : 0 <= i ->
  sim2 rep67 (fun x y => mc_same67 x y /\ mc_ok L x /\ mc_ok L y) (@get_vlan_mc _ cops i) (@get_vlan_mc _ iops i).
Proof.
  intros Hi w a Hr. cbn [get_vlan_mc ops67 ideal_ops].
  destruct (Z.leb_spec (l_mcs L) i); [cbn; auto |]. assert (Hi' : 0 <= i < l_mcs L) by lia.
  assert (Hrun : wp (data <- collect 4 (fun k => rd (mc67_base i + k)) ;; ret (lz_mc_dec Y data))
    (fun x w' => x = lz_mc_dec Y (mc67_words w i) /\ rep67 w' a) never w).
  { wp_step. wp_use (wp_read_words (mc67_base i) 4 w (rq_ok _ _ Hr)); [intros k Hk; auto |].
    intros d w' (-> & Hok & Hreg & Hrow). wp_step. split; [reflexivity |].
    apply (rep67_after_read w); assumption. }
  destruct (wp_never _ _ _ Hrun) as (x & w' & -> & -> & Hr'). split; [apply mc_dec_ok; assumption | exact Hr'].
Qed.

Lemma sim_set_mc67 i x y : 0 <= i -> mc_nonneg x -> mc_nonneg y -> mc_same67 x y ->
  sim rep67 anything (@set_vlan_mc _ cops i x) (@set_vlan_mc _ iops i y).
Proof.
  intros Hi Hx Hy Hs. apply sim_reject; [apply mc_same_bad, Hs |]. rewrite (mc_same_bad i x y Hs).
  intros Hfit. apply sim_of_wp. intros w a Hr. assert (Hi' : 0 <= i < l_mcs L) by lia.
  assert (Hyo : mc_ok L y) by (split; [exact Hy | destruct (mc_fits L y); [reflexivity | lia]]).
  assert (Hxo : mc_ok L x).
  { split; [exact Hx |]. pose proof (mc_same_bad i x y Hs) as E. unfold mc67_bad, mc_fits in *. lia. }
  eapply wp_mono; [apply (wp_write_words (mc67_base i) 4 (lz_mc_enc Y x) w (rq_ok _ _ Hr)); auto
                  | cbv beta | intros ? ? []].
  intros [] w' (Hok & Hreg & Hrow). cbn [fst snd modify]. split; [reflexivity |]. split; [| exact Logic.I].
  pose proof Hr as [H1 H2 H3 H4 H5 H6 H7].
  assert (Hother : forall b, cfg67 Y b = true -> b < mc67_base i \/ mc67_base i + 4 <= b ->
    hw_reg w' b = hw_reg w b).
  { intros b Hb Hout. rewrite Hreg by auto.
    destruct (Z.leb_spec (mc67_base i) b), (Z.ltb_spec b (mc67_base i + 4)); try lia; reflexivity. }
  pose proof (zk_mcs Y HY) as Hm. unfold mc67_base, on67_reg, iso67_reg in *.
  split; cbn [with_mc a_mc a_4k a_idx a_vlan_on a_4k_on a_ports_on]; auto.
  - apply (wf_put_mc L a H2); assumption.
  - intros j Hj. change (mc_at (with_mc _ a) j) with (mc_at (put_pvid 0 i y a) j).
    rewrite (mc_at_put_pvid L a H2) by (assumption || lia). destruct (Z.eqb_spec j i) as [-> | Hne].
    + destruct Hs as [<- _]. rewrite <- (zk_mc_round Y HY x Hxo). do 2 f_equal. symmetry. apply tabulate_ext.
      intros k Hk. unfold mc67_base. rewrite Hreg by (apply cfg_writable, (cfg_mc i k); assumption).
      destruct (Z.leb_spec (1832 + i * 4) (1832 + i * 4 + k)); [| lia].
      destruct (Z.ltb_spec (1832 + i * 4 + k) (1832 + i * 4 + 4)); [| lia]. cbn [andb]. do 2 f_equal. lia.
    + rewrite H3 by exact Hj. do 2 f_equal. symmetry. apply mc67_words_same. intros k Hk. unfold mc67_base.
      apply Hother; [apply (cfg_mc j k); assumption | lia].
  - intros v Hv. rewrite (row67_words_same w) by (intros ? ? _; apply Hrow). apply H4, Hv.
  - intros p Hp. pose proof (idx67_range p Hp). rewrite Hother by (auto; lia). apply H5, Hp.
  - rewrite Hother by (exact cfg_on || unfold on67_reg; lia). exact H6.
  - intros p Hp. rewrite Hother by (exact (cfg_iso p Hp) || unfold iso67_reg; lia). apply H7, Hp.
Qed.

(** *** Rows of the 4K table *)

Lemma vid_land v : 0 <= v < l_vids L -> Z.land v 0xfff = v.
Proof.
  intros Hv. pose proof (zk_vids Y HY). change 0xfff with (Z.ones 12). rewrite Z.land_ones by lia.
  apply Z.mod_small. lia.
Qed.

(** A configuration register is neither the key nor a word of the window. *)
Lemma cfg_not_key b : cfg67 Y b = true -> (b =? g_key G) = false.
Proof. intros Hb. destruct (zk_cfg Y HY b Hb) as (_ & _ & H). apply Z.eqb_neq, H. Qed.
Lemma cfg_not_word b : cfg67 Y b = true -> (g_wbase G <=? b) && (b <? g_wbase G + g_words G) = false.
Proof. intros Hb. apply (zk_cfg Y HY b Hb). Qed.

Lemma sim_get_4k67 v : 0 <= v ->
  sim rep67 (fun row => row_ok L row /\ v4_vid row = v) (@get_vlan_4k _ cops v) (@get_vlan_4k _ iops v).
Proof.
  intros Hv. apply sim_reject; [reflexivity | intros Hlt]. apply sim_of_wp. intros w a Hr.
  assert (Hv' : 0 <= v < l_vids L) by lia. pose proof (zk_vids Y HY). wp_step.
  wp_use (hw_write (g_key G) v w (rq_ok _ _ Hr) (writable_key G)). intros _ w1 (Hok1 & Hr1 & Hrow1).
  wp_step. wp_use (hw_table_read w1 Hok1). intros _ w2 (Hok2 & Hd2 & Hr2 & Hrow2). wp_step.
  wp_use (wp_read_words (g_rbase G) (g_words G) w2 Hok2).
  { intros k Hk. unfold visible, is_rword. lia. }
  intros d w3 (-> & Hok3 & Hr3 & Hrow3). wp_step. cbn [fst snd].
  assert (Hdata : tabulate (g_words G) (fun k => hw_reg w2 (g_rbase G + k)) = row67_words w v).
  { apply tabulate_ext. intros k Hk. rewrite Hd2, Hr1, Z.eqb_refl, (u16_small v), vid_land by (auto || lia).
    apply Hrow1. }
  rewrite Hdata, <- (rq_row _ _ Hr v Hv').
  split; [reflexivity |]. split; [| apply (wf_row _ _ (rq_wf _ _ Hr)), Hv'].
  apply (rep67_frame w); auto.
  - intros b Hb. rewrite Hr3, Hr2, Hr1, cfg_not_key by auto. reflexivity.
  - intros x i _. rewrite Hrow3, Hrow2. apply Hrow1.
Qed.

Lemma sim_set_4k67 row : row_nonneg row ->
  sim rep67 anything (@set_vlan_4k _ cops row) (@set_vlan_4k _ iops row).
Proof.
  intros Hn. assert (Hbad : row67_bad Y row = negb (row_fits L row)) by (unfold row67_bad, row_fits; lia).
  apply sim_reject; [exact Hbad |]. rewrite Hbad. intros Hfit. apply sim_of_wp. intros w a Hr.
  assert (Hrow : row_ok L row) by (split; [exact Hn | destruct (row_fits L row); [reflexivity | discriminate]]).
  assert (Hvid : 0 <= v4_vid row < l_vids L) by (destruct Hrow as [Hp Hf]; unfold row_nonneg, row_fits in *; lia).
  pose proof (zk_words Y HY). pose proof (zk_vids Y HY). cbv zeta. wp_step.
  eapply wp_mono; [apply (wp_write_words (g_wbase G) _ (lz_row_enc Y row) w (rq_ok _ _ Hr)); auto
                  | cbv beta | intros ? ? []].
  intros _ w1 (Hok1 & Hr1 & Hrow1). wp_step.
  rewrite (zk_vid_mask Y HY) by exact Hvid. wp_use (hw_write (g_key G) (v4_vid row) w1 Hok1 (writable_key G)).
  intros _ w2 (Hok2 & Hr2 & Hrow2). wp_use (hw_table_write w2 Hok2). intros [] w3 (Hok3 & Hr3 & Hrow3).
  cbn [fst snd modify]. split; [reflexivity |]. split; [| exact Logic.I]. pose proof Hr as [H1 H2 H3 H4 H5 H6 H7].
  assert (Hword : forall k, 0 <= k < g_words G -> hw_reg w2 (g_wbase G + k) = u16 (geti 0 (lz_row_enc Y row) k)).
  { intros k Hk. rewrite Hr2, Hr1 by auto. pose proof (zk_key Y HY) as Hkey. unfold is_wword in Hkey.
    destruct (Z.eqb_spec (g_wbase G + k) (g_key G)) as [E | _]; [lia |].
    destruct (Z.leb_spec (g_wbase G) (g_wbase G + k)); [| lia].
    destruct (Z.ltb_spec (g_wbase G + k) (g_wbase G + g_words G)); [| lia]. cbn [andb]. do 2 f_equal. lia. }
  assert (Hkey : Z.land (hw_reg w2 (g_key G)) 0xfff = v4_vid row).
  { rewrite Hr2, Z.eqb_refl, (u16_small (v4_vid row)) by (auto || lia). apply vid_land, Hvid. }
  assert (Hc : same_cfg w w3).
  { intros b Hb. rewrite Hr3, Hr2, Hr1, cfg_not_key, cfg_not_word by auto. reflexivity. }
  split; cbn [with_4k a_mc a_4k a_idx a_vlan_on a_4k_on a_ports_on]; auto.
  - apply wf_set_row; [exact Hn | apply Hrow | exact H2].
  - intros i Hi. rewrite (mc67_words_same w) by auto. apply H3, Hi.
  - intros v Hv. unfold row_at. cbn [a_4k with_4k].
    rewrite geti_seti by (rewrite ?(wf_4k_len _ _ H2); lia).
    destruct (Z.eqb_spec v (v4_vid row)) as [-> | Hne].
    + rewrite <- (zk_row_round Y HY row Hrow) at 1. f_equal. apply tabulate_ext. intros k Hk.
      rewrite Hrow3, Hkey, Z.eqb_refl by exact Hk. symmetry. apply Hword, Hk.
    + fold (row_at a v). rewrite H4 by exact Hv. f_equal. symmetry. apply tabulate_ext. intros k Hk.
      rewrite Hrow3, Hkey by exact Hk. destruct (Z.eqb_spec v (v4_vid row)); [contradiction |].
      rewrite Hrow2. apply Hrow1.
  - intros p Hp. rewrite Hc by auto. apply H5, Hp.
  - rewrite Hc by auto. exact H6.
  - intros p Hp. rewrite Hc by auto. apply H7, Hp.
Qed.

(** *** MC indices *)

Lemma idx67_shift_range p : 0 <= p -> 0 <= idx67_shift p <= 8.
Proof. intros Hp. unfold idx67_shift. Z.to_euclidean_division_equations. lia. Qed.

Lemma sim_get_idx67 p : 0 <= p ->
  sim rep67 (fun i => 0 <= i < l_mcs L) (@get_mc_index _ cops p) (@get_mc_index _ iops p).
Proof.
  intros Hp. apply sim_reject; [reflexivity | intros Hlt]. apply sim_of_wp. intros w a Hr.
  assert (Hp' : 0 <= p < l_ports L) by lia. wp_step.
  wp_use (hw_read (idx67_reg p) w (rq_ok _ _ Hr)); [auto |].
  intros d w' (-> & Hok & Hreg & Hrow). wp_step. cbn [fst snd].
  rewrite <- (rq_idx _ _ Hr p Hp'). split; [reflexivity |].
  split; [apply (rep67_after_read w); assumption | apply (wf_idx _ _ (rq_wf _ _ Hr)), Hp'].
Qed.

Lemma idx67_rmw p q i t :
  0 <= p -> 0 <= q -> 0 <= i < 32 -> idx67_reg q = idx67_reg p ->
  idx67_of q (u16 (Z.lor (Z.land t (Z.lnot (Z.shiftl 0x1f (idx67_shift p)))) (Z.shiftl i (idx67_shift p))))
  = if q =? p then i else idx67_of q t.
Proof.
  intros Hp Hq Hi He. pose proof (idx67_shift_range p Hp). pose proof (idx67_shift_range q Hq).
  unfold idx67_of. change 0x1f with (Z.ones 5). rewrite field_u16 by lia.
  destruct (Z.eqb_spec q p) as [-> | Hne].
  - apply field_rmw_same; lia.
  - apply field_rmw_other; [lia .. |]. revert He. unfold idx67_reg, idx67_shift.
    Z.to_euclidean_division_equations. lia.
Qed.

(** A read-modify-write of a configuration register, as the tables see it. *)
Lemma rmwr_cfg r mask d w a :
  rep67 w a -> cfg67 Y r = true -> 0 <= mask < 2 ^ 32 -> 0 <= d < 2 ^ 32 ->
  wp (rtl8366_smi_rmwr r mask d)
     (fun _ w' => hw_ok w' /\ same_table67 w w' /\
        hw_reg w' r = u16 (Z.lor (Z.land (hw_reg w r) (Z.lnot mask)) d) /\
        (forall b, cfg67 Y b = true -> b <> r -> hw_reg w' b = hw_reg w b)) never w.
Proof.
  intros Hr Hc Hm Hd. wp_use (hw_rmwr r mask d w (rq_ok _ _ Hr)); [auto | assumption .. |].
  intros u w' (Hok & Hreg & Hrow). split; [exact Hok |]. split; [intros v i _; apply Hrow |].
  split; [rewrite Hreg, Z.eqb_refl by auto; reflexivity |].
  intros b Hb Hne. apply Z.eqb_neq in Hne. rewrite Hreg, Hne by auto. reflexivity.
Qed.

Lemma sim_set_idx67 p i : 0 <= p -> 0 <= i ->
  sim rep67 anything (@set_mc_index _ cops p i) (@set_mc_index _ iops p i).
Proof.
  intros Hp Hi. apply sim_reject; [reflexivity | intros Hfit]. apply sim_of_wp. intros w a Hr.
  pose proof (zk_mcs Y HY). assert (Hp' : 0 <= p < l_ports L) by lia. pose proof (idx67_shift_range p Hp) as Hsh.
  assert (Hland : Z.land i 0x1f = i).
  { change 0x1f with (Z.ones 5). rewrite Z.land_ones by lia. apply Z.mod_small. lia. }
  assert (Hshift : forall x, 0 <= x < 32 -> 0 <= Z.shiftl x (idx67_shift p) < 2 ^ 32).
  { intros x Hx. rewrite Z.shiftl_mul_pow2 by lia.
    pose proof (Z.pow_le_mono_r 2 (idx67_shift p) 8 ltac:(lia) ltac:(lia)).
    pose proof (Z.pow_pos_nonneg 2 (idx67_shift p) ltac:(lia) ltac:(lia)). nia. }
  rewrite Hland.
  wp_use (rmwr_cfg (idx67_reg p) _ _ w a Hr (cfg_idx p Hp') (Hshift 0x1f ltac:(lia)) (Hshift i ltac:(lia))).
  intros [] w' (Hok & Hrow & Hreg & Hsame). cbn [fst snd modify].
  split; [reflexivity |]. split; [| exact Logic.I]. pose proof Hr as [H1 H2 H3 H4 H5 H6 H7].
  pose proof (idx67_range p Hp') as Hrange.
  split; cbn [with_idx a_mc a_4k a_idx a_vlan_on a_4k_on a_ports_on]; auto.
  - apply wf_set_idx; [exact Hp' | lia | exact H2].
  - intros j Hj. rewrite (mc67_words_same w); [apply H3, Hj |].
    intros k Hk. apply Hsame; [auto | unfold mc67_base; lia].
  - intros v Hv. rewrite (row67_words_same w) by assumption. apply H4, Hv.
  - intros q Hq. unfold idx_at. cbn [a_idx with_idx]. rewrite geti_seti by (rewrite ?(wf_idx_len _ _ H2); lia).
    destruct (Z.eq_dec (idx67_reg q) (idx67_reg p)) as [He | Hne].
    + rewrite He, Hreg, idx67_rmw by (assumption || lia).
      destruct (q =? p); [reflexivity |]. rewrite <- He. apply H5, Hq.
    + rewrite Hsame by auto. destruct (Z.eqb_spec q p) as [-> |]; [contradiction | apply H5, Hq].
  - rewrite Hsame by (auto; unfold on67_reg; lia). exact H6.
  - intros q Hq. rewrite Hsame by (auto; unfold iso67_reg; lia). apply H7, Hq.
Qed.

(** *** Enable bits *)

Lemma sim_enable_vlan67 e : sim rep67 anything (@enable_vlan _ cops e) (@enable_vlan _ iops e).
Proof.
  apply sim_of_wp. intros w a Hr. pose proof (BIT_range 0 32 ltac:(lia)) as Hbit. cbn [enable_vlan ops67].
  wp_use (rmwr_cfg on67_reg (BIT 0) (if cbool e then BIT 0 else 0) w a Hr cfg_on Hbit); [destruct (cbool e); lia |].
  intros [] w' (Hok & Hrow & Hreg & Hsame). cbn [fst snd modify].
  split; [reflexivity |]. split; [| exact Logic.I]. pose proof Hr as [H1 H2 H3 H4 H5 H6 H7].
  split; cbn [with_vlan_on a_mc a_4k a_idx a_vlan_on a_4k_on a_ports_on]; auto.
  - apply wf_vlan_on, H2.
  - intros j Hj. rewrite (mc67_words_same w); [apply H3, Hj |].
    pose proof (zk_mcs Y HY). intros k Hk. apply Hsame; [auto | unfold mc67_base, on67_reg; lia].
  - intros v Hv. rewrite (row67_words_same w) by assumption. apply H4, Hv.
  - intros p Hp. pose proof (idx67_range p Hp). rewrite Hsame by (auto; unfold on67_reg; lia). apply H5, Hp.
  - rewrite Hreg, bit_rmw by lia. reflexivity.
  - intros p Hp. rewrite Hsame by (auto; unfold iso67_reg, on67_reg; lia). apply H7, Hp.
Qed.

(** The chip always uses its 4K table: the operation does nothing. *)
Lemma sim_enable_4k67 e : sim rep67 anything (@enable_vlan4k _ cops e) (@enable_vlan4k _ iops e).
Proof.
  intros w a [H1 H2 H3 H4 H5 H6 H7]. split; [reflexivity |]. split; [| exact Logic.I]. cbn [fst snd modify].
  split; auto. apply wf_4k_on, H2.
Qed.

Lemma sim_enable_port67 p e : 0 <= p < l_ports L ->
  sim rep67 anything (@enable_port _ cops p e) (@enable_port _ iops p e).
Proof.
  intros Hp. apply sim_of_wp. intros w a Hr. cbn [enable_port ops67]. pose proof (zk_all Y HY) as Hall.
  wp_use (hw_write (iso67_reg p) (if cbool e then lz_all Y else 0) w (rq_ok _ _ Hr)); [auto |].
  intros [] w' (Hok & Hreg & Hrow). cbn [fst snd modify]. split; [reflexivity |]. split; [| exact Logic.I].
  pose proof Hr as [H1 H2 H3 H4 H5 H6 H7].
  assert (Hother : forall b, cfg67 Y b = true -> b <> iso67_reg p -> hw_reg w' b = hw_reg w b).
  { intros b Hb Hne. apply Z.eqb_neq in Hne. rewrite Hreg, Hne by auto. reflexivity. }
  split; cbn [with_ports_on a_mc a_4k a_idx a_vlan_on a_4k_on a_ports_on]; auto.
  - apply wf_set_ports_on; [apply seti_length | exact H2].
  - intros j Hj. rewrite (mc67_words_same w); [apply H3, Hj |].
    pose proof (zk_mcs Y HY). intros k Hk. apply Hother; [auto | unfold mc67_base, iso67_reg; lia].
  - intros v Hv. rewrite (row67_words_same w) by (intros ? ? _; apply Hrow). apply H4, Hv.
  - intros q Hq. pose proof (idx67_range q Hq). rewrite Hother by (auto; unfold iso67_reg; lia). apply H5, Hq.
  - rewrite Hother by (auto; unfold iso67_reg, on67_reg; lia). exact H6.
  - intros q Hq. cbn [enable_port ideal_ops modify snd a_ports_on with_ports_on].
    rewrite geti_seti by (rewrite ?(wf_ports_len _ _ H2); lia).
    destruct (Z.eqb_spec q p) as [-> | Hne].
    + rewrite Hreg, Z.eqb_refl by auto. destruct (cbool e); [| reflexivity].
      rewrite (u16_small (lz_all Y)) by lia. destruct (Z.eqb_spec (lz_all Y) 0); [lia | reflexivity].
    + rewrite Hother by (auto; unfold iso67_reg; lia). apply H7, Hq.
Qed.

(** The contract. *)
Definition impl67 : @VlanImpl W cops L.
Proof.
  refine {| rep := rep67; rep_wf := rq_wf; mc_same := mc_same67 |}; try reflexivity.
  - intros mc. repeat split; left; reflexivity.
  - intros x y [Hk _]. unfold mc_key in Hk. injection Hk. auto.
  - intros x y vid untag member fid (_ & _ & Hp). repeat split; [left; reflexivity | exact Hp].
  - exact sim_get_mc67.
  - exact sim_set_mc67.
  - exact sim_get_4k67.
  - exact sim_set_4k67.
  - exact sim_get_idx67.
  - exact sim_set_idx67.
  - exact sim_enable_vlan67.
  - exact sim_enable_4k67.
  - exact sim_enable_port67.
Defined.

(** *** The tables a chip holds

    The FID field of the chip is wider than the FIDs the driver accepts: a
    chip whose tables hold a larger one represents no tables of the driver. *)
Definition sane67 (w : W) : Prop :=
  (forall i, 0 <= i < l_mcs L -> mc_ok L (lz_mc_dec Y (mc67_words w i))) /\
  (forall v, 0 <= v < l_vids L ->
     row_ok L (lz_row_dec Y v (row67_words w v)) /\ v4_vid (lz_row_dec Y v (row67_words w v)) = v).

Definition tables67 (w : W) : vstate := {|
  a_mc := tabulate (l_mcs L) (fun i => lz_mc_dec Y (mc67_words w i));
  a_4k := tabulate (l_vids L) (fun v => lz_row_dec Y v (row67_words w v));
  a_idx := tabulate (l_ports L) (fun p => idx67_of p (hw_reg w (idx67_reg p)));
  a_vlan_on := Z.testbit (hw_reg w on67_reg) 0;
  a_4k_on := true;
  a_ports_on := tabulate (l_ports L) (fun p => negb (hw_reg w (iso67_reg p) =? 0))
|}.

Lemma rep_tables67 w : hw_ok w -> sane67 w -> rep67 w (tables67 w).
Proof.
  intros Hok [Hsm Hsr]. pose proof (zk_ports Y HY). pose proof (zk_mcs Y HY). pose proof (zk_vids Y HY).
  assert (Hm : forall i, 0 <= i < l_mcs L -> mc_at (tables67 w) i = lz_mc_dec Y (mc67_words w i)).
  { intros i Hi. unfold mc_at. cbn [a_mc tables67]. rewrite geti_tabulate by exact Hi. reflexivity. }
  assert (Hrow : forall v, 0 <= v < l_vids L -> row_at (tables67 w) v = lz_row_dec Y v (row67_words w v)).
  { intros v Hv. unfold row_at. cbn [a_4k tables67]. rewrite geti_tabulate by exact Hv. reflexivity. }
  assert (Hidx : forall p, 0 <= p < l_ports L ->
    idx_at (tables67 w) p = idx67_of p (hw_reg w (idx67_reg p))).
  { intros p Hp. unfold idx_at. cbn [a_idx tables67]. rewrite geti_tabulate by exact Hp. reflexivity. }
  split; auto.
  - split; try (apply tabulate_length; lia).
    + intros i Hi. rewrite Hm by exact Hi. apply Hsm, Hi.
    + intros v Hv. rewrite Hrow by exact Hv. apply Hsr, Hv.
    + intros p Hp. rewrite Hidx by exact Hp. unfold idx67_of.
      pose proof (land_mask_range (Z.shiftr (hw_reg w (idx67_reg p)) (idx67_shift p)) 5 ltac:(lia)).
      change (Z.ones 5) with 31 in *. lia.
  - intros i Hi. rewrite Hm by exact Hi. reflexivity.
  - intros p Hp. cbn [a_ports_on tables67]. rewrite geti_tabulate by exact Hp. reflexivity.
Qed.

(** Start-up with a given set of flags, from any sane chip. *)
Definition smi_tables67 (s : smi W) : smi vstate :=
  Smi (vlan_enabled s) (vlan4k_enabled s) (tables67 (hw s)).

Lemma rep_smi_tables67 (s : smi W) :
  hw_ok (hw s) -> sane67 (hw s) -> rep_smi (I := impl67) s (smi_tables67 s).
Proof. intros Hok Hs. split; [reflexivity |]. split; [reflexivity | apply rep_tables67; assumption]. Qed.

(** What the registers hold once the tables are those of start-up. *)
Lemma rep67_started w a :
  rep67 w a -> started L (l_ports L) a -> l_ports L <= l_mcs L ->
  forall p, 0 <= p < l_ports L ->
    idx67_of p (hw_reg w (idx67_reg p)) = p /\
    mc_key (lz_mc_dec Y (mc67_words w p)) = (p + 1, @init_vlan_mask _ iops p, 0) /\
    lz_row_dec Y (p + 1) (row67_words w (p + 1))
    = Vlan4k (p + 1) (@init_vlan_mask _ iops p) (@init_vlan_mask _ iops p) 0.
Proof.
  intros Hr Hs Hle p Hp. pose proof (zk_ports Y HY). pose proof (zk_vids Y HY).
  rewrite <- (rq_idx _ _ Hr p Hp), <- (rq_mc _ _ Hr p ltac:(lia)), <- (rq_row _ _ Hr (p + 1) ltac:(lia)).
  split; [apply (st_idx _ _ _ Hs p Hp) |]. rewrite (st_cache _ _ _ Hs p Hp), (st_row _ _ _ Hs p Hp).
  split; reflexivity.
Qed.
End Impl67.
