(* ===== verification/Rtl8367Impl.v ===== *)
(** * The RTL8367 and RTL8367B drivers keep the contract

    The layouts of the two chips.  The operations of the RTL8367 driver are
    those of its layout; the operations of the RTL8367B driver are those of
    its layout as long as no MC table is emulated and the chip is not of
    family D, which is what [hw67] says of a working chip. *)

From S2P Require Import Prelude CMonad SmiCore SmiSpec SmiVlan SmiImpl SmiProps Regs TableChip Smi67 Table67 Rtl8367b Rtl8367.

(** The registers that hold what is written to them: the VLAN registers and,
    for the attributes, the maximum length register. *)
Definition storage67 (ports ctrl b : Z) : bool :=
  ((0x0700 <=? b) && (b <=? idx67_reg (ports - 1))) ||
  ((0x0728 <=? b) && (b <=? on67_reg)) ||
  ((iso67_reg 0 <=? b) && (b <? iso67_reg ports)) || (b =? ctrl).

(** ** RTL8367B, families B and C *)

Definition rtl8367b_geometry : geometry := {|
  g_storage := storage67 RTL8367B_NUM_PORTS RTL8367B_SWC0_REG;
  g_ctrl := RTL8367B_TA_CTRL_REG;
  g_rd := RTL8367B_TA_CTRL_CVLAN_READ;
  g_wr := RTL8367B_TA_CTRL_CVLAN_WRITE;
  g_rbase := RTL8367B_TA_RDDATA_REG 0;
  g_key := RTL8367B_TA_ADDR_REG;
  g_wbase := RTL8367B_TA_WRDATA_REG 0;
  g_words := RTL8367B_TA_VLAN_NUM_WORDS
|}.

Lemma rtl8367b_geometry_ok : geometry_ok rtl8367b_geometry.
Proof. split; [reflexivity | | discriminate]. intros b. cbv -[Z.leb Z.ltb Z.eqb orb andb]. lia. Qed.

Definition valid67 (vlan4k : bool) (vlan : Z) : bool :=
  negb ((vlan =? 0) || ((if vlan4k then 4095 else 32) <=? vlan)).

Definition rtl8367b_limits (cpu : Z) : limits := Limits cpu 8 32 4096 7 0xff 0xff 7 valid67.

Definition rtl8367b_layout (cpu : Z) : layout67 := {|
  lz_geom := rtl8367b_geometry;
  lz_limits := rtl8367b_limits cpu;
  lz_mc_dec data := VlanMc
    (Z.land (Z.shiftr (geti 0 data 3) 0) 0x3fff) 0
    (Z.land (Z.shiftr (geti 0 data 0) 0) 0xff)
    (Z.land (Z.shiftr (geti 0 data 1) 0) 0xf) 0;
  lz_mc_enc mc := [
    Z.shiftl (Z.land (mc_member mc) 0xff) 0; Z.shiftl (Z.land (mc_fid mc) 0xf) 0; 0;
    Z.shiftl (Z.land (mc_vid mc) 0x3fff) 0];
  lz_row_dec vid data := Vlan4k (u16 vid)
    (Z.land (Z.shiftr (geti 0 data 0) 8) 0xff)
    (Z.land (Z.shiftr (geti 0 data 0) 0) 0xff)
    (Z.land (Z.shiftr (geti 0 data 1) 0) 0xf);
  lz_row_enc row := [
    Z.lor (Z.shiftl (Z.land (v4_member row) 0xff) 0) (Z.shiftl (Z.land (v4_untag row) 0xff) 8);
    Z.shiftl (Z.land (v4_fid row) 0xf) 0];
  lz_vid_mask := RTL8367B_VID_MASK;
  lz_all := RTL8367B_PORTS_ALL
|}.

(** ** RTL8367 *)

Definition rtl8367_geometry : geometry := {|
  g_storage := storage67 RTL8367_NUM_PORTS RTL8367_SWC0_REG;
  g_ctrl := RTL8367_TA_CTRL_REG;
  g_rd := RTL8367_TA_CTRL_CVLAN_READ;
  g_wr := RTL8367_TA_CTRL_CVLAN_WRITE;
  g_rbase := RTL8367_TA_DATA_REG 0;
  g_key := RTL8367_TA_ADDR_REG;
  g_wbase := RTL8367_TA_DATA_REG 0;
  g_words := RTL8367_TA_VLAN_DATA_SIZE
|}.

Lemma rtl8367_geometry_ok : geometry_ok rtl8367_geometry.
Proof. split; [reflexivity | | discriminate]. intros b. cbv -[Z.leb Z.ltb Z.eqb orb andb]. lia. Qed.

Definition rtl8367_limits (cpu : Z) : limits := Limits cpu 10 32 4096 7 0xffff 0xffff 7 valid67.

(** The untag mask of a row is split over two words. *)
Definition rtl8367_layout (cpu : Z) : layout67 := {|
  lz_geom := rtl8367_geometry;
  lz_limits := rtl8367_limits cpu;
  lz_mc_dec data := VlanMc
    (Z.land (Z.shiftr (geti 0 data 3) 0) 0xffff) 0
    (Z.land (Z.shiftr (geti 0 data 0) 0) 0xffff)
    (u8 (Z.land (Z.shiftr (geti 0 data 1) 0) 0xfff)) 0;
  lz_mc_enc mc := [
    Z.shiftl (Z.land (mc_member mc) 0xffff) 0; Z.shiftl (Z.land (mc_fid mc) 0xfff) 0; 0;
    Z.shiftl (Z.land (mc_vid mc) 0xffff) 0];
  lz_row_dec vid data := Vlan4k (u16 vid)
    (Z.lor (Z.land (Z.shiftr (geti 0 data 2) 14) 0x3) (Z.shiftl (Z.land (Z.shiftr (geti 0 data 3) 0) 0x3fff) 2))
    (Z.land (Z.shiftr (geti 0 data 0) 0) 0xffff)
    (u8 (Z.land (Z.shiftr (geti 0 data 1) 0) 0xfff));
  lz_row_enc row := [
    Z.shiftl (Z.land (v4_member row) 0xffff) 0; Z.shiftl (Z.land (v4_fid row) 0xfff) 0;
    Z.shiftl (Z.land (v4_untag row) 0x3) 14; Z.shiftl (Z.land (Z.shiftr (v4_untag row) 2) 0x3fff) 0];
  lz_vid_mask := RTL8367_VID_MASK;
  lz_all := RTL8367_PORTS_ALL
|}.

Lemma rtl8367_ops_layout {W} {B : RegBus W} cpu : @rtl8367_smi_ops W B cpu = ops67 (rtl8367_layout cpu).
Proof. reflexivity. Qed.

(** ** The laws *)

Lemma limits67_ok cpu ports m :
  0 <= cpu < ports -> 0 < ports <= 16 -> 0 <= m < 65536 -> limits_ok (Limits cpu ports 32 4096 7 m m 7 valid67).
Proof. intros H1 H2 H3. split; cbn; try lia. intros [] v; unfold valid67; lia. Qed.

(** A field alone in a word. *)
Lemma word67 x n : 0 <= n <= 16 -> 0 <= x < 2 ^ n ->
  Z.land (Z.shiftr (u16 (Z.shiftl (Z.land x (Z.ones n)) 0)) 0) (Z.ones n) = x.
Proof.
  intros Hn Hx. rewrite Z.shiftr_0_r, Z.shiftl_0_r, !Z.land_ones, (Z.mod_small x) by lia.
  pose proof (Z.pow_le_mono_r 2 n 16 ltac:(lia) ltac:(lia)).
  rewrite u16_small by lia. apply Z.mod_small, Hx.
Qed.

(** Members and untagged ports of a row share a word of the RTL8367B. *)
Lemma members67b_roundtrip m u :
  0 <= m < 2 ^ 8 -> 0 <= u < 2 ^ 8 ->
  let d := u16 (Z.lor (Z.shiftl (Z.land m 0xff) 0) (Z.shiftl (Z.land u 0xff) 8)) in
  Z.land (Z.shiftr d 8) 0xff = u /\ Z.land (Z.shiftr d 0) 0xff = m.
Proof.
  intros Hm Hu. cbv zeta. change 0xff with (Z.ones 8). unfold u16. split; bit_solve.
Qed.

(** The untag mask of a row of the RTL8367: two bits, then fourteen. *)
Lemma untag67_roundtrip u :
  0 <= u < 2 ^ 16 ->
  Z.lor (Z.land (Z.shiftr (u16 (Z.shiftl (Z.land u 0x3) 14)) 14) 0x3)
        (Z.shiftl (Z.land (Z.shiftr (u16 (Z.shiftl (Z.land (Z.shiftr u 2) 0x3fff) 0)) 0) 0x3fff) 2) = u.
Proof.
  intros Hu. change 0x3 with (Z.ones 2). change 0x3fff with (Z.ones 14). unfold u16. bit_solve.
Qed.

Lemma rtl8367b_layout_ok cpu : 0 <= cpu < 8 -> layout67_ok (rtl8367b_layout cpu).
Proof.
  intros Hcpu. split; try reflexivity.
  - apply (limits67_ok cpu 8 0xff); lia.
  - cbn. lia.
  - split; reflexivity.
  - intros v Hv. cbn in *. change RTL8367B_VID_MASK with (Z.ones 14). rewrite Z.land_ones by lia. apply Z.mod_small. lia.
  - intros b. cbv -[Z.leb Z.ltb Z.eqb orb andb]. lia.
  - intros l. split; reflexivity.
  - intros mc [Hn Hf]. unfold mc_nonneg, mc_fits in *. cbn in Hf. unfold mc_key. open_words.
    change 0x3fff with (Z.ones 14). change 0xff with (Z.ones 8). change 0xf with (Z.ones 4).
    rewrite !word67 by lia. reflexivity.
  - intros row [Hn Hf]. unfold row_nonneg, row_fits in *. cbn in Hf.
    destruct (members67b_roundtrip (v4_member row) (v4_untag row)) as (E1 & E2); [lia .. |]. cbv zeta in E1, E2.
    change (g_words _) with 2. open_words. rewrite (u16_small (v4_vid row)), E1, E2 by lia. change 0xf with (Z.ones 4).
    rewrite word67 by lia. destruct row; reflexivity.
Qed.

Lemma rtl8367_layout_ok cpu : 0 <= cpu < 10 -> layout67_ok (rtl8367_layout cpu).
Proof.
  intros Hcpu. split; try reflexivity.
  - apply (limits67_ok cpu 10 0xffff); lia.
  - cbn. lia.
  - split; reflexivity.
  - intros v Hv. cbn in *. change RTL8367_VID_MASK with (Z.ones 16). rewrite Z.land_ones by lia. apply Z.mod_small. lia.
  - intros b. cbv -[Z.leb Z.ltb Z.eqb orb andb]. lia.
  - intros l. split; reflexivity.
  - intros mc [Hn Hf]. unfold mc_nonneg, mc_fits in *. cbn in Hf. unfold mc_key. open_words.
    change 0xffff with (Z.ones 16). change 0xfff with (Z.ones 12).
    rewrite !word67, u8_small by lia. reflexivity.
  - intros row [Hn Hf]. unfold row_nonneg, row_fits in *. cbn in Hf.
    change (g_words _) with 4. open_words. rewrite (u16_small (v4_vid row)), untag67_roundtrip by lia.
    change 0xffff with (Z.ones 16). change 0xfff with (Z.ones 12).
    rewrite !word67, u8_small by lia. destruct row; reflexivity.
Qed.

(** ** RTL8367 *)

Definition rtl8367_impl {W} {B : RegBus W} {HW : SwitchHw W rtl8367_geometry} cpu (Hcpu : 0 <= cpu < 10) :
  @VlanImpl (smi67 W) (rtl8367_smi_ops cpu) (rtl8367_limits cpu) :=
  impl67 (rtl8367_layout cpu) (rtl8367_layout_ok cpu Hcpu).

(** ** RTL8367B

    What the driver's family tests see does not change on the bus. *)

Definition family_bc {W} (s : smi67 W) : Prop := emu_vlanmc s = None /\ family_d (chip67 s) = false.

Section FamilyBC.
Context {W : Type} {B : RegBus W}.
#[local] Abbreviation P := (@family_bc W).

Lemma on_bus_family {A} (m : M W A) : preserves P (on_bus m).
Proof. intros s H. unfold on_bus. destruct (m (bus67 s)). exact H. Qed.
Lemma rd_family a : preserves P (rd a).
Proof. apply on_bus_family. Qed.
Lemma wr_family a d : preserves P (wr a d).
Proof. apply on_bus_family. Qed.
#[local] Hint Resolve rd_family wr_family : preserves.

#[local] Abbreviation bops cpu := (@rtl8367b_smi_ops W B cpu).
#[local] Abbreviation lops cpu := (@ops67 (rtl8367b_layout cpu) (smi67 W) bus_of_67).

Lemma agree_get_mc cpu i s : P s -> @get_vlan_mc _ (bops cpu) i s = @get_vlan_mc _ (lops cpu) i s.
Proof.
  intros [He Hf]. cbn [get_vlan_mc rtl8367b_smi_ops ops67]. unfold rtl8367b_get_vlan_mc.
  change RTL8367B_NUM_VLANS with (l_mcs (lz_limits (rtl8367b_layout cpu))).
  destruct (_ <=? i); [reflexivity |]. unfold get_state, bind at 1. rewrite He. reflexivity.
Qed.

Lemma agree_set_mc cpu i mc s : P s -> @set_vlan_mc _ (bops cpu) i mc s = @set_vlan_mc _ (lops cpu) i mc s.
Proof.
  intros [He Hf]. cbn [set_vlan_mc rtl8367b_smi_ops ops67]. unfold rtl8367b_set_vlan_mc, get_state, bind at 1.
  rewrite Hf, He. reflexivity.
Qed.

Lemma agree_get_4k cpu v s : P s -> @get_vlan_4k _ (bops cpu) v s = @get_vlan_4k _ (lops cpu) v s.
Proof.
  intros HP. cbn [get_vlan_4k rtl8367b_smi_ops ops67]. unfold rtl8367b_get_vlan_4k.
  change RTL8367B_NUM_VIDS with (l_vids (lz_limits (rtl8367b_layout cpu))).
  destruct (_ <=? v); [reflexivity |].
  apply (bind_agree P); [auto with preserves | exact HP | intros _ s1 HP1].
  apply (bind_agree P); [auto with preserves | exact HP1 | intros _ s2 HP2].
  apply (bind_agree P); [unfold collect; auto with preserves | exact HP2 | intros data s3 [_ Hf]].
  unfold get_state, bind. rewrite Hf. reflexivity.
Qed.

Lemma agree_set_4k cpu row s : P s -> @set_vlan_4k _ (bops cpu) row s = @set_vlan_4k _ (lops cpu) row s.
Proof.
  intros [He Hf]. cbn [set_vlan_4k rtl8367b_smi_ops ops67]. unfold rtl8367b_set_vlan_4k, get_state, bind at 1.
  rewrite Hf. reflexivity.
Qed.

Lemma agree_get_idx cpu p s : P s -> @get_mc_index _ (bops cpu) p s = @get_mc_index _ (lops cpu) p s.
Proof.
  intros [He Hf]. cbn [get_mc_index rtl8367b_smi_ops ops67]. unfold rtl8367b_get_mc_index.
  change RTL8367B_NUM_PORTS with (l_ports (lz_limits (rtl8367b_layout cpu))).
  destruct (_ <=? p); [reflexivity |]. unfold get_state, bind at 1. rewrite Hf. reflexivity.
Qed.

Lemma agree_set_idx cpu p i s : P s -> @set_mc_index _ (bops cpu) p i s = @set_mc_index _ (lops cpu) p i s.
Proof.
  intros [He Hf]. cbn [set_mc_index rtl8367b_smi_ops ops67]. unfold rtl8367b_set_mc_index.
  change RTL8367B_NUM_PORTS with (l_ports (lz_limits (rtl8367b_layout cpu))).
  change RTL8367B_NUM_VLANS with (l_mcs (lz_limits (rtl8367b_layout cpu))).
  destruct (_ || _); [reflexivity |]. unfold get_state, bind at 1. rewrite Hf. reflexivity.
Qed.

Context {HW : SwitchHw W rtl8367b_geometry}.

Definition rtl8367b_impl cpu (Hcpu : 0 <= cpu < 8) : @VlanImpl (smi67 W) (bops cpu) (rtl8367b_limits cpu).
Proof.
  pose proof (rtl8367b_layout_ok cpu Hcpu) as HY. set (Y := rtl8367b_layout cpu) in *.
  assert (Hfam : forall w a, rep67 Y w a -> family_bc w) by (intros w a Hr; apply (rq_ok _ _ _ Hr)).
  refine {| rep := rep67 Y; rep_wf := rq_wf Y; mc_same := mc_same67 Y |}; try reflexivity.
  - intros mc. repeat split; left; reflexivity.
  - intros x y [Hk _]. unfold mc_key in Hk. injection Hk. auto.
  - intros x y vid untag member fid (_ & _ & Hp). repeat split; [left; reflexivity | exact Hp].
  - intros i Hi. eapply sim2_agree; [intros w a Hr; eapply agree_get_mc, Hfam, Hr | apply (sim_get_mc67 Y HY), Hi].
  - intros i x y Hi Hx Hy Hs.
    eapply sim_agree; [intros w a Hr; eapply agree_set_mc, Hfam, Hr | apply (sim_set_mc67 Y HY); assumption].
  - intros v Hv. eapply sim_agree; [intros w a Hr; eapply agree_get_4k, Hfam, Hr | apply (sim_get_4k67 Y HY), Hv].
  - intros row Hn. eapply sim_agree; [intros w a Hr; eapply agree_set_4k, Hfam, Hr | apply (sim_set_4k67 Y HY), Hn].
  - intros p Hp. eapply sim_agree; [intros w a Hr; eapply agree_get_idx, Hfam, Hr | apply (sim_get_idx67 Y HY), Hp].
  - intros p i Hp Hi.
    eapply sim_agree; [intros w a Hr; eapply agree_set_idx, Hfam, Hr | apply (sim_set_idx67 Y HY); assumption].
  - exact (sim_enable_vlan67 Y HY).
  - exact (sim_enable_4k67 Y).
  - exact (sim_enable_port67 Y HY).
Defined.
End FamilyBC.
