(* ===== verification/Rtl8367Props.v ===== *)
(** * Properties of the RTL8367 and RTL8367B drivers

    Refinement of the VLAN tables and the registers after start-up, the
    counters read through their window, the PVIDs of the chips of family D,
    which have no MC indices, and the wait for the PHY window. *)

From S2P Require Import Prelude CMonad SmiCore SmiSpec SmiVlan SmiImpl SmiProps Regs TableChip Smi67 Table67 Rtl8367b Rtl8367 Rtl8367Impl.

(** ** Refinement *)

(** C24: refinement. The core on top of the RTL8367 register code implements
    the abstract switch, from every chip whose tables hold no FID above 7
    and no VID above 4095: any sequence of framework requests gets exactly
    the results the tables give, and leaves registers that represent the
    tables, although the chip keeps neither priority nor untag mask of a
    member configuration. *)
Theorem rtl8367_refines_tables {W} {B : RegBus W} {HW : SwitchHw W rtl8367_geometry}
    cpu (Hcpu : 0 <= cpu < 10) tagged rs (s : smi (smi67 W)) :
  hw_ok (hw s) -> sane67 (rtl8367_layout cpu) (hw s) -> Forall request_ok rs ->
  let c := @serve_all (smi67 W) (rtl8367_smi_ops cpu) tagged rs s in
  let t := @serve_all vstate (ideal_ops (rtl8367_limits cpu)) tagged rs (smi_tables67 (rtl8367_layout cpu) s) in
  fst c = fst t /\ rep_smi (I := rtl8367_impl cpu Hcpu) (snd c) (snd t).
Proof.
  intros Hok Hs Hrs. apply (impl_refines (I := rtl8367_impl cpu Hcpu)); [| exact Hrs].
  apply (rep_smi_tables67 _ (rtl8367_layout_ok cpu Hcpu)); assumption.
Qed.

(** An RTL8367 and an RTL8367B in memory, all registers zero. *)
#[local] Abbreviation mem67 := (mem_hw rtl8367_geometry rtl8367_geometry_ok).
#[local] Abbreviation bus67m := (mem_bus rtl8367_geometry).
Definition zero67 : smi (smi67 memchip) := Smi 0 0 (rtl8367b_probed (MemChip (fun _ => 0) (fun _ _ => 0))).

Lemma cpu_port_9 : 0 <= 9 < 10.
Proof. lia. Qed.

Lemma zero67_sane : @sane67 (rtl8367_layout 9) _ _ (@hw67 _ bus67m _ mem67) (hw zero67).
Proof.
  split.
  - intros i Hi. vm_compute. repeat split; discriminate.
  - intros v Hv. cbn in Hv. unfold row_ok, row_nonneg, row_fits. cbn -[Z.ltb]. rewrite u16_small by lia.
    destruct (Z.ltb_spec v 4096); [| lia]. repeat split; discriminate || lia || reflexivity.
Qed.

Lemma rtl8367_refines_tables_witness :
  let rs := [SetVlanEnable 2 1; SetPvid 2 100; SetVlanPorts 9 [(0, 0); (5, 1)]; SetVlanFid 7 9 3] in
  let c := @serve_all (smi67 memchip) (@rtl8367_smi_ops _ bus67m 9) 0 rs zero67 in
  let t := @serve_all vstate (ideal_ops (rtl8367_limits 9)) 0 rs
             (@smi_tables67 (rtl8367_layout 9) _ _ (@hw67 _ bus67m _ mem67) zero67) in
  fst c = fst t /\
  rep_smi (I := @rtl8367_impl memchip bus67m mem67 9 cpu_port_9) (snd c) (snd t).
Proof.
  apply (@rtl8367_refines_tables memchip bus67m mem67 9 cpu_port_9 0
           [SetVlanEnable 2 1; SetPvid 2 100; SetVlanPorts 9 [(0, 0); (5, 1)]; SetVlanFid 7 9 3] zero67).
  - repeat split.
  - exact zero67_sane.
  - repeat constructor; cbn; try lia; discriminate.
Defined.

(** ** Start-up *)

(** The ports of the VLAN start-up gives port [p]. *)
Definition startup_ports (p cpu : Z) : Z := if p =? cpu then 0xff else Z.lor (BIT p) (BIT cpu).

Lemma startup_mask p cpu : 0 <= p < 8 -> 0 <= cpu < 8 ->
  @init_vlan_mask _ (ideal_ops (rtl8367b_limits cpu)) p = startup_ports p cpu.
Proof.
  intros Hp Hc. unfold init_vlan_mask, startup_ports. cbn [cpu_port num_ports ideal_ops l_cpu l_ports rtl8367b_limits].
  destruct (p =? cpu); [reflexivity |]. apply u32_small. unfold BIT.
  assert (Hb : forall x, 0 <= x < 8 -> 0 <= Z.shiftl 1 x < 2 ^ 8) by (intros x Hx; apply (BIT_range x 8); lia).
  pose proof (Hb p Hp) as H1. pose proof (Hb cpu Hc) as H2.
  pose proof (lor_range _ _ 8 ltac:(lia) H1 H2). lia.
Qed.

(** Start-up of an RTL8367B of family B or C whose CPU port is known:
    [rtl8366_init_vlan] succeeds; VLANs are on; port [p] has member
    configuration [p] as its PVID, and that entry is VLAN [p + 1] with the
    port and the CPU port (for the CPU port: all ports); row [p + 1] of the 4K
    table has the same members, all untagged, FID 0. *)
Theorem rtl8367b_startup_registers {W} {B : RegBus W} {HW : SwitchHw W rtl8367b_geometry}
    cpu (s : smi (smi67 W)) :
  0 <= cpu < RTL8367B_NUM_PORTS -> hw_ok (hw s) -> sane67 (rtl8367b_layout cpu) (hw s) ->
  exists s', @rtl8366_init_vlan (smi67 W) (rtl8367b_smi_ops cpu) s = (Ok tt, s') /\
    Z.testbit (hw_reg (hw s') RTL8367B_VLAN_CTRL_REG) 0 = true /\
    forall p, 0 <= p < RTL8367B_NUM_PORTS ->
      let mc k := hw_reg (hw s') (RTL8367B_VLAN_MC_BASE p + k) in
      let row k := hw_row (hw s') (p + 1) k in
      Z.land (Z.shiftr (hw_reg (hw s') (RTL8367B_VLAN_PVID_CTRL_REG p)) (RTL8367B_VLAN_PVID_CTRL_SHIFT p))
        RTL8367B_VLAN_PVID_CTRL_MASK = p /\
      Z.land (mc 3) RTL8367B_VLAN_MC3_EVID_MASK = p + 1 /\
      Z.land (mc 0) RTL8367B_VLAN_MC0_MEMBER_MASK = startup_ports p cpu /\
      Z.land (mc 1) RTL8367B_VLAN_MC1_FID_MASK = 0 /\
      Z.land (row 0) RTL8367B_TA_VLAN0_MEMBER_MASK = startup_ports p cpu /\
      Z.land (Z.shiftr (row 0) RTL8367B_TA_VLAN0_UNTAG_SHIFT) RTL8367B_TA_VLAN0_UNTAG_MASK = startup_ports p cpu /\
      Z.land (row 1) RTL8367B_TA_VLAN1_FID_MASK = 0.
Proof.
  intros Hcpu Hok Hsane. change RTL8367B_NUM_PORTS with 8 in *. set (Y := rtl8367b_layout cpu) in *.
  pose proof (rtl8367b_layout_ok cpu Hcpu : layout67_ok Y) as HY.
  assert (Hst : startup_limits (rtl8367b_limits cpu)).
  { unfold startup_limits. change (Z.ones (l_ports (rtl8367b_limits cpu))) with 255. cbn. lia. }
  assert (Hr : rep_smi (I := rtl8367b_impl cpu Hcpu) s (smi_tables67 Y s))
    by (apply (rep_smi_tables67 Y HY); assumption).
  destruct (impl_startup (I := rtl8367b_impl cpu Hcpu) (zk_limits Y HY) s _ Hst Hr)
    as (s' & b & Hs' & (_ & _ & Hr') & Hstart & Hon & _).
  exists s'. split; [exact Hs' |]. split; [rewrite <- Hon; symmetry; apply (rq_on _ _ _ Hr') |].
  intros p Hp. cbv zeta.
  destruct (rep67_started Y HY _ _ Hr' Hstart ltac:(discriminate) p Hp) as (E1 & E2 & E3).
  change (ideal_ops (lz_limits Y)) with (ideal_ops (rtl8367b_limits cpu)) in E2, E3.
  rewrite startup_mask in E2, E3 by assumption. split; [exact E1 |].
  revert E2 E3. unfold mc67_words, row67_words, mc_key.
  change (tabulate 4 _) with [hw_reg (hw s') (mc67_base p + 0); hw_reg (hw s') (mc67_base p + 1);
                              hw_reg (hw s') (mc67_base p + 2); hw_reg (hw s') (mc67_base p + 3)].
  change (tabulate (g_words _) _) with [hw_row (hw s') (p + 1) 0; hw_row (hw s') (p + 1) 1].
  cbn -[Z.land Z.shiftr hw_reg hw_row]. rewrite !Z.shiftr_0_r. intros E2 E3.
  injection E2 as E2a E2b E2c. injection E3 as _ E3a E3b E3c. auto 10.
Qed.

#[local] Abbreviation mem67b := (mem_hw rtl8367b_geometry rtl8367b_geometry_ok).
#[local] Abbreviation bus67bm := (mem_bus rtl8367b_geometry).

Lemma zero67b_sane : @sane67 (rtl8367b_layout 5) _ _ (@hw67 _ bus67bm _ mem67b) (hw zero67).
Proof.
  split.
  - intros i Hi. vm_compute. repeat split; discriminate.
  - intros v Hv. cbn in Hv. unfold row_ok, row_nonneg, row_fits. cbn -[Z.ltb]. rewrite u16_small by lia.
    destruct (Z.ltb_spec v 4096); [| lia]. repeat split; discriminate || lia || reflexivity.
Qed.

Lemma rtl8367b_startup_registers_witness :
  exists s', @rtl8366_init_vlan (smi67 memchip) (@rtl8367b_smi_ops _ bus67bm 5) zero67 = (Ok tt, s') /\
    Z.testbit (@hw_reg _ _ _ (@hw67 _ bus67bm _ mem67b) (hw s') RTL8367B_VLAN_CTRL_REG) 0 = true.
Proof.
  destruct (@rtl8367b_startup_registers memchip bus67bm mem67b 5 zero67) as (s' & H1 & H2 & _).
  - split; [discriminate | reflexivity].
  - repeat split.
  - exact zero67b_sane.
  - exists s'. split; [exact H1 | exact H2].
Defined.

(** ** Counters

    The counter memory of these chips is [cm], 16-bit words; writing [d] to
    the address register puts words [4 d] to [4 d + 3] into the window. *)
Section Counters.
Context {V : Type} {B : RegBus V}.
#[local] Abbreviation W := (smi67 V).
Variables (good : W -> Prop) (sel : W -> Z) (cm : Z -> Z) (ctrl : Z).
Hypothesis good_select : forall d w, good w ->
  wp (wr RTL8367B_MIB_ADDRESS_REG d) (fun _ w' => good w' /\ sel w' = d) never w.
Hypothesis good_ctrl : forall w, good w ->
  wp (rd (RTL8367B_MIB_CTRL0_REG 0)) (fun d w' => d = ctrl /\ good w' /\ sel w' = sel w) never w.
Hypothesis good_window : forall k w, good w -> 0 <= k < 4 ->
  wp (rd (RTL8367B_MIB_COUNTER_REG k)) (fun d w' => d = cm (4 * sel w + k) /\ good w' /\ sel w' = sel w) never w.

Lemma shift_in_word acc d n : 0 <= acc -> (acc + 1) * 2 ^ (16 * Z.of_nat (S n)) <= 2 ^ 64 ->
  u64 (Z.lor (Z.shiftl acc 16) (Z.land d 0xFFFF)) = acc * 65536 + u16 d.
Proof.
  intros Hacc Hfit. pose proof (u16_range d) as Hd.
  replace (16 * Z.of_nat (S n)) with (16 * Z.of_nat n + 16) in Hfit by lia. rewrite Z.pow_add_r in Hfit by lia.
  pose proof (Z.pow_pos_nonneg 2 (16 * Z.of_nat n) ltac:(lia) ltac:(lia)).
  change 0xFFFF with (Z.ones 16). rewrite Z.land_ones, Z.lor_comm by lia.
  fold (uwrap 16 d). rewrite lor_shiftl_add by (exact Hd || lia). fold (u16 d).
  unfold u64. rewrite uwrap_small; [lia |]. nia.
Qed.

Lemma read_window_run n off acc w :
  good w -> Z.of_nat n <= off + 1 <= 4 -> 0 <= acc -> (acc + 1) * 2 ^ (16 * Z.of_nat n) <= 2 ^ 64 ->
  wp (read_window (RTL8367B_MIB_COUNTER_REG 0) off n acc)
     (fun v _ => v = acc * 2 ^ (16 * Z.of_nat n) + words_value cm (4 * sel w + off + 1 - Z.of_nat n) n) never w.
Proof.
  revert off acc w. induction n as [|n IH]; intros off acc w Hw Hoff Hacc Hfit; cbn [read_window words_value].
  - apply wp_ret. cbn. lia.
  - assert (Hreg : u32 (RTL8367B_MIB_COUNTER_REG 0 + off) = RTL8367B_MIB_COUNTER_REG off).
    { unfold RTL8367B_MIB_COUNTER_REG. rewrite u32_small; lia. }
    rewrite Hreg. wp_step. wp_use (good_window off w Hw); [lia |]. intros d w' (-> & Hw' & Hsel).
    rewrite (shift_in_word acc _ n Hacc Hfit). pose proof (u16_range (cm (4 * sel w + off))).
    assert (Hexp : 2 ^ (16 * Z.of_nat (S n)) = 2 ^ (16 * Z.of_nat n) * 65536).
    { replace (16 * Z.of_nat (S n)) with (16 * Z.of_nat n + 16) by lia. rewrite Z.pow_add_r by lia. reflexivity. }
    rewrite Hexp in *.
    eapply wp_mono; [apply IH; [exact Hw' | lia | lia | nia] | cbv beta | intros ? ? []].
    intros v _ ->. rewrite Hsel.
    replace (4 * sel w + (off - 1) + 1 - Z.of_nat n) with (4 * sel w + off + 1 - Z.of_nat (S n)) by lia.
    replace (4 * sel w + off + 1 - Z.of_nat (S n) + Z.of_nat n) with (4 * sel w + off) by lia. ring.
Qed.

(** Both drivers' read of the counter at a word address. *)
Lemma counter67_run addr n w :
  good w -> 0 <= addr < 2 ^ 20 ->
  n = 4 /\ Z.rem addr 4 = 0 \/ n = 2 /\ Z.rem addr 2 = 0 ->
  fst ((wr RTL8367B_MIB_ADDRESS_REG (Z.shiftr addr 2) ;;
        data <- rd (RTL8367B_MIB_CTRL0_REG 0) ;;
        if cbool (Z.land data (BIT 0)) then fail EBUSY else
        if cbool (Z.land data (BIT 1)) then fail EIO else
        read_window (RTL8367B_MIB_COUNTER_REG 0) (if n =? 4 then 3 else Z.rem (addr + 1) 4) (Z.to_nat n) 0) w)
  = mib_result ctrl (words_value cm addr (Z.to_nat n)).
Proof.
  intros Hw Ha Hn.
  destruct (wp_never _ _ _ (good_select (Z.shiftr addr 2) w Hw)) as ([] & v1 & Hr1 & Hv1 & Hs1).
  rewrite (bind_ok _ _ _ _ _ Hr1).
  destruct (wp_never _ _ _ (good_ctrl v1 Hv1)) as (d & v2 & Hr2 & -> & Hv2 & Hs2).
  rewrite (bind_ok _ _ _ _ _ Hr2), !cbool_land_BIT by lia. unfold mib_result.
  destruct (Z.testbit ctrl 0); [reflexivity |]. destruct (Z.testbit ctrl 1); [reflexivity |].
  rewrite Z.shiftr_div_pow2 in Hs1 by lia. change (2 ^ 2) with 4 in Hs1.
  set (off := if n =? 4 then 3 else Z.rem (addr + 1) 4).
  assert (Hoff : 4 * sel v2 + off + 1 - n = addr /\ n <= off + 1 <= 4).
  { rewrite Hs2, Hs1. unfold off. destruct Hn as [[-> Hn] | [-> Hn]]; cbn [Z.eqb Pos.eqb];
      Z.to_euclidean_division_equations; lia. }
  destruct Hoff as [Hoff Hle].
  assert (Hfit : (0 + 1) * 2 ^ (16 * Z.of_nat (Z.to_nat n)) <= 2 ^ 64).
  { rewrite Z.mul_1_l. apply Z.pow_le_mono_r; lia. }
  destruct (wp_never _ _ _ (read_window_run (Z.to_nat n) off 0 v2 Hv2 ltac:(lia) ltac:(lia) Hfit))
    as (x & v3 & -> & ->).
  rewrite Z2Nat.id by lia. rewrite Hoff. reflexivity.
Qed.

Definition counter67_ok (m : rtl8366_mib_counter) : bool :=
  (0 <=? mib_offset m) && (mib_offset m <? 128) &&
  ((mib_length m =? 4) && (Z.rem (mib_offset m) 4 =? 0) || (mib_length m =? 2) && (Z.rem (mib_offset m) 2 =? 0)).

Lemma counter67_in l n c : forallb counter67_ok l = true -> Z.of_nat (length l) = n -> 0 <= c < n ->
  counter67_ok (geti (MibCounter (-1) 0 0 "") l c) = true.
Proof.
  intros Hall Hn Hc. rewrite forallb_forall in Hall. apply Hall. apply nth_In. lia.
Qed.

(** The counters of the two chips, on one address scheme: [stride] words a port. *)
Lemma counter67_read stride port m w :
  good w -> counter67_ok m = true -> 0 <= port <= 16 -> stride = 0x50 \/ stride = 0x7c ->
  fst ((wr RTL8367B_MIB_ADDRESS_REG (Z.shiftr (u32 (stride * port + mib_offset m)) 2) ;;
        data <- rd (RTL8367B_MIB_CTRL0_REG 0) ;;
        if cbool (Z.land data (BIT 0)) then fail EBUSY else
        if cbool (Z.land data (BIT 1)) then fail EIO else
        read_window (RTL8367B_MIB_COUNTER_REG 0) (if mib_length m =? 4 then 3 else Z.rem (mib_offset m + 1) 4)
          (Z.to_nat (mib_length m)) 0) w)
  = mib_result ctrl (words_value cm (stride * port + mib_offset m) (Z.to_nat (mib_length m))).
Proof.
  intros Hw Hm Hp Hs. unfold counter67_ok in Hm.
  rewrite u32_small by nia. set (addr := stride * port + mib_offset m).
  assert (Hrem : Z.rem (mib_offset m + 1) 4 = Z.rem (addr + 1) 4).
  { unfold addr. destruct Hs as [-> | ->]; Z.to_euclidean_division_equations; lia. }
  rewrite Hrem. apply counter67_run; [exact Hw | unfold addr; nia |].
  unfold addr. destruct Hs as [-> | ->]; Z.to_euclidean_division_equations; lia.
Qed.

(** Equivalence. Reading a counter of either chip through the four-word
    window gives the number held by that counter's own words of the counter
    memory, least significant word first, in full; [-EBUSY] and [-EIO]
    exactly as the control register says; a counter the table does not have
    is refused.  The port is compared with [>]: the number one past the last
    port is read too, and beyond that it is refused. *)
Theorem counter67_value counter port w :
  good w -> 0 <= counter -> 0 <= port ->
  fst (rtl8367b_get_mib_counter counter port w)
  = (if (RTL8367B_NUM_PORTS <? port) || (RTL8367B_NUM_MIB_COUNTERS <=? counter) then Err (- EINVAL) else
     let m := geti (MibCounter (-1) 0 0 "") rtl8367b_mib_counters counter in
     mib_result ctrl (words_value cm (0x7c * port + mib_offset m) (Z.to_nat (mib_length m)))) /\
  fst (rtl8367_get_mib_counter counter port w)
  = (if (RTL8367_NUM_PORTS <? port) || (RTL8367_MIB_COUNT <=? counter) then Err (- EINVAL) else
     let m := geti (MibCounter (-1) 0 0 "") rtl8367_mib_counters counter in
     mib_result ctrl (words_value cm (0x50 * port + mib_offset m) (Z.to_nat (mib_length m)))).
Proof.
  intros Hw Hc Hp. unfold rtl8367b_get_mib_counter, rtl8367_get_mib_counter, RTL8367B_NUM_PORTS,
    RTL8367B_NUM_MIB_COUNTERS, RTL8367_NUM_PORTS, RTL8367_MIB_COUNT. split.
  - destruct (Z.ltb_spec 8 port), (Z.leb_spec 58 counter); try reflexivity. cbn [orb].
    apply (counter67_read 0x7c port _ w Hw); [| lia | auto].
    apply (counter67_in _ 58); [reflexivity | reflexivity | lia].
  - destruct (Z.ltb_spec 10 port), (Z.leb_spec 36 counter); try reflexivity. cbn [orb].
    apply (counter67_read 0x50 port _ w Hw); [| lia | auto].
    apply (counter67_in _ 36); [reflexivity | reflexivity | lia].
Qed.
End Counters.

(** A counter memory in which every word is its own address. *)
Definition counter_bus : RegBus Z := {|
  rtl8366_smi_read_reg a := fun sel =>
    (Ok (if a =? RTL8367B_MIB_CTRL0_REG 0 then 0 else u16 (4 * sel + (a - RTL8367B_MIB_COUNTER_REG 0))), sel);
  rtl8366_smi_write_reg a d := modify (fun sel => if a =? RTL8367B_MIB_ADDRESS_REG then d else sel);
  rtl8366_smi_write_reg_noack a d := ret tt
|}.

(** Port 2, the octets received of an RTL8367B and the symbol errors of an RTL8367. *)
Lemma counter67_value_witness :
  fst (@rtl8367b_get_mib_counter Z counter_bus 0 2 (rtl8367b_probed 0)) = Ok 0x00fb00fa00f900f8 /\
  fst (@rtl8367_get_mib_counter Z counter_bus 2 2 (rtl8367b_probed 0)) = Ok 0x00a700a6.
Proof.
  assert (Hread : forall k (w : smi67 Z), True -> 0 <= k < 4 ->
    wp (@rd _ (@bus_of_67 _ counter_bus) (RTL8367B_MIB_COUNTER_REG k))
       (fun d w' => d = u16 (4 * bus67 w + k) /\ True /\ bus67 w' = bus67 w) never w).
  { intros k w _ Hk. assert (Hcase : k = 0 \/ k = 1 \/ k = 2 \/ k = 3) by lia.
    destruct Hcase as [-> | [-> | [-> | ->]]]; repeat split; reflexivity. }
  split.
  - refine (proj1 (@counter67_value Z counter_bus (fun _ => True) bus67 u16 0 _ _ Hread 0 2 _ _ _ _)).
    + intros d w _. split; reflexivity.
    + intros w _. repeat split; reflexivity.
    + exact Logic.I.
    + discriminate.
    + discriminate.
  - refine (proj2 (@counter67_value Z counter_bus (fun _ => True) bus67 u16 0 _ _ Hread 2 2 _ _ _ _)).
    + intros d w _. split; reflexivity.
    + intros w _. repeat split; reflexivity.
    + exact Logic.I.
    + discriminate.
    + discriminate.
Defined.

(** ** PVIDs of family D

    These chips have neither member configurations nor indices to them: a
    port has a PVID register and the driver keeps the member configurations
    itself. *)

Definition rtl8367d_geometry : geometry := {|
  g_storage b := (RTL8367D_VLAN_PVID_CTRL_REG 0 <=? b) && (b <? RTL8367D_VLAN_PVID_CTRL_REG RTL8367B_NUM_PORTS);
  g_ctrl := RTL8367B_TA_CTRL_REG;
  g_rd := RTL8367B_TA_CTRL_CVLAN_READ;
  g_wr := RTL8367B_TA_CTRL_CVLAN_WRITE;
  g_rbase := RTL8367B_TA_RDDATA_REG 0;
  g_key := RTL8367B_TA_ADDR_REG;
  g_wbase := RTL8367B_TA_WRDATA_REG 0;
  g_words := RTL8367B_TA_VLAN_NUM_WORDS
|}.

Lemma rtl8367d_geometry_ok : geometry_ok rtl8367d_geometry.
Proof. split; [reflexivity | | discriminate]. intros b. cbv -[Z.leb Z.ltb Z.eqb orb andb]. lia. Qed.

Section FamilyD.
Context {V : Type} {B : RegBus V} {HW : SwitchHw V rtl8367d_geometry}.

(** A working chip of family D with the emulated table [e]. *)
Record family_D (s : smi67 V) (e : list vlan_mc) : Prop := {
  fd_ok : hw_ok (bus67 s);
  fd_chip : family_d (chip67 s) = true;
  fd_emu : emu_vlanmc s = Some e;
  fd_len : Z.of_nat (length e) = RTL8367B_NUM_VLANS;
  fd_vids i : 0 <= i < RTL8367B_NUM_VLANS -> 0 <= mc_vid (geti mc0 e i) < RTL8367B_NUM_VIDS
}.

Definition pvid67 (s : smi67 V) (p : Z) : Z :=
  Z.land (hw_reg (bus67 s) (RTL8367D_VLAN_PVID_CTRL_REG p)) RTL8367D_VLAN_PVID_CTRL_MASK.

(** The first entry with a VID. *)
Definition entry_of (e : list vlan_mc) (vid : Z) : option Z :=
  find RTL8367B_NUM_VLANS (fun i => vid =? mc_vid (geti mc0 e i)).

Lemma pvid_reg p : 0 <= p < RTL8367B_NUM_PORTS ->
  g_storage rtl8367d_geometry (RTL8367D_VLAN_PVID_CTRL_REG p) = true.
Proof. cbv -[Z.leb Z.ltb Z.le Z.lt Z.add andb]. lia. Qed.

Lemma get_vlan_mc_emu s e i : family_D s e -> 0 <= i < RTL8367B_NUM_VLANS ->
  exists mc, rtl8367b_get_vlan_mc i s = (Ok mc, s) /\ mc_vid mc = mc_vid (geti mc0 e i).
Proof.
  intros [_ _ He _ _] Hi. unfold rtl8367b_get_vlan_mc. destruct (Z.leb_spec RTL8367B_NUM_VLANS i); [lia |].
  unfold get_state, bind. rewrite He. eexists. split; [reflexivity |]. reflexivity.
Qed.

Lemma get_index_D s e p : family_D s e -> 0 <= p < RTL8367B_NUM_PORTS ->
  fst (rtl8367b_get_mc_index p s)
  = match entry_of e (pvid67 s p) with Some i => Ok i | None => Err (- EINVAL) end.
Proof.
  intros Hd Hp. pose proof Hd as [Hok Hc He Hlen Hv]. unfold rtl8367b_get_mc_index.
  destruct (Z.leb_spec RTL8367B_NUM_PORTS p); [lia |]. unfold get_state, bind at 1. rewrite Hc.
  destruct (wp_never _ _ _ (hw_read _ _ Hok (visible_storage _ _ (pvid_reg p Hp)))) as (d & w' & Hrd & -> & Hok' & _).
  assert (Hrun : rd (RTL8367D_VLAN_PVID_CTRL_REG p) s
                 = (Ok (hw_reg (bus67 s) (RTL8367D_VLAN_PVID_CTRL_REG p)), set_bus67 w' s)).
  { unfold rd. cbn. unfold on_bus. rewrite Hrd. reflexivity. }
  rewrite (bind_ok _ _ _ _ _ Hrun). fold (pvid67 s p). cbv zeta.
  assert (Hd' : family_D (set_bus67 w' s) e) by (split; assumption).
  erewrite (bind_ok _ _ _ (entry_of e (pvid67 s p)) (set_bus67 w' s)).
  - destruct (entry_of _ _); reflexivity.
  - erewrite (search_run _ _ (fun i => pvid67 s p =? mc_vid (geti mc0 e i)) (fun i => (Ok (Some i), set_bus67 w' s))).
    + unfold entry_of. destruct (find _ _); reflexivity.
    + intros i Hi. destruct (get_vlan_mc_emu _ e i Hd' Hi) as (mc & Hmc & Hvid).
      rewrite (bind_ok _ _ _ _ _ Hmc), Hvid. destruct (_ =? _); reflexivity.
    + discriminate.
Qed.

Lemma set_index_D s e p i : family_D s e -> 0 <= p < RTL8367B_NUM_PORTS -> 0 <= i < RTL8367B_NUM_VLANS ->
  exists s', rtl8367b_set_mc_index p i s = (Ok tt, s') /\ family_D s' e /\
    forall q, 0 <= q < RTL8367B_NUM_PORTS ->
      pvid67 s' q = if q =? p then mc_vid (geti mc0 e i) else pvid67 s q.
Proof.
  intros Hd Hp Hi. pose proof Hd as [Hok Hc He Hlen Hv]. unfold rtl8367b_set_mc_index.
  destruct (Z.leb_spec RTL8367B_NUM_PORTS p), (Z.leb_spec RTL8367B_NUM_VLANS i); try lia. cbn [orb].
  unfold get_state, bind at 1. rewrite Hc. destruct (get_vlan_mc_emu s e i Hd Hi) as (mc & Hmc & Hvid).
  rewrite (bind_ok _ _ _ _ _ Hmc), Hvid. pose proof (Hv i Hi) as Hr. unfold RTL8367B_NUM_VIDS in Hr.
  assert (Hland : Z.land (mc_vid (geti mc0 e i)) RTL8367D_VLAN_PVID_CTRL_MASK = mc_vid (geti mc0 e i)).
  { change RTL8367D_VLAN_PVID_CTRL_MASK with (Z.ones 12). rewrite Z.land_ones by lia. apply Z.mod_small. lia. }
  rewrite Hland.
  destruct (wp_never _ _ _ (hw_write _ (mc_vid (geti mc0 e i)) _ Hok (writable_storage _ _ (pvid_reg p Hp))))
    as ([] & w' & Hwr & Hok' & Hreg & _).
  exists (set_bus67 w' s). split; [unfold wr; cbn; unfold on_bus; rewrite Hwr; reflexivity |].
  split; [split; assumption |]. intros q Hq. unfold pvid67. cbn [bus67 set_bus67].
  rewrite Hreg by (apply writable_storage, pvid_reg, Hq). unfold RTL8367D_VLAN_PVID_CTRL_REG at 1 2.
  destruct (Z.eqb_spec q p) as [-> | Hne].
  - rewrite Z.eqb_refl, u16_small by lia. exact Hland.
  - destruct (Z.eqb_spec (0x0700 + q) (0x0700 + p)); [lia | reflexivity].
Qed.

(** Family D. Looking up the MC index of a port gives the first emulated
    entry with the port's PVID, and fails with [-EINVAL] when no entry has
    it, as after the table was reset under a port that had a PVID; giving a
    port an entry stores the entry's VID and no other port's, and then the
    lookup finds an entry with that VID, at or before the given one. *)
Theorem rtl8367d_pvid s e p i :
  family_D s e -> 0 <= p < RTL8367B_NUM_PORTS -> 0 <= i < RTL8367B_NUM_VLANS ->
  fst (rtl8367b_get_mc_index p s)
  = match entry_of e (pvid67 s p) with Some j => Ok j | None => Err (- EINVAL) end /\
  exists s', rtl8367b_set_mc_index p i s = (Ok tt, s') /\ family_D s' e /\
    (forall q, 0 <= q < RTL8367B_NUM_PORTS ->
       pvid67 s' q = if q =? p then mc_vid (geti mc0 e i) else pvid67 s q) /\
    exists j, fst (rtl8367b_get_mc_index p s') = Ok j /\ 0 <= j <= i /\
      mc_vid (geti mc0 e j) = mc_vid (geti mc0 e i).
Proof.
  intros Hd Hp Hi. split; [apply get_index_D; assumption |].
  destruct (set_index_D s e p i Hd Hp Hi) as (s' & Hs & Hd' & Hpv). exists s'.
  split; [exact Hs |]. split; [exact Hd' |]. split; [exact Hpv |].
  rewrite (get_index_D s' e p Hd' Hp), Hpv, Z.eqb_refl by exact Hp.
  unfold entry_of. destruct (find _ _) as [j |] eqn:Hf.
  - apply find_Some in Hf. destruct Hf as (Hj & Heq & Hfirst). exists j. split; [reflexivity |].
    apply Z.eqb_eq in Heq. split; [| congruence]. split; [lia |].
    destruct (Z.le_gt_cases j i) as [| Hlt]; [assumption |].
    specialize (Hfirst i ltac:(lia)). rewrite Z.eqb_refl in Hfirst. discriminate.
  - exfalso. rewrite find_None in Hf. specialize (Hf i Hi). rewrite Z.eqb_refl in Hf. discriminate.
Qed.
End FamilyD.

(** A chip of family D in memory: entries 3 and 5 are VLAN 7, port 1 has the
    unknown PVID 9. *)
Definition demo_emu : list vlan_mc :=
  seti (seti (repeat mc0 32) 3 (VlanMc 7 1 1 0 0)) 5 (VlanMc 7 2 2 0 0).
Definition demo_D : smi67 memchip :=
  Smi67 (MemChip (fun a => if a =? 0x701 then 9 else 0) (fun _ _ => 0)) 6 RTL8367B_CHIP_RTL8367S_VB (Some demo_emu).
#[local] Abbreviation mem67d := (mem_hw rtl8367d_geometry rtl8367d_geometry_ok).
#[local] Abbreviation bus67d := (mem_bus rtl8367d_geometry).

Lemma rtl8367d_pvid_witness :
  fst (@rtl8367b_get_mc_index _ bus67d 1 demo_D) = Err (- EINVAL) /\
  exists s', @rtl8367b_set_mc_index _ bus67d 1 5 demo_D = (Ok tt, s') /\
    @pvid67 _ bus67d mem67d s' 1 = 7 /\ @pvid67 _ bus67d mem67d s' 2 = 0.
Proof.
  destruct (@rtl8367d_pvid memchip bus67d mem67d demo_D demo_emu 1 5) as (H1 & s' & H2 & _ & H3 & _).
  - split; try reflexivity. intros i Hi.
    assert (Hall : forallb (fun mc => (0 <=? mc_vid mc) && (mc_vid mc <? 4096)) demo_emu = true) by reflexivity.
    rewrite forallb_forall in Hall. unfold RTL8367B_NUM_VIDS, RTL8367B_NUM_VLANS in *.
    assert (Hin : In (geti mc0 demo_emu i) demo_emu) by (apply nth_In; cbn [length]; change (length demo_emu) with 32%nat; lia).
    specialize (Hall _ Hin). lia.
  - split; [discriminate | reflexivity].
  - split; [discriminate | reflexivity].
  - split; [rewrite H1; vm_compute; reflexivity |]. exists s'. split; [exact H2 |].
    split; [rewrite (H3 1) | rewrite (H3 2)]; (reflexivity || (split; [discriminate | reflexivity])).
Defined.

(** ** Set-up gives the switch its CPU port *)

Section Setup.
Context {V : Type} {B : RegBus V}.
Variables (c : Z) (k : rtl8367b_chip_t).

(** What register accesses do not touch. *)
Definition fields67 (s : smi67 V) : Prop := cpu_port67 s = c /\ chip67 s = k.

Lemma on_bus_fields {A} (m : M V A) : preserves fields67 (on_bus m).
Proof. intros s H. unfold on_bus. destruct (m (bus67 s)). exact H. Qed.

Lemma rd_fields a : preserves fields67 (rd a).
Proof. apply on_bus_fields. Qed.
Lemma wr_fields a d : preserves fields67 (wr a d).
Proof. apply on_bus_fields. Qed.
Lemma get_state_fields : preserves fields67 (get_state (W := smi67 V)).
Proof. intros s H. exact H. Qed.
Lemma set_emu_fields e : preserves fields67 (modify (@set_emu V e)).
Proof. intros s H. exact H. Qed.
#[local] Hint Resolve rd_fields wr_fields get_state_fields set_emu_fields : preserves.

Lemma rmwr_fields a mask d : preserves fields67 (rtl8366_smi_rmwr a mask d).
Proof. unfold rtl8366_smi_rmwr. apply preserves_bind; [apply on_bus_fields | intros; apply on_bus_fields]. Qed.
Lemma initvals_fields l : preserves fields67 (write_initvals l).
Proof. induction l as [| [r v] l IH]; cbn [write_initvals]; auto with preserves. Qed.
Lemma poll_fields r b n t : preserves fields67 (phy_poll r b n t).
Proof. revert t. induction n as [|n IH]; intros t; cbn [phy_poll]; auto with preserves. Qed.
#[local] Hint Resolve rmwr_fields initvals_fields poll_fields : preserves.

Lemma extif_b_fields id cfg : preserves fields67 (rtl8367b_extif_init id cfg).
Proof.
  unfold rtl8367b_extif_init, rtl8367b_extif_set_mode, rtl8367b_extif_set_force, rtl8367b_extif_set_rgmii_delay.
  cbv zeta. auto 20 with preserves.
Qed.
Lemma extif_fields id cfg : preserves fields67 (rtl8367_extif_init id cfg).
Proof.
  unfold rtl8367_extif_init, rtl8367_extif_set_mode, rtl8367_extif_set_force, rtl8367_extif_set_rgmii_delay.
  cbv zeta. auto 20 with preserves.
Qed.
Lemma init_regs_b_fields e : preserves fields67 (rtl8367b_init_regs e).
Proof. unfold rtl8367b_init_regs, rtl8367b_write_initvals. cbv zeta. auto 20 with preserves. Qed.
Lemma init_regs_fields : preserves fields67 rtl8367_init_regs.
Proof.
  unfold rtl8367_init_regs, rtl8367_init_regs0, rtl8367_init_regs1, rtl8367_init_regs2, rtl8367_write_initvals,
    rtl8367_write_phy_reg, rtl8367_read_phy_reg. cbv zeta. auto 20 with preserves.
Qed.
#[local] Hint Resolve extif_b_fields extif_fields init_regs_b_fields init_regs_fields : preserves.
Lemma others_b_fields id : preserves fields67 (rtl8367b_disable_others id).
Proof. unfold rtl8367b_disable_others. cbv zeta. auto 20 with preserves. Qed.
Lemma others_fields id : preserves fields67 (rtl8367_disable_others id).
Proof. unfold rtl8367_disable_others. cbv zeta. auto 20 with preserves. Qed.
#[local] Hint Resolve others_b_fields others_fields : preserves.
End Setup.

Create HintDb fields discriminated.
#[export] Hint Resolve rd_fields wr_fields rmwr_fields init_regs_b_fields init_regs_fields extif_b_fields extif_fields
  others_b_fields others_fields : fields.

Section CpuPort.
Context {V : Type} {B : RegBus V}.
#[local] Abbreviation whatever := (fun _ _ => True).

(** A call that leaves the fields alone, with an error of no interest. *)
Lemma wp_fields {A} c k (m : M (smi67 V) A) s :
  preserves (fields67 c k) m -> fields67 c k s -> wp m (fun _ => fields67 c k) whatever s.
Proof. intros Hm Hs. eapply wp_mono; [apply wp_preserves; eassumption | auto | auto]. Qed.

(** The error path of both drivers. *)
Lemma others_then_fail k (m : M (smi67 V) unit) (Q : unit -> smi67 V -> Prop) s :
  preserves (fields67 UINT_MAX k) m -> fields67 UINT_MAX k s -> wp (m ;; fail EINVAL) Q whatever s.
Proof.
  intros Hm Hs. wp_step. wp_use (wp_fields UINT_MAX k m s Hm Hs). intros _ s1 _. exact Logic.I.
Qed.

Lemma extif_b_cpu alloc prop k s :
  fields67 UINT_MAX k s ->
  wp (rtl8367b_extif_init_of alloc prop)
     (fun _ s' => exists cpu, rtl8367b_extif_id k cpu <> None /\ fields67 cpu k s') whatever s.
Proof.
  intros [Hc Hk]. unfold rtl8367b_extif_init_of.
  destruct prop as [words |]; [destruct (extif_config_of words) as [[cpu cfg] |] |];
    [| apply (others_then_fail k); [apply others_b_fields | split; assumption] ..].
  apply wp_bind, wp_get_state. rewrite Hk.
  destruct (rtl8367b_extif_id k cpu) as [id |] eqn:Hid.
  - rewrite Hc, Z.eqb_refl. wp_step. apply wp_modify. destruct alloc; cbn [negb]; [| wp_step; exact Logic.I].
    assert (Hs : fields67 cpu k (set_cpu_port67 cpu s)) by (split; [reflexivity | exact Hk]).
    wp_step. wp_use (wp_fields cpu k (catch (rtl8367b_extif_init id (Some cfg))) _
      (preserves_catch _ _ (extif_b_fields cpu k id (Some cfg))) Hs).
    intros err s1 Hs1. wp_step. wp_use (wp_fields cpu k _ _ (others_b_fields cpu k id) Hs1).
    intros _ s2 Hs2. destruct err; [| exact Logic.I]. exists cpu. split; [congruence | exact Hs2].
  - apply (others_then_fail k); [apply others_b_fields | split; assumption].
Qed.

Lemma extif_cpu alloc prop k s :
  fields67 UINT_MAX k s ->
  wp (rtl8367_extif_init_of alloc prop)
     (fun _ s' => exists cpu, rtl8367_extif_id cpu <> None /\ fields67 cpu k s') whatever s.
Proof.
  intros [Hc Hk]. unfold rtl8367_extif_init_of.
  destruct prop as [words |]; [destruct (extif_config_of words) as [[cpu cfg] |] |];
    [| apply (others_then_fail k); [apply others_fields | split; assumption] ..].
  destruct (rtl8367_extif_id cpu) as [id |] eqn:Hid;
    [| apply (others_then_fail k); [apply others_fields | split; assumption]].
  apply wp_bind, wp_get_state.
  rewrite Hc, Z.eqb_refl. wp_step. apply wp_modify. destruct alloc; cbn [negb]; [| wp_step; exact Logic.I].
  assert (Hs : fields67 cpu k (set_cpu_port67 cpu s)) by (split; [reflexivity | exact Hk]).
  wp_step. wp_use (wp_fields cpu k (catch (rtl8367_extif_init id (Some cfg))) _
    (preserves_catch _ _ (extif_fields cpu k id (Some cfg))) Hs).
  intros err s1 Hs1. wp_step. wp_use (wp_fields cpu k _ _ (others_fields cpu k id) Hs1).
  intros _ s2 Hs2. destruct err; [| exact Logic.I]. exists cpu. split; [congruence | exact Hs2].
Qed.

(** Safety of set-up. When the set-up of a freshly probed switch
    succeeds, the CPU port is one of the ports the switch has, and one with
    an external interface on this chip, which is what the core and the
    start-up theorems assume; without a usable device tree property set-up
    fails, so the core never runs with the CPU port unset. *)
Theorem setup_gives_cpu_port emu alloc prop s :
  cpu_port67 s = UINT_MAX ->
  (forall s', rtl8367b_setup emu alloc prop s = (Ok tt, s') ->
     0 <= cpu_port67 s' < RTL8367B_NUM_PORTS /\ chip67 s' = chip67 s /\
     rtl8367b_extif_id (chip67 s') (cpu_port67 s') <> None) /\
  (forall s', rtl8367_setup alloc prop s = (Ok tt, s') ->
     0 <= cpu_port67 s' < RTL8367_NUM_PORTS /\ rtl8367_extif_id (cpu_port67 s') <> None).
Proof.
  intros Hc. assert (Hs : fields67 UINT_MAX (chip67 s) s) by (split; [exact Hc | reflexivity]).
  split; intros s' Hrun.
  - assert (Hw : wp (rtl8367b_setup emu alloc prop)
      (fun _ s' => exists cpu, rtl8367b_extif_id (chip67 s) cpu <> None /\ fields67 cpu (chip67 s) s') whatever s).
    { unfold rtl8367b_setup. wp_step. wp_use (wp_fields _ _ _ _ (init_regs_b_fields _ _ emu) Hs). intros _ s1 Hs1.
      wp_step. wp_use (extif_b_cpu alloc prop _ s1 Hs1). intros _ s2 (cpu & Hid & Hs2).
      eapply wp_mono; [apply (wp_fields cpu (chip67 s)); [| exact Hs2] | cbv beta; eauto | auto].
      unfold for_each. auto 12 with preserves fields. }
    unfold wp in Hw. rewrite Hrun in Hw. destruct Hw as (cpu & Hid & <- & Hk).
    rewrite Hk. split; [| auto]. unfold rtl8367b_extif_id, RTL8367B_CPU_PORT_NUM, RTL8367B_NUM_PORTS in *.
    destruct (Z.leb_spec 5 (cpu_port67 s')), (Z.leb_spec (cpu_port67 s') (5 + 2)); try contradiction. lia.
  - assert (Hw : wp (rtl8367_setup alloc prop)
      (fun _ s' => exists cpu, rtl8367_extif_id cpu <> None /\ fields67 cpu (chip67 s) s') whatever s).
    { unfold rtl8367_setup. wp_step. wp_use (wp_fields _ _ _ _ (init_regs_fields _ _) Hs). intros _ s1 Hs1.
      wp_step. wp_use (extif_cpu alloc prop _ s1 Hs1). intros _ s2 (cpu & Hid & Hs2).
      eapply wp_mono; [apply (wp_fields cpu (chip67 s)); [| exact Hs2] | cbv beta; eauto | auto].
      unfold for_each, rtl8367_led_group_set_ports, rtl8367_led_group_set_mode, rtl8367_led_op_select_parallel,
        rtl8367_led_blinkrate_set, rtl8367_led_group_set_config. cbv zeta. auto 12 with preserves fields. }
    unfold wp in Hw. rewrite Hrun in Hw. destruct Hw as (cpu & Hid & <- & Hk).
    split; [| exact Hid]. unfold rtl8367_extif_id, RTL8367_CPU_PORT_NUM, RTL8367_NUM_PORTS in *.
    destruct (Z.eqb_spec (cpu_port67 s') (9 - 1)), (Z.eqb_spec (cpu_port67 s') 9); try contradiction; lia.
Qed.
End CpuPort.

(** An RTL8367RB whose device tree puts the CPU on port 6, RGMII, 1000 Mbit/s. *)
Definition fresh_rb : smi67 unit := Smi67 tt UINT_MAX RTL8367B_CHIP_RTL8367RB None.
Definition rgmii_port_6 : list Z := [6; 1; 0; 1; 1; 1; 1; 1; 1; 2].

Lemma setup_gives_cpu_port_witness :
  let s' := snd (@rtl8367b_setup unit (rom_bus (fun _ => 0)) None true (Some rgmii_port_6) fresh_rb) in
  0 <= cpu_port67 s' < RTL8367B_NUM_PORTS /\ cpu_port67 s' = 6.
Proof.
  intros s'. split; [| vm_compute; reflexivity].
  apply (proj1 (@setup_gives_cpu_port unit (rom_bus (fun _ => 0)) None true (Some rgmii_port_6) fresh_rb eq_refl) s').
  vm_compute. reflexivity.
Defined.

(** ** The wait for the PHY window

    [if (timeout--)] tests the old value: with the limit of 5 the loop reads
    the status once, and a busy answer is a time-out at once. *)
Lemma phy_poll_once {V} {B : RegBus V} reg busy fuel timeout :
  timeout <> 0 ->
  phy_poll reg busy (S fuel) timeout
  = (data <- rd reg ;; if Z.land data busy =? 0 then ret tt else fail ETIMEDOUT).
Proof.
  intros Ht. cbn [phy_poll]. unfold cbool. destruct (Z.eqb_spec timeout 0); [contradiction | reflexivity].
Qed.
