(* ===== verification/SmiTextProps.v ===== *)
(** * Properties of the texts of the switch core

    How long the debugfs table of all counters is, against the buffer it is
    printed into, and on which chips it does not fit. *)

From S2P Require Import Prelude Text CMonad SmiWire SmiCore Regs SmiText Rtl8366s Rtl8366rb Rtl8367b Rtl8367.

(** ** Printing *)

(** What [emit] does to the length: it grows by the text until it passes the
    end of the buffer, and then stays. *)
Lemma emit_len text o :
  o_len (emit text o) = if sizeof_buf <? o_len o then o_len o else o_len o + Z.of_nat (String.length text).
Proof.
  unfold emit. destruct (Z.ltb_spec (sizeof_buf - o_len o) 0), (Z.ltb_spec sizeof_buf (o_len o)); try lia; reflexivity.
Qed.

(** [n] characters have been printed, as far as the buffer goes. *)
Definition printed (n : Z) (o : out) : Prop := n <= o_len o \/ sizeof_buf < o_len o.

Lemma printed_emit n k text o :
  printed n o -> k <= Z.of_nat (String.length text) -> printed (n + k) (emit text o).
Proof.
  unfold printed. rewrite emit_len. intros H Hk. destruct (Z.ltb_spec sizeof_buf (o_len o)); lia.
Qed.

(** Exactly [n] characters, all of them in the buffer, if they fit. *)
Definition exact (n : Z) (o : out) : Prop :=
  n < sizeof_buf -> o_len o = n /\ Z.of_nat (String.length (o_buf o)) = n.

Lemma exact_emit n k text o : exact n o -> Z.of_nat (String.length text) = k -> exact (n + k) (emit text o).
Proof.
  unfold exact, emit. intros H Hk Hn. destruct H as [Hl Hb]; [lia |]. rewrite Hl.
  destruct (Z.ltb_spec (sizeof_buf - n) 0); [lia |]. cbn [o_len o_buf].
  rewrite substring_all by lia. rewrite length_app_s. lia.
Qed.

Lemma start_printed : printed 0 start /\ exact 0 start.
Proof. split; [left; cbn; lia | intros _; split; reflexivity]. Qed.

(** ** The table of all counters *)

Section Mibs.
Context {W : Type} {O : SmiOps W} {C : ChipOps W}.
Hypothesis ports_nonneg : 0 <= num_ports.

(** The least length of the table: [n] lines for [p] ports. *)
Definition line_size (p : Z) : Z := 37 + 13 * p + 1.
Definition mibs_size (n p : Z) : Z := 36 + 13 * p + 1 + n * line_size p.

(** Both measures of what has been printed; the second while every name
    [short] and every counter [small]. *)
Definition measured (regular : Prop) (n : Z) (o : out) : Prop := printed n o /\ (regular -> exact n o).

Lemma measured_emit regular n k text o :
  measured regular n o -> k <= Z.of_nat (String.length text) ->
  (regular -> Z.of_nat (String.length text) = k) -> measured regular (n + k) (emit text o).
Proof.
  intros [Hp He] Hle Heq. split; [apply printed_emit; assumption |]. intros Hr. apply exact_emit; auto.
Qed.

Lemma wp_print_each regular n k count o (body : Z -> out -> M (smi W) out) s :
  0 <= count -> measured regular n o ->
  (forall i m o s, 0 <= i < count -> measured regular m o ->
     wp (body i o) (fun o' _ => measured regular (m + k) o') never s) ->
  wp (print_each count o body) (fun o' _ => measured regular (n + k * count) o') never s.
Proof.
  intros Hc Ho Hbody. unfold print_each.
  apply (wp_loop_acc (fun i o _ => measured regular (n + k * i) o)).
  - rewrite Z.mul_0_r, Z.add_0_r. exact Ho.
  - intros i o' s' Hi Ho'. replace (n + k * (i + 1)) with (n + k * i + k) by lia. apply Hbody; [lia | exact Ho'].
  - intros o' s' Ho'. rewrite Z2Nat.id in Ho' by exact Hc. exact Ho'.
Qed.

(** The first [n] counters of every port have at most twelve digits. *)
Definition small_counters (n : Z) : Prop :=
  forall i j w v w', 0 <= i < n -> 0 <= j < num_ports -> get_mib_counter i j w = (Ok v, w') -> 0 <= v < 10 ^ 12.

Definition short_names (counters : list rtl8366_mib_counter) : Prop :=
  forall c, In c counters -> (String.length (mib_name c) <= 36)%nat.

Lemma length_decimal_small v : 0 <= v < 10 ^ 12 -> (String.length (decimal v) <= 12)%nat.
Proof.
  intros Hv. unfold decimal. destruct (Z.ltb_spec v 0); [lia |]. apply length_digits; [lia | exact Hv].
Qed.

Lemma print_mib_line_size (regular : Prop) n i count name o s :
  0 <= i < count -> (regular -> (String.length name <= 36)%nat /\ small_counters count) -> measured regular n o ->
  wp (print_mib_line i name o) (fun o' _ => measured regular (n + line_size num_ports) o') never s.
Proof.
  intros Hi Hreg Ho. unfold print_mib_line, line_size. wp_step.
  eapply wp_mono; [apply (wp_print_each regular (n + 37) 13) | | intros e w []].
  - exact ports_nonneg.
  - apply measured_emit; [exact Ho | |]; rewrite length_app_s, length_pad_right; change (String.length " ") with 1%nat;
      [lia | intros Hr; destruct (Hreg Hr); lia].
  - intros j m o' s' Hj Hm. wp_step. apply wp_catch.
    assert (Herr : measured regular (m + 13) (emit (pad_left 12 "error" +:+ " ") o')).
    { apply measured_emit; [exact Hm | |]; rewrite length_app_s, length_pad_left; reflexivity || (intros _; reflexivity). }
    unfold wp, ops. destruct (get_mib_counter i j (hw s')) as [[v | e] w'] eqn:Hg; [| exact Herr].
    apply measured_emit; [exact Hm | |]; rewrite length_app_s, length_pad_left; change (String.length " ") with 1%nat;
      [lia |]. intros Hr. pose proof (length_decimal_small v (proj2 (Hreg Hr) _ _ _ _ _ Hi Hj Hg)). lia.
  - intros o' s' Ho'. wp_step. cbv beta in *. replace (n + (37 + 13 * num_ports + 1)) with (n + 37 + 13 * num_ports + 1) by lia.
    apply measured_emit; [exact Ho' | |]; reflexivity || (intros _; reflexivity).
Qed.

Lemma print_mib_lines_size (regular : Prop) counters count n i o s :
  0 <= i -> i + Z.of_nat (length counters) = count -> (regular -> short_names counters /\ small_counters count) ->
  measured regular n o ->
  wp (print_mib_lines i counters o)
    (fun o' _ => measured regular (n + Z.of_nat (length counters) * line_size num_ports) o') never s.
Proof.
  revert n i o s. induction counters as [| c counters IH]; intros n i o s Hi Hc Hreg Ho.
  - apply wp_ret. rewrite Z.add_0_r. exact Ho.
  - cbn [print_mib_lines length] in *. wp_step.
    eapply wp_mono; [apply (print_mib_line_size regular n i count) | | intros e w []]; [lia | | exact Ho |].
    + intros Hr. destruct (Hreg Hr) as [Hn Hs]. split; [apply Hn; left; reflexivity | exact Hs].
    + intros o' s' Ho'. eapply wp_mono; [apply IH; [lia | lia | | exact Ho'] | | intros e w []].
      * intros Hr. destruct (Hreg Hr) as [Hn Hs]. split; [intros c' Hc'; apply Hn; right; exact Hc' | exact Hs].
      * intros o2 s2 H2. cbv beta in *. rewrite Nat2Z.inj_succ.
        replace (n + Z.succ (Z.of_nat (length counters)) * line_size num_ports) with
          (n + line_size num_ports + Z.of_nat (length counters) * line_size num_ports) by lia. exact H2.
Qed.

Lemma mibs_measured (regular : Prop) counters s :
  (regular -> short_names counters /\ small_counters (Z.of_nat (length counters))) ->
  wp (rtl8366_read_debugfs_mibs counters)
    (fun o _ => measured regular (mibs_size (Z.of_nat (length counters)) num_ports) o) never s.
Proof.
  intros Hreg. unfold rtl8366_read_debugfs_mibs, mibs_size. wp_step.
  eapply wp_mono; [apply (wp_print_each regular 36 13) | | intros e w []].
  - exact ports_nonneg.
  - apply (measured_emit regular 0 36); [split; [apply start_printed | intros _; apply start_printed] | |];
      reflexivity || (intros _; reflexivity).
  - intros i m o s' _ Hm. wp_step. apply measured_emit; [exact Hm | |];
      rewrite length_app_s, length_pad_left; change (String.length " ") with 1%nat; [lia |]. intros _.
    pose proof (length_substring 9 ("Port " +:+ decimal i)). lia.
  - intros o s' Ho. cbv beta in Ho. apply print_mib_lines_size with (Z.of_nat (length counters)); [lia | lia | exact Hreg |].
    apply measured_emit; [exact Ho | |]; reflexivity || (intros _; reflexivity).
Qed.

(** The debugfs table of all counters.  Reading it never fails.  Whatever
    the chip answers, the length handed on is beyond the end of the buffer
    when the table takes more than its 4096 bytes; and if names have at most
    36 characters, counters at most twelve digits, and the table is shorter
    than the buffer, the whole table is in the buffer and its length exact. *)
Theorem debugfs_mibs_length (counters : list rtl8366_mib_counter) (s : smi W) :
  exists o s', rtl8366_read_debugfs_mibs counters s = (Ok o, s') /\
    let size := mibs_size (Z.of_nat (length counters)) num_ports in
    (sizeof_buf < size -> sizeof_buf < o_len o) /\
    (short_names counters -> small_counters (Z.of_nat (length counters)) -> size < sizeof_buf ->
     o_len o = size /\ Z.of_nat (String.length (o_buf o)) = size).
Proof.
  destruct (wp_never _ _ _ (mibs_measured (short_names counters /\ small_counters (Z.of_nat (length counters)))
    counters s (fun H => H))) as (o & s' & Hrun & Hp & He).
  exists o, s'. split; [exact Hrun |]. cbv zeta. split.
  - intros Hbig. destruct Hp; lia.
  - intros Hn Hs Hlt. apply He; [split; assumption | exact Hlt].
Qed.
End Mibs.

(** ** The chips *)

(** The tables of the RTL8366S and the RTL8366RB fit their buffer; those of the
    RTL8367 and the RTL8367B do not. *)
Lemma mibs_size_of_chips :
  mibs_size (Z.of_nat (length rtl8366s_mib_counters)) RTL8366S_NUM_PORTS = 3943 /\
  mibs_size (Z.of_nat (length rtl8366rb_mib_counters)) RTL8366RB_NUM_PORTS = 3943 /\
  mibs_size (Z.of_nat (length rtl8367_mib_counters)) RTL8367_NUM_PORTS = 6215 /\
  mibs_size (Z.of_nat (length rtl8367b_mib_counters)) RTL8367B_NUM_PORTS = 8377.
Proof. repeat split; reflexivity. Qed.

(** An RTL8366S whose registers all read as 0. *)
Definition zero_8366s : SmiOps unit := @rtl8366s_smi_ops unit (rom_bus (fun _ => 0)).
Definition zero_8366s_chip : ChipOps unit := @rtl8366s_chip_ops unit (rom_bus (fun _ => 0)) None None false.

Lemma zero_8366s_small : @small_counters _ zero_8366s zero_8366s_chip 33.
Proof.
  intros i j [] v w' Hi Hj Hg.
  assert (Hall : forallb (fun i => forallb (fun j => match @get_mib_counter unit zero_8366s_chip i j tt with
    | (Ok v, _) => v =? 0 | _ => true end) (seqZ 0 6)) (seqZ 0 33) = true) by (vm_compute; reflexivity).
  rewrite forallb_forall in Hall. specialize (Hall i ltac:(apply list_elem_of_In, elem_of_seqZ; lia)). rewrite forallb_forall in Hall.
  specialize (Hall j ltac:(apply list_elem_of_In, elem_of_seqZ; cbn in Hj; unfold RTL8366S_NUM_PORTS in Hj; lia)).
  rewrite Hg in Hall. apply Z.eqb_eq in Hall. lia.
Qed.

(** On an idle RTL8366S the whole table is in the buffer; on an RTL8367 it
    is not, whatever the registers hold. *)
Lemma debugfs_mibs_length_witness :
  (exists o s', @rtl8366_read_debugfs_mibs unit zero_8366s zero_8366s_chip rtl8366s_mib_counters (Smi 0 0 tt) = (Ok o, s') /\
     o_len o = 3943 /\ Z.of_nat (String.length (o_buf o)) = 3943) /\
  (exists o s', @rtl8366_read_debugfs_mibs _ (@rtl8367_smi_ops unit (rom_bus id) 5)
     (@rtl8367_chip_ops unit (rom_bus id) None true None) rtl8367_mib_counters (Smi 0 0 (rtl8367b_probed tt)) = (Ok o, s') /\
     sizeof_buf < o_len o).
Proof.
  split.
  - destruct (@debugfs_mibs_length unit zero_8366s zero_8366s_chip ltac:(discriminate) rtl8366s_mib_counters (Smi 0 0 tt))
      as (o & s' & Hrun & _ & Hfit).
    exists o, s'. split; [exact Hrun |]. apply Hfit; [| exact zero_8366s_small | reflexivity].
    unfold short_names. apply List.Forall_forall. repeat constructor; cbn; lia.
  - destruct (@debugfs_mibs_length _ (@rtl8367_smi_ops unit (rom_bus id) 5) (@rtl8367_chip_ops unit (rom_bus id) None true None)
      ltac:(discriminate) rtl8367_mib_counters (Smi 0 0 (rtl8367b_probed tt))) as (o & s' & Hrun & Hbig & _).
    exists o, s'. split; [exact Hrun |]. apply Hbig. reflexivity.
Defined.
