(* ===== verification/Bmt.v ===== *)
(** * The bad block table of MediaTek NAND: [mtk_bmt_v2.c]

    Version 2 of the bad block management of MediaTek boards.  A table
    [bb_tbl] maps logical to physical erase blocks; a pool of spare blocks at
    the end of the flash, described by [bmt_tbl], supplies replacements, and
    the last usable block of the pool holds the table itself.

    [struct bmt_desc bmtd], the accessors of the flash and the inline helpers
    are in [mtk_bmt.h] and [mtk_bmt.c], which are not part of the repository:
    the fields the code uses are those of the record [bmtd] and the calls are
    the class [Flash].  An access outside an array is the error [EFAULT]; no
    function of the file returns it otherwise. *)

From S2P Require Import Prelude CMonad.

(** ** Data *)

Record bbmt := Bbmt {
  block : Z;      (* u16 *)
  mapped : Z      (* u16 *)
}.

#[export] Instance bbmt_eq_dec : EqDecision bbmt.
Proof. solve_decision. Defined.

(** [struct bbbt] with the two tables that follow its header. *)
Record bbbt := Bbbt {
  signature : list Z;
  version : Z;
  bb_tbl : list Z;
  bmt_tbl : list bbmt
}.

Definition BBMT_VERSION : Z := 2.
Definition NO_MAPPED : Z := 0.
Definition NORMAL_MAPPED : Z := 1.
Definition BMT_MAPPED : Z := 2.
Definition BBPOOL_RATIO : Z := 2.
Definition BMT_TBL_DEF_VAL : Z := 0.
(** "The signature offset is fixed set to 0, oob signature offset is fixed
    set to 1" *)
Definition MAIN_SIGNATURE_OFFSET : Z := 0.
Definition OOB_SIGNATURE_OFFSET : Z := 1.

Definition sig_BMT : list Z := [66; 77; 84].
Definition sig_bmt : list Z := [98; 109; 116].

(** [sizeof] of the two structures, without the flexible array. *)
Definition sizeof_bbbt : Z := 4.
Definition sizeof_bbmt : Z := 4.

Definition bbmt0 : bbmt := Bbmt 0 0.

(** The flash, behind the calls of [mtk_bmt.c].  A read of the first page(s)
    of a block gives an error code, the buffer (seen as the table) and the
    four bytes of the spare area. *)
Class Flash (F : Type) := {
  bbt_nand_read : Z -> F -> (Z * bbbt * list Z) * F;
  bbt_nand_erase : Z -> F -> Z * F;
  bbt_nand_copy : Z -> Z -> Z -> F -> Z * F;
  write_bmt : Z -> bbbt -> F -> Z * F;
  mapping_block_in_range : Z -> bool
}.

(** [bmtd] *)
Record bmtd (F : Type) := Bmtd {
  table_size : Z;
  total_blks : Z;
  blk_shift : Z;
  mtd_size : Z;
  oob_offset : Z;
  pool_lba : Z;
  pool_pba : Z;
  bb_max : Z;
  bmt_pgs : Z;
  bmt_blk_idx : Z;
  bbt : bbbt;          (* the contents of [bbt_buf], which [bmtd.bbt] points to *)
  flash : F
}.
Arguments Bmtd {F}.
Arguments table_size {F}. Arguments total_blks {F}. Arguments blk_shift {F}. Arguments mtd_size {F}.
Arguments oob_offset {F}. Arguments pool_lba {F}. Arguments pool_pba {F}. Arguments bb_max {F}.
Arguments bmt_pgs {F}. Arguments bmt_blk_idx {F}. Arguments bbt {F}. Arguments flash {F}.

Section Updates.
Context {F : Type}.
Implicit Types (d : bmtd F).

Definition set_bbt (t : bbbt) d : bmtd F :=
  Bmtd (table_size d) (total_blks d) (blk_shift d) (mtd_size d) (oob_offset d) (pool_lba d)
       (pool_pba d) (bb_max d) (bmt_pgs d) (bmt_blk_idx d) t (flash d).
Definition set_flash (f : F) d : bmtd F :=
  Bmtd (table_size d) (total_blks d) (blk_shift d) (mtd_size d) (oob_offset d) (pool_lba d)
       (pool_pba d) (bb_max d) (bmt_pgs d) (bmt_blk_idx d) (bbt d) f.
Definition set_idx (i : Z) d : bmtd F :=
  Bmtd (table_size d) (total_blks d) (blk_shift d) (mtd_size d) (oob_offset d) (pool_lba d)
       (pool_pba d) (bb_max d) (bmt_pgs d) i (bbt d) (flash d).
Definition set_pool_pba (p : Z) d : bmtd F :=
  Bmtd (table_size d) (total_blks d) (blk_shift d) (mtd_size d) (oob_offset d) (pool_lba d)
       p (bb_max d) (bmt_pgs d) (bmt_blk_idx d) (bbt d) (flash d).
End Updates.

Definition with_bb_tbl (l : list Z) (t : bbbt) : bbbt := Bbbt (signature t) (version t) l (bmt_tbl t).
Definition with_bmt_tbl (l : list bbmt) (t : bbbt) : bbbt := Bbbt (signature t) (version t) (bb_tbl t) l.
Definition with_header (sig : list Z) (v : Z) (t : bbbt) : bbbt := Bbbt sig v (bb_tbl t) (bmt_tbl t).

Section Bmt.
Context {F : Type} {FL : Flash F}.
#[local] Abbreviation MB := (M (bmtd F)).

(** ** Memory and flash *)

Definition get {A} (f : bmtd F -> A) : MB A := fun d => (Ok (f d), d).

Definition load_bb (i : Z) : MB Z := fun d =>
  if in_array (bb_tbl (bbt d)) i then (Ok (geti 0 (bb_tbl (bbt d)) i), d) else (Err (- EFAULT), d).
Definition store_bb (i v : Z) : MB unit := fun d =>
  if in_array (bb_tbl (bbt d)) i
  then (Ok tt, set_bbt (with_bb_tbl (seti (bb_tbl (bbt d)) i (u16 v)) (bbt d)) d)
  else (Err (- EFAULT), d).
Definition load_bmt (i : Z) : MB bbmt := fun d =>
  if in_array (bmt_tbl (bbt d)) i then (Ok (geti bbmt0 (bmt_tbl (bbt d)) i), d) else (Err (- EFAULT), d).
Definition store_bmt (i : Z) (e : bbmt) : MB unit := fun d =>
  if in_array (bmt_tbl (bbt d)) i
  then (Ok tt, set_bbt (with_bmt_tbl (seti (bmt_tbl (bbt d)) i e) (bbt d)) d)
  else (Err (- EFAULT), d).

Definition on_flash {A} (op : F -> A * F) : MB A := fun d =>
  let (a, f) := op (flash d) in (Ok a, set_flash f d).

(** ** Scanning *)

(** [n] more bad blocks may be skipped ([bmtd.bb_max - loop]). *)
Fixpoint find_valid_block_loop (n : nat) (blk : Z) : MB Z :=
  total <- get total_blks ;;
  if total <=? blk then ret 0 else
  r <- on_flash (bbt_nand_read blk) ;;
  let '(rc, _, fdm) := r in
  if cbool rc || negb (geti 0 fdm 0 =? 0xff) then
    match n with
    | O => ret 0
    | S n' => find_valid_block_loop n' (u16 (blk + 1))
    end
  else ret blk.

Definition find_valid_block (blk : Z) : MB Z :=
  max <- get bb_max ;;
  find_valid_block_loop (Z.to_nat max) blk.

(** [while ((block = find_valid_block(block)) != 0)], from [bmt_tbl[i]];
    every round takes a block and goes on behind it, so as many rounds as
    the flash has blocks are enough. *)
Fixpoint fill_pool (fuel : nat) (i blk : Z) : MB Z :=
  match fuel with
  | O => fail ETIMEDOUT
  | S fuel' =>
      b <- find_valid_block blk ;;
      if b =? 0 then ret i else
      store_bmt i (Bbmt b NO_MAPPED) ;;
      fill_pool fuel' (i + 1) (u16 (b + 1))
  end.

(** The first loop: [bb_tbl[i]] for [i] from 1; [Some] is its early return. *)
Definition scan_main (n : Z) : MB (option unit) :=
  loop_until (Z.to_nat (n - 1)) 1 (fun i =>
    prev <- load_bb (i - 1) ;;
    b <- find_valid_block (u16 (prev + 1)) ;;
    store_bb i b ;;
    if b =? 0 then ret (Some tt) else ret None).

Definition scan_bad_blocks : MB Z :=
  store_bb 0 0 ;;
  lba <- get pool_lba ;;
  r <- scan_main lba ;;
  match r with
  | Some _ => ret (-1)
  | None =>
      last <- load_bb (Z.max 1 lba - 1) ;;
      modify (set_pool_pba (u16 (last + 1))) ;;
      pba <- get pool_pba ;;
      total <- get total_blks ;;
      if total - 2 <=? pba then ret (-1) else
      i <- fill_pool (S (Z.to_nat total)) 0 pba ;;
      modify (set_idx (i - 1)) ;;
      e <- load_bmt (i - 1) ;;
      store_bmt (i - 1) (Bbmt (block e) BMT_MAPPED) ;;
      if i <? 1 then ret (-1) else ret 0
  end.

(** ** The table on flash *)

Definition is_valid_bmt (buf : bbbt) (fdm : list Z) : bool :=
  bool_decide (take 3 (drop (Z.to_nat MAIN_SIGNATURE_OFFSET) (signature buf)) = sig_BMT) &&
  bool_decide (take 3 (drop (Z.to_nat OOB_SIGNATURE_OFFSET) fdm) = sig_bmt) &&
  (version buf =? BBMT_VERSION).

(** [i] entries were looked at; an unterminated table is read past its end. *)
Fixpoint get_bmt_index_loop (bmt : list bbmt) (i : Z) : option Z :=
  match bmt with
  | [] => None
  | e :: bmt' =>
      if block e =? BMT_TBL_DEF_VAL then Some 0
      else if mapped e =? BMT_MAPPED then Some i
      else get_bmt_index_loop bmt' (i + 1)
  end.

Definition get_bmt_index (bmt : list bbmt) : option Z :=
  match get_bmt_index_loop bmt 0 with Some i => Some (u16 i) | None => None end.

(** [k] is [n + 1]: the entries [n], [n - 1], ... are tried in turn. *)
Fixpoint upload_bmt_loop (k : nat) : MB Z :=
  match k with
  | O => ret (u16 (-1))
  | S k' =>
      let n := Z.of_nat k' in
      e <- load_bmt n ;;
      if mapped e =? NORMAL_MAPPED then ret (u16 (-1)) else
      rc <- on_flash (bbt_nand_erase (block e)) ;;
      if cbool rc then
        store_bmt n (Bbmt 0 (mapped e)) ;;
        upload_bmt_loop k'
      else
        modify (fun d => set_bbt (with_header sig_BMT BBMT_VERSION (bbt d)) d) ;;
        t <- get bbt ;;
        rc <- on_flash (write_bmt (block e) t) ;;
        if cbool rc then
          store_bmt n (Bbmt 0 (mapped e)) ;;
          upload_bmt_loop k'
        else ret (u16 n)
  end.

Definition upload_bmt (n : Z) : MB Z := upload_bmt_loop (Z.to_nat (n + 1)).

(** [bmtd.bmt_blk_idx = upload_bmt(bbt, bmtd.bmt_blk_idx)] *)
Definition upload_current : MB unit :=
  idx <- get bmt_blk_idx ;;
  n <- upload_bmt idx ;;
  modify (set_idx n).

(** ** Remapping *)

Definition find_valid_block_in_pool : MB Z :=
  idx <- get bmt_blk_idx ;;
  if idx =? 0 then ret 0 else
  r <- search idx (fun i =>
    e <- load_bmt i ;;
    if negb (block e =? 0) && (mapped e =? NO_MAPPED) then
      store_bmt i (Bbmt (block e) NORMAL_MAPPED) ;;
      ret (Some (block e))
    else ret None) ;;
  ret (match r with Some b => b | None => 0 end).

Definition remap_block_v2 (blk mapped_block copy_len : Z) : MB bool :=
  new_block <- find_valid_block_in_pool ;;
  if new_block =? 0 then ret false else
  store_bb blk new_block ;;
  on_flash (bbt_nand_erase new_block) ;;
  (if 0 <? copy_len then on_flash (bbt_nand_copy new_block mapped_block copy_len) else ret 0) ;;
  upload_current ;;
  ret true.

Definition get_mapping_block_index_v2 (blk : Z) : MB Z :=
  lba <- get pool_lba ;;
  if lba <=? blk then ret blk else
  if negb (mapping_block_in_range blk) then ret blk else
  load_bb blk.

Definition unmap_block_v2 (blk : Z) : MB unit :=
  store_bb blk blk ;;
  upload_current.

(** ** Debugging and garbage collection *)

Definition main_blocks : MB Z := get (fun d => Z.shiftr (mtd_size d) (blk_shift d)).

(** The inner loop of [mtk_bmt_get_mapping_mask]: the entry [b] is at. *)
Definition mark_used (b : Z) (used : Z) : MB Z :=
  idx <- get bmt_blk_idx ;;
  r <- search idx (fun k =>
    e <- load_bmt k ;;
    if b =? block e then ret (Some k) else ret None) ;;
  ret (match r with Some k => Z.lor used (BIT k) | None => used end).

(** [used] as a number with a bit per entry. *)
Definition mtk_bmt_get_mapping_mask : MB Z :=
  n <- main_blocks ;;
  loop_acc (Z.to_nat (n - 1)) 1 0 (fun i used =>
    b <- load_bb i ;;
    if b =? i then ret used else mark_used b used).

(** [val] 100: free the entries no block is mapped to; the entries freed. *)
Definition free_unused (used : Z) : MB Z :=
  idx <- get bmt_blk_idx ;;
  loop_acc (Z.to_nat (idx + 1)) 0 0 (fun i n_remap =>
    e <- load_bmt i ;;
    if negb (mapped e =? NORMAL_MAPPED) then ret n_remap else
    if Z.testbit used i then ret n_remap else
    store_bmt i (Bbmt (block e) NO_MAPPED) ;;
    ret (n_remap + 1)).

(** [alloc]: whether [kcalloc] found memory.  [val] 0 only prints. *)
Definition mtk_bmt_debug_v2 (alloc : bool) (val : Z) : MB unit :=
  if negb alloc then fail ENOMEM else
  used <- mtk_bmt_get_mapping_mask ;;
  if val =? 100 then
    n_remap <- free_unused used ;;
    if cbool n_remap then upload_current else ret tt
  else ret tt.

(** ** Attaching *)

(** From the last block of the flash down to the pool, the first block with
    a valid table; every read goes to [bbt_buf].  [true]: [bmtd.bbt] is set.
    A valid table whose index is 0 ends the search without it.  [block] is 16
    bits wide: with a pool at block 0 the loop has no end, which is the error
    [ETIMEDOUT] here; with [pool_lba] positive the fuel below is enough. *)
Fixpoint find_bmt (fuel : nat) (blk : Z) : MB bool :=
  match fuel with
  | O => fail ETIMEDOUT
  | S fuel' =>
      lba <- get pool_lba ;;
      if blk <? lba then ret false else
      r <- on_flash (bbt_nand_read blk) ;;
      let '(rc, buf, fdm) := r in
      modify (set_bbt buf) ;;
      if cbool rc then find_bmt fuel' (u16 (blk - 1)) else
      if negb (is_valid_bmt buf fdm) then find_bmt fuel' (u16 (blk - 1)) else
      match get_bmt_index (bmt_tbl buf) with
      | None => fail EFAULT
      | Some idx => modify (set_idx idx) ;; ret (negb (idx =? 0))
      end
  end.

(** [round_up(n, size)] *)
Definition round_up (n size : Z) : Z := (n + size - 1) / size * size.

(** The bytes [mtk_bmt_init_v2] allocates for the tables. *)
Definition bmt_bufsz (bmt_table_size pg_size : Z) : Z :=
  round_up (sizeof_bbbt + bmt_table_size * sizeof_bbmt) pg_size.

(** The entries of [bmt_tbl] that lie in a buffer of [bufsz] bytes. *)
Definition bmt_entries (bmt_table_size bufsz : Z) : Z :=
  (bufsz - sizeof_bbbt - 2 * bmt_table_size) / sizeof_bbmt.

(** [memset(bmt_tbl(bbt), BMT_TBL_DEF_VAL, table_size * sizeof(struct bbmt))] *)
Definition clear_bmt_tbl : MB unit := fun d =>
  if table_size d <=? Z.of_nat (length (bmt_tbl (bbt d)))
  then (Ok tt, set_bbt (with_bmt_tbl
          (replicate (Z.to_nat (table_size d)) bbmt0 ++ drop (Z.to_nat (table_size d)) (bmt_tbl (bbt d)))
          (bbt d)) d)
  else (Err (- EFAULT), d).

(** The device tree's values, the geometry of the flash, and the buffer as
    [kzalloc] and [memset] leave it ([None]: no memory). *)
Definition mtk_bmt_init_v2 (pool_size_prop oob_offset_prop table_size_prop : option Z)
    (pg_size pg_shift : Z) (alloc : option bbbt) : MB Z :=
  let bmt_pool_size := default 80 pool_size_prop in
  let bmt_table_size := default 0x2000 table_size_prop in
  total <- get total_blks ;;
  shift <- get blk_shift ;;
  let pmt_block := u16 (total - bmt_pool_size - 2) in
  let bufsz := bmt_bufsz bmt_table_size pg_size in
  modify (fun d => Bmtd bmt_table_size total shift (u64 (s32 (Z.shiftl pmt_block shift)))
    (default 0 oob_offset_prop) (u16 (pmt_block + 2)) (pool_pba d)
    (total * BBPOOL_RATIO / 100) (Z.shiftr bufsz pg_shift) (bmt_blk_idx d) (bbt d) (flash d)) ;;
  match alloc with
  | None => ret (- ENOMEM)
  | Some buf =>
      modify (set_bbt buf) ;;
      found <- find_bmt (S (Z.to_nat total)) (u16 (total - 1)) ;;
      if found then ret 0 else
      if bmt_table_size + bmt_table_size * BBPOOL_RATIO / 100 <? total then ret (-1) else
      clear_bmt_tbl ;;
      rc <- scan_bad_blocks ;;
      if cbool rc then ret (-1) else
      upload_current ;;
      idx <- get bmt_blk_idx ;;
      e <- load_bmt idx ;;
      if idx =? 0 then ret 0 else
      if idx =? u16 (-1) then ret (-1) else ret 0
  end.
End Bmt.
