(* ===== verification/BmtMap.v ===== *)
(** * The block map of the bad block table

    The views of the two tables, how the calls act on them, what writing the
    table to flash does ([uploaded]), the invariant of the map ([bmt_inv],
    decidable) and remapping a bad block. *)

From S2P Require Import Prelude CMonad Bmt.

Section Views.
Context {F : Type} {FL : Flash F}.
Implicit Types d : bmtd F.

(** The two tables, by index. *)
Definition bb d (i : Z) : Z := geti 0 (bb_tbl (bbt d)) i.
Definition ent d (k : Z) : bbmt := geti bbmt0 (bmt_tbl (bbt d)) k.
Definition n_bb d : Z := Z.of_nat (length (bb_tbl (bbt d))).
Definition n_ent d : Z := Z.of_nat (length (bmt_tbl (bbt d))).

(** ** Calls under [wp] *)

Lemma wp_get {A} (f : bmtd F -> A) (Q : A -> bmtd F -> Prop) E d : Q (f d) d -> wp (get f) Q E d.
Proof. exact (fun H => H). Qed.

Lemma wp_load_bb i (Q : Z -> bmtd F -> Prop) E d : 0 <= i < n_bb d -> Q (bb d i) d -> wp (load_bb i) Q E d.
Proof.
  unfold wp, load_bb, in_array, n_bb. intros Hi HQ.
  destruct (Z.leb_spec 0 i), (Z.ltb_spec i (Z.of_nat (length (bb_tbl (bbt d))))); try lia. exact HQ.
Qed.

Lemma wp_store_bb i v (Q : unit -> bmtd F -> Prop) E d :
  0 <= i < n_bb d -> Q tt (set_bbt (with_bb_tbl (seti (bb_tbl (bbt d)) i (u16 v)) (bbt d)) d) ->
  wp (store_bb i v) Q E d.
Proof.
  unfold wp, store_bb, in_array, n_bb. intros Hi HQ.
  destruct (Z.leb_spec 0 i), (Z.ltb_spec i (Z.of_nat (length (bb_tbl (bbt d))))); try lia. exact HQ.
Qed.

Lemma wp_load_bmt i (Q : bbmt -> bmtd F -> Prop) E d : 0 <= i < n_ent d -> Q (ent d i) d -> wp (load_bmt i) Q E d.
Proof.
  unfold wp, load_bmt, in_array, n_ent. intros Hi HQ.
  destruct (Z.leb_spec 0 i), (Z.ltb_spec i (Z.of_nat (length (bmt_tbl (bbt d))))); try lia. exact HQ.
Qed.

Lemma wp_store_bmt i e (Q : unit -> bmtd F -> Prop) E d :
  0 <= i < n_ent d -> Q tt (set_bbt (with_bmt_tbl (seti (bmt_tbl (bbt d)) i e) (bbt d)) d) ->
  wp (store_bmt i e) Q E d.
Proof.
  unfold wp, store_bmt, in_array, n_ent. intros Hi HQ.
  destruct (Z.leb_spec 0 i), (Z.ltb_spec i (Z.of_nat (length (bmt_tbl (bbt d))))); try lia. exact HQ.
Qed.

Lemma wp_on_flash {A} (op : F -> A * F) (Q : A -> bmtd F -> Prop) E d :
  (forall a f, op (flash d) = (a, f) -> Q a (set_flash f d)) -> wp (on_flash op) Q E d.
Proof. unfold wp, on_flash. destruct (op (flash d)) as [a f] eqn:H. auto. Qed.

(** What the updates do to the views. *)
Lemma bb_store d i v j :
  0 <= i < n_bb d -> 0 <= j ->
  bb (set_bbt (with_bb_tbl (seti (bb_tbl (bbt d)) i v) (bbt d)) d) j = if j =? i then v else bb d j.
Proof. intros Hi Hj. apply geti_seti; [exact Hj | exact Hi]. Qed.

Lemma ent_store d i e j :
  0 <= i < n_ent d -> 0 <= j ->
  ent (set_bbt (with_bmt_tbl (seti (bmt_tbl (bbt d)) i e) (bbt d)) d) j = if j =? i then e else ent d j.
Proof. intros Hi Hj. apply geti_seti; [exact Hj | exact Hi]. Qed.

Lemma n_bb_store d i v : n_bb (set_bbt (with_bb_tbl (seti (bb_tbl (bbt d)) i v) (bbt d)) d) = n_bb d.
Proof. unfold n_bb. cbn. rewrite seti_length. reflexivity. Qed.
Lemma n_ent_store d i e : n_ent (set_bbt (with_bmt_tbl (seti (bmt_tbl (bbt d)) i e) (bbt d)) d) = n_ent d.
Proof. unfold n_ent. cbn. rewrite seti_length. reflexivity. Qed.
End Views.

(** One step of a program over [bmtd]. *)
Ltac bmt_step :=
  lazymatch goal with
  | |- wp (get _) _ _ _ => apply wp_get
  | |- wp (load_bb _) _ _ _ => apply wp_load_bb
  | |- wp (store_bb _ _) _ _ _ => apply wp_store_bb
  | |- wp (load_bmt _) _ _ _ => apply wp_load_bmt
  | |- wp (store_bmt _ _) _ _ _ => apply wp_store_bmt
  | |- wp (on_flash _) _ _ _ => apply wp_on_flash
  | |- wp (if _ then _ else _) _ _ _ => fail
  | |- _ => wp_step
  end.

(** ** Writing the table *)

Section Upload.
Context {F : Type} {FL : Flash F}.
Implicit Types d : bmtd F.

(** The fields no table operation touches. *)
Definition same_params d d' : Prop :=
  table_size d' = table_size d /\ total_blks d' = total_blks d /\ blk_shift d' = blk_shift d /\
  mtd_size d' = mtd_size d /\ pool_lba d' = pool_lba d /\ pool_pba d' = pool_pba d /\ bb_max d' = bb_max d.

Lemma same_params_refl d : same_params d d.
Proof. repeat split. Qed.

(** The header a written table has. *)
Definition has_header (t : bbbt) : Prop := signature t = sig_BMT /\ version t = BBMT_VERSION.

(** [uploaded k d n d']: trying the entries from [k - 1] down, the table of
    [d] went to entry [n] and left [d']: the entries given up have lost their
    block, nothing else changed, and the last thing the flash saw is a
    successful write of exactly the table in memory. *)
Record uploaded (k : Z) d (n : Z) d' : Prop := {
  up_range : 0 <= n < k;
  up_params : same_params d d' /\ bmt_blk_idx d' = bmt_blk_idx d;
  up_bb : bb_tbl (bbt d') = bb_tbl (bbt d);
  up_len : n_ent d' = n_ent d;
  up_mapped j : 0 <= j -> mapped (ent d' j) = mapped (ent d j);
  up_block j : 0 <= j -> block (ent d' j) = if (n <? j) && (j <? k) then 0 else block (ent d j);
  up_free j : n <= j < k -> mapped (ent d j) <> NORMAL_MAPPED;
  up_header : has_header (bbt d');
  up_written : exists f rc, write_bmt (block (ent d' n)) (bbt d') f = (rc, flash d') /\ rc = 0
}.

Lemma uploaded_step k d1 d n d' :
  uploaded k d1 n d' -> 0 <= k < n_ent d -> same_params d d1 -> bmt_blk_idx d1 = bmt_blk_idx d ->
  bb_tbl (bbt d1) = bb_tbl (bbt d) -> n_ent d1 = n_ent d ->
  (forall j, 0 <= j -> ent d1 j = if j =? k then Bbmt 0 (mapped (ent d k)) else ent d j) ->
  mapped (ent d k) <> NORMAL_MAPPED -> uploaded (k + 1) d n d'.
Proof.
  intros [H1 [H2 H3] H4 H5 H6 H7 H8 H9 H10] Hk Hp Hidx Hbb Hlen He Hm. split; auto.
  - lia.
  - split; [| congruence]. unfold same_params in *. intuition congruence.
  - congruence.
  - congruence.
  - intros j Hj. rewrite H6, He by exact Hj. destruct (Z.eqb_spec j k) as [-> |]; reflexivity.
  - intros j Hj. rewrite H7, He by exact Hj.
    destruct (Z.ltb_spec n j), (Z.ltb_spec j k), (Z.ltb_spec j (k + 1)), (Z.eqb_spec j k); try lia; cbn [andb block]; auto.
  - intros j Hj. destruct (Z.eq_dec j k) as [-> | Hne]; [exact Hm |].
    specialize (H8 j ltac:(lia)). rewrite He in H8 by lia. apply Z.eqb_neq in Hne. rewrite Hne in H8. exact H8.
Qed.

Lemma upload_run k d :
  Z.of_nat k <= n_ent d -> Z.of_nat k <= 65535 ->
  wp (upload_bmt_loop k)
     (fun n d' => (n = u16 (-1) /\ same_params d d' /\ bb_tbl (bbt d') = bb_tbl (bbt d)) \/
                  uploaded (Z.of_nat k) d n d') never d.
Proof.
  revert d. induction k as [|k IH]; intros d Hk Hmax; cbn [upload_bmt_loop].
  { apply wp_ret. left. split; [reflexivity |]. split; [apply same_params_refl | reflexivity]. }
  cbv zeta. bmt_step. bmt_step; [lia |].
  destruct (Z.eqb_spec (mapped (ent d (Z.of_nat k))) NORMAL_MAPPED) as [Hn | Hn].
  { apply wp_ret. left. split; [reflexivity |]. split; [apply same_params_refl | reflexivity]. }
  bmt_step. bmt_step. intros rc f1 _.
  set (d1 := set_flash f1 d).
  assert (Hfail : forall d2, same_params d d2 -> bmt_blk_idx d2 = bmt_blk_idx d ->
    bb_tbl (bbt d2) = bb_tbl (bbt d) -> n_ent d2 = n_ent d -> (forall j, ent d2 j = ent d j) ->
    wp (store_bmt (Z.of_nat k) (Bbmt 0 (mapped (ent d (Z.of_nat k)))) ;; upload_bmt_loop k)
       (fun n d' => (n = u16 (-1) /\ same_params d d' /\ bb_tbl (bbt d') = bb_tbl (bbt d)) \/
                    uploaded (Z.of_nat (S k)) d n d') never d2).
  { intros d2 Hp2 Hi2 Hb2 Hl2 He2. bmt_step. bmt_step; [lia |].
    eapply wp_mono; [apply IH; rewrite ?n_ent_store; lia | cbv beta | auto].
    intros n d' [(-> & Hp & Hb) | Hup].
    - left. split; [reflexivity |]. split; [| rewrite Hb; exact Hb2].
      unfold same_params in *. cbn in Hp. intuition congruence.
    - right. rewrite Nat2Z.inj_succ, <- Z.add_1_r. eapply uploaded_step; [exact Hup | lia | exact Hp2 | exact Hi2 |
        exact Hb2 | rewrite n_ent_store; exact Hl2 | | exact Hn].
      intros j Hj. rewrite ent_store by lia. rewrite He2. reflexivity. }
  destruct (cbool rc) eqn:Hrc; [apply Hfail; try reflexivity; repeat split |].
  bmt_step. bmt_step. bmt_step. bmt_step. bmt_step. bmt_step. intros rc2 f2 Hw.
  destruct (cbool rc2) eqn:Hrc2; [apply Hfail; try reflexivity; repeat split |].
  apply wp_ret. right. rewrite (u16_small (Z.of_nat k)) by lia. split; try reflexivity; try lia.
  - repeat split.
  - intros j Hj. destruct (Z.ltb_spec (Z.of_nat k) j), (Z.ltb_spec j (Z.of_nat (S k))); try lia; reflexivity.
  - intros j Hj. replace j with (Z.of_nat k) by lia. exact Hn.
  - split; reflexivity.
  - exists f1, rc2. split; [exact Hw |]. unfold cbool in Hrc2. destruct (Z.eqb_spec rc2 0); [assumption | discriminate].
Qed.
End Upload.

(** ** The invariant of the map *)

Section Invariant.
Context {F : Type} {FL : Flash F}.
Implicit Types d : bmtd F.

(** The map stays in its arrays, the spare blocks up to the one that holds
    the table are distinct, and a spare block some logical block is mapped to
    is marked so. *)
Record bmt_inv d : Prop := {
  bi_lba : 0 < pool_lba d <= n_bb d;
  bi_idx : 0 <= bmt_blk_idx d < n_ent d /\ bmt_blk_idx d < 65535;
  bi_pool k : 0 <= k <= bmt_blk_idx d -> 0 < block (ent d k) < 65536;
  bi_dist k l : 0 <= k <= bmt_blk_idx d -> 0 <= l <= bmt_blk_idx d ->
    block (ent d k) = block (ent d l) -> k = l;
  bi_owned i k : 0 <= i < pool_lba d -> 0 <= k <= bmt_blk_idx d ->
    bb d i = block (ent d k) -> mapped (ent d k) = NORMAL_MAPPED;
  bi_top : mapped (ent d (bmt_blk_idx d)) <> NORMAL_MAPPED
}.

(** No two logical blocks share a physical one. *)
Definition distinct d : Prop :=
  forall i j, 0 <= i < pool_lba d -> 0 <= j < pool_lba d -> bb d i = bb d j -> i = j.

(** Writing the table keeps the invariant, unless no block could take it. *)
Lemma inv_uploaded d n d' : bmt_inv d -> uploaded (bmt_blk_idx d + 1) d n d' -> bmt_inv (set_idx n d').
Proof.
  intros [I1 I2 I4 I5 I6 I7] [U1 [U2 U2'] U3 U4 U5 U6 U7 U8 U9].
  assert (Hbb : forall i, bb (set_idx n d') i = bb d i).
  { intros i. unfold bb. cbn [bbt set_idx]. rewrite U3. reflexivity. }
  assert (Hent : forall k, ent (set_idx n d') k = ent d' k) by reflexivity.
  assert (Hlba : pool_lba (set_idx n d') = pool_lba d) by (unfold same_params in *; cbn; intuition congruence).
  assert (Hbk : forall k, 0 <= k <= n -> block (ent d' k) = block (ent d k)).
  { intros k Hk. rewrite U6 by lia. destruct (Z.ltb_spec n k); [lia | reflexivity]. }
  assert (Hn : n_ent (set_idx n d') = n_ent d) by exact U4.
  assert (Hnb : n_bb (set_idx n d') = n_bb d) by (unfold n_bb; cbn; congruence).
  split; rewrite ?Hlba, ?Hn, ?Hnb; cbn [bmt_blk_idx set_idx].
  - exact I1.
  - lia.
  - intros k Hk. rewrite Hent, Hbk by lia. apply I4. lia.
  - intros k l Hk Hl. rewrite !Hent, !Hbk by lia. apply I5; lia.
  - intros i k Hi Hk. rewrite Hbb, Hent, Hbk, U5 by lia. apply I6; [exact Hi | lia].
  - rewrite Hent, U5 by lia. apply U7. lia.
Qed.

(** The pool may shrink from the top, but keeps its blocks. *)
Definition pool_kept d d' : Prop :=
  same_params d d' /\ bmt_blk_idx d' <= bmt_blk_idx d /\
  forall k, 0 <= k <= bmt_blk_idx d' -> block (ent d' k) = block (ent d k).

Lemma pool_kept_refl d : pool_kept d d.
Proof. split; [apply same_params_refl |]. split; [lia | reflexivity]. Qed.

Lemma pool_kept_uploaded d d1 n d' :
  same_params d d1 -> bmt_blk_idx d1 = bmt_blk_idx d ->
  (forall k, 0 <= k -> block (ent d1 k) = block (ent d k)) ->
  uploaded (bmt_blk_idx d1 + 1) d1 n d' -> pool_kept d (set_idx n d').
Proof.
  intros Hp Hi Hb [U1 [U2 _] _ _ _ U6 _ _ _]. split; [| split].
  - unfold same_params in *. cbn. intuition congruence.
  - cbn. lia.
  - intros k Hk. cbn in Hk. change (ent (set_idx n d') k) with (ent d' k). rewrite U6, Hb by lia.
    destruct (Z.ltb_spec n k); [lia | reflexivity].
Qed.

(** The blocks the collector looks at are all that use the pool: block 0 and
    the blocks above [mtd->size] are not remapped, and the pool lies behind
    the logical blocks. *)
Definition n_main d : Z := Z.shiftr (mtd_size d) (blk_shift d).
Definition pool_private d : Prop :=
  n_main d <= pool_lba d /\
  (forall i k, 0 <= i < pool_lba d -> i < 1 \/ n_main d <= i -> 0 <= k <= bmt_blk_idx d -> bb d i <> block (ent d k)) /\
  (forall k, 0 <= k <= bmt_blk_idx d -> pool_lba d <= block (ent d k)).

Lemma pool_private_kept d d' :
  pool_private d -> pool_kept d d' ->
  (forall i, 0 <= i < pool_lba d -> i < 1 \/ n_main d <= i -> bb d' i = bb d i) -> pool_private d'.
Proof.
  intros (H1 & H2 & H3) ((_ & _ & Hs & Hm & Hl & _ & _) & Hi & Hb) Hbb.
  assert (Hn : n_main d' = n_main d) by (unfold n_main; congruence).
  unfold pool_private. rewrite Hn, Hl. split; [exact H1 |]. split.
  - intros i k Hik Hout Hk. rewrite Hbb, Hb by assumption. apply H2; try assumption. lia.
  - intros k Hk. rewrite Hb by exact Hk. apply H3. lia.
Qed.

(** [upload_current] from a state with the pool in range. *)
Lemma upload_current_run d :
  0 <= bmt_blk_idx d < n_ent d -> bmt_blk_idx d < 65535 ->
  wp upload_current
     (fun _ d' => exists d'', d' = set_idx (bmt_blk_idx d') d'' /\
        ((bmt_blk_idx d' = u16 (-1) /\ same_params d d'' /\ bb_tbl (bbt d'') = bb_tbl (bbt d)) \/
         uploaded (bmt_blk_idx d + 1) d (bmt_blk_idx d') d'')) never d.
Proof.
  intros Hi Hmax. unfold upload_current. bmt_step. bmt_step. bmt_step. unfold upload_bmt.
  eapply wp_mono; [apply (upload_run (Z.to_nat (bmt_blk_idx d + 1)) d); lia | cbv beta | auto].
  intros n d'' H. rewrite Z2Nat.id in H by lia. bmt_step. exists d''. split; [reflexivity | exact H].
Qed.

(** Reading a table goes past the entries that hold a block and are not
    marked. *)
Lemma get_bmt_index_skip (l : list bbmt) off j :
  (j <= length l)%nat ->
  (forall k, (k < j)%nat -> block (nth k l bbmt0) <> 0 /\ mapped (nth k l bbmt0) <> BMT_MAPPED) ->
  get_bmt_index_loop l off = get_bmt_index_loop (drop j l) (off + Z.of_nat j).
Proof.
  revert off j. induction l as [|e l IH]; intros off [|j] Hj Hbefore; cbn [length] in Hj; try lia;
    try (rewrite Z.add_0_r; reflexivity).
  cbn [get_bmt_index_loop drop]. destruct (Hbefore O ltac:(lia)) as [Hb Hm]. cbn [nth] in Hb, Hm.
  change BMT_TBL_DEF_VAL with 0. apply Z.eqb_neq in Hb, Hm. rewrite Hb, Hm, (IH (off + 1) j).
  - f_equal. lia.
  - lia.
  - intros k Hk. apply (Hbefore (S k)). lia.
Qed.

(** The entry a table is found at: the first that is marked or holds no
    block decides. *)
Lemma get_bmt_index_at (l : list bbmt) i :
  0 <= i < Z.of_nat (length l) -> i < 65536 ->
  (forall k, 0 <= k < i -> block (geti bbmt0 l k) <> 0 /\ mapped (geti bbmt0 l k) <> BMT_MAPPED) ->
  block (geti bbmt0 l i) = 0 \/ mapped (geti bbmt0 l i) = BMT_MAPPED ->
  get_bmt_index l = Some (if block (geti bbmt0 l i) =? 0 then 0 else i).
Proof.
  intros Hi Hmax Hbefore Hend. unfold get_bmt_index. rewrite (get_bmt_index_skip l 0 (Z.to_nat i)).
  - unfold geti in *. rewrite (drop_S l (nth (Z.to_nat i) l bbmt0) (Z.to_nat i)).
    + cbn [get_bmt_index_loop]. change BMT_TBL_DEF_VAL with 0.
      destruct (Z.eqb_spec (block (nth (Z.to_nat i) l bbmt0)) 0) as [E | E]; [reflexivity |].
      destruct Hend as [Hend | Hend]; [contradiction |]. rewrite Hend, Z.eqb_refl, u16_small by lia.
      f_equal. lia.
    + rewrite nth_lookup. destruct (l !! Z.to_nat i) eqn:Hl; [reflexivity |].
      apply lookup_ge_None in Hl. lia.
  - lia.
  - intros k Hk. specialize (Hbefore (Z.of_nat k) ltac:(lia)). unfold geti in Hbefore.
    rewrite Nat2Z.id in Hbefore. exact Hbefore.
Qed.
End Invariant.

Section Remap.
Context {F : Type} {FL : Flash F}.
Implicit Types d : bmtd F.

(** Entry [k] with its mark changed. *)
Definition marked (k m : Z) d : bmtd F :=
  set_bbt (with_bmt_tbl (seti (bmt_tbl (bbt d)) k (Bbmt (block (ent d k)) m)) (bbt d)) d.

Lemma ent_marked k m d j : 0 <= k < n_ent d -> 0 <= j ->
  ent (marked k m d) j = if j =? k then Bbmt (block (ent d k)) m else ent d j.
Proof. apply ent_store. Qed.

Lemma take_from_pool_run d :
  bmt_inv d ->
  wp find_valid_block_in_pool
     (fun b d' =>
        (b = 0 /\ d' = d /\ forall k, 0 <= k < bmt_blk_idx d -> mapped (ent d k) <> NO_MAPPED) \/
        (exists k, 0 <= k < bmt_blk_idx d /\ mapped (ent d k) = NO_MAPPED /\
           (forall j, 0 <= j < k -> mapped (ent d j) <> NO_MAPPED) /\
           b = block (ent d k) /\ d' = marked k NORMAL_MAPPED d)) never d.
Proof.
  intros HI. pose proof (bi_idx _ HI) as [Hi _]. unfold find_valid_block_in_pool. bmt_step. bmt_step.
  destruct (Z.eqb_spec (bmt_blk_idx d) 0) as [E | E].
  { apply wp_ret. left. repeat split. intros k. lia. }
  bmt_step. unfold search.
  apply wp_loop_until with (I := fun j w => w = d /\ forall m, 0 <= m < j -> mapped (ent d m) <> NO_MAPPED).
  - split; [reflexivity | intros m; lia].
  - intros j w Hj [-> Hno]. bmt_step. bmt_step; [lia |].
    pose proof (bi_pool _ HI j ltac:(lia)) as Hblk.
    destruct (Z.eqb_spec (block (ent d j)) 0); [lia |]. cbn [negb andb].
    destruct (Z.eqb_spec (mapped (ent d j)) NO_MAPPED) as [Em | Em].
    + bmt_step. bmt_step; [lia |]. apply wp_ret. apply wp_ret. right. exists j.
      repeat split; try assumption; lia.
    + apply wp_ret. split; [reflexivity |]. intros m Hm. destruct (Z.eq_dec m j) as [-> |]; [exact Em |].
      apply Hno. lia.
  - intros w [-> Hno]. apply wp_ret. left. repeat split. intros k Hk. apply Hno. lia.
Qed.

Definition remapped (blk : Z) d d' : Prop :=
  exists k, 0 <= k < bmt_blk_idx d /\ mapped (ent d k) = NO_MAPPED /\
    (forall j, 0 <= j < k -> mapped (ent d j) <> NO_MAPPED) /\
    (forall i, 0 <= i -> bb d' i = if i =? blk then block (ent d k) else bb d i) /\
    (bmt_blk_idx d' = u16 (-1) \/ (bmt_inv d' /\ pool_kept d d')).

(** No logical block is mapped to a free spare block. *)
Lemma free_unused_entry d i k :
  bmt_inv d -> 0 <= i < pool_lba d -> 0 <= k <= bmt_blk_idx d -> mapped (ent d k) = NO_MAPPED -> bb d i <> block (ent d k).
Proof. intros HI Hi Hk Hfree E. rewrite (bi_owned _ HI i k Hi Hk E) in Hfree. discriminate. Qed.

(** Taking the free entry [k] for [blk]. *)
Definition taken (blk k : Z) (f : F) d : bmtd F :=
  set_flash f (set_bbt (with_bb_tbl (seti (bb_tbl (bbt d)) blk (block (ent d k)))
                          (bbt (marked k NORMAL_MAPPED d))) d).

Lemma inv_taken blk k f d :
  bmt_inv d -> 0 <= blk < pool_lba d -> 0 <= k < bmt_blk_idx d -> mapped (ent d k) = NO_MAPPED ->
  bmt_inv (taken blk k f d).
Proof.
  intros HI Hb Hk Hfree. pose proof HI as [I1 [I2 I2'] I4 I5 I6 I7].
  assert (Hbb : forall i, 0 <= i -> bb (taken blk k f d) i = if i =? blk then block (ent d k) else bb d i).
  { intros i Hi. apply (bb_store d blk (block (ent d k)) i); lia. }
  assert (Hent : forall j, 0 <= j -> ent (taken blk k f d) j
                 = if j =? k then Bbmt (block (ent d k)) NORMAL_MAPPED else ent d j).
  { intros j Hj. apply (ent_marked k NORMAL_MAPPED d j); lia. }
  assert (Hblk : forall j, 0 <= j -> block (ent (taken blk k f d) j) = block (ent d j)).
  { intros j Hj. rewrite Hent by exact Hj. destruct (Z.eqb_spec j k) as [-> |]; reflexivity. }
  assert (Hnb : n_bb (taken blk k f d) = n_bb d) by apply (n_bb_store d).
  assert (Hnt : n_ent (taken blk k f d) = n_ent d) by apply (n_ent_store d).
  split; change (pool_lba (taken blk k f d)) with (pool_lba d);
    change (bmt_blk_idx (taken blk k f d)) with (bmt_blk_idx d);
    rewrite ?Hnb, ?Hnt.
  - exact I1.
  - split; assumption.
  - intros j Hj. rewrite Hblk by lia. apply I4, Hj.
  - intros j l Hj Hl. rewrite !Hblk by lia. apply I5; assumption.
  - intros i j Hi Hj. rewrite Hbb, Hblk, Hent by lia.
    destruct (Z.eqb_spec j k) as [-> | Hne]; [reflexivity |].
    destruct (Z.eqb_spec i blk) as [-> |]; intros E; [| exact (I6 i j Hi Hj E)].
    destruct Hne. symmetry. apply I5; [lia | lia | exact E].
  - rewrite Hent by lia. destruct (Z.eqb_spec (bmt_blk_idx d) k); [lia | exact I7].
Qed.

Lemma remap_inv blk mapped_block copy_len d :
  bmt_inv d -> 0 <= blk < pool_lba d ->
  wp (remap_block_v2 blk mapped_block copy_len)
     (fun ok d' =>
        (ok = false /\ d' = d /\ forall k, 0 <= k < bmt_blk_idx d -> mapped (ent d k) <> NO_MAPPED) \/
        (ok = true /\ remapped blk d d')) never d.
Proof.
  intros HI Hb. unfold remap_block_v2. bmt_step.
  eapply wp_mono; [apply (take_from_pool_run d HI) | cbv beta | auto].
  intros b d1 [(-> & -> & Hno) | (k & Hk & Hfree & Hfirst & -> & ->)].
  { apply wp_ret. left. auto. }
  pose proof (bi_pool _ HI k ltac:(lia)) as Hblk. pose proof (bi_lba _ HI).
  destruct (Z.eqb_spec (block (ent d k)) 0); [lia |].
  bmt_step. bmt_step; [change (n_bb (marked k NORMAL_MAPPED d)) with (n_bb d); lia |].
  rewrite u16_small by lia. bmt_step. bmt_step. intros _ f1 _. bmt_step.
  apply wp_mono with (Q := fun _ d2 => exists f2, d2 = taken blk k f2 d) (E := never); [| | intros ? ? []].
  { destruct (0 <? copy_len); [apply wp_on_flash; intros _ f2 _; exists f2 | apply wp_ret; exists f1]; reflexivity. }
  intros _ d2 [f2 ->]. bmt_step. pose proof (inv_taken blk k f2 d HI Hb Hk Hfree) as HI2.
  destruct (bi_idx _ HI2) as [Hi2 Hmax2].
  eapply wp_mono; [apply (upload_current_run _ Hi2 Hmax2) | cbv beta | auto].
  intros _ d' (d3 & Hd' & Hcase). apply wp_ret. right. split; [reflexivity |]. exists k.
  do 3 (split; [assumption |]). split.
  - intros i Hi. rewrite <- (bb_store d blk (block (ent d k)) i) by lia. unfold bb. rewrite Hd'. cbn [bbt set_idx].
    destruct Hcase as [(_ & _ & ->) | Hup]; [reflexivity |]. rewrite (up_bb _ _ _ _ Hup). reflexivity.
  - destruct Hcase as [(-> & _) | Hup]; [left; reflexivity | right].
    rewrite Hd'. split; [exact (inv_uploaded _ _ _ HI2 Hup) |].
    refine (pool_kept_uploaded d (taken blk k f2 d) _ _ _ _ _ Hup); [repeat split | reflexivity |].
    intros j Hj. change (ent (taken blk k f2 d) j) with (ent (marked k NORMAL_MAPPED d) j).
    pose proof (bi_idx _ HI). rewrite ent_marked by lia. destruct (Z.eqb_spec j k) as [-> |]; reflexivity.
Qed.

(** Remapping a bad block, whatever the flash does. From a consistent
    table the call never leaves an array; it refuses exactly when the pool
    has no free entry, changing nothing; otherwise the block is mapped to the
    first free pool block, no other mapping changes, and the table is
    consistent again, unless no block was left to write it to.  If no two
    logical blocks shared a physical one, none do. *)
Theorem remap_block_v2_inv blk mapped_block copy_len d :
  bmt_inv d -> 0 <= blk < pool_lba d ->
  wp (remap_block_v2 blk mapped_block copy_len)
     (fun ok d' =>
        (ok = false /\ d' = d /\ forall k, 0 <= k < bmt_blk_idx d -> mapped (ent d k) <> NO_MAPPED) \/
        (ok = true /\ remapped blk d d' /\ (distinct d -> pool_lba d' = pool_lba d -> distinct d'))) never d.
Proof.
  intros HI Hb. eapply wp_mono; [apply (remap_inv blk mapped_block copy_len d HI Hb) | cbv beta | auto].
  intros ok d' [H | [-> H]]; [left; exact H | right]. split; [reflexivity |]. split; [exact H |].
  destruct H as (k & Hk & Hfree & _ & Hbb & _). intros Hd Hl i j. rewrite Hl. intros Hi Hj. rewrite !Hbb by lia.
  pose proof (free_unused_entry d i k HI Hi ltac:(lia) Hfree). pose proof (free_unused_entry d j k HI Hj ltac:(lia) Hfree).
  destruct (Z.eqb_spec i blk) as [-> |], (Z.eqb_spec j blk) as [-> |]; try congruence. apply Hd; assumption.
Qed.
End Remap.
