(* ===== verification/BmtScan.v ===== *)
(** * Scanning a flash for its bad blocks

    What [find_valid_block] and [scan_bad_blocks] find, for any flash whose
    reads tell good blocks from bad ones. *)

From S2P Require Import Prelude CMonad Bmt BmtMap.

Section Scan.
Context {F : Type} {FL : Flash F}.
Implicit Types d : bmtd F.
(** The blocks that read well and are not marked bad; reading changes
    nothing about that. *)
Variables (good : Z -> bool) (steady : F -> Prop).
Hypothesis read_good : forall b f rc buf fdm f', steady f -> bbt_nand_read b f = ((rc, buf, fdm), f') ->
  steady f' /\ good b = negb (cbool rc || negb (geti 0 fdm 0 =? 0xff)).

(** No block of [lo, hi) is good. *)
Definition none_good (lo hi : Z) : Prop := forall b, lo <= b < hi -> good b = false.

Lemma none_good_join a b c : none_good a b -> none_good b c -> none_good a c.
Proof. intros H1 H2 x Hx. destruct (Z.lt_ge_cases x b); [apply H1 | apply H2]; lia. Qed.

Lemma none_good_one a : good a = false -> none_good a (a + 1).
Proof. intros H b Hb. replace b with a by lia. exact H. Qed.

(** The result [b] of a search from [blk], in a flash of [total] blocks and
    with [n] bad ones to skip. *)
Definition found (total n blk b : Z) : Prop :=
  (b = 0 /\ none_good blk (Z.min total (blk + n + 1))) \/
  (blk <= b < total /\ b <= blk + n /\ good b = true /\ none_good blk b).

Lemma find_valid_block_run n blk d :
  steady (flash d) -> 0 < blk -> total_blks d <= 65535 ->
  wp (find_valid_block_loop n blk)
     (fun b d' => found (total_blks d) (Z.of_nat n) blk b /\ exists f, steady f /\ d' = set_flash f d) never d.
Proof.
  revert blk d. induction n as [|n IH]; intros blk d Hs Hb Ht; cbn [find_valid_block_loop].
  all: bmt_step; bmt_step; destruct (Z.leb_spec (total_blks d) blk).
  1, 3: apply wp_ret; split; [left; split; [reflexivity | intros b Hb'; lia] |
    exists (flash d); split; [exact Hs | destruct d; reflexivity]].
  all: bmt_step; bmt_step; intros [[rc buf] fdm] f Hrd; destruct (read_good _ _ _ _ _ _ Hs Hrd) as [Hs' Hg].
  all: destruct (cbool rc || negb (geti 0 fdm 0 =? 0xff)) eqn:Hbad.
  2, 4: apply wp_ret; split; [right; split; [lia |]; split; [lia |]; split; [exact Hg | intros b Hb'; lia] |
    exists f; split; [exact Hs' | reflexivity]].
  - apply wp_ret. split; [| exists f; split; [exact Hs' | reflexivity]].
    left. split; [reflexivity |]. intros b Hb'. apply (none_good_one blk Hg). lia.
  - rewrite u16_small by lia.
    eapply wp_mono; [apply (IH (blk + 1) (set_flash f d) Hs'); [lia | exact Ht] | cbv beta | auto].
    intros b d' [Hf (f' & Hs'' & ->)]. split; [| exists f'; split; [exact Hs'' | reflexivity]].
    change (total_blks (set_flash f d)) with (total_blks d) in Hf.
    destruct Hf as [[-> Hno] | (Hr & Hle & Hgb & Hno)]; [left | right].
    + split; [reflexivity |]. apply (none_good_join _ (blk + 1)); [apply none_good_one, Hg |].
      intros x Hx. apply Hno. lia.
    + split; [lia |]. split; [lia |]. split; [exact Hgb |].
      apply (none_good_join _ (blk + 1)); [apply none_good_one, Hg | exact Hno].
Qed.

(** Looking for a good block: the call terminates after at most
    [bb_max + 1] reads, and gives the first good block from [blk] on, or 0
    when the next [bb_max + 1] blocks of the flash are all bad. *)
Theorem find_valid_block_first blk d :
  steady (flash d) -> 0 < blk -> total_blks d <= 65535 -> 0 <= bb_max d ->
  wp (find_valid_block blk)
     (fun b d' => found (total_blks d) (bb_max d) blk b /\ exists f, steady f /\ d' = set_flash f d) never d.
Proof.
  intros Hs Hb Ht Hm. unfold find_valid_block. bmt_step. bmt_step.
  eapply wp_mono; [apply (find_valid_block_run (Z.to_nat (bb_max d)) blk d Hs Hb Ht) | cbv beta | auto].
  intros b d' [Hf Hd']. rewrite Z2Nat.id in Hf by lia. auto.
Qed.

(** The first [i] entries of the map: block 0, then the good blocks of the
    flash in order, none left out, with at most [bb_max] bad ones between
    two of them. *)
Definition enumerated d (i : Z) : Prop :=
  bb d 0 = 0 /\
  forall k, 1 <= k < i ->
    bb d (k - 1) < bb d k < total_blks d /\ bb d k <= bb d (k - 1) + 1 + bb_max d /\
    good (bb d k) = true /\ none_good (bb d (k - 1) + 1) (bb d k).

(** The same for the pool behind block [pba]; [next] is where it goes on. *)
Definition next_pool d (pba k : Z) : Z := if k =? 0 then pba else block (ent d (k - 1)) + 1.
Definition pooled d (pba i : Z) : Prop :=
  forall k, 0 <= k < i ->
    next_pool d pba k <= block (ent d k) < total_blks d /\ block (ent d k) <= next_pool d pba k + bb_max d /\
    good (block (ent d k)) = true /\ none_good (next_pool d pba k) (block (ent d k)).

(** The good blocks run out behind entry [i - 1]: the search gives up there. *)
Definition runs_out d (i : Z) : Prop :=
  1 <= i /\ enumerated d i /\
  none_good (bb d (i - 1) + 1) (Z.min (total_blks d) (bb d (i - 1) + 1 + bb_max d + 1)).

(** Steps of the scan keep the parameters and the sizes. *)
Definition frame d d' : Prop :=
  same_params d d' /\ n_bb d' = n_bb d /\ n_ent d' = n_ent d /\ steady (flash d').

Lemma enumerated_ge d i k : enumerated d i -> 0 <= k < i -> k <= bb d k.
Proof.
  intros [H0 H] [Hk Hi]. revert Hi. pattern k. apply natlike_ind; [lia | | exact Hk].
  intros j Hj IH Hi. destruct (H (Z.succ j) ltac:(lia)) as [Hlt _].
  replace (Z.succ j - 1) with j in Hlt by lia. lia.
Qed.

Lemma enumerated_mono d i j k : enumerated d i -> 0 <= j < k -> k < i -> bb d j < bb d k.
Proof.
  intros [_ H] [Hj Hk]. assert (Hk' : j + 1 <= k) by lia. clear Hk.
  pattern k. apply Zlt_lower_bound_ind with (z := j + 1); [| exact Hk'].
  intros x IH Hx Hi. destruct (H x ltac:(lia)) as [Hlt _].
  destruct (Z.eq_dec x (j + 1)) as [-> | Hne]; [replace (j + 1 - 1) with j in Hlt by lia; lia |].
  specialize (IH (x - 1) ltac:(lia) ltac:(lia)). lia.
Qed.

Lemma enumerated_snoc d i : enumerated d i -> 1 <= i ->
  bb d (i - 1) < bb d i < total_blks d /\ bb d i <= bb d (i - 1) + 1 + bb_max d /\
    good (bb d i) = true /\ none_good (bb d (i - 1) + 1) (bb d i) ->
  enumerated d (i + 1).
Proof.
  intros [H0 H] Hi Hn. split; [exact H0 |]. intros k Hk. destruct (Z.eq_dec k i) as [-> |]; [exact Hn | apply H; lia].
Qed.

Lemma scan_main_run d lba :
  steady (flash d) -> total_blks d <= 65535 -> 0 <= bb_max d -> lba <= n_bb d -> 1 <= n_bb d -> bb d 0 = 0 ->
  wp (scan_main lba)
     (fun r d' => frame d d' /\ bmt_tbl (bbt d') = bmt_tbl (bbt d) /\
        match r with None => enumerated d' (Z.max 1 lba) | Some _ => exists i, i < lba /\ runs_out d' i end) never d.
Proof.
  intros Hs Ht Hm Hl Hn H0. unfold scan_main.
  apply wp_loop_until with (I := fun j w => frame d w /\ bmt_tbl (bbt w) = bmt_tbl (bbt d) /\ enumerated w j).
  - split; [split; [repeat split | auto] |]. split; [reflexivity |]. split; [exact H0 | intros k; lia].
  - intros j w Hj ((Hp & Hnb & Hne & Hsw) & Hbm & Hen).
    pose proof Hp as (_ & Htot & _ & _ & _ & _ & Hmax).
    pose proof (enumerated_ge w j (j - 1) Hen ltac:(lia)) as Hge.
    assert (Hprev : 0 <= bb w (j - 1) < 65535).
    { destruct (Z.eq_dec j 1) as [-> |]; [change (1 - 1) with 0; rewrite (proj1 Hen); lia |].
      destruct Hen as [_ Hen]. destruct (Hen (j - 1) ltac:(lia)) as [Hlt _]. lia. }
    bmt_step. bmt_step; [lia |]. bmt_step. rewrite u16_small by lia.
    eapply wp_mono; [apply find_valid_block_first; [exact Hsw | lia | lia | lia] | cbv beta | auto].
    intros b w' [Hf (f & Hsf & ->)]. bmt_step. bmt_step; [change (n_bb (set_flash f w)) with (n_bb w); lia |].
    set (w2 := set_bbt _ _).
    assert (Hfr : frame d w2).
    { split; [unfold same_params in *; cbn; intuition congruence |].
      split; [unfold w2; rewrite n_bb_store; exact Hnb |]. split; [exact Hne | exact Hsf]. }
    assert (Hb16 : 0 <= b < 65536) by (unfold found in Hf; lia).
    assert (Hbb : forall k, 0 <= k -> bb w2 k = if k =? j then b else bb w k).
    { intros k Hk. unfold w2. rewrite u16_small by lia.
      apply (bb_store (set_flash f w) j b k); [change (n_bb (set_flash f w)) with (n_bb w); lia | exact Hk]. }
    assert (Hen2 : enumerated w2 j).
    { split; [rewrite Hbb by lia; destruct (Z.eqb_spec 0 j); [lia | apply Hen] |].
      intros k Hk. rewrite !Hbb by lia. destruct (Z.eqb_spec (k - 1) j), (Z.eqb_spec k j); try lia. apply Hen, Hk. }
    assert (Hj1 : bb w2 (j - 1) = bb w (j - 1)) by (rewrite Hbb by lia; destruct (Z.eqb_spec (j - 1) j); [lia | reflexivity]).
    destruct (Z.eqb_spec b 0) as [-> | Hb]; apply wp_ret; (split; [exact Hfr |]); (split; [exact Hbm |]);
      destruct Hf as [[Hb0 Hno] | (Hr & Hle & Hg & Hno)]; try lia.
    + exists j. split; [lia |]. split; [lia |]. split; [exact Hen2 |]. rewrite Hj1. exact Hno.
    + apply (enumerated_snoc w2 j Hen2 ltac:(lia)); rewrite Hj1; rewrite (Hbb j), Z.eqb_refl by lia.
      repeat split; try assumption; change (total_blks w2) with (total_blks w); change (bb_max w2) with (bb_max w); lia.
  - intros w (Hfr & Hbm & Hen). split; [exact Hfr |]. split; [exact Hbm |].
    replace (Z.max 1 lba) with (1 + Z.of_nat (Z.to_nat (lba - 1))) by lia. exact Hen.
Qed.

(** If the map is not the identity a bad block was skipped. *)
Lemma enumerated_bad d i j : enumerated d i -> 0 <= j < i -> bb d j <> j -> exists b, 1 <= b < i /\ good b = false.
Proof.
  intros [H0 H] [Hj Hi]. revert Hi. pattern j. apply natlike_ind; [congruence | | exact Hj].
  intros k Hk IH Hi Hne. destruct (Z.eq_dec (bb d k) k) as [E | E]; [| apply IH; [lia | exact E]].
  exists (Z.succ k). split; [lia |]. destruct (H (Z.succ k) ltac:(lia)) as (H1 & _ & _ & H2).
  replace (Z.succ k - 1) with k in * by lia. apply H2. lia.
Qed.

Lemma next_pool_ge d pba i : pooled d pba i -> 0 <= i -> pba + i <= next_pool d pba i.
Proof.
  intros H Hi. revert H. pattern i. apply natlike_ind; [| | exact Hi].
  - intros _. unfold next_pool. cbn. lia.
  - intros j Hj IH H. assert (Hp : pooled d pba j) by (intros k Hk; apply H; lia). specialize (IH Hp).
    destruct (H j ltac:(lia)) as [Hlt _]. unfold next_pool at 1.
    destruct (Z.eqb_spec (Z.succ j) 0); [lia |]. replace (Z.succ j - 1) with j by lia. lia.
Qed.

Lemma fill_pool_run fuel d i pba :
  steady (flash d) -> total_blks d <= 65535 -> 0 <= bb_max d -> 0 < pba <= total_blks d -> 0 <= i ->
  total_blks d - pba <= n_ent d -> pooled d pba i ->
  (forall k, 0 <= k < i -> mapped (ent d k) = NO_MAPPED) ->
  total_blks d - next_pool d pba i < Z.of_nat fuel ->
  wp (fill_pool fuel i (next_pool d pba i))
     (fun n d' => frame d d' /\ bb_tbl (bbt d') = bb_tbl (bbt d) /\ i <= n <= n_ent d /\ pooled d' pba n /\
        (forall k, 0 <= k < n -> mapped (ent d' k) = NO_MAPPED) /\
        none_good (next_pool d' pba n) (Z.min (total_blks d') (next_pool d' pba n + bb_max d' + 1))) never d.
Proof.
  revert d i. induction fuel as [|fuel IH]; intros d i Hs Ht Hm Hpba Hi Hlen Hpool Hno Hfuel; cbn [fill_pool].
  all: pose proof (next_pool_ge d pba i Hpool Hi) as Hge.
  { apply wp_fail. unfold next_pool in Hfuel. destruct (Z.eqb_spec i 0); [lia |].
    destruct (Hpool (i - 1) ltac:(lia)) as [Hlt _]. lia. }
  bmt_step. eapply wp_mono; [apply find_valid_block_first; [exact Hs | lia | lia | lia] | cbv beta | auto].
  intros b d1 [Hf (f & Hsf & ->)]. destruct (Z.eqb_spec b 0) as [Hb | Hb].
  { apply wp_ret. split; [split; [repeat split | split; [reflexivity | split; [reflexivity | exact Hsf]]] |].
    split; [reflexivity |]. split; [| split; [exact Hpool | split; [exact Hno |]]].
    - split; [lia |]. destruct (Z.eq_dec i 0) as [-> |]; [unfold n_ent; lia |].
      destruct (Hpool (i - 1) ltac:(lia)) as [Hlt _]. unfold next_pool in Hge.
      destruct (Z.eqb_spec i 0); [contradiction | lia].
    - destruct Hf as [[_ Hnone] | (Hr & _)]; [exact Hnone | lia]. }
  destruct Hf as [[? _] | (Hr & Hle & Hg & Hnone)]; [contradiction |].
  bmt_step. bmt_step; [change (n_ent (set_flash f d)) with (n_ent d); lia |].
  set (d2 := set_bbt _ _).
  assert (Hent : forall k, 0 <= k -> ent d2 k = if k =? i then Bbmt b NO_MAPPED else ent d k).
  { intros k Hk. apply (ent_store (set_flash f d) i (Bbmt b NO_MAPPED) k); [change (n_ent (set_flash f d)) with (n_ent d); lia | exact Hk]. }
  assert (Hnext : forall k, 0 <= k <= i -> next_pool d2 pba k = next_pool d pba k).
  { intros k Hk. unfold next_pool. destruct (Z.eqb_spec k 0); [reflexivity |]. rewrite Hent by lia.
    destruct (Z.eqb_spec (k - 1) i); [lia | reflexivity]. }
  assert (Hnew : next_pool d2 pba (i + 1) = b + 1).
  { unfold next_pool. destruct (Z.eqb_spec (i + 1) 0); [lia |]. rewrite Hent by lia.
    replace (i + 1 - 1) with i by lia. rewrite Z.eqb_refl. reflexivity. }
  assert (Hlen2 : n_ent d2 = n_ent d) by apply (n_ent_store (set_flash f d)).
  rewrite u16_small, <- Hnew by lia.
  eapply wp_mono; [apply (IH d2 (i + 1)) | cbv beta | auto].
  - exact Hsf.
  - exact Ht.
  - exact Hm.
  - exact Hpba.
  - lia.
  - rewrite Hlen2. exact Hlen.
  - intros k Hk. change (total_blks d2) with (total_blks d). rewrite Hnext, Hent by lia.
    destruct (Z.eqb_spec k i) as [-> |]; [| apply Hpool; lia].
    cbn [block]. change (bb_max d2) with (bb_max d). split; [lia |]. split; [lia |]. split; [exact Hg | exact Hnone].
  - intros k Hk. rewrite Hent by lia. destruct (Z.eqb_spec k i); [reflexivity | apply Hno; lia].
  - rewrite Hnew. change (total_blks d2) with (total_blks d). lia.
  - intros n d' ((Hp & Hnb & Hne & Hsd) & Hbb & Hin & Hpd & Hnd & Hend).
    split; [split; [exact Hp | split; [exact Hnb | split; [lia | exact Hsd]]] |].
    split; [exact Hbb |]. split; [lia |]. split; [exact Hpd |]. split; [exact Hnd | exact Hend].
Qed.

(** What a successful scan leaves. *)
Record scanned d : Prop := {
  sd_inv : bmt_inv d;
  sd_distinct : distinct d;
  sd_map : enumerated d (pool_lba d);
  sd_pba : pool_pba d = bb d (pool_lba d - 1) + 1;
  sd_room : pool_pba d < total_blks d - 2;
  sd_pool : pooled d (pool_pba d) (bmt_blk_idx d + 1);
  sd_end : none_good (block (ent d (bmt_blk_idx d)) + 1)
             (Z.min (total_blks d) (block (ent d (bmt_blk_idx d)) + 1 + bb_max d + 1));
  sd_free k : 0 <= k < bmt_blk_idx d -> mapped (ent d k) = NO_MAPPED;
  sd_table : mapped (ent d (bmt_blk_idx d)) = BMT_MAPPED
}.

Lemma pooled_mono d pba i j k : pooled d pba i -> 0 <= j < k -> k < i -> block (ent d j) < block (ent d k).
Proof.
  intros H [Hj Hk]. assert (Hk' : j + 1 <= k) by lia. clear Hk.
  pattern k. apply Zlt_lower_bound_ind with (z := j + 1); [| exact Hk'].
  intros x IH Hx Hi. destruct (H x ltac:(lia)) as [Hlt _]. unfold next_pool in Hlt.
  destruct (Z.eqb_spec x 0); [lia |].
  destruct (Z.eq_dec x (j + 1)) as [-> | Hne]; [replace (j + 1 - 1) with j in Hlt by lia; lia |].
  specialize (IH (x - 1) ltac:(lia) ltac:(lia)). lia.
Qed.

Lemma pooled_ge d pba i k : pooled d pba i -> 0 <= k < i -> pba <= block (ent d k) < total_blks d.
Proof.
  intros H Hk. destruct (H k Hk) as [Hlt _].
  assert (Hp : pooled d pba k) by (intros m Hm; apply H; lia).
  pose proof (next_pool_ge d pba k Hp ltac:(lia)). lia.
Qed.

(** A freshly scanned map is consistent. *)
Lemma scanned_inv d :
  0 < pool_lba d <= n_bb d -> 0 <= bmt_blk_idx d < n_ent d -> total_blks d <= 65535 ->
  enumerated d (pool_lba d) -> pool_pba d = bb d (pool_lba d - 1) + 1 ->
  pooled d (pool_pba d) (bmt_blk_idx d + 1) -> mapped (ent d (bmt_blk_idx d)) = BMT_MAPPED -> bmt_inv d /\ distinct d.
Proof.
  intros Hl Hi Ht Hen Hpba Hpool Hm.
  assert (Hrange : forall k, 0 <= k <= bmt_blk_idx d -> pool_pba d <= block (ent d k) < total_blks d).
  { intros k Hk. apply (pooled_ge d _ _ k Hpool). lia. }
  assert (Hbelow : forall i, 0 <= i < pool_lba d -> 0 <= bb d i < pool_pba d).
  { intros i Hi'. pose proof (enumerated_ge d _ i Hen Hi').
    destruct (Z.eq_dec i (pool_lba d - 1)) as [-> |]; [lia |].
    pose proof (enumerated_mono d _ i (pool_lba d - 1) Hen ltac:(lia) ltac:(lia)). lia. }
  assert (Hpos : 0 <= bb d (pool_lba d - 1)) by (apply Hbelow; lia).
  assert (Hsize : pool_pba d + bmt_blk_idx d <= block (ent d (bmt_blk_idx d))).
  { destruct (Hpool (bmt_blk_idx d) ltac:(lia)) as [Hlt _].
    assert (Hp : pooled d (pool_pba d) (bmt_blk_idx d)) by (intros m Hm'; apply Hpool; lia).
    pose proof (next_pool_ge d (pool_pba d) (bmt_blk_idx d) Hp ltac:(lia)). lia. }
  split; [split |].
  7: { intros i j Hi' Hj E. destruct (Z.lt_trichotomy i j) as [Hlt | [-> | Hlt]]; [| reflexivity |].
    + pose proof (enumerated_mono d _ i j Hen ltac:(lia) ltac:(lia)). lia.
    + pose proof (enumerated_mono d _ j i Hen ltac:(lia) ltac:(lia)). lia. }
  - exact Hl.
  - pose proof (Hrange (bmt_blk_idx d) ltac:(lia)). lia.
  - intros k Hk. pose proof (Hrange k Hk). lia.
  - intros k l Hk Hl' E. destruct (Z.lt_trichotomy k l) as [Hlt | [-> | Hlt]]; [| reflexivity |].
    + pose proof (pooled_mono d _ _ k l Hpool ltac:(lia) ltac:(lia)). lia.
    + pose proof (pooled_mono d _ _ l k Hpool ltac:(lia) ltac:(lia)). lia.
  - intros i k Hi' Hk E. pose proof (Hbelow i Hi'). pose proof (Hrange k Hk). lia.
  - rewrite Hm. discriminate.
Qed.

(** Giving the last pool entry to the table. *)
Lemma scanned_mark d i :
  0 < i <= n_ent d -> 0 < pool_lba d <= n_bb d -> total_blks d <= 65535 ->
  enumerated d (pool_lba d) -> pool_pba d = bb d (pool_lba d - 1) + 1 -> pool_pba d < total_blks d - 2 -> pooled d (pool_pba d) i ->
  (forall k, 0 <= k < i -> mapped (ent d k) = NO_MAPPED) ->
  none_good (next_pool d (pool_pba d) i) (Z.min (total_blks d) (next_pool d (pool_pba d) i + bb_max d + 1)) ->
  scanned (marked (i - 1) BMT_MAPPED (set_idx (i - 1) d)).
Proof.
  intros Hi Hl Ht Hen Hpba Hroom Hpool Hno Hend. set (d4 := marked _ _ _).
  assert (Hent : forall k, 0 <= k -> ent d4 k = if k =? i - 1 then Bbmt (block (ent d (i - 1))) BMT_MAPPED else ent d k).
  { intros k Hk. apply (ent_marked (i - 1) BMT_MAPPED (set_idx (i - 1) d)); [change (n_ent (set_idx (i - 1) d)) with (n_ent d); lia | exact Hk]. }
  assert (Hblk : forall k, 0 <= k -> block (ent d4 k) = block (ent d k)).
  { intros k Hk. rewrite Hent by exact Hk. destruct (Z.eqb_spec k (i - 1)) as [-> |]; reflexivity. }
  assert (Hnext : forall p k, 0 <= k -> next_pool d4 p k = next_pool d p k).
  { intros p k Hk. unfold next_pool. destruct (Z.eqb_spec k 0); [reflexivity |]. rewrite Hblk by lia. reflexivity. }
  assert (Hlen : n_ent d4 = n_ent d) by apply (n_ent_store (set_idx (i - 1) d)).
  assert (Hpool4 : pooled d4 (pool_pba d4) (bmt_blk_idx d4 + 1)).
  { change (bmt_blk_idx d4) with (i - 1). intros k Hk. rewrite Hnext, Hblk by lia. apply Hpool. lia. }
  assert (Hm4 : mapped (ent d4 (bmt_blk_idx d4)) = BMT_MAPPED).
  { change (bmt_blk_idx d4) with (i - 1). rewrite Hent, Z.eqb_refl by lia. reflexivity. }
  assert (Hidx : 0 <= bmt_blk_idx d4 < n_ent d4) by (rewrite Hlen; cbn; lia).
  destruct (scanned_inv d4 Hl Hidx Ht Hen Hpba Hpool4 Hm4) as [HI4 Hd4].
  split; [exact HI4 | exact Hd4 | exact Hen | exact Hpba | exact Hroom | exact Hpool4 | | | exact Hm4].
  - change (bmt_blk_idx d4) with (i - 1). rewrite Hblk by lia. unfold next_pool in Hend.
    destruct (Z.eqb_spec i 0); [lia | exact Hend].
  - intros k Hk. change (bmt_blk_idx d4) with (i - 1) in Hk. rewrite Hent by lia.
    destruct (Z.eqb_spec k (i - 1)); [lia | apply Hno; lia].
Qed.

(** The scan gives up: the good blocks run out within the map, or no more
    than two blocks are left behind it. *)
Definition gives_up d : Prop :=
  (exists i, i < pool_lba d /\ runs_out d i) \/
  (enumerated d (pool_lba d) /\ pool_pba d = bb d (pool_lba d - 1) + 1 /\ total_blks d - 2 <= pool_pba d).

(** The map is complete and there is room behind it, but no good block. *)
Definition no_pool d : Prop :=
  enumerated d (pool_lba d) /\ pool_pba d = bb d (pool_lba d - 1) + 1 /\ pool_pba d < total_blks d - 2 /\
  none_good (pool_pba d) (Z.min (total_blks d) (pool_pba d + bb_max d + 1)).

(** What decides the outcome besides the flash. *)
Definition same_flash d d' : Prop := total_blks d' = total_blks d /\ pool_lba d' = pool_lba d /\ bb_max d' = bb_max d.

(** The good blocks are listed in one way only. *)
Lemma enumerated_unique d1 d2 i k : enumerated d1 i -> enumerated d2 i -> 0 <= k < i -> bb d1 k = bb d2 k.
Proof.
  intros [H1 E1] [H2 E2] [Hk Hi]. revert Hi. pattern k. apply natlike_ind; [congruence | | exact Hk].
  intros j Hj IH Hi. specialize (IH ltac:(lia)). destruct (E1 (Z.succ j) ltac:(lia)) as (A1 & _ & A2 & A3).
  destruct (E2 (Z.succ j) ltac:(lia)) as (B1 & _ & B2 & B3). replace (Z.succ j - 1) with j in * by lia. rewrite IH in *.
  destruct (Z.lt_trichotomy (bb d1 (Z.succ j)) (bb d2 (Z.succ j))) as [H | [H | H]]; [| exact H |];
    [rewrite B3 in A2 by lia | rewrite A3 in B2 by lia]; discriminate.
Qed.

Lemma enumerated_le d i j : enumerated d i -> j <= i -> enumerated d j.
Proof. intros [H0 H] Hj. split; [exact H0 | intros k Hk; apply H; lia]. Qed.

Lemma runs_out_not d1 d2 i j : total_blks d2 = total_blks d1 -> bb_max d2 = bb_max d1 ->
  runs_out d1 i -> i < j -> enumerated d2 j -> False.
Proof.
  intros Ht Hm (Hi & H1 & Hno) Hj H2. pose proof (enumerated_unique d1 d2 i (i - 1) H1 (enumerated_le d2 j i H2 ltac:(lia)) ltac:(lia)) as E.
  destruct (proj2 H2 i ltac:(lia)) as (A1 & A2 & A3 & _). rewrite Hno in A3 by lia. discriminate.
Qed.

(** No flash allows two of the outcomes. *)
Lemma scan_outcomes d d1 d2 : same_flash d d1 -> same_flash d d2 -> 0 < pool_lba d ->
  (gives_up d1 -> scanned d2 \/ no_pool d2 -> False) /\ (no_pool d1 -> scanned d2 -> False).
Proof.
  intros (T1 & L1 & M1) (T2 & L2 & M2) Hl. split.
  - intros H1 H2. assert (H : enumerated d2 (pool_lba d2) /\ pool_pba d2 = bb d2 (pool_lba d2 - 1) + 1 /\ pool_pba d2 < total_blks d2 - 2)
      by (destruct H2 as [H2 | (H2 & H3 & H4 & _)]; [exact (conj (sd_map _ H2) (conj (sd_pba _ H2) (sd_room _ H2))) | auto]).
    destruct H as (E2 & P2 & R2). destruct H1 as [(i & Hi & Hr) | (E1 & P1 & R1)].
    + apply (runs_out_not d1 d2 i (pool_lba d2)); try assumption; congruence || lia.
    + rewrite L1, L2 in *. pose proof (enumerated_unique d1 d2 _ (pool_lba d - 1) E1 E2 ltac:(lia)). lia.
  - intros (E1 & P1 & R1 & Hno) H2. pose proof (sd_map _ H2) as E2. pose proof (sd_pba _ H2) as P2. rewrite L1, L2 in *.
    pose proof (enumerated_unique d1 d2 _ (pool_lba d - 1) E1 E2 ltac:(lia)) as E.
    pose proof (proj1 (bi_idx _ (sd_inv _ H2))). destruct (sd_pool _ H2 0 ltac:(lia)) as (A1 & A2 & A3 & _). change (next_pool d2 (pool_pba d2) 0) with (pool_pba d2) in *.
    rewrite Hno in A3 by lia. discriminate.
Qed.

Lemma scan_run d :
  steady (flash d) -> total_blks d <= 65535 -> 0 <= bb_max d ->
  0 < pool_lba d <= n_bb d -> total_blks d - pool_lba d <= n_ent d ->
  wp scan_bad_blocks
     (fun rc d' => same_flash d d' /\ ((rc = -1 /\ gives_up d') \/ (rc = 0 /\ scanned d')))
     (fun e d' => same_flash d d' /\ e = - EFAULT /\ no_pool d') d.
Proof.
  intros Hs Ht Hm Hl Hlen. unfold scan_bad_blocks. bmt_step. bmt_step; [lia |].
  set (d0 := set_bbt _ _). bmt_step. bmt_step. bmt_step.
  assert (Hnb0 : n_bb d0 = n_bb d) by apply n_bb_store.
  assert (H0 : bb d0 0 = 0).
  { unfold d0. rewrite bb_store by lia. reflexivity. }
  eapply wp_mono; [apply (scan_main_run d0 (pool_lba d0)); try assumption; rewrite Hnb0; change (pool_lba d0) with (pool_lba d); lia
                  | cbv beta | intros ? ? []].
  intros [[] | ] d1 ((Hp & Hnb & Hne & Hsd) & Hbm & Hen); [| pose proof Hp as (_ & Htot & _ & _ & Hlba & _ & Hmax); cbn in Htot, Hlba, Hmax].
  { pose proof Hp as (_ & Htot & _ & _ & Hlba & _ & Hmax). apply wp_ret. split; [exact (conj Htot (conj Hlba Hmax)) |].
    left. split; [reflexivity |]. left. rewrite Hlba. exact Hen. }
  change (pool_lba d0) with (pool_lba d) in *. rewrite Z.max_r in * by lia.
  pose proof (enumerated_ge d1 _ (pool_lba d - 1) Hen ltac:(lia)) as Hge.
  assert (Hlast : bb d1 (pool_lba d - 1) < 65535).
  { destruct (Z.eq_dec (pool_lba d) 1) as [E |]; [rewrite E; change (1 - 1) with 0; rewrite (proj1 Hen); lia |].
    destruct Hen as [_ Hen]. destruct (Hen (pool_lba d - 1) ltac:(lia)) as [Hlt _]. lia. }
  bmt_step. bmt_step; [lia |]. rewrite u16_small by lia.
  set (pba := bb d1 (pool_lba d - 1) + 1). bmt_step. bmt_step. set (d2 := set_pool_pba pba d1).
  bmt_step. bmt_step. bmt_step. bmt_step. change (pool_pba d2) with pba. change (total_blks d2) with (total_blks d1).
  destruct (Z.leb_spec (total_blks d1 - 2) pba) as [Hfull | Hroom].
  { apply wp_ret. split; [exact (conj Htot (conj Hlba Hmax)) |]. left. split; [reflexivity |]. right. change (pool_lba d2) with (pool_lba d1). rewrite Hlba.
    split; [exact Hen |]. split; [reflexivity | exact Hfull]. }
  bmt_step.
  eapply wp_mono; [apply (fill_pool_run (S (Z.to_nat (total_blks d1))) d2 0 pba) | cbv beta | intros ? ? []].
  - exact Hsd.
  - cbn. lia.
  - cbn. lia.
  - cbn. unfold pba. lia.
  - lia.
  - change (n_ent d2) with (n_ent d1). change (n_ent d0) with (n_ent d) in Hne. cbn. unfold pba. lia.
  - intros k Hk. lia.
  - intros k Hk. lia.
  - unfold next_pool. cbn [Z.eqb]. change (total_blks d2) with (total_blks d1). lia.
  - intros i d3 ((Hp3 & Hnb3 & Hne3 & Hsd3) & Hbb3 & Hi & Hpool & Hno & Hend).
    pose proof Hp3 as (_ & Htot3 & _ & _ & Hlba3 & Hpba3 & Hmax3). cbn in Htot3, Hlba3, Hpba3, Hmax3.
    assert (Hsame : same_flash d d3) by (unfold same_flash; rewrite Htot3, Hlba3, Hmax3; auto).
    assert (Hbb : forall k, bb d3 k = bb d1 k) by (intros k; unfold bb; rewrite Hbb3; reflexivity).
    assert (Hen3 : enumerated d3 (pool_lba d)).
    { split; [rewrite Hbb; apply Hen |]. intros k Hk. rewrite !Hbb, Htot3, Hmax3. apply Hen, Hk. }
    bmt_step. bmt_step. bmt_step. destruct (Z.eq_dec i 0) as [-> | Hi0].
    { unfold wp, load_bmt, in_array. cbn [Z.leb Z.sub Z.add Z.opp andb Z.compare]. split; [exact Hsame |].
      split; [reflexivity |]. unfold no_pool. cbn [pool_pba pool_lba total_blks bb_max set_idx]. rewrite Hlba3, Hpba3, Hlba.
      split; [exact Hen3 |]. split; [symmetry; unfold pba; f_equal; apply Hbb |]. split; [lia |].
      unfold next_pool in Hend. cbn [Z.eqb] in Hend. exact Hend. }
    bmt_step; [change (n_ent (set_idx (i - 1) d3)) with (n_ent d3); lia |]. bmt_step.
    bmt_step; [change (n_ent (set_idx (i - 1) d3)) with (n_ent d3); lia |].
    destruct (Z.ltb_spec i 1); [lia |]. apply wp_ret. split; [exact Hsame |]. right. split; [reflexivity |].
    change (n_bb d2) with (n_bb d1) in Hnb3.
    apply (scanned_mark d3 i); rewrite ?Hlba3, ?Hpba3, ?Hlba; try assumption; try lia.
    rewrite Hbb. reflexivity.
Qed.

(** C22: the first scan has one of three outcomes, and the blocks of the flash
    decide which.  It gives up, with -1, when a run of more than [bb_max] bad
    blocks or the end of the flash cuts the map short, or when no more than two
    blocks are left behind it.  It leaves its arrays when none of the
    [bb_max + 1] blocks behind the map is good, since the entry for the table
    is marked before the pool is known not to be empty.  Otherwise it succeeds:
    [bb_tbl] lists block 0 and then the good blocks of the flash in order with
    none left out, the pool lists the good blocks behind them, all free but the
    last, which is marked for the table, and the map is consistent. *)
Theorem scan_bad_blocks_spec d :
  steady (flash d) -> total_blks d <= 65535 -> 0 <= bb_max d ->
  0 < pool_lba d <= n_bb d -> total_blks d - pool_lba d <= n_ent d ->
  wp scan_bad_blocks
     (fun rc d' => same_flash d d' /\ ((rc = -1 /\ gives_up d') \/ (rc = 0 /\ scanned d')))
     (fun e d' => same_flash d d' /\ e = - EFAULT /\ no_pool d') d /\
  forall d1 d2, same_flash d d1 -> same_flash d d2 ->
    (gives_up d1 -> scanned d2 \/ no_pool d2 -> False) /\ (no_pool d1 -> scanned d2 -> False).
Proof.
  intros Hs Ht Hm Hl Hlen. split; [exact (scan_run d Hs Ht Hm Hl Hlen) |].
  intros d1 d2 H1 H2. exact (scan_outcomes d d1 d2 H1 H2 (proj1 Hl)).
Qed.
End Scan.
