(* ===== verification/BmtProps.v ===== *)
(** * Properties of the bad block table

    What the next attach makes of a table that was written, garbage
    collection, and the whole life of the map as sequences of calls. *)

From S2P Require Import Prelude CMonad Bmt BmtMap BmtScan.

(** ** What the next attach makes of the table

    [table_at f b]: the table block [b] of the flash holds.  A table that was
    written is held; a table that is held is read back with the mark in the
    spare area, and a block that holds none does not read as a table. *)
Class FlashOk (F : Type) {FL : Flash F} := {
  table_at : F -> Z -> option bbbt;
  ta_write b t f : fst (write_bmt b t f) = 0 -> table_at (snd (write_bmt b t f)) b = Some t;
  ta_read b f :
    let '((rc, buf, fdm), f') := bbt_nand_read b f in
    (forall b', table_at f' b' = table_at f b') /\
    match table_at f b with
    | Some t => rc = 0 /\ buf = t /\ take 3 (drop (Z.to_nat OOB_SIGNATURE_OFFSET) fdm) = sig_bmt
    | None => rc <> 0 \/ is_valid_bmt buf fdm = false
    end
}.

Section Attach.
Context {F : Type} {FL : Flash F}.
Implicit Types d : bmtd F.

(** The entry the index of the table is read from, after it was written. *)
Lemma upload_index d d' :
  bmt_inv d -> mapped (ent d (bmt_blk_idx d)) = BMT_MAPPED ->
  (forall k, 0 <= k < bmt_blk_idx d -> mapped (ent d k) <> BMT_MAPPED) ->
  upload_current d = (Ok tt, d') -> bmt_blk_idx d' <> u16 (-1) ->
  has_header (bbt d') /\ bb_tbl (bbt d') = bb_tbl (bbt d) /\
  (exists f, write_bmt (block (ent d' (bmt_blk_idx d'))) (bbt d') f = (0, flash d')) /\
  get_bmt_index (bmt_tbl (bbt d')) = Some (if bmt_blk_idx d' =? bmt_blk_idx d then bmt_blk_idx d else 0).
Proof.
  intros HI Hm Hlow Hrun Hlive. destruct (bi_idx _ HI) as [Hi Hmax].
  destruct (wp_never _ _ _ (upload_current_run d Hi Hmax)) as (a & w & E & d2 & Hd' & Hcase).
  rewrite Hrun in E. injection E as <- <-. destruct Hcase as [(Hx & _) | Hup]; [contradiction |].
  set (n := bmt_blk_idx d') in *. pose proof (up_range _ _ _ _ Hup) as Hn.
  assert (Hent : forall k, ent d' k = ent d2 k) by (intros k; rewrite Hd'; reflexivity).
  assert (Hblk : forall k, 0 <= k -> block (ent d' k) = if (n <? k) && (k <? bmt_blk_idx d + 1) then 0 else block (ent d k)).
  { intros k Hk. rewrite Hent. apply (up_block _ _ _ _ Hup k Hk). }
  assert (Hmk : forall k, 0 <= k -> mapped (ent d' k) = mapped (ent d k)).
  { intros k Hk. rewrite Hent. apply (up_mapped _ _ _ _ Hup k Hk). }
  assert (Hlen : n_ent d' = n_ent d) by (rewrite Hd'; exact (up_len _ _ _ _ Hup)).
  split; [rewrite Hd'; exact (up_header _ _ _ _ Hup) |]. split; [rewrite Hd'; exact (up_bb _ _ _ _ Hup) |]. split.
  - destruct (up_written _ _ _ _ Hup) as (f & rc & Hw & ->). exists f. rewrite Hent, Hd'. exact Hw.
  - assert (Hbefore : forall k, 0 <= k <= n -> k < bmt_blk_idx d ->
      block (ent d' k) <> 0 /\ mapped (ent d' k) <> BMT_MAPPED).
    { intros k Hk Hk'. rewrite Hmk by lia. split; [| apply Hlow; lia].
      rewrite Hblk by lia. destruct (Z.ltb_spec n k); [lia |]. pose proof (bi_pool _ HI k ltac:(lia)). cbn [andb]. lia. }
    unfold n_ent in *. destruct (Z.eqb_spec n (bmt_blk_idx d)) as [E | E].
    + assert (Hb : block (ent d' n) <> 0).
      { rewrite Hblk by lia. destruct (Z.ltb_spec n n); [lia |]. cbn [andb].
        pose proof (bi_pool _ HI n ltac:(lia)). lia. }
      rewrite (get_bmt_index_at _ n); [| lia | lia | intros k Hk; apply Hbefore; lia |].
      * fold (ent d' n). apply Z.eqb_neq in Hb. rewrite Hb. congruence.
      * right. fold (ent d' n). rewrite Hmk, E by lia. exact Hm.
    + assert (Hb : block (ent d' (n + 1)) = 0).
      { rewrite Hblk by lia. destruct (Z.ltb_spec n (n + 1)), (Z.ltb_spec (n + 1) (bmt_blk_idx d + 1)); try lia. reflexivity. }
      rewrite (get_bmt_index_at _ (n + 1)); [| lia | lia | intros k Hk; apply Hbefore; lia | left; exact Hb].
      fold (ent d' (n + 1)). rewrite Hb. reflexivity.
Qed.

(** More fuel changes nothing once the search has ended. *)
Lemma find_bmt_fuel n m b e r e' : find_bmt n b e = (r, e') -> (n <= m)%nat ->
  r <> Err (- ETIMEDOUT) -> find_bmt m b e = (r, e').
Proof.
  revert m b e. induction n as [|n IH]; intros m b e Hrun Hm Hr; [injection Hrun as <- _; contradiction |].
  destruct m as [|m]; [lia |]. cbn [find_bmt] in *. unfold bind, get, on_flash, modify in *.
  destruct (b <? pool_lba e); [exact Hrun |]. destruct (bbt_nand_read b (flash e)) as [[[rc buf] fdm] f].
  destruct (cbool rc); [apply IH; auto with lia |]. destruct (negb (is_valid_bmt buf fdm)); [apply IH; auto with lia |]. exact Hrun.
Qed.

Lemma find_bmt_step n b e : pool_lba e <= b ->
  find_bmt (S n) b e =
    let '((rc, buf, fdm), f) := bbt_nand_read b (flash e) in
    let e1 := set_bbt buf (set_flash f e) in
    if cbool rc || negb (is_valid_bmt buf fdm) then find_bmt n (u16 (b - 1)) e1
    else match get_bmt_index (bmt_tbl buf) with
         | None => (Err (- EFAULT), e1)
         | Some i => (Ok (negb (i =? 0)), set_idx i e1)
         end.
Proof.
  intros Hb. cbn [find_bmt]. unfold bind, get, on_flash, modify. destruct (Z.ltb_spec b (pool_lba e)); [lia |].
  destruct (bbt_nand_read b (flash e)) as [[[rc buf] fdm] f]. cbv zeta. destruct (cbool rc); [reflexivity |].
  destruct (negb (is_valid_bmt buf fdm)); [reflexivity |]. destruct (get_bmt_index (bmt_tbl buf)); reflexivity.
Qed.

(** Looking for the table from the last block down to the one that has it. *)
Lemma find_bmt_at {OK : FlashOk F} t p k e : table_at (flash e) p = Some t -> has_header t ->
  (forall b, p < b <= p + Z.of_nat k -> table_at (flash e) b = None) ->
  0 < pool_lba e <= p -> p + Z.of_nat k < 65536 ->
  exists e', find_bmt (S k) (p + Z.of_nat k) e =
      (match get_bmt_index (bmt_tbl t) with None => Err (- EFAULT) | Some i => Ok (negb (i =? 0)) end, e') /\
    bbt e' = t /\ (forall i, get_bmt_index (bmt_tbl t) = Some i -> bmt_blk_idx e' = i) /\
    pool_lba e' = pool_lba e /\ total_blks e' = total_blks e.
Proof.
  intros Ht [Hs Hv] Hno Hl Hk. revert e Ht Hno Hl. induction k as [|k IH]; intros e Ht Hno Hl; rewrite find_bmt_step by lia.
  - rewrite Z.add_0_r. pose proof (ta_read p (flash e)) as Hr. destruct (bbt_nand_read p (flash e)) as [[[rc buf] fdm] f].
    rewrite Ht in Hr. destruct Hr as (_ & -> & -> & Hf). cbn [cbool Z.eqb negb orb].
    assert (is_valid_bmt t fdm = true) as ->.
    { unfold is_valid_bmt. change (drop (Z.to_nat MAIN_SIGNATURE_OFFSET) (signature t)) with (signature t). rewrite Hs, Hv, Hf.
      rewrite !bool_decide_eq_true_2 by reflexivity. reflexivity. }
    change (cbool 0 || negb true) with false. cbv iota.
    destruct (get_bmt_index (bmt_tbl t)) as [i |] eqn:Hi; eexists; (split; [reflexivity |]); cbn; repeat split; congruence.
  - pose proof (ta_read (p + Z.of_nat (S k)) (flash e)) as Hr. rewrite (Hno (p + Z.of_nat (S k))) in Hr by lia.
    destruct (bbt_nand_read (p + Z.of_nat (S k)) (flash e)) as [[[rc buf] fdm] f]. destruct Hr as [Hsame Hr].
    destruct (IH ltac:(lia) (set_bbt buf (set_flash f e))) as (e' & Hrun & He'); cbn [flash pool_lba set_bbt set_flash].
    { rewrite Hsame. exact Ht. }
    { intros b Hb. rewrite Hsame. apply Hno. lia. }
    { exact Hl. }
    exists e'. split; [| exact He']. rewrite <- Hrun.
    rewrite (u16_small (p + Z.of_nat (S k) - 1)) by lia. replace (p + Z.of_nat (S k) - 1) with (p + Z.of_nat k) by lia.
    assert (cbool rc || negb (is_valid_bmt buf fdm) = true) as ->; [| reflexivity].
    destruct Hr as [Hrc | ->]; [| apply orb_true_r]. unfold cbool. apply Z.eqb_neq in Hrc. rewrite Hrc. reflexivity.
Qed.

(** C23: writing the table and attaching anew. The table of [d] is written,
    and leaves [d']; later the driver attaches to that flash, on which no
    block behind the one that took the table holds one.  When the table went
    to the block that held it, and that is not the first of the pool, the
    search of the attach finds exactly the table in memory, and the attach
    succeeds with it. When that block failed and a lower one took the
    table, the entry of the new block is not marked as the table's and the
    failed entry, now without a block, ends the search for the mark: the
    index found is 0, and like that of a table in the first entry it makes
    the attach give the table up and scan anew. *)
Theorem bmt_table_after_upload {OK : FlashOk F} d d' :
  bmt_inv d -> mapped (ent d (bmt_blk_idx d)) = BMT_MAPPED ->
  (forall k, 0 <= k < bmt_blk_idx d -> mapped (ent d k) <> BMT_MAPPED) ->
  upload_current d = (Ok tt, d') -> bmt_blk_idx d' <> u16 (-1) ->
  let p := block (ent d' (bmt_blk_idx d')) in
  pool_lba d <= p < total_blks d -> total_blks d <= 65535 ->
  (forall b, p < b < total_blks d -> table_at (flash d') b = None) ->
  let kept := (bmt_blk_idx d' =? bmt_blk_idx d) && negb (bmt_blk_idx d' =? 0) in
  (forall e, flash e = flash d' -> pool_lba e = pool_lba d -> total_blks e = total_blks d ->
     exists e', find_bmt (S (Z.to_nat (total_blks e))) (u16 (total_blks e - 1)) e = (Ok kept, e')) /\
  (kept = true -> forall e pool_size_prop oob_prop table_size_prop pg_size pg_shift buf,
     flash e = flash d' -> total_blks e = total_blks d -> total_blks d - default 80 pool_size_prop = pool_lba d ->
     exists e', mtk_bmt_init_v2 pool_size_prop oob_prop table_size_prop pg_size pg_shift (Some buf) e = (Ok 0, e') /\
       bbt e' = bbt d' /\ bmt_blk_idx e' = bmt_blk_idx d /\ forall i, bb e' i = bb d i).
Proof.
  intros HI Hm Hlow Hrun Hlive p Hp Htot Hno kept.
  destruct (upload_index d d' HI Hm Hlow Hrun Hlive) as (Hh & Hbb & (f & Hw) & Hidx). pose proof (bi_lba _ HI) as Hl. pose proof (bi_idx _ HI) as Hi.
  assert (Hat : table_at (flash d') p = Some (bbt d')) by (pose proof (ta_write p (bbt d') f) as Hta; unfold p in *; rewrite Hw in Hta; auto).
  assert (Hfind : forall e, flash e = flash d' -> pool_lba e = pool_lba d -> total_blks e = total_blks d ->
    exists e', find_bmt (S (Z.to_nat (total_blks e))) (u16 (total_blks e - 1)) e = (Ok kept, e') /\
      bbt e' = bbt d' /\ (kept = true -> bmt_blk_idx e' = bmt_blk_idx d)).
  { intros e Hf Hel Het. rewrite Het, u16_small by lia.
    destruct (find_bmt_at (bbt d') p (Z.to_nat (total_blks d - 1 - p)) e) as (e' & Hr & Hb & Hx & _); rewrite ?Hf, ?Hel, ?Z2Nat.id by lia;
      [exact Hat | exact Hh | intros b Hb; apply Hno; lia | lia | lia |].
    rewrite Z2Nat.id in Hr by lia. replace (p + (total_blks d - 1 - p)) with (total_blks d - 1) in Hr by lia.
    exists e'. split; [| split; [exact Hb |]].
    - apply (find_bmt_fuel _ (S (Z.to_nat (total_blks d)))) in Hr; [| lia |].
      + rewrite Hr, Hidx. f_equal. unfold kept. destruct (bmt_blk_idx d' =? bmt_blk_idx d) eqn:E; [| reflexivity]. apply Z.eqb_eq in E. rewrite E. reflexivity.
      + rewrite Hidx. discriminate.
    - unfold kept. intros Hk. apply andb_true_iff in Hk as [Hk _]. rewrite (Hx _ Hidx), Hk. reflexivity. }
  split; [intros e He1 He2 He3; destruct (Hfind e He1 He2 He3) as (e' & He & _); eauto |].
  intros Hk e psp oob tsp pgs pgsh buf Hf Het Hpool. unfold mtk_bmt_init_v2.
  unfold bind at 1, get at 1. unfold bind at 1, get at 1. cbv zeta. unfold bind at 1, modify at 1. unfold bind at 1, modify at 1.
  match goal with |- context [bind (find_bmt (S (Z.to_nat (total_blks e))) _) _ ?s] => destruct (Hfind s) as (e' & Hr & Hb & Hx); [exact Hf | | exact Het |] end.
  { cbn [pool_lba set_bbt]. rewrite Het. unfold u16, uwrap. rewrite Zplus_mod_idemp_l.
    replace (_ - 2 + 2) with (pool_lba d) by lia. apply Z.mod_small. lia. }
  cbn [total_blks set_bbt] in Hr. unfold bind at 1. rewrite Hr, Hk. exists e'. split; [reflexivity |]. split; [exact Hb |].
  split; [auto |]. intros i. unfold bb. rewrite Hb, Hbb. reflexivity.
Qed.

(** No block of the flash holds a table, and the buffer keeps its size. *)
Definition no_table (n : Z) : Prop := forall b f,
  let '(_, buf, fdm) := fst (bbt_nand_read b f) in
  is_valid_bmt buf fdm = false /\ Z.of_nat (length (bmt_tbl buf)) = n.

Lemma find_bmt_none m k b d :
  no_table m -> n_ent d = m -> 0 < pool_lba d -> -1 <= b < 65536 -> b < pool_lba d + Z.of_nat k ->
  exists d', find_bmt (S k) b d = (Ok false, d') /\ n_ent d' = m /\ table_size d' = table_size d.
Proof.
  intros Hno. revert b d. induction k as [|k IH]; intros b d Hd Hl Hb Hk.
  2: remember (S k) as k1 eqn:Ek.
  all: cbn [find_bmt]; unfold bind at 1, get; destruct (Z.ltb_spec b (pool_lba d));
    [exists d; repeat split; assumption | try lia].
  specialize (Hno b (flash d)). unfold bind at 1, on_flash.
  destruct (bbt_nand_read b (flash d)) as [[[rc buf] fdm] f]. cbn [fst] in Hno. destruct Hno as [Hv Hn].
  destruct (IH (u16 (b - 1)) (set_bbt buf (set_flash f d))) as (d' & Hrun & Hd' & Ht); cbn [pool_lba set_bbt set_flash];
    rewrite ?u16_small by lia; try lia; try exact Hn.
  exists d'. rewrite Hv. cbn [negb]. unfold bind, modify.
  rewrite u16_small in Hrun by lia. destruct (cbool rc); auto.
Qed.

(** First use of a flash. With the default table size of 0x2000 and
    pages of 512, 2048 or 4096 bytes, the buffer [mtk_bmt_init_v2] allocates
    has room for the header, [bb_tbl] and only part of [bmt_tbl], because its
    size counts [table_size] entries of four bytes where the two tables take
    six; clearing the table of a flash that has none yet writes past the
    buffer. *)
Theorem bmt_init_overflows pool_size_prop oob_prop pg_size pg_shift buf d :
  In pg_size [512; 2048; 4096] ->
  let n := bmt_entries 0x2000 (bmt_bufsz 0x2000 pg_size) in
  Z.of_nat (length (bmt_tbl buf)) = n -> no_table n ->
  0 <= default 80 pool_size_prop < total_blks d -> total_blks d <= 0x2000 ->
  n < 0x2000 /\
  fst (mtk_bmt_init_v2 pool_size_prop oob_prop None pg_size pg_shift (Some buf) d) = Err (- EFAULT).
Proof.
  intros Hpg n Hlen Hno Hpool Htot. assert (Hn : n < 0x2000).
  { subst n. destruct Hpg as [<- | [<- | [<- | []]]]; reflexivity. }
  assert (Hlba : u16 (u16 (total_blks d - default 80 pool_size_prop - 2) + 2) = total_blks d - default 80 pool_size_prop).
  { unfold u16, uwrap. rewrite Zplus_mod_idemp_l. replace (_ - 2 + 2) with (total_blks d - default 80 pool_size_prop) by lia.
    apply Z.mod_small. lia. }
  split; [exact Hn |]. unfold mtk_bmt_init_v2. change (default 0x2000 None) with 0x2000.
  unfold bind at 1, get at 1. unfold bind at 1, get at 1. cbv zeta. unfold bind at 1, modify at 1.
  unfold bind at 1, modify at 1. rewrite Hlba.
  assert (Hend : u16 (total_blks d - 1) = total_blks d - 1) by (apply u16_small; lia).
  match goal with |- context [bind (find_bmt (S ?k) ?b) _ ?s] => destruct (find_bmt_none n k b s Hno) as (d' & Hf & Hd' & Ht) end.
  { exact Hlen. }
  { cbn [pool_lba set_bbt]. lia. }
  { rewrite Hend. lia. }
  { rewrite Hend. cbn [pool_lba set_bbt]. lia. }
  unfold bind at 1. rewrite Hf. cbn [table_size set_bbt default] in Ht.
  destruct (Z.ltb_spec (0x2000 + 0x2000 * BBPOOL_RATIO / 100) (total_blks d)).
  { exfalso. change (0x2000 + 0x2000 * BBPOOL_RATIO / 100) with 8355 in *. lia. }
  unfold bind at 1, clear_bmt_tbl at 1. rewrite Ht. unfold n_ent in Hd'.
  destruct (Z.leb_spec 0x2000 (Z.of_nat (length (bmt_tbl (bbt d'))))); [lia | reflexivity].
Qed.
End Attach.

(** ** Garbage collection *)

Section Collect.
Context {F : Type} {FL : Flash F}.
Implicit Types d : bmtd F.

(** Entry [k] is the target of a remapped block in [1, m). *)
Definition user d (m k : Z) : Prop :=
  exists i, 1 <= i < m /\ bb d i <> i /\ bb d i = block (ent d k).

Lemma mark_used_run b used d :
  bmt_inv d ->
  wp (mark_used b used)
     (fun used' d' => d' = d /\ forall k, 0 <= k ->
        Z.testbit used' k = true <-> Z.testbit used k = true \/ (k < bmt_blk_idx d /\ b = block (ent d k))) never d.
Proof.
  intros HI. destruct (bi_idx _ HI) as [Hi _]. unfold mark_used. bmt_step. bmt_step. bmt_step. unfold search.
  apply wp_loop_until with (I := fun j w => w = d /\ forall m, 0 <= m < j -> b <> block (ent d m)).
  - split; [reflexivity | intros m; lia].
  - intros j w Hj [-> Hno]. bmt_step. bmt_step; [lia |].
    destruct (Z.eqb_spec b (block (ent d j))) as [E | E]; apply wp_ret.
    + apply wp_ret. split; [reflexivity |]. intros k Hk.
      rewrite Z.lor_spec, testbit_BIT, orb_true_iff, Z.eqb_eq by lia.
      split; (intros [H | H]; [left; exact H | right]).
      * subst k. split; [lia | exact E].
      * destruct H as [Hlt Hb]. apply (bi_dist _ HI); [lia | lia | congruence].
    + split; [reflexivity |]. intros m Hm. destruct (Z.eq_dec m j) as [-> |]; [exact E | apply Hno; lia].
  - intros w [-> Hno]. apply wp_ret. split; [reflexivity |]. intros k Hk. split; [auto |].
    intros [H | [Hlt Hb]]; [exact H |]. destruct (Hno k ltac:(lia) Hb).
Qed.

Lemma mapping_mask_run d :
  bmt_inv d -> n_main d <= n_bb d ->
  wp mtk_bmt_get_mapping_mask
     (fun used d' => d' = d /\ forall k, 0 <= k ->
        Z.testbit used k = true <-> k < bmt_blk_idx d /\ user d (n_main d) k) never d.
Proof.
  intros HI Hn. unfold mtk_bmt_get_mapping_mask, main_blocks. bmt_step. bmt_step. fold (n_main d).
  apply wp_loop_acc with (I := fun j used w => w = d /\ forall k, 0 <= k ->
    Z.testbit used k = true <-> k < bmt_blk_idx d /\ user d j k).
  - split; [reflexivity |]. intros k Hk. rewrite Z.testbit_0_l. split; [discriminate |].
    intros (_ & i & Hi & _). lia.
  - intros j used w Hj [-> Hu]. bmt_step. bmt_step; [lia |].
    assert (Hext : forall k, user d (j + 1) k <-> user d j k \/ (bb d j <> j /\ bb d j = block (ent d k))).
    { intros k. split.
      - intros (i & Hi & Hne & Hb). destruct (Z.eq_dec i j) as [-> |]; [right; auto | left; exists i; auto with lia].
      - intros [(i & Hi & H) | H]; [exists i | exists j]; (split; [lia | exact H]). }
    destruct (Z.eqb_spec (bb d j) j) as [E | E].
    + apply wp_ret. split; [reflexivity |]. intros k Hk. rewrite Hu, Hext by exact Hk. intuition contradiction.
    + eapply wp_mono; [apply (mark_used_run (bb d j) used d HI) | cbv beta | auto].
      intros used' d' [-> Hu']. split; [reflexivity |]. intros k Hk. rewrite Hu', Hu, Hext by exact Hk. intuition congruence.
  - intros used w [-> Hu]. split; [reflexivity |]. intros k Hk. rewrite Hu by exact Hk.
    destruct (Z.le_gt_cases 1 (n_main d)).
    + replace (1 + Z.of_nat (Z.to_nat (n_main d - 1))) with (n_main d) by lia. reflexivity.
    + replace (1 + Z.of_nat (Z.to_nat (n_main d - 1))) with 1 by lia.
      split; intros (H1 & i & Hi & _); lia.
Qed.

(** [freed p d d']: the entries up to the table's with property [p] and the
    mark of a used one have lost it; nothing else changed. *)
Definition freed (p : Z -> bool) d d' : Prop :=
  same_params d d' /\ bmt_blk_idx d' = bmt_blk_idx d /\ bb_tbl (bbt d') = bb_tbl (bbt d) /\ n_ent d' = n_ent d /\
  forall k, 0 <= k -> ent d' k =
    if p k && (mapped (ent d k) =? NORMAL_MAPPED) then Bbmt (block (ent d k)) NO_MAPPED else ent d k.

Lemma free_unused_run used d :
  bmt_inv d ->
  wp (free_unused used)
     (fun n d' => freed (fun k => (k <=? bmt_blk_idx d) && negb (Z.testbit used k)) d d' /\ (n = 0 -> d' = d)) never d.
Proof.
  intros HI. destruct (bi_idx _ HI) as [Hi _]. unfold free_unused. bmt_step. bmt_step.
  apply wp_loop_acc with (I := fun j n w =>
    freed (fun k => (k <? j) && negb (Z.testbit used k)) d w /\ 0 <= n /\ (n = 0 -> w = d)).
  - split; [| split; [lia | auto]]. split; [repeat split |]. do 3 (split; [reflexivity |]). intros k Hk.
    destruct (Z.ltb_spec k 0); [lia | reflexivity].
  - intros j n w Hj ((Hp & Hx & Hb & Hl & He) & Hn & Hz). bmt_step. bmt_step; [lia |].
    assert (Hj' : ent w j = ent d j).
    { rewrite He by lia. destruct (Z.ltb_spec j j); [lia | reflexivity]. }
    assert (Hkeep : (mapped (ent d j) =? NORMAL_MAPPED) && negb (Z.testbit used j) = false ->
      freed (fun k => (k <? j + 1) && negb (Z.testbit used k)) d w).
    { intros Hno. split; [exact Hp |]. do 3 (split; [assumption |]). intros k Hk. rewrite He by exact Hk.
      destruct (Z.ltb_spec k j), (Z.ltb_spec k (j + 1)); try lia; try reflexivity.
      replace k with j by lia. cbn [andb].
      destruct (mapped (ent d j) =? NORMAL_MAPPED), (Z.testbit used j); try discriminate; reflexivity. }
    rewrite Hj'. destruct (mapped (ent d j) =? NORMAL_MAPPED) eqn:Em; cbn [negb];
      [| apply wp_ret; split; [apply Hkeep; reflexivity | auto]].
    destruct (Z.testbit used j) eqn:Eu; [apply wp_ret; split; [apply Hkeep; reflexivity | auto] |].
    bmt_step. bmt_step; [lia |]. apply wp_ret. split; [| split; [lia | intros; lia]].
    split; [exact Hp |]. split; [exact Hx |]. split; [exact Hb |]. split; [rewrite n_ent_store; exact Hl |].
    intros k Hk. rewrite ent_store, He by lia.
    destruct (Z.eqb_spec k j) as [-> |]; [| destruct (Z.ltb_spec k j), (Z.ltb_spec k (j + 1)); try lia; reflexivity].
    destruct (Z.ltb_spec j (j + 1)); [| lia]. rewrite Eu, Em. reflexivity.
  - intros n w ((Hp & Hx & Hb & Hl & He) & Hn & Hz). split; [| exact Hz].
    split; [exact Hp |]. do 3 (split; [assumption |]). intros k Hk. rewrite He by exact Hk.
    destruct (Z.ltb_spec k (0 + Z.of_nat (Z.to_nat (bmt_blk_idx d + 1)))), (Z.leb_spec k (bmt_blk_idx d)); try lia; reflexivity.
Qed.

Lemma inv_freed used d d' :
  bmt_inv d -> pool_private d ->
  (forall k, 0 <= k -> Z.testbit used k = true <-> k < bmt_blk_idx d /\ user d (n_main d) k) ->
  freed (fun k => (k <=? bmt_blk_idx d) && negb (Z.testbit used k)) d d' -> bmt_inv d'.
Proof.
  intros [I1 [I2 I2'] I4 I5 I6 I7] (Hmain & Hpriv & Hbeh) Hu (Hp & Hx & Hb & Hl & He).
  assert (Hbb : forall i, bb d' i = bb d i) by (intros i; unfold bb; rewrite Hb; reflexivity).
  assert (Hblk : forall k, 0 <= k -> block (ent d' k) = block (ent d k)).
  { intros k Hk. rewrite He by exact Hk. destruct (_ && _); reflexivity. }
  assert (Hlba : pool_lba d' = pool_lba d) by (unfold same_params in Hp; intuition).
  assert (Hnb : n_bb d' = n_bb d) by (unfold n_bb; rewrite Hb; reflexivity).
  split; rewrite ?Hlba, ?Hnb, ?Hl, ?Hx.
  - exact I1.
  - split; assumption.
  - intros k Hk. rewrite Hblk by lia. apply I4, Hk.
  - intros k l Hk Hl'. rewrite !Hblk by lia. apply I5; assumption.
  - intros i k Hi Hk. rewrite Hbb, Hblk, He by lia. intros E. pose proof (I6 i k Hi Hk E) as Hm.
    assert (Hused : Z.testbit used k = true).
    { apply Hu; [lia |]. split.
      - destruct (Z.eq_dec k (bmt_blk_idx d)) as [-> |]; [contradiction | lia].
      - exists i. destruct (Z.lt_ge_cases i 1), (Z.lt_ge_cases i (n_main d));
          try (destruct (Hpriv i k Hi ltac:(lia) Hk E)).
        split; [lia |]. split; [| exact E]. pose proof (Hbeh k Hk). lia. }
    rewrite Hused, andb_false_r. exact Hm.
  - rewrite He by lia. apply Z.eqb_neq in I7. rewrite I7, andb_false_r. apply Z.eqb_neq, I7.
Qed.

Lemma collect_run d :
  bmt_inv d -> pool_private d ->
  wp (mtk_bmt_debug_v2 true 100)
     (fun _ d' => bmt_blk_idx d' = u16 (-1) \/
        (bmt_inv d' /\ pool_kept d d' /\ (forall i, bb d' i = bb d i) /\
         forall k, 0 <= k <= bmt_blk_idx d' ->
           mapped (ent d' k) = NORMAL_MAPPED <-> mapped (ent d k) = NORMAL_MAPPED /\ user d (n_main d) k))
     never d.
Proof.
  intros HI Hpriv. pose proof (bi_lba _ HI). unfold mtk_bmt_debug_v2. cbn [negb Z.eqb Pos.eqb]. bmt_step.
  eapply wp_mono; [apply (mapping_mask_run d HI); destruct Hpriv; lia | cbv beta | auto]. intros used d0 [-> Hu].
  bmt_step. eapply wp_mono; [apply (free_unused_run used d HI) | cbv beta | auto]. intros n d1 [Hfr Hz].
  pose proof (inv_freed used d d1 HI Hpriv Hu Hfr) as HI1. destruct Hfr as (Hp & Hx & Hb & Hl & He).
  assert (Hmk : forall k, 0 <= k <= bmt_blk_idx d ->
    mapped (ent d1 k) = NORMAL_MAPPED <-> mapped (ent d k) = NORMAL_MAPPED /\ user d (n_main d) k).
  { intros k Hk. rewrite He by lia. specialize (Hu k ltac:(lia)). pose proof (bi_top _ HI) as Htop.
    destruct (Z.leb_spec k (bmt_blk_idx d)); [| lia]. cbn [andb].
    destruct (Z.eqb_spec (mapped (ent d k)) NORMAL_MAPPED) as [Em | Em]; rewrite ?andb_true_r, ?andb_false_r; [| tauto].
    assert (k < bmt_blk_idx d) by (destruct (Z.eq_dec k (bmt_blk_idx d)) as [-> |]; [contradiction | lia]).
    destruct (Z.testbit used k); cbn [negb mapped]; [tauto |].
    split; [discriminate | intros [_ Hus]; destruct Hu as [_ Hu]; discriminate Hu; auto]. }
  assert (Hbb : forall i, bb d1 i = bb d i) by (intros i; unfold bb; rewrite Hb; reflexivity).
  assert (Hblk : forall k, 0 <= k -> block (ent d1 k) = block (ent d k)).
  { intros k Hk. rewrite He by exact Hk. destruct (_ && _); reflexivity. }
  destruct (cbool n) eqn:Hn.
  - destruct (bi_idx _ HI1) as [Hi1 Hmax1].
    eapply wp_mono; [apply (upload_current_run d1 Hi1 Hmax1) | cbv beta | auto].
    intros _ d' (d2 & Hd' & Hcase). destruct Hcase as [(-> & _) | Hup]; [left; reflexivity | right].
    pose proof (inv_uploaded _ _ _ HI1 Hup) as HI'. rewrite <- Hd' in HI'. split; [exact HI' |]. split; [rewrite Hd'; exact (pool_kept_uploaded d d1 _ d2 Hp Hx Hblk Hup) |]. split.
    + intros i. rewrite <- Hbb. unfold bb. rewrite Hd'. cbn [bbt set_idx]. rewrite (up_bb _ _ _ _ Hup). reflexivity.
    + intros k Hk. pose proof (up_range _ _ _ _ Hup). rewrite <- Hmk by lia. rewrite Hd'.
      change (ent (set_idx (bmt_blk_idx d') d2) k) with (ent d2 k). rewrite (up_mapped _ _ _ _ Hup) by lia. reflexivity.
  - apply wp_ret. right. split; [exact HI1 |].
    split; [split; [exact Hp | split; [lia | intros k Hk; apply Hblk; lia]] |]. split; [exact Hbb |]. rewrite Hx. exact Hmk.
Qed.

(** Garbage collection (debug value 100). From a consistent map whose
    pool is used by ordinary blocks only, it never leaves an array, keeps the
    mapping, and frees exactly the pool entries no block is mapped to; the
    map stays consistent, so a freed block can be handed out again. *)
Theorem mtk_bmt_collect_inv d :
  bmt_inv d -> pool_private d ->
  wp (mtk_bmt_debug_v2 true 100)
     (fun _ d' => bmt_blk_idx d' = u16 (-1) \/
        (bmt_inv d' /\ pool_kept d d' /\ (forall i, bb d' i = bb d i) /\
         forall k, 0 <= k <= bmt_blk_idx d' ->
           mapped (ent d' k) = NORMAL_MAPPED <-> mapped (ent d k) = NORMAL_MAPPED /\ user d (n_main d) k))
     never d.
Proof. exact (collect_run d). Qed.

End Collect.

(** ** The life of a map *)

Section Life.
Context {F : Type} {FL : Flash F}.
Implicit Types d : bmtd F.












Lemma scanned_private good d : scanned good d -> n_main d <= pool_lba d -> pool_private d.
Proof.
  intros [HI _ Hen Hpba _ Hpool _ Hfree Htab] Hmain. split; [exact Hmain |]. split.
  - intros i k Hi _ Hk E. pose proof (bi_owned _ HI i k Hi Hk E) as Hm.
    destruct (Z.eq_dec k (bmt_blk_idx d)) as [-> |]; [rewrite Htab in Hm | rewrite Hfree in Hm by lia]; discriminate Hm.
  - intros k Hk. pose proof (bi_lba _ HI).
    pose proof (pooled_ge good d _ _ k Hpool ltac:(lia)).
    pose proof (enumerated_ge good d _ (pool_lba d - 1) Hen ltac:(lia)). lia.
Qed.




End Life.

(** * A small flash

    Twelve blocks with block 2 bad and room for a pool of six: the theorems
    on the bad block table at concrete values. *)

(** A flash that keeps the tables written to it; reads of the blocks [bad]
    report a mark, writes of the blocks [wfail] fail. *)
Fixpoint written (f : list (Z * bbbt)) (b : Z) : option bbbt :=
  match f with [] => None | (b', t) :: f' => if b' =? b then Some t else written f' b end.
Definition small_flash (bad wfail : Z -> bool) : Flash (list (Z * bbbt)) := {|
  bbt_nand_read b f :=
    let mark := if bad b then 0 else 0xff in
    (match written f b with
     | Some t => (0, t, mark :: sig_bmt)
     | None => (0, Bbbt [0; 0; 0] 0 [] (replicate 12 bbmt0), [mark; 0xff; 0xff; 0xff])
     end, f);
  bbt_nand_erase b f := (0, filter (fun e => fst e <> b) f);
  bbt_nand_copy _ _ _ f := (0, f);
  write_bmt b t f := if wfail b then (-5, f) else (0, (b, t) :: f);
  mapping_block_in_range _ := true
|}.
Definition small_flash_ok bad wfail : FlashOk (list (Z * bbbt)) (FL := small_flash bad wfail).
Proof.
  refine (@Build_FlashOk _ (small_flash bad wfail) written _ _).
  - intros b t f. cbn [write_bmt small_flash]. destruct (wfail b); [discriminate |]. intros _. cbn. rewrite Z.eqb_refl. reflexivity.
  - intros b f. cbn [bbt_nand_read small_flash]. destruct (written f b); (split; [reflexivity |]); [repeat split | right; reflexivity].
Defined.

Definition bad2 (b : Z) : bool := b =? 2.
#[local] Instance flash2 : Flash (list (Z * bbbt)) := small_flash bad2 (fun _ => false).

Definition blank : bmtd (list (Z * bbbt)) :=
  Bmtd 16 12 17 (4 * 131072) 0 6 0 2 1 0 (Bbbt [0; 0; 0] 0 (replicate 16 0) (replicate 12 bbmt0)) [].

(** The state the first scan leaves. *)
Definition after_scan : bmtd (list (Z * bbbt)) := Eval vm_compute in snd (scan_bad_blocks blank).

Lemma bad2_read b f rc buf fdm f' : True -> bbt_nand_read b f = ((rc, buf, fdm), f') ->
  True /\ negb (bad2 b) = negb (cbool rc || negb (geti 0 fdm 0 =? 0xff)).
Proof.
  intros _. cbn [bbt_nand_read flash2 small_flash]. intros H. split; [exact I |].
  destruct (written f b); injection H as <- <- <- <-; destruct (bad2 b); reflexivity.
Qed.

Example after_scan_value :
  scan_bad_blocks blank = (Ok 0, after_scan) /\ bb_tbl (bbt after_scan) = [0; 1; 3; 4; 5; 6] ++ replicate 10 0 /\
  map block (bmt_tbl (bbt after_scan)) = [7; 8; 9; 10; 11] ++ replicate 7 0 /\ bmt_blk_idx after_scan = 4.
Proof. vm_compute. repeat split. Qed.

Lemma after_scan_scanned : scanned (fun b => negb (bad2 b)) after_scan.
Proof.
  pose proof (scan_run (fun b => negb (bad2 b)) (fun _ => True) bad2_read blank I ltac:(cbn; lia) ltac:(cbn; lia)
    ltac:(cbn; unfold n_bb; cbn; lia) ltac:(cbn; unfold n_ent; cbn; lia)) as H.
  destruct (proj1 (wp_eq_ok _ _ _ _ _ _ (proj1 after_scan_value)) H) as [_ [[E _] | [_ E]]]; [discriminate E | exact E].
Qed.

Lemma after_scan_inv : bmt_inv after_scan.
Proof. exact (sd_inv _ _ after_scan_scanned). Qed.
Lemma after_scan_private : pool_private after_scan.
Proof. apply (scanned_private _ _ after_scan_scanned). vm_compute. discriminate. Qed.

(** ** The theorems at these values *)

Lemma find_valid_block_first_witness :
  wp (find_valid_block 3) (fun b d' => found (fun b => negb (bad2 b)) 12 2 3 b /\ exists f, True /\ d' = set_flash f blank) never blank.
Proof.
  exact (find_valid_block_first (fun b => negb (bad2 b)) (fun _ => True) bad2_read 3 blank I
           ltac:(lia) ltac:(cbn; lia) ltac:(cbn; lia)).
Defined.

Lemma scan_bad_blocks_spec_witness :
  wp scan_bad_blocks (fun rc d' => same_flash blank d' /\
      ((rc = -1 /\ gives_up (fun b => negb (bad2 b)) d') \/ (rc = 0 /\ scanned (fun b => negb (bad2 b)) d')))
    (fun e d' => same_flash blank d' /\ e = - EFAULT /\ no_pool (fun b => negb (bad2 b)) d') blank.
Proof.
  exact (proj1 (scan_bad_blocks_spec (fun b => negb (bad2 b)) (fun _ => True) bad2_read blank I ltac:(cbn; lia) ltac:(cbn; lia)
      ltac:(cbn; unfold n_bb; cbn; lia) ltac:(cbn; unfold n_ent; cbn; lia))).
Defined.

(** A flash of nine blocks leaves too small a pool; in one of 12 with only the
    first six good the entry before the first is marked. *)
Example scan_gives_up :
  fst (scan_bad_blocks (Bmtd 16 9 17 (4 * 131072) 0 6 0 2 1 0 (Bbbt [0; 0; 0] 0 (replicate 16 0) (replicate 12 bbmt0)) [])) = Ok (-1).
Proof. vm_compute. reflexivity. Qed.
Example scan_marks_before_the_first :
  fst (scan_bad_blocks (FL := small_flash (fun b => 6 <=? b) (fun _ => false)) blank) = Err (- EFAULT).
Proof. vm_compute. reflexivity. Qed.

Lemma remap_block_v2_inv_witness :
  wp (remap_block_v2 2 2 0)
     (fun ok d' =>
        (ok = false /\ d' = after_scan /\
         forall k, 0 <= k < bmt_blk_idx after_scan -> mapped (ent after_scan k) <> NO_MAPPED) \/
        (ok = true /\ remapped 2 after_scan d' /\ (distinct after_scan -> pool_lba d' = pool_lba after_scan -> distinct d'))) never after_scan.
Proof. apply (remap_block_v2_inv 2 2 0 after_scan after_scan_inv). cbn. lia. Defined.

(** The table written and found again; and on a flash whose last block
    refuses it, written to block 10 and not found. *)
Definition attached : bmtd (list (Z * bbbt)) := Eval vm_compute in snd (upload_current after_scan).
Definition flash2_worn : Flash (list (Z * bbbt)) := small_flash bad2 (fun b => b =? 11).
Definition attached_worn : bmtd (list (Z * bbbt)) := Eval vm_compute in snd (upload_current (FL := flash2_worn) after_scan).

(** A device before it attaches, with the flash [f]. *)
Definition detached (f : list (Z * bbbt)) : bmtd (list (Z * bbbt)) := Bmtd 0 12 17 0 0 6 0 0 0 0 (Bbbt [] 0 [] []) f.

Lemma above_11 (f : list (Z * bbbt)) b : 11 < b < 12 -> written f b = None.
Proof. lia. Qed.

Lemma bmt_table_after_upload_witness :
  (exists e', mtk_bmt_init_v2 (Some 6) None (Some 16) 2048 11 (Some (Bbbt [] 0 [] [])) (detached (flash attached)) = (Ok 0, e') /\
     bbt e' = bbt attached /\ bmt_blk_idx e' = 4 /\ forall i, bb e' i = bb after_scan i) /\
  (exists e', find_bmt (FL := flash2_worn) 13 11 (detached (flash attached_worn)) = (Ok false, e')).
Proof.
  split.
  - destruct (bmt_table_after_upload (OK := small_flash_ok bad2 (fun _ => false)) after_scan attached after_scan_inv) as [_ H].
    + reflexivity.
    + intros k Hk. rewrite (sd_free _ _ after_scan_scanned k Hk). discriminate.
    + vm_compute. reflexivity.
    + vm_compute. discriminate.
    + vm_compute. split; congruence.
    + vm_compute. discriminate.
    + intros b Hb. apply above_11. exact Hb.
    + apply (H eq_refl); reflexivity.
  - destruct (bmt_table_after_upload (OK := small_flash_ok bad2 (fun b => b =? 11)) after_scan attached_worn after_scan_inv) as [H _].
    + reflexivity.
    + intros k Hk. rewrite (sd_free _ _ after_scan_scanned k Hk). discriminate.
    + vm_compute. reflexivity.
    + vm_compute. discriminate.
    + vm_compute. split; congruence.
    + vm_compute. discriminate.
    + intros b Hb. change (total_blks after_scan) with 12 in Hb. change (block _) with 10 in Hb. replace b with 11 by lia. reflexivity.
    + apply (H (detached (flash attached_worn))); reflexivity.
Defined.

Lemma mtk_bmt_collect_inv_witness :
  wp (mtk_bmt_debug_v2 true 100)
     (fun _ d' => bmt_blk_idx d' = u16 (-1) \/
        (bmt_inv d' /\ pool_kept after_scan d' /\ (forall i, bb d' i = bb after_scan i) /\
         forall k, 0 <= k <= bmt_blk_idx d' ->
           mapped (ent d' k) = NORMAL_MAPPED <->
           mapped (ent after_scan k) = NORMAL_MAPPED /\ user after_scan (n_main after_scan) k))
     never after_scan.
Proof. exact (mtk_bmt_collect_inv after_scan after_scan_inv after_scan_private). Defined.

(** Instead, block 3, which the scan put at 4, is put back to 3. *)
Definition after_unmap : bmtd (list (Z * bbbt)) := Eval vm_compute in snd (unmap_block_v2 3 attached).


Example unmap_shares_3 : bb after_unmap 2 = 3 /\ bb after_unmap 3 = 3.
Proof. split; reflexivity. Qed.


(** A flash without a table, read into the buffer for pages of 2048 bytes. *)
Definition empty_table (n : Z) : bbbt := Bbbt [0; 0; 0] 0 [] (replicate (Z.to_nat n) bbmt0).
Definition new_flash (n : Z) : Flash unit := {|
  bbt_nand_read _ f := ((0, empty_table n, [0xff; 0xff; 0xff; 0xff]), f);
  bbt_nand_erase _ f := (0, f);
  bbt_nand_copy _ _ _ f := (0, f);
  write_bmt _ _ f := (0, f);
  mapping_block_in_range _ := true
|}.
Definition new_device : bmtd unit := Bmtd 0 1024 17 0 0 0 0 0 0 0 (empty_table 0) tt.

Lemma bmt_init_overflows_witness :
  let n := bmt_entries 0x2000 (bmt_bufsz 0x2000 2048) in
  n < 0x2000 /\
  fst (mtk_bmt_init_v2 (FL := new_flash n) None None None 2048 11 (Some (empty_table n)) new_device) = Err (- EFAULT).
Proof.
  intros n. assert (Hn : Z.of_nat (length (bmt_tbl (empty_table n))) = n).
  { unfold empty_table. cbn [bmt_tbl]. rewrite length_replicate. apply Z2Nat.id. vm_compute. discriminate. }
  apply (bmt_init_overflows (FL := new_flash n) None None 2048 11 (empty_table n) new_device).
  - right. left. reflexivity.
  - exact Hn.
  - intros b f. split; [reflexivity | exact Hn].
  - cbn. lia.
  - cbn. lia.
Defined.
