(* ===== verification/Buttons.v ===== *)
(** * The button hotplug driver, [gpio-button-hotplug.c]

    A button or switch on a GPIO line, polled or with an interrupt: the
    debouncing of its samples, the events made of them, the netlink message
    of an event, and the probe that sets the buttons up from platform data or
    the device tree.  The kernel's GPIO, interrupt, timer and allocation
    functions are parameters; the macros of [linux/input-event-codes.h] are
    looked up in [input_code]. *)

From S2P Require Import Prelude Text CMonad.

Definition BH_SKB_SIZE : Z := 2048.
Definition DRV_NAME : string := "gpio-keys".

Record bh_event := BhEvent { ev_name : string; ev_type : Z; ev_action : string; ev_seen : Z }.

Record bh_map := BhMap { bm_code : Z; bm_name : string }.

(** What the driver uses of [struct gpio_keys_button]. *)
Record gpio_keys_button := Button {
  k_code : Z;
  k_type : Z;
  k_wakeup : bool;
  k_irq : Z;
  k_gpio : Z;
  k_active_low : bool;
  k_debounce_interval : Z;   (* ms *)
  k_desc : option string
}.

Section Driver.
Variable input_code : string -> Z.
(** The width of [unsigned long], and ticks per second. *)
Variables long_bits HZ : Z.
(** GPIO descriptors; [None] is the null pointer. *)
Context {G : Type}.

Definition EV_KEY : Z := input_code "EV_KEY".
Definition EV_SW : Z := input_code "EV_SW".

Definition ulong (x : Z) : Z := uwrap long_bits x.
(** What [%ld] makes of an [unsigned long]. *)
Definition slong (x : Z) : Z := if ulong x <? 2 ^ (long_bits - 1) then ulong x else ulong x - 2 ^ long_bits.

Definition BH_MAP (code name : string) : bh_map := BhMap (input_code code) name.

Definition button_map : list bh_map := [
  BH_MAP "BTN_0" "BTN_0"; BH_MAP "BTN_1" "BTN_1"; BH_MAP "BTN_2" "BTN_2"; BH_MAP "BTN_3" "BTN_3";
  BH_MAP "BTN_4" "BTN_4"; BH_MAP "BTN_5" "BTN_5"; BH_MAP "BTN_6" "BTN_6"; BH_MAP "BTN_7" "BTN_7";
  BH_MAP "BTN_8" "BTN_8"; BH_MAP "BTN_9" "BTN_9";
  BH_MAP "KEY_BRIGHTNESS_ZERO" "brightness_zero"; BH_MAP "KEY_CONFIG" "config"; BH_MAP "KEY_COPY" "copy";
  BH_MAP "KEY_EJECTCD" "eject"; BH_MAP "KEY_HELP" "help"; BH_MAP "KEY_LIGHTS_TOGGLE" "lights_toggle";
  BH_MAP "KEY_PHONE" "phone"; BH_MAP "KEY_POWER" "power"; BH_MAP "KEY_POWER2" "reboot";
  BH_MAP "KEY_RESTART" "reset"; BH_MAP "KEY_RFKILL" "rfkill"; BH_MAP "KEY_VIDEO" "video";
  BH_MAP "KEY_VOLUMEDOWN" "volume_down"; BH_MAP "KEY_VOLUMEUP" "volume_up"; BH_MAP "KEY_WIMAX" "wwan";
  BH_MAP "KEY_WLAN" "wlan"; BH_MAP "KEY_WPS_BUTTON" "wps"; BH_MAP "KEY_VENDOR" "vendor"].

(** ** The message of an event

    The state is the data of the socket buffer.  [buf] is the text
    [vsnprintf] makes, before it is cut to the 128 bytes of the C buffer;
    [skb_put] past the end of the buffer is a crash, [EFAULT] here. *)

Definition skb_put (text : string) : M string unit := fun skb =>
  if BH_SKB_SIZE <? Z.of_nat (String.length (skb +:+ text)) then (Err (- EFAULT), skb)
  else (Ok tt, skb +:+ text).

Definition bh_event_add_var (argv : Z) (buf : string) : M string unit :=
  if cbool argv then ret tt else
  if 128 <=? Z.of_nat (String.length buf) then fail ENOMEM else
  skb_put (buf +:+ NUL).

Definition button_hotplug_fill_event (event : bh_event) (seqnum : Z) : M string unit :=
  bh_event_add_var 0 ("HOME=" +:+ "/") ;;
  bh_event_add_var 0 ("PATH=" +:+ "/sbin:/bin:/usr/sbin:/usr/bin") ;;
  bh_event_add_var 0 ("SUBSYSTEM=" +:+ "button") ;;
  bh_event_add_var 0 ("ACTION=" +:+ ev_action event) ;;
  bh_event_add_var 0 ("BUTTON=" +:+ ev_name event) ;;
  (if ev_type event =? EV_SW then bh_event_add_var 0 ("TYPE=" +:+ "switch") else ret tt) ;;
  bh_event_add_var 0 ("SEEN=" +:+ decimal (slong (ev_seen event))) ;;
  bh_event_add_var 0 ("SEQNUM=" +:+ decimal (u64 seqnum)).

(** The message [broadcast_uevent] gets, or nothing; [alloc]: [alloc_skb]
    succeeds. *)
Definition button_hotplug_work (alloc : bool) (seqnum : Z) (event : bh_event) : option string :=
  if negb alloc then None else
  match (bh_event_add_var 0 (ev_action event +:+ "@") ;; button_hotplug_fill_event event seqnum) EmptyString with
  | (Ok _, skb) => Some skb
  | (Err _, _) => None
  end.

(** The event that is scheduled, unless [kzalloc] fails. *)
Definition button_hotplug_create_event (alloc : bool) (name : string) (type seen pressed : Z) : res bh_event :=
  if negb alloc then Err (- ENOMEM)
  else Ok (BhEvent name type (if cbool pressed then "pressed" else "released") seen).

(** ** Samples *)

Record gpio_keys_button_data := BData {
  b_seen : Z;
  map_entry : Z;
  last_state : Z;
  count : Z;
  threshold : Z;
  can_sleep : bool;
  b_irq : Z;
  software_debounce : Z;
  gpiod : option G;
  b_button : gpio_keys_button
}.

Definition with_seen (x : Z) (d : gpio_keys_button_data) : gpio_keys_button_data :=
  BData x (map_entry d) (last_state d) (count d) (threshold d) (can_sleep d) (b_irq d) (software_debounce d)
    (gpiod d) (b_button d).
Definition with_state (x c : Z) (d : gpio_keys_button_data) : gpio_keys_button_data :=
  BData (b_seen d) (map_entry d) x c (threshold d) (can_sleep d) (b_irq d) (software_debounce d)
    (gpiod d) (b_button d).
Definition with_irq (x : Z) (d : gpio_keys_button_data) : gpio_keys_button_data :=
  BData (b_seen d) (map_entry d) (last_state d) (count d) (threshold d) (can_sleep d) x (software_debounce d)
    (gpiod d) (b_button d).

(** What the handler sees of the outside when it runs. *)
Record moment := Moment {
  gpiod_get_value : option G -> Z;
  gpiod_get_value_cansleep : option G -> Z;
  jiffies : Z;
  kzalloc_ok : bool
}.

Definition button_get_index (code : Z) : Z :=
  let fix go (l : list bh_map) (i : Z) : Z :=
    match l with
    | [] => -1
    | m :: l' => if bm_code m =? code then i else go l' (i + 1)
    end in
  go button_map 0.

Definition gpio_button_get_value (now : moment) (d : gpio_keys_button_data) : Z :=
  if can_sleep d then b2z (cbool (gpiod_get_value_cansleep now (gpiod d)))
  else b2z (cbool (gpiod_get_value now (gpiod d))).

(** [button->type ?: EV_KEY] *)
Definition button_type (k : gpio_keys_button) : Z := if cbool (k_type k) then k_type k else EV_KEY.

(** The event, if one is created, and the new state. *)
Definition gpio_keys_handle_button (now : moment) (d : gpio_keys_button_data) :
    option bh_event * gpio_keys_button_data :=
  let type := button_type (b_button d) in
  let state := gpio_button_get_value now d in
  let seen := jiffies now in
  let report :=
    if count d <? threshold d then (None, with_state (last_state d) (count d + 1) d) else
    let d := if b_seen d =? 0 then with_seen seen d else d in
    let event := button_hotplug_create_event (kzalloc_ok now)
      (bm_name (geti (BhMap 0 "") button_map (map_entry d))) type
      (Z.quot (ulong (seen - b_seen d)) HZ) state in
    (match event with Ok e => Some e | Err _ => None end, with_state state 0 (with_seen seen d)) in
  if last_state d =? -1 then
    if (type =? EV_KEY) && (state =? 0) then (None, with_state state 0 d) else report
  else if last_state d =? state then (None, with_state (last_state d) 0 d)
  else report.

(** ** Polling *)

Variables msecs_to_jiffies round_jiffies_relative : Z -> Z.

(** The device; [dev_work] is the delay its delayed work is queued with. *)
Record gpio_keys_button_dev := BDev {
  polled : bool;
  poll_interval : Z;
  dev_work : option Z;
  dev_data : list gpio_keys_button_data
}.

(** Queueing work that is queued already does nothing. *)
Definition schedule_delayed_work (delay : Z) (w : option Z) : option Z :=
  match w with Some _ => w | None => Some delay end.

Definition gpio_keys_polled_queue_work (bdev : gpio_keys_button_dev) : gpio_keys_button_dev :=
  let delay := ulong (msecs_to_jiffies (poll_interval bdev)) in
  let delay := if HZ <=? delay then round_jiffies_relative delay else delay in
  BDev (polled bdev) (poll_interval bdev) (schedule_delayed_work delay (dev_work bdev)) (dev_data bdev).

(** [now i]: the moment button [i] is looked at. *)
Fixpoint poll_buttons (now : Z -> moment) (i : Z) (l : list gpio_keys_button_data) :
    list bh_event * list gpio_keys_button_data :=
  match l with
  | [] => ([], [])
  | d :: l' =>
      let (e, d') := match gpiod d with Some _ => gpio_keys_handle_button (now i) d | None => (None, d) end in
      let (es, l'') := poll_buttons now (i + 1) l' in
      (match e with Some x => x :: es | None => es end, d' :: l'')
  end.

(** The work, taken off the queue to run. *)
Definition gpio_keys_polled_poll (now : Z -> moment) (bdev : gpio_keys_button_dev) :
    list bh_event * gpio_keys_button_dev :=
  let (es, l) := poll_buttons now 0 (dev_data bdev) in
  (es, gpio_keys_polled_queue_work (BDev (polled bdev) (poll_interval bdev) None l)).

Definition gpio_keys_polled_close (bdev : gpio_keys_button_dev) : gpio_keys_button_dev :=
  BDev (polled bdev) (poll_interval bdev) None (dev_data bdev).

(** ** Interrupts

    One button with an interrupt on both edges: its data, its delayed work
    and when that is due. *)
Record irq_button := IrqButton {
  ib_data : gpio_keys_button_data;
  ib_due : option Z
}.

Definition gpio_keys_irq_work_func (now : moment) (s : irq_button) : option bh_event * irq_button :=
  let (e, d) := gpio_keys_handle_button now (ib_data s) in (e, IrqButton d (ib_due s)).

(** [mod_delayed_work]: whatever was pending, due in the debounce time. *)
Definition button_handle_irq (time : Z) (s : irq_button) : irq_button :=
  IrqButton (ib_data s) (Some (time + msecs_to_jiffies (software_debounce (ib_data s)))).

(** ** Device tree *)

(** A child node: whether it is available, its properties, its interrupt (0
    for none) and what [devm_fwnode_gpiod_get] makes of it. *)
Record dt_child := DtChild {
  c_available : bool;
  c_code : option Z;
  c_label : option string;
  c_type : option Z;
  c_wakeup : bool;
  c_debounce : option Z;
  c_irq : Z;
  c_gpiod : res (option G)
}.

Record gpio_keys_platform_data := PData {
  p_buttons : list gpio_keys_button;
  p_poll_interval : Z
}.

Definition button_of_child (pp : dt_child) : res gpio_keys_button :=
  match c_code pp with
  | None => Err (- EINVAL)
  | Some code =>
      Ok (Button code (match c_type pp with Some t => t | None => EV_KEY end) (c_wakeup pp) (c_irq pp) (- ENOENT)
            false (match c_debounce pp with Some v => v | None => 5 end) (c_label pp))
  end.

Fixpoint buttons_of_children (l : list dt_child) : res (list gpio_keys_button) :=
  match l with
  | [] => Ok []
  | pp :: l' =>
      match button_of_child pp, buttons_of_children l' with
      | Ok k, Ok ks => Ok (k :: ks)
      | Err e, _ => Err e
      | _, Err e => Err e
      end
  end.

(** [interval]: the property [poll-interval], 0 when there is none. *)
Definition gpio_keys_get_devtree_pdata (alloc : bool) (node : list dt_child) (interval : Z) :
    res gpio_keys_platform_data :=
  let children := List.filter c_available node in
  match children with
  | [] => Err (- EINVAL)
  | _ =>
      if negb alloc then Err (- ENOMEM) else
      match buttons_of_children children with
      | Ok ks => Ok (PData ks interval)
      | Err e => Err e
      end
  end.

(** ** Probe *)

Variable gpio_is_valid : Z -> bool.
(** [devm_gpiod_get_index], [devm_gpio_request_one] and [gpio_to_desc] of
    platform data that is not from the device tree. *)
Variable devm_gpiod_get_index : string -> Z -> res (option G).
Variable devm_gpio_request_one : Z -> bool -> string -> Z.
(** With the polarity asked for, where the kernel lets the driver set it. *)
Variable gpio_to_desc : Z -> bool -> option G.
Variable gpiod_cansleep : G -> bool.
Variable gpiod_set_debounce : G -> Z -> Z.

Definition DIV_ROUND_UP (n d : Z) : Z := Z.quot (u32 (n + d - 1)) d.

(** [of_get_next_child]: the next child, available or not. *)
Definition of_get_next_child (rest : list dt_child) : option dt_child * list dt_child :=
  match rest with c :: rest' => (Some c, rest') | [] => (None, []) end.

(** The descriptor of a button, and the children that are left. *)
Definition button_gpiod (i : Z) (button : gpio_keys_button) (rest : list dt_child) :
    res (option G) * list dt_child :=
  let desc := match k_desc button with Some s => s | None => DRV_NAME end in
  if gpio_is_valid (k_gpio button) then
    (match devm_gpiod_get_index desc i with
     | Ok g => Ok g
     | Err _ =>
         let error := devm_gpio_request_one (k_gpio button) (k_active_low button) desc in
         if cbool error then Err error else Ok (gpio_to_desc (k_gpio button) (k_active_low button))
     end, rest)
  else
    let (child, rest') := of_get_next_child rest in
    (match child with Some c => c_gpiod c | None => Err (- ENOENT) end, rest').

(** A button that [kzalloc] and the checks leave as it is. *)
Definition blank_button (button : gpio_keys_button) (entry : Z) : gpio_keys_button_data :=
  BData 0 entry 0 0 0 false 0 0 None button.

Definition button_setup (polled : bool) (interval : Z) (button : gpio_keys_button) (entry : Z) (g : G) :
    gpio_keys_button_data :=
  let d := BData 0 entry (-1) 0 0 (gpiod_cansleep g) 0 0 (Some g) button in
  if polled then
    BData 0 entry (-1) 0 (s32 (DIV_ROUND_UP (k_debounce_interval button) interval)) (gpiod_cansleep g) 0 0 (Some g) button
  else if cbool (k_debounce_interval button) && (gpiod_set_debounce g (u32 (k_debounce_interval button * 1000)) <? 0) then
    BData 0 entry (-1) 0 0 (gpiod_cansleep g) 0 (k_debounce_interval button) (Some g) button
  else d.

Fixpoint probe_buttons (polled : bool) (interval : Z) (i : Z) (buttons : list gpio_keys_button)
    (rest : list dt_child) : res (list gpio_keys_button_data) :=
  match buttons with
  | [] => Ok []
  | button :: buttons' =>
      let entry := button_get_index (k_code button) in
      if k_wakeup button then Err (- EINVAL) else
      if entry <? 0 then Err (- EINVAL) else
      if negb ((k_type button =? 0) || (k_type button =? EV_KEY) || (k_type button =? EV_SW)) then Err (- EINVAL) else
      let rest_of d rest' :=
        match probe_buttons polled interval (i + 1) buttons' rest' with
        | Ok l => Ok (d :: l)
        | Err e => Err e
        end in
      if cbool (k_irq button) then rest_of (blank_button button entry) rest else
      let (g, rest') := button_gpiod i button rest in
      match g with
      | Err e => Err e
      | Ok None => Err (- EINVAL)
      | Ok (Some g) => rest_of (button_setup polled interval button entry g) rest'
      end
  end.

(** [pdata]: the platform data of the device, if it has any; [node]: the
    children of its device tree node. *)
Definition gpio_keys_button_probe (alloc : bool) (pdata : option gpio_keys_platform_data)
    (node : list dt_child) (interval : Z) (polled : bool) : res gpio_keys_button_dev :=
  match (match pdata with Some p => Ok p | None => gpio_keys_get_devtree_pdata alloc node interval end) with
  | Err e => Err e
  | Ok p =>
      if polled && negb (cbool (p_poll_interval p)) then Err (- EINVAL) else
      if negb alloc then Err (- ENOMEM) else
      match probe_buttons polled (p_poll_interval p) 0 (p_buttons p) node with
      | Ok l => Ok (BDev polled (p_poll_interval p) None l)
      | Err e => Err e
      end
  end.

Definition gpio_keys_polled_probe alloc pdata node interval : res gpio_keys_button_dev :=
  match gpio_keys_button_probe alloc pdata node interval true with
  | Ok bdev => Ok (gpio_keys_polled_queue_work bdev)
  | Err e => Err e
  end.

Variable gpiod_to_irq : option G -> Z.
Variable devm_request_threaded_irq : Z -> Z.

(** The interrupt and the work of one button; [time]: when its work is
    queued first.  A failed request leaves the work queued. *)
Definition irq_setup (time : Z) (d : gpio_keys_button_data) : irq_button :=
  let button := b_button d in
  let irq := if cbool (k_irq button) then k_irq button else gpiod_to_irq (gpiod d) in
  if negb (cbool (k_irq button)) && (irq <? 0) then IrqButton (with_irq irq d) None else
  let due := Some (time + msecs_to_jiffies (software_debounce d)) in
  if devm_request_threaded_irq irq <? 0 then IrqButton (with_irq 0 d) due else IrqButton (with_irq irq d) due.

Definition gpio_keys_probe (time : Z) alloc pdata node interval : res (list irq_button) :=
  match gpio_keys_button_probe alloc pdata node interval false with
  | Ok bdev => Ok (map (irq_setup time) (dev_data bdev))
  | Err e => Err e
  end.

Definition gpio_keys_irq_close (l : list irq_button) : list irq_button :=
  map (fun s => IrqButton (ib_data s) None) l.
End Driver.
