(* ===== verification/ButtonsProps.v ===== *)
(** * Properties of the button driver

    Debouncing: the polled samples against a reference that looks at the
    whole history.  Interrupts: a transition system of edges and work, and
    what user space is told of them, with and without memory.  Messages: what
    is broadcast parses back.  Probe: which buttons come out of it. *)

From S2P Require Import Prelude Text CMonad Buttons.

(** ** The reference: debouncing with the whole history

    Histories have the newest sample first.  The level of a button is the
    value of the last [n + 1] equal samples in a row. *)

Definition stable (n : nat) (h : list Z) : option Z :=
  match h with
  | v :: h' => if (n <=? length h')%nat && forallb (Z.eqb v) (firstn n h') then Some v else None
  | [] => None
  end.

Fixpoint debounced (n : nat) (h : list Z) : Z :=
  match stable n h, h with
  | Some v, _ => v
  | None, _ :: h' => debounced n h'
  | None, [] => 0
  end.

(** How many of the newest samples differ from [q]. *)
Fixpoint trailing (q : Z) (h : list Z) : nat :=
  match h with
  | v :: h' => if v =? q then 0 else S (trailing q h')
  | [] => 0
  end.

Definition binary (v : Z) : Prop := v = 0 \/ v = 1.

Lemma trailing_firstn n q v h : v <> q -> binary v -> binary q -> Forall binary h ->
  ((n <=? length h)%nat && forallb (Z.eqb v) (firstn n h) = true <-> (n <= trailing q h)%nat).
Proof.
  intros Hne Hv Hq Hh. revert n. induction Hh as [| x h Hx Hh IH]; intros n.
  - cbn. destruct n; cbn; [split; [lia | reflexivity] | split; [discriminate | lia]].
  - destruct n as [| n]; [cbn; split; [lia | reflexivity] |]. specialize (IH n).
    cbn [length firstn forallb trailing]. destruct (Z.eqb_spec x q) as [-> | Hxq].
    + split; [| lia]. destruct (Z.eqb_spec v q); [contradiction |]. rewrite Bool.andb_false_r. discriminate.
    + assert (x = v) as -> by (unfold binary in *; lia). rewrite Z.eqb_refl. cbn [andb].
      change (S n <=? S (length h))%nat with (n <=? length h)%nat. rewrite IH. lia.
Qed.

Lemma debounced_binary n h : Forall binary h -> binary (debounced n h).
Proof.
  induction 1 as [| v h Hv Hh IH]; [left; reflexivity |]. cbn [debounced stable].
  destruct (_ && _); assumption.
Qed.

(** A sample that agrees with the level changes nothing. *)
Lemma debounced_same n h : debounced n (debounced n h :: h) = debounced n h.
Proof. cbn [debounced stable]. destruct (_ && _); reflexivity. Qed.

(** One that differs changes it when [n] before it differed, too. *)
Lemma debounced_other n h v :
  binary v -> Forall binary h -> v <> debounced n h ->
  debounced n (v :: h) = if (n <=? trailing (debounced n h) h)%nat then v else debounced n h.
Proof.
  intros Hv Hh Hne. pose proof (trailing_firstn n _ v h Hne Hv (debounced_binary n h Hh) Hh) as Ht.
  cbn [debounced stable]. destruct (_ && _).
  - destruct Ht as [Ht _]. specialize (Ht eq_refl). destruct (Nat.leb_spec n (trailing (debounced n h) h)); [reflexivity | lia].
  - destruct (Nat.leb_spec n (trailing (debounced n h) h)) as [Hle |]; [| reflexivity].
    apply Ht in Hle. discriminate.
Qed.

(** ** Polling *)

Section Polling.
Variables (input_code : string -> Z) (long_bits HZ : Z).
Context {G : Type}.
#[local] Abbreviation data := (@gpio_keys_button_data G).
#[local] Abbreviation moment := (@moment G).
#[local] Abbreviation handle := (gpio_keys_handle_button input_code long_bits HZ).

(** One button, looked at again and again. *)
Fixpoint run_button (ms : list moment) (d : data) : list (option bh_event) * data :=
  match ms with
  | [] => ([], d)
  | m :: ms' =>
      let (e, d1) := handle m d in
      let (es, d2) := run_button ms' d1 in
      (e :: es, d2)
  end.

(** The level user space was told; released at start. *)
Definition level (d : data) : Z := if last_state d =? -1 then 0 else last_state d.

(** The same line, read the same way. *)
Definition same_line (d0 d : data) : Prop :=
  gpiod d = gpiod d0 /\ can_sleep d = can_sleep d0 /\ b_button d = b_button d0 /\ threshold d = threshold d0.

(** [h]: the samples so far, newest first. *)
Record debouncing (d0 : data) (n : nat) (h : list Z) (d : data) : Prop := {
  db_line : same_line d0 d;
  db_threshold : threshold d = Z.of_nat n;
  db_key : button_type input_code (b_button d) = EV_KEY input_code;
  db_binary : Forall binary h;
  db_state : last_state d = -1 \/ binary (last_state d);
  db_level : level d = debounced n h;
  db_count : count d = Z.of_nat (trailing (level d) h);
  db_bound : (trailing (level d) h <= n)%nat
}.

Lemma value_binary (m : moment) d : binary (gpio_button_get_value m d).
Proof.
  unfold gpio_button_get_value, binary. destruct (can_sleep d);
    [destruct (cbool (gpiod_get_value_cansleep _ _)) | destruct (cbool (gpiod_get_value _ _))]; cbn; auto.
Qed.

Lemma value_same (m : moment) d0 d : same_line d0 d -> gpio_button_get_value m d = gpio_button_get_value m d0.
Proof. intros (H1 & H2 & _). unfold gpio_button_get_value. rewrite H1, H2. reflexivity. Qed.

Definition action_of (v : Z) : string := if v =? 1 then "pressed" else "released".

(** One sample, when it agrees with the level, when it is one of too few,
    and when it makes the level. *)
Lemma handle_cases (m : moment) d :
  let v := gpio_button_get_value m d in
  button_type input_code (b_button d) = EV_KEY input_code -> (last_state d = -1 \/ binary (last_state d)) ->
  let (e, d') := handle m d in
  if v =? level d then e = None /\ d' = with_state v 0 d
  else if count d <? threshold d then e = None /\ d' = with_state (last_state d) (count d + 1) d
  else option_map ev_action e = (if kzalloc_ok m then Some (action_of v) else None) /\
       same_line d d' /\ last_state d' = v /\ count d' = 0.
Proof.
  cbv zeta. intros Hkey Hst. pose proof (value_binary m d) as Hv.
  unfold gpio_keys_handle_button, level. rewrite Hkey, Z.eqb_refl. cbn [andb].
  set (v := gpio_button_get_value m d) in *.
  assert (Hact : (if cbool v then "pressed" else "released") = action_of v).
  { destruct Hv as [-> | ->]; reflexivity. }
  destruct (Z.eqb_spec (last_state d) (-1)) as [He | Hne].
  - rewrite He. destruct (Z.eqb_spec v 0) as [-> |]; [auto |].
    destruct (count d <? threshold d); [auto |].
    unfold button_hotplug_create_event. rewrite Hact.
    destruct (kzalloc_ok m); cbn [negb option_map]; destruct (b_seen d =? 0); repeat split; reflexivity.
  - rewrite (Z.eqb_sym v). destruct (Z.eqb_spec (last_state d) v) as [<- |]; [auto |].
    destruct (count d <? threshold d); [auto |].
    unfold button_hotplug_create_event. rewrite Hact.
    destruct (kzalloc_ok m); cbn [negb option_map]; destruct (b_seen d =? 0); repeat split; reflexivity.
Qed.

Lemma debouncing_step d0 n h d (m : moment) :
  debouncing d0 n h d ->
  let v := gpio_button_get_value m d0 in
  let (e, d') := handle m d in
  debouncing d0 n (v :: h) d' /\
  option_map ev_action e
  = if (debounced n (v :: h) =? debounced n h) || negb (kzalloc_ok m) then None else Some (action_of v).
Proof.
  intros [Hl Ht Hk Hh Hs Hlv Hc Hb]. cbv zeta. pose proof (handle_cases m d Hk Hs) as Hcase. cbv zeta in Hcase.
  rewrite (value_same m d0 d Hl) in Hcase. pose proof (value_binary m d0) as Hv.
  set (v := gpio_button_get_value m d0) in *. rewrite Hlv in *.
  assert (Hsame : forall x c, same_line d0 (with_state x c d)) by (intros; exact Hl).
  destruct (handle m d) as [e d']. destruct (Z.eqb_spec v (debounced n h)) as [Heq | Hne].
  - destruct Hcase as [-> ->]. rewrite Heq, debounced_same, Z.eqb_refl. split; [| reflexivity].
    assert (Hlev : level (with_state (debounced n h) 0 d) = debounced n h).
    { unfold level. cbn [last_state with_state]. pose proof (debounced_binary n h Hh). unfold binary in *.
      destruct (Z.eqb_spec (debounced n h) (-1)); lia. }
    split; rewrite ?Hlev; cbn [trailing with_state threshold b_button last_state count];
      rewrite ?Z.eqb_refl, ?debounced_same; auto; try lia.
    + constructor; [apply debounced_binary |]; assumption.
    + right. apply debounced_binary, Hh.
  - pose proof (debounced_other n h v Hv Hh Hne) as Hd. rewrite Ht, Hc in Hcase.
    destruct (Z.ltb_spec (Z.of_nat (trailing (debounced n h) h)) (Z.of_nat n)) as [Hlt | Hge].
    + destruct Hcase as [-> ->]. destruct (Nat.leb_spec n (trailing (debounced n h) h)); [lia |].
      rewrite Hd, Z.eqb_refl. split; [| reflexivity].
      assert (Hlev : level (with_state (last_state d) (Z.of_nat (trailing (debounced n h) h) + 1) d) = debounced n h)
        by exact Hlv.
      split; rewrite ?Hlev; cbn [trailing with_state threshold b_button last_state count]; auto; try lia.
      * destruct (Z.eqb_spec v (debounced n h)); [contradiction | lia].
      * destruct (Z.eqb_spec v (debounced n h)); [contradiction | lia].
    + destruct (Nat.leb_spec n (trailing (debounced n h) h)); [| lia].
      destruct Hcase as (He & (E1 & E2 & E3 & E4) & Hst & Hcnt). rewrite Hd.
      assert (Hlev : level d' = v).
      { unfold level. rewrite Hst. unfold binary in Hv. destruct (Z.eqb_spec v (-1)); lia. }
      split.
      * destruct Hl as (L1 & L2 & L3 & L4).
        split; rewrite ?Hlev; cbn [trailing]; rewrite ?Z.eqb_refl; try congruence; auto; try lia.
        -- repeat split; congruence.
        -- rewrite Hst. right. exact Hv.
      * rewrite He. destruct (Z.eqb_spec v (debounced n h)); [contradiction |].
        cbn [orb]. destruct (kzalloc_ok m); reflexivity.
Qed.

(** The events the reference expects for the samples [vs] behind [h]. *)
Fixpoint expected (n : nat) (h : list Z) (vs : list (Z * bool)) : list (option string) :=
  match vs with
  | [] => []
  | (v, alloc) :: vs' =>
      (if (debounced n (v :: h) =? debounced n h) || negb alloc then None else Some (action_of v))
      :: expected n (v :: h) vs'
  end.

Lemma debouncing_run d0 n ms h d :
  debouncing d0 n h d ->
  let vs := map (fun m => (gpio_button_get_value m d0, kzalloc_ok m)) ms in
  let (es, d') := run_button ms d in
  map (option_map ev_action) es = expected n h vs /\ debouncing d0 n (rev_append (map fst vs) h) d'.
Proof.
  revert h d. induction ms as [| m ms IH]; intros h d Hd; [split; [reflexivity | exact Hd] |].
  cbn [run_button map]. pose proof (debouncing_step d0 n h d m Hd) as Hstep. cbv zeta in Hstep.
  destruct (handle m d) as [e d1]. destruct Hstep as [Hd1 He]. specialize (IH _ _ Hd1). cbv zeta in IH.
  destruct (run_button ms d1) as [es d2]. destruct IH as [IH1 IH2].
  cbn [map expected fst]. rewrite He, IH1. split; [reflexivity | exact IH2].
Qed.

(** The last [n + 1] samples being equal makes them the level. *)
Lemma debounced_settled n v h : debounced n (repeat v (S n) ++ h) = v.
Proof.
  cbn [repeat app debounced stable].
  assert (Hs : (n <=? length (repeat v n ++ h))%nat && forallb (Z.eqb v) (firstn n (repeat v n ++ h)) = true).
  { rewrite length_app, repeat_length, firstn_app, repeat_length, Nat.sub_diag, firstn_all2
      by (rewrite repeat_length; lia).
    cbn [firstn]. rewrite app_nil_r. destruct (Nat.leb_spec n (n + length h)); [| lia]. cbn [andb].
    apply forallb_forall. intros x Hx. apply repeat_spec in Hx as ->. apply Z.eqb_refl. }
  rewrite Hs. reflexivity.
Qed.

(** Some change of level found no memory for its event. *)
Fixpoint drops (n : nat) (h : list Z) (vs : list (Z * bool)) : bool :=
  match vs with
  | [] => false
  | (v, alloc) :: vs' => (negb (debounced n (v :: h) =? debounced n h) && negb alloc) || drops n (v :: h) vs'
  end.

(** What user space knows after the events [es], from the level [v]. *)
Fixpoint told_from (v : Z) (es : list (option string)) : Z :=
  match es with
  | [] => v
  | Some a :: es' => told_from (if (a =? "pressed")%string then 1 else 0) es'
  | None :: es' => told_from v es'
  end.

Lemma told_expected n h vs : Forall binary (map fst vs) -> Forall binary h -> drops n h vs = false ->
  told_from (debounced n h) (expected n h vs) = debounced n (rev_append (map fst vs) h).
Proof.
  revert h. induction vs as [| [v alloc] vs IH]; intros h Hv Hh Hd; [reflexivity |].
  inversion Hv as [| ? ? Hv1 Hv2]; subst. cbn [drops] in Hd. apply orb_false_iff in Hd as [Hd1 Hd2].
  cbn [map fst rev_append expected]. rewrite <- (IH (v :: h)) by (try constructor; assumption).
  destruct (Z.eqb_spec (debounced n (v :: h)) (debounced n h)) as [E | E]; cbn [orb negb andb] in *; cbn [told_from].
  - rewrite E. reflexivity.
  - apply negb_false_iff in Hd1 as ->. cbn [negb told_from]. f_equal.
    cbn [fst] in Hv1. destruct (Z.eq_dec v (debounced n h)) as [Ev | Ev]; [rewrite Ev, debounced_same in E; contradiction |].
    rewrite (debounced_other n h v Hv1 Hh Ev) in *. destruct (_ <=? _)%nat; [| contradiction].
    destruct Hv1 as [-> | ->]; reflexivity.
Qed.

(** C25: debouncing and liveness of a polled button. A button set up with a
    threshold [n] and never looked at before behaves, over every sequence of
    samples, as the reference that looks at the whole history: its level
    changes exactly when the last [n + 1] samples are equal and differ from
    it, and no shorter glitch changes it.  Each change makes one event, with
    the right action, if there is memory for it; without, the event is lost
    and not made up for.  So as long as no event is lost, whenever the last
    [n + 1] samples agree their value is what the events told user space. *)
Theorem polled_button_debounced (d : data) (ms : list moment) n v :
  last_state d = -1 -> count d = 0 -> threshold d = Z.of_nat n ->
  button_type input_code (b_button d) = EV_KEY input_code ->
  let vs := map (fun m => (gpio_button_get_value m d, kzalloc_ok m)) ms in
  let (es, d') := run_button ms d in
  map (option_map ev_action) es = expected n [] vs /\
  level d' = debounced n (rev (map fst vs)) /\
  (drops n [] vs = false -> forall ms' ms'', ms = ms' ++ ms'' -> length ms'' = S n ->
     (forall m, In m ms'' -> gpio_button_get_value m d = v) -> told_from 0 (map (option_map ev_action) es) = v).
Proof.
  intros Hst Hc Ht Hk. cbv zeta. pose proof (debouncing_run d n ms [] d) as Hrun. cbv zeta in Hrun.
  lapply Hrun; clear Hrun; [intros Hrun |].
  2: { assert (level d = 0) by (unfold level; rewrite Hst; reflexivity).
       split; auto; [repeat split; reflexivity | cbn; lia]. }
  destruct (run_button ms d) as [es d']. destruct Hrun as [Hes [_ _ _ _ _ Hlv _ _]].
  rewrite rev_append_rev, app_nil_r in Hlv. split; [exact Hes |]. split; [exact Hlv |].
  intros Hd ms' ms'' -> Hlen Hall. rewrite Hes.
  pose proof (told_expected n [] (map (fun m => (gpio_button_get_value m d, kzalloc_ok m)) (ms' ++ ms''))) as Htold.
  change (debounced n []) with 0 in Htold. rewrite Htold; [| rewrite map_map; apply Forall_map, Forall_true; intros m; apply value_binary | constructor | exact Hd].
  rewrite rev_append_rev, app_nil_r, !map_app, rev_app_distr, !map_map. cbn [fst].
  assert (Hrep : map (fun m => gpio_button_get_value m d) ms'' = repeat v (S n)).
  { rewrite <- Hlen. clear -Hall. induction ms'' as [| m l IH]; [reflexivity |]. cbn [map length repeat].
    rewrite Hall by (left; reflexivity). f_equal. apply IH. intros x Hx. apply Hall. right. exact Hx. }
  rewrite Hrep, rev_repeat. apply debounced_settled.
Qed.
End Polling.

(** A reset button polled with a threshold of two: a glitch, a press, a
    release. *)
Definition demo_codes (s : string) : Z := if (s =? "EV_SW")%string then 5 else if (s =? "KEY_RESTART")%string then 408 else 1.
Definition demo_button : @gpio_keys_button_data unit :=
  BData 0 19 (-1) 0 2 false 0 0 (Some tt) (Button 408 1 false 0 (-2) false 40 None).
Definition demo_moment (v : Z) : @moment unit := Moment (fun _ => v) (fun _ => v) 1000 true.

Lemma polled_button_debounced_witness :
  let (es, d') := run_button demo_codes 64 100 (map demo_moment [1; 0; 1; 1; 1; 0; 0; 0]) demo_button in
  map (option_map ev_action) es
  = [None; None; None; None; Some "pressed"; None; None; Some "released"] /\ level d' = 0 /\
  told_from 0 (map (option_map ev_action) es) = 0.
Proof.
  pose proof (polled_button_debounced demo_codes 64 100 demo_button (map demo_moment [1; 0; 1; 1; 1; 0; 0; 0]) 2 0
    eq_refl eq_refl eq_refl eq_refl) as H. cbv zeta in H.
  destruct (run_button _ _ _ _ _) as [es d']. destruct H as (H1 & H2 & H3).
  split; [rewrite H1; reflexivity |]. split; [rewrite H2; reflexivity |].
  apply (H3 eq_refl (map demo_moment [1; 0; 1; 1; 1]) (map demo_moment [0; 0; 0])); [reflexivity | reflexivity |].
  intros m. cbn. intuition; subst; reflexivity.
Defined.

(** Without memory at the third sample the press is never reported. *)
Example press_is_lost :
  let ms := map demo_moment [1; 1] ++ [Moment (fun _ => 1) (fun _ => 1) 1000 false] ++ map demo_moment [1; 1; 1; 1] in
  let (es, d') := run_button demo_codes 64 100 ms demo_button in
  level d' = 1 /\ es = repeat None 7.
Proof. vm_compute. split; reflexivity. Qed.

(** ** Interrupts

    A line with an interrupt on both edges.  An edge runs
    [button_handle_irq]; the work runs at some time after it is due and sees
    the line as it is then.  [il_told] has the changes the work has seen, newest
    first: [Some] event if it was made, [None] if there was no memory for it. *)

Section Interrupts.
Variables (input_code : string -> Z) (long_bits HZ : Z) (msecs_to_jiffies : Z -> Z).
Context {G : Type}.
#[local] Abbreviation handle := (gpio_keys_handle_button (G := G) input_code long_bits HZ).

Record irq_line := IrqLine {
  il_time : Z;
  il_line : Z;
  il_button : @irq_button G;
  il_told : list (option bh_event)
}.

(** The line reads [v]; [alloc]: there is memory for an event. *)
Definition work_moment (t v : Z) (alloc : bool) : @moment G := Moment (fun _ => v) (fun _ => v) (ulong long_bits t) alloc.

(** The changes seen, after the work that made [d'] of [d] and perhaps an
    event. *)
Definition seen_by_work (e : option bh_event) (d d' : @gpio_keys_button_data G) (told : list (option bh_event)) : list (option bh_event) :=
  match e with Some x => Some x :: told | None => if level d' =? level d then told else None :: told end.

Inductive irq_step (s : irq_line) : irq_line -> Prop :=
| step_edge t v :
    il_time s <= t -> binary v ->
    irq_step s (IrqLine t v (button_handle_irq msecs_to_jiffies t (il_button s)) (il_told s))
| step_work t due alloc e b :
    il_time s <= t -> ib_due (il_button s) = Some due -> due <= t ->
    gpio_keys_irq_work_func input_code long_bits HZ (work_moment t (il_line s) alloc) (IrqButton (ib_data (il_button s)) None)
      = (e, b) ->
    irq_step s (IrqLine t (il_line s) b (seen_by_work e (ib_data (il_button s)) (ib_data b) (il_told s))).

(** From a button the probe set up, its work queued. *)
Inductive irq_reachable : irq_line -> Prop :=
| irq_start t v d :
    last_state d = -1 -> count d = 0 -> threshold d = 0 -> binary v ->
    button_type input_code (b_button d) = EV_KEY input_code ->
    irq_reachable (IrqLine t v (IrqButton d (Some (t + msecs_to_jiffies (software_debounce d)))) [])
| irq_next s s' : irq_reachable s -> irq_step s s' -> irq_reachable s'.

(** What user space believes: the last message. *)
Fixpoint told_level (told : list (option bh_event)) : Z :=
  match told with
  | Some e :: _ => if (ev_action e =? "pressed")%string then 1 else 0
  | None :: told' => told_level told'
  | [] => 0
  end.

(** The changes that were lost since. *)
Fixpoint lost (told : list (option bh_event)) : nat :=
  match told with None :: told' => S (lost told') | _ => O end.

(** The level after so many changes, and messages that say so: pressed,
    released, pressed, ... *)
Definition level_after (told : list (option bh_event)) : Z := Z.of_nat (length told) mod 2.
Fixpoint in_turn (told : list (option bh_event)) : Prop :=
  match told with
  | [] => True
  | r :: told' => (forall e, r = Some e -> ev_action e = action_of (level_after told)) /\ in_turn told'
  end.

Lemma level_after_cons r told : level_after (r :: told) = 1 - level_after told.
Proof. unfold level_after. cbn [length]. rewrite Nat2Z.inj_succ. Z.div_mod_to_equations; lia. Qed.
Lemma level_after_binary told : binary (level_after told).
Proof. unfold level_after, binary. Z.div_mod_to_equations; lia. Qed.

Lemma told_lost told : in_turn told ->
  told_level told = if Nat.even (lost told) then level_after told else 1 - level_after told.
Proof.
  induction told as [| [e |] told IH]; intros H; [reflexivity | |].
  - cbn [told_level lost Nat.even]. destruct H as [He _]. rewrite (He e eq_refl).
    destruct (level_after_binary (Some e :: told)) as [-> | ->]; reflexivity.
  - destruct H as [_ H]. cbn [told_level lost]. rewrite (IH H), Nat.even_succ, <- Nat.negb_even, level_after_cons.
    destruct (Nat.even (lost told)); cbn [negb]; lia.
Qed.

Record irq_inv (s : irq_line) : Prop := {
  ii_line : binary (il_line s);
  ii_key : button_type input_code (b_button (ib_data (il_button s))) = EV_KEY input_code;
  ii_state : last_state (ib_data (il_button s)) = -1 \/ binary (last_state (ib_data (il_button s)));
  ii_count : count (ib_data (il_button s)) = 0 /\ threshold (ib_data (il_button s)) = 0;
  ii_idle : ib_due (il_button s) = None -> level (ib_data (il_button s)) = il_line s;
  ii_level : level (ib_data (il_button s)) = level_after (il_told s);
  ii_turn : in_turn (il_told s)
}.

(** Running the work sees the line, and reports it if it has changed and
    there is memory. *)
Lemma work_inv s t alloc e b :
  irq_inv s ->
  gpio_keys_irq_work_func input_code long_bits HZ (work_moment t (il_line s) alloc) (IrqButton (ib_data (il_button s)) None)
    = (e, b) ->
  let told' := seen_by_work e (ib_data (il_button s)) (ib_data b) (il_told s) in
  irq_inv (IrqLine t (il_line s) b told') /\ ib_due b = None /\
  (told' = il_told s \/ exists r, told' = r :: il_told s /\ (r = None <-> alloc = false)).
Proof.
  intros [Hl Hk Hs [Hc Ht] _ Hlv Hturn]. unfold gpio_keys_irq_work_func. cbn [ib_data ib_due].
  pose proof (handle_cases input_code long_bits HZ (work_moment t (il_line s) alloc) (ib_data (il_button s)) Hk Hs) as Hcase.
  cbv zeta in Hcase.
  assert (Hv : gpio_button_get_value (work_moment t (il_line s) alloc) (ib_data (il_button s)) = il_line s).
  { unfold gpio_button_get_value, work_moment. cbn. destruct Hl as [-> | ->], (can_sleep _); reflexivity. }
  rewrite Hv, Hc, Ht in Hcase. cbn [Z.ltb Z.compare] in Hcase.
  destruct (handle _ _) as [e' d']. intros [= <- <-]. cbv zeta. cbn [ib_data ib_due].
  destruct (Z.eqb_spec (il_line s) (level (ib_data (il_button s)))) as [Heq | Hne].
  - destruct Hcase as [-> ->].
    assert (Hlev : level (with_state (il_line s) 0 (ib_data (il_button s))) = il_line s).
    { unfold level. cbn [last_state with_state]. unfold binary in Hl. destruct (Z.eqb_spec (il_line s) (-1)); lia. }
    unfold seen_by_work. rewrite Hlev, Heq, Z.eqb_refl. split; [| split; [reflexivity | left; reflexivity]].
    split; cbn [il_line il_button il_told ib_data]; rewrite <- ?Heq, ?Hlev; auto; congruence.
  - destruct Hcase as (He & (E1 & E2 & E3 & E4) & Hst & Hcnt). cbn [kzalloc_ok work_moment] in He.
    assert (Hlev : level d' = il_line s).
    { unfold level. rewrite Hst. unfold binary in Hl. destruct (Z.eqb_spec (il_line s) (-1)); lia. }
    assert (Htold : seen_by_work e' (ib_data (il_button s)) d' (il_told s) = e' :: il_told s).
    { unfold seen_by_work. destruct e'; [reflexivity |]. rewrite Hlev. apply Z.eqb_neq in Hne. rewrite Hne. reflexivity. }
    rewrite Htold. pose proof (level_after_binary (il_told s)) as Hab.
    assert (Hnew : il_line s = level_after (e' :: il_told s)) by (rewrite level_after_cons; unfold binary in *; lia).
    split; [| split; [reflexivity | right; exists e'; split; [reflexivity |]]].
    + split; cbn [il_line il_button il_told ib_data ib_due]; rewrite ?Hlev; auto; try congruence.
      * rewrite Hst. right. exact Hl.
      * split; [exact Hcnt | congruence].
      * split; [| exact Hturn]. intros x ->. destruct alloc; [| discriminate]. injection He as ->. congruence.
    + destruct e', alloc; try discriminate; split; congruence.
Qed.

Lemma reachable_inv s : irq_reachable s -> irq_inv s.
Proof.
  induction 1 as [t v d H1 H2 H3 H4 H5 | s s' _ IH Hstep].
  - assert (Hlev : level d = 0) by (unfold level; rewrite H1; reflexivity).
    split; cbn; auto; discriminate.
  - destruct Hstep as [t v Ht Hv | t due alloc e b Ht Hdue Hle Hrun].
    + destruct IH as [I1 I2 I3 I4 I5 I6 I7]. split; cbn; auto; discriminate.
    + apply (work_inv s t alloc e b IH Hrun).
Qed.

(** C26: what becomes of the edges. In every state a button with an interrupt
    can reach by edges and work, at any times and with or without memory:
    the messages take turns with the changes the work has seen, pressed and
    released, with a gap for each change that found no memory; when no work is
    queued the last message says what the line is, unless an odd number of
    changes were lost since, and then the opposite; when work is queued and
    due it can run, and it adds at most one change, which is lost exactly if
    there is no memory.  So no edge is lost but for want of memory, and then
    for good. *)
Theorem irq_button_reports_line s :
  irq_reachable s ->
  in_turn (il_told s) /\
  (ib_due (il_button s) = None ->
     told_level (il_told s) = if Nat.even (lost (il_told s)) then il_line s else 1 - il_line s) /\
  (forall due t alloc, ib_due (il_button s) = Some due -> due <= t -> il_time s <= t ->
     exists s', irq_step s s' /\ il_line s' = il_line s /\ ib_due (il_button s') = None /\
       (il_told s' = il_told s \/ exists r, il_told s' = r :: il_told s /\ (r = None <-> alloc = false))).
Proof.
  intros Hr. pose proof (reachable_inv s Hr) as Hi. split; [apply (ii_turn _ Hi) | split].
  - intros Hn. rewrite (told_lost _ (ii_turn _ Hi)), <- (ii_level _ Hi), (ii_idle _ Hi Hn). reflexivity.
  - intros due t alloc Hdue Hle Ht.
    destruct (gpio_keys_irq_work_func input_code long_bits HZ (work_moment t (il_line s) alloc)
                (IrqButton (ib_data (il_button s)) None)) as [e b] eqn:Hrun.
    destruct (work_inv s t alloc e b Hi Hrun) as (_ & Hb & Htold).
    eexists. split; [eapply step_work; eassumption |]. split; [reflexivity |]. split; [exact Hb | exact Htold].
Qed.
End Interrupts.

(** Pressed at boot, one bounce, then the work, which reports the press. *)
Lemma irq_button_reports_line_witness :
  let d := BData 0 19 (-1) 0 0 false 0 5 (Some tt) (Button 408 1 false 0 (-2) false 5 None) in
  let s := IrqLine 12 1 (IrqButton d (Some 17)) [] in
  let s' := IrqLine 20 1 (IrqButton (with_state 1 0 (with_seen 20 d)) None) [Some (BhEvent "reset" 1 "pressed" 0)] in
  irq_step demo_codes 64 100 (fun x => x) s s' /\ told_level (il_told s') = 1 /\
  exists s'', irq_step demo_codes 64 100 (fun x => x) s s'' /\
    (il_told s'' = [] \/ exists r, il_told s'' = [r] /\ (r = None <-> false = false)).
Proof.
  intros d s s'.
  assert (Hr : irq_reachable demo_codes 64 100 (fun x => x) s).
  { apply (irq_next _ _ _ _ (IrqLine 10 0 (IrqButton d (Some 15)) [])).
    - apply (irq_next _ _ _ _ (IrqLine 0 1 (IrqButton d (Some 5)) [])).
      + apply (irq_start demo_codes 64 100 (fun x => x) 0 1 d); try reflexivity. right. reflexivity.
      + exact (step_edge demo_codes 64 100 (fun x => x) (IrqLine 0 1 (IrqButton d (Some 5)) []) 10 0
                 ltac:(cbn; lia) ltac:(left; reflexivity)).
    - exact (step_edge demo_codes 64 100 (fun x => x) (IrqLine 10 0 (IrqButton d (Some 15)) []) 12 1
               ltac:(cbn; lia) ltac:(right; reflexivity)). }
  assert (Hw : irq_step demo_codes 64 100 (fun x => x) s s').
  { exact (step_work demo_codes 64 100 (fun x => x) s 20 17 true (Some (BhEvent "reset" 1 "pressed" 0)) (IrqButton (with_state 1 0 (with_seen 20 d)) None)
             ltac:(cbn; lia) eq_refl ltac:(cbn; lia) eq_refl). }
  split; [exact Hw |]. split.
  - apply (irq_button_reports_line demo_codes 64 100 (fun x => x) s' (irq_next _ _ _ _ _ _ Hr Hw)). reflexivity.
  - destruct (irq_button_reports_line demo_codes 64 100 (fun x => x) s Hr) as (_ & _ & H).
    destruct (H 17 20 false eq_refl) as (s'' & H1 & _ & _ & H4); [lia | cbn; lia |]. exists s''. split; [exact H1 | exact H4].
Defined.

(** ** Messages *)

Lemma add_var_run l x :
  (String.length x < 128)%nat -> (forall y, In y l -> (String.length y < 128)%nat) -> (length l <= 15)%nat ->
  bh_event_add_var 0 x (packed l) = (Ok tt, packed (l ++ [x])).
Proof.
  intros Hx Hl Hn. unfold bh_event_add_var, skb_put. cbn [cbool Z.eqb negb].
  destruct (Z.leb_spec 128 (Z.of_nat (String.length x))); [lia |].
  pose proof (packed_length (l ++ [x])) as Hlen. rewrite packed_app.
  lapply Hlen; [| intros y Hy; apply in_app_or in Hy; destruct Hy as [Hy | [<- | []]]; auto].
  rewrite length_app. cbn [length]. intros Hle. unfold BH_SKB_SIZE.
  destruct (Z.ltb_spec 2048 (Z.of_nat (String.length (packed (l ++ [x]))))); [lia | reflexivity].
Qed.

(** A sequence of variables. *)
Lemma add_vars_run l xs (k : M string unit) :
  (forall y, In y (l ++ xs) -> (String.length y < 128)%nat) -> (length (l ++ xs) <= 16)%nat ->
  fold_right (fun x m => bh_event_add_var 0 x ;; m) k xs (packed l) = k (packed (l ++ xs)).
Proof.
  revert l. induction xs as [| x xs IH]; intros l Hl Hn; [rewrite app_nil_r; reflexivity |].
  cbn [fold_right]. rewrite length_app in Hn. cbn [length] in Hn.
  rewrite (bind_ok _ _ _ _ _ (add_var_run l x (Hl x ltac:(apply in_or_app; right; left; reflexivity))
    (fun y Hy => Hl y ltac:(apply in_or_app; left; exact Hy)) ltac:(lia))).
  replace (l ++ x :: xs) with ((l ++ [x]) ++ xs) in * by (rewrite <- app_assoc; reflexivity).
  apply IH; [exact Hl | rewrite length_app in *; cbn [length] in *; rewrite length_app in *; cbn [length] in *; lia].
Qed.

Section Messages.
Variables (input_code : string -> Z) (long_bits : Z).

(** The variables of an event, as user space should see them. *)
Definition event_vars (e : bh_event) (seqnum : Z) : list string :=
  [ev_action e +:+ "@"; "HOME=/"; "PATH=/sbin:/bin:/usr/sbin:/usr/bin"; "SUBSYSTEM=button";
   "ACTION=" +:+ ev_action e; "BUTTON=" +:+ ev_name e] ++
  (if ev_type e =? EV_SW input_code then ["TYPE=switch"] else []) ++
  ["SEEN=" +:+ decimal (slong long_bits (ev_seen e)); "SEQNUM=" +:+ decimal (u64 seqnum)].

Lemma button_names_ok :
  forallb (fun m => (String.length (bm_name m) <=? 20)%nat && no_nul (bm_name m)) (button_map input_code) = true.
Proof. reflexivity. Qed.

(** All but the last. *)
Definition event_front (e : bh_event) : list string :=
  [ev_action e +:+ "@"; "HOME=/"; "PATH=/sbin:/bin:/usr/sbin:/usr/bin"; "SUBSYSTEM=button";
   "ACTION=" +:+ ev_action e; "BUTTON=" +:+ ev_name e] ++
  (if ev_type e =? EV_SW input_code then ["TYPE=switch"] else []) ++
  ["SEEN=" +:+ decimal (slong long_bits (ev_seen e))].

Lemma event_vars_front e seqnum : event_vars e seqnum = event_front e ++ ["SEQNUM=" +:+ decimal (u64 seqnum)].
Proof. unfold event_vars, event_front. destruct (_ =? _); reflexivity. Qed.

Lemma work_runs e seqnum :
  (forall x, In x (event_vars e seqnum) -> (String.length x < 128)%nat) ->
  button_hotplug_work input_code long_bits true seqnum e = Some (packed (event_vars e seqnum)).
Proof.
  intros Hlen. unfold button_hotplug_work. cbn [negb].
  assert (Hn : (length (event_front e) <= 8)%nat).
  { unfold event_front. rewrite !length_app. destruct (_ =? _); cbn [length]; lia. }
  rewrite event_vars_front in *.
  assert (Hfront : forall x, In x (event_front e) -> (String.length x < 128)%nat).
  { intros x Hx. apply Hlen, in_or_app. left. exact Hx. }
  assert (Hrun : (bh_event_add_var 0 (ev_action e +:+ "@") ;; button_hotplug_fill_event input_code long_bits e seqnum) EmptyString
    = fold_right (fun x m => bh_event_add_var 0 x ;; m) (bh_event_add_var 0 ("SEQNUM=" +:+ decimal (u64 seqnum)))
        (event_front e) (packed [])).
  { unfold button_hotplug_fill_event, event_front. destruct (ev_type e =? EV_SW input_code); reflexivity. }
  rewrite Hrun, add_vars_run by (exact Hfront || (cbn [app]; lia)). cbn [app].
  rewrite add_var_run; [reflexivity | | exact Hfront | lia].
  apply Hlen, in_or_app. right. left. reflexivity.
Qed.

(** Round trip of an event. Whatever button of the map, press or release,
    type and times: when the buffer can be allocated the message is
    broadcast, it fits the buffer, and splitting it at the NULs gives back
    the variables of the event, the sequence number among them as a decimal
    that reads back. *)
Theorem event_message_roundtrip entry type seen pressed seqnum e :
  0 <= entry < Z.of_nat (length (button_map input_code)) ->
  button_hotplug_create_event true (bm_name (geti (BhMap 0 "") (button_map input_code) entry)) type seen pressed = Ok e ->
  exists msg, button_hotplug_work input_code long_bits true seqnum e = Some msg /\
    Z.of_nat (String.length msg) <= BH_SKB_SIZE /\
    split_nul msg = event_vars e seqnum /\
    undecimal 0 (decimal (u64 seqnum)) = u64 seqnum.
Proof.
  intros Hi [= <-]. set (e := BhEvent _ _ _ _).
  assert (Hname : (String.length (ev_name e) <= 20)%nat /\ no_nul (ev_name e) = true).
  { pose proof button_names_ok as Hall. rewrite forallb_forall in Hall.
    specialize (Hall (geti (BhMap 0 "") (button_map input_code) entry)). lapply Hall;
      [intros H; apply andb_prop in H; destruct H as [H1 H2]; apply Nat.leb_le in H1; split; assumption | apply nth_In; lia]. }
  assert (Hact : (String.length (ev_action e) <= 8)%nat /\ no_nul (ev_action e) = true).
  { cbn. destruct (cbool pressed); cbn; split; (lia || reflexivity). }
  destruct Hname as [N1 N2], Hact as [A1 A2].
  destruct (decimal_ok (slong long_bits (ev_seen e))) as [S1 S2]. destruct (decimal_ok (u64 seqnum)) as [Q1 Q2].
  assert (Hlen : forall x, In x (event_vars e seqnum) -> (String.length x < 128)%nat /\ no_nul x = true).
  { intros x Hx. unfold event_vars in Hx.
    repeat (apply in_app_or in Hx; destruct Hx as [Hx | Hx]);
      repeat match goal with
      | H : In _ (if ?b then _ else _) |- _ => destruct b
      | H : In _ (_ :: _) |- _ => destruct H as [<- | H]
      | H : In _ [] |- _ => destruct H
      end; rewrite ?length_app_s, ?no_nul_app, ?N2, ?A2, ?S2, ?Q2; cbn [String.length]; split; (lia || reflexivity). }
  assert (Hn : (length (event_vars e seqnum) <= 9)%nat).
  { unfold event_vars. rewrite !length_app. destruct (_ =? _); cbn [length]; lia. }
  exists (packed (event_vars e seqnum)). split; [| split; [| split]].
  - apply work_runs. intros y Hy. apply Hlen, Hy.
  - pose proof (packed_length (event_vars e seqnum) (fun x Hx => proj1 (Hlen x Hx))). unfold BH_SKB_SIZE. lia.
  - apply split_packed, forallb_forall. intros x Hx. apply Hlen, Hx.
  - pose proof (uwrap_range 64 seqnum ltac:(lia)). unfold decimal, u64 in *.
    destruct (Z.ltb_spec (uwrap 64 seqnum) 0); [lia |]. apply undecimal_digits. cbn. lia.
Qed.
End Messages.

Lemma event_message_roundtrip_witness :
  exists msg, button_hotplug_work demo_codes 64 true 7 (BhEvent "reset" 1 "pressed" 3) = Some msg /\
    split_nul msg = ["pressed@"; "HOME=/"; "PATH=/sbin:/bin:/usr/sbin:/usr/bin"; "SUBSYSTEM=button";
                     "ACTION=pressed"; "BUTTON=reset"; "SEEN=3"; "SEQNUM=7"].
Proof.
  destruct (event_message_roundtrip demo_codes 64 19 1 3 1 7 (BhEvent "reset" 1 "pressed" 3)) as (msg & H1 & _ & H2 & _).
  - split; [lia | reflexivity].
  - reflexivity.
  - exists msg. split; [exact H1 | rewrite H2; reflexivity].
Defined.

(** ** Probe *)

Section Probe.
Variable input_code : string -> Z.
Context {G : Type}.
Variable gpio_is_valid : Z -> bool.
Variable devm_gpiod_get_index : string -> Z -> res (option G).
Variable devm_gpio_request_one : Z -> bool -> string -> Z.
Variable gpio_to_desc : Z -> bool -> option G.
Variable gpiod_cansleep : G -> bool.
Variable gpiod_set_debounce : G -> Z -> Z.

#[local] Abbreviation probe_list := (probe_buttons input_code gpio_is_valid devm_gpiod_get_index
  devm_gpio_request_one gpio_to_desc gpiod_cansleep gpiod_set_debounce).
#[local] Abbreviation probe_dev := (gpio_keys_button_probe input_code gpio_is_valid devm_gpiod_get_index
  devm_gpio_request_one gpio_to_desc gpiod_cansleep gpiod_set_debounce).

(** An index [button_get_index] returns is one of the map, and its code is
    the code looked for. *)
Lemma get_index_ok code :
  0 <= button_get_index input_code code ->
  button_get_index input_code code < Z.of_nat (length (button_map input_code)) /\
  bm_code (geti (BhMap 0 "") (button_map input_code) (button_get_index input_code code)) = code.
Proof.
  unfold button_get_index. set (go := fix go l i := match l with [] => _ | m :: l' => _ end).
  assert (Hgo : forall l i, go l i = -1 \/
    exists k, (k < length l)%nat /\ go l i = i + Z.of_nat k /\ bm_code (nth k l (BhMap 0 "")) = code).
  { induction l as [| m l IH]; intros i; [left; reflexivity |]. cbn [go].
    destruct (Z.eqb_spec (bm_code m) code) as [He | _].
    - right. exists 0%nat. cbn [length nth]. split; [lia |]. split; [lia | exact He].
    - destruct (IH (i + 1)) as [E | (k & Hk & E & Hc)]; [left; exact E |].
      right. exists (S k). cbn [length nth]. split; [lia |]. split; [rewrite E; lia | exact Hc]. }
  intros Hpos. destruct (Hgo (button_map input_code) 0) as [E | (k & Hk & E & Hc)]; rewrite E in *; [lia |].
  unfold geti. rewrite Z.add_0_l, Nat2Z.id. split; [lia | exact Hc].
Qed.

(** What the probe makes of an available child, apart from its GPIO: a child
    with an interrupt of its own gets a button without a GPIO, which is never
    looked at. *)
Record probed (polled : bool) (interval : Z) (c : @dt_child G) (d : @gpio_keys_button_data G) : Prop := {
  pb_irq : k_irq (b_button d) = c_irq c;
  pb_gpio : gpiod d = None <-> c_irq c <> 0;
  pb_entry : 0 <= map_entry d < Z.of_nat (length (button_map input_code));
  pb_code : c_code c = Some (bm_code (geti (BhMap 0 "") (button_map input_code) (map_entry d)));
  pb_wakeup : c_wakeup c = false;
  pb_type : button_type input_code (b_button d) = EV_KEY input_code \/
            button_type input_code (b_button d) = EV_SW input_code;
  pb_fresh : c_irq c = 0 -> last_state d = -1 /\ count d = 0 /\ b_seen d = 0;
  pb_threshold : c_irq c = 0 ->
    let ms := match c_debounce c with Some v => v | None => 5 end in
    threshold d = if polled then s32 (DIV_ROUND_UP ms interval) else 0
}.

(** The GPIOs of the buttons that have one. *)
Definition gpios_of (l : list (@gpio_keys_button_data G)) : list (res (option G)) :=
  map (fun d => Ok (gpiod d)) (List.filter (fun d => k_irq (b_button d) =? 0) l).

Lemma button_type_ok k :
  (k_type k =? 0) || (k_type k =? EV_KEY input_code) || (k_type k =? EV_SW input_code) = true ->
  button_type input_code k = EV_KEY input_code \/ button_type input_code k = EV_SW input_code.
Proof.
  intros Ht. unfold button_type, cbool. destruct (Z.eqb_spec (k_type k) 0) as [| Hne]; [left; reflexivity |].
  cbn [negb]. lia.
Qed.

(** What a button keeps of its child. *)
Lemma button_of_child_ok (c : @dt_child G) k : button_of_child input_code c = Ok k ->
  c_code c = Some (k_code k) /\ c_wakeup c = k_wakeup k /\ k_irq k = c_irq c /\ k_gpio k = - ENOENT /\
  k_debounce_interval k = match c_debounce c with Some v => v | None => 5 end.
Proof. unfold button_of_child. destruct (c_code c); [| discriminate]. intros [= <-]. auto. Qed.

Lemma button_setup_probed polled interval c k g :
  button_of_child input_code c = Ok k -> c_irq c = 0 ->
  k_wakeup k = false -> 0 <= button_get_index input_code (k_code k) ->
  (k_type k =? 0) || (k_type k =? EV_KEY input_code) || (k_type k =? EV_SW input_code) = true ->
  let d := button_setup gpiod_cansleep gpiod_set_debounce polled interval k (button_get_index input_code (k_code k)) g in
  probed polled interval c d /\ gpiod d = Some g.
Proof.
  intros Hk Hi Hw He Ht. destruct (get_index_ok _ He) as [Hlt Hcode]. pose proof (button_type_ok k Ht) as Htype.
  destruct (button_of_child_ok c k Hk) as (Hc & Hcw & Hki & _ & Hdb). cbv zeta. unfold button_setup.
  destruct polled; [| destruct (cbool _ && _)];
    (split; [| reflexivity]); split; cbn [gpiod map_entry b_button last_state count b_seen threshold];
    rewrite ?Hcode, <- ?Hdb; auto; try congruence; split; (discriminate || contradiction).
Qed.

Lemma blank_button_probed polled interval c k :
  button_of_child input_code c = Ok k -> c_irq c <> 0 ->
  k_wakeup k = false -> 0 <= button_get_index input_code (k_code k) ->
  (k_type k =? 0) || (k_type k =? EV_KEY input_code) || (k_type k =? EV_SW input_code) = true ->
  probed polled interval c (blank_button k (button_get_index input_code (k_code k))).
Proof.
  intros Hk Hi Hw He Ht. destruct (get_index_ok _ He) as [Hlt Hcode]. pose proof (button_type_ok k Ht) as Htype.
  destruct (button_of_child_ok c k Hk) as (Hc & Hcw & Hki & _ & Hdb).
  split; cbn [gpiod map_entry b_button blank_button]; rewrite ?Hcode; auto; try congruence; try contradiction. split; auto.
Qed.

Lemma probe_list_probed polled interval cs rest ks i l :
  buttons_of_children input_code cs = Ok ks -> gpio_is_valid (- ENOENT) = false ->
  probe_list polled interval i ks rest = Ok l ->
  Forall2 (probed polled interval) cs l /\ gpios_of l = firstn (length (gpios_of l)) (map c_gpiod rest).
Proof.
  intros Hks Hv. revert ks rest i l Hks. induction cs as [| c cs IH]; intros ks rest i l Hks Hp.
  - injection Hks as <-. injection Hp as <-. split; [constructor | reflexivity].
  - cbn [buttons_of_children] in Hks. destruct (button_of_child input_code c) as [k |] eqn:Hk; [| discriminate].
    destruct (buttons_of_children input_code cs) as [ks' |] eqn:Hks'; [| discriminate]. injection Hks as <-.
    cbn [probe_buttons] in Hp.
    destruct (k_wakeup k) eqn:Hw; [discriminate |].
    destruct (Z.ltb_spec (button_get_index input_code (k_code k)) 0) as [| He]; [discriminate |].
    destruct ((k_type k =? 0) || (k_type k =? EV_KEY input_code) || (k_type k =? EV_SW input_code)) eqn:Ht;
      cbn [negb] in Hp; [| discriminate].
    destruct (button_of_child_ok c k Hk) as (_ & _ & Hki & Hkg & _). rewrite Hki in Hp. unfold cbool in Hp.
    destruct (Z.eqb_spec (c_irq c) 0) as [Hi | Hi]; cbn [negb] in Hp.
    + unfold button_gpiod in Hp. rewrite Hkg, Hv in Hp. destruct rest as [| w rest]; cbn [of_get_next_child] in Hp; [discriminate |].
      destruct (c_gpiod w) as [[g |] |] eqn:Hg; try discriminate.
      destruct (probe_list polled interval (i + 1) ks' rest) as [l' |] eqn:Hl; [| discriminate]. injection Hp as <-.
      destruct (IH ks' rest (i + 1) l' eq_refl Hl) as [IH1 IH2].
      destruct (button_setup_probed polled interval c k g Hk Hi Hw He Ht) as [Hpr Hpg].
      split; [constructor; assumption |]. unfold gpios_of in *. cbn [List.filter].
      rewrite (pb_irq _ _ _ _ Hpr), Hi. cbn [Z.eqb map length firstn]. rewrite Hpg, Hg. f_equal. exact IH2.
    + destruct (probe_list polled interval (i + 1) ks' rest) as [l' |] eqn:Hl; [| discriminate]. injection Hp as <-.
      destruct (IH ks' rest (i + 1) l' eq_refl Hl) as [IH1 IH2].
      pose proof (blank_button_probed polled interval c k Hk Hi Hw He Ht) as Hpr.
      split; [constructor; assumption |]. unfold gpios_of in *. cbn [List.filter].
      rewrite (pb_irq _ _ _ _ Hpr). apply Z.eqb_neq in Hi. rewrite Hi. exact IH2.
Qed.

(** With no child left out and none skipped the GPIOs are the children's own. *)
Lemma own_gpios polled interval node l : Forall (fun c => c_irq c = 0) node -> Forall2 (probed polled interval) node l ->
  gpios_of l = firstn (length (gpios_of l)) (map c_gpiod node) -> Forall2 (fun c d => c_gpiod c = Ok (gpiod d)) node l.
Proof.
  intros Hi H. revert Hi. unfold gpios_of. induction H as [| c d node l Hcd _ IH]; intros Hi E; [constructor |].
  inversion Hi as [| ? ? Hc Hi']; subst. cbn [List.filter] in E. rewrite (pb_irq _ _ _ _ Hcd), Hc in E.
  cbn [Z.eqb map length firstn] in E. injection E as E1 E2. constructor; [auto | apply IH; assumption].
Qed.

(** C27: the probe of device tree children. When it succeeds there is one
    button per available child, in order: its map entry is one of the map and
    has the child's key code, so every event has a name; it is a key or a
    switch, does not ask for wakeup, starts in the unknown state, and polls
    as often as the debounce interval asks for; one with an interrupt of its
    own gets no GPIO and is left alone.  The others get the GPIOs of the first
    children of the node, available or not, with an interrupt or not.  So each
    is on its own GPIO if all children are available and none has an
    interrupt, and in general it is not. *)
Theorem probe_buttons_of_children alloc node interval polled bdev :
  gpio_is_valid (- ENOENT) = false ->
  probe_dev alloc None node interval polled = Ok bdev ->
  let buttons := dev_data bdev in
  Forall2 (probed polled interval) (List.filter c_available node) buttons /\
  gpios_of buttons = firstn (length (gpios_of buttons)) (map c_gpiod node) /\
  (Forall (fun c => c_available c = true /\ c_irq c = 0) node -> Forall2 (fun c d => c_gpiod c = Ok (gpiod d)) node buttons) /\
  (polled = true -> interval <> 0).
Proof.
  intros Hv Hp. unfold gpio_keys_button_probe, gpio_keys_get_devtree_pdata in Hp.
  destruct (List.filter c_available node) as [| c cs] eqn:Hf; [discriminate |].
  destruct alloc; cbn [negb] in Hp; [| discriminate].
  destruct (buttons_of_children input_code (c :: cs)) as [ks |] eqn:Hks; [| discriminate].
  cbn [p_poll_interval p_buttons] in Hp.
  destruct (polled && negb (cbool interval)) eqn:Hpoll; [discriminate |].
  destruct (probe_list polled interval 0 ks node) as [l |] eqn:Hl; [| discriminate]. injection Hp as <-. cbv zeta. cbn [dev_data].
  destruct (probe_list_probed polled interval (c :: cs) node ks 0 l Hks Hv Hl) as [H1 H2].
  split; [exact H1 |]. split; [exact H2 |]. split.
  - intros Hn. assert (Hfilter : List.filter c_available node = node).
    { clear -Hn. induction Hn as [| x node [Hc _] _ IH]; [reflexivity |]. cbn [List.filter]. rewrite Hc, IH. reflexivity. }
    apply (own_gpios polled interval); [eapply Forall_impl; [exact Hn | cbv beta; tauto] | congruence | exact H2].
  - intros ->. unfold cbool in Hpoll. destruct (Z.eqb_spec interval 0); [discriminate | assumption].
Qed.
End Probe.

Definition demo_child (avail : bool) (irq : Z) (g : nat) : @dt_child nat :=
  DtChild avail (Some 408) None None false (Some 20) irq (Ok (Some g)).
#[local] Abbreviation demo_probe := (gpio_keys_button_probe (G := nat) demo_codes (fun _ => false) (fun _ _ => Err (- ENOENT))
  (fun _ _ _ => - ENOENT) (fun _ _ => None) (fun _ => false) (fun _ _ => 0)).

(** Two children; and two with a disabled one in front and one with an
    interrupt between them: the first of them gets the GPIO of the disabled
    child, the second that of the first. *)
Definition two_children : list (@dt_child nat) := [demo_child true 0 4; demo_child true 0 7].
Definition four_children : list (@dt_child nat) := [demo_child false 0 4; demo_child true 0 5; demo_child true 9 6; demo_child true 0 7].
Definition probed_two : gpio_keys_button_dev := Eval vm_compute in
  match demo_probe true None two_children 10 true with Ok b => b | Err _ => BDev true 0 None [] end.
Definition probed_four : gpio_keys_button_dev := Eval vm_compute in
  match demo_probe true None four_children 10 true with Ok b => b | Err _ => BDev true 0 None [] end.

Lemma probe_buttons_of_children_witness :
  Forall2 (fun c d => c_gpiod c = Ok (gpiod d)) two_children (dev_data probed_two) /\
  Forall2 (probed demo_codes true 10) (List.filter c_available four_children) (dev_data probed_four) /\
  map gpiod (dev_data probed_four) = [Some 4%nat; None; Some 5%nat].
Proof.
  split; [| split; [| reflexivity]].
  - apply (probe_buttons_of_children demo_codes (fun _ => false) (fun _ _ => Err (- ENOENT))
      (fun _ _ _ => - ENOENT) (fun _ _ => None) (fun _ => false) (fun _ _ => 0) true two_children 10 true probed_two); [reflexivity | vm_compute; reflexivity |].
    repeat constructor.
  - apply (probe_buttons_of_children demo_codes (fun _ => false) (fun _ _ => Err (- ENOENT))
      (fun _ _ _ => - ENOENT) (fun _ _ => None) (fun _ => false) (fun _ _ => 0) true four_children 10 true probed_four); [reflexivity | vm_compute; reflexivity].
Defined.
