(* ===== verification/R2ec.v ===== *)
(** * The R2EC driver: [r2ec.c]

    A microcontroller on the I2C bus that serves as GPIO expander: the frames
    of its protocol with their checksum, the start-up that finds out which
    protocol it speaks and boots its application, the GPIO operations, and
    the version and reset files.  The I2C core is a parameter; what is left
    in a stack buffer that the driver does not fill is a parameter too. *)

From S2P Require Import Prelude Text CMonad.

(** ** [io.h] *)

Definition NO_OF_GPIOS : Z := 37.

Definition PROTO_VERSION_1 : Z := 0x01.
Definition PROTO_VERSION_2 : Z := 0x02.

Definition CMD_GPIO : Z := 0x06.
Definition CMD_PROTO : Z := 0xFC.
Definition CMD_FW : Z := 0xFD.
Definition CMD_BOOT : Z := 0xFE.

Definition PROTO_GET_SUPPORTED : Z := 0x03.

Definition BOOT_START_APP : Z := 0x03.
Definition BOOT_STATE : Z := 0xFD.
Definition BOOT_VERSION : Z := 0xFE.

Definition NO_IMAGE_FOUND : Z := 0x17.
Definition BOOT_STARTED : Z := 0x18.
Definition WATCHDOG_RESET : Z := 0x1B.
Definition APPLICATION_START_FAIL : Z := 0x99.
Definition HARD_FAULT_ERROR : Z := 0x9A.
Definition APP_STARTED : Z := 0xFC.
Definition NO_DATA_AVAILABLE : Z := 0xFF.

Definition STATUS_ACK : Z := 0x7D.

Definition GPIO_STATE_HIGH : Z := 0x1E.
Definition GPIO_STATE_LOW : Z := 0x9F.

Definition GPIO_VALUE_SET_LOW : Z := 0x00.
Definition GPIO_VALUE_SET_HIGH : Z := 0x01.
Definition GPIO_VALUE_GET : Z := 0x02.
Definition GPIO_MODE_SET_OUTPUT : Z := 0x04.
Definition GPIO_MODE_SET_INPUT : Z := 0x05.

Definition FW_VERSION : Z := 0x01.

(** ** Frames *)

(** [sizeof(struct i2c_request)], with one byte of data, and
    [sizeof(struct i2c_response)]. *)
Definition sizeof_request : Z := 5.
Definition sizeof_response : Z := 11.

(** One bit of the inner loop, one byte of the outer one. *)
Definition crc8_bit (crc : Z) : Z :=
  u8 (if cbool (Z.land crc 0x80) then Z.shiftl (Z.lxor crc 0xD5) 1 else Z.shiftl crc 1).
Definition crc8_byte (crc byte : Z) : Z := Nat.iter 8 crc8_bit (Z.lxor crc byte).

Definition calc_crc8 (data : list Z) (len : Z) : Z :=
  fold_left crc8_byte (firstn (Z.to_nat len) data) 0xFF.

(** The first four bytes of a packed [struct i2c_request] on a
    little-endian CPU. *)
Definition request_header (version length command : Z) : list Z :=
  [u8 version; u8 length; u8 (Z.shiftr (u16 length) 8); u8 command].

Definition memcpy (dst : list Z) (at_ : Z) (src : list Z) : list Z := list_inserts (Z.to_nat at_) src dst.

Section Driver.
Context {B : Type}.
(** The return value of the call, the buffer after it and the bus. *)
Variable i2c_master_send : list Z -> B -> Z * B.
Variable i2c_master_recv : list Z -> B -> Z * list Z * B.
(** What the stack holds where a frame is built. *)
Variable stack : Z -> Z.

(** [struct r2ec] with the globals; [registered]: [gpiochip_find] finds the
    chip. *)
Record r2ec := R2ec {
  g_proto : Z;
  ic_ready : Z;
  client : bool;
  i2c_lock : bool;
  registered : bool;
  bus : B
}.

Definition set_g_proto (x : Z) (w : r2ec) : r2ec :=
  R2ec x (ic_ready w) (client w) (i2c_lock w) (registered w) (bus w).
Definition set_ic_ready (x : Z) (w : r2ec) : r2ec :=
  R2ec (g_proto w) x (client w) (i2c_lock w) (registered w) (bus w).
Definition set_client (x : bool) (w : r2ec) : r2ec :=
  R2ec (g_proto w) (ic_ready w) x (i2c_lock w) (registered w) (bus w).
Definition set_i2c_lock (x : bool) (w : r2ec) : r2ec :=
  R2ec (g_proto w) (ic_ready w) (client w) x (registered w) (bus w).
Definition set_registered (x : bool) (w : r2ec) : r2ec :=
  R2ec (g_proto w) (ic_ready w) (client w) (i2c_lock w) x (bus w).
Definition set_bus (x : B) (w : r2ec) : r2ec :=
  R2ec (g_proto w) (ic_ready w) (client w) (i2c_lock w) (registered w) x.

(** [return err;] of a value that is an error already. *)
Definition throw {A} (err : Z) : M r2ec A := fun w => (Err err, w).

Definition i2c_send (msg : list Z) : M r2ec Z := fun w =>
  let (r, b) := i2c_master_send msg (bus w) in (Ok r, set_bus b w).
Definition i2c_recv (buf : list Z) : M r2ec (Z * list Z) := fun w =>
  let '(r, buf', b) := i2c_master_recv buf (bus w) in (Ok (r, buf'), set_bus b w).

(** [memcpy] and the checksum stay inside the buffer of six bytes for at
    most one byte of data, which is what every caller passes. *)
Definition stm32_write (client : bool) (ver cmd : Z) (data : list Z) : M r2ec unit :=
  if negb client then fail ENXIO else
  let len := Z.of_nat (length data) in
  let tmp_len := sizeof_request + 1 in
  if tmp_len <? 5 + len then fail EFAULT else
  let tmp := request_header ver (2 + len) cmd ++ [stack 4; stack 5] in
  let tmp := memcpy tmp 4 data in
  let tmp := seti tmp (4 + len) (calc_crc8 tmp (tmp_len - 1)) in
  err <- i2c_send tmp ;;
  if err <? 0 then throw err else ret tt.

(** [retry:], with [n] retries left. *)
Fixpoint recv_retry (n : nat) (data : list Z) : M r2ec (list Z) :=
  ' (err, data) <- i2c_recv data ;;
  if err <? 0 then
    match n with
    | S n' => if err =? - ETIMEDOUT then recv_retry n' data else throw err
    | O => throw err
    end
  else ret data.

(** What is done with the bytes that came in. *)
Definition accept_response (data : list Z) : M r2ec (list Z) :=
  let len := Z.of_nat (length data) in
  if len =? 1 then ret data else
  if len =? sizeof_response - 1 then ret data else
  if geti 0 data 3 =? 0xFF then fail ENODATA else
  let checksum := calc_crc8 data (len - 1) in
  if negb (checksum =? geti 0 data (len - 1)) then
    if negb (cbool (geti 0 data (len - 1))) then ret (memcpy data 0 (tail data))
    else fail EBADE
  else ret data.

Definition stm32_read (client : bool) (data : list Z) : M r2ec (list Z) :=
  if negb client then fail ENXIO else
  data <- recv_retry 10 data ;;
  accept_response data.

(** ** Start-up *)

Definition stm32_prepare : M r2ec unit :=
  stm32_write true 1 CMD_PROTO [PROTO_GET_SUPPORTED] ;;
  rsp <- stm32_read true (repeat 0 (Z.to_nat sizeof_response)) ;;
  let proto := geti 0 rsp 4 in
  modify (set_g_proto
    (if negb (proto =? PROTO_VERSION_1) && negb (proto =? PROTO_VERSION_2) then PROTO_VERSION_1 else proto)) ;;
  w <- get_state ;;
  stm32_write true (g_proto w) CMD_BOOT [BOOT_STATE] ;;
  recv <- stm32_read true [stack 0] ;;
  modify (set_ic_ready 0) ;;
  let state := geti 0 recv 0 in
  if (state =? NO_IMAGE_FOUND) || (state =? APP_STARTED) then modify (set_ic_ready 1) else
  stm32_write true (g_proto w) CMD_BOOT [BOOT_START_APP] ;;
  recv <- stm32_read true recv ;;
  let answer := geti 0 recv 0 in
  if negb (answer =? STATUS_ACK) && negb (answer =? NO_DATA_AVAILABLE) then fail EIO else ret tt.

(** ** GPIOs *)

(** The frame of seven bytes; the last one is not set. *)
Definition gpio_frame (pin val : Z) : list Z :=
  request_header PROTO_VERSION_2 (2 + 2) CMD_GPIO ++ [u8 pin; u8 val; stack 6].

Definition stm32_gpio_write (pin val : Z) : M r2ec unit :=
  w <- get_state ;;
  if negb (client w) then fail ENXIO else
  i2c_send (gpio_frame pin val) ;;
  ret tt.

Definition stm32_gpio_read (pin val : Z) : M r2ec Z :=
  w <- get_state ;;
  if negb (client w) then fail ENXIO else
  err <- i2c_send (gpio_frame pin val) ;;
  if err <? 0 then throw err else
  ' (err, recv) <- i2c_recv [stack 0] ;;
  if err <? 0 then throw err else
  if geti 0 recv 0 =? GPIO_STATE_HIGH then ret 1 else
  if geti 0 recv 0 =? GPIO_STATE_LOW then ret 0 else
  fail EIO.

(** [mutex_lock], the call, [mutex_unlock]. *)
Definition with_i2c_lock {A} (m : M r2ec A) : M r2ec A :=
  modify (set_i2c_lock true) ;;
  r <- catch m ;;
  modify (set_i2c_lock false) ;;
  match r with Ok a => ret a | Err e => throw e end.

Definition r2ec_get (offset : Z) : M r2ec Z := with_i2c_lock (stm32_gpio_read offset GPIO_VALUE_GET).

Definition r2ec_set (offset value : Z) : M r2ec unit :=
  let val := if cbool value then GPIO_VALUE_SET_HIGH else GPIO_VALUE_SET_LOW in
  unchecked tt (with_i2c_lock (stm32_gpio_write offset val)).

Definition r2ec_input (offset : Z) : M r2ec unit := with_i2c_lock (stm32_gpio_write offset GPIO_MODE_SET_INPUT).

Definition r2ec_output (offset value : Z) : M r2ec unit :=
  status <- catch (with_i2c_lock (stm32_gpio_write offset GPIO_MODE_SET_OUTPUT)) ;;
  r2ec_set offset value ;;
  match status with Ok _ => ret tt | Err e => throw e end.

(** The interrupts that are handled. *)
Definition r2ec_irq (irq_find_mapping : Z -> Z) : list Z := tabulate NO_OF_GPIOS irq_find_mapping.

(** ** The sysfs files *)

(** [%02d] of a byte. *)
Definition two_digits (n : Z) : string := if n <? 10 then "0" +:+ digit n else decimal n.

Definition version_text (recv : list Z) : string :=
  two_digits (geti 0 recv 4) +:+ "." +:+ two_digits (geti 0 recv 5) +:+ "." +:+
  two_digits (geti 0 recv 6) +:+ " rev. " +:+ two_digits (geti 0 recv 7) +:+
  String (Ascii.ascii_of_nat 10) EmptyString.

(** What [get_stm32_version] does between taking the lock and [done:]: the
    text that is written, if any. *)
Definition read_version (type : Z) : M r2ec (option string) :=
  w <- get_state ;;
  err <- catch (stm32_write (client w) (g_proto w) type [if type =? CMD_FW then FW_VERSION else BOOT_VERSION]) ;;
  match err with Err _ => ret None | Ok _ =>
  data <- catch (stm32_read (client w) [if type =? CMD_FW then FW_VERSION else BOOT_VERSION]) ;;
  match data with Err _ => ret None | Ok data =>
  if negb (geti 0 data 0 =? PROTO_VERSION_1) && negb (geti 0 data 0 =? PROTO_VERSION_2) then ret None else
  rest <- catch (stm32_read (client w) (tabulate (sizeof_response - 1) stack)) ;;
  match rest with Err _ => ret None | Ok rest =>
  (if negb (cbool (ic_ready w)) then modify (set_ic_ready 1) else ret tt) ;;
  ret (Some (version_text (geti 0 data 0 :: rest)))
  end end end.

(** The length returned and the contents of [buffer], which starts empty. *)
Definition get_stm32_version (type : Z) : M r2ec (Z * string) :=
  w <- get_state ;;
  if negb (registered w) then fail ENXIO else
  if negb (client w) then fail ENXIO else
  modify (set_i2c_lock true) ;;
  text <- read_version type ;;
  modify (set_i2c_lock false) ;;
  let buffer := match text with Some t => t | None => EmptyString end in
  ret (Z.of_nat (String.length buffer), buffer).

Definition app_version_show : M r2ec (Z * string) := get_stm32_version CMD_FW.
Definition boot_version_show : M r2ec (Z * string) := get_stm32_version CMD_BOOT.

Definition reset_store : M r2ec Z :=
  w <- get_state ;;
  if negb (registered w) then fail ENXIO else
  if negb (client w) then fail ENXIO else
  modify (set_i2c_lock true) ;;
  unchecked tt (stm32_write (client w) (g_proto w) CMD_BOOT [BOOT_START_APP]) ;;
  modify (set_i2c_lock false) ;;
  ret 1.

(** ** Probe *)

(** The loop over [stm32_prepare]: the status after at most [n] attempts,
    [status] being that of the last one made. *)
Fixpoint prepare_retry (n : nat) (status : res unit) : M r2ec (res unit) :=
  match n with
  | O => ret status
  | S n' =>
      status <- catch stm32_prepare ;;
      match status with
      | Ok _ => ret (Ok tt)
      | Err e => prepare_retry n' (Err e)
      end
  end.

(** [alloc]: [devm_kzalloc] succeeds; [irq]: the interrupt of the client, 0
    for none; the return values of the calls that register the chip and its
    interrupt.  The result of [pdata->setup] is only reported. *)
Definition r2ec_probe (alloc : bool) (irq devm_gpiochip_add_data devm_request_threaded_irq : Z) : M r2ec unit :=
  if negb alloc then fail ENOMEM else
  modify (fun w => set_i2c_lock false (set_client false (set_ic_ready 0 w))) ;;
  status <- prepare_retry 10 (Ok tt) ;;
  match status with
  | Err e => throw e
  | Ok _ =>
      modify (set_client true) ;;
      if cbool irq then
        if cbool devm_gpiochip_add_data then throw devm_gpiochip_add_data else
        modify (set_registered true) ;;
        if cbool devm_request_threaded_irq then throw devm_request_threaded_irq else
        ret tt
      else ret tt
  end.
End Driver.

Arguments r2ec : clear implicits.
