(* ===== verification/R2ecProps.v ===== *)
(** * Properties of the R2EC driver

    What the checksum detects, how often a read is tried and what it accepts,
    how a probe ends, and the version files. *)

From S2P Require Import Prelude Text CMonad R2ec.

Definition byte (x : Z) : Prop := 0 <= x < 256.

(** ** The checksum *)

Lemma testbit_crc8_bit c i :
  0 <= i -> Z.testbit (crc8_bit c) i =
    (i <? 8) && (1 <=? i) && xorb (Z.testbit c (i - 1)) (Z.testbit c 7 && Z.testbit 0xD5 (i - 1)).
Proof.
  intros Hi. unfold crc8_bit, u8. change 0x80 with (BIT 7). rewrite cbool_land_BIT by lia.
  rewrite testbit_uwrap by lia. destruct (Z.ltb_spec i 8); [| reflexivity].
  destruct (Z.leb_spec 1 i).
  - destruct (Z.testbit c 7); rewrite Z.shiftl_spec, ?Z.lxor_spec by lia; cbn [andb]; rewrite ?xorb_false_r; reflexivity.
  - assert (i = 0) as -> by lia. destruct (Z.testbit c 7); rewrite Z.shiftl_spec_low by lia; reflexivity.
Qed.

Lemma crc8_bit_lxor a b : crc8_bit (Z.lxor a b) = Z.lxor (crc8_bit a) (crc8_bit b).
Proof.
  apply Z.bits_inj'. intros i Hi. rewrite Z.lxor_spec, !testbit_crc8_bit, !Z.lxor_spec by lia.
  destruct (_ <? _), (_ <=? _), (Z.testbit a 7), (Z.testbit b 7), (Z.testbit a _), (Z.testbit b _),
    (Z.testbit 0xD5 _); reflexivity.
Qed.

Lemma iter_crc8_lxor n a b :
  Nat.iter n crc8_bit (Z.lxor a b) = Z.lxor (Nat.iter n crc8_bit a) (Nat.iter n crc8_bit b).
Proof. induction n as [| n IH]; [reflexivity |]. unfold Nat.iter in *. cbn [nat_rect]. rewrite IH. apply crc8_bit_lxor. Qed.

Lemma crc8_bit_byte c : byte (crc8_bit c).
Proof. apply u8_range. Qed.

Lemma lxor_byte a b : byte a -> byte b -> byte (Z.lxor a b).
Proof.
  unfold byte. intros Ha Hb. replace (Z.lxor a b) with (u8 (Z.lxor a b)); [apply u8_range |].
  change 256 with (2 ^ 8) in *. unfold u8. bit_solve.
Qed.

(** The eight steps forget exactly the difference 0xD5. *)
Lemma crc8_kernel c : byte c -> Nat.iter 8 crc8_bit c = 0 <-> c = 0 \/ c = 0xD5.
Proof.
  intros Hc. assert (H : Bool.eqb (Nat.iter 8 crc8_bit c =? 0) ((c =? 0) || (c =? 0xD5)) = true).
  { revert c Hc. apply (forallb_upto 256 (fun c => Bool.eqb (Nat.iter 8 crc8_bit c =? 0) ((c =? 0) || (c =? 0xD5)))).
    vm_compute. reflexivity. }
  apply Bool.eqb_prop in H. rewrite <- Z.eqb_eq, H, orb_true_iff, !Z.eqb_eq. reflexivity.
Qed.

Lemma crc8_byte_eq s x t y : byte s -> byte x -> byte t -> byte y ->
  crc8_byte s x = crc8_byte t y <-> Z.lxor s x = Z.lxor t y \/ Z.lxor (Z.lxor s x) (Z.lxor t y) = 0xD5.
Proof.
  intros Hs Hx Ht Hy. unfold crc8_byte. pose proof (lxor_byte _ _ (lxor_byte _ _ Hs Hx) (lxor_byte _ _ Ht Hy)) as Hb.
  pose proof (crc8_kernel _ Hb) as H. rewrite iter_crc8_lxor in H.
  generalize dependent (Nat.iter 8 crc8_bit (Z.lxor s x)). generalize (Nat.iter 8 crc8_bit (Z.lxor t y)).
  intros u v H. rewrite !Z.lxor_eq_0_iff in H. exact H.
Qed.

(** A checksum so far: a byte, and even once a byte was read. *)
Lemma crc8_byte_byte s x : byte (crc8_byte s x).
Proof. unfold crc8_byte. generalize (Z.lxor s x). intros c. unfold Nat.iter. cbn [nat_rect]. apply crc8_bit_byte. Qed.

Lemma crc8_byte_even s x : Z.even (crc8_byte s x) = true.
Proof.
  unfold crc8_byte. generalize (Z.lxor s x). intros c. unfold Nat.iter. cbn [nat_rect].
  rewrite <- Z.negb_odd, <- Z.bit0_odd, testbit_crc8_bit by lia. reflexivity.
Qed.

Lemma crc8_byte_same s : crc8_byte s s = 0.
Proof. unfold crc8_byte. rewrite Z.lxor_nilpotent. reflexivity. Qed.

#[local] Opaque crc8_byte.
#[local] Hint Resolve crc8_byte_byte crc8_byte_even : core.

Lemma fold_crc8_range l s : byte s -> byte (fold_left crc8_byte l s).
Proof. apply fold_left_inv. intros a x _. apply crc8_byte_byte. Qed.

Lemma even_lxor_D5 s t : Z.even s = true -> Z.even t = true -> Z.lxor s t <> 0xD5.
Proof.
  intros Hs Ht H. apply (f_equal (fun z => Z.testbit z 0)) in H. rewrite Z.lxor_spec, !Z.bit0_odd in H.
  rewrite <- !Z.negb_even, Hs, Ht in H. discriminate.
Qed.

Lemma fold_crc8_inj l s t :
  Forall byte l -> byte s /\ Z.even s = true -> byte t /\ Z.even t = true ->
  fold_left crc8_byte l s = fold_left crc8_byte l t -> s = t.
Proof.
  intros Hl. apply (fold_left_inj crc8_byte (fun s => byte s /\ Z.even s = true) byte); [| | exact Hl].
  - intros a x _ _. split; auto.
  - clear. intros s t x [Hs Es] [Ht Et] Hx H. apply crc8_byte_eq in H; try assumption.
    rewrite Z.lxor_assoc, (Z.lxor_comm x (Z.lxor t x)), Z.lxor_assoc, Z.lxor_nilpotent, Z.lxor_0_r in H.
    destruct H as [H | H]; [| exfalso; revert H; apply even_lxor_D5; assumption].
    apply (f_equal (fun z => Z.lxor z x)) in H. rewrite !Z.lxor_assoc, Z.lxor_nilpotent, !Z.lxor_0_r in H. exact H.
Qed.

Lemma fold_crc8_iff l s x y :
  Forall byte l ->
  fold_left crc8_byte l (crc8_byte s x) = fold_left crc8_byte l (crc8_byte s y) <-> crc8_byte s x = crc8_byte s y.
Proof.
  intros Hl. split; [apply fold_crc8_inj; auto |]. generalize (crc8_byte s x), (crc8_byte s y). congruence.
Qed.

Lemma crc8_byte_diff s x y : byte s -> byte x -> byte y ->
  crc8_byte s x = crc8_byte s y <-> x = y \/ Z.lxor x y = 0xD5.
Proof.
  intros Hs Hx Hy. rewrite (crc8_byte_eq s x s y Hs Hx Hs Hy).
  replace (Z.lxor (Z.lxor s x) (Z.lxor s y)) with (Z.lxor x y).
  - split; (intros [H | H]; [left | right; exact H]); [| rewrite H; reflexivity].
    apply (f_equal (Z.lxor s)) in H. rewrite <- !Z.lxor_assoc, Z.lxor_nilpotent, !Z.lxor_0_l in H. exact H.
  - rewrite (Z.lxor_comm s x), Z.lxor_assoc, <- (Z.lxor_assoc s s y), Z.lxor_nilpotent, Z.lxor_0_l. reflexivity.
Qed.

Lemma calc_crc8_all l : calc_crc8 l (Z.of_nat (length l)) = fold_left crc8_byte l 0xFF.
Proof. unfold calc_crc8. rewrite Nat2Z.id, firstn_all. reflexivity. Qed.

(** The checksum of a frame.  Appending it gives a frame with checksum
    0; a frame changed in one byte has another checksum unless the byte was
    changed by exactly 0xD5, and then always has the same; and the checksum
    is even, so it takes only half of its values. *)
Theorem crc8_detects (pre post : list Z) (x y : Z) :
  Forall byte (pre ++ [x; y] ++ post) ->
  let crc l := calc_crc8 l (Z.of_nat (length l)) in
  (crc (pre ++ x :: post) = crc (pre ++ y :: post) <-> x = y \/ Z.lxor x y = 0xD5) /\
  crc ((pre ++ [x]) ++ [crc (pre ++ [x])]) = 0 /\
  Z.even (crc (pre ++ [x])) = true.
Proof.
  intros Hl crc. subst crc. cbv beta. rewrite !calc_crc8_all, !fold_left_snoc, !fold_left_app, !fold_left_cons.
  apply Forall_app in Hl. destruct Hl as [Hpre Hl]. inversion_clear Hl as [| ? ? Hx Hl'].
  inversion_clear Hl' as [| ? ? Hy Hpost].
  pose proof (fold_crc8_range pre 0xFF ltac:(unfold byte; lia)) as Hs.
  revert Hs. generalize (fold_left crc8_byte pre 0xFF). intros s Hs.
  split; [| split; [apply crc8_byte_same | apply crc8_byte_even]].
  rewrite <- (crc8_byte_diff s x y Hs Hx Hy). apply fold_crc8_iff, Hpost.
Qed.

Lemma crc8_detects_witness :
  let crc l := calc_crc8 l (Z.of_nat (length l)) in
  (crc [1; 3; 0; 0xFC; 3] = crc [1; 3; 0; 0x29; 3] <-> 0xFC = 0x29 \/ Z.lxor 0xFC 0x29 = 0xD5) /\
  crc [1; 3; 0; 0xFC; crc [1; 3; 0; 0xFC]] = 0.
Proof.
  intros crc. destruct (crc8_detects [1; 3; 0] [3] 0xFC 0x29) as (H1 & H2 & _).
  - repeat (constructor; [unfold byte; lia |]). constructor.
  - split; [exact H1 | exact H2].
Defined.

(** ** The driver over any bus *)

Section Bus.
Context {B : Type}.
Variable i2c_master_send : list Z -> B -> Z * B.
Variable i2c_master_recv : list Z -> B -> Z * list Z * B.
Variable stack : Z -> Z.
Abbreviation W := (r2ec B).
Abbreviation stm32_read := (stm32_read i2c_master_recv).
Abbreviation stm32_write := (stm32_write i2c_master_send stack).
Abbreviation stm32_prepare := (stm32_prepare i2c_master_send i2c_master_recv stack).
Abbreviation prepare_retry := (prepare_retry i2c_master_send i2c_master_recv stack).

(** What the bus answers when it is asked for the [n]-th time in a row,
    counting from 0. *)
Fixpoint nth_answer (n : nat) (data : list Z) (b : B) : Z * list Z * B :=
  let '(r, data', b') := i2c_master_recv data b in
  match n with O => (r, data', b') | S n' => nth_answer n' data' b' end.

Definition code (a : Z * list Z * B) : Z := fst (fst a).

Lemma recv_retry_answer n data (w : W) :
  exists k, (k <= n)%nat /\
    (forall j, (j < k)%nat -> code (nth_answer j data (bus w)) = - ETIMEDOUT) /\
    (k = n \/ code (nth_answer k data (bus w)) <> - ETIMEDOUT) /\
    recv_retry i2c_master_recv n data w =
      (let '(r, data', b) := nth_answer k data (bus w) in
       if r <? 0 then (Err r, set_bus b w) else (Ok data', set_bus b w)).
Proof.
  revert data w. induction n as [| n IH]; intros data w.
  - exists O. split; [lia |]. split; [lia |]. split; [auto |].
    cbn [recv_retry nth_answer]. unfold bind, i2c_recv. destruct (i2c_master_recv data (bus w)) as [[r d] b].
    destruct (r <? 0); reflexivity.
  - cbn [recv_retry]. unfold bind at 1, i2c_recv. destruct (i2c_master_recv data (bus w)) as [[r d] b] eqn:Hr.
    destruct (Z.eq_dec r (- ETIMEDOUT)) as [-> | Hne].
    + destruct (IH d (set_bus b w)) as (k & Hk & Hlt & Hend & Heq). exists (S k). split; [lia |]. split.
      * intros [| j] Hj; cbn [nth_answer]; rewrite Hr; [reflexivity | apply Hlt; lia].
      * cbn [nth_answer]. rewrite Hr. split; [destruct Hend; [left; lia | auto] |].
        change (- ETIMEDOUT <? 0) with true. rewrite Z.eqb_refl. cbv iota. rewrite Heq. reflexivity.
    + exists O. split; [lia |]. split; [lia |]. cbn [nth_answer]. rewrite Hr. split; [auto |].
      destruct (r <? 0); [| reflexivity]. destruct (Z.eqb_spec r (- ETIMEDOUT)); [contradiction | reflexivity].
Qed.

(** C34: a read from the device asks the bus at most eleven times, as long as
    it times out, and takes the first other answer or the last one.  A whole
    response it returns has the checksum in its last byte, or came in with 0
    there and is returned without its first byte. *)
Theorem stm32_read_answer (data : list Z) (w : W) :
  (exists k, (k <= 10)%nat /\
    (forall j, (j < k)%nat -> code (nth_answer j data (bus w)) = - ETIMEDOUT) /\
    (k = 10%nat \/ code (nth_answer k data (bus w)) <> - ETIMEDOUT) /\
    stm32_read true data w =
      (let '(r, data', b) := nth_answer k data (bus w) in
       if r <? 0 then (Err r, set_bus b w) else accept_response data' (set_bus b w))) /\
  (forall d d' (v v' : W), length d = 11%nat -> accept_response d v = (Ok d', v') ->
    v' = v /\ geti 0 d 3 <> 0xFF /\
    (d' = d /\ geti 0 d 10 = calc_crc8 d 10 \/ geti 0 d 10 = 0 /\ d' = tail d ++ [0])).
Proof.
  split.
  - destruct (recv_retry_answer 10 data w) as (k & Hk & Hlt & Hend & Heq). exists k. split; [exact Hk |].
    split; [exact Hlt |]. split; [exact Hend |]. unfold R2ec.stm32_read, bind. cbn [negb]. rewrite Heq.
    destruct (nth_answer k data (bus w)) as [[r d] b]. destruct (r <? 0); reflexivity.
  - intros d d' v v' Hlen. unfold accept_response, sizeof_response. rewrite Hlen.
    change (Z.of_nat 11) with 11. change (11 =? 1) with false. change (11 =? 11 - 1) with false. cbv iota zeta.
    change (11 - 1) with 10.
    destruct (Z.eqb_spec (geti 0 d 3) 0xFF) as [| Hff]; [discriminate |].
    destruct (Z.eqb_spec (calc_crc8 d 10) (geti 0 d 10)) as [E | E]; cbn [negb].
    + intros H. injection H as <- <-. auto.
    + unfold cbool. rewrite negb_involutive. destruct (Z.eqb_spec (geti 0 d 10) 0) as [E0 | E0]; [| discriminate].
      intros H. injection H as <- <-. repeat split; [exact Hff |]. right. split; [exact E0 |]. clear E Hff.
      do 11 (destruct d as [| ? d]; [discriminate Hlen |]). destruct d; [| discriminate Hlen].
      vm_compute in E0. rewrite E0. reflexivity.
Qed.

(** ** Start-up and probe *)

(** [w'] is [w] with another state of the bus. *)
Definition bus_only (w w' : W) : Prop := exists b, w' = set_bus b w.

Lemma bus_only_set b w w' : bus_only (set_bus b w) w' -> bus_only w w'.
Proof. intros [b' ->]. exists b'. reflexivity. Qed.

Lemma write_bus_only c ver cmd d (w : W) :
  wp (stm32_write c ver cmd d) (fun _ => bus_only w) (fun _ => bus_only w) w.
Proof.
  unfold wp, R2ec.stm32_write, bind, i2c_send. destruct c; [| exists (bus w); destruct w; reflexivity]. cbn [negb].
  destruct (_ <? _); [exists (bus w); destruct w; reflexivity |].
  destruct (i2c_master_send _ _) as [r b]. destruct (r <? 0); exists b; reflexivity.
Qed.

Lemma read_bus_only c d (w : W) : wp (stm32_read c d) (fun _ => bus_only w) (fun _ => bus_only w) w.
Proof.
  destruct c; [| exists (bus w); destruct w; reflexivity].
  destruct (recv_retry_answer 10 d w) as (k & _ & _ & _ & Heq).
  unfold R2ec.stm32_read. cbn [negb]. apply wp_bind. unfold wp at 1. rewrite Heq.
  destruct (nth_answer k d (bus w)) as [[r d'] b]. destruct (r <? 0); [exists b; reflexivity |].
  assert (H : bus_only w (set_bus b w)) by (exists b; reflexivity).
  unfold accept_response. repeat (cbv zeta; wp_step); exact H.
Qed.

(** What a start-up leaves alone. *)
Definition same_setup (w w' : W) : Prop :=
  client w' = client w /\ registered w' = registered w /\ i2c_lock w' = i2c_lock w.

Definition proto_known (w : W) : Prop := g_proto w = PROTO_VERSION_1 \/ g_proto w = PROTO_VERSION_2.

(** A transfer keeps what does not depend on the bus. *)
Lemma call_keeps {A} (P E : W -> Prop) (m : M W A) (Q : A -> W -> Prop) w :
  P w -> wp m (fun _ => bus_only w) (fun _ => bus_only w) w ->
  (forall b v, P v -> P (set_bus b v)) -> (forall v, P v -> E v) -> (forall a v, P v -> Q a v) ->
  wp m Q (fun _ => E) w.
Proof.
  intros Hw Hm HP HE HQ. eapply wp_mono; [exact Hm | |]; [intros a w' [b ->]; auto | intros e w' [b ->]; auto].
Qed.

(** The states of a start-up: before the protocol is known, after that, and
    after the state of the device has been read. *)
Definition started (w0 : W) (w : W) : Prop := same_setup w0 w /\ proto_known w.
Definition booting (w0 : W) (w : W) : Prop := started w0 w /\ ic_ready w = 0.

Ltac transfer P :=
  wp_step; apply (call_keeps P);
  [assumption | first [apply write_bus_only | apply read_bus_only] | intros ? ? ?; assumption
  | unfold booting, started; intuition | ].

Lemma prepare_from w w1 : same_setup w w1 ->
  wp stm32_prepare (fun _ w' => started w w' /\ (ic_ready w' = 0 \/ ic_ready w' = 1)) (fun _ => same_setup w) w1.
Proof.
  intros H1. unfold R2ec.stm32_prepare.
  transfer (same_setup w). intros _ w2 H2. transfer (same_setup w). intros rsp w3 H3. cbv zeta.
  wp_step. apply wp_modify. wp_step. apply wp_get_state.
  match goal with |- context [set_g_proto ?p w3] => set (proto := p); set (w4 := set_g_proto proto w3) end.
  assert (H4 : started w w4).
  { split; [exact H3 |]. unfold proto_known, w4, proto. cbn [g_proto set_g_proto].
    destruct (Z.eqb_spec (geti 0 rsp 4) PROTO_VERSION_1); [left; assumption |].
    destruct (Z.eqb_spec (geti 0 rsp 4) PROTO_VERSION_2); [right; assumption | left; reflexivity]. }
  clearbody w4. transfer (started w). intros _ w5 H5. transfer (started w). intros recv w6 H6.
  wp_step. apply wp_modify. wp_step; [apply wp_modify; split; [exact H6 | right; reflexivity] |].
  assert (H7 : booting w (set_ic_ready 0 w6)) by (split; [exact H6 | reflexivity]).
  transfer (booting w). intros _ w7 H8. transfer (booting w). intros recv' w8 H9.
  wp_step; [wp_step; apply H9 | wp_step; split; [apply H9 | left; apply H9]].
Qed.

Lemma prepare_spec w :
  wp stm32_prepare (fun _ w' => started w w' /\ (ic_ready w' = 0 \/ ic_ready w' = 1)) (fun _ => same_setup w) w.
Proof. apply prepare_from. repeat split. Qed.

(** [n] attempts that fail, the last with [e]. *)
Inductive fails : nat -> W -> W -> Prop :=
| fails_none w : fails 0 w w
| fails_more n e w w1 w2 : stm32_prepare w = (Err e, w1) -> fails n w1 w2 -> fails (S n) w w2.

Lemma prepare_retry_run n st w r w' :
  prepare_retry n st w = (r, w') ->
  (exists k w1, (k < n)%nat /\ fails k w w1 /\ stm32_prepare w1 = (Ok tt, w') /\ r = Ok (Ok tt)) \/
  (fails n w w' /\ (n = O /\ r = Ok st \/ exists e, r = Ok (Err e))).
Proof.
  revert st w. induction n as [| n IH]; intros st w H.
  - cbn in H. injection H as <- <-. right. split; [constructor | auto].
  - cbn [R2ec.prepare_retry] in H. unfold bind, catch in H. destruct (stm32_prepare w) as [[[] | e] w1] eqn:Hp.
    + injection H as <- <-. left. exists O, w. split; [lia |]. split; [constructor |]. auto.
    + apply IH in H. destruct H as [(k & w2 & Hk & Hf & Hok & ->) | [Hf Hr]].
      * left. exists (S k), w2. split; [lia |]. split; [econstructor; eassumption | auto].
      * right. split; [econstructor; eassumption |]. right. destruct Hr as [[_ ->] | Hr]; eauto.
Qed.

Lemma fails_setup n w w' : fails n w w' -> same_setup w w'.
Proof.
  induction 1 as [| n e w w1 w2 Hp Hf IH]; [repeat split |].
  pose proof (prepare_spec w) as H. unfold wp in H. rewrite Hp in H.
  destruct IH as (? & ? & ?), H as (? & ? & ?). repeat split; congruence.
Qed.

(** How a probe ends.  It makes at most ten attempts to start the
    device.  After the first that succeeds the protocol is version 1 or 2 and
    the client is set, and the GPIO chip is there for the others exactly when
    there is an interrupt and registering succeeds; if all ten fail it
    reports an error and leaves nothing behind. *)
Theorem r2ec_probe_attempts (irq add req : Z) (w : W) (r : res unit) (w' : W) :
  registered w = false ->
  r2ec_probe i2c_master_send i2c_master_recv stack true irq add req w = (r, w') ->
  let w0 := set_i2c_lock false (set_client false (set_ic_ready 0 w)) in
  i2c_lock w' = false /\
  ((exists k w1 w2, (k < 10)%nat /\ fails k w0 w1 /\ stm32_prepare w1 = (Ok tt, w2) /\
      client w' = true /\ proto_known w' /\ bus w' = bus w2 /\
      (registered w' = true <-> irq <> 0 /\ add = 0) /\
      r = (if cbool irq && cbool add then Err add else if cbool irq && cbool req then Err req else Ok tt)) \/
   (fails 10 w0 w' /\ client w' = false /\ registered w' = false /\ exists e, r = Err e)).
Proof.
  intros Hreg H w0. unfold r2ec_probe in H. cbn [negb] in H. unfold bind at 1, modify at 1 in H.
  change (set_i2c_lock false (set_client false (set_ic_ready 0 w))) with w0 in H.
  unfold bind at 1 in H. destruct (prepare_retry 10 (Ok tt) w0) as [r1 w2] eqn:Hp.
  apply prepare_retry_run in Hp. destruct Hp as [(k & w1 & Hk & Hf & Hok & ->) | (Hf & [[Hn _] | [e ->]])].
  - pose proof (fails_setup _ _ _ Hf) as (Hc & Hr & Hl). pose proof (prepare_spec w1) as Hs. unfold wp in Hs.
    rewrite Hok in Hs. destruct Hs as (((Hc2 & Hr2 & Hl2) & Hk2) & _).
    change (registered w0) with (registered w) in Hr. change (i2c_lock w0) with false in Hl.
    unfold bind, modify, throw, ret in H. unfold cbool in *.
    assert (Hreg2 : registered w2 = false) by congruence.
    destruct (Z.eqb_spec irq 0) as [Hi | Hi]; [| destruct (Z.eqb_spec add 0) as [Ha | Ha];
      [destruct (Z.eqb_spec req 0) as [Hq | Hq] |]]; cbn [negb] in H; injection H as <- <-;
      (split; [cbn; congruence | left; exists k, w1, w2; repeat (split; [first [assumption | reflexivity] |])];
       split; [cbn; split; [intros; try congruence; auto | try (intros []; congruence); auto] | reflexivity]).
  - discriminate.
  - pose proof (fails_setup _ _ _ Hf) as (Hc & Hr & Hl). injection H as <- <-.
    split; [rewrite Hl; reflexivity |]. right. split; [exact Hf |]. split; [rewrite Hc; reflexivity |].
    split; [rewrite Hr; exact Hreg | exists e; reflexivity].
Qed.

(** ** The version files *)

(** The frame of a request with one byte of data. *)
Definition frame (ver cmd x : Z) : list Z :=
  let body := [u8 ver; 3; 0; u8 cmd; x] in body ++ [calc_crc8 body 5].

(** Nothing the stack held is sent. *)
Lemma write_frame ver cmd x (w : W) :
  stm32_write true ver cmd [x] w =
    (let (r, b) := i2c_master_send (frame ver cmd x) (bus w) in
     if r <? 0 then (Err r, set_bus b w) else (Ok tt, set_bus b w)).
Proof.
  transitivity (bind (i2c_send i2c_master_send (frame ver cmd x))
    (fun err => if err <? 0 then throw err else ret tt) w); [reflexivity |].
  unfold bind, i2c_send. destruct (i2c_master_send _ _) as [r b]. destruct (r <? 0); reflexivity.
Qed.

Lemma two_digits_ok n : byte n ->
  all_digits (two_digits n) = true /\ two_digits n <> EmptyString /\ undecimal 0 (two_digits n) = n.
Proof.
  intros Hn. assert (H : all_digits (two_digits n) && negb (two_digits n =? "")%string &&
    (undecimal 0 (two_digits n) =? n) = true).
  { revert n Hn. apply (forallb_upto 256 (fun n => all_digits (two_digits n) && negb (two_digits n =? "")%string &&
      (undecimal 0 (two_digits n) =? n))). vm_compute. reflexivity. }
  apply andb_prop in H. destruct H as [H H3]. apply andb_prop in H. destruct H as [H1 H2].
  apply Z.eqb_eq in H3. split; [exact H1 |]. split; [| exact H3]. intros E. rewrite E in H2. discriminate.
Qed.

Lemma numbers_two_digits n c s : byte n -> is_digit c = false ->
  numbers None (two_digits n +:+ String c s) = n :: numbers None s.
Proof.
  intros Hn Hc. destruct (two_digits_ok n Hn) as (H1 & H2 & H3). rewrite numbers_field by assumption.
  rewrite H3. reflexivity.
Qed.

Lemma version_text_numbers recv : (forall i, byte (geti 0 recv i)) ->
  numbers None (version_text recv) = [geti 0 recv 4; geti 0 recv 5; geti 0 recv 6; geti 0 recv 7].
Proof.
  intros Hb. pose (dot := Ascii.ascii_of_nat 46). pose (space := Ascii.ascii_of_nat 32).
  transitivity (numbers None (two_digits (geti 0 recv 4) +:+ String dot (two_digits (geti 0 recv 5) +:+
    String dot (two_digits (geti 0 recv 6) +:+ String space ("rev. " +:+ (two_digits (geti 0 recv 7) +:+
    String (Ascii.ascii_of_nat 10) EmptyString)))))); [reflexivity |].
  rewrite !numbers_two_digits by (auto || reflexivity). do 3 f_equal.
  change (numbers None (two_digits (geti 0 recv 7) +:+ String (Ascii.ascii_of_nat 10) EmptyString) = [geti 0 recv 7]).
  rewrite numbers_two_digits by (auto || reflexivity). reflexivity.
Qed.

(** The data byte of a version request. *)
Definition version_of (type : Z) : Z := if type =? CMD_FW then FW_VERSION else BOOT_VERSION.

Lemma catch_ok {A} (m : M W A) w : exists r w', catch m w = (Ok r, w').
Proof. unfold catch. destruct (m w) as [r w']. eauto. Qed.

(** No path through it ends in an error. *)
Lemma read_version_ok type w e w' : read_version i2c_master_send i2c_master_recv stack type w <> (Err e, w').
Proof.
  unfold read_version, bind at 1, get_state. intros H.
  unfold bind at 1 in H. destruct (catch_ok (stm32_write (client w) (g_proto w) type
    [if type =? CMD_FW then FW_VERSION else BOOT_VERSION]) w) as ([[] | e1] & w1 & E1); rewrite E1 in H; [| discriminate].
  unfold bind at 1 in H. destruct (catch_ok (stm32_read (client w)
    [if type =? CMD_FW then FW_VERSION else BOOT_VERSION]) w1) as ([d | e2] & w2 & E2); rewrite E2 in H; [| discriminate].
  destruct (_ && _); [discriminate |].
  unfold bind at 1 in H. destruct (catch_ok (stm32_read (client w) (tabulate (sizeof_response - 1) stack)) w2)
    as ([rest | e3] & w3 & E3); rewrite E3 in H; [| discriminate].
  unfold bind in H. destruct (cbool _); discriminate.
Qed.

Lemma geti_byte l i : Forall byte l -> byte (geti 0 l i).
Proof.
  intros Hl. unfold geti. rewrite nth_lookup. destruct (l !! Z.to_nat i) eqn:E; [| unfold byte; cbn; lia].
  cbn. apply (Forall_lookup_1 _ _ _ _ Hl E).
Qed.

(** A read the bus answers at once. *)
Lemma read_once data r d b (w : W) :
  i2c_master_recv data (bus w) = (r, d, b) -> 0 <= r -> (length d = 1%nat \/ length d = 10%nat) ->
  stm32_read true data w = (Ok d, set_bus b w).
Proof.
  intros H Hr Hd. unfold R2ec.stm32_read. cbn [negb recv_retry]. unfold bind, i2c_recv. rewrite H.
  destruct (Z.ltb_spec r 0); [lia |]. unfold ret, accept_response, sizeof_response.
  destruct Hd as [-> | ->]; reflexivity.
Qed.

Lemma read_version_answer type w r0 r1 r2 v rest b1 b2 b3 :
  client w = true ->
  i2c_master_send (frame (g_proto w) type (version_of type)) (bus w) = (r0, b1) -> 0 <= r0 ->
  i2c_master_recv [version_of type] b1 = (r1, [v], b2) -> 0 <= r1 ->
  v = PROTO_VERSION_1 \/ v = PROTO_VERSION_2 ->
  i2c_master_recv (tabulate 10 stack) b2 = (r2, rest, b3) -> 0 <= r2 -> length rest = 10%nat ->
  exists w1, read_version i2c_master_send i2c_master_recv stack type w =
    (Ok (Some (version_text (v :: rest))), w1) /\ cbool (ic_ready w1) = true.
Proof.
  intros Hc Hs Hr0 H1 Hr1 Hv H2 Hr2 Hlen. unfold read_version, bind at 1, get_state. rewrite Hc.
  change (if type =? CMD_FW then FW_VERSION else BOOT_VERSION) with (version_of type).
  unfold bind at 1, catch at 1. rewrite write_frame, Hs. destruct (Z.ltb_spec r0 0); [lia |].
  unfold bind at 1, catch at 1. rewrite (read_once _ r1 [v] b2) by auto.
  replace (negb (geti 0 [v] 0 =? PROTO_VERSION_1) && negb (geti 0 [v] 0 =? PROTO_VERSION_2)) with false
    by (destruct Hv as [-> | ->]; reflexivity).
  unfold bind at 1, catch at 1. change (sizeof_response - 1) with 10. rewrite (read_once _ r2 rest b3) by auto.
  unfold bind. destruct (cbool (ic_ready w)) eqn:Hready; eexists; (split; [reflexivity |]); [exact Hready | reflexivity].
Qed.

(** The version files.  Reading one gives back the lock, whatever the
    bus does, and never reports an error of the transfer, but an empty text
    instead.  When the device answers the request with one of the two
    protocol versions and ten more bytes, the numbers in the text are the
    fourth to the seventh of those, and the device counts as ready. *)
Theorem version_show_spec (type : Z) (w : W) :
  registered w = true -> client w = true ->
  let show := get_stm32_version i2c_master_send i2c_master_recv stack type w in
  (exists text w', show = (Ok (Z.of_nat (String.length text), text), w') /\ i2c_lock w' = false) /\
  (forall r0 r1 r2 buf1 buf2 v rest b1 b2 b3,
    i2c_master_send (frame (g_proto w) type (version_of type)) (bus w) = (r0, b1) -> 0 <= r0 ->
    buf1 = [version_of type] -> i2c_master_recv buf1 b1 = (r1, [v], b2) -> 0 <= r1 ->
    v = PROTO_VERSION_1 \/ v = PROTO_VERSION_2 ->
    buf2 = tabulate 10 stack -> i2c_master_recv buf2 b2 = (r2, rest, b3) -> 0 <= r2 ->
    length rest = 10%nat -> Forall byte rest ->
    exists text w', show = (Ok (Z.of_nat (String.length text), text), w') /\ cbool (ic_ready w') = true /\
      numbers None text = [geti 0 rest 3; geti 0 rest 4; geti 0 rest 5; geti 0 rest 6]).
Proof.
  intros Hreg Hc show.
  assert (Hshow : show = bind (read_version i2c_master_send i2c_master_recv stack type) (fun text =>
    modify (set_i2c_lock false) ;;
    let buffer := match text with Some t => t | None => EmptyString end in
    ret (Z.of_nat (String.length buffer), buffer)) (set_i2c_lock true w)).
  { subst show. unfold get_stm32_version, bind at 1, get_state. rewrite Hreg, Hc. reflexivity. }
  rewrite Hshow. clear Hshow show. split.
  - unfold bind at 1. destruct (read_version _ _ _ _ _) as [[[text |] | e] w1] eqn:Hrun.
    + exists text. eexists. split; reflexivity.
    + exists EmptyString. eexists. split; reflexivity.
    + exfalso. revert Hrun. apply read_version_ok.
  - intros r0 r1 r2 buf1 buf2 v rest b1 b2 b3 Hs Hr0 -> H1 Hr1 Hv -> H2 Hr2 Hlen Hb.
    assert (Hrun : exists w1, read_version i2c_master_send i2c_master_recv stack type (set_i2c_lock true w) =
      (Ok (Some (version_text (v :: rest))), w1) /\ cbool (ic_ready w1) = true).
    { apply (read_version_answer type (set_i2c_lock true w) r0 r1 r2 v rest b1 b2 b3); assumption. }
    destruct Hrun as (w1 & Hrun & Hready). rewrite (bind_ok _ _ _ _ _ Hrun).
    exists (version_text (v :: rest)). eexists. split; [reflexivity |]. split; [exact Hready |].
    apply version_text_numbers. intros i. apply geti_byte. constructor; [| exact Hb].
    destruct Hv as [-> | ->]; unfold byte, PROTO_VERSION_1, PROTO_VERSION_2; lia.
Qed.
End Bus.

(** ** A device

    A bus that takes every message and answers from a list, and times out
    once the list is empty. *)

Definition demo_send (msg : list Z) (b : list (list Z)) : Z * list (list Z) := (Z.of_nat (length msg), b).
Definition demo_recv (buf : list Z) (b : list (list Z)) : Z * list Z * list (list Z) :=
  match b with
  | [] => (- ETIMEDOUT, buf, [])
  | d :: b' => (Z.of_nat (length d), d, b')
  end.
Definition demo_response : list Z :=
  let body := [1; 9; CMD_PROTO; 0; PROTO_VERSION_2; 0; 0; 0; 0; 0] in body ++ [calc_crc8 body 10].
Definition demo_state (b : list (list Z)) : r2ec (list (list Z)) := R2ec 0 0 false false false b.

(** The last byte lost: the response is shifted. *)
Lemma stm32_read_answer_witness :
  let d := [0x55; 1; 9; CMD_PROTO; 0; 2; 0; 0; 0; 0; 0] in
  snd (accept_response (B := list (list Z)) d (demo_state [])) = demo_state [] /\
  match fst (accept_response (B := list (list Z)) d (demo_state [])) with
  | Ok d' => d' = d /\ geti 0 d 10 = calc_crc8 d 10 \/ geti 0 d 10 = 0 /\ d' = tail d ++ [0]
  | Err _ => False
  end.
Proof.
  intros d. pose proof (proj2 (stm32_read_answer demo_recv [] (demo_state []))) as H.
  specialize (H d ([1; 9; CMD_PROTO; 0; 2; 0; 0; 0; 0; 0; 0]) (demo_state []) (demo_state []) eq_refl
    ltac:(vm_compute; reflexivity)).
  split; [vm_compute; reflexivity |]. exact (proj2 (proj2 H)).
Defined.

Lemma r2ec_probe_attempts_witness :
  exists w', r2ec_probe demo_send demo_recv (fun _ => 0) true 5 0 0 (demo_state [demo_response; [APP_STARTED]]) =
    (Ok tt, w') /\ i2c_lock w' = false.
Proof.
  eexists. split; [vm_compute; reflexivity |].
  refine (proj1 (r2ec_probe_attempts demo_send demo_recv (fun _ => 0) 5 0 0
    (demo_state [demo_response; [APP_STARTED]]) _ _ eq_refl _)); vm_compute; reflexivity.
Defined.

Lemma version_show_spec_witness :
  exists text w', app_version_show demo_send demo_recv (fun _ => 0)
      (R2ec 2 0 true false true [[2]; [9; CMD_FW; 0; 1; 22; 3; 0; 0; 0; 0]]) =
    (Ok (Z.of_nat (String.length text), text), w') /\ cbool (ic_ready w') = true /\
    numbers None text = [1; 22; 3; 0].
Proof.
  refine (proj2 (version_show_spec demo_send demo_recv (fun _ => 0) CMD_FW
    (R2ec 2 0 true false true [[2]; [9; CMD_FW; 0; 1; 22; 3; 0; 0; 0; 0]]) eq_refl eq_refl)
    6 1 10 _ _ 2 _ _ _ _ eq_refl _ eq_refl eq_refl _ _ eq_refl eq_refl _ eq_refl _);
    try lia; [right; reflexivity |].
  repeat (constructor; [unfold byte, CMD_FW; lia |]). constructor.
Defined.

(** Setting a GPIO sends a byte the driver never set. *)
Lemma gpio_frame_junk (pin val j : Z) : geti 0 (gpio_frame (fun _ => j) pin val) 6 = j.
Proof. reflexivity. Qed.
