(* ===== verification/Leds.v ===== *)
(** * LED triggers of switch ports: [swconfig_leds.c]

    A switch has a trigger LEDs attach to.  Every LED selects ports, speeds
    and what it shows (link, transmitted, received bytes); while some LED
    selects a port a work polls link and counters of the selected ports and
    sets the LEDs.  The LED core, the work queue and the number parsers of the
    kernel are parameters; locks protect single fields and are left out. *)

From S2P Require Import Prelude Text CMonad SmiCore.

Definition SWCONFIG_LED_NUM_PORTS : Z := 32.

Definition SWCONFIG_LED_PORT_SPEED_NA : Z := 0x01.
Definition SWCONFIG_LED_PORT_SPEED_10 : Z := 0x02.
Definition SWCONFIG_LED_PORT_SPEED_100 : Z := 0x04.
Definition SWCONFIG_LED_PORT_SPEED_1000 : Z := 0x08.
Definition SWCONFIG_LED_PORT_SPEED_ALL : Z :=
  Z.lor (Z.lor (Z.lor SWCONFIG_LED_PORT_SPEED_NA SWCONFIG_LED_PORT_SPEED_10) SWCONFIG_LED_PORT_SPEED_100)
    SWCONFIG_LED_PORT_SPEED_1000.

Definition SWCONFIG_LED_MODE_LINK : Z := 0x01.
Definition SWCONFIG_LED_MODE_TX : Z := 0x02.
Definition SWCONFIG_LED_MODE_RX : Z := 0x04.
Definition SWCONFIG_LED_MODE_ALL : Z :=
  Z.lor (Z.lor SWCONFIG_LED_MODE_LINK SWCONFIG_LED_MODE_TX) SWCONFIG_LED_MODE_RX.

(** [enum led_brightness], as far as it is used. *)
Definition LED_OFF : Z := 0.
Definition LED_FULL : Z := 255.

Record swconfig_trig_data := TrigData {
  td_port_mask : Z;
  prev_link : bool;
  prev_traffic : Z;
  prev_brightness : Z;
  td_mode : Z;
  td_speed_mask : Z
}.

(** What is used of [struct led_classdev]; [brightness]: what the LED was last
    set to, by whomever. *)
Record led_classdev := Led { brightness : Z; trigger_data : option swconfig_trig_data }.

(** The trigger of a switch; [sw_led_work]: the work is queued;
    [led_cdevs]: the LEDs attached, by the LED core. *)
Record switch_led_trigger := SwTrig {
  port_mask : Z;
  sw_port_link : Z;
  port_tx_traffic : list Z;
  port_rx_traffic : list Z;
  sw_link_speed : list Z;
  sw_led_work : bool;
  led_cdevs : list led_classdev
}.

Definition with_leds (l : list led_classdev) (s : switch_led_trigger) : switch_led_trigger :=
  SwTrig (port_mask s) (sw_port_link s) (port_tx_traffic s) (port_rx_traffic s) (sw_link_speed s) (sw_led_work s) l.

Definition with_port_mask (x : Z) (td : swconfig_trig_data) : swconfig_trig_data :=
  TrigData x (prev_link td) (prev_traffic td) (prev_brightness td) (td_mode td) (td_speed_mask td).
Definition with_mode (x : Z) (td : swconfig_trig_data) : swconfig_trig_data :=
  TrigData (td_port_mask td) (prev_link td) (prev_traffic td) (prev_brightness td) x (td_speed_mask td).
Definition with_speed_mask (x : Z) (td : swconfig_trig_data) : swconfig_trig_data :=
  TrigData (td_port_mask td) (prev_link td) (prev_traffic td) (prev_brightness td) (td_mode td) x.

Section Leds.
(** The width of [unsigned long]. *)
Variable long_bits : Z.
Variable kstrtoul : string -> res Z.
Variable kstrtou8 : string -> res Z.
(** [enum switch_port_speed]. *)
Variables SWITCH_PORT_SPEED_UNKNOWN SWITCH_PORT_SPEED_10 SWITCH_PORT_SPEED_100 SWITCH_PORT_SPEED_1000 : Z.

(** The switch at the moment of a poll: what its operations leave in the
    zeroed structures they are handed, where it has them. *)
Record switch_now := SwitchNow {
  get_port_link : option (Z -> option port_link);   (* None: no link *)
  get_port_stats : option (Z -> Z * Z)      (* tx_bytes, rx_bytes *)
}.

(** The LED and the data it keeps. *)
Definition swconfig_trig_set_brightness (b : Z) (td : swconfig_trig_data) : led_classdev :=
  Led b (Some (TrigData (td_port_mask td) (prev_link td) (prev_traffic td) b (td_mode td) (td_speed_mask td))).

Definition swconfig_trig_update_port_mask (s : switch_led_trigger) : switch_led_trigger :=
  let mask := fold_left (fun m l => match trigger_data l with Some td => Z.lor m (td_port_mask td) | None => m end)
                (led_cdevs s) 0 in
  SwTrig mask (sw_port_link s) (port_tx_traffic s) (port_rx_traffic s) (sw_link_speed s) (cbool mask) (led_cdevs s).

(** The files of the [i]-th LED.  An error leaves everything as it was. *)
Definition swconfig_trig_port_mask_store (i : nat) (buf : string) (s : switch_led_trigger) :
    res unit * switch_led_trigger :=
  match kstrtoul buf with
  | Err e => (Err e, s)
  | Ok new =>
      match led_cdevs s !! i with
      | Some (Led b (Some td)) =>
          let changed := negb (td_port_mask td =? new) in
          let td := with_port_mask (u32 new) td in
          let l := if changed && (new =? 0) then swconfig_trig_set_brightness LED_OFF td else Led b (Some td) in
          let s := with_leds (<[i := l]> (led_cdevs s)) s in
          (Ok tt, if changed then swconfig_trig_update_port_mask s else s)
      | _ => (Ok tt, s)
      end
  end.

(** [%#x], then a newline; what the file handler returns counts the
    terminating NUL. *)
Definition hex_line (n : Z) : string :=
  (if cbool n then "0x" +:+ hex_digits 16 n else "0") +:+ newline.

Definition swconfig_trig_port_mask_show (td : swconfig_trig_data) : Z * string :=
  let buf := hex_line (td_port_mask td) in (Z.of_nat (String.length buf) + 1, buf).
Definition swconfig_trig_speed_mask_show (td : swconfig_trig_data) : Z * string :=
  let buf := hex_line (td_speed_mask td) in (Z.of_nat (String.length buf) + 1, buf).

Definition update_td (i : nat) (f : swconfig_trig_data -> swconfig_trig_data) (s : switch_led_trigger) :
    switch_led_trigger :=
  match led_cdevs s !! i with
  | Some (Led b (Some td)) => with_leds (<[i := Led b (Some (f td))]> (led_cdevs s)) s
  | _ => s
  end.

Definition swconfig_trig_speed_mask_store (i : nat) (buf : string) (s : switch_led_trigger) :
    res unit * switch_led_trigger :=
  match kstrtou8 buf with
  | Err e => (Err e, s)
  | Ok new => (Ok tt, update_td i (with_speed_mask (Z.land new SWCONFIG_LED_PORT_SPEED_ALL)) s)
  end.

Definition swconfig_trig_mode_show (td : swconfig_trig_data) : Z * string :=
  let mode := td_mode td in
  let buf :=
    if mode =? 0 then "none" +:+ newline else
    (if cbool (Z.land mode SWCONFIG_LED_MODE_LINK) then "link " else "") +:+
    (if cbool (Z.land mode SWCONFIG_LED_MODE_TX) then "tx " else "") +:+
    (if cbool (Z.land mode SWCONFIG_LED_MODE_RX) then "rx " else "") +:+ newline in
  (Z.of_nat (String.length buf) + 1, buf).

(** The tokens [strsep] takes off a string, empty ones included; [cur] is the
    one being read. *)
Definition is_delim (c : Ascii.ascii) : bool :=
  Ascii.eqb c (Ascii.ascii_of_nat 32) || Ascii.eqb c (Ascii.ascii_of_nat 9) || Ascii.eqb c (Ascii.ascii_of_nat 10).
Fixpoint strsep_all (cur s : string) : list string :=
  match s with
  | EmptyString => [cur]
  | String c s' => if is_delim c then cur :: strsep_all EmptyString s' else strsep_all (cur +:+ String c EmptyString) s'
  end.

Fixpoint parse_mode (tokens : list string) (new_mode : Z) : res Z :=
  match tokens with
  | [] => if new_mode <? 0 then Err (- EINVAL) else Ok new_mode
  | token :: rest =>
      if (token =? "")%string then parse_mode rest new_mode else
      let new_mode := if new_mode <? 0 then 0 else new_mode in
      if (token =? "none")%string then parse_mode rest 0
      else if (token =? "tx")%string then parse_mode rest (Z.lor new_mode SWCONFIG_LED_MODE_TX)
      else if (token =? "rx")%string then parse_mode rest (Z.lor new_mode SWCONFIG_LED_MODE_RX)
      else if (token =? "link")%string then parse_mode rest (Z.lor new_mode SWCONFIG_LED_MODE_LINK)
      else Err (- EINVAL)
  end.

(** The buffer is copied up to the 127 characters the copy can hold. *)
Definition swconfig_trig_mode_store (i : nat) (buf : string) (s : switch_led_trigger) :
    res unit * switch_led_trigger :=
  match parse_mode (strsep_all EmptyString (String.substring 0 127 buf)) (-1) with
  | Err e => (Err e, s)
  | Ok new_mode => (Ok tt, update_td i (with_mode (u8 new_mode)) s)
  end.

(** ** Attaching a LED *)

(** [create]: the results of [device_create_file].  The error, the LED after
    the call and the files it then has. *)
Definition swconfig_trig_activate (alloc : bool) (create : string -> Z) (l : led_classdev) :
    Z * led_classdev * list string :=
  if negb alloc then (- ENOMEM, l, []) else
  let td := TrigData 0 false 0 0 SWCONFIG_LED_MODE_ALL SWCONFIG_LED_PORT_SPEED_ALL in
  let failed := fun err : Z => (err, Led (brightness l) None, @nil string) in
  if cbool (create "port_mask") then failed (create "port_mask") else
  if cbool (create "speed_mask") then failed (create "speed_mask") else
  if cbool (create "mode") then failed (create "mode") else
  (0, Led (brightness l) (Some td), ["port_mask"; "speed_mask"; "mode"]).

(** The LED core has taken the LED off the list. *)
Definition swconfig_trig_deactivate (s : switch_led_trigger) : switch_led_trigger := swconfig_trig_update_port_mask s.

(** ** Polling *)

Definition ulong (x : Z) : Z := uwrap long_bits x.

(** The loop over the ports: [traffic] and [speedok]. *)
Definition sum_ports (s : switch_led_trigger) (port_mask speed_mask mode : Z) : Z * bool :=
  fold_left (fun (a : Z * bool) i =>
    if cbool (Z.land port_mask (BIT i)) && cbool (Z.land (geti 0 (sw_link_speed s) i) speed_mask) then
      (ulong (fst a + u64 ((if cbool (Z.land mode SWCONFIG_LED_MODE_TX) then geti 0 (port_tx_traffic s) i else 0) +
                           (if cbool (Z.land mode SWCONFIG_LED_MODE_RX) then geti 0 (port_rx_traffic s) i else 0))), true)
    else a) (upto (Z.to_nat SWCONFIG_LED_NUM_PORTS)) (0, false).

Definition with_prev (link : bool) (traffic : Z) (l : led_classdev) : led_classdev :=
  match trigger_data l with
  | Some td => Led (brightness l)
      (Some (TrigData (td_port_mask td) link traffic (prev_brightness td) (td_mode td) (td_speed_mask td)))
  | None => l
  end.

Definition swconfig_trig_led_event (s : switch_led_trigger) (l : led_classdev) : led_classdev :=
  match trigger_data l with
  | None => l
  | Some td =>
      let link := cbool (Z.land (sw_port_link s) (td_port_mask td)) in
      if negb link then
        with_prev link (prev_traffic td)
          (if negb (prev_brightness td =? LED_OFF) then swconfig_trig_set_brightness LED_OFF td else l)
      else
        let (traffic, speedok) := sum_ports s (td_port_mask td) (td_speed_mask td) (td_mode td) in
        with_prev link traffic
          (if speedok then
             let show_link := cbool (Z.land (td_mode td) SWCONFIG_LED_MODE_LINK) in
             let led_base := if show_link then LED_FULL else LED_OFF in
             let led_blink := if show_link then LED_OFF else LED_FULL in
             if negb (prev_brightness td =? led_base) then swconfig_trig_set_brightness led_base td
             else if negb (traffic =? prev_traffic td) then swconfig_trig_set_brightness led_blink td
             else l
           else if negb (prev_brightness td =? LED_OFF) then swconfig_trig_set_brightness LED_OFF td
           else l)
  end.

Definition swconfig_trig_update_leds (s : switch_led_trigger) : switch_led_trigger :=
  with_leds (map (swconfig_trig_led_event s) (led_cdevs s)) s.

(** The bit a speed has in a speed mask. *)
Definition speed_bit (speed : Z) : Z :=
  if speed =? SWITCH_PORT_SPEED_UNKNOWN then SWCONFIG_LED_PORT_SPEED_NA
  else if speed =? SWITCH_PORT_SPEED_10 then SWCONFIG_LED_PORT_SPEED_10
  else if speed =? SWITCH_PORT_SPEED_100 then SWCONFIG_LED_PORT_SPEED_100
  else if speed =? SWITCH_PORT_SPEED_1000 then SWCONFIG_LED_PORT_SPEED_1000
  else 0.

(** One port in [swconfig_led_work_func], with the links found so far. *)
Definition poll_port (now : switch_now) (st : switch_led_trigger * Z) (i : Z) : switch_led_trigger * Z :=
  let (s, link) := st in
  let set_speed := fun v s => SwTrig (port_mask s) (sw_port_link s) (port_tx_traffic s) (port_rx_traffic s)
    (seti (sw_link_speed s) i v) (sw_led_work s) (led_cdevs s) in
  let s := set_speed 0 s in
  if Z.land (port_mask s) (BIT i) =? 0 then (s, link) else
  let (s, link) :=
    match get_port_link now with
    | Some get =>
        match get i with
        | Some pl => (set_speed (speed_bit (link_speed pl)) s, Z.lor link (BIT i))
        | None => (s, link)
        end
    | None => (s, link)
    end in
  match get_port_stats now with
  | Some get =>
      let (tx, rx) := get i in
      (SwTrig (port_mask s) (sw_port_link s) (seti (port_tx_traffic s) i tx) (seti (port_rx_traffic s) i rx)
         (sw_link_speed s) (sw_led_work s) (led_cdevs s), link)
  | None => (s, link)
  end.

(** The work, taken off the queue to run; it queues itself again. *)
Definition swconfig_led_work_func (now : switch_now) (s : switch_led_trigger) : switch_led_trigger :=
  let (s, link) := fold_left (poll_port now) (upto (Z.to_nat SWCONFIG_LED_NUM_PORTS)) (s, 0) in
  let s := SwTrig (port_mask s) link (port_tx_traffic s) (port_rx_traffic s) (sw_link_speed s) (sw_led_work s)
    (led_cdevs s) in
  let s := swconfig_trig_update_leds s in
  SwTrig (port_mask s) (sw_port_link s) (port_tx_traffic s) (port_rx_traffic s) (sw_link_speed s) true (led_cdevs s).

(** ** The trigger itself *)

(** No trigger for a switch that cannot tell the link; [registered] is the
    result of [led_trigger_register]. *)
Definition swconfig_create_led_trigger (has_get_port_link alloc : bool) (registered : Z) :
    res (option switch_led_trigger) :=
  if negb has_get_port_link then Ok None else
  if negb alloc then Err (- ENOMEM) else
  if cbool registered then Err registered else
  let zeros := repeat 0 (Z.to_nat SWCONFIG_LED_NUM_PORTS) in
  Ok (Some (SwTrig 0 0 zeros zeros zeros false [])).
End Leds.
