(* ===== verification/LedsProps.v ===== *)
(** * Properties of the switch LED trigger

    A transition system of LEDs that are attached, configured, polled,
    detached and lit by others: what holds in all its states, what a poll makes
    of a LED, and the mode file. *)

From S2P Require Import Prelude Text CMonad SmiCore Leds.

(** ** Masks *)

Definition wanted (l : list led_classdev) : Z :=
  fold_left (fun m l => match trigger_data l with Some td => Z.lor m (td_port_mask td) | None => m end) l 0.

Definition selects (l : led_classdev) (i : Z) : bool :=
  match trigger_data l with Some td => Z.testbit (td_port_mask td) i | None => false end.

Lemma testbit_wanted l i : Z.testbit (wanted l) i = existsb (fun x => selects x i) l.
Proof.
  unfold wanted. enough (H : forall m, Z.testbit (fold_left (fun m l => match trigger_data l with
    Some td => Z.lor m (td_port_mask td) | None => m end) l m) i = Z.testbit m i || existsb (fun x => selects x i) l).
  { rewrite H, Z.testbit_0_l. reflexivity. }
  induction l as [| x l IH]; intros m; cbn [fold_left existsb]; [rewrite orb_false_r; reflexivity |].
  rewrite IH. unfold selects at 2. destruct (trigger_data x); [| reflexivity].
  rewrite Z.lor_spec, orb_assoc. reflexivity.
Qed.

Lemma mask_zero_iff m : 0 <= m -> m = 0 <-> forall i, 0 <= i -> Z.testbit m i = false.
Proof.
  intros Hm. split; [intros -> i Hi; apply Z.testbit_0_l |]. intros H. apply Z.bits_inj'. intros i Hi.
  rewrite Z.testbit_0_l. apply H, Hi.
Qed.

(** [x & y] as a truth value: a bit both have. *)
Lemma cbool_land x y n : 0 <= y < 2 ^ n -> 0 <= n ->
  cbool (Z.land x y) = existsb (fun i => Z.testbit x i && Z.testbit y i) (upto (Z.to_nat n)).
Proof.
  intros Hy Hn. apply Bool.eq_true_iff_eq. rewrite existsb_exists. unfold cbool. rewrite negb_true_iff, Z.eqb_neq. split.
  - intros H. destruct (existsb (fun i => Z.testbit x i && Z.testbit y i) (upto (Z.to_nat n))) eqn:E.
    + apply existsb_exists in E. exact E.
    + exfalso. apply H. apply mask_zero_iff; [apply Z.land_nonneg; lia |]. intros i Hi. rewrite Z.land_spec.
      destruct (Z.lt_ge_cases i n) as [Hlt | Hge]; [| rewrite (testbit_high y n) by lia; apply andb_false_r].
      apply not_true_is_false. intros Ht. apply not_true_iff_false in E. apply E, existsb_exists.
      exists i. split; [apply in_upto; lia | exact Ht].
  - intros (i & _ & Hi) H0. rewrite <- Z.land_spec, H0, Z.testbit_0_l in Hi. discriminate.
Qed.

Lemma upto_S n : upto (S n) = upto n ++ [Z.of_nat n].
Proof. unfold upto. rewrite seq_S, map_app. reflexivity. Qed.

(** A fold that skips is a fold over what is left. *)
Lemma fold_filter {A X} (f : A -> X -> A) (p : X -> bool) l a :
  fold_left (fun a x => if p x then f a x else a) l a = fold_left f (List.filter p l) a.
Proof.
  revert a. induction l as [| x l IH]; intros a; [reflexivity |]. cbn [fold_left List.filter].
  destruct (p x); apply IH.
Qed.

(** ** A poll of the ports *)

Section Poll.
Variables SPEED_UNKNOWN SPEED_10 SPEED_100 SPEED_1000 : Z.
Abbreviation speed_bit := (speed_bit SPEED_UNKNOWN SPEED_10 SPEED_100 SPEED_1000).
Abbreviation poll_port := (poll_port SPEED_UNKNOWN SPEED_10 SPEED_100 SPEED_1000).
Implicit Types (s : switch_led_trigger) (now : switch_now).

(** The link of a port as a poll sees it. *)
Definition link_now now (i : Z) : option port_link :=
  match get_port_link now with Some get => get i | None => None end.
Definition is_up now (i : Z) : bool := match link_now now i with Some _ => true | None => false end.
Definition speed_now now (i : Z) : Z :=
  match link_now now i with Some pl => speed_bit (link_speed pl) | None => 0 end.
Definition stats_now now s (i : Z) : Z * Z :=
  match get_port_stats now with
  | Some get => get i
  | None => (geti 0 (port_tx_traffic s) i, geti 0 (port_rx_traffic s) i)
  end.

Definition sized s : Prop :=
  length (sw_link_speed s) = 32%nat /\ length (port_tx_traffic s) = 32%nat /\ length (port_rx_traffic s) = 32%nat.

(** The state after the ports below [n] of [s0] have been polled. *)
Record polled_to now s0 (n : Z) (st : switch_led_trigger * Z) : Prop := {
  pt_mask : port_mask (fst st) = port_mask s0;
  pt_leds : led_cdevs (fst st) = led_cdevs s0;
  pt_sized : sized (fst st);
  pt_speed : forall i, 0 <= i < 32 -> geti 0 (sw_link_speed (fst st)) i =
    if i <? n then if Z.testbit (port_mask s0) i then speed_now now i else 0 else geti 0 (sw_link_speed s0) i;
  pt_tx : forall i, 0 <= i < 32 -> geti 0 (port_tx_traffic (fst st)) i =
    if (i <? n) && Z.testbit (port_mask s0) i then fst (stats_now now s0 i) else geti 0 (port_tx_traffic s0) i;
  pt_rx : forall i, 0 <= i < 32 -> geti 0 (port_rx_traffic (fst st)) i =
    if (i <? n) && Z.testbit (port_mask s0) i then snd (stats_now now s0 i) else geti 0 (port_rx_traffic s0) i;
  pt_link : forall i, 0 <= i ->
    Z.testbit (snd st) i = (i <? n) && (Z.testbit (port_mask s0) i && is_up now i)
}.

Lemma land_BIT_zero x n : 0 <= n -> (Z.land x (BIT n) =? 0) = negb (Z.testbit x n).
Proof. intros Hn. rewrite <- cbool_land_BIT by exact Hn. unfold cbool. rewrite negb_involutive. reflexivity. Qed.

Lemma seti_seti {A} (l : list A) n (a b : A) : seti (seti l n a) n b = seti l n b.
Proof. apply list_insert_insert_eq. Qed.

(** One port in closed form. *)
Lemma poll_port_eq now s link n : 0 <= n ->
  poll_port now (s, link) n =
    (let bit := Z.testbit (port_mask s) n in
     let count := match get_port_stats now with Some _ => bit | None => false end in
     (SwTrig (port_mask s) (sw_port_link s)
        (if count then seti (port_tx_traffic s) n (fst (stats_now now s n)) else port_tx_traffic s)
        (if count then seti (port_rx_traffic s) n (snd (stats_now now s n)) else port_rx_traffic s)
        (seti (sw_link_speed s) n (if bit then speed_now now n else 0)) (sw_led_work s) (led_cdevs s),
      if bit && is_up now n then Z.lor link (BIT n) else link)).
Proof.
  intros Hn. unfold Leds.poll_port. cbn [port_mask]. rewrite land_BIT_zero by exact Hn.
  unfold speed_now, is_up, link_now, stats_now.
  destruct (Z.testbit (port_mask s) n), (get_port_link now) as [gl |], (get_port_stats now) as [gs |]; cbn [negb andb];
    try destruct (gl n); try destruct (gs n); cbn; rewrite ?seti_seti; reflexivity.
Qed.

Lemma ltb_succ i n : (i <? n + 1) = (i <? n) || (i =? n).
Proof. lia. Qed.

(** A column of counters after port [n]. *)
Lemma step_column (bit : Z -> bool) (val old : Z -> Z) (count : bool) (cur : list Z) n i :
  length cur = 32%nat -> 0 <= n < 32 -> 0 <= i < 32 ->
  (count = true -> bit n = true) -> (count = false -> bit n = true -> val n = old n) ->
  geti 0 cur i = (if (i <? n) && bit i then val i else old i) ->
  geti 0 (if count then seti cur n (val n) else cur) i = if (i <? n + 1) && bit i then val i else old i.
Proof.
  intros Hl Hn Hi Ht Hf Hc. rewrite ltb_succ.
  destruct (Z.eqb_spec i n) as [-> | Hne]; rewrite ?orb_true_r, ?orb_false_r; cbn [andb].
  - destruct count; [rewrite geti_seti, Z.eqb_refl, Ht by (auto; lia); reflexivity |].
    rewrite Hc, Z.ltb_irrefl. destruct (bit n); [symmetry; apply Hf; reflexivity | reflexivity].
  - destruct count; [rewrite geti_seti by lia; destruct (Z.eqb_spec i n); [contradiction |] |]; exact Hc.
Qed.

Lemma poll_port_step now s0 n st :
  0 <= n < 32 -> polled_to now s0 n st -> polled_to now s0 (n + 1) (poll_port now st n).
Proof.
  intros Hn [Hm Hl (Hs1 & Hs2 & Hs3) Hsp Htx Hrx Hlk]. destruct st as [s link]. cbn [fst snd] in *.
  rewrite poll_port_eq by lia. cbv zeta. rewrite Hm.
  set (count := match get_port_stats now with Some _ => _ | None => _ end).
  assert (Hst : count = true -> stats_now now s n = stats_now now s0 n /\ Z.testbit (port_mask s0) n = true).
  { unfold count, stats_now. destruct (get_port_stats now); [auto | discriminate]. }
  assert (Hno : count = false -> Z.testbit (port_mask s0) n = true -> stats_now now s0 n =
    (geti 0 (port_tx_traffic s0) n, geti 0 (port_rx_traffic s0) n)).
  { unfold count, stats_now. destruct (get_port_stats now); [congruence | reflexivity]. }
  replace (if count then seti (port_tx_traffic s) n (fst (stats_now now s n)) else port_tx_traffic s)
    with (if count then seti (port_tx_traffic s) n (fst (stats_now now s0 n)) else port_tx_traffic s)
    by (destruct count; [rewrite (proj1 (Hst eq_refl)) |]; reflexivity).
  replace (if count then seti (port_rx_traffic s) n (snd (stats_now now s n)) else port_rx_traffic s)
    with (if count then seti (port_rx_traffic s) n (snd (stats_now now s0 n)) else port_rx_traffic s)
    by (destruct count; [rewrite (proj1 (Hst eq_refl)) |]; reflexivity).
  clearbody count.
  constructor; cbn [fst snd port_mask led_cdevs sw_link_speed port_tx_traffic port_rx_traffic]; try first [assumption | reflexivity].
  - unfold sized. cbn [sw_link_speed port_tx_traffic port_rx_traffic]. destruct count; rewrite !seti_length; auto.
  - intros i Hi. rewrite geti_seti, Hsp, ltb_succ by lia.
    destruct (Z.eqb_spec i n) as [-> |]; [rewrite orb_true_r | rewrite orb_false_r]; reflexivity.
  - intros i Hi. apply (step_column (Z.testbit (port_mask s0)) (fun k => fst (stats_now now s0 k))); auto;
      [apply Hst | intros Hc Hb; rewrite (Hno Hc Hb); reflexivity].
  - intros i Hi. apply (step_column (Z.testbit (port_mask s0)) (fun k => snd (stats_now now s0 k))); auto;
      [apply Hst | intros Hc Hb; rewrite (Hno Hc Hb); reflexivity].
  - intros i Hi. rewrite ltb_succ.
    transitivity (Z.testbit link i || ((i =? n) && (Z.testbit (port_mask s0) n && is_up now n))).
    + destruct (_ && is_up now n); [| rewrite andb_false_r, orb_false_r; reflexivity].
      rewrite Z.lor_spec, testbit_BIT, (Z.eqb_sym n i) by lia. rewrite andb_true_r. reflexivity.
    + rewrite Hlk by exact Hi. destruct (Z.eqb_spec i n) as [-> |]; [rewrite Z.ltb_irrefl, orb_true_r | rewrite !orb_false_r];
        reflexivity.
Qed.

Lemma poll_all now s0 : sized s0 ->
  polled_to now s0 32 (fold_left (poll_port now) (upto 32) (s0, 0)).
Proof.
  intros Hs. enough (H : forall n, (n <= 32)%nat ->
    polled_to now s0 (Z.of_nat n) (fold_left (poll_port now) (upto n) (s0, 0))) by exact (H 32%nat ltac:(lia)).
  induction n as [| n IH]; intros Hn.
  - constructor; cbn [upto seq map fold_left fst snd]; try reflexivity; try exact Hs; intros i Hi;
      destruct (Z.ltb_spec i (Z.of_nat 0)); try lia; try reflexivity. apply Z.testbit_0_l.
  - rewrite upto_S, fold_left_snoc, Nat2Z.inj_succ. apply poll_port_step; [lia | apply IH; lia].
Qed.
(** ** What a poll makes of a LED *)

Variable long_bits : Z.
Abbreviation led_event := (swconfig_trig_led_event long_bits).
Abbreviation work_func := (swconfig_led_work_func long_bits SPEED_UNKNOWN SPEED_10 SPEED_100 SPEED_1000).

(** The port is one of the LED's, has a link and a speed the LED wants. *)
Definition admits now (td : swconfig_trig_data) (i : Z) : bool :=
  Z.testbit (td_port_mask td) i && cbool (Z.land (speed_now now i) (td_speed_mask td)).

Definition bytes_of now s (td : swconfig_trig_data) (i : Z) : Z :=
  u64 ((if cbool (Z.land (td_mode td) SWCONFIG_LED_MODE_TX) then fst (stats_now now s i) else 0) +
       (if cbool (Z.land (td_mode td) SWCONFIG_LED_MODE_RX) then snd (stats_now now s i) else 0)).

(** The bytes of all admitted ports. *)
Definition traffic_now now s (td : swconfig_trig_data) : Z :=
  fold_left (fun t i => ulong long_bits (t + bytes_of now s td i)) (List.filter (admits now td) (upto 32)) 0.

Definition shows_link (td : swconfig_trig_data) : bool := cbool (Z.land (td_mode td) SWCONFIG_LED_MODE_LINK).

(** What the driver asks of a LED it last asked to be [b]: off without an
    admitted port; else lit when the LED shows the link and dark when it does
    not, and the other way round for one poll if it was in that state and bytes
    have been counted since. *)
Definition shown now s (td : swconfig_trig_data) (b : Z) : Z :=
  let base := if shows_link td then LED_FULL else LED_OFF in
  let blink := if shows_link td then LED_OFF else LED_FULL in
  if existsb (admits now td) (upto 32) then
    if (b =? base) && negb (traffic_now now s td =? prev_traffic td) then blink else base
  else LED_OFF.

Lemma fold_left_ext_in {A X} (f g : A -> X -> A) l a :
  (forall a x, In x l -> f a x = g a x) -> fold_left f l a = fold_left g l a.
Proof.
  revert a. induction l as [| x l IH]; intros a H; [reflexivity |]. cbn [fold_left].
  rewrite H by (left; reflexivity). apply IH. intros b y Hy. apply H. right. exact Hy.
Qed.

Lemma fold_flagged {A X} (f : A -> X -> A) (p : X -> bool) l a b :
  fold_left (fun a x => if p x then (f (fst a) x, true) else a) l (a, b) =
    (fold_left f (List.filter p l) a, b || existsb p l).
Proof.
  revert a b. induction l as [| x l IH]; intros a b; cbn [fold_left List.filter existsb]; [rewrite orb_false_r; reflexivity |].
  destruct (p x); [rewrite IH, orb_true_r; reflexivity | rewrite IH; reflexivity].
Qed.

Lemma in_upto_range n x : In x (upto n) -> 0 <= x < Z.of_nat n.
Proof. unfold upto. rewrite in_map_iff. intros (k & <- & Hk). apply in_seq in Hk. lia. Qed.

(** The poll looks at the ports of the LED. *)
Definition covers s (td : swconfig_trig_data) : Prop :=
  0 <= td_port_mask td < 2 ^ 32 /\
  forall i, 0 <= i -> Z.testbit (td_port_mask td) i = true -> Z.testbit (port_mask s) i = true.

Lemma sum_ports_polled now s0 s link td : polled_to now s0 32 (s, link) -> covers s0 td ->
  sum_ports long_bits s (td_port_mask td) (td_speed_mask td) (td_mode td) =
    (traffic_now now s0 td, existsb (admits now td) (upto 32)).
Proof.
  intros [_ _ _ Hsp Htx Hrx _] [_ Hc]. cbn [fst] in *. unfold sum_ports, traffic_now.
  change (Z.to_nat SWCONFIG_LED_NUM_PORTS) with 32%nat.
  pose proof (fold_flagged (fun t i => ulong long_bits (t + bytes_of now s0 td i)) (admits now td) (upto 32) 0 false)
    as Hf. cbn [orb] in Hf. rewrite <- Hf. clear Hf.
  apply fold_left_ext_in. intros [t b] i Hi. apply in_upto_range in Hi. change (Z.of_nat 32) with 32 in Hi.
  rewrite cbool_land_BIT by lia. unfold admits, bytes_of. rewrite Hsp, Htx, Hrx by lia.
  destruct (Z.ltb_spec i 32); [| lia]. cbn [andb fst snd].
  destruct (Z.testbit (td_port_mask td) i) eqn:Hb; [| reflexivity]. rewrite (Hc i) by (assumption || lia). reflexivity.
Qed.

Lemma admits_up now td i : admits now td i = true -> Z.testbit (td_port_mask td) i = true /\ is_up now i = true.
Proof.
  unfold admits, speed_now, is_up. intros H. apply andb_prop in H. destruct H as [H1 H2]. split; [exact H1 |].
  destruct (link_now now i); [reflexivity | discriminate H2].
Qed.

Lemma no_link_no_ports now s0 s link td : polled_to now s0 32 (s, link) -> covers s0 td ->
  cbool (Z.land link (td_port_mask td)) = false -> existsb (admits now td) (upto 32) = false.
Proof.
  intros [_ _ _ _ _ _ Hlk] [Hr Hc] H. rewrite (cbool_land _ _ 32) in H by lia. apply not_true_iff_false. intros Ha.
  apply not_true_iff_false in H. apply H. apply existsb_exists in Ha. destruct Ha as (i & Hi & Ha).
  apply existsb_exists. exists i. split; [exact Hi |]. apply in_upto_range in Hi. change (Z.of_nat 32) with 32 in Hi.
  apply admits_up in Ha. destruct Ha as [Hb Hu]. cbn [snd] in Hlk. rewrite Hlk, Hu, Hb, (Hc i) by (assumption || lia).
  destruct (Z.ltb_spec i 32); [reflexivity | lia].
Qed.

(** What a LED of brightness [b] is after a poll that wants [want] of it: the
    driver compares with what it asked for last and not with the LED, so it
    leaves alone a LED it wants as before. *)
Definition set_unless_asked (b prev want : Z) : Z := if want =? prev then b else want.

Lemma set_unless_asked_same want prev : set_unless_asked prev prev want = want.
Proof. unfold set_unless_asked. destruct (Z.eqb_spec want prev); congruence. Qed.

(** The settings of a LED. *)
Definition same_settings (td td' : swconfig_trig_data) : Prop :=
  td_port_mask td' = td_port_mask td /\ td_mode td' = td_mode td /\ td_speed_mask td' = td_speed_mask td.

Ltac led_done :=
  unfold set_unless_asked; rewrite ?Z.eqb_refl; eexists; split; [reflexivity |];
  split; [first [reflexivity | assumption | symmetry; assumption] |]; split;
  [repeat split | first [intros _; reflexivity | discriminate]].

Lemma led_event_polled now s0 s td b : polled_to now s0 32 (s, sw_port_link s) -> covers s0 td ->
  let want := shown now s0 td (prev_brightness td) in
  exists td', led_event s (Led b (Some td)) = Led (set_unless_asked b (prev_brightness td) want) (Some td') /\
    prev_brightness td' = want /\ same_settings td td' /\
    (existsb (admits now td) (upto 32) = true -> prev_traffic td' = traffic_now now s0 td).
Proof.
  intros Hp Hc. cbv zeta. unfold swconfig_trig_led_event. cbn [trigger_data].
  rewrite (sum_ports_polled _ _ _ _ _ Hp Hc).
  pose proof (no_link_no_ports _ _ _ _ _ Hp Hc) as Hno. unfold shown. fold (shows_link td).
  set (base := if shows_link td then LED_FULL else LED_OFF). set (blink := if shows_link td then LED_OFF else LED_FULL).
  assert (Hne : (blink =? base) = false) by (unfold blink, base; destruct (shows_link td); reflexivity).
  destruct (cbool (Z.land (sw_port_link s) (td_port_mask td))); cbn [negb]; [clear Hno | rewrite Hno by reflexivity].
  - destruct (existsb (admits now td) (upto 32)).
    + destruct (Z.eqb_spec (prev_brightness td) base) as [E | E]; cbn [negb andb].
      * destruct (traffic_now now s0 td =? prev_traffic td); cbn [negb]; rewrite ?E; [led_done |].
        unfold set_unless_asked. rewrite Hne. led_done.
      * unfold set_unless_asked. destruct (Z.eqb_spec base (prev_brightness td)); [congruence | led_done].
    + destruct (Z.eqb_spec (prev_brightness td) LED_OFF) as [E | E]; cbn [negb]; [rewrite ?E; led_done |].
      unfold set_unless_asked. destruct (Z.eqb_spec LED_OFF (prev_brightness td)); [congruence | led_done].
  - destruct (Z.eqb_spec (prev_brightness td) LED_OFF) as [E | E]; cbn [negb]; [rewrite ?E; led_done |].
    unfold set_unless_asked. destruct (Z.eqb_spec LED_OFF (prev_brightness td)); [congruence | led_done].
Qed.
Lemma work_func_run now s : sized s -> exists s1,
  polled_to now s 32 (s1, sw_port_link s1) /\
  work_func now s = SwTrig (port_mask s) (sw_port_link s1) (port_tx_traffic s1) (port_rx_traffic s1) (sw_link_speed s1)
    true (map (led_event s1) (led_cdevs s)).
Proof.
  intros Hs. pose proof (poll_all now s Hs) as Hp. unfold swconfig_led_work_func.
  change (Z.to_nat SWCONFIG_LED_NUM_PORTS) with 32%nat. destruct (fold_left _ _ _) as [s' link].
  destruct Hp as [H1 H2 H3 H4 H5 H6 H7]. cbn [fst snd] in *.
  exists (SwTrig (port_mask s') link (port_tx_traffic s') (port_rx_traffic s') (sw_link_speed s') (sw_led_work s')
    (led_cdevs s')). split; [constructor; assumption |]. rewrite <- H1, <- H2. reflexivity.
Qed.

(** ** The system *)

Variable kstrtoul kstrtou8 : string -> res Z.
(** What [kstrtoul] returns with an [unsigned long] of 32 bits, or when nobody
    writes a larger mask. *)
Hypothesis kstrtoul_range : forall buf v, kstrtoul buf = Ok v -> 0 <= v < 2 ^ 32.

Definition set_brightness (b : Z) (l : led_classdev) : led_classdev := Led b (trigger_data l).

(** One thing that happens to the trigger.  A LED attaches with the
    brightness it has; the LED core takes one off its list before the trigger
    hears of it.  While a LED is attached others may set it, as
    [etc/init.d/led] does when it writes [max_brightness] after the trigger;
    user space writing 0 takes the LED off its trigger.  The first argument: the
    driver does not know the brightness from what it asked for. *)
Inductive led_step : bool -> switch_led_trigger -> switch_led_trigger -> Prop :=
| step_port_mask s i buf r s' : swconfig_trig_port_mask_store kstrtoul i buf s = (r, s') -> led_step false s s'
| step_speed_mask s i buf r s' : swconfig_trig_speed_mask_store kstrtou8 i buf s = (r, s') -> led_step false s s'
| step_mode s i buf r s' : swconfig_trig_mode_store i buf s = (r, s') -> led_step false s s'
| step_attach s create b l files :
    swconfig_trig_activate true create (Led b None) = (0, l, files) ->
    led_step (negb (b =? LED_OFF)) s (with_leds (led_cdevs s ++ [l]) s)
| step_detach s i : (i < length (led_cdevs s))%nat ->
    led_step false s (swconfig_trig_deactivate (with_leds (delete i (led_cdevs s)) s))
| step_poll s now : sw_led_work s = true -> led_step false s (work_func now s)
| step_others s i b l : led_cdevs s !! i = Some l ->
    led_step true s (with_leds (<[i := set_brightness b l]> (led_cdevs s)) s).

(** The states of the system; [own]: nobody else has had a hand in it. *)
Inductive led_reachable : bool -> switch_led_trigger -> Prop :=
| led_created s : swconfig_create_led_trigger true true 0 = Ok (Some s) -> led_reachable true s
| led_next own foreign s s' : led_reachable own s -> led_step foreign s s' -> led_reachable (own && negb foreign) s'.

(** A LED the driver has in hand: its settings are in range and nothing is
    asked of it when it has no port. *)
Definition led_ok (l : led_classdev) : Prop :=
  exists td, trigger_data l = Some td /\ 0 <= td_port_mask td < 2 ^ 32 /\
    (td_port_mask td = 0 -> prev_brightness td = LED_OFF) /\ 0 <= td_mode td < 8 /\ 0 <= td_speed_mask td < 16.

(** The LED is what the driver asked of it. *)
Definition as_asked (l : led_classdev) : Prop :=
  forall td, trigger_data l = Some td -> brightness l = prev_brightness td.

Definition led_inv s : Prop :=
  sized s /\ port_mask s = wanted (led_cdevs s) /\ sw_led_work s = cbool (port_mask s) /\ Forall led_ok (led_cdevs s).

Definition mask_of (l : led_classdev) : Z := match trigger_data l with Some td => td_port_mask td | None => 0 end.

Lemma wanted_masks l : wanted l = fold_left Z.lor (map mask_of l) 0.
Proof.
  unfold wanted. generalize 0. induction l as [| x l IH]; intros m; [reflexivity |]. cbn [fold_left map].
  unfold mask_of at 2. destruct (trigger_data x); [apply IH | rewrite Z.lor_0_r; apply IH].
Qed.

Lemma wanted_zero l : (forall x, In x l -> mask_of x = 0) -> wanted l = 0.
Proof.
  rewrite wanted_masks. induction l as [| x l IH]; intros H; [reflexivity |]. cbn [map fold_left].
  rewrite (H x) by (left; reflexivity). apply IH. intros y Hy. apply H. right. exact Hy.
Qed.

Lemma update_port_mask_inv s : sized s -> Forall led_ok (led_cdevs s) -> led_inv (swconfig_trig_update_port_mask s).
Proof. intros Hs Hl. repeat split; try apply Hs. exact Hl. Qed.

Lemma with_leds_inv s l : led_inv s -> map mask_of l = map mask_of (led_cdevs s) -> Forall led_ok l ->
  led_inv (with_leds l s).
Proof.
  intros (Hs & Hm & Hw & _) Hl Hok. split; [exact Hs |]. split; [| split; [exact Hw | exact Hok]].
  cbn [port_mask led_cdevs with_leds]. rewrite Hm, !wanted_masks, Hl. reflexivity.
Qed.

Lemma lookup_led_ok s i l : led_inv s -> led_cdevs s !! i = Some l -> led_ok l.
Proof. intros (_ & _ & _ & H) Hi. exact (Forall_lookup_1 _ _ _ _ H Hi). Qed.

Lemma update_td_inv s i f : led_inv s ->
  (forall td, td_port_mask (f td) = td_port_mask td /\ prev_brightness (f td) = prev_brightness td) ->
  (forall td, 0 <= td_mode td < 8 -> 0 <= td_speed_mask td < 16 ->
     0 <= td_mode (f td) < 8 /\ 0 <= td_speed_mask (f td) < 16) ->
  led_inv (update_td i f s).
Proof.
  intros Hinv Hf Hr. unfold update_td. destruct (led_cdevs s !! i) as [[b [td |]] |] eqn:Hi; try exact Hinv.
  destruct (Hf td) as [Hm Hb]. destruct (lookup_led_ok _ _ _ Hinv Hi) as (td' & [= <-] & H2 & H3 & H4 & H5).
  apply with_leds_inv; [exact Hinv | |].
  - rewrite list_fmap_insert. apply list_insert_id. rewrite list_lookup_fmap, Hi. cbn. unfold mask_of. cbn.
    rewrite Hm. reflexivity.
  - apply Forall_insert; [apply Hinv |]. exists (f td). cbn in *. rewrite Hm, Hb. destruct (Hr td H4 H5). auto 10.
Qed.
Lemma parse_mode_range tokens m n : - 1 <= m < 8 -> parse_mode tokens m = Ok n -> 0 <= n < 8.
Proof.
  revert m. induction tokens as [| t rest IH]; intros m Hm; cbn [parse_mode].
  - destruct (Z.ltb_spec m 0); [discriminate |]. intros [= <-]. lia.
  - destruct (_ =? "")%string; [apply IH, Hm |]. set (m' := if m <? 0 then 0 else m).
    assert (Hm' : 0 <= m' < 2 ^ 3) by (unfold m'; destruct (Z.ltb_spec m 0); lia).
    assert (Hor : forall x, 0 <= x < 2 ^ 3 -> - 1 <= Z.lor m' x < 8).
    { intros x Hx. pose proof (lor_small m' x 3 ltac:(lia) Hm' Hx). lia. }
    repeat (destruct (_ =? _)%string; [apply IH, Hor || apply IH; try apply Hor;
      unfold SWCONFIG_LED_MODE_TX, SWCONFIG_LED_MODE_RX, SWCONFIG_LED_MODE_LINK; lia |]). discriminate.
Qed.

Lemma port_mask_store_inv s i buf r s' :
  led_inv s -> swconfig_trig_port_mask_store kstrtoul i buf s = (r, s') -> led_inv s'.
Proof.
  intros Hinv H. unfold swconfig_trig_port_mask_store in H. destruct (kstrtoul buf) as [new | e] eqn:Hk;
    [| injection H as _ <-; exact Hinv].
  destruct (led_cdevs s !! i) as [[b [td |]] |] eqn:Hi; try (injection H as _ <-; exact Hinv).
  pose proof (kstrtoul_range _ _ Hk) as Hn. rewrite u32_small in H by lia. injection H as _ <-.
  destruct (lookup_led_ok _ _ _ Hinv Hi) as (td' & [= <-] & H2 & H3 & H4 & H5).
  destruct (Z.eqb_spec (td_port_mask td) new) as [E | E]; cbn [negb andb].
  - subst new. assert (Htd : with_port_mask (td_port_mask td) td = td) by (destruct td; reflexivity). rewrite Htd.
    rewrite list_insert_id by exact Hi. apply with_leds_inv; [exact Hinv | reflexivity | apply Hinv].
  - apply update_port_mask_inv; [apply Hinv |]. cbn [led_cdevs with_leds]. apply Forall_insert; [apply Hinv |].
    destruct (Z.eqb_spec new 0) as [-> | Hne]; (eexists; split; [reflexivity |]); cbn; auto 10.
    repeat split; try assumption; try lia.
Qed.

Lemma covers_led s i l td : led_inv s -> led_cdevs s !! i = Some l -> trigger_data l = Some td -> covers s td.
Proof.
  intros Hinv Hi Ht. destruct (lookup_led_ok _ _ _ Hinv Hi) as (td0 & Ht0 & Hrange & _).
  rewrite Ht in Ht0. injection Ht0 as <-. split; [exact Hrange |]. intros k Hk Hbit.
  destruct Hinv as (_ & -> & _). rewrite testbit_wanted. apply existsb_exists. exists l.
  split; [apply list_elem_of_In, list_elem_of_lookup; exists i; exact Hi |]. unfold selects. rewrite Ht. exact Hbit.
Qed.

Lemma shown_without_ports now s td b : td_port_mask td = 0 -> shown now s td b = LED_OFF.
Proof.
  intros Hz. unfold shown. replace (existsb (admits now td) (upto 32)) with false; [reflexivity |].
  symmetry. apply not_true_is_false. intros Ha. apply existsb_exists in Ha. destruct Ha as (k & _ & Ha).
  unfold admits in Ha. rewrite Hz, Z.testbit_0_l in Ha. discriminate.
Qed.

Lemma poll_led now s s1 l : led_inv s -> polled_to now s 32 (s1, sw_port_link s1) -> In l (led_cdevs s) ->
  led_ok (led_event s1 l) /\ mask_of (led_event s1 l) = mask_of l /\ (as_asked l -> as_asked (led_event s1 l)).
Proof.
  intros Hinv Hp Hl. apply list_elem_of_In, list_elem_of_lookup in Hl. destruct Hl as [i Hi].
  destruct (lookup_led_ok _ _ _ Hinv Hi) as (td & Ht & Hr & H0 & H4 & H5).
  pose proof (covers_led _ _ _ _ Hinv Hi Ht) as Hc. destruct l as [b d]. cbn [trigger_data] in Ht. subst d.
  destruct (led_event_polled now s s1 td b Hp Hc) as (td' & -> & Hb' & (E1 & E2 & E3) & _).
  unfold mask_of. cbn [trigger_data]. split; [| split; [exact E1 |]].
  - exists td'. rewrite E1, E2, E3, Hb'. split; [reflexivity |]. split; [exact Hr |]. split; [| split; assumption].
    apply shown_without_ports.
  - intros Ha td0 [= <-]. pose proof (Ha td eq_refl) as Hb. cbn [brightness] in *. subst b.
    rewrite set_unless_asked_same, Hb'. reflexivity.
Qed.

Lemma poll_inv s now : led_inv s -> sw_led_work s = true -> led_inv (work_func now s).
Proof.
  intros Hinv Hwork. destruct (work_func_run now s (proj1 Hinv)) as (s1 & Hp & ->).
  pose proof (fun l => poll_led now s s1 l Hinv Hp) as Hev. destruct Hinv as (Hs & Hm & Hw & Hok).
  split; [apply Hp |]. cbn [port_mask led_cdevs sw_led_work]. split; [| split].
  - rewrite Hm, !wanted_masks, map_map. f_equal. apply map_ext_in. intros l Hl. symmetry. apply Hev, Hl.
  - rewrite <- Hwork, Hw. reflexivity.
  - apply List.Forall_forall. intros l Hl. apply in_map_iff in Hl. destruct Hl as (l0 & <- & Hl). apply Hev, Hl.
Qed.

(** Attaching that worked. *)
Lemma activate_ok create b l files : swconfig_trig_activate true create (Led b None) = (0, l, files) ->
  l = Led b (Some (TrigData 0 false 0 0 SWCONFIG_LED_MODE_ALL SWCONFIG_LED_PORT_SPEED_ALL)).
Proof.
  unfold swconfig_trig_activate, cbool. cbn [negb].
  destruct (Z.eqb_spec (create "port_mask"%string) 0); cbn [negb]; [| intros [= ? _ _]; contradiction].
  destruct (Z.eqb_spec (create "speed_mask"%string) 0); cbn [negb]; [| intros [= ? _ _]; contradiction].
  destruct (Z.eqb_spec (create "mode"%string) 0); cbn [negb]; [| intros [= ? _ _]; contradiction].
  intros [= <- _]. reflexivity.
Qed.

Lemma others_inv s i b l : led_inv s -> led_cdevs s !! i = Some l ->
  led_inv (with_leds (<[i := set_brightness b l]> (led_cdevs s)) s).
Proof.
  intros Hinv Hi. apply with_leds_inv; [exact Hinv | |].
  - rewrite list_fmap_insert. apply list_insert_id. rewrite list_lookup_fmap, Hi. reflexivity.
  - apply Forall_insert; [apply Hinv |]. exact (lookup_led_ok _ _ _ Hinv Hi).
Qed.

Lemma led_step_inv foreign s s' : led_inv s -> led_step foreign s s' -> led_inv s'.
Proof.
  intros Hinv Hstep. destruct Hstep as
    [s i buf r s' H | s i buf r s' H | s i buf r s' H | s create b l files H | s i Hi | s now H | s i b l Hi].
  - eapply port_mask_store_inv; eassumption.
  - unfold swconfig_trig_speed_mask_store in H. destruct (kstrtou8 buf) as [new | e] eqn:Hk; injection H as _ <-; [| exact Hinv].
    apply update_td_inv; [exact Hinv | split; reflexivity |]. intros td Hmode _. split; [exact Hmode |].
    change (0 <= Z.land new (Z.ones 4) < 16). rewrite Z.land_ones by lia. apply Z.mod_pos_bound. lia.
  - unfold swconfig_trig_mode_store in H. destruct (parse_mode _ _) as [m | e] eqn:Hk; injection H as _ <-; [| exact Hinv].
    apply parse_mode_range in Hk; [| lia]. apply update_td_inv; [exact Hinv | split; reflexivity |].
    intros td _ Hspeed. cbn. rewrite u8_small by lia. split; [exact Hk | exact Hspeed].
  - apply activate_ok in H as ->. destruct Hinv as (Hs & Hm & Hw & Hok). split; [exact Hs |].
    cbn [port_mask led_cdevs sw_led_work with_leds]. split; [| split; [exact Hw |]].
    + rewrite Hm, !wanted_masks, map_app, fold_left_app. cbn. rewrite Z.lor_0_r. reflexivity.
    + apply Forall_app. split; [exact Hok |]. constructor; [| constructor]. eexists. split; [reflexivity |].
      repeat split; try (intros _; reflexivity); vm_compute; congruence.
  - apply update_port_mask_inv; [apply Hinv |]. cbn [led_cdevs with_leds]. apply Forall_delete, Hinv.
  - apply poll_inv; assumption.
  - apply others_inv; assumption.
Qed.

Lemma update_td_asked s i f : (forall td, prev_brightness (f td) = prev_brightness td) ->
  Forall as_asked (led_cdevs s) -> Forall as_asked (led_cdevs (update_td i f s)).
Proof.
  intros Hf Ha. unfold update_td. destruct (led_cdevs s !! i) as [[b [td |]] |] eqn:Hi; try exact Ha.
  apply Forall_insert; [exact Ha |]. intros td' [= <-]. rewrite Hf.
  exact (Forall_lookup_1 _ _ _ _ Ha Hi td eq_refl).
Qed.

(** Without others, a LED stays what the driver asked of it. *)
Lemma led_step_asked s s' : led_inv s -> led_step false s s' ->
  Forall as_asked (led_cdevs s) -> Forall as_asked (led_cdevs s').
Proof.
  intros Hinv Hstep Ha. remember false as foreign eqn:Hfo. destruct Hstep as
    [s i buf r s' H | s i buf r s' H | s i buf r s' H | s create b l files H | s i Hi | s now H | s i b l Hi].
  - unfold swconfig_trig_port_mask_store in H. destruct (kstrtoul buf) as [new |]; [| injection H as _ <-; exact Ha].
    destruct (led_cdevs s !! i) as [[b [td |]] |] eqn:Hi; try (injection H as _ <-; exact Ha). injection H as _ <-.
    enough (Hl : as_asked (if negb (td_port_mask td =? new) && (new =? 0)
      then swconfig_trig_set_brightness LED_OFF (with_port_mask (u32 new) td) else Led b (Some (with_port_mask (u32 new) td))))
      by (destruct (negb _); apply Forall_insert; assumption).
    destruct (_ && _); intros td' [= <-]; [reflexivity | exact (Forall_lookup_1 _ _ _ _ Ha Hi td eq_refl)].
  - unfold swconfig_trig_speed_mask_store in H. destruct (kstrtou8 buf); injection H as _ <-; [| exact Ha].
    apply update_td_asked; [reflexivity | exact Ha].
  - unfold swconfig_trig_mode_store in H. destruct (parse_mode _ _); injection H as _ <-; [| exact Ha].
    apply update_td_asked; [reflexivity | exact Ha].
  - apply activate_ok in H as ->. apply Forall_app. split; [exact Ha |]. constructor; [| constructor].
    intros td [= <-]. cbn. apply negb_false_iff, Z.eqb_eq in Hfo. exact Hfo.
  - apply Forall_delete, Ha.
  - destruct (work_func_run now s (proj1 Hinv)) as (s1 & Hp & ->). cbn [led_cdevs].
    apply List.Forall_forall. intros l Hl. apply in_map_iff in Hl. destruct Hl as (l0 & <- & Hl).
    apply (poll_led now s s1 l0 Hinv Hp Hl). exact (proj1 (List.Forall_forall _ _) Ha l0 Hl).
  - discriminate Hfo.
Qed.

Lemma led_reachable_inv own s :
  led_reachable own s -> led_inv s /\ (own = true -> Forall as_asked (led_cdevs s)).
Proof.
  induction 1 as [s H | own foreign s s' _ [IH IHa] Hstep].
  - injection H as <-. split; [repeat split; constructor | constructor].
  - split; [eapply led_step_inv; eassumption |]. intros Ho. apply andb_true_iff in Ho. destruct Ho as [-> Ho].
    destruct foreign; [discriminate |]. eapply led_step_asked; eauto.
Qed.

(** C33: a poll asks of every LED what its ports do.  In every reachable
    state, running the work asks a LED to be off unless one of its ports has a
    link of a speed the LED admits; otherwise to be at its base (lit if it shows
    the link, else dark), except that a LED at its base leaves it for one poll
    when the bytes of its admitted ports have changed since the last such poll.
    The LED is then as asked, unless the driver had asked for the same before:
    then it keeps the brightness it has, which differs if others have set it
    since, and is the one asked for if nobody else has set a LED or attached a
    lit one.  The settings of the LED stay. *)
Theorem led_follows_ports own s now i b td :
  led_reachable own s -> led_cdevs s !! i = Some (Led b (Some td)) ->
  let asked := prev_brightness td in
  let want := shown now s td asked in
  exists td', led_cdevs (work_func now s) !! i =
      Some (Led (if want =? asked then b else want) (Some td')) /\
    (own = true -> (if want =? asked then b else want) = want) /\
    prev_brightness td' = want /\ same_settings td td' /\
    (existsb (admits now td) (upto 32) = true -> prev_traffic td' = traffic_now now s td).
Proof.
  intros Hr Hi. cbv zeta. destruct (led_reachable_inv own s Hr) as [Hinv Ha].
  pose proof (covers_led _ _ _ _ Hinv Hi eq_refl) as Hc.
  destruct (work_func_run now s (proj1 Hinv)) as (s1 & Hp & ->).
  destruct (led_event_polled now s s1 td b Hp Hc) as (td' & Hev & Hb & Hset & Htr).
  exists td'. cbn [led_cdevs]. rewrite list_lookup_fmap, Hi. cbn [fmap option_fmap option_map]. rewrite Hev.
  split; [reflexivity |]. split; [| auto]. intros Ho.
  pose proof (Forall_lookup_1 _ _ _ _ (Ha Ho) Hi td eq_refl) as Hb0. cbn [brightness] in Hb0. rewrite Hb0.
  apply set_unless_asked_same.
Qed.

(** What always holds of a trigger.  In every reachable state the ports
    are polled exactly while some LED has selected a port, every port a LED
    has selected is polled, and the driver has asked a LED without ports to be
    dark; without others setting LEDs it is. *)
Theorem leds_polled_and_dark own s :
  led_reachable own s ->
  (sw_led_work s = true <-> exists i b td, led_cdevs s !! i = Some (Led b (Some td)) /\ td_port_mask td <> 0) /\
  (forall i l, led_cdevs s !! i = Some l -> exists td, trigger_data l = Some td /\
     (own = true -> brightness l = prev_brightness td) /\ (td_port_mask td = 0 -> prev_brightness td = LED_OFF) /\
     (forall k, 0 <= k -> Z.testbit (td_port_mask td) k = true -> Z.testbit (port_mask s) k = true)).
Proof.
  intros Hr. destruct (led_reachable_inv own s Hr) as [Hinv Ha]. split.
  - pose proof Hinv as (_ & _ & -> & _). split.
    + intros Hw. destruct (List.Exists_dec (fun l => mask_of l <> 0) (led_cdevs s)) as [E | E].
      { intros x. destruct (Z.eq_dec (mask_of x) 0); [right; congruence | left; assumption]. }
      * apply Exists_exists in E. destruct E as (l & Hl & Hmask). rewrite list_elem_of_lookup in Hl.
        destruct Hl as [i Hi]. destruct (lookup_led_ok _ _ _ Hinv Hi) as (td & Ht & _). destruct l as [b d]. cbn in Ht.
        subst d. exists i, b, td. split; [exact Hi | exact Hmask].
      * exfalso. pose proof Hinv as (_ & Hm & _). rewrite Hm in Hw. rewrite wanted_zero in Hw; [discriminate |].
        intros l Hl. destruct (Z.eq_dec (mask_of l) 0) as [Hz |]; [exact Hz |]. exfalso. apply E, Exists_exists.
        exists l. split; [apply list_elem_of_In; exact Hl | assumption].
    + intros (i & b & td & Hi & Hne). unfold cbool. apply negb_true_iff, Z.eqb_neq. intros Hz. apply Hne.
      destruct (covers_led _ _ _ _ Hinv Hi eq_refl) as [[Hnn _] Hc]. apply mask_zero_iff; [exact Hnn |].
      intros k Hk. apply not_true_is_false. intros Hbit. rewrite Hz in Hc. specialize (Hc k Hk Hbit).
      rewrite Z.testbit_0_l in Hc. discriminate.
  - intros i l Hi. destruct (lookup_led_ok _ _ _ Hinv Hi) as (td & Ht & _ & H0 & _). exists td.
    split; [exact Ht |]. split; [intros Ho; exact (Forall_lookup_1 _ _ _ _ (Ha Ho) Hi td Ht) |]. split; [exact H0 |]. apply (covers_led _ _ _ _ Hinv Hi Ht).
Qed.
End Poll.

(** ** The mode file *)

Fixpoint no_delim (s : string) : bool :=
  match s with EmptyString => true | String c s' => negb (is_delim c) && no_delim s' end.
Fixpoint all_delim (s : string) : bool :=
  match s with EmptyString => true | String c s' => is_delim c && all_delim s' end.

(** Words, each with the white space after it. *)
Fixpoint render (ws : list (string * string)) : string :=
  match ws with [] => EmptyString | (w, sep) :: ws' => w +:+ sep +:+ render ws' end.

Definition word_ok (p : string * string) : bool :=
  no_delim (fst p) && negb (fst p =? "")%string && all_delim (snd p) && negb (snd p =? "")%string.

Definition known (w : string) : bool :=
  (w =? "none")%string || (w =? "tx")%string || (w =? "rx")%string || (w =? "link")%string.
Definition effect (m : Z) (w : string) : Z :=
  if (w =? "none")%string then 0 else
  Z.lor m (if (w =? "tx")%string then SWCONFIG_LED_MODE_TX else if (w =? "rx")%string then SWCONFIG_LED_MODE_RX
           else SWCONFIG_LED_MODE_LINK).

Lemma strsep_word w cur s : no_delim w = true -> strsep_all cur (w +:+ s) = strsep_all (cur +:+ w) s.
Proof.
  revert cur. induction w as [| c w IH]; intros cur Hw; [rewrite app_empty_r; reflexivity |].
  cbn [no_delim] in Hw. apply andb_prop in Hw. destruct Hw as [Hc Hw]. apply negb_true_iff in Hc.
  rewrite append_cons. cbn [strsep_all]. rewrite Hc, IH, app_assoc_s by exact Hw. reflexivity.
Qed.

(** Empty tokens are skipped. *)
Lemma parse_empty rest m : parse_mode (EmptyString :: rest) m = parse_mode rest m.
Proof. reflexivity. Qed.

Lemma parse_seps sep s m : all_delim sep = true ->
  parse_mode (strsep_all EmptyString (sep +:+ s)) m = parse_mode (strsep_all EmptyString s) m.
Proof.
  induction sep as [| c sep IH]; intros Hs; [reflexivity |]. cbn [all_delim] in Hs. apply andb_prop in Hs.
  destruct Hs as [Hc Hs]. rewrite append_cons. cbn [strsep_all]. rewrite Hc, parse_empty. apply IH, Hs.
Qed.

Lemma parse_known w rest m : known w = true ->
  parse_mode (w :: rest) m = parse_mode rest (effect (if m <? 0 then 0 else m) w).
Proof.
  unfold known, effect. cbn [parse_mode]. intros H.
  destruct (String.eqb_spec w "") as [-> |]; [discriminate H |].
  destruct (w =? "none")%string; [reflexivity |]. destruct (w =? "tx")%string; [reflexivity |].
  destruct (w =? "rx")%string; [reflexivity |]. cbn [orb] in H. rewrite H. reflexivity.
Qed.

Lemma parse_unknown w rest m : known w = false -> w <> EmptyString -> parse_mode (w :: rest) m = Err (- EINVAL).
Proof.
  unfold known. cbn [parse_mode]. intros H Hne. destruct (String.eqb_spec w "") as [-> |]; [contradiction |].
  repeat (apply orb_false_iff in H; destruct H as [H ?]). rewrite H, H0, H1, H2. reflexivity.
Qed.

Lemma effect_nonneg m w : 0 <= m -> 0 <= effect m w.
Proof.
  intros Hm. unfold effect. destruct (_ =? "none")%string; [lia |]. apply Z.lor_nonneg. split; [exact Hm |].
  repeat (destruct (_ =? _)%string); unfold SWCONFIG_LED_MODE_TX, SWCONFIG_LED_MODE_RX, SWCONFIG_LED_MODE_LINK; lia.
Qed.

Lemma parse_render ws m : 0 <= m -> forallb word_ok ws = true ->
  parse_mode (strsep_all EmptyString (render ws)) m =
    if forallb known (map fst ws) then Ok (fold_left effect (map fst ws) m) else Err (- EINVAL).
Proof.
  revert m. induction ws as [| [w sep] ws IH]; intros m Hm Hok.
  - cbn. destruct (Z.ltb_spec m 0); [lia | reflexivity].
  - cbn [forallb] in Hok. apply andb_prop in Hok. destruct Hok as [Hw Hok]. unfold word_ok in Hw. cbn [fst snd] in Hw.
    repeat (apply andb_prop in Hw; destruct Hw as [Hw ?]). cbn [render]. rewrite strsep_word, append_nil by exact Hw.
    destruct sep as [| c sep]; [discriminate |]. cbn [all_delim] in *. apply andb_prop in H0. destruct H0 as [Hc Hsep].
    rewrite append_cons. cbn [strsep_all map forallb fold_left fst]. rewrite Hc.
    destruct (known w) eqn:Hk; cbn [andb].
    + rewrite parse_known by exact Hk. destruct (Z.ltb_spec m 0); [lia |].
      rewrite parse_seps by exact Hsep. apply IH; [apply effect_nonneg, Hm | exact Hok].
    + apply parse_unknown; [exact Hk |]. intros ->. discriminate.
Qed.

(** The first word of a file starts at 0, not at -1. *)
Lemma parse_render_fresh ws : ws <> [] -> forallb word_ok ws = true ->
  parse_mode (strsep_all EmptyString (render ws)) (-1) = parse_mode (strsep_all EmptyString (render ws)) 0.
Proof.
  destruct ws as [| [w sep] ws]; [contradiction |]. cbn [forallb]. intros _ Hok. apply andb_prop in Hok.
  destruct Hok as [Hw _]. unfold word_ok in Hw. cbn [fst snd] in Hw. repeat (apply andb_prop in Hw; destruct Hw as [Hw ?]).
  cbn [render]. rewrite strsep_word, append_nil by exact Hw. destruct sep as [| c sep]; [discriminate |].
  cbn [all_delim] in *. apply andb_prop in H0. destruct H0 as [Hc _]. rewrite append_cons. cbn [strsep_all]. rewrite Hc.
  destruct (known w) eqn:Hk; [rewrite !parse_known by exact Hk; reflexivity |].
  rewrite !parse_unknown; try reflexivity; try exact Hk; intros ->; discriminate.
Qed.

(** The mode file.  Writing back what the file shows changes nothing;
    writing words separated by white space sets the mode the words add up to,
    where none clears what came before it, and a word that is not one of the
    four is refused and changes nothing. *)
Theorem mode_file_words (s : switch_led_trigger) (i : nat) (b : Z) (td : swconfig_trig_data)
    (ws : list (string * string)) :
  led_cdevs s !! i = Some (Led b (Some td)) -> 0 <= td_mode td < 8 ->
  ws <> [] -> forallb word_ok ws = true -> (String.length (render ws) <= 127)%nat ->
  swconfig_trig_mode_store i (snd (swconfig_trig_mode_show td)) s = (Ok tt, s) /\
  swconfig_trig_mode_store i (render ws) s =
    if forallb known (map fst ws)
    then (Ok tt, update_td i (with_mode (fold_left effect (map fst ws) 0)) s)
    else (Err (- EINVAL), s).
Proof.
  intros Hi Hmode Hne Hok Hlen. unfold swconfig_trig_mode_store. split.
  - assert (H : parse_mode (strsep_all EmptyString (String.substring 0 127 (snd (swconfig_trig_mode_show td)))) (-1) =
      Ok (td_mode td)).
    { unfold swconfig_trig_mode_show. cbn [snd]. destruct td as [pm pl pt pb mode sm]. cbn [td_mode] in *.
      pose proof (forallb_upto 8 (fun mode => match parse_mode (strsep_all EmptyString (String.substring 0 127
        (snd (swconfig_trig_mode_show (TrigData 0 false 0 0 mode 0))))) (-1) with
        Ok m => m =? mode | Err _ => false end) ltac:(vm_compute; reflexivity) mode Hmode) as H.
      unfold swconfig_trig_mode_show in H. cbn [td_mode snd] in H. destruct (parse_mode _ _) as [m |]; [| discriminate].
      apply Z.eqb_eq in H. rewrite H. reflexivity. }
    rewrite H, u8_small by lia. unfold update_td. rewrite Hi.
    replace (with_mode (td_mode td) td) with td by (destruct td; reflexivity).
    rewrite list_insert_id by exact Hi. destruct s; reflexivity.
  - rewrite substring_all, parse_render_fresh by assumption.
    pose proof (parse_mode_range (strsep_all EmptyString (render ws)) 0 (fold_left effect (map fst ws) 0)) as Hrange.
    rewrite parse_render in Hrange |- * by (assumption || lia). destruct (forallb known (map fst ws)); [| reflexivity].
    rewrite u8_small by (specialize (Hrange ltac:(lia) eq_refl); lia). reflexivity.
Qed.

Lemma mode_file_words_witness :
  let td := TrigData 0 false 0 0 5 15 in
  let s := SwTrig 0 0 [] [] [] false [Led 0 (Some td)] in
  swconfig_trig_mode_store 0 (snd (swconfig_trig_mode_show td)) s = (Ok tt, s).
Proof.
  intros td s. refine (proj1 (mode_file_words s 0 0 td [("tx", " ")]%string eq_refl _ _ eq_refl _));
    [cbn; lia | discriminate | vm_compute; lia].
Defined.

(** ** A switch with two LEDs' worth of ports *)

Definition demo_parse (buf : string) : res Z :=
  if (buf =? "2")%string then Ok 2 else if (buf =? "0")%string then Ok 0 else Err (- EINVAL).
Definition demo_now (bytes : Z) : switch_now :=
  SwitchNow (Some (fun i => if i =? 1 then Some (PortLink true false false true 100) else None)) (Some (fun _ => (bytes, 0))).
Definition demo_trigger : switch_led_trigger :=
  let zeros := repeat 0 32 in
  let td := TrigData 2 false 0 0 SWCONFIG_LED_MODE_ALL SWCONFIG_LED_PORT_SPEED_ALL in
  SwTrig 2 0 zeros zeros zeros true [Led LED_OFF (Some td)].
Abbreviation demo_reachable := (led_reachable 0 10 100 1000 32 demo_parse demo_parse).

Lemma demo_parse_32 buf v : demo_parse buf = Ok v -> 0 <= v < 2 ^ 32.
Proof.
  unfold demo_parse.
  destruct (_ =? _)%string; [intros [= <-]; lia |]. destruct (_ =? _)%string; [intros [= <-]; lia | discriminate].
Qed.

Lemma demo_trigger_reachable : demo_reachable true demo_trigger.
Proof.
  eapply (led_next _ _ _ _ _ _ _ true false);
    [eapply (led_next _ _ _ _ _ _ _ true false); [apply led_created; reflexivity |] |].
  - eapply (step_attach _ _ _ _ _ _ _ _ (fun _ => 0) LED_OFF). reflexivity.
  - eapply (step_port_mask _ _ _ _ _ _ _ _ 0 "2"%string (Ok tt)). reflexivity.
Qed.

(** The same LED, after user space has written [max_brightness]. *)
Definition demo_lit : switch_led_trigger :=
  with_leds [Led LED_FULL (Some (TrigData 2 false 0 0 SWCONFIG_LED_MODE_ALL SWCONFIG_LED_PORT_SPEED_ALL))] demo_trigger.
Definition demo_no_link : switch_now := SwitchNow (Some (fun _ => None)) None.

Lemma demo_lit_reachable : demo_reachable false demo_lit.
Proof.
  eapply (led_next _ _ _ _ _ _ _ true true); [exact demo_trigger_reachable |].
  exact (step_others 0 10 100 1000 32 demo_parse demo_parse demo_trigger 0 LED_FULL _ eq_refl).
Qed.

(** Port 1 comes up: the LED is lit.  And a LED user space has lit stays lit
    without a link, although the driver wants it dark. *)
Lemma led_follows_ports_witness :
  (exists td', led_cdevs (swconfig_led_work_func 32 0 10 100 1000 (demo_now 7) demo_trigger) !! 0%nat =
    Some (Led LED_FULL (Some td'))) /\
  (exists td', led_cdevs (swconfig_led_work_func 32 0 10 100 1000 demo_no_link demo_lit) !! 0%nat =
    Some (Led LED_FULL (Some td')) /\ prev_brightness td' = LED_OFF).
Proof.
  split.
  - destruct (led_follows_ports 0 10 100 1000 32 demo_parse demo_parse demo_parse_32 true demo_trigger (demo_now 7) 0
      LED_OFF (TrigData 2 false 0 0 SWCONFIG_LED_MODE_ALL SWCONFIG_LED_PORT_SPEED_ALL) demo_trigger_reachable eq_refl)
      as (td' & H & _). exists td'. exact H.
  - destruct (led_follows_ports 0 10 100 1000 32 demo_parse demo_parse demo_parse_32 false demo_lit demo_no_link 0
      LED_FULL (TrigData 2 false 0 0 SWCONFIG_LED_MODE_ALL SWCONFIG_LED_PORT_SPEED_ALL) demo_lit_reachable eq_refl)
      as (td' & H & _ & Hw & _). exists td'. split; [exact H | exact Hw].
Defined.

Lemma leds_polled_and_dark_witness : sw_led_work demo_trigger = true.
Proof.
  apply (leds_polled_and_dark 0 10 100 1000 32 demo_parse demo_parse demo_parse_32 true demo_trigger
    demo_trigger_reachable).
  exists 0%nat, LED_OFF, (TrigData 2 false 0 0 SWCONFIG_LED_MODE_ALL SWCONFIG_LED_PORT_SPEED_ALL). split; [reflexivity |].
  discriminate.
Defined.

(** On a machine with a longer [unsigned long], a mask that is 0 in its low
    32 bits stops the polling but does not turn the LED off. *)
Lemma wide_port_mask_leaves_led_lit :
  let td := TrigData 2 true 0 LED_FULL SWCONFIG_LED_MODE_ALL SWCONFIG_LED_PORT_SPEED_ALL in
  let s := SwTrig 2 2 [] [] [] true [Led LED_FULL (Some td)] in
  let s' := snd (swconfig_trig_port_mask_store (fun _ => Ok (2 ^ 32)) 0 "0x100000000" s) in
  sw_led_work s' = false /\ map brightness (led_cdevs s') = [LED_FULL].
Proof. split; reflexivity. Qed.
