(* ===== verification/Fit.v ===== *)
(** * Partitions of a FIT image: [block/partitions/fit.c]

    A FIT image at the start of a block device is a flattened device tree
    that lists images behind it.  The parser looks up the configuration the
    boot loader selected and makes a read-only partition of every filesystem
    image the configuration loads, and one of what is left behind them.
    libfdt, the page cache and the live device tree are parameters: the
    interface [Fdt], and arguments of the parser. *)

From S2P Require Import Prelude Text CMonad.

Definition ERANGE : Z := 34.
Definition EFBIG : Z := 27.

Definition FIT_IMAGES_PATH : string := "/images".
Definition FIT_CONFS_PATH : string := "/configurations".
Definition FIT_DATA_POSITION_PROP : string := "data-position".
Definition FIT_DATA_OFFSET_PROP : string := "data-offset".
Definition FIT_DATA_SIZE_PROP : string := "data-size".
Definition FIT_TYPE_PROP : string := "type".
Definition FIT_FILESYSTEM_PROP : string := "filesystem".
Definition FIT_LOADABLE_PROP : string := "loadables".
Definition FIT_DEFAULT_PROP : string := "default".
Definition MIN_FREE_SECT : Z := 16.
Definition REMAIN_VOLNAME : string := "rootfs_data".

Definition SECTOR_SHIFT : Z := 9.

(** A flattened device tree.  Property values and names are the bytes they
    hold; [fdt_subnodes]: the nodes [fdt_for_each_subnode] visits. *)
Class Fdt (F : Type) := {
  fdt_check_header : F -> Z;
  fdt_totalsize : F -> Z;
  fdt_path_offset : F -> string -> Z;
  fdt_subnode_offset : F -> Z -> string -> Z;
  fdt_subnodes : F -> Z -> list Z;
  fdt_get_name : F -> Z -> option string;
  fdt_getprop : F -> Z -> string -> option string
}.

(** ** Strings of C *)

(** The bytes before the first NUL, and before the first [stop]. *)
Fixpoint before (stop : Ascii.ascii) (s : string) : string :=
  match s with
  | EmptyString => EmptyString
  | String c s' => if Ascii.eqb c stop then EmptyString else String c (before stop s')
  end.
Definition c_string : string -> string := before (Ascii.ascii_of_nat 0).

Definition byte_at (s : string) (i : nat) : Z :=
  match String.get i s with Some c => Z.of_nat (Ascii.nat_of_ascii c) | None => 0 end.
Definition be32_to_cpu (s : string) : Z :=
  Z.lor (Z.lor (Z.lor (Z.shiftl (byte_at s 0) 24) (Z.shiftl (byte_at s 1) 16)) (Z.shiftl (byte_at s 2) 8)) (byte_at s 3).

Fixpoint strnlen (s : string) (n : nat) : nat :=
  match n, s with
  | O, _ => O
  | _, EmptyString => O
  | S n', String c s' => if Ascii.eqb c (Ascii.ascii_of_nat 0) then O else S (strnlen s' n')
  end.

(** [strncmp] is 0; both strings go on with a NUL behind their bytes. *)
Fixpoint strncmp_eq (a b : string) (n : nat) : bool :=
  match n with
  | O => true
  | S n' =>
      let head := fun s => match s with EmptyString => Ascii.ascii_of_nat 0 | String c _ => c end in
      let rest := fun s => match s with EmptyString => EmptyString | String _ s' => s' end in
      Ascii.eqb (head a) (head b) &&
      (Ascii.eqb (head a) (Ascii.ascii_of_nat 0) || strncmp_eq (rest a) (rest b) n')
  end.

Fixpoint string_drop (n : nat) (s : string) : string :=
  match n, s with S n', String _ s' => string_drop n' s' | _, _ => s end.

(** ** Partitions *)

(** A partition handed to [put_partition], with what is set in its slot. *)
Record part := Part {
  part_slot : Z;
  part_from : Z;
  part_size : Z;
  part_readonly : bool;      (* ADDPART_FLAG_READONLY *)
  part_rootdev : bool;       (* ADDPART_FLAG_ROOTDEV *)
  part_has_info : bool;
  part_volname : string
}.

(** What the loop over the images changes: [struct parsed_partitions] as far
    as it is used, the last slot, and the end of the images; [pp_buf]: the
    texts appended. *)
Record fit_state := FitState {
  access_beyond_eod : bool;
  slot : Z;
  parts : list part;
  pp_buf : list string;
  imgmaxsect : Z
}.

Section Parser.
Context {F : Type} {fdt : Fdt F}.
Variable PAGE_SHIFT : Z.
(** [sizeof(info->volname)] *)
Variable volname_size : Z.

(** [while (loadables_rem_len > 1)]: [rest] are the bytes that remain. *)
Fixpoint find_loadable (fuel : nat) (image_name rest : string) : bool :=
  match fuel with
  | O => false
  | S fuel' =>
      if Z.of_nat (String.length rest) <=? 1 then false else
      let loadable_len := S (strnlen rest (String.length rest - 1)) in
      strncmp_eq image_name rest loadable_len || find_loadable fuel' image_name (string_drop loadable_len rest)
  end.

(** [fit], [size], the first sector of the FIT, the sectors of the device and
    the loadables of the configuration, as one image is looked at. *)
Definition parse_image (fit : F) (size fit_start_sector dsectors : Z) (config_loadables : string)
    (st : fit_state) (node : Z) : fit_state :=
  match fdt_get_name fit node, fdt_getprop fit node FIT_TYPE_PROP, fdt_getprop fit node FIT_DATA_SIZE_PROP with
  | Some image_name, Some image_type, Some image_len_be =>
      let image_len := be32_to_cpu image_len_be in
      if image_len =? 0 then st else
      match (match fdt_getprop fit node FIT_DATA_OFFSET_PROP with
             | Some image_offset_be => Some (u32 (be32_to_cpu image_offset_be + size))
             | None =>
                 match fdt_getprop fit node FIT_DATA_POSITION_PROP with
                 | Some image_pos_be => Some (be32_to_cpu image_pos_be)
                 | None => None
                 end
             end) with
      | None => st
      | Some image_pos =>
          if negb (c_string image_type =? FIT_FILESYSTEM_PROP)%string then st else
          if negb (find_loadable (String.length config_loadables) image_name config_loadables) then st else
          if cbool (Z.land image_pos (Z.shiftl 1 PAGE_SHIFT - 1)) then st else
          if cbool (Z.land image_len (Z.shiftl 1 PAGE_SHIFT - 1)) then st else
          let start_sect := Z.shiftr image_pos SECTOR_SHIFT in
          let nr_sects := Z.shiftr image_len SECTOR_SHIFT in
          let max := if imgmaxsect st <? start_sect + nr_sects then start_sect + nr_sects else imgmaxsect st in
          if dsectors <? start_sect + nr_sects then
            FitState true (slot st) (parts st) (pp_buf st) max
          else
            let label_min := Z.min (volname_size - 1) (Z.of_nat (String.length image_name)) in
            let volname := String.substring 0 (Z.to_nat label_min) image_name in
            let tmp := String.substring 0 (Z.to_nat (volname_size - 1)) ("(" +:+ volname +:+ ")") in
            FitState (access_beyond_eod st) (slot st + 1)
              (parts st ++ [Part (slot st + 1) (u64 (fit_start_sector + start_sect)) nr_sects true
                              (image_name =? c_string config_loadables)%string true volname])
              (pp_buf st ++ [tmp]) max
      end
  | _, _, _ => st
  end.

(** [put_partition] of what is left behind the images. *)
Definition add_remain_partition (fit_start_sector dsectors : Z) (st : fit_state) : fit_state :=
  FitState (access_beyond_eod st) (slot st + 1)
    (parts st ++ [Part (slot st + 1) (u64 (fit_start_sector + imgmaxsect st)) (u64 (dsectors - imgmaxsect st))
                    false false false REMAIN_VOLNAME])
    (pp_buf st ++ [String.substring 0 (Z.to_nat (volname_size - 1)) ("(" +:+ REMAIN_VOLNAME +:+ ")")])
    (imgmaxsect st).

(** [read_mapping_page] and [page_address]: [None] where one of them fails. *)
Definition fit_page := option F.

(** [/chosen], if there is one: whether it has a property [rootdisk], and its
    property [u-boot,bootconf]. *)
Definition chosen_node := option (bool * option string).

(** The configuration the boot loader selected, up to a [#]; [alloc]:
    [kmemdup_nul] succeeds. *)
Definition bootconf_of (alloc : bool) (chosen : chosen_node) : option string :=
  match chosen with
  | Some (_, Some bootconf_c) =>
      if (bootconf_c =? "")%string || negb alloc then None
      else Some (before (Ascii.ascii_of_nat 35) (c_string bootconf_c))
  | _ => None
  end.

(** The node of the configuration and its loadables, or the error. *)
Definition fit_loadables (fit : F) (bootconf : option string) : res string :=
  let config := fdt_path_offset fit FIT_CONFS_PATH in
  if config <? 0 then Err (- ENOENT) else
  match (match bootconf with
         | Some b => Some b
         | None => match fdt_getprop fit config FIT_DEFAULT_PROP with Some d => Some (c_string d) | None => None end
         end) with
  | None => Err (- ENOENT)
  | Some name =>
      let node := fdt_subnode_offset fit config name in
      if node <? 0 then Err (- ENOENT) else
      match fdt_getprop fit node FIT_LOADABLE_PROP with
      | Some l => if (l =? "")%string then Err (- ENOENT) else Ok l
      | None => Err (- ENOENT)
      end
  end.

(** From [fit] on: the image has been copied. *)
Definition parse_fit (fit : F) (bootconf : option string) (fit_start_sector dsectors : Z) (st : fit_state)
    (add_remain : bool) : Z * fit_state :=
  match fit_loadables fit bootconf with
  | Err e => (e, st)
  | Ok config_loadables =>
      let images := fdt_path_offset fit FIT_IMAGES_PATH in
      if images <? 0 then (- EINVAL, st) else
      let st := fold_left (parse_image fit (fdt_totalsize fit) fit_start_sector dsectors config_loadables)
                  (fdt_subnodes fit images) st in
      (1, if add_remain && (u64 (imgmaxsect st + MIN_FREE_SECT) <? dsectors)
          then add_remain_partition fit_start_sector dsectors st else st)
  end.

(** [alloc]: [kmemdup] succeeds, and [kmemdup_nul]; [capacity] of the disk in
    sectors; [slot0]: the last slot in use. *)
Definition parse_fit_partitions (page : fit_page) (capacity : Z) (chosen : chosen_node) (alloc alloc_conf : bool)
    (fit_start_sector sectors slot0 : Z) (add_remain : bool) : Z * fit_state :=
  let st := FitState false slot0 [] [] 0 in
  if cbool (Z.rem fit_start_sector (Z.shiftl 1 (PAGE_SHIFT - SECTOR_SHIFT))) then (- ERANGE, st) else
  match page with
  | None => (- EFAULT, st)
  | Some init_fit =>
      if cbool (fdt_check_header init_fit) then (0, st) else
      let dsectors := if cbool sectors then (if sectors <? capacity then sectors else capacity) else capacity in
      let dsize := u64 (Z.shiftl dsectors SECTOR_SHIFT) in
      let size := fdt_totalsize init_fit in
      if Z.shiftl 1 PAGE_SHIFT <? size then (0, st) else
      if dsize <=? size then (- EFBIG, FitState true slot0 [] [] 0) else
      if negb alloc then (- ENOMEM, st) else
      if match chosen with Some (true, _) => true | _ => false end then (0, st) else
      parse_fit init_fit (bootconf_of alloc_conf chosen) fit_start_sector dsectors st add_remain
  end.

Definition fit_partition (page : fit_page) (capacity : Z) (chosen : chosen_node) (alloc alloc_conf : bool) :
    Z * fit_state :=
  parse_fit_partitions page capacity chosen alloc alloc_conf 0 0 0 false.
End Parser.
