(* ===== verification/FitProps.v ===== *)
(** * Properties of the FIT partition parser

    The list of loadables, the partitions of a FIT image, and a small image. *)

From S2P Require Import Prelude Text CMonad Fit.

(** ** Strings of C *)

Lemma c_string_no_nul s : no_nul s = true -> c_string s = s.
Proof.
  unfold c_string. induction s as [| c s IH]; intros H; [reflexivity |]. cbn [no_nul] in H. apply andb_prop in H.
  destruct H as [Hc H]. cbn [before]. apply negb_true_iff in Hc. rewrite Hc, IH by exact H. reflexivity.
Qed.

Lemma c_string_first x r : no_nul x = true -> c_string (x +:+ NUL +:+ r) = x.
Proof.
  unfold c_string. induction x as [| c x IH]; intros H; [reflexivity |]. cbn [no_nul] in H. apply andb_prop in H.
  destruct H as [Hc H]. rewrite append_cons. cbn [before]. apply negb_true_iff in Hc. rewrite Hc, IH by exact H. reflexivity.
Qed.

Lemma strnlen_first x r n : no_nul x = true -> (String.length x <= n)%nat -> strnlen (x +:+ NUL +:+ r) n = String.length x.
Proof.
  revert n. induction x as [| c x IH]; intros n H Hn.
  - destruct n; reflexivity.
  - cbn [no_nul] in H. apply andb_prop in H. destruct H as [Hc H]. apply negb_true_iff in Hc. cbn [String.length] in Hn.
    destruct n as [| n]; [lia |]. rewrite append_cons. cbn [strnlen String.length]. rewrite Hc, IH by (assumption || lia).
    reflexivity.
Qed.

Lemma drop_first x r : string_drop (S (String.length x)) (x +:+ NUL +:+ r) = r.
Proof.
  induction x as [| c x IH]; [reflexivity |]. rewrite append_cons. cbn [String.length string_drop]. exact IH.
Qed.

(** A name against one entry of the list, up to and with its NUL. *)
Lemma strncmp_first a x r : no_nul a = true -> no_nul x = true ->
  strncmp_eq a (x +:+ NUL +:+ r) (S (String.length x)) = true <-> a = x.
Proof.
  revert a. induction x as [| c x IH]; intros a Ha Hx.
  - cbn [String.length]. destruct a as [| d a]; [split; reflexivity |]. cbn [no_nul] in Ha. apply andb_prop in Ha.
    destruct Ha as [Hd _]. apply negb_true_iff in Hd. cbn [strncmp_eq]. rewrite append_nil.
    change (Ascii.eqb d (Ascii.ascii_of_nat 0) && (Ascii.eqb d (Ascii.ascii_of_nat 0) || true) = true <->
      String d a = EmptyString). rewrite Hd. split; discriminate.
  - cbn [no_nul] in Hx. apply andb_prop in Hx. destruct Hx as [Hc Hx]. apply negb_true_iff in Hc.
    rewrite append_cons. cbn [String.length]. destruct a as [| d a].
    + cbn [strncmp_eq]. rewrite Ascii.eqb_sym, Hc. split; discriminate.
    + cbn [no_nul] in Ha. apply andb_prop in Ha. destruct Ha as [Hd Ha]. apply negb_true_iff in Hd.
      specialize (IH a Ha Hx). cbn [String.length] in IH.
      change (strncmp_eq (String d a) (String c (x +:+ NUL +:+ r)) (S (S (String.length x)))) with
        (Ascii.eqb d c && (Ascii.eqb d (Ascii.ascii_of_nat 0) || strncmp_eq a (x +:+ NUL +:+ r) (S (String.length x)))).
      rewrite Hd. cbn [orb]. rewrite andb_true_iff, IH. destruct (Ascii.eqb_spec d c) as [-> | Hne].
      * split; [intros [_ ->]; reflexivity | intros [= ->]; auto].
      * split; [intros [? _]; discriminate | intros [= ]; contradiction].
Qed.

(** The fuel [find_loadable] gets is enough for every list of names. *)
Lemma find_loadable_names name names fuel :
  no_nul name = true -> name <> EmptyString -> forallb no_nul names = true ->
  (String.length (packed names) <= fuel)%nat ->
  find_loadable fuel name (packed names) = true <-> In name names.
Proof.
  intros Hn Hne. revert fuel. induction names as [| x names IH]; intros fuel Hok Hf.
  - cbn [packed]. destruct fuel; cbn; split; try discriminate; try contradiction.
  - cbn [forallb] in Hok. apply andb_prop in Hok. destruct Hok as [Hx Hok]. cbn [packed] in *.
    assert (Hl : String.length (x +:+ NUL +:+ packed names) = (String.length x + S (String.length (packed names)))%nat)
      by (rewrite !length_app_s; reflexivity).
    destruct fuel as [| fuel]; [lia |]. cbn [find_loadable In].
    destruct (Z.leb_spec (Z.of_nat (String.length (x +:+ NUL +:+ packed names))) 1) as [H1 | H1].
    + rewrite Hl in H1. destruct x as [| c x]; [| cbn [String.length] in H1; lia]. destruct names as [| y names].
      * split; [discriminate |]. intros [<- | []]; contradiction.
      * cbn [packed] in H1. rewrite !length_app_s in H1. change (String.length NUL) with 1%nat in H1. lia.
    + rewrite strnlen_first by (assumption || lia). rewrite drop_first, orb_true_iff, strncmp_first, IH by (assumption || lia).
      split; (intros [-> | H]; [left; reflexivity | right; exact H]).
Qed.

(** ** Big-endian numbers *)

Lemma byte_at_range s i : 0 <= byte_at s i < 2 ^ 8.
Proof.
  unfold byte_at. destruct (String.get i s) as [c |]; [| lia]. pose proof (Ascii.nat_ascii_bounded c).
  change (2 ^ 8) with 256. lia.
Qed.

Lemma shiftl_small x n w : 0 <= n <= w -> 0 <= x < 2 ^ (w - n) -> 0 <= Z.shiftl x n < 2 ^ w.
Proof.
  intros Hn Hx. rewrite Z.shiftl_mul_pow2 by lia.
  assert (H : 2 ^ w = 2 ^ (w - n) * 2 ^ n) by (rewrite <- Z.pow_add_r by lia; f_equal; lia).
  pose proof (Z.pow_pos_nonneg 2 n). nia.
Qed.

Lemma be32_range s : 0 <= be32_to_cpu s < 2 ^ 32.
Proof.
  unfold be32_to_cpu. pose proof (byte_at_range s) as H.
  assert (Hp : forall i n, 0 <= n <= 24 -> 0 <= Z.shiftl (byte_at s i) n < 2 ^ 32).
  { intros i n Hn. apply shiftl_small; [lia |]. specialize (H i). pose proof (Z.pow_le_mono_r 2 8 (32 - n)). lia. }
  repeat apply lor_small; try lia; try (apply Hp; lia). specialize (H 3%nat). lia.
Qed.

(** ** The partitions of an image *)

Section Parse.
Context {F : Type} {fdt : Fdt F}.
Variable PAGE_SHIFT volname_size : Z.
Hypothesis page_shift : SECTOR_SHIFT <= PAGE_SHIFT < 32.
Variable fit : F.
(** What libfdt promises of names: they end before their NUL, and are not
    empty. *)
Hypothesis name_ok : forall node n, fdt_get_name fit node = Some n -> no_nul n = true /\ n <> EmptyString.
(** The names the configuration loads. *)
Variable loads : list string.
Hypothesis loads_ok : forallb no_nul loads = true.

Definition page_size : Z := 2 ^ PAGE_SHIFT.

(** Where the data of an image starts: behind the tree, or at a place of its
    own; a position is 32 bits wide. *)
Definition data_position (node : Z) : option Z :=
  match fdt_getprop fit node FIT_DATA_OFFSET_PROP with
  | Some o => Some (u32 (be32_to_cpu o + fdt_totalsize fit))
  | None => option_map be32_to_cpu (fdt_getprop fit node FIT_DATA_POSITION_PROP)
  end.

(** The node is a filesystem image the configuration loads, in whole pages. *)
Record is_image (node : Z) (name : string) (pos len : Z) : Prop := {
  im_name : fdt_get_name fit node = Some name;
  im_type : option_map c_string (fdt_getprop fit node FIT_TYPE_PROP) = Some FIT_FILESYSTEM_PROP;
  im_len : option_map be32_to_cpu (fdt_getprop fit node FIT_DATA_SIZE_PROP) = Some len;
  im_pos : data_position node = Some pos;
  im_loaded : In name loads;
  im_some : len <> 0;
  im_pos_page : pos mod page_size = 0;
  im_len_page : len mod page_size = 0
}.

(** What the parser does with one. *)
Definition place (fit_start_sector dsectors : Z) (st : fit_state) (name : string) (pos len : Z) : fit_state :=
  let start_sect := Z.shiftr pos SECTOR_SHIFT in
  let nr_sects := Z.shiftr len SECTOR_SHIFT in
  let max := Z.max (imgmaxsect st) (start_sect + nr_sects) in
  if dsectors <? start_sect + nr_sects then FitState true (slot st) (parts st) (pp_buf st) max
  else
    let volname := String.substring 0 (Z.to_nat (Z.min (volname_size - 1) (Z.of_nat (String.length name)))) name in
    FitState (access_beyond_eod st) (slot st + 1)
      (parts st ++ [Part (slot st + 1) (u64 (fit_start_sector + start_sect)) nr_sects true
                      (name =? c_string (packed loads))%string true volname])
      (pp_buf st ++ [String.substring 0 (Z.to_nat (volname_size - 1)) ("(" +:+ volname +:+ ")")]) max.

Lemma land_page x : cbool (Z.land x (Z.shiftl 1 PAGE_SHIFT - 1)) = negb (x mod page_size =? 0).
Proof.
  unfold SECTOR_SHIFT in page_shift. unfold cbool, page_size. do 2 f_equal.
  rewrite Z.shiftl_1_l, Z.sub_1_r, <- Z.ones_equiv. apply Z.land_ones. lia.
Qed.

Ltac not_image :=
  right; split; [| reflexivity]; intros ? ? ? [H1 H2 H3 H4 H5 H6 H7 H8];
  repeat match goal with
  | E : fdt_get_name _ _ = _ |- _ => rewrite E in *; clear E
  | E : fdt_getprop _ _ _ = _ |- _ => rewrite E in *; clear E
  end; cbn [option_map] in *; congruence.

Lemma parse_image_cases fit_start_sector dsectors st node :
  let st' := parse_image PAGE_SHIFT volname_size fit (fdt_totalsize fit) fit_start_sector dsectors (packed loads) st node in
  (exists name pos len, is_image node name pos len /\ st' = place fit_start_sector dsectors st name pos len) \/
  ((forall name pos len, ~ is_image node name pos len) /\ st' = st).
Proof.
  intros st'. subst st'. unfold parse_image.
  destruct (fdt_get_name fit node) as [name |] eqn:Hname; [| not_image].
  destruct (fdt_getprop fit node FIT_TYPE_PROP) as [ty |] eqn:Hty; [| not_image].
  destruct (fdt_getprop fit node FIT_DATA_SIZE_PROP) as [lb |] eqn:Hlb; [| not_image].
  destruct (Z.eqb_spec (be32_to_cpu lb) 0) as [H0 | H0]; [not_image |].
  change (match fdt_getprop fit node FIT_DATA_OFFSET_PROP with Some _ => _ | None => _ end) with (data_position node).
  destruct (data_position node) as [pos |] eqn:Hpos; [| not_image].
  destruct (String.eqb_spec (c_string ty) FIT_FILESYSTEM_PROP) as [Ht | Ht]; cbn [negb]; [| not_image].
  destruct (name_ok _ _ Hname) as [Hnn Hne].
  pose proof (find_loadable_names name loads _ Hnn Hne loads_ok (Nat.le_refl _)) as Hfind.
  destruct (find_loadable _ name (packed loads)); cbn [negb];
    [| assert (~ In name loads) by (rewrite <- Hfind; discriminate); not_image].
  rewrite !land_page.
  destruct (Z.eqb_spec (pos mod page_size) 0) as [Hp | Hp]; cbn [negb]; [| not_image].
  destruct (Z.eqb_spec (be32_to_cpu lb mod page_size) 0) as [Hl | Hl]; cbn [negb]; [| not_image].
  left. exists name, pos, (be32_to_cpu lb). split.
  - constructor; rewrite ?Hty, ?Hlb; cbn [option_map]; try congruence. apply Hfind. reflexivity.
  - unfold place.
    destruct (Z.ltb_spec (imgmaxsect st) (Z.shiftr pos SECTOR_SHIFT + Z.shiftr (be32_to_cpu lb) SECTOR_SHIFT));
      [rewrite Z.max_r by lia | rewrite Z.max_l by lia]; reflexivity.
Qed.
Lemma is_image_range node name pos len : is_image node name pos len ->
  0 <= Z.shiftr pos SECTOR_SHIFT < 2 ^ 23 /\ 0 <= Z.shiftr len SECTOR_SHIFT < 2 ^ 23.
Proof.
  intros [_ _ Hl Hp _ _ _ _].
  assert (H : forall x, 0 <= x < 2 ^ 32 -> 0 <= Z.shiftr x SECTOR_SHIFT < 2 ^ 23).
  { intros x Hx. unfold SECTOR_SHIFT. rewrite Z.shiftr_div_pow2 by lia. change (2 ^ 32) with (2 ^ 9 * 2 ^ 23) in Hx.
    split; [apply Z.div_pos; lia | apply Z.div_lt_upper_bound; lia]. }
  split; apply H.
  - unfold data_position in Hp. destruct (fdt_getprop fit node FIT_DATA_OFFSET_PROP); [injection Hp as <-; apply u32_range |].
    destruct (fdt_getprop fit node FIT_DATA_POSITION_PROP); [| discriminate]. injection Hp as <-. apply be32_range.
  - destruct (fdt_getprop fit node FIT_DATA_SIZE_PROP); [| discriminate]. injection Hl as <-. apply be32_range.
Qed.

(** The sector behind the image, counted from the FIT. *)
Definition image_end (pos len : Z) : Z := Z.shiftr pos SECTOR_SHIFT + Z.shiftr len SECTOR_SHIFT.

Variables fit_start_sector dsectors slot0 : Z.
Hypothesis start_ok : 0 <= fit_start_sector.
Hypothesis no_wrap : 0 <= dsectors /\ fit_start_sector + dsectors < 2 ^ 63.

(** The partition of an image. *)
Record made_from (p : part) (name : string) (pos len : Z) : Prop := {
  mf_from : part_from p = fit_start_sector + Z.shiftr pos SECTOR_SHIFT;
  mf_size : part_size p = Z.shiftr len SECTOR_SHIFT;
  mf_readonly : part_readonly p = true;
  mf_rootdev : part_rootdev p = true <-> head loads = Some name;
  mf_name : part_has_info p = true /\
    part_volname p = String.substring 0 (Z.to_nat (Z.min (volname_size - 1) (Z.of_nat (String.length name)))) name
}.

(** The images among the nodes, in order: name, position and length. *)
Inductive collected : list Z -> list (string * Z * Z) -> Prop :=
| coll_nil : collected [] []
| coll_image node name pos len nodes images : is_image node name pos len -> collected nodes images ->
    collected (node :: nodes) ((name, pos, len) :: images)
| coll_other node nodes images : (forall name pos len, ~ is_image node name pos len) -> collected nodes images ->
    collected (node :: nodes) images.

Definition end_of (i : string * Z * Z) : Z := let '(_, pos, len) := i in image_end pos len.
Definition on_device (i : string * Z * Z) : bool := end_of i <=? dsectors.
Definition made (p : part) (i : string * Z * Z) : Prop := let '(name, pos, len) := i in made_from p name pos len.

(** The sector behind all images, those beyond the device included. *)
Definition last_end (images : list (string * Z * Z)) : Z := fold_left (fun m i => Z.max m (end_of i)) images 0.

(** The state after the images [images]. *)
Record parsed (images : list (string * Z * Z)) (st : fit_state) : Prop := {
  pd_made : Forall2 made (parts st) (List.filter on_device images);
  pd_slots : map part_slot (parts st) = tabulate (Z.of_nat (length (parts st))) (fun k => slot0 + 1 + k);
  pd_slot : slot st = slot0 + Z.of_nat (length (parts st));
  pd_max : imgmaxsect st = last_end images;
  pd_range : 0 <= imgmaxsect st < 2 ^ 24;
  pd_beyond : access_beyond_eod st = existsb (fun i => negb (on_device i)) images
}.

Lemma rootdev_first name : In name loads ->
  (name =? c_string (packed loads))%string = true <-> head loads = Some name.
Proof.
  intros Hin. pose proof loads_ok as Hok. destruct loads as [| x l]; [contradiction |]. cbn [forallb] in Hok.
  apply andb_prop in Hok. destruct Hok as [Hx _]. cbn [packed head]. rewrite c_string_first by exact Hx.
  rewrite String.eqb_eq. split; [intros ->; reflexivity | intros [= ->]; reflexivity].
Qed.

Lemma place_parsed images st node name pos len :
  parsed images st -> is_image node name pos len ->
  parsed (images ++ [(name, pos, len)]) (place fit_start_sector dsectors st name pos len).
Proof.
  intros [Hm Hs Hslot Hmax Hr Hb] Him. pose proof (is_image_range _ _ _ _ Him) as [Hp Hl].
  assert (He : 0 <= image_end pos len < 2 ^ 24) by (unfold image_end; lia).
  assert (Hlast : last_end (images ++ [(name, pos, len)]) = Z.max (imgmaxsect st) (image_end pos len)).
  { unfold last_end in *. rewrite fold_left_app, <- Hmax. reflexivity. }
  unfold place. fold (image_end pos len). rewrite <- Hlast.
  destruct (Z.ltb_spec dsectors (image_end pos len)) as [Hout | Hfits];
    (assert (Hon : on_device (name, pos, len) = (image_end pos len <=? dsectors)) by reflexivity);
    [rewrite (proj2 (Z.leb_gt _ _)) in Hon by lia | rewrite (proj2 (Z.leb_le _ _)) in Hon by lia];
    (constructor; cbn [parts imgmaxsect slot access_beyond_eod];
      rewrite ?List.filter_app, ?existsb_app; cbn [List.filter existsb]; rewrite ?Hon, ?app_nil_r, ?Hlast;
      [| | | reflexivity | lia | ]).
  - exact Hm.
  - exact Hs.
  - exact Hslot.
  - symmetry. apply orb_true_r.
  - apply Forall2_app; [exact Hm |]. repeat constructor; cbn; try reflexivity; try apply rootdev_first, Him.
    unfold u64. rewrite uwrap_small; [reflexivity |]. unfold image_end in Hfits. lia.
  - rewrite map_app, length_app, Hs. cbn [length map]. replace (Z.of_nat (length (parts st) + 1)) with
      (Z.of_nat (length (parts st)) + 1) by lia. rewrite tabulate_snoc by lia. f_equal. cbn. rewrite Hslot. f_equal. lia.
  - rewrite length_app. cbn [length]. lia.
  - rewrite Hb. symmetry. apply orb_false_r.
Qed.

Lemma parse_images_parsed nodes images st : parsed images st -> exists more, collected nodes more /\
  parsed (images ++ more)
    (fold_left (parse_image PAGE_SHIFT volname_size fit (fdt_totalsize fit) fit_start_sector dsectors (packed loads)) nodes st).
Proof.
  revert images st. induction nodes as [| n nodes IH]; intros images st H.
  - exists []. rewrite app_nil_r. split; [constructor | exact H].
  - cbn [fold_left]. destruct (parse_image_cases fit_start_sector dsectors st n) as [(name & pos & len & Him & ->) | [Hno ->]].
    + destruct (IH _ _ (place_parsed images st n name pos len H Him)) as (more & Hc & Hp). exists ((name, pos, len) :: more).
      split; [constructor; assumption |]. rewrite <- app_assoc in Hp. exact Hp.
    + destruct (IH _ _ H) as (more & Hc & Hp). exists more. split; [constructor; assumption | exact Hp].
Qed.

Lemma parsed_nil : parsed [] (FitState false slot0 [] [] 0).
Proof. constructor; cbn; try reflexivity; [constructor | lia | lia]. Qed.

(** What a successful parse leaves: a partition for each image that ends on
    the device, in order, and behind all images, those beyond the device
    included, one of the rest, exactly if it is asked for and more than
    [MIN_FREE_SECT] sectors long. *)
Definition partitions (add_remain : bool) (st : fit_state) : Prop :=
  exists images, collected (fdt_subnodes fit (fdt_path_offset fit FIT_IMAGES_PATH)) images /\
  exists ps, Forall2 made ps (List.filter on_device images) /\
  parts st = ps ++ (if add_remain && (last_end images + MIN_FREE_SECT <? dsectors)
    then [Part (slot0 + 1 + Z.of_nat (length ps)) (fit_start_sector + last_end images) (dsectors - last_end images) false false false REMAIN_VOLNAME]
    else []) /\
  map part_slot (parts st) = tabulate (Z.of_nat (length (parts st))) (fun k => slot0 + 1 + k) /\
  access_beyond_eod st = existsb (fun i => negb (on_device i)) images.

Lemma parse_fit_partitioned bootconf add_remain :
  fit_loadables fit bootconf = Ok (packed loads) ->
  let '(ret, st) := parse_fit PAGE_SHIFT volname_size fit bootconf fit_start_sector dsectors
    (FitState false slot0 [] [] 0) add_remain in
  ret = - EINVAL /\ parts st = [] \/ ret = 1 /\ partitions add_remain st.
Proof.
  intros Hload. unfold parse_fit. rewrite Hload.
  destruct (fdt_path_offset fit FIT_IMAGES_PATH <? 0); [left; split; reflexivity |]. right. split; [reflexivity |].
  destruct (parse_images_parsed (fdt_subnodes fit (fdt_path_offset fit FIT_IMAGES_PATH)) [] _ parsed_nil) as (images & Hc & Hp).
  cbn [app] in Hp. set (st := fold_left _ _ _) in *. change (fold_left _ _ _) with st. destruct Hp as [Hm Hs Hslot Hmax Hr Hb].
  exists images. split; [exact Hc |]. exists (parts st). split; [exact Hm |].
  unfold MIN_FREE_SECT, u64. rewrite uwrap_small, Hmax by lia. fold MIN_FREE_SECT.
  destruct (add_remain && _) eqn:Hadd; [| rewrite app_nil_r; auto].
  apply andb_prop in Hadd. destruct Hadd as [_ Hlt]. apply Z.ltb_lt in Hlt.
  unfold add_remain_partition. cbn [parts access_beyond_eod]. unfold u64. rewrite uwrap_small by lia. split; [| split; [| exact Hb]].
  - f_equal. f_equal. f_equal; [lia | lia | rewrite Hmax; apply uwrap_small; unfold MIN_FREE_SECT in Hlt; lia].
  - rewrite map_app, length_app, Hs. cbn [length map]. replace (Z.of_nat (length (parts st) + 1)) with
      (Z.of_nat (length (parts st)) + 1) by lia. rewrite tabulate_snoc by lia. f_equal. cbn. rewrite Hslot. f_equal. lia.
Qed.
End Parse.

(** C32: the partitions of a FIT image.  When parsing succeeds there is a
    read-only partition for exactly those images of the tree that are
    filesystems, are loaded by the configuration, consist of whole pages and
    end on the device, in the order of the tree, at their place and of their
    size, with the first loadable marked as root.  The place of an image is
    what the code computes with 32 bits: an offset so large that its sum with
    the size of the tree wraps gives a place in front.  Behind the last of the
    images, those beyond the device included, the remaining partition goes to
    the end of the device; it is there exactly if it is asked for and that
    leaves it more than 16 sectors.  The slots are consecutive, and an image
    beyond the device is noted.  If parsing fails there is no partition. *)
Theorem fit_partitions_sound {F : Type} {fdt : Fdt F} (PAGE_SHIFT volname_size : Z) (fit : F) (loads : list string)
    (capacity fit_start_sector sectors slot0 : Z) (chosen : chosen_node) (alloc alloc_conf add_remain : bool) :
  SECTOR_SHIFT <= PAGE_SHIFT < 32 ->
  (forall node n, fdt_get_name fit node = Some n -> no_nul n = true /\ n <> EmptyString) ->
  forallb no_nul loads = true ->
  fit_loadables fit (bootconf_of alloc_conf chosen) = Ok (packed loads) ->
  0 <= fit_start_sector -> 0 <= sectors -> 0 <= capacity -> fit_start_sector + capacity < 2 ^ 63 ->
  let dsectors := if cbool sectors then Z.min sectors capacity else capacity in
  let '(ret, st) := parse_fit_partitions PAGE_SHIFT volname_size (Some fit) capacity chosen alloc alloc_conf
    fit_start_sector sectors slot0 add_remain in
  (ret = 1 -> partitions PAGE_SHIFT volname_size fit loads fit_start_sector dsectors slot0 add_remain st) /\
  (ret <> 1 -> parts st = []).
Proof.
  intros Hps Hname Hloads Hload Hfs Hsec Hcap Hwrap dsectors.
  assert (Hd : (if cbool sectors then if sectors <? capacity then sectors else capacity else capacity) = dsectors).
  { unfold dsectors. destruct (cbool sectors); [| reflexivity]. destruct (Z.ltb_spec sectors capacity); lia. }
  assert (Hdr : 0 <= dsectors /\ fit_start_sector + dsectors < 2 ^ 63) by (unfold dsectors; destruct (cbool sectors); lia).
  unfold parse_fit_partitions. rewrite Hd. clearbody dsectors. clear Hd.
  destruct (cbool (Z.rem _ _)); [split; [discriminate | reflexivity] |].
  destruct (cbool (fdt_check_header fit)); [split; [discriminate | reflexivity] |].
  destruct (_ <? fdt_totalsize fit); [split; [discriminate | reflexivity] |].
  destruct (_ <=? fdt_totalsize fit); [split; [discriminate | reflexivity] |].
  destruct (negb alloc); [split; [discriminate | reflexivity] |].
  destruct (match chosen with Some (true, _) => true | _ => false end); [split; [discriminate | reflexivity] |].
  pose proof (parse_fit_partitioned PAGE_SHIFT volname_size Hps fit Hname loads Hloads fit_start_sector dsectors slot0
    Hfs Hdr (bootconf_of alloc_conf chosen) add_remain Hload) as H.
  destruct (parse_fit _ _ _ _ _ _ _ _) as [ret st]. destruct H as [[-> Hp] | [-> Hp]]; (split; [| auto]).
  - discriminate.
  - intros _. exact Hp.
  - congruence.
Qed.

(** ** A small image

    A tree of one page with a kernel and a filesystem of two pages behind it,
    whose offset is a parameter. *)

Definition bytes4 (a b c d : nat) : string :=
  String (Ascii.ascii_of_nat a) (String (Ascii.ascii_of_nat b) (String (Ascii.ascii_of_nat c)
    (String (Ascii.ascii_of_nat d) EmptyString))).

Definition demo_fdt (offset : string) : Fdt unit := {|
  fdt_check_header := fun _ => 0;
  fdt_totalsize := fun _ => 4096;
  fdt_path_offset := fun _ path => if (path =? "/images")%string then 1 else 2;
  fdt_subnode_offset := fun _ _ name => if (name =? "config-1")%string then 3 else -1;
  fdt_subnodes := fun _ _ => [10; 11];
  fdt_get_name := fun _ node => Some (if node =? 10 then "kernel" else "rootfs");
  fdt_getprop := fun _ node prop =>
    if (prop =? "default")%string then Some ("config-1" +:+ NUL)
    else if (prop =? "loadables")%string then Some (packed ["rootfs"])
    else if (prop =? "type")%string then Some ((if node =? 10 then "kernel" else "filesystem") +:+ NUL)
    else if (prop =? "data-size")%string then Some (bytes4 0 0 32 0)
    else if (prop =? "data-offset")%string then Some (if node =? 10 then bytes4 0 0 32 0 else offset)
    else None
|}.

Lemma fit_partitions_sound_witness :
  let fdt := demo_fdt (bytes4 0 0 0 0) in
  let '(ret, st) := parse_fit_partitions (fdt := fdt) 12 64 (Some tt) 1000 None true true 0 0 0 true in
  ret = 1 /\ map part_from (parts st) = [8; 24] /\ map part_size (parts st) = [16; 976] /\
  partitions (fdt := fdt) 12 64 tt ["rootfs"] 0 1000 0 true st.
Proof.
  intros fdt.
  assert (H0 : SECTOR_SHIFT <= 12 < 32) by (unfold SECTOR_SHIFT; lia).
  assert (H1 : forall node n, fdt_get_name tt node = Some n -> no_nul n = true /\ n <> EmptyString).
  { intros node n. cbn. destruct (node =? 10); intros [= <-]; split; try reflexivity; discriminate. }
  pose proof (fit_partitions_sound (fdt := fdt) 12 64 tt ["rootfs"] 1000 0 0 0 None true true true H0 H1 eq_refl eq_refl
    ltac:(lia) ltac:(lia) ltac:(lia) ltac:(lia)) as H.
  destruct (parse_fit_partitions _ _ _ _ _ _ _ _ _ _ _) as [ret st] eqn:E. vm_compute in E. injection E as <- <-.
  split; [reflexivity |]. split; [reflexivity |]. split; [reflexivity |]. exact (proj1 H eq_refl).
Defined.

(** A large offset wraps: the filesystem starts at the tree itself. *)
Lemma image_offset_wraps :
  map part_from (parts (snd (parse_fit_partitions (fdt := demo_fdt (bytes4 255 255 240 0)) 12 64 (Some tt) 1000 None
    true true 0 0 0 false))) = [0].
Proof. vm_compute. reflexivity. Qed.
