(* ===== verification/Mdio.v ===== *)
(** * MDIO buses

    The interface of [struct mii_bus] the older switch drivers use, and a bus
    behind which every register keeps what is written to it. *)

From S2P Require Import Prelude CMonad.

(** [bus->read(bus, phy, reg)] and [bus->write(bus, phy, reg, val)], which both
    return an [int]; [B] is the state of the bus and what is on it. *)
Class MiiBus (B : Type) := {
  mii_read : Z -> Z -> B -> Z * B;
  mii_write : Z -> Z -> Z -> B -> Z * B
}.

(** Registers that keep what is written: [mii_reg b phy reg]. *)
Class MiiStore (B : Type) {MB : MiiBus B} := {
  mii_reg : B -> Z -> Z -> Z;
  mii_store p r v b q s :
    mii_reg (snd (mii_write p r v b)) q s = if (q =? p) && (s =? r) then v else mii_reg b q s
}.

(** The plainest such bus. *)
Definition mii_mem : Type := Z -> Z -> Z.
#[export] Instance mii_mem_bus : MiiBus mii_mem := {|
  mii_read p r b := (b p r, b);
  mii_write p r v b := (0, fun q s => if (q =? p) && (s =? r) then v else b q s)
|}.
#[export] Instance mii_mem_store : MiiStore mii_mem.
Proof. refine {| mii_reg b := b |}. reflexivity. Defined.
