(* ===== verification/Psb6970.v ===== *)
(** * The Lantiq PSB6970 switch: [psb6970.c]

    A switch of seven ports with sixteen VLANs.  The driver keeps the whole
    configuration in its own structure and writes all of it to the registers
    when asked to apply it. *)

From S2P Require Import Prelude CMonad SmiCore Mdio.

Definition PSB6970_MAX_VLANS : Z := 16.
Definition PSB6970_NUM_PORTS : Z := 7.
Definition PSB6970_DEFAULT_PORT_CPU : Z := 6.
Definition PSB6970_IS_CPU_PORT (x : Z) : bool := 4 <? x.
Definition PHYADDR (reg : Z) : Z * Z := (Z.land (Z.shiftr reg 5) 0xff, Z.land reg 0x1f).

Definition PSB6970_CI0 : Z := 0x0100.
Definition PSB6970_CI0_MASK : Z := 0x000f.
Definition PSB6970_CI1 : Z := 0x0101.
Definition PSB6970_CI1_VAL : Z := 0x2599.
Definition PSB6970_CI1_MASK : Z := 0xffff.
Definition PSB6970_VFxL (i : Z) : Z := i * 2 + 0x10.
Definition PSB6970_VFxL_VV : Z := Z.shiftl 1 15.
Definition PSB6970_VFxH (i : Z) : Z := i * 2 + 0x11.
Definition PSB6970_VFxH_TM_SHIFT : Z := 7.
Definition PSB6970_EC (p : Z) : Z := p * 0x20 + 2.
Definition PSB6970_EC_IFNTE : Z := Z.shiftl 1 1.
Definition PSB6970_PBVM (p : Z) : Z := p * 0x20 + 3.
Definition PSB6970_PBVM_VMCE : Z := Z.shiftl 1 8.
Definition PSB6970_PBVM_AOVTP : Z := Z.shiftl 1 9.
Definition PSB6970_PBVM_VSD : Z := Z.shiftl 1 10.
Definition PSB6970_PBVM_VC : Z := Z.shiftl 1 11.
Definition PSB6970_PBVM_TBVE : Z := Z.shiftl 1 13.
Definition PSB6970_DVID (p : Z) : Z := p * 0x20 + 4.

(** The fields that are cleared on reset. *)
Record psb6970_priv := Psb {
  vlan : bool;
  vlan_id : list Z;       (* u16 [16] *)
  vlan_table : list Z;    (* u8 [16] *)
  vlan_tagged : Z;        (* u8 *)
  psb_pvid : list Z       (* u16 [7] *)
}.

(** With the lock and the bus. *)
Record psb6970 (B : Type) := PsbDev { psb_priv : psb6970_priv; reg_mutex : bool; psb_bus : B }.
Arguments PsbDev {B}.
Arguments psb_priv {B}.
Arguments reg_mutex {B}.
Arguments psb_bus {B}.

Definition with_vlan x (p : psb6970_priv) := Psb x (vlan_id p) (vlan_table p) (vlan_tagged p) (psb_pvid p).
Definition with_vlan_id x (p : psb6970_priv) := Psb (vlan p) x (vlan_table p) (vlan_tagged p) (psb_pvid p).
Definition with_vlan_table x (p : psb6970_priv) := Psb (vlan p) (vlan_id p) x (vlan_tagged p) (psb_pvid p).
Definition with_vlan_tagged x (p : psb6970_priv) := Psb (vlan p) (vlan_id p) (vlan_table p) x (psb_pvid p).
Definition with_psb_pvid x (p : psb6970_priv) := Psb (vlan p) (vlan_id p) (vlan_table p) (vlan_tagged p) x.

Section Driver.
Context {B : Type} {MB : MiiBus B}.
(** [SWITCH_PORT_FLAG_TAGGED]. *)
Variable tagged_flag : Z.

Abbreviation MP := (M (psb6970 B)).

Definition psb6970_mii_read (reg : Z) : MP Z := fun s =>
  let (v, b) := mii_read (fst (PHYADDR reg)) (snd (PHYADDR reg)) (psb_bus s) in
  (Ok (u16 v), PsbDev (psb_priv s) (reg_mutex s) b).

Definition psb6970_mii_write (reg val : Z) : MP unit := modify (fun s =>
  PsbDev (psb_priv s) (reg_mutex s)
    (snd (mii_write (fst (PHYADDR reg)) (snd (PHYADDR reg)) (u16 val) (psb_bus s)))).

Definition on_priv (f : psb6970_priv -> psb6970_priv) : MP unit := modify (fun s =>
  PsbDev (f (psb_priv s)) (reg_mutex s) (psb_bus s)).
Definition of_priv {A} (f : psb6970_priv -> A) : MP A := fun s => (Ok (f (psb_priv s)), s).
Definition set_mutex (b : bool) : MP unit := modify (fun s => PsbDev (psb_priv s) b (psb_bus s)).

(** Elements of the arrays; [EFAULT] outside. *)
Definition load (f : psb6970_priv -> list Z) (i : Z) : MP Z :=
  l <- of_priv f ;;
  if in_array l i then ret (geti 0 l i) else fail EFAULT.
Definition store (f : psb6970_priv -> list Z) (set : list Z -> psb6970_priv -> psb6970_priv) (i x : Z) : MP unit :=
  l <- of_priv f ;;
  if in_array l i then on_priv (set (seti l i x)) else fail EFAULT.

Definition psb6970_set_vlan (value : Z) : MP unit := on_priv (with_vlan (cbool value)).
Definition psb6970_get_vlan : MP Z := of_priv (fun p => b2z (vlan p)).

(** [vlans] is unsigned, and so is the comparison. *)
Definition psb6970_set_pvid (port v : Z) : MP unit :=
  if PSB6970_MAX_VLANS <=? u32 v then fail EINVAL else store psb_pvid with_psb_pvid port (u16 v).
Definition psb6970_get_pvid (port : Z) : MP Z := load psb_pvid port.
Definition psb6970_set_vid (port_vlan value : Z) : MP unit := store vlan_id with_vlan_id port_vlan (u16 value).
Definition psb6970_get_vid (port_vlan : Z) : MP Z := load vlan_id port_vlan.

Definition psb6970_get_ports (port_vlan : Z) : MP (list switch_port) :=
  ports <- load vlan_table port_vlan ;;
  loop_acc (Z.to_nat PSB6970_NUM_PORTS) 0 [] (fun i l =>
    if negb (cbool (Z.land ports (BIT i))) then ret l else
    tagged <- of_priv vlan_tagged ;;
    ret (l ++ [(i, if cbool (Z.land tagged (BIT i)) then BIT tagged_flag else 0)])).

(** The body of the loop over the ports of [val]. *)
Definition psb6970_set_port (port_vlan : Z) (p : switch_port) : MP unit :=
  let '(id, flags) := p in
  tagged <- of_priv vlan_tagged ;;
  (if cbool (Z.land flags (BIT tagged_flag)) then on_priv (with_vlan_tagged (u8 (Z.lor tagged (BIT id))))
   else
     on_priv (with_vlan_tagged (u8 (Z.ldiff tagged (BIT id)))) ;;
     store psb_pvid with_psb_pvid id (u16 port_vlan) ;;
     for_each PSB6970_MAX_VLANS (fun j =>
       if j =? port_vlan then ret tt else
       t <- load vlan_table j ;;
       store vlan_table with_vlan_table j (u8 (Z.ldiff t (BIT id))))) ;;
  vt <- load vlan_table port_vlan ;;
  store vlan_table with_vlan_table port_vlan (u8 (Z.lor vt (BIT id))).

Fixpoint psb6970_set_ports_loop (port_vlan : Z) (ports : list switch_port) : MP unit :=
  match ports with
  | [] => ret tt
  | p :: ports' => psb6970_set_port port_vlan p ;; psb6970_set_ports_loop port_vlan ports'
  end.

Definition psb6970_set_ports (port_vlan : Z) (ports : list switch_port) : MP unit :=
  store vlan_table with_vlan_table port_vlan 0 ;;
  psb6970_set_ports_loop port_vlan ports.

(** A row of the VLAN translation unit. *)
Definition apply_filter (j : Z) : MP unit :=
  vp <- load vlan_table j ;;
  if cbool vp then
    id <- load vlan_id j ;;
    psb6970_mii_write (PSB6970_VFxL j) (Z.lor PSB6970_VFxL_VV id) ;;
    tagged <- of_priv vlan_tagged ;;
    psb6970_mii_write (PSB6970_VFxH j) (Z.lor (Z.shiftl (Z.land vp tagged) PSB6970_VFxH_TM_SHIFT) vp)
  else psb6970_mii_write (PSB6970_VFxL j) 0.

(** [ec], [dvid] and [pbvm] of port [i]. *)
Definition port_config (i : Z) : MP (Z * Z * Z) :=
  on <- of_priv vlan ;;
  let pbvm := Z.lor 0x7f PSB6970_PBVM_VSD in
  if negb on then ret (0, 1, pbvm) else
  p <- load psb_pvid i ;;
  dvid <- load vlan_id p ;;
  tagged <- of_priv vlan_tagged ;;
  let pbvm := Z.lor pbvm (Z.lor PSB6970_PBVM_TBVE PSB6970_PBVM_VMCE) in
  ret (PSB6970_EC_IFNTE, dvid,
       if cbool (Z.land (Z.shiftl i 1) tagged) then Z.lor pbvm (Z.lor PSB6970_PBVM_AOVTP PSB6970_PBVM_VC) else pbvm).

Definition apply_port (i : Z) : MP unit :=
  c <- port_config i ;;
  let '(ec, dvid, pbvm) := c in
  psb6970_mii_write (PSB6970_PBVM i) pbvm ;;
  if negb (PSB6970_IS_CPU_PORT i) then
    psb6970_mii_write (PSB6970_EC i) ec ;;
    psb6970_mii_write (PSB6970_DVID i) dvid
  else ret tt.

Definition psb6970_hw_apply : MP unit :=
  set_mutex true ;;
  on <- of_priv vlan ;;
  (if on then for_each PSB6970_MAX_VLANS apply_filter else ret tt) ;;
  for_each PSB6970_NUM_PORTS apply_port ;;
  set_mutex false.

Definition psb6970_zero : psb6970_priv := Psb false (repeat 0 16) (repeat 0 16) 0 (repeat 0 7).

Definition psb6970_reset_switch : MP unit :=
  set_mutex true ;;
  on_priv (fun _ => psb6970_zero) ;;
  for_each PSB6970_MAX_VLANS (fun i => store vlan_id with_vlan_id i (u16 i)) ;;
  set_mutex false ;;
  psb6970_hw_apply.
End Driver.

(** ** The PHY device *)

(** [pdev->priv] is set; what it points to is freed; the switch is registered. *)
Record psb6970_phy (B : Type) := PsbPhy {
  phy_priv : bool; phy_freed : bool; phy_registered : bool; phy_dev : psb6970 B
}.
Arguments PsbPhy {B}.
Arguments phy_priv {B}.
Arguments phy_freed {B}.
Arguments phy_registered {B}.
Arguments phy_dev {B}.

Section Phy.
Context {B : Type} {MB : MiiBus B}.

(** [alloc]: [kzalloc] succeeds; [addr]: the address of the PHY;
    [register]: what registering the switch returns. *)
Definition psb6970_config_init (alloc : bool) (addr register : Z) : M (psb6970_phy B) Z :=
  if negb alloc then fail ENOMEM else
  if negb (addr =? 0) then ret 0 else
  modify (fun s => PsbPhy true false (phy_registered s) (PsbDev psb6970_zero false (psb_bus (phy_dev s)))) ;;
  if register <? 0 then
    modify (fun s => PsbPhy (phy_priv s) true (phy_registered s) (phy_dev s)) ;;
    (fun s => (Err register, s))
  else
    modify (fun s => PsbPhy (phy_priv s) (phy_freed s) true (phy_dev s)) ;;
    (fun s => match psb6970_reset_switch (phy_dev s) with
              | (Ok _, d) => (Ok 0, PsbPhy (phy_priv s) (phy_freed s) (phy_registered s) d)
              | (Err e, d) => (Err e, PsbPhy (phy_priv s) true (phy_registered s) d)
              end).

(** [EFAULT]: the structure is used after it was freed. *)
Definition psb6970_remove (addr : Z) : M (psb6970_phy B) unit := fun s =>
  if negb (phy_priv s) then (Ok tt, s) else
  if phy_freed s then (Err (- EFAULT), s) else
  (Ok tt, PsbPhy true true (if addr =? 0 then false else phy_registered s) (phy_dev s)).

(** [dev->phy_id] after looking for the switch on the bus. *)
Definition psb6970_fixup (phy_id : Z) : M B Z := fun b =>
  let (v, b1) := mii_read (fst (PHYADDR PSB6970_CI1)) (snd (PHYADDR PSB6970_CI1)) b in
  let reg := Z.land (u16 v) PSB6970_CI1_MASK in
  if negb (reg =? PSB6970_CI1_VAL) then (Ok phy_id, b1) else
  let (w, b2) := mii_read (fst (PHYADDR PSB6970_CI0)) (snd (PHYADDR PSB6970_CI0)) b1 in
  (Ok (u32 (Z.lor (Z.shiftl reg 16) (Z.land w PSB6970_CI0_MASK))), b2).
End Phy.
