(* ===== verification/Psb6970Props.v ===== *)
(** * Properties of the PSB6970 driver

    What holds of its configuration in every state the requests of the switch
    framework can bring about, and what applying the configuration writes. *)

From S2P Require Import Prelude CMonad SmiCore Mdio Psb6970.

Section Props.
Context {B : Type} {MB : MiiBus B}.
Variable tagged_flag : Z.

Implicit Types (s : psb6970 B) (p : psb6970_priv).

(** ** The invariant *)

Definition entries (n bound : Z) (l : list Z) : Prop :=
  Z.of_nat (length l) = n /\ forall i, 0 <= i < n -> 0 <= geti 0 l i < bound.

Record psb_wf p : Prop := PsbWf {
  wf_ids : entries 16 65536 (vlan_id p);
  wf_table : entries 16 128 (vlan_table p);
  wf_tagged : 0 <= vlan_tagged p < 128;
  wf_pvid : entries 7 16 (psb_pvid p)
}.

(** A port that is not tagged is in one VLAN at most. *)
Definition untagged_once p : Prop := forall q j k,
  0 <= q < 7 -> 0 <= j < 16 -> 0 <= k < 16 -> Z.testbit (vlan_tagged p) q = false ->
  Z.testbit (geti 0 (vlan_table p) j) q = true -> Z.testbit (geti 0 (vlan_table p) k) q = true -> j = k.

Definition psb_inv p : Prop := psb_wf p /\ untagged_once p.

Lemma entries_in n m l i : entries n m l -> 0 <= i < n -> in_array l i = true.
Proof. intros [Hl _] Hi. unfold in_array. lia. Qed.

Lemma entries_seti n m l i x : entries n m l -> 0 <= i < n -> 0 <= x < m -> entries n m (seti l i x).
Proof.
  intros [Hl Hb] Hi Hx. split; [rewrite seti_length; exact Hl |]. intros j Hj.
  rewrite geti_seti by lia. destruct (j =? i); [exact Hx | apply Hb, Hj].
Qed.

(** ** The arrays *)

Definition with_priv p s : psb6970 B := PsbDev p (reg_mutex s) (psb_bus s).

Lemma load_run f n m i s : entries n m (f (psb_priv s)) -> 0 <= i < n ->
  load f i s = (Ok (geti 0 (f (psb_priv s)) i), s).
Proof. intros He Hi. unfold load, bind, of_priv. rewrite (entries_in _ _ _ _ He Hi). reflexivity. Qed.

Lemma store_run f set n m i x s : entries n m (f (psb_priv s)) -> 0 <= i < n ->
  store f set i x s = (Ok tt, with_priv (set (seti (f (psb_priv s)) i x) (psb_priv s)) s).
Proof. intros He Hi. unfold store, bind, of_priv. rewrite (entries_in _ _ _ _ He Hi). reflexivity. Qed.

(** ** Port lists *)

Lemma set_bit_range t id : 0 <= t < 128 -> 0 <= id < 7 -> 0 <= u8 (Z.lor t (BIT id)) < 128.
Proof.
  intros Ht Hid. assert (H : 0 <= Z.lor t (BIT id) < 2 ^ 7) by (apply lor_small; [lia | exact Ht | apply BIT_range; lia]).
  rewrite u8_small by lia. exact H.
Qed.

Lemma clear_bit_range t id : 0 <= t < 128 -> 0 <= id -> 0 <= u8 (Z.ldiff t (BIT id)) < 128.
Proof.
  intros Ht Hid. replace (Z.ldiff t (BIT id)) with (Z.land t (Z.lnot (BIT id))) by (symmetry; apply Z.ldiff_land).
  assert (H : 0 <= Z.land t (Z.lnot (BIT id)) < 2 ^ 7).
  { rewrite Z.land_comm. apply land_range; [lia | exact Ht]. }
  rewrite u8_small by lia. exact H.
Qed.

Lemma set_bit t id q : 0 <= q < 7 -> 0 <= id ->
  Z.testbit (u8 (Z.lor t (BIT id))) q = (id =? q) || Z.testbit t q.
Proof.
  intros Hq Hid. unfold u8. rewrite testbit_uwrap, Z.lor_spec, testbit_BIT by lia.
  destruct (Z.ltb_spec q 8); [| lia]. apply orb_comm.
Qed.

Lemma clear_bit t id q : 0 <= q < 7 -> 0 <= id ->
  Z.testbit (u8 (Z.ldiff t (BIT id))) q = negb (id =? q) && Z.testbit t q.
Proof.
  intros Hq Hid. unfold u8. rewrite testbit_uwrap, Z.ldiff_spec, testbit_BIT by lia.
  destruct (Z.ltb_spec q 8); [| lia]. cbn [andb]. apply andb_comm.
Qed.

(** Taking a port out of all VLANs but one. *)
Lemma clear_others_run port_vlan id s : entries 16 128 (vlan_table (psb_priv s)) -> 0 <= id ->
  exists t, for_each PSB6970_MAX_VLANS (fun j =>
       if j =? port_vlan then ret tt else
       t <- load vlan_table j ;;
       store vlan_table with_vlan_table j (u8 (Z.ldiff t (BIT id)))) s
     = (Ok tt, with_priv (with_vlan_table t (psb_priv s)) s) /\
    entries 16 128 t /\
    forall j, 0 <= j < 16 -> geti 0 t j = if j =? port_vlan then geti 0 (vlan_table (psb_priv s)) j
                                         else u8 (Z.ldiff (geti 0 (vlan_table (psb_priv s)) j) (BIT id)).
Proof.
  intros Hs Hid. set (l := vlan_table (psb_priv s)) in *.
  assert (H : wp (for_each PSB6970_MAX_VLANS (fun j =>
       if j =? port_vlan then ret tt else
       t <- load vlan_table j ;;
       store vlan_table with_vlan_table j (u8 (Z.ldiff t (BIT id)))))
     (fun _ s' => exists t, s' = with_priv (with_vlan_table t (psb_priv s)) s /\ entries 16 128 t /\
        forall j, 0 <= j < 16 -> geti 0 t j = if j =? port_vlan then geti 0 l j
                                             else u8 (Z.ldiff (geti 0 l j) (BIT id))) never s).
  { apply (wp_loop_acc (fun i _ s' => exists t, s' = with_priv (with_vlan_table t (psb_priv s)) s /\ entries 16 128 t /\
      forall j, 0 <= j < 16 -> geti 0 t j = if (j =? port_vlan) || (i <=? j) then geti 0 l j
                                           else u8 (Z.ldiff (geti 0 l j) (BIT id)))).
    - exists l. split; [destruct s as [[] ? ?]; reflexivity |]. split; [exact Hs |]. intros j Hj.
      destruct (Z.leb_spec 0 j); [| lia]. rewrite orb_true_r. reflexivity.
    - intros i _ s' Hi (t & -> & Ht & Hv). unfold PSB6970_MAX_VLANS in Hi. destruct (Z.eqb_spec i port_vlan) as [-> | Hne].
      + apply wp_ret. exists t. split; [reflexivity |]. split; [exact Ht |]. intros j Hj. rewrite Hv by exact Hj.
        destruct (Z.eqb_spec j port_vlan), (Z.leb_spec port_vlan j), (Z.leb_spec (port_vlan + 1) j); try lia; reflexivity.
      + unfold wp. rewrite (bind_ok _ _ _ _ _ (load_run vlan_table 16 128 i (with_priv (with_vlan_table t (psb_priv s)) s) Ht ltac:(lia))).
        rewrite (store_run _ _ 16 128) by (exact Ht || lia). eexists. split; [reflexivity |].
        cbn [psb_priv with_priv vlan_table with_vlan_table] in *. split.
        * apply entries_seti; [exact Ht | lia |]. apply clear_bit_range; [apply Ht; lia | exact Hid].
        * intros j Hj. destruct Ht as [Hl _]. rewrite geti_seti by lia. rewrite !Hv by lia.
          destruct (Z.eqb_spec j i) as [-> |].
          -- destruct (Z.eqb_spec i port_vlan); [lia |]. destruct (Z.leb_spec i i), (Z.leb_spec (i + 1) i); try lia. reflexivity.
          -- destruct (Z.eqb_spec j port_vlan), (Z.leb_spec i j), (Z.leb_spec (i + 1) j); try lia; reflexivity.
    - intros _ s' (t & -> & Ht & Hv). exists t. split; [reflexivity |]. split; [exact Ht |]. intros j Hj. rewrite Hv by exact Hj.
      change (0 + Z.of_nat (Z.to_nat PSB6970_MAX_VLANS)) with 16.
      destruct (Z.leb_spec 16 j); [lia |]. rewrite orb_false_r. reflexivity. }
  destruct (wp_never _ _ _ H) as ([] & s' & Hrun & t & -> & Ht & Hv). exists t. repeat split; auto.
  - apply Ht.
  - apply (proj2 Ht); assumption.
  - apply (proj2 Ht); assumption.
Qed.

(** What one port of a list does to the configuration. *)
Lemma set_port_run port_vlan id flags s : psb_inv (psb_priv s) -> 0 <= port_vlan < 16 -> 0 <= id < 7 ->
  exists p, psb6970_set_port tagged_flag port_vlan (id, flags) s = (Ok tt, with_priv p s) /\ psb_inv p.
Proof.
  intros [[Hids Htab Htag Hpv] Honce] Hv Hid. unfold psb6970_set_port.
  rewrite (bind_ok (of_priv vlan_tagged) _ s _ s eq_refl).
  destruct (cbool (Z.land flags (BIT tagged_flag))).
  - set (s1 := with_priv (with_vlan_tagged (u8 (Z.lor (vlan_tagged (psb_priv s)) (BIT id))) (psb_priv s)) s).
    rewrite (bind_ok (on_priv (with_vlan_tagged (u8 (Z.lor (vlan_tagged (psb_priv s)) (BIT id))))) _ s tt s1 eq_refl), (bind_ok _ _ _ _ _ (load_run vlan_table 16 128 port_vlan s1 Htab Hv)).
    rewrite (store_run _ _ 16 128) by (exact Htab || lia). eexists. split; [reflexivity |].
    cbn [psb_priv with_priv vlan_table with_vlan_tagged with_vlan_table s1]. split.
    + constructor; [exact Hids | | apply set_bit_range; assumption | exact Hpv].
      apply entries_seti; [exact Htab | exact Hv | apply set_bit_range; [apply Htab, Hv | exact Hid]].
    + intros q j k Hq Hj Hk. cbn [vlan_tagged vlan_table with_vlan_tagged with_vlan_table]. rewrite set_bit by lia.
      intros Hf. apply orb_false_iff in Hf. destruct Hf as [Hne Hf].
      assert (Hsame : forall i, 0 <= i < 16 -> Z.testbit (geti 0 (seti (vlan_table (psb_priv s)) port_vlan
        (u8 (Z.lor (geti 0 (vlan_table (psb_priv s)) port_vlan) (BIT id)))) i) q
        = Z.testbit (geti 0 (vlan_table (psb_priv s)) i) q).
      { intros i Hi. destruct Htab as [Hl _]. rewrite geti_seti by lia. destruct (Z.eqb_spec i port_vlan) as [-> |]; [| reflexivity].
        rewrite set_bit, Hne by lia. reflexivity. }
      rewrite !Hsame by assumption. apply Honce; assumption.
  - set (s1 := with_priv (with_psb_pvid (seti (psb_pvid (psb_priv s)) id (u16 port_vlan))
      (with_vlan_tagged (u8 (Z.ldiff (vlan_tagged (psb_priv s)) (BIT id))) (psb_priv s))) s).
    destruct (clear_others_run port_vlan id s1 Htab ltac:(lia)) as (t & Hrun & Ht & Hget).
    erewrite (bind_ok _ _ s tt (with_priv (with_vlan_table t (psb_priv s1)) s1)).
    2: { set (s0 := with_priv (with_vlan_tagged (u8 (Z.ldiff (vlan_tagged (psb_priv s)) (BIT id))) (psb_priv s)) s).
         rewrite (bind_ok (on_priv _) _ s tt s0 eq_refl), (bind_ok _ _ _ tt s1); [exact Hrun |].
         apply (store_run psb_pvid with_psb_pvid 7 16); [exact Hpv | exact Hid]. }
    rewrite (bind_ok _ _ _ _ _ (load_run vlan_table 16 128 port_vlan (with_priv (with_vlan_table t (psb_priv s1)) s1) Ht Hv)).
    rewrite (store_run _ _ 16 128) by (exact Ht || lia). eexists. split; [reflexivity |].
    cbn [psb_priv with_priv with_vlan_table vlan_table] in *. split.
    + constructor; cbn.
      * exact Hids.
      * apply entries_seti; [exact Ht | exact Hv |]. apply set_bit_range; [apply Ht, Hv | exact Hid].
      * apply clear_bit_range; lia.
      * apply entries_seti; [exact Hpv | exact Hid |]. rewrite u16_small; lia.
    + intros q j k Hq Hj Hk. subst s1. cbn [psb_priv with_priv vlan_tagged vlan_table with_vlan_tagged with_vlan_table with_psb_pvid].
      rewrite clear_bit by lia.
      assert (Hbit : forall i, 0 <= i < 16 -> Z.testbit (geti 0 (seti t port_vlan (u8 (Z.lor (geti 0 t port_vlan) (BIT id)))) i) q
        = if i =? port_vlan then (id =? q) || Z.testbit (geti 0 (vlan_table (psb_priv s)) i) q
          else negb (id =? q) && Z.testbit (geti 0 (vlan_table (psb_priv s)) i) q).
      { intros i Hi. destruct Ht as [Hl _]. rewrite geti_seti by lia. destruct (Z.eqb_spec i port_vlan) as [-> | Hne].
        - rewrite set_bit by lia. rewrite Hget by lia. rewrite Z.eqb_refl. reflexivity.
        - rewrite Hget by lia. destruct (Z.eqb_spec i port_vlan); [lia |]. apply clear_bit; lia. }
      rewrite !Hbit by assumption.
      destruct (Z.eqb_spec id q) as [<- | Hne]; cbn [negb andb orb].
      * intros _. destruct (Z.eqb_spec j port_vlan), (Z.eqb_spec k port_vlan); subst; congruence.
      * intros Hf Hj' Hk'. apply (Honce q); try assumption.
        -- destruct (j =? port_vlan); exact Hj'.
        -- destruct (k =? port_vlan); exact Hk'.
Qed.

Lemma set_ports_loop_run port_vlan ports s : psb_inv (psb_priv s) -> 0 <= port_vlan < 16 ->
  Forall (fun q => 0 <= fst q < 7) ports ->
  exists p, psb6970_set_ports_loop tagged_flag port_vlan ports s = (Ok tt, with_priv p s) /\ psb_inv p.
Proof.
  intros Hs Hv Hp. revert s Hs. induction Hp as [| [id flags] ports Hid _ IH]; intros s Hs.
  - exists (psb_priv s). split; [destruct s; reflexivity | exact Hs].
  - cbn [psb6970_set_ports_loop]. destruct (set_port_run port_vlan id flags s Hs Hv Hid) as (p & Hrun & Hp').
    rewrite (bind_ok _ _ _ _ _ Hrun). destruct (IH (with_priv p s) Hp') as (p' & -> & Hp''). exists p'.
    split; [reflexivity | exact Hp''].
Qed.

Lemma set_ports_run port_vlan ports s : psb_inv (psb_priv s) -> 0 <= port_vlan < 16 ->
  Forall (fun q => 0 <= fst q < 7) ports ->
  exists p, psb6970_set_ports tagged_flag port_vlan ports s = (Ok tt, with_priv p s) /\ psb_inv p.
Proof.
  intros [Hwf Honce] Hv Hp. unfold psb6970_set_ports.
  rewrite (bind_ok _ _ _ _ _ (store_run vlan_table with_vlan_table 16 128 port_vlan 0 s (wf_table _ Hwf) Hv)).
  set (s1 := with_priv _ s).
  assert (Hs1 : psb_inv (psb_priv s1)).
  { split.
    - destruct Hwf as [Hids Htab Htag Hpv]. constructor; try assumption. apply entries_seti; [exact Htab | exact Hv | lia].
    - intros q j k Hq Hj Hk Ht. subst s1. cbn [psb_priv with_priv vlan_table with_vlan_table]. destruct (wf_table _ Hwf) as [Hl _]. rewrite !geti_seti by lia.
      destruct (j =? port_vlan); [rewrite Z.testbit_0_l; discriminate |].
      destruct (k =? port_vlan); [rewrite Z.testbit_0_l; discriminate |]. apply Honce; assumption. }
  destruct (set_ports_loop_run port_vlan ports s1 Hs1 Hv Hp) as (p & -> & Hp'). exists p. split; [reflexivity | exact Hp'].
Qed.

(** ** Requests *)

Inductive psb_request :=
| ReqVlan (value : Z)
| ReqPvid (port v : Z)
| ReqVid (port_vlan value : Z)
| ReqPorts (port_vlan : Z) (ports : list switch_port)
| ReqApply
| ReqReset.

Definition psb_do (q : psb_request) : M (psb6970 B) unit :=
  match q with
  | ReqVlan value => psb6970_set_vlan value
  | ReqPvid port v => psb6970_set_pvid port v
  | ReqVid port_vlan value => psb6970_set_vid port_vlan value
  | ReqPorts port_vlan ports => psb6970_set_ports tagged_flag port_vlan ports
  | ReqApply => psb6970_hw_apply
  | ReqReset => psb6970_reset_switch
  end.

(** What the framework lets through: ports and VLANs the switch has. *)
Definition psb_valid (q : psb_request) : Prop :=
  match q with
  | ReqPvid port _ => 0 <= port < 7
  | ReqVid port_vlan _ => 0 <= port_vlan < 16
  | ReqPorts port_vlan ports => 0 <= port_vlan < 16 /\ Forall (fun q => 0 <= fst q < 7) ports
  | _ => True
  end.

(** ** Writing the registers *)

(** The writes of a row of the VLAN translation unit, and of a port. *)
Definition filter_writes p (j : Z) : list (Z * Z) :=
  let vp := geti 0 (vlan_table p) j in
  if cbool vp then
    [(PSB6970_VFxL j, Z.lor PSB6970_VFxL_VV (geti 0 (vlan_id p) j));
     (PSB6970_VFxH j, Z.lor (Z.shiftl (Z.land vp (vlan_tagged p)) PSB6970_VFxH_TM_SHIFT) vp)]
  else [(PSB6970_VFxL j, 0)].

Definition pbvm_of p (i : Z) : Z :=
  let pbvm := Z.lor 0x7f PSB6970_PBVM_VSD in
  if negb (vlan p) then pbvm else
  let pbvm := Z.lor pbvm (Z.lor PSB6970_PBVM_TBVE PSB6970_PBVM_VMCE) in
  if cbool (Z.land (Z.shiftl i 1) (vlan_tagged p)) then Z.lor pbvm (Z.lor PSB6970_PBVM_AOVTP PSB6970_PBVM_VC) else pbvm.
Definition dvid_of p (i : Z) : Z := if vlan p then geti 0 (vlan_id p) (geti 0 (psb_pvid p) i) else 1.
Definition ec_of p : Z := if vlan p then PSB6970_EC_IFNTE else 0.

Definition port_writes p (i : Z) : list (Z * Z) :=
  (PSB6970_PBVM i, pbvm_of p i) ::
  if PSB6970_IS_CPU_PORT i then [] else [(PSB6970_EC i, ec_of p); (PSB6970_DVID i, dvid_of p i)].

Definition apply_writes p : list (Z * Z) :=
  (if vlan p then flat_map (filter_writes p) (upto 16) else []) ++ flat_map (port_writes p) (upto 7).

Definition write_all (ws : list (Z * Z)) (b : B) : B :=
  fold_left (fun b w => snd (mii_write (fst (PHYADDR (fst w))) (snd (PHYADDR (fst w))) (u16 (snd w)) b)) ws b.

Definition with_bus (b : B) s : psb6970 B := PsbDev (psb_priv s) (reg_mutex s) b.

Lemma apply_filter_run j s : psb_wf (psb_priv s) -> 0 <= j < 16 ->
  apply_filter j s = (Ok tt, with_bus (write_all (filter_writes (psb_priv s) j) (psb_bus s)) s).
Proof.
  intros [Hids Htab _ _] Hj. unfold apply_filter, filter_writes.
  rewrite (bind_ok _ _ _ _ _ (load_run vlan_table 16 128 j s Htab Hj)). destruct (cbool _); [| reflexivity].
  rewrite (bind_ok _ _ _ _ _ (load_run vlan_id 16 65536 j s Hids Hj)). reflexivity.
Qed.

Lemma port_config_run i s : psb_wf (psb_priv s) -> 0 <= i < 7 ->
  port_config i s = (Ok (ec_of (psb_priv s), dvid_of (psb_priv s) i, pbvm_of (psb_priv s) i), s).
Proof.
  intros [Hids _ _ Hpv] Hi. unfold port_config, ec_of, dvid_of, pbvm_of.
  rewrite (bind_ok (of_priv vlan) _ s _ s eq_refl). destruct (vlan (psb_priv s)); [| reflexivity]. cbn [negb].
  rewrite (bind_ok _ _ _ _ _ (load_run psb_pvid 7 16 i s Hpv Hi)).
  rewrite (bind_ok _ _ _ _ _ (load_run vlan_id 16 65536 _ s Hids (proj2 Hpv i Hi))). reflexivity.
Qed.

Lemma apply_port_run i s : psb_wf (psb_priv s) -> 0 <= i < 7 ->
  apply_port i s = (Ok tt, with_bus (write_all (port_writes (psb_priv s) i) (psb_bus s)) s).
Proof.
  intros Hwf Hi. unfold apply_port, port_writes. rewrite (bind_ok _ _ _ _ _ (port_config_run i s Hwf Hi)).
  destruct (PSB6970_IS_CPU_PORT i); reflexivity.
Qed.

Lemma psb_upto_S n : upto (S n) = upto n ++ [Z.of_nat n].
Proof. unfold upto. rewrite seq_S, map_app. reflexivity. Qed.

Lemma for_each_writes (n : nat) body (f : Z -> list (Z * Z)) s :
  (forall i b, 0 <= i < Z.of_nat n -> body i (with_bus b s) = (Ok tt, with_bus (write_all (f i) b) s)) ->
  for_each (Z.of_nat n) body s = (Ok tt, with_bus (write_all (flat_map f (upto n)) (psb_bus s)) s).
Proof.
  intros Hbody.
  assert (H : wp (for_each (Z.of_nat n) body)
    (fun _ s' => s' = with_bus (write_all (flat_map f (upto n)) (psb_bus s)) s) never s).
  { apply (wp_loop_acc (fun i _ s' => s' = with_bus (write_all (flat_map f (upto (Z.to_nat i))) (psb_bus s)) s)).
    - destruct s. reflexivity.
    - intros i _ s' Hi ->. unfold wp. rewrite Hbody by lia.
      replace (Z.to_nat (i + 1)) with (S (Z.to_nat i)) by lia. rewrite psb_upto_S, flat_map_app. unfold write_all.
      rewrite fold_left_app. cbn [flat_map]. rewrite app_nil_r, Z2Nat.id by lia. reflexivity.
    - intros _ s' ->. do 4 f_equal. lia. }
  destruct (wp_never _ _ _ H) as ([] & s' & Hrun & ->). exact Hrun.
Qed.

Lemma hw_apply_run s : psb_wf (psb_priv s) ->
  psb6970_hw_apply s = (Ok tt, PsbDev (psb_priv s) false (write_all (apply_writes (psb_priv s)) (psb_bus s))).
Proof.
  intros Hwf. unfold psb6970_hw_apply, apply_writes, write_all. rewrite fold_left_app.
  set (s1 := PsbDev (psb_priv s) true (psb_bus s)).
  rewrite (bind_ok (set_mutex true) _ s tt s1 eq_refl), (bind_ok (of_priv vlan) _ s1 _ s1 eq_refl). cbn [psb_priv s1].
  set (b2 := fold_left _ _ (psb_bus s)).
  erewrite (bind_ok _ _ s1 tt (with_bus b2 s1)).
  2: { subst b2. destruct (vlan (psb_priv s)); [| reflexivity].
       apply (for_each_writes 16 apply_filter (filter_writes (psb_priv s)) s1). intros i b Hi.
       apply (apply_filter_run i (with_bus b s1)); [exact Hwf | lia]. }
  erewrite (bind_ok _ _ (with_bus b2 s1)).
  2: { apply (for_each_writes 7 apply_port (port_writes (psb_priv s)) (with_bus b2 s1)). intros i b Hi.
       apply (apply_port_run i (with_bus b s1)); [exact Hwf | lia]. }
  reflexivity.
Qed.

(** ** Every state *)

(** After a reset every row has its own number as VID, and nothing else. *)
Definition reset_priv : psb6970_priv := Psb false (upto 16) (repeat 0 16) 0 (repeat 0 7).

Lemma reset_wf : psb_inv reset_priv.
Proof.
  assert (Hz : forall n i, geti 0 (repeat 0 n) i = 0).
  { intros n i. unfold geti. destruct (nth_in_or_default (Z.to_nat i) (repeat 0 n) 0) as [Hin | He]; [| exact He].
    apply repeat_spec in Hin. exact Hin. }
  split; [constructor |].
  - split; [reflexivity |].
    assert (H : forallb (fun i => (0 <=? geti 0 (upto 16) i) && (geti 0 (upto 16) i <? 65536)) (upto 16) = true) by reflexivity.
    intros i Hi. apply (forallb_upto 16 _ H) in Hi. cbn [vlan_id reset_priv]. lia.
  - split; [reflexivity |]. intros i _. cbn [vlan_table reset_priv]. rewrite Hz. lia.
  - cbn. lia.
  - split; [reflexivity |]. intros i _. cbn [psb_pvid reset_priv]. rewrite Hz. lia.
  - intros q j k _ _ _ _. cbn [vlan_table reset_priv]. rewrite Hz, Z.testbit_0_l. discriminate.
Qed.

Lemma reset_run s : exists b, psb6970_reset_switch s = (Ok tt, PsbDev reset_priv false b).
Proof.
  unfold psb6970_reset_switch.
  set (s1 := PsbDev reset_priv false (psb_bus s)).
  assert (Hloop : (set_mutex true ;; on_priv (fun _ => psb6970_zero) ;;
    for_each PSB6970_MAX_VLANS (fun i => store vlan_id with_vlan_id i (u16 i)) ;; set_mutex false) s = (Ok tt, s1))
    by reflexivity.
  eexists. transitivity (psb6970_hw_apply s1); [reflexivity |]. apply hw_apply_run, reset_wf.
Qed.

(** The states the framework can bring the driver to. *)
Inductive psb_reachable : psb6970 B -> Prop :=
| reach_reset s0 s : psb6970_reset_switch s0 = (Ok tt, s) -> psb_reachable s
| reach_do s q r s' : psb_reachable s -> psb_valid q -> psb_do q s = (r, s') -> psb_reachable s'.

(** A valid request succeeds, but for a PVID that is no VLAN, and keeps the
    invariant. *)
Lemma psb_do_run q s : psb_inv (psb_priv s) -> reg_mutex s = false -> psb_valid q ->
  exists r s', psb_do q s = (r, s') /\ psb_inv (psb_priv s') /\ reg_mutex s' = false /\
    r = match q with
        | ReqPvid _ v => if 16 <=? u32 v then Err (- EINVAL) else Ok tt
        | _ => Ok tt
        end.
Proof.
  intros [Hwf Honce] Hm Hq. destruct q as [value | port v | port_vlan value | port_vlan ports | |]; cbn [psb_do psb_valid] in *.
  - eexists _, _. split; [reflexivity |]. split; [| split; [exact Hm | reflexivity]].
    destruct Hwf. split; [constructor |]; assumption.
  - unfold psb6970_set_pvid, PSB6970_MAX_VLANS. destruct (Z.leb_spec 16 (u32 v)) as [Hv | Hv].
    + eexists _, _. split; [reflexivity |]. split; [split; assumption | split; [exact Hm | reflexivity]].
    + rewrite (store_run _ _ 7 16) by (apply Hwf || exact Hq). eexists _, _. split; [reflexivity |].
      split; [| split; [exact Hm | reflexivity]]. destruct Hwf as [Hids Htab Htag Hpv].
      split; [constructor; try assumption |]; [| exact Honce].
      apply entries_seti; [exact Hpv | exact Hq |]. pose proof (u16_range v).
      unfold u16, u32, uwrap in *. split; [lia |].
      rewrite <- (Z.mod_mod_divide v (2 ^ 32) (2 ^ 16)) by (exists (2 ^ 16); reflexivity).
      pose proof (Z.mod_pos_bound v (2 ^ 32) ltac:(lia)). rewrite Z.mod_small; lia.
  - unfold psb6970_set_vid. rewrite (store_run _ _ 16 65536) by (apply Hwf || exact Hq). eexists _, _. split; [reflexivity |].
    split; [| split; [exact Hm | reflexivity]]. destruct Hwf as [Hids Htab Htag Hpv].
    split; [constructor; try assumption |]; [| exact Honce].
    apply entries_seti; [exact Hids | exact Hq | apply u16_range].
  - destruct (set_ports_run port_vlan ports s (conj Hwf Honce) (proj1 Hq) (proj2 Hq)) as (p & -> & Hp).
    eexists _, _. split; [reflexivity |]. split; [exact Hp | split; [exact Hm | reflexivity]].
  - rewrite hw_apply_run by exact Hwf. eexists _, _. split; [reflexivity |]. split; [split; assumption | split; reflexivity].
  - destruct (reset_run s) as [b ->]. eexists _, _. split; [reflexivity |]. split; [apply reset_wf | split; reflexivity].
Qed.

(** C37: in every state the switch framework can bring the driver to, the
    configuration is well formed, the lock is free, and a port that is not
    tagged is a member of at most one VLAN, as the comment in
    [psb6970_set_ports] promises; and every request succeeds, without leaving
    an array, except a PVID that is no VLAN of the switch, which is refused. *)
Theorem psb6970_reachable_ok s : psb_reachable s ->
  psb_wf (psb_priv s) /\ untagged_once (psb_priv s) /\ reg_mutex s = false /\
  forall q, psb_valid q -> fst (psb_do q s) =
    match q with
    | ReqPvid _ v => if 16 <=? u32 v then Err (- EINVAL) else Ok tt
    | _ => Ok tt
    end.
Proof.
  intros Hr. enough (Hinv : psb_inv (psb_priv s) /\ reg_mutex s = false).
  { destruct Hinv as [Hinv Hm]. split; [apply Hinv |]. split; [apply Hinv |]. split; [exact Hm |]. intros q Hq.
    destruct (psb_do_run q s Hinv Hm Hq) as (r & s' & Hrun & _ & _ & Hres). rewrite Hrun. exact Hres. }
  induction Hr as [s0 s Hreset | s q r s' _ [Hinv Hm] Hq Hrun].
  - destruct (reset_run s0) as [b Hb]. rewrite Hb in Hreset. inversion Hreset. split; [apply reset_wf | reflexivity].
  - destruct (psb_do_run q s Hinv Hm Hq) as (r2 & s2 & Hrun2 & Hinv2 & Hm2 & _). rewrite Hrun in Hrun2.
    inversion Hrun2. subst. split; assumption.
Qed.
End Props.

(** Port 3 untagged in VLAN 2 and then in VLAN 5. *)
Lemma psb6970_reachable_ok_witness :
  exists s, @psb_reachable mii_mem _ 0 s /\
    geti 0 (vlan_table (psb_priv s)) 2 = 0 /\ geti 0 (vlan_table (psb_priv s)) 5 = 8 /\
    untagged_once (psb_priv s).
Proof.
  destruct (reset_run (PsbDev psb6970_zero false (fun _ _ => 0) : psb6970 mii_mem)) as [b Hb].
  assert (Hvalid : forall v, 0 <= v < 16 -> psb_valid (ReqPorts v [(3, 0)])).
  { intros v Hv. split; [exact Hv |]. constructor; [cbn; lia | constructor]. }
  pose proof (reach_reset 0 _ _ Hb) as H0.
  pose proof (reach_do 0 _ (ReqPorts 2 [(3, 0)]) _ _ H0 (Hvalid 2 ltac:(lia)) (surjective_pairing _)) as H1.
  pose proof (reach_do 0 _ (ReqPorts 5 [(3, 0)]) _ _ H1 (Hvalid 5 ltac:(lia)) (surjective_pairing _)) as H2.
  eexists. split; [exact H2 |]. split; [vm_compute; reflexivity |]. split; [vm_compute; reflexivity |].
  apply (psb6970_reachable_ok 0 _ H2).
Defined.

(** ** The registers *)

Section Registers.
Context {B : Type} {MB : MiiBus B} {MS : MiiStore B}.

(** A register by its number. *)
Definition psb_reg (b : B) (r : Z) : Z := mii_reg b (fst (PHYADDR r)) (snd (PHYADDR r)).

Lemma phyaddr_inj r r' : 0 <= r < 8192 -> 0 <= r' < 8192 ->
  (fst (PHYADDR r') =? fst (PHYADDR r)) && (snd (PHYADDR r') =? snd (PHYADDR r)) = (r' =? r).
Proof.
  assert (Hsplit : forall x, 0 <= x < 8192 -> x = fst (PHYADDR x) * 32 + snd (PHYADDR x)).
  { intros x Hx. unfold PHYADDR. cbn [fst snd]. change 0x1f with (Z.ones 5). change 0xff with (Z.ones 8).
    rewrite !land_ones_mask, Z.shiftr_div_pow2 by lia.
    rewrite (Z.mod_small (x / 2 ^ 5)) by (split; [apply Z.div_pos | apply Z.div_lt_upper_bound]; lia).
    change (2 ^ 5) with 32. rewrite Z.mul_comm. apply Z.div_mod. lia. }
  intros Hr Hr'. destruct (Z.eqb_spec r' r) as [-> | Hne]; [rewrite !Z.eqb_refl; reflexivity |].
  apply andb_false_iff. rewrite !Z.eqb_neq. destruct (Z.eq_dec (fst (PHYADDR r')) (fst (PHYADDR r))) as [He |]; [right | left; assumption].
  intros Hs. apply Hne. rewrite (Hsplit r Hr), (Hsplit r' Hr'). congruence.
Qed.

(** The value of register [r] after a list of writes. *)
Definition reg_after (ws : list (Z * Z)) (r old : Z) : Z :=
  fold_left (fun v w => if r =? fst w then u16 (snd w) else v) ws old.

Definition regs_ok (ws : list (Z * Z)) : Prop := Forall (fun w => 0 <= fst w < 8192) ws.

Lemma reg_write_all ws b r : regs_ok ws -> 0 <= r < 8192 -> psb_reg (write_all ws b) r = reg_after ws r (psb_reg b r).
Proof.
  intros Hws Hr. revert b. induction Hws as [| w ws Hw _ IH]; intros b; [reflexivity |]. unfold write_all, reg_after in *.
  cbn [fold_left]. rewrite IH. f_equal. unfold psb_reg. rewrite mii_store, phyaddr_inj by assumption. reflexivity.
Qed.

Lemma reg_after_app ws ws' r old : reg_after (ws ++ ws') r old = reg_after ws' r (reg_after ws r old).
Proof. apply fold_left_app. Qed.

Definition untouched (ws : list (Z * Z)) (r : Z) : Prop := forall w, In w ws -> fst w <> r.

Lemma reg_after_untouched ws r old : untouched ws r -> reg_after ws r old = old.
Proof.
  unfold untouched. revert old. induction ws as [| w ws IH]; intros old H; [reflexivity |]. unfold reg_after in *. cbn [fold_left].
  destruct (Z.eqb_spec r (fst w)) as [He | _]; [destruct (H w (or_introl eq_refl)); auto | apply IH].
  intros w' Hw'. apply H. right. exact Hw'.
Qed.

(** Of writes indexed by [0 .. n - 1], only those of [j] touch [r]. *)
Lemma reg_after_flat n f j r old : 0 <= j < Z.of_nat n ->
  (forall i, 0 <= i < Z.of_nat n -> i <> j -> untouched (f i) r) -> reg_after (flat_map f (upto n)) r old = reg_after (f j) r old.
Proof.
  intros Hj Hf. induction n as [| n IH]; [lia |]. rewrite psb_upto_S, flat_map_app, reg_after_app. cbn [flat_map]. rewrite app_nil_r.
  destruct (Z.eq_dec j (Z.of_nat n)) as [-> | Hne].
  - f_equal. apply reg_after_untouched. intros w Hw. apply in_flat_map in Hw. destruct Hw as (i & Hi & Hw).
    unfold upto in Hi. apply in_map_iff in Hi. destruct Hi as (k & <- & Hk). apply in_seq in Hk.
    apply (Hf (Z.of_nat k)); [lia | lia | exact Hw].
  - rewrite reg_after_untouched by (apply Hf; lia). apply IH; [lia |]. intros i Hi. apply Hf. lia.
Qed.

Lemma untouched_flat n f r : (forall i, 0 <= i < Z.of_nat n -> untouched (f i) r) -> untouched (flat_map f (upto n)) r.
Proof.
  intros Hf w Hw. apply in_flat_map in Hw. destruct Hw as (i & Hi & Hw). unfold upto in Hi. apply in_map_iff in Hi.
  destruct Hi as (k & <- & Hk). apply in_seq in Hk. apply (Hf (Z.of_nat k)); [lia | exact Hw].
Qed.

(** Which registers the writes of a row and of a port touch. *)
Lemma filter_untouched p j r : r <> PSB6970_VFxL j -> r <> PSB6970_VFxH j -> untouched (filter_writes p j) r.
Proof.
  intros Hl Hh w. unfold filter_writes. destruct (cbool _); cbn [In]; intros Hw;
    repeat (destruct Hw as [<- | Hw]; [cbn; congruence |]); destruct Hw.
Qed.

Lemma port_untouched p i r : r <> PSB6970_PBVM i -> (i <= 4 -> r <> PSB6970_EC i /\ r <> PSB6970_DVID i) ->
  untouched (port_writes p i) r.
Proof.
  intros Hp Ho w. unfold port_writes, PSB6970_IS_CPU_PORT. destruct (Z.ltb_spec 4 i) as [Hi | Hi]; cbn [In]; intros Hw;
    repeat (destruct Hw as [<- | Hw]; [cbn; destruct Ho; try lia; congruence |]); try destruct Hw as [<- | []]; cbn; congruence.
Qed.

Lemma apply_regs_ok p : regs_ok (apply_writes p).
Proof.
  apply List.Forall_forall. intros w Hw. unfold apply_writes in Hw. apply in_app_or in Hw.
  assert (Hup : forall n f, In w (flat_map f (upto n)) -> exists i, 0 <= i < Z.of_nat n /\ In w (f i)).
  { intros n f H. apply in_flat_map in H. destruct H as (i & Hi & H). apply in_map_iff in Hi. destruct Hi as (k & <- & Hk).
    apply in_seq in Hk. exists (Z.of_nat k). split; [lia | exact H]. }
  destruct Hw as [Hw | Hw].
  - destruct (vlan p); [| destruct Hw]. apply Hup in Hw. destruct Hw as (i & Hi & Hw). unfold filter_writes in Hw.
    destruct (cbool _); cbn [In] in Hw; repeat (destruct Hw as [<- | Hw]; [cbn; unfold PSB6970_VFxL, PSB6970_VFxH; lia |]); destruct Hw.
  - apply Hup in Hw. destruct Hw as (i & Hi & Hw). unfold port_writes in Hw.
    destruct (PSB6970_IS_CPU_PORT i); cbn [In] in Hw;
      repeat (destruct Hw as [<- | Hw]; [cbn; unfold PSB6970_PBVM, PSB6970_EC, PSB6970_DVID; lia |]); destruct Hw.
Qed.

Ltac regs := unfold PSB6970_VFxL, PSB6970_VFxH, PSB6970_PBVM, PSB6970_EC, PSB6970_DVID.

(** The last write decides: a row of the translation unit that no port
    register lies on, and a port. *)
Lemma apply_filter_reg p j r old : vlan p = true -> 0 <= j < 16 -> j <> 9 -> j <> 10 \/ r = PSB6970_VFxH j ->
  r = PSB6970_VFxL j \/ r = PSB6970_VFxH j ->
  reg_after (apply_writes p) r old = reg_after (filter_writes p j) r old.
Proof.
  intros Hon Hj H9 H10 Hr. unfold apply_writes. rewrite Hon, reg_after_app, (reg_after_untouched (flat_map (port_writes p) _)).
  - apply reg_after_flat; [lia |]. intros i Hi Hne. revert Hr. regs. intros Hr. apply filter_untouched; regs; lia.
  - apply untouched_flat. intros i Hi. revert H10 Hr. regs. intros H10 Hr. apply port_untouched; regs; lia.
Qed.

Lemma apply_port_reg p i r old : 0 <= i < 7 -> r = PSB6970_PBVM i \/ i <= 4 /\ (r = PSB6970_EC i \/ r = PSB6970_DVID i) ->
  exists old', reg_after (apply_writes p) r old = reg_after (port_writes p i) r old'.
Proof.
  intros Hi Hr. unfold apply_writes. rewrite reg_after_app. eexists. apply reg_after_flat; [lia |]. intros k Hk Hne. revert Hr. regs.
  intros Hr. apply port_untouched; regs; lia.
Qed.

Lemma vid_row_bits p j : psb_wf p -> 0 <= j < 16 ->
  Z.testbit (u16 (Z.lor PSB6970_VFxL_VV (geti 0 (vlan_id p) j))) 15 = true /\
  Z.land (u16 (Z.lor PSB6970_VFxL_VV (geti 0 (vlan_id p) j))) 0x7fff = Z.land (geti 0 (vlan_id p) j) 0x7fff.
Proof.
  intros Hwf Hj. destruct (wf_ids p Hwf) as [_ Hid]. specialize (Hid j Hj). set (id := geti 0 (vlan_id p) j) in *.
  change PSB6970_VFxL_VV with (BIT 15). change 0x7fff with (Z.ones 15). split.
  - unfold u16. rewrite testbit_uwrap, Z.lor_spec, testbit_BIT by lia. reflexivity.
  - unfold u16. apply Z.bits_inj'. intros i Hi. rewrite !Z.land_spec, testbit_uwrap, Z.lor_spec, testbit_BIT, testbit_ones by lia.
    destruct (Z.ltb_spec i 15); rewrite ?andb_false_r; [| reflexivity]. destruct (Z.ltb_spec i 16), (Z.eqb_spec 15 i), (Z.leb_spec 0 i); try lia.
    rewrite !andb_true_r. reflexivity.
Qed.

Lemma member_row_bits p j q : psb_wf p -> 0 <= j < 16 -> 0 <= q < 7 ->
  let t := geti 0 (vlan_table p) j in
  let r := u16 (Z.lor (Z.shiftl (Z.land t (vlan_tagged p)) PSB6970_VFxH_TM_SHIFT) t) in
  Z.testbit r q = Z.testbit t q /\ Z.testbit r (7 + q) = Z.testbit t q && Z.testbit (vlan_tagged p) q.
Proof.
  intros Hwf Hj Hq t r. destruct (wf_table p Hwf) as [_ Ht]. specialize (Ht j Hj). fold t in Ht. subst r.
  unfold u16, PSB6970_VFxH_TM_SHIFT. rewrite !testbit_uwrap, !Z.lor_spec, !Z.shiftl_spec by lia.
  rewrite (Z.testbit_neg_r _ (q - 7)), (testbit_high t 7 (7 + q)) by lia.
  replace (7 + q - 7) with q by lia. rewrite Z.land_spec, orb_false_r.
  destruct (Z.ltb_spec q 16), (Z.ltb_spec (7 + q) 16); try lia. split; reflexivity.
Qed.

Lemma pbvm_bits p i : Z.testbit (u16 (pbvm_of p i)) 13 = vlan p /\
  Z.testbit (u16 (pbvm_of p i)) 9 = vlan p && cbool (Z.land (2 * i) (vlan_tagged p)).
Proof.
  unfold pbvm_of. rewrite Z.shiftl_mul_pow2 by lia. change (2 ^ 1) with 2. rewrite (Z.mul_comm i 2).
  destruct (vlan p), (cbool _); split; reflexivity.
Qed.

(** C38: what applying the configuration leaves in the registers, behind
    which every register keeps what is written.  With VLANs on, row [j] of
    the translation unit is valid exactly when VLAN [j] has a port, with its
    VID, its members and its tagged members; a port in front of a PHY has the
    VID of its PVID as default; with VLANs off the ports do not use tags.
    But the registers of rows 9 and 10 are those of port 1: row 9 is never
    valid, whatever VLAN 9 is.  And the flag for tagged traffic of port [i]
    is computed from the number [2 * i], not from bit [i]. *)
Theorem psb6970_apply_registers s : psb_wf (psb_priv s) ->
  exists s', psb6970_hw_apply s = (Ok tt, s') /\ psb_priv s' = psb_priv s /\
    let p := psb_priv s in let r := psb_reg (psb_bus s') in
    (vlan p = true -> forall j, 0 <= j < 16 -> j <> 9 -> j <> 10 ->
       let t := geti 0 (vlan_table p) j in
       Z.testbit (r (PSB6970_VFxL j)) 15 = cbool t /\
       (t <> 0 -> Z.land (r (PSB6970_VFxL j)) 0x7fff = Z.land (geti 0 (vlan_id p) j) 0x7fff /\
          forall q, 0 <= q < 7 -> Z.testbit (r (PSB6970_VFxH j)) q = Z.testbit t q /\
                                  Z.testbit (r (PSB6970_VFxH j)) (7 + q) = Z.testbit t q && Z.testbit (vlan_tagged p) q)) /\
    (forall i, 0 <= i < 7 ->
       Z.testbit (r (PSB6970_PBVM i)) 13 = vlan p /\
       Z.testbit (r (PSB6970_PBVM i)) 9 = vlan p && cbool (Z.land (2 * i) (vlan_tagged p)) /\
       (i <= 4 -> r (PSB6970_DVID i) = if vlan p then geti 0 (vlan_id p) (geti 0 (psb_pvid p) i) else 1)) /\
    Z.testbit (r (PSB6970_VFxL 9)) 15 = false.
Proof.
  intros Hwf. eexists. split; [apply hw_apply_run, Hwf |]. split; [reflexivity |]. cbv zeta. cbn [psb_priv psb_bus].
  set (p := psb_priv s) in *.
  assert (Hr : forall x, 0 <= x < 8192 -> psb_reg (write_all (apply_writes p) (psb_bus s)) x
    = reg_after (apply_writes p) x (psb_reg (psb_bus s) x)) by (intros; apply reg_write_all; [apply apply_regs_ok | assumption]).
  split; [| split].
  - intros Hon j Hj H9 H10. rewrite !Hr by (regs; lia).
    rewrite (apply_filter_reg p j (PSB6970_VFxL j)), (apply_filter_reg p j (PSB6970_VFxH j)) by (auto || lia).
    unfold filter_writes, reg_after, cbool. cbv zeta. destruct (Z.eqb_spec (geti 0 (vlan_table p) j) 0) as [Ht | Ht].
    + cbn [negb fold_left fst snd]. rewrite Z.eqb_refl. split; [reflexivity | congruence].
    + cbn [negb fold_left fst snd]. rewrite !Z.eqb_refl.
      replace (PSB6970_VFxL j =? PSB6970_VFxH j) with false by (symmetry; apply Z.eqb_neq; regs; lia).
      destruct (vid_row_bits p j Hwf Hj) as [H1 H2]. split; [exact H1 |]. intros _. split; [exact H2 |].
      intros q Hq. apply (member_row_bits p j q Hwf Hj Hq).
  - intros i Hi. rewrite !Hr by (regs; lia).
    destruct (apply_port_reg p i (PSB6970_PBVM i) (psb_reg (psb_bus s) (PSB6970_PBVM i)) Hi (or_introl eq_refl)) as [o ->].
    assert (Hp : reg_after (port_writes p i) (PSB6970_PBVM i) o = u16 (pbvm_of p i)).
    { unfold port_writes, reg_after. destruct (PSB6970_IS_CPU_PORT i); cbn [fold_left fst snd]; rewrite Z.eqb_refl; [reflexivity |].
      replace (PSB6970_PBVM i =? PSB6970_EC i) with false by (symmetry; apply Z.eqb_neq; regs; lia).
      replace (PSB6970_PBVM i =? PSB6970_DVID i) with false by (symmetry; apply Z.eqb_neq; regs; lia). reflexivity. }
    rewrite Hp. split; [apply pbvm_bits |]. split; [apply pbvm_bits |]. intros H4.
    destruct (apply_port_reg p i (PSB6970_DVID i) (psb_reg (psb_bus s) (PSB6970_DVID i)) Hi (or_intror (conj H4 (or_intror eq_refl)))) as [o' ->].
    unfold port_writes, reg_after, PSB6970_IS_CPU_PORT. destruct (Z.ltb_spec 4 i); [lia |]. cbn [fold_left fst snd]. rewrite Z.eqb_refl.
    unfold dvid_of. destruct (vlan p); [| reflexivity]. apply u16_small. destruct Hwf as [[_ Hids] _ _ [_ Hpv]]. apply Hids, Hpv, Hi.
  - rewrite Hr by (regs; lia). change (PSB6970_VFxL 9) with (PSB6970_EC 1).
    destruct (apply_port_reg p 1 (PSB6970_EC 1) (psb_reg (psb_bus s) (PSB6970_EC 1))) as [o ->]; [lia | right; split; [lia | left; reflexivity] |].
    unfold port_writes, reg_after. cbn. unfold ec_of. destruct (vlan p); reflexivity.
Qed.
End Registers.

(** VLAN 2 with port 3 untagged and port 4 tagged, and VLAN 9 with port 0. *)
Lemma psb6970_apply_registers_witness :
  let p := Psb true (upto 16) (seti (seti (repeat 0 16) 2 24) 9 1) 16 [9; 0; 0; 2; 0; 0; 0] in
  let s := PsbDev p false (fun _ _ => 0) : psb6970 mii_mem in
  exists s', psb6970_hw_apply s = (Ok tt, s') /\
    Z.testbit (psb_reg (psb_bus s') (PSB6970_VFxL 2)) 15 = true /\
    Z.testbit (psb_reg (psb_bus s') (PSB6970_VFxL 9)) 15 = false /\
    psb_reg (psb_bus s') (PSB6970_DVID 3) = 2.
Proof.
  set (p := Psb true (upto 16) (seti (seti (repeat 0 16) 2 24) 9 1) 16 [9; 0; 0; 2; 0; 0; 0]). cbv zeta.
  assert (Hwf : psb_wf p).
  { assert (Hall : forall n m l, Z.of_nat (length l) = Z.of_nat n -> forallb (fun i => (0 <=? geti 0 l i) && (geti 0 l i <? m)) (upto n) = true ->
      entries (Z.of_nat n) m l).
    { intros n m l Hl Hf. split; [exact Hl |]. intros i Hi. apply (forallb_upto n _ Hf) in Hi. lia. }
    constructor; [apply (Hall 16%nat) | apply (Hall 16%nat) | | apply (Hall 7%nat)]; try reflexivity. cbn. lia. }
  destruct (psb6970_apply_registers (PsbDev p false (fun _ _ => 0) : psb6970 mii_mem) Hwf) as (s' & Hrun & _ & Hrows & Hports & H9).
  exists s'. split; [exact Hrun |]. split; [apply (Hrows eq_refl 2); lia |]. split; [exact H9 |].
  apply (Hports 3); lia.
Defined.

(** When registering the switch fails the structure is freed, but the PHY
    still points to it: removing the PHY uses it again. *)
Lemma psb6970_remove_after_failed_init {B} {MB : MiiBus B} e (s : psb6970_phy B) : e < 0 ->
  exists s', psb6970_config_init true 0 e s = (Err e, s') /\ fst (psb6970_remove 0 s') = Err (- EFAULT).
Proof.
  intros He. unfold psb6970_config_init. cbn [negb Z.eqb]. destruct (Z.ltb_spec e 0); [| lia].
  eexists. split; reflexivity.
Qed.
