(* ===== verification/Rtl8306.v ===== *)
(** * The RTL8306 switch: [rtl8306.c]

    A switch of six ports and sixteen VLANs on an MDIO bus.  Its registers
    lie in four pages, selected by two bits of a register that is in all of
    them; the driver describes every setting by the place of its bits
    ([rtl_regs]) and reads and writes settings by their index in that table. *)

From S2P Require Import Prelude CMonad SmiCore Mdio.

Definition RTL8306_REG_PAGE : Z := 16.
Definition RTL8306_REG_PAGE_LO : Z := Z.shiftl 1 15.
Definition RTL8306_REG_PAGE_HI : Z := Z.shiftl 1 1.
Definition RTL8306_NUM_VLANS : Z := 16.
Definition RTL8306_NUM_PORTS : Z := 6.
Definition RTL8306_PORT_CPU : Z := 5.
Definition RTL8306_NUM_PAGES : Z := 4.
Definition RTL8306_MAGIC : Z := 0x8306.

(** ** [enum rtl_regidx] *)

Definition RTL_REG_CHIPID : Z := 0.
Definition RTL_REG_CHIPVER : Z := 1.
Definition RTL_REG_CHIPTYPE : Z := 2.
Definition RTL_REG_CPUPORT : Z := 3.
Definition RTL_REG_EN_CPUPORT : Z := 4.
Definition RTL_REG_EN_TAG_OUT : Z := 5.
Definition RTL_REG_EN_TAG_CLR : Z := 6.
Definition RTL_REG_EN_TAG_IN : Z := 7.
Definition RTL_REG_TRAP_CPU : Z := 8.
Definition RTL_REG_CPU_LINKUP : Z := 9.
Definition RTL_REG_TRUNK_PORTSEL : Z := 10.
Definition RTL_REG_EN_TRUNK : Z := 11.
Definition RTL_REG_RESET : Z := 12.
Definition RTL_REG_VLAN_ENABLE : Z := 13.
Definition RTL_REG_VLAN_FILTER : Z := 14.
Definition RTL_REG_VLAN_TAG_ONLY : Z := 15.
Definition RTL_REG_VLAN_TAG_AWARE : Z := 16.
(** [RTL_VLAN_ENUM(0)] to [RTL_VLAN_ENUM(15)], two each. *)
Definition RTL_REG_VLAN0_VID : Z := 17.
Definition RTL_REG_VLAN0_PORTMASK : Z := 18.
Definition RTL_VLAN_REGOFS : Z := 2.
(** [RTL_PORT_ENUM(0)] to [RTL_PORT_ENUM(5)], twelve each. *)
Definition RTL_REG_PORT0_PVID : Z := 49.
Definition RTL_REG_PORT0_NULL_VID_REPLACE : Z := 50.
Definition RTL_REG_PORT0_NON_PVID_DISCARD : Z := 51.
Definition RTL_REG_PORT0_VID_INSERT : Z := 52.
Definition RTL_REG_PORT0_TAG_INSERT : Z := 53.
Definition RTL_REG_PORT0_LINK : Z := 54.
Definition RTL_REG_PORT0_SPEED : Z := 55.
Definition RTL_REG_PORT0_NWAY : Z := 56.
Definition RTL_REG_PORT0_NRESTART : Z := 57.
Definition RTL_REG_PORT0_DUPLEX : Z := 58.
Definition RTL_REG_PORT0_RXEN : Z := 59.
Definition RTL_REG_PORT0_TXEN : Z := 60.
Definition RTL_PORT_REGOFS : Z := 12.

Definition RTL_PORT_REG (id reg : Z) : Z := reg + id * RTL_PORT_REGOFS.
Definition RTL_VLAN_REG (id reg : Z) : Z := reg + id * RTL_VLAN_REGOFS.

(** ** [rtl_regs] *)

Record rtl_reg := RtlReg { rr_page : Z; rr_phy : Z; rr_reg : Z; rr_bits : Z; rr_shift : Z; rr_inverted : bool }.

(** [RTL_VLAN_REGS]: VID and port mask. *)
Definition RTL_VLAN_REGS (phy page regofs : Z) : list rtl_reg :=
  [RtlReg page phy (25 + regofs) 12 0 false; RtlReg page phy (24 + regofs) 6 0 false].

Definition REG_PORT_PVID (phy page regofs : Z) : rtl_reg := RtlReg page phy (24 + regofs) 4 12 false.

(** [REG_PORT_SETTING], behind the PVID of the port. *)
Definition REG_PORT_SETTING (pvid : rtl_reg) (phy : Z) : list rtl_reg :=
  [pvid;
   RtlReg 0 phy 22 1 12 false;  (* NULL_VID_REPLACE *)
   RtlReg 0 phy 22 1 11 false;  (* NON_PVID_DISCARD *)
   RtlReg 0 phy 22 2 9 false;   (* VID_INSERT *)
   RtlReg 0 phy 22 2 0 false;   (* TAG_INSERT *)
   RtlReg 0 phy 1 1 2 false;    (* LINK *)
   RtlReg 0 phy 0 1 13 false;   (* SPEED *)
   RtlReg 0 phy 0 1 12 false;   (* NWAY *)
   RtlReg 0 phy 0 1 9 false;    (* NRESTART *)
   RtlReg 0 phy 0 1 8 false;    (* DUPLEX *)
   RtlReg 0 phy 24 1 10 false;  (* RXEN *)
   RtlReg 0 phy 24 1 11 false]. (* TXEN *)

Definition rtl_regs : list rtl_reg := [
  RtlReg 0 4 30 16 0 false;     (* CHIPID *)
  RtlReg 0 4 31 8 0 false;      (* CHIPVER *)
  RtlReg 0 4 31 2 8 false;      (* CHIPTYPE *)
  RtlReg 2 4 21 3 0 false;      (* CPUPORT *)
  RtlReg 3 2 21 1 15 true;      (* EN_CPUPORT *)
  RtlReg 3 2 21 1 12 false;     (* EN_TAG_OUT *)
  RtlReg 3 2 21 1 11 false;     (* EN_TAG_CLR *)
  RtlReg 0 4 21 1 7 false;      (* EN_TAG_IN *)
  RtlReg 3 2 22 1 6 false;      (* TRAP_CPU *)
  RtlReg 0 6 22 1 15 false;     (* CPU_LINKUP *)
  RtlReg 0 0 16 1 6 true;       (* TRUNK_PORTSEL *)
  RtlReg 0 0 19 1 11 true;      (* EN_TRUNK *)
  RtlReg 0 0 16 1 12 false;     (* RESET *)
  RtlReg 0 0 18 1 8 true;       (* VLAN_ENABLE *)
  RtlReg 0 0 16 1 9 true;       (* VLAN_FILTER *)
  RtlReg 0 0 16 1 8 true;       (* VLAN_TAG_ONLY *)
  RtlReg 0 0 16 1 10 true       (* VLAN_TAG_AWARE *)
  ] ++
  RTL_VLAN_REGS 0 0 0 ++ RTL_VLAN_REGS 1 0 0 ++ RTL_VLAN_REGS 2 0 0 ++ RTL_VLAN_REGS 3 0 0 ++
  RTL_VLAN_REGS 4 0 0 ++ RTL_VLAN_REGS 0 1 2 ++ RTL_VLAN_REGS 1 1 2 ++ RTL_VLAN_REGS 2 1 2 ++
  RTL_VLAN_REGS 3 1 2 ++ RTL_VLAN_REGS 4 1 2 ++ RTL_VLAN_REGS 0 1 4 ++ RTL_VLAN_REGS 1 1 4 ++
  RTL_VLAN_REGS 2 1 4 ++ RTL_VLAN_REGS 3 1 4 ++ RTL_VLAN_REGS 4 1 4 ++ RTL_VLAN_REGS 0 1 6 ++
  REG_PORT_SETTING (REG_PORT_PVID 0 0 0) 0 ++ REG_PORT_SETTING (REG_PORT_PVID 1 0 0) 1 ++
  REG_PORT_SETTING (REG_PORT_PVID 2 0 0) 2 ++ REG_PORT_SETTING (REG_PORT_PVID 3 0 0) 3 ++
  REG_PORT_SETTING (REG_PORT_PVID 4 0 0) 4 ++ REG_PORT_SETTING (REG_PORT_PVID 0 1 2) 6.

Definition num_regs : Z := 121.

(** The entry at an index of the table. *)
Definition rtl_entry (s : Z) : rtl_reg := geti (RtlReg 0 0 0 0 0 false) rtl_regs s.

(** ** The driver's state *)

Inductive rtl_type := RTL_TYPE_S | RTL_TYPE_SD | RTL_TYPE_SDM.

(** [struct rtl_priv] with [cpu_port] and [vlans] of its switch, and the bus. *)
Record rtl_priv (B : Type) := RtlPriv {
  r_page : Z; r_type : rtl_type; r_do_cpu : Z; r_fixup : bool;
  r_cpu_port : Z; r_vlans : Z; r_bus : B
}.
Arguments RtlPriv {B}.
Arguments r_page {B}.
Arguments r_type {B}.
Arguments r_do_cpu {B}.
Arguments r_fixup {B}.
Arguments r_cpu_port {B}.
Arguments r_vlans {B}.
Arguments r_bus {B}.

Definition with_rbus {B} (b : B) (s : rtl_priv B) : rtl_priv B :=
  RtlPriv (r_page s) (r_type s) (r_do_cpu s) (r_fixup s) (r_cpu_port s) (r_vlans s) b.
Definition with_do_cpu {B} (x : Z) (s : rtl_priv B) : rtl_priv B :=
  RtlPriv (r_page s) (r_type s) x (r_fixup s) (r_cpu_port s) (r_vlans s) (r_bus s).
Definition with_cpu_port {B} (x : Z) (s : rtl_priv B) : rtl_priv B :=
  RtlPriv (r_page s) (r_type s) (r_do_cpu s) (r_fixup s) x (r_vlans s) (r_bus s).

Section Driver.
Context {B : Type} {MB : MiiBus B}.

Abbreviation MR := (M (rtl_priv B)).

Definition bus_read (phy reg : Z) : MR Z := fun s =>
  let (v, b) := mii_read phy reg (r_bus s) in (Ok v, with_rbus b s).
Definition bus_write (phy reg val : Z) : MR unit := fun s =>
  (Ok tt, with_rbus (snd (mii_write phy reg (u16 val) (r_bus s))) s).
Definition of_rtl {A} (f : rtl_priv B -> A) : MR A := fun s => (Ok (f s), s).

(** ** Access to the settings

    [BUG_ON] is [EFAULT]. *)

Definition rtl_set_page (page : Z) : MR unit :=
  s <- get_state ;;
  if r_fixup s then ret tt else
  if u32 (r_page s) =? page then ret tt else
  if RTL8306_NUM_PAGES <? page then fail EFAULT else
  v <- bus_read 0 RTL8306_REG_PAGE ;;
  let pgsel := Z.ldiff (u16 v) (Z.lor RTL8306_REG_PAGE_LO RTL8306_REG_PAGE_HI) in
  let pgsel := if cbool (Z.land page (BIT 0)) then Z.lor pgsel RTL8306_REG_PAGE_LO else pgsel in
  let pgsel := if cbool (Z.land page (BIT 1)) then pgsel else Z.lor pgsel RTL8306_REG_PAGE_HI in
  bus_write 0 RTL8306_REG_PAGE pgsel.

Definition rtl_w16 (page phy reg val : Z) : MR unit :=
  rtl_set_page page ;;
  bus_write phy reg val ;;
  bus_read phy reg ;;
  ret tt.

Definition rtl_r16 (page phy reg : Z) : MR Z :=
  rtl_set_page page ;;
  bus_read phy reg.

Definition rtl_rmw (page phy reg mask val : Z) : MR Z :=
  rtl_set_page page ;;
  r <- bus_read phy reg ;;
  bus_write phy reg (Z.lor (Z.ldiff (u16 r) mask) val) ;;
  v <- bus_read phy reg ;;
  ret (u16 v).

Definition rtl_get (s : Z) : MR Z :=
  if negb (in_array rtl_regs s) then fail EFAULT else
  let r := rtl_entry s in
  if rr_bits r =? 0 then ret 0 else
  v <- rtl_r16 (rr_page r) (rr_phy r) (rr_reg r) ;;
  let val := u16 v in
  let val := if 0 <? rr_shift r then Z.shiftr val (rr_shift r) else val in
  let val := if rr_inverted r then u16 (Z.lnot val) else val in
  ret (Z.land val (BIT (rr_bits r) - 1)).

Definition rtl_set (s val : Z) : MR Z :=
  if negb (in_array rtl_regs s) then fail EFAULT else
  let r := rtl_entry s in
  if rr_bits r =? 0 then ret 0 else
  let val := u32 val in
  let val := if 0 <? rr_shift r then u32 (Z.shiftl val (rr_shift r)) else val in
  let val := if rr_inverted r then u32 (Z.lnot val) else val in
  let mask := if rr_bits r =? 16 then 0xffff else u16 (Z.shiftl (BIT (rr_bits r) - 1) (rr_shift r)) in
  rtl_rmw (rr_page r) (rr_phy r) (rr_reg r) mask (Z.land val mask).

Record rtl_phyregs := PhyRegs { nway : Z; speed : Z; duplex : Z }.

Definition rtl_phy_save (port : Z) : MR rtl_phyregs :=
  n <- rtl_get (RTL_PORT_REG port RTL_REG_PORT0_NWAY) ;;
  s <- rtl_get (RTL_PORT_REG port RTL_REG_PORT0_SPEED) ;;
  d <- rtl_get (RTL_PORT_REG port RTL_REG_PORT0_DUPLEX) ;;
  ret (PhyRegs n s d).

Definition rtl_phy_restore (port : Z) (regs : rtl_phyregs) : MR unit :=
  rtl_set (RTL_PORT_REG port RTL_REG_PORT0_NWAY) (nway regs) ;;
  rtl_set (RTL_PORT_REG port RTL_REG_PORT0_SPEED) (speed regs) ;;
  rtl_set (RTL_PORT_REG port RTL_REG_PORT0_DUPLEX) (duplex regs) ;;
  ret tt.

Definition rtl_port_set_enable (port enabled : Z) : MR unit :=
  rtl_set (RTL_PORT_REG port RTL_REG_PORT0_RXEN) enabled ;;
  rtl_set (RTL_PORT_REG port RTL_REG_PORT0_TXEN) enabled ;;
  if (5 <=? port) || negb (cbool enabled) then ret tt else
  rtl_set (RTL_PORT_REG port RTL_REG_PORT0_NRESTART) 1 ;; ret tt.

(** Waiting for the reset to complete, for ten reads at most. *)
Definition rtl_reset_poll : MR unit :=
  loop_until 10 0 (fun _ =>
    v <- rtl_get RTL_REG_RESET ;;
    ret (if v =? 0 then Some tt else None)) ;;
  ret tt.

Definition rtl_hw_apply : MR unit :=
  port5 <- rtl_phy_save 5 ;;
  for_each (RTL8306_NUM_PORTS - 1) (fun i => rtl_port_set_enable i 0) ;;
  trunk_en <- rtl_get RTL_REG_EN_TRUNK ;;
  trunk_psel <- rtl_get RTL_REG_TRUNK_PORTSEL ;;
  rtl_set RTL_REG_EN_TRUNK 1 ;;
  rtl_set RTL_REG_TRUNK_PORTSEL 1 ;;
  rtl_set RTL_REG_RESET 1 ;;
  rtl_reset_poll ;;
  for_each (RTL8306_NUM_PORTS - 1) (fun i => rtl_port_set_enable i 1) ;;
  rtl_set RTL_REG_EN_TRUNK trunk_en ;;
  rtl_set RTL_REG_TRUNK_PORTSEL trunk_psel ;;
  rtl_phy_restore 5 port5 ;;
  rtl_set RTL_REG_CPU_LINKUP 1 ;;
  ret tt.

(** The ports a port may reach when every port is isolated. *)
Definition isolation_mask (cpu_port i : Z) : Z :=
  let cpu_mask := BIT cpu_port in
  if BIT i =? cpu_mask then Z.ldiff (BIT RTL8306_NUM_PORTS - 1) cpu_mask else Z.lor cpu_mask (BIT i).

Definition rtl_hw_init : MR unit :=
  cpu_port <- of_rtl r_cpu_port ;;
  do_cpu <- of_rtl r_do_cpu ;;
  rtl_set RTL_REG_VLAN_ENABLE 0 ;;
  rtl_set RTL_REG_VLAN_FILTER 0 ;;
  rtl_set RTL_REG_EN_TRUNK 0 ;;
  rtl_set RTL_REG_TRUNK_PORTSEL 0 ;;
  (if cbool do_cpu then rtl_set RTL_REG_CPUPORT cpu_port ;; rtl_set RTL_REG_EN_CPUPORT 1
   else rtl_set RTL_REG_CPUPORT 7 ;; rtl_set RTL_REG_EN_CPUPORT 0) ;;
  rtl_set RTL_REG_EN_TAG_OUT 0 ;;
  rtl_set RTL_REG_EN_TAG_IN 0 ;;
  rtl_set RTL_REG_EN_TAG_CLR 0 ;;
  for_each RTL8306_NUM_VLANS (fun i =>
    rtl_set (RTL_VLAN_REG i RTL_REG_VLAN0_VID) i ;;
    rtl_set (RTL_VLAN_REG i RTL_REG_VLAN0_PORTMASK) 0 ;;
    ret tt) ;;
  for_each RTL8306_NUM_PORTS (fun i =>
    rtl_set (RTL_VLAN_REG i RTL_REG_VLAN0_PORTMASK) (isolation_mask cpu_port i) ;;
    rtl_set (RTL_PORT_REG i RTL_REG_PORT0_PVID) i ;;
    rtl_set (RTL_PORT_REG i RTL_REG_PORT0_NULL_VID_REPLACE) 1 ;;
    rtl_set (RTL_PORT_REG i RTL_REG_PORT0_VID_INSERT) 1 ;;
    rtl_set (RTL_PORT_REG i RTL_REG_PORT0_TAG_INSERT) 3 ;;
    ret tt) ;;
  rtl_hw_apply.

Definition rtl_set_use_cpuport (value : Z) : MR unit := modify (with_do_cpu value) ;; rtl_hw_init.
Definition rtl_get_use_cpuport : MR Z := of_rtl r_do_cpu.
Definition rtl_set_cpuport (value : Z) : MR unit := modify (with_cpu_port value) ;; rtl_hw_init.
Definition rtl_get_cpuport : MR Z := of_rtl r_cpu_port.
Definition rtl_reset : MR unit := rtl_hw_init.

(** ** Attributes

    [id], [ofs] and [max] are those of the attribute. *)

Definition rtl_attr_set_int (id ofs max port_vlan value : Z) : MR unit :=
  let idx := id + port_vlan * ofs in
  if num_regs <=? id then fail EINVAL else
  if (0 <? max) && (max <? value) then fail EINVAL else
  if (3 <? port_vlan) && (rr_reg (rtl_entry idx) =? 22) && (rr_page (rtl_entry idx) =? 0) then
    port <- rtl_phy_save port_vlan ;;
    rtl_set idx value ;;
    rtl_phy_restore port_vlan port
  else rtl_set idx value ;; ret tt.

Definition rtl_attr_get_int (id ofs port_vlan : Z) : MR Z :=
  let idx := id + port_vlan * ofs in
  if num_regs <=? u32 idx then fail EINVAL else rtl_get idx.

Definition rtl_attr_set_port_int (id ofs max port_vlan value : Z) : MR unit :=
  if RTL8306_NUM_PORTS <=? port_vlan then fail EINVAL else rtl_attr_set_int id ofs max port_vlan value.
Definition rtl_attr_get_port_int (id ofs port_vlan : Z) : MR Z :=
  if RTL8306_NUM_PORTS <=? port_vlan then fail EINVAL else rtl_attr_get_int id ofs port_vlan.
Definition rtl_attr_set_vlan_int (id ofs max port_vlan value : Z) : MR unit :=
  vlans <- of_rtl r_vlans ;;
  if vlans <=? port_vlan then fail EINVAL else rtl_attr_set_int id ofs max port_vlan value.
Definition rtl_attr_get_vlan_int (id ofs port_vlan : Z) : MR Z :=
  vlans <- of_rtl r_vlans ;;
  if vlans <=? port_vlan then fail EINVAL else rtl_attr_get_int id ofs port_vlan.

(** [None]: no link; else duplex, autonegotiation and whether the speed is 100. *)
Definition rtl_get_port_link (port : Z) : MR (option (bool * bool * bool)) :=
  if RTL8306_NUM_PORTS <=? port then fail EINVAL else
  link <- rtl_get (RTL_PORT_REG port RTL_REG_PORT0_LINK) ;;
  link <- (if cbool link then ret link else rtl_get (RTL_PORT_REG port RTL_REG_PORT0_LINK)) ;;
  if negb (cbool link) then ret None else
  d <- rtl_get (RTL_PORT_REG port RTL_REG_PORT0_DUPLEX) ;;
  a <- rtl_get (RTL_PORT_REG port RTL_REG_PORT0_NWAY) ;;
  s <- rtl_get (RTL_PORT_REG port RTL_REG_PORT0_SPEED) ;;
  ret (Some (cbool d, cbool a, cbool s)).

(** ** VLANs *)

Definition rtl_set_vlan (port_vlan en : Z) : MR unit :=
  do_cpu <- of_rtl r_do_cpu ;;
  cpu_port <- of_rtl r_cpu_port ;;
  let en_cpu := b2z (cbool en && cbool do_cpu) in
  rtl_set RTL_REG_EN_TAG_OUT en_cpu ;;
  rtl_set RTL_REG_EN_TAG_IN en_cpu ;;
  rtl_set RTL_REG_EN_TAG_CLR en_cpu ;;
  rtl_set RTL_REG_VLAN_TAG_AWARE en ;;
  (if cbool en then rtl_set RTL_REG_VLAN_FILTER en ;; ret tt else ret tt) ;;
  for_each RTL8306_NUM_PORTS (fun i =>
    let settings : MR unit :=
      rtl_set (RTL_PORT_REG i RTL_REG_PORT0_NULL_VID_REPLACE) 1 ;;
      rtl_set (RTL_PORT_REG i RTL_REG_PORT0_VID_INSERT) (if cbool en then (if i =? cpu_port then 0 else 1) else 1) ;;
      rtl_set (RTL_PORT_REG i RTL_REG_PORT0_TAG_INSERT) (if cbool en then (if i =? cpu_port then 2 else 1) else 3) ;;
      ret tt in
    if 3 <? i then
      port <- rtl_phy_save port_vlan ;;
      settings ;;
      rtl_phy_restore port_vlan port
    else settings) ;;
  rtl_set RTL_REG_VLAN_ENABLE en ;;
  ret tt.

Definition rtl_get_vlan : MR Z := rtl_get RTL_REG_VLAN_ENABLE.

Section Ports.
(** [SWITCH_PORT_FLAG_TAGGED]. *)
Variable tagged_flag : Z.

(** [val->len] entries of [val->value.ports] come filled in; [flags0] are the
    flags the buffer holds at the places behind them. *)
Definition rtl_get_ports (flags0 : Z -> Z) (filled : list switch_port) (port_vlan : Z) : MR (list switch_port) :=
  cpu_port <- of_rtl r_cpu_port ;;
  mask <- rtl_get (RTL_VLAN_REG port_vlan RTL_REG_VLAN0_PORTMASK) ;;
  loop_acc (Z.to_nat RTL8306_NUM_PORTS) 0 filled (fun i l =>
    if negb (cbool (Z.land mask (BIT i))) then ret l else
    tag <- rtl_get (RTL_PORT_REG i RTL_REG_PORT0_TAG_INSERT) ;;
    ret (l ++ [(i, if (tag =? 2) || (i =? cpu_port) then BIT tagged_flag else flags0 (Z.of_nat (length l)))])).

(** The body of the loop over the ports of [val], the [i]-th of which is
    [port]. *)
Definition rtl_set_port (cpu_port port_vlan i : Z) (port : switch_port) (mask : Z) : MR Z :=
  let '(id, flags) := port in
  let mask := u32 (Z.lor mask (BIT id)) in
  if id =? cpu_port then ret mask else
  let tagged := (i =? cpu_port) || cbool (Z.land flags (BIT tagged_flag)) in
  (if tagged then ret 0 else rtl_set (RTL_PORT_REG id RTL_REG_PORT0_PVID) port_vlan) ;;
  rtl_set (RTL_PORT_REG id RTL_REG_PORT0_NON_PVID_DISCARD) (if tagged then 0 else 1) ;;
  rtl_set (RTL_PORT_REG id RTL_REG_PORT0_VID_INSERT) (if tagged then 0 else 1) ;;
  rtl_set (RTL_PORT_REG id RTL_REG_PORT0_TAG_INSERT) (if tagged then 2 else 1) ;;
  ret mask.

Fixpoint rtl_set_ports_loop (cpu_port port_vlan i : Z) (ports : list switch_port) (mask : Z) : MR Z :=
  match ports with
  | [] => ret mask
  | p :: ports' =>
      mask <- rtl_set_port cpu_port port_vlan i p mask ;;
      rtl_set_ports_loop cpu_port port_vlan (i + 1) ports' mask
  end.

(** The PVID of a port that left the VLAN. *)
Definition rtl_fix_pvid (cpu_port port_vlan removed i : Z) : MR unit :=
  if negb (cbool (Z.land removed (BIT i))) then ret tt else
  if i =? cpu_port then ret tt else
  pvid <- rtl_get (RTL_PORT_REG i RTL_REG_PORT0_PVID) ;;
  if pvid =? port_vlan then
    vlans <- of_rtl r_vlans ;;
    rtl_set (RTL_PORT_REG i RTL_REG_PORT0_PVID) (vlans - 1) ;; ret tt
  else ret tt.

Definition rtl_set_ports (port_vlan : Z) (ports : list switch_port) : MR unit :=
  cpu_port <- of_rtl r_cpu_port ;;
  mask <- rtl_set_ports_loop cpu_port port_vlan 0 ports 0 ;;
  oldmask <- rtl_get (RTL_VLAN_REG port_vlan RTL_REG_VLAN0_PORTMASK) ;;
  rtl_set (RTL_VLAN_REG port_vlan RTL_REG_VLAN0_PORTMASK) mask ;;
  let removed := Z.ldiff oldmask mask in
  for_each RTL8306_NUM_PORTS (rtl_fix_pvid cpu_port port_vlan removed).
End Ports.

(** ** The PHY devices *)

Definition chip_type (chiptype : Z) (old : rtl_type) : rtl_type * string :=
  if (chiptype =? 0) || (chiptype =? 2) then (RTL_TYPE_S, "RTL8306S"%string)
  else if chiptype =? 1 then (RTL_TYPE_SD, "RTL8306SD"%string)
  else if chiptype =? 3 then (RTL_TYPE_SDM, "RTL8306SDM"%string)
  else (old, "RTL8306(unknown)"%string).

(** [addr]: the address of the PHY; [register]: what registering the switch
    returns.  The name of the switch, if it was set up. *)
Definition rtl8306_config_init (addr register : Z) : MR (option string) :=
  if negb (addr =? 0) then ret None else
  modify (fun s => RtlPriv (-1) (r_type s) 0 (r_fixup s) RTL8306_PORT_CPU RTL8306_NUM_VLANS (r_bus s)) ;;
  chipid <- rtl_get RTL_REG_CHIPID ;;
  chipver <- rtl_get RTL_REG_CHIPVER ;;
  chiptype <- rtl_get RTL_REG_CHIPTYPE ;;
  old <- of_rtl r_type ;;
  let '(t, name) := chip_type chiptype old in
  modify (fun s => RtlPriv (r_page s) t (r_do_cpu s) (r_fixup s) (r_cpu_port s) (r_vlans s) (r_bus s)) ;;
  rtl_hw_init ;;
  if register <? 0 then (fun s => (Err register, s)) else ret (Some name).

Definition rtl8306_config_aneg (addr : Z) : MR unit :=
  if addr =? 0 then ret tt else
  rtl_set (RTL_PORT_REG 4 RTL_REG_PORT0_NWAY) 1 ;;
  rtl_set (RTL_PORT_REG 4 RTL_REG_PORT0_NRESTART) 1 ;;
  ret tt.

(** Speed 100, full duplex, link. *)
Definition rtl8306_read_status (addr : Z) : MR (bool * bool * bool) :=
  if addr =? 4 then
    s <- rtl_get (RTL_PORT_REG 4 RTL_REG_PORT0_SPEED) ;;
    d <- rtl_get (RTL_PORT_REG 4 RTL_REG_PORT0_DUPLEX) ;;
    l <- rtl_get (RTL_PORT_REG 4 RTL_REG_PORT0_LINK) ;;
    ret (cbool s, cbool d, cbool l)
  else ret (true, true, true).
End Driver.

(** A structure fresh from [kzalloc], with its bus: what [rtl8306_probe] gives
    to every PHY, since no structure is ever put on the list it searches. *)
Definition rtl8306_probe {B} (phydevs : list (rtl_priv B)) (same_bus : rtl_priv B -> bool) (alloc : bool) (b : B) :
    res (rtl_priv B) :=
  match List.find same_bus phydevs with
  | Some priv => Ok priv
  | None => if alloc then Ok (RtlPriv 0 RTL_TYPE_S 0 false 0 0 b) else Err (- ENOMEM)
  end.

(** [pdev->phy_id] after looking for the chip. *)
Definition rtl8306_fixup {B} {MB : MiiBus B} (addr phy_id : Z) : M B Z := fun b =>
  if negb (addr =? 0) && negb (addr =? 4) then (Ok phy_id, b) else
  match rtl_get RTL_REG_CHIPID (RtlPriv (-1) RTL_TYPE_S 0 true 0 0 b) with
  | (Ok chipid, s) => (Ok (if u16 chipid =? 0x5988 then RTL8306_MAGIC else phy_id), r_bus s)
  | (Err e, s) => (Err e, r_bus s)
  end.
