(* ===== verification/Rtl8306Regs.v ===== *)
(** * The settings of the RTL8306 as independent variables

    What the driver relies on of the chip, and the two lemmas that make
    everything above them simple: reading a setting gives its value, and
    writing one changes that one only, whatever pages are involved. *)

From S2P Require Import Prelude CMonad SmiCore Mdio Rtl8306.

(** ** The table *)

(** Settings the chip changes by itself: identification, the reset bit, and
    the state of the link of a port. *)
Definition volatile (i : Z) : bool :=
  (i <=? RTL_REG_CHIPTYPE) || (i =? RTL_REG_RESET) ||
  ((RTL_REG_PORT0_PVID <=? i) &&
   let k := (i - RTL_REG_PORT0_PVID) mod RTL_PORT_REGOFS in
   (RTL_REG_PORT0_LINK - RTL_REG_PORT0_PVID <=? k) && (k <=? RTL_REG_PORT0_DUPLEX - RTL_REG_PORT0_PVID)).

Definition stored (i : Z) : bool := (0 <=? i) && (i <? num_regs) && negb (volatile i).

Definition in_field (r : rtl_reg) (page phy reg k : Z) : bool :=
  (rr_page r =? page) && (rr_phy r =? phy) && (rr_reg r =? reg) && (rr_shift r <=? k) && (k <? rr_shift r + rr_bits r).

(** The two bits that select the page. *)
Definition page_bit (page phy reg k : Z) : bool :=
  (page =? 0) && (phy =? 0) && (reg =? RTL8306_REG_PAGE) && ((k =? 15) || (k =? 1)).

(** Every field is inside a register of an existing page; the register with
    the page bits is used on page 0 and the page bits are no field's. *)
Definition entry_ok (r : rtl_reg) : bool :=
  (0 <? rr_bits r) && (0 <=? rr_shift r) && (rr_shift r + rr_bits r <=? 16) && (0 <=? rr_page r) && (rr_page r <? RTL8306_NUM_PAGES) &&
  implb ((rr_phy r =? 0) && (rr_reg r =? RTL8306_REG_PAGE)) (rr_page r =? 0) &&
  negb (in_field r 0 0 RTL8306_REG_PAGE 15) && negb (in_field r 0 0 RTL8306_REG_PAGE 1).

Definition apart (r r' : rtl_reg) : bool :=
  negb ((rr_page r =? rr_page r') && (rr_phy r =? rr_phy r') && (rr_reg r =? rr_reg r')) ||
  (rr_shift r + rr_bits r <=? rr_shift r') || (rr_shift r' + rr_bits r' <=? rr_shift r).

Lemma rtl_regs_ok i : 0 <= i < num_regs -> entry_ok (rtl_entry i) = true.
Proof.
  assert (H : forallb (fun i => entry_ok (rtl_entry i)) (upto 121) = true) by (vm_compute; reflexivity).
  apply (forallb_upto 121 _ H).
Qed.

Lemma rtl_regs_apart i j : 0 <= i < num_regs -> 0 <= j < num_regs -> i <> j -> apart (rtl_entry i) (rtl_entry j) = true.
Proof.
  assert (H : forallb (fun i => forallb (fun j => (i =? j) || apart (rtl_entry i) (rtl_entry j)) (upto 121)) (upto 121) = true)
    by (vm_compute; reflexivity).
  intros Hi Hj Hne. apply (forallb_upto 121 _ H) in Hi. apply (forallb_upto 121 _ Hi) in Hj.
  apply Z.eqb_neq in Hne. rewrite Hne in Hj. exact Hj.
Qed.

Lemma stored_range i : stored i = true -> 0 <= i < num_regs.
Proof. unfold stored. lia. Qed.

(** No bit is in two fields. *)
Lemma fields_apart i j page phy reg k : 0 <= i < num_regs -> 0 <= j < num_regs -> i <> j ->
  in_field (rtl_entry i) page phy reg k = true -> in_field (rtl_entry j) page phy reg k = false.
Proof.
  intros Hi Hj Hne. pose proof (rtl_regs_apart i j Hi Hj Hne) as H. unfold apart, in_field in *.
  intros Hf. apply not_true_is_false. intros Hg. lia.
Qed.

(** The bits that keep what is written. *)
Definition keeps (page phy reg k : Z) : bool :=
  page_bit page phy reg k || existsb (fun i => stored i && in_field (rtl_entry i) page phy reg k) (upto 121).

Lemma keeps_field i k : stored i = true -> 0 <= k < rr_bits (rtl_entry i) ->
  keeps (rr_page (rtl_entry i)) (rr_phy (rtl_entry i)) (rr_reg (rtl_entry i)) (rr_shift (rtl_entry i) + k) = true.
Proof.
  intros Hi Hk. unfold keeps. apply orb_true_iff. right. apply existsb_exists. exists i.
  pose proof (stored_range i Hi). split; [apply in_upto; unfold num_regs in *; lia |]. rewrite Hi. unfold in_field. lia.
Qed.

(** ** The chip *)

(** [hw_bit b page phy reg k]: a bit of a register; the page that is selected
    by the two page bits, one of them inverted; the page register itself is
    in every page. *)
Section Bank.
Context {B : Type}.
Variable hw_bit : B -> Z -> Z -> Z -> Z -> bool.
Definition sel_page (b : B) : Z :=
  b2z (hw_bit b 0 0 RTL8306_REG_PAGE 15) + 2 * b2z (negb (hw_bit b 0 0 RTL8306_REG_PAGE 1)).
Definition bank (b : B) (phy reg : Z) : Z := if (phy =? 0) && (reg =? RTL8306_REG_PAGE) then 0 else sel_page b.
End Bank.

Class Rtl8306Hw (B : Type) {MB : MiiBus B} := {
  hw_bit : B -> Z -> Z -> Z -> Z -> bool;
  hw_bit_read phy reg b k : 0 <= k < 16 -> keeps (bank hw_bit b phy reg) phy reg k = true ->
    Z.testbit (fst (mii_read phy reg b)) k = hw_bit b (bank hw_bit b phy reg) phy reg k;
  hw_bit_after_read phy reg b page q t k : 0 <= k < 16 -> keeps page q t k = true ->
    hw_bit (snd (mii_read phy reg b)) page q t k = hw_bit b page q t k;
  hw_bit_write phy reg v b page q t k : 0 <= v < 65536 -> 0 <= k < 16 -> keeps page q t k = true ->
    hw_bit (snd (mii_write phy reg v b)) page q t k =
      if (page =? bank hw_bit b phy reg) && (q =? phy) && (t =? reg) then Z.testbit v k else hw_bit b page q t k
}.

(** The number with the given bits. *)
Fixpoint bits_value (n : nat) (f : Z -> bool) : Z :=
  match n with
  | O => 0
  | S n' => Z.lor (bits_value n' f) (Z.shiftl (b2z (f (Z.of_nat n'))) (Z.of_nat n'))
  end.

Lemma testbit_bits_value n f k : 0 <= k -> Z.testbit (bits_value n f) k = (k <? Z.of_nat n) && f k.
Proof.
  intros Hk. induction n as [| n IH]; [rewrite Z.testbit_0_l; destruct (Z.ltb_spec k (Z.of_nat 0)); [lia | reflexivity] |].
  cbn [bits_value]. rewrite Z.lor_spec, IH, Z.shiftl_spec by lia.
  assert (Hb : forall c i, Z.testbit (b2z c) i = c && (i =? 0)).
  { intros [] i; cbn [b2z andb]; [| apply Z.testbit_0_l]. change 1 with (BIT 0). rewrite testbit_BIT by lia. apply Z.eqb_sym. }
  rewrite Hb. destruct (Z.ltb_spec k (Z.of_nat n)), (Z.ltb_spec k (Z.of_nat (S n))), (Z.eqb_spec (k - Z.of_nat n) 0); try lia;
    cbn [andb orb]; rewrite ?andb_false_r, ?orb_false_r, ?andb_true_r; try reflexivity.
  f_equal. lia.
Qed.

Lemma rtl_bits_range n f : 0 <= bits_value n f < 2 ^ Z.of_nat n.
Proof.
  assert (Heq : bits_value n f = Z.land (bits_value n f) (Z.ones (Z.of_nat n))).
  { apply Z.bits_inj'. intros k Hk. rewrite Z.land_spec, testbit_ones, testbit_bits_value by lia.
    destruct (Z.ltb_spec k (Z.of_nat n)), (Z.leb_spec 0 k); try lia; cbn [andb]; rewrite ?andb_true_r; reflexivity. }
  rewrite Heq, land_ones_mask by lia. apply Z.mod_pos_bound. lia.
Qed.

Section Access.
Context {B : Type} {MB : MiiBus B} {HW : Rtl8306Hw B}.

Implicit Types (s : rtl_priv B) (b : B).

(** The value of a setting. *)
Definition field b (i : Z) : Z :=
  let r := rtl_entry i in
  bits_value (Z.to_nat (rr_bits r))
    (fun k => xorb (rr_inverted r) (hw_bit b (rr_page r) (rr_phy r) (rr_reg r) (rr_shift r + k))).

(** The page does not matter to the fields: the same bits but the page's. *)
Definition same_bits b b' : Prop := forall page q t k,
  0 <= k < 16 -> keeps page q t k = true -> page_bit page q t k = false -> hw_bit b' page q t k = hw_bit b page q t k.

Lemma same_bits_trans b1 b2 b3 : same_bits b1 b2 -> same_bits b2 b3 -> same_bits b1 b3.
Proof. intros H1 H2 page q t k Hk Hs Hp. rewrite H2, H1 by assumption. reflexivity. Qed.

Lemma not_page_bit i k : 0 <= i < num_regs -> 0 <= k < rr_bits (rtl_entry i) ->
  page_bit (rr_page (rtl_entry i)) (rr_phy (rtl_entry i)) (rr_reg (rtl_entry i)) (rr_shift (rtl_entry i) + k) = false.
Proof.
  intros Hi Hk. pose proof (rtl_regs_ok i Hi) as H. unfold entry_ok, in_field, page_bit in *.
  apply not_true_is_false. intros Hp. lia.
Qed.

Lemma field_ext b b' i : stored i = true ->
  (forall k, 0 <= k < rr_bits (rtl_entry i) ->
     let r := rtl_entry i in
     hw_bit b' (rr_page r) (rr_phy r) (rr_reg r) (rr_shift r + k) = hw_bit b (rr_page r) (rr_phy r) (rr_reg r) (rr_shift r + k)) ->
  field b' i = field b i.
Proof.
  intros Hi H. unfold field. apply Z.bits_inj'. intros k Hk. rewrite !testbit_bits_value by exact Hk.
  destruct (Z.ltb_spec k (Z.of_nat (Z.to_nat (rr_bits (rtl_entry i))))); [| reflexivity]. cbn [andb]. f_equal. apply H. lia.
Qed.

Lemma entry_range i : 0 <= i < num_regs ->
  0 < rr_bits (rtl_entry i) /\ 0 <= rr_shift (rtl_entry i) /\ rr_shift (rtl_entry i) + rr_bits (rtl_entry i) <= 16 /\
  0 <= rr_page (rtl_entry i) < 4.
Proof. intros Hi. pose proof (rtl_regs_ok i Hi) as H. unfold entry_ok, RTL8306_NUM_PAGES in H. lia. Qed.

Lemma same_bits_field b b' i : same_bits b b' -> stored i = true -> field b' i = field b i.
Proof.
  intros H Hi. pose proof (stored_range i Hi) as Hr. pose proof (entry_range i Hr).
  apply field_ext; [exact Hi |]. intros k Hk. cbv zeta. apply H; [lia | apply keeps_field; assumption | apply not_page_bit; assumption].
Qed.

Lemma keeps_page k : (k = 15 \/ k = 1) -> keeps 0 0 RTL8306_REG_PAGE k = true.
Proof. intros [-> | ->]; reflexivity. Qed.

Lemma same_bits_read phy reg b : same_bits b (snd (mii_read phy reg b)).
Proof. intros page q t k Hk Hs _. apply hw_bit_after_read; assumption. Qed.

Lemma sel_read phy reg b : sel_page hw_bit (snd (mii_read phy reg b)) = sel_page hw_bit b.
Proof. unfold sel_page. rewrite !hw_bit_after_read by (lia || apply keeps_page; auto). reflexivity. Qed.

(** ** Pages *)

(** A structure whose page is unknown: every access selects the page. *)
Definition ready s : Prop := r_fixup s = false /\ r_page s = -1.

Lemma set_page_run s page : ready s -> 0 <= page < 4 ->
  exists b, rtl_set_page page s = (Ok tt, with_rbus b s) /\ same_bits (r_bus s) b /\ sel_page hw_bit b = page.
Proof.
  intros [Hf Hp] Hpg. unfold rtl_set_page, bind, get_state. rewrite Hf, Hp.
  change (u32 (-1)) with 4294967295. destruct (Z.eqb_spec 4294967295 page); [lia |].
  unfold RTL8306_NUM_PAGES. destruct (Z.ltb_spec 4 page); [lia |]. unfold bus_read.
  pose proof (fun k Hk => hw_bit_read 0 RTL8306_REG_PAGE (r_bus s) k Hk) as Hv.
  pose proof (same_bits_read 0 RTL8306_REG_PAGE (r_bus s)) as Hsame. pose proof (sel_read 0 RTL8306_REG_PAGE (r_bus s)) as Hsel.
  destruct (mii_read 0 RTL8306_REG_PAGE (r_bus s)) as [v b1]. cbn [fst snd] in *. unfold bus_write. cbn [r_bus with_rbus].
  set (w := u16 _). assert (Hw : 0 <= w < 65536) by apply u16_range.
  assert (Hbit : forall k, 0 <= k < 16 -> Z.testbit w k =
    if k =? 15 then Z.testbit page 0 else if k =? 1 then negb (Z.testbit page 1) else Z.testbit v k).
  { intros k Hk. subst w. unfold u16. rewrite testbit_uwrap by lia. rewrite !cbool_land_BIT by lia.
    unfold RTL8306_REG_PAGE_LO, RTL8306_REG_PAGE_HI. change (Z.shiftl 1 15) with (BIT 15). change (Z.shiftl 1 1) with (BIT 1).
    destruct (Z.testbit page 0), (Z.testbit page 1);
      rewrite ?Z.lor_spec, ?Z.ldiff_spec, ?Z.lor_spec, !testbit_BIT, testbit_uwrap by lia;
      destruct (Z.ltb_spec k 16), (Z.eqb_spec 15 k), (Z.eqb_spec k 15), (Z.eqb_spec 1 k), (Z.eqb_spec k 1); try lia;
      cbn [andb orb negb]; rewrite ?andb_true_r, ?andb_false_r, ?orb_false_r, ?orb_true_r; reflexivity. }
  eexists. split; [reflexivity |]. split.
  - apply (same_bits_trans _ b1); [exact Hsame |]. intros pg q t k Hk Hs Hnp.
    rewrite hw_bit_write by assumption. change (bank hw_bit b1 0 RTL8306_REG_PAGE) with 0.
    destruct (_ && _) eqn:He; [| reflexivity].
    assert (pg = 0 /\ q = 0 /\ t = RTL8306_REG_PAGE) as (-> & -> & ->) by (unfold RTL8306_REG_PAGE in *; lia).
    pose proof Hnp as Hnp'. unfold page_bit in Hnp'. rewrite Hbit by exact Hk.
    destruct (Z.eqb_spec k 15); [subst; discriminate |]. destruct (Z.eqb_spec k 1); [subst; discriminate |].
    rewrite (Hv k Hk Hs). change (bank hw_bit (r_bus s) 0 RTL8306_REG_PAGE) with 0. symmetry. apply Hsame; assumption.
  - unfold sel_page. rewrite !hw_bit_write by (lia || apply keeps_page; auto). change (bank hw_bit b1 0 RTL8306_REG_PAGE) with 0.
    rewrite !Hbit by lia. cbn [Z.eqb Pos.eqb RTL8306_REG_PAGE andb]. rewrite negb_involutive.
    assert (page = 0 \/ page = 1 \/ page = 2 \/ page = 3) as [-> | [-> | [-> | ->]]] by lia; reflexivity.
Qed.

(** ** Reading and writing a setting *)

Lemma entry_bank b i : 0 <= i < num_regs -> sel_page hw_bit b = rr_page (rtl_entry i) ->
  bank hw_bit b (rr_phy (rtl_entry i)) (rr_reg (rtl_entry i)) = rr_page (rtl_entry i).
Proof.
  intros Hi Hs. unfold bank. rewrite Hs. pose proof (rtl_regs_ok i Hi) as H. unfold entry_ok, implb in H.
  destruct ((rr_phy (rtl_entry i) =? 0) && (rr_reg (rtl_entry i) =? RTL8306_REG_PAGE)); [lia | reflexivity].
Qed.

Lemma in_array_regs i : 0 <= i < num_regs -> in_array rtl_regs i = true.
Proof. intros Hi. unfold in_array, num_regs in *. change (Z.of_nat (length rtl_regs)) with 121. lia. Qed.

Lemma land_BIT_mask x n : 0 <= n -> Z.land x (BIT n - 1) = uwrap n x.
Proof.
  intros Hn. unfold uwrap. rewrite BIT_pow, <- land_ones_mask by exact Hn. f_equal. rewrite Z.ones_equiv. lia.
Qed.

(** What [rtl_get] makes of the word it has read. *)
Definition get_value (r : rtl_reg) (v : Z) : Z :=
  let val := u16 v in
  let val := if 0 <? rr_shift r then Z.shiftr val (rr_shift r) else val in
  let val := if rr_inverted r then u16 (Z.lnot val) else val in
  Z.land val (BIT (rr_bits r) - 1).

Lemma testbit_get_value i v k : 0 <= i < num_regs -> 0 <= k ->
  Z.testbit (get_value (rtl_entry i) v) k =
    (k <? rr_bits (rtl_entry i)) && xorb (rr_inverted (rtl_entry i)) (Z.testbit v (rr_shift (rtl_entry i) + k)).
Proof.
  intros Hi Hk. destruct (entry_range i Hi) as (H1 & H2 & H3 & _). unfold get_value. rewrite land_BIT_mask, testbit_uwrap by lia.
  destruct (Z.ltb_spec k (rr_bits (rtl_entry i))); [| reflexivity]. cbn [andb].
  set (x := if 0 <? rr_shift (rtl_entry i) then _ else _).
  assert (Hx : Z.testbit x k = Z.testbit v (rr_shift (rtl_entry i) + k)).
  { assert (Hx : x = Z.shiftr (u16 v) (rr_shift (rtl_entry i))).
    { subst x. destruct (Z.ltb_spec 0 (rr_shift (rtl_entry i))); [reflexivity |].
      replace (rr_shift (rtl_entry i)) with 0 by lia. rewrite Z.shiftr_0_r. reflexivity. }
    rewrite Hx, Z.shiftr_spec by exact Hk. unfold u16. rewrite testbit_uwrap by lia.
    destruct (Z.ltb_spec (k + rr_shift (rtl_entry i)) 16); [| lia]. cbn [andb]. f_equal. lia. }
  destruct (rr_inverted (rtl_entry i)); [| rewrite Hx, xorb_false_l; reflexivity].
  unfold u16. rewrite testbit_uwrap by lia. rewrite Z.lnot_spec by lia. rewrite Hx. destruct (Z.ltb_spec k 16); [| lia].
  destruct (Z.testbit v (rr_shift (rtl_entry i) + k)); reflexivity.
Qed.

Lemma get_value_field b i : stored i = true -> sel_page hw_bit b = rr_page (rtl_entry i) ->
  get_value (rtl_entry i) (fst (mii_read (rr_phy (rtl_entry i)) (rr_reg (rtl_entry i)) b)) = field b i.
Proof.
  intros Hi Hs. pose proof (stored_range i Hi) as Hr. destruct (entry_range i Hr) as (H1 & H2 & H3 & _).
  apply Z.bits_inj'. intros k Hk. rewrite testbit_get_value by assumption. unfold field. rewrite testbit_bits_value by exact Hk.
  rewrite Z2Nat.id by lia. destruct (Z.ltb_spec k (rr_bits (rtl_entry i))) as [Hlt | _]; [| reflexivity]. cbn [andb].
  pose proof (hw_bit_read (rr_phy (rtl_entry i)) (rr_reg (rtl_entry i)) b (rr_shift (rtl_entry i) + k)) as H.
  rewrite (entry_bank b i Hr Hs) in H. rewrite H; [reflexivity | lia | apply keeps_field; [exact Hi | lia]].
Qed.

Lemma rtl_get_run i s : ready s -> 0 <= i < num_regs ->
  exists v b, rtl_get i s = (Ok v, with_rbus b s) /\ same_bits (r_bus s) b /\
    0 <= v < 2 ^ rr_bits (rtl_entry i) /\ (stored i = true -> v = field (r_bus s) i).
Proof.
  intros Hs Hi. destruct (entry_range i Hi) as (H1 & H2 & H3 & H4). unfold rtl_get. rewrite in_array_regs by exact Hi. cbn [negb].
  destruct (Z.eqb_spec (rr_bits (rtl_entry i)) 0); [lia |]. unfold rtl_r16.
  destruct (set_page_run s _ Hs H4) as (b1 & Hrun & Hsame & Hsel). unfold bind. rewrite Hrun. unfold bus_read.
  pose proof (same_bits_read (rr_phy (rtl_entry i)) (rr_reg (rtl_entry i)) b1) as Hs2.
  pose proof (fun Hst => get_value_field b1 i Hst Hsel) as Hval. cbn [r_bus with_rbus].
  destruct (mii_read (rr_phy (rtl_entry i)) (rr_reg (rtl_entry i)) b1) as [v b2]. cbn [fst snd] in *.
  exists (get_value (rtl_entry i) v), b2. split; [reflexivity |]. split; [apply (same_bits_trans _ b1); assumption |]. split.
  - unfold get_value. rewrite land_BIT_mask by lia. apply uwrap_range. lia.
  - intros Hst. rewrite Hval by exact Hst. apply (same_bits_field _ _ i Hsame Hst).
Qed.

(** The mask and the bits [rtl_set] writes. *)
Definition set_mask (r : rtl_reg) : Z :=
  if rr_bits r =? 16 then 0xffff else u16 (Z.shiftl (BIT (rr_bits r) - 1) (rr_shift r)).
Definition set_value (r : rtl_reg) (val : Z) : Z :=
  let val := u32 val in
  let val := if 0 <? rr_shift r then u32 (Z.shiftl val (rr_shift r)) else val in
  if rr_inverted r then u32 (Z.lnot val) else val.

Lemma testbit_set_mask i k : 0 <= i < num_regs -> 0 <= k < 16 ->
  Z.testbit (set_mask (rtl_entry i)) k = (rr_shift (rtl_entry i) <=? k) && (k <? rr_shift (rtl_entry i) + rr_bits (rtl_entry i)).
Proof.
  intros Hi Hk. destruct (entry_range i Hi) as (H1 & H2 & H3 & _). unfold set_mask.
  destruct (Z.eqb_spec (rr_bits (rtl_entry i)) 16) as [He |].
  - change 0xffff with (Z.ones 16). rewrite testbit_ones by lia. lia.
  - rewrite BIT_pow by lia. replace (2 ^ rr_bits (rtl_entry i) - 1) with (Z.ones (rr_bits (rtl_entry i))) by (rewrite Z.ones_equiv; lia).
    unfold u16. rewrite testbit_uwrap, Z.shiftl_spec, testbit_ones by lia. lia.
Qed.

Lemma testbit_set_value i val k : 0 <= i < num_regs -> 0 <= k < rr_bits (rtl_entry i) ->
  Z.testbit (set_value (rtl_entry i) val) (rr_shift (rtl_entry i) + k) = xorb (rr_inverted (rtl_entry i)) (Z.testbit val k).
Proof.
  intros Hi Hk. destruct (entry_range i Hi) as (H1 & H2 & H3 & _). unfold set_value.
  set (sh := rr_shift (rtl_entry i)) in *. set (x := if 0 <? sh then _ else _).
  assert (Hx : Z.testbit x (sh + k) = Z.testbit val k).
  { subst x. unfold u32. destruct (Z.ltb_spec 0 sh).
    - rewrite testbit_uwrap, Z.shiftl_spec, testbit_uwrap by lia. replace (sh + k - sh) with k by lia.
      destruct (Z.ltb_spec (sh + k) 32), (Z.ltb_spec k 32); try lia. reflexivity.
    - rewrite testbit_uwrap by lia. replace (sh + k) with k by lia. destruct (Z.ltb_spec k 32); [reflexivity | lia]. }
  destruct (rr_inverted (rtl_entry i)); [| rewrite Hx, xorb_false_l; reflexivity].
  unfold u32. rewrite testbit_uwrap by lia. rewrite Z.lnot_spec by lia. rewrite Hx. destruct (Z.ltb_spec (sh + k) 32); [| lia].
  destruct (Z.testbit val k); reflexivity.
Qed.

(** The word that is written. *)
Lemma testbit_rmw_word i x val k : 0 <= i < num_regs -> 0 <= k < 16 ->
  Z.testbit (u16 (Z.lor (Z.ldiff (u16 x) (set_mask (rtl_entry i))) (Z.land (set_value (rtl_entry i) val) (set_mask (rtl_entry i))))) k
  = if (rr_shift (rtl_entry i) <=? k) && (k <? rr_shift (rtl_entry i) + rr_bits (rtl_entry i))
    then xorb (rr_inverted (rtl_entry i)) (Z.testbit val (k - rr_shift (rtl_entry i))) else Z.testbit x k.
Proof.
  intros Hi Hk. unfold u16. rewrite testbit_uwrap by lia. rewrite Z.lor_spec, Z.ldiff_spec, Z.land_spec, testbit_uwrap by lia.
  rewrite testbit_set_mask by assumption. destruct (Z.ltb_spec k 16); [| lia]. cbn [andb].
  destruct ((rr_shift (rtl_entry i) <=? k) && (k <? rr_shift (rtl_entry i) + rr_bits (rtl_entry i))) eqn:He; cbn [negb].
  - rewrite <- (testbit_set_value i val (k - rr_shift (rtl_entry i))) by lia.
    replace (rr_shift (rtl_entry i) + (k - rr_shift (rtl_entry i))) with k by lia. rewrite andb_false_r, andb_true_r. reflexivity.
  - rewrite andb_true_r, andb_false_r, orb_false_r. reflexivity.
Qed.

(** A write to a setting, at the level of bits. *)
Lemma write_bits i val x b page q t k : 0 <= i < num_regs -> sel_page hw_bit b = rr_page (rtl_entry i) ->
  0 <= k < 16 -> keeps page q t k = true ->
  (forall k, 0 <= k < 16 -> keeps (rr_page (rtl_entry i)) (rr_phy (rtl_entry i)) (rr_reg (rtl_entry i)) k = true ->
     Z.testbit x k = hw_bit b (rr_page (rtl_entry i)) (rr_phy (rtl_entry i)) (rr_reg (rtl_entry i)) k) ->
  hw_bit (snd (mii_write (rr_phy (rtl_entry i)) (rr_reg (rtl_entry i))
    (u16 (Z.lor (Z.ldiff (u16 x) (set_mask (rtl_entry i))) (Z.land (set_value (rtl_entry i) val) (set_mask (rtl_entry i))))) b)) page q t k
  = if in_field (rtl_entry i) page q t k then xorb (rr_inverted (rtl_entry i)) (Z.testbit val (k - rr_shift (rtl_entry i)))
    else hw_bit b page q t k.
Proof.
  intros Hi Hsel Hk Hs Hx. rewrite hw_bit_write by (apply u16_range || assumption). rewrite (entry_bank b i Hi Hsel).
  destruct ((page =? rr_page (rtl_entry i)) && (q =? rr_phy (rtl_entry i)) && (t =? rr_reg (rtl_entry i))) eqn:He.
  - assert (page = rr_page (rtl_entry i) /\ q = rr_phy (rtl_entry i) /\ t = rr_reg (rtl_entry i)) as (-> & -> & ->) by lia.
    rewrite testbit_rmw_word by assumption. unfold in_field. rewrite !Z.eqb_refl. cbn [andb].
    rewrite (Hx k Hk Hs). reflexivity.
  - replace (in_field (rtl_entry i) page q t k) with false; [reflexivity |]. symmetry. apply not_true_is_false. unfold in_field. lia.
Qed.

Lemma rtl_set_run i val s : ready s -> 0 <= i < num_regs ->
  exists v b, rtl_set i val s = (Ok v, with_rbus b s) /\
    forall j, stored j = true -> field b j = if j =? i then uwrap (rr_bits (rtl_entry i)) val else field (r_bus s) j.
Proof.
  intros Hs Hi. destruct (entry_range i Hi) as (H1 & H2 & H3 & H4). unfold rtl_set. rewrite in_array_regs by exact Hi. cbn [negb].
  destruct (Z.eqb_spec (rr_bits (rtl_entry i)) 0); [lia |]. cbv zeta.
  fold (set_mask (rtl_entry i)). fold (set_value (rtl_entry i) val). unfold rtl_rmw.
  destruct (set_page_run s _ Hs H4) as (b1 & Hrun & Hsame1 & Hsel). unfold bind. rewrite Hrun. unfold bus_read, bus_write. cbn [r_bus with_rbus].
  pose proof (same_bits_read (rr_phy (rtl_entry i)) (rr_reg (rtl_entry i)) b1) as Hsame2.
  pose proof (sel_read (rr_phy (rtl_entry i)) (rr_reg (rtl_entry i)) b1) as Hsel2.
  pose proof (fun k Hk => hw_bit_read (rr_phy (rtl_entry i)) (rr_reg (rtl_entry i)) b1 k Hk) as Hread.
  rewrite (entry_bank b1 i Hi Hsel) in Hread.
  pose proof (fun page q t k Hk Hks => hw_bit_after_read (rr_phy (rtl_entry i)) (rr_reg (rtl_entry i)) b1 page q t k Hk Hks) as Hafter.
  destruct (mii_read (rr_phy (rtl_entry i)) (rr_reg (rtl_entry i)) b1) as [x b2]. cbn [fst snd] in *. cbn [r_bus with_rbus].
  assert (Hx : forall k, 0 <= k < 16 -> keeps (rr_page (rtl_entry i)) (rr_phy (rtl_entry i)) (rr_reg (rtl_entry i)) k = true ->
     Z.testbit x k = hw_bit b2 (rr_page (rtl_entry i)) (rr_phy (rtl_entry i)) (rr_reg (rtl_entry i)) k).
  { intros k Hk Hks. rewrite Hread, Hafter by assumption. reflexivity. }
  rewrite <- Hsel2 in Hsel.
  pose proof (fun page q t k Hk Hks => write_bits i val x b2 page q t k Hi Hsel Hk Hks Hx) as Hw.
  destruct (mii_write _ _ _ b2) as [e b3]. cbn [snd r_bus with_rbus] in *.
  pose proof (same_bits_read (rr_phy (rtl_entry i)) (rr_reg (rtl_entry i)) b3) as Hsame4.
  destruct (mii_read (rr_phy (rtl_entry i)) (rr_reg (rtl_entry i)) b3) as [y b4]. cbn [snd] in *.
  eexists _, b4. split; [reflexivity |]. intros j Hj. pose proof (stored_range j Hj) as Hjr. destruct (entry_range j Hjr) as (J1 & J2 & J3 & _).
  rewrite (same_bits_field _ _ j Hsame4 Hj). destruct (Z.eqb_spec j i) as [-> | Hne].
  - apply Z.bits_inj'. intros k Hk. unfold field. rewrite testbit_bits_value, testbit_uwrap by lia. rewrite Z2Nat.id by lia.
    destruct (Z.ltb_spec k (rr_bits (rtl_entry i))); [| reflexivity]. cbn [andb].
    rewrite Hw by (lia || (apply keeps_field; [exact Hj | lia])). unfold in_field. rewrite !Z.eqb_refl.
    destruct (Z.leb_spec (rr_shift (rtl_entry i)) (rr_shift (rtl_entry i) + k)); [| lia].
    destruct (Z.ltb_spec (rr_shift (rtl_entry i) + k) (rr_shift (rtl_entry i) + rr_bits (rtl_entry i))); [| lia]. cbn [andb].
    replace (rr_shift (rtl_entry i) + k - rr_shift (rtl_entry i)) with k by lia.
    destruct (rr_inverted (rtl_entry i)), (Z.testbit val k); reflexivity.
  - rewrite <- (same_bits_field _ _ j Hsame1 Hj), <- (same_bits_field _ _ j Hsame2 Hj). apply field_ext; [exact Hj |].
    intros k Hk. cbv zeta. rewrite Hw by (lia || (apply keeps_field; assumption)).
    rewrite (fields_apart j i); [reflexivity | exact Hjr | exact Hi | exact Hne |]. unfold in_field. lia.
Qed.
End Access.
