(* ===== verification/Rtl8306Props.v ===== *)
(** * Properties of the RTL8306 driver

    What the operations of the driver do to the settings of the chip. *)

From S2P Require Import Prelude CMonad SmiCore Mdio Rtl8306 Rtl8306Regs.

Definition settings : Type := Z -> Z.

(** The settings after [rtl_set i x]. *)
Definition setf (f : settings) (i x : Z) : settings :=
  fun j => if j =? i then uwrap (rr_bits (rtl_entry i)) x else f j.

(** Indices are in the table. *)
Ltac index :=
  unfold RTL_PORT_REG, RTL_VLAN_REG, RTL_PORT_REGOFS, RTL_VLAN_REGOFS, num_regs,
    RTL_REG_CHIPID, RTL_REG_CHIPVER, RTL_REG_CHIPTYPE, RTL_REG_CPUPORT, RTL_REG_EN_CPUPORT, RTL_REG_EN_TAG_OUT,
    RTL_REG_EN_TAG_CLR, RTL_REG_EN_TAG_IN, RTL_REG_CPU_LINKUP, RTL_REG_TRUNK_PORTSEL, RTL_REG_EN_TRUNK, RTL_REG_RESET,
    RTL_REG_VLAN_ENABLE, RTL_REG_VLAN_FILTER, RTL_REG_VLAN_TAG_AWARE, RTL_REG_VLAN0_VID, RTL_REG_VLAN0_PORTMASK,
    RTL_REG_PORT0_PVID, RTL_REG_PORT0_NULL_VID_REPLACE, RTL_REG_PORT0_NON_PVID_DISCARD, RTL_REG_PORT0_VID_INSERT,
    RTL_REG_PORT0_TAG_INSERT, RTL_REG_PORT0_LINK, RTL_REG_PORT0_SPEED, RTL_REG_PORT0_NWAY, RTL_REG_PORT0_NRESTART,
    RTL_REG_PORT0_DUPLEX, RTL_REG_PORT0_RXEN, RTL_REG_PORT0_TXEN in *; lia.

(** All settings, one by one. *)
Lemma each_setting (P : Z -> Prop) : Forall P (List.filter stored (upto 121)) -> forall j, stored j = true -> P j.
Proof.
  intros H j Hj. rewrite List.Forall_forall in H. apply H, filter_In. split; [apply in_upto | exact Hj].
  pose proof (stored_range j Hj). index.
Qed.

Ltac all_settings tac :=
  apply each_setting;
  let l := eval vm_compute in (List.filter stored (upto 121)) in change (List.filter stored (upto 121)) with l;
  repeat (constructor; [tac |]); try constructor.

Section Props.
Context {B : Type} {MB : MiiBus B} {HW : Rtl8306Hw B}.

Implicit Types (s : rtl_priv B) (f g : settings).

(** The driver's structure is that of [s0], and the chip has the settings [f]. *)
Definition holds s0 f s : Prop := exists b, s = with_rbus b s0 /\ forall j, stored j = true -> field b j = f j.

Lemma holds_ext s0 f g s : (forall j, stored j = true -> f j = g j) -> holds s0 f s -> holds s0 g s.
Proof. intros He (b & -> & Hb). exists b. split; [reflexivity |]. intros j Hj. rewrite Hb, He by exact Hj. reflexivity. Qed.

Lemma holds_self s : holds s (field (r_bus s)) s.
Proof. exists (r_bus s). split; [destruct s; reflexivity | reflexivity]. Qed.

Lemma holds_field s0 f s j : holds s0 f s -> stored j = true -> field (r_bus s) j = f j.
Proof. intros (b & -> & Hb) Hj. apply Hb, Hj. Qed.

Lemma field_range b j : stored j = true -> 0 <= field b j < 2 ^ rr_bits (rtl_entry j).
Proof.
  intros Hj. pose proof (entry_range j (stored_range j Hj)). unfold field.
  pose proof (rtl_bits_range (Z.to_nat (rr_bits (rtl_entry j)))
    (fun k => xorb (rr_inverted (rtl_entry j)) (hw_bit b (rr_page (rtl_entry j)) (rr_phy (rtl_entry j)) (rr_reg (rtl_entry j)) (rr_shift (rtl_entry j) + k)))) as H1.
  rewrite Z2Nat.id in H1 by lia. exact H1.
Qed.

Lemma holds_range s0 f s j : holds s0 f s -> stored j = true -> uwrap (rr_bits (rtl_entry j)) (f j) = f j.
Proof. intros H Hj. rewrite <- (holds_field _ _ _ _ H Hj). apply uwrap_small, field_range, Hj. Qed.

Lemma ready_with_rbus b s : ready s -> ready (with_rbus b s).
Proof. exact (fun H => H). Qed.

Lemma rtl_wp_get s0 f i (Q : Z -> rtl_priv B -> Prop) E s : ready s0 -> holds s0 f s -> 0 <= i < num_regs ->
  (forall v s', holds s0 f s' -> 0 <= v < 2 ^ rr_bits (rtl_entry i) -> (stored i = true -> v = f i) -> Q v s') -> wp (rtl_get i) Q E s.
Proof.
  intros Hr (b & -> & Hb) Hi HQ. destruct (rtl_get_run i (with_rbus b s0) Hr Hi) as (v & b' & Hrun & Hsame & Hv & Hval).
  unfold wp. rewrite Hrun. apply HQ; [| exact Hv |].
  - exists b'. split; [reflexivity |]. intros j Hj. rewrite <- Hb by exact Hj. apply (same_bits_field _ _ j Hsame Hj).
  - intros Hst. rewrite Hval by exact Hst. apply Hb, Hst.
Qed.

Lemma wp_set s0 f i x (Q : Z -> rtl_priv B -> Prop) E s : ready s0 -> holds s0 f s -> 0 <= i < num_regs ->
  (forall v s', holds s0 (setf f i x) s' -> Q v s') -> wp (rtl_set i x) Q E s.
Proof.
  intros Hr (b & -> & Hb) Hi HQ. destruct (rtl_set_run i x (with_rbus b s0) Hr Hi) as (v & b' & Hrun & Hset).
  unfold wp. rewrite Hrun. apply HQ. exists b'. split; [reflexivity |]. intros j Hj. rewrite (Hset j Hj). unfold setf.
  destruct (j =? i); [reflexivity | apply Hb, Hj].
Qed.

(** C39: the settings are independent variables: after [rtl_set i val],
    [rtl_get j] returns the low bits of [val] for [j = i], as many as the
    setting has, and what it would have returned before for any other setting
    the chip stores.  All the pages, shared registers and inverted bits of
    the table do not show. *)
Theorem rtl_set_get s i j val : ready s -> 0 <= i < num_regs -> stored j = true ->
  exists v s', rtl_set i val s = (Ok v, s') /\ ready s' /\
    fst (rtl_get j s') = if j =? i then Ok (val mod 2 ^ rr_bits (rtl_entry i)) else fst (rtl_get j s).
Proof.
  intros Hr Hi Hj. destruct (rtl_set_run i val s Hr Hi) as (v & b & Hrun & Hset). eexists _, _. split; [exact Hrun |].
  split; [exact Hr |]. pose proof (stored_range j Hj) as Hjr.
  destruct (rtl_get_run j (with_rbus b s) Hr Hjr) as (v1 & b1 & -> & _ & _ & H1).
  destruct (rtl_get_run j s Hr Hjr) as (v2 & b2 & -> & _ & _ & H2). cbn [fst]. rewrite H1, H2 by exact Hj. cbn [r_bus with_rbus].
  rewrite (Hset j Hj). destruct (j =? i); reflexivity.
Qed.

(** ** Applying *)

Ltac step Hr H :=
  lazymatch goal with
  | |- wp (bind _ _) _ _ _ => apply wp_bind; step Hr H
  | |- wp (rtl_get _) _ _ _ => eapply rtl_wp_get; [exact Hr | exact H | index |]; clear H; intros ? ? H ? ?; cbv beta
  | |- wp (rtl_set _ _) _ _ _ => eapply wp_set; [exact Hr | exact H | index |]; clear H; intros ? ? H; cbv beta
  | |- wp (ret _) _ _ _ => apply wp_ret; cbv beta
  end.
Ltac steps Hr H := repeat step Hr H.

Definition en_bit (n j : Z) : bool :=
  (RTL_REG_PORT0_PVID <=? j) && (((j - RTL_REG_PORT0_PVID) mod RTL_PORT_REGOFS =? 10) || ((j - RTL_REG_PORT0_PVID) mod RTL_PORT_REGOFS =? 11)) &&
  ((j - RTL_REG_PORT0_PVID) / RTL_PORT_REGOFS <? n).

Lemma wp_enable s0 f e (Q : unit -> rtl_priv B -> Prop) E s : ready s0 -> holds s0 f s ->
  (forall s', holds s0 (fun j => if en_bit 5 j then uwrap 1 e else f j) s' -> Q tt s') ->
  wp (for_each (RTL8306_NUM_PORTS - 1) (fun i => rtl_port_set_enable i e)) Q E s.
Proof.
  intros Hr H HQ. unfold for_each. change (Z.to_nat (RTL8306_NUM_PORTS - 1)) with 5%nat.
  assert (Hport : forall i (R : unit -> rtl_priv B -> Prop) g s1, 0 <= i < 5 -> holds s0 g s1 ->
    (forall s', holds s0 (setf (setf g (RTL_PORT_REG i RTL_REG_PORT0_RXEN) e) (RTL_PORT_REG i RTL_REG_PORT0_TXEN) e) s' -> R tt s') ->
    wp (rtl_port_set_enable i e) R E s1).
  { intros i R g s1 Hi Hg HR. unfold rtl_port_set_enable. step Hr Hg. step Hr Hg.
    destruct ((5 <=? i) || negb (cbool e)); [apply wp_ret, HR, Hg |]. step Hr Hg. apply wp_ret, HR.
    eapply holds_ext; [| exact Hg]. intros j Hj. unfold setf at 1. destruct (Z.eqb_spec j (RTL_PORT_REG i RTL_REG_PORT0_NRESTART)) as [-> |]; [| reflexivity].
    assert (i = 0 \/ i = 1 \/ i = 2 \/ i = 3 \/ i = 4) as [-> | [-> | [-> | [-> | ->]]]] by lia; discriminate Hj. }
  cbn [loop_acc]. repeat (apply wp_bind; eapply Hport; [lia | exact H |]; clear H; intros ? H; cbv beta).
  apply wp_ret, HQ. eapply holds_ext; [| exact H]. all_settings ltac:(vm_compute; reflexivity).
Qed.

Lemma wp_reset_poll s0 f (Q : unit -> rtl_priv B -> Prop) E s : ready s0 -> holds s0 f s ->
  (forall s', holds s0 f s' -> Q tt s') -> wp rtl_reset_poll Q E s.
Proof.
  intros Hr H HQ. unfold rtl_reset_poll. apply wp_bind.
  apply (wp_loop_until (fun _ => holds s0 f)); [exact H | | intros w Hw; apply wp_ret, HQ, Hw].
  intros k w _ Hw. step Hr Hw. apply wp_ret. destruct (_ =? 0); [apply wp_ret, HQ |]; exact Hw.
Qed.

(** The settings after applying. *)
Definition applied f : settings := fun j => if en_bit 5 j || (j =? RTL_REG_CPU_LINKUP) then 1 else f j.

Lemma wp_hw_apply s0 f (Q : unit -> rtl_priv B -> Prop) E s : ready s0 -> holds s0 f s ->
  (forall s', holds s0 (applied f) s' -> Q tt s') -> wp rtl_hw_apply Q E s.
Proof.
  intros Hr H HQ. unfold rtl_hw_apply, rtl_phy_save, rtl_phy_restore.
  pose proof (holds_range _ _ _ RTL_REG_EN_TRUNK H eq_refl) as Ht. pose proof (holds_range _ _ _ RTL_REG_TRUNK_PORTSEL H eq_refl) as Hp.
  apply wp_bind. steps Hr H. apply wp_bind. eapply wp_enable; [exact Hr | exact H |]. clear H. intros s1 H.
  step Hr H. step Hr H. rename H7 into Hen, H9 into Hsel. specialize (Hen eq_refl). specialize (Hsel eq_refl).
  step Hr H. step Hr H. step Hr H.
  apply wp_bind. eapply wp_reset_poll; [exact Hr | exact H |]. clear H. intros s2 H.
  apply wp_bind. eapply wp_enable; [exact Hr | exact H |]. clear H. intros s3 H.
  step Hr H. step Hr H. apply wp_bind. cbn [nway speed duplex]. steps Hr H. apply HQ. subst v2 v3.
  change (en_bit 5 RTL_REG_EN_TRUNK) with false in H. change (en_bit 5 RTL_REG_TRUNK_PORTSEL) with false in H. cbv beta iota in H.
  eapply holds_ext; [| exact H].
  change (rr_bits (rtl_entry RTL_REG_EN_TRUNK)) with 1 in Ht. change (rr_bits (rtl_entry RTL_REG_TRUNK_PORTSEL)) with 1 in Hp.
  all_settings ltac:(first [vm_compute; reflexivity | exact Ht | exact Hp]).
Qed.

Lemma wp_of_rtl {A} s0 f (h : rtl_priv B -> A) (Q : A -> rtl_priv B -> Prop) E s : holds s0 f s ->
  (forall b, h (with_rbus b s0) = h s0) -> Q (h s0) s -> wp (of_rtl h) Q E s.
Proof. intros (b & -> & _) Hh HQ. unfold wp, of_rtl. rewrite Hh. exact HQ. Qed.

(** ** Start-up *)

(** The settings the initialisation writes. *)
Definition init_writes (do_cpu : bool) : list (Z * Z) :=
  [(RTL_REG_VLAN_ENABLE, 0); (RTL_REG_VLAN_FILTER, 0); (RTL_REG_EN_TRUNK, 0); (RTL_REG_TRUNK_PORTSEL, 0)] ++
  (if do_cpu then [(RTL_REG_CPUPORT, 5); (RTL_REG_EN_CPUPORT, 1)] else [(RTL_REG_CPUPORT, 7); (RTL_REG_EN_CPUPORT, 0)]) ++
  [(RTL_REG_EN_TAG_OUT, 0); (RTL_REG_EN_TAG_IN, 0); (RTL_REG_EN_TAG_CLR, 0)] ++
  flat_map (fun i => [(RTL_VLAN_REG i RTL_REG_VLAN0_VID, i); (RTL_VLAN_REG i RTL_REG_VLAN0_PORTMASK, 0)]) (upto 16) ++
  flat_map (fun i => [(RTL_VLAN_REG i RTL_REG_VLAN0_PORTMASK, isolation_mask 5 i); (RTL_PORT_REG i RTL_REG_PORT0_PVID, i);
    (RTL_PORT_REG i RTL_REG_PORT0_NULL_VID_REPLACE, 1); (RTL_PORT_REG i RTL_REG_PORT0_VID_INSERT, 1);
    (RTL_PORT_REG i RTL_REG_PORT0_TAG_INSERT, 3)]) (upto 6).

Definition set_all f (ws : list (Z * Z)) : settings := fold_left (fun f w => setf f (fst w) (snd w)) ws f.

Lemma wp_hw_init s0 f (Q : unit -> rtl_priv B -> Prop) E s : ready s0 -> r_cpu_port s0 = 5 -> holds s0 f s ->
  (forall s', holds s0 (applied (set_all f (init_writes (cbool (r_do_cpu s0))))) s' -> Q tt s') -> wp rtl_hw_init Q E s.
Proof.
  intros Hr Hc H HQ. unfold rtl_hw_init.
  apply wp_bind. eapply wp_of_rtl; [exact H | reflexivity |]. rewrite Hc.
  apply wp_bind. eapply wp_of_rtl; [exact H | reflexivity |]. step Hr H. step Hr H. step Hr H. step Hr H.
  unfold for_each. change (Z.to_nat RTL8306_NUM_VLANS) with 16%nat. change (Z.to_nat RTL8306_NUM_PORTS) with 6%nat.
  cbn [loop_acc]. apply wp_bind. destruct (cbool (r_do_cpu s0)); steps Hr H;
    (eapply wp_hw_apply; [exact Hr | exact H | exact HQ]).
Qed.

(** The VLANs and ports after the initialisation. *)
Definition isolated (r : settings) : Prop :=
  (forall i, 0 <= i < 16 -> r (RTL_VLAN_REG i RTL_REG_VLAN0_VID) = i) /\
  (forall i q, 0 <= i < 6 -> 0 <= q < 6 -> Z.testbit (r (RTL_VLAN_REG i RTL_REG_VLAN0_PORTMASK)) q =
     if i =? 5 then negb (q =? 5) else (q =? i) || (q =? 5)) /\
  (forall i, 6 <= i < 16 -> r (RTL_VLAN_REG i RTL_REG_VLAN0_PORTMASK) = 0) /\
  (forall i, 0 <= i < 6 -> r (RTL_PORT_REG i RTL_REG_PORT0_PVID) = i /\ r (RTL_PORT_REG i RTL_REG_PORT0_TAG_INSERT) = 3) /\
  (forall i, 0 <= i < 5 -> r (RTL_PORT_REG i RTL_REG_PORT0_RXEN) = 1 /\ r (RTL_PORT_REG i RTL_REG_PORT0_TXEN) = 1) /\
  r RTL_REG_VLAN_ENABLE = 0 /\ r RTL_REG_EN_TRUNK = 0 /\ r RTL_REG_TRUNK_PORTSEL = 0 /\ r RTL_REG_CPU_LINKUP = 1.

Lemma isolated_init f do_cpu : isolated (applied (set_all f (init_writes do_cpu))).
Proof.
  set (g := applied (set_all f (init_writes do_cpu))).
  assert (H1 : forallb (fun i => g (RTL_VLAN_REG i RTL_REG_VLAN0_VID) =? i) (upto 16) = true) by (destruct do_cpu; vm_compute; reflexivity).
  assert (H2 : forallb (fun i => forallb (fun q => Bool.eqb (Z.testbit (g (RTL_VLAN_REG i RTL_REG_VLAN0_PORTMASK)) q)
    (if i =? 5 then negb (q =? 5) else (q =? i) || (q =? 5))) (upto 6)) (upto 6) = true) by (destruct do_cpu; vm_compute; reflexivity).
  assert (H3 : forallb (fun i => (i <? 6) || (g (RTL_VLAN_REG i RTL_REG_VLAN0_PORTMASK) =? 0)) (upto 16) = true)
    by (destruct do_cpu; vm_compute; reflexivity).
  assert (H4 : forallb (fun i => (g (RTL_PORT_REG i RTL_REG_PORT0_PVID) =? i) && (g (RTL_PORT_REG i RTL_REG_PORT0_TAG_INSERT) =? 3)) (upto 6) = true)
    by (destruct do_cpu; vm_compute; reflexivity).
  assert (H5 : forallb (fun i => (g (RTL_PORT_REG i RTL_REG_PORT0_RXEN) =? 1) && (g (RTL_PORT_REG i RTL_REG_PORT0_TXEN) =? 1)) (upto 5) = true)
    by (destruct do_cpu; vm_compute; reflexivity).
  repeat split.
  - intros i Hi. apply (forallb_upto 16 _ H1) in Hi. lia.
  - intros i q Hi Hq. apply (forallb_upto 6 _ H2) in Hi. apply (forallb_upto 6 _ Hi) in Hq. apply eqb_prop, Hq.
  - intros i Hi. assert (Hi' : 0 <= i < 16) by lia. apply (forallb_upto 16 _ H3) in Hi'. lia.
  - apply (forallb_upto 6 _ H4) in H. lia.
  - apply (forallb_upto 6 _ H4) in H. lia.
  - apply (forallb_upto 5 _ H5) in H. lia.
  - apply (forallb_upto 5 _ H5) in H. lia.
  - destruct do_cpu; reflexivity.
  - destruct do_cpu; reflexivity.
  - destruct do_cpu; reflexivity.
Qed.

Lemma isolated_ext f g : (forall j, stored j = true -> f j = g j) -> isolated g -> isolated f.
Proof.
  intros He (H1 & H2 & H3 & H4 & H5 & H6 & H7 & H8 & H9).
  assert (Hst : forall n k ofs, forallb (fun i => stored (k + i * ofs)) (upto n) = true -> forall i, 0 <= i < Z.of_nat n -> f (k + i * ofs) = g (k + i * ofs)).
  { intros n k ofs Hf i Hi. apply He, (forallb_upto n _ Hf), Hi. }
  unfold isolated, RTL_VLAN_REG, RTL_PORT_REG in *. repeat split.
  - intros i Hi. rewrite (Hst 16%nat) by (reflexivity || lia). apply H1, Hi.
  - intros i q Hi Hq. rewrite (Hst 16%nat) by (reflexivity || lia). apply H2; assumption.
  - intros i Hi. rewrite (Hst 16%nat) by (reflexivity || lia). apply H3, Hi.
  - rewrite (Hst 6%nat) by (reflexivity || lia). apply H4, H.
  - rewrite (Hst 6%nat) by (reflexivity || lia). apply H4, H.
  - rewrite (Hst 6%nat) by (reflexivity || lia). apply H5, H.
  - rewrite (Hst 6%nat) by (reflexivity || lia). apply H5, H.
  - rewrite He by reflexivity. exact H6.
  - rewrite He by reflexivity. exact H7.
  - rewrite He by reflexivity. exact H8.
  - rewrite He by reflexivity. exact H9.
Qed.

(** C40: setting up the switch for the primary PHY always ends (the reset is
    waited for ten reads at most), whatever the chip answers, with the error
    of the registration or the name of the chip; and then every port shares
    its own VLAN, number and PVID those of the port, with the CPU port only,
    the VLAN of the CPU port has all the other ports, the remaining VLANs are
    empty, the ports in front of a PHY are enabled, and the trunking that the
    driver turns on for the reset is off again. *)
Theorem rtl8306_init_isolates register s : r_fixup s = false ->
  exists r s', rtl8306_config_init 0 register s = (r, s') /\
    (if register <? 0 then r = Err register else exists name, r = Ok (Some name)) /\
    ready s' /\ isolated (field (r_bus s')).
Proof.
  intros Hf.
  set (s1 := RtlPriv (-1) (r_type s) 0 (r_fixup s) RTL8306_PORT_CPU RTL8306_NUM_VLANS (r_bus s)).
  assert (Hr : ready s1) by (split; [exact Hf | reflexivity]).
  enough (H : wp (rtl8306_config_init 0 register)
    (fun r s' => (register <? 0) = false /\ (exists name, r = Some name) /\ ready s' /\ isolated (field (r_bus s')))
    (fun e s' => (register <? 0) = true /\ e = register /\ ready s' /\ isolated (field (r_bus s'))) s).
  { unfold wp in H. destruct (rtl8306_config_init 0 register s) as [[r | e] s']; eexists _, s'; (split; [reflexivity |]).
    - destruct H as (-> & [name ->] & H). split; [eauto | exact H].
    - destruct H as (-> & -> & H). split; [reflexivity | exact H]. }
  unfold rtl8306_config_init. cbn [Z.eqb negb]. apply wp_bind, wp_modify. fold s1.
  pose proof (holds_self s1) as H. step Hr H. step Hr H. step Hr H. apply wp_bind. eapply wp_of_rtl; [exact H | reflexivity |].
  destruct (chip_type _ _) as [ty name]. apply wp_bind, wp_modify.
  destruct H as (b & -> & Hb). set (s2 := RtlPriv _ ty _ _ _ _ _).
  assert (Hr2 : ready s2) by exact Hr.
  assert (Hs2 : holds s2 (field (r_bus s1)) s2) by (exists b; split; [reflexivity | exact Hb]).
  apply wp_bind. eapply wp_hw_init; [exact Hr2 | reflexivity | exact Hs2 |]. intros s3 Hs3.
  assert (Hgoal : ready s3 /\ isolated (field (r_bus s3))).
  { split; [destruct Hs3 as (b3 & -> & _); exact Hr |]. eapply isolated_ext; [| apply isolated_init].
    intros j Hj. exact (holds_field _ _ _ _ Hs3 Hj). }
  destruct (register <? 0); [unfold wp; auto | apply wp_ret; eauto].
Qed.

(** ** Port lists *)

Section Ports.
Variable tagged_flag : Z.

Definition is_tagged (flags : Z) : bool := cbool (Z.land flags (BIT tagged_flag)).

(** Ports of the switch in ascending order, from [lo]. *)
Fixpoint ascending (lo : Z) (ports : list switch_port) : Prop :=
  match ports with
  | [] => True
  | (id, _) :: ports' => lo <= id < 6 /\ ascending (id + 1) ports'
  end.

Fixpoint port_of (ports : list switch_port) (q : Z) : option Z :=
  match ports with
  | [] => None
  | (id, flags) :: ports' => if id =? q then Some flags else port_of ports' q
  end.

Lemma port_of_below lo ports q : ascending lo ports -> q < lo -> port_of ports q = None.
Proof.
  revert lo. induction ports as [| [id fl] ports IH]; intros lo Ha Hq; [reflexivity |]. destruct Ha as [Hid Ha]. cbn [port_of].
  destruct (Z.eqb_spec id q); [lia |]. apply (IH (id + 1)); [exact Ha | lia].
Qed.

(** What one port of the list changes. *)
Definition set_port_f (v : Z) f (p : switch_port) : settings :=
  let '(id, flags) := p in
  if id =? 5 then f else
  let f := if is_tagged flags then f else setf f (RTL_PORT_REG id RTL_REG_PORT0_PVID) v in
  let f := setf f (RTL_PORT_REG id RTL_REG_PORT0_NON_PVID_DISCARD) (if is_tagged flags then 0 else 1) in
  let f := setf f (RTL_PORT_REG id RTL_REG_PORT0_VID_INSERT) (if is_tagged flags then 0 else 1) in
  setf f (RTL_PORT_REG id RTL_REG_PORT0_TAG_INSERT) (if is_tagged flags then 2 else 1).

Definition mask_of (mask : Z) (ports : list switch_port) : Z :=
  fold_left (fun m p => u32 (Z.lor m (BIT (fst p)))) ports mask.

Lemma wp_set_ports_loop s0 f v i ports mask (Q : Z -> rtl_priv B -> Prop) E s lo : ready s0 -> holds s0 f s ->
  0 <= i <= lo -> ascending lo ports ->
  (forall s', holds s0 (fold_left (set_port_f v) ports f) s' -> Q (mask_of mask ports) s') ->
  wp (rtl_set_ports_loop tagged_flag 5 v i ports mask) Q E s.
Proof.
  intros Hr. revert f i mask s lo. induction ports as [| [id flags] ports IH]; intros f i mask s lo H Hi Ha HQ; [apply wp_ret, HQ, H |].
  destruct Ha as [Hid Ha]. cbn [rtl_set_ports_loop]. apply wp_bind. unfold rtl_set_port. cbv zeta.
  assert (Hnext : forall g s1, holds s0 g s1 -> g = set_port_f v f (id, flags) ->
    wp (rtl_set_ports_loop tagged_flag 5 v (i + 1) ports (u32 (Z.lor mask (BIT id)))) Q E s1).
  { intros g s1 Hg ->. apply (IH _ (i + 1) _ s1 (id + 1) Hg); [lia | exact Ha | exact HQ]. }
  destruct (Z.eqb_spec id 5) as [-> | Hne].
  - apply wp_ret, (Hnext f); [exact H | reflexivity].
  - destruct (Z.eqb_spec i 5); [lia |]. cbn [orb]. fold (is_tagged flags).
    apply Z.eqb_neq in Hne. unfold set_port_f in Hnext. rewrite Hne in Hnext. destruct (is_tagged flags).
    + apply wp_bind, wp_ret. steps Hr H. eapply Hnext; [exact H | reflexivity].
    + steps Hr H. eapply Hnext; [exact H | reflexivity].
Qed.

Lemma setf_other f i x j : j <> i -> setf f i x j = f j.
Proof. intros H. unfold setf. apply Z.eqb_neq in H. rewrite H. reflexivity. Qed.

Lemma setf_same f i x : setf f i x i = uwrap (rr_bits (rtl_entry i)) x.
Proof. unfold setf. rewrite Z.eqb_refl. reflexivity. Qed.

(** The widths of the settings of a port and of a VLAN. *)
Lemma port_bits q : 0 <= q < 6 ->
  rr_bits (rtl_entry (RTL_PORT_REG q RTL_REG_PORT0_PVID)) = 4 /\ rr_bits (rtl_entry (RTL_PORT_REG q RTL_REG_PORT0_TAG_INSERT)) = 2 /\
  stored (RTL_PORT_REG q RTL_REG_PORT0_PVID) = true /\ stored (RTL_PORT_REG q RTL_REG_PORT0_TAG_INSERT) = true.
Proof.
  intros Hq. assert (q = 0 \/ q = 1 \/ q = 2 \/ q = 3 \/ q = 4 \/ q = 5) as [-> | [-> | [-> | [-> | [-> | ->]]]]] by lia; repeat split.
Qed.

Lemma mask_bits v : 0 <= v < 16 ->
  rr_bits (rtl_entry (RTL_VLAN_REG v RTL_REG_VLAN0_PORTMASK)) = 6 /\ stored (RTL_VLAN_REG v RTL_REG_VLAN0_PORTMASK) = true.
Proof.
  intros Hv. assert (H : forallb (fun v => (rr_bits (rtl_entry (RTL_VLAN_REG v RTL_REG_VLAN0_PORTMASK)) =? 6) &&
    stored (RTL_VLAN_REG v RTL_REG_VLAN0_PORTMASK)) (upto 16) = true) by reflexivity.
  apply (forallb_upto 16 _ H), andb_true_iff in Hv. rewrite Z.eqb_eq in Hv. exact Hv.
Qed.

(** The settings of a port the list leaves alone, and those of its ports. *)
Lemma set_port_f_other v f id flags j : 0 <= id < 6 -> (forall k, 49 <= k <= 53 -> j <> RTL_PORT_REG id k) ->
  set_port_f v f (id, flags) j = f j.
Proof.
  intros Hid Hj. unfold set_port_f. destruct (id =? 5); [reflexivity |].
  rewrite !setf_other by (apply Hj; index). destruct (is_tagged flags); [reflexivity |]. apply setf_other, Hj. index.
Qed.

Lemma fold_ports_other v ports f lo j : 0 <= lo -> ascending lo ports ->
  (forall q k, lo <= q < 6 -> 49 <= k <= 53 -> j <> RTL_PORT_REG q k) -> fold_left (set_port_f v) ports f j = f j.
Proof.
  revert f lo. induction ports as [| [id fl] ports IH]; intros f lo Hlo Ha Hj; [reflexivity |]. destruct Ha as [Hid Ha]. cbn [fold_left].
  rewrite (IH _ (id + 1)); [| lia | exact Ha | intros; apply Hj; lia]. apply set_port_f_other; [lia |]. intros k Hk. apply Hj; lia.
Qed.

Lemma fold_ports_port v ports f lo q : 0 <= lo -> ascending lo ports -> 0 <= q < 5 -> 0 <= v < 16 ->
  fold_left (set_port_f v) ports f (RTL_PORT_REG q RTL_REG_PORT0_TAG_INSERT) =
    match port_of ports q with Some fl => if is_tagged fl then 2 else 1 | None => f (RTL_PORT_REG q RTL_REG_PORT0_TAG_INSERT) end /\
  fold_left (set_port_f v) ports f (RTL_PORT_REG q RTL_REG_PORT0_PVID) =
    match port_of ports q with
    | Some fl => if is_tagged fl then f (RTL_PORT_REG q RTL_REG_PORT0_PVID) else v
    | None => f (RTL_PORT_REG q RTL_REG_PORT0_PVID)
    end.
Proof.
  intros Hlo Ha Hq Hv. revert f lo Hlo Ha. induction ports as [| [id fl] ports IH]; intros f lo Hlo Ha; [split; reflexivity |].
  destruct Ha as [Hid Ha]. cbn [fold_left port_of]. destruct (Z.eqb_spec id q) as [-> | Hne].
  - rewrite !(fold_ports_other v ports _ (q + 1)) by (lia || exact Ha || (intros; index)).
    destruct (port_bits q ltac:(lia)) as (Hb1 & Hb2 & _). unfold set_port_f. destruct (Z.eqb_spec q 5); [lia |].
    rewrite setf_same, Hb2, !setf_other by index. split; [destruct (is_tagged fl); reflexivity |].
    destruct (is_tagged fl); [reflexivity |]. rewrite setf_same, Hb1. apply uwrap_small. lia.
  - destruct (IH (set_port_f v f (id, fl)) (id + 1) ltac:(lia) Ha) as [H1 H2]. rewrite H1, H2.
    rewrite !set_port_f_other by (lia || (intros; index)). split; reflexivity.
Qed.

Lemma mask_of_bits ports lo mask : 0 <= lo -> 0 <= mask < 64 -> ascending lo ports ->
  0 <= mask_of mask ports < 64 /\
  forall q, 0 <= q < 6 -> Z.testbit (mask_of mask ports) q = Z.testbit mask q || match port_of ports q with Some _ => true | None => false end.
Proof.
  revert lo mask. induction ports as [| [id fl] ports IH]; intros lo mask Hlo Hm Ha.
  - split; [exact Hm |]. intros q Hq. rewrite orb_false_r. reflexivity.
  - destruct Ha as [Hid Ha]. cbn [port_of]. unfold mask_of. cbn [fold_left fst]. fold (mask_of (u32 (Z.lor mask (BIT id))) ports).
    assert (Hlor : 0 <= Z.lor mask (BIT id) < 2 ^ 6) by (apply lor_small; [lia | exact Hm | apply BIT_range; lia]).
    rewrite u32_small by lia. destruct (IH (id + 1) (Z.lor mask (BIT id)) ltac:(lia) Hlor Ha) as [H1 H2]. split; [exact H1 |].
    intros q Hq. rewrite H2, Z.lor_spec, testbit_BIT by lia. destruct (Z.eqb_spec id q) as [-> |]; cbn [orb].
    + rewrite !orb_true_r. reflexivity.
    + rewrite orb_false_r. reflexivity.
Qed.

(** The PVID of port [q] after the ports in [removed] have left VLAN [v]. *)
Definition fixed_pvid f (v removed q : Z) : Z :=
  if Z.testbit removed q && negb (q =? 5) && (f (RTL_PORT_REG q RTL_REG_PORT0_PVID) =? v) then 15
  else f (RTL_PORT_REG q RTL_REG_PORT0_PVID).

Definition pvid_of_port (j : Z) : Prop := exists q, 0 <= q < 6 /\ j = RTL_PORT_REG q RTL_REG_PORT0_PVID.

Lemma wp_fix_pvids s0 f v removed (Q : unit -> rtl_priv B -> Prop) E s : ready s0 -> r_vlans s0 = 16 -> holds s0 f s ->
  (forall g s', holds s0 g s' -> (forall q, 0 <= q < 6 -> g (RTL_PORT_REG q RTL_REG_PORT0_PVID) = fixed_pvid f v removed q) ->
     (forall j, ~ pvid_of_port j -> g j = f j) -> Q tt s') ->
  wp (for_each RTL8306_NUM_PORTS (rtl_fix_pvid 5 v removed)) Q E s.
Proof.
  intros Hr Hvl H HQ.
  apply (wp_loop_acc (fun i _ s' => exists g, holds s0 g s' /\
    (forall q, 0 <= q < 6 -> g (RTL_PORT_REG q RTL_REG_PORT0_PVID) =
       if q <? i then fixed_pvid f v removed q else f (RTL_PORT_REG q RTL_REG_PORT0_PVID)) /\
    (forall j, ~ pvid_of_port j -> g j = f j))).
  - exists f. split; [exact H |]. split; [| reflexivity]. intros q Hq. destruct (Z.ltb_spec q 0); [lia | reflexivity].
  - clear H. intros i _ s1 Hi (g & H & Hg & Hother). change (0 + Z.of_nat (Z.to_nat RTL8306_NUM_PORTS)) with 6 in Hi.
    assert (Hskip : fixed_pvid f v removed i = f (RTL_PORT_REG i RTL_REG_PORT0_PVID) -> forall s2, holds s0 g s2 -> exists g', holds s0 g' s2 /\
      (forall q, 0 <= q < 6 -> g' (RTL_PORT_REG q RTL_REG_PORT0_PVID) =
         if q <? i + 1 then fixed_pvid f v removed q else f (RTL_PORT_REG q RTL_REG_PORT0_PVID)) /\
      (forall j, ~ pvid_of_port j -> g' j = f j)).
    { intros Hsame s2 H2. exists g. split; [exact H2 |]. split; [| exact Hother]. intros q Hq. rewrite Hg by exact Hq.
      destruct (Z.ltb_spec q i), (Z.ltb_spec q (i + 1)); try lia; try reflexivity. replace q with i by lia. symmetry. exact Hsame. }
    unfold rtl_fix_pvid. rewrite cbool_land_BIT by lia. unfold fixed_pvid in Hskip at 1.
    destruct (Z.testbit removed i) eqn:Ht; cbn [negb andb] in *; [| apply wp_ret, Hskip; [reflexivity | exact H]].
    destruct (Z.eqb_spec i 5) as [-> | Hne]; cbn [negb] in *; [apply wp_ret, Hskip; [reflexivity | exact H] |].
    step Hr H. destruct (port_bits i Hi) as (Hb & _ & Hst & _). specialize (H1 Hst). rewrite (Hg i Hi) in H1.
    destruct (Z.ltb_spec i i); [lia |]. rewrite H1. destruct (Z.eqb_spec (f (RTL_PORT_REG i RTL_REG_PORT0_PVID)) v) as [He | Hv].
    + apply wp_bind. eapply wp_of_rtl; [exact H | reflexivity |]. rewrite Hvl. step Hr H. apply wp_ret. eexists. split; [exact H |]. split.
      * intros q Hq. destruct (Z.eq_dec q i) as [-> | Hne2].
        -- rewrite setf_same, Hb. destruct (Z.ltb_spec i (i + 1)); [| lia]. unfold fixed_pvid. rewrite Ht, He, Z.eqb_refl.
           apply Z.eqb_neq in Hne. rewrite Hne. reflexivity.
        -- rewrite setf_other by index. rewrite Hg by exact Hq. destruct (Z.ltb_spec q i), (Z.ltb_spec q (i + 1)); try lia; reflexivity.
      * intros j Hj. rewrite setf_other; [apply Hother, Hj |]. intros ->. apply Hj. exists i. split; [exact Hi | reflexivity].
    + apply wp_ret, Hskip; [reflexivity | exact H].
  - intros [] s1 (g & Hg1 & Hg2 & Hg3). apply (HQ g); [exact Hg1 | | exact Hg3]. intros q Hq. rewrite Hg2 by exact Hq.
    change (0 + Z.of_nat (Z.to_nat RTL8306_NUM_PORTS)) with 6. destruct (Z.ltb_spec q 6); [reflexivity | lia].
Qed.

(** *** Reading the list back *)

Definition listed_port (mask : Z) f (q : Z) : list switch_port :=
  if Z.testbit mask q
  then [(q, if (f (RTL_PORT_REG q RTL_REG_PORT0_TAG_INSERT) =? 2) || (q =? 5) then BIT tagged_flag else 0)] else [].

Lemma wp_get_ports s0 f v (Q : list switch_port -> rtl_priv B -> Prop) E s : ready s0 -> r_cpu_port s0 = 5 -> 0 <= v < 16 -> holds s0 f s ->
  (forall s', holds s0 f s' -> Q (flat_map (listed_port (f (RTL_VLAN_REG v RTL_REG_VLAN0_PORTMASK)) f) (upto 6)) s') ->
  wp (rtl_get_ports tagged_flag (fun _ => 0) [] v) Q E s.
Proof.
  intros Hr Hc Hv H HQ. unfold rtl_get_ports. apply wp_bind. eapply wp_of_rtl; [exact H | reflexivity |]. rewrite Hc.
  step Hr H. destruct (mask_bits v Hv) as [_ Hst]. rewrite (H1 Hst) in *. clear H1 H0.
  set (mask := f (RTL_VLAN_REG v RTL_REG_VLAN0_PORTMASK)) in *.
  apply (wp_loop_acc (fun i l s' => holds s0 f s' /\ l = flat_map (listed_port mask f) (upto (Z.to_nat i)))).
  - split; [exact H | reflexivity].
  - clear H. intros i l s1 Hi [H ->]. change (0 + Z.of_nat (Z.to_nat RTL8306_NUM_PORTS)) with 6 in Hi.
    assert (Hsnoc : flat_map (listed_port mask f) (upto (Z.to_nat (i + 1))) = flat_map (listed_port mask f) (upto (Z.to_nat i)) ++ listed_port mask f i).
    { replace (Z.to_nat (i + 1)) with (S (Z.to_nat i)) by lia. unfold upto. rewrite seq_S, map_app, flat_map_app. cbn [List.map flat_map Nat.add].
      rewrite app_nil_r, Z2Nat.id by lia. reflexivity. }
    rewrite cbool_land_BIT by lia. unfold listed_port in Hsnoc at 3. destruct (Z.testbit mask i) eqn:Ht; cbn [negb].
    + step Hr H. destruct (port_bits i Hi) as (_ & _ & _ & Hst2). rewrite (H1 Hst2). apply wp_ret. split; [exact H |].
      symmetry. exact Hsnoc.
    + apply wp_ret. split; [exact H |]. rewrite Hsnoc, app_nil_r. reflexivity.
  - intros l s1 [H1 ->]. apply HQ, H1.
Qed.

(** A list of ports in ascending order is what is listed of its mask. *)
Lemma ascending_listed (G : Z -> Z) n lo ports : lo + Z.of_nat n = 6 -> ascending lo ports ->
  flat_map (fun q => match port_of ports q with Some _ => [(q, G q)] | None => [] end) (List.map (fun k => lo + Z.of_nat k) (seq 0 n))
  = List.map (fun p => (fst p, G (fst p))) ports.
Proof.
  revert lo ports. induction n as [| n IH]; intros lo ports Hn Ha.
  - destruct ports as [| [id fl] ports]; [reflexivity |]. destruct Ha. lia.
  - cbn [seq List.map flat_map]. rewrite Z.add_0_r, <- seq_shift, List.map_map.
    rewrite (List.map_ext (fun x => lo + Z.of_nat (S x)) (fun k => lo + 1 + Z.of_nat k)) by (intros; lia).
    destruct ports as [| [id fl] ports].
    + cbn [port_of List.map app]. exact (IH (lo + 1) [] ltac:(lia) Logic.I).
    + destruct Ha as [Hid Ha]. cbn [port_of]. destruct (Z.eqb_spec id lo) as [-> | Hne].
      * cbn [List.map fst app]. f_equal. rewrite <- (IH (lo + 1) ports ltac:(lia) Ha).
        rewrite !flat_map_concat_map. f_equal. apply List.map_ext_in. intros q Hq. apply in_map_iff in Hq. destruct Hq as (k & <- & _).
        cbn [port_of]. destruct (Z.eqb_spec lo (lo + 1 + Z.of_nat k)); [lia | reflexivity].
      * rewrite (port_of_below (id + 1) ports lo Ha) by lia. cbn [app]. apply (IH (lo + 1) ((id, fl) :: ports)); [lia |].
        split; [lia | exact Ha].
Qed.

(** The ports of a VLAN.  After [rtl_set_ports] with ports of the switch
    in ascending order, [rtl_get_ports] lists exactly these, tagged if they
    were given as tagged, and the CPU port always tagged; an untagged port has
    the VLAN as PVID, a tagged one keeps its PVID, a port that left the VLAN
    and had it as PVID gets the last VLAN; and no other VLAN changes its ports. *)
Theorem rtl8306_ports_roundtrip v ports s : ready s -> r_cpu_port s = 5 -> r_vlans s = 16 -> 0 <= v < 16 -> ascending 0 ports ->
  exists s', rtl_set_ports tagged_flag v ports s = (Ok tt, s') /\
    fst (rtl_get_ports tagged_flag (fun _ => 0) [] v s') =
      Ok (List.map (fun p => (fst p, if is_tagged (snd p) || (fst p =? 5) then BIT tagged_flag else 0)) ports) /\
    (forall q, 0 <= q < 5 ->
       let pvid := field (r_bus s) (RTL_PORT_REG q RTL_REG_PORT0_PVID) in
       let old := field (r_bus s) (RTL_VLAN_REG v RTL_REG_VLAN0_PORTMASK) in
       field (r_bus s') (RTL_PORT_REG q RTL_REG_PORT0_PVID) =
         match port_of ports q with
         | Some fl => if is_tagged fl then pvid else v
         | None => if Z.testbit old q && (pvid =? v) then 15 else pvid
         end) /\
    (forall w, 0 <= w < 16 -> w <> v ->
       field (r_bus s') (RTL_VLAN_REG w RTL_REG_VLAN0_PORTMASK) = field (r_bus s) (RTL_VLAN_REG w RTL_REG_VLAN0_PORTMASK)).
Proof.
  intros Hr Hc Hvl Hv Ha. pose proof (holds_self s) as H. set (f := field (r_bus s)) in *.
  set (f1 := fold_left (set_port_f v) ports f). set (mask := mask_of 0 ports).
  destruct (mask_of_bits ports 0 0 ltac:(lia) ltac:(lia) Ha) as [Hmr Hmb]. fold mask in Hmr, Hmb.
  destruct (mask_bits v Hv) as [Hb6 Hstm].
  assert (Hvlan : forall w, 0 <= w < 16 -> f1 (RTL_VLAN_REG w RTL_REG_VLAN0_PORTMASK) = f (RTL_VLAN_REG w RTL_REG_VLAN0_PORTMASK)).
  { intros w Hw. apply (fold_ports_other v ports f 0); [lia | exact Ha |]. intros q k Hq Hk. index. }
  assert (Hset : wp (rtl_set_ports tagged_flag v ports) (fun _ s' => exists g, holds s g s' /\
     (forall q, 0 <= q < 6 -> g (RTL_PORT_REG q RTL_REG_PORT0_PVID) =
        fixed_pvid f1 v (Z.ldiff (f (RTL_VLAN_REG v RTL_REG_VLAN0_PORTMASK)) mask) q) /\
     (forall j, ~ pvid_of_port j -> g j = setf f1 (RTL_VLAN_REG v RTL_REG_VLAN0_PORTMASK) mask j)) never s).
  { unfold rtl_set_ports. apply wp_bind. eapply wp_of_rtl; [exact H | reflexivity |]. rewrite Hc.
    apply wp_bind. eapply (wp_set_ports_loop s f v 0 ports 0 _ never s 0 Hr H); [lia | exact Ha |]. clear H. intros s1 H.
    fold f1 in H. fold mask. step Hr H. rewrite (H1 Hstm), Hvlan by exact Hv. step Hr H.
    eapply wp_fix_pvids; [exact Hr | exact Hvl | exact H |]. intros g s2 Hg Hp Ho. exists g. split; [exact Hg |]. split; [| exact Ho].
    intros q Hq. rewrite (Hp q Hq). unfold fixed_pvid. rewrite setf_other by index. reflexivity. }
  destruct (wp_never _ _ _ Hset) as ([] & s' & Hrun & g & Hg & Hpv & Hother). exists s'. split; [exact Hrun |].
  assert (Hnp : forall w, ~ pvid_of_port (RTL_VLAN_REG w RTL_REG_VLAN0_PORTMASK) \/ ~ 0 <= w < 16).
  { intros w. destruct (Z.leb_spec 0 w), (Z.ltb_spec w 16); try (right; lia). left. intros (q & Hq & He). index. }
  assert (Hmask : g (RTL_VLAN_REG v RTL_REG_VLAN0_PORTMASK) = mask).
  { rewrite Hother by (destruct (Hnp v); [assumption | lia]). rewrite setf_same, Hb6. apply uwrap_small. lia. }
  assert (Htag : forall q, 0 <= q < 6 -> g (RTL_PORT_REG q RTL_REG_PORT0_TAG_INSERT) = f1 (RTL_PORT_REG q RTL_REG_PORT0_TAG_INSERT)).
  { intros q Hq. rewrite Hother by (intros (q' & Hq' & He); index). apply setf_other. index. }
  split; [| split].
  - enough (Hget : wp (rtl_get_ports tagged_flag (fun _ => 0) [] v) (fun l _ => l =
      List.map (fun p => (fst p, if is_tagged (snd p) || (fst p =? 5) then BIT tagged_flag else 0)) ports) never s').
    { destruct (wp_never _ _ _ Hget) as (l & s2 & -> & ->). reflexivity. }
    eapply (wp_get_ports s g v); [exact Hr | exact Hc | exact Hv | exact Hg |]. intros s2 _. rewrite Hmask.
    set (G := fun q => if (match port_of ports q with Some fl => is_tagged fl | None => false end) || (q =? 5) then BIT tagged_flag else 0).
    transitivity (List.map (fun p => (fst p, G (fst p))) ports).
    + rewrite <- (ascending_listed G 6 0 ports eq_refl Ha). change (List.map (fun k => 0 + Z.of_nat k) (seq 0 6)) with (upto 6).
      rewrite !flat_map_concat_map. f_equal. apply List.map_ext_in. intros q Hq. unfold upto in Hq. apply in_map_iff in Hq.
      destruct Hq as (k & <- & Hk). apply in_seq in Hk. set (q := Z.of_nat k). assert (Hq : 0 <= q < 6) by lia.
      unfold listed_port. rewrite Hmb, Z.testbit_0_l by exact Hq. cbn [orb]. unfold G. destruct (port_of ports q) as [fl |] eqn:Hp; [| reflexivity].
      rewrite Htag by exact Hq. destruct (Z.eqb_spec q 5) as [-> | Hne]; [rewrite !orb_true_r; reflexivity |]. rewrite !orb_false_r.
      destruct (fold_ports_port v ports f 0 q ltac:(lia) Ha ltac:(lia) Hv) as [Ht _]. fold f1 in Ht. rewrite Ht, Hp.
      destruct (is_tagged fl); reflexivity.
    + apply List.map_ext_in. intros [id fl] Hin. cbn [fst snd]. unfold G.
      assert (Hpo : forall lo ps, ascending lo ps -> In (id, fl) ps -> port_of ps id = Some fl).
      { intros lo ps. revert lo. induction ps as [| [i2 f2] ps IH]; intros lo Hps []; destruct Hps as [Hi2 Hps]; cbn [port_of].
        - injection H0 as -> ->. rewrite Z.eqb_refl. reflexivity.
        - destruct (Z.eqb_spec i2 id) as [-> |]; [| apply (IH (i2 + 1) Hps H0)].
          specialize (IH (id + 1) Hps H0). rewrite (port_of_below (id + 1) ps id Hps) in IH by lia. discriminate. }
      rewrite (Hpo 0 ports Ha Hin). reflexivity.
  - intros q Hq. cbv zeta. destruct (port_bits q ltac:(lia)) as (_ & _ & Hst & _). rewrite (holds_field _ _ _ _ Hg Hst), Hpv by lia.
    unfold fixed_pvid. destruct (fold_ports_port v ports f 0 q ltac:(lia) Ha ltac:(lia) Hv) as [_ Hp]. fold f1 in Hp. rewrite Hp.
    rewrite Z.ldiff_spec, Hmb, Z.testbit_0_l by lia. cbn [orb]. destruct (Z.eqb_spec q 5); [lia |]. cbn [negb]. rewrite andb_true_r.
    destruct (port_of ports q); cbn [negb]; rewrite ?andb_false_r, ?andb_true_r; reflexivity.
  - intros w Hw Hne. destruct (mask_bits w Hw) as [_ Hst]. rewrite (holds_field _ _ _ _ Hg Hst).
    rewrite Hother by (destruct (Hnp w); [assumption | lia]). rewrite setf_other by index. apply Hvlan, Hw.
Qed.
End Ports.
End Props.

(** ** A chip *)

(** Registers that are memory, in four pages. *)
Definition paged_mem : Type := Z -> Z -> Z -> Z.
Definition mem_bit (b : paged_mem) (page phy reg k : Z) : bool := Z.testbit (b page phy reg) k.
#[export] Instance paged_bus : MiiBus paged_mem := {|
  mii_read p r b := (b (bank mem_bit b p r) p r, b);
  mii_write p r v b :=
    (0, fun page q t => if (page =? bank mem_bit b p r) && (q =? p) && (t =? r) then v else b page q t)
|}.
#[export] Instance paged_hw : Rtl8306Hw paged_mem.
Proof.
  refine {| hw_bit := mem_bit |}; [reflexivity | reflexivity |].
  intros phy reg v b page q t k _ _ _. unfold mem_bit at 1. cbn [mii_write paged_bus snd].
  destruct ((page =? bank mem_bit b phy reg) && (q =? phy) && (t =? reg)); reflexivity.
Defined.

Definition demo8306 : rtl_priv paged_mem := RtlPriv (-1) RTL_TYPE_S 0 false 5 16 (fun _ _ _ => 0).

(** Setting the VID of VLAN 7, which is on page 1, leaves that of VLAN 2 alone. *)
Lemma rtl_set_get_witness :
  exists v s', rtl_set (RTL_VLAN_REG 7 RTL_REG_VLAN0_VID) 100 demo8306 = (Ok v, s') /\
    fst (rtl_get (RTL_VLAN_REG 7 RTL_REG_VLAN0_VID) s') = Ok 100.
Proof.
  assert (Hr : ready demo8306) by (split; reflexivity).
  destruct (rtl_set_get demo8306 (RTL_VLAN_REG 7 RTL_REG_VLAN0_VID) (RTL_VLAN_REG 7 RTL_REG_VLAN0_VID) 100 Hr) as (v & s' & Hrun & _ & Hget);
    [index | reflexivity |]. exists v, s'. split; [exact Hrun | exact Hget].
Defined.

Lemma rtl8306_init_isolates_witness :
  exists s', rtl8306_config_init 0 (-19) demo8306 = (Err (-19), s') /\ isolated (field (r_bus s')).
Proof.
  destruct (rtl8306_init_isolates (-19) demo8306 eq_refl) as (r & s' & Hrun & Hr & _ & Hi). cbn in Hr. subst r.
  exists s'. split; [exact Hrun | exact Hi].
Defined.

(** Port 0 untagged, port 3 tagged and the CPU port in VLAN 9. *)
Lemma rtl8306_ports_roundtrip_witness :
  exists s', rtl_set_ports 0 9 [(0, 0); (3, 1); (5, 0)] demo8306 = (Ok tt, s') /\
    fst (rtl_get_ports 0 (fun _ => 0) [] 9 s') = Ok [(0, 0); (3, 1); (5, 1)] /\
    field (r_bus s') (RTL_PORT_REG 0 RTL_REG_PORT0_PVID) = 9.
Proof.
  assert (Hr : ready demo8306) by (split; reflexivity).
  destruct (rtl8306_ports_roundtrip 0 9 [(0, 0); (3, 1); (5, 0)] demo8306 Hr eq_refl eq_refl ltac:(lia)) as (s' & Hrun & Hget & Hpv & _);
    [cbn; lia |]. exists s'. split; [exact Hrun |]. split; [exact Hget | apply (Hpv 0); lia].
Defined.

(** ** Mistakes *)

(** The sixth port of a list is set up as tagged, whatever its flags: its
    place in the list, not its number, is compared with the CPU port. *)
Lemma rtl8306_sixth_port_tagged {B} {MB : MiiBus B} {HW : Rtl8306Hw B} tagged_flag v id flags mask s :
  ready s -> 0 <= id < 5 ->
  exists m s', rtl_set_port tagged_flag 5 v 5 (id, flags) mask s = (Ok m, s') /\
    field (r_bus s') (RTL_PORT_REG id RTL_REG_PORT0_TAG_INSERT) = 2.
Proof.
  intros Hr Hid. pose proof (holds_self s) as H.
  enough (Hw : wp (rtl_set_port tagged_flag 5 v 5 (id, flags) mask)
    (fun _ s' => field (r_bus s') (RTL_PORT_REG id RTL_REG_PORT0_TAG_INSERT) = 2) never s).
  { destruct (wp_never _ _ _ Hw) as (m & s' & Hrun & Hv). exists m, s'. split; assumption. }
  unfold rtl_set_port. destruct (Z.eqb_spec id 5); [lia |]. cbn [orb Z.eqb Pos.eqb]. apply wp_bind, wp_ret.
  apply wp_bind. eapply wp_set; [exact Hr | exact H | index |]. clear H. intros v1 s1 H.
  apply wp_bind. eapply wp_set; [exact Hr | exact H | index |]. clear H. intros v2 s2 H.
  apply wp_bind. eapply wp_set; [exact Hr | exact H | index |]. clear H. intros v3 s3 H. apply wp_ret.
  destruct (port_bits id ltac:(lia)) as (_ & Hb & _ & Hst). rewrite (holds_field _ _ _ _ H Hst), setf_same, Hb. reflexivity.
Qed.

(** Every PHY but the primary has a structure of its own, in which the page
    is 0 from the start: it never selects the page it reads. *)
Lemma rtl8306_wan_page {B} {MB : MiiBus B} same_bus (b : B) phy reg :
  exists s, rtl8306_probe [] same_bus true b = Ok s /\ rtl_r16 0 phy reg s = bus_read phy reg s.
Proof. eexists. split; reflexivity. Qed.
