(* ===== verification/Regmap.v ===== *)
(** * Register maps

    The kernel's bit-field macros, the register map interface
    ([struct regmap]) the AN8855 drivers are written against, and the state a
    configuration register has after a write or an update. *)

From S2P Require Import Prelude CMonad.

Declare Scope bits_scope.
Delimit Scope bits_scope with bits.
Infix ".|" := Z.lor (at level 50, left associativity) : bits_scope.
#[global] Open Scope bits_scope.

(** ** [GENMASK], [FIELD_PREP], [FIELD_GET], [FIELD_MAX] *)

Definition GENMASK (h l : Z) : Z := Z.shiftl (Z.ones (h - l + 1)) l.

(** [__bf_shf]: the number of zeros below the mask. *)
Fixpoint trailing_zeros (p : positive) : Z :=
  match p with
  | xO p' => 1 + trailing_zeros p'
  | _ => 0
  end.
Definition bf_shf (mask : Z) : Z := match mask with Zpos p => trailing_zeros p | _ => 0 end.

Definition FIELD_PREP (mask val : Z) : Z := Z.land (Z.shiftl val (bf_shf mask)) mask.
Definition FIELD_GET (mask reg : Z) : Z := Z.shiftr (Z.land reg mask) (bf_shf mask).
Definition FIELD_MAX (mask : Z) : Z := Z.shiftr mask (bf_shf mask).

Lemma trailing_zeros_iter n p : trailing_zeros (Pos.iter xO p n) = Zpos n + trailing_zeros p.
Proof.
  induction n as [| n IH] using Pos.peano_ind; [cbn [Pos.iter trailing_zeros]; lia |].
  rewrite Pos.iter_succ. cbn [trailing_zeros]. rewrite IH. lia.
Qed.

Lemma bf_shf_shiftl x l : 0 < x -> 0 <= l -> bf_shf (Z.shiftl x l) = l + bf_shf x.
Proof.
  intros Hx Hl. destruct x as [| p |], l as [| n |]; try lia; [reflexivity |].
  change (Z.shiftl (Zpos p) (Zpos n)) with (Pos.iter (Z.mul 2) (Zpos p) n). assert (Hi : Pos.iter (Z.mul 2) (Zpos p) n = Zpos (Pos.iter xO p n)).
  { induction n as [| n IH] using Pos.peano_ind; [reflexivity |]. rewrite !Pos.iter_succ, IH; [reflexivity | lia]. }
  rewrite Hi. apply trailing_zeros_iter.
Qed.

Lemma bf_shf_ones n : 0 < n -> bf_shf (Z.ones n) = 0.
Proof.
  intros Hn. assert (H : Z.testbit (Z.ones n) 0 = true) by (rewrite testbit_ones; lia).
  destruct (Z.ones n) as [| [p | p |] |]; reflexivity || discriminate.
Qed.

Lemma bf_shf_GENMASK h l : 0 <= l <= h -> bf_shf (GENMASK h l) = l.
Proof.
  intros H. unfold GENMASK. rewrite bf_shf_shiftl by (rewrite ?Z.ones_equiv; pose proof (Z.pow_gt_1 2 (h - l + 1)); lia).
  rewrite bf_shf_ones by lia. lia.
Qed.

Lemma testbit_GENMASK h l k : 0 <= l <= h -> 0 <= k -> Z.testbit (GENMASK h l) k = (l <=? k) && (k <=? h).
Proof. intros H Hk. unfold GENMASK. rewrite Z.shiftl_spec, testbit_ones by lia. lia. Qed.

Lemma testbit_FIELD_PREP h l v k : 0 <= l <= h -> 0 <= k ->
  Z.testbit (FIELD_PREP (GENMASK h l) v) k = (l <=? k) && (k <=? h) && Z.testbit v (k - l).
Proof.
  intros H Hk. unfold FIELD_PREP. rewrite bf_shf_GENMASK, Z.land_spec, Z.shiftl_spec, testbit_GENMASK by lia.
  apply andb_comm.
Qed.

Lemma testbit_FIELD_GET h l r k : 0 <= l <= h -> 0 <= k ->
  Z.testbit (FIELD_GET (GENMASK h l) r) k = (k <=? h - l) && Z.testbit r (k + l).
Proof.
  intros H Hk. unfold FIELD_GET. rewrite bf_shf_GENMASK, Z.shiftr_spec, Z.land_spec, testbit_GENMASK by lia.
  rewrite andb_comm. f_equal. lia.
Qed.

(** ** The algebra of fields *)

Lemma FIELD_GET_lor m x y : FIELD_GET m (Z.lor x y) = Z.lor (FIELD_GET m x) (FIELD_GET m y).
Proof. unfold FIELD_GET. rewrite Z.land_lor_distr_l. apply Z.shiftr_lor. Qed.

(** A value outside the field does not show in it. *)
Lemma FIELD_GET_disjoint m x : Z.land x m = 0 -> FIELD_GET m x = 0.
Proof. intros H. unfold FIELD_GET. rewrite H. apply Z.shiftr_0_l. Qed.

Lemma FIELD_GET_PREP_other m m' v : Z.land m' m = 0 -> FIELD_GET m (FIELD_PREP m' v) = 0.
Proof.
  intros H. apply FIELD_GET_disjoint. unfold FIELD_PREP. rewrite <- Z.land_assoc, H. apply Z.land_0_r.
Qed.

Lemma FIELD_GET_ldiff_other m M x : Z.land M m = 0 -> FIELD_GET m (Z.ldiff x M) = FIELD_GET m x.
Proof.
  intros H. unfold FIELD_GET. f_equal. apply Z.bits_inj'. intros k Hk. rewrite !Z.land_spec, Z.ldiff_spec.
  apply (f_equal (fun z => Z.testbit z k)) in H. rewrite Z.land_spec, Z.testbit_0_l in H.
  destruct (Z.testbit x k), (Z.testbit M k), (Z.testbit m k); reflexivity || discriminate.
Qed.

Lemma FIELD_GET_ldiff_in m M x : Z.ldiff m M = 0 -> FIELD_GET m (Z.ldiff x M) = 0.
Proof.
  intros H. apply FIELD_GET_disjoint. apply Z.bits_inj'. intros k Hk. rewrite Z.land_spec, Z.ldiff_spec, Z.testbit_0_l.
  apply (f_equal (fun z => Z.testbit z k)) in H. rewrite Z.ldiff_spec, Z.testbit_0_l in H.
  destruct (Z.testbit x k), (Z.testbit M k), (Z.testbit m k); reflexivity || discriminate.
Qed.

Lemma FIELD_GET_PREP h l v : 0 <= l <= h -> FIELD_GET (GENMASK h l) (FIELD_PREP (GENMASK h l) v) = v mod 2 ^ (h - l + 1).
Proof.
  intros H. apply Z.bits_inj'. intros k Hk. rewrite testbit_FIELD_GET, testbit_FIELD_PREP by lia.
  change (v mod 2 ^ (h - l + 1)) with (uwrap (h - l + 1) v). rewrite testbit_uwrap by lia.
  replace (k + l - l) with k by lia. destruct (Z.testbit v k); lia.
Qed.

Lemma FIELD_GET_range h l r : 0 <= l <= h -> 0 <= FIELD_GET (GENMASK h l) r < 2 ^ (h - l + 1).
Proof.
  intros H. assert (FIELD_GET (GENMASK h l) r = uwrap (h - l + 1) (FIELD_GET (GENMASK h l) r)) as ->; [| apply uwrap_range; lia].
  apply Z.bits_inj'. intros k Hk. rewrite testbit_uwrap, testbit_FIELD_GET by lia.
  destruct (Z.testbit r (k + l)); lia.
Qed.

Lemma FIELD_GET_land_other m M x : Z.land M m = 0 -> FIELD_GET m (Z.land x M) = 0.
Proof. intros H. apply FIELD_GET_disjoint. rewrite <- Z.land_assoc, H. apply Z.land_0_r. Qed.

Lemma FIELD_GET_land_in m M x : Z.land M m = m -> FIELD_GET m (Z.land x M) = FIELD_GET m x.
Proof. intros H. unfold FIELD_GET. rewrite <- Z.land_assoc, H. reflexivity. Qed.

(** Evaluate a field of a word built from fields with constant masks; the
    side conditions are computations on the masks. *)
Ltac field_step :=
  match goal with
  | |- context [FIELD_GET ?m (Z.lor _ _)] => rewrite (FIELD_GET_lor m)
  | |- context [FIELD_GET ?m (FIELD_PREP ?m' _)] => rewrite (FIELD_GET_PREP_other m m') by reflexivity
  | |- context [FIELD_GET (GENMASK ?h ?l) (FIELD_PREP (GENMASK ?h ?l) ?v)] => rewrite (FIELD_GET_PREP h l v) by lia
  | |- context [FIELD_GET ?m (FIELD_PREP ?m ?v)] =>
      let M := eval unfold m in m in change (FIELD_GET m (FIELD_PREP m v)) with (FIELD_GET M (FIELD_PREP M v));
      rewrite (FIELD_GET_PREP _ _ v) by lia
  | |- context [FIELD_GET ?m (Z.land ?x ?M)] =>
      first [rewrite (FIELD_GET_land_other m M x) by reflexivity | rewrite (FIELD_GET_land_in m M x) by reflexivity]
  | |- context [FIELD_GET ?m (Z.ldiff ?x ?M)] =>
      first [rewrite (FIELD_GET_ldiff_in m M x) by reflexivity | rewrite (FIELD_GET_ldiff_other m M x) by reflexivity]
  | |- context [FIELD_GET ?m ?c] => progress rewrite (FIELD_GET_disjoint m c) by reflexivity
  end.

(** ** [struct regmap]

    [regmap_read_poll_timeout reg cond sleep_us timeout_us] is the macro of
    that name: it reads [reg] until [cond] holds of the value, which it
    returns, or time is up. *)

Class Regmap (W : Type) := {
  regmap_read : Z -> M W Z;
  regmap_write : Z -> Z -> M W unit;
  regmap_update_bits : Z -> Z -> Z -> M W unit;
  regmap_set_bits : Z -> Z -> M W unit;
  regmap_clear_bits : Z -> Z -> M W unit;
  regmap_bulk_read : Z -> Z -> M W (list Z);
  regmap_bulk_write : Z -> list Z -> M W unit;
  regmap_read_poll_timeout : Z -> (Z -> bool) -> Z -> Z -> M W Z
}.

(** A call whose result is dropped. *)
Definition ignore {W A} (m : M W A) : M W unit := unchecked tt (m ;; ret tt).

(** The [int] a call returns, as a value. *)
Definition code {W A} (m : M W A) : M W Z := r <- catch m ;; ret (match r with Ok _ => 0 | Err e => e end).

(** A loop over a list, with an accumulator or without. *)
Fixpoint each_acc {W X A} (l : list X) (acc : A) (body : X -> A -> M W A) : M W A :=
  match l with
  | [] => ret acc
  | x :: l' => acc' <- body x acc ;; each_acc l' acc' body
  end.
Definition each {W X} (l : list X) (body : X -> M W unit) : M W unit := each_acc l tt (fun x _ => body x).

Lemma wp_ignore {W A} (m : M W A) Q E w : wp m (fun _ => Q tt) (fun _ => Q tt) w -> wp (ignore m) Q E w.
Proof.
  intros H. apply wp_unchecked, wp_bind. eapply wp_mono; [exact H | | auto]. intros a w' Hq. apply wp_ret, Hq.
Qed.

Lemma wp_code {W A} (m : M W A) Q E w : wp m (fun _ => Q 0) Q w -> wp (code m) Q E w.
Proof.
  intros H. apply wp_bind, wp_catch. eapply wp_mono; [exact H | |]; intros ? w' Hq; apply wp_ret, Hq.
Qed.

(** The loop rule: an invariant indexed by what is done and what is left. *)
Lemma wp_each_acc {W X A} (I : list X -> A -> W -> Prop) E (body : X -> A -> M W A) Q l acc w :
  I [] acc w ->
  (forall done x todo acc w, l = done ++ x :: todo -> I done acc w -> wp (body x acc) (I (done ++ [x])) E w) ->
  (forall acc w, I l acc w -> Q acc w) ->
  wp (each_acc l acc body) Q E w.
Proof.
  intros H0 Hstep Hend.
  assert (H : forall todo done acc w, l = done ++ todo -> I done acc w -> wp (each_acc todo acc body) (I l) E w).
  { induction todo as [| x todo IH]; intros done a v Hl Hi; cbn [each_acc].
    - apply wp_ret. rewrite Hl, app_nil_r. exact Hi.
    - apply wp_bind. eapply wp_mono; [eapply Hstep; eassumption | | auto].
      intros a' v' Hi'. apply (IH (done ++ [x])); [rewrite Hl, <- app_assoc; reflexivity | exact Hi']. }
  eapply wp_mono; [apply (H l [] acc w eq_refl H0) | exact Hend | auto].
Qed.

Section PreservesLists.
Context {W : Type} (P : W -> Prop).

Lemma preserves_each_acc {X A} (l : list X) (acc : A) body : (forall x a, preserves P (body x a)) -> preserves P (each_acc l acc body).
Proof.
  intros Hb. revert acc. induction l as [| x l IH]; intros acc; cbn [each_acc]; [apply preserves_ret |].
  apply preserves_bind; [apply Hb | intros a; apply IH].
Qed.
Lemma preserves_each {X} (l : list X) body : (forall x, preserves P (body x)) -> preserves P (each l body).
Proof. intros Hb. apply preserves_each_acc. intros x _. apply Hb. Qed.
Lemma preserves_ignore {A} (m : M W A) : preserves P m -> preserves P (ignore m).
Proof. intros Hm. apply preserves_unchecked, preserves_bind; [exact Hm | intros a; apply preserves_ret]. Qed.
Lemma preserves_code {A} (m : M W A) : preserves P m -> preserves P (code m).
Proof. intros Hm. apply preserves_bind; [apply preserves_catch, Hm | intros a; apply preserves_ret]. Qed.
End PreservesLists.
#[export] Hint Resolve preserves_each_acc preserves_each preserves_ignore preserves_code : preserves.

(** ** Configuration registers

    What an update leaves in a register: the bits of the mask are those of
    [val], the bits neither in the mask nor in [val] stay.  (Bits of [val]
    outside the mask are left to the implementation of the map.) *)
Definition updated (old mask val new : Z) : Prop :=
  forall k, 0 <= k ->
    (Z.testbit mask k = true -> Z.testbit new k = Z.testbit val k) /\
    (Z.testbit mask k = false -> Z.testbit val k = false -> Z.testbit new k = Z.testbit old k).

Lemma updated_within old mask val new : updated old mask val new -> Z.ldiff val mask = 0 -> new = Z.lor (Z.ldiff old mask) val.
Proof.
  intros H Hv. apply Z.bits_inj'. intros k Hk. destruct (H k Hk) as [H1 H2]. rewrite Z.lor_spec, Z.ldiff_spec.
  apply (f_equal (fun z => Z.testbit z k)) in Hv. rewrite Z.ldiff_spec, Z.testbit_0_l in Hv.
  destruct (Z.testbit mask k).
  - rewrite H1 by reflexivity. rewrite andb_false_r. reflexivity.
  - rewrite andb_true_r in *. rewrite Hv, orb_false_r in *. auto.
Qed.

(** Both ways to implement an update are updates. *)
Lemma updated_or old mask val : updated old mask val (Z.lor (Z.ldiff old mask) val).
Proof.
  intros k Hk. rewrite Z.lor_spec, Z.ldiff_spec. split; [intros -> | intros -> ->]; cbn [negb].
  - rewrite andb_false_r. reflexivity.
  - rewrite andb_true_r, orb_false_r. reflexivity.
Qed.

Lemma updated_masked old mask val : updated old mask val (Z.lor (Z.ldiff old mask) (Z.land val mask)).
Proof.
  intros k Hk. rewrite Z.lor_spec, Z.ldiff_spec, Z.land_spec. split; [intros -> | intros -> ->]; cbn [negb].
  - rewrite andb_false_r, andb_true_r. reflexivity.
  - rewrite andb_true_r, orb_false_r. reflexivity.
Qed.
