(* ===== verification/An8855Mfd.v ===== *)
(** * The AN8855 on its MDIO bus: [airoha-an8855.c], [mdio-an8855.c] and [an8855-efuse.c]

    The 32-bit registers of the switch are reached through a window of
    16-bit registers in page 4 of the switch's own MDIO address, which a PHY
    inside the switch has as well: a PHY access may find page 4 selected and
    puts page 0 back first. *)

From S2P Require Import Prelude CMonad Mdio Regmap.

Definition AN8855_PHY_SELECT_PAGE : Z := 0x1f.
Definition AN8855_PHY_PAGE : Z := GENMASK 2 0.
Definition AN8855_PHY_PAGE_STANDARD : Z := FIELD_PREP AN8855_PHY_PAGE 0x0.
Definition AN8855_PHY_PAGE_EXTENDED_1 : Z := FIELD_PREP AN8855_PHY_PAGE 0x1.
Definition AN8855_PHY_PAGE_EXTENDED_4 : Z := FIELD_PREP AN8855_PHY_PAGE 0x4.
Definition AN8855_PBUS_MODE : Z := 0x10.
Definition AN8855_PBUS_MODE_ADDR_FIXED : Z := 0x0.
Definition AN8855_PBUS_WR_ADDR_HIGH : Z := 0x11.
Definition AN8855_PBUS_WR_ADDR_LOW : Z := 0x12.
Definition AN8855_PBUS_WR_DATA_HIGH : Z := 0x13.
Definition AN8855_PBUS_WR_DATA_LOW : Z := 0x14.
Definition AN8855_PBUS_RD_ADDR_HIGH : Z := 0x15.
Definition AN8855_PBUS_RD_ADDR_LOW : Z := 0x16.
Definition AN8855_PBUS_RD_DATA_HIGH : Z := 0x17.
Definition AN8855_PBUS_RD_DATA_LOW : Z := 0x18.

(** [upper_16_bits], [lower_16_bits] of a [u32]. *)
Definition upper_16_bits (n : Z) : Z := u16 (Z.shiftr (u32 n) 16).
Definition lower_16_bits (n : Z) : Z := u16 n.

(** [struct an8855_mfd_priv], with the bus and its lock. *)
Record an8855_mfd_priv (B : Type) := MfdPriv {
  mfd_bus : B;
  switch_addr : Z;
  current_page : Z;   (* u16 *)
  mdio_lock : bool
}.
Arguments MfdPriv {B}.
Arguments mfd_bus {B}.
Arguments switch_addr {B}.
Arguments current_page {B}.
Arguments mdio_lock {B}.

Section Mfd.
Context {B : Type} {MB : MiiBus B}.

Abbreviation MF := (M (an8855_mfd_priv B)).

Definition with_mfd_bus (b : B) (s : an8855_mfd_priv B) := MfdPriv b (switch_addr s) (current_page s) (mdio_lock s).
Definition set_current_page (p : Z) (s : an8855_mfd_priv B) := MfdPriv (mfd_bus s) (switch_addr s) p (mdio_lock s).
Definition set_lock (l : bool) (s : an8855_mfd_priv B) := MfdPriv (mfd_bus s) (switch_addr s) (current_page s) l.

(** [__mdiobus_read] and [__mdiobus_write] on the bus: an [int], negative for
    an error. *)
Definition mdiobus_read (phy reg : Z) : MF Z := fun s =>
  let (v, b) := mii_read phy reg (mfd_bus s) in (Ok v, with_mfd_bus b s).
Definition mdiobus_write (phy reg val : Z) : MF Z := fun s =>
  let (v, b) := mii_write phy reg (u16 val) (mfd_bus s) in (Ok v, with_mfd_bus b s).

(** [if (ret < 0) goto err;] *)
Definition checked (m : MF Z) : MF Z :=
  ret_ <- m ;; if ret_ <? 0 then (fun s => (Err ret_, s)) else ret ret_.

(** [mutex_lock_nested(&bus->mdio_lock)], the body, [mutex_unlock] on every path. *)
Definition locked {A} (m : MF A) : MF A := fun s =>
  let (r, s') := m (set_lock true s) in (r, set_lock false s').

(** ** [airoha-an8855.c] *)

Definition an8855_mii_set_page (phy_id page : Z) : MF unit :=
  r <- mdiobus_write phy_id AN8855_PHY_SELECT_PAGE page ;;
  modify (set_current_page page) ;;
  if r <? 0 then (fun s => (Err r, s)) else ret tt.

Definition an8855_mii_read32 (phy_id reg : Z) : MF Z :=
  checked (mdiobus_write phy_id AN8855_PBUS_MODE AN8855_PBUS_MODE_ADDR_FIXED) ;;
  checked (mdiobus_write phy_id AN8855_PBUS_RD_ADDR_HIGH (upper_16_bits reg)) ;;
  checked (mdiobus_write phy_id AN8855_PBUS_RD_ADDR_LOW (lower_16_bits reg)) ;;
  hi <- checked (mdiobus_read phy_id AN8855_PBUS_RD_DATA_HIGH) ;;
  lo <- checked (mdiobus_read phy_id AN8855_PBUS_RD_DATA_LOW) ;;
  ret (Z.lor (Z.shiftl (u16 hi) 16) (Z.land (u16 lo) 0xffff)).

Definition an8855_mii_write32 (phy_id reg val : Z) : MF unit :=
  checked (mdiobus_write phy_id AN8855_PBUS_MODE AN8855_PBUS_MODE_ADDR_FIXED) ;;
  checked (mdiobus_write phy_id AN8855_PBUS_WR_ADDR_HIGH (upper_16_bits reg)) ;;
  checked (mdiobus_write phy_id AN8855_PBUS_WR_ADDR_LOW (lower_16_bits reg)) ;;
  checked (mdiobus_write phy_id AN8855_PBUS_WR_DATA_HIGH (upper_16_bits val)) ;;
  checked (mdiobus_write phy_id AN8855_PBUS_WR_DATA_LOW (lower_16_bits val)) ;;
  ret tt.

(** [u16 addr = priv->switch_addr], passed on as a [u8]. *)
Definition phy_addr : MF Z := fun s => (Ok (u8 (u16 (switch_addr s))), s).

Definition an8855_regmap_read (reg : Z) : MF Z :=
  addr <- phy_addr ;;
  locked (an8855_mii_set_page addr AN8855_PHY_PAGE_EXTENDED_4 ;; an8855_mii_read32 addr reg).

Definition an8855_regmap_write (reg val : Z) : MF unit :=
  addr <- phy_addr ;;
  locked (an8855_mii_set_page addr AN8855_PHY_PAGE_EXTENDED_4 ;; an8855_mii_write32 addr reg val).

Definition an8855_regmap_update_bits (reg mask write_val : Z) : MF unit :=
  addr <- phy_addr ;;
  locked (
    an8855_mii_set_page addr AN8855_PHY_PAGE_EXTENDED_4 ;;
    val <- an8855_mii_read32 addr reg ;;
    an8855_mii_write32 addr reg (Z.lor (Z.ldiff val mask) write_val)).

(** The ranges of [an8855_readable_table]. *)
Definition an8855_readable_ranges : list (Z * Z) := [
  (0x10000000, 0x10000fff); (0x10001000, 0x10001fff); (0x10002000, 0x10002fff); (0x10005000, 0x10005fff);
  (0x10007000, 0x10007fff); (0x10008000, 0x10008fff); (0x10009000, 0x10009fff); (0x1000a100, 0x1000a2ff);
  (0x1000a200, 0x1000a2ff); (0x1000a300, 0x1000a3ff); (0x1000a400, 0x1000a5ff); (0x1000c000, 0x1000cfff);
  (0x10010000, 0x1001ffff); (0x10200000, 0x10203fff); (0x10204000, 0x10207fff); (0x10208000, 0x1020bfff);
  (0x1020c000, 0x1020cfff); (0x10210000, 0x10213fff); (0x10214000, 0x10217fff); (0x10218000, 0x1021bfff);
  (0x1021c000, 0x1021ffff); (0x10220000, 0x1022ffff); (0x10286000, 0x10286fff); (0x1028c000, 0x1028ffff);
  (0x30000000, 0x37ffffff); (0x38000000, 0x3fffffff); (0xa0000000, 0xbfffffff)].

(** [an8855_regmap_config]. *)
Definition reg_stride : Z := 4.
Definition max_register : Z := 0xbfffffff.
Definition readable (reg : Z) : bool := existsb (fun r => (fst r <=? reg) && (reg <=? snd r)) an8855_readable_ranges.

(** [alloc]: the allocation succeeds; [regmap]: what [devm_regmap_init]
    returns, an error or not, which only a message looks at; [cells]: what
    [devm_mfd_add_devices] returns. *)
Definition an8855_mfd_probe (alloc : bool) (addr : Z) (regmap : res unit) (cells : Z) (b : B) : res Z * option (an8855_mfd_priv B) :=
  if negb alloc then (Err (- ENOMEM), None) else (if cells <? 0 then Err cells else Ok cells, Some (MfdPriv b addr 0 false)).

(** ** [mdio-an8855.c]: the PHYs behind the switch *)

Definition an855_phy_restore_page (phy : Z) : MF unit :=
  addr <- (fun s => (Ok (switch_addr s), s)) ;;
  if negb (phy =? addr) then ret tt else
  page <- (fun s => (Ok (current_page s), s)) ;;
  if negb (page =? FIELD_GET AN8855_PHY_PAGE AN8855_PHY_PAGE_EXTENDED_4) then ret tt else
  an8855_mii_set_page (u8 phy) AN8855_PHY_PAGE_STANDARD.

Definition an8855_phy_read (phy regnum : Z) : MF Z :=
  locked (an855_phy_restore_page phy ;; mdiobus_read phy regnum).
Definition an8855_phy_write (phy regnum val : Z) : MF Z :=
  locked (an855_phy_restore_page phy ;; mdiobus_write phy regnum val).

(** [alloc]: the bus is allocated; [register]: what registering it returns. *)
Definition an8855_mdio_probe (alloc : bool) (register : Z) : res Z :=
  if negb alloc then Err (- ENOMEM) else if cbool register then Err register else Ok register.
End Mfd.

(** ** [an8855-efuse.c] *)

Definition AN8855_EFUSE_CELL : Z := 50.
Definition AN8855_EFUSE_DATA0 : Z := 0x1000a500.

Definition an8855_efuse_read {W} {R : Regmap W} (offset bytes : Z) : M W (list Z) :=
  regmap_bulk_read (AN8855_EFUSE_DATA0 + offset) (bytes / 4).
