(* ===== verification/An8855MfdProps.v ===== *)
(** * The register window of the AN8855 and the PHY page

    What is relied on of the chip at its MDIO address ([PbusHw]), and the
    theorem that the register accesses of [An8855Mfd], interleaved in any way
    with accesses to the PHYs, are accesses to the 32-bit registers. *)

From S2P Require Import Prelude CMonad Mdio Regmap An8855Mfd.

(** The switch as its own registers see it: reading one may change the
    state, too. *)
Class Core (C : Type) := {
  core_read : Z -> C -> Z * C;
  core_write : Z -> Z -> C -> C;
  core_read_range a c : 0 <= fst (core_read a c) < 2 ^ 32
}.

(** The registers of the window that just keep what is written. *)
Definition is_latch (r : Z) : bool := (AN8855_PBUS_MODE <=? r) && (r <=? AN8855_PBUS_RD_ADDR_LOW) && negb (r =? AN8855_PBUS_WR_DATA_LOW).

Definition word (hi lo : Z) : Z := Z.lor (Z.shiftl hi 16) lo.

(** [pb_page]: the page selected at the address of the switch; [pb_latch]:
    the window; [pb_low]: the lower half of the word last read. *)
Class PbusHw (B C : Type) {MB : MiiBus B} {K : Core C} := {
  pb_addr : Z;
  pb_ok : B -> Prop;
  pb_page : B -> Z;
  pb_latch : B -> Z -> Z;
  pb_low : B -> Z;
  pb_core : B -> C;
  pb_addr_range : 0 <= pb_addr < 32;
  pb_select b v : pb_ok b -> 0 <= v < 65536 ->
    let (e, b') := mii_write pb_addr AN8855_PHY_SELECT_PAGE v b in
    0 <= e /\ pb_ok b' /\ pb_page b' = Z.land v AN8855_PHY_PAGE /\ pb_core b' = pb_core b /\ (forall q, pb_latch b' q = pb_latch b q);
  pb_put b r v : pb_ok b -> pb_page b = 4 -> is_latch r = true -> 0 <= v < 65536 ->
    let (e, b') := mii_write pb_addr r v b in
    0 <= e /\ pb_ok b' /\ pb_page b' = 4 /\ pb_core b' = pb_core b /\
    (forall q, pb_latch b' q = if q =? r then v else pb_latch b q);
  (** Writing the lower data word writes the register. *)
  pb_commit b v : pb_ok b -> pb_page b = 4 -> pb_latch b AN8855_PBUS_MODE = AN8855_PBUS_MODE_ADDR_FIXED -> 0 <= v < 65536 ->
    let (e, b') := mii_write pb_addr AN8855_PBUS_WR_DATA_LOW v b in
    0 <= e /\ pb_ok b' /\ pb_page b' = 4 /\
    pb_core b' = core_write (word (pb_latch b AN8855_PBUS_WR_ADDR_HIGH) (pb_latch b AN8855_PBUS_WR_ADDR_LOW))
                            (word (pb_latch b AN8855_PBUS_WR_DATA_HIGH) v) (pb_core b);
  (** Reading the upper data word reads the register, and its lower half
      waits in the lower data word. *)
  pb_fetch b : pb_ok b -> pb_page b = 4 -> pb_latch b AN8855_PBUS_MODE = AN8855_PBUS_MODE_ADDR_FIXED ->
    let (v, b') := mii_read pb_addr AN8855_PBUS_RD_DATA_HIGH b in
    let (x, c) := core_read (word (pb_latch b AN8855_PBUS_RD_ADDR_HIGH) (pb_latch b AN8855_PBUS_RD_ADDR_LOW)) (pb_core b) in
    v = upper_16_bits x /\ pb_ok b' /\ pb_page b' = 4 /\ pb_core b' = c /\ pb_low b' = lower_16_bits x;
  pb_rest b : pb_ok b -> pb_page b = 4 ->
    let (v, b') := mii_read pb_addr AN8855_PBUS_RD_DATA_LOW b in
    v = pb_low b /\ pb_ok b' /\ pb_page b' = 4 /\ pb_core b' = pb_core b;
  (** What is not the window does not touch the registers. *)
  pb_phy_read b p r : pb_ok b -> p <> pb_addr \/ pb_page b <> 4 ->
    let (v, b') := mii_read p r b in pb_ok b' /\ pb_core b' = pb_core b /\ pb_page b' = pb_page b;
  pb_phy_write b p r v : pb_ok b -> p <> pb_addr \/ pb_page b <> 4 -> p <> pb_addr \/ r <> AN8855_PHY_SELECT_PAGE ->
    0 <= v < 65536 ->
    let (e, b') := mii_write p r v b in pb_ok b' /\ pb_core b' = pb_core b /\ pb_page b' = pb_page b
}.

(** The register map the switch driver expects, on the switch itself. *)
Definition core_update {C} {K : Core C} (a mask val : Z) (c : C) : C :=
  let (x, c') := core_read a c in core_write a (Z.lor (Z.ldiff x mask) val) c'.

Lemma lower_16_range x : 0 <= lower_16_bits x < 65536.
Proof. apply u16_range. Qed.
Lemma upper_16_range x : 0 <= upper_16_bits x < 65536.
Proof. apply u16_range. Qed.

Lemma word_halves x : 0 <= x < 2 ^ 32 -> word (upper_16_bits x) (lower_16_bits x) = x.
Proof. intros H. unfold word, upper_16_bits, lower_16_bits, u32, u16. bit_solve. Qed.

Lemma joined_halves x : 0 <= x < 2 ^ 32 ->
  Z.lor (Z.shiftl (u16 (upper_16_bits x)) 16) (Z.land (u16 (lower_16_bits x)) 0xffff) = x.
Proof.
  intros H. change 0xffff with (Z.ones 16). unfold upper_16_bits, lower_16_bits, u32, u16. bit_solve.
Qed.

Section Window.
Context {B C : Type} {MB : MiiBus B} {K : Core C} {HW : PbusHw B C}.

Implicit Types (s : an8855_mfd_priv B) (c : C) (f : Z -> Z).

(** Inside a register access: page 4 is selected, the window holds [f]. *)
Definition inside s c f : Prop :=
  pb_ok (mfd_bus s) /\ pb_page (mfd_bus s) = 4 /\ current_page s = 4 /\ switch_addr s = pb_addr /\ mdio_lock s = true /\
  pb_core (mfd_bus s) = c /\ forall q, pb_latch (mfd_bus s) q = f q.

(** Between accesses: if page 4 is selected, the driver knows. *)
Definition related s c : Prop :=
  pb_ok (mfd_bus s) /\ (pb_page (mfd_bus s) = 4 -> current_page s = 4) /\ switch_addr s = pb_addr /\ mdio_lock s = false /\
  pb_core (mfd_bus s) = c.

Lemma wp_put s c f r v (Q : Z -> an8855_mfd_priv B -> Prop) : inside s c f -> is_latch r = true -> 0 <= v < 65536 ->
  (forall e s', inside s' c (fun q => if q =? r then v else f q) -> Q e s') ->
  wp (checked (mdiobus_write pb_addr r v)) Q never s.
Proof.
  intros (H1 & H2 & H3 & H4 & H5 & H6 & H7) Hr Hv Hq. unfold checked, wp, bind, mdiobus_write. rewrite u16_small by exact Hv.
  pose proof (pb_put (mfd_bus s) r v H1 H2 Hr Hv) as H. destruct (mii_write _ _ _ _) as [e b]. destruct H as (He & Ho & Hp & Hc & Hl).
  destruct (Z.ltb_spec e 0); [lia |]. apply Hq. repeat split; cbn [mfd_bus current_page switch_addr mdio_lock with_mfd_bus]; try assumption.
  - rewrite Hc. exact H6.
  - intros q. rewrite Hl, H7. reflexivity.
Qed.

Lemma wp_commit s c f v (Q : Z -> an8855_mfd_priv B -> Prop) : inside s c f -> f AN8855_PBUS_MODE = AN8855_PBUS_MODE_ADDR_FIXED ->
  0 <= v < 65536 ->
  (forall e s', inside s' (core_write (word (f AN8855_PBUS_WR_ADDR_HIGH) (f AN8855_PBUS_WR_ADDR_LOW))
                                      (word (f AN8855_PBUS_WR_DATA_HIGH) v) c) (pb_latch (mfd_bus s')) -> Q e s') ->
  wp (checked (mdiobus_write pb_addr AN8855_PBUS_WR_DATA_LOW v)) Q never s.
Proof.
  intros (H1 & H2 & H3 & H4 & H5 & H6 & H7) Hm Hv Hq. unfold checked, wp, bind, mdiobus_write. rewrite u16_small by exact Hv.
  rewrite <- H7 in Hm. pose proof (pb_commit (mfd_bus s) v H1 H2 Hm Hv) as H. destruct (mii_write _ _ _ _) as [e b].
  destruct H as (He & Ho & Hp & Hc). destruct (Z.ltb_spec e 0); [lia |]. apply Hq.
  repeat split; cbn [mfd_bus current_page switch_addr mdio_lock with_mfd_bus]; try assumption.
  rewrite Hc, !H7, H6. reflexivity.
Qed.

Lemma wp_fetch s c f (Q : Z -> an8855_mfd_priv B -> Prop) : inside s c f -> f AN8855_PBUS_MODE = AN8855_PBUS_MODE_ADDR_FIXED ->
  (forall s', let (x, c') := core_read (word (f AN8855_PBUS_RD_ADDR_HIGH) (f AN8855_PBUS_RD_ADDR_LOW)) c in
     inside s' c' (pb_latch (mfd_bus s')) -> pb_low (mfd_bus s') = lower_16_bits x -> Q (upper_16_bits x) s') ->
  wp (checked (mdiobus_read pb_addr AN8855_PBUS_RD_DATA_HIGH)) Q never s.
Proof.
  intros (H1 & H2 & H3 & H4 & H5 & H6 & H7) Hm Hq. unfold checked, wp, bind, mdiobus_read.
  rewrite <- H7 in Hm. pose proof (pb_fetch (mfd_bus s) H1 H2 Hm) as H. destruct (mii_read _ _ _) as [v b].
  rewrite !H7, H6 in H. specialize (Hq (with_mfd_bus b s)). destruct (core_read _ c) as [x c']. destruct H as (-> & Ho & Hp & Hc & Hl).
  pose proof (upper_16_range x). destruct (Z.ltb_spec (upper_16_bits x) 0); [lia |]. apply Hq; [| exact Hl].
  repeat split; assumption.
Qed.

Lemma wp_rest s c (Q : Z -> an8855_mfd_priv B -> Prop) : inside s c (pb_latch (mfd_bus s)) -> 0 <= pb_low (mfd_bus s) ->
  (forall s', inside s' c (pb_latch (mfd_bus s')) -> Q (pb_low (mfd_bus s)) s') ->
  wp (checked (mdiobus_read pb_addr AN8855_PBUS_RD_DATA_LOW)) Q never s.
Proof.
  intros (H1 & H2 & H3 & H4 & H5 & H6 & H7) Hl Hq. unfold checked, wp, bind, mdiobus_read.
  pose proof (pb_rest (mfd_bus s) H1 H2) as H. destruct (mii_read _ _ _) as [v b]. destruct H as (-> & Ho & Hp & Hc).
  destruct (Z.ltb_spec (pb_low (mfd_bus s)) 0); [lia |]. apply Hq.
  repeat split; cbn [mfd_bus current_page switch_addr mdio_lock with_mfd_bus]; try assumption. rewrite Hc. exact H6.
Qed.

(** ** The 32-bit accesses *)

Ltac put H := apply wp_bind; eapply wp_put; [exact H | reflexivity | first [apply upper_16_range | apply lower_16_range | unfold AN8855_PBUS_MODE_ADDR_FIXED; lia] |];
  clear H; intros ? ? H; cbv beta.

Lemma wp_read32 s c f a (Q : Z -> an8855_mfd_priv B -> Prop) : inside s c f -> 0 <= a < 2 ^ 32 ->
  (forall s', let (x, c') := core_read a c in inside s' c' (pb_latch (mfd_bus s')) -> Q x s') ->
  wp (an8855_mii_read32 pb_addr a) Q never s.
Proof.
  intros H Ha Hq. unfold an8855_mii_read32. put H. put H. put H.
  apply wp_bind. eapply wp_fetch; [exact H | reflexivity |]. intros s1.
  change (word _ _) with (word (upper_16_bits a) (lower_16_bits a)). rewrite word_halves by exact Ha.
  pose proof (core_read_range a c) as Hx. destruct (core_read a c) as [x c']. cbn [fst] in Hx. intros H1 Hl.
  apply wp_bind. eapply wp_rest; [exact H1 | rewrite Hl; apply lower_16_range |]. intros s2 H2. rewrite Hl. apply wp_ret.
  rewrite joined_halves by exact Hx. apply Hq, H2.
Qed.

Lemma wp_write32 s c f a v (Q : unit -> an8855_mfd_priv B -> Prop) : inside s c f -> 0 <= a < 2 ^ 32 -> 0 <= v < 2 ^ 32 ->
  (forall s', inside s' (core_write a v c) (pb_latch (mfd_bus s')) -> Q tt s') ->
  wp (an8855_mii_write32 pb_addr a v) Q never s.
Proof.
  intros H Ha Hv Hq. unfold an8855_mii_write32. put H. put H. put H. put H.
  apply wp_bind. eapply wp_commit; [exact H | reflexivity | apply lower_16_range |]. intros e' s1.
  match goal with |- inside _ ?x _ -> _ => change x with (core_write (word (upper_16_bits a) (lower_16_bits a)) (word (upper_16_bits v) (lower_16_bits v)) c) end.
  rewrite !word_halves by assumption. intros H1. apply wp_ret, Hq, H1.
Qed.

(** ** Whole accesses *)

Lemma wp_locked {A} (m : M (an8855_mfd_priv B) A) Q E s :
  wp m (fun a s' => Q a (set_lock false s')) (fun e s' => E e (set_lock false s')) (set_lock true s) -> wp (locked m) Q E s.
Proof. unfold wp, locked. destruct (m (set_lock true s)) as [[a | e] s']; auto. Qed.

(** Selecting a page, from inside the lock. *)
Lemma wp_set_page s v (Q : unit -> an8855_mfd_priv B -> Prop) : pb_ok (mfd_bus s) -> 0 <= v < 65536 ->
  (forall s', pb_ok (mfd_bus s') -> pb_page (mfd_bus s') = Z.land v AN8855_PHY_PAGE -> pb_core (mfd_bus s') = pb_core (mfd_bus s) ->
     current_page s' = v -> switch_addr s' = switch_addr s -> mdio_lock s' = mdio_lock s -> Q tt s') ->
  wp (an8855_mii_set_page pb_addr v) Q never s.
Proof.
  intros Ho Hv Hq. unfold an8855_mii_set_page, wp, bind, mdiobus_write, modify. rewrite u16_small by exact Hv.
  pose proof (pb_select (mfd_bus s) v Ho Hv) as H. destruct (mii_write _ _ _ _) as [e b]. destruct H as (He & Ho' & Hp & Hc & _).
  destruct (Z.ltb_spec e 0); [lia |]. apply Hq; assumption || reflexivity.
Qed.

Lemma u8_addr : u8 (u16 pb_addr) = pb_addr.
Proof. pose proof pb_addr_range. rewrite u16_small, u8_small by lia. reflexivity. Qed.

(** Enter a register access, and leave it. *)
Lemma wp_access {A} (m : Z -> M (an8855_mfd_priv B) A) (Q : A -> an8855_mfd_priv B -> Prop) s c : related s c ->
  (forall s' f, inside s' c f -> wp (m pb_addr) (fun a s2 => exists c', inside s2 c' (pb_latch (mfd_bus s2)) /\ (forall s3, related s3 c' -> Q a s3)) never s') ->
  wp (addr <- phy_addr ;; locked (an8855_mii_set_page addr AN8855_PHY_PAGE_EXTENDED_4 ;; m addr)) Q never s.
Proof.
  intros (H1 & H2 & H3 & H4 & H5) Hm. apply wp_bind. unfold wp at 1, phy_addr. rewrite H3, u8_addr.
  apply wp_locked. apply wp_bind. eapply wp_set_page; [exact H1 | split; reflexivity || discriminate |]. intros s' Ho Hp Hc Hcp Ha Hl.
  eapply wp_mono; [apply (Hm s' (pb_latch (mfd_bus s'))) | | intros ? ? []].
  - cbn [mdio_lock set_lock switch_addr mfd_bus] in *. repeat split; try assumption; congruence.
  - intros a s2 (c' & (I1 & I2 & I3 & I4 & I5 & I6 & I7) & Hq). apply Hq. repeat split; assumption || auto.
Qed.

Lemma wp_regmap_read s c a (Q : Z -> an8855_mfd_priv B -> Prop) : related s c -> 0 <= a < 2 ^ 32 ->
  (forall s', related s' (snd (core_read a c)) -> Q (fst (core_read a c)) s') ->
  wp (an8855_regmap_read a) Q never s.
Proof.
  intros H Ha Hq. eapply (wp_access (fun addr => an8855_mii_read32 addr a)); [exact H |]. intros s' f Hi.
  eapply wp_read32; [exact Hi | exact Ha |]. intros s2. destruct (core_read a c) as [x c']. intros H2.
  exists c'. split; [exact H2 | exact Hq].
Qed.

Lemma wp_regmap_write s c a v (Q : unit -> an8855_mfd_priv B -> Prop) : related s c -> 0 <= a < 2 ^ 32 -> 0 <= v < 2 ^ 32 ->
  (forall s', related s' (core_write a v c) -> Q tt s') -> wp (an8855_regmap_write a v) Q never s.
Proof.
  intros H Ha Hv Hq. eapply (wp_access (fun addr => an8855_mii_write32 addr a v)); [exact H |]. intros s' f Hi.
  eapply wp_write32; [exact Hi | exact Ha | exact Hv |]. intros s2 H2. eexists. split; [exact H2 | exact Hq].
Qed.

Lemma rmw_range x mask val : 0 <= x < 2 ^ 32 -> 0 <= mask < 2 ^ 32 -> 0 <= val < 2 ^ 32 -> 0 <= Z.lor (Z.ldiff x mask) val < 2 ^ 32.
Proof.
  intros Hx Hm Hv. apply lor_range; [lia | | exact Hv].
  replace (Z.ldiff x mask) with (uwrap 32 (Z.ldiff x mask)) by bit_solve. apply uwrap_range. lia.
Qed.

Lemma wp_regmap_update s c a mask val (Q : unit -> an8855_mfd_priv B -> Prop) : related s c -> 0 <= a < 2 ^ 32 ->
  0 <= mask < 2 ^ 32 -> 0 <= val < 2 ^ 32 ->
  (forall s', related s' (core_update a mask val c) -> Q tt s') -> wp (an8855_regmap_update_bits a mask val) Q never s.
Proof.
  intros H Ha Hm Hv Hq.
  eapply (wp_access (fun addr => x <- an8855_mii_read32 addr a ;; an8855_mii_write32 addr a (Z.lor (Z.ldiff x mask) val))); [exact H |].
  intros s' f Hi. apply wp_bind. eapply wp_read32; [exact Hi | exact Ha |]. intros s2. unfold core_update in Hq.
  pose proof (core_read_range a c) as Hx. destruct (core_read a c) as [x c']. intros H2.
  eapply wp_write32; [exact H2 | exact Ha | apply rmw_range; assumption |]. intros s3 H3. eexists. split; [exact H3 | exact Hq].
Qed.

(** ** Accesses to the PHYs *)

(** Before a PHY access: page 4 is not selected at the switch's address if
    that is where the access goes, and never unknown to the driver. *)
Lemma wp_restore_page s c phy (Q : unit -> an8855_mfd_priv B -> Prop) : related s c -> 0 <= phy < 32 ->
  (forall s', pb_ok (mfd_bus s') -> phy <> pb_addr \/ pb_page (mfd_bus s') <> 4 ->
     (pb_page (mfd_bus s') = 4 -> current_page s' = 4) ->
     (phy = pb_addr -> pb_page (mfd_bus s) = 4 \/ current_page s = 4 -> pb_page (mfd_bus s') = 0) ->
     switch_addr s' = pb_addr -> pb_core (mfd_bus s') = c -> Q tt s') ->
  wp (an855_phy_restore_page phy) Q never (set_lock true s).
Proof.
  intros (H1 & H2 & H3 & H4 & H5) Hr Hq. unfold an855_phy_restore_page. apply wp_bind. unfold wp at 1. cbn [switch_addr set_lock].
  rewrite H3. destruct (Z.eqb_spec phy pb_addr) as [-> | Hne]; cbn [negb].
  - apply wp_bind. unfold wp at 1. cbn [current_page set_lock].
    change (FIELD_GET AN8855_PHY_PAGE AN8855_PHY_PAGE_EXTENDED_4) with 4. rewrite u8_small by lia.
    destruct (Z.eqb_spec (current_page s) 4) as [He | He]; cbn [negb].
    + eapply wp_set_page; [exact H1 | split; reflexivity || discriminate |]. intros s' Ho Hp Hc Hcp Ha _.
      change (Z.land AN8855_PHY_PAGE_STANDARD AN8855_PHY_PAGE) with 0 in Hp. cbn [switch_addr mfd_bus set_lock] in *.
      apply Hq; [exact Ho | right; lia | lia | auto | congruence | congruence].
    + apply wp_ret. apply Hq; cbn [mfd_bus set_lock current_page switch_addr]; auto. intros _ [Hp | Hp]; [elim He; auto | contradiction].
  - apply wp_ret. apply Hq; cbn [mfd_bus set_lock current_page switch_addr]; auto. intros ->. contradiction.
Qed.

Lemma wp_phy_read s c phy r (Q : Z -> an8855_mfd_priv B -> Prop) : related s c -> 0 <= phy < 32 ->
  (forall v s', related s' c -> Q v s') -> wp (an8855_phy_read phy r) Q never s.
Proof.
  intros H Hr Hq. apply wp_locked, wp_bind. eapply wp_restore_page; [exact H | exact Hr |]. intros s' Ho Hp Hcoh _ Ha Hc.
  unfold wp, mdiobus_read. pose proof (pb_phy_read (mfd_bus s') phy r Ho Hp) as Hl. destruct (mii_read _ _ _) as [v b].
  destruct Hl as (L1 & L2 & L3). apply Hq. repeat split; cbn [mfd_bus set_lock with_mfd_bus current_page switch_addr]; congruence || auto.
  rewrite L3. exact Hcoh.
Qed.

(** A PHY driver does not select the page of the switch itself. *)
Definition phy_write_ok (phy r v : Z) : Prop :=
  phy = pb_addr -> r = AN8855_PHY_SELECT_PAGE -> Z.land v AN8855_PHY_PAGE <> 4.

Lemma wp_phy_write s c phy r v (Q : Z -> an8855_mfd_priv B -> Prop) : related s c -> 0 <= phy < 32 -> 0 <= v < 65536 ->
  phy_write_ok phy r v ->
  (forall e s', related s' c -> Q e s') -> wp (an8855_phy_write phy r v) Q never s.
Proof.
  intros H Hr Hv Hw Hq. apply wp_locked, wp_bind. eapply wp_restore_page; [exact H | exact Hr |]. intros s' Ho Hp Hcoh _ Ha Hc.
  unfold wp, mdiobus_write. rewrite u16_small by exact Hv.
  destruct (Z.eq_dec phy pb_addr) as [-> | Hne]; [destruct (Z.eq_dec r AN8855_PHY_SELECT_PAGE) as [-> | Hr'] |].
  - pose proof (pb_select (mfd_bus s') v Ho Hv) as Hl. destruct (mii_write _ _ _ _) as [e b]. destruct Hl as (_ & L1 & L2 & L3 & _).
    apply Hq. repeat split; cbn [mfd_bus set_lock with_mfd_bus current_page switch_addr]; try congruence.
    intros Hp4. elim (Hw eq_refl eq_refl). congruence.
  - pose proof (pb_phy_write (mfd_bus s') _ r v Ho Hp (or_intror Hr') Hv) as Hl. destruct (mii_write _ _ _ _) as [e b].
    destruct Hl as (L1 & L2 & L3). apply Hq. repeat split; cbn [mfd_bus set_lock with_mfd_bus current_page switch_addr]; congruence || auto.
    rewrite L3. exact Hcoh.
  - pose proof (pb_phy_write (mfd_bus s') _ r v Ho Hp (or_introl Hne) Hv) as Hl. destruct (mii_write _ _ _ _) as [e b].
    destruct Hl as (L1 & L2 & L3). apply Hq. repeat split; cbn [mfd_bus set_lock with_mfd_bus current_page switch_addr]; congruence || auto.
    rewrite L3. exact Hcoh.
Qed.

(** ** Any interleaving *)

Inductive mfd_req :=
| RegRead (a : Z)
| RegWrite (a v : Z)
| RegUpdate (a mask v : Z)
| PhyRead (phy r : Z)
| PhyWrite (phy r v : Z).

(** What the driver does, and what it means for the registers; the answer
    is [None] where it is the PHY's. *)
Definition mfd_do (q : mfd_req) : M (an8855_mfd_priv B) (option Z) :=
  match q with
  | RegRead a => v <- an8855_regmap_read a ;; ret (Some v)
  | RegWrite a v => an8855_regmap_write a v ;; ret (Some 0)
  | RegUpdate a mask v => an8855_regmap_update_bits a mask v ;; ret (Some 0)
  | PhyRead phy r => an8855_phy_read phy r ;; ret None
  | PhyWrite phy r v => an8855_phy_write phy r v ;; ret None
  end.

Definition core_do (q : mfd_req) : M C (option Z) := fun c =>
  match q with
  | RegRead a => (Ok (Some (fst (core_read a c))), snd (core_read a c))
  | RegWrite a v => (Ok (Some 0), core_write a v c)
  | RegUpdate a mask v => (Ok (Some 0), core_update a mask v c)
  | PhyRead _ _ | PhyWrite _ _ _ => (Ok None, c)
  end.

Definition word32 (x : Z) : Prop := 0 <= x < 2 ^ 32.
Definition req_ok (q : mfd_req) : Prop :=
  match q with
  | RegRead a => word32 a
  | RegWrite a v => word32 a /\ word32 v
  | RegUpdate a mask v => word32 a /\ word32 mask /\ word32 v
  | PhyRead phy r => 0 <= phy < 32
  | PhyWrite phy r v => 0 <= phy < 32 /\ 0 <= v < 65536 /\ phy_write_ok phy r v
  end.

Lemma mfd_do_sim q : req_ok q -> sim related anything (mfd_do q) (core_do q).
Proof.
  intros Hq. apply sim_of_wp. intros s c H. destruct q; cbn [mfd_do core_do req_ok fst snd] in *; unfold word32 in *;
    apply wp_no_error, wp_bind.
  - eapply wp_regmap_read; [exact H | exact Hq |]. intros s' H'. apply wp_ret. split; [reflexivity | split; [exact H' | exact I]].
  - eapply wp_regmap_write; [exact H | apply Hq | apply Hq |]. intros s' H'. apply wp_ret. split; [reflexivity | split; [exact H' | exact I]].
  - eapply wp_regmap_update; [exact H | apply Hq | apply Hq | apply Hq |]. intros s' H'. apply wp_ret.
    split; [reflexivity | split; [exact H' | exact I]].
  - eapply wp_phy_read; [exact H | exact Hq |]. intros v s' H'. apply wp_ret. split; [reflexivity | split; [exact H' | exact I]].
  - eapply wp_phy_write; [exact H | apply Hq | apply Hq | apply Hq |]. intros e s' H'. apply wp_ret.
    split; [reflexivity | split; [exact H' | exact I]].
Qed.

Lemma core_do_total q c : exists a c', core_do q c = (Ok a, c').
Proof. destruct q; eexists _, _; reflexivity. Qed.
End Window.

Section Theorems.
Context {B C : Type} {MB : MiiBus B} {K : Core C} {HW : PbusHw B C}.

(** C7: the MDIO window implements the registers of the switch.  For every
    sequence of register reads, writes and updates with accesses to any PHY
    in between, PHYs at the switch's own address included, the driver answers
    what the registers themselves would answer and leaves the switch in the
    same state; the page of the window never leaks into a PHY access, and the
    bus lock is free at the end.  Provided the bus works, addresses and
    values fit, and no PHY driver selects the page of the window itself. *)
Theorem mfd_implements_registers qs (s : an8855_mfd_priv B) (c : C) : related s c -> Forall req_ok qs ->
  exists answers s' c', run_all mfd_do qs s = (Ok answers, s') /\ run_all core_do qs c = (Ok answers, c') /\ related s' c'.
Proof.
  intros H Hq. exact (run_all_refines related req_ok mfd_do core_do qs s c mfd_do_sim core_do_total H Hq).
Qed.

(** A page a PHY driver has selected at the switch's address is lost when a
    register access comes in between: its next access finds page 0. *)
Lemma phy_page_lost (s : an8855_mfd_priv B) (c : C) a : related s c -> 0 <= a < 2 ^ 32 ->
  wp (an8855_regmap_read a) (fun _ s1 => related s1 (snd (core_read a c)) /\
    (current_page s1 = 4 -> wp (an855_phy_restore_page pb_addr) (fun _ s2 => pb_page (mfd_bus s2) = 0) never (set_lock true s1))) never s.
Proof.
  intros H Ha. eapply wp_regmap_read; [exact H | exact Ha |]. intros s1 H1. split; [exact H1 |]. intros H4.
  eapply wp_restore_page; [exact H1 | apply pb_addr_range |]. intros s2 _ _ _ Hp _ _. auto.
Qed.
End Theorems.

(** ** A bus to try it on *)

(** The switch at address 1; registers of PHYs by page and address. *)
Record mdev (C : Type) := MDev { d_page : Z; d_latch : Z -> Z; d_low : Z; d_core : C; d_phy : Z -> Z -> Z -> Z }.
Arguments MDev {C}.
Arguments d_page {C}.
Arguments d_latch {C}.
Arguments d_low {C}.
Arguments d_core {C}.
Arguments d_phy {C}.

Section Device.
Context {C : Type} {K : Core C}.

Definition upd1 (f : Z -> Z) (i x : Z) : Z -> Z := fun j => if j =? i then x else f j.

Definition mdev_write (p r v : Z) (d : mdev C) : mdev C :=
  if negb (p =? 1) then MDev (d_page d) (d_latch d) (d_low d) (d_core d)
    (fun g q t => if (q =? p) && (t =? r) then v else d_phy d g q t)
  else if r =? AN8855_PHY_SELECT_PAGE then MDev (Z.land v AN8855_PHY_PAGE) (d_latch d) (d_low d) (d_core d) (d_phy d)
  else if negb (d_page d =? 4) then MDev (d_page d) (d_latch d) (d_low d) (d_core d)
    (fun g q t => if (g =? d_page d) && (q =? p) && (t =? r) then v else d_phy d g q t)
  else if is_latch r then MDev 4 (upd1 (d_latch d) r v) (d_low d) (d_core d) (d_phy d)
  else if r =? AN8855_PBUS_WR_DATA_LOW then MDev 4 (d_latch d) (d_low d)
    (core_write (word (d_latch d AN8855_PBUS_WR_ADDR_HIGH) (d_latch d AN8855_PBUS_WR_ADDR_LOW))
       (word (d_latch d AN8855_PBUS_WR_DATA_HIGH) v) (d_core d)) (d_phy d)
  else d.

Definition mdev_read (p r : Z) (d : mdev C) : Z * mdev C :=
  if (p =? 1) && (d_page d =? 4) && (r =? AN8855_PBUS_RD_DATA_HIGH) then
    let (x, c) := core_read (word (d_latch d AN8855_PBUS_RD_ADDR_HIGH) (d_latch d AN8855_PBUS_RD_ADDR_LOW)) (d_core d) in
    (upper_16_bits x, MDev 4 (d_latch d) (lower_16_bits x) c (d_phy d))
  else if (p =? 1) && (d_page d =? 4) && (r =? AN8855_PBUS_RD_DATA_LOW) then (d_low d, d)
  else (d_phy d (d_page d) p r, d).

#[export] Instance mdev_bus : MiiBus (mdev C) := {|
  mii_read := mdev_read;
  mii_write p r v d := (0, mdev_write p r v d)
|}.

#[export] Instance mdev_pbus : PbusHw (mdev C) C.
Proof.
  refine {| pb_addr := 1; pb_ok _ := True; pb_page := d_page; pb_latch := d_latch; pb_low := d_low; pb_core := d_core |}.
  - lia.
  - intros d v _ Hv. cbn. repeat split; lia.
  - intros d r v _ Hp Hr Hv. unfold mii_write, mdev_bus, mdev_write. cbn [negb Z.eqb Pos.eqb].
    destruct (Z.eqb_spec r AN8855_PHY_SELECT_PAGE) as [-> |]; [discriminate |]. rewrite Hp, Hr. repeat split. lia.
  - intros d v _ Hp Hm Hv. unfold mii_write, mdev_bus, mdev_write. rewrite Hp. repeat split. cbn. lia.
  - intros d _ Hp Hm. unfold mii_read, mdev_bus, mdev_read. rewrite Hp. cbn [andb Z.eqb Pos.eqb AN8855_PBUS_RD_DATA_HIGH].
    destruct (core_read _ _) as [x c]. repeat split.
  - intros d _ Hp. unfold mii_read, mdev_bus, mdev_read. rewrite Hp. repeat split; assumption.
  - intros d p r _ Hp. unfold mii_read, mdev_bus, mdev_read.
    destruct (Z.eqb_spec p 1), (Z.eqb_spec (d_page d) 4); cbn [andb]; try lia; auto.
  - intros d p r v _ Hp Hr Hv. unfold mii_write, mdev_bus, mdev_write.
    destruct (Z.eqb_spec p 1), (Z.eqb_spec r AN8855_PHY_SELECT_PAGE), (Z.eqb_spec (d_page d) 4); cbn [negb]; try lia; auto.
Defined.
End Device.

(** Registers that keep what is written. *)
Definition reg_file : Type := Z -> Z.
#[export] Instance reg_file_core : Core reg_file.
Proof.
  refine {| core_read a f := (u32 (f a), f); core_write a v f := upd1 f a v |}. intros a f. apply u32_range.
Defined.

Definition mdev0 {C} (c : C) : mdev C := MDev 0 (fun _ => 0) 0 c (fun g q t => 1000 * g + 100 * q + t).
Definition mfd0 {C} (c : C) : an8855_mfd_priv (mdev C) := MfdPriv (mdev0 c) 1 0 false.

Lemma mfd0_related {C} {K : Core C} (c : C) : related (mfd0 c) c.
Proof. repeat split. discriminate. Qed.

Definition sample_reqs : list mfd_req :=
  [RegWrite 0x10208044 0x3f; PhyRead 1 2; RegUpdate 0x10208044 0x1f 0x5; PhyWrite 1 0x1f 1; PhyRead 1 0x14;
   RegRead 0x10208044; PhyRead 1 0x14].

Lemma sample_reqs_ok : Forall (req_ok (B := mdev reg_file) (C := reg_file)) sample_reqs.
Proof.
  repeat (apply Forall_cons_2 || apply Forall_nil_2); cbn [req_ok]; unfold word32, phy_write_ok; repeat split; try lia.
  intros _ _. discriminate.
Qed.

Lemma mfd_implements_registers_witness :
  (exists answers s' c', run_all mfd_do sample_reqs (mfd0 (fun _ => 0 : Z)) = (Ok answers, s') /\
     run_all core_do sample_reqs (fun _ => 0 : Z) = (Ok answers, c') /\ related (B := mdev reg_file) s' (c' : reg_file)) /\
  fst (run_all mfd_do sample_reqs (mfd0 ((fun _ => 0 : Z) : reg_file))) =
    Ok [Some 0; None; Some 0; None; None; Some 0x25; None].
Proof.
  split; [| reflexivity].
  apply (mfd_implements_registers sample_reqs (mfd0 ((fun _ => 0 : Z) : reg_file)) (fun _ => 0 : Z)); [apply mfd0_related | apply sample_reqs_ok].
Defined.
