(* ===== verification/An8855Regs.v ===== *)
(** * The registers of the AN8855: [an8855.h]

    The register addresses, fields and values [an8855.c] uses, with the
    table of its counters. *)

From S2P Require Import Prelude Regmap.

(** Sizes of Ethernet headers ([linux/if_ether.h]). *)
Definition ETH_HLEN : Z := 14.
Definition ETH_FCS_LEN : Z := 4.

Definition AN8855_NUM_PORTS : Z := 6.
Definition AN8855_CPU_PORT : Z := 5.
Definition AN8855_NUM_FDB_RECORDS : Z := 2048.
Definition AN8855_PORT_VID_DEFAULT : Z := 0.
Definition MTK_TAG_LEN : Z := 4.
Definition AN8855_MAX_MTU : Z := 15360 - ETH_HLEN - ETH_FCS_LEN - MTK_TAG_LEN.
Definition AN8855_L2_AGING_MS_CONSTANT : Z := 1024.
Definition AN8855_PHY_FLAGS_EN_CALIBRATION : Z := BIT 0.
Definition AN8855_HWTRAP : Z := 0x1000009c.
Definition AN8855_CREV : Z := 0x10005000.
Definition AN8855_ID : Z := 0x8855.
Definition AN8855_MFC : Z := 0x10200010.
Definition AN8855_CPU_EN : Z := BIT 15.
Definition AN8855_CPU_PORT_IDX : Z := GENMASK 12 8.
Definition AN8855_PAC : Z := 0x10200024.
Definition AN8855_PAE_BPDU_FR : Z := BIT 12.
Definition AN8855_PAE_EG_TAG : Z := GENMASK 11 9.
Definition AN8855_PAE_PORT_FW : Z := GENMASK 2 0.
Definition AN8855_RGAC1 : Z := 0x10200028.
Definition AN8855_R02_BPDU_FR : Z := BIT 28.
Definition AN8855_R02_EG_TAG : Z := GENMASK 27 25.
Definition AN8855_R02_PORT_FW : Z := GENMASK 18 16.
Definition AN8855_R01_BPDU_FR : Z := BIT 12.
Definition AN8855_R01_EG_TAG : Z := GENMASK 11 9.
Definition AN8855_R01_PORT_FW : Z := GENMASK 2 0.
Definition AN8855_R0E_BPDU_FR : Z := BIT 28.
Definition AN8855_R0E_EG_TAG : Z := GENMASK 27 25.
Definition AN8855_R0E_PORT_FW : Z := GENMASK 18 16.
Definition AN8855_R03_BPDU_FR : Z := BIT 12.
Definition AN8855_R03_EG_TAG : Z := GENMASK 11 9.
Definition AN8855_R03_PORT_FW : Z := GENMASK 2 0.
Definition AN8855_AAC : Z := 0x102000a0.
Definition AN8855_AGE_CNT : Z := GENMASK 20 12.
Definition AN8855_AGE_UNIT : Z := GENMASK 10 0.
Definition AN8855_UNUF : Z := 0x102000b4.
Definition AN8855_UNMF : Z := 0x102000b8.
Definition AN8855_BCF : Z := 0x102000bc.
Definition AN8855_MIR : Z := 0x102000cc.
Definition AN8855_MIRROR_EN : Z := BIT 7.
Definition AN8855_MIRROR_PORT : Z := GENMASK 4 0.
Definition AN8855_BPC : Z := 0x102000d0.
Definition AN8855_BPDU_BPDU_FR : Z := BIT 12.
Definition AN8855_BPDU_EG_TAG : Z := GENMASK 11 9.
Definition AN8855_BPDU_PORT_FW : Z := GENMASK 2 0.
Definition AN8855_UNIPMF : Z := 0x102000dc.
Definition AN8855_BPDU_CPU_ONLY : Z := 6.
Definition AN8855_ATC : Z := 0x10200300.
Definition AN8855_ATC_BUSY : Z := BIT 31.
Definition AN8855_ATC_HIT : Z := GENMASK 15 12.
Definition AN8855_ATC_MAT_MASK : Z := GENMASK 11 7.
Definition AN8855_ATC_MAT (x : Z) : Z := FIELD_PREP AN8855_ATC_MAT_MASK x.
Definition AND8855_FDB_MAT_MAC_PORT : Z := 12.
Definition AND8855_FDB_MAT_MAC_TYPE_PORT : Z := 19.
Definition AN8855_FDB_READ : Z := 0.
Definition AN8855_FDB_WRITE : Z := 1.
Definition AN8855_FDB_FLUSH : Z := 2.
Definition AN8855_FDB_START : Z := 4.
Definition AN8855_FDB_NEXT : Z := 5.
Definition AN8855_ATA1 : Z := 0x10200304.
Definition AN8855_ATA1_MAC0 : Z := GENMASK 31 24.
Definition AN8855_ATA1_MAC1 : Z := GENMASK 23 16.
Definition AN8855_ATA1_MAC2 : Z := GENMASK 15 8.
Definition AN8855_ATA1_MAC3 : Z := GENMASK 7 0.
Definition AN8855_ATA2 : Z := 0x10200308.
Definition AN8855_ATA2_MAC4 : Z := GENMASK 31 24.
Definition AN8855_ATA2_MAC5 : Z := GENMASK 23 16.
Definition AN8855_ATA2_TYPE : Z := BIT 9.
Definition AN8855_ATWD : Z := 0x10200324.
Definition AN8855_ATWD_FID : Z := GENMASK 31 28.
Definition AN8855_ATWD_VID : Z := GENMASK 27 16.
Definition AN8855_ATWD_IVL : Z := BIT 15.
Definition AN8855_ATWD_VLD : Z := BIT 0.
Definition AN8855_ATWD2 : Z := 0x10200328.
Definition AN8855_ATWD2_PORT : Z := GENMASK 7 0.
Definition AN8855_ATRDS : Z := 0x10200330.
Definition AN8855_ATRD_SEL : Z := GENMASK 1 0.
Definition AN8855_ATRD0 : Z := 0x10200334.
Definition AN8855_ATRD0_FID : Z := GENMASK 28 25.
Definition AN8855_ATRD0_VID : Z := GENMASK 21 10.
Definition AN8855_ATRD0_IVL : Z := BIT 9.
Definition AN8855_ATRD0_TYPE : Z := GENMASK 4 3.
Definition AN8855_ATRD0_ARP : Z := GENMASK 2 1.
Definition AN8855_ATRD0_LIVE : Z := BIT 0.
Definition AN8855_ATRD1_MAC4 : Z := GENMASK 31 24.
Definition AN8855_ATRD1_MAC5 : Z := GENMASK 23 16.
Definition AN8855_ATRD1_AGING : Z := GENMASK 11 3.
Definition AN8855_ATRD2_MAC0 : Z := GENMASK 31 24.
Definition AN8855_ATRD2_MAC1 : Z := GENMASK 23 16.
Definition AN8855_ATRD2_MAC2 : Z := GENMASK 15 8.
Definition AN8855_ATRD2_MAC3 : Z := GENMASK 7 0.
Definition AN8855_ATRD3 : Z := 0x10200340.
Definition AN8855_ATRD3_PORTMASK : Z := GENMASK 7 0.
Definition AN8855_VTCR : Z := 0x10200600.
Definition AN8855_VTCR_BUSY : Z := BIT 31.
Definition AN8855_VTCR_FUNC : Z := GENMASK 15 12.
Definition AN8855_VTCR_VID : Z := GENMASK 11 0.
Definition AN8855_VTCR_RD_VID : Z := 0.
Definition AN8855_VTCR_WR_VID : Z := 1.
Definition AN8855_VAWD0 : Z := 0x10200604.
Definition AN8855_VA0_PORT : Z := GENMASK 31 26.
Definition AN8855_VA0_ETAG : Z := GENMASK 23 12.
Definition AN8855_VA0_ETAG_PORT : Z := GENMASK 13 12.
Definition AN8855_VA0_ETAG_PORT_SHIFT (port : Z) : Z := port * 2.
Definition AN8855_VA0_ETAG_PORT_MASK (port : Z) : Z := Z.shiftl AN8855_VA0_ETAG_PORT (AN8855_VA0_ETAG_PORT_SHIFT port).
Definition AN8855_VA0_ETAG_PORT_VAL (port val : Z) : Z := Z.shiftl (FIELD_PREP AN8855_VA0_ETAG_PORT val) (AN8855_VA0_ETAG_PORT_SHIFT port).
Definition AN8855_VA0_EG_CON : Z := BIT 11.
Definition AN8855_VA0_VTAG_EN : Z := BIT 10.
Definition AN8855_VA0_IVL_MAC : Z := BIT 5.
Definition AN8855_VA0_FID : Z := GENMASK 4 1.
Definition AN8855_VA0_VLAN_VALID : Z := BIT 0.
Definition AN8855_VAWD1 : Z := 0x10200608.
Definition AN8855_FID_BRIDGED : Z := 1.
Definition AN8855_VARD0 : Z := 0x10200618.
Definition AN8855_VLAN_EGRESS_UNTAG : Z := 0.
Definition AN8855_VLAN_EGRESS_TAG : Z := 2.
Definition AN8855_VLAN_EGRESS_STACK : Z := 3.
Definition AN8855_SSP_P (x : Z) : Z := 0x10208000 + x * 0x200.
Definition AN8855_FID_PST : Z := GENMASK 1 0.
Definition AN8855_FID_PST_SHIFT (fid : Z) : Z := 2 * fid.
Definition AN8855_FID_PST_MASK (fid : Z) : Z := Z.shiftl AN8855_FID_PST (AN8855_FID_PST_SHIFT fid).
Definition AN8855_FID_PST_VAL (fid val : Z) : Z := Z.shiftl (FIELD_PREP AN8855_FID_PST val) (AN8855_FID_PST_SHIFT fid).
Definition AN8855_STP_DISABLED : Z := 0.
Definition AN8855_STP_BLOCKING : Z := 1.
Definition AN8855_STP_LISTENING : Z := AN8855_STP_BLOCKING.
Definition AN8855_STP_LEARNING : Z := 2.
Definition AN8855_STP_FORWARDING : Z := 3.
Definition AN8855_PCR_P (x : Z) : Z := 0x10208004 + x * 0x200.
Definition AN8855_PORT_TX_MIR : Z := BIT 20.
Definition AN8855_PORT_RX_MIR : Z := BIT 16.
Definition AN8855_PORT_VLAN : Z := GENMASK 1 0.
Definition AN8855_PORT_MATRIX_MODE : Z := 0.
Definition AN8855_PORT_FALLBACK_MODE : Z := 1.
Definition AN8855_PORT_SECURITY_MODE : Z := 3.
Definition AN8855_PSC_P (x : Z) : Z := 0x1020800c + x * 0x200.
Definition AN8855_SA_DIS : Z := BIT 4.
Definition AN8855_PVC_P (x : Z) : Z := 0x10208010 + x * 0x200.
Definition AN8855_PORT_SPEC_REPLACE_MODE : Z := BIT 11.
Definition AN8855_PVC_EG_TAG : Z := GENMASK 10 8.
Definition AN8855_VLAN_ATTR : Z := GENMASK 7 6.
Definition AN8855_PORT_SPEC_TAG : Z := BIT 5.
Definition AN8855_ACC_FRM : Z := GENMASK 1 0.
Definition AN8855_VLAN_EG_DISABLED : Z := 0.
Definition AN8855_VLAN_EG_CONSISTENT : Z := 1.
Definition AN8855_VLAN_EG_UNTAGGED : Z := 4.
Definition AN8855_VLAN_USER : Z := 0.
Definition AN8855_VLAN_TRANSPARENT : Z := 3.
Definition AN8855_VLAN_ACC_ALL : Z := 0.
Definition AN8855_VLAN_ACC_TAGGED : Z := 1.
Definition AN8855_PPBV1_P (x : Z) : Z := 0x10208014 + x * 0x200.
Definition AN8855_PPBV_G0_PORT_VID : Z := GENMASK 11 0.
Definition AN8855_PORTMATRIX_P (x : Z) : Z := 0x10208044 + x * 0x200.
Definition AN8855_PORTMATRIX : Z := GENMASK 5 0.
Definition AN8855_USER_PORTMATRIX : Z := GENMASK 4 0.
Definition AN8855_PVID_P (x : Z) : Z := 0x10208048 + x * 0x200.
Definition AN8855_G0_PORT_VID : Z := GENMASK 11 0.
Definition AN8855_PMCR_P (x : Z) : Z := 0x10210000 + x * 0x200.
Definition AN8855_PMCR_FORCE_MODE : Z := BIT 31.
Definition AN8855_PMCR_FORCE_SPEED : Z := GENMASK 30 28.
Definition AN8855_PMCR_FORCE_SPEED_2500 : Z := FIELD_PREP AN8855_PMCR_FORCE_SPEED 0x3.
Definition AN8855_PMCR_FORCE_SPEED_1000 : Z := FIELD_PREP AN8855_PMCR_FORCE_SPEED 0x2.
Definition AN8855_PMCR_FORCE_SPEED_100 : Z := FIELD_PREP AN8855_PMCR_FORCE_SPEED 0x1.
Definition AN8855_PMCR_FORCE_SPEED_10 : Z := FIELD_PREP AN8855_PMCR_FORCE_SPEED 0x1.
Definition AN8855_PMCR_FORCE_FDX : Z := BIT 25.
Definition AN8855_PMCR_FORCE_LNK : Z := BIT 24.
Definition AN8855_PMCR_IFG_XMIT : Z := GENMASK 21 20.
Definition AN8855_PMCR_MAC_MODE : Z := BIT 18.
Definition AN8855_PMCR_TX_EN : Z := BIT 16.
Definition AN8855_PMCR_RX_EN : Z := BIT 15.
Definition AN8855_PMCR_BACKOFF_EN : Z := BIT 12.
Definition AN8855_PMCR_BACKPR_EN : Z := BIT 11.
Definition AN8855_PMCR_FORCE_EEE5G : Z := BIT 9.
Definition AN8855_PMCR_FORCE_EEE2P5G : Z := BIT 8.
Definition AN8855_PMCR_FORCE_EEE1G : Z := BIT 7.
Definition AN8855_PMCR_FORCE_EEE100 : Z := BIT 6.
Definition AN8855_PMCR_TX_FC_EN : Z := BIT 5.
Definition AN8855_PMCR_RX_FC_EN : Z := BIT 4.
Definition AN8855_PMSR_P (x : Z) : Z := 0x10210010 + x * 0x200.
Definition AN8855_PMSR_SPEED : Z := GENMASK 30 28.
Definition AN8855_PMSR_SPEED_5000 : Z := FIELD_PREP AN8855_PMSR_SPEED 0x4.
Definition AN8855_PMSR_SPEED_2500 : Z := FIELD_PREP AN8855_PMSR_SPEED 0x3.
Definition AN8855_PMSR_SPEED_1000 : Z := FIELD_PREP AN8855_PMSR_SPEED 0x2.
Definition AN8855_PMSR_SPEED_100 : Z := FIELD_PREP AN8855_PMSR_SPEED 0x1.
Definition AN8855_PMSR_SPEED_10 : Z := FIELD_PREP AN8855_PMSR_SPEED 0x0.
Definition AN8855_PMSR_DPX : Z := BIT 25.
Definition AN8855_PMSR_LNK : Z := BIT 24.
Definition AN8855_PMSR_RX_FC : Z := BIT 5.
Definition AN8855_PMSR_TX_FC : Z := BIT 4.
Definition AN8855_GMACCR : Z := 0x10213e00.
Definition AN8855_MAX_RX_JUMBO : Z := GENMASK 7 4.
Definition AN8855_MAX_RX_JUMBO_3K : Z := FIELD_PREP AN8855_MAX_RX_JUMBO 0x3.
Definition AN8855_MAX_RX_JUMBO_4K : Z := FIELD_PREP AN8855_MAX_RX_JUMBO 0x4.
Definition AN8855_MAX_RX_JUMBO_5K : Z := FIELD_PREP AN8855_MAX_RX_JUMBO 0x5.
Definition AN8855_MAX_RX_JUMBO_6K : Z := FIELD_PREP AN8855_MAX_RX_JUMBO 0x6.
Definition AN8855_MAX_RX_JUMBO_7K : Z := FIELD_PREP AN8855_MAX_RX_JUMBO 0x7.
Definition AN8855_MAX_RX_JUMBO_8K : Z := FIELD_PREP AN8855_MAX_RX_JUMBO 0x8.
Definition AN8855_MAX_RX_JUMBO_9K : Z := FIELD_PREP AN8855_MAX_RX_JUMBO 0x9.
Definition AN8855_MAX_RX_JUMBO_12K : Z := FIELD_PREP AN8855_MAX_RX_JUMBO 0xa.
Definition AN8855_MAX_RX_JUMBO_15K : Z := FIELD_PREP AN8855_MAX_RX_JUMBO 0xb.
Definition AN8855_MAX_RX_JUMBO_16K : Z := FIELD_PREP AN8855_MAX_RX_JUMBO 0xc.
Definition AN8855_MAX_RX_PKT_LEN : Z := GENMASK 1 0.
Definition AN8855_MAX_RX_PKT_1518_1522 : Z := FIELD_PREP AN8855_MAX_RX_PKT_LEN 0x0.
Definition AN8855_MAX_RX_PKT_1536 : Z := FIELD_PREP AN8855_MAX_RX_PKT_LEN 0x1.
Definition AN8855_MAX_RX_PKT_1552 : Z := FIELD_PREP AN8855_MAX_RX_PKT_LEN 0x2.
Definition AN8855_MAX_RX_PKT_JUMBO : Z := FIELD_PREP AN8855_MAX_RX_PKT_LEN 0x3.
Definition AN8855_CKGCR : Z := 0x10213e1c.
Definition AN8855_CKG_LNKDN_PORT_STOP : Z := BIT 1.
Definition AN8855_CKG_LNKDN_GLB_STOP : Z := BIT 0.
Definition AN8855_PORT_MIB_COUNTER (x : Z) : Z := 0x10214000 + x * 0x200.
Definition AN8855_PORT_MIB_TX_DROP : Z := 0x00.
Definition AN8855_PORT_MIB_TX_CRC_ERR : Z := 0x04.
Definition AN8855_PORT_MIB_TX_UNICAST : Z := 0x08.
Definition AN8855_PORT_MIB_TX_MULTICAST : Z := 0x0c.
Definition AN8855_PORT_MIB_TX_BROADCAST : Z := 0x10.
Definition AN8855_PORT_MIB_TX_COLLISION : Z := 0x14.
Definition AN8855_PORT_MIB_TX_SINGLE_COLLISION : Z := 0x18.
Definition AN8855_PORT_MIB_TX_MULTIPLE_COLLISION : Z := 0x1c.
Definition AN8855_PORT_MIB_TX_DEFERRED : Z := 0x20.
Definition AN8855_PORT_MIB_TX_LATE_COLLISION : Z := 0x24.
Definition AN8855_PORT_MIB_TX_EXCESSIVE_COLLISION : Z := 0x28.
Definition AN8855_PORT_MIB_TX_PAUSE : Z := 0x2c.
Definition AN8855_PORT_MIB_TX_PKT_SZ_64 : Z := 0x30.
Definition AN8855_PORT_MIB_TX_PKT_SZ_65_TO_127 : Z := 0x34.
Definition AN8855_PORT_MIB_TX_PKT_SZ_128_TO_255 : Z := 0x38.
Definition AN8855_PORT_MIB_TX_PKT_SZ_256_TO_511 : Z := 0x3.
Definition AN8855_PORT_MIB_TX_PKT_SZ_512_TO_1023 : Z := 0x40.
Definition AN8855_PORT_MIB_TX_PKT_SZ_1024_TO_1518 : Z := 0x44.
Definition AN8855_PORT_MIB_TX_PKT_SZ_1519_TO_MAX : Z := 0x48.
Definition AN8855_PORT_MIB_TX_BYTES : Z := 0x4c.
Definition AN8855_PORT_MIB_TX_OVERSIZE_DROP : Z := 0x54.
Definition AN8855_PORT_MIB_TX_BAD_PKT_BYTES : Z := 0x58.
Definition AN8855_PORT_MIB_RX_DROP : Z := 0x80.
Definition AN8855_PORT_MIB_RX_FILTERING : Z := 0x84.
Definition AN8855_PORT_MIB_RX_UNICAST : Z := 0x88.
Definition AN8855_PORT_MIB_RX_MULTICAST : Z := 0x8c.
Definition AN8855_PORT_MIB_RX_BROADCAST : Z := 0x90.
Definition AN8855_PORT_MIB_RX_ALIGN_ERR : Z := 0x94.
Definition AN8855_PORT_MIB_RX_CRC_ERR : Z := 0x98.
Definition AN8855_PORT_MIB_RX_UNDER_SIZE_ERR : Z := 0x9c.
Definition AN8855_PORT_MIB_RX_FRAG_ERR : Z := 0xa0.
Definition AN8855_PORT_MIB_RX_OVER_SZ_ERR : Z := 0xa4.
Definition AN8855_PORT_MIB_RX_JABBER_ERR : Z := 0xa8.
Definition AN8855_PORT_MIB_RX_PAUSE : Z := 0xac.
Definition AN8855_PORT_MIB_RX_PKT_SZ_64 : Z := 0xb0.
Definition AN8855_PORT_MIB_RX_PKT_SZ_65_TO_127 : Z := 0xb4.
Definition AN8855_PORT_MIB_RX_PKT_SZ_128_TO_255 : Z := 0xb8.
Definition AN8855_PORT_MIB_RX_PKT_SZ_256_TO_511 : Z := 0xbc.
Definition AN8855_PORT_MIB_RX_PKT_SZ_512_TO_1023 : Z := 0xc0.
Definition AN8855_PORT_MIB_RX_PKT_SZ_1024_TO_1518 : Z := 0xc4.
Definition AN8855_PORT_MIB_RX_PKT_SZ_1519_TO_MAX : Z := 0xc8.
Definition AN8855_PORT_MIB_RX_BYTES : Z := 0xcc.
Definition AN8855_PORT_MIB_RX_CTRL_DROP : Z := 0xd4.
Definition AN8855_PORT_MIB_RX_INGRESS_DROP : Z := 0xd8.
Definition AN8855_PORT_MIB_RX_ARL_DROP : Z := 0xdc.
Definition AN8855_PORT_MIB_FLOW_CONTROL_DROP : Z := 0xe0.
Definition AN8855_PORT_MIB_WRED_DROP : Z := 0xe4.
Definition AN8855_PORT_MIB_MIRROR_DROP : Z := 0xe8.
Definition AN8855_PORT_MIB_RX_BAD_PKT_BYTES : Z := 0xec.
Definition AN8855_PORT_MIB_RXS_FLOW_SAMPLING_PKT_DROP : Z := 0xf4.
Definition AN8855_PORT_MIB_RXS_FLOW_TOTAL_PKT_DROP : Z := 0xf8.
Definition AN8855_PORT_MIB_PORT_CONTROL_DROP : Z := 0xfc.
Definition AN8855_MIB_CCR : Z := 0x10213e30.
Definition AN8855_CCR_MIB_ENABLE : Z := BIT 31.
Definition AN8855_CCR_RX_OCT_CNT_GOOD : Z := BIT 7.
Definition AN8855_CCR_RX_OCT_CNT_BAD : Z := BIT 6.
Definition AN8855_CCR_TX_OCT_CNT_GOOD : Z := BIT 5.
Definition AN8855_CCR_TX_OCT_CNT_BAD : Z := BIT 4.
Definition AN8855_CCR_RX_OCT_CNT_BAD_2 : Z := BIT 2.
Definition AN8855_CCR_TX_OCT_CNT_BAD_2 : Z := BIT 0.
Definition AN8855_CCR_MIB_ACTIVATE : Z :=
  AN8855_CCR_MIB_ENABLE .| AN8855_CCR_RX_OCT_CNT_GOOD .| AN8855_CCR_RX_OCT_CNT_BAD
  .| AN8855_CCR_TX_OCT_CNT_GOOD .| AN8855_CCR_TX_OCT_CNT_BAD .| AN8855_CCR_RX_OCT_CNT_BAD_2 .| AN8855_CCR_TX_OCT_CNT_BAD_2.
Definition AN8855_SGMII_REG_AN0 : Z := 0x10220000.
Definition AN8855_SGMII_REG_AN_13 : Z := 0x10220034.
Definition AN8855_SGMII_REMOTE_FAULT_DIS : Z := BIT 8.
Definition AN8855_SGMII_IF_MODE : Z := GENMASK 5 0.
Definition AN8855_SGMII_REG_AN_FORCE_CL37 : Z := 0x10220060.
Definition AN8855_RG_FORCE_AN_DONE : Z := BIT 0.
Definition AN8855_RG_HSGMII_PCS_CTROL_1 : Z := 0x10220a00.
Definition AN8855_RG_TBI_10B_MODE : Z := BIT 30.
Definition AN8855_RG_AN_SGMII_MODE_FORCE : Z := 0x10220a24.
Definition AN8855_RG_FORCE_CUR_SGMII_MODE : Z := GENMASK 5 4.
Definition AN8855_RG_FORCE_CUR_SGMII_SEL : Z := BIT 0.
Definition AN8855_SGMII_STS_CTRL_0 : Z := 0x10224018.
Definition AN8855_RG_LINK_MODE_P0 : Z := GENMASK 5 4.
Definition AN8855_RG_LINK_MODE_P0_SPEED_2500 : Z := FIELD_PREP AN8855_RG_LINK_MODE_P0 0x3.
Definition AN8855_RG_LINK_MODE_P0_SPEED_1000 : Z := FIELD_PREP AN8855_RG_LINK_MODE_P0 0x2.
Definition AN8855_RG_FORCE_SPD_MODE_P0 : Z := BIT 2.
Definition AN8855_MSG_RX_LIK_STS_0 : Z := 0x10224514.
Definition AN8855_RG_DPX_STS_P3 : Z := BIT 24.
Definition AN8855_RG_DPX_STS_P2 : Z := BIT 16.
Definition AN8855_RG_DPX_STS_P1 : Z := BIT 8.
Definition AN8855_RG_TXFC_STS_P0 : Z := BIT 2.
Definition AN8855_RG_RXFC_STS_P0 : Z := BIT 1.
Definition AN8855_RG_DPX_STS_P0 : Z := BIT 0.
Definition AN8855_MSG_RX_LIK_STS_2 : Z := 0x1022451c.
Definition AN8855_RG_RXFC_AN_BYPASS_P3 : Z := BIT 11.
Definition AN8855_RG_RXFC_AN_BYPASS_P2 : Z := BIT 10.
Definition AN8855_RG_RXFC_AN_BYPASS_P1 : Z := BIT 9.
Definition AN8855_RG_TXFC_AN_BYPASS_P3 : Z := BIT 7.
Definition AN8855_RG_TXFC_AN_BYPASS_P2 : Z := BIT 6.
Definition AN8855_RG_TXFC_AN_BYPASS_P1 : Z := BIT 5.
Definition AN8855_RG_DPX_AN_BYPASS_P3 : Z := BIT 3.
Definition AN8855_RG_DPX_AN_BYPASS_P2 : Z := BIT 2.
Definition AN8855_RG_DPX_AN_BYPASS_P1 : Z := BIT 1.
Definition AN8855_RG_DPX_AN_BYPASS_P0 : Z := BIT 0.
Definition AN8855_PHY_RX_FORCE_CTRL_0 : Z := 0x10224520.
Definition AN8855_RG_FORCE_TXC_SEL : Z := BIT 4.
Definition AN8855_RG_RATE_ADAPT_CTRL_0 : Z := 0x10226000.
Definition AN8855_RG_RATE_ADAPT_RX_BYPASS : Z := BIT 27.
Definition AN8855_RG_RATE_ADAPT_TX_BYPASS : Z := BIT 26.
Definition AN8855_RG_RATE_ADAPT_RX_EN : Z := BIT 4.
Definition AN8855_RG_RATE_ADAPT_TX_EN : Z := BIT 0.
Definition AN8855_RATE_ADP_P0_CTRL_0 : Z := 0x10226100.
Definition AN8855_RG_P0_DIS_MII_MODE : Z := BIT 31.
Definition AN8855_RG_P0_MII_MODE : Z := BIT 28.
Definition AN8855_RG_P0_MII_RA_RX_EN : Z := BIT 3.
Definition AN8855_RG_P0_MII_RA_TX_EN : Z := BIT 2.
Definition AN8855_RG_P0_MII_RA_RX_MODE : Z := BIT 1.
Definition AN8855_RG_P0_MII_RA_TX_MODE : Z := BIT 0.
Definition AN8855_MII_RA_AN_ENABLE : Z := 0x10226300.
Definition AN8855_RG_P0_RA_AN_EN : Z := BIT 0.
Definition AN8855_QP_DIG_MODE_CTRL_0 : Z := 0x1022a324.
Definition AN8855_RG_SGMII_MODE : Z := GENMASK 5 4.
Definition AN8855_RG_SGMII_AN_EN : Z := BIT 0.
Definition AN8855_QP_DIG_MODE_CTRL_1 : Z := 0x1022a330.
Definition AN8855_RG_TPHY_SPEED : Z := GENMASK 3 2.
Definition AN8855_PON_RXFEDIG_CTRL_0 : Z := 0x1022e100.
Definition AN8855_RG_QP_EQ_RX500M_CK_SEL : Z := BIT 12.
Definition AN8855_PON_RXFEDIG_CTRL_9 : Z := 0x1022e124.
Definition AN8855_RG_QP_EQ_LEQOSC_DLYCNT : Z := GENMASK 2 0.
Definition AN8855_SS_LCPLL_PWCTL_SETTING_2 : Z := 0x1022e208.
Definition AN8855_RG_NCPO_ANA_MSB : Z := GENMASK 17 16.
Definition AN8855_SS_LCPLL_TDC_FLT_2 : Z := 0x1022e230.
Definition AN8855_RG_LCPLL_NCPO_VALUE : Z := GENMASK 30 0.
Definition AN8855_SS_LCPLL_TDC_FLT_5 : Z := 0x1022e23c.
Definition AN8855_RG_LCPLL_NCPO_CHG : Z := BIT 24.
Definition AN8855_SS_LCPLL_TDC_PCW_1 : Z := 0x1022e248.
Definition AN8855_RG_LCPLL_PON_HRDDS_PCW_NCPO_GPON : Z := GENMASK 30 0.
Definition AN8855_INTF_CTRL_10 : Z := 0x1022e328.
Definition AN8855_RG_DA_QP_TX_FIR_C2_SEL : Z := BIT 29.
Definition AN8855_RG_DA_QP_TX_FIR_C2_FORCE : Z := GENMASK 28 24.
Definition AN8855_RG_DA_QP_TX_FIR_C1_SEL : Z := BIT 21.
Definition AN8855_RG_DA_QP_TX_FIR_C1_FORCE : Z := GENMASK 20 16.
Definition AN8855_INTF_CTRL_11 : Z := 0x1022e32c.
Definition AN8855_RG_DA_QP_TX_FIR_C0B_SEL : Z := BIT 6.
Definition AN8855_RG_DA_QP_TX_FIR_C0B_FORCE : Z := GENMASK 5 0.
Definition AN8855_PLL_CTRL_0 : Z := 0x1022e400.
Definition AN8855_RG_PHYA_AUTO_INIT : Z := BIT 0.
Definition AN8855_PLL_CTRL_2 : Z := 0x1022e408.
Definition AN8855_RG_DA_QP_PLL_SDM_IFM_INTF : Z := BIT 30.
Definition AN8855_RG_DA_QP_PLL_RICO_SEL_INTF : Z := BIT 29.
Definition AN8855_RG_DA_QP_PLL_POSTDIV_EN_INTF : Z := BIT 28.
Definition AN8855_RG_DA_QP_PLL_PHY_CK_EN_INTF : Z := BIT 27.
Definition AN8855_RG_DA_QP_PLL_PFD_OFFSET_EN_INTRF : Z := BIT 26.
Definition AN8855_RG_DA_QP_PLL_PFD_OFFSET_INTF : Z := GENMASK 25 24.
Definition AN8855_RG_DA_QP_PLL_PCK_SEL_INTF : Z := BIT 22.
Definition AN8855_RG_DA_QP_PLL_KBAND_PREDIV_INTF : Z := GENMASK 21 20.
Definition AN8855_RG_DA_QP_PLL_IR_INTF : Z := GENMASK 19 16.
Definition AN8855_RG_DA_QP_PLL_ICOIQ_EN_INTF : Z := BIT 14.
Definition AN8855_RG_DA_QP_PLL_FBKSEL_INTF : Z := GENMASK 13 12.
Definition AN8855_RG_DA_QP_PLL_BR_INTF : Z := GENMASK 10 8.
Definition AN8855_RG_DA_QP_PLL_BPD_INTF : Z := GENMASK 7 6.
Definition AN8855_RG_DA_QP_PLL_BPA_INTF : Z := GENMASK 4 2.
Definition AN8855_RG_DA_QP_PLL_BC_INTF : Z := GENMASK 1 0.
Definition AN8855_PLL_CTRL_3 : Z := 0x1022e40c.
Definition AN8855_RG_DA_QP_PLL_SSC_PERIOD_INTF : Z := GENMASK 31 16.
Definition AN8855_RG_DA_QP_PLL_SSC_DELTA_INTF : Z := GENMASK 15 0.
Definition AN8855_PLL_CTRL_4 : Z := 0x1022e410.
Definition AN8855_RG_DA_QP_PLL_SDM_HREN_INTF : Z := GENMASK 4 3.
Definition AN8855_RG_DA_QP_PLL_ICOLP_EN_INTF : Z := BIT 2.
Definition AN8855_RG_DA_QP_PLL_SSC_DIR_DLY_INTF : Z := GENMASK 1 0.
Definition AN8855_PLL_CK_CTRL_0 : Z := 0x1022e414.
Definition AN8855_RG_DA_QP_PLL_TDC_TXCK_SEL_INTF : Z := BIT 9.
Definition AN8855_RG_DA_QP_PLL_SDM_DI_EN_INTF : Z := BIT 8.
Definition AN8855_RX_DLY_0 : Z := 0x1022e614.
Definition AN8855_RG_QP_RX_SAOSC_EN_H_DLY : Z := GENMASK 13 8.
Definition AN8855_RG_QP_RX_PI_CAL_EN_H_DLY : Z := GENMASK 7 0.
Definition AN8855_RX_CTRL_2 : Z := 0x1022e630.
Definition AN8855_RG_QP_RX_EQ_EN_H_DLY : Z := GENMASK 28 16.
Definition AN8855_RX_CTRL_5 : Z := 0x1022e63c.
Definition AN8855_RG_FREDET_CHK_CYCLE : Z := GENMASK 29 10.
Definition AN8855_RX_CTRL_6 : Z := 0x1022e640.
Definition AN8855_RG_FREDET_GOLDEN_CYCLE : Z := GENMASK 19 0.
Definition AN8855_RX_CTRL_7 : Z := 0x1022e644.
Definition AN8855_RG_FREDET_TOLERATE_CYCLE : Z := GENMASK 19 0.
Definition AN8855_RX_CTRL_8 : Z := 0x1022e648.
Definition AN8855_RG_DA_QP_SAOSC_DONE_TIME : Z := GENMASK 27 16.
Definition AN8855_RG_DA_QP_LEQOS_EN_TIME : Z := GENMASK 14 0.
Definition AN8855_RX_CTRL_26 : Z := 0x1022e690.
Definition AN8855_RG_QP_EQ_RETRAIN_ONLY_EN : Z := BIT 26.
Definition AN8855_RG_LINK_NE_EN : Z := BIT 24.
Definition AN8855_RG_LINK_ERRO_EN : Z := BIT 23.
Definition AN8855_RX_CTRL_42 : Z := 0x1022e6d0.
Definition AN8855_RG_QP_EQ_EN_DLY : Z := GENMASK 12 0.
Definition AN8855_RG_QP_RX_DAC_EN : Z := 0x1022f000.
Definition AN8855_RG_QP_SIGDET_HF : Z := GENMASK 17 16.
Definition AN8855_RG_QP_RXAFE_RESERVE : Z := 0x1022f004.
Definition AN8855_RG_QP_CDR_PD_10B_EN : Z := BIT 11.
Definition AN8855_RG_QP_CDR_LPF_BOT_LIM : Z := 0x1022f008.
Definition AN8855_RG_QP_CDR_LPF_KP_GAIN : Z := GENMASK 26 24.
Definition AN8855_RG_QP_CDR_LPF_KI_GAIN : Z := GENMASK 22 20.
Definition AN8855_RG_QP_CDR_LPF_MJV_LIM : Z := 0x1022f00c.
Definition AN8855_RG_QP_CDR_LPF_RATIO : Z := GENMASK 5 4.
Definition AN8855_RG_QP_CDR_LPF_SETVALUE : Z := 0x1022f014.
Definition AN8855_RG_QP_CDR_PR_BUF_IN_SR : Z := GENMASK 31 29.
Definition AN8855_RG_QP_CDR_PR_BETA_SEL : Z := GENMASK 28 25.
Definition AN8855_RG_QP_CDR_PR_CKREF_DIV1 : Z := 0x1022f018.
Definition AN8855_RG_QP_CDR_PR_KBAND_DIV : Z := GENMASK 26 24.
Definition AN8855_RG_QP_CDR_PR_DAC_BAND : Z := GENMASK 12 8.
Definition AN8855_RG_QP_CDR_PR_KBAND_DIV_PCIE : Z := 0x1022f01c.
Definition AN8855_RG_QP_CDR_PR_XFICK_EN : Z := BIT 30.
Definition AN8855_RG_QP_CDR_PR_KBAND_PCIE_MODE : Z := BIT 6.
Definition AN8855_RG_QP_CDR_PR_KBAND_DIV_PCIE_MASK : Z := GENMASK 5 0.
Definition AN8855_RG_QP_CDR_FORCE_IBANDLPF_R_OFF : Z := 0x1022f020.
Definition AN8855_RG_QP_CDR_PHYCK_SEL : Z := GENMASK 17 16.
Definition AN8855_RG_QP_CDR_PHYCK_RSTB : Z := BIT 13.
Definition AN8855_RG_QP_CDR_PHYCK_DIV : Z := GENMASK 12 6.
Definition AN8855_RG_QP_TX_MODE : Z := 0x1022f028.
Definition AN8855_RG_QP_TX_RESERVE : Z := GENMASK 31 16.
Definition AN8855_RG_QP_TX_MODE_16B_EN : Z := BIT 0.
Definition AN8855_RG_QP_PLL_SDM_ORD : Z := 0x1022f040.
Definition AN8855_RG_QP_PLL_SSC_PHASE_INI : Z := BIT 4.
Definition AN8855_RG_QP_PLL_SSC_TRI_EN : Z := BIT 3.
Definition AN8855_RG_GPHY_AFE_PWD : Z := 0x1028c840.

(** [an8855_mib]: size in words, offset and name. *)
Record an8855_mib_desc := MibDesc { mib_size : Z; mib_offset : Z; mib_name : string }.
Definition an8855_mib : list an8855_mib_desc := [
  MibDesc 1 AN8855_PORT_MIB_TX_DROP "TxDrop";
  MibDesc 1 AN8855_PORT_MIB_TX_CRC_ERR "TxCrcErr";
  MibDesc 1 AN8855_PORT_MIB_TX_COLLISION "TxCollision";
  MibDesc 1 AN8855_PORT_MIB_TX_OVERSIZE_DROP "TxOversizeDrop";
  MibDesc 2 AN8855_PORT_MIB_TX_BAD_PKT_BYTES "TxBadPktBytes";
  MibDesc 1 AN8855_PORT_MIB_RX_DROP "RxDrop";
  MibDesc 1 AN8855_PORT_MIB_RX_FILTERING "RxFiltering";
  MibDesc 1 AN8855_PORT_MIB_RX_CRC_ERR "RxCrcErr";
  MibDesc 1 AN8855_PORT_MIB_RX_CTRL_DROP "RxCtrlDrop";
  MibDesc 1 AN8855_PORT_MIB_RX_INGRESS_DROP "RxIngressDrop";
  MibDesc 1 AN8855_PORT_MIB_RX_ARL_DROP "RxArlDrop";
  MibDesc 1 AN8855_PORT_MIB_FLOW_CONTROL_DROP "FlowControlDrop";
  MibDesc 1 AN8855_PORT_MIB_WRED_DROP "WredDrop";
  MibDesc 1 AN8855_PORT_MIB_MIRROR_DROP "MirrorDrop";
  MibDesc 2 AN8855_PORT_MIB_RX_BAD_PKT_BYTES "RxBadPktBytes";
  MibDesc 1 AN8855_PORT_MIB_RXS_FLOW_SAMPLING_PKT_DROP "RxsFlowSamplingPktDrop";
  MibDesc 1 AN8855_PORT_MIB_RXS_FLOW_TOTAL_PKT_DROP "RxsFlowTotalPktDrop";
  MibDesc 1 AN8855_PORT_MIB_PORT_CONTROL_DROP "PortControlDrop"].
