(* ===== verification/An8855.v ===== *)
(** * The AN8855 switch driver: [an8855.c]

    What the DSA framework calls for forwarding, VLANs, addresses, ageing and
    MTU, over a register map.  [An8855Setup] has counters, mirroring, set-up
    and probe, [An8855Link] the link layer. *)

From S2P Require Import Prelude CMonad Regmap An8855Regs.

(** [struct an8855_priv], with the register map in it. *)
Record an8855_priv (W : Type) := AnPriv {
  mirror_rx : Z;           (* u8 *)
  mirror_tx : Z;           (* u8 *)
  port_isolated_map : Z;   (* u8 *)
  phy_require_calib : bool;
  reg_mutex : bool;
  an_map : W
}.
Arguments AnPriv {W}.
Arguments mirror_rx {W}.
Arguments mirror_tx {W}.
Arguments port_isolated_map {W}.
Arguments phy_require_calib {W}.
Arguments reg_mutex {W}.
Arguments an_map {W}.

Definition with_mirror_rx {W} x (s : an8855_priv W) := AnPriv x (mirror_tx s) (port_isolated_map s) (phy_require_calib s) (reg_mutex s) (an_map s).
Definition with_mirror_tx {W} x (s : an8855_priv W) := AnPriv (mirror_rx s) x (port_isolated_map s) (phy_require_calib s) (reg_mutex s) (an_map s).
Definition with_isolated {W} x (s : an8855_priv W) := AnPriv (mirror_rx s) (mirror_tx s) x (phy_require_calib s) (reg_mutex s) (an_map s).
Definition with_mutex {W} x (s : an8855_priv W) := AnPriv (mirror_rx s) (mirror_tx s) (port_isolated_map s) (phy_require_calib s) x (an_map s).
Definition with_map {W} (x : W) (s : an8855_priv W) := AnPriv (mirror_rx s) (mirror_tx s) (port_isolated_map s) (phy_require_calib s) (reg_mutex s) x.

(** What the driver asks of the DSA framework about its ports. *)
Record dsa_switch := Dsa {
  user_ports : list Z;                             (* dsa_switch_for_each_user_port *)
  all_ports : list Z;                              (* dsa_switch_for_each_port *)
  dsa_user_ports : Z;                              (* the mask of that name *)
  dsa_is_cpu_port : Z -> bool;
  dsa_port_bridge_dev_get : Z -> option Z;         (* None: no bridge *)
  dsa_port_offloads_bridge_dev : Z -> option Z -> bool;
  dsa_port_is_vlan_filtering : Z -> bool;
  dp_learning : Z -> bool
}.

(** [linux/if_bridge.h] *)
Definition BR_STATE_DISABLED : Z := 0.
Definition BR_STATE_LISTENING : Z := 1.
Definition BR_STATE_LEARNING : Z := 2.
Definition BR_STATE_FORWARDING : Z := 3.
Definition BR_STATE_BLOCKING : Z := 4.
Definition BRIDGE_VLAN_INFO_PVID : Z := BIT 1.
Definition BRIDGE_VLAN_INFO_UNTAGGED : Z := BIT 2.
Definition EEXIST : Z := 17.

(** [struct an8855_fdb] *)
Record an8855_fdb := Fdb {
  fdb_vid : Z; fdb_port_mask : Z; fdb_aging : Z; fdb_mac : list Z; fdb_noarp : bool;
  fdb_live : Z; fdb_type : Z; fdb_fid : Z; fdb_ivl : Z
}.

Section Driver.
Context {W : Type} {R : Regmap W}.

Abbreviation MA := (M (an8855_priv W)).

Definition on_map {A} (m : M W A) : MA A := fun s => let (r, w) := m (an_map s) in (r, with_map w s).
#[export] Instance priv_map : Regmap (an8855_priv W) := {|
  regmap_read reg := on_map (regmap_read reg);
  regmap_write reg val := on_map (regmap_write reg val);
  regmap_update_bits reg mask val := on_map (regmap_update_bits reg mask val);
  regmap_set_bits reg bits := on_map (regmap_set_bits reg bits);
  regmap_clear_bits reg bits := on_map (regmap_clear_bits reg bits);
  regmap_bulk_read reg n := on_map (regmap_bulk_read reg n);
  regmap_bulk_write reg l := on_map (regmap_bulk_write reg l);
  regmap_read_poll_timeout reg cond us timeout := on_map (regmap_read_poll_timeout reg cond us timeout)
|}.

Definition of_an {A} (f : an8855_priv W -> A) : MA A := fun s => (Ok (f s), s).

(** [mutex_lock(&priv->reg_mutex)], the body, [mutex_unlock] on every path. *)
Definition locked {A} (m : MA A) : MA A := fun s =>
  let (r, s') := m (with_mutex true s) in (r, with_mutex false s').

(** What the uninitialised variables of the functions hold. *)
Variable stack : Z -> Z.

Definition an8855_mib_init : MA unit :=
  regmap_write AN8855_MIB_CCR AN8855_CCR_MIB_ENABLE ;;
  regmap_write AN8855_MIB_CCR AN8855_CCR_MIB_ACTIVATE.

(** ** Addresses *)

Definition an8855_fdb_write (vid port_mask : Z) (mac : list Z) (add : bool) : MA unit :=
  let mac0 := FIELD_PREP AN8855_ATA1_MAC0 (geti 0 mac 0) .| FIELD_PREP AN8855_ATA1_MAC1 (geti 0 mac 1)
    .| FIELD_PREP AN8855_ATA1_MAC2 (geti 0 mac 2) .| FIELD_PREP AN8855_ATA1_MAC3 (geti 0 mac 3) in
  let mac1 := FIELD_PREP AN8855_ATA2_MAC4 (geti 0 mac 4) .| FIELD_PREP AN8855_ATA2_MAC5 (geti 0 mac 5) in
  ignore (regmap_bulk_write AN8855_ATA1 [mac0; mac1]) ;;
  let reg := AN8855_ATWD_IVL in
  let reg := if add then reg .| AN8855_ATWD_VLD else reg in
  let reg := reg .| FIELD_PREP AN8855_ATWD_VID vid in
  let reg := reg .| FIELD_PREP AN8855_ATWD_FID AN8855_FID_BRIDGED in
  ignore (regmap_write AN8855_ATWD reg) ;;
  ignore (regmap_write AN8855_ATWD2 (FIELD_PREP AN8855_ATWD2_PORT port_mask)).

Definition an8855_fdb_read : MA an8855_fdb :=
  reg <- unchecked [stack 0; stack 1; stack 2; stack 3] (regmap_bulk_read AN8855_ATRD0 4) ;;
  let r i := geti 0 reg i in
  ret {| fdb_live := FIELD_GET AN8855_ATRD0_LIVE (r 0);
         fdb_type := FIELD_GET AN8855_ATRD0_TYPE (r 0);
         fdb_ivl := FIELD_GET AN8855_ATRD0_IVL (r 0);
         fdb_vid := FIELD_GET AN8855_ATRD0_VID (r 0);
         fdb_fid := FIELD_GET AN8855_ATRD0_FID (r 0);
         fdb_aging := FIELD_GET AN8855_ATRD1_AGING (r 1);
         fdb_port_mask := FIELD_GET AN8855_ATRD3_PORTMASK (r 3);
         fdb_mac := [FIELD_GET AN8855_ATRD2_MAC0 (r 2); FIELD_GET AN8855_ATRD2_MAC1 (r 2);
                     FIELD_GET AN8855_ATRD2_MAC2 (r 2); FIELD_GET AN8855_ATRD2_MAC3 (r 2);
                     FIELD_GET AN8855_ATRD1_MAC4 (r 1); FIELD_GET AN8855_ATRD1_MAC5 (r 1)];
         fdb_noarp := cbool (FIELD_GET AN8855_ATRD0_ARP (r 0)) |}.

(** [!(val & AN8855_ATC_BUSY)] *)
Definition atc_idle (val : Z) : bool := negb (cbool (Z.land val AN8855_ATC_BUSY)).

(** Returns [*rsp]. *)
Definition an8855_fdb_cmd (cmd : Z) : MA Z :=
  regmap_write AN8855_ATC (AN8855_ATC_BUSY .| cmd) ;;
  regmap_read_poll_timeout AN8855_ATC atc_idle 20 200000.

(** ** Port state *)

Definition an8855_port_stp_state_set (ds : dsa_switch) (port state : Z) : MA unit :=
  let '(stp_state, learning) :=
    if state =? BR_STATE_DISABLED then (AN8855_STP_DISABLED, false)
    else if state =? BR_STATE_BLOCKING then (AN8855_STP_BLOCKING, false)
    else if state =? BR_STATE_LISTENING then (AN8855_STP_LISTENING, false)
    else if state =? BR_STATE_LEARNING then (AN8855_STP_LEARNING, dp_learning ds port)
    else if state =? BR_STATE_FORWARDING then (AN8855_STP_FORWARDING, dp_learning ds port)
    else (AN8855_STP_FORWARDING, false) in
  ignore (regmap_update_bits (AN8855_SSP_P port) (AN8855_FID_PST_MASK AN8855_FID_BRIDGED)
            (AN8855_FID_PST_VAL AN8855_FID_BRIDGED stp_state)) ;;
  ignore (regmap_update_bits (AN8855_PSC_P port) AN8855_SA_DIS (if (learning : bool) then 0 else AN8855_SA_DIS)).

Definition an8855_port_fast_age (port : Z) : MA unit :=
  ignore (
    regmap_write AN8855_ATA2 AN8855_ATA2_TYPE ;;
    regmap_write AN8855_ATWD2 (FIELD_PREP AN8855_ATWD2_PORT (BIT port)) ;;
    an8855_fdb_cmd (AN8855_ATC_MAT AND8855_FDB_MAT_MAC_TYPE_PORT .| AN8855_FDB_FLUSH)).

Definition an8855_update_port_member (ds : dsa_switch) (port : Z) (bridge_dev : option Z) (join : bool) : MA unit :=
  map <- of_an port_isolated_map ;;
  let isolated := cbool (Z.land map (BIT port)) in
  port_mask <- each_acc (user_ports ds) 0 (fun index port_mask =>
    if index =? port then ret port_mask else
    if negb (dsa_port_offloads_bridge_dev ds index bridge_dev) then ret port_mask else
    let other_isolated := cbool (Z.land map (BIT index)) in
    (if join && negb (isolated && other_isolated)
     then regmap_set_bits (AN8855_PORTMATRIX_P index) (FIELD_PREP AN8855_USER_PORTMATRIX (BIT port))
     else regmap_clear_bits (AN8855_PORTMATRIX_P index) (FIELD_PREP AN8855_USER_PORTMATRIX (BIT port))) ;;
    ret (u32 (port_mask .| BIT index))) ;;
  regmap_update_bits (AN8855_PORTMATRIX_P port) AN8855_USER_PORTMATRIX (if join then port_mask else u32 (Z.lnot port_mask)).

Section BridgeFlags.
(** [linux/if_bridge.h] *)
Variables BR_LEARNING BR_FLOOD BR_MCAST_FLOOD BR_BCAST_FLOOD BR_ISOLATED : Z.

(** [mask] and [val] are the fields of [struct switchdev_brport_flags]. *)
Definition an8855_port_pre_bridge_flags (mask val : Z) : res unit :=
  if cbool (Z.ldiff mask (BR_LEARNING .| BR_FLOOD .| BR_MCAST_FLOOD .| BR_BCAST_FLOOD .| BR_ISOLATED)) then Err (- EINVAL) else Ok tt.

Definition an8855_port_bridge_flags (ds : dsa_switch) (port mask val : Z) : MA unit :=
  (if cbool (Z.land mask BR_LEARNING)
   then regmap_update_bits (AN8855_PSC_P port) AN8855_SA_DIS (if cbool (Z.land val BR_LEARNING) then 0 else AN8855_SA_DIS)
   else ret tt) ;;
  (if cbool (Z.land mask BR_FLOOD)
   then regmap_update_bits AN8855_UNUF (BIT port) (if cbool (Z.land val BR_FLOOD) then BIT port else 0)
   else ret tt) ;;
  (if cbool (Z.land mask BR_MCAST_FLOOD)
   then regmap_update_bits AN8855_UNMF (BIT port) (if cbool (Z.land val BR_MCAST_FLOOD) then BIT port else 0) ;;
        regmap_update_bits AN8855_UNIPMF (BIT port) (if cbool (Z.land val BR_MCAST_FLOOD) then BIT port else 0)
   else ret tt) ;;
  (if cbool (Z.land mask BR_BCAST_FLOOD)
   then regmap_update_bits AN8855_BCF (BIT port) (if cbool (Z.land val BR_BCAST_FLOOD) then BIT port else 0)
   else ret tt) ;;
  (if cbool (Z.land mask BR_ISOLATED)
   then
     map <- of_an port_isolated_map ;;
     modify (with_isolated (if cbool (Z.land val BR_ISOLATED) then u8 (map .| BIT port) else u8 (Z.ldiff map (BIT port)))) ;;
     an8855_update_port_member ds port (dsa_port_bridge_dev_get ds port) true
   else ret tt).
End BridgeFlags.

Definition an8855_set_ageing_time (msecs : Z) : MA unit :=
  let val := msecs / AN8855_L2_AGING_MS_CONSTANT in
  let age_unit := val / FIELD_MAX AN8855_AGE_UNIT in
  let age_count := val / (age_unit + 1) in
  regmap_update_bits AN8855_AAC (AN8855_AGE_CNT .| AN8855_AGE_UNIT)
    (FIELD_PREP AN8855_AGE_CNT age_count .| FIELD_PREP AN8855_AGE_UNIT age_unit).

Definition an8855_port_bridge_join (ds : dsa_switch) (port : Z) (bridge_dev : option Z) : MA unit :=
  an8855_update_port_member ds port bridge_dev true ;;
  regmap_update_bits (AN8855_PCR_P port) AN8855_PORT_VLAN (FIELD_PREP AN8855_PORT_VLAN AN8855_PORT_FALLBACK_MODE).

Definition an8855_port_bridge_leave (ds : dsa_switch) (port : Z) (bridge_dev : option Z) : MA unit :=
  ignore (an8855_update_port_member ds port bridge_dev false) ;;
  ignore (regmap_update_bits (AN8855_PCR_P port) AN8855_PORT_VLAN (FIELD_PREP AN8855_PORT_VLAN AN8855_PORT_MATRIX_MODE)).

(** ** Forwarding entries *)

Definition an8855_port_fdb_add (port : Z) (addr : list Z) (vid : Z) : MA unit :=
  let port_mask := u8 (BIT port) in
  let vid := if negb (cbool vid) then AN8855_PORT_VID_DEFAULT else vid in
  locked (
    an8855_fdb_write vid port_mask addr true ;;
    an8855_fdb_cmd AN8855_FDB_WRITE ;; ret tt).

Definition an8855_port_fdb_del (port : Z) (addr : list Z) (vid : Z) : MA unit :=
  let port_mask := u8 (BIT port) in
  let vid := if negb (cbool vid) then AN8855_PORT_VID_DEFAULT else vid in
  locked (
    an8855_fdb_write vid port_mask addr false ;;
    an8855_fdb_cmd AN8855_FDB_WRITE ;; ret tt).

Section Dump.
(** [cb(mac, vid, noarp, data)]: an [int] and the data afterwards. *)
Context {D : Type}.
Variable cb : list Z -> Z -> bool -> D -> Z * D.

(** [ret], [count] and [data]. *)
Record dump_state := DumpState { dump_ret : Z; dump_count : Z; dump_data : D }.

(** One turn of the loop over the four entries of a bank; [inr] is [break]. *)
Definition dump_entry (banks i : Z) (d : dump_state) : MA (dump_state + dump_state) :=
  let d := DumpState (dump_ret d) (dump_count d + 1) (dump_data d) in
  if negb (cbool (Z.land banks (BIT i))) then ret (inl d) else
  r <- code (regmap_write AN8855_ATRDS (FIELD_PREP AN8855_ATRD_SEL i)) ;;
  let d := DumpState r (dump_count d) (dump_data d) in
  if cbool r then ret (inr d) else
  _fdb <- an8855_fdb_read ;;
  if negb (cbool (fdb_live _fdb)) then ret (inl d) else
  let (r, data) := cb (fdb_mac _fdb) (fdb_vid _fdb) (fdb_noarp _fdb) (dump_data d) in
  let d := DumpState r (dump_count d) data in
  if r <? 0 then ret (inr d) else ret (inl d).

(** [do ... while (true)], at most [fuel] times. *)
Fixpoint dump_banks (fuel : nat) (rsp : Z) (d : dump_state) : MA dump_state :=
  match fuel with
  | O => ret d
  | S fuel' =>
      let banks := FIELD_GET AN8855_ATC_HIT rsp in
      if negb (cbool banks) then ret d else
      e <- loop_while 4 0 d (dump_entry banks) ;;
      let d := match e with inl d => d | inr d => d end in
      if AN8855_NUM_FDB_RECORDS <=? dump_count d then ret d else
      r <- catch (an8855_fdb_cmd (AN8855_ATC_MAT AND8855_FDB_MAT_MAC_PORT .| AN8855_FDB_NEXT)) ;;
      match r with
      | Ok rsp' => dump_banks fuel' rsp' (DumpState 0 (dump_count d) (dump_data d))
      | Err err => ret (DumpState err (dump_count d) (dump_data d))
      end
  end.

(** The [int] returned and the data; every turn counts at least one record,
    so [AN8855_NUM_FDB_RECORDS] turns are enough. *)
Definition an8855_port_fdb_dump (port : Z) (data : D) : MA (Z * D) :=
  locked (
    r <- catch (
      regmap_write AN8855_ATWD2 (FIELD_PREP AN8855_ATWD2_PORT (BIT port)) ;;
      an8855_fdb_cmd (AN8855_ATC_MAT AND8855_FDB_MAT_MAC_PORT .| AN8855_FDB_START)) ;;
    match r with
    | Err err => ret (err, data)
    | Ok rsp =>
        d <- dump_banks (Z.to_nat AN8855_NUM_FDB_RECORDS) rsp (DumpState 0 0 data) ;;
        ret (dump_ret d, dump_data d)
    end).
End Dump.

(** ** VLANs *)

(** [!(val & AN8855_VTCR_BUSY)] *)
Definition vtcr_idle (val : Z) : bool := negb (cbool (Z.land val AN8855_VTCR_BUSY)).

Definition an8855_vlan_cmd (cmd vid : Z) : MA unit :=
  regmap_write AN8855_VTCR (AN8855_VTCR_BUSY .| FIELD_PREP AN8855_VTCR_FUNC cmd .| FIELD_PREP AN8855_VTCR_VID vid) ;;
  regmap_read_poll_timeout AN8855_VTCR vtcr_idle 20 200000 ;; ret tt.

Definition an8855_vlan_add (port vid : Z) (untagged : bool) : MA unit :=
  an8855_vlan_cmd AN8855_VTCR_RD_VID vid ;;
  val <- regmap_read AN8855_VARD0 ;;
  let port_mask := FIELD_GET AN8855_VA0_PORT val .| BIT port in
  let val := Z.land val AN8855_VA0_ETAG .| AN8855_VA0_IVL_MAC .| AN8855_VA0_VTAG_EN .| AN8855_VA0_VLAN_VALID
    .| FIELD_PREP AN8855_VA0_PORT port_mask .| FIELD_PREP AN8855_VA0_FID AN8855_FID_BRIDGED in
  regmap_write AN8855_VAWD0 val ;;
  regmap_write AN8855_VAWD1 0 ;;
  let val := if port =? AN8855_CPU_PORT then AN8855_VLAN_EGRESS_STACK
    else if untagged then AN8855_VLAN_EGRESS_UNTAG else AN8855_VLAN_EGRESS_TAG in
  regmap_update_bits AN8855_VAWD0 (AN8855_VA0_ETAG_PORT_MASK port) (AN8855_VA0_ETAG_PORT_VAL port val) ;;
  an8855_vlan_cmd AN8855_VTCR_WR_VID vid.

Definition an8855_vlan_del (port vid : Z) : MA unit :=
  an8855_vlan_cmd AN8855_VTCR_RD_VID vid ;;
  val <- regmap_read AN8855_VARD0 ;;
  let port_mask := Z.ldiff (FIELD_GET AN8855_VA0_PORT val) (BIT port) in
  if negb (cbool (Z.land val AN8855_VA0_VLAN_VALID)) then fail EINVAL else
  (if cbool port_mask
   then regmap_write AN8855_VAWD0 (Z.land val AN8855_VA0_ETAG .| AN8855_VA0_IVL_MAC .| AN8855_VA0_VTAG_EN .| AN8855_VA0_VLAN_VALID
          .| FIELD_PREP AN8855_VA0_PORT port_mask)
   else regmap_write AN8855_VAWD0 0) ;;
  regmap_write AN8855_VAWD1 0 ;;
  an8855_vlan_cmd AN8855_VTCR_WR_VID vid.

Definition an8855_port_set_vlan_mode (port port_mode eg_tag vlan_attr acc_frm : Z) : MA unit :=
  regmap_update_bits (AN8855_PCR_P port) AN8855_PORT_VLAN (FIELD_PREP AN8855_PORT_VLAN port_mode) ;;
  regmap_update_bits (AN8855_PVC_P port) (AN8855_PVC_EG_TAG .| AN8855_VLAN_ATTR .| AN8855_ACC_FRM)
    (FIELD_PREP AN8855_PVC_EG_TAG eg_tag .| FIELD_PREP AN8855_VLAN_ATTR vlan_attr .| FIELD_PREP AN8855_ACC_FRM acc_frm).

Definition an8855_port_set_pid (port pid : Z) : MA unit :=
  regmap_update_bits (AN8855_PPBV1_P port) AN8855_PPBV_G0_PORT_VID (FIELD_PREP AN8855_PPBV_G0_PORT_VID pid) ;;
  regmap_update_bits (AN8855_PVID_P port) AN8855_G0_PORT_VID (FIELD_PREP AN8855_G0_PORT_VID pid).

Definition an8855_port_vlan_filtering (ds : dsa_switch) (port : Z) (vlan_filtering : bool) : MA unit :=
  if vlan_filtering then
    an8855_port_set_vlan_mode AN8855_CPU_PORT AN8855_PORT_FALLBACK_MODE AN8855_VLAN_EG_CONSISTENT AN8855_VLAN_USER AN8855_VLAN_ACC_ALL ;;
    val <- regmap_read (AN8855_PVID_P port) ;;
    let acc_frm := if negb (FIELD_GET AN8855_G0_PORT_VID val =? AN8855_PORT_VID_DEFAULT)
      then AN8855_VLAN_ACC_TAGGED else AN8855_VLAN_ACC_ALL in
    an8855_port_set_vlan_mode port AN8855_PORT_SECURITY_MODE AN8855_VLAN_EG_DISABLED AN8855_VLAN_USER acc_frm
  else
    let port_mode := match dsa_port_bridge_dev_get ds port with
      | Some _ => AN8855_PORT_FALLBACK_MODE | None => AN8855_PORT_MATRIX_MODE end in
    an8855_port_set_vlan_mode port port_mode AN8855_VLAN_EG_CONSISTENT AN8855_VLAN_TRANSPARENT AN8855_VLAN_ACC_ALL ;;
    an8855_port_set_pid port AN8855_PORT_VID_DEFAULT ;;
    if negb (existsb (dsa_port_is_vlan_filtering ds) (user_ports ds)) then
      an8855_port_set_vlan_mode AN8855_CPU_PORT AN8855_PORT_MATRIX_MODE AN8855_VLAN_EG_CONSISTENT AN8855_VLAN_USER AN8855_VLAN_ACC_ALL
    else ret tt.

(** [vid] and [flags] are the fields of [struct switchdev_obj_port_vlan]. *)
Definition an8855_port_vlan_add (ds : dsa_switch) (port vid flags : Z) : MA unit :=
  let untagged := cbool (Z.land flags BRIDGE_VLAN_INFO_UNTAGGED) in
  let pvid := cbool (Z.land flags BRIDGE_VLAN_INFO_PVID) in
  locked (an8855_vlan_add (u8 port) vid untagged) ;;
  if pvid then
    ignore (regmap_update_bits (AN8855_PVC_P port) AN8855_ACC_FRM (FIELD_PREP AN8855_ACC_FRM AN8855_VLAN_ACC_ALL)) ;;
    if dsa_port_is_vlan_filtering ds port then an8855_port_set_pid port vid else ret tt
  else if cbool vid then
    val <- regmap_read (AN8855_PVID_P port) ;;
    if negb (FIELD_GET AN8855_G0_PORT_VID val =? vid) then ret tt else
    (if dsa_port_is_vlan_filtering ds port
     then regmap_update_bits (AN8855_PVC_P port) AN8855_ACC_FRM (FIELD_PREP AN8855_ACC_FRM AN8855_VLAN_ACC_TAGGED)
     else ret tt) ;;
    an8855_port_set_pid port AN8855_PORT_VID_DEFAULT
  else ret tt.

Definition an8855_port_vlan_del (ds : dsa_switch) (port vid : Z) : MA unit :=
  locked (an8855_vlan_del (u8 port) vid) ;;
  val <- regmap_read (AN8855_PVID_P port) ;;
  if FIELD_GET AN8855_G0_PORT_VID val =? vid then
    (if dsa_port_is_vlan_filtering ds port
     then regmap_update_bits (AN8855_PVC_P port) AN8855_ACC_FRM (FIELD_PREP AN8855_ACC_FRM AN8855_VLAN_ACC_TAGGED)
     else ret tt) ;;
    an8855_port_set_pid port AN8855_PORT_VID_DEFAULT
  else ret tt.

(** ** Multicast entries *)

(** The ports of the entry, 0 when the read command fails. *)
Definition mdb_ports : MA Z :=
  r <- catch (an8855_fdb_cmd AN8855_FDB_READ) ;;
  match r with
  | Ok _ => val <- regmap_read AN8855_ATRD3 ;; ret (u8 (FIELD_GET AN8855_ATRD3_PORTMASK val))
  | Err _ => ret 0
  end.

Definition an8855_port_mdb_add (port : Z) (addr : list Z) (vid : Z) : MA unit :=
  let vid := if negb (cbool vid) then AN8855_PORT_VID_DEFAULT else vid in
  locked (
    an8855_fdb_write vid 0 addr false ;;
    port_mask <- mdb_ports ;;
    an8855_fdb_write vid (u8 (port_mask .| BIT port)) addr true ;;
    an8855_fdb_cmd AN8855_FDB_WRITE ;; ret tt).

Definition an8855_port_mdb_del (port : Z) (addr : list Z) (vid : Z) : MA unit :=
  let vid := if negb (cbool vid) then AN8855_PORT_VID_DEFAULT else vid in
  locked (
    an8855_fdb_write vid 0 addr false ;;
    port_mask <- mdb_ports ;;
    let port_mask := u8 (Z.ldiff port_mask (BIT port)) in
    an8855_fdb_write vid port_mask addr (cbool port_mask) ;;
    an8855_fdb_cmd AN8855_FDB_WRITE ;; ret tt).

(** ** MTU *)

Definition an8855_port_change_mtu (ds : dsa_switch) (port new_mtu : Z) : MA unit :=
  if negb (dsa_is_cpu_port ds port) then ret tt else
  let length := new_mtu + ETH_HLEN + MTK_TAG_LEN + ETH_FCS_LEN in
  let val :=
    if length <=? 1522 then AN8855_MAX_RX_PKT_1518_1522
    else if length <=? 1536 then AN8855_MAX_RX_PKT_1536
    else if length <=? 1552 then AN8855_MAX_RX_PKT_1552
    else if length <=? 3072 then AN8855_MAX_RX_JUMBO_3K
    else if length <=? 4096 then AN8855_MAX_RX_JUMBO_4K
    else if length <=? 5120 then AN8855_MAX_RX_JUMBO_5K
    else if length <=? 6144 then AN8855_MAX_RX_JUMBO_6K
    else if length <=? 7168 then AN8855_MAX_RX_JUMBO_7K
    else if length <=? 8192 then AN8855_MAX_RX_JUMBO_8K
    else if length <=? 9216 then AN8855_MAX_RX_JUMBO_9K
    else if length <=? 12288 then AN8855_MAX_RX_JUMBO_12K
    else if length <=? 15360 then AN8855_MAX_RX_JUMBO_15K
    else AN8855_MAX_RX_JUMBO_16K in
  let val := if 1552 <? length then val .| AN8855_MAX_RX_PKT_JUMBO else val in
  regmap_update_bits AN8855_GMACCR (AN8855_MAX_RX_JUMBO .| AN8855_MAX_RX_PKT_LEN) val.

Definition an8855_port_max_mtu : Z := AN8855_MAX_MTU.
End Driver.
