(* ===== verification/An8855Setup.v ===== *)
(** * Counters, mirroring, set-up and probe of the AN8855 driver: [an8855.c] *)

From S2P Require Import Prelude CMonad Regmap An8855Regs An8855.

(** [an8855_rmon_ranges]: the frame lengths of the histogram, up to the end marker. *)
Definition an8855_rmon_ranges : list (Z * Z) :=
  [(0, 64); (65, 127); (128, 255); (256, 511); (512, 1023); (1024, 1518); (1519, AN8855_MAX_MTU); (0, 0)].

(** The fields of [struct ethtool_eth_mac_stats] the driver fills in. *)
Record ethtool_eth_mac_stats := MacStats {
  FramesTransmittedOK : Z; SingleCollisionFrames : Z; MultipleCollisionFrames : Z; FramesReceivedOK : Z;
  OctetsTransmittedOK : Z; AlignmentErrors : Z; FramesWithDeferredXmissions : Z; LateCollisions : Z;
  FramesAbortedDueToXSColls : Z; OctetsReceivedOK : Z; MulticastFramesXmittedOK : Z; BroadcastFramesXmittedOK : Z;
  MulticastFramesReceivedOK : Z; BroadcastFramesReceivedOK : Z
}.

(** Those of [struct ethtool_rmon_stats]. *)
Record ethtool_rmon_stats := RmonStats {
  undersize_pkts : Z; oversize_pkts : Z; fragments : Z; jabbers : Z; hist : list Z; hist_tx : list Z
}.

(** The registers of the histograms, in the order of the ranges. *)
Definition rx_hist_regs : list Z :=
  [AN8855_PORT_MIB_RX_PKT_SZ_64; AN8855_PORT_MIB_RX_PKT_SZ_65_TO_127; AN8855_PORT_MIB_RX_PKT_SZ_128_TO_255;
   AN8855_PORT_MIB_RX_PKT_SZ_256_TO_511; AN8855_PORT_MIB_RX_PKT_SZ_512_TO_1023; AN8855_PORT_MIB_RX_PKT_SZ_1024_TO_1518;
   AN8855_PORT_MIB_RX_PKT_SZ_1519_TO_MAX].
Definition tx_hist_regs : list Z :=
  [AN8855_PORT_MIB_TX_PKT_SZ_64; AN8855_PORT_MIB_TX_PKT_SZ_65_TO_127; AN8855_PORT_MIB_TX_PKT_SZ_128_TO_255;
   AN8855_PORT_MIB_TX_PKT_SZ_256_TO_511; AN8855_PORT_MIB_TX_PKT_SZ_512_TO_1023; AN8855_PORT_MIB_TX_PKT_SZ_1024_TO_1518;
   AN8855_PORT_MIB_TX_PKT_SZ_1519_TO_MAX].

(** What [an8855_setup] sets in [struct dsa_switch]. *)
Record dsa_settings := DsaSettings {
  configure_vlan_while_not_filtering : bool; ageing_time_min : Z; ageing_time_max : Z; assisted_learning_on_cpu_port : bool
}.

Section Driver.
Context {W : Type} {R : Regmap W}.

Abbreviation MA := (M (an8855_priv W)).

(** What the uninitialised variable of [an8855_read_port_stats] holds. *)
Variable stack : Z.

(** ** Counters *)

(** The [_n] entries [ETH_SS_STATS] has; [is_stats]: that is the set asked for. *)
Definition an8855_get_strings (is_stats : bool) : list string := if is_stats then map mib_name an8855_mib else [].
Definition an8855_get_sset_count (is_stats : bool) : Z := if is_stats then Z.of_nat (length an8855_mib) else 0.

Definition an8855_read_port_stats (port offset size : Z) : MA Z :=
  let reg := AN8855_PORT_MIB_COUNTER port + offset in
  val <- unchecked stack (regmap_read reg) ;;
  let data := val in
  if size =? 2 then
    val <- unchecked val (regmap_read (reg + 4)) ;;
    ret (data .| u64 (Z.shiftl val 32))
  else ret data.

Definition an8855_get_ethtool_stats (port : Z) : MA (list Z) :=
  each_acc an8855_mib [] (fun mib data =>
    v <- an8855_read_port_stats port (mib_offset mib) (mib_size mib) ;; ret (data ++ [v])).

Definition an8855_get_eth_mac_stats (port : Z) : MA ethtool_eth_mac_stats :=
  tx_ok <- an8855_read_port_stats port AN8855_PORT_MIB_TX_UNICAST 1 ;;
  single <- an8855_read_port_stats port AN8855_PORT_MIB_TX_SINGLE_COLLISION 1 ;;
  multiple <- an8855_read_port_stats port AN8855_PORT_MIB_TX_MULTIPLE_COLLISION 1 ;;
  rx_ok <- an8855_read_port_stats port AN8855_PORT_MIB_RX_UNICAST 1 ;;
  tx_octets <- an8855_read_port_stats port AN8855_PORT_MIB_TX_BYTES 2 ;;
  alignment <- an8855_read_port_stats port AN8855_PORT_MIB_RX_ALIGN_ERR 1 ;;
  deferred <- an8855_read_port_stats port AN8855_PORT_MIB_TX_DEFERRED 1 ;;
  late <- an8855_read_port_stats port AN8855_PORT_MIB_TX_LATE_COLLISION 1 ;;
  excessive <- an8855_read_port_stats port AN8855_PORT_MIB_TX_EXCESSIVE_COLLISION 1 ;;
  rx_octets <- an8855_read_port_stats port AN8855_PORT_MIB_RX_BYTES 2 ;;
  tx_multi <- an8855_read_port_stats port AN8855_PORT_MIB_TX_MULTICAST 1 ;;
  let tx_ok := u64 (tx_ok + tx_multi) in
  tx_broad <- an8855_read_port_stats port AN8855_PORT_MIB_TX_BROADCAST 1 ;;
  let tx_ok := u64 (tx_ok + tx_broad) in
  rx_multi <- an8855_read_port_stats port AN8855_PORT_MIB_RX_MULTICAST 1 ;;
  let rx_ok := u64 (rx_ok + rx_multi) in
  rx_broad <- an8855_read_port_stats port AN8855_PORT_MIB_RX_BROADCAST 1 ;;
  let rx_ok := u64 (rx_ok + rx_broad) in
  ret (MacStats tx_ok single multiple rx_ok tx_octets alignment deferred late excessive rx_octets tx_multi tx_broad rx_multi rx_broad).

Definition read_hist (port : Z) (regs : list Z) : MA (list Z) :=
  each_acc regs [] (fun reg h => v <- an8855_read_port_stats port reg 1 ;; ret (h ++ [v])).

Definition an8855_get_rmon_stats (port : Z) : MA (ethtool_rmon_stats * list (Z * Z)) :=
  under <- an8855_read_port_stats port AN8855_PORT_MIB_RX_UNDER_SIZE_ERR 1 ;;
  over <- an8855_read_port_stats port AN8855_PORT_MIB_RX_OVER_SZ_ERR 1 ;;
  frag <- an8855_read_port_stats port AN8855_PORT_MIB_RX_FRAG_ERR 1 ;;
  jabber <- an8855_read_port_stats port AN8855_PORT_MIB_RX_JABBER_ERR 1 ;;
  rx <- read_hist port rx_hist_regs ;;
  tx <- read_hist port tx_hist_regs ;;
  ret (RmonStats under over frag jabber rx tx, an8855_rmon_ranges).

(** [MACControlFramesTransmitted] and [MACControlFramesReceived]. *)
Definition an8855_get_eth_ctrl_stats (port : Z) : MA (Z * Z) :=
  tx <- an8855_read_port_stats port AN8855_PORT_MIB_TX_PAUSE 1 ;;
  rx <- an8855_read_port_stats port AN8855_PORT_MIB_RX_PAUSE 1 ;;
  ret (tx, rx).

(** ** Mirroring *)

Definition an8855_port_mirror_add (port to_local_port : Z) (ingress : bool) : MA unit :=
  mirrored <- of_an (if ingress then mirror_rx else mirror_tx) ;;
  if cbool (Z.land mirrored (BIT port)) then fail EEXIST else
  val <- regmap_read AN8855_MIR ;;
  let monitor_port := FIELD_GET AN8855_MIRROR_PORT val in
  if cbool (Z.land val AN8855_MIRROR_EN) && negb (monitor_port =? to_local_port) then fail EEXIST else
  let val := AN8855_MIRROR_EN .| FIELD_PREP AN8855_MIRROR_PORT to_local_port in
  regmap_update_bits AN8855_MIR (AN8855_MIRROR_EN .| AN8855_MIRROR_PORT) val ;;
  regmap_set_bits (AN8855_PCR_P port) (if ingress then AN8855_PORT_RX_MIR else AN8855_PORT_TX_MIR) ;;
  if ingress then modify (fun s => with_mirror_rx (u8 (mirror_rx s .| BIT port)) s)
  else modify (fun s => with_mirror_tx (u8 (mirror_tx s .| BIT port)) s).

Definition an8855_port_mirror_del (port : Z) (ingress : bool) : MA unit :=
  (if ingress then modify (fun s => with_mirror_rx (u8 (Z.ldiff (mirror_rx s) (BIT port))) s)
   else modify (fun s => with_mirror_tx (u8 (Z.ldiff (mirror_tx s) (BIT port))) s)) ;;
  ignore (regmap_clear_bits (AN8855_PCR_P port) (if ingress then AN8855_PORT_RX_MIR else AN8855_PORT_TX_MIR)) ;;
  rx <- of_an mirror_rx ;;
  tx <- of_an mirror_tx ;;
  if negb (cbool rx) && negb (cbool tx) then ignore (regmap_clear_bits AN8855_MIR AN8855_MIRROR_EN) else ret tt.

(** ** Ports *)

Definition an8855_port_set_status (port : Z) (enable : bool) : MA unit :=
  if enable then regmap_set_bits (AN8855_PMCR_P port) (AN8855_PMCR_TX_EN .| AN8855_PMCR_RX_EN)
  else regmap_clear_bits (AN8855_PMCR_P port) (AN8855_PMCR_TX_EN .| AN8855_PMCR_RX_EN).

Definition an8855_port_enable (port : Z) : MA unit := an8855_port_set_status port true.
Definition an8855_port_disable (port : Z) : MA unit := ignore (an8855_port_set_status port false).

Definition en8855_get_phy_flags : MA Z :=
  calib <- of_an phy_require_calib ;;
  ret (if negb calib then 0 else AN8855_PHY_FLAGS_EN_CALIBRATION).

(** ** Set-up *)

Definition an8855_trap_special_frames : MA unit :=
  regmap_update_bits AN8855_BPC (AN8855_BPDU_BPDU_FR .| AN8855_BPDU_EG_TAG .| AN8855_BPDU_PORT_FW)
    (AN8855_BPDU_BPDU_FR .| FIELD_PREP AN8855_BPDU_EG_TAG AN8855_VLAN_EG_UNTAGGED .| FIELD_PREP AN8855_BPDU_PORT_FW AN8855_BPDU_CPU_ONLY) ;;
  regmap_update_bits AN8855_PAC (AN8855_PAE_BPDU_FR .| AN8855_PAE_EG_TAG .| AN8855_PAE_PORT_FW)
    (AN8855_PAE_BPDU_FR .| FIELD_PREP AN8855_PAE_EG_TAG AN8855_VLAN_EG_UNTAGGED .| FIELD_PREP AN8855_PAE_PORT_FW AN8855_BPDU_CPU_ONLY) ;;
  regmap_update_bits AN8855_RGAC1 (AN8855_R01_BPDU_FR .| AN8855_R01_EG_TAG .| AN8855_R01_PORT_FW)
    (AN8855_R01_BPDU_FR .| FIELD_PREP AN8855_R01_EG_TAG AN8855_VLAN_EG_UNTAGGED .| FIELD_PREP AN8855_R01_PORT_FW AN8855_BPDU_CPU_ONLY) ;;
  regmap_update_bits AN8855_RGAC1 (AN8855_R02_BPDU_FR .| AN8855_R02_EG_TAG .| AN8855_R02_PORT_FW)
    (AN8855_R02_BPDU_FR .| FIELD_PREP AN8855_R02_EG_TAG AN8855_VLAN_EG_UNTAGGED .| FIELD_PREP AN8855_R02_PORT_FW AN8855_BPDU_CPU_ONLY) ;;
  regmap_update_bits AN8855_RGAC1 (AN8855_R03_BPDU_FR .| AN8855_R03_EG_TAG .| AN8855_R03_PORT_FW)
    (AN8855_R03_BPDU_FR .| FIELD_PREP AN8855_R03_EG_TAG AN8855_VLAN_EG_UNTAGGED .| FIELD_PREP AN8855_R03_PORT_FW AN8855_BPDU_CPU_ONLY) ;;
  regmap_update_bits AN8855_RGAC1 (AN8855_R0E_BPDU_FR .| AN8855_R0E_EG_TAG .| AN8855_R0E_PORT_FW)
    (AN8855_R0E_BPDU_FR .| FIELD_PREP AN8855_R0E_EG_TAG AN8855_VLAN_EG_UNTAGGED .| FIELD_PREP AN8855_R0E_PORT_FW AN8855_BPDU_CPU_ONLY).

Definition an8855_setup_pvid_vlan : MA unit :=
  regmap_write AN8855_VAWD0 (AN8855_VA0_IVL_MAC .| AN8855_VA0_EG_CON .| FIELD_PREP AN8855_VA0_FID AN8855_FID_BRIDGED
    .| AN8855_VA0_PORT .| AN8855_VA0_VLAN_VALID) ;;
  an8855_vlan_cmd AN8855_VTCR_WR_VID AN8855_PORT_VID_DEFAULT.

(** The body of the loop over the user ports. *)
Definition setup_user_port (index : Z) : MA unit :=
  an8855_port_set_status index false ;;
  regmap_write (AN8855_PORTMATRIX_P index) (FIELD_PREP AN8855_PORTMATRIX (BIT AN8855_CPU_PORT)) ;;
  regmap_clear_bits AN8855_BCF (BIT index) ;;
  regmap_clear_bits AN8855_UNUF (BIT index) ;;
  regmap_clear_bits AN8855_UNMF (BIT index) ;;
  regmap_clear_bits AN8855_UNIPMF (BIT index) ;;
  an8855_port_set_pid index AN8855_PORT_VID_DEFAULT.

(** From "Enable Airoha header mode" to the trap of special frames. *)
Definition setup_cpu_port (ds : dsa_switch) : MA unit :=
  regmap_write (AN8855_PVC_P AN8855_CPU_PORT) (AN8855_PORT_SPEC_REPLACE_MODE .| AN8855_PORT_SPEC_TAG) ;;
  regmap_write AN8855_UNMF (BIT AN8855_CPU_PORT) ;;
  regmap_update_bits AN8855_MFC (AN8855_CPU_EN .| AN8855_CPU_PORT_IDX) (AN8855_CPU_EN .| FIELD_PREP AN8855_CPU_PORT_IDX AN8855_CPU_PORT) ;;
  regmap_write (AN8855_PORTMATRIX_P AN8855_CPU_PORT) (FIELD_PREP AN8855_PORTMATRIX (dsa_user_ports ds)) ;;
  regmap_update_bits (AN8855_PCR_P AN8855_CPU_PORT) AN8855_PORT_VLAN (FIELD_PREP AN8855_PORT_VLAN AN8855_PORT_FALLBACK_MODE) ;;
  regmap_set_bits AN8855_BCF (BIT AN8855_CPU_PORT) ;;
  regmap_set_bits AN8855_UNUF (BIT AN8855_CPU_PORT) ;;
  regmap_set_bits AN8855_UNMF (BIT AN8855_CPU_PORT) ;;
  regmap_set_bits AN8855_UNIPMF (BIT AN8855_CPU_PORT) ;;
  an8855_trap_special_frames.

(** The body of the loop over all ports. *)
Definition setup_port (index : Z) : MA unit :=
  regmap_set_bits (AN8855_PSC_P index) AN8855_SA_DIS ;;
  regmap_update_bits (AN8855_PVC_P index) AN8855_PVC_EG_TAG (FIELD_PREP AN8855_PVC_EG_TAG AN8855_VLAN_EG_CONSISTENT).

Definition an8855_setup (ds : dsa_switch) : MA dsa_settings :=
  an8855_mib_init ;;
  each (user_ports ds) setup_user_port ;;
  setup_cpu_port ds ;;
  each (all_ports ds) setup_port ;;
  an8855_setup_pvid_vlan ;;
  regmap_clear_bits AN8855_CKGCR (AN8855_CKG_LNKDN_GLB_STOP .| AN8855_CKG_LNKDN_PORT_STOP) ;;
  regmap_write AN8855_RG_GPHY_AFE_PWD 0x0 ;;
  an8855_fdb_cmd AN8855_FDB_FLUSH ;;
  ret (DsaSettings true AN8855_L2_AGING_MS_CONSTANT
         (u32 (FIELD_MAX AN8855_AGE_CNT * FIELD_MAX AN8855_AGE_UNIT * AN8855_L2_AGING_MS_CONSTANT)) true).

(** ** Probe *)

Definition an8855_read_switch_id : MA unit :=
  id <- regmap_read AN8855_CREV ;;
  if negb (id =? AN8855_ID) then fail ENODEV else ret tt.

(** [reset_gpio]: the result of looking for the reset line, [Ok true] when
    there is one; [gpio_set]: setting it; [alloc] and [alloc_ds]: the
    allocations succeed; [register]: what registering the switch returns. *)
Definition an8855_switch_probe (alloc : bool) (ext_surge : bool) (reset_gpio : res bool) (gpio_set : bool -> W -> W)
    (alloc_ds : bool) (register : Z) (w : W) : res Z * option (an8855_priv W) :=
  if negb alloc then (Err (- ENOMEM), None) else
  let priv := AnPriv 0 0 0 ext_surge false w in
  match reset_gpio with
  | Err e => (Err e, Some priv)
  | Ok has_reset =>
      let m : MA Z :=
        (if has_reset then
           modify (fun s => with_map (gpio_set false (an_map s)) s) ;;
           modify (fun s => with_map (gpio_set true (an_map s)) s) ;;
           regmap_read_poll_timeout AN8855_HWTRAP cbool 20 200000 ;; ret tt
         else ret tt) ;;
        an8855_read_switch_id ;;
        if negb alloc_ds then fail ENOMEM else
        if register <? 0 then (fun s => (Err register, s)) else ret register in
      let (r, s) := m priv in (r, Some s)
  end.
End Driver.
