(* ===== verification/An8855Link.v ===== *)
(** * The link layer of the AN8855 driver: phylink and PCS operations of [an8855.c] *)

From S2P Require Import Prelude CMonad Regmap An8855Regs An8855.

(** [phy_interface_t], as far as the driver looks at it. *)
Inductive phy_interface_t : Type :=
| PHY_INTERFACE_MODE_GMII
| PHY_INTERFACE_MODE_INTERNAL
| PHY_INTERFACE_MODE_SGMII
| PHY_INTERFACE_MODE_2500BASEX
| PHY_INTERFACE_MODE_RGMII
| PHY_INTERFACE_MODE_other.
#[export] Instance phy_interface_eq : EqDecision phy_interface_t.
Proof. solve_decision. Defined.

(** [neg_mode] *)
Inductive pcs_neg_mode : Type :=
| PHYLINK_PCS_NEG_NONE
| PHYLINK_PCS_NEG_OUTBAND
| PHYLINK_PCS_NEG_INBAND_DISABLED
| PHYLINK_PCS_NEG_INBAND_ENABLED.
#[export] Instance pcs_neg_mode_eq : EqDecision pcs_neg_mode.
Proof. solve_decision. Defined.

(** [linux/ethtool.h], [linux/mii.h] *)
Definition SPEED_10 : Z := 10.
Definition SPEED_100 : Z := 100.
Definition SPEED_1000 : Z := 1000.
Definition SPEED_2500 : Z := 2500.
Definition SPEED_5000 : Z := 5000.
Definition SPEED_UNKNOWN : Z := -1.
Definition DUPLEX_FULL : Z := 1.
Definition BMCR_ANENABLE : Z := 0x1000.
Definition BMCR_ANRESTART : Z := 0x0200.

(** [struct phylink_link_state]; [duplex_full], [pause_rx] and [pause_tx] are
    its flags. *)
Record phylink_link_state := LinkState {
  ls_link : bool; ls_an_complete : bool; ls_duplex_full : bool; ls_speed : Z; ls_pause_rx : bool; ls_pause_tx : bool
}.

(** [config->supported_interfaces] of a port, for the ports there are. *)
Definition an8855_phylink_get_caps (port : Z) : list phy_interface_t :=
  if (0 <=? port) && (port <=? 4) then [PHY_INTERFACE_MODE_GMII; PHY_INTERFACE_MODE_INTERNAL]
  else if port =? 5 then [PHY_INTERFACE_MODE_RGMII; PHY_INTERFACE_MODE_SGMII; PHY_INTERFACE_MODE_2500BASEX]
  else [].

(** Whether the port has the PCS. *)
Definition an8855_phylink_mac_select_pcs (interface : phy_interface_t) : bool :=
  match interface with
  | PHY_INTERFACE_MODE_SGMII | PHY_INTERFACE_MODE_2500BASEX => true
  | _ => false
  end.

(** [LINK_INBAND_DISABLE] always, [LINK_INBAND_ENABLE] for the result [true]. *)
Definition an8855_pcs_inband_caps (interface : phy_interface_t) : bool := bool_decide (interface = PHY_INTERFACE_MODE_SGMII).

Section Driver.
Context {W : Type} {R : Regmap W}.

Abbreviation MA := (M (an8855_priv W)).

Definition an8855_phylink_mac_config (port : Z) : MA unit :=
  if negb (port =? 5) then ret tt else
  ignore (regmap_update_bits (AN8855_PMCR_P port)
    (AN8855_PMCR_IFG_XMIT .| AN8855_PMCR_MAC_MODE .| AN8855_PMCR_BACKOFF_EN .| AN8855_PMCR_BACKPR_EN)
    (FIELD_PREP AN8855_PMCR_IFG_XMIT 0x1 .| AN8855_PMCR_MAC_MODE .| AN8855_PMCR_BACKOFF_EN .| AN8855_PMCR_BACKPR_EN)).

(** [inband]: [phylink_autoneg_inband(mode)]. *)
Definition an8855_phylink_mac_link_down (port : Z) (inband : bool) : MA unit :=
  if inband then ignore (regmap_clear_bits (AN8855_PMCR_P port) (AN8855_PMCR_TX_EN .| AN8855_PMCR_RX_EN))
  else ignore (regmap_update_bits (AN8855_PMCR_P port)
    (AN8855_PMCR_TX_EN .| AN8855_PMCR_RX_EN .| AN8855_PMCR_FORCE_MODE .| AN8855_PMCR_FORCE_LNK) AN8855_PMCR_FORCE_MODE).

(** The value written; [None]: the speed is not supported. *)
Definition link_up_reg (reg : Z) (inband is_cpu : bool) (speed duplex : Z) (tx_pause rx_pause : bool) : option Z :=
  if inband then Some (Z.ldiff reg AN8855_PMCR_FORCE_MODE .| AN8855_PMCR_TX_EN .| AN8855_PMCR_RX_EN) else
  let reg := reg .| (AN8855_PMCR_FORCE_MODE .| AN8855_PMCR_FORCE_LNK) in
  let reg := Z.ldiff reg AN8855_PMCR_FORCE_SPEED in
  if speed =? SPEED_5000 then None else
  let reg :=
    if speed =? SPEED_10 then reg .| AN8855_PMCR_FORCE_SPEED_10
    else if speed =? SPEED_100 then reg .| AN8855_PMCR_FORCE_SPEED_100
    else if speed =? SPEED_1000 then reg .| AN8855_PMCR_FORCE_SPEED_1000
    else if speed =? SPEED_2500 then reg .| AN8855_PMCR_FORCE_SPEED_2500
    else reg in
  let reg := Z.ldiff reg AN8855_PMCR_FORCE_FDX in
  let reg := if duplex =? DUPLEX_FULL then reg .| AN8855_PMCR_FORCE_FDX else reg in
  let reg := Z.ldiff reg AN8855_PMCR_RX_FC_EN in
  let reg := if rx_pause || is_cpu then reg .| AN8855_PMCR_RX_FC_EN else reg in
  let reg := Z.ldiff reg AN8855_PMCR_TX_FC_EN in
  let reg := if rx_pause || is_cpu then reg .| AN8855_PMCR_TX_FC_EN else reg in
  let reg := Z.ldiff reg (AN8855_PMCR_FORCE_EEE5G .| AN8855_PMCR_FORCE_EEE2P5G .| AN8855_PMCR_FORCE_EEE1G .| AN8855_PMCR_FORCE_EEE100) in
  Some (reg .| (AN8855_PMCR_TX_EN .| AN8855_PMCR_RX_EN)).

(** [reg = regmap_read(..., &reg)]: the [int] returned, not the value read. *)
Definition an8855_phylink_mac_link_up (port : Z) (inband is_cpu : bool) (speed duplex : Z) (tx_pause rx_pause : bool) : MA unit :=
  err <- code (regmap_read (AN8855_PMCR_P port)) ;;
  let reg := u32 err in
  match link_up_reg reg inband is_cpu speed duplex tx_pause rx_pause with
  | None => ret tt
  | Some reg => ignore (regmap_write (AN8855_PMCR_P port) reg)
  end.

(** [state] as it comes in. *)
Definition an8855_pcs_get_state (state : phylink_link_state) : MA phylink_link_state :=
  r <- catch (regmap_read (AN8855_PMSR_P AN8855_CPU_PORT)) ;;
  match r with
  | Err _ => ret (LinkState false (ls_an_complete state) (ls_duplex_full state) (ls_speed state) (ls_pause_rx state) (ls_pause_tx state))
  | Ok val =>
      let link := cbool (Z.land val AN8855_PMSR_LNK) in
      let speed := Z.land val AN8855_PMSR_SPEED in
      ret (LinkState link link (cbool (Z.land val AN8855_PMSR_DPX))
        (if speed =? AN8855_PMSR_SPEED_10 then SPEED_10
         else if speed =? AN8855_PMSR_SPEED_100 then SPEED_100
         else if speed =? AN8855_PMSR_SPEED_1000 then SPEED_1000
         else if speed =? AN8855_PMSR_SPEED_2500 then SPEED_2500
         else SPEED_UNKNOWN)
        (ls_pause_rx state || cbool (Z.land val AN8855_PMSR_RX_FC))
        (ls_pause_tx state || cbool (Z.land val AN8855_PMSR_TX_FC)))
  end.

(** ** [an8855_pcs_config] *)

Section PcsConfig.
Variable interface : phy_interface_t.
Variable neg_mode : pcs_neg_mode.

Definition is_2500 : bool := bool_decide (interface = PHY_INTERFACE_MODE_2500BASEX).
Definition is_sgmii : bool := bool_decide (interface = PHY_INTERFACE_MODE_SGMII).
Definition inband_on : bool := bool_decide (neg_mode = PHYLINK_PCS_NEG_INBAND_ENABLED).
(** [interface == PHY_INTERFACE_MODE_2500BASEX ? a : b] *)
Definition pick (a b : Z) : Z := if is_2500 then a else b.

(** From "TX FIR" to "PLL". *)
Definition pcs_tx_fir : MA unit :=
  regmap_update_bits AN8855_INTF_CTRL_10
    (AN8855_RG_DA_QP_TX_FIR_C2_SEL .| AN8855_RG_DA_QP_TX_FIR_C2_FORCE .| AN8855_RG_DA_QP_TX_FIR_C1_SEL .| AN8855_RG_DA_QP_TX_FIR_C1_FORCE)
    (AN8855_RG_DA_QP_TX_FIR_C2_SEL .| FIELD_PREP AN8855_RG_DA_QP_TX_FIR_C2_FORCE 0x4 .| AN8855_RG_DA_QP_TX_FIR_C1_SEL
      .| FIELD_PREP AN8855_RG_DA_QP_TX_FIR_C1_FORCE 0x0) ;;
  regmap_update_bits AN8855_INTF_CTRL_11 (AN8855_RG_DA_QP_TX_FIR_C0B_SEL .| AN8855_RG_DA_QP_TX_FIR_C0B_FORCE)
    (AN8855_RG_DA_QP_TX_FIR_C0B_SEL .| FIELD_PREP AN8855_RG_DA_QP_TX_FIR_C0B_FORCE (pick 0x0 0xd)) ;;
  regmap_update_bits AN8855_RG_QP_CDR_LPF_BOT_LIM (AN8855_RG_QP_CDR_LPF_KP_GAIN .| AN8855_RG_QP_CDR_LPF_KI_GAIN)
    (FIELD_PREP AN8855_RG_QP_CDR_LPF_KP_GAIN (pick 0x5 0x6) .| FIELD_PREP AN8855_RG_QP_CDR_LPF_KI_GAIN (pick 0x5 0x6)).

(** The writes to [AN8855_PLL_CTRL_2] and what lies between them. *)
Definition pcs_pll : MA unit :=
  regmap_update_bits AN8855_QP_DIG_MODE_CTRL_1 AN8855_RG_TPHY_SPEED (FIELD_PREP AN8855_RG_TPHY_SPEED (pick 0x1 0x0)) ;;
  regmap_update_bits AN8855_PLL_CTRL_2
    (AN8855_RG_DA_QP_PLL_RICO_SEL_INTF .| AN8855_RG_DA_QP_PLL_FBKSEL_INTF .| AN8855_RG_DA_QP_PLL_BR_INTF
      .| AN8855_RG_DA_QP_PLL_BPD_INTF .| AN8855_RG_DA_QP_PLL_BPA_INTF .| AN8855_RG_DA_QP_PLL_BC_INTF)
    (AN8855_RG_DA_QP_PLL_RICO_SEL_INTF .| FIELD_PREP AN8855_RG_DA_QP_PLL_FBKSEL_INTF 0x0 .| FIELD_PREP AN8855_RG_DA_QP_PLL_BR_INTF 0x3
      .| FIELD_PREP AN8855_RG_DA_QP_PLL_BPD_INTF 0x0 .| FIELD_PREP AN8855_RG_DA_QP_PLL_BPA_INTF 0x5 .| FIELD_PREP AN8855_RG_DA_QP_PLL_BC_INTF 0x1) ;;
  regmap_set_bits AN8855_PLL_CTRL_4 AN8855_RG_DA_QP_PLL_ICOLP_EN_INTF ;;
  regmap_clear_bits AN8855_PLL_CTRL_2 AN8855_RG_DA_QP_PLL_ICOIQ_EN_INTF ;;
  regmap_update_bits AN8855_PLL_CTRL_2 AN8855_RG_DA_QP_PLL_IR_INTF (FIELD_PREP AN8855_RG_DA_QP_PLL_IR_INTF (pick 0x6 0x4)) ;;
  regmap_update_bits AN8855_PLL_CTRL_2
    (AN8855_RG_DA_QP_PLL_PFD_OFFSET_EN_INTRF .| AN8855_RG_DA_QP_PLL_PFD_OFFSET_INTF .| AN8855_RG_DA_QP_PLL_KBAND_PREDIV_INTF)
    (FIELD_PREP AN8855_RG_DA_QP_PLL_PFD_OFFSET_INTF 0x1 .| FIELD_PREP AN8855_RG_DA_QP_PLL_KBAND_PREDIV_INTF 0x1) ;;
  regmap_update_bits AN8855_PLL_CTRL_2
    (AN8855_RG_DA_QP_PLL_POSTDIV_EN_INTF .| AN8855_RG_DA_QP_PLL_PHY_CK_EN_INTF .| AN8855_RG_DA_QP_PLL_PCK_SEL_INTF)
    AN8855_RG_DA_QP_PLL_PCK_SEL_INTF ;;
  regmap_update_bits AN8855_PLL_CTRL_2 AN8855_RG_DA_QP_PLL_SDM_HREN_INTF (FIELD_PREP AN8855_RG_DA_QP_PLL_SDM_HREN_INTF 0x0) ;;
  regmap_clear_bits AN8855_PLL_CTRL_2 AN8855_RG_DA_QP_PLL_SDM_IFM_INTF.

(** From [AN8855_SS_LCPLL_PWCTL_SETTING_2] to "TX Init". *)
Definition pcs_lcpll : MA unit :=
  regmap_update_bits AN8855_SS_LCPLL_PWCTL_SETTING_2 AN8855_RG_NCPO_ANA_MSB (FIELD_PREP AN8855_RG_NCPO_ANA_MSB 0x1) ;;
  regmap_write AN8855_SS_LCPLL_TDC_FLT_2 (FIELD_PREP AN8855_RG_LCPLL_NCPO_VALUE (pick 0x7a000000 0x48000000)) ;;
  regmap_write AN8855_SS_LCPLL_TDC_PCW_1 (FIELD_PREP AN8855_RG_LCPLL_PON_HRDDS_PCW_NCPO_GPON (pick 0x7a000000 0x48000000)) ;;
  regmap_clear_bits AN8855_SS_LCPLL_TDC_FLT_5 AN8855_RG_LCPLL_NCPO_CHG ;;
  regmap_clear_bits AN8855_PLL_CK_CTRL_0 AN8855_RG_DA_QP_PLL_SDM_DI_EN_INTF ;;
  regmap_update_bits AN8855_PLL_CTRL_3 AN8855_RG_DA_QP_PLL_SSC_DELTA_INTF (FIELD_PREP AN8855_RG_DA_QP_PLL_SSC_DELTA_INTF 0x0) ;;
  regmap_update_bits AN8855_PLL_CTRL_4 AN8855_RG_DA_QP_PLL_SSC_DIR_DLY_INTF (FIELD_PREP AN8855_RG_DA_QP_PLL_SSC_DIR_DLY_INTF 0x0) ;;
  regmap_update_bits AN8855_PLL_CTRL_3 AN8855_RG_DA_QP_PLL_SSC_PERIOD_INTF (FIELD_PREP AN8855_RG_DA_QP_PLL_SSC_PERIOD_INTF 0x0) ;;
  regmap_clear_bits AN8855_PLL_CK_CTRL_0 AN8855_RG_DA_QP_PLL_TDC_TXCK_SEL_INTF ;;
  regmap_set_bits AN8855_RG_QP_PLL_SDM_ORD AN8855_RG_QP_PLL_SSC_TRI_EN ;;
  regmap_set_bits AN8855_RG_QP_PLL_SDM_ORD AN8855_RG_QP_PLL_SSC_PHASE_INI ;;
  regmap_update_bits AN8855_RG_QP_RX_DAC_EN AN8855_RG_QP_SIGDET_HF (FIELD_PREP AN8855_RG_QP_SIGDET_HF 0x2) ;;
  regmap_clear_bits AN8855_PON_RXFEDIG_CTRL_0 AN8855_RG_QP_EQ_RX500M_CK_SEL.

(** "TX Init" and "RX Control/Init". *)
Definition pcs_rx : MA unit :=
  regmap_update_bits AN8855_RG_QP_TX_MODE (AN8855_RG_QP_TX_RESERVE .| AN8855_RG_QP_TX_MODE_16B_EN)
    (FIELD_PREP AN8855_RG_QP_TX_RESERVE (pick 0x4 0x0)) ;;
  regmap_set_bits AN8855_RG_QP_RXAFE_RESERVE AN8855_RG_QP_CDR_PD_10B_EN ;;
  regmap_update_bits AN8855_RG_QP_CDR_LPF_MJV_LIM AN8855_RG_QP_CDR_LPF_RATIO (FIELD_PREP AN8855_RG_QP_CDR_LPF_RATIO (pick 0x1 0x2)) ;;
  regmap_update_bits AN8855_RG_QP_CDR_LPF_SETVALUE (AN8855_RG_QP_CDR_PR_BUF_IN_SR .| AN8855_RG_QP_CDR_PR_BETA_SEL)
    (FIELD_PREP AN8855_RG_QP_CDR_PR_BUF_IN_SR 0x6 .| FIELD_PREP AN8855_RG_QP_CDR_PR_BETA_SEL 0x1) ;;
  regmap_update_bits AN8855_RG_QP_CDR_PR_CKREF_DIV1 AN8855_RG_QP_CDR_PR_DAC_BAND (FIELD_PREP AN8855_RG_QP_CDR_PR_DAC_BAND (pick 0xf 0xc)) ;;
  regmap_update_bits AN8855_RG_QP_CDR_PR_KBAND_DIV_PCIE
    (AN8855_RG_QP_CDR_PR_KBAND_PCIE_MODE .| AN8855_RG_QP_CDR_PR_KBAND_DIV_PCIE_MASK)
    (FIELD_PREP AN8855_RG_QP_CDR_PR_KBAND_DIV_PCIE_MASK 0x19) ;;
  regmap_update_bits AN8855_RG_QP_CDR_FORCE_IBANDLPF_R_OFF
    (AN8855_RG_QP_CDR_PHYCK_SEL .| AN8855_RG_QP_CDR_PHYCK_RSTB .| AN8855_RG_QP_CDR_PHYCK_DIV)
    (FIELD_PREP AN8855_RG_QP_CDR_PHYCK_SEL 0x2 .| FIELD_PREP AN8855_RG_QP_CDR_PHYCK_DIV 0x21) ;;
  regmap_clear_bits AN8855_RG_QP_CDR_PR_KBAND_DIV_PCIE AN8855_RG_QP_CDR_PR_XFICK_EN ;;
  regmap_update_bits AN8855_RG_QP_CDR_PR_CKREF_DIV1 AN8855_RG_QP_CDR_PR_KBAND_DIV (FIELD_PREP AN8855_RG_QP_CDR_PR_KBAND_DIV 0x4) ;;
  regmap_update_bits AN8855_RX_CTRL_26 (AN8855_RG_QP_EQ_RETRAIN_ONLY_EN .| AN8855_RG_LINK_NE_EN .| AN8855_RG_LINK_ERRO_EN)
    (AN8855_RG_QP_EQ_RETRAIN_ONLY_EN .| AN8855_RG_LINK_ERRO_EN) ;;
  regmap_update_bits AN8855_RX_DLY_0 (AN8855_RG_QP_RX_SAOSC_EN_H_DLY .| AN8855_RG_QP_RX_PI_CAL_EN_H_DLY)
    (FIELD_PREP AN8855_RG_QP_RX_SAOSC_EN_H_DLY 0x3f .| FIELD_PREP AN8855_RG_QP_RX_PI_CAL_EN_H_DLY 0x6f) ;;
  regmap_update_bits AN8855_RX_CTRL_42 AN8855_RG_QP_EQ_EN_DLY (FIELD_PREP AN8855_RG_QP_EQ_EN_DLY 0x150) ;;
  regmap_update_bits AN8855_RX_CTRL_2 AN8855_RG_QP_RX_EQ_EN_H_DLY (FIELD_PREP AN8855_RG_QP_RX_EQ_EN_H_DLY 0x150) ;;
  regmap_update_bits AN8855_PON_RXFEDIG_CTRL_9 AN8855_RG_QP_EQ_LEQOSC_DLYCNT (FIELD_PREP AN8855_RG_QP_EQ_LEQOSC_DLYCNT 0x1) ;;
  regmap_update_bits AN8855_RX_CTRL_8 (AN8855_RG_DA_QP_SAOSC_DONE_TIME .| AN8855_RG_DA_QP_LEQOS_EN_TIME)
    (FIELD_PREP AN8855_RG_DA_QP_SAOSC_DONE_TIME 0x200 .| FIELD_PREP AN8855_RG_DA_QP_LEQOS_EN_TIME 0xfff).

(** "Frequency meter". *)
Definition pcs_frequency_meter : MA unit :=
  regmap_update_bits AN8855_RX_CTRL_5 AN8855_RG_FREDET_CHK_CYCLE (FIELD_PREP AN8855_RG_FREDET_CHK_CYCLE (pick 0x10 0x28)) ;;
  regmap_update_bits AN8855_RX_CTRL_6 AN8855_RG_FREDET_GOLDEN_CYCLE (FIELD_PREP AN8855_RG_FREDET_GOLDEN_CYCLE 0x64) ;;
  regmap_update_bits AN8855_RX_CTRL_7 AN8855_RG_FREDET_TOLERATE_CYCLE (FIELD_PREP AN8855_RG_FREDET_TOLERATE_CYCLE 0x2710) ;;
  regmap_set_bits AN8855_PLL_CTRL_0 AN8855_RG_PHYA_AUTO_INIT.

(** "PCS Init" and "Rate Adaption". *)
Definition pcs_init : MA unit :=
  (if is_sgmii && bool_decide (neg_mode = PHYLINK_PCS_NEG_INBAND_DISABLED)
   then regmap_clear_bits AN8855_QP_DIG_MODE_CTRL_0 (AN8855_RG_SGMII_MODE .| AN8855_RG_SGMII_AN_EN)
   else ret tt) ;;
  regmap_clear_bits AN8855_RG_HSGMII_PCS_CTROL_1 AN8855_RG_TBI_10B_MODE ;;
  (if inband_on then
     regmap_set_bits AN8855_SGMII_REG_AN_FORCE_CL37 AN8855_RG_FORCE_AN_DONE ;;
     regmap_update_bits AN8855_SGMII_REG_AN_13 (AN8855_SGMII_REMOTE_FAULT_DIS .| AN8855_SGMII_IF_MODE)
       (AN8855_SGMII_REMOTE_FAULT_DIS .| FIELD_PREP AN8855_SGMII_IF_MODE 0xb)
   else ret tt) ;;
  (if is_2500 then regmap_clear_bits AN8855_RATE_ADP_P0_CTRL_0 AN8855_RG_P0_DIS_MII_MODE
   else
     (if inband_on then regmap_set_bits AN8855_MII_RA_AN_ENABLE AN8855_RG_P0_RA_AN_EN
      else
        regmap_update_bits AN8855_RG_AN_SGMII_MODE_FORCE (AN8855_RG_FORCE_CUR_SGMII_MODE .| AN8855_RG_FORCE_CUR_SGMII_SEL)
          AN8855_RG_FORCE_CUR_SGMII_SEL ;;
        regmap_clear_bits AN8855_RATE_ADP_P0_CTRL_0
          (AN8855_RG_P0_MII_RA_RX_EN .| AN8855_RG_P0_MII_RA_TX_EN .| AN8855_RG_P0_MII_RA_RX_MODE .| AN8855_RG_P0_MII_RA_TX_MODE)) ;;
     regmap_set_bits AN8855_RATE_ADP_P0_CTRL_0 AN8855_RG_P0_MII_MODE) ;;
  regmap_set_bits AN8855_RG_RATE_ADAPT_CTRL_0
    (AN8855_RG_RATE_ADAPT_RX_BYPASS .| AN8855_RG_RATE_ADAPT_TX_BYPASS .| AN8855_RG_RATE_ADAPT_RX_EN .| AN8855_RG_RATE_ADAPT_TX_EN).

(** From "Disable AN if not in autoneg" to the end. *)
Definition pcs_speed : MA unit :=
  regmap_update_bits AN8855_SGMII_REG_AN0 BMCR_ANENABLE (if inband_on then BMCR_ANENABLE else 0) ;;
  (if is_sgmii then
     if inband_on then regmap_set_bits AN8855_SGMII_REG_AN0 BMCR_ANRESTART
     else regmap_set_bits AN8855_PHY_RX_FORCE_CTRL_0 AN8855_RG_FORCE_TXC_SEL
   else ret tt) ;;
  (if is_2500 || negb inband_on then
     regmap_update_bits AN8855_SGMII_STS_CTRL_0 (AN8855_RG_LINK_MODE_P0 .| AN8855_RG_FORCE_SPD_MODE_P0)
       (pick AN8855_RG_LINK_MODE_P0_SPEED_2500 AN8855_RG_LINK_MODE_P0_SPEED_1000 .| AN8855_RG_FORCE_SPD_MODE_P0)
   else ret tt) ;;
  regmap_write AN8855_MSG_RX_LIK_STS_0
    (AN8855_RG_DPX_STS_P3 .| AN8855_RG_DPX_STS_P2 .| AN8855_RG_DPX_STS_P1 .| AN8855_RG_TXFC_STS_P0 .| AN8855_RG_RXFC_STS_P0
      .| AN8855_RG_DPX_STS_P0) ;;
  regmap_write AN8855_MSG_RX_LIK_STS_2
    (AN8855_RG_RXFC_AN_BYPASS_P3 .| AN8855_RG_RXFC_AN_BYPASS_P2 .| AN8855_RG_RXFC_AN_BYPASS_P1 .| AN8855_RG_TXFC_AN_BYPASS_P3
      .| AN8855_RG_TXFC_AN_BYPASS_P2 .| AN8855_RG_TXFC_AN_BYPASS_P1 .| AN8855_RG_DPX_AN_BYPASS_P3 .| AN8855_RG_DPX_AN_BYPASS_P2
      .| AN8855_RG_DPX_AN_BYPASS_P1 .| AN8855_RG_DPX_AN_BYPASS_P0).

Definition an8855_pcs_config : MA unit :=
  pcs_tx_fir ;; pcs_pll ;; pcs_lcpll ;; pcs_rx ;; pcs_frequency_meter ;; pcs_init ;; pcs_speed.
End PcsConfig.
End Driver.
