(* ===== verification/An8855Phy.v ===== *)
(** * The PHYs inside the AN8855: [air_an8855.c] *)

From S2P Require Import Prelude CMonad Regmap.

Definition AN8855_PHY_SELECT_PAGE : Z := 0x1f.
Definition AN8855_PHY_PAGE : Z := GENMASK 2 0.
Definition AN8855_PHY_PAGE_EXTENDED_1 : Z := FIELD_PREP AN8855_PHY_PAGE 0x1.
Definition AN8855_PHY_EXT_REG_14 : Z := 0x14.
Definition AN8855_PHY_EN_DOWN_SHIFT : Z := BIT 4.
Definition AN8855_PHY_R500HM_RSEL_TX_AB : Z := 0x174.
Definition AN8855_PHY_R50OHM_RSEL_TX_A : Z := GENMASK 14 8.
Definition AN8855_PHY_R50OHM_RSEL_TX_B : Z := GENMASK 6 0.
Definition AN8855_PHY_R500HM_RSEL_TX_CD : Z := 0x175.
Definition AN8855_PHY_R50OHM_RSEL_TX_C : Z := GENMASK 14 8.
Definition AN8855_PHY_R50OHM_RSEL_TX_D : Z := GENMASK 6 0.
Definition AN8855_SWITCH_EFUSE_R50O : Z := GENMASK 30 24.
Definition AN8855_PHY_TX_PAIR_DLY_SEL_GBE : Z := 0x013.
Definition AN8855_PHY_CR_DA_TX_PAIR_DELKAY_SEL_A_GBE : Z := GENMASK 14 12.
Definition AN8855_PHY_CR_DA_TX_PAIR_DELKAY_SEL_C_GBE : Z := GENMASK 6 4.
Definition AN8855_PHY_RXADC_CTRL : Z := 0x0d8.
Definition AN8855_PHY_RG_AD_SAMNPLE_PHSEL_A : Z := BIT 12.
Definition AN8855_PHY_RG_AD_SAMNPLE_PHSEL_C : Z := BIT 4.
Definition AN8855_PHY_RXADC_REV_0 : Z := 0x0d9.
Definition AN8855_PHY_RG_AD_RESERVE0_A : Z := GENMASK 15 8.
Definition AN8855_PHY_RXADC_REV_1 : Z := 0x0da.
Definition AN8855_PHY_RG_AD_RESERVE0_C : Z := GENMASK 15 8.
Definition AN8855_PHY_FLAGS_EN_CALIBRATION : Z := BIT 0.

(** [linux/mdio.h], [linux/ethtool.h] *)
Definition MDIO_MMD_VEND1 : Z := 30.
Definition DOWNSHIFT_DEV_DEFAULT_COUNT : Z := 0xff.
Definition DOWNSHIFT_DEV_DISABLE : Z := 0.
Definition EOPNOTSUPP : Z := 95.

Definition dsa_r50ohm_table : list Z := [
  127; 127; 127; 127; 127; 127; 127; 127; 127; 127;
  127; 127; 127; 127; 127; 127; 127; 126; 122; 117;
  112; 109; 104; 101;  97;  94;  90;  88;  84;  80;
  78;  74;  72;  68;  66;  64;  61;  58;  56;  53;
  51;  48;  47;  44;  42;  40;  38;  36;  34;  32;
  31;  28;  27;  24;  24;  22;  20;  18;  16;  16;
  14;  12;  11;   9].

(** What the driver uses of a PHY device and of its NVMEM cells. *)
Class PhyDevice (W : Type) := {
  phy_read_paged : Z -> Z -> M W Z;
  phy_modify_paged : Z -> Z -> Z -> Z -> M W unit;
  phy_write_mmd : Z -> Z -> Z -> M W unit;
  phy_modify_mmd : Z -> Z -> Z -> Z -> M W unit;
  nvmem_cell_read_u32 : string -> M W Z
}.

(** The index [i] with which the loop over the table ends. *)
Fixpoint r50ohm_index (l : list Z) (shift_sel : Z) (i : Z) : Z :=
  match l with
  | [] => i
  | x :: l' => if x =? shift_sel then i else r50ohm_index l' shift_sel (i + 1)
  end.

Definition r50ohm_val (val : Z) : Z :=
  let shift_sel := FIELD_GET AN8855_SWITCH_EFUSE_R50O val in
  let i := r50ohm_index dsa_r50ohm_table shift_sel 0 in
  if (i <? 8) || (Z.of_nat (length dsa_r50ohm_table) <=? i) then geti 0 dsa_r50ohm_table 25
  else geti 0 dsa_r50ohm_table (i - 8).

Section Driver.
Context {W : Type} {P : PhyDevice W}.

Definition en8855_get_r50ohm_val (calib_name : string) : M W Z :=
  val <- nvmem_cell_read_u32 calib_name ;; ret (r50ohm_val val).

(** Whether [phydev->priv] is set; [node]: the device has a node; [alloc]:
    the allocation succeeds. *)
Definition an8855_probe (node alloc : bool) : res bool :=
  if negb node then Ok false else if negb alloc then Err (- ENOMEM) else Ok true.

Definition an8855_get_downshift : M W Z :=
  val <- phy_read_paged AN8855_PHY_PAGE_EXTENDED_1 AN8855_PHY_EXT_REG_14 ;;
  ret (if cbool (Z.land val AN8855_PHY_EN_DOWN_SHIFT) then DOWNSHIFT_DEV_DEFAULT_COUNT else DOWNSHIFT_DEV_DISABLE).

Definition an8855_set_downshift (cnt : Z) : M W unit :=
  let ds := if negb (cnt =? DOWNSHIFT_DEV_DISABLE) then AN8855_PHY_EN_DOWN_SHIFT else 0 in
  phy_modify_paged AN8855_PHY_PAGE_EXTENDED_1 AN8855_PHY_EXT_REG_14 AN8855_PHY_EN_DOWN_SHIFT ds.

(** [priv]: the PHY has its structure; [dev_flags]: those of the device. *)
Definition an8855_config_init (priv : bool) (dev_flags : Z) : M W unit :=
  an8855_set_downshift DOWNSHIFT_DEV_DEFAULT_COUNT ;;
  (if priv && cbool (Z.land dev_flags AN8855_PHY_FLAGS_EN_CALIBRATION) then
     a <- en8855_get_r50ohm_val "tx_a" ;;
     b <- en8855_get_r50ohm_val "tx_b" ;;
     c <- en8855_get_r50ohm_val "tx_c" ;;
     d <- en8855_get_r50ohm_val "tx_d" ;;
     phy_modify_mmd MDIO_MMD_VEND1 AN8855_PHY_R500HM_RSEL_TX_AB (AN8855_PHY_R50OHM_RSEL_TX_A .| AN8855_PHY_R50OHM_RSEL_TX_B)
       (FIELD_PREP AN8855_PHY_R50OHM_RSEL_TX_A a .| FIELD_PREP AN8855_PHY_R50OHM_RSEL_TX_B b) ;;
     phy_modify_mmd MDIO_MMD_VEND1 AN8855_PHY_R500HM_RSEL_TX_CD (AN8855_PHY_R50OHM_RSEL_TX_C .| AN8855_PHY_R50OHM_RSEL_TX_D)
       (FIELD_PREP AN8855_PHY_R50OHM_RSEL_TX_C c .| FIELD_PREP AN8855_PHY_R50OHM_RSEL_TX_D d)
   else ret tt) ;;
  phy_write_mmd MDIO_MMD_VEND1 AN8855_PHY_TX_PAIR_DLY_SEL_GBE
    (FIELD_PREP AN8855_PHY_CR_DA_TX_PAIR_DELKAY_SEL_A_GBE 0x4 .| FIELD_PREP AN8855_PHY_CR_DA_TX_PAIR_DELKAY_SEL_C_GBE 0x4) ;;
  phy_write_mmd MDIO_MMD_VEND1 AN8855_PHY_RXADC_CTRL (AN8855_PHY_RG_AD_SAMNPLE_PHSEL_A .| AN8855_PHY_RG_AD_SAMNPLE_PHSEL_C) ;;
  phy_write_mmd MDIO_MMD_VEND1 AN8855_PHY_RXADC_REV_0 (FIELD_PREP AN8855_PHY_RG_AD_RESERVE0_A 0x1) ;;
  phy_write_mmd MDIO_MMD_VEND1 AN8855_PHY_RXADC_REV_1 (FIELD_PREP AN8855_PHY_RG_AD_RESERVE0_C 0x1).

(** [downshift]: the tunable asked for is [ETHTOOL_PHY_DOWNSHIFT]. *)
Definition an8855_get_tunable (downshift : bool) : M W Z := if downshift then an8855_get_downshift else fail EOPNOTSUPP.
Definition an8855_set_tunable (downshift : bool) (data : Z) : M W unit := if downshift then an8855_set_downshift data else fail EOPNOTSUPP.
End Driver.
