(* ===== verification/An8855Hw.v ===== *)
(** * What the AN8855 driver relies on of the switch

    A view of the switch (its configuration registers, its VLAN table and its
    addresses),
    the class [An8855Hw] of register maps behind which there is such a
    switch, and the rules to run the driver's code on one. *)

From S2P Require Import Prelude CMonad Regmap An8855Mfd An8855Regs An8855.

Record view := View {
  v_reg : Z -> Z;    (* configuration registers, and the word of a VLAN last fetched *)
  v_vlan : Z -> Z;   (* the word of a VLAN: the layout of [AN8855_VAWD0] *)
  v_fdb : Z -> Z -> Z    (* the ports of an address in a VLAN, 0 if there is no entry *)
}.

Definition upd {A} (f : Z -> A) (i : Z) (x : A) : Z -> A := fun j => if j =? i then x else f j.
Definition set_reg (a x : Z) (V : view) : view := View (upd (v_reg V) a x) (v_vlan V) (v_fdb V).
Definition set_vlan (vid x : Z) (V : view) : view := View (v_reg V) (upd (v_vlan V) vid x) (v_fdb V).
Definition set_fdb (mac vid ports : Z) (V : view) : view := View (v_reg V) (v_vlan V) (upd (v_fdb V) mac (upd (v_fdb V mac) vid ports)).

(** What a command on the addresses works on: the address, its VLAN and the
    ports, in the registers for them. *)
Definition fdb_mac_of (V : view) : Z := v_reg V AN8855_ATA1 * 65536 + Z.shiftr (v_reg V AN8855_ATA2) 16.
Definition fdb_vid_of (V : view) : Z := FIELD_GET AN8855_ATWD_VID (v_reg V AN8855_ATWD).
Definition fdb_ports_of (V : view) : Z :=
  if cbool (Z.land (v_reg V AN8855_ATWD) AN8855_ATWD_VLD) then FIELD_GET AN8855_ATWD2_PORT (v_reg V AN8855_ATWD2) else 0.

(** Registers that do more than to keep what is written: command registers,
    results of commands, status, counters, a bit that clears itself. *)
Definition special (a : Z) : bool :=
  existsb (Z.eqb a) [AN8855_ATC; AN8855_VTCR; AN8855_VARD0; AN8855_ATRD0; AN8855_ATRD0 + 4; AN8855_ATRD0 + 8; AN8855_ATRD3;
                     AN8855_SGMII_REG_AN0; AN8855_CREV; AN8855_HWTRAP]
  || existsb (fun p => a =? AN8855_PMSR_P p) (upto 6)
  || ((0x10214000 <=? a) && (a <? 0x10218000)).
Definition plain (a : Z) : bool := readable a && (a mod 4 =? 0) && negb (special a).

Class An8855Hw (W : Type) {R : Regmap W} := {
  shows : W -> view -> Prop;
  shows_range w V a : shows w V -> plain a = true -> 0 <= v_reg V a < 2 ^ 32;
  hw_read w V a Q : shows w V -> plain a = true ->
    (forall w', shows w' V -> Q (v_reg V a) w') -> wp (regmap_read a) Q never w;
  hw_write w V a x Q : shows w V -> plain a = true -> 0 <= x < 2 ^ 32 ->
    (forall w', shows w' (set_reg a x V) -> Q tt w') -> wp (regmap_write a x) Q never w;
  hw_update w V a mask val Q : shows w V -> plain a = true -> 0 <= mask < 2 ^ 32 -> 0 <= val < 2 ^ 32 ->
    (forall w' x, updated (v_reg V a) mask val x -> shows w' (set_reg a x V) -> Q tt w') ->
    wp (regmap_update_bits a mask val) Q never w;
  hw_set_bits w V a bits Q : shows w V -> plain a = true -> 0 <= bits < 2 ^ 32 ->
    (forall w', shows w' (set_reg a (v_reg V a .| bits) V) -> Q tt w') -> wp (regmap_set_bits a bits) Q never w;
  hw_clear_bits w V a bits Q : shows w V -> plain a = true -> 0 <= bits < 2 ^ 32 ->
    (forall w', shows w' (set_reg a (Z.ldiff (v_reg V a) bits) V) -> Q tt w') -> wp (regmap_clear_bits a bits) Q never w;
  (** Commands on the VLAN table. *)
  hw_vlan_fetch w V vid Q : shows w V -> 0 <= vid < 4096 ->
    (forall w', shows w' (set_reg AN8855_VARD0 (v_vlan V vid) V) -> Q tt w') ->
    wp (regmap_write AN8855_VTCR (AN8855_VTCR_BUSY .| FIELD_PREP AN8855_VTCR_FUNC AN8855_VTCR_RD_VID .| FIELD_PREP AN8855_VTCR_VID vid)) Q never w;
  hw_vlan_store w V vid Q : shows w V -> 0 <= vid < 4096 ->
    (forall w', shows w' (set_vlan vid (v_reg V AN8855_VAWD0) V) -> Q tt w') ->
    wp (regmap_write AN8855_VTCR (AN8855_VTCR_BUSY .| FIELD_PREP AN8855_VTCR_FUNC AN8855_VTCR_WR_VID .| FIELD_PREP AN8855_VTCR_VID vid)) Q never w;
  hw_vlan_idle w V Q : shows w V -> (forall v w', vtcr_idle v = true -> shows w' V -> Q v w') ->
    wp (regmap_read_poll_timeout AN8855_VTCR vtcr_idle 20 200000) Q never w;
  (** Commands on the addresses. *)
  hw_write2 w V a x y Q : shows w V -> plain a = true -> plain (a + 4) = true -> 0 <= x < 2 ^ 32 -> 0 <= y < 2 ^ 32 ->
    (forall w', shows w' (set_reg (a + 4) y (set_reg a x V)) -> Q tt w') -> wp (regmap_bulk_write a [x; y]) Q never w;
  hw_fdb_write w V Q : shows w V ->
    (forall w', shows w' (set_fdb (fdb_mac_of V) (fdb_vid_of V) (fdb_ports_of V) V) -> Q tt w') ->
    wp (regmap_write AN8855_ATC (AN8855_ATC_BUSY .| AN8855_FDB_WRITE)) Q never w;
  hw_fdb_read w V Q : shows w V ->
    (forall w', shows w' (set_reg AN8855_ATRD3 (v_fdb V (fdb_mac_of V) (fdb_vid_of V)) V) -> Q tt w') ->
    wp (regmap_write AN8855_ATC (AN8855_ATC_BUSY .| AN8855_FDB_READ)) Q never w;
  hw_fdb_idle w V Q : shows w V -> (forall v w', atc_idle v = true -> shows w' V -> Q v w') ->
    wp (regmap_read_poll_timeout AN8855_ATC atc_idle 20 200000) Q never w;
  (** Flushing drops entries of the address table. *)
  hw_fdb_flush w V Q : shows w V -> (forall w' f, shows w' (View (v_reg V) (v_vlan V) f) -> Q tt w') ->
    wp (regmap_write AN8855_ATC (AN8855_ATC_BUSY .| AN8855_FDB_FLUSH)) Q never w;
  hw_atrd3 w V Q : shows w V -> (forall w', shows w' V -> Q (v_reg V AN8855_ATRD3) w') -> wp (regmap_read AN8855_ATRD3) Q never w;
  hw_vard0 w V Q : shows w V -> (forall w', shows w' V -> Q (v_reg V AN8855_VARD0) w') ->
    wp (regmap_read AN8855_VARD0) Q never w
}.

Lemma upd_eq {A} (f : Z -> A) a x : upd f a x a = x.
Proof. unfold upd. rewrite Z.eqb_refl. reflexivity. Qed.

Lemma upd_ne {A} (f : Z -> A) a x b : b <> a -> upd f a x b = f b.
Proof. intros H. unfold upd. rewrite (proj2 (Z.eqb_neq b a) H). reflexivity. Qed.

Lemma reg_same a x V : v_reg (set_reg a x V) a = x.
Proof. apply upd_eq. Qed.

Lemma reg_other a x V b : b <> a -> v_reg (set_reg a x V) b = v_reg V b.
Proof. apply upd_ne. Qed.

(** ** The registers of a port *)

Lemma port_cases p : 0 <= p < 6 -> p = 0 \/ p = 1 \/ p = 2 \/ p = 3 \/ p = 4 \/ p = 5.
Proof. lia. Qed.

Lemma plain_ports : forallb (fun p =>
  forallb plain [AN8855_SSP_P p; AN8855_PCR_P p; AN8855_PSC_P p; AN8855_PVC_P p; AN8855_PPBV1_P p; AN8855_PORTMATRIX_P p;
                 AN8855_PVID_P p; AN8855_PMCR_P p]) (upto 6) = true.
Proof. vm_compute. reflexivity. Qed.

Lemma plain_port p a : 0 <= p < 6 ->
  In a [AN8855_SSP_P p; AN8855_PCR_P p; AN8855_PSC_P p; AN8855_PVC_P p; AN8855_PPBV1_P p; AN8855_PORTMATRIX_P p;
        AN8855_PVID_P p; AN8855_PMCR_P p] -> plain a = true.
Proof. intros Hp Ha. pose proof (forallb_upto 6 _ plain_ports p Hp) as H. apply (proj1 (forallb_forall _ _) H a Ha). Qed.

(** Decide [plain] of a register of the driver. *)
Ltac plain_solve :=
  lazymatch goal with
  | |- plain (_ + 4) = true => vm_compute; reflexivity
  | |- plain (_ ?p) = true => apply (plain_port p); [assumption || lia || (split; discriminate || reflexivity) | cbn [In]; tauto]
  | |- plain _ = true => vm_compute; reflexivity
  end.

(** The range of a constant or of a bit. *)
Lemma FIELD_PREP_range mask v : 0 <= mask < 2 ^ 32 -> 0 <= FIELD_PREP mask v < 2 ^ 32.
Proof. intros H. apply land_range; [lia | exact H]. Qed.

Lemma BIT_range32 p : 0 <= p < 32 -> 0 <= BIT p < 2 ^ 32.
Proof. intros H. apply BIT_range. exact H. Qed.

Lemma lor_range32 a b : 0 <= a < 2 ^ 32 -> 0 <= b < 2 ^ 32 -> 0 <= a .| b < 2 ^ 32.
Proof. apply lor_range. lia. Qed.

Lemma ldiff_range x m n : 0 <= n -> 0 <= x < 2 ^ n -> 0 <= Z.ldiff x m < 2 ^ n.
Proof.
  intros Hn H. replace (Z.ldiff x m) with (uwrap n (Z.ldiff x m)); [apply uwrap_range, Hn |].
  apply Z.bits_inj'. intros k Hk. rewrite testbit_uwrap, Z.ldiff_spec by lia. destruct (Z.ltb_spec k n); [reflexivity |].
  rewrite (testbit_high x n k) by lia. reflexivity.
Qed.

Lemma ldiff_range32 x m : 0 <= x < 2 ^ 32 -> 0 <= Z.ldiff x m < 2 ^ 32.
Proof. apply ldiff_range. lia. Qed.

Lemma land_range32 x m : 0 <= m < 2 ^ 32 -> 0 <= Z.land x m < 2 ^ 32.
Proof. apply land_range. lia. Qed.

(** Values within a mask. *)
Lemma ldiff_lor a b m : Z.ldiff a m = 0 -> Z.ldiff b m = 0 -> Z.ldiff (a .| b) m = 0.
Proof.
  intros Ha Hb. apply Z.bits_inj'. intros k Hk. apply (f_equal (fun z => Z.testbit z k)) in Ha, Hb.
  rewrite Z.ldiff_spec, Z.testbit_0_l in *. rewrite Z.lor_spec, andb_orb_distrib_l, Ha, Hb. reflexivity.
Qed.

Lemma ldiff_FIELD_PREP m v M : Z.ldiff m M = 0 -> Z.ldiff (FIELD_PREP m v) M = 0.
Proof.
  intros H. unfold FIELD_PREP. apply Z.bits_inj'. intros k Hk. apply (f_equal (fun z => Z.testbit z k)) in H.
  rewrite !Z.ldiff_spec, Z.testbit_0_l in *. rewrite Z.land_spec. destruct (Z.testbit m k), (Z.testbit M k); try discriminate;
    rewrite ?andb_false_r; reflexivity.
Qed.

Ltac within_solve := repeat (apply ldiff_lor || apply ldiff_FIELD_PREP); reflexivity.

Ltac range_solve :=
  first [ eassumption
        | split; [discriminate | reflexivity]
        | apply lor_range32; range_solve
        | apply FIELD_PREP_range; range_solve
        | apply land_range32; range_solve
        | apply BIT_range32; lia
        | apply u32_range
        | match goal with |- context [if ?b then _ else _] => destruct b; range_solve end
        | lia ].

(** ** Running the driver *)

Section Run.
Context {W : Type} {R : Regmap W} {HW : An8855Hw W}.

Implicit Types (s : an8855_priv W) (V : view).

(** The driver's own fields are those of [s0]; the switch shows [V]. *)
Definition at_view (s0 : an8855_priv W) V s : Prop := s = with_map (an_map s) s0 /\ shows (an_map s) V.

Lemma at_view_refl s V : shows (an_map s) V -> at_view s V s.
Proof. intros H. split; [destruct s; reflexivity | exact H]. Qed.

Lemma at_view_range s0 V s a : at_view s0 V s -> plain a = true -> 0 <= v_reg V a < 2 ^ 32.
Proof. intros [_ H]. eapply shows_range, H. Qed.

(** A map operation, seen from the driver. *)
Lemma wp_on_map {A} (m : M W A) (Q : A -> an8855_priv W -> Prop) s0 V s :
  at_view s0 V s -> wp m (fun a w => Q a (with_map w s)) never (an_map s) -> wp (on_map m) Q never s.
Proof. intros _. unfold wp, on_map. destruct (m (an_map s)) as [[a | e] w]; auto. Qed.

Lemma at_view_with s0 V V' s w : at_view s0 V s -> shows w V' -> at_view s0 V' (with_map w s).
Proof. intros [Hs _] Hw. split; [rewrite Hs; reflexivity | exact Hw]. Qed.

Lemma an_read s0 V s a (Q : Z -> an8855_priv W -> Prop) : at_view s0 V s -> plain a = true ->
  (forall s', at_view s0 V s' -> Q (v_reg V a) s') -> wp (regmap_read a) Q never s.
Proof.
  intros H Ha Hq. eapply wp_on_map; [exact H |]. eapply hw_read; [apply H | exact Ha |].
  intros w Hw. apply Hq. eapply at_view_with; eassumption.
Qed.

Lemma an_write s0 V s a x (Q : unit -> an8855_priv W -> Prop) : at_view s0 V s -> plain a = true -> 0 <= x < 2 ^ 32 ->
  (forall s', at_view s0 (set_reg a x V) s' -> Q tt s') -> wp (regmap_write a x) Q never s.
Proof.
  intros H Ha Hx Hq. eapply wp_on_map; [exact H |]. eapply hw_write; [apply H | exact Ha | exact Hx |].
  intros w Hw. apply Hq. eapply at_view_with; eassumption.
Qed.

Lemma an_update_any s0 V s a mask val (Q : unit -> an8855_priv W -> Prop) : at_view s0 V s -> plain a = true ->
  0 <= mask < 2 ^ 32 -> 0 <= val < 2 ^ 32 ->
  (forall s' x, updated (v_reg V a) mask val x -> at_view s0 (set_reg a x V) s' -> Q tt s') ->
  wp (regmap_update_bits a mask val) Q never s.
Proof.
  intros H Ha Hm Hv Hq. eapply wp_on_map; [exact H |]. eapply hw_update; [apply H | exact Ha | exact Hm | exact Hv |].
  intros w x Hx Hw. eapply Hq; [exact Hx |]. eapply at_view_with; eassumption.
Qed.

(** An update with a value within the mask. *)
Lemma an_update s0 V s a mask val (Q : unit -> an8855_priv W -> Prop) : at_view s0 V s -> plain a = true ->
  0 <= mask < 2 ^ 32 -> 0 <= val < 2 ^ 32 -> Z.ldiff val mask = 0 ->
  (forall s', at_view s0 (set_reg a (Z.ldiff (v_reg V a) mask .| val) V) s' -> Q tt s') ->
  wp (regmap_update_bits a mask val) Q never s.
Proof.
  intros H Ha Hm Hv Hd Hq. eapply an_update_any; [exact H | exact Ha | exact Hm | exact Hv |].
  intros s' x Hx. rewrite (updated_within _ _ _ _ Hx Hd). apply Hq.
Qed.

Lemma an_set_bits s0 V s a bits (Q : unit -> an8855_priv W -> Prop) : at_view s0 V s -> plain a = true -> 0 <= bits < 2 ^ 32 ->
  (forall s', at_view s0 (set_reg a (v_reg V a .| bits) V) s' -> Q tt s') -> wp (regmap_set_bits a bits) Q never s.
Proof.
  intros H Ha Hx Hq. eapply wp_on_map; [exact H |]. eapply hw_set_bits; [apply H | exact Ha | exact Hx |].
  intros w Hw. apply Hq. eapply at_view_with; eassumption.
Qed.

Lemma an_clear_bits s0 V s a bits (Q : unit -> an8855_priv W -> Prop) : at_view s0 V s -> plain a = true -> 0 <= bits < 2 ^ 32 ->
  (forall s', at_view s0 (set_reg a (Z.ldiff (v_reg V a) bits) V) s' -> Q tt s') -> wp (regmap_clear_bits a bits) Q never s.
Proof.
  intros H Ha Hx Hq. eapply wp_on_map; [exact H |]. eapply hw_clear_bits; [apply H | exact Ha | exact Hx |].
  intros w Hw. apply Hq. eapply at_view_with; eassumption.
Qed.

Lemma an_vard0 s0 V s (Q : Z -> an8855_priv W -> Prop) : at_view s0 V s ->
  (forall s', at_view s0 V s' -> Q (v_reg V AN8855_VARD0) s') -> wp (regmap_read AN8855_VARD0) Q never s.
Proof.
  intros H Hq. eapply wp_on_map; [exact H |]. eapply hw_vard0; [apply H |]. intros w Hw. apply Hq. eapply at_view_with; eassumption.
Qed.

Lemma an_vlan_fetch s0 V s vid (Q : unit -> an8855_priv W -> Prop) : at_view s0 V s -> 0 <= vid < 4096 ->
  (forall s', at_view s0 (set_reg AN8855_VARD0 (v_vlan V vid) V) s' -> Q tt s') -> wp (an8855_vlan_cmd AN8855_VTCR_RD_VID vid) Q never s.
Proof.
  intros H Hv Hq. apply wp_bind. eapply wp_on_map; [exact H |]. eapply hw_vlan_fetch; [apply H | exact Hv |]. intros w Hw.
  apply wp_bind. eapply wp_on_map; [eapply at_view_with; eassumption |]. eapply hw_vlan_idle; [exact Hw |]. intros v w' _ Hw'.
  apply wp_ret, Hq. eapply at_view_with; [eapply at_view_with |]; eassumption.
Qed.

Lemma an_vlan_store s0 V s vid (Q : unit -> an8855_priv W -> Prop) : at_view s0 V s -> 0 <= vid < 4096 ->
  (forall s', at_view s0 (set_vlan vid (v_reg V AN8855_VAWD0) V) s' -> Q tt s') -> wp (an8855_vlan_cmd AN8855_VTCR_WR_VID vid) Q never s.
Proof.
  intros H Hv Hq. apply wp_bind. eapply wp_on_map; [exact H |]. eapply hw_vlan_store; [apply H | exact Hv |]. intros w Hw.
  apply wp_bind. eapply wp_on_map; [eapply at_view_with; eassumption |]. eapply hw_vlan_idle; [exact Hw |]. intros v w' _ Hw'.
  apply wp_ret, Hq. eapply at_view_with; [eapply at_view_with |]; eassumption.
Qed.

(** The same for addresses. *)
Lemma an_write2 s0 V s a x y (Q : unit -> an8855_priv W -> Prop) : at_view s0 V s -> plain a = true -> plain (a + 4) = true ->
  0 <= x < 2 ^ 32 -> 0 <= y < 2 ^ 32 ->
  (forall s', at_view s0 (set_reg (a + 4) y (set_reg a x V)) s' -> Q tt s') -> wp (regmap_bulk_write a [x; y]) Q never s.
Proof.
  intros H Ha Ha' Hx Hy Hq. eapply wp_on_map; [exact H |]. eapply hw_write2; [apply H | exact Ha | exact Ha' | exact Hx | exact Hy |].
  intros w Hw. apply Hq. eapply at_view_with; eassumption.
Qed.

Lemma an_fdb_write s0 V s (Q : Z -> an8855_priv W -> Prop) : at_view s0 V s ->
  (forall v s', at_view s0 (set_fdb (fdb_mac_of V) (fdb_vid_of V) (fdb_ports_of V) V) s' -> Q v s') ->
  wp (an8855_fdb_cmd AN8855_FDB_WRITE) Q never s.
Proof.
  intros H Hq. apply wp_bind. eapply wp_on_map; [exact H |]. eapply hw_fdb_write; [apply H |]. intros w Hw.
  eapply wp_on_map; [eapply at_view_with; eassumption |]. eapply hw_fdb_idle; [exact Hw |]. intros v w' _ Hw'.
  apply Hq. eapply at_view_with; [eapply at_view_with |]; eassumption.
Qed.

Lemma an_fdb_read s0 V s (Q : Z -> an8855_priv W -> Prop) : at_view s0 V s ->
  (forall v s', at_view s0 (set_reg AN8855_ATRD3 (v_fdb V (fdb_mac_of V) (fdb_vid_of V)) V) s' -> Q v s') ->
  wp (an8855_fdb_cmd AN8855_FDB_READ) Q never s.
Proof.
  intros H Hq. apply wp_bind. eapply wp_on_map; [exact H |]. eapply hw_fdb_read; [apply H |]. intros w Hw.
  eapply wp_on_map; [eapply at_view_with; eassumption |]. eapply hw_fdb_idle; [exact Hw |]. intros v w' _ Hw'.
  apply Hq. eapply at_view_with; [eapply at_view_with |]; eassumption.
Qed.

Lemma an_fdb_flush s0 V s (Q : Z -> an8855_priv W -> Prop) : at_view s0 V s ->
  (forall v s' f, at_view s0 (View (v_reg V) (v_vlan V) f) s' -> Q v s') -> wp (an8855_fdb_cmd AN8855_FDB_FLUSH) Q never s.
Proof.
  intros H Hq. apply wp_bind. eapply wp_on_map; [exact H |]. eapply hw_fdb_flush; [apply H |]. intros w f Hw.
  eapply wp_on_map; [eapply at_view_with; eassumption |]. eapply hw_fdb_idle; [exact Hw |]. intros v w' _ Hw'.
  eapply Hq. eapply at_view_with; [eapply at_view_with |]; eassumption.
Qed.

Lemma an_atrd3 s0 V s (Q : Z -> an8855_priv W -> Prop) : at_view s0 V s ->
  (forall s', at_view s0 V s' -> Q (v_reg V AN8855_ATRD3) s') -> wp (regmap_read AN8855_ATRD3) Q never s.
Proof.
  intros H Hq. eapply wp_on_map; [exact H |]. eapply hw_atrd3; [apply H |]. intros w Hw. apply Hq. eapply at_view_with; eassumption.
Qed.

(** Under the lock. *)
Lemma wp_under_lock {A} (m : M (an8855_priv W) A) Q E s :
  wp m (fun a s' => Q a (with_mutex false s')) (fun e s' => E e (with_mutex false s')) (with_mutex true s) -> wp (locked m) Q E s.
Proof. unfold wp, locked. destruct (m (with_mutex true s)) as [[a | e] s']; auto. Qed.

Lemma an_locked {A} (m : M (an8855_priv W) A) (Q : A -> an8855_priv W -> Prop) s0 V s : at_view s0 V s -> reg_mutex s0 = false ->
  (forall s', at_view (with_mutex true s0) V s' -> wp m (fun a s2 => exists V', at_view (with_mutex true s0) V' s2 /\
     forall s3, at_view s0 V' s3 -> Q a s3) never s') ->
  wp (locked m) Q never s.
Proof.
  intros [Hs H] Hm Hq. unfold wp, locked. specialize (Hq (with_mutex true s)). unfold wp in Hq.
  destruct (m (with_mutex true s)) as [[a | e] s2].
  - destruct Hq as (V' & [Hs2 H2] & Hk); [split; [rewrite Hs; reflexivity | exact H] |]. apply Hk. split; [| exact H2].
    rewrite Hs2. destruct s0. cbn in *. subst. reflexivity.
  - destruct Hq; [split; [rewrite Hs; reflexivity | exact H]].
Qed.
End Run.
