(* ===== verification/An8855Stack.v ===== *)
(** * The AN8855 driver on its MDIO bus

    The driver of [An8855] over the register map of [An8855Mfd]: behind a
    chip whose registers work ([ChipHw]) the register map is what the driver
    relies on ([An8855Hw]), so every theorem about the driver holds down to
    the MDIO frames.  And a chip to try the theorems on. *)

From S2P Require Import Prelude CMonad Mdio Regmap An8855Mfd An8855MfdProps An8855Regs An8855 An8855Hw.

(** The registers of the chip: what they show, and the commands. *)
Class ChipHw (C : Type) {K : Core C} := {
  ch_shows : C -> view -> Prop;
  ch_range c V a : ch_shows c V -> plain a = true -> 0 <= v_reg V a < 2 ^ 32;
  ch_read c V a : ch_shows c V -> plain a = true -> fst (core_read a c) = v_reg V a /\ ch_shows (snd (core_read a c)) V;
  ch_write c V a x : ch_shows c V -> plain a = true -> 0 <= x < 2 ^ 32 -> ch_shows (core_write a x c) (set_reg a x V);
  ch_vlan_fetch c V vid : ch_shows c V -> 0 <= vid < 4096 ->
    ch_shows (core_write AN8855_VTCR (AN8855_VTCR_BUSY .| FIELD_PREP AN8855_VTCR_FUNC AN8855_VTCR_RD_VID .| FIELD_PREP AN8855_VTCR_VID vid) c)
             (set_reg AN8855_VARD0 (v_vlan V vid) V);
  ch_vlan_store c V vid : ch_shows c V -> 0 <= vid < 4096 ->
    ch_shows (core_write AN8855_VTCR (AN8855_VTCR_BUSY .| FIELD_PREP AN8855_VTCR_FUNC AN8855_VTCR_WR_VID .| FIELD_PREP AN8855_VTCR_VID vid) c)
             (set_vlan vid (v_reg V AN8855_VAWD0) V);
  ch_vlan_idle c V : ch_shows c V ->
    vtcr_idle (fst (core_read AN8855_VTCR c)) = true /\ ch_shows (snd (core_read AN8855_VTCR c)) V;
  ch_fdb_write c V : ch_shows c V ->
    ch_shows (core_write AN8855_ATC (AN8855_ATC_BUSY .| AN8855_FDB_WRITE) c) (set_fdb (fdb_mac_of V) (fdb_vid_of V) (fdb_ports_of V) V);
  ch_fdb_read c V : ch_shows c V ->
    ch_shows (core_write AN8855_ATC (AN8855_ATC_BUSY .| AN8855_FDB_READ) c) (set_reg AN8855_ATRD3 (v_fdb V (fdb_mac_of V) (fdb_vid_of V)) V);
  ch_fdb_flush c V : ch_shows c V ->
    exists f, ch_shows (core_write AN8855_ATC (AN8855_ATC_BUSY .| AN8855_FDB_FLUSH) c) (View (v_reg V) (v_vlan V) f);
  ch_fdb_idle c V : ch_shows c V -> atc_idle (fst (core_read AN8855_ATC c)) = true /\ ch_shows (snd (core_read AN8855_ATC c)) V;
  ch_atrd3 c V : ch_shows c V -> fst (core_read AN8855_ATRD3 c) = v_reg V AN8855_ATRD3 /\ ch_shows (snd (core_read AN8855_ATRD3 c)) V;
  ch_vard0 c V : ch_shows c V ->
    fst (core_read AN8855_VARD0 c) = v_reg V AN8855_VARD0 /\ ch_shows (snd (core_read AN8855_VARD0 c)) V
}.

Lemma plain_range a : plain a = true -> 0 <= a < 2 ^ 32.
Proof.
  unfold plain, readable. intros H. apply andb_prop in H as [H _]. apply andb_prop in H as [H _].
  apply existsb_exists in H as ([lo hi] & Hin & H). cbn [fst snd] in H. apply andb_prop in H as [H1 H2]. apply Z.leb_le in H1, H2.
  assert (B : forallb (fun r => (0 <=? fst r) && (snd r <? 2 ^ 32)) an8855_readable_ranges = true) by reflexivity.
  apply (proj1 (forallb_forall _ _) B) in Hin. cbn [fst snd] in Hin. lia.
Qed.

Section Stack.
Context {B C : Type} {MB : MiiBus B} {K : Core C} {PB : PbusHw B C} {CH : ChipHw C}.

Abbreviation MF := (M (an8855_mfd_priv B)).

(** A register map over the driver's hooks: it refuses what the
    configuration of the map rules out; [regmap_read_poll_timeout] reads as
    often as the time allows, at most once per interval. *)
Definition reg_checked {A} (reg : Z) (m : MF A) : MF A :=
  if negb (reg mod reg_stride =? 0) then fail EINVAL else if negb (readable reg) then fail 5 else m.

Fixpoint poll (n : nat) (reg : Z) (cond : Z -> bool) : MF Z :=
  v <- reg_checked reg (an8855_regmap_read reg) ;;
  if cond v then ret v else match n with O => fail 110 | S n' => poll n' reg cond end.

Fixpoint bulk_read (n : nat) (reg : Z) : MF (list Z) :=
  match n with
  | O => ret []
  | S n' => v <- reg_checked reg (an8855_regmap_read reg) ;; l <- bulk_read n' (reg + reg_stride) ;; ret (v :: l)
  end.

Fixpoint bulk_write (reg : Z) (l : list Z) : MF unit :=
  match l with
  | [] => ret tt
  | v :: l' => an8855_regmap_write reg v ;; bulk_write (reg + reg_stride) l'
  end.

#[export] Instance mfd_regmap : Regmap (an8855_mfd_priv B) := {|
  regmap_read reg := reg_checked reg (an8855_regmap_read reg);
  regmap_write reg val := an8855_regmap_write reg val;
  regmap_update_bits reg mask val := an8855_regmap_update_bits reg mask val;
  regmap_set_bits reg bits := an8855_regmap_update_bits reg bits bits;
  regmap_clear_bits reg bits := an8855_regmap_update_bits reg bits 0;
  regmap_bulk_read reg n := bulk_read (Z.to_nat n) reg;
  regmap_bulk_write reg l := bulk_write reg l;
  regmap_read_poll_timeout reg cond us timeout := poll (Z.to_nat (timeout / us)) reg cond
|}.

Definition mfd_shows (s : an8855_mfd_priv B) (V : view) : Prop := exists c, related s c /\ ch_shows c V.

Lemma stack_read s V a (Q : Z -> an8855_mfd_priv B -> Prop) : mfd_shows s V -> 0 <= a < 2 ^ 32 ->
  (a mod 4 =? 0) = true -> readable a = true ->
  (forall c s', ch_shows c V -> related s' (snd (core_read a c)) -> Q (fst (core_read a c)) s') ->
  wp (reg_checked a (an8855_regmap_read a)) Q never s.
Proof.
  intros (c & H & Hc) Ha Hs Hr Hq. unfold reg_checked. rewrite Hr. change reg_stride with 4. rewrite Hs. cbn [negb].
  eapply wp_regmap_read; [exact H | exact Ha |]. intros s' H'. apply (Hq c); assumption.
Qed.

Lemma stack_write s V a x (Q : unit -> an8855_mfd_priv B -> Prop) : mfd_shows s V -> 0 <= a < 2 ^ 32 -> 0 <= x < 2 ^ 32 ->
  (forall c s', ch_shows c V -> related s' (core_write a x c) -> Q tt s') -> wp (an8855_regmap_write a x) Q never s.
Proof. intros (c & H & Hc) Ha Hx Hq. eapply wp_regmap_write; [exact H | exact Ha | exact Hx |]. intros s' H'. apply (Hq c); assumption. Qed.

Lemma stack_update s V a mask val (Q : unit -> an8855_mfd_priv B -> Prop) : mfd_shows s V -> plain a = true ->
  0 <= mask < 2 ^ 32 -> 0 <= val < 2 ^ 32 ->
  (forall s', mfd_shows s' (set_reg a (Z.ldiff (v_reg V a) mask .| val) V) -> Q tt s') ->
  wp (an8855_regmap_update_bits a mask val) Q never s.
Proof.
  intros (c & H & Hc) Ha Hm Hv Hq. pose proof (plain_range a Ha) as Hr.
  eapply wp_regmap_update; [exact H | exact Hr | exact Hm | exact Hv |]. intros s' H'. apply Hq. unfold core_update in H'.
  destruct (ch_read c V a Hc Ha) as [E1 E2]. destruct (core_read a c) as [x c1]. cbn [fst snd] in *. subst x.
  eexists. split; [exact H' |]. apply ch_write; [exact E2 | exact Ha |]. apply rmw_range; [apply (ch_range c V a Hc Ha) | exact Hm | exact Hv].
Qed.

Lemma plain_checks a : plain a = true -> (a mod 4 =? 0) = true /\ readable a = true.
Proof. unfold plain. intros H. apply andb_prop in H as [H _]. apply andb_prop in H as [H1 H2]. auto. Qed.

Lemma stack_poll n s V a cond (Q : Z -> an8855_mfd_priv B -> Prop) : mfd_shows s V -> 0 <= a < 2 ^ 32 ->
  (a mod 4 =? 0) = true -> readable a = true ->
  (forall c s', ch_shows c V -> related s' (snd (core_read a c)) -> cond (fst (core_read a c)) = true /\ Q (fst (core_read a c)) s') ->
  wp (poll n a cond) Q never s.
Proof.
  intros H Ha Hs Hr Hq. destruct n; cbn [poll]; apply wp_bind; (eapply stack_read; [exact H | exact Ha | exact Hs | exact Hr |]);
    intros c s' Hc H'; destruct (Hq c s' Hc H') as [-> Hq']; apply wp_ret, Hq'.
Qed.

Lemma vtcr_word_range f vid : 0 <= AN8855_VTCR_BUSY .| FIELD_PREP AN8855_VTCR_FUNC f .| FIELD_PREP AN8855_VTCR_VID vid < 2 ^ 32.
Proof. range_solve. Qed.

Lemma set_bits_or x b : Z.ldiff x b .| b = x .| b.
Proof. apply Z.bits_inj'. intros k Hk. rewrite !Z.lor_spec, Z.ldiff_spec. destruct (Z.testbit x k), (Z.testbit b k); reflexivity. Qed.

#[export] Instance mfd_hw : An8855Hw (an8855_mfd_priv B).
Proof.
  refine {| shows := mfd_shows |}; cbn [regmap_read regmap_write regmap_update_bits regmap_set_bits regmap_clear_bits regmap_bulk_write regmap_read_poll_timeout mfd_regmap].
  - intros w V a (c & _ & Hc). apply (ch_range c V a Hc).
  - intros w V a Q H Ha Hq. destruct (plain_checks a Ha) as [Hs Hr]. eapply stack_read; [exact H | apply plain_range, Ha | exact Hs | exact Hr |].
    intros c s' Hc H'. destruct (ch_read c V a Hc Ha) as [-> E]. apply Hq. eexists. split; [exact H' | exact E].
  - intros w V a x Q H Ha Hx Hq. eapply stack_write; [exact H | apply plain_range, Ha | exact Hx |].
    intros c s' Hc H'. apply Hq. eexists. split; [exact H' | apply ch_write; assumption].
  - intros w V a mask val Q H Ha Hm Hv Hq. eapply stack_update; [exact H | exact Ha | exact Hm | exact Hv |].
    intros s' H'. eapply Hq; [| exact H']. apply updated_or.
  - intros w V a bits Q H Ha Hb Hq. eapply stack_update; [exact H | exact Ha | exact Hb | exact Hb |].
    intros s'. rewrite set_bits_or. apply Hq.
  - intros w V a bits Q H Ha Hb Hq. eapply stack_update; [exact H | exact Ha | exact Hb | lia |].
    intros s'. rewrite Z.lor_0_r. apply Hq.
  - intros w V vid Q H Hv Hq. eapply stack_write; [exact H | split; discriminate || reflexivity | apply vtcr_word_range |].
    intros c s' Hc H'. apply Hq. eexists. split; [exact H' | apply ch_vlan_fetch; assumption].
  - intros w V vid Q H Hv Hq. eapply stack_write; [exact H | split; discriminate || reflexivity | apply vtcr_word_range |].
    intros c s' Hc H'. apply Hq. eexists. split; [exact H' | apply ch_vlan_store; assumption].
  - intros w V Q H Hq. eapply stack_poll; [exact H | split; discriminate || reflexivity | reflexivity | reflexivity |].
    intros c s' Hc H'. destruct (ch_vlan_idle c V Hc) as [E1 E2]. split; [exact E1 |]. apply Hq; [exact E1 |]. eexists. split; [exact H' | exact E2].
  - intros w V a x y Q H Ha Ha' Hx Hy Hq. cbn [bulk_write regmap_bulk_write mfd_regmap]. apply wp_bind.
    eapply stack_write; [exact H | apply plain_range, Ha | exact Hx |]. intros c s' Hc H'.
    assert (H1 : mfd_shows s' (set_reg a x V)) by (eexists; split; [exact H' | apply ch_write; assumption]).
    apply wp_bind. eapply stack_write; [exact H1 | apply plain_range, Ha' | exact Hy |]. intros c' s2 Hc' H2. apply wp_ret, Hq.
    eexists. split; [exact H2 | apply ch_write; assumption].
  - intros w V Q H Hq. eapply stack_write; [exact H | split; discriminate || reflexivity | split; discriminate || reflexivity |].
    intros c s' Hc H'. apply Hq. eexists. split; [exact H' | apply ch_fdb_write; assumption].
  - intros w V Q H Hq. eapply stack_write; [exact H | split; discriminate || reflexivity | split; discriminate || reflexivity |].
    intros c s' Hc H'. apply Hq. eexists. split; [exact H' | apply ch_fdb_read; assumption].
  - intros w V Q H Hq. eapply stack_poll; [exact H | split; discriminate || reflexivity | reflexivity | reflexivity |].
    intros c s' Hc H'. destruct (ch_fdb_idle c V Hc) as [E1 E2]. split; [exact E1 |]. apply Hq; [exact E1 |]. eexists. split; [exact H' | exact E2].
  - intros w V Q H Hq. eapply stack_write; [exact H | split; discriminate || reflexivity | split; discriminate || reflexivity |].
    intros c s' Hc H'. destruct (ch_fdb_flush c V Hc) as [f E]. apply (Hq _ f). eexists. split; [exact H' | exact E].
  - intros w V Q H Hq. eapply stack_read; [exact H | split; discriminate || reflexivity | reflexivity | reflexivity |].
    intros c s' Hc H'. destruct (ch_atrd3 c V Hc) as [-> E]. apply Hq. eexists. split; [exact H' | exact E].
  - intros w V Q H Hq. eapply stack_read; [exact H | split; discriminate || reflexivity | reflexivity | reflexivity |].
    intros c s' Hc H'. destruct (ch_vard0 c V Hc) as [-> E]. apply Hq. eexists. split; [exact H' | exact E].
Defined.
End Stack.

(** ** A chip to try it on *)

(** Commands are done when they are written. *)
Record chip := Chip { chip_reg : Z -> Z; chip_vlan : Z -> Z; chip_fdb : Z -> Z -> Z }.
Definition chip_view (c : chip) : view := View (chip_reg c) (chip_vlan c) (chip_fdb c).
Definition of_view (V : view) : chip := Chip (v_reg V) (v_vlan V) (v_fdb V).

Definition chip_step (a x : Z) (V : view) : view :=
  if a =? AN8855_VTCR then
    let vid := FIELD_GET AN8855_VTCR_VID x in
    if FIELD_GET AN8855_VTCR_FUNC x =? AN8855_VTCR_RD_VID then set_reg AN8855_VARD0 (v_vlan V vid) V else set_vlan vid (v_reg V AN8855_VAWD0) V
  else if a =? AN8855_ATC then
    if Z.land x 7 =? AN8855_FDB_WRITE then set_fdb (fdb_mac_of V) (fdb_vid_of V) (fdb_ports_of V) V
    else if Z.land x 7 =? AN8855_FDB_READ then set_reg AN8855_ATRD3 (v_fdb V (fdb_mac_of V) (fdb_vid_of V)) V
    else View (v_reg V) (v_vlan V) (fun _ _ => 0)
  else set_reg a x V.
Definition chip_write (a x : Z) (c : chip) : chip := of_view (chip_step a x (chip_view c)).

#[export] Instance chip_core : Core chip.
Proof. refine {| core_read a c := (u32 (chip_reg c a), c); core_write := chip_write |}. intros a c. apply u32_range. Defined.

(** What it holds fits in registers; no command is pending. *)
Definition view_fits (V : view) : Prop :=
  (forall a, 0 <= v_reg V a < 2 ^ 32) /\ (forall vid, 0 <= v_vlan V vid < 2 ^ 32) /\ (forall m vid, 0 <= v_fdb V m vid < 2 ^ 32) /\
  v_reg V AN8855_VTCR = 0 /\ v_reg V AN8855_ATC = 0.
Definition chip_shows (c : chip) (V : view) : Prop := V = chip_view c /\ view_fits V.

Lemma upd_range {A} (P : A -> Prop) (f : Z -> A) a x : (forall i, P (f i)) -> P x -> forall i, P (upd f a x i).
Proof. intros H Hx i. unfold upd. destruct (i =? a); [exact Hx | apply H]. Qed.

Lemma set_reg_fits a x V : a <> AN8855_VTCR -> a <> AN8855_ATC -> 0 <= x < 2 ^ 32 -> view_fits V -> view_fits (set_reg a x V).
Proof.
  intros H1 H2 Hx (F1 & F2 & F3 & F4 & F5). split_and!; cbn [set_reg v_reg v_vlan v_fdb]; try assumption.
  - apply (upd_range (fun y => 0 <= y < 2 ^ 32)); assumption.
  - rewrite upd_ne by auto. exact F4.
  - rewrite upd_ne by auto. exact F5.
Qed.

Lemma chip_shows_step a x c V V' : chip_shows c V -> chip_step a x V = V' -> view_fits V' -> chip_shows (core_write a x c) V'.
Proof.
  intros [-> _] <- H. split; [| exact H]. cbn [core_write chip_core]. unfold chip_write, chip_view, of_view.
  destruct (chip_step a x _). reflexivity.
Qed.

Lemma chip_read_reg c V a : chip_shows c V -> fst (core_read a c) = v_reg V a /\ chip_shows (snd (core_read a c)) V.
Proof. intros H. split; [| exact H]. destruct H as [-> (F & _)]. cbn. apply u32_small, F. Qed.

Lemma fdb_ports_range V : view_fits V -> 0 <= fdb_ports_of V < 2 ^ 32.
Proof.
  intros _. unfold fdb_ports_of. destruct (cbool _); [| lia]. pose proof (FIELD_GET_range 7 0 (v_reg V AN8855_ATWD2) ltac:(lia)) as H.
  change (GENMASK 7 0) with AN8855_ATWD2_PORT in H. change (2 ^ (7 - 0 + 1)) with 256 in H. lia.
Qed.

#[export] Instance chip_hw : ChipHw chip.
Proof.
  refine {| ch_shows := chip_shows |}.
  - intros c V a (_ & F & _) _. apply F.
  - intros c V a H _. apply chip_read_reg, H.
  - intros c V a x H Ha Hx.
    assert (H1 : a <> AN8855_VTCR) by (intros ->; discriminate Ha). assert (H2 : a <> AN8855_ATC) by (intros ->; discriminate Ha).
    eapply chip_shows_step; [exact H | | apply set_reg_fits; auto; apply H].
    unfold chip_step. rewrite (proj2 (Z.eqb_neq _ _) H1), (proj2 (Z.eqb_neq _ _) H2). reflexivity.
  - intros c V vid H Hv. eapply chip_shows_step; [exact H | | apply set_reg_fits; [discriminate | discriminate | apply (proj2 H) | apply (proj2 H)]].
    unfold chip_step. rewrite Z.eqb_refl.
    replace (FIELD_GET AN8855_VTCR_VID _) with vid by (repeat field_step; cbn; rewrite Z.mod_small by lia; reflexivity).
    replace (FIELD_GET AN8855_VTCR_FUNC _ =? AN8855_VTCR_RD_VID) with true by (repeat field_step; reflexivity). reflexivity.
  - intros c V vid H Hv. eapply chip_shows_step; [exact H | |].
    + unfold chip_step. rewrite Z.eqb_refl.
      replace (FIELD_GET AN8855_VTCR_VID _) with vid by (repeat field_step; cbn; rewrite Z.mod_small by lia; reflexivity).
      replace (FIELD_GET AN8855_VTCR_FUNC _ =? AN8855_VTCR_RD_VID) with false by (repeat field_step; reflexivity). reflexivity.
    + destruct H as [_ (F1 & F2 & F3 & F4 & F5)]. split_and!; cbn [set_vlan v_reg v_vlan v_fdb]; try assumption.
      apply (upd_range (fun y => 0 <= y < 2 ^ 32)); [exact F2 | apply F1].
  - intros c V H. destruct (chip_read_reg c V AN8855_VTCR H) as [-> E]. split; [| exact E]. destruct H as [_ (_ & _ & _ & -> & _)]. reflexivity.
  - intros c V H. eapply chip_shows_step; [exact H | reflexivity |]. pose proof (fdb_ports_range V (proj2 H)) as Hr.
    destruct H as [_ (F1 & F2 & F3 & F4 & F5)]. split_and!; cbn [set_fdb v_reg v_vlan v_fdb]; try assumption. intros m. revert m.
    apply (upd_range (fun g => forall vid : Z, 0 <= g vid < 2 ^ 32)); [exact F3 |]. apply (upd_range (fun y => 0 <= y < 2 ^ 32)); [apply F3 | exact Hr].
  - intros c V H. eapply chip_shows_step; [exact H | reflexivity |]. apply set_reg_fits; [discriminate | discriminate | apply (proj2 H) | apply (proj2 H)].
  - intros c V H. exists (fun _ _ => 0). eapply chip_shows_step; [exact H | reflexivity |].
    destruct H as [_ (F1 & F2 & F3 & F4 & F5)]. split_and!; cbn [v_reg v_vlan v_fdb]; try assumption. intros _ _. lia.
  - intros c V H. destruct (chip_read_reg c V AN8855_ATC H) as [-> E]. split; [| exact E]. destruct H as [_ (_ & _ & _ & _ & ->)]. reflexivity.
  - intros c V H. apply chip_read_reg, H.
  - intros c V H. apply chip_read_reg, H.
Defined.

(** The driver on the chip, behind the bus of [An8855MfdProps]. *)
Definition chip0 : chip := Chip (fun _ => 0) (fun _ => 0) (fun _ _ => 0).
Definition view0 : view := chip_view chip0.
Definition board0 : an8855_priv (an8855_mfd_priv (mdev chip)) := AnPriv 0xff 0xff 0 false false (mfd0 chip0).

Lemma board0_shows : shows (an_map board0) view0.
Proof. exists chip0. split; [apply mfd0_related |]. split; [reflexivity |]. split_and!; cbn; lia. Qed.

(** Ports 0 to 4 in bridge 7, all of them filtering VLANs or none; port 5 is the CPU's. *)
Definition dsa0 (filtering : bool) : dsa_switch :=
  Dsa (upto 5) (upto 6) 0x1f (Z.eqb 5) (fun p => if p <? 5 then Some 7 else None)
      (fun p b => match b with Some i => (p <? 5) && (i =? 7) | None => false end) (fun _ => filtering) (fun _ => true).
