(* ===== verification/An8855VlanProps.v ===== *)
(** * VLANs of the AN8855

    The handlers for VLANs against a table of members, egress tags and PVIDs:
    the registers of a switch implement it, for every sequence of requests. *)

From S2P Require Import Prelude CMonad Regmap An8855Mfd An8855MfdProps An8855Regs An8855 An8855Hw An8855Stack.

(** ** The word of a VLAN *)

Definition row_valid (y : Z) : bool := cbool (FIELD_GET AN8855_VA0_VLAN_VALID y).
Definition row_ports (y : Z) : Z := FIELD_GET AN8855_VA0_PORT y.
Definition row_fid (y : Z) : Z := FIELD_GET AN8855_VA0_FID y.
Definition row_egress (y p : Z) : Z := FIELD_GET (AN8855_VA0_ETAG_PORT_MASK p) y.

(** The egress tag a port gets in a VLAN. *)
Definition egress_tag (port : Z) (untagged : bool) : Z :=
  if port =? AN8855_CPU_PORT then AN8855_VLAN_EGRESS_STACK
  else if untagged then AN8855_VLAN_EGRESS_UNTAG else AN8855_VLAN_EGRESS_TAG.

(** What [an8855_vlan_add] and [an8855_vlan_del] make of a word. *)
Definition row_base (y pm : Z) : Z :=
  Z.land y AN8855_VA0_ETAG .| AN8855_VA0_IVL_MAC .| AN8855_VA0_VTAG_EN .| AN8855_VA0_VLAN_VALID .| FIELD_PREP AN8855_VA0_PORT pm.
Definition row_add (y port e : Z) : Z :=
  Z.ldiff (row_base y (row_ports y .| BIT port) .| FIELD_PREP AN8855_VA0_FID AN8855_FID_BRIDGED) (AN8855_VA0_ETAG_PORT_MASK port)
  .| AN8855_VA0_ETAG_PORT_VAL port e.
Definition row_del (y port : Z) : Z :=
  let pm := Z.ldiff (row_ports y) (BIT port) in if cbool pm then row_base y pm else 0.

Lemma row_ports_range y : 0 <= row_ports y < 64.
Proof. apply (FIELD_GET_range 31 26). lia. Qed.

(** By cases on the port and its tag every mask is a constant. *)
Ltac by_tag port untagged :=
  destruct (port_cases port ltac:(assumption)) as [-> | [-> | [-> | [-> | [-> | ->]]]]]; destruct untagged;
  cbn [egress_tag AN8855_CPU_PORT Z.eqb Pos.eqb].

Lemma row_add_ports y port u : 0 <= port < 6 -> row_ports (row_add y port (egress_tag port u)) = row_ports y .| BIT port.
Proof.
  intros Hp. pose proof (row_ports_range y) as Hy. unfold row_add, row_base. set (pm := row_ports y .| BIT port).
  assert (Hpm : 0 <= pm < 64) by (apply (lor_range _ _ 6); [lia | exact Hy | apply BIT_range; lia]). clearbody pm.
  unfold row_ports at 1. by_tag port u; repeat field_step; cbn; rewrite Z.mod_small by lia; rewrite ?Z.lor_0_r; reflexivity.
Qed.

(** The words are those of a valid VLAN, its FID is as written and the
    egress tags of the other ports stay. *)
Lemma row_add_valid y port u : 0 <= port < 6 -> row_valid (row_add y port (egress_tag port u)) = true.
Proof.
  intros Hp. unfold row_add, row_base. generalize (row_ports y .| BIT port). intros pm.
  unfold row_valid. by_tag port u; repeat field_step; reflexivity.
Qed.

Lemma row_add_fid y port u : 0 <= port < 6 -> row_fid (row_add y port (egress_tag port u)) = AN8855_FID_BRIDGED.
Proof.
  intros Hp. unfold row_add, row_base. generalize (row_ports y .| BIT port). intros pm.
  unfold row_fid. by_tag port u; repeat field_step; reflexivity.
Qed.

Lemma row_add_egress y port u p : 0 <= port < 6 -> 0 <= p < 6 ->
  row_egress (row_add y port (egress_tag port u)) p = if p =? port then egress_tag port u else row_egress y p.
Proof.
  intros Hp Hq. unfold row_add, row_base. generalize (row_ports y .| BIT port). intros pm. unfold row_egress.
  destruct (port_cases p Hq) as [-> | [-> | [-> | [-> | [-> | ->]]]]];
    by_tag port u; repeat field_step; cbn [Z.eqb Pos.eqb Z.lor]; rewrite ?Z.lor_0_r; reflexivity.
Qed.

Section Base.
Variables (y pm : Z) (Hpm : 0 <= pm < 64).

Lemma row_base_ports : row_ports (row_base y pm) = pm.
Proof. unfold row_ports, row_base. repeat field_step. cbn. apply Z.mod_small. lia. Qed.

Lemma row_base_valid : row_valid (row_base y pm) = true.
Proof. unfold row_valid, row_base. repeat field_step. reflexivity. Qed.

Lemma row_base_fid : row_fid (row_base y pm) = 0.
Proof. unfold row_fid, row_base. repeat field_step. reflexivity. Qed.

Lemma row_base_egress p : 0 <= p < 6 -> row_egress (row_base y pm) p = row_egress y p.
Proof.
  intros Hp. unfold row_egress, row_base. destruct (port_cases p Hp) as [-> | [-> | [-> | [-> | [-> | ->]]]]];
    repeat field_step; rewrite ?Z.lor_0_r; reflexivity.
Qed.
End Base.

Lemma land_valid y : cbool (Z.land y AN8855_VA0_VLAN_VALID) = row_valid y.
Proof. unfold row_valid, FIELD_GET. rewrite Z.shiftr_0_r. reflexivity. Qed.

(** ** The table the driver keeps, as its clients see it

    A VLAN has an FID and, per port, the egress tag of a member; a port has
    the fields the driver sets. *)

Record vlan := Vlan { vl_fid : Z; vl_tag : Z -> option Z }.
Record port_vlan := PortVlan { p_mode : Z; p_tagging : Z; p_attr : Z; p_accept : Z; p_pvid : Z }.
Record vlans := Vlans { vs_row : Z -> option vlan; vs_port : Z -> port_vlan }.

Definition on_row (vid : Z) (r : option vlan) (t : vlans) : vlans := Vlans (upd (vs_row t) vid r) (vs_port t).
Definition on_port (port : Z) (f : port_vlan -> port_vlan) (t : vlans) : vlans :=
  Vlans (vs_row t) (upd (vs_port t) port (f (vs_port t port))).
Definition set_mode (m e a c : Z) (x : port_vlan) : port_vlan := PortVlan m e a c (p_pvid x).
Definition set_accept (c : Z) (x : port_vlan) : port_vlan := PortVlan (p_mode x) (p_tagging x) (p_attr x) c (p_pvid x).
Definition set_pvid (vid : Z) (x : port_vlan) : port_vlan := PortVlan (p_mode x) (p_tagging x) (p_attr x) (p_accept x) vid.

Definition is_none {A} (x : option A) : bool := match x with None => true | Some _ => false end.

Definition join_vlan (port : Z) (untagged : bool) (r : option vlan) : vlan :=
  Vlan AN8855_FID_BRIDGED (upd (match r with Some v => vl_tag v | None => fun _ => None end) port (Some (egress_tag port untagged))).

(** The last member takes the VLAN with it. *)
Definition leave_vlan (port : Z) (v : vlan) : option vlan :=
  let f := upd (vl_tag v) port None in if forallb (fun p => is_none (f p)) (upto 6) then None else Some (Vlan 0 f).

(** What a request does to the table; a removal answers an error if there is no such VLAN. *)
Inductive vlan_req :=
| VlanAdd (ds : dsa_switch) (port vid flags : Z)
| VlanDel (ds : dsa_switch) (port vid : Z)
| VlanFiltering (ds : dsa_switch) (port : Z) (on : bool).

Definition no_pvid (filtering : bool) (port : Z) (t : vlans) : vlans :=
  on_port port (set_pvid AN8855_PORT_VID_DEFAULT) (if filtering then on_port port (set_accept AN8855_VLAN_ACC_TAGGED) t else t).
Definition drop_pvid (filtering : bool) (port vid : Z) (t : vlans) : vlans :=
  if p_pvid (vs_port t port) =? vid then no_pvid filtering port t else t.

Definition table_add (ds : dsa_switch) (port vid flags : Z) (t : vlans) : vlans :=
  let t := on_row vid (Some (join_vlan port (cbool (Z.land flags BRIDGE_VLAN_INFO_UNTAGGED)) (vs_row t vid))) t in
  if cbool (Z.land flags BRIDGE_VLAN_INFO_PVID) then
    let t := on_port port (set_accept AN8855_VLAN_ACC_ALL) t in
    if dsa_port_is_vlan_filtering ds port then on_port port (set_pvid vid) t else t
  else if cbool vid then drop_pvid (dsa_port_is_vlan_filtering ds port) port vid t else t.

Definition table_del (ds : dsa_switch) (port vid : Z) (t : vlans) : Z * vlans :=
  match vs_row t vid with
  | None => (- EINVAL, t)
  | Some v => (0, drop_pvid (dsa_port_is_vlan_filtering ds port) port vid (on_row vid (leave_vlan port v) t))
  end.

Definition table_filtering (ds : dsa_switch) (port : Z) (on : bool) (t : vlans) : vlans :=
  if on then
    let t := on_port AN8855_CPU_PORT (set_mode AN8855_PORT_FALLBACK_MODE AN8855_VLAN_EG_CONSISTENT AN8855_VLAN_USER AN8855_VLAN_ACC_ALL) t in
    on_port port (set_mode AN8855_PORT_SECURITY_MODE AN8855_VLAN_EG_DISABLED AN8855_VLAN_USER
                    (if p_pvid (vs_port t port) =? AN8855_PORT_VID_DEFAULT then AN8855_VLAN_ACC_ALL else AN8855_VLAN_ACC_TAGGED)) t
  else
    let mode := if is_none (dsa_port_bridge_dev_get ds port) then AN8855_PORT_MATRIX_MODE else AN8855_PORT_FALLBACK_MODE in
    let t := on_port port (set_mode mode AN8855_VLAN_EG_CONSISTENT AN8855_VLAN_TRANSPARENT AN8855_VLAN_ACC_ALL) t in
    let t := on_port port (set_pvid AN8855_PORT_VID_DEFAULT) t in
    if existsb (dsa_port_is_vlan_filtering ds) (user_ports ds) then t
    else on_port AN8855_CPU_PORT (set_mode AN8855_PORT_MATRIX_MODE AN8855_VLAN_EG_CONSISTENT AN8855_VLAN_USER AN8855_VLAN_ACC_ALL) t.

Definition table_do (q : vlan_req) : M vlans Z := fun t =>
  match q with
  | VlanAdd ds port vid flags => (Ok 0, table_add ds port vid flags t)
  | VlanDel ds port vid => let (r, t') := table_del ds port vid t in (Ok r, t')
  | VlanFiltering ds port on => (Ok 0, table_filtering ds port on t)
  end.

(** ** The registers hold the table *)

Definition row_holds (y : Z) (r : option vlan) : Prop :=
  match r with
  | None => row_valid y = false /\ row_ports y = 0
  | Some v => row_valid y = true /\ row_fid y = vl_fid v /\
      (forall p, 0 <= p < 6 -> vl_tag v p = if Z.testbit (row_ports y) p then Some (row_egress y p) else None)
  end.

Definition port_holds (V : view) (p : Z) (x : port_vlan) : Prop :=
  FIELD_GET AN8855_PORT_VLAN (v_reg V (AN8855_PCR_P p)) = p_mode x /\
  FIELD_GET AN8855_PVC_EG_TAG (v_reg V (AN8855_PVC_P p)) = p_tagging x /\
  FIELD_GET AN8855_VLAN_ATTR (v_reg V (AN8855_PVC_P p)) = p_attr x /\
  FIELD_GET AN8855_ACC_FRM (v_reg V (AN8855_PVC_P p)) = p_accept x /\
  FIELD_GET AN8855_G0_PORT_VID (v_reg V (AN8855_PVID_P p)) = p_pvid x /\
  FIELD_GET AN8855_PPBV_G0_PORT_VID (v_reg V (AN8855_PPBV1_P p)) = p_pvid x.

Definition view_holds (V : view) (t : vlans) : Prop :=
  (forall vid, 0 <= vid < 4096 -> row_holds (v_vlan V vid) (vs_row t vid)) /\
  (forall p, 0 <= p < 6 -> port_holds V p (vs_port t p)).

(** *** Rows *)

Lemma row_add_holds y r port u : 0 <= port < 6 -> row_holds y r ->
  row_holds (row_add y port (egress_tag port u)) (Some (join_vlan port u r)).
Proof.
  intros Hp H. repeat split; [apply row_add_valid, Hp | apply row_add_fid, Hp |]. intros p Hq.
  rewrite row_add_ports, row_add_egress, Z.lor_spec, testbit_BIT by lia. cbn [join_vlan vl_tag]. unfold upd.
  rewrite (Z.eqb_sym port p). destruct (p =? port); [rewrite orb_true_r; reflexivity |]. rewrite orb_false_r.
  destruct r as [v |]; cbn [row_holds] in H; [apply H, Hq |]. destruct H as [_ ->]. rewrite Z.testbit_0_l. reflexivity.
Qed.

Lemma ports_zero pm : 0 <= pm < 64 -> (forall p, 0 <= p < 6 -> Z.testbit pm p = false) -> pm = 0.
Proof.
  intros Hr H. apply Z.bits_inj'. intros k Hk. rewrite Z.testbit_0_l. destruct (Z.lt_ge_cases k 6); [apply H; lia |].
  apply (testbit_high pm 6); lia.
Qed.

Lemma row_del_holds y v port : 0 <= port < 6 -> row_holds y (Some v) -> row_holds (row_del y port) (leave_vlan port v).
Proof.
  intros Hp (Hv & Hf & Ht). pose proof (row_ports_range y) as Hy. unfold row_del, leave_vlan.
  set (pm := Z.ldiff (row_ports y) (BIT port)).
  assert (Hpm : 0 <= pm < 64) by (apply (ldiff_range _ _ 6); [lia | exact Hy]).
  assert (Hb : forall p, 0 <= p < 6 -> upd (vl_tag v) port None p = if Z.testbit pm p then Some (row_egress y p) else None).
  { intros p Hq. unfold pm, upd. rewrite Z.ldiff_spec, testbit_BIT, Ht by lia. rewrite (Z.eqb_sym port p).
    destruct (p =? port); [rewrite andb_false_r; reflexivity |]. rewrite andb_true_r. reflexivity. }
  clearbody pm. destruct (forallb (fun p => is_none (upd (vl_tag v) port None p)) (upto 6)) eqn:E.
  - replace (cbool pm) with false; [repeat split |]. unfold cbool. rewrite (ports_zero pm Hpm); [reflexivity |].
    intros p Hq. pose proof (forallb_upto 6 _ E p Hq) as H. cbv beta in H. rewrite Hb in H by exact Hq.
    destruct (Z.testbit pm p); [discriminate | reflexivity].
  - replace (cbool pm) with true.
    + repeat split; [apply row_base_valid | apply row_base_fid |]. intros p Hq.
      rewrite row_base_ports, row_base_egress by assumption. apply Hb, Hq.
    + unfold cbool. destruct (Z.eqb_spec pm 0) as [-> |]; [| reflexivity]. rewrite (proj2 (forallb_forall _ _)) in E; [discriminate |].
      intros p Hin. apply in_map_iff in Hin as (i & <- & Hi%in_seq). rewrite Hb by lia. rewrite Z.testbit_0_l. reflexivity.
Qed.

(** *** Ports *)

Definition port_regs (p : Z) : list Z := [AN8855_PCR_P p; AN8855_PVC_P p; AN8855_PVID_P p; AN8855_PPBV1_P p].

(** [V'] differs from [V] in the registers of a port at most. *)
Definition only_port (port : Z) (V V' : view) : Prop :=
  v_vlan V' = v_vlan V /\ forall a, ~ In a (port_regs port) -> v_reg V' a = v_reg V a.

Lemma only_port_refl port V : only_port port V V.
Proof. split; auto. Qed.

Lemma only_port_set port a x V V' : In a (port_regs port) -> only_port port V V' -> only_port port V (set_reg a x V').
Proof.
  intros Ha [H1 H2]. split; [exact H1 |]. intros b Hb. cbn [set_reg v_reg]. rewrite upd_ne; [apply H2, Hb |]. intros ->. contradiction.
Qed.

Lemma port_regs_disjoint p q a : 0 <= p < 6 -> 0 <= q < 6 -> p <> q -> In a (port_regs p) -> ~ In a (port_regs q).
Proof.
  intros Hp Hq Hne. unfold port_regs, AN8855_PCR_P, AN8855_PVC_P, AN8855_PVID_P, AN8855_PPBV1_P. cbn [In]. lia.
Qed.

Lemma port_holds_ext V V' p x : (forall a, In a (port_regs p) -> v_reg V' a = v_reg V a) -> port_holds V p x -> port_holds V' p x.
Proof. intros H. unfold port_holds. rewrite !H by (cbn; tauto). auto. Qed.

(** The registers of the VLAN table are not those of a port. *)
Lemma view_holds_vlan_reg V t a x : (forall p, 0 <= p < 6 -> ~ In a (port_regs p)) -> view_holds V t -> view_holds (set_reg a x V) t.
Proof.
  intros Ha [H1 H2]. split; [exact H1 |]. intros p Hp. apply (port_holds_ext V); [| apply H2, Hp].
  intros b Hb. cbn [set_reg v_reg]. apply upd_ne. intros ->. apply (Ha p Hp), Hb.
Qed.

Lemma view_holds_port V V' t port f : 0 <= port < 6 -> view_holds V t -> only_port port V V' ->
  port_holds V' port (f (vs_port t port)) -> view_holds V' (on_port port f t).
Proof.
  intros Hp [H1 H2] [Hv Ho] H. split.
  - intros vid Hr. rewrite Hv. apply H1, Hr.
  - intros p Hq. cbn [on_port vs_port]. unfold upd. destruct (Z.eqb_spec p port) as [-> |]; [exact H |].
    apply (port_holds_ext V); [| apply H2, Hq]. intros a Ha. apply Ho. apply (port_regs_disjoint p); assumption.
Qed.

Lemma view_holds_row V t vid r : view_holds V t -> row_holds (v_reg V AN8855_VAWD0) r ->
  view_holds (set_vlan vid (v_reg V AN8855_VAWD0) V) (on_row vid r t).
Proof.
  intros [H1 H2] H. split; [| exact H2]. intros i Hi. cbn [set_vlan v_vlan on_row vs_row]. unfold upd.
  destruct (i =? vid); [exact H | apply H1, Hi].
Qed.

(** Reading a register of a view with others set. *)
Ltac view_reg :=
  cbn [set_reg set_vlan v_reg v_vlan];
  repeat match goal with
  | |- context [upd ?f ?a ?x ?a] => rewrite (upd_eq f a x)
  | |- context [upd ?f ?a ?x ?b] =>
      rewrite (upd_ne f a x b) by (unfold AN8855_PCR_P, AN8855_PVC_P, AN8855_PVID_P, AN8855_PPBV1_P, AN8855_VAWD0, AN8855_VAWD1, AN8855_VARD0; lia)
  end.

Lemma vlan_reg_no_port a p : In a [AN8855_VAWD0; AN8855_VAWD1; AN8855_VARD0] -> 0 <= p < 6 -> ~ In a (port_regs p).
Proof.
  unfold port_regs, AN8855_PCR_P, AN8855_PVC_P, AN8855_PVID_P, AN8855_PPBV1_P, AN8855_VAWD0, AN8855_VAWD1, AN8855_VARD0. cbn [In]. lia.
Qed.

Section Handlers.
Context {W : Type} {R : Regmap W} {HW : An8855Hw W}.

Implicit Types (s : an8855_priv W) (t : vlans) (ds : dsa_switch).

Definition table_at (s0 : an8855_priv W) t s : Prop := exists V, at_view s0 V s /\ view_holds V t.

Lemma run_set_mode s0 t s port m e a c (Q : unit -> an8855_priv W -> Prop) : 0 <= port < 6 ->
  0 <= m < 4 -> 0 <= e < 8 -> 0 <= a < 4 -> 0 <= c < 4 -> table_at s0 t s ->
  (forall s', table_at s0 (on_port port (set_mode m e a c) t) s' -> Q tt s') ->
  wp (an8855_port_set_vlan_mode port m e a c) Q never s.
Proof.
  intros Hp Hm He Ha Hc (V & H & Ht) Hq. unfold an8855_port_set_vlan_mode. apply wp_bind.
  eapply an_update; [exact H | plain_solve | range_solve | range_solve | within_solve |]. intros s1 H1.
  eapply an_update; [exact H1 | plain_solve | range_solve | range_solve | within_solve |]. intros s2 H2.
  apply Hq. eexists. split; [exact H2 |].
  apply (view_holds_port V); [exact Hp | exact Ht | repeat (apply only_port_set; [cbn; tauto |]); apply only_port_refl |].
  destruct (proj2 Ht port Hp) as (F1 & F2 & F3 & F4 & F5 & F6). unfold port_holds. cbn [set_mode p_mode p_tagging p_attr p_accept p_pvid].
  view_reg. rewrite F5, F6. repeat field_step. cbn. rewrite !Z.mod_small, ?Z.lor_0_r by lia. auto 10.
Qed.

Lemma run_set_accept s0 t s port c (Q : unit -> an8855_priv W -> Prop) : 0 <= port < 6 -> 0 <= c < 4 -> table_at s0 t s ->
  (forall s', table_at s0 (on_port port (set_accept c) t) s' -> Q tt s') ->
  wp (regmap_update_bits (AN8855_PVC_P port) AN8855_ACC_FRM (FIELD_PREP AN8855_ACC_FRM c)) Q never s.
Proof.
  intros Hp Hc (V & H & Ht) Hq.
  eapply an_update; [exact H | plain_solve | range_solve | range_solve | within_solve |]. intros s1 H1.
  apply Hq. eexists. split; [exact H1 |].
  apply (view_holds_port V); [exact Hp | exact Ht | repeat (apply only_port_set; [cbn; tauto |]); apply only_port_refl |].
  destruct (proj2 Ht port Hp) as (F1 & F2 & F3 & F4 & F5 & F6). unfold port_holds. cbn [set_accept p_mode p_tagging p_attr p_accept p_pvid].
  view_reg. rewrite F1, F5, F6. repeat field_step. rewrite F2, F3. cbn. rewrite !Z.mod_small, ?Z.lor_0_r by lia. auto 10.
Qed.

Lemma run_set_pid s0 t s port vid (Q : unit -> an8855_priv W -> Prop) : 0 <= port < 6 -> 0 <= vid < 4096 -> table_at s0 t s ->
  (forall s', table_at s0 (on_port port (set_pvid vid) t) s' -> Q tt s') -> wp (an8855_port_set_pid port vid) Q never s.
Proof.
  intros Hp Hv (V & H & Ht) Hq. unfold an8855_port_set_pid. apply wp_bind.
  eapply an_update; [exact H | plain_solve | range_solve | range_solve | within_solve |]. intros s1 H1.
  eapply an_update; [exact H1 | plain_solve | range_solve | range_solve | within_solve |]. intros s2 H2.
  apply Hq. eexists. split; [exact H2 |].
  apply (view_holds_port V); [exact Hp | exact Ht | repeat (apply only_port_set; [cbn; tauto |]); apply only_port_refl |].
  destruct (proj2 Ht port Hp) as (F1 & F2 & F3 & F4 & F5 & F6). unfold port_holds. cbn [set_pvid p_mode p_tagging p_attr p_accept p_pvid].
  view_reg. rewrite F1, F2, F3, F4. repeat field_step. cbn. rewrite !Z.mod_small by lia. auto 10.
Qed.

Lemma run_read_pvid s0 t s port (Q : Z -> an8855_priv W -> Prop) : 0 <= port < 6 -> table_at s0 t s ->
  (forall s' val, table_at s0 t s' -> FIELD_GET AN8855_G0_PORT_VID val = p_pvid (vs_port t port) -> Q val s') ->
  wp (regmap_read (AN8855_PVID_P port)) Q never s.
Proof.
  intros Hp (V & H & Ht) Hq. eapply an_read; [exact H | plain_solve |]. intros s1 H1. apply Hq; [exists V; auto |]. apply (proj2 Ht port Hp).
Qed.

(** The VLAN commands. *)
Lemma run_vlan_add s0 t s port vid u (Q : unit -> an8855_priv W -> Prop) : 0 <= port < 6 -> 0 <= vid < 4096 -> table_at s0 t s ->
  (forall s', table_at s0 (on_row vid (Some (join_vlan port u (vs_row t vid))) t) s' -> Q tt s') ->
  wp (an8855_vlan_add port vid u) Q never s.
Proof.
  intros Hp Hv (V & H & Ht) Hq. unfold an8855_vlan_add. apply wp_bind. eapply an_vlan_fetch; [exact H | exact Hv |]. intros s1 H1.
  apply wp_bind. eapply an_vard0; [exact H1 |]. intros s2 H2. cbn [set_reg v_reg]; rewrite upd_eq.
  pose proof (row_ports_range (v_vlan V vid)) as Hr. fold (row_ports (v_vlan V vid)).
  fold (row_base (v_vlan V vid) (row_ports (v_vlan V vid) .| BIT port)).
  assert (Hpm : 0 <= row_ports (v_vlan V vid) .| BIT port < 2 ^ 6) by (apply lor_range; [lia | exact Hr | apply BIT_range; lia]).
  apply wp_bind. eapply an_write; [exact H2 | plain_solve | unfold row_base; range_solve |]. intros s3 H3.
  apply wp_bind. eapply an_write; [exact H3 | plain_solve | lia |]. intros s4 H4.
  fold (egress_tag port u). apply wp_bind.
  eapply an_update; [exact H4 | plain_solve | | | | intros s5 H5].
  - by_tag port u; split; discriminate || reflexivity.
  - by_tag port u; split; discriminate || reflexivity.
  - by_tag port u; reflexivity.
  - eapply an_vlan_store; [exact H5 | exact Hv |]. intros s6 H6. apply Hq. eexists. split; [exact H6 |].
    apply view_holds_row; [repeat (apply view_holds_vlan_reg; [intros p; apply vlan_reg_no_port; cbn; tauto |]); exact Ht |].
    view_reg. apply row_add_holds; [exact Hp | apply (proj1 Ht vid Hv)].
Qed.

Lemma run_vlan_del s0 t s port vid (Q : unit -> an8855_priv W -> Prop) (E : Z -> an8855_priv W -> Prop) :
  0 <= port < 6 -> 0 <= vid < 4096 -> table_at s0 t s ->
  (vs_row t vid = None -> forall s', table_at s0 t s' -> E (- EINVAL) s') ->
  (forall v, vs_row t vid = Some v -> forall s', table_at s0 (on_row vid (leave_vlan port v) t) s' -> Q tt s') ->
  wp (an8855_vlan_del port vid) Q E s.
Proof.
  intros Hp Hv (V & H & Ht) He Hq. unfold an8855_vlan_del. apply wp_bind, wp_no_error. eapply an_vlan_fetch; [exact H | exact Hv |].
  intros s1 H1. apply wp_bind, wp_no_error. eapply an_vard0; [exact H1 |]. intros s2 H2. cbn [set_reg v_reg]; rewrite upd_eq.
  rewrite land_valid. fold (row_ports (v_vlan V vid)). pose proof (row_ports_range (v_vlan V vid)) as Hr.
  assert (Ht2 : view_holds (set_reg AN8855_VARD0 (v_vlan V vid) V) t)
    by (apply view_holds_vlan_reg; [intros p; apply vlan_reg_no_port; cbn; tauto | exact Ht]).
  pose proof (proj1 Ht vid Hv) as Hrow. destruct (vs_row t vid) as [v |] eqn:Er.
  - destruct (Hrow) as (-> & _). cbn [negb].
    apply wp_bind. eapply (wp_mono _ (fun _ s3 => at_view s0 (set_reg AN8855_VAWD0 (row_del (v_vlan V vid) port)
      (set_reg AN8855_VARD0 (v_vlan V vid) V)) s3) _ never); [| | intros ? ? []].
    + unfold row_del. pose proof (ldiff_range (row_ports (v_vlan V vid)) (BIT port) 6 ltac:(lia) Hr) as Hpm.
      destruct (cbool _); (eapply an_write; [exact H2 | plain_solve | unfold row_base; range_solve | auto]).
    + intros _ s3 H3. apply wp_bind, wp_no_error. eapply an_write; [exact H3 | plain_solve | lia |]. intros s4 H4.
      apply wp_no_error. eapply an_vlan_store; [exact H4 | exact Hv |]. intros s5 H5. apply (Hq v eq_refl). eexists. split; [exact H5 |].
      apply view_holds_row; [repeat (apply view_holds_vlan_reg; [intros p; apply vlan_reg_no_port; cbn; tauto |]); exact Ht |].
      view_reg. apply row_del_holds; assumption.
  - destruct Hrow as [-> _]. cbn [negb]. apply wp_fail, He; [reflexivity |]. exists (set_reg AN8855_VARD0 (v_vlan V vid) V). auto.
Qed.

(** Under the lock, errors included. *)
Lemma run_locked {A} (m : M (an8855_priv W) A) (Q : A -> an8855_priv W -> Prop) (E : Z -> an8855_priv W -> Prop) s0 t s :
  reg_mutex s0 = false -> table_at s0 t s ->
  (forall s1, table_at (with_mutex true s0) t s1 ->
     wp m (fun a s2 => exists t', table_at (with_mutex true s0) t' s2 /\ forall s3, table_at s0 t' s3 -> Q a s3)
          (fun e s2 => exists t', table_at (with_mutex true s0) t' s2 /\ forall s3, table_at s0 t' s3 -> E e s3) s1) ->
  wp (locked m) Q E s.
Proof.
  intros Hm (V & [Hs H] & Ht) Hq. unfold wp, locked. specialize (Hq (with_mutex true s)). unfold wp in Hq.
  destruct (m (with_mutex true s)) as [[a | e] s2].
  all: destruct Hq as (t' & (V2 & [Hs2 H2] & Ht2) & Hk); [exists V; split; [split; [rewrite Hs; reflexivity | exact H] | exact Ht] |].
  all: apply Hk; exists V2; split; [split; [| exact H2] | exact Ht2].
  all: rewrite Hs2; destruct s0; cbn in *; subst; reflexivity.
Qed.

(** The end of both requests: the port is left without a PVID. *)
Lemma run_no_pvid s0 t s ds port (Q : unit -> an8855_priv W -> Prop) : 0 <= port < 6 -> table_at s0 t s ->
  (forall s', table_at s0 (no_pvid (dsa_port_is_vlan_filtering ds port) port t) s' -> Q tt s') ->
  wp ((if dsa_port_is_vlan_filtering ds port
       then regmap_update_bits (AN8855_PVC_P port) AN8855_ACC_FRM (FIELD_PREP AN8855_ACC_FRM AN8855_VLAN_ACC_TAGGED)
       else ret tt) ;;
      an8855_port_set_pid port AN8855_PORT_VID_DEFAULT) Q never s.
Proof.
  intros Hp H Hq. unfold no_pvid in Hq. apply wp_bind. destruct (dsa_port_is_vlan_filtering ds port).
  - eapply run_set_accept; [exact Hp | split; reflexivity || discriminate | exact H |]. intros s2 H2.
    eapply run_set_pid; [exact Hp | split; reflexivity || discriminate | exact H2 | exact Hq].
  - apply wp_ret. eapply run_set_pid; [exact Hp | split; reflexivity || discriminate | exact H | exact Hq].
Qed.

(** ** Requests *)

Definition vlan_do (q : vlan_req) : M (an8855_priv W) Z :=
  match q with
  | VlanAdd ds port vid flags => code (an8855_port_vlan_add ds port vid flags)
  | VlanDel ds port vid => code (an8855_port_vlan_del ds port vid)
  | VlanFiltering ds port on => code (an8855_port_vlan_filtering ds port on)
  end.

Definition vlan_req_ok (q : vlan_req) : Prop :=
  match q with
  | VlanAdd _ port vid _ | VlanDel _ port vid => 0 <= port < 6 /\ 0 <= vid < 4096
  | VlanFiltering _ port _ => 0 <= port < 6
  end.

Lemma run_port_vlan_add s0 t s ds port vid flags (Q : unit -> an8855_priv W -> Prop) : reg_mutex s0 = false ->
  0 <= port < 6 -> 0 <= vid < 4096 -> table_at s0 t s ->
  (forall s', table_at s0 (table_add ds port vid flags t) s' -> Q tt s') -> wp (an8855_port_vlan_add ds port vid flags) Q never s.
Proof.
  intros Hm Hp Hv H Hq. unfold an8855_port_vlan_add, table_add in *. rewrite u8_small by lia. apply wp_bind.
  eapply run_locked; [exact Hm | exact H |]. intros s1 H1. eapply wp_no_error, run_vlan_add; [exact Hp | exact Hv | exact H1 |].
  intros s2 H2. eexists. split; [exact H2 |]. intros s3 H3.
  destruct (cbool (Z.land flags BRIDGE_VLAN_INFO_PVID)).
  - apply wp_bind, wp_ignore, wp_no_error. eapply run_set_accept; [exact Hp | split; reflexivity || discriminate | exact H3 |]. intros s4 H4.
    destruct (dsa_port_is_vlan_filtering ds port); [eapply run_set_pid; [exact Hp | exact Hv | exact H4 | exact Hq] | apply wp_ret, Hq, H4].
  - destruct (cbool vid); [| apply wp_ret, Hq, H3].
    apply wp_bind. eapply run_read_pvid; [exact Hp | exact H3 |]. intros s4 val H4 ->. unfold drop_pvid in Hq.
    destruct (p_pvid _ =? vid); cbn [negb]; [eapply run_no_pvid; [exact Hp | exact H4 | exact Hq] | apply wp_ret, Hq, H4].
Qed.

Lemma run_port_vlan_del s0 t s ds port vid (Q : Z -> an8855_priv W -> Prop) : reg_mutex s0 = false ->
  0 <= port < 6 -> 0 <= vid < 4096 -> table_at s0 t s ->
  (forall s', table_at s0 (snd (table_del ds port vid t)) s' -> Q (fst (table_del ds port vid t)) s') ->
  wp (code (an8855_port_vlan_del ds port vid)) Q never s.
Proof.
  intros Hm Hp Hv H Hq. unfold an8855_port_vlan_del, table_del in *. rewrite u8_small by lia. apply wp_code, wp_bind.
  eapply run_locked; [exact Hm | exact H |]. intros s1 H1. eapply run_vlan_del; [exact Hp | exact Hv | exact H1 | |].
  - intros Hn s2 H2. exists t. split; [exact H2 |]. rewrite Hn in Hq. exact Hq.
  - intros v Hv1 s2 H2. eexists. split; [exact H2 |]. intros s3 H3. rewrite Hv1 in Hq. cbn [fst snd] in Hq. apply wp_bind.
    eapply wp_no_error, run_read_pvid; [exact Hp | exact H3 |]. intros s4 val H4 ->. unfold drop_pvid in Hq.
    destruct (p_pvid _ =? vid); [eapply wp_no_error, run_no_pvid; [exact Hp | exact H4 | exact Hq] | apply wp_ret, Hq, H4].
Qed.

Lemma run_port_vlan_filtering s0 t s ds port on (Q : unit -> an8855_priv W -> Prop) : 0 <= port < 6 -> table_at s0 t s ->
  (forall s', table_at s0 (table_filtering ds port on t) s' -> Q tt s') -> wp (an8855_port_vlan_filtering ds port on) Q never s.
Proof.
  intros Hp H Hq. unfold an8855_port_vlan_filtering, table_filtering in *.
  assert (Hc : 0 <= AN8855_CPU_PORT < 6) by (split; reflexivity || discriminate).
  destruct on; apply wp_bind.
  - eapply run_set_mode; [exact Hc | split; reflexivity || discriminate .. | exact H |]. intros s1 H1. apply wp_bind.
    eapply run_read_pvid; [exact Hp | exact H1 |]. intros s2 val H2 ->. destruct (p_pvid _ =? AN8855_PORT_VID_DEFAULT); cbn [negb].
    all: eapply run_set_mode; [exact Hp | split; reflexivity || discriminate .. | exact H2 | exact Hq].
  - replace (match dsa_port_bridge_dev_get ds port with Some _ => _ | None => _ end)
      with (if is_none (dsa_port_bridge_dev_get ds port) then AN8855_PORT_MATRIX_MODE else AN8855_PORT_FALLBACK_MODE)
      by (destruct (dsa_port_bridge_dev_get ds port); reflexivity).
    eapply run_set_mode; [exact Hp | destruct (is_none _); split; reflexivity || discriminate | split; reflexivity || discriminate .. | exact H |].
    intros s1 H1. apply wp_bind. eapply run_set_pid; [exact Hp | split; reflexivity || discriminate | exact H1 |]. intros s2 H2.
    destruct (existsb _ _); cbn [negb]; [apply wp_ret, Hq, H2 |].
    eapply run_set_mode; [exact Hc | split; reflexivity || discriminate .. | exact H2 | exact Hq].
Qed.
End Handlers.

Section Requests.
Context {W : Type} {R : Regmap W} {HW : An8855Hw W}.

(** Between requests; the lock is free. *)
Definition idle_at (s : an8855_priv W) (t : vlans) : Prop := reg_mutex s = false /\ table_at s t s.

Lemma table_at_idle s0 t s : reg_mutex s0 = false -> table_at s0 t s -> idle_at s t.
Proof.
  intros Hm (V & [Hs H] & Ht). split; [rewrite Hs; exact Hm |]. exists V. split; [apply at_view_refl, H | exact Ht].
Qed.

Lemma vlan_do_sim q : vlan_req_ok q -> sim idle_at anything (vlan_do q) (table_do q).
Proof.
  intros Hq. apply sim_of_wp. intros s t [Hm H]. apply wp_no_error.
  destruct q as [ds port vid flags | ds port vid | ds port on]; cbn [vlan_do table_do vlan_req_ok fst snd] in *.
  - apply wp_code, wp_no_error. eapply run_port_vlan_add; [exact Hm | apply Hq | apply Hq | exact H |]. intros s' H'.
    split; [reflexivity |]. split; [eapply table_at_idle; eassumption | exact I].
  - eapply run_port_vlan_del; [exact Hm | apply Hq | apply Hq | exact H |]. destruct (table_del ds port vid t) as [r t']. intros s' H'.
    split; [reflexivity |]. split; [eapply table_at_idle; eassumption | exact I].
  - apply wp_code, wp_no_error. eapply run_port_vlan_filtering; [exact Hq | exact H |]. intros s' H'.
    split; [reflexivity |]. split; [eapply table_at_idle; eassumption | exact I].
Qed.

Lemma table_do_total q t : exists a t', table_do q t = (Ok a, t').
Proof. destruct q; cbn [table_do]; try (eexists _, _; reflexivity). destruct (table_del _ _ _ _). eexists _, _. reflexivity. Qed.

(** C8: the VLAN handlers of the AN8855 implement a table.  For every
    sequence of additions, removals and changes of filtering on ports 0 to 5,
    the driver returns what the table answers (an error only for the removal
    of a port from a VLAN that does not exist), the rows of the switch hold
    the members, their egress tags and the FID of every VLAN, and each port's
    registers its mode, the frames it accepts and its PVID, in both places
    the switch has for it; the lock is free afterwards.  The table records
    what the code does: switching filtering on lets a port with a PVID of its
    own accept tagged frames only, and one without it all frames, which is the
    reverse of the comments in the source ([filtering_accepts]). *)
Theorem an8855_vlans_implement_table qs (s : an8855_priv W) (t : vlans) : idle_at s t -> Forall vlan_req_ok qs ->
  exists answers s' t', run_all vlan_do qs s = (Ok answers, s') /\ run_all table_do qs t = (Ok answers, t') /\ idle_at s' t'.
Proof.
  intros H Hq. exact (run_all_refines idle_at vlan_req_ok vlan_do table_do qs s t vlan_do_sim table_do_total H Hq).
Qed.
End Requests.

Definition vlans0 : vlans := Vlans (fun _ => None) (fun _ => PortVlan 0 0 0 0 0).

Lemma board0_idle : idle_at board0 vlans0.
Proof.
  split; [reflexivity |]. exists view0. split; [apply at_view_refl, board0_shows |].
  split; intros; repeat split; reflexivity.
Qed.

Definition sample_vlans : list vlan_req :=
  [VlanFiltering (dsa0 true) 1 true; VlanAdd (dsa0 true) 1 10 (Z.lor BRIDGE_VLAN_INFO_PVID BRIDGE_VLAN_INFO_UNTAGGED);
   VlanAdd (dsa0 true) 5 10 0; VlanDel (dsa0 true) 1 10; VlanDel (dsa0 true) 2 20].

(** The test of [an8855_port_vlan_filtering] is the reverse of its comment,
    "only accept tagged frames if PVID is not set", and undoes what
    [an8855_port_vlan_add] did, "accept all frames if PVID is set". *)
Lemma filtering_accepts ds port t : 0 <= port < 5 ->
  p_accept (vs_port (table_filtering ds port true t) port)
  = if p_pvid (vs_port t port) =? AN8855_PORT_VID_DEFAULT then AN8855_VLAN_ACC_ALL else AN8855_VLAN_ACC_TAGGED.
Proof.
  intros Hp. unfold table_filtering, on_port, upd. cbn [vs_port set_mode p_accept p_pvid]. rewrite !Z.eqb_refl.
  rewrite (proj2 (Z.eqb_neq port AN8855_CPU_PORT)) by (unfold AN8855_CPU_PORT; lia). reflexivity.
Qed.

Lemma an8855_vlans_implement_table_witness :
  (exists answers s' t', run_all vlan_do sample_vlans board0 = (Ok answers, s') /\
     run_all table_do sample_vlans vlans0 = (Ok answers, t') /\ idle_at s' t') /\
  (let (r, s) := run_all vlan_do sample_vlans board0 in
   r = Ok [0; 0; 0; 0; - EINVAL] /\
   let row := chip_vlan (d_core (mfd_bus (an_map s))) 10 in (row_ports row, row_fid row, row_egress row 5) = (0x20, 0, 3)).
Proof.
  split; [| vm_compute; split; reflexivity].
  apply (an8855_vlans_implement_table sample_vlans board0 vlans0); [apply board0_idle |].
  repeat constructor; discriminate.
Defined.
