(* ===== verification/An8855BridgeProps.v ===== *)
(** * Bridging on the AN8855

    The handlers for bridges, port flags and spanning tree against a table of
    who may forward to whom, for every sequence of requests. *)

From S2P Require Import Prelude CMonad Regmap An8855Mfd An8855MfdProps An8855Regs An8855 An8855Hw An8855Stack.

(** ** What the handlers are for *)

Record fwd_port := FwdPort {
  f_mode : Z;             (* VLAN mode *)
  f_stp : Z;
  f_learning : bool;
  f_isolated : bool;
  f_unicast : bool;       (* unknown unicast is flooded to the port *)
  f_multicast : bool;
  f_broadcast : bool;
  f_to : Z -> bool        (* the ports it may forward to *)
}.
Definition fwd := Z -> fwd_port.

Definition set_f_mode m (x : fwd_port) := FwdPort m (f_stp x) (f_learning x) (f_isolated x) (f_unicast x) (f_multicast x) (f_broadcast x) (f_to x).
Definition set_f_stp m (x : fwd_port) := FwdPort (f_mode x) m (f_learning x) (f_isolated x) (f_unicast x) (f_multicast x) (f_broadcast x) (f_to x).
Definition set_f_learning b (x : fwd_port) := FwdPort (f_mode x) (f_stp x) b (f_isolated x) (f_unicast x) (f_multicast x) (f_broadcast x) (f_to x).
Definition set_f_isolated b (x : fwd_port) := FwdPort (f_mode x) (f_stp x) (f_learning x) b (f_unicast x) (f_multicast x) (f_broadcast x) (f_to x).
Definition set_f_unicast b (x : fwd_port) := FwdPort (f_mode x) (f_stp x) (f_learning x) (f_isolated x) b (f_multicast x) (f_broadcast x) (f_to x).
Definition set_f_multicast b (x : fwd_port) := FwdPort (f_mode x) (f_stp x) (f_learning x) (f_isolated x) (f_unicast x) b (f_broadcast x) (f_to x).
Definition set_f_broadcast b (x : fwd_port) := FwdPort (f_mode x) (f_stp x) (f_learning x) (f_isolated x) (f_unicast x) (f_multicast x) b (f_to x).
Definition set_f_to g (x : fwd_port) := FwdPort (f_mode x) (f_stp x) (f_learning x) (f_isolated x) (f_unicast x) (f_multicast x) (f_broadcast x) g.

Definition change (p : Z) (f : fwd_port -> fwd_port) (t : fwd) : fwd := upd t p (f (t p)).

(** The other ports in a bridge. *)
Definition mate (ds : dsa_switch) (port : Z) (b : option Z) (i : Z) : bool :=
  existsb (Z.eqb i) (user_ports ds) && negb (i =? port) && dsa_port_offloads_bridge_dev ds i b.

(** A port joins (or leaves) the ports of a bridge: its mates may forward to
    it, unless both are isolated (or may no longer); it may forward to its
    mates (or to all but its mates). *)
Definition set_members (ds : dsa_switch) (port : Z) (b : option Z) (join : bool) (t : fwd) : fwd := fun i =>
  if i =? port then set_f_to (fun j => if join then mate ds port b j else negb (mate ds port b j)) (t i)
  else if mate ds port b i then set_f_to (upd (f_to (t i)) port (join && negb (f_isolated (t port) && f_isolated (t i)))) (t i)
  else t i.

Section Flags.
Variables BR_LEARNING BR_FLOOD BR_MCAST_FLOOD BR_BCAST_FLOOD BR_ISOLATED : Z.

Definition set_isolated (ds : dsa_switch) (port : Z) (b : bool) (t : fwd) : fwd :=
  set_members ds port (dsa_port_bridge_dev_get ds port) true (change port (set_f_isolated b) t).

(** The flags in [mask], to their values in [val]. *)
Definition set_flags (ds : dsa_switch) (port mask val : Z) (t0 : fwd) : fwd :=
  let flag b (f : bool -> fwd -> fwd) (t : fwd) := if cbool (Z.land mask b) then f (cbool (Z.land val b)) t else t in
  let t1 := flag BR_LEARNING (fun b => change port (set_f_learning b)) t0 in
  let t2 := flag BR_FLOOD (fun b => change port (set_f_unicast b)) t1 in
  let t3 := flag BR_MCAST_FLOOD (fun b => change port (set_f_multicast b)) t2 in
  let t4 := flag BR_BCAST_FLOOD (fun b => change port (set_f_broadcast b)) t3 in
  flag BR_ISOLATED (set_isolated ds port) t4.

Definition set_state (ds : dsa_switch) (port state : Z) (t : fwd) : fwd :=
  let learns := ((state =? BR_STATE_LEARNING) || (state =? BR_STATE_FORWARDING)) && dp_learning ds port in
  let stp := if state =? BR_STATE_DISABLED then AN8855_STP_DISABLED
    else if (state =? BR_STATE_BLOCKING) || (state =? BR_STATE_LISTENING) then AN8855_STP_BLOCKING
    else if state =? BR_STATE_LEARNING then AN8855_STP_LEARNING else AN8855_STP_FORWARDING in
  change port (set_f_learning learns) (change port (set_f_stp stp) t).

Inductive bridge_req :=
| Join (ds : dsa_switch) (port : Z) (b : option Z)
| Leave (ds : dsa_switch) (port : Z) (b : option Z)
| PortFlags (ds : dsa_switch) (port mask val : Z)
| StpState (ds : dsa_switch) (port state : Z).

Definition fwd_step (q : bridge_req) (t : fwd) : fwd :=
  match q with
  | Join ds port b => change port (set_f_mode AN8855_PORT_FALLBACK_MODE) (set_members ds port b true t)
  | Leave ds port b => change port (set_f_mode AN8855_PORT_MATRIX_MODE) (set_members ds port b false t)
  | PortFlags ds port mask val => set_flags ds port mask val t
  | StpState ds port state => set_state ds port state t
  end.
Definition fwd_do (q : bridge_req) : M fwd Z := fun t => (Ok 0, fwd_step q t).

Definition bridge_req_ok (q : bridge_req) : Prop :=
  match q with
  | Join ds port _ | Leave ds port _ | PortFlags ds port _ _ | StpState ds port _ =>
      0 <= port < 5 /\ Forall (fun i => 0 <= i < 5) (user_ports ds)
  end.
End Flags.

(** ** The registers hold the table *)

Definition port_shows (V : view) (iso : Z) (p : Z) (x : fwd_port) : Prop :=
  FIELD_GET AN8855_PORT_VLAN (v_reg V (AN8855_PCR_P p)) = f_mode x /\
  FIELD_GET (AN8855_FID_PST_MASK AN8855_FID_BRIDGED) (v_reg V (AN8855_SSP_P p)) = f_stp x /\
  Z.testbit (v_reg V (AN8855_PSC_P p)) 4 = negb (f_learning x) /\
  Z.testbit iso p = f_isolated x /\
  Z.testbit (v_reg V AN8855_UNUF) p = f_unicast x /\
  Z.testbit (v_reg V AN8855_UNMF) p = f_multicast x /\
  Z.testbit (v_reg V AN8855_UNIPMF) p = f_multicast x /\
  Z.testbit (v_reg V AN8855_BCF) p = f_broadcast x /\
  (forall j, 0 <= j < 5 -> Z.testbit (v_reg V (AN8855_PORTMATRIX_P p)) j = f_to x j).

Definition view_shows (V : view) (iso : Z) (t : fwd) : Prop := forall p, 0 <= p < 5 -> port_shows V iso p (t p).

(** Registers of different kinds or ports are different. *)
Ltac distinct_regs :=
  unfold AN8855_PCR_P, AN8855_SSP_P, AN8855_PSC_P, AN8855_UNUF, AN8855_UNMF, AN8855_UNIPMF, AN8855_BCF, AN8855_PORTMATRIX_P; lia.
Ltac fwd_reg :=
  cbn [set_reg v_reg];
  repeat match goal with
  | |- context [upd ?f ?a ?x ?a] => rewrite (upd_eq f a x)
  | |- context [upd ?f ?a ?x ?b] => rewrite (upd_ne f a x b) by distinct_regs
  end.

(** A view and the table of the ports changed alike: the port itself and the others. *)
Ltac fwd_change Ht p port :=
  intros p Hp5; pose proof (Ht p Hp5) as (F1 & F2 & F3 & F4 & F5 & F6 & F7 & F8 & F9);
  unfold change, upd; destruct (Z.eqb_spec p port) as [-> | Hne]; unfold port_shows;
  cbn [set_f_mode set_f_stp set_f_learning set_f_isolated set_f_unicast set_f_multicast set_f_broadcast set_f_to
       f_mode f_stp f_learning f_isolated f_unicast f_multicast f_broadcast f_to];
  fwd_reg; split_and!; try assumption.

Lemma testbit_update x bit b j : 0 <= bit -> 0 <= j ->
  Z.testbit (Z.ldiff x (BIT bit) .| (if b : bool then BIT bit else 0)) j = if j =? bit then b else Z.testbit x j.
Proof.
  intros Hb Hj. rewrite Z.lor_spec, Z.ldiff_spec, testbit_BIT, (Z.eqb_sym bit j) by lia.
  destruct b; rewrite ?testbit_BIT, ?Z.testbit_0_l, ?(Z.eqb_sym bit j) by lia; destruct (j =? bit), (Z.testbit x j); reflexivity.
Qed.

Section Handlers.
Context {W : Type} {R : Regmap W} {HW : An8855Hw W}.

Implicit Types (s : an8855_priv W) (t : fwd) (ds : dsa_switch).

Definition bridge_at s t : Prop := exists V, shows (an_map s) V /\ view_shows V (port_isolated_map s) t.

Lemma bridge_at_view s0 V s t : at_view s0 V s -> view_shows V (port_isolated_map s0) t -> bridge_at s t.
Proof. intros [Hs H] Ht. exists V. split; [exact H |]. rewrite Hs. exact Ht. Qed.

(** A field of a register of the port, or its bit of a shared register. *)
Lemma run_mode s t port m (Q : unit -> an8855_priv W -> Prop) : 0 <= port < 5 -> 0 <= m < 4 -> bridge_at s t ->
  (forall s', bridge_at s' (change port (set_f_mode m) t) -> Q tt s') ->
  wp (regmap_update_bits (AN8855_PCR_P port) AN8855_PORT_VLAN (FIELD_PREP AN8855_PORT_VLAN m)) Q never s.
Proof.
  intros Hp Hm (V & H & Ht) Hq. eapply (an_update s V); [apply at_view_refl, H | plain_solve | range_solve | range_solve | within_solve |].
  intros s1 H1. apply Hq. eapply bridge_at_view; [exact H1 |]. fwd_change Ht p port.
  repeat field_step. apply Z.mod_small. lia.
Qed.

Lemma run_stp s t port m (Q : unit -> an8855_priv W -> Prop) : 0 <= port < 5 -> 0 <= m < 4 -> bridge_at s t ->
  (forall s', bridge_at s' (change port (set_f_stp m) t) -> Q tt s') ->
  wp (regmap_update_bits (AN8855_SSP_P port) (AN8855_FID_PST_MASK AN8855_FID_BRIDGED) (AN8855_FID_PST_VAL AN8855_FID_BRIDGED m)) Q never s.
Proof.
  intros Hp Hm (V & H & Ht) Hq.
  assert (Hm4 : m = 0 \/ m = 1 \/ m = 2 \/ m = 3) by lia.
  eapply (an_update s V); [apply at_view_refl, H | plain_solve | range_solve | | |].
  1-2: destruct Hm4 as [-> | [-> | [-> | ->]]]; try split; reflexivity || discriminate.
  intros s1 H1. apply Hq. eapply bridge_at_view; [exact H1 |]. fwd_change Ht p port.
  rewrite FIELD_GET_lor, FIELD_GET_ldiff_in by reflexivity. destruct Hm4 as [-> | [-> | [-> | ->]]]; reflexivity.
Qed.

Lemma run_learning s t port b (Q : unit -> an8855_priv W -> Prop) : 0 <= port < 5 -> bridge_at s t ->
  (forall s', bridge_at s' (change port (set_f_learning b) t) -> Q tt s') ->
  wp (regmap_update_bits (AN8855_PSC_P port) AN8855_SA_DIS (if (b : bool) then 0 else AN8855_SA_DIS)) Q never s.
Proof.
  intros Hp (V & H & Ht) Hq.
  eapply (an_update s V); [apply at_view_refl, H | plain_solve | range_solve | range_solve | destruct b; reflexivity |].
  intros s1 H1. apply Hq. eapply bridge_at_view; [exact H1 |]. fwd_change Ht p port.
  rewrite Z.lor_spec, Z.ldiff_spec. destruct b; rewrite andb_false_r; reflexivity.
Qed.

Section Flood.
Variables (port : Z) (b : bool) (Hp : 0 <= port < 5).

Lemma run_port_bit s V a (Q : unit -> an8855_priv W -> Prop) : at_view s V s -> plain a = true ->
  (forall s' x, (forall j, 0 <= j -> Z.testbit x j = if j =? port then b else Z.testbit (v_reg V a) j) ->
     at_view s (set_reg a x V) s' -> Q tt s') ->
  wp (regmap_update_bits a (BIT port) (if b then BIT port else 0)) Q never s.
Proof.
  intros H Ha Hq. eapply (an_update s V); [exact H | exact Ha | apply BIT_range32; lia | range_solve | destruct b; apply Z.ldiff_diag || apply Z.ldiff_0_l |].
  intros s1 H1. eapply Hq; [| exact H1]. intros j Hj. apply testbit_update; lia.
Qed.

(** The bit of the port is [b], the bits of the others stay. *)
Ltac port_bit Hx := rewrite Hx by lia; first [rewrite Z.eqb_refl; reflexivity | rewrite (proj2 (Z.eqb_neq _ _)) by lia; assumption].

Lemma run_unicast s t (Q : unit -> an8855_priv W -> Prop) : bridge_at s t ->
  (forall s', bridge_at s' (change port (set_f_unicast b) t) -> Q tt s') ->
  wp (regmap_update_bits AN8855_UNUF (BIT port) (if b then BIT port else 0)) Q never s.
Proof.
  intros (V & H & Ht) Hq. eapply run_port_bit; [apply at_view_refl, H | plain_solve |]. intros s1 x Hx H1. apply Hq.
  eapply bridge_at_view; [exact H1 |]. fwd_change Ht p port; port_bit Hx.
Qed.

Lemma run_broadcast s t (Q : unit -> an8855_priv W -> Prop) : bridge_at s t ->
  (forall s', bridge_at s' (change port (set_f_broadcast b) t) -> Q tt s') ->
  wp (regmap_update_bits AN8855_BCF (BIT port) (if b then BIT port else 0)) Q never s.
Proof.
  intros (V & H & Ht) Hq. eapply run_port_bit; [apply at_view_refl, H | plain_solve |]. intros s1 x Hx H1. apply Hq.
  eapply bridge_at_view; [exact H1 |]. fwd_change Ht p port; port_bit Hx.
Qed.

Lemma run_multicast s t (Q : unit -> an8855_priv W -> Prop) : bridge_at s t ->
  (forall s', bridge_at s' (change port (set_f_multicast b) t) -> Q tt s') ->
  wp (regmap_update_bits AN8855_UNMF (BIT port) (if b then BIT port else 0) ;;
      regmap_update_bits AN8855_UNIPMF (BIT port) (if b then BIT port else 0)) Q never s.
Proof.
  intros (V & H & Ht) Hq. apply wp_bind. eapply run_port_bit; [apply at_view_refl, H | plain_solve |]. intros s1 x Hx H1.
  assert (Hi : port_isolated_map s1 = port_isolated_map s) by (rewrite (proj1 H1); reflexivity).
  eapply run_port_bit; [apply at_view_refl, H1 | plain_solve |]. intros s2 y Hy H2. apply Hq.
  eapply bridge_at_view; [exact H2 |]. rewrite Hi. cbn [set_reg v_reg] in Hy. rewrite upd_ne in Hy by discriminate.
  fwd_change Ht p port; port_bit Hx || port_bit Hy.
Qed.
End Flood.

(** *** The port matrix *)

(** Tables that differ only in where a port forwards to, and not for the
    ports there are. *)
Definition fwd_eq (t t' : fwd) : Prop := forall p, 0 <= p < 5 ->
  set_f_to (fun _ => false) (t p) = set_f_to (fun _ => false) (t' p) /\ forall j, 0 <= j < 5 -> f_to (t p) j = f_to (t' p) j.

#[export] Instance bridge_at_proper s : Proper (fwd_eq ==> Basics.impl) (bridge_at s).
Proof.
  intros t t' Ht (V & H & Hv). exists V. split; [exact H |]. intros p Hp. destruct (Ht p Hp) as [E1 E2].
  specialize (Hv p Hp). unfold port_shows in *. destruct (t p), (t' p). unfold set_f_to in E1. cbn in *. injection E1 as -> -> -> -> -> -> ->.
  destruct Hv as (? & ? & ? & ? & ? & ? & ? & ? & F). split_and!; try assumption. intros j Hj. rewrite F by exact Hj. apply E2, Hj.
Qed.

Lemma user_bit port : 0 <= port < 5 -> FIELD_PREP AN8855_USER_PORTMATRIX (BIT port) = BIT port.
Proof. intros H. assert (port = 0 \/ port = 1 \/ port = 2 \/ port = 3 \/ port = 4) as [-> | [-> | [-> | [-> | ->]]]] by lia; reflexivity. Qed.

Definition open_to (port : Z) (b : bool) (x : fwd_port) : fwd_port := set_f_to (upd (f_to x) port b) x.

Lemma run_row s t i port (b : bool) (Q : unit -> an8855_priv W -> Prop) : 0 <= i < 5 -> 0 <= port < 5 -> bridge_at s t ->
  (forall s', port_isolated_map s' = port_isolated_map s -> bridge_at s' (change i (open_to port b) t) -> Q tt s') ->
  wp (if b then regmap_set_bits (AN8855_PORTMATRIX_P i) (FIELD_PREP AN8855_USER_PORTMATRIX (BIT port))
      else regmap_clear_bits (AN8855_PORTMATRIX_P i) (FIELD_PREP AN8855_USER_PORTMATRIX (BIT port))) Q never s.
Proof.
  intros Hi Hp (V & H & Ht) Hq. rewrite user_bit by exact Hp.
  assert (Hr : 0 <= BIT port < 2 ^ 32) by (apply BIT_range32; lia).
  assert (K : forall x s1, (forall j, 0 <= j < 5 -> Z.testbit x j = upd (f_to (t i)) port b j) ->
    at_view s (set_reg (AN8855_PORTMATRIX_P i) x V) s1 -> Q tt s1).
  { intros x s1 Hx H1. apply Hq; [rewrite (proj1 H1); reflexivity |]. eapply bridge_at_view; [exact H1 |]. fwd_change Ht p i; try exact Hx. }
  pose proof (Ht i Hi) as (_ & _ & _ & _ & _ & _ & _ & _ & F).
  destruct b; [eapply (an_set_bits s V) | eapply (an_clear_bits s V)]; [apply at_view_refl, H | plain_solve | exact Hr | |
    apply at_view_refl, H | plain_solve | exact Hr |]; intros s1 H1; (eapply K; [| exact H1]); intros j Hj; rewrite ?Z.lor_spec, ?Z.ldiff_spec, testbit_BIT, F, (Z.eqb_sym port j) by lia;
    unfold upd; destruct (j =? port), (f_to (t i) j); reflexivity.
Qed.

(** What the loop has done so far. *)
Definition mate_in (done : list Z) (ds : dsa_switch) (port : Z) (b : option Z) (i : Z) : bool :=
  existsb (Z.eqb i) done && negb (i =? port) && dsa_port_offloads_bridge_dev ds i b.
Definition members_in (done : list Z) ds (port : Z) (b : option Z) (join : bool) t : fwd := fun i =>
  if mate_in done ds port b i then open_to port (join && negb (f_isolated (t port) && f_isolated (t i))) (t i) else t i.

Lemma mate_in_snoc done x ds port b i :
  mate_in (done ++ [x]) ds port b i = mate_in done ds port b i || ((i =? x) && negb (i =? port) && dsa_port_offloads_bridge_dev ds i b).
Proof.
  unfold mate_in. rewrite existsb_app. cbn [existsb]. rewrite orb_false_r.
  destruct (existsb _ done), (i =? x), (negb _), (dsa_port_offloads_bridge_dev ds i b); reflexivity.
Qed.

Lemma members_in_step done x ds port b join t : 0 <= x < 5 -> x <> port -> dsa_port_offloads_bridge_dev ds x b = true ->
  fwd_eq (change x (open_to port (join && negb (f_isolated (t port) && f_isolated (t x)))) (members_in done ds port b join t))
         (members_in (done ++ [x]) ds port b join t).
Proof.
  intros Hx Hne Ho p Hp. unfold members_in, change, upd. rewrite mate_in_snoc. destruct (Z.eqb_spec p x) as [-> |].
  - rewrite Ho, (proj2 (Z.eqb_neq x port) Hne), orb_true_r. destruct (mate_in done ds port b x); (split; [reflexivity |]); [| reflexivity].
    intros j Hj. unfold open_to, set_f_to, upd. cbn [f_to]. destruct (j =? port); reflexivity.
  - rewrite andb_false_l, orb_false_r. destruct (mate_in done ds port b p); split; reflexivity.
Qed.

Lemma members_in_skip done x ds port b join t : x = port \/ dsa_port_offloads_bridge_dev ds x b = false ->
  forall i, members_in (done ++ [x]) ds port b join t i = members_in done ds port b join t i.
Proof.
  intros H i. unfold members_in. rewrite mate_in_snoc.
  replace ((i =? x) && negb (i =? port) && dsa_port_offloads_bridge_dev ds i b) with false; [rewrite orb_false_r; reflexivity |].
  destruct (Z.eqb_spec i x) as [-> |]; [| reflexivity]. destruct H as [-> | ->]; [rewrite Z.eqb_refl; reflexivity | rewrite andb_false_r; reflexivity].
Qed.

Lemma iso_bit s t p : bridge_at s t -> 0 <= p < 5 -> cbool (Z.land (port_isolated_map s) (BIT p)) = f_isolated (t p).
Proof. intros (V & _ & H) Hp. rewrite cbool_land_BIT by lia. apply (H p Hp). Qed.

Lemma mate_in_bound done ds port b j : Forall (fun i => 0 <= i < 5) done -> ~ 0 <= j < 5 -> mate_in done ds port b j = false.
Proof.
  intros Hd Hj. unfold mate_in. replace (existsb (Z.eqb j) done) with false; [reflexivity |]. symmetry.
  apply not_true_is_false. intros H. apply existsb_exists in H as (x & Hx & He%Z.eqb_eq). subst. rewrite Forall_forall in Hd.
  apply Hj. apply Hd. apply list_elem_of_In, Hx.
Qed.

(** The loop over the other ports: their rows, and the mask it collects. *)
Lemma run_members s t ds port b join (Q : Z -> an8855_priv W -> Prop) : 0 <= port < 5 -> Forall (fun i => 0 <= i < 5) (user_ports ds) ->
  bridge_at s t ->
  (forall m s', 0 <= m < 32 -> (forall j, 0 <= j < 5 -> Z.testbit m j = mate ds port b j) ->
     port_isolated_map s' = port_isolated_map s -> bridge_at s' (members_in (user_ports ds) ds port b join t) -> Q m s') ->
  wp (each_acc (user_ports ds) 0 (fun index port_mask =>
    if index =? port then ret port_mask else
    if negb (dsa_port_offloads_bridge_dev ds index b) then ret port_mask else
    let other_isolated := cbool (Z.land (port_isolated_map s) (BIT index)) in
    (if join && negb (cbool (Z.land (port_isolated_map s) (BIT port)) && other_isolated)
     then regmap_set_bits (AN8855_PORTMATRIX_P index) (FIELD_PREP AN8855_USER_PORTMATRIX (BIT port))
     else regmap_clear_bits (AN8855_PORTMATRIX_P index) (FIELD_PREP AN8855_USER_PORTMATRIX (BIT port))) ;;
    ret (u32 (port_mask .| BIT index)))) Q never s.
Proof.
  intros Hp Hl H Hq.
  apply (wp_each_acc (fun done m s' => 0 <= m < 32 /\ (forall j, 0 <= j < 5 -> Z.testbit m j = mate_in done ds port b j) /\
    port_isolated_map s' = port_isolated_map s /\ bridge_at s' (members_in done ds port b join t))).
  - split_and!; [lia | lia | intros j Hj; rewrite Z.testbit_0_l; reflexivity | reflexivity | exact H].
  - intros done x todo m s1 Hd (Hm & Hb & Hi & H1). rewrite Hd, Forall_app, Forall_cons in Hl. destruct Hl as (_ & Hx & _).
    assert (Skip : x = port \/ dsa_port_offloads_bridge_dev ds x b = false ->
      0 <= m < 32 /\ (forall j, 0 <= j < 5 -> Z.testbit m j = mate_in (done ++ [x]) ds port b j) /\
      port_isolated_map s1 = port_isolated_map s /\ bridge_at s1 (members_in (done ++ [x]) ds port b join t)).
    { intros Hs. split_and!; [lia | lia | | exact Hi |].
      - intros j Hj. rewrite Hb, mate_in_snoc by exact Hj. destruct (Z.eqb_spec j x) as [-> |]; [| rewrite orb_false_r; reflexivity].
        destruct Hs as [-> | ->]; rewrite ?Z.eqb_refl, ?andb_false_r, ?orb_false_r; reflexivity.
      - eapply (bridge_at_proper s1); [| exact H1]. intros p Hp5. rewrite (members_in_skip done x) by exact Hs. split; reflexivity. }
    destruct (Z.eqb_spec x port) as [-> | Hne]; [apply wp_ret, Skip; auto |].
    destruct (dsa_port_offloads_bridge_dev ds x b) eqn:Ho; cbn [negb]; [| apply wp_ret, Skip; auto].
    rewrite !(iso_bit s t) by assumption. apply wp_bind. eapply run_row; [exact Hx | exact Hp | exact H1 |]. intros s2 Hi2 H2. apply wp_ret.
    assert (Hr : 0 <= m .| BIT x < 2 ^ 5) by (apply lor_range; [lia | exact Hm | apply BIT_range; lia]).
    rewrite u32_small by lia. split_and!; [lia | lia | | congruence |].
    + intros j Hj. rewrite Z.lor_spec, testbit_BIT, Hb, mate_in_snoc, (Z.eqb_sym x j) by lia. f_equal.
      destruct (Z.eqb_spec j x) as [-> |]; [| reflexivity]. rewrite Ho, (proj2 (Z.eqb_neq x port) Hne). reflexivity.
    + eapply (bridge_at_proper s2); [| exact H2]. apply members_in_step; assumption.
  - intros m s1 (Hm & Hb & Hi & H1). apply Hq; assumption.
Qed.

Lemma run_update_port_member s t ds port b join (Q : unit -> an8855_priv W -> Prop) : 0 <= port < 5 ->
  Forall (fun i => 0 <= i < 5) (user_ports ds) -> bridge_at s t ->
  (forall s', bridge_at s' (set_members ds port b join t) -> Q tt s') -> wp (an8855_update_port_member ds port b join) Q never s.
Proof.
  intros Hp Hl H Hq. unfold an8855_update_port_member. apply wp_bind. unfold wp at 1, of_an. apply wp_bind.
  eapply run_members; [exact Hp | exact Hl | exact H |]. intros m s1 Hm Hb Hi (V & H1 & Ht).
  eapply (an_update_any s1 V); [apply at_view_refl, H1 | plain_solve | range_solve | destruct join; [lia | apply u32_range] |].
  intros s2 x Hx H2. apply Hq. eapply bridge_at_view; [exact H2 |].
  assert (Hbit : forall j, 0 <= j < 5 -> Z.testbit x j = if join then mate ds port b j else negb (mate ds port b j)).
  { intros j Hj. destruct (Hx j) as [Hx1 _]; [lia |]. rewrite Hx1.
    - destruct join; [apply Hb, Hj |]. unfold u32. rewrite testbit_uwrap, Z.lnot_spec, Hb by lia. destruct (mate ds port b j); lia.
    - change AN8855_USER_PORTMATRIX with (GENMASK 4 0). rewrite testbit_GENMASK by lia. lia. }
  intros p Hp5. pose proof (Ht p Hp5) as Hs. unfold members_in in Hs. unfold set_members.
  change (mate_in (user_ports ds) ds port b) with (mate ds port b) in Hs. destruct (Z.eqb_spec p port) as [-> | Hne].
  - replace (mate ds port b port) with false in Hs by (unfold mate; rewrite Z.eqb_refl, andb_false_r; reflexivity).
    destruct Hs as (F1 & F2 & F3 & F4 & F5 & F6 & F7 & F8 & F9). unfold port_shows.
    cbn [set_f_to f_mode f_stp f_learning f_isolated f_unicast f_multicast f_broadcast f_to]. fwd_reg. split_and!; assumption.
  - unfold port_shows in *. fwd_reg. exact Hs.
Qed.

(** *** The handlers *)

Lemma run_isolated s t port (b : bool) (Q : unit -> an8855_priv W -> Prop) : 0 <= port < 5 -> bridge_at s t ->
  (forall s', bridge_at s' (change port (set_f_isolated b) t) -> Q tt s') ->
  wp (map <- of_an port_isolated_map ;;
      modify (with_isolated (if b then u8 (map .| BIT port) else u8 (Z.ldiff map (BIT port))))) Q never s.
Proof.
  intros Hp (V & H & Ht) Hq. apply wp_bind. unfold wp at 1, of_an. apply wp_modify, Hq. exists V. split; [exact H |].
  assert (Hbit : forall p, 0 <= p < 5 ->
    Z.testbit (if b then u8 (port_isolated_map s .| BIT port) else u8 (Z.ldiff (port_isolated_map s) (BIT port))) p
    = if p =? port then b else Z.testbit (port_isolated_map s) p).
  { intros p Hp5. unfold u8. destruct b; rewrite testbit_uwrap, (proj2 (Z.ltb_lt p 8)), andb_true_l, ?Z.lor_spec, ?Z.ldiff_spec, testbit_BIT, (Z.eqb_sym port p) by lia;
      destruct (p =? port), (Z.testbit (port_isolated_map s) p); reflexivity. }
  cbn [with_isolated port_isolated_map]. fwd_change Ht p port; rewrite Hbit by lia.
  - apply (proj2 (Z.eqb_neq _ _)) in Hne || rewrite Z.eqb_refl. reflexivity.
  - rewrite (proj2 (Z.eqb_neq _ _) Hne). exact F4.
Qed.

Lemma run_set_isolated s t ds port (b : bool) (Q : unit -> an8855_priv W -> Prop) : 0 <= port < 5 ->
  Forall (fun i => 0 <= i < 5) (user_ports ds) -> bridge_at s t ->
  (forall s', bridge_at s' (set_isolated ds port b t) -> Q tt s') ->
  wp (map <- of_an port_isolated_map ;;
      modify (with_isolated (if b then u8 (map .| BIT port) else u8 (Z.ldiff map (BIT port)))) ;;
      an8855_update_port_member ds port (dsa_port_bridge_dev_get ds port) true) Q never s.
Proof.
  intros Hp Hl H Hq. exact (run_isolated s t port b (fun _ s5 => wp (an8855_update_port_member ds port _ true) Q never s5) Hp H
    (fun s5 H5 => run_update_port_member s5 _ ds port _ true Q Hp Hl H5 Hq)).
Qed.

(** A step that only runs if its flag is in the mask. *)
Lemma run_flag (c : bool) (f : fwd -> fwd) (m : M (an8855_priv W) unit) s t (Q : unit -> an8855_priv W -> Prop) : bridge_at s t ->
  (forall Q' : unit -> an8855_priv W -> Prop, (forall s', bridge_at s' (f t) -> Q' tt s') -> wp m Q' never s) ->
  (forall s', bridge_at s' (if c then f t else t) -> Q tt s') -> wp (if c then m else ret tt) Q never s.
Proof. intros H Hm Hq. destruct c; [apply Hm; auto | apply wp_ret, Hq, H]. Qed.

Section BridgeFlags.
Variables BR_LEARNING BR_FLOOD BR_MCAST_FLOOD BR_BCAST_FLOOD BR_ISOLATED : Z.

(** The next step starts from any state that shows the table so far. *)
Ltac next_step s t H :=
  clear s H; intros s H; cbv beta zeta in *;
  match type of H with bridge_at _ ?x => let t' := fresh t in set (t' := x) in *; clearbody t' end.

Lemma run_bridge_flags s t ds port mask val (Q : unit -> an8855_priv W -> Prop) : 0 <= port < 5 ->
  Forall (fun i => 0 <= i < 5) (user_ports ds) -> bridge_at s t ->
  (forall s', bridge_at s' (set_flags BR_LEARNING BR_FLOOD BR_MCAST_FLOOD BR_BCAST_FLOOD BR_ISOLATED ds port mask val t) -> Q tt s') ->
  wp (an8855_port_bridge_flags BR_LEARNING BR_FLOOD BR_MCAST_FLOOD BR_BCAST_FLOOD BR_ISOLATED ds port mask val) Q never s.
Proof.
  intros Hp Hl H Hq. unfold an8855_port_bridge_flags, set_flags in *.
  apply wp_bind. eapply (run_flag _ (change port (set_f_learning _))); [exact H | intros Q' HQ'; eapply run_learning; eassumption |].
  next_step s t H. apply wp_bind. eapply (run_flag _ (change port (set_f_unicast _))); [exact H | intros Q' HQ'; eapply run_unicast; eassumption |].
  next_step s t H. apply wp_bind. eapply (run_flag _ (change port (set_f_multicast _))); [exact H | intros Q' HQ'; eapply run_multicast; eassumption |].
  next_step s t H. apply wp_bind. eapply (run_flag _ (change port (set_f_broadcast _))); [exact H | intros Q' HQ'; eapply run_broadcast; eassumption |].
  next_step s t H. eapply (run_flag _ (set_isolated ds port (cbool (Z.land val BR_ISOLATED)))); [exact H | | exact Hq].
  intros Q' HQ'. eapply run_set_isolated; eassumption.
Qed.

(** ** Requests *)

Definition bridge_do (q : bridge_req) : M (an8855_priv W) Z :=
  match q with
  | Join ds port b => code (an8855_port_bridge_join ds port b)
  | Leave ds port b => code (an8855_port_bridge_leave ds port b)
  | PortFlags ds port mask val => code (an8855_port_bridge_flags BR_LEARNING BR_FLOOD BR_MCAST_FLOOD BR_BCAST_FLOOD BR_ISOLATED ds port mask val)
  | StpState ds port state => code (an8855_port_stp_state_set ds port state)
  end.

Lemma run_stp_state s t ds port state (Q : unit -> an8855_priv W -> Prop) : 0 <= port < 5 -> bridge_at s t ->
  (forall s', bridge_at s' (set_state ds port state t) -> Q tt s') -> wp (an8855_port_stp_state_set ds port state) Q never s.
Proof.
  intros Hp H Hq. unfold an8855_port_stp_state_set, set_state in *.
  assert (K : forall stp (learns : bool), 0 <= stp < 4 ->
    (forall s', bridge_at s' (change port (set_f_learning learns) (change port (set_f_stp stp) t)) -> Q tt s') ->
    wp (ignore (regmap_update_bits (AN8855_SSP_P port) (AN8855_FID_PST_MASK AN8855_FID_BRIDGED) (AN8855_FID_PST_VAL AN8855_FID_BRIDGED stp)) ;;
        ignore (regmap_update_bits (AN8855_PSC_P port) AN8855_SA_DIS (if learns then 0 else AN8855_SA_DIS))) Q never s).
  { intros stp learns Hs Hk. apply wp_bind, wp_ignore, wp_no_error. eapply run_stp; [exact Hp | exact Hs | exact H |]. intros s1 H1.
    apply wp_ignore, wp_no_error. eapply run_learning; [exact Hp | exact H1 | exact Hk]. }
  unfold BR_STATE_DISABLED, BR_STATE_BLOCKING, BR_STATE_LISTENING, BR_STATE_LEARNING, BR_STATE_FORWARDING in *.
  revert Hq.
  destruct (Z.eqb_spec state 0) as [-> |]; [intros Hq; apply (K _ false); [split; discriminate || reflexivity | exact Hq] |].
  destruct (Z.eqb_spec state 4) as [-> |]; [intros Hq; apply (K _ false); [split; discriminate || reflexivity | exact Hq] |].
  destruct (Z.eqb_spec state 1) as [-> |]; [intros Hq; apply (K _ false); [split; discriminate || reflexivity | exact Hq] |].
  destruct (Z.eqb_spec state 2) as [-> |]; [intros Hq; apply (K _ (dp_learning ds port)); [split; discriminate || reflexivity | exact Hq] |].
  destruct (Z.eqb_spec state 3) as [-> |]; intros Hq; [apply (K _ (dp_learning ds port)) | apply (K _ false)];
    try exact Hq; split; discriminate || reflexivity.
Qed.

Lemma bridge_do_sim q : bridge_req_ok q ->
  sim bridge_at anything (bridge_do q) (fwd_do BR_LEARNING BR_FLOOD BR_MCAST_FLOOD BR_BCAST_FLOOD BR_ISOLATED q).
Proof.
  intros Hq. apply sim_of_wp. intros s t H. cbn [fwd_do fst snd]. apply wp_no_error.
  destruct q as [ds port b | ds port b | ds port mask val | ds port state]; cbn [bridge_do fwd_step bridge_req_ok] in *; destruct Hq as [Hp Hl];
    apply wp_code, wp_no_error.
  - apply wp_bind. eapply run_update_port_member; [exact Hp | exact Hl | exact H |]. intros s1 H1.
    eapply run_mode; [exact Hp | split; discriminate || reflexivity | exact H1 |]. intros s2 H2. split; [reflexivity | split; [exact H2 | exact I]].
  - apply wp_bind, wp_ignore, wp_no_error. eapply run_update_port_member; [exact Hp | exact Hl | exact H |]. intros s1 H1.
    apply wp_ignore, wp_no_error. eapply run_mode; [exact Hp | split; discriminate || reflexivity | exact H1 |]. intros s2 H2.
    split; [reflexivity | split; [exact H2 | exact I]].
  - eapply run_bridge_flags; [exact Hp | exact Hl | exact H |]. intros s1 H1. split; [reflexivity | split; [exact H1 | exact I]].
  - eapply run_stp_state; [exact Hp | exact H |]. intros s1 H1. split; [reflexivity | split; [exact H1 | exact I]].
Qed.

(** C9: bridging on the AN8855.  For every sequence of joins, leaves, port
    flags and spanning-tree states on the user ports, the driver answers 0
    and the registers hold, for each port, its VLAN mode, spanning-tree state,
    learning and flood flags and the ports it may forward to, as the table
    says: a port that joins is open to its mates and they to it, save that
    two isolated ports are closed in the row of the mate; a port that leaves
    is closed in the rows of its mates, and open to all but them. *)
Theorem an8855_bridge_table qs (s : an8855_priv W) (t : fwd) : bridge_at s t -> Forall bridge_req_ok qs ->
  exists answers s' t', run_all bridge_do qs s = (Ok answers, s') /\
    run_all (fwd_do BR_LEARNING BR_FLOOD BR_MCAST_FLOOD BR_BCAST_FLOOD BR_ISOLATED) qs t = (Ok answers, t') /\ bridge_at s' t'.
Proof.
  intros H Hq. apply (run_all_refines bridge_at bridge_req_ok); [exact bridge_do_sim | | exact H | exact Hq].
  intros q v. eexists _, _. reflexivity.
Qed.
End BridgeFlags.
End Handlers.

Definition fwd0 : fwd := fun _ => FwdPort 0 0 true false false false false (fun _ => false).

Lemma board0_bridge : bridge_at board0 fwd0.
Proof.
  exists view0. split; [apply board0_shows |]. intros p Hp. unfold port_shows, view0. cbn [v_reg].
  rewrite !Z.testbit_0_l. split_and!; try reflexivity. intros j Hj. apply Z.testbit_0_l.
Qed.

(** Ports 0 and 1 are isolated before port 2 joins and port 1 leaves. *)
Definition sample_bridge : list bridge_req :=
  let ds := dsa0 false in
  [PortFlags ds 0 16 16; PortFlags ds 1 (16 + 2) (16 + 2); Join ds 2 (Some 7); StpState ds 2 3; Leave ds 1 (Some 7)].

Lemma an8855_bridge_table_witness :
  (exists answers s' t', run_all (bridge_do 1 2 4 8 16) sample_bridge board0 = (Ok answers, s') /\
     run_all (fwd_do 1 2 4 8 16) sample_bridge fwd0 = (Ok answers, t') /\ bridge_at s' t') /\
  (let s := snd (run_all (bridge_do 1 2 4 8 16) sample_bridge board0) in
   map (fun p => Z.land (chip_reg (d_core (mfd_bus (an_map s))) (AN8855_PORTMATRIX_P p)) 31) (upto 5) = [28; 2; 25; 5; 5]).
Proof.
  split; [| vm_compute; reflexivity].
  apply (an8855_bridge_table 1 2 4 8 16 sample_bridge board0 fwd0); [apply board0_bridge |].
  repeat constructor; discriminate.
Defined.
