(* ===== verification/An8855FdbProps.v ===== *)
(** * Forwarding addresses of the AN8855

    The handlers for unicast and multicast entries against a table of the
    ports of each address and VLAN. *)

From S2P Require Import Prelude CMonad Regmap An8855Mfd An8855MfdProps An8855Regs An8855 An8855Hw An8855Stack.

(** ** Addresses *)

Definition mac_ok (mac : list Z) : Prop := length mac = 6%nat /\ Forall (fun b => 0 <= b < 256) mac.

(** The address as a number, the first byte first. *)
Definition mac_key (mac : list Z) : Z := fold_left (fun k b => k * 256 + b) mac 0.

Lemma prep_byte l b : 0 <= l -> 0 <= b < 256 -> FIELD_PREP (GENMASK (l + 7) l) b = Z.shiftl b l.
Proof.
  intros Hl Hb. apply Z.bits_inj'. intros k Hk. rewrite testbit_FIELD_PREP, Z.shiftl_spec by lia.
  destruct (Z.leb_spec l k), (Z.leb_spec k (l + 7)); cbn [andb]; try reflexivity.
  - symmetry. apply (testbit_high b 8); lia.
  - rewrite Z.testbit_neg_r by lia. reflexivity.
  - lia.
Qed.

Lemma lor_byte a b l : 0 <= l -> 0 <= b < 256 -> Z.shiftl a (l + 8) .| Z.shiftl b l = Z.shiftl (a * 256 + b) l.
Proof.
  intros Hl Hb. replace (a * 256 + b) with (b .| Z.shiftl a 8) by (rewrite lor_shiftl_add by lia; lia).
  rewrite Z.shiftl_lor, Z.shiftl_shiftl by lia. rewrite (Z.add_comm 8 l). apply Z.lor_comm.
Qed.

Definition mac_word1 (mac : list Z) : Z :=
  FIELD_PREP AN8855_ATA1_MAC0 (geti 0 mac 0) .| FIELD_PREP AN8855_ATA1_MAC1 (geti 0 mac 1)
  .| FIELD_PREP AN8855_ATA1_MAC2 (geti 0 mac 2) .| FIELD_PREP AN8855_ATA1_MAC3 (geti 0 mac 3).
Definition mac_word2 (mac : list Z) : Z := FIELD_PREP AN8855_ATA2_MAC4 (geti 0 mac 4) .| FIELD_PREP AN8855_ATA2_MAC5 (geti 0 mac 5).

Lemma mac_words mac : mac_ok mac -> mac_word1 mac * 65536 + Z.shiftr (mac_word2 mac) 16 = mac_key mac.
Proof.
  intros [Hn Hb]. destruct mac as [| m0 [| m1 [| m2 [| m3 [| m4 [| m5 [| ]]]]]]]; try discriminate Hn.
  rewrite !Forall_cons in Hb. destruct Hb as (H0 & H1 & H2 & H3 & H4 & H5 & _). unfold mac_word1, mac_word2, mac_key.
  change (geti 0 _ 0) with m0. change (geti 0 _ 1) with m1. change (geti 0 _ 2) with m2. change (geti 0 _ 3) with m3.
  change (geti 0 _ 4) with m4. change (geti 0 _ 5) with m5. cbn [fold_left].
  unfold AN8855_ATA1_MAC0, AN8855_ATA1_MAC1, AN8855_ATA1_MAC2, AN8855_ATA1_MAC3, AN8855_ATA2_MAC4, AN8855_ATA2_MAC5.
  rewrite !(prep_byte 24), !(prep_byte 16), (prep_byte 8), (prep_byte 0) by lia.
  rewrite !(lor_byte _ _ 16), (lor_byte _ _ 8), (lor_byte _ _ 0) by lia. rewrite Z.shiftl_0_r, Z.shiftr_shiftl_l, Z.shiftl_0_r by lia. lia.
Qed.

(** Addresses are told apart. *)
Lemma mac_key_range mac : mac_ok mac -> 0 <= mac_key mac < 2 ^ 48.
Proof.
  intros [Hn Hb]. destruct mac as [| m0 [| m1 [| m2 [| m3 [| m4 [| m5 [| ]]]]]]]; try discriminate Hn.
  rewrite !Forall_cons in Hb. unfold mac_key. cbn [fold_left]. lia.
Qed.

(** ** The table and the requests *)

Definition addresses := Z -> Z -> Z.   (* the ports of an address in a VLAN, 0: no entry *)
Definition set_entry (mac vid ports : Z) (t : addresses) : addresses := upd t mac (upd (t mac) vid ports).

Inductive addr_req :=
| FdbAdd (port : Z) (mac : list Z) (vid : Z)
| FdbDel (port : Z) (mac : list Z) (vid : Z)
| MdbAdd (port : Z) (mac : list Z) (vid : Z)
| MdbDel (port : Z) (mac : list Z) (vid : Z).

(** A unicast entry has one port, a multicast entry gains or loses one. *)
Definition addr_step (q : addr_req) (t : addresses) : addresses :=
  match q with
  | FdbAdd port mac vid => set_entry (mac_key mac) vid (BIT port) t
  | FdbDel port mac vid => set_entry (mac_key mac) vid 0 t
  | MdbAdd port mac vid => set_entry (mac_key mac) vid (t (mac_key mac) vid .| BIT port) t
  | MdbDel port mac vid => set_entry (mac_key mac) vid (Z.ldiff (t (mac_key mac) vid) (BIT port)) t
  end.
Definition addr_do (q : addr_req) : M addresses Z := fun t => (Ok 0, addr_step q t).

Definition addr_req_ok (q : addr_req) : Prop :=
  match q with
  | FdbAdd port mac vid | FdbDel port mac vid | MdbAdd port mac vid | MdbDel port mac vid =>
      0 <= port < 6 /\ mac_ok mac /\ 0 <= vid < 4096
  end.

Section Handlers.
Context {W : Type} {R : Regmap W} {HW : An8855Hw W}.

Implicit Types (s : an8855_priv W) (V : view).

Definition driver_do (q : addr_req) : M (an8855_priv W) Z :=
  match q with
  | FdbAdd port mac vid => code (an8855_port_fdb_add port mac vid)
  | FdbDel port mac vid => code (an8855_port_fdb_del port mac vid)
  | MdbAdd port mac vid => code (an8855_port_mdb_add port mac vid)
  | MdbDel port mac vid => code (an8855_port_mdb_del port mac vid)
  end.

(** The entries of the switch, each for ports it has. *)
Definition entries_of V (t : addresses) : Prop :=
  forall mac vid, 0 <= vid < 4096 -> v_fdb V mac vid = t mac vid /\ 0 <= t mac vid < 64.
Definition addr_at s (t : addresses) : Prop := reg_mutex s = false /\ exists V, shows (an_map s) V /\ entries_of V t.

(** The operands of a command. *)
Lemma run_fdb_write s0 V s vid ports mac (add : bool) (Q : unit -> an8855_priv W -> Prop) : at_view s0 V s -> mac_ok mac ->
  0 <= vid < 4096 -> 0 <= ports < 64 ->
  (forall s' V', at_view s0 V' s' -> v_fdb V' = v_fdb V -> fdb_mac_of V' = mac_key mac -> fdb_vid_of V' = vid ->
     fdb_ports_of V' = (if add then ports else 0) -> Q tt s') ->
  wp (an8855_fdb_write vid ports mac add) Q never s.
Proof.
  intros H Hmac Hv Hp Hq. unfold an8855_fdb_write. cbv zeta. fold (mac_word1 mac). fold (mac_word2 mac).
  apply wp_bind, wp_ignore, wp_no_error. eapply an_write2; [exact H | plain_solve | plain_solve | unfold mac_word1; range_solve | unfold mac_word2; range_solve |]. intros s1 H1.
  apply wp_bind, wp_ignore, wp_no_error. eapply an_write; [exact H1 | plain_solve | destruct add; range_solve |]. intros s2 H2.
  apply wp_ignore, wp_no_error. eapply an_write; [exact H2 | plain_solve | range_solve |]. intros s3 H3.
  eapply Hq; [exact H3 | reflexivity | | |].
  - unfold fdb_mac_of. cbn [set_reg v_reg]. rewrite !upd_ne by discriminate. change AN8855_ATA2 with (AN8855_ATA1 + 4).
    rewrite upd_eq, !upd_ne, upd_eq by discriminate. apply mac_words, Hmac.
  - unfold fdb_vid_of. cbn [set_reg v_reg]. rewrite upd_ne, upd_eq by discriminate.
    destruct add; repeat field_step; cbn; rewrite ?Z.lor_0_r; apply Z.mod_small; lia.
  - unfold fdb_ports_of. cbn [set_reg v_reg]. rewrite upd_eq, upd_ne, upd_eq by discriminate.
    replace (cbool _) with add.
    + destruct add; [| reflexivity]. repeat field_step. apply Z.mod_small. lia.
    + change AN8855_ATWD_VLD with (BIT 0). rewrite cbool_land_BIT by lia. unfold AN8855_ATWD_VID, AN8855_ATWD_FID.
      destruct add; rewrite !Z.lor_spec, !testbit_FIELD_PREP by lia; reflexivity.
Qed.

(** Write an entry of the table. *)
Lemma run_entry s0 V s vid ports mac (add : bool) (Q : unit -> an8855_priv W -> Prop) : at_view s0 V s -> mac_ok mac ->
  0 <= vid < 4096 -> 0 <= ports < 64 ->
  (forall s' V', at_view s0 V' s' -> v_fdb V' = set_entry (mac_key mac) vid (if add then ports else 0) (v_fdb V) -> Q tt s') ->
  wp (an8855_fdb_write vid ports mac add ;; an8855_fdb_cmd AN8855_FDB_WRITE ;; ret tt) Q never s.
Proof.
  intros H Hmac Hv Hp Hq. apply wp_bind. eapply run_fdb_write; [exact H | exact Hmac | exact Hv | exact Hp |].
  intros s1 V1 H1 E1 E2 E3 E4. apply wp_bind. eapply an_fdb_write; [exact H1 |]. intros v s2 H2. apply wp_ret.
  eapply Hq; [exact H2 |]. cbn [set_fdb v_fdb]. rewrite E1, E2, E3, E4. reflexivity.
Qed.

(** Look up the ports of an entry. *)
Lemma run_ports s0 V s vid mac (k : Z -> M (an8855_priv W) unit) (Q : unit -> an8855_priv W -> Prop) t : at_view s0 V s -> mac_ok mac -> 0 <= vid < 4096 -> entries_of V t ->
  (forall s' V', at_view s0 V' s' -> v_fdb V' = v_fdb V -> wp (k (t (mac_key mac) vid)) Q never s') ->
  wp (an8855_fdb_write vid 0 mac false ;; port_mask <- mdb_ports ;; k port_mask) Q never s.
Proof.
  intros H Hmac Hv Ht Hq. apply wp_bind. eapply run_fdb_write; [exact H | exact Hmac | exact Hv | lia |].
  intros s1 V1 H1 E1 E2 E3 _. apply wp_bind, wp_bind, wp_catch, wp_no_error. eapply an_fdb_read; [exact H1 |]. intros v s2 H2.
  apply wp_bind. eapply an_atrd3; [exact H2 |]. intros s3 H3. apply wp_ret. cbn [set_reg v_reg]. rewrite upd_eq, E1, E2, E3.
  destruct (Ht (mac_key mac) vid Hv) as [-> Hr]. unfold AN8855_ATRD3_PORTMASK.
  replace (FIELD_GET (GENMASK 7 0) (t (mac_key mac) vid)) with (t (mac_key mac) vid).
  - rewrite u8_small by lia. eapply Hq; [exact H3 | exact E1].
  - unfold FIELD_GET. rewrite bf_shf_GENMASK, Z.shiftr_0_r by lia. change (GENMASK 7 0) with (Z.ones 8).
    rewrite Z.land_ones, Z.mod_small by lia. reflexivity.
Qed.

Lemma vid_or_default vid : (if negb (cbool vid) then AN8855_PORT_VID_DEFAULT else vid) = vid.
Proof. unfold cbool. destruct (Z.eqb_spec vid 0) as [-> |]; reflexivity. Qed.

Lemma set_entry_holds V V' t mac vid ports : v_fdb V' = set_entry mac vid ports (v_fdb V) -> 0 <= ports < 64 -> entries_of V t ->
  entries_of V' (set_entry mac vid ports t).
Proof.
  intros E Hp H m i Hi. rewrite E. unfold set_entry, upd. destruct (m =? mac); [destruct (i =? vid); [auto |] |]; apply H, Hi.
Qed.

(** A handler is a body under the lock that leaves the entries [t']. *)
Lemma run_handler s t t' (m : M (an8855_priv W) unit) : addr_at s t ->
  (forall V s1 (Q : unit -> an8855_priv W -> Prop), at_view (with_mutex true s) V s1 -> entries_of V t ->
     (forall s2 V', at_view (with_mutex true s) V' s2 -> entries_of V' t' -> Q tt s2) -> wp m Q never s1) ->
  wp (code (locked m)) (fun r s' => r = 0 /\ addr_at s' t') never s.
Proof.
  intros [Hm (V & H & Ht)] Hb. apply wp_code, wp_no_error. eapply (an_locked m _ s V); [apply at_view_refl, H | exact Hm |].
  intros s1 H1. eapply Hb; [exact H1 | exact Ht |]. intros s2 V2 H2 Ht2. exists V2. split; [exact H2 |].
  intros s3 [E3 H3]. split; [reflexivity |]. split; [rewrite E3; exact Hm |]. exists V2. auto.
Qed.

Lemma driver_do_sim q : addr_req_ok q -> sim addr_at anything (driver_do q) (addr_do q).
Proof.
  intros Hq. apply sim_of_wp. intros s t H. cbn [addr_do fst snd].
  eapply (wp_mono _ (fun r s' => r = 0 /\ addr_at s' (addr_step q t)) _ never);
    [| intros r s' [-> H']; split; [reflexivity | split; [exact H' | exact I]] | intros ? ? []].
  destruct q as [port mac vid | port mac vid | port mac vid | port mac vid]; destruct Hq as (Hp & Hmac & Hv);
    assert (Hb : 0 <= BIT port < 2 ^ 6) by (apply BIT_range; lia);
    cbn [driver_do addr_step]; unfold an8855_port_fdb_add, an8855_port_fdb_del, an8855_port_mdb_add, an8855_port_mdb_del;
    rewrite vid_or_default, ?(u8_small (BIT port)) by lia; cbv zeta; apply (run_handler s t); try exact H; intros V s1 Q H1 Ht HQ.
  - eapply run_entry; [exact H1 | exact Hmac | exact Hv | exact Hb |]. intros s2 V2 H2 E. eapply HQ; [exact H2 |].
    eapply set_entry_holds; [exact E | exact Hb | exact Ht].
  - eapply run_entry; [exact H1 | exact Hmac | exact Hv | exact Hb |]. intros s2 V2 H2 E. eapply HQ; [exact H2 |].
    eapply set_entry_holds; [exact E | lia | exact Ht].
  - eapply run_ports; [exact H1 | exact Hmac | exact Hv | exact Ht |]. intros s2 V2 H2 E.
    assert (Hr : 0 <= t (mac_key mac) vid .| BIT port < 2 ^ 6) by (apply lor_range; [lia | apply (proj2 (Ht _ _ Hv)) | exact Hb]).
    rewrite u8_small by lia. eapply run_entry; [exact H2 | exact Hmac | exact Hv | exact Hr |]. intros s3 V3 H3 E3. rewrite E in E3.
    eapply HQ; [exact H3 |]. eapply set_entry_holds; [exact E3 | exact Hr | exact Ht].
  - eapply run_ports; [exact H1 | exact Hmac | exact Hv | exact Ht |]. intros s2 V2 H2 E.
    assert (Hr : 0 <= Z.ldiff (t (mac_key mac) vid) (BIT port) < 2 ^ 6) by (apply ldiff_range; [lia | apply (proj2 (Ht _ _ Hv))]).
    rewrite u8_small by lia. eapply run_entry; [exact H2 | exact Hmac | exact Hv | exact Hr |]. intros s3 V3 H3 E3.
    replace (if cbool _ then _ else 0) with (Z.ldiff (t (mac_key mac) vid) (BIT port)) in E3
      by (unfold cbool; destruct (Z.eqb_spec (Z.ldiff (t (mac_key mac) vid) (BIT port)) 0) as [-> |]; reflexivity).
    rewrite E in E3. eapply HQ; [exact H3 |]. eapply set_entry_holds; [exact E3 | exact Hr | exact Ht].
Qed.

(** C10: the forwarding entries of the AN8855.  For every sequence of
    additions and removals of unicast and multicast entries, the driver
    answers 0 and the switch holds, for every address and VLAN, the ports the
    table says: the port last added of a unicast entry, and of a multicast
    entry the ports added and not removed since, the entry itself disappearing
    with its last port; the lock is free afterwards. *)
Theorem an8855_addresses_implement_table qs (s : an8855_priv W) (t : addresses) : addr_at s t -> Forall addr_req_ok qs ->
  exists answers s' t', run_all driver_do qs s = (Ok answers, s') /\ run_all addr_do qs t = (Ok answers, t') /\ addr_at s' t'.
Proof.
  intros H Hq. apply (run_all_refines addr_at addr_req_ok); [exact driver_do_sim | | exact H | exact Hq].
  intros q v. eexists _, _. reflexivity.
Qed.
End Handlers.

Lemma board0_addr : addr_at board0 (fun _ _ => 0).
Proof. split; [reflexivity |]. exists view0. split; [apply board0_shows |]. intros mac vid _. cbn. lia. Qed.

Definition mac1 : list Z := [0x02; 0; 0; 0; 0; 0x01].
Definition mac2 : list Z := [0x33; 0x33; 0; 0; 0; 0xff].
Definition sample_addrs : list addr_req :=
  [FdbAdd 1 mac1 10; MdbAdd 2 mac2 10; FdbAdd 3 mac1 10; MdbAdd 4 mac2 10; MdbDel 2 mac2 10; FdbAdd 0 mac2 11; MdbDel 0 mac2 11].

Lemma an8855_addresses_implement_table_witness :
  (exists answers s' t', run_all driver_do sample_addrs board0 = (Ok answers, s') /\
     run_all addr_do sample_addrs (fun _ _ => 0) = (Ok answers, t') /\ addr_at s' t') /\
  (let f := chip_fdb (d_core (mfd_bus (an_map (snd (run_all driver_do sample_addrs board0))))) in
   (f 0x020000000001 10, f 0x3333000000ff 10, f 0x3333000000ff 11) = (8, 16, 0)).
Proof.
  split; [| vm_compute; reflexivity].
  apply (an8855_addresses_implement_table sample_addrs board0 (fun _ _ => 0)); [apply board0_addr |].
  repeat (apply Forall_cons_2 || apply Forall_nil_2); (split; [split; discriminate || reflexivity |]; split; [| split; discriminate || reflexivity]);
    (split; [reflexivity |]; repeat (apply Forall_cons_2 || apply Forall_nil_2); split; discriminate || reflexivity).
Defined.
