(* ===== verification/An8855DumpProps.v ===== *)
(** * Listing the addresses of the AN8855

    The search of the switch for the addresses of a port, as a class, and
    what [an8855_port_fdb_dump] hands to its caller. *)

From S2P Require Import Prelude CMonad Regmap An8855Regs An8855 An8855Hw An8855FdbProps.

(** ** A found entry in the result registers *)

Definition entry_ok (e : an8855_fdb) : Prop :=
  mac_ok (fdb_mac e) /\ 0 <= fdb_vid e < 4096 /\ 0 <= fdb_port_mask e < 256 /\ 0 <= fdb_aging e < 512 /\
  0 <= fdb_live e < 2 /\ 0 <= fdb_type e < 4 /\ 0 <= fdb_fid e < 16 /\ 0 <= fdb_ivl e < 2.

Definition word0 (e : an8855_fdb) : Z :=
  FIELD_PREP AN8855_ATRD0_FID (fdb_fid e) .| FIELD_PREP AN8855_ATRD0_VID (fdb_vid e) .| FIELD_PREP (GENMASK 9 9) (fdb_ivl e)
  .| FIELD_PREP AN8855_ATRD0_TYPE (fdb_type e) .| FIELD_PREP AN8855_ATRD0_ARP (if fdb_noarp e then 1 else 0)
  .| FIELD_PREP (GENMASK 0 0) (fdb_live e).
Definition word1 (e : an8855_fdb) : Z :=
  FIELD_PREP AN8855_ATRD1_MAC4 (geti 0 (fdb_mac e) 4) .| FIELD_PREP AN8855_ATRD1_MAC5 (geti 0 (fdb_mac e) 5)
  .| FIELD_PREP AN8855_ATRD1_AGING (fdb_aging e).
Definition word2 (e : an8855_fdb) : Z :=
  FIELD_PREP AN8855_ATRD2_MAC0 (geti 0 (fdb_mac e) 0) .| FIELD_PREP AN8855_ATRD2_MAC1 (geti 0 (fdb_mac e) 1)
  .| FIELD_PREP AN8855_ATRD2_MAC2 (geti 0 (fdb_mac e) 2) .| FIELD_PREP AN8855_ATRD2_MAC3 (geti 0 (fdb_mac e) 3).
Definition word3 (e : an8855_fdb) : Z := FIELD_PREP AN8855_ATRD3_PORTMASK (fdb_port_mask e).
Definition words_of (e : an8855_fdb) : list Z := [word0 e; word1 e; word2 e; word3 e].

(** The fields of the words are those of the entry. *)
Ltac entry_field := repeat field_step; rewrite ?Z.lor_0_r, ?Z.lor_0_l; apply Z.mod_small; cbn; lia.

Lemma word0_fields e : entry_ok e ->
  FIELD_GET AN8855_ATRD0_FID (word0 e) = fdb_fid e /\ FIELD_GET AN8855_ATRD0_VID (word0 e) = fdb_vid e /\
  FIELD_GET AN8855_ATRD0_IVL (word0 e) = fdb_ivl e /\ FIELD_GET AN8855_ATRD0_TYPE (word0 e) = fdb_type e /\
  cbool (FIELD_GET AN8855_ATRD0_ARP (word0 e)) = fdb_noarp e /\ FIELD_GET AN8855_ATRD0_LIVE (word0 e) = fdb_live e.
Proof.
  intros (_ & Hv & _ & _ & Hl & Ht & Hf & Hi). unfold word0.
  change AN8855_ATRD0_LIVE with (GENMASK 0 0). change AN8855_ATRD0_IVL with (GENMASK 9 9). split_and!; try entry_field.
  repeat field_step. destruct (fdb_noarp e); reflexivity.
Qed.

Lemma mac_fields e : entry_ok e ->
  [FIELD_GET AN8855_ATRD2_MAC0 (word2 e); FIELD_GET AN8855_ATRD2_MAC1 (word2 e); FIELD_GET AN8855_ATRD2_MAC2 (word2 e);
   FIELD_GET AN8855_ATRD2_MAC3 (word2 e); FIELD_GET AN8855_ATRD1_MAC4 (word1 e); FIELD_GET AN8855_ATRD1_MAC5 (word1 e)] = fdb_mac e.
Proof.
  intros ([Hn Hb] & _). unfold word1, word2. destruct (fdb_mac e) as [| m0 [| m1 [| m2 [| m3 [| m4 [| m5 [| ]]]]]]]; try discriminate Hn.
  rewrite !Forall_cons in Hb. destruct Hb as (H0 & H1 & H2 & H3 & H4 & H5 & _).
  change (geti 0 _ 0) with m0. change (geti 0 _ 1) with m1. change (geti 0 _ 2) with m2. change (geti 0 _ 3) with m3.
  change (geti 0 _ 4) with m4. change (geti 0 _ 5) with m5.
  f_equal; [entry_field |]. f_equal; [entry_field |]. f_equal; [entry_field |]. f_equal; [entry_field |]. f_equal; [entry_field |].
  f_equal. entry_field.
Qed.

Lemma word1_aging e : entry_ok e -> FIELD_GET AN8855_ATRD1_AGING (word1 e) = fdb_aging e.
Proof. intros (_ & _ & _ & Ha & _). unfold word1. entry_field. Qed.

Lemma word3_ports e : entry_ok e -> FIELD_GET AN8855_ATRD3_PORTMASK (word3 e) = fdb_port_mask e.
Proof. intros (_ & _ & Hp & _). unfold word3. entry_field. Qed.

(** ** The search

    The switch finds entries in banks of four; the search goes from bank to
    bank and ends with an answer without a hit. *)

Definition bank := Z -> option an8855_fdb.
Definition bank_mask (b : bank) : Z := fold_left (fun m i => m .| match b i with Some _ => BIT i | None => 0 end) (upto 4) 0.
Definition bank_ok (b : bank) : Prop :=
  bank_mask b <> 0 /\ forall i e, b i = Some e -> entry_ok e.

(** [Asked]: for the entries of a port; [Found]: the banks from here on;
    [Selected]: an entry of the first. *)
Inductive phase :=
| Asked (p : Z)
| Searching (l : list bank)
| Found (l : list bank)
| Selected (l : list bank) (i : Z).

Definition hits (l : list bank) : Z := match l with [] => 0 | b :: _ => bank_mask b end.
Definition search_cmd (c : Z) : Z := AN8855_ATC_BUSY .| (AN8855_ATC_MAT AND8855_FDB_MAT_MAC_PORT .| c).

Class AddressSearch (W : Type) {R : Regmap W} := {
  se_banks : Z -> list bank;   (* the entries of each port *)
  se_ready : W -> Prop;
  se_at : W -> phase -> Prop;
  se_ask w p Q : se_ready w -> 0 <= p < 6 -> (forall w', se_at w' (Asked p) -> Q tt w') ->
    wp (regmap_write AN8855_ATWD2 (FIELD_PREP AN8855_ATWD2_PORT (BIT p))) Q never w;
  se_start w p Q : se_at w (Asked p) -> (forall w', se_at w' (Searching (se_banks p)) -> Q tt w') ->
    wp (regmap_write AN8855_ATC (search_cmd AN8855_FDB_START)) Q never w;
  se_next w b l Q : se_at w (Found (b :: l)) -> (forall w', se_at w' (Searching l) -> Q tt w') ->
    wp (regmap_write AN8855_ATC (search_cmd AN8855_FDB_NEXT)) Q never w;
  se_wait w l Q : se_at w (Searching l) ->
    (forall v w', atc_idle v = true -> FIELD_GET AN8855_ATC_HIT v = hits l -> se_at w' (Found l) -> Q v w') ->
    wp (regmap_read_poll_timeout AN8855_ATC atc_idle 20 200000) Q never w;
  se_select w l i Q : se_at w (Found l) -> 0 <= i < 4 -> (forall w', se_at w' (Selected l i) -> Q tt w') ->
    wp (regmap_write AN8855_ATRDS (FIELD_PREP AN8855_ATRD_SEL i)) Q never w;
  se_words w b l i e Q : se_at w (Selected (b :: l) i) -> b i = Some e -> (forall w', se_at w' (Found (b :: l)) -> Q (words_of e) w') ->
    wp (regmap_bulk_read AN8855_ATRD0 4) Q never w
}.

Section Dump.
Context {W : Type} {R : Regmap W} {SE : AddressSearch W}.
Variable stack : Z -> Z.
Context {D : Type}.
Variable cb : list Z -> Z -> bool -> D -> Z * D.

Implicit Types (s : an8855_priv W) (b : bank) (l : list bank) (x : D).

(** The callback on the entries, up to the first it refuses. *)
Fixpoint report (es : list an8855_fdb) x : D :=
  match es with
  | [] => x
  | e :: es' => let (r, x') := cb (fdb_mac e) (fdb_vid e) (fdb_noarp e) x in if r <? 0 then x' else report es' x'
  end.

(** The live entries of a bank, from index [i] on. *)
Definition live_at b (i : Z) : list an8855_fdb := match b i with Some e => if cbool (fdb_live e) then [e] else [] | None => [] end.
Fixpoint live_from (n : nat) (i : Z) b : list an8855_fdb :=
  match n with O => [] | S n' => live_at b i ++ live_from n' (i + 1) b end.
Definition live b : list an8855_fdb := live_from 4 0 b.

Definition in_phase (s0 : an8855_priv W) (ph : phase) s : Prop := s = with_map (an_map s) s0 /\ se_at (an_map s) ph.

Lemma run_on_map {A} (m : M W A) (Q : A -> an8855_priv W -> Prop) s0 s : s = with_map (an_map s) s0 ->
  wp m (fun a w => forall s', s' = with_map w s0 -> Q a s') never (an_map s) -> wp (on_map m) Q never s.
Proof.
  intros Hs. unfold wp, on_map. destruct (m (an_map s)) as [[a | e] w]; [| auto]. intros H. apply H. rewrite Hs. reflexivity.
Qed.

Lemma run_search_cmd s0 c ph l s (Q : Z -> an8855_priv W -> Prop) : in_phase s0 ph s ->
  (forall Q' : unit -> W -> Prop, (forall w', se_at w' (Searching l) -> Q' tt w') -> wp (regmap_write AN8855_ATC (search_cmd c)) Q' never (an_map s)) ->
  (forall v s', FIELD_GET AN8855_ATC_HIT v = hits l -> in_phase s0 (Found l) s' -> Q v s') ->
  wp (an8855_fdb_cmd (AN8855_ATC_MAT AND8855_FDB_MAT_MAC_PORT .| c)) Q never s.
Proof.
  intros H Hc Hq. unfold an8855_fdb_cmd. apply wp_bind. eapply run_on_map; [apply H |]. apply Hc. intros w Hw s1 ->.
  eapply (run_on_map _ _ s0); [reflexivity |]. eapply se_wait; [exact Hw |].
  intros v w' _ Hv Hw' s2 ->. apply Hq; [exact Hv | split; [reflexivity | exact Hw']].
Qed.

(** Reading back the words gives the entry. *)
Lemma run_fdb_read s0 b l i e s (Q : an8855_fdb -> an8855_priv W -> Prop) : in_phase s0 (Selected (b :: l) i) s -> b i = Some e -> entry_ok e ->
  (forall s', in_phase s0 (Found (b :: l)) s' -> Q e s') -> wp (an8855_fdb_read stack) Q never s.
Proof.
  intros H He Hok Hq. unfold an8855_fdb_read. apply wp_bind, wp_unchecked, wp_no_error. eapply run_on_map; [apply H |].
  eapply se_words; [apply H | exact He |]. intros w Hw s1 ->. apply wp_ret. cbv zeta.
  change (geti 0 (words_of e) 0) with (word0 e). change (geti 0 (words_of e) 1) with (word1 e).
  change (geti 0 (words_of e) 2) with (word2 e). change (geti 0 (words_of e) 3) with (word3 e).
  destruct (word0_fields e Hok) as (-> & -> & -> & -> & -> & ->). rewrite (mac_fields e Hok), (word1_aging e Hok), (word3_ports e Hok).
  destruct e. apply Hq. split; [reflexivity | exact Hw].
Qed.

(** ** A bank *)

Lemma bank_mask_bit b i : 0 <= i < 4 -> cbool (Z.land (bank_mask b) (BIT i)) = match b i with Some _ => true | None => false end.
Proof.
  intros Hi. rewrite cbool_land_BIT by lia. unfold bank_mask. change (upto 4) with [0; 1; 2; 3]. cbn [fold_left].
  assert (i = 0 \/ i = 1 \/ i = 2 \/ i = 3) as [-> | [-> | [-> | ->]]] by lia; destruct (b 0), (b 1), (b 2), (b 3); reflexivity.
Qed.

Lemma run_bank s0 b l n : forall i d s, bank_ok b -> 0 <= i -> i + Z.of_nat n <= 4 -> in_phase s0 (Found (b :: l)) s ->
  wp (loop_while n i d (dump_entry stack cb (bank_mask b))) (fun r s' =>
    let d' := match r with inl d' => d' | inr d' => d' end in
    in_phase s0 (Found (b :: l)) s' /\ dump_data d' = report (live_from n i b) (dump_data d) /\
    dump_count d <= dump_count d' <= dump_count d + Z.of_nat n) never s.
Proof.
  induction n as [| n IH]; intros i d s Hb Hi Hn H; cbn [loop_while live_from].
  - apply wp_ret. split_and!; [exact H | reflexivity | lia | lia].
  - assert (Next : forall d1 s1, in_phase s0 (Found (b :: l)) s1 -> dump_count d1 = dump_count d + 1 ->
      dump_data d1 = report (live_at b i) (dump_data d) -> (report (live_at b i ++ live_from n (i + 1) b) (dump_data d) = report (live_from n (i + 1) b) (dump_data d1)) ->
      wp (loop_while n (i + 1) d1 (dump_entry stack cb (bank_mask b))) (fun r s' =>
        let d' := match r with inl d' => d' | inr d' => d' end in
        in_phase s0 (Found (b :: l)) s' /\ dump_data d' = report (live_at b i ++ live_from n (i + 1) b) (dump_data d) /\
        dump_count d <= dump_count d' <= dump_count d + Z.of_nat (S n)) never s1).
    { intros d1 s1 H1 Hc Hd Hr. eapply wp_mono; [apply IH; [exact Hb | lia | lia | exact H1] | | auto]. cbv zeta.
      intros r s' (Hp & Hd' & Hc'). split_and!; [exact Hp | rewrite Hd', Hr; reflexivity | lia | lia]. }
    apply wp_bind. unfold dump_entry. cbv zeta. rewrite bank_mask_bit by lia. cbn [dump_count dump_data]. unfold live_at in *.
    destruct (b i) as [e |] eqn:He; cbn [negb app]; [| apply wp_ret, Next; [exact H | reflexivity | reflexivity | reflexivity]].
    apply wp_bind, wp_code, wp_no_error. eapply run_on_map; [apply H |]. eapply se_select; [apply H | lia |]. intros w Hw s1 ->. cbn [cbool Z.eqb negb].
    apply wp_bind. eapply (run_fdb_read s0 b l i e); [split; [reflexivity | exact Hw] | exact He | apply (proj2 Hb i e He) |]. intros s2 H2.
    destruct (cbool (fdb_live e)); cbn [negb app]; [| apply wp_ret, Next; [exact H2 | reflexivity | reflexivity | reflexivity]].
    cbn [report]. destruct (cb (fdb_mac e) (fdb_vid e) (fdb_noarp e) (dump_data d)) as [r x'] eqn:Hr.
    destruct (r <? 0) eqn:Hr0; apply wp_ret; [apply wp_ret; cbn [dump_count dump_data]; split_and!; [exact H2 | reflexivity | lia | lia] |].
    cbn [app report] in Next. rewrite Hr, Hr0 in Next. apply Next; [exact H2 | reflexivity | reflexivity | reflexivity].
Qed.

(** ** All banks *)

Lemma run_banks s0 l : forall fuel v d s, Forall bank_ok l -> (length l < fuel)%nat -> dump_ret d = 0 ->
  dump_count d + 4 * Z.of_nat (length l) < 2048 -> FIELD_GET AN8855_ATC_HIT v = hits l -> in_phase s0 (Found l) s ->
  wp (dump_banks stack cb fuel v d) (fun d' s' => (exists ph, in_phase s0 ph s') /\ dump_ret d' = 0 /\
    dump_data d' = fold_left (fun x b => report (live b) x) l (dump_data d)) never s.
Proof.
  induction l as [| b l IH]; intros [| fuel] v d s Hl Hf Hr Hc Hv H; cbn [length] in *; try lia; cbn [dump_banks]; cbv zeta; rewrite Hv; cbn [hits].
  - apply wp_ret. split_and!; [eauto | exact Hr | reflexivity].
  - apply Forall_cons in Hl as [Hb Hl]. destruct (Z.eqb_spec (bank_mask b) 0) as [E | _]; [elim (proj1 Hb E) |].
    replace (cbool (bank_mask b)) with true by (unfold cbool; rewrite (proj2 (Z.eqb_neq _ _) (proj1 Hb)); reflexivity). cbn [negb].
    apply wp_bind. eapply wp_mono; [apply run_bank; [exact Hb | lia | lia | exact H] | | auto]. cbv zeta. intros r s1 (H1 & Hd & Hc1).
    set (d1 := match r with inl d => d | inr d => d end) in *. clearbody d1.
    destruct (Z.leb_spec AN8855_NUM_FDB_RECORDS (dump_count d1)) as [Hge |]; [change AN8855_NUM_FDB_RECORDS with 2048 in Hge; lia |].
    apply wp_bind, wp_catch. eapply wp_no_error, run_search_cmd; [exact H1 | intros Q' HQ'; eapply se_next; [apply H1 | exact HQ'] |].
    intros v2 s2 Hv2 H2. eapply wp_mono; [apply IH; [exact Hl | lia | reflexivity | cbn [dump_count]; lia | exact Hv2 | exact H2] | | auto].
    cbn [dump_data fold_left]. intros d2 s3 (Hp & Hr2 & Hd2). split_and!; [exact Hp | exact Hr2 |]. rewrite Hd2, Hd. reflexivity.
Qed.

(** C11: listing the addresses of a port of the AN8855.  If the switch has
    fewer than 512 banks of entries for the port, the listing ends, hands
    every live entry to the callback in the order the switch finds them, with
    its address, VLAN and flag as they are stored, returns 0 and releases the
    lock.  A callback that refuses an entry only skips the rest of its bank:
    the error is not returned and the listing goes on with the next bank. *)
Theorem an8855_dump_lists_entries port x (s : an8855_priv W) : se_ready (an_map s) -> 0 <= port < 6 ->
  Forall bank_ok (se_banks port) -> (length (se_banks port) < 512)%nat ->
  exists x' s', an8855_port_fdb_dump stack cb port x s = (Ok (0, x'), s') /\ reg_mutex s' = false /\
    x' = fold_left (fun x b => report (live b) x) (se_banks port) x /\
    ((forall mac vid noarp y, 0 <= fst (cb mac vid noarp y)) ->
       x' = fold_left (fun x e => snd (cb (fdb_mac e) (fdb_vid e) (fdb_noarp e) x)) (concat (map live (se_banks port))) x).
Proof.
  intros Hr Hp Hb Hl.
  assert (K : wp (an8855_port_fdb_dump stack cb port x)
    (fun r s' => reg_mutex s' = false /\ r = (0, fold_left (fun x b => report (live b) x) (se_banks port) x)) never s).
  { apply wp_under_lock. apply wp_bind, wp_catch, wp_bind, wp_no_error. eapply (run_on_map _ _ (with_mutex true s)); [destruct s; reflexivity |].
    eapply se_ask; [exact Hr | exact Hp |]. intros w Hw s1 ->. apply wp_no_error.
    eapply (run_search_cmd (with_mutex true s) _ (Asked port)); [split; [reflexivity | exact Hw] | intros Q' HQ'; eapply se_start; [exact Hw | exact HQ'] |].
    intros v s2 Hv H2. apply wp_bind.
    eapply wp_mono; [eapply (run_banks _ (se_banks port)) | | intros ? ? []];
      [exact Hb | change (Z.to_nat AN8855_NUM_FDB_RECORDS) with 2048%nat; lia | reflexivity | cbn [dump_count]; lia | exact Hv | exact H2 |].
    intros d s3 (_ & Hr0 & Hd). apply wp_ret. split; [reflexivity |]. rewrite Hr0, Hd. reflexivity. }
  apply wp_never in K as (r & s' & E & Hm' & ->). eexists _, s'. split; [exact E |]. split; [exact Hm' |]. split; [reflexivity |].
  intros Hcb. clear - Hcb. revert x. induction (se_banks port) as [| b l IH]; intros x; cbn [fold_left map concat]; [reflexivity |].
  rewrite fold_left_app, IH. f_equal. generalize (live b). clear - Hcb. intros es. revert x.
  induction es as [| e es IH]; intros x; cbn [report fold_left]; [reflexivity |]. specialize (Hcb (fdb_mac e) (fdb_vid e) (fdb_noarp e) x).
  destruct (cb _ _ _ x) as [r x']. cbn [fst snd] in *. destruct (Z.ltb_spec r 0); [lia | apply IH].
Qed.
End Dump.

(** ** A switch to search *)

Definition entry_at (vid live : Z) (port : Z) : an8855_fdb := Fdb vid (BIT port) 3 [2; 0; 0; 0; 0; vid] false live 0 1 1.

(** Port 1 has two banks: one with a dead entry among three, one with one. *)
Definition sample_banks (port : Z) : list bank :=
  if port =? 1 then
    [fun i => if i =? 0 then Some (entry_at 10 1 port) else if i =? 2 then Some (entry_at 20 0 port) else if i =? 3 then Some (entry_at 30 1 port) else None;
     fun i => if i =? 1 then Some (entry_at 40 1 port) else None]
  else [].

#[export] Instance phase_map : Regmap phase := {|
  regmap_read a := ret 0;
  regmap_write a x := fun ph =>
    (Ok tt, if a =? AN8855_ATWD2 then Asked (Z.log2 x)
            else if a =? AN8855_ATC then
              match ph with Asked p => Searching (sample_banks p) | Found (_ :: l) => Searching l | _ => ph end
            else match ph with Found l => Selected l x | _ => ph end);
  regmap_update_bits a m x := ret tt;
  regmap_set_bits a x := ret tt;
  regmap_clear_bits a x := ret tt;
  regmap_bulk_read a n := fun ph =>
    match ph with
    | Selected (b :: l) i => (Ok (match b i with Some e => words_of e | None => [0; 0; 0; 0] end), Found (b :: l))
    | _ => (Ok [0; 0; 0; 0], ph)
    end;
  regmap_bulk_write a l := ret tt;
  regmap_read_poll_timeout a cond us timeout := fun ph =>
    match ph with Searching l => (Ok (FIELD_PREP AN8855_ATC_HIT (hits l)), Found l) | _ => (Err (-110), ph) end
|}.

Lemma hits_range l : 0 <= hits l < 16.
Proof.
  destruct l as [| b l]; [cbn; lia |]. cbn [hits]. unfold bank_mask. change (upto 4) with [0; 1; 2; 3]. cbn [fold_left].
  destruct (b 0), (b 1), (b 2), (b 3); vm_compute; split; discriminate || reflexivity.
Qed.

#[export] Instance phase_search : AddressSearch phase.
Proof.
  refine {| se_banks := sample_banks; se_ready _ := True; se_at ph ph' := ph = ph' |}.
  - intros w p Q _ Hp Hq. apply Hq. assert (p = 0 \/ p = 1 \/ p = 2 \/ p = 3 \/ p = 4 \/ p = 5) as [-> | [-> | [-> | [-> | [-> | ->]]]]] by lia; reflexivity.
  - intros w p Q -> Hq. apply Hq. reflexivity.
  - intros w b l Q -> Hq. apply Hq. reflexivity.
  - intros w l Q -> Hq. pose proof (hits_range l) as Hr. apply Hq; [| | reflexivity].
    + unfold atc_idle. change AN8855_ATC_BUSY with (BIT 31). rewrite cbool_land_BIT by lia. unfold AN8855_ATC_HIT.
      rewrite testbit_FIELD_PREP by lia. reflexivity.
    + repeat field_step. apply Z.mod_small. exact Hr.
  - intros w l i Q -> Hi Hq. apply Hq. cbn. f_equal. assert (i = 0 \/ i = 1 \/ i = 2 \/ i = 3) as [-> | [-> | [-> | ->]]] by lia; reflexivity.
  - intros w b l i e Q -> He Hq. unfold wp. cbn. rewrite He. apply Hq. reflexivity.
Defined.

(** A callback that notes the VLANs and refuses entries of VLAN 30. *)
Definition note_vid (mac : list Z) (vid : Z) (noarp : bool) (x : list Z) : Z * list Z := if vid =? 30 then (-28, x) else (0, x ++ [vid]).
Definition searcher : an8855_priv phase := AnPriv 0 0 0 false false (Found []).

Lemma an8855_dump_lists_entries_witness :
  (exists x' s', an8855_port_fdb_dump (fun _ => 0) note_vid 1 [] searcher = (Ok (0, x'), s') /\ reg_mutex s' = false /\
     x' = fold_left (fun x b => report note_vid (live b) x) (sample_banks 1) [] /\
     ((forall mac vid noarp y, 0 <= fst (note_vid mac vid noarp y)) ->
        x' = fold_left (fun x e => snd (note_vid (fdb_mac e) (fdb_vid e) (fdb_noarp e) x)) (concat (map live (sample_banks 1))) [])) /\
  fst (an8855_port_fdb_dump (fun _ => 0) note_vid 1 [] searcher) = Ok (0, [10; 40]).
Proof.
  split; [| vm_compute; reflexivity].
  apply (an8855_dump_lists_entries (SE := phase_search) (fun _ => 0) note_vid 1 [] searcher); [exact I | split; discriminate || reflexivity | | cbn; lia].
  assert (E : forall vid lv, 0 <= vid < 256 -> 0 <= lv < 2 -> entry_ok (entry_at vid lv 1)).
  { intros vid lv Hv Hl. unfold entry_ok, entry_at, mac_ok. cbn [fdb_mac fdb_vid fdb_port_mask fdb_aging fdb_live fdb_type fdb_fid fdb_ivl].
    change (BIT 1) with 2. split_and!; try lia; [reflexivity | repeat (apply Forall_cons_2 || apply Forall_nil_2); lia]. }
  repeat (apply Forall_cons_2 || apply Forall_nil_2); (split; [discriminate |]); intros i e.
  - destruct (i =? 0); [intros [= <-]; apply E; lia |]. destruct (i =? 2); [intros [= <-]; apply E; lia |].
    destruct (i =? 3); [intros [= <-]; apply E; lia | discriminate].
  - destruct (i =? 1); [intros [= <-]; apply E; lia | discriminate].
Defined.
