(* ===== verification/An8855SetupProps.v ===== *)
(** * The AN8855 after set-up

    [an8855_setup] leaves every user port closed but for the CPU port. *)

From S2P Require Import Prelude CMonad Regmap An8855Mfd An8855MfdProps An8855Regs An8855 An8855Setup An8855Hw An8855Stack.

(** A user port: disabled, open to the CPU port only, nothing is flooded to
    it, and it is in the default VLAN. *)
Definition isolated (V : view) (p : Z) : Prop :=
  v_reg V (AN8855_PORTMATRIX_P p) = BIT AN8855_CPU_PORT /\
  Z.land (v_reg V (AN8855_PMCR_P p)) (AN8855_PMCR_TX_EN .| AN8855_PMCR_RX_EN) = 0 /\
  Z.testbit (v_reg V AN8855_BCF) p = false /\ Z.testbit (v_reg V AN8855_UNUF) p = false /\
  Z.testbit (v_reg V AN8855_UNMF) p = false /\ Z.testbit (v_reg V AN8855_UNIPMF) p = false /\
  FIELD_GET AN8855_PPBV_G0_PORT_VID (v_reg V (AN8855_PPBV1_P p)) = AN8855_PORT_VID_DEFAULT /\
  FIELD_GET AN8855_G0_PORT_VID (v_reg V (AN8855_PVID_P p)) = AN8855_PORT_VID_DEFAULT.

(** The CPU port: open to the user ports, and everything is flooded to it. *)
Definition cpu_open (ds : dsa_switch) (V : view) : Prop :=
  v_reg V (AN8855_PORTMATRIX_P AN8855_CPU_PORT) = FIELD_PREP AN8855_PORTMATRIX (dsa_user_ports ds) /\
  FIELD_GET AN8855_PORT_VLAN (v_reg V (AN8855_PCR_P AN8855_CPU_PORT)) = AN8855_PORT_FALLBACK_MODE /\
  Z.testbit (v_reg V AN8855_BCF) 5 = true /\ Z.testbit (v_reg V AN8855_UNUF) 5 = true /\
  v_reg V AN8855_UNMF = BIT AN8855_CPU_PORT /\ Z.testbit (v_reg V AN8855_UNIPMF) 5 = true.

(** No learning; frames leave as they came. *)
Definition quiet (V : view) (p : Z) : Prop :=
  Z.testbit (v_reg V (AN8855_PSC_P p)) 4 = true /\ FIELD_GET AN8855_PVC_EG_TAG (v_reg V (AN8855_PVC_P p)) = AN8855_VLAN_EG_CONSISTENT.

Ltac setup_distinct :=
  unfold AN8855_PCR_P, AN8855_PSC_P, AN8855_PVC_P, AN8855_PVID_P, AN8855_PPBV1_P, AN8855_PMCR_P, AN8855_PORTMATRIX_P, AN8855_CPU_PORT,
    AN8855_UNUF, AN8855_UNMF, AN8855_UNIPMF, AN8855_BCF, AN8855_MFC, AN8855_BPC, AN8855_PAC, AN8855_RGAC1, AN8855_VAWD0, AN8855_CKGCR,
    AN8855_RG_GPHY_AFE_PWD in *; lia.
(** Look registers up, from the last write back. *)
Ltac setup_reg :=
  repeat match goal with
  | |- context [v_reg (set_vlan ?i ?x ?V) ?b] => change (v_reg (set_vlan i x V) b) with (v_reg V b)
  | |- context [v_reg (set_reg ?a ?x ?V) ?a] => rewrite (reg_same a x V)
  | |- context [v_reg (set_reg ?a ?x ?V) ?b] => rewrite (reg_other a x V b) by setup_distinct
  end.

(** One register operation of the driver. *)
Ltac an_op H s :=
  lazymatch goal with
  | |- wp (bind _ _) _ _ _ => apply wp_bind; an_op H s
  | |- wp (regmap_write _ _) _ _ _ => eapply an_write; [exact H | plain_solve | range_solve |]; clear s H; intros s H
  | |- wp (regmap_set_bits _ _) _ _ _ => eapply an_set_bits; [exact H | plain_solve | range_solve |]; clear s H; intros s H
  | |- wp (regmap_clear_bits _ _) _ _ _ => eapply an_clear_bits; [exact H | plain_solve | range_solve |]; clear s H; intros s H
  | |- wp (regmap_update_bits _ _ _) _ _ _ => eapply an_update; [exact H | plain_solve | range_solve | range_solve | within_solve |]; clear s H; intros s H
  end.

Lemma land_ldiff_same x m : Z.land m (Z.ldiff x m) = 0.
Proof. apply Z.bits_inj'. intros k Hk. rewrite Z.land_spec, Z.ldiff_spec, Z.testbit_0_l. destruct (Z.testbit m k), (Z.testbit x k); reflexivity. Qed.

Lemma testbit_cleared x p : 0 <= p -> Z.testbit (Z.ldiff x (BIT p)) p = false.
Proof. intros H. rewrite Z.ldiff_spec, testbit_BIT, Z.eqb_refl, andb_false_r by exact H. reflexivity. Qed.

Section Handlers.
Context {W : Type} {R : Regmap W} {HW : An8855Hw W}.

Implicit Types (s : an8855_priv W) (V : view).

Lemma run_setup_user_port s0 V s index (Q : unit -> an8855_priv W -> Prop) : 0 <= index < 5 -> at_view s0 V s ->
  (forall s' V', at_view s0 V' s' -> isolated V' index -> (forall p, 0 <= p < 5 -> isolated V p -> isolated V' p) -> Q tt s') ->
  wp (setup_user_port index) Q never s.
Proof.
  intros Hi H Hq. unfold setup_user_port, an8855_port_set_status, an8855_port_set_pid.
  do 8 an_op H s. match type of H with at_view _ ?V' _ => assert (HS : isolated V' index) end.
  - unfold isolated. setup_reg. split_and!; try (apply testbit_cleared; lia); try (repeat field_step); try reflexivity.
    rewrite Z.land_comm. apply land_ldiff_same.
  - eapply Hq; [exact H | exact HS |]. intros p Hp HI. destruct (Z.eq_dec p index) as [-> | Hne]; [exact HS |]. clear HS.
    unfold isolated in *. setup_reg. destruct HI as (F1 & F2 & F3 & F4 & F5 & F6 & F7 & F8).
    split_and!; try assumption; rewrite Z.ldiff_spec, ?F3, ?F4, ?F5, ?F6; reflexivity.
Qed.

(** All user ports. *)
Lemma run_user_ports s0 V s l (Q : unit -> an8855_priv W -> Prop) : Forall (fun p => 0 <= p < 5) l -> at_view s0 V s ->
  (forall s' V', at_view s0 V' s' -> (forall p, In p l -> isolated V' p) -> Q tt s') -> wp (each l setup_user_port) Q never s.
Proof.
  intros Hl H Hq. apply (wp_each_acc (fun done _ s' => exists V', at_view s0 V' s' /\ forall p, In p done -> isolated V' p)).
  - exists V. split; [exact H | intros p []].
  - intros done x todo [] s1 E (V1 & H1 & Hd). rewrite E, Forall_app, Forall_cons in Hl. destruct Hl as (Hdone & Hx & _).
    eapply run_setup_user_port; [exact Hx | exact H1 |]. intros s2 V2 H2 Hi Hk. exists V2. split; [exact H2 |]. intros p Hp.
    apply in_app_iff in Hp as [Hp | [<- | []]]; [| exact Hi]. apply Hk; [| apply Hd, Hp]. rewrite Forall_forall in Hdone. apply Hdone, list_elem_of_In, Hp.
  - intros [] s1 (V1 & H1 & Hd). eapply Hq; eassumption.
Qed.

(** The traps are in registers of their own. *)
Lemma run_trap_special_frames s0 V s (Q : unit -> an8855_priv W -> Prop) : at_view s0 V s ->
  (forall s' V', at_view s0 V' s' -> (forall a, ~ In a [AN8855_BPC; AN8855_PAC; AN8855_RGAC1] -> v_reg V' a = v_reg V a) -> Q tt s') ->
  wp an8855_trap_special_frames Q never s.
Proof.
  intros H Hq. unfold an8855_trap_special_frames. do 6 an_op H s. eapply Hq; [exact H |].
  intros a Ha. cbn [In] in Ha. rewrite !reg_other by (intros ->; tauto). reflexivity.
Qed.

(** A register is none of those. *)
Ltac no_trap := cbn [In]; intros Hin; unfold AN8855_BPC, AN8855_PAC, AN8855_RGAC1 in Hin; setup_distinct.

(** The CPU port; the registers of the user ports and their bits stay. *)
Lemma run_setup_cpu_port s0 V s ds (Q : unit -> an8855_priv W -> Prop) : at_view s0 V s ->
  (forall s' V', at_view s0 V' s' -> cpu_open ds V' -> (forall p, 0 <= p < 5 -> isolated V p -> isolated V' p) -> Q tt s') ->
  wp (setup_cpu_port ds) Q never s.
Proof.
  intros H Hq. unfold setup_cpu_port. do 9 an_op H s.
  eapply run_trap_special_frames; [exact H |]. clear s H. intros s V' H Hf. eapply Hq; [exact H | |].
  - unfold cpu_open. rewrite !Hf by no_trap. setup_reg. change (BIT AN8855_CPU_PORT) with (BIT 5). split_and!; try reflexivity.
    + repeat field_step. reflexivity.
    + rewrite Z.lor_spec. apply orb_true_r.
    + rewrite Z.lor_spec. apply orb_true_r.
    + rewrite Z.lor_spec. apply orb_true_r.
  - intros p Hp (F1 & F2 & F3 & F4 & F5 & F6 & F7 & F8). unfold isolated. rewrite !Hf by no_trap. setup_reg.
    change (BIT AN8855_CPU_PORT) with (BIT 5). split_and!; try assumption; rewrite ?Z.lor_spec, ?F3, ?F4, ?F6, !testbit_BIT by lia; lia.
Qed.

Lemma run_setup_port s0 V s ds index (Q : unit -> an8855_priv W -> Prop) : 0 <= index < 6 -> at_view s0 V s ->
  (forall s' V', at_view s0 V' s' -> quiet V' index -> (forall p, 0 <= p < 6 -> quiet V p -> quiet V' p) ->
     (forall p, 0 <= p < 5 -> isolated V p -> isolated V' p) -> (cpu_open ds V -> cpu_open ds V') -> Q tt s') ->
  wp (setup_port index) Q never s.
Proof.
  intros Hi H Hq. unfold setup_port. an_op H s. an_op H s. match type of H with at_view _ ?V' _ => assert (HS : quiet V' index) end.
  - unfold quiet. setup_reg. split; [change AN8855_SA_DIS with (BIT 4); rewrite Z.lor_spec; apply orb_true_r | repeat field_step; reflexivity].
  - eapply Hq; [exact H | exact HS | | |].
    + intros p Hp HI. destruct (Z.eq_dec p index) as [-> | Hne]; [exact HS |]. unfold quiet in *. setup_reg. exact HI.
    + intros p Hp HI. unfold isolated in *. setup_reg. exact HI.
    + unfold cpu_open. setup_reg. auto.
Qed.

Lemma run_all_ports s0 V s ds l (us : list Z) (Q : unit -> an8855_priv W -> Prop) : Forall (fun p => 0 <= p < 6) l -> at_view s0 V s ->
  Forall (fun p => 0 <= p < 5) us -> (forall p, In p us -> isolated V p) -> cpu_open ds V ->
  (forall s' V', at_view s0 V' s' -> (forall p, In p l -> quiet V' p) -> (forall p, In p us -> isolated V' p) -> cpu_open ds V' -> Q tt s') ->
  wp (each l setup_port) Q never s.
Proof.
  intros Hl H Hus Hiso Hcpu Hq. rewrite Forall_forall in Hus.
  apply (wp_each_acc (fun done _ s' => exists V', at_view s0 V' s' /\ (forall p, In p done -> quiet V' p) /\
    (forall p, In p us -> isolated V' p) /\ cpu_open ds V')).
  - exists V. split_and!; [exact H | intros p [] | exact Hiso | exact Hcpu].
  - intros done x todo [] s1 E (V1 & H1 & Hd & Hi & Hc). rewrite E, Forall_app, Forall_cons in Hl. destruct Hl as (Hdone & Hx & _).
    eapply (run_setup_port _ _ _ ds); [exact Hx | exact H1 |]. intros s2 V2 H2 Hqu Hk Hk2 Hk3. exists V2. split_and!; [exact H2 | | | apply Hk3, Hc].
    + intros p Hp. apply in_app_iff in Hp as [Hp | [<- | []]]; [| exact Hqu]. apply Hk; [| apply Hd, Hp]. rewrite Forall_forall in Hdone. apply Hdone, list_elem_of_In, Hp.
    + intros p Hp. apply Hk2; [apply Hus, list_elem_of_In, Hp | apply Hi, Hp].
  - intros [] s1 (V1 & H1 & Hd & Hi & Hc). eapply Hq; eassumption.
Qed.

(** The word of the default VLAN: all ports, sharing the bridge's addresses. *)
Definition default_vlan : Z :=
  AN8855_VA0_IVL_MAC .| AN8855_VA0_EG_CON .| FIELD_PREP AN8855_VA0_FID AN8855_FID_BRIDGED .| AN8855_VA0_PORT .| AN8855_VA0_VLAN_VALID.

(** C12: the AN8855 after set-up.  Whatever its registers held, set-up
    succeeds and leaves every user port disabled, open to the CPU port only,
    without flooding and in the default VLAN; the CPU port open to the user
    ports and flooded with everything; no port learning addresses; and the
    default VLAN with all ports. *)
Theorem an8855_setup_isolates ds s V : shows (an_map s) V ->
  Forall (fun p => 0 <= p < 5) (user_ports ds) -> Forall (fun p => 0 <= p < 6) (all_ports ds) ->
  exists settings s' V', an8855_setup ds s = (Ok settings, s') /\ at_view s V' s' /\
    (forall p, In p (user_ports ds) -> isolated V' p) /\ cpu_open ds V' /\ (forall p, In p (all_ports ds) -> quiet V' p) /\
    v_vlan V' AN8855_PORT_VID_DEFAULT = default_vlan /\ ageing_time_max settings = 1071121408.
Proof.
  intros H0 Hu Ha.
  assert (K : wp (an8855_setup ds) (fun settings s' => exists V', at_view s V' s' /\
    (forall p, In p (user_ports ds) -> isolated V' p) /\ cpu_open ds V' /\ (forall p, In p (all_ports ds) -> quiet V' p) /\
    v_vlan V' AN8855_PORT_VID_DEFAULT = default_vlan /\ ageing_time_max settings = 1071121408) never s).
  { pose proof (at_view_refl s V H0) as H. revert H. generalize s at 2 4. clear H0. intros s1 H. unfold an8855_setup, an8855_mib_init.
    apply wp_bind. do 2 an_op H s1. apply wp_bind. eapply run_user_ports; [exact Hu | exact H |]. clear s1 H. intros s1 V1 H Hi.
    apply wp_bind. eapply run_setup_cpu_port; [exact H |]. clear s1 H. intros s1 V2 H Hc Hk.
    apply wp_bind. eapply (run_all_ports _ _ _ ds _ (user_ports ds)); [exact Ha | exact H | exact Hu | | exact Hc |].
    { intros p Hp. apply Hk; [| apply Hi, Hp]. rewrite Forall_forall in Hu. apply Hu, list_elem_of_In, Hp. }
    clear s1 H. intros s1 V3 H Hq Hi3 Hc3. unfold an8855_setup_pvid_vlan. apply wp_bind. an_op H s1.
    eapply an_vlan_store; [exact H | split; discriminate || reflexivity |]. clear s1 H. intros s1 H. do 2 an_op H s1.
    apply wp_bind. eapply an_fdb_flush; [exact H |]. clear s1 H. intros _ s1 f H. apply wp_ret. eexists. split; [exact H |].
    rewrite Forall_forall in Hu, Ha. split_and!.
    - intros p Hp. specialize (Hi3 p Hp). pose proof (Hu p (proj2 (list_elem_of_In _ _) Hp)) as Hp5. unfold isolated in *.
      cbn [v_reg]. setup_reg. exact Hi3.
    - unfold cpu_open in *. cbn [v_reg]. setup_reg. exact Hc3.
    - intros p Hp. specialize (Hq p Hp). pose proof (Ha p (proj2 (list_elem_of_In _ _) Hp)) as Hp5. unfold quiet in *. cbn [v_reg]. setup_reg. exact Hq.
    - cbn [v_vlan set_reg set_vlan]. rewrite upd_eq. apply reg_same.
    - reflexivity. }
  apply wp_never in K as (settings & s' & E & V' & H'). exists settings, s', V'. split; [exact E | exact H'].
Qed.
End Handlers.

Lemma an8855_setup_isolates_witness :
  (exists settings s' V', an8855_setup (dsa0 false) board0 = (Ok settings, s') /\ at_view board0 V' s' /\
     (forall p, In p (user_ports (dsa0 false)) -> isolated V' p) /\ cpu_open (dsa0 false) V' /\
     (forall p, In p (all_ports (dsa0 false)) -> quiet V' p) /\
     v_vlan V' AN8855_PORT_VID_DEFAULT = default_vlan /\ ageing_time_max settings = 1071121408) /\
  (let c := d_core (mfd_bus (an_map (snd (an8855_setup (dsa0 false) board0)))) in
   map (fun p => chip_reg c (AN8855_PORTMATRIX_P p)) (upto 6) = [32; 32; 32; 32; 32; 31]).
Proof.
  split; [| vm_compute; reflexivity].
  apply (an8855_setup_isolates (dsa0 false) board0 view0); [apply board0_shows | |].
  all: repeat (apply Forall_cons_2 || apply Forall_nil_2); split; discriminate || reflexivity.
Defined.
