(* ===== verification/An8855Props.v ===== *)
(** * Links of the AN8855

    What [an8855_phylink_mac_link_up] leaves in the control register of a
    port. *)

From S2P Require Import Prelude CMonad Regmap An8855Mfd An8855MfdProps An8855Regs An8855 An8855Setup An8855Link An8855Hw An8855Stack.

(** The speed field for a speed, and the flow control bits. *)
Definition speed_field (speed : Z) : Z :=
  if speed =? SPEED_10 then AN8855_PMCR_FORCE_SPEED_10 else if speed =? SPEED_100 then AN8855_PMCR_FORCE_SPEED_100
  else if speed =? SPEED_1000 then AN8855_PMCR_FORCE_SPEED_1000 else if speed =? SPEED_2500 then AN8855_PMCR_FORCE_SPEED_2500 else 0.

(** The register of a port whose link is up by force. *)
Definition forced_link (speed : Z) (full pause : bool) : Z :=
  AN8855_PMCR_FORCE_MODE .| AN8855_PMCR_FORCE_LNK .| AN8855_PMCR_TX_EN .| AN8855_PMCR_RX_EN .| speed_field speed
  .| (if full then AN8855_PMCR_FORCE_FDX else 0) .| (if pause then AN8855_PMCR_RX_FC_EN .| AN8855_PMCR_TX_FC_EN else 0).

Lemma link_up_reg_value inband is_cpu speed duplex tx_pause rx_pause :
  link_up_reg 0 inband is_cpu speed duplex tx_pause rx_pause =
    if inband then Some (AN8855_PMCR_TX_EN .| AN8855_PMCR_RX_EN)
    else if speed =? SPEED_5000 then None
    else Some (forced_link speed (duplex =? DUPLEX_FULL) (rx_pause || is_cpu)).
Proof.
  unfold link_up_reg, forced_link, speed_field. destruct inband; [reflexivity |].
  destruct (speed =? SPEED_5000); [reflexivity |]. f_equal.
  destruct (speed =? SPEED_10), (speed =? SPEED_100), (speed =? SPEED_1000), (speed =? SPEED_2500), (duplex =? DUPLEX_FULL), (rx_pause || is_cpu);
    reflexivity.
Qed.

Section Handlers.
Context {W : Type} {R : Regmap W} {HW : An8855Hw W}.

(** Bringing up a link of the AN8855.  Whatever the register of the port
    held, the bits [an8855_phylink_mac_config] sets included, bringing the
    link up by force writes the mode, link and enable bits, the speed and
    duplex asked for, both flow controls if pause frames are to be received or
    the port is the CPU's, and nothing else: the value the driver means to
    read and modify is lost, and with it everything set before. *)
Theorem an8855_link_up_register port is_cpu speed duplex tx_pause rx_pause (s : an8855_priv W) V :
  shows (an_map s) V -> 0 <= port < 6 -> speed <> SPEED_5000 ->
  exists s' V', bind (an8855_phylink_mac_config port) (fun _ => an8855_phylink_mac_link_up port false is_cpu speed duplex tx_pause rx_pause) s = (Ok tt, s') /\
    at_view s V' s' /\
    v_reg V' (AN8855_PMCR_P port) = forced_link speed (duplex =? DUPLEX_FULL) (rx_pause || is_cpu) /\
    (forall a, a <> AN8855_PMCR_P port -> v_reg V' a = v_reg V a) /\
    Z.land (v_reg V' (AN8855_PMCR_P port)) (AN8855_PMCR_IFG_XMIT .| AN8855_PMCR_MAC_MODE .| AN8855_PMCR_BACKOFF_EN .| AN8855_PMCR_BACKPR_EN) = 0.
Proof.
  intros H Hp Hs.
  assert (K : wp (bind (an8855_phylink_mac_config port) (fun _ => an8855_phylink_mac_link_up port false is_cpu speed duplex tx_pause rx_pause))
    (fun _ s' => exists V1, (forall a, a <> AN8855_PMCR_P port -> v_reg V1 a = v_reg V a) /\
       at_view s (set_reg (AN8855_PMCR_P port) (forced_link speed (duplex =? DUPLEX_FULL) (rx_pause || is_cpu)) V1) s') never s).
  { assert (Up : forall s1 V1, at_view s V1 s1 -> (forall a, a <> AN8855_PMCR_P port -> v_reg V1 a = v_reg V a) ->
      wp (an8855_phylink_mac_link_up port false is_cpu speed duplex tx_pause rx_pause) (fun _ s' => exists V1, (forall a, a <> AN8855_PMCR_P port -> v_reg V1 a = v_reg V a) /\
       at_view s (set_reg (AN8855_PMCR_P port) (forced_link speed (duplex =? DUPLEX_FULL) (rx_pause || is_cpu)) V1) s') never s1).
    { intros s1 V1 H1 Hf. unfold an8855_phylink_mac_link_up. apply wp_bind, wp_code, wp_no_error.
      eapply an_read; [exact H1 | plain_solve |]. intros s2 H2. change (u32 0) with 0. cbv zeta. rewrite link_up_reg_value.
      rewrite (proj2 (Z.eqb_neq _ _) Hs). apply wp_ignore, wp_no_error. eapply an_write; [exact H2 | plain_solve | |].
      - unfold forced_link, speed_field. repeat match goal with |- context [if ?b then _ else _] => destruct b end; split; reflexivity || discriminate.
      - intros s3 H3. eexists. split; [exact Hf | exact H3]. }
    apply wp_bind. unfold an8855_phylink_mac_config. destruct (Z.eqb_spec port 5); cbn [negb]; [| apply wp_ret, (Up s V); [apply at_view_refl, H | auto]].
    apply wp_ignore, wp_no_error. eapply an_update; [apply at_view_refl, H | plain_solve | split; reflexivity || discriminate .. | reflexivity |].
    intros s1 H1. eapply Up; [exact H1 |]. intros a Ha. cbn [set_reg v_reg]. apply upd_ne, Ha. }
  apply wp_never in K as ([] & s' & E & V1 & Hf & H'). eexists s', _. split; [exact E |]. split; [exact H' |]. cbn [set_reg v_reg].
  rewrite upd_eq. split_and!; [reflexivity | intros a Ha; rewrite upd_ne by exact Ha; apply Hf, Ha |].
  unfold forced_link, speed_field. repeat match goal with |- context [if ?b then _ else _] => destruct b end; reflexivity.
Qed.
End Handlers.

Lemma an8855_link_up_register_witness :
  exists s' V', bind (an8855_phylink_mac_config 5) (fun _ => an8855_phylink_mac_link_up 5 false true 2500 1 false false) board0 = (Ok tt, s') /\
    at_view board0 V' s' /\
    v_reg V' (AN8855_PMCR_P 5) = forced_link 2500 (1 =? DUPLEX_FULL) (false || true) /\
    (forall a, a <> AN8855_PMCR_P 5 -> v_reg V' a = v_reg view0 a) /\
    Z.land (v_reg V' (AN8855_PMCR_P 5)) (AN8855_PMCR_IFG_XMIT .| AN8855_PMCR_MAC_MODE .| AN8855_PMCR_BACKOFF_EN .| AN8855_PMCR_BACKPR_EN) = 0.
Proof.
  apply (an8855_link_up_register 5 true 2500 1 false false board0 view0); [apply board0_shows | split; discriminate || reflexivity | discriminate].
Defined.

(** * Ageing time and frame length of the AN8855

    What the two handlers leave in their registers, and for which requests
    that is what was asked for. *)

(** ** Ageing *)

(** The time a register value stands for, in units of 1024 ms: the unit
    counts from one. *)
Definition age_time (x : Z) : Z := FIELD_GET AN8855_AGE_CNT x * (FIELD_GET AN8855_AGE_UNIT x + 1).

(** The largest time [an8855_setup] lets through. *)
Definition max_age_msecs : Z := FIELD_MAX AN8855_AGE_CNT * FIELD_MAX AN8855_AGE_UNIT * AN8855_L2_AGING_MS_CONSTANT.

(** The time the fields get: the count is cut to nine bits. *)
Definition cut_time (val : Z) : Z := let unit := val / 2047 in (val / (unit + 1)) mod 512 * (unit + 1).

Lemma cut_time_exact val : 0 <= val -> cut_time val = val <-> val < 512.
Proof.
  intros Hv. unfold cut_time. cbv zeta. split.
  - intros E. destruct (Z.lt_ge_cases val 512) as [| Hge]; [assumption |]. exfalso.
    pose proof (Z.mod_pos_bound (val / (val / 2047 + 1)) 512 ltac:(lia)) as Hm.
    destruct (Z.lt_ge_cases val 2047).
    + rewrite (Z.div_small val 2047) in * by lia. rewrite Z.div_1_r in *. lia.
    + pose proof (Z.div_mod val 2047 ltac:(lia)). pose proof (Z.mod_pos_bound val 2047 ltac:(lia)).
      pose proof (Z.div_le_lower_bound val 2047 1 ltac:(lia) ltac:(lia)).
      assert ((val / (val / 2047 + 1)) mod 512 * (val / 2047 + 1) <= 511 * (val / 2047 + 1)) by (apply Z.mul_le_mono_nonneg_r; lia). lia.
  - intros H. rewrite (Z.div_small val 2047) by lia. change (0 + 1) with 1. rewrite Z.div_1_r, Z.mod_small, Z.mul_1_r by lia. reflexivity.
Qed.

(** ** Frame length *)

(** The longest frame a register value lets in: by the length field, or the
    jumbo field. *)
Definition jumbo_limit (n : Z) : Z :=
  if n =? 10 then 12288 else if n =? 11 then 15360 else if n =? 12 then 16384 else if n =? 0 then 2048 else 1024 * n.
Definition frame_limit (x : Z) : Z :=
  let n := FIELD_GET AN8855_MAX_RX_PKT_LEN x in
  if n =? 0 then 1522 else if n =? 1 then 1536 else if n =? 2 then 1552 else jumbo_limit (FIELD_GET AN8855_MAX_RX_JUMBO x).

(** The limits the driver uses. *)
Definition limits : list Z := [1522; 1536; 1552; 3072; 4096; 5120; 6144; 7168; 8192; 9216; 12288; 15360; 16384].

(** The value the driver programs for a length. *)
Definition rx_value (length : Z) : Z :=
  let val :=
    if length <=? 1522 then AN8855_MAX_RX_PKT_1518_1522
    else if length <=? 1536 then AN8855_MAX_RX_PKT_1536
    else if length <=? 1552 then AN8855_MAX_RX_PKT_1552
    else if length <=? 3072 then AN8855_MAX_RX_JUMBO_3K
    else if length <=? 4096 then AN8855_MAX_RX_JUMBO_4K
    else if length <=? 5120 then AN8855_MAX_RX_JUMBO_5K
    else if length <=? 6144 then AN8855_MAX_RX_JUMBO_6K
    else if length <=? 7168 then AN8855_MAX_RX_JUMBO_7K
    else if length <=? 8192 then AN8855_MAX_RX_JUMBO_8K
    else if length <=? 9216 then AN8855_MAX_RX_JUMBO_9K
    else if length <=? 12288 then AN8855_MAX_RX_JUMBO_12K
    else if length <=? 15360 then AN8855_MAX_RX_JUMBO_15K
    else AN8855_MAX_RX_JUMBO_16K in
  if 1552 <? length then val .| AN8855_MAX_RX_PKT_JUMBO else val.

Definition rx_mask : Z := AN8855_MAX_RX_JUMBO .| AN8855_MAX_RX_PKT_LEN.

Lemma limit_of_fields y v : frame_limit (Z.ldiff y rx_mask .| v) = frame_limit v.
Proof.
  unfold frame_limit. rewrite !FIELD_GET_lor, !(FIELD_GET_ldiff_in _ rx_mask) by reflexivity. reflexivity.
Qed.

(** The least limit that lets the frame in; each case of the chain is a
    constant. *)
Lemma rx_value_limit length : 0 <= length <= 16384 ->
  0 <= rx_value length < 2 ^ 32 /\ Z.ldiff (rx_value length) rx_mask = 0 /\
  In (frame_limit (rx_value length)) limits /\ length <= frame_limit (rx_value length) /\
  forall l, In l limits -> length <= l -> frame_limit (rx_value length) <= l.
Proof.
  intros H. unfold rx_value.
  repeat match goal with |- context [length <=? ?c] => destruct (Z.leb_spec length c) end;
    try (rewrite (proj2 (Z.ltb_ge 1552 length)) by lia); try (rewrite (proj2 (Z.ltb_lt 1552 length)) by lia).
  all: split_and!; try reflexivity; try discriminate; try lia.
  all: match goal with
       | |- In (frame_limit ?v) limits => let c := eval vm_compute in (frame_limit v) in change (frame_limit v) with c; cbn [limits In]; lia
       | |- _ <= frame_limit ?v => let c := eval vm_compute in (frame_limit v) in change (frame_limit v) with c; lia
       | |- forall l, _ -> _ -> frame_limit ?v <= _ => let c := eval vm_compute in (frame_limit v) in change (frame_limit v) with c;
           cbn [limits In]; intros l Hl Hle; lia
       end.
Qed.

Section Handlers.
Context {W : Type} {R : Regmap W} {HW : An8855Hw W}.

Implicit Types (s : an8855_priv W) (V : view).

(** Setting the ageing time of the AN8855.  For every time the switch
    framework lets through, the handler succeeds and the time the switch ages
    by is the one asked for, in whole units of 1024 ms, exactly if it is less
    than 512 of them (524 s): a longer time loses the upper bits of its count
    and is programmed too short. *)
Theorem an8855_ageing_time msecs s V : shows (an_map s) V -> 0 <= msecs <= max_age_msecs ->
  exists s' V', an8855_set_ageing_time msecs s = (Ok tt, s') /\ at_view s V' s' /\
    age_time (v_reg V' AN8855_AAC) = cut_time (msecs / 1024) /\
    (age_time (v_reg V' AN8855_AAC) = msecs / 1024 <-> msecs < 524288).
Proof.
  intros H Hm.
  assert (Hv : 0 <= msecs / 1024 <= 511 * 2047) by (split; [apply Z.div_pos; lia | apply Z.div_le_upper_bound; [lia |]; change max_age_msecs with (511 * 2047 * 1024) in Hm; lia]).
  assert (K : wp (an8855_set_ageing_time msecs) (fun _ s' => exists V', at_view s V' s' /\
    age_time (v_reg V' AN8855_AAC) = cut_time (msecs / 1024)) never s).
  { unfold an8855_set_ageing_time. change AN8855_L2_AGING_MS_CONSTANT with 1024. change (FIELD_MAX AN8855_AGE_UNIT) with 2047.
    set (val := msecs / 1024) in *. eapply an_update; [apply at_view_refl, H | plain_solve | range_solve | range_solve | within_solve |].
    intros s' H'. eexists. split; [exact H' |]. cbn [set_reg v_reg]. rewrite upd_eq. unfold age_time, cut_time.
    repeat field_step. cbn [Z.lor Z.sub Z.add Z.opp Z.pos_sub Pos.add]. rewrite Z.lor_0_l, Z.lor_0_r.
    rewrite (Z.mod_small (val / 2047)); [reflexivity |]. split; [apply Z.div_pos; lia |]. apply Z.div_lt_upper_bound; lia. }
  apply wp_never in K as ([] & s' & E & V' & H' & Ht). exists s', V'. split_and!; [exact E | exact H' | exact Ht |].
  rewrite Ht, cut_time_exact by lia. split; intros B.
  - pose proof (Z.div_mod msecs 1024 ltac:(lia)). pose proof (Z.mod_pos_bound msecs 1024 ltac:(lia)). lia.
  - apply Z.div_lt_upper_bound; lia.
Qed.

(** The frame length of the AN8855.  For every MTU up to the largest the
    driver announces, setting it on the CPU port succeeds, lets in exactly
    the frames up to the least of the driver's limits that the whole frame
    (Ethernet header, switch tag and checksum included) fits in, and changes
    nothing else of the register; on another port nothing happens. *)
Theorem an8855_mtu_fits ds port new_mtu s V : shows (an_map s) V -> 0 <= new_mtu <= an8855_port_max_mtu ->
  exists s' V', an8855_port_change_mtu ds port new_mtu s = (Ok tt, s') /\ at_view s V' s' /\
    let limit := frame_limit (v_reg V' AN8855_GMACCR) in
    if dsa_is_cpu_port ds port then
      new_mtu + 22 <= limit /\ In limit limits /\ (forall l, In l limits -> new_mtu + 22 <= l -> limit <= l) /\
      Z.ldiff (v_reg V' AN8855_GMACCR) rx_mask = Z.ldiff (v_reg V AN8855_GMACCR) rx_mask
    else V' = V.
Proof.
  intros H Hm. change an8855_port_max_mtu with 15338 in Hm. unfold an8855_port_change_mtu.
  destruct (dsa_is_cpu_port ds port); cbn [negb]; [| exists s, V; split_and!; [reflexivity | apply at_view_refl, H | reflexivity]].
  replace (new_mtu + ETH_HLEN + MTK_TAG_LEN + ETH_FCS_LEN) with (new_mtu + 22) by (unfold ETH_HLEN, MTK_TAG_LEN, ETH_FCS_LEN; lia).
  cbv zeta. fold rx_mask. fold (rx_value (new_mtu + 22)). destruct (rx_value_limit (new_mtu + 22) ltac:(lia)) as (R1 & R2 & R3 & R4 & R5).
  generalize dependent (rx_value (new_mtu + 22)). intros v R1 R2 R3 R4 R5.
  assert (K : wp (regmap_update_bits AN8855_GMACCR rx_mask v) (fun _ s' => at_view s (set_reg AN8855_GMACCR (Z.ldiff (v_reg V AN8855_GMACCR) rx_mask .| v) V) s') never s).
  { eapply an_update; [apply at_view_refl, H | plain_solve | split; reflexivity || discriminate | exact R1 | exact R2 | auto]. }
  apply wp_never in K as ([] & s' & E & H'). eexists s', _. split; [exact E |]. split; [exact H' |]. cbn [set_reg v_reg]. rewrite upd_eq.
  rewrite limit_of_fields. split_and!; try assumption.
  apply Z.bits_inj'. intros k Hk. apply (f_equal (fun z => Z.testbit z k)) in R2. rewrite Z.ldiff_spec, Z.testbit_0_l in R2.
  rewrite !Z.ldiff_spec, Z.lor_spec, Z.ldiff_spec. destruct (Z.testbit v k), (Z.testbit rx_mask k), (Z.testbit (v_reg V AN8855_GMACCR) k); reflexivity || discriminate.
Qed.
End Handlers.

(** Ten minutes are programmed as 73 units, a little over a minute. *)
Lemma an8855_ageing_time_witness :
  (exists s' V', an8855_set_ageing_time 600000 board0 = (Ok tt, s') /\ at_view board0 V' s' /\
     age_time (v_reg V' AN8855_AAC) = cut_time (600000 / 1024) /\
     (age_time (v_reg V' AN8855_AAC) = 600000 / 1024 <-> 600000 < 524288)) /\
  age_time (chip_reg (d_core (mfd_bus (an_map (snd (an8855_set_ageing_time 600000 board0))))) AN8855_AAC) = 73.
Proof.
  split; [| vm_compute; reflexivity].
  apply (an8855_ageing_time 600000 board0 view0); [apply board0_shows | split; discriminate].
Defined.

Lemma an8855_mtu_fits_witness :
  (exists s' V', an8855_port_change_mtu (dsa0 false) 5 1500 board0 = (Ok tt, s') /\ at_view board0 V' s' /\
     let limit := frame_limit (v_reg V' AN8855_GMACCR) in
     if dsa_is_cpu_port (dsa0 false) 5 then
       1500 + 22 <= limit /\ In limit limits /\ (forall l, In l limits -> 1500 + 22 <= l -> limit <= l) /\
       Z.ldiff (v_reg V' AN8855_GMACCR) rx_mask = Z.ldiff (v_reg view0 AN8855_GMACCR) rx_mask
     else V' = view0) /\
  map (fun m => frame_limit (chip_reg (d_core (mfd_bus (an_map (snd (an8855_port_change_mtu (dsa0 false) 5 m board0))))) AN8855_GMACCR))
    [1500; 1501; 2000; 9000; 15338] = [1522; 1536; 3072; 9216; 15360].
Proof.
  split; [| vm_compute; reflexivity].
  apply (an8855_mtu_fits (dsa0 false) 5 1500 board0 view0); [apply board0_shows | split; discriminate].
Defined.
