(* ===== verification/Rk3328Dmc.v ===== *)
(** * DRAM frequency scaling of the RK3328: [rk3328_dmc.c]

    The driver hands the timings of the device tree to the firmware in a
    shared page and changes the DRAM clock together with its voltage. *)

From S2P Require Import Prelude CMonad.

Definition EPROBE_DEFER : Z := 517.

(** ** The shared pages

    32-bit words.  The first page holds [struct share_params], whose fields
    are one word each, the second [struct rk3328_ddr_dts_config_timing]. *)

Definition DTS_PAR_OFFSET : Z := 4096.
Definition share_params : list string := [
  "hz"; "lcdc_type"; "vop"; "vop_dclk_mode"; "sr_idle_en"; "addr_mcu_el3"; "wait_flag1"; "wait_flag0"; "complt_hwirq" ].

(** [soc/rockchip/rockchip_sip.h] *)
Definition ROCKCHIP_SIP_DRAM_FREQ : Z := 0x82000008.
Definition ROCKCHIP_SIP_SHARE_MEM : Z := 0x82000009.
Definition ROCKCHIP_SIP_CONFIG_DRAM_INIT : Z := 0x00.
Definition ROCKCHIP_SIP_CONFIG_DRAM_SET_AT_SR : Z := 0x03.
Definition ROCKCHIP_SIP_CONFIG_DRAM_GET_VERSION : Z := 0x08.
Definition SHARE_PAGE_TYPE_DDR : Z := 2.

Definition rk3328_dts_timing : list string := [
  "ddr3_speed_bin"; "ddr4_speed_bin"; "pd_idle"; "sr_idle"; "sr_mc_gate_idle"; "srpd_lite_idle"; "standby_idle";
  "auto_pd_dis_freq"; "auto_sr_dis_freq"; "ddr3_dll_dis_freq"; "ddr4_dll_dis_freq"; "phy_dll_dis_freq";
  "ddr3_odt_dis_freq"; "phy_ddr3_odt_dis_freq"; "ddr3_drv"; "ddr3_odt"; "phy_ddr3_ca_drv"; "phy_ddr3_ck_drv";
  "phy_ddr3_dq_drv"; "phy_ddr3_odt"; "lpddr3_odt_dis_freq"; "phy_lpddr3_odt_dis_freq"; "lpddr3_drv"; "lpddr3_odt";
  "phy_lpddr3_ca_drv"; "phy_lpddr3_ck_drv"; "phy_lpddr3_dq_drv"; "phy_lpddr3_odt"; "lpddr4_odt_dis_freq";
  "phy_lpddr4_odt_dis_freq"; "lpddr4_drv"; "lpddr4_dq_odt"; "lpddr4_ca_odt"; "phy_lpddr4_ca_drv";
  "phy_lpddr4_ck_cs_drv"; "phy_lpddr4_dq_drv"; "phy_lpddr4_odt"; "ddr4_odt_dis_freq"; "phy_ddr4_odt_dis_freq";
  "ddr4_drv"; "ddr4_odt"; "phy_ddr4_ca_drv"; "phy_ddr4_ck_drv"; "phy_ddr4_dq_drv"; "phy_ddr4_odt" ].

Definition rk3328_dts_ca_timing : list string := [
  "ddr3a1_ddr4a9_de-skew"; "ddr3a0_ddr4a10_de-skew"; "ddr3a3_ddr4a6_de-skew"; "ddr3a2_ddr4a4_de-skew";
  "ddr3a5_ddr4a8_de-skew"; "ddr3a4_ddr4a5_de-skew"; "ddr3a7_ddr4a11_de-skew"; "ddr3a6_ddr4a7_de-skew";
  "ddr3a9_ddr4a0_de-skew"; "ddr3a8_ddr4a13_de-skew"; "ddr3a11_ddr4a3_de-skew"; "ddr3a10_ddr4cs0_de-skew";
  "ddr3a13_ddr4a2_de-skew"; "ddr3a12_ddr4ba1_de-skew"; "ddr3a15_ddr4odt0_de-skew"; "ddr3a14_ddr4a1_de-skew";
  "ddr3ba1_ddr4a15_de-skew"; "ddr3ba0_ddr4bg0_de-skew"; "ddr3ras_ddr4cke_de-skew"; "ddr3ba2_ddr4ba0_de-skew";
  "ddr3we_ddr4bg1_de-skew"; "ddr3cas_ddr4a12_de-skew"; "ddr3ckn_ddr4ckn_de-skew"; "ddr3ckp_ddr4ckp_de-skew";
  "ddr3cke_ddr4a16_de-skew"; "ddr3odt0_ddr4a14_de-skew"; "ddr3cs0_ddr4act_de-skew"; "ddr3reset_ddr4reset_de-skew";
  "ddr3cs1_ddr4cs1_de-skew"; "ddr3odt1_ddr4odt1_de-skew" ].

Definition rk3328_dts_cs0_timing : list string := [
  "cs0_dm0_rx_de-skew"; "cs0_dm0_tx_de-skew"; "cs0_dq0_rx_de-skew"; "cs0_dq0_tx_de-skew"; "cs0_dq1_rx_de-skew";
  "cs0_dq1_tx_de-skew"; "cs0_dq2_rx_de-skew"; "cs0_dq2_tx_de-skew"; "cs0_dq3_rx_de-skew"; "cs0_dq3_tx_de-skew";
  "cs0_dq4_rx_de-skew"; "cs0_dq4_tx_de-skew"; "cs0_dq5_rx_de-skew"; "cs0_dq5_tx_de-skew"; "cs0_dq6_rx_de-skew";
  "cs0_dq6_tx_de-skew"; "cs0_dq7_rx_de-skew"; "cs0_dq7_tx_de-skew"; "cs0_dqs0_rx_de-skew"; "cs0_dqs0p_tx_de-skew";
  "cs0_dqs0n_tx_de-skew"; "cs0_dm1_rx_de-skew"; "cs0_dm1_tx_de-skew"; "cs0_dq8_rx_de-skew"; "cs0_dq8_tx_de-skew";
  "cs0_dq9_rx_de-skew"; "cs0_dq9_tx_de-skew"; "cs0_dq10_rx_de-skew"; "cs0_dq10_tx_de-skew"; "cs0_dq11_rx_de-skew";
  "cs0_dq11_tx_de-skew"; "cs0_dq12_rx_de-skew"; "cs0_dq12_tx_de-skew"; "cs0_dq13_rx_de-skew"; "cs0_dq13_tx_de-skew";
  "cs0_dq14_rx_de-skew"; "cs0_dq14_tx_de-skew"; "cs0_dq15_rx_de-skew"; "cs0_dq15_tx_de-skew"; "cs0_dqs1_rx_de-skew";
  "cs0_dqs1p_tx_de-skew"; "cs0_dqs1n_tx_de-skew"; "cs0_dm2_rx_de-skew"; "cs0_dm2_tx_de-skew"; "cs0_dq16_rx_de-skew";
  "cs0_dq16_tx_de-skew"; "cs0_dq17_rx_de-skew"; "cs0_dq17_tx_de-skew"; "cs0_dq18_rx_de-skew"; "cs0_dq18_tx_de-skew";
  "cs0_dq19_rx_de-skew"; "cs0_dq19_tx_de-skew"; "cs0_dq20_rx_de-skew"; "cs0_dq20_tx_de-skew"; "cs0_dq21_rx_de-skew";
  "cs0_dq21_tx_de-skew"; "cs0_dq22_rx_de-skew"; "cs0_dq22_tx_de-skew"; "cs0_dq23_rx_de-skew"; "cs0_dq23_tx_de-skew";
  "cs0_dqs2_rx_de-skew"; "cs0_dqs2p_tx_de-skew"; "cs0_dqs2n_tx_de-skew"; "cs0_dm3_rx_de-skew"; "cs0_dm3_tx_de-skew";
  "cs0_dq24_rx_de-skew"; "cs0_dq24_tx_de-skew"; "cs0_dq25_rx_de-skew"; "cs0_dq25_tx_de-skew"; "cs0_dq26_rx_de-skew";
  "cs0_dq26_tx_de-skew"; "cs0_dq27_rx_de-skew"; "cs0_dq27_tx_de-skew"; "cs0_dq28_rx_de-skew"; "cs0_dq28_tx_de-skew";
  "cs0_dq29_rx_de-skew"; "cs0_dq29_tx_de-skew"; "cs0_dq30_rx_de-skew"; "cs0_dq30_tx_de-skew"; "cs0_dq31_rx_de-skew";
  "cs0_dq31_tx_de-skew"; "cs0_dqs3_rx_de-skew"; "cs0_dqs3p_tx_de-skew"; "cs0_dqs3n_tx_de-skew" ].

Definition rk3328_dts_cs1_timing : list string := [
  "cs1_dm0_rx_de-skew"; "cs1_dm0_tx_de-skew"; "cs1_dq0_rx_de-skew"; "cs1_dq0_tx_de-skew"; "cs1_dq1_rx_de-skew";
  "cs1_dq1_tx_de-skew"; "cs1_dq2_rx_de-skew"; "cs1_dq2_tx_de-skew"; "cs1_dq3_rx_de-skew"; "cs1_dq3_tx_de-skew";
  "cs1_dq4_rx_de-skew"; "cs1_dq4_tx_de-skew"; "cs1_dq5_rx_de-skew"; "cs1_dq5_tx_de-skew"; "cs1_dq6_rx_de-skew";
  "cs1_dq6_tx_de-skew"; "cs1_dq7_rx_de-skew"; "cs1_dq7_tx_de-skew"; "cs1_dqs0_rx_de-skew"; "cs1_dqs0p_tx_de-skew";
  "cs1_dqs0n_tx_de-skew"; "cs1_dm1_rx_de-skew"; "cs1_dm1_tx_de-skew"; "cs1_dq8_rx_de-skew"; "cs1_dq8_tx_de-skew";
  "cs1_dq9_rx_de-skew"; "cs1_dq9_tx_de-skew"; "cs1_dq10_rx_de-skew"; "cs1_dq10_tx_de-skew"; "cs1_dq11_rx_de-skew";
  "cs1_dq11_tx_de-skew"; "cs1_dq12_rx_de-skew"; "cs1_dq12_tx_de-skew"; "cs1_dq13_rx_de-skew"; "cs1_dq13_tx_de-skew";
  "cs1_dq14_rx_de-skew"; "cs1_dq14_tx_de-skew"; "cs1_dq15_rx_de-skew"; "cs1_dq15_tx_de-skew"; "cs1_dqs1_rx_de-skew";
  "cs1_dqs1p_tx_de-skew"; "cs1_dqs1n_tx_de-skew"; "cs1_dm2_rx_de-skew"; "cs1_dm2_tx_de-skew"; "cs1_dq16_rx_de-skew";
  "cs1_dq16_tx_de-skew"; "cs1_dq17_rx_de-skew"; "cs1_dq17_tx_de-skew"; "cs1_dq18_rx_de-skew"; "cs1_dq18_tx_de-skew";
  "cs1_dq19_rx_de-skew"; "cs1_dq19_tx_de-skew"; "cs1_dq20_rx_de-skew"; "cs1_dq20_tx_de-skew"; "cs1_dq21_rx_de-skew";
  "cs1_dq21_tx_de-skew"; "cs1_dq22_rx_de-skew"; "cs1_dq22_tx_de-skew"; "cs1_dq23_rx_de-skew"; "cs1_dq23_tx_de-skew";
  "cs1_dqs2_rx_de-skew"; "cs1_dqs2p_tx_de-skew"; "cs1_dqs2n_tx_de-skew"; "cs1_dm3_rx_de-skew"; "cs1_dm3_tx_de-skew";
  "cs1_dq24_rx_de-skew"; "cs1_dq24_tx_de-skew"; "cs1_dq25_rx_de-skew"; "cs1_dq25_tx_de-skew"; "cs1_dq26_rx_de-skew";
  "cs1_dq26_tx_de-skew"; "cs1_dq27_rx_de-skew"; "cs1_dq27_tx_de-skew"; "cs1_dq28_rx_de-skew"; "cs1_dq28_tx_de-skew";
  "cs1_dq29_rx_de-skew"; "cs1_dq29_tx_de-skew"; "cs1_dq30_rx_de-skew"; "cs1_dq30_tx_de-skew"; "cs1_dq31_rx_de-skew";
  "cs1_dq31_tx_de-skew"; "cs1_dqs3_rx_de-skew"; "cs1_dqs3p_tx_de-skew"; "cs1_dqs3n_tx_de-skew" ].

Definition timing_layout : list (string * Z) := [
  ("ddr3_speed_bin", 1); ("ddr4_speed_bin", 1); ("pd_idle", 1); ("sr_idle", 1); ("sr_mc_gate_idle", 1);
  ("srpd_lite_idle", 1); ("standby_idle", 1); ("auto_pd_dis_freq", 1); ("auto_sr_dis_freq", 1);
  ("ddr3_dll_dis_freq", 1); ("ddr4_dll_dis_freq", 1); ("phy_dll_dis_freq", 1); ("ddr3_odt_dis_freq", 1);
  ("phy_ddr3_odt_dis_freq", 1); ("ddr3_drv", 1); ("ddr3_odt", 1); ("phy_ddr3_ca_drv", 1); ("phy_ddr3_ck_drv", 1);
  ("phy_ddr3_dq_drv", 1); ("phy_ddr3_odt", 1); ("lpddr3_odt_dis_freq", 1); ("phy_lpddr3_odt_dis_freq", 1);
  ("lpddr3_drv", 1); ("lpddr3_odt", 1); ("phy_lpddr3_ca_drv", 1); ("phy_lpddr3_ck_drv", 1); ("phy_lpddr3_dq_drv", 1);
  ("phy_lpddr3_odt", 1); ("lpddr4_odt_dis_freq", 1); ("phy_lpddr4_odt_dis_freq", 1); ("lpddr4_drv", 1);
  ("lpddr4_dq_odt", 1); ("lpddr4_ca_odt", 1); ("phy_lpddr4_ca_drv", 1); ("phy_lpddr4_ck_cs_drv", 1);
  ("phy_lpddr4_dq_drv", 1); ("phy_lpddr4_odt", 1); ("ddr4_odt_dis_freq", 1); ("phy_ddr4_odt_dis_freq", 1);
  ("ddr4_drv", 1); ("ddr4_odt", 1); ("phy_ddr4_ca_drv", 1); ("phy_ddr4_ck_drv", 1); ("phy_ddr4_dq_drv", 1);
  ("phy_ddr4_odt", 1); ("ca_skew", 15); ("cs0_skew", 44); ("cs1_skew", 44); ("available", 1) ].

(** The words before a field, and those of a whole structure. *)
Fixpoint words_before (l : list (string * Z)) (name : string) : Z :=
  match l with
  | [] => 0
  | (n, k) :: l' => if String.eqb n name then 0 else k + words_before l' name
  end.
Definition sizeof_timing : Z := 4 * foldr (fun f n => snd f + n) 0 timing_layout.

(** The index in the shared pages of a field of [struct
    rk3328_ddr_dts_config_timing] and of [struct share_params]. *)
Definition tim (field : string) : Z := DTS_PAR_OFFSET / 4 + words_before timing_layout field.
Definition share (field : string) : Z := words_before (map (fun n => (n, 1)) share_params) field.

Record rk3328_ddr_de_skew_setting := {
  ca_de_skew : list Z;
  cs0_de_skew : list Z;
  cs1_de_skew : list Z
}.

(** [memset_io(&words[p], 0, 4 * n)] *)
Definition memset_io (words : list Z) (p n : Z) : list Z :=
  foldl (fun l i => seti l (p + i) 0) words (seqZ 0 n).

(** Clear four bits of a word and store a setting there. *)
Definition skew_store (v p shift : Z) (words : list Z) : list Z :=
  let words := seti words p (Z.land (geti 0 words p) (u32 (Z.lnot (Z.shiftl 0xf shift)))) in
  seti words p (Z.lor (geti 0 words p) (u32 (Z.shiftl v shift))).

Definition ca_offset (n : Z) : Z := n / 2.
Definition ca_shift (n : Z) : Z := if n mod 2 =? 0 then 4 else 0.
Definition cs_offset (n : Z) : Z := (n / 21) * 11 + (n mod 21) / 2.
Definition cs_shift (n : Z) : Z :=
  if n mod 21 =? 20 then 0 else if (n mod 21) mod 2 =? 0 then 4 else 0.

Definition skew_loop (de_skew : list Z) (base : Z) (offset shift : Z -> Z) (words : list Z) : list Z :=
  foldl (fun l n => skew_store (geti 0 de_skew n) (base + offset n) (shift n) l) words (seqZ 0 (Z.of_nat (length de_skew))).

Definition rk3328_de_skew_setting_2_register (de_skew : rk3328_ddr_de_skew_setting) (words : list Z) : list Z :=
  let words := memset_io words (tim "ca_skew") 15 in
  let words := memset_io words (tim "cs0_skew") 44 in
  let words := memset_io words (tim "cs1_skew") 44 in
  let words := skew_loop (ca_de_skew de_skew) (tim "ca_skew") ca_offset ca_shift words in
  let words := skew_loop (cs0_de_skew de_skew) (tim "cs0_skew") cs_offset cs_shift words in
  skew_loop (cs1_de_skew de_skew) (tim "cs1_skew") cs_offset cs_shift words.

(** ** Reading the device tree *)

(** [for (i ...) ret |= of_property_read_u32(np, names[i], p + i);] for the
    words from [p] on. *)
Fixpoint of_read_words (prop : string -> res Z) (names : list string) (p : Z) (words : list Z) (ret : Z) : list Z * Z :=
  match names with
  | [] => (words, ret)
  | n :: names' =>
      match prop n with
      | Ok v => of_read_words prop names' (p + 1) (seti words p v) (Z.lor ret 0)
      | Err e => of_read_words prop names' (p + 1) words (Z.lor ret e)
      end
  end.

(** [np_tim]: the node of the timings, by its properties, if there is one;
    [kmalloc]: what the allocated structure holds, unless the allocation
    fails. *)
Definition of_get_rk3328_timings (np_tim : option (string -> res Z)) (kmalloc : option rk3328_ddr_de_skew_setting)
    (words : list Z) : list Z :=
  let '(words, ret) :=
    match np_tim with
    | None => (words, - EINVAL)
    | Some prop =>
        match kmalloc with
        | None => (words, - ENOMEM)
        | Some junk =>
            let '(words, ret) := of_read_words prop rk3328_dts_timing (DTS_PAR_OFFSET / 4) words 0 in
            let '(ca, ret) := of_read_words prop rk3328_dts_ca_timing 0 (ca_de_skew junk) ret in
            let '(cs0, ret) := of_read_words prop rk3328_dts_cs0_timing 0 (cs0_de_skew junk) ret in
            let '(cs1, ret) := of_read_words prop rk3328_dts_cs1_timing 0 (cs1_de_skew junk) ret in
            let de_skew := {| ca_de_skew := ca; cs0_de_skew := cs0; cs1_de_skew := cs1 |} in
            (if ret =? 0 then rk3328_de_skew_setting_2_register de_skew words else words, ret)
        end
    end in
  if ret =? 0 then seti words (tim "available") 1 else seti words (tim "available") 0.

(** ** The kernel and the firmware

    [arm_smccc_smc]: a call of the firmware, which sees the shared pages once
    they exist and may write them: the results [a0] and [a1], the pages.
    [ioremap]: the words at a physical address, unless mapping them fails.
    The operating points are those of the OPP table of the device. *)
Class DmcKernel (W : Type) := {
  arm_smccc_smc : Z -> Z -> Z -> Z -> option (list Z) -> W -> (Z * Z) * option (list Z) * W;
  ioremap : Z -> Z -> W -> option (list Z);
  devm_regulator_get : string -> M W unit;
  devm_clk_get : string -> M W unit;
  devfreq_event_get_edev_by_phandle : Z -> M W unit;
  devfreq_event_enable_edev : M W unit;
  devfreq_event_disable_edev : M W unit;
  devfreq_event_get_event : M W (Z * Z);
  dev_pm_opp_of_add_table : M W unit;
  dev_pm_opp_of_remove_table : M W unit;
  devfreq_recommended_opp : Z -> Z -> M W (Z * Z);
  devm_devfreq_add_device : Z -> M W unit;
  devm_devfreq_register_opp_notifier : M W unit;
  devm_devfreq_unregister_opp_notifier : M W unit;
  devfreq_suspend_device : M W unit;
  devfreq_resume_device : M W unit;
  regulator_set_voltage : Z -> Z -> M W unit;
  clk_set_rate : Z -> M W unit;
  clk_get_rate : M W Z
}.

(** [struct rk3328_dmcfreq] as far as the code uses it, with the statics
    [ddr_psci_param] and [rk3328_devfreq_dmc_profile.initial_freq]. *)
Record dmc (W : Type) := {
  dm_upthreshold : Z;
  dm_downdifferential : Z;
  dm_lock : bool;
  dm_rate : Z;
  dm_volt : Z;
  dm_set_auto_self_refresh : bool;
  ddr_psci_param : option (list Z);
  dm_initial_freq : Z;
  dm_world : W
}.
Arguments dm_upthreshold {W} _.
Arguments dm_downdifferential {W} _.
Arguments dm_lock {W} _.
Arguments dm_rate {W} _.
Arguments dm_volt {W} _.
Arguments dm_set_auto_self_refresh {W} _.
Arguments ddr_psci_param {W} _.
Arguments dm_initial_freq {W} _.
Arguments dm_world {W} _.

Section Driver.
Context {W : Type} {K : DmcKernel W}.

Definition set_dmc_lock (b : bool) : M (dmc W) unit := modify (fun d =>
  {| dm_upthreshold := dm_upthreshold d; dm_downdifferential := dm_downdifferential d; dm_lock := b; dm_rate := dm_rate d;
     dm_volt := dm_volt d; dm_set_auto_self_refresh := dm_set_auto_self_refresh d; ddr_psci_param := ddr_psci_param d;
     dm_initial_freq := dm_initial_freq d; dm_world := dm_world d |}).
Definition set_rate (r : Z) : M (dmc W) unit := modify (fun d =>
  {| dm_upthreshold := dm_upthreshold d; dm_downdifferential := dm_downdifferential d; dm_lock := dm_lock d; dm_rate := r;
     dm_volt := dm_volt d; dm_set_auto_self_refresh := dm_set_auto_self_refresh d; ddr_psci_param := ddr_psci_param d;
     dm_initial_freq := dm_initial_freq d; dm_world := dm_world d |}).
Definition set_volt (v : Z) : M (dmc W) unit := modify (fun d =>
  {| dm_upthreshold := dm_upthreshold d; dm_downdifferential := dm_downdifferential d; dm_lock := dm_lock d; dm_rate := dm_rate d;
     dm_volt := v; dm_set_auto_self_refresh := dm_set_auto_self_refresh d; ddr_psci_param := ddr_psci_param d;
     dm_initial_freq := dm_initial_freq d; dm_world := dm_world d |}).
Definition set_pages (p : option (list Z)) : M (dmc W) unit := modify (fun d =>
  {| dm_upthreshold := dm_upthreshold d; dm_downdifferential := dm_downdifferential d; dm_lock := dm_lock d; dm_rate := dm_rate d;
     dm_volt := dm_volt d; dm_set_auto_self_refresh := dm_set_auto_self_refresh d; ddr_psci_param := p;
     dm_initial_freq := dm_initial_freq d; dm_world := dm_world d |}).
Definition set_self_refresh (b : bool) : M (dmc W) unit := modify (fun d =>
  {| dm_upthreshold := dm_upthreshold d; dm_downdifferential := dm_downdifferential d; dm_lock := dm_lock d; dm_rate := dm_rate d;
     dm_volt := dm_volt d; dm_set_auto_self_refresh := b; ddr_psci_param := ddr_psci_param d;
     dm_initial_freq := dm_initial_freq d; dm_world := dm_world d |}).
Definition set_initial_freq (f : Z) : M (dmc W) unit := modify (fun d =>
  {| dm_upthreshold := dm_upthreshold d; dm_downdifferential := dm_downdifferential d; dm_lock := dm_lock d; dm_rate := dm_rate d;
     dm_volt := dm_volt d; dm_set_auto_self_refresh := dm_set_auto_self_refresh d; ddr_psci_param := ddr_psci_param d;
     dm_initial_freq := f; dm_world := dm_world d |}).
Definition with_world (d : dmc W) (w : W) : dmc W :=
  {| dm_upthreshold := dm_upthreshold d; dm_downdifferential := dm_downdifferential d; dm_lock := dm_lock d; dm_rate := dm_rate d;
     dm_volt := dm_volt d; dm_set_auto_self_refresh := dm_set_auto_self_refresh d; ddr_psci_param := ddr_psci_param d;
     dm_initial_freq := dm_initial_freq d; dm_world := w |}.

(** A call into the kernel. *)
Definition kernel {A} (m : M W A) : M (dmc W) A := fun d => let (r, w) := m (dm_world d) in (r, with_world d w).

Definition of_res {A} (r : res A) : M (dmc W) A := fun d => (r, d).

Definition smc (fid x1 x2 x3 : Z) : M (dmc W) (Z * Z) := fun d =>
  let '(r, pages, w) := arm_smccc_smc fid x1 x2 x3 (ddr_psci_param d) (dm_world d) in
  (set_pages pages ;; ret r) (with_world d w).

(** A store into the shared pages, through a pointer that may be null. *)
Definition on_pages (f : list Z -> list Z) : M (dmc W) unit :=
  d <- get_state ;;
  match ddr_psci_param d with
  | None => fail EFAULT
  | Some words => set_pages (Some (f words))
  end.

(** ** The operations *)

Definition rockchip_ddr_set_auto_self_refresh (en : Z) : M (dmc W) Z :=
  on_pages (fun words => seti words (share "sr_idle_en") en) ;;
  '(a0, _) <- smc ROCKCHIP_SIP_DRAM_FREQ SHARE_PAGE_TYPE_DDR 0 ROCKCHIP_SIP_CONFIG_DRAM_SET_AT_SR ;;
  ret (s32 a0).

Definition rk3328_dmc_init (np_tim : option (string -> res Z)) (kmalloc : option rk3328_ddr_de_skew_setting) : M (dmc W) unit :=
  '(a0, a1) <- smc ROCKCHIP_SIP_DRAM_FREQ 0 0 ROCKCHIP_SIP_CONFIG_DRAM_GET_VERSION ;;
  if cbool a0 || (a1 <? 0x101) then fail ENXIO else
  let page_num := (sizeof_timing + 4095) / 4096 + 1 in
  '(a0, a1) <- smc ROCKCHIP_SIP_SHARE_MEM page_num SHARE_PAGE_TYPE_DDR 0 ;;
  if negb (a0 =? 0) then fail ENOMEM else
  d <- get_state ;;
  set_pages (ioremap a1 (Z.shiftl page_num 12) (dm_world d)) ;;
  on_pages (of_get_rk3328_timings np_tim kmalloc) ;;
  '(a0, _) <- smc ROCKCHIP_SIP_DRAM_FREQ SHARE_PAGE_TYPE_DDR 0 ROCKCHIP_SIP_CONFIG_DRAM_INIT ;;
  if cbool a0 then fail ENOMEM else
  set_self_refresh true.

(** The part of [rk3328_dmcfreq_target] that holds the mutex; the label
    [out] is its end. *)
Definition dmcfreq_scale (old_clk_rate target_rate target_volt : Z) : M (dmc W) unit :=
  (if old_clk_rate <? target_rate then kernel (regulator_set_voltage target_volt target_volt) else ret tt) ;;
  err <- catch (kernel (clk_set_rate target_rate)) ;;
  match err with
  | Err e =>
      d <- get_state ;;
      unchecked tt (kernel (regulator_set_voltage (dm_volt d) (dm_volt d))) ;;
      of_res (Err e)
  | Ok _ =>
      rate <- kernel clk_get_rate ;;
      set_rate rate ;;
      if negb (rate =? target_rate) then
        d <- get_state ;;
        unchecked tt (kernel (regulator_set_voltage (dm_volt d) (dm_volt d)))
      else
        err <- (if old_clk_rate >? target_rate then catch (kernel (regulator_set_voltage target_volt target_volt)) else ret (Ok tt)) ;;
        set_rate target_rate ;;
        set_volt target_volt ;;
        of_res err
  end.

Definition rk3328_dmcfreq_target (freq flags : Z) : M (dmc W) unit :=
  d <- get_state ;;
  let old_clk_rate := dm_rate d in
  '(target_rate, target_volt) <- kernel (devfreq_recommended_opp freq flags) ;;
  d <- get_state ;;
  if dm_rate d =? target_rate then ret tt else
  set_dmc_lock true ;;
  err <- catch (dmcfreq_scale old_clk_rate target_rate target_volt) ;;
  set_dmc_lock false ;;
  of_res err.

(** [stat->current_frequency], [busy_time] and [total_time]. *)
Definition rk3328_dmcfreq_get_dev_status : M (dmc W) (Z * Z * Z) :=
  '(load_count, total_count) <- kernel devfreq_event_get_event ;;
  d <- get_state ;;
  ret (dm_rate d, load_count, total_count).

Definition rk3328_dmcfreq_get_cur_freq : M (dmc W) Z := d <- get_state ;; ret (dm_rate d).

Definition rk3328_dmcfreq_suspend : M (dmc W) unit := kernel devfreq_event_disable_edev ;; kernel devfreq_suspend_device.
Definition rk3328_dmcfreq_resume : M (dmc W) unit := kernel devfreq_event_enable_edev ;; kernel devfreq_resume_device.

(** What [devm_kzalloc] and [mutex_init] leave; the statics keep what they
    have. *)
Definition zeroed (d : dmc W) : dmc W :=
  {| dm_upthreshold := 0; dm_downdifferential := 0; dm_lock := false; dm_rate := 0; dm_volt := 0;
     dm_set_auto_self_refresh := false; ddr_psci_param := ddr_psci_param d; dm_initial_freq := dm_initial_freq d;
     dm_world := dm_world d |}.

Definition with_ondemand (up down : Z) (d : dmc W) : dmc W :=
  {| dm_upthreshold := up; dm_downdifferential := down; dm_lock := dm_lock d; dm_rate := dm_rate d;
     dm_volt := dm_volt d; dm_set_auto_self_refresh := dm_set_auto_self_refresh d; ddr_psci_param := ddr_psci_param d;
     dm_initial_freq := dm_initial_freq d; dm_world := dm_world d |}.

(** [of_property_read_u32] into a variable that holds [dflt]. *)
Definition prop_or (prop : string -> res Z) (name : string) (dflt : Z) : Z :=
  match prop name with Ok v => v | Err _ => dflt end.

(** [alloc]: the allocation of the structure succeeds; [np]: the properties
    of the device's node. *)
Definition rk3328_dmcfreq_probe (alloc : bool) (np : string -> res Z) (np_tim : option (string -> res Z))
    (kmalloc : option rk3328_ddr_de_skew_setting) : M (dmc W) unit :=
  if negb alloc then fail ENOMEM else
  modify zeroed ;;
  kernel (devm_regulator_get "center") ;;
  kernel (devm_clk_get "dmc_clk") ;;
  edev <- catch (kernel (devfreq_event_get_edev_by_phandle 0)) ;;
  match edev with
  | Err _ => fail EPROBE_DEFER
  | Ok _ =>
      kernel devfreq_event_enable_edev ;;
      rk3328_dmc_init np_tim kmalloc ;;
      table <- catch (kernel dev_pm_opp_of_add_table) ;;
      match table with
      | Err _ => fail EINVAL
      | Ok _ =>
          modify (fun d => with_ondemand (prop_or np "upthreshold" (dm_upthreshold d))
                                         (prop_or np "downdifferential" (dm_downdifferential d)) d) ;;
          rate <- kernel clk_get_rate ;;
          set_rate rate ;;
          opp <- catch (kernel (devfreq_recommended_opp rate 0)) ;;
          match opp with
          | Err e => unchecked tt (kernel dev_pm_opp_of_remove_table) ;; of_res (Err e)
          | Ok (freq, volt) =>
              set_rate freq ;;
              set_volt volt ;;
              set_initial_freq freq ;;
              devfreq <- catch (kernel (devm_devfreq_add_device freq)) ;;
              match devfreq with
              | Err e => unchecked tt (kernel dev_pm_opp_of_remove_table) ;; of_res (Err e)
              | Ok _ => unchecked tt (kernel devm_devfreq_register_opp_notifier)
              end
          end
      end
  end.

Definition rk3328_dmcfreq_remove : M (dmc W) unit :=
  unchecked tt (kernel devm_devfreq_unregister_opp_notifier) ;;
  unchecked tt (kernel dev_pm_opp_of_remove_table).
End Driver.
