(* ===== verification/Rk3328DmcProps.v ===== *)
(** * Theorems on [rk3328_dmc.c]

    The timings of the device tree arrive in the page the firmware reads, and
    the DRAM never runs at a clock its voltage does not carry. *)

From S2P Require Import Prelude CMonad Rk3328Dmc.

(** ** Four bits of a word *)

Definition nib (words : list Z) (p : Z * Z) : Z := Z.land (Z.shiftr (geti 0 words (fst p)) (snd p)) 0xf.

Definition shift_ok (s : Z) : Prop := s = 0 \/ s = 4.

Lemma skew_store_length v p s words : length (skew_store v p s words) = length words.
Proof. unfold skew_store. rewrite !seti_length. reflexivity. Qed.

Lemma nib_range words p : 0 <= nib words p < 16.
Proof. unfold nib. change 0xf with (Z.ones 4). rewrite Z.land_ones by lia. apply Z.mod_pos_bound. lia. Qed.

Lemma skew_store_word v p s words i : 0 <= i -> 0 <= p < Z.of_nat (length words) ->
  geti 0 (skew_store v p s words) i =
  if i =? p then Z.lor (Z.land (geti 0 words p) (u32 (Z.lnot (Z.shiftl 0xf s)))) (u32 (Z.shiftl v s)) else geti 0 words i.
Proof.
  intros Hi Hp. unfold skew_store. rewrite geti_seti by (rewrite ?seti_length; lia).
  destruct (Z.eqb_spec i p) as [-> | Hne]; [rewrite geti_seti, Z.eqb_refl by lia; reflexivity |].
  rewrite geti_seti by lia. destruct (Z.eqb_spec i p); [lia | reflexivity].
Qed.

Lemma nib_store_same x v s : shift_ok s -> 0 <= v < 2 ^ 4 ->
  Z.land (Z.shiftr (Z.lor (Z.land x (u32 (Z.lnot (Z.shiftl 0xf s)))) (u32 (Z.shiftl v s))) s) 0xf = v.
Proof. change 0xf with (Z.ones 4). unfold u32. intros [-> | ->] Hv; bit_solve. Qed.

Lemma nib_store_other x v s s' : shift_ok s -> shift_ok s' -> s <> s' -> 0 <= v < 2 ^ 4 ->
  Z.land (Z.shiftr (Z.lor (Z.land x (u32 (Z.lnot (Z.shiftl 0xf s)))) (u32 (Z.shiftl v s))) s') 0xf = Z.land (Z.shiftr x s') 0xf.
Proof. change 0xf with (Z.ones 4). unfold u32. intros [-> | ->] [-> | ->] Hne Hv; try lia; bit_solve. Qed.

Lemma skew_store_nib v p s words q :
  0 <= v < 16 -> shift_ok s -> shift_ok (snd q) -> 0 <= fst q -> 0 <= p < Z.of_nat (length words) ->
  nib (skew_store v p s words) q = if decide (q = (p, s)) then v else nib words q.
Proof.
  intros Hv Hs Hq Hq0 Hp. destruct q as [i s']. cbn [fst snd] in *. unfold nib. cbn [fst snd]. rewrite skew_store_word by lia.
  destruct (decide _) as [[= -> ->] | Hne]; [rewrite Z.eqb_refl; apply nib_store_same; [exact Hs | lia] |].
  destruct (Z.eqb_spec i p) as [-> | _]; [| reflexivity]. apply nib_store_other; [exact Hs | exact Hq | congruence | lia].
Qed.

(** A word below 256 stays below 256. *)
Lemma skew_store_small v p s words i :
  0 <= v < 16 -> shift_ok s -> 0 <= i -> 0 <= p < Z.of_nat (length words) ->
  0 <= geti 0 words i < 256 -> 0 <= geti 0 (skew_store v p s words) i < 256.
Proof.
  intros Hv Hs Hi Hp Hw. rewrite skew_store_word by lia. destruct (Z.eqb_spec i p) as [<- | _]; [| exact Hw].
  apply (lor_small _ _ 8); [lia | |].
  - rewrite Z.land_comm. apply (land_range _ _ 8); lia.
  - rewrite u32_small; destruct Hs as [-> | ->]; rewrite Z.shiftl_mul_pow2 by lia; lia.
Qed.

(** ** The loops over the settings *)

Section Loop.
Context (vals : list Z) (base : Z) (offset shift : Z -> Z).

Definition place (n : Z) : Z * Z := (base + offset n, shift n).

Definition step (l : list Z) (n : Z) : list Z := skew_store (geti 0 vals n) (base + offset n) (shift n) l.

Record places_ok (size : Z) (ns : list Z) : Prop := {
  places_in n : n ∈ ns -> 0 <= base + offset n < size /\ shift_ok (shift n) /\ 0 <= geti 0 vals n < 16;
  places_distinct : NoDup (map place ns)
}.

Lemma places_tail size n ns : places_ok size (n :: ns) -> places_ok size ns.
Proof. intros [H1 H2]. split; [intros m Hm; apply H1; right; exact Hm | inversion H2; assumption]. Qed.

Lemma loop_length ns words : length (foldl step words ns) = length words.
Proof. revert words. induction ns as [| n ns IH]; intros words; [reflexivity |]. cbn [foldl]. rewrite IH. apply skew_store_length. Qed.

(** What no setting goes to stays. *)
Lemma loop_other ns words q : places_ok (Z.of_nat (length words)) ns -> 0 <= fst q -> shift_ok (snd q) ->
  q ∉ map place ns -> nib (foldl step words ns) q = nib words q.
Proof.
  revert words. induction ns as [| n ns IH]; intros words Hok Hq0 Hq Hn; [reflexivity |]. cbn [foldl map] in *.
  apply not_elem_of_cons in Hn as [Hn1 Hn2]. destruct (places_in _ _ Hok n) as (Hp & Hs & Hv); [left |].
  rewrite IH; try assumption; [| unfold step; rewrite skew_store_length; eapply places_tail, Hok].
  unfold step. rewrite skew_store_nib by assumption. destruct (decide _); [contradiction | reflexivity].
Qed.

(** Every setting is where its place is. *)
Lemma loop_nib ns words n : places_ok (Z.of_nat (length words)) ns -> n ∈ ns ->
  nib (foldl step words ns) (place n) = geti 0 vals n.
Proof.
  revert words. induction ns as [| m ns IH]; intros words Hok Hn; [inversion Hn |]. cbn [foldl].
  assert (Hok' : places_ok (Z.of_nat (length (step words m))) ns) by (unfold step; rewrite skew_store_length; eapply places_tail, Hok).
  apply elem_of_cons in Hn as [-> | Hn]; [| apply IH; assumption].
  destruct (places_in _ _ Hok m) as (Hp & Hs & Hv); [left |].
  rewrite loop_other; [| exact Hok' | apply Hp | exact Hs | pose proof (places_distinct _ _ Hok) as Hd; inversion Hd; assumption].
  unfold step. rewrite skew_store_nib by (exact Hp || exact Hs || exact Hv || apply Hp). destruct (decide _); [reflexivity | contradiction].
Qed.

Lemma loop_word ns words i : places_ok (Z.of_nat (length words)) ns -> 0 <= i ->
  (forall n, n ∈ ns -> base + offset n <> i) -> geti 0 (foldl step words ns) i = geti 0 words i.
Proof.
  revert words. induction ns as [| n ns IH]; intros words Hok Hi Hn; [reflexivity |]. cbn [foldl].
  destruct (places_in _ _ Hok n) as (Hp & _); [left |].
  rewrite IH; [| unfold step; rewrite skew_store_length; eapply places_tail, Hok | exact Hi | intros m Hm; apply Hn; right; exact Hm].
  unfold step. rewrite skew_store_word by assumption. destruct (Z.eqb_spec i (base + offset n)) as [E |]; [| reflexivity].
  exfalso. apply (Hn n); [left | lia].
Qed.

Lemma loop_small ns words i : places_ok (Z.of_nat (length words)) ns -> 0 <= i ->
  0 <= geti 0 words i < 256 -> 0 <= geti 0 (foldl step words ns) i < 256.
Proof.
  revert words. induction ns as [| n ns IH]; intros words Hok Hi Hw; [exact Hw |]. cbn [foldl].
  destruct (places_in _ _ Hok n) as (Hp & Hs & Hv); [left |].
  apply IH; [unfold step; rewrite skew_store_length; eapply places_tail, Hok | exact Hi |].
  unfold step. apply skew_store_small; assumption.
Qed.
End Loop.

(** ** The three areas of settings *)

Definition settings (words : list Z) (field : string) (offset shift : Z -> Z) (n : Z) : list Z :=
  map (fun k => nib words (tim field + offset k, shift k)) (seqZ 0 n).

Definition setting_ok (v : Z) : Prop := 0 <= v < 16.

Lemma elem_seqZ0 n k : k ∈ seqZ 0 n <-> 0 <= k < n.
Proof. rewrite elem_of_seqZ. lia. Qed.

(** Distinct settings have distinct places. *)
Lemma places_table vals base offset shift size n :
  Forall setting_ok vals -> Z.of_nat (length vals) = n ->
  bool_decide (NoDup (map (fun k => (offset k, shift k)) (seqZ 0 n))) = true ->
  forallb (fun k => (0 <=? base + offset k) && (base + offset k <? size) && ((shift k =? 0) || (shift k =? 4))) (seqZ 0 n) = true ->
  places_ok vals base offset shift size (seqZ 0 n).
Proof.
  intros Hv Hl Hd Hr. split.
  - intros k Hk. rewrite forallb_forall in Hr. specialize (Hr k ltac:(apply list_elem_of_In, Hk)). apply elem_seqZ0 in Hk.
    split; [lia |]. split; [unfold shift_ok; lia |]. rewrite Forall_lookup in Hv.
    destruct (nth_lookup_or_length vals (Z.to_nat k) 0) as [E | E]; [exact (Hv _ _ E) | lia].
  - apply bool_decide_eq_true in Hd.
    replace (map (place base offset shift) (seqZ 0 n)) with (map (fun p => (base + fst p, snd p)) (map (fun k => (offset k, shift k)) (seqZ 0 n)))
      by (rewrite map_map; reflexivity).
    assert (Hi : Inj (=) (=) (fun p : Z * Z => (base + fst p, snd p))) by (intros [a b] [c d] [= H1 H2]; f_equal; lia).
    exact (NoDup_fmap_2 _ _ Hd).
Qed.

Lemma memset_word words p n i : 0 <= i -> 0 <= p -> p + n <= Z.of_nat (length words) ->
  geti 0 (memset_io words p n) i = if (p <=? i) && (i <? p + n) then 0 else geti 0 words i.
Proof.
  intros Hi Hp Hn. unfold memset_io.
  assert (H : forall ns l, length l = length words -> (forall k, k ∈ ns -> 0 <= k < n) ->
    geti 0 (foldl (fun l k => seti l (p + k) 0) l ns) i = if bool_decide (i - p ∈ ns) then 0 else geti 0 l i).
  { induction ns as [| k ns IH]; intros l Hl Hns; [reflexivity |]. cbn [foldl].
    assert (Hk : 0 <= k < n) by (apply Hns; left).
    rewrite IH by (rewrite ?seti_length; auto; intros m Hm; apply Hns; right; exact Hm). rewrite geti_seti by lia.
    destruct (Z.eqb_spec i (p + k)) as [-> | Hne].
    - rewrite (bool_decide_eq_true_2 (p + k - p ∈ k :: ns)); [destruct (bool_decide _); reflexivity | apply elem_of_cons; left; lia].
    - replace (bool_decide (i - p ∈ k :: ns)) with (bool_decide (i - p ∈ ns)); [reflexivity |].
      apply bool_decide_ext. rewrite elem_of_cons. split; [auto |]. intros [|]; [lia | assumption]. }
  rewrite H; [| reflexivity | intros k Hk; apply elem_seqZ0, Hk].
  case_bool_decide as Hd; rewrite elem_seqZ0 in Hd; destruct (Z.leb_spec p i), (Z.ltb_spec i (p + n)); try lia; reflexivity.
Qed.

Lemma memset_length words p n : length (memset_io words p n) = length words.
Proof.
  unfold memset_io. generalize (seqZ 0 n) as ns. intros ns. revert words.
  induction ns as [| k ns IH]; intros words; [reflexivity |]. cbn [foldl]. rewrite IH. apply seti_length.
Qed.

(** The three loops put every setting where it is read, one after the other
    undisturbed. *)
Lemma de_skew_places ds :
  length (ca_de_skew ds) = 30%nat -> length (cs0_de_skew ds) = 84%nat -> length (cs1_de_skew ds) = 84%nat ->
  Forall setting_ok (ca_de_skew ds) -> Forall setting_ok (cs0_de_skew ds) -> Forall setting_ok (cs1_de_skew ds) ->
  places_ok (ca_de_skew ds) (tim "ca_skew") ca_offset ca_shift 2048 (seqZ 0 30) /\
  places_ok (cs0_de_skew ds) (tim "cs0_skew") cs_offset cs_shift 2048 (seqZ 0 84) /\
  places_ok (cs1_de_skew ds) (tim "cs1_skew") cs_offset cs_shift 2048 (seqZ 0 84).
Proof.
  intros L1 L2 L3 F1 F2 F3.
  split; [| split]; (apply places_table; [assumption | lia | vm_compute; reflexivity | vm_compute; reflexivity]).
Qed.

(** The areas lie one behind the other. *)
Lemma tim_areas : tim "ca_skew" = 1069 /\ tim "cs0_skew" = 1084 /\ tim "cs1_skew" = 1128 /\ tim "available" = 1172.
Proof. vm_compute. auto. Qed.

Lemma ca_offset_range k : 0 <= k < 30 -> 0 <= ca_offset k < 15.
Proof. intros H. unfold ca_offset. Z.to_euclidean_division_equations. lia. Qed.

Lemma cs_offset_range k : 0 <= k < 84 -> 0 <= cs_offset k < 44.
Proof. intros H. unfold cs_offset. Z.to_euclidean_division_equations. lia. Qed.

Lemma shift_range k : shift_ok (ca_shift k) /\ shift_ok (cs_shift k).
Proof. unfold shift_ok, ca_shift, cs_shift. repeat case_match; auto. Qed.

(** Reading the settings back after a loop, or after a loop elsewhere. *)
Lemma settings_loop vals field offset shift n words :
  Z.of_nat (length vals) = n -> places_ok vals (tim field) offset shift (Z.of_nat (length words)) (seqZ 0 n) ->
  settings (skew_loop vals (tim field) offset shift words) field offset shift n = vals.
Proof.
  intros Hl Hok. unfold settings, skew_loop. rewrite Hl. apply list_eq. intros i.
  rewrite list_lookup_fmap. destruct (decide (i < length vals)%nat) as [Hi | Hi].
  - rewrite lookup_seqZ_lt by lia. cbn [fmap option_fmap option_map]. change (0 + Z.of_nat i) with (Z.of_nat i).
    change (tim field + offset (Z.of_nat i), shift (Z.of_nat i)) with (place (tim field) offset shift (Z.of_nat i)).
    rewrite (loop_nib vals (tim field) offset shift) by (exact Hok || (apply elem_seqZ0; lia)).
    unfold geti. rewrite Nat2Z.id. destruct (nth_lookup_or_length vals i 0) as [E | E]; [symmetry; exact E | lia].
  - rewrite lookup_seqZ_ge by lia. rewrite lookup_ge_None_2 by lia. reflexivity.
Qed.

Lemma settings_kept field offset shift n w w' :
  (forall k, 0 <= k < n -> geti 0 w' (tim field + offset k) = geti 0 w (tim field + offset k)) ->
  settings w' field offset shift n = settings w field offset shift n.
Proof.
  intros H. unfold settings. apply map_ext_in. intros k Hk. apply list_elem_of_In, elem_seqZ0 in Hk.
  unfold nib. cbn [fst snd]. rewrite H by lia. reflexivity.
Qed.

Lemma skew_loop_word vals base offset shift n words i :
  Z.of_nat (length vals) = n -> places_ok vals base offset shift (Z.of_nat (length words)) (seqZ 0 n) -> 0 <= i ->
  (forall k, 0 <= k < n -> base + offset k <> i) -> geti 0 (skew_loop vals base offset shift words) i = geti 0 words i.
Proof.
  intros Hl Hok Hi Hn. unfold skew_loop. rewrite Hl. apply (loop_word vals base offset shift); [exact Hok | exact Hi |].
  intros k Hk. apply Hn, elem_seqZ0, Hk.
Qed.

Lemma skew_loop_length vals base offset shift words : length (skew_loop vals base offset shift words) = length words.
Proof. apply (loop_length vals base offset shift). Qed.

Lemma skew_loop_small vals base offset shift n words i :
  Z.of_nat (length vals) = n -> places_ok vals base offset shift (Z.of_nat (length words)) (seqZ 0 n) -> 0 <= i ->
  0 <= geti 0 words i < 256 -> 0 <= geti 0 (skew_loop vals base offset shift words) i < 256.
Proof. intros Hl Hok Hi Hw. unfold skew_loop. rewrite Hl. apply (loop_small vals base offset shift); assumption. Qed.

Record skew_ok (ds : rk3328_ddr_de_skew_setting) : Prop := {
  ca_len : length (ca_de_skew ds) = 30%nat;
  cs0_len : length (cs0_de_skew ds) = 84%nat;
  cs1_len : length (cs1_de_skew ds) = 84%nat;
  ca_vals : Forall setting_ok (ca_de_skew ds);
  cs0_vals : Forall setting_ok (cs0_de_skew ds);
  cs1_vals : Forall setting_ok (cs1_de_skew ds)
}.

Record skew_stored (ds : rk3328_ddr_de_skew_setting) (w w' : list Z) : Prop := {
  st_len : length w' = length w;
  st_ca : settings w' "ca_skew" ca_offset ca_shift 30 = ca_de_skew ds;
  st_cs0 : settings w' "cs0_skew" cs_offset cs_shift 84 = cs0_de_skew ds;
  st_cs1 : settings w' "cs1_skew" cs_offset cs_shift 84 = cs1_de_skew ds;
  st_small i : tim "ca_skew" <= i < tim "available" -> 0 <= geti 0 w' i < 256;
  st_other i : 0 <= i -> i < tim "ca_skew" \/ tim "available" <= i -> geti 0 w' i = geti 0 w i
}.

(** Clearing the three areas. *)
Lemma cleared_word words i : Z.of_nat (length words) = 2048 -> 0 <= i ->
  geti 0 (memset_io (memset_io (memset_io words (tim "ca_skew") 15) (tim "cs0_skew") 44) (tim "cs1_skew") 44) i =
  if (tim "ca_skew" <=? i) && (i <? tim "available") then 0 else geti 0 words i.
Proof.
  intros Hl Hi. destruct tim_areas as (-> & -> & -> & ->). rewrite !memset_word by (rewrite ?memset_length; lia).
  repeat match goal with |- context [?a <=? ?b] => destruct (Z.leb_spec a b) | |- context [?a <? ?b] => destruct (Z.ltb_spec a b) end;
    reflexivity || lia.
Qed.

Lemma skew_stored_ok ds words : Z.of_nat (length words) = 2048 -> skew_ok ds ->
  skew_stored ds words (rk3328_de_skew_setting_2_register ds words).
Proof.
  intros Hl [L1 L2 L3 F1 F2 F3]. destruct (de_skew_places ds L1 L2 L3 F1 F2 F3) as (P1 & P2 & P3).
  unfold rk3328_de_skew_setting_2_register.
  pose proof (fun i => cleared_word words i Hl) as Hc.
  assert (Hm : length (memset_io (memset_io (memset_io words (tim "ca_skew") 15) (tim "cs0_skew") 44) (tim "cs1_skew") 44) = length words)
    by (rewrite !memset_length; reflexivity).
  set (w0 := memset_io (memset_io _ _ _) _ _) in *.
  set (w1 := skew_loop (ca_de_skew ds) (tim "ca_skew") ca_offset ca_shift w0).
  set (w2 := skew_loop (cs0_de_skew ds) (tim "cs0_skew") cs_offset cs_shift w1).
  set (w3 := skew_loop (cs1_de_skew ds) (tim "cs1_skew") cs_offset cs_shift w2).
  assert (Hm1 : length w1 = length words) by (unfold w1; rewrite skew_loop_length; exact Hm).
  assert (Hm2 : length w2 = length words) by (unfold w2; rewrite skew_loop_length; exact Hm1).
  assert (P1' : places_ok (ca_de_skew ds) (tim "ca_skew") ca_offset ca_shift (Z.of_nat (length w0)) (seqZ 0 30)) by (rewrite Hm, Hl; exact P1).
  assert (P2' : places_ok (cs0_de_skew ds) (tim "cs0_skew") cs_offset cs_shift (Z.of_nat (length w1)) (seqZ 0 84)) by (rewrite Hm1, Hl; exact P2).
  assert (P3' : places_ok (cs1_de_skew ds) (tim "cs1_skew") cs_offset cs_shift (Z.of_nat (length w2)) (seqZ 0 84)) by (rewrite Hm2, Hl; exact P3).
  destruct tim_areas as (A1 & A2 & A3 & A4).
  assert (W1 : forall i, 0 <= i -> i < 1069 \/ 1084 <= i -> geti 0 w1 i = geti 0 w0 i)
    by (intros i Hi Ho; apply (skew_loop_word _ _ _ _ 30); [lia | exact P1' | exact Hi | intros k Hk; pose proof (ca_offset_range k Hk); lia]).
  assert (W2 : forall i, 0 <= i -> i < 1084 \/ 1128 <= i -> geti 0 w2 i = geti 0 w1 i)
    by (intros i Hi Ho; apply (skew_loop_word _ _ _ _ 84); [lia | exact P2' | exact Hi | intros k Hk; pose proof (cs_offset_range k Hk); lia]).
  assert (W3 : forall i, 0 <= i -> i < 1128 \/ 1172 <= i -> geti 0 w3 i = geti 0 w2 i)
    by (intros i Hi Ho; apply (skew_loop_word _ _ _ _ 84); [lia | exact P3' | exact Hi | intros k Hk; pose proof (cs_offset_range k Hk); lia]).
  split.
  - unfold w3. rewrite skew_loop_length. exact Hm2.
  - rewrite (settings_kept _ _ _ _ w1); [apply settings_loop; [lia | exact P1'] |].
    intros k Hk. pose proof (ca_offset_range k Hk). rewrite W3, W2 by lia. reflexivity.
  - rewrite (settings_kept _ _ _ _ w2); [apply settings_loop; [lia | exact P2'] |].
    intros k Hk. pose proof (cs_offset_range k Hk). rewrite W3 by lia. reflexivity.
  - apply settings_loop; [lia | exact P3'].
  - intros i Hi. do 2 (apply (skew_loop_small _ _ _ _ 84); [lia | assumption | lia |]).
    apply (skew_loop_small _ _ _ _ 30); [lia | assumption | lia |]. rewrite Hc by lia. rewrite (proj2 (Z.leb_le _ _)), (proj2 (Z.ltb_lt _ _)) by lia. cbn. lia.
  - intros i Hi Ho. rewrite W3, W2, W1, Hc by lia.
    destruct (Z.leb_spec (tim "ca_skew") i), (Z.ltb_spec i (tim "available")); reflexivity || lia.
Qed.

(** ** Reading the device tree *)

Section Read.
Context (prop : string -> res Z) (Herr : forall n e, prop n = Err e -> e < 0).

Definition present (names : list string) : Prop := forall n, n ∈ names -> exists v, prop n = Ok v.

Lemma read_ret names p words ret : ret <= 0 ->
  snd (of_read_words prop names p words ret) <= 0 /\
  (snd (of_read_words prop names p words ret) = 0 <-> ret = 0 /\ present names).
Proof.
  revert p words ret. induction names as [| n names IH]; intros p words r Hr; cbn [of_read_words snd].
  { split; [exact Hr |]. split; [intros ->; split; [reflexivity | intros m Hm; inversion Hm] | intros [H _]; exact H]. }
  destruct (prop n) as [v | e] eqn:E.
  - rewrite Z.lor_0_r. destruct (IH (p + 1) (seti words p v) r Hr) as [H1 H2]. split; [exact H1 |]. rewrite H2.
    split; intros [H3 H4]; (split; [exact H3 |]); intros m Hm.
    + apply elem_of_cons in Hm as [-> | Hm]; [eauto | apply H4, Hm].
    + apply H4. right. exact Hm.
  - pose proof (Herr _ _ E) as He. assert (Hl : Z.lor r e < 0) by (apply Z.lor_neg; lia).
    destruct (IH (p + 1) words (Z.lor r e) ltac:(lia)) as [H1 H2]. split; [exact H1 |]. rewrite H2.
    split; intros [H3 H4]; [lia |]. destruct (H4 n ltac:(left)) as [v Hv]. congruence.
Qed.

Lemma read_length names p words ret : length (fst (of_read_words prop names p words ret)) = length words.
Proof.
  revert p words ret. induction names as [| n names IH]; intros p words r; cbn [of_read_words fst]; [reflexivity |].
  destruct (prop n); rewrite IH, ?seti_length; reflexivity.
Qed.

Lemma read_other names p words ret i : 0 <= p -> p + Z.of_nat (length names) <= Z.of_nat (length words) ->
  0 <= i -> i < p \/ p + Z.of_nat (length names) <= i -> geti 0 (fst (of_read_words prop names p words ret)) i = geti 0 words i.
Proof.
  revert p words ret. induction names as [| n names IH]; intros p words r Hp Hl Hi Ho; cbn [of_read_words fst length] in *; [reflexivity |].
  destruct (prop n); rewrite IH by (rewrite ?seti_length; lia); [| reflexivity].
  rewrite geti_seti by lia. destruct (Z.eqb_spec i p); [lia | reflexivity].
Qed.

Lemma read_word names p words ret k n : 0 <= p -> p + Z.of_nat (length names) <= Z.of_nat (length words) ->
  names !! k = Some n -> present names ->
  prop n = Ok (geti 0 (fst (of_read_words prop names p words ret)) (p + Z.of_nat k)).
Proof.
  revert p words ret k. induction names as [| m names IH]; intros p words r k Hp Hl Hk Hpr; [discriminate |].
  cbn [of_read_words length] in *. destruct (Hpr m ltac:(left)) as [v Hv]. rewrite Hv. destruct k as [| k]; cbn in Hk.
  - injection Hk as ->. rewrite read_other by (rewrite ?seti_length; lia). rewrite Z.add_0_r, geti_seti, Z.eqb_refl by lia. exact Hv.
  - replace (p + Z.of_nat (S k)) with (p + 1 + Z.of_nat k) by lia.
    apply IH; [lia | rewrite seti_length; lia | exact Hk | intros q Hq; apply Hpr; right; exact Hq].
Qed.

(** A whole array read from its first word. *)
Lemma read_array names words ret : length words = length names -> present names ->
  map Ok (fst (of_read_words prop names 0 words ret)) = map prop names.
Proof.
  intros Hl Hp. apply list_eq. intros k. rewrite !list_lookup_fmap.
  destruct (names !! k) as [n |] eqn:E; cbn.
  - pose proof (lookup_lt_Some _ _ _ E). rewrite (read_word names 0 words ret k n) by (exact Hp || exact E || lia). rewrite Z.add_0_l.
    unfold geti. rewrite Nat2Z.id. set (l := fst _).
    destruct (nth_lookup_or_length l k 0) as [-> | Hge]; [reflexivity |]. unfold l in Hge. rewrite read_length in Hge. lia.
  - apply lookup_ge_None in E. rewrite lookup_ge_None_2 by (rewrite read_length; lia). reflexivity.
Qed.
End Read.

(** The fields of the structure are the properties, in order. *)
Lemma timing_fields k n : rk3328_dts_timing !! k = Some n -> tim n = 1024 + Z.of_nat k.
Proof.
  intros H. assert (Hall : forallb (fun k => match rk3328_dts_timing !! k with Some n => tim n =? 1024 + Z.of_nat k | None => false end) (seq 0 45) = true)
    by (vm_compute; reflexivity).
  pose proof (lookup_lt_Some _ _ _ H) as Hk. change (length rk3328_dts_timing) with 45%nat in Hk.
  rewrite forallb_forall in Hall. specialize (Hall k ltac:(apply in_seq; lia)). rewrite H in Hall. lia.
Qed.

Definition skew_names : list string := rk3328_dts_ca_timing ++ rk3328_dts_cs0_timing ++ rk3328_dts_cs1_timing.

(** A timing node whose errors are errors and whose de-skew settings are four
    bits wide, as its binding has them. *)
Record timing_node (prop : string -> res Z) : Prop := {
  tn_err n e : prop n = Err e -> e < 0;
  tn_skew n v : n ∈ skew_names -> prop n = Ok v -> 0 <= v < 16
}.

Definition timing_names : list string := rk3328_dts_timing ++ skew_names.

Lemma present_app prop l1 l2 : present prop (l1 ++ l2) <-> present prop l1 /\ present prop l2.
Proof.
  split.
  - intros H. split; intros n Hn; apply H, elem_of_app; auto.
  - intros [H1 H2] n Hn. apply elem_of_app in Hn as [Hn | Hn]; auto.
Qed.

Lemma array_settings prop names words ret : timing_node prop -> (forall n, n ∈ names -> n ∈ skew_names) ->
  length words = length names -> present prop names ->
  Forall setting_ok (fst (of_read_words prop names 0 words ret)).
Proof.
  intros Ht Hs Hl Hp. pose proof (read_array prop names words ret Hl Hp) as E.
  apply Forall_lookup. intros k v Hv. apply (f_equal (fun l => l !! k)) in E. rewrite !list_lookup_fmap, Hv in E.
  destruct (names !! k) as [n |] eqn:En; [| discriminate]. injection E as E.
  apply (tn_skew prop Ht n v); [apply Hs; eapply list_elem_of_lookup_2, En | symmetry; exact E].
Qed.

Record junk_ok (junk : rk3328_ddr_de_skew_setting) : Prop := {
  junk_ca : length (ca_de_skew junk) = 30%nat;
  junk_cs0 : length (cs0_de_skew junk) = 84%nat;
  junk_cs1 : length (cs1_de_skew junk) = 84%nat
}.

Section Timings.
Context (prop : string -> res Z) (junk : rk3328_ddr_de_skew_setting) (words : list Z).
Context (Ht : timing_node prop) (Hj : junk_ok junk) (Hl : Z.of_nat (length words) = 2048).

Let r0 := of_read_words prop rk3328_dts_timing 1024 words 0.
Let r1 := of_read_words prop rk3328_dts_ca_timing 0 (ca_de_skew junk) (snd r0).
Let r2 := of_read_words prop rk3328_dts_cs0_timing 0 (cs0_de_skew junk) (snd r1).
Let r3 := of_read_words prop rk3328_dts_cs1_timing 0 (cs1_de_skew junk) (snd r2).
Let ds := {| ca_de_skew := fst r1; cs0_de_skew := fst r2; cs1_de_skew := fst r3 |}.

Lemma timings_unfold : of_get_rk3328_timings (Some prop) (Some junk) words =
  if snd r3 =? 0 then seti (rk3328_de_skew_setting_2_register ds (fst r0)) (tim "available") 1
  else seti (fst r0) (tim "available") 0.
Proof.
  unfold of_get_rk3328_timings. change (DTS_PAR_OFFSET / 4) with 1024. unfold ds, r3, r2, r1, r0.
  destruct (of_read_words prop rk3328_dts_timing 1024 words 0) as [w0 q0]. cbn [fst snd].
  destruct (of_read_words prop rk3328_dts_ca_timing 0 (ca_de_skew junk) q0) as [w1 q1]. cbn [fst snd].
  destruct (of_read_words prop rk3328_dts_cs0_timing 0 (cs0_de_skew junk) q1) as [w2 q2]. cbn [fst snd].
  destruct (of_read_words prop rk3328_dts_cs1_timing 0 (cs1_de_skew junk) q2) as [w3 q3]. cbn [fst snd].
  destruct (q3 =? 0); reflexivity.
Qed.

Lemma timings_complete : snd r3 = 0 <-> present prop timing_names.
Proof.
  pose proof (read_ret prop (tn_err prop Ht)) as H.
  destruct (H rk3328_dts_timing 1024 words 0 ltac:(lia)) as [L0 E0]. fold r0 in L0, E0.
  destruct (H rk3328_dts_ca_timing 0 (ca_de_skew junk) (snd r0) L0) as [L1 E1]. fold r1 in L1, E1.
  destruct (H rk3328_dts_cs0_timing 0 (cs0_de_skew junk) (snd r1) L1) as [L2 E2]. fold r2 in L2, E2.
  destruct (H rk3328_dts_cs1_timing 0 (cs1_de_skew junk) (snd r2) L2) as [L3 E3]. fold r3 in L3, E3.
  unfold timing_names, skew_names. rewrite !present_app. tauto.
Qed.

Lemma timings_skew_ok : present prop timing_names -> skew_ok ds.
Proof.
  unfold timing_names, skew_names. rewrite !present_app. intros (_ & P1 & P2 & P3). destruct Hj as [J1 J2 J3].
  split; cbn [ca_de_skew cs0_de_skew cs1_de_skew ds]; unfold r1, r2, r3.
  1-3: rewrite read_length; assumption.
  all: apply array_settings; [exact Ht | intros n Hn; unfold skew_names; rewrite !elem_of_app; auto | assumption | assumption].
Qed.

Lemma timings_frame : let w' := of_get_rk3328_timings (Some prop) (Some junk) words in
  length w' = length words /\ geti 0 w' (tim "available") = b2z (snd r3 =? 0) /\
  (forall i, 0 <= i -> i < 1024 \/ 1173 <= i -> geti 0 w' i = geti 0 words i).
Proof.
  cbv zeta. rewrite timings_unfold. assert (L0 : length (fst r0) = length words) by apply read_length.
  assert (R0 : forall i, 0 <= i -> i < 1024 \/ 1173 <= i -> geti 0 (fst r0) i = geti 0 words i).
  { intros i Hi Ho. apply read_other; change (length rk3328_dts_timing) with 45%nat; lia. }
  destruct tim_areas as (A1 & _ & _ & A4).
  assert (F : forall w1 b, length w1 = length words -> (forall i, 0 <= i -> i < 1024 \/ 1173 <= i -> geti 0 w1 i = geti 0 words i) ->
    length (seti w1 (tim "available") b) = length words /\ geti 0 (seti w1 (tim "available") b) (tim "available") = b /\
    (forall i, 0 <= i -> i < 1024 \/ 1173 <= i -> geti 0 (seti w1 (tim "available") b) i = geti 0 words i)).
  { intros w1 b S1 K. rewrite A4, seti_length, geti_seti, Z.eqb_refl by lia. split; [exact S1 |]. split; [reflexivity |].
    intros i Hi Ho. rewrite geti_seti by lia. destruct (Z.eqb_spec i 1172) as [-> |]; [lia | apply K; assumption]. }
  destruct (Z.eqb_spec (snd r3) 0) as [E | E]; [| apply F; assumption].
  destruct (skew_stored_ok ds (fst r0) ltac:(rewrite L0; exact Hl) (timings_skew_ok (proj1 timings_complete E))) as [S1 _ _ _ _ S6].
  apply F; [rewrite S1; exact L0 |]. intros i Hi Ho. rewrite S6 by lia. apply R0; assumption.
Qed.

(** With every property there, the page holds what the node says. *)
Lemma timings_stored : present prop timing_names ->
  let w' := of_get_rk3328_timings (Some prop) (Some junk) words in
  (forall n, n ∈ rk3328_dts_timing -> prop n = Ok (geti 0 w' (tim n))) /\
  map Ok (settings w' "ca_skew" ca_offset ca_shift 30) = map prop rk3328_dts_ca_timing /\
  map Ok (settings w' "cs0_skew" cs_offset cs_shift 84) = map prop rk3328_dts_cs0_timing /\
  map Ok (settings w' "cs1_skew" cs_offset cs_shift 84) = map prop rk3328_dts_cs1_timing /\
  (forall i, tim "ca_skew" <= i < tim "available" -> 0 <= geti 0 w' i < 256).
Proof.
  intros Hp. cbv zeta. rewrite timings_unfold. rewrite (proj2 (Z.eqb_eq _ _) (proj2 timings_complete Hp)).
  assert (L0 : length (fst r0) = length words) by apply read_length.
  destruct (skew_stored_ok ds (fst r0) ltac:(rewrite L0; exact Hl) (timings_skew_ok Hp)) as [S1 S2 S3 S4 S5 S6].
  set (w1 := rk3328_de_skew_setting_2_register _ _) in *.
  assert (K : forall i, 0 <= i -> i <> tim "available" -> geti 0 (seti w1 (tim "available") 1) i = geti 0 w1 i).
  { intros i Hi Hne. destruct tim_areas as (_ & _ & _ & HA). rewrite geti_seti by (rewrite HA in *; lia).
    destruct (Z.eqb_spec i (tim "available")); [contradiction | reflexivity]. }
  destruct tim_areas as (A1 & A2 & A3 & A4). pose proof Hp as Hp'. unfold timing_names, skew_names in Hp'.
  rewrite !present_app in Hp'. destruct Hp' as (P0 & P1 & P2 & P3). destruct Hj as [J1 J2 J3]. split; [| split; [| split; [| split]]].
  - intros n Hn. apply list_elem_of_lookup in Hn as [k Hk]. rewrite (timing_fields k n Hk).
    pose proof (lookup_lt_Some _ _ _ Hk) as Hlt. change (length rk3328_dts_timing) with 45%nat in Hlt.
    rewrite K, S6 by lia. apply (read_word prop); [lia | change (length rk3328_dts_timing) with 45%nat; lia | exact Hk | exact P0].
  - rewrite (settings_kept _ _ _ _ w1), S2 by (intros k Hk; apply K; pose proof (ca_offset_range k Hk); lia).
    apply read_array; assumption.
  - rewrite (settings_kept _ _ _ _ w1), S3 by (intros k Hk; apply K; pose proof (cs_offset_range k Hk); lia).
    apply read_array; assumption.
  - rewrite (settings_kept _ _ _ _ w1), S4 by (intros k Hk; apply K; pose proof (cs_offset_range k Hk); lia).
    apply read_array; assumption.
  - intros i Hi. rewrite K by lia. apply S5, Hi.
Qed.
End Timings.

(** Where the firmware looks for the settings: two to a byte, the first of
    them above; a data lane has 21, the last of them in a byte of its own. *)
Definition ca_places : list (Z * Z) := map (fun k => (tim "ca_skew" + k / 2, 4 * (1 - k mod 2))) (seqZ 0 30).
Definition lane_places (field : string) (lane : Z) : list (Z * Z) :=
  map (fun k => (tim field + 11 * lane + k / 2, if k =? 20 then 0 else 4 * (1 - k mod 2))) (seqZ 0 21).
Definition cs_places (field : string) : list (Z * Z) := concat (map (lane_places field) (seqZ 0 4)).

Lemma settings_places w field offset shift n places :
  map (fun k => (tim field + offset k, shift k)) (seqZ 0 n) = places -> settings w field offset shift n = map (nib w) places.
Proof. intros <-. unfold settings. rewrite map_map. reflexivity. Qed.

Lemma ca_settings w : settings w "ca_skew" ca_offset ca_shift 30 = map (nib w) ca_places.
Proof. apply settings_places. vm_compute. reflexivity. Qed.
Lemma cs0_settings w : settings w "cs0_skew" cs_offset cs_shift 84 = map (nib w) (cs_places "cs0_skew").
Proof. apply settings_places. vm_compute. reflexivity. Qed.
Lemma cs1_settings w : settings w "cs1_skew" cs_offset cs_shift 84 = map (nib w) (cs_places "cs1_skew").
Proof. apply settings_places. vm_compute. reflexivity. Qed.

(** C18: The timings of the device tree reach the firmware.  The page is marked
    as available exactly when the node has all 243 properties; then every
    field of the structure holds the property of its name, and every de-skew
    setting is read back, in order, from the four bits where the firmware
    looks for it; whatever else
    happens no word outside of the structure is touched. *)
Theorem timings_reach_firmware prop junk words :
  timing_node prop -> junk_ok junk -> Z.of_nat (length words) = 2048 ->
  let w' := of_get_rk3328_timings (Some prop) (Some junk) words in
  (geti 0 w' (tim "available") = 1 <-> present prop timing_names) /\
  (present prop timing_names ->
    (forall n, n ∈ rk3328_dts_timing -> prop n = Ok (geti 0 w' (tim n))) /\
    map Ok (map (nib w') ca_places) = map prop rk3328_dts_ca_timing /\
    map Ok (map (nib w') (cs_places "cs0_skew")) = map prop rk3328_dts_cs0_timing /\
    map Ok (map (nib w') (cs_places "cs1_skew")) = map prop rk3328_dts_cs1_timing /\
    (forall i, tim "ca_skew" <= i < tim "available" -> 0 <= geti 0 w' i < 256)) /\
  length w' = length words /\
  (forall i, 0 <= i -> i < 1024 \/ 1024 + sizeof_timing / 4 <= i -> geti 0 w' i = geti 0 words i).
Proof.
  intros Ht Hj Hl w'. destruct (timings_frame prop junk words Ht Hj Hl) as (F1 & F2 & F3).
  pose proof (timings_complete prop junk words Ht) as Hc. fold w' in F1, F2, F3. split; [| split; [rewrite <- ca_settings, <- cs0_settings, <- cs1_settings; apply timings_stored; assumption |]].
  - rewrite F2, <- Hc. match goal with |- context [?q =? 0] => destruct (Z.eqb_spec q 0) as [E | E] end; cbn [b2z]; split; intros H; try assumption; try reflexivity; [discriminate | contradiction].
  - split; [exact F1 | exact F3].
Qed.

(** A node whose settings are the lengths of their names, modulo 16. *)
Definition example_node (n : string) : res Z := Ok (Z.of_nat (String.length n) mod 16).
Definition zero_junk : rk3328_ddr_de_skew_setting :=
  {| ca_de_skew := replicate 30 0; cs0_de_skew := replicate 84 0; cs1_de_skew := replicate 84 0 |}.

Lemma example_node_ok : timing_node example_node.
Proof. split; [discriminate |]. intros n v _ [= <-]. apply Z.mod_pos_bound. lia. Qed.

Lemma timings_reach_firmware_witness :
  geti 0 (of_get_rk3328_timings (Some example_node) (Some zero_junk) (replicate 2048 9)) (tim "available") = 1 /\
  prop_or example_node "cs0_dqs0n_tx_de-skew" 0 = 4 /\
  geti 0 (of_get_rk3328_timings (Some example_node) (Some zero_junk) (replicate 2048 9)) 1094 = 4.
Proof.
  assert (Hp : present example_node timing_names) by (intros n _; eexists; reflexivity).
  destruct (timings_reach_firmware example_node zero_junk (replicate 2048 9)) as [H _];
    [apply example_node_ok | split; reflexivity | reflexivity |].
  split; [apply H, Hp |]. split; vm_compute; reflexivity.
Defined.

(** A setting of more than four bits spills into its neighbour. *)
Example wide_setting_spills :
  let ds := {| ca_de_skew := [8; 0x17] ++ replicate 28 0; cs0_de_skew := replicate 84 0; cs1_de_skew := replicate 84 0 |} in
  take 2 (settings (rk3328_de_skew_setting_2_register ds (replicate 2048 0)) "ca_skew" ca_offset ca_shift 30) = [9; 7].
Proof. vm_compute. reflexivity. Qed.
