(* ===== verification/Rk3328VoltProps.v ===== *)
(** * The DRAM voltage carries the DRAM clock

    What the scaling of [rk3328_dmc.c] relies on of the regulator, the clock
    and the OPP table, and that the voltage suffices for the clock at every
    moment, whichever of the calls fail. *)

From S2P Require Import Prelude CMonad Rk3328Dmc.

(** Calls that leave the operating point alone, whatever they answer. *)
Definition keeps {W A B} (f : W -> B) (m : M W A) : Prop := forall w, f (snd (m w)) = f w.

(** [trace w]: the operating points (voltage, clock) the DRAM has been at, the
    present one first.  [need r]: the least voltage for clock [r].  The clock
    either takes the new rate or stays at the old one, as the driver says of
    it; [devfreq_recommended_opp] answers with a row of the table, without
    flags the first one that is not below, if there is one. *)
Class DmcTrace (W : Type) := {
  trace : W -> list (Z * Z);
  need : Z -> Z;
  opps : list (Z * Z)
}.

Definition volts {W} {T : DmcTrace W} (w : W) : Z := fst (hd (0, 0) (trace w)).
Definition hertz {W} {T : DmcTrace W} (w : W) : Z := snd (hd (0, 0) (trace w)).

Class DmcHw (W : Type) {K : DmcKernel W} {T : DmcTrace W} := {
  need_mono r r' : r <= r' -> need r <= need r';
  opp_need r v : (r, v) ∈ opps -> need r <= v;
  hw_set_voltage v w :
    wp (regulator_set_voltage v v) (fun _ w' => trace w' = (v, hertz w) :: trace w) (fun _ w' => trace w' = trace w) w;
  hw_set_rate f w :
    wp (clk_set_rate f) (fun _ w' => trace w' = (volts w, f) :: trace w \/ trace w' = (volts w, hertz w) :: trace w)
       (fun _ w' => trace w' = trace w) w;
  hw_get_rate w : wp clk_get_rate (fun r w' => r = hertz w /\ trace w' = trace w) never w;
  hw_opp f fl w :
    wp (devfreq_recommended_opp f fl) (fun p w' => p ∈ opps /\ trace w' = trace w) (fun _ w' => trace w' = trace w) w;
  hw_opp_ceil f w :
    wp (devfreq_recommended_opp f 0)
       (fun p _ => (exists r v, (r, v) ∈ opps /\ f <= r) -> f <= fst p /\ forall r v, (r, v) ∈ opps -> ~ f < r < fst p)
       (fun _ _ => True) w;
  hw_smc fid x1 x2 x3 pages w : trace (snd (arm_smccc_smc fid x1 x2 x3 pages w)) = trace w;
  hw_regulator_get n : keeps trace (devm_regulator_get n);
  hw_clk_get n : keeps trace (devm_clk_get n);
  hw_get_edev n : keeps trace (devfreq_event_get_edev_by_phandle n);
  hw_enable : keeps trace devfreq_event_enable_edev;
  hw_disable : keeps trace devfreq_event_disable_edev;
  hw_event : keeps trace devfreq_event_get_event;
  hw_add_table : keeps trace dev_pm_opp_of_add_table;
  hw_remove_table : keeps trace dev_pm_opp_of_remove_table;
  hw_add_device f : keeps trace (devm_devfreq_add_device f);
  hw_notifier : keeps trace devm_devfreq_register_opp_notifier;
  hw_suspend : keeps trace devfreq_suspend_device;
  hw_resume : keeps trace devfreq_resume_device
}.

Section Safety.
Context {W : Type} {K : DmcKernel W} {T : DmcTrace W} {H : DmcHw W}.

(** A point is safe if its voltage carries its clock. *)
Definition safe (p : Z * Z) : Prop := need (snd p) <= fst p.

(** The clock of the driver may be above the real one, but no row of the
    table is in between: the probe rounds up. *)
Record scaling_ok (d : dmc W) : Prop := {
  so_trace : Forall safe (trace (dm_world d));
  so_point : need (hertz (dm_world d)) <= volts (dm_world d);
  so_rate : hertz (dm_world d) <= dm_rate d;
  so_volt : need (dm_rate d) <= dm_volt d;
  so_gap r v : (r, v) ∈ opps -> ~ hertz (dm_world d) < r < dm_rate d
}.

(** The parts of the state that matter. *)
Lemma scaling_same d d' : trace (dm_world d') = trace (dm_world d) -> dm_rate d' = dm_rate d -> dm_volt d' = dm_volt d ->
  scaling_ok d -> scaling_ok d'.
Proof.
  intros Ht Hr Hv [H1 H2 H3 H4 H5].
  assert (E : hertz (dm_world d') = hertz (dm_world d) /\ volts (dm_world d') = volts (dm_world d)) by (unfold hertz, volts; rewrite Ht; auto).
  destruct E as [E1 E2]. split; rewrite ?E1, ?E2, ?Ht, ?Hr, ?Hv; assumption.
Qed.

Lemma wp_kernel {A} (m : M W A) Q E (d : dmc W) :
  wp m (fun a w => Q a (with_world d w)) (fun e w => E e (with_world d w)) (dm_world d) -> wp (kernel m) Q E d.
Proof. unfold wp, kernel. destruct (m (dm_world d)) as [[a | e] w]; auto. Qed.

Lemma wp_keeps {A} (m : M W A) w : keeps trace m ->
  wp m (fun _ w' => trace w' = trace w) (fun _ w' => trace w' = trace w) w.
Proof. intros Hm. specialize (Hm w). unfold wp. destruct (m w) as [[a | e] w']; exact Hm. Qed.

Lemma of_res_wp {A} (r : res A) Q E (d : dmc W) :
  match r with Ok a => Q a d | Err e => E e d end -> wp (of_res r) Q E d.
Proof. unfold wp, of_res. destruct r; auto. Qed.

(** A new safe point. *)
Lemma scaling_voltage d v w' : scaling_ok d -> trace w' = (v, hertz (dm_world d)) :: trace (dm_world d) ->
  need (hertz (dm_world d)) <= v -> scaling_ok (with_world d w').
Proof.
  intros [H1 H2 H3 H4 H5] Ht Hv. split; cbn [with_world dm_world dm_rate dm_volt]; unfold hertz, volts; rewrite ?Ht; cbn [hd fst snd]; try assumption.
  constructor; [exact Hv | exact H1].
Qed.

Lemma set_own_voltage d (Q : unit -> dmc W -> Prop) E : scaling_ok d ->
  (forall w', scaling_ok (with_world d w') -> Q tt (with_world d w')) ->
  wp (unchecked tt (kernel (regulator_set_voltage (dm_volt d) (dm_volt d)))) Q E d.
Proof.
  intros Hd HQ. apply wp_unchecked, wp_kernel. eapply wp_mono; [apply hw_set_voltage | |]; cbv beta.
  - intros [] w' Ht. apply HQ. eapply scaling_voltage; [exact Hd | exact Ht |]. destruct Hd as [_ _ H3 H4 _].
    pose proof (need_mono _ _ H3). lia.
  - intros e w' Ht. apply HQ. eapply scaling_same; [exact Ht | reflexivity | reflexivity | exact Hd].
Qed.

(** The voltage that goes with a clock that was reached. *)
Lemma scale_finish (b : bool) d target_rate target_volt :
  Forall safe (trace (dm_world d)) -> need target_rate <= volts (dm_world d) -> hertz (dm_world d) = target_rate ->
  need target_rate <= target_volt ->
  wp (err <- (if b then catch (kernel (regulator_set_voltage target_volt target_volt)) else ret (Ok tt)) ;;
      set_rate target_rate ;; set_volt target_volt ;; of_res err) (fun _ => scaling_ok) (fun _ => scaling_ok) d.
Proof.
  intros Ht Hp Hh Hn. apply wp_bind.
  eapply (wp_mono _ (fun _ d' => Forall safe (trace (dm_world d')) /\ need target_rate <= volts (dm_world d') /\ hertz (dm_world d') = target_rate) _ never).
  - destruct b; [| apply wp_ret; auto]. apply wp_catch, wp_kernel. eapply wp_mono; [apply hw_set_voltage | |]; cbv beta; intros x w' Hw;
      cbn [with_world dm_world]; unfold volts, hertz in *; rewrite Hw; cbn [hd fst snd]; [| auto].
    split; [constructor; [unfold safe; cbn [fst snd]; rewrite Hh; exact Hn | exact Ht] | auto].
  - intros err d' (H1 & H2 & H3). apply wp_bind, wp_modify, wp_bind, wp_modify, of_res_wp.
    assert (Hok : scaling_ok {| dm_upthreshold := dm_upthreshold d'; dm_downdifferential := dm_downdifferential d'; dm_lock := dm_lock d';
      dm_rate := target_rate; dm_volt := target_volt; dm_set_auto_self_refresh := dm_set_auto_self_refresh d';
      ddr_psci_param := ddr_psci_param d'; dm_initial_freq := dm_initial_freq d'; dm_world := dm_world d' |}).
    { split; cbn [dm_world dm_rate dm_volt]; rewrite ?H3; try assumption; lia. }
    destruct err; exact Hok.
  - intros ? ? [].
Qed.

(** After the clock was set to a rate the voltage carries: what the clock
    says decides. *)
Lemma scale_clock old_clk_rate d target_rate target_volt : scaling_ok d -> need target_rate <= target_volt ->
  need target_rate <= volts (dm_world d) ->
  wp (kernel (clk_set_rate target_rate) ;;
      rate <- kernel clk_get_rate ;;
      set_rate rate ;;
      if negb (rate =? target_rate) then
        d <- get_state ;; unchecked tt (kernel (regulator_set_voltage (dm_volt d) (dm_volt d)))
      else
        err <- (if old_clk_rate >? target_rate then catch (kernel (regulator_set_voltage target_volt target_volt)) else ret (Ok tt)) ;;
        set_rate target_rate ;; set_volt target_volt ;; of_res err)
     (fun _ => scaling_ok) (fun _ => scaling_ok) d.
Proof.
  intros Hd Hn Hv. apply wp_bind, wp_kernel. eapply wp_mono; [apply hw_set_rate | |]; cbv beta.
  2: { intros e w' Ht. eapply scaling_same; [exact Ht | reflexivity | reflexivity | exact Hd]. }
  intros [] w1 Ht. apply wp_bind, wp_kernel. eapply wp_mono; [apply hw_get_rate | cbv beta | intros ? ? []].
  intros rate w2 [Hrate Ht2]. apply wp_bind, wp_modify. cbn [with_world dm_world] in *. rewrite <- Ht2 in Ht.
  destruct Hd as [D1 D2 D3 D4 D5].
  assert (Hsafe : Forall safe (trace w2)) by (destruct Ht as [-> | ->]; (constructor; [unfold safe; cbn; assumption | exact D1])).
  assert (Hvolts : volts w2 = volts (dm_world d)) by (unfold volts at 1; destruct Ht as [-> | ->]; reflexivity).
  assert (Hhertz : rate = hertz w2) by (rewrite Hrate; unfold hertz; rewrite Ht2; reflexivity).
  destruct (Z.eqb_spec rate target_rate) as [-> | Hne]; cbn [negb].
  - apply scale_finish; cbn [dm_world]; [exact Hsafe | lia | congruence | exact Hn].
  - assert (E : rate = hertz (dm_world d)).
    { rewrite Hhertz in *. unfold hertz at 1. unfold hertz in Hne at 1. destruct Ht as [Ht | ->]; [| reflexivity].
      rewrite Ht in Hne. cbn in Hne. congruence. }
    apply wp_bind, wp_get_state, set_own_voltage; [| intros w' Hd'; exact Hd'].
    assert (Hm : need (hertz (dm_world d)) <= dm_volt d) by (pose proof (need_mono _ _ D3); lia). split; cbn [dm_world dm_rate dm_volt]; rewrite <- ?Hhertz, ?E, ?Hvolts; try assumption; try lia.
Qed.

(** Scaling, between the mutex calls. *)
Lemma scale_ok d target_rate target_volt : scaling_ok d -> (target_rate, target_volt) ∈ opps -> dm_rate d <> target_rate ->
  wp (dmcfreq_scale (dm_rate d) target_rate target_volt) (fun _ => scaling_ok) (fun _ => scaling_ok) d.
Proof.
  intros Hd Ho Hne. unfold dmcfreq_scale. pose proof (opp_need _ _ Ho) as Hn.
  (* before the clock changes: the voltage carries both clocks *)
  apply wp_bind. eapply (wp_mono _ (fun _ d' => scaling_ok d' /\ dm_rate d' = dm_rate d /\
    need target_rate <= volts (dm_world d')) _ (fun _ => scaling_ok)); [| | auto].
  { destruct (Z.ltb_spec (dm_rate d) target_rate) as [Hlt | Hge].
    - apply wp_kernel. eapply wp_mono; [apply hw_set_voltage | |]; cbv beta; intros x w' Ht.
      + split; [| split; [reflexivity |]].
        * eapply scaling_voltage; [exact Hd | exact Ht |].
          pose proof (so_rate _ Hd). pose proof (need_mono (hertz (dm_world d)) target_rate). lia.
        * cbn [with_world dm_world]. unfold volts. rewrite Ht. cbn. lia.
      + eapply scaling_same; [exact Ht | reflexivity | reflexivity | exact Hd].
    - apply wp_ret. split; [exact Hd |]. split; [reflexivity |]. pose proof (so_gap _ Hd _ _ Ho) as Hg.
      pose proof (need_mono target_rate (hertz (dm_world d))). pose proof (so_point _ Hd). lia. }
  intros [] d1 (Hd1 & Hr1 & Hv1). rewrite <- Hr1 in Hne |- *. clear d Hd Hr1. rename d1 into d, Hd1 into Hd, Hv1 into Hv.
  pose proof (scale_clock (dm_rate d) d target_rate target_volt Hd Hn Hv) as Hc. unfold wp, bind, catch in Hc |- *.
  destruct (kernel (clk_set_rate target_rate) d) as [[[] | e] d1]; [exact Hc |]. cbn in *.
  pose proof (set_own_voltage d1 (fun _ => scaling_ok) (fun _ => scaling_ok) Hc (fun w' H => H)) as Hs. unfold wp in Hs.
  destruct (unchecked _ _ d1) as [[[] | e'] d2]; exact Hs.
Qed.

(** The state between two requests. *)
Definition idle (d : dmc W) : Prop := scaling_ok d /\ dm_lock d = false.

Lemma idle_kernel {A} (m : M W A) d : keeps trace m -> idle d -> wp (kernel m) (fun _ => idle) (fun _ => idle) d.
Proof.
  intros Hm [Hd Hk]. apply wp_kernel. eapply wp_mono; [apply wp_keeps, Hm | |]; cbv beta; intros x w' Ht;
    (split; [eapply scaling_same; [exact Ht | reflexivity | reflexivity | exact Hd] | exact Hk]).
Qed.

Lemma target_idle f fl d : idle d -> wp (rk3328_dmcfreq_target f fl) (fun _ => idle) (fun _ => idle) d.
Proof.
  intros [Hd Hk]. apply wp_bind, wp_get_state, wp_bind, wp_kernel. eapply wp_mono; [apply hw_opp | |]; cbv beta.
  2: { intros e w' Ht. split; [eapply scaling_same; [exact Ht | reflexivity | reflexivity | exact Hd] | exact Hk]. }
  intros [target_rate target_volt] w1 [Ho Ht]. apply wp_bind, wp_get_state.
  assert (Hd1 : scaling_ok (with_world d w1)) by (eapply scaling_same; [exact Ht | reflexivity | reflexivity | exact Hd]).
  destruct (Z.eqb_spec (dm_rate (with_world d w1)) target_rate) as [_ | Hne]; [apply wp_ret; split; assumption |].
  apply wp_bind, wp_modify, wp_bind, wp_catch.
  assert (Hu : forall r : res unit, forall d', scaling_ok d' -> wp (set_dmc_lock false ;; of_res r) (fun _ => idle) (fun _ => idle) d').
  { intros r d' Hd'. apply wp_bind, wp_modify, of_res_wp. assert (Hi : forall d2, scaling_ok d2 -> dm_lock d2 = false -> idle d2) by (split; assumption).
    destruct r; apply Hi; try reflexivity; (eapply scaling_same; [.. | exact Hd']; reflexivity). }
  eapply wp_mono; [apply (scale_ok {| dm_upthreshold := _; dm_rate := dm_rate (with_world d w1) |}) | |]; cbv beta;
    [eapply scaling_same; [.. | exact Hd1]; reflexivity | exact Ho | exact Hne | |]; intros x d' Hd'; apply Hu, Hd'.
Qed.

Lemma smc_idle fid x1 x2 x3 d : idle d -> wp (smc fid x1 x2 x3) (fun _ => idle) (fun _ => idle) d.
Proof.
  intros [Hd Hk]. unfold wp, smc. pose proof (hw_smc fid x1 x2 x3 (ddr_psci_param d) (dm_world d)) as Ht.
  destruct (arm_smccc_smc _ _ _ _ _ _) as [[[a0 a1] pages] w]. cbn in Ht |- *.
  split; [eapply scaling_same; [exact Ht | reflexivity | reflexivity | exact Hd] | exact Hk].
Qed.

(** What the devfreq framework, the power management and the governor ask
    for. *)
Inductive dmc_request :=
| ReqTarget (freq flags : Z)
| ReqStatus
| ReqFreq
| ReqSuspend
| ReqResume
| ReqSelfRefresh (en : Z).

Definition dmc_do (q : dmc_request) : M (dmc W) unit :=
  match q with
  | ReqTarget f fl => _ <- catch (rk3328_dmcfreq_target f fl) ;; ret tt
  | ReqStatus => _ <- catch rk3328_dmcfreq_get_dev_status ;; ret tt
  | ReqFreq => _ <- catch rk3328_dmcfreq_get_cur_freq ;; ret tt
  | ReqSuspend => _ <- catch rk3328_dmcfreq_suspend ;; ret tt
  | ReqResume => _ <- catch rk3328_dmcfreq_resume ;; ret tt
  | ReqSelfRefresh en => _ <- catch (rockchip_ddr_set_auto_self_refresh en) ;; ret tt
  end.

Lemma caught {A} (m : M (dmc W) A) d : wp m (fun _ => idle) (fun _ => idle) d -> wp (_ <- catch m ;; ret tt) (fun _ => idle) never d.
Proof. unfold wp, bind, catch. destruct (m d) as [[a | e] d']; auto. Qed.

Lemma two_calls {A B} (m : M W A) (n : M W B) d : keeps trace m -> keeps trace n -> idle d ->
  wp (kernel m ;; kernel n) (fun _ => idle) (fun _ => idle) d.
Proof.
  intros Hm Hn Hd. apply wp_bind. eapply wp_mono; [apply idle_kernel; assumption | | auto].
  intros a d' Hd'. apply idle_kernel; assumption.
Qed.

Lemma dmc_do_idle q d : idle d -> wp (dmc_do q) (fun _ => idle) never d.
Proof.
  intros Hd. destruct q; cbn [dmc_do]; apply caught.
  - apply target_idle, Hd.
  - apply wp_bind. eapply wp_mono; [apply idle_kernel; [apply hw_event | exact Hd] | | auto].
    intros [l t] d' Hd'. exact Hd'.
  - exact Hd.
  - apply two_calls; [apply hw_disable | apply hw_suspend | exact Hd].
  - apply two_calls; [apply hw_enable | apply hw_resume | exact Hd].
  - apply wp_bind, wp_bind, wp_get_state. destruct (ddr_psci_param d) as [words |]; [| exact Hd]. apply wp_modify.
    apply wp_bind. eapply wp_mono; [apply smc_idle | | auto].
    + destruct Hd as [Hd Hk]. split; [eapply scaling_same; [.. | exact Hd]; reflexivity | exact Hk].
    + intros [a0 a1] d' Hd'. exact Hd'.
Qed.

(** *** Probing *)

(** What the firmware leaves: a clock its voltage carries, no faster than the
    fastest row of the table. *)
Record booted (w : W) : Prop := {
  bo_trace : Forall safe (trace w);
  bo_point : need (hertz w) <= volts w;
  bo_table : exists r v, (r, v) ∈ opps /\ hertz w <= r
}.

Lemma booted_same w w' : trace w' = trace w -> booted w -> booted w'.
Proof. intros Ht [H1 H2 H3]. split; unfold hertz, volts in *; rewrite ?Ht; assumption. Qed.

Definition at_boot (d : dmc W) : Prop := booted (dm_world d) /\ dm_lock d = false.

Lemma boot_kernel {A} (m : M W A) d : keeps trace m -> at_boot d -> wp (kernel m) (fun _ => at_boot) (fun _ => at_boot) d.
Proof.
  intros Hm [Hd Hk]. apply wp_kernel. eapply wp_mono; [apply wp_keeps, Hm | |]; cbv beta; intros x w' Ht;
    (split; [eapply booted_same; [exact Ht | exact Hd] | exact Hk]).
Qed.

Lemma boot_smc fid x1 x2 x3 d : at_boot d -> wp (smc fid x1 x2 x3) (fun _ => at_boot) (fun _ => at_boot) d.
Proof.
  intros [Hd Hk]. unfold wp, smc. pose proof (hw_smc fid x1 x2 x3 (ddr_psci_param d) (dm_world d)) as Ht.
  destruct (arm_smccc_smc _ _ _ _ _ _) as [[[a0 a1] pages] w]. cbn in Ht |- *.
  split; [eapply booted_same; [exact Ht | exact Hd] | exact Hk].
Qed.

Lemma boot_init np_tim kmalloc d : at_boot d -> wp (rk3328_dmc_init np_tim kmalloc) (fun _ => at_boot) (fun _ => at_boot) d.
Proof.
  intros Hd. unfold rk3328_dmc_init. apply wp_bind. eapply wp_mono; [apply boot_smc, Hd | | auto].
  clear d Hd. intros [a0 a1] d Hd. destruct (cbool a0 || (a1 <? 0x101)); [exact Hd |].
  apply wp_bind. eapply wp_mono; [apply boot_smc, Hd | | auto]. clear d Hd a0 a1. intros [a0 a1] d Hd.
  destruct (negb (a0 =? 0)); [exact Hd |]. apply wp_bind, wp_get_state, wp_bind, wp_modify, wp_bind, wp_bind, wp_get_state.
  cbn [ddr_psci_param]. destruct (ioremap _ _ _) as [words |]; [| exact Hd]. apply wp_modify, wp_bind.
  eapply wp_mono; [apply boot_smc, Hd | | auto]. clear d Hd a0 a1. intros [a0 a1] d Hd. destruct (cbool a0); exact Hd.
Qed.

Lemma opp_after_boot d : at_boot d ->
  wp (kernel (devfreq_recommended_opp (hertz (dm_world d)) 0))
     (fun p d' => at_boot d' /\ p ∈ opps /\ hertz (dm_world d') <= fst p /\ forall r v, (r, v) ∈ opps -> ~ hertz (dm_world d') < r < fst p)
     (fun _ => at_boot) d.
Proof.
  intros [Hd Hk]. apply wp_kernel. pose proof (hw_opp (hertz (dm_world d)) 0 (dm_world d)) as H1.
  pose proof (hw_opp_ceil (hertz (dm_world d)) (dm_world d)) as H2. unfold wp in *.
  destruct (devfreq_recommended_opp _ _ _) as [[p | e] w]; cbn [with_world dm_world].
  - destruct H1 as [H1 Ht]. destruct (H2 (bo_table _ Hd)) as [H3 H4].
    assert (E : hertz w = hertz (dm_world d)) by (unfold hertz; rewrite Ht; reflexivity). rewrite E.
    split; [split; [eapply booted_same; [exact Ht | exact Hd] | exact Hk] |]. auto.
  - split; [eapply booted_same; [exact H1 | exact Hd] | exact Hk].
Qed.

(** The end of a probe that failed, and a call whose error is dropped. *)
Lemma boot_drop (m : M W unit) d : keeps trace m -> at_boot d -> wp (unchecked tt (kernel m)) (fun _ => at_boot) never d.
Proof.
  intros Hm Hd. apply wp_unchecked. eapply wp_mono; [apply boot_kernel; [exact Hm | exact Hd] | auto | auto].
Qed.

Lemma probe_fails e (d : dmc W) : at_boot d ->
  wp (unchecked tt (kernel dev_pm_opp_of_remove_table) ;; of_res (@Err unit e)) (fun _ => idle) (fun _ => at_boot) d.
Proof.
  intros Hd. apply wp_bind. eapply wp_mono; [apply boot_drop; [apply hw_remove_table | exact Hd] | | intros ? ? []].
  intros [] d' Hd'. apply of_res_wp, Hd'.
Qed.

Ltac boot_call L := apply wp_bind; eapply wp_mono; [apply boot_kernel; [apply L | eassumption] | cbv beta | auto].

(** The second half of the probe, with the table in place. *)
Lemma probe_rates np d : at_boot d ->
  wp (modify (fun d => with_ondemand (prop_or np "upthreshold" (dm_upthreshold d))
                                     (prop_or np "downdifferential" (dm_downdifferential d)) d) ;;
      rate <- kernel clk_get_rate ;;
      set_rate rate ;;
      opp <- catch (kernel (devfreq_recommended_opp rate 0)) ;;
      match opp with
      | Err e => unchecked tt (kernel dev_pm_opp_of_remove_table) ;; of_res (Err e)
      | Ok (freq, volt) =>
          set_rate freq ;;
          set_volt volt ;;
          set_initial_freq freq ;;
          devfreq <- catch (kernel (devm_devfreq_add_device freq)) ;;
          match devfreq with
          | Err e => unchecked tt (kernel dev_pm_opp_of_remove_table) ;; of_res (Err e)
          | Ok _ => unchecked tt (kernel devm_devfreq_register_opp_notifier)
          end
      end) (fun _ => idle) (fun _ => at_boot) d.
Proof.
  intros Hd. apply wp_bind, wp_modify, wp_bind, wp_kernel. eapply wp_mono; [apply hw_get_rate | cbv beta | intros ? ? []].
  intros rate w [Hr Ht]. cbn [with_ondemand dm_world] in Hr, Ht.
  assert (Hd1 : booted w) by (eapply booted_same; [exact Ht | apply Hd]).
  assert (E : rate = hertz w) by (rewrite Hr; unfold hertz; rewrite Ht; reflexivity). clear Hr Ht.
  apply wp_bind, wp_modify, wp_bind, wp_catch. subst rate.
  eapply wp_mono; [apply (opp_after_boot {| dm_world := w |}) | |]; cbv beta; [split; [exact Hd1 | apply Hd] | |].
  2: { intros e d2 Hd2. apply probe_fails, Hd2. }
  intros [freq volt] d2 (Hd2 & Ho & Hc & Hg). cbn [fst snd] in *. pose proof (opp_need _ _ Ho) as Hn.
  do 3 apply wp_bind, wp_modify. apply wp_bind, wp_catch, wp_kernel.
  eapply wp_mono; [apply wp_keeps, hw_add_device | |]; cbv beta; intros x w3 Ht3; cbn [dm_world] in Ht3.
  2: { apply probe_fails. split; [eapply booted_same; [exact Ht3 | apply Hd2] | apply Hd2]. }
  apply wp_unchecked, wp_kernel. eapply wp_mono; [apply wp_keeps, hw_notifier | |]; cbv beta; intros y w4 Ht4;
    cbn [with_world dm_world] in Ht4; rewrite Ht3 in Ht4; (split; [| apply Hd2]);
    (assert (Hb : booted w4) by (eapply booted_same; [exact Ht4 | apply Hd2]); destruct Hb as [B1 B2 _];
     assert (E : hertz w4 = hertz (dm_world d2)) by (unfold hertz; rewrite Ht4; reflexivity);
     split; cbn [with_world dm_world dm_rate dm_volt]; rewrite ?E in *; assumption).
Qed.

Lemma probe_idle alloc np np_tim kmalloc d : booted (dm_world d) ->
  wp (rk3328_dmcfreq_probe alloc np np_tim kmalloc) (fun _ => idle) (fun _ d' => booted (dm_world d')) d.
Proof.
  intros Hb. unfold rk3328_dmcfreq_probe. destruct alloc; cbn [negb]; [| exact Hb]. apply wp_bind, wp_modify.
  apply (wp_mono _ (fun _ => idle) _ (fun _ => at_boot)); [| auto | intros e d' Hd'; apply Hd'].
  assert (Hd : at_boot (zeroed d)) by (split; [exact Hb | reflexivity]). revert Hd. generalize (zeroed d) as d1. clear d Hb. intros d Hd.
  boot_call hw_regulator_get. intros [] d1 Hd1. boot_call hw_clk_get. intros [] d2 Hd2. clear d d1 Hd Hd1.
  apply wp_bind, wp_catch. eapply wp_mono; [apply boot_kernel; [apply hw_get_edev | exact Hd2] | |]; cbv beta; [| intros e d3 Hd3; exact Hd3].
  intros [] d3 Hd3. clear d2 Hd2. boot_call hw_enable. intros [] d4 Hd4. clear d3 Hd3.
  apply wp_bind. eapply wp_mono; [apply boot_init, Hd4 | cbv beta | auto]. intros [] d5 Hd5. clear d4 Hd4.
  apply wp_bind, wp_catch. eapply wp_mono; [apply boot_kernel; [apply hw_add_table | exact Hd5] | |]; cbv beta; [| intros e d6 Hd6; exact Hd6].
  intros [] d6 Hd6. apply probe_rates, Hd6.
Qed.

Lemma requests_idle qs d : idle d -> wp (run_all dmc_do qs) (fun _ => idle) never d.
Proof.
  revert d. induction qs as [| q qs IH]; intros d Hd; cbn [run_all]; [exact Hd |].
  apply wp_bind. eapply wp_mono; [apply dmc_do_idle, Hd | cbv beta | auto]. intros [] d1 Hd1.
  apply wp_bind. eapply wp_mono; [apply IH, Hd1 | cbv beta | auto]. intros l d2 Hd2. exact Hd2.
Qed.

(** C16: After a successful probe on a system the firmware left at a clock its
    voltage carries, every sequence of requests of the devfreq framework is
    served to its end, and the voltage carried the clock at every moment,
    between the calls of a scaling too and whichever calls to the regulator,
    the clock and the firmware fail; the mutex is free afterwards. *)
Theorem dmc_voltage_safe alloc np np_tim kmalloc qs d d1 :
  booted (dm_world d) ->
  rk3328_dmcfreq_probe alloc np np_tim kmalloc d = (Ok tt, d1) ->
  exists answers d2, run_all dmc_do qs d1 = (Ok answers, d2) /\
    Forall (fun p => need (snd p) <= fst p) (trace (dm_world d2)) /\ dm_lock d2 = false.
Proof.
  intros Hb Hp. pose proof (probe_idle alloc np np_tim kmalloc d Hb) as Hi. unfold wp in Hi. rewrite Hp in Hi.
  destruct (wp_never _ _ _ (requests_idle qs d1 Hi)) as (l & d2 & E & Hd2 & Hk). exists l, d2.
  split; [exact E |]. split; [apply Hd2 | exact Hk].
Qed.
End Safety.

(** ** A NanoPi R2S

    The operating points of its device tree, and hardware whose faults are a
    script: each call to the regulator or the clock takes one entry, [1]
    makes it fail, [2] leaves the clock where it is. *)

Record board := { bd_trace : list (Z * Z); bd_script : list Z }.

Definition r2s_opps : list (Z * Z) := [
  (786000000, 1075000); (798000000, 1075000); (840000000, 1075000); (924000000, 1100000); (1056000000, 1175000) ].

Definition r2s_need (r : Z) : Z := if r <=? 840000000 then 1075000 else if r <=? 924000000 then 1100000 else 1175000.

Fixpoint opp_ceil (f : Z) (l : list (Z * Z)) (last : Z * Z) : Z * Z :=
  match l with
  | [] => last
  | p :: l' => if f <=? fst p then p else opp_ceil f l' p
  end.

Definition scripted (ok : list (Z * Z) -> list (Z * Z)) (stuck : list (Z * Z) -> list (Z * Z)) : M board unit := fun b =>
  let rest := tl (bd_script b) in
  match hd 0 (bd_script b) with
  | 1 => (Err (- EIO), {| bd_trace := bd_trace b; bd_script := rest |})
  | 2 => (Ok tt, {| bd_trace := stuck (bd_trace b); bd_script := rest |})
  | _ => (Ok tt, {| bd_trace := ok (bd_trace b); bd_script := rest |})
  end.

Definition new_volts (v : Z) (t : list (Z * Z)) := (v, snd (hd (0, 0) t)) :: t.
Definition new_hertz (f : Z) (t : list (Z * Z)) := (fst (hd (0, 0) t), f) :: t.

#[export] Instance r2s_kernel : DmcKernel board := {|
  arm_smccc_smc fid x1 x2 x3 pages b := ((0, 0x101), pages, b);
  ioremap _ _ _ := Some (replicate 2048 0);
  devm_regulator_get _ := ret tt; devm_clk_get _ := ret tt; devfreq_event_get_edev_by_phandle _ := ret tt;
  devfreq_event_enable_edev := ret tt; devfreq_event_disable_edev := ret tt; devfreq_event_get_event := ret (30, 100);
  dev_pm_opp_of_add_table := ret tt; dev_pm_opp_of_remove_table := ret tt;
  devfreq_recommended_opp f _ := ret (opp_ceil f r2s_opps (0, 0));
  devm_devfreq_add_device _ := ret tt; devm_devfreq_register_opp_notifier := ret tt; devm_devfreq_unregister_opp_notifier := ret tt;
  devfreq_suspend_device := ret tt; devfreq_resume_device := ret tt;
  regulator_set_voltage v _ := scripted (new_volts v) (new_volts v);
  clk_set_rate f := scripted (new_hertz f) (fun t => new_hertz (snd (hd (0, 0) t)) t);
  clk_get_rate := fun b => (Ok (snd (hd (0, 0) (bd_trace b))), b)
|}.

#[export] Instance r2s_trace : DmcTrace board := {| trace := bd_trace; need := r2s_need; opps := r2s_opps |}.

Lemma scripted_spec ok stuck b :
  wp (scripted ok stuck) (fun _ b' => bd_trace b' = ok (bd_trace b) \/ bd_trace b' = stuck (bd_trace b)) (fun _ b' => bd_trace b' = bd_trace b) b.
Proof. unfold wp, scripted. repeat case_match; simplify_eq; cbn; auto. Qed.

Lemma r2s_row r v : (r, v) ∈ r2s_opps ->
  r = 786000000 /\ v = 1075000 \/ r = 798000000 /\ v = 1075000 \/ r = 840000000 /\ v = 1075000 \/
  r = 924000000 /\ v = 1100000 \/ r = 1056000000 /\ v = 1175000.
Proof.
  unfold r2s_opps. rewrite !elem_of_cons, elem_of_nil. intros H.
  repeat (destruct H as [[= -> ->] | H]; [auto 10 |]). contradiction.
Qed.

Lemma r2s_ceil f : let p := opp_ceil f r2s_opps (0, 0) in
  p ∈ r2s_opps /\ ((exists r v, (r, v) ∈ r2s_opps /\ f <= r) -> f <= fst p /\ forall r v, (r, v) ∈ r2s_opps -> ~ f < r < fst p).
Proof.
  assert (Hs : forall p, bool_decide (p ∈ r2s_opps) = true ->
    ((exists r v, (r, v) ∈ r2s_opps /\ f <= r) -> f <= fst p /\ forall r v, (r, v) ∈ r2s_opps -> ~ f < r < fst p) ->
    p ∈ r2s_opps /\ ((exists r v, (r, v) ∈ r2s_opps /\ f <= r) -> f <= fst p /\ forall r v, (r, v) ∈ r2s_opps -> ~ f < r < fst p)).
  { intros p Hp Hr. split; [exact (bool_decide_eq_true_1 _ Hp) | exact Hr]. }
  cbv zeta. cbn [opp_ceil r2s_opps fst]. fold r2s_opps.
  repeat match goal with |- context [f <=? ?x] => destruct (Z.leb_spec f x) end; apply Hs; try reflexivity;
    intros (r & v & Hr & Hf); apply r2s_row in Hr; cbn [fst]; (split; [lia |]); intros r' v' Hr'; apply r2s_row in Hr'; lia.
Qed.

#[export] Instance r2s_hw : DmcHw board.
Proof.
  split; try (intros; intros b; reflexivity).
  - intros r r' Hr. cbn. unfold r2s_need. repeat match goal with |- context [?a <=? ?b] => destruct (Z.leb_spec a b) end; lia.
  - intros r v Hr. apply r2s_row in Hr. cbn. unfold r2s_need. repeat match goal with |- context [?a <=? ?b] => destruct (Z.leb_spec a b) end; lia.
  - intros v b. eapply wp_mono; [apply scripted_spec | |]; cbv beta; [| auto]. intros _ b' [H | H]; exact H.
  - intros f b. eapply wp_mono; [apply scripted_spec | cbv beta; intros _ b' H; exact H | auto].
  - intros b. split; reflexivity.
  - intros f fl b. split; [apply r2s_ceil | reflexivity].
  - intros f b. cbn. apply r2s_ceil.
  - reflexivity.
Qed.

(** It boots at the slowest point. *)
Definition r2s_boot (script : list Z) : dmc board :=
  {| dm_upthreshold := 0; dm_downdifferential := 0; dm_lock := false; dm_rate := 0; dm_volt := 0;
     dm_set_auto_self_refresh := false; ddr_psci_param := None; dm_initial_freq := 0;
     dm_world := {| bd_trace := [(1075000, 786000000)]; bd_script := script |} |}.

Definition r2s_probe (script : list Z) : res unit * dmc board :=
  rk3328_dmcfreq_probe true (fun _ => Ok 40) None None (r2s_boot script).

Lemma r2s_booted script : booted (dm_world (r2s_boot script)).
Proof.
  split; [constructor; [vm_compute; discriminate | constructor] | vm_compute; discriminate |].
  exists 786000000, 1075000. split; [left | vm_compute; discriminate].
Qed.

Lemma dmc_voltage_safe_witness :
  let d1 := snd (r2s_probe [0; 0; 0; 2; 0; 0; 1; 1; 0]) in
  exists answers d2, run_all dmc_do [ReqTarget 1000000000 0; ReqTarget 786000000 0; ReqFreq; ReqTarget 924000000 0; ReqSuspend] d1 = (Ok answers, d2) /\
    Forall (fun p => need (snd p) <= fst p) (trace (dm_world d2)) /\ dm_lock d2 = false.
Proof.
  apply (dmc_voltage_safe true (fun _ => Ok 40) None None _ (r2s_boot [0; 0; 0; 2; 0; 0; 1; 1; 0])); [apply r2s_booted | vm_compute; reflexivity].
Defined.

(** A clock that stays where it is makes the request a success: the
    frequency is the old one, the return value is 0. *)
Example stuck_clock_is_success :
  let (r, d) := rk3328_dmcfreq_target 1056000000 0 (snd (r2s_probe [0; 2; 0])) in
  r = Ok tt /\ dm_rate d = 786000000 /\ hertz (dm_world d) = 786000000.
Proof. vm_compute. auto. Qed.

(** A regulator that refuses to go down again makes it an error, though the
    frequency has changed. *)
Example late_error_after_change :
  let d1 := snd (rk3328_dmcfreq_target 1056000000 0 (snd (r2s_probe [0; 0; 0; 1]))) in
  let (r, d) := rk3328_dmcfreq_target 786000000 0 d1 in
  r = Err (- EIO) /\ dm_rate d = 786000000 /\ hertz (dm_world d) = 786000000 /\ dm_volt d <> volts (dm_world d).
Proof. vm_compute. repeat split; discriminate. Qed.
