(* ===== verification/Phylib.v ===== *)
(** * PHY devices

    The kernel's PHY device, as far as the PHY drivers use it, and the numbers
    of the registers, link modes and results they share. *)

From S2P Require Import Prelude.

(** [linux/mii.h], [linux/mdio.h], [linux/ethtool.h] and
    [linux/ethtool_netlink.h], [linux/phy.h] *)
Definition MII_LPA : Z := 0x05.
Definition MII_CTRL1000 : Z := 0x09.
Definition MII_STAT1000 : Z := 0x0a.
Definition MII_NWAYTEST : Z := 0x14.
Definition LPA_1000XFULL : Z := 0x0020.
Definition LPA_1000XPAUSE : Z := 0x0080.
Definition LPA_1000XPAUSE_ASYM : Z := 0x0100.
Definition LPA_LPACK : Z := 0x4000.
Definition ADVERTISE_1000HALF : Z := 0x0100.
Definition ADVERTISE_1000FULL : Z := 0x0200.
Definition MDIO_MMD_PMAPMD : Z := 1.
Definition MDIO_MMD_PCS : Z := 3.
Definition MDIO_MMD_AN : Z := 7.
Definition MDIO_MMD_VEND1 : Z := 30.
Definition MDIO_MMD_VEND2 : Z := 31.
Definition DOWNSHIFT_DEV_DISABLE : Z := 0.
Definition SPEED_UNKNOWN : Z := -1.
Definition SPEED_10 : Z := 10.
Definition SPEED_100 : Z := 100.
Definition SPEED_1000 : Z := 1000.
Definition SPEED_2500 : Z := 2500.
Definition DUPLEX_HALF : Z := 0.
Definition DUPLEX_FULL : Z := 1.
Definition DUPLEX_UNKNOWN : Z := 0xff.
Definition ETH_TP_MDI : Z := 1.
Definition ETH_TP_MDI_X : Z := 2.
Definition ETH_TP_MDI_AUTO : Z := 3.
Definition ETHTOOL_LINK_MODE_10baseT_Half_BIT : Z := 0.
Definition ETHTOOL_LINK_MODE_10baseT_Full_BIT : Z := 1.
Definition ETHTOOL_LINK_MODE_100baseT_Half_BIT : Z := 2.
Definition ETHTOOL_LINK_MODE_100baseT_Full_BIT : Z := 3.
Definition ETHTOOL_LINK_MODE_1000baseT_Half_BIT : Z := 4.
Definition ETHTOOL_LINK_MODE_1000baseT_Full_BIT : Z := 5.
Definition ETHTOOL_LINK_MODE_Autoneg_BIT : Z := 6.
Definition ETHTOOL_LINK_MODE_FIBRE_BIT : Z := 10.
Definition ETHTOOL_LINK_MODE_Pause_BIT : Z := 13.
Definition ETHTOOL_LINK_MODE_Asym_Pause_BIT : Z := 14.
Definition ETHTOOL_LINK_MODE_1000baseX_Full_BIT : Z := 41.
Definition ETHTOOL_LINK_MODE_2500baseT_Full_BIT : Z := 47.
Definition RATE_MATCH_NONE : Z := 0.
Definition RATE_MATCH_PAUSE : Z := 1.
Definition ETHTOOL_A_CABLE_RESULT_CODE_UNSPEC : Z := 0.
Definition ETHTOOL_A_CABLE_RESULT_CODE_OK : Z := 1.
Definition ETHTOOL_A_CABLE_RESULT_CODE_OPEN : Z := 2.
Definition ETHTOOL_A_CABLE_RESULT_CODE_SAME_SHORT : Z := 3.
Definition ETHTOOL_A_CABLE_RESULT_CODE_CROSS_SHORT : Z := 4.
Definition ETHTOOL_A_CABLE_PAIR_A : Z := 0.
Definition ETHTOOL_A_CABLE_PAIR_B : Z := 1.
Definition ETHTOOL_A_CABLE_PAIR_C : Z := 2.
Definition ETHTOOL_A_CABLE_PAIR_D : Z := 3.
Definition EOPNOTSUPP : Z := 95.

(** The fields of [struct phy_device] the drivers use; link modes are sets of
    bit numbers. *)
Record phydev := {
  pd_link : bool;
  pd_autoneg : bool;
  pd_autoneg_complete : bool;
  pd_speed : Z;
  pd_duplex : Z;
  pd_pause : Z;
  pd_asym_pause : Z;
  pd_mdix : Z;
  pd_mdix_ctrl : Z;
  pd_interrupts : bool;
  pd_rate_matching : Z;
  pd_supported : gset Z;
  pd_advertising : gset Z;
  pd_lp_advertising : gset Z
}.

(** [speed], [duplex] and pause forgotten. *)
Definition unknown_status (d : phydev) : phydev :=
  {| pd_link := pd_link d; pd_autoneg := pd_autoneg d; pd_autoneg_complete := pd_autoneg_complete d;
     pd_speed := SPEED_UNKNOWN; pd_duplex := DUPLEX_UNKNOWN; pd_pause := 0; pd_asym_pause := 0;
     pd_mdix := pd_mdix d; pd_mdix_ctrl := pd_mdix_ctrl d; pd_interrupts := pd_interrupts d; pd_rate_matching := pd_rate_matching d;
     pd_supported := pd_supported d; pd_advertising := pd_advertising d; pd_lp_advertising := pd_lp_advertising d |}.

Definition with_lp (lp : gset Z) (d : phydev) : phydev :=
  {| pd_link := pd_link d; pd_autoneg := pd_autoneg d; pd_autoneg_complete := pd_autoneg_complete d;
     pd_speed := pd_speed d; pd_duplex := pd_duplex d; pd_pause := pd_pause d; pd_asym_pause := pd_asym_pause d;
     pd_mdix := pd_mdix d; pd_mdix_ctrl := pd_mdix_ctrl d; pd_interrupts := pd_interrupts d; pd_rate_matching := pd_rate_matching d;
     pd_supported := pd_supported d; pd_advertising := pd_advertising d; pd_lp_advertising := lp |}.

(** What [genphy_update_link] writes. *)
Definition with_link (link done : bool) (d : phydev) : phydev :=
  {| pd_link := link; pd_autoneg := pd_autoneg d; pd_autoneg_complete := done;
     pd_speed := pd_speed d; pd_duplex := pd_duplex d; pd_pause := pd_pause d; pd_asym_pause := pd_asym_pause d;
     pd_mdix := pd_mdix d; pd_mdix_ctrl := pd_mdix_ctrl d; pd_interrupts := pd_interrupts d; pd_rate_matching := pd_rate_matching d;
     pd_supported := pd_supported d; pd_advertising := pd_advertising d; pd_lp_advertising := pd_lp_advertising d |}.

(** [linkmode_mod_bit] *)
Definition mod_bit (nr : Z) (set : bool) (s : gset Z) : gset Z := if set then {[nr]} ∪ s else s ∖ {[nr]}.
