(* ===== verification/Qca807x.v ===== *)
(** * The QCA8072 and QCA8075 PHYs: [qca807x.c]

    Five PHYs and a PSGMII unit; the last PHY is a combo port, whose registers
    are those of the copper or of the fibre side, as a bit of its chip
    configuration register selects. *)

From S2P Require Import Prelude CMonad Regmap Phylib.

Definition PHY_ID_QCA8072 : Z := 0x004dd0b2.
Definition PHY_ID_QCA8075 : Z := 0x004dd0b1.
Definition PHY_ID_QCA807X_PSGMII : Z := 0x06820805.
Definition QCA807X_SMARTSPEED_EN : Z := BIT 5.
Definition QCA807X_SMARTSPEED_RETRY_LIMIT_MASK : Z := GENMASK 4 2.
Definition QCA807X_SMARTSPEED_RETRY_LIMIT_DEFAULT : Z := 5.
Definition QCA807X_SMARTSPEED_RETRY_LIMIT_MIN : Z := 2.
Definition QCA807X_SMARTSPEED_RETRY_LIMIT_MAX : Z := 9.
Definition QCA807X_CDT : Z := 0x16.
Definition QCA807X_CDT_ENABLE : Z := BIT 15.
Definition QCA807X_CDT_ENABLE_INTER_PAIR_SHORT : Z := BIT 13.
Definition QCA807X_CDT_STATUS : Z := BIT 11.
Definition QCA807X_CDT_MMD3_STATUS : Z := 0x8064.
Definition QCA807X_CDT_MDI0_STATUS_MASK : Z := GENMASK 15 12.
Definition QCA807X_CDT_MDI1_STATUS_MASK : Z := GENMASK 11 8.
Definition QCA807X_CDT_MDI2_STATUS_MASK : Z := GENMASK 7 4.
Definition QCA807X_CDT_MDI3_STATUS_MASK : Z := GENMASK 3 0.
Definition QCA807X_CDT_RESULTS_INVALID : Z := 0x0.
Definition QCA807X_CDT_RESULTS_OK : Z := 0x1.
Definition QCA807X_CDT_RESULTS_OPEN : Z := 0x2.
Definition QCA807X_CDT_RESULTS_SAME_SHORT : Z := 0x3.
Definition QCA807X_CDT_RESULTS_CROSS_SHORT_WITH_MDI1_SAME_OK : Z := 0x4.
Definition QCA807X_CDT_RESULTS_CROSS_SHORT_WITH_MDI2_SAME_OK : Z := 0x8.
Definition QCA807X_CDT_RESULTS_CROSS_SHORT_WITH_MDI3_SAME_OK : Z := 0xc.
Definition QCA807X_CDT_RESULTS_CROSS_SHORT_WITH_MDI1_SAME_OPEN : Z := 0x6.
Definition QCA807X_CDT_RESULTS_CROSS_SHORT_WITH_MDI2_SAME_OPEN : Z := 0xa.
Definition QCA807X_CDT_RESULTS_CROSS_SHORT_WITH_MDI3_SAME_OPEN : Z := 0xe.
Definition QCA807X_CDT_RESULTS_CROSS_SHORT_WITH_MDI1_SAME_SHORT : Z := 0x7.
Definition QCA807X_CDT_RESULTS_CROSS_SHORT_WITH_MDI2_SAME_SHORT : Z := 0xb.
Definition QCA807X_CDT_RESULTS_CROSS_SHORT_WITH_MDI3_SAME_SHORT : Z := 0xf.
Definition QCA807X_CDT_RESULTS_BUSY : Z := 0x9.
Definition QCA807X_CDT_MMD3_MDI0_LENGTH : Z := 0x8065.
Definition QCA807X_CDT_MMD3_MDI1_LENGTH : Z := 0x8066.
Definition QCA807X_CDT_MMD3_MDI2_LENGTH : Z := 0x8067.
Definition QCA807X_CDT_MMD3_MDI3_LENGTH : Z := 0x8068.
Definition QCA807X_CDT_SAME_SHORT_LENGTH_MASK : Z := GENMASK 15 8.
Definition QCA807X_CDT_CROSS_SHORT_LENGTH_MASK : Z := GENMASK 7 0.
Definition QCA807X_CHIP_CONFIGURATION : Z := 0x1f.
Definition QCA807X_BT_BX_REG_SEL : Z := BIT 15.
Definition QCA807X_CHIP_CONFIGURATION_MODE_CFG_MASK : Z := GENMASK 3 0.
Definition QCA807X_CHIP_CONFIGURATION_MODE_QSGMII_SGMII : Z := 4.
Definition QCA807X_CHIP_CONFIGURATION_MODE_PSGMII_FIBER : Z := 3.
Definition QCA807X_CHIP_CONFIGURATION_MODE_PSGMII_ALL_COPPER : Z := 0.
Definition QCA807X_MEDIA_SELECT_STATUS : Z := 0x1a.
Definition QCA807X_MEDIA_DETECTED_COPPER : Z := BIT 5.
Definition QCA807X_MEDIA_DETECTED_1000_BASE_X : Z := BIT 4.
Definition QCA807X_MEDIA_DETECTED_100_BASE_FX : Z := BIT 3.
Definition QCA807X_MMD7_FIBER_MODE_AUTO_DETECTION : Z := 0x807e.
Definition QCA807X_MMD7_FIBER_MODE_AUTO_DETECTION_EN : Z := BIT 0.
Definition QCA807X_MMD7_1000BASE_T_POWER_SAVE_PER_CABLE_LENGTH : Z := 0x801a.
Definition QCA807X_CONTROL_DAC_MASK : Z := GENMASK 2 0.
Definition QCA807X_MMD7_LED_100N_1 : Z := 0x8074.
Definition QCA807X_MMD7_LED_100N_2 : Z := 0x8075.
Definition QCA807X_MMD7_LED_1000N_1 : Z := 0x8076.
Definition QCA807X_MMD7_LED_1000N_2 : Z := 0x8077.
Definition QCA807X_LED_TXACT_BLK_EN_2 : Z := BIT 10.
Definition QCA807X_LED_RXACT_BLK_EN_2 : Z := BIT 9.
Definition QCA807X_LED_GT_ON_EN_2 : Z := BIT 6.
Definition QCA807X_LED_HT_ON_EN_2 : Z := BIT 5.
Definition QCA807X_LED_BT_ON_EN_2 : Z := BIT 4.
Definition QCA807X_GPIO_FORCE_EN : Z := BIT 15.
Definition QCA807X_GPIO_FORCE_MODE_MASK : Z := GENMASK 14 13.
Definition QCA807X_INTR_ENABLE : Z := 0x12.
Definition QCA807X_INTR_STATUS : Z := 0x13.
Definition QCA807X_INTR_ENABLE_AUTONEG_ERR : Z := BIT 15.
Definition QCA807X_INTR_ENABLE_SPEED_CHANGED : Z := BIT 14.
Definition QCA807X_INTR_ENABLE_DUPLEX_CHANGED : Z := BIT 13.
Definition QCA807X_INTR_ENABLE_LINK_FAIL : Z := BIT 11.
Definition QCA807X_INTR_ENABLE_LINK_SUCCESS : Z := BIT 10.
Definition QCA807X_FUNCTION_CONTROL : Z := 0x10.
Definition QCA807X_FC_MDI_CROSSOVER_MODE_MASK : Z := GENMASK 6 5.
Definition QCA807X_FC_MDI_CROSSOVER_AUTO : Z := 3.
Definition QCA807X_FC_MDI_CROSSOVER_MANUAL_MDIX : Z := 1.
Definition QCA807X_FC_MDI_CROSSOVER_MANUAL_MDI : Z := 0.
Definition QCA807X_PHY_SPECIFIC_STATUS : Z := 0x11.
Definition QCA807X_SS_SPEED_AND_DUPLEX_RESOLVED : Z := BIT 11.
Definition QCA807X_SS_SPEED_MASK : Z := GENMASK 15 14.
Definition QCA807X_SS_SPEED_1000 : Z := 2.
Definition QCA807X_SS_SPEED_100 : Z := 1.
Definition QCA807X_SS_SPEED_10 : Z := 0.
Definition QCA807X_SS_DUPLEX : Z := BIT 13.
Definition QCA807X_SS_MDIX : Z := BIT 6.
Definition PSGMII_QSGMII_DRIVE_CONTROL_1 : Z := 0xb.
Definition PSGMII_QSGMII_TX_DRIVER_MASK : Z := GENMASK 7 4.
Definition PSGMII_MODE_CTRL : Z := 0x6d.
Definition PSGMII_MODE_CTRL_AZ_WORKAROUND_MASK : Z := GENMASK 3 0.
Definition PSGMII_MMD3_SERDES_CONTROL : Z := 0x805a.

(** [linux/gpio/driver.h] *)
Definition GPIO_LINE_DIRECTION_OUT : Z := 0.

(** What the driver calls of the PHY library, with C's integers as results:
    a register or a negative error. *)
Class PhyLib (W : Type) := {
  phy_read : Z -> W -> Z * W;
  phy_write : Z -> Z -> W -> Z * W;
  phy_modify : Z -> Z -> Z -> W -> Z * W;
  phy_read_mmd : Z -> Z -> W -> Z * W;
  phy_write_mmd : Z -> Z -> Z -> W -> Z * W;
  genphy_soft_reset : W -> Z * W;
  genphy_update_link : phydev -> W -> Z * phydev * W;
  genphy_read_lpa : phydev -> W -> Z * phydev * W;
  phy_resolve_aneg_pause : phydev -> phydev;
  phy_resolve_aneg_linkmode : phydev -> phydev;
  phy_sfp_probe : W -> Z * W;
  devm_gpiochip_add_data : Z -> W -> Z * W
}.

(** What is reported to other parts of the kernel. *)
Inductive phy_event :=
| CableResult (pair code : Z)
| CableLength (pair cm : Z)
| PhyError
| TriggerMachine.

Record qphy (W : Type) := {
  q_dev : phydev;
  q_events : list phy_event;
  q_world : W
}.
Arguments q_dev {W} _.
Arguments q_events {W} _.
Arguments q_world {W} _.

(** The properties of the node in the device tree. *)
Record of_node := {
  of_property_read_bool : string -> bool;
  of_property_read_u32 : string -> option Z
}.

Inductive irqreturn := IRQ_NONE | IRQ_HANDLED.

Section Driver.
Context {W : Type} {L : PhyLib W}.

(** A call of the library; one that changes the device as well. *)
Definition lib (f : W -> Z * W) : M (qphy W) Z := fun q =>
  let (r, w) := f (q_world q) in (Ok r, {| q_dev := q_dev q; q_events := q_events q; q_world := w |}).
Definition genphy (f : phydev -> W -> Z * phydev * W) : M (qphy W) Z := fun q =>
  let '(r, d, w) := f (q_dev q) (q_world q) in (Ok r, {| q_dev := d; q_events := q_events q; q_world := w |}).
Definition set_dev (f : phydev -> phydev) : M (qphy W) unit :=
  modify (fun q => {| q_dev := f (q_dev q); q_events := q_events q; q_world := q_world q |}).
Definition report (e : phy_event) : M (qphy W) unit :=
  modify (fun q => {| q_dev := q_dev q; q_events := q_events q ++ [e]; q_world := q_world q |}).
Definition dev : M (qphy W) phydev := fun q => (Ok (q_dev q), q).

(** [u16] is the type of a register value passed down. *)
Definition write_reg (reg val : Z) : M (qphy W) Z := lib (phy_write reg (u16 val)).
Definition write_mmd (devad reg val : Z) : M (qphy W) Z := lib (phy_write_mmd devad reg (u16 val)).

(** ** Downshift *)

(** The result and [*data], a [u8]. *)
Definition qca807x_get_downshift : M (qphy W) (Z * option Z) :=
  val <- lib (phy_read MII_NWAYTEST) ;;
  if val <? 0 then ret (val, None) else
  let enable := FIELD_GET QCA807X_SMARTSPEED_EN val in
  let cnt := FIELD_GET QCA807X_SMARTSPEED_RETRY_LIMIT_MASK val + 2 in
  ret (0, Some (u8 (if cbool enable then cnt else DOWNSHIFT_DEV_DISABLE))).

Definition qca807x_set_downshift (cnt : Z) : M (qphy W) Z :=
  if (cnt >? QCA807X_SMARTSPEED_RETRY_LIMIT_MAX) ||
     ((cnt <? QCA807X_SMARTSPEED_RETRY_LIMIT_MIN) && negb (cnt =? DOWNSHIFT_DEV_DISABLE)) then ret (- EINVAL) else
  (if cnt =? 0 then
     _ <- lib (phy_modify MII_NWAYTEST QCA807X_SMARTSPEED_EN 0) ;; ret tt
   else
     let val := QCA807X_SMARTSPEED_EN in
     let val := val .| FIELD_PREP QCA807X_SMARTSPEED_RETRY_LIMIT_MASK (cnt - 2) in
     _ <- lib (phy_modify MII_NWAYTEST (QCA807X_SMARTSPEED_EN .| QCA807X_SMARTSPEED_RETRY_LIMIT_MASK) val) ;; ret tt) ;;
  lib genphy_soft_reset.

(** [downshift]: the tunable asked for is [ETHTOOL_PHY_DOWNSHIFT]. *)
Definition qca807x_get_tunable (downshift : bool) : M (qphy W) (Z * option Z) :=
  if downshift then qca807x_get_downshift else ret (- EOPNOTSUPP, None).
Definition qca807x_set_tunable (downshift : bool) (data : Z) : M (qphy W) Z :=
  if downshift then qca807x_set_downshift data else ret (- EOPNOTSUPP).

(** ** Cable test *)

Definition qca807x_distance_valid (result : Z) : bool :=
  existsb (Z.eqb result) [
    QCA807X_CDT_RESULTS_OPEN;
    QCA807X_CDT_RESULTS_SAME_SHORT;
    QCA807X_CDT_RESULTS_CROSS_SHORT_WITH_MDI1_SAME_OK;
    QCA807X_CDT_RESULTS_CROSS_SHORT_WITH_MDI2_SAME_OK;
    QCA807X_CDT_RESULTS_CROSS_SHORT_WITH_MDI3_SAME_OK;
    QCA807X_CDT_RESULTS_CROSS_SHORT_WITH_MDI1_SAME_OPEN;
    QCA807X_CDT_RESULTS_CROSS_SHORT_WITH_MDI2_SAME_OPEN;
    QCA807X_CDT_RESULTS_CROSS_SHORT_WITH_MDI3_SAME_OPEN;
    QCA807X_CDT_RESULTS_CROSS_SHORT_WITH_MDI1_SAME_SHORT;
    QCA807X_CDT_RESULTS_CROSS_SHORT_WITH_MDI2_SAME_SHORT;
    QCA807X_CDT_RESULTS_CROSS_SHORT_WITH_MDI3_SAME_SHORT ].

(** [length]: what the variable of that name holds before the switch. *)
Definition qca807x_report_length (length pair result : Z) : M (qphy W) Z :=
  r <- lib (phy_read_mmd MDIO_MMD_PCS (QCA807X_CDT_MMD3_MDI0_LENGTH + pair)) ;;
  if r <? 0 then ret r else
  let length :=
    if result =? ETHTOOL_A_CABLE_RESULT_CODE_SAME_SHORT then FIELD_GET QCA807X_CDT_SAME_SHORT_LENGTH_MASK r * 800 / 10
    else if (result =? ETHTOOL_A_CABLE_RESULT_CODE_OPEN) || (result =? ETHTOOL_A_CABLE_RESULT_CODE_CROSS_SHORT) then
      FIELD_GET QCA807X_CDT_CROSS_SHORT_LENGTH_MASK r * 800 / 10
    else length in
  report (CableLength pair length) ;;
  ret 0.

Definition qca807x_cable_test_report_trans (result : Z) : Z :=
  if result =? QCA807X_CDT_RESULTS_OK then ETHTOOL_A_CABLE_RESULT_CODE_OK
  else if result =? QCA807X_CDT_RESULTS_OPEN then ETHTOOL_A_CABLE_RESULT_CODE_OPEN
  else if result =? QCA807X_CDT_RESULTS_SAME_SHORT then ETHTOOL_A_CABLE_RESULT_CODE_SAME_SHORT
  else if existsb (Z.eqb result) [
    QCA807X_CDT_RESULTS_CROSS_SHORT_WITH_MDI1_SAME_OK;
    QCA807X_CDT_RESULTS_CROSS_SHORT_WITH_MDI2_SAME_OK;
    QCA807X_CDT_RESULTS_CROSS_SHORT_WITH_MDI3_SAME_OK;
    QCA807X_CDT_RESULTS_CROSS_SHORT_WITH_MDI1_SAME_OPEN;
    QCA807X_CDT_RESULTS_CROSS_SHORT_WITH_MDI2_SAME_OPEN;
    QCA807X_CDT_RESULTS_CROSS_SHORT_WITH_MDI3_SAME_OPEN;
    QCA807X_CDT_RESULTS_CROSS_SHORT_WITH_MDI1_SAME_SHORT;
    QCA807X_CDT_RESULTS_CROSS_SHORT_WITH_MDI2_SAME_SHORT;
    QCA807X_CDT_RESULTS_CROSS_SHORT_WITH_MDI3_SAME_SHORT ] then ETHTOOL_A_CABLE_RESULT_CODE_CROSS_SHORT
  else ETHTOOL_A_CABLE_RESULT_CODE_UNSPEC.

(** [junk]: what the variable [length] of [qca807x_report_length] holds. *)
Definition report_pair_length (junk pair result : Z) : M (qphy W) unit :=
  if qca807x_distance_valid result then
    _ <- qca807x_report_length junk pair (qca807x_cable_test_report_trans result) ;; ret tt
  else ret tt.

Definition qca807x_cable_test_report (junk : Z) : M (qphy W) Z :=
  r <- lib (phy_read_mmd MDIO_MMD_PCS QCA807X_CDT_MMD3_STATUS) ;;
  if r <? 0 then ret r else
  let pair0 := FIELD_GET QCA807X_CDT_MDI0_STATUS_MASK r in
  let pair1 := FIELD_GET QCA807X_CDT_MDI1_STATUS_MASK r in
  let pair2 := FIELD_GET QCA807X_CDT_MDI2_STATUS_MASK r in
  let pair3 := FIELD_GET QCA807X_CDT_MDI3_STATUS_MASK r in
  report (CableResult ETHTOOL_A_CABLE_PAIR_A (qca807x_cable_test_report_trans pair0)) ;;
  report (CableResult ETHTOOL_A_CABLE_PAIR_B (qca807x_cable_test_report_trans pair1)) ;;
  report (CableResult ETHTOOL_A_CABLE_PAIR_C (qca807x_cable_test_report_trans pair2)) ;;
  report (CableResult ETHTOOL_A_CABLE_PAIR_D (qca807x_cable_test_report_trans pair3)) ;;
  report_pair_length junk 0 pair0 ;;
  report_pair_length junk 1 pair1 ;;
  report_pair_length junk 2 pair2 ;;
  report_pair_length junk 3 pair3 ;;
  ret 0.

(** The result and [*finished]. *)
Definition qca807x_cable_test_get_status (junk : Z) : M (qphy W) (Z * bool) :=
  val <- lib (phy_read QCA807X_CDT) ;;
  if negb (cbool (Z.land val QCA807X_CDT_ENABLE) && cbool (Z.land val QCA807X_CDT_STATUS)) then
    r <- qca807x_cable_test_report junk ;; ret (r, true)
  else ret (0, false).

Definition qca807x_cable_test_start : M (qphy W) Z :=
  val <- lib (phy_read QCA807X_CDT) ;;
  let val := Z.land val (Z.lnot QCA807X_CDT_ENABLE_INTER_PAIR_SHORT) in
  let val := val .| QCA807X_CDT_ENABLE in
  write_reg QCA807X_CDT val.

(** ** GPIOs: the pins of two LEDs *)

Definition qca807x_gpio_get_direction (offset : Z) : Z := GPIO_LINE_DIRECTION_OUT.

Definition qca807x_gpio_get_reg (offset : Z) : Z := QCA807X_MMD7_LED_100N_2 + (offset mod 2) * 2.

Definition qca807x_gpio_get (offset : Z) : M (qphy W) Z :=
  val <- lib (phy_read_mmd MDIO_MMD_AN (qca807x_gpio_get_reg offset)) ;;
  ret (FIELD_GET QCA807X_GPIO_FORCE_MODE_MASK val).

Definition qca807x_gpio_set (offset value : Z) : M (qphy W) unit :=
  val <- lib (phy_read_mmd MDIO_MMD_AN (qca807x_gpio_get_reg offset)) ;;
  let val := Z.land val (Z.lnot QCA807X_GPIO_FORCE_MODE_MASK) in
  let val := val .| QCA807X_GPIO_FORCE_EN in
  let val := val .| FIELD_PREP QCA807X_GPIO_FORCE_MODE_MASK value in
  _ <- write_mmd MDIO_MMD_AN (qca807x_gpio_get_reg offset) val ;; ret tt.

Definition qca807x_gpio_dir_out (offset value : Z) : M (qphy W) Z := qca807x_gpio_set offset value ;; ret 0.

(** [alloc]: whether the two allocations succeed. *)
Definition qca807x_gpio (alloc1 alloc2 : bool) : M (qphy W) Z :=
  if negb alloc1 then ret (- ENOMEM) else
  if negb alloc2 then ret (- ENOMEM) else
  lib (devm_gpiochip_add_data 2).

(** ** Link status *)

Definition with_status (speed duplex mdix mdix_ctrl : Z) (d : phydev) : phydev :=
  {| pd_link := pd_link d; pd_autoneg := pd_autoneg d; pd_autoneg_complete := pd_autoneg_complete d;
     pd_speed := speed; pd_duplex := duplex; pd_pause := pd_pause d; pd_asym_pause := pd_asym_pause d;
     pd_mdix := mdix; pd_mdix_ctrl := mdix_ctrl; pd_interrupts := pd_interrupts d; pd_rate_matching := pd_rate_matching d;
     pd_supported := pd_supported d; pd_advertising := pd_advertising d; pd_lp_advertising := pd_lp_advertising d |}.

Definition with_fibre (d : phydev) : phydev :=
  {| pd_link := pd_link d; pd_autoneg := pd_autoneg d; pd_autoneg_complete := pd_autoneg_complete d;
     pd_speed := pd_speed d; pd_duplex := pd_duplex d; pd_pause := pd_pause d; pd_asym_pause := pd_asym_pause d;
     pd_mdix := pd_mdix d; pd_mdix_ctrl := pd_mdix_ctrl d; pd_interrupts := pd_interrupts d; pd_rate_matching := pd_rate_matching d;
     pd_supported := {[ETHTOOL_LINK_MODE_FIBRE_BIT]} ∪ pd_supported d;
     pd_advertising := {[ETHTOOL_LINK_MODE_FIBRE_BIT]} ∪ pd_advertising d;
     pd_lp_advertising := pd_lp_advertising d |}.

Definition copper_speed (ss old : Z) : Z :=
  let s := FIELD_GET QCA807X_SS_SPEED_MASK ss in
  if s =? QCA807X_SS_SPEED_10 then SPEED_10
  else if s =? QCA807X_SS_SPEED_100 then SPEED_100
  else if s =? QCA807X_SS_SPEED_1000 then SPEED_1000
  else old.

Definition fiber_speed (ss old : Z) : Z :=
  let s := FIELD_GET QCA807X_SS_SPEED_MASK ss in
  if s =? QCA807X_SS_SPEED_100 then SPEED_100
  else if s =? QCA807X_SS_SPEED_1000 then SPEED_1000
  else old.

Definition status_duplex (ss : Z) : Z := if cbool (Z.land ss QCA807X_SS_DUPLEX) then DUPLEX_FULL else DUPLEX_HALF.
Definition status_mdix (ss : Z) : Z := if cbool (Z.land ss QCA807X_SS_MDIX) then ETH_TP_MDI_X else ETH_TP_MDI.
Definition status_mdix_ctrl (sfc old : Z) : Z :=
  let m := FIELD_GET QCA807X_FC_MDI_CROSSOVER_MODE_MASK sfc in
  if m =? QCA807X_FC_MDI_CROSSOVER_MANUAL_MDI then ETH_TP_MDI
  else if m =? QCA807X_FC_MDI_CROSSOVER_MANUAL_MDIX then ETH_TP_MDI_X
  else if m =? QCA807X_FC_MDI_CROSSOVER_AUTO then ETH_TP_MDI_AUTO
  else old.

(** The status of the copper page, once it is selected. *)
Definition copper_status (old_link : bool) : M (qphy W) Z :=
  err <- genphy genphy_update_link ;;
  if cbool err then ret err else
  d <- dev ;;
  if pd_autoneg d && old_link && pd_link d then ret 0 else
  set_dev unknown_status ;;
  err <- genphy genphy_read_lpa ;;
  if err <? 0 then ret err else
  ss <- lib (phy_read QCA807X_PHY_SPECIFIC_STATUS) ;;
  if ss <? 0 then ret ss else
  sfc <- (if cbool (Z.land ss QCA807X_SS_SPEED_AND_DUPLEX_RESOLVED) then
            sfc <- lib (phy_read QCA807X_FUNCTION_CONTROL) ;; ret (Some sfc)
          else ret None) ;;
  let resolve :=
    d <- dev ;;
    (if pd_autoneg d && pd_autoneg_complete d then set_dev phy_resolve_aneg_pause else ret tt) ;;
    ret 0 in
  match sfc with
  | Some sfc =>
      if sfc <? 0 then ret sfc else
      set_dev (fun d => with_status (copper_speed ss (pd_speed d)) (status_duplex ss) (status_mdix ss)
                                    (status_mdix_ctrl sfc (pd_mdix_ctrl d)) d) ;;
      resolve
  | None => resolve
  end.

Definition qca807x_read_copper_status (combo_port : bool) : M (qphy W) Z :=
  d <- dev ;;
  let old_link := pd_link d in
  (if combo_port then
     page <- lib (phy_read QCA807X_CHIP_CONFIGURATION) ;;
     if negb (cbool (Z.land page QCA807X_BT_BX_REG_SEL)) then
       let page := page .| QCA807X_BT_BX_REG_SEL in
       _ <- write_reg QCA807X_CHIP_CONFIGURATION page ;; ret tt
     else ret tt
   else ret tt) ;;
  copper_status old_link.

(** The status of the fibre page, once it is selected. *)
Definition fiber_status (old_link : bool) : M (qphy W) Z :=
  err <- genphy genphy_update_link ;;
  if cbool err then ret err else
  d <- dev ;;
  if pd_autoneg d && old_link && pd_link d then ret 0 else
  set_dev unknown_status ;;
  d <- dev ;;
  lpa <- (if pd_autoneg d && pd_autoneg_complete d then
            lpa <- lib (phy_read MII_LPA) ;;
            if lpa <? 0 then ret lpa else
            set_dev (fun d => with_lp
              (mod_bit ETHTOOL_LINK_MODE_Asym_Pause_BIT (cbool (Z.land lpa LPA_1000XPAUSE_ASYM))
              (mod_bit ETHTOOL_LINK_MODE_Pause_BIT (cbool (Z.land lpa LPA_1000XPAUSE))
              (mod_bit ETHTOOL_LINK_MODE_1000baseX_Full_BIT (cbool (Z.land lpa LPA_1000XFULL))
              (mod_bit ETHTOOL_LINK_MODE_Autoneg_BIT (cbool (Z.land lpa LPA_LPACK)) (pd_lp_advertising d))))) d) ;;
            set_dev phy_resolve_aneg_linkmode ;;
            ret 0
          else ret 0) ;;
  if lpa <? 0 then ret lpa else
  ss <- lib (phy_read QCA807X_PHY_SPECIFIC_STATUS) ;;
  if ss <? 0 then ret ss else
  (if cbool (Z.land ss QCA807X_SS_SPEED_AND_DUPLEX_RESOLVED) then
     set_dev (fun d => with_status (fiber_speed ss (pd_speed d)) (status_duplex ss) (pd_mdix d) (pd_mdix_ctrl d) d)
   else ret tt) ;;
  ret 0.

Definition qca807x_read_fiber_status (combo_port : bool) : M (qphy W) Z :=
  d <- dev ;;
  let old_link := pd_link d in
  page <- lib (phy_read QCA807X_CHIP_CONFIGURATION) ;;
  (if cbool (Z.land page QCA807X_BT_BX_REG_SEL) then
     let page := Z.land page (Z.lnot QCA807X_BT_BX_REG_SEL) in
     _ <- write_reg QCA807X_CHIP_CONFIGURATION page ;; ret tt
   else ret tt) ;;
  fiber_status old_link.

Definition qca807x_read_status : M (qphy W) Z :=
  cc <- lib (phy_read QCA807X_CHIP_CONFIGURATION) ;;
  (if cbool cc then
     d <- dev ;;
     if bool_decide (ETHTOOL_LINK_MODE_FIBRE_BIT ∈ pd_supported d) then
       val <- lib (phy_read QCA807X_MEDIA_SELECT_STATUS) ;;
       if cbool (Z.land val QCA807X_MEDIA_DETECTED_COPPER) then
         _ <- qca807x_read_copper_status true ;; ret tt
       else if cbool (Z.land val QCA807X_MEDIA_DETECTED_1000_BASE_X) || cbool (Z.land val QCA807X_MEDIA_DETECTED_100_BASE_FX) then
         _ <- qca807x_read_fiber_status true ;; ret tt
       else ret tt
     else
       _ <- qca807x_read_copper_status true ;; ret tt
   else
     _ <- qca807x_read_copper_status false ;; ret tt) ;;
  ret 0.

(** ** Interrupts *)

Definition qca807x_config_intr : M (qphy W) Z :=
  val <- lib (phy_read QCA807X_INTR_ENABLE) ;;
  d <- dev ;;
  if pd_interrupts d then
    cc <- lib (phy_read QCA807X_CHIP_CONFIGURATION) ;;
    let val :=
      if cbool cc then
        val .| QCA807X_INTR_ENABLE_SPEED_CHANGED .| QCA807X_INTR_ENABLE_LINK_FAIL .| QCA807X_INTR_ENABLE_LINK_SUCCESS
      else
        val .| QCA807X_INTR_ENABLE_AUTONEG_ERR .| QCA807X_INTR_ENABLE_SPEED_CHANGED .| QCA807X_INTR_ENABLE_DUPLEX_CHANGED
            .| QCA807X_INTR_ENABLE_LINK_FAIL .| QCA807X_INTR_ENABLE_LINK_SUCCESS in
    write_reg QCA807X_INTR_ENABLE val
  else write_reg QCA807X_INTR_ENABLE 0.

(** Before Linux 5.12 and since then. *)
Definition qca807x_ack_intr : M (qphy W) Z :=
  r <- lib (phy_read QCA807X_INTR_STATUS) ;; ret (if r <? 0 then r else 0).

Definition qca807x_handle_interrupt : M (qphy W) irqreturn :=
  irq_status <- lib (phy_read QCA807X_INTR_STATUS) ;;
  if irq_status <? 0 then report PhyError ;; ret IRQ_NONE else
  int_enabled <- lib (phy_read QCA807X_INTR_ENABLE) ;;
  if int_enabled <? 0 then report PhyError ;; ret IRQ_NONE else
  if negb (cbool (Z.land irq_status int_enabled)) then ret IRQ_NONE else
  report TriggerMachine ;; ret IRQ_HANDLED.

(** ** Configuration *)

Definition qca807x_led_config (node : of_node) : M (qphy W) Z :=
  val <- lib (phy_read_mmd MDIO_MMD_AN QCA807X_MMD7_LED_1000N_1) ;;
  if val <? 0 then ret val else
  let led_1000 := of_property_read_bool node "qcom,single-led-1000" in
  let led_100 := of_property_read_bool node "qcom,single-led-100" in
  let led_10 := of_property_read_bool node "qcom,single-led-10" in
  let val := if led_1000 then val .| QCA807X_LED_TXACT_BLK_EN_2 .| QCA807X_LED_RXACT_BLK_EN_2 .| QCA807X_LED_GT_ON_EN_2 else val in
  let val := if led_100 then val .| QCA807X_LED_HT_ON_EN_2 else val in
  let val := if led_10 then val .| QCA807X_LED_BT_ON_EN_2 else val in
  if led_1000 || led_100 || led_10 then write_mmd MDIO_MMD_AN QCA807X_MMD7_LED_1000N_1 val else ret 0.

(** [gpiolib]: whether the kernel has [CONFIG_GPIOLIB]. *)
Definition qca807x_config (gpiolib : bool) (node : of_node) : M (qphy W) Z :=
  cc <- lib (phy_read QCA807X_CHIP_CONFIGURATION) ;;
  r <- (if cbool cc then
          (if of_property_read_bool node "qcom,fiber-enable" then
             auto <- lib (phy_read_mmd MDIO_MMD_AN QCA807X_MMD7_FIBER_MODE_AUTO_DETECTION) ;;
             _ <- write_mmd MDIO_MMD_AN QCA807X_MMD7_FIBER_MODE_AUTO_DETECTION
                    (auto .| QCA807X_MMD7_FIBER_MODE_AUTO_DETECTION_EN) ;;
             chip_config <- lib (phy_read QCA807X_CHIP_CONFIGURATION) ;;
             let chip_config := Z.land chip_config (Z.lnot QCA807X_CHIP_CONFIGURATION_MODE_CFG_MASK) in
             let chip_config := chip_config .| FIELD_PREP QCA807X_CHIP_CONFIGURATION_MODE_CFG_MASK
                                                 QCA807X_CHIP_CONFIGURATION_MODE_PSGMII_FIBER in
             _ <- write_reg QCA807X_CHIP_CONFIGURATION chip_config ;;
             set_dev with_fibre
           else ret tt) ;;
          serdes <- lib (phy_read_mmd MDIO_MMD_PCS PSGMII_MMD3_SERDES_CONTROL) ;;
          write_mmd MDIO_MMD_PCS PSGMII_MMD3_SERDES_CONTROL (Z.land serdes (Z.lnot (BIT 1)))
        else ret 0) ;;
  r <- (match of_property_read_u32 node "qcom,control-dac" with
        | Some of_control_dac =>
            dac <- lib (phy_read_mmd MDIO_MMD_AN QCA807X_MMD7_1000BASE_T_POWER_SAVE_PER_CABLE_LENGTH) ;;
            let dac := Z.land dac (Z.lnot QCA807X_CONTROL_DAC_MASK) in
            let dac := dac .| FIELD_PREP QCA807X_CONTROL_DAC_MASK of_control_dac in
            write_mmd MDIO_MMD_AN QCA807X_MMD7_1000BASE_T_POWER_SAVE_PER_CABLE_LENGTH dac
        | None => ret r
        end) ;;
  if gpiolib then
    if negb (of_property_read_bool node "gpio-controller") then qca807x_led_config node else ret r
  else qca807x_led_config node.

Definition qca807x_probe (gpiolib alloc1 alloc2 : bool) (node : of_node) : M (qphy W) Z :=
  r <- (if gpiolib && of_property_read_bool node "gpio-controller" then qca807x_gpio alloc1 alloc2 else ret 0) ;;
  if of_property_read_bool node "qcom,fiber-enable" then
    cc <- lib (phy_read QCA807X_CHIP_CONFIGURATION) ;;
    if cbool cc then lib phy_sfp_probe else ret r
  else ret r.

Definition qca807x_psgmii_config (node : of_node) : M (qphy W) Z :=
  r <- (if of_property_read_bool node "qcom,psgmii-az" then
          az <- lib (phy_read_mmd MDIO_MMD_PMAPMD PSGMII_MODE_CTRL) ;;
          let az := Z.land az (Z.lnot PSGMII_MODE_CTRL_AZ_WORKAROUND_MASK) in
          let az := az .| FIELD_PREP PSGMII_MODE_CTRL_AZ_WORKAROUND_MASK 0xc in
          r <- write_mmd MDIO_MMD_PMAPMD PSGMII_MODE_CTRL az ;;
          _ <- lib (phy_read_mmd MDIO_MMD_PMAPMD PSGMII_MODE_CTRL) ;;
          ret r
        else ret 0) ;;
  match of_property_read_u32 node "qcom,tx-driver-strength" with
  | Some tx_driver_strength =>
      amp <- lib (phy_read PSGMII_QSGMII_DRIVE_CONTROL_1) ;;
      let amp := Z.land amp (Z.lnot PSGMII_QSGMII_TX_DRIVER_MASK) in
      let amp := amp .| FIELD_PREP PSGMII_QSGMII_TX_DRIVER_MASK tx_driver_strength in
      write_reg PSGMII_QSGMII_DRIVE_CONTROL_1 amp
  | None => ret r
  end.
End Driver.
