(* ===== verification/Qca807xProps.v ===== *)
(** * Theorems on [qca807x.c] *)

From S2P Require Import Prelude CMonad Regmap Phylib Qca807x.

(** ** The PHY

    A combo port shows the registers of one side at a time: [q_side w true]
    is the copper side, [q_side w false] the fibre side.  [paged] says which
    registers have two sides; the others are [q_reg w], and [q_mmd w] are those
    behind the MMD access. *)

Definition page_bit (chip_config : Z) : bool := Z.testbit chip_config 15.

Definition paged (reg : Z) : bool :=
  (reg =? MII_LPA) || (reg =? QCA807X_FUNCTION_CONTROL) || (reg =? QCA807X_PHY_SPECIFIC_STATUS).

(** A PHY whose reads have no side effects and whose registers keep what is
    written; what the library functions do to the device.  A read may fail:
    a register may be negative. *)
Class QcaHw (W : Type) {L : PhyLib W} := {
  q_reg : W -> Z -> Z;
  q_side : W -> bool -> Z -> Z;
  q_mmd : W -> Z -> Z -> Z;
  hw_read r w : phy_read r w = (if paged r then q_side w (page_bit (q_reg w QCA807X_CHIP_CONFIGURATION)) r else q_reg w r, w);
  hw_write r v w : paged r = false ->
    let w' := snd (phy_write r v w) in
    (forall s, q_reg w' s = if s =? r then v else q_reg w s) /\ q_side w' = q_side w /\ q_mmd w' = q_mmd w;
  hw_modify r m v w : paged r = false ->
    let w' := snd (phy_modify r m v w) in
    (forall s, q_reg w' s = if s =? r then u16 (Z.lor (Z.land (q_reg w r) (Z.lnot m)) v) else q_reg w s) /\ q_side w' = q_side w;
  hw_read_mmd d r w : phy_read_mmd d r w = (q_mmd w d r, w);
  hw_write_mmd d r v w :
    let w' := snd (phy_write_mmd d r v w) in
    (forall e s, q_mmd w' e s = if (e =? d) && (s =? r) then v else q_mmd w e s) /\ q_reg w' = q_reg w /\ q_side w' = q_side w;
  hw_soft_reset w : exists w', genphy_soft_reset w = (0, w') /\ q_reg w' MII_NWAYTEST = q_reg w MII_NWAYTEST
}.

Section Qca.
Context {W : Type} {L : PhyLib W} {H : QcaHw W}.
Implicit Types (q : qphy W) (w : W).

Definition side_of w : bool := page_bit (q_reg w QCA807X_CHIP_CONFIGURATION).

Lemma run_read {B} r (k : Z -> M (qphy W) B) q :
  bind (lib (phy_read r)) k q = k (if paged r then q_side (q_world q) (side_of (q_world q)) r else q_reg (q_world q) r) q.
Proof. unfold bind, lib. rewrite hw_read. destruct q; reflexivity. Qed.

Lemma run_read_mmd {B} d r (k : Z -> M (qphy W) B) q : bind (lib (phy_read_mmd d r)) k q = k (q_mmd (q_world q) d r) q.
Proof. unfold bind, lib. rewrite hw_read_mmd. destruct q; reflexivity. Qed.

Lemma run_report_event {B} e (k : unit -> M (qphy W) B) q :
  bind (report e) k q = k tt {| q_dev := q_dev q; q_events := q_events q ++ [e]; q_world := q_world q |}.
Proof. reflexivity. Qed.

Lemma run_ret {A B} (a : A) (k : A -> M (qphy W) B) q : bind (ret a) k q = k a q.
Proof. reflexivity. Qed.

Lemma bind_assoc {A B C} (m : M (qphy W) A) (k : A -> M (qphy W) B) (l : B -> M (qphy W) C) q :
  bind (bind m k) l q = bind m (fun a => bind (k a) l) q.
Proof. unfold bind. destruct (m q) as [[a | e] q']; reflexivity. Qed.

(** ** The cable test

    What a nibble of the status register says of a pair. *)
Inductive verdict := Unclear | Good | Open | SameShort | CrossShort.

Definition pair_verdict (n : Z) : verdict :=
  match n with
  | 1 => Good
  | 2 => Open
  | 3 => SameShort
  | 4 | 6 | 7 | 8 | 10 | 11 | 12 | 14 | 15 => CrossShort
  | _ => Unclear
  end.

Definition verdict_code (v : verdict) : Z :=
  match v with
  | Unclear => ETHTOOL_A_CABLE_RESULT_CODE_UNSPEC
  | Good => ETHTOOL_A_CABLE_RESULT_CODE_OK
  | Open => ETHTOOL_A_CABLE_RESULT_CODE_OPEN
  | SameShort => ETHTOOL_A_CABLE_RESULT_CODE_SAME_SHORT
  | CrossShort => ETHTOOL_A_CABLE_RESULT_CODE_CROSS_SHORT
  end.

(** The distance of a fault in centimetres, 80 to a step: that of a short
    within the pair is in the high byte of the length register. *)
Definition fault_length (v : verdict) (len : Z) : option Z :=
  match v with
  | Unclear | Good => None
  | SameShort => Some (80 * (len / 256 mod 256))
  | Open | CrossShort => Some (80 * (len mod 256))
  end.

(** What is reported of a pair's length: nothing if it is not faulty, or if
    its register cannot be read. *)
Definition length_event (pair : Z) (v : verdict) (len : Z) : list phy_event :=
  match fault_length v len with
  | Some cm => if len <? 0 then [] else [CableLength pair cm]
  | None => []
  end.

(** The first pair has the highest nibble. *)
Definition verdict_of (status pair : Z) : verdict := pair_verdict (status / 2 ^ (4 * (3 - pair)) mod 16).

Definition diagnosis (status : Z) (len : Z -> Z) : list phy_event :=
  map (fun pair => CableResult pair (verdict_code (verdict_of status pair))) [0; 1; 2; 3] ++
  concat (map (fun pair => length_event pair (verdict_of status pair) (len pair)) [0; 1; 2; 3]).

Lemma FIELD_GET_div h l x : 0 <= l <= h -> FIELD_GET (GENMASK h l) x = x / 2 ^ l mod 2 ^ (h - l + 1).
Proof.
  intros Hl. rewrite <- Z.land_ones, <- Z.shiftr_div_pow2 by lia. apply Z.bits_inj'. intros k Hk.
  rewrite testbit_FIELD_GET, Z.land_spec, Z.shiftr_spec, testbit_ones by lia. rewrite andb_comm. f_equal. lia.
Qed.

(** The driver's two tables agree with the verdict. *)
Lemma trans_verdict n : 0 <= n < 16 -> qca807x_cable_test_report_trans n = verdict_code (pair_verdict n).
Proof.
  intros Hn. assert (Hall : forallb (fun n => qca807x_cable_test_report_trans n =? verdict_code (pair_verdict n)) (seqZ 0 16) = true)
    by (vm_compute; reflexivity).
  rewrite forallb_forall in Hall. apply Z.eqb_eq, Hall, list_elem_of_In, elem_of_seqZ. lia.
Qed.

Lemma distance_verdict n : 0 <= n < 16 ->
  qca807x_distance_valid n = match pair_verdict n with Unclear | Good => false | _ => true end.
Proof.
  intros Hn. assert (Hall : forallb (fun n => Bool.eqb (qca807x_distance_valid n)
    (match pair_verdict n with Unclear | Good => false | _ => true end)) (seqZ 0 16) = true) by (vm_compute; reflexivity).
  rewrite forallb_forall in Hall. apply eqb_prop, Hall, list_elem_of_In, elem_of_seqZ. lia.
Qed.

Lemma step_length h l len : 0 <= l <= h -> FIELD_GET (GENMASK h l) len * 800 / 10 = 80 * (len / 2 ^ l mod 2 ^ (h - l + 1)).
Proof. intros Hl. rewrite FIELD_GET_div by exact Hl. set (x := _ mod _). replace (x * 800) with (80 * x * 10) by ring. apply Z.div_mul. lia. Qed.

(** The length of a pair that has one is reported, whatever the variable of
    the driver holds before. *)
Lemma run_report {B} junk pair v len (k : Z -> M (qphy W) B) q : fault_length v (q_mmd (q_world q) MDIO_MMD_PCS (QCA807X_CDT_MMD3_MDI0_LENGTH + pair)) = Some len ->
  exists r, bind (qca807x_report_length junk pair (verdict_code v)) k q =
  k r {| q_dev := q_dev q;
         q_events := q_events q ++ length_event pair v (q_mmd (q_world q) MDIO_MMD_PCS (QCA807X_CDT_MMD3_MDI0_LENGTH + pair));
         q_world := q_world q |}.
Proof.
  intros Hf. unfold qca807x_report_length, length_event. rewrite Hf, !bind_assoc, run_read_mmd. set (x := q_mmd _ _ _) in *.
  destruct (Z.ltb_spec x 0) as [Hx | Hx]; [exists x; rewrite run_ret, app_nil_r; destruct q; reflexivity |]. exists 0.
  rewrite bind_assoc, run_report_event, run_ret. unfold QCA807X_CDT_SAME_SHORT_LENGTH_MASK, QCA807X_CDT_CROSS_SHORT_LENGTH_MASK.
  rewrite !step_length by lia. rewrite Z.pow_0_r, Z.div_1_r.
  destruct v; cbn in Hf; try discriminate; injection Hf as <-; reflexivity.
Qed.

Lemma run_length {B} junk pair n (k : unit -> M (qphy W) B) q : 0 <= n < 16 ->
  bind (report_pair_length junk pair n) k q =
  k tt {| q_dev := q_dev q;
          q_events := q_events q ++ length_event pair (pair_verdict n) (q_mmd (q_world q) MDIO_MMD_PCS (QCA807X_CDT_MMD3_MDI0_LENGTH + pair));
          q_world := q_world q |}.
Proof.
  intros Hn. unfold report_pair_length. rewrite distance_verdict, trans_verdict by exact Hn.
  set (len := q_mmd _ _ _). destruct (fault_length (pair_verdict n) len) as [cm |] eqn:Hf.
  - replace (match pair_verdict n with Unclear | Good => false | _ => true end) with true by (destruct (pair_verdict n); cbn in Hf; congruence).
    rewrite bind_assoc. destruct (run_report junk pair (pair_verdict n) cm (fun _ => bind (ret tt) k) q Hf) as [r ->]. reflexivity.
  - replace (match pair_verdict n with Unclear | Good => false | _ => true end) with false by (destruct (pair_verdict n); cbn in Hf; congruence).
    unfold length_event. rewrite Hf, run_ret, app_nil_r. destruct q; reflexivity.
Qed.

(** C29: What a cable test reports.  A status that cannot be read is the result
    and nothing is reported; otherwise the four pairs are reported in order,
    each by its nibble, then the distances of those that are faulty and whose
    length can be read, in order.  The result never depends on the variable
    [length], which one branch leaves unset. *)
Theorem cable_report_diagnosis junk q :
  let status := q_mmd (q_world q) MDIO_MMD_PCS QCA807X_CDT_MMD3_STATUS in
  qca807x_cable_test_report junk q =
  if status <? 0 then (Ok status, q)
  else (Ok 0, {| q_dev := q_dev q;
                 q_events := q_events q ++ diagnosis status (fun pair => q_mmd (q_world q) MDIO_MMD_PCS (QCA807X_CDT_MMD3_MDI0_LENGTH + pair));
                 q_world := q_world q |}).
Proof.
  cbv zeta. unfold qca807x_cable_test_report. rewrite run_read_mmd. set (status := q_mmd _ _ _).
  destruct (Z.ltb_spec status 0) as [Hs | Hs]; [reflexivity |].
  assert (Hr : forall h l, 0 <= l <= h -> h - l = 3 -> 0 <= FIELD_GET (GENMASK h l) status < 16).
  { intros h l Hl E. pose proof (FIELD_GET_range h l status Hl) as Hx. rewrite E in Hx. exact Hx. }
  unfold QCA807X_CDT_MDI0_STATUS_MASK, QCA807X_CDT_MDI1_STATUS_MASK, QCA807X_CDT_MDI2_STATUS_MASK, QCA807X_CDT_MDI3_STATUS_MASK.
  rewrite !run_report_event, !run_length by (apply Hr; lia). rewrite !trans_verdict by (apply Hr; lia). unfold ret. cbn [q_dev q_world q_events].
  rewrite !FIELD_GET_div by lia. unfold diagnosis, verdict_of. cbn [map concat]. rewrite <- !app_assoc, app_nil_r. reflexivity.
Qed.

(** ** Downshift, interrupts, GPIOs *)

Lemma cbool_field_bit n x : 0 <= n -> cbool (FIELD_GET (BIT n) x) = Z.testbit x n.
Proof.
  intros Hn. replace (BIT n) with (GENMASK n n) by (unfold GENMASK, BIT; replace (n - n + 1) with 1 by lia; reflexivity).
  rewrite FIELD_GET_div by lia. replace (n - n + 1) with 1 by lia. rewrite Z.pow_1_r, <- Z.testbit_spec' by lia.
  destruct (Z.testbit x n); reflexivity.
Qed.

Lemma downshift_word old c : 0 <= c < 8 ->
  let m := QCA807X_SMARTSPEED_EN .| QCA807X_SMARTSPEED_RETRY_LIMIT_MASK in
  let x := Z.lor (Z.land old (Z.lnot m)) (QCA807X_SMARTSPEED_EN .| FIELD_PREP QCA807X_SMARTSPEED_RETRY_LIMIT_MASK c) in
  Z.testbit (u16 x) 5 = true /\ FIELD_GET (GENMASK 4 2) (u16 x) = c.
Proof.
  intros Hc m x. assert (Hb : forall k, 0 <= k -> Z.testbit x k = Z.testbit old k && negb ((5 =? k) || (2 <=? k) && (k <=? 4)) ||
    ((5 =? k) || (2 <=? k) && (k <=? 4) && Z.testbit c (k - 2))).
  { intros k Hk. unfold x, m, QCA807X_SMARTSPEED_EN, QCA807X_SMARTSPEED_RETRY_LIMIT_MASK.
    rewrite !Z.lor_spec, Z.land_spec, Z.lnot_spec, Z.lor_spec, testbit_BIT, testbit_GENMASK, testbit_FIELD_PREP by lia. reflexivity. }
  split; [unfold u16; rewrite testbit_uwrap, Hb by lia; cbn; apply orb_true_r |].
  apply Z.bits_inj'. intros k Hk. rewrite testbit_FIELD_GET by lia. unfold u16. rewrite testbit_uwrap, Hb by lia.
  destruct (Z.leb_spec k (4 - 2)) as [Hk2 | Hk2]; [| rewrite (testbit_high c 3 k) by lia; reflexivity].
  rewrite (proj2 (Z.ltb_lt _ _)), (proj2 (Z.eqb_neq _ _)), (proj2 (Z.leb_le _ _)), (proj2 (Z.leb_le _ _)) by lia.
  cbn. rewrite andb_false_r. cbn. f_equal. lia.
Qed.

(** A retry count is accepted from 2 to 9, and 0 turns downshift off; what was
    accepted is read back. *)
Lemma downshift_roundtrip cnt q : 0 <= cnt < 256 ->
  if (cnt =? 0) || ((2 <=? cnt) && (cnt <=? 9)) then
    exists q', qca807x_set_downshift cnt q = (Ok 0, q') /\ fst (qca807x_get_downshift q') = Ok (0, Some cnt)
  else qca807x_set_downshift cnt q = (Ok (- EINVAL), q).
Proof.
  intros Hc. unfold qca807x_set_downshift, QCA807X_SMARTSPEED_RETRY_LIMIT_MAX, QCA807X_SMARTSPEED_RETRY_LIMIT_MIN, DOWNSHIFT_DEV_DISABLE.
  destruct (Z.eqb_spec cnt 0) as [-> | H0]; cbn [orb andb negb Z.gtb Z.ltb Z.compare].
  - destruct (hw_modify MII_NWAYTEST QCA807X_SMARTSPEED_EN 0 (q_world q) eq_refl) as [Hm _].
    unfold bind, lib, ret. destruct (phy_modify _ _ _ _) as [r w1]. cbn [snd q_world] in *.
    destruct (hw_soft_reset w1) as (w2 & -> & Hr). eexists. split; [reflexivity |].
    unfold qca807x_get_downshift. rewrite run_read. change (paged MII_NWAYTEST) with false. cbn [q_world]. rewrite Hr, Hm, Z.eqb_refl.
    pose proof (u16_range (Z.lor (Z.land (q_reg (q_world q) MII_NWAYTEST) (Z.lnot QCA807X_SMARTSPEED_EN)) 0)) as Hu.
    rewrite (proj2 (Z.ltb_ge _ _)) by lia. unfold QCA807X_SMARTSPEED_EN in *. rewrite cbool_field_bit by lia.
    unfold u16. rewrite testbit_uwrap, Z.lor_0_r, Z.land_spec, Z.lnot_spec, testbit_BIT by lia. cbn. rewrite andb_false_r. reflexivity.
  - destruct (Z.gtb_spec cnt 9), (Z.ltb_spec cnt 2), (Z.leb_spec 2 cnt), (Z.leb_spec cnt 9); try lia; try reflexivity. cbn [orb andb negb].
    set (m := QCA807X_SMARTSPEED_EN .| QCA807X_SMARTSPEED_RETRY_LIMIT_MASK). set (v := QCA807X_SMARTSPEED_EN .| FIELD_PREP _ _).
    destruct (hw_modify MII_NWAYTEST m v (q_world q) eq_refl) as [Hm _].
    unfold bind, lib, ret. destruct (phy_modify _ _ _ _) as [r w1]. cbn [snd q_world] in *.
    destruct (hw_soft_reset w1) as (w2 & -> & Hr). eexists. split; [reflexivity |].
    unfold qca807x_get_downshift. rewrite run_read. change (paged MII_NWAYTEST) with false. cbn [q_world]. rewrite Hr, Hm, Z.eqb_refl.
    set (x := Z.lor _ v). pose proof (u16_range x). rewrite (proj2 (Z.ltb_ge _ _)) by lia.
    unfold QCA807X_SMARTSPEED_EN at 1. rewrite cbool_field_bit by lia. unfold QCA807X_SMARTSPEED_RETRY_LIMIT_MASK.
    assert (Hx : Z.testbit (u16 x) 5 = true /\ FIELD_GET (GENMASK 4 2) (u16 x) = cnt - 2) by (apply downshift_word; lia).
    destruct Hx as [-> ->]. unfold ret. cbn [fst]. do 3 f_equal. rewrite u8_small by lia. lia.
Qed.

Lemma gpio_word old v : 0 <= v < 4 ->
  FIELD_GET QCA807X_GPIO_FORCE_MODE_MASK (u16 (Z.land old (Z.lnot QCA807X_GPIO_FORCE_MODE_MASK) .| QCA807X_GPIO_FORCE_EN
    .| FIELD_PREP QCA807X_GPIO_FORCE_MODE_MASK v)) = v.
Proof.
  intros Hv. unfold QCA807X_GPIO_FORCE_MODE_MASK, QCA807X_GPIO_FORCE_EN. apply Z.bits_inj'. intros k Hk.
  rewrite testbit_FIELD_GET by lia. unfold u16.
  rewrite testbit_uwrap, !Z.lor_spec, Z.land_spec, Z.lnot_spec, testbit_BIT, testbit_GENMASK, testbit_FIELD_PREP by lia.
  destruct (Z.leb_spec k (14 - 13)) as [Hk2 | Hk2]; [| rewrite (testbit_high v 2 k) by lia; reflexivity].
  rewrite (proj2 (Z.ltb_lt _ _)), (proj2 (Z.eqb_neq 15 _)), (proj2 (Z.leb_le 13 _)), (proj2 (Z.leb_le _ 14)) by lia.
  cbn. rewrite andb_false_r. cbn. f_equal. lia.
Qed.

(** A GPIO that is set reads back, and the other one is left alone. *)
Lemma gpio_set_get a v q : 0 <= v < 4 -> exists q', qca807x_gpio_dir_out a v q = (Ok 0, q') /\
  (forall b, fst (qca807x_gpio_get b q') = if b mod 2 =? a mod 2 then Ok v else fst (qca807x_gpio_get b q)).
Proof.
  intros Hv. unfold qca807x_gpio_dir_out, qca807x_gpio_set. rewrite !bind_assoc, run_read_mmd, bind_assoc.
  set (val := _ .| FIELD_PREP _ _). unfold write_mmd.
  destruct (hw_write_mmd MDIO_MMD_AN (qca807x_gpio_get_reg a) (u16 val) (q_world q)) as (Hm & _).
  unfold bind, lib, ret. destruct (phy_write_mmd _ _ _ _) as [r w1]. cbn [snd] in Hm. eexists. split; [reflexivity |].
  intros b. unfold qca807x_gpio_get. rewrite !run_read_mmd. cbn [q_world]. rewrite Hm. unfold ret. cbn [fst].
  rewrite Z.eqb_refl. cbn [andb]. unfold qca807x_gpio_get_reg.
  destruct (Z.eqb_spec (b mod 2) (a mod 2)) as [E | E].
  - rewrite E, Z.eqb_refl. f_equal. unfold val. apply gpio_word, Hv.
  - rewrite (proj2 (Z.eqb_neq _ _)) by lia. reflexivity.
Qed.

(** The interrupt is handled, and the state machine triggered, exactly when
    both registers can be read and one of the enabled ones is pending. *)
Lemma handle_interrupt_spec q : let pending := q_reg (q_world q) QCA807X_INTR_STATUS in let enabled := q_reg (q_world q) QCA807X_INTR_ENABLE in
  qca807x_handle_interrupt q =
  let say e := {| q_dev := q_dev q; q_events := q_events q ++ [e]; q_world := q_world q |} in
  if (pending <? 0) || (enabled <? 0) then (Ok IRQ_NONE, say PhyError)
  else if Z.land pending enabled =? 0 then (Ok IRQ_NONE, q) else (Ok IRQ_HANDLED, say TriggerMachine).
Proof.
  cbv zeta. unfold qca807x_handle_interrupt. rewrite run_read. change (paged QCA807X_INTR_STATUS) with false. cbv iota.
  destruct (Z.ltb_spec (q_reg (q_world q) QCA807X_INTR_STATUS) 0); [reflexivity |]. cbn [orb].
  rewrite run_read. change (paged QCA807X_INTR_ENABLE) with false. cbv iota.
  destruct (Z.ltb_spec (q_reg (q_world q) QCA807X_INTR_ENABLE) 0); [reflexivity |].
  unfold cbool. destruct (Z.eqb_spec (Z.land (q_reg (q_world q) QCA807X_INTR_STATUS) (q_reg (q_world q) QCA807X_INTR_ENABLE)) 0); reflexivity.
Qed.

(** The register of the cable test: the bit the comment calls an enable is
    cleared. *)
Lemma cable_test_start_clears q : exists r q', qca807x_cable_test_start q = (Ok r, q') /\
  Z.testbit (q_reg (q_world q') QCA807X_CDT) 13 = false /\ Z.testbit (q_reg (q_world q') QCA807X_CDT) 15 = true.
Proof.
  unfold qca807x_cable_test_start. rewrite run_read. change (paged QCA807X_CDT) with false. cbv iota zeta.
  set (v := _ .| _). destruct (hw_write QCA807X_CDT (u16 v) (q_world q) eq_refl) as (Hw & _).
  unfold write_reg, lib. destruct (phy_write _ _ _) as [r w1]. cbn [snd] in Hw. exists r. eexists. split; [reflexivity |].
  cbn [q_world]. rewrite Hw, Z.eqb_refl. unfold v, u16, QCA807X_CDT_ENABLE_INTER_PAIR_SHORT, QCA807X_CDT_ENABLE.
  rewrite !testbit_uwrap, !Z.lor_spec, !Z.land_spec, !Z.lnot_spec, !testbit_BIT by lia. cbn. rewrite andb_false_r, orb_true_r. auto.
Qed.
End Qca.

(** ** The status of the link

    A PHY on a bus any of whose accesses may fail; [qb_faults] counts those
    that did.  A failed read gives an error number, between -1 and -4095,
    and changes nothing; a failed write is done or not; a failed library call
    leaves the device as it was, or its partner's modes unknown.  The sides
    have a link and a state of autonegotiation each. *)
Class QcaBus (W : Type) {L : PhyLib W} := {
  qb_reg : W -> Z -> Z;
  qb_side : W -> bool -> Z -> Z;
  qb_link : W -> bool -> bool;
  qb_done : W -> bool -> bool;
  qb_faults : W -> nat;
  qb_range w r : 0 <= qb_reg w r < 65536 /\ forall side, 0 <= qb_side w side r;
  qb_quiet w w' := qb_reg w' = qb_reg w /\ qb_side w' = qb_side w /\ qb_link w' = qb_link w /\ qb_done w' = qb_done w;
  qb_read r w : let (v, w') := phy_read r w in
    qb_quiet w w' /\
    (qb_faults w' = qb_faults w /\ v = (if paged r then qb_side w (page_bit (qb_reg w QCA807X_CHIP_CONFIGURATION)) r else qb_reg w r) \/
     (qb_faults w < qb_faults w')%nat /\ - 4096 < v < 0);
  qb_write r v w : paged r = false -> 0 <= v < 65536 -> let (rc, w') := phy_write r v w in
    qb_side w' = qb_side w /\ qb_link w' = qb_link w /\ qb_done w' = qb_done w /\
    let done := forall s, qb_reg w' s = if s =? r then v else qb_reg w s in
    (qb_faults w' = qb_faults w /\ rc = 0 /\ done \/ (qb_faults w < qb_faults w')%nat /\ rc < 0 /\ (done \/ qb_reg w' = qb_reg w));
  qb_update_link d w : let '(rc, d', w') := genphy_update_link d w in
    qb_quiet w w' /\
    let side := page_bit (qb_reg w QCA807X_CHIP_CONFIGURATION) in
    (qb_faults w' = qb_faults w /\ rc = 0 /\ d' = with_link (qb_link w side) (qb_done w side) d \/
     (qb_faults w < qb_faults w')%nat /\ rc < 0 /\ d' = d);
  qb_read_lpa d w : let '(rc, d', w') := genphy_read_lpa d w in
    qb_quiet w w' /\ (exists lp, d' = with_lp lp d) /\
    (qb_faults w' = qb_faults w /\ rc = 0 \/ (qb_faults w < qb_faults w')%nat /\ rc < 0);
  qb_resolve_pause d : let d' := phy_resolve_aneg_pause d in
    pd_link d' = pd_link d /\ pd_speed d' = pd_speed d /\ pd_duplex d' = pd_duplex d;
  qb_resolve_linkmode d : pd_link (phy_resolve_aneg_linkmode d) = pd_link d
}.

(** The speed a status register means, on either side. *)
Definition status_speed (copper : bool) (ss : Z) : option Z :=
  match ss / 2 ^ 14 mod 4 with
  | 0 => if copper then Some SPEED_10 else None
  | 1 => Some SPEED_100
  | 2 => Some SPEED_1000
  | _ => None
  end.

Lemma status_code_speed ss : FIELD_GET QCA807X_SS_SPEED_MASK ss = ss / 2 ^ 14 mod 4.
Proof. apply (FIELD_GET_div 15 14). lia. Qed.

Lemma copper_speed_spec ss old s : status_speed true ss = Some s -> copper_speed ss old = s.
Proof. unfold status_speed, copper_speed. rewrite status_code_speed. destruct (ss / 2 ^ 14 mod 4) as [| [p | [p | p |] |] | p]; intros [=]; assumption. Qed.

Lemma fiber_speed_spec ss old s : status_speed false ss = Some s -> fiber_speed ss old = s.
Proof. unfold status_speed, fiber_speed. rewrite status_code_speed. destruct (ss / 2 ^ 14 mod 4) as [| [p | [p | p |] |] | p]; intros [=]; assumption. Qed.

Lemma status_duplex_spec ss : status_duplex ss = b2z (Z.testbit ss 13).
Proof. unfold status_duplex, QCA807X_SS_DUPLEX. rewrite cbool_land_BIT by lia. destruct (Z.testbit ss 13); reflexivity. Qed.

Section Link.
Context {W : Type} {L : PhyLib W} {H : QcaBus W}.
Implicit Types (q : qphy W) (w : W).

Definition shown w : bool := page_bit (qb_reg w QCA807X_CHIP_CONFIGURATION).
Definition value w (r : Z) : Z := if paged r then qb_side w (shown w) r else qb_reg w r.

(** [w'] came of [w], perhaps with failures, without a register changing. *)
Record looked w w' : Prop := {
  lk_quiet : qb_quiet w w';
  lk_faults : (qb_faults w <= qb_faults w')%nat
}.

Lemma looked_refl w : looked w w.
Proof. split; [repeat split | lia]. Qed.
Lemma looked_trans w1 w2 w3 : looked w1 w2 -> looked w2 w3 -> looked w1 w3.
Proof. intros [(A1 & A2 & A3 & A4) A5] [(B1 & B2 & B3 & B4) B5]. split; [repeat split; congruence | lia]. Qed.
Lemma looked_value w w' r : looked w w' -> value w' r = value w r.
Proof. intros [(A1 & A2 & _) _]. unfold value, shown. rewrite A1, A2. reflexivity. Qed.
Lemma looked_shown w w' : looked w w' -> shown w' = shown w.
Proof. intros [(A1 & _) _]. unfold shown. rewrite A1. reflexivity. Qed.
Lemma value_range w r : 0 <= value w r.
Proof. unfold value. destruct (paged r); apply qb_range. Qed.

Definition at_world w q : qphy W := {| q_dev := q_dev q; q_events := q_events q; q_world := w |}.
Definition at_dev d q : qphy W := {| q_dev := d; q_events := q_events q; q_world := q_world q |}.

(** An access without a failure, or with one. *)
Definition went_well w w' : Prop := qb_faults w' = qb_faults w.
Definition went_wrong w w' : Prop := (qb_faults w < qb_faults w')%nat.

Lemma wp_read {B} r (k : Z -> M (qphy W) B) Q E q :
  (forall v w', looked (q_world q) w' -> (went_well (q_world q) w' /\ v = value (q_world q) r \/ went_wrong (q_world q) w' /\ - 4096 < v < 0) ->
     wp (k v) Q E (at_world w' q)) -> wp (bind (lib (phy_read r)) k) Q E q.
Proof.
  intros Hk. unfold wp, bind, lib in *. pose proof (qb_read r (q_world q)) as Hr. destruct (phy_read r (q_world q)) as [v w'].
  destruct Hr as [Hq Hv]. apply Hk; [split; [exact Hq | lia] | exact Hv].
Qed.

Lemma wp_update {B} (k : Z -> M (qphy W) B) Q E q :
  (forall w', looked (q_world q) w' -> went_well (q_world q) w' ->
     wp (k 0) Q E (at_dev (with_link (qb_link (q_world q) (shown (q_world q))) (qb_done (q_world q) (shown (q_world q))) (q_dev q)) (at_world w' q))) ->
  (forall rc w', rc < 0 -> looked (q_world q) w' -> went_wrong (q_world q) w' -> wp (k rc) Q E (at_world w' q)) ->
  wp (bind (genphy genphy_update_link) k) Q E q.
Proof.
  intros H1 H2. unfold wp, bind, genphy in *. pose proof (qb_update_link (q_dev q) (q_world q)) as Hu.
  destruct (genphy_update_link _ _) as [[rc d'] w']. destruct Hu as [Hq [(Hf & -> & ->) | (Hf & Hrc & ->)]].
  - apply H1; [split; [exact Hq | lia] | exact Hf].
  - apply H2; [exact Hrc | split; [exact Hq | lia] | exact Hf].
Qed.

Lemma wp_lpa {B} (k : Z -> M (qphy W) B) Q E q :
  (forall rc lp w', looked (q_world q) w' -> (went_well (q_world q) w' /\ rc = 0 \/ went_wrong (q_world q) w' /\ rc < 0) ->
     wp (k rc) Q E (at_dev (with_lp lp (q_dev q)) (at_world w' q))) ->
  wp (bind (genphy genphy_read_lpa) k) Q E q.
Proof.
  intros Hk. unfold wp, bind, genphy in *. pose proof (qb_read_lpa (q_dev q) (q_world q)) as Hu.
  destruct (genphy_read_lpa _ _) as [[rc d'] w']. destruct Hu as (Hq & [lp ->] & Hf). apply (Hk rc lp w'); [split; [exact Hq | lia] | exact Hf].
Qed.

Lemma wp_dev {B} (k : phydev -> M (qphy W) B) Q E q : wp (k (q_dev q)) Q E q -> wp (bind dev k) Q E q.
Proof. auto. Qed.
Lemma wp_set_dev {B} f (k : unit -> M (qphy W) B) Q E q : wp (k tt) Q E (at_dev (f (q_dev q)) q) -> wp (bind (set_dev f) k) Q E q.
Proof. auto. Qed.
Lemma wp_assoc {A B C} (m : M (qphy W) A) (k : A -> M (qphy W) B) (l : B -> M (qphy W) C) Q E q :
  wp (bind m (fun a => bind (k a) l)) Q E q -> wp (bind (bind m k) l) Q E q.
Proof. unfold wp. rewrite bind_assoc. auto. Qed.

(** What is read of a side: its link; the rest stays if the link was and is
    up, and is that of the side's status register if that is resolved. *)
Record status_read (old_link side : bool) w (d d' : phydev) : Prop := {
  sr_link : pd_link d' = qb_link w side;
  sr_kept : pd_autoneg d && old_link && qb_link w side = true -> d' = with_link (qb_link w side) (qb_done w side) d;
  sr_speed s : pd_autoneg d && old_link && qb_link w side = false ->
    Z.testbit (qb_side w side QCA807X_PHY_SPECIFIC_STATUS) 11 = true ->
    status_speed side (qb_side w side QCA807X_PHY_SPECIFIC_STATUS) = Some s ->
    pd_speed d' = s /\ pd_duplex d' = b2z (Z.testbit (qb_side w side QCA807X_PHY_SPECIFIC_STATUS) 13)
}.

(** Reading the side that is shown, by the code for [side]. *)
Definition reads_side (old_link side : bool) q (q' : qphy W) : Prop :=
  looked (q_world q) (q_world q') /\ q_events q' = q_events q /\
  (q_dev q' = q_dev q /\ went_wrong (q_world q) (q_world q') \/ pd_link (q_dev q') = qb_link (q_world q) (shown (q_world q))) /\
  (went_well (q_world q) (q_world q') -> shown (q_world q) = side -> status_read old_link side (q_world q) (q_dev q) (q_dev q')).

(** Once the link has been read; [Hs]: what has been made of the status
    register, if nothing has failed. *)
Lemma reads_fresh old_link side q q' :
  pd_autoneg (q_dev q) && old_link && qb_link (q_world q) (shown (q_world q)) = false ->
  looked (q_world q) (q_world q') -> q_events q' = q_events q -> pd_link (q_dev q') = qb_link (q_world q) (shown (q_world q)) ->
  (forall s, went_well (q_world q) (q_world q') -> let ss := value (q_world q) QCA807X_PHY_SPECIFIC_STATUS in
    Z.testbit ss 11 = true -> status_speed side ss = Some s ->
    pd_speed (q_dev q') = s /\ pd_duplex (q_dev q') = b2z (Z.testbit ss 13)) ->
  reads_side old_link side q q'.
Proof.
  intros Hk Hw He Hl Hs. split; [exact Hw |]. split; [exact He |]. split; [right; exact Hl |].
  intros Hwell <-. split; [exact Hl | congruence |]. intros s _ Ht Hsp. apply Hs; assumption.
Qed.

Ltac faults := unfold went_well, went_wrong in *;
  repeat match goal with Hl : looked _ _ |- _ => apply lk_faults in Hl end; cbn [q_world at_world at_dev] in *; lia.
Ltac looks := repeat match goal with
  | Hl : looked ?w ?w1 |- looked ?w ?w1 => exact Hl
  | Hl : looked ?w1 ?w2 |- looked ?w ?w2 => apply (looked_trans w w1 w2); [| exact Hl]
  | |- looked ?w ?w => apply looked_refl
  end.

Lemma copper_status_reads old_link q : wp (copper_status old_link) (fun _ => reads_side old_link true q) never q.
Proof.
  apply wp_update.
  2: { intros rc w' Hrc Hl Hf. unfold cbool. rewrite (proj2 (Z.eqb_neq rc 0)) by lia. apply wp_ret.
       split; [exact Hl |]. split; [reflexivity |]. split; [left; split; [reflexivity | exact Hf] | intros Hw; faults]. }
  intros w1 Hl1 Hf1. cbn [cbool Z.eqb negb]. apply wp_dev. cbn [q_dev at_dev at_world pd_autoneg with_link pd_link].
  destruct (pd_autoneg (q_dev q) && old_link && qb_link (q_world q) (shown (q_world q))) eqn:Hkeep.
  { apply wp_ret. split; [exact Hl1 |]. split; [reflexivity |]. split; [right; reflexivity |]. intros _ Hs. rewrite Hs in Hkeep. cbn [at_dev q_dev]. rewrite Hs.
    split; [reflexivity | reflexivity | congruence]. }
  apply wp_set_dev, wp_lpa. cbn [q_world at_dev at_world]. intros rc lp w2 Hl2 Hf2.
  destruct (Z.ltb_spec rc 0) as [Hrc | Hrc].
  { apply wp_ret, reads_fresh; [exact Hkeep | looks | reflexivity | reflexivity | intros s Hw; faults]. }
  apply wp_read. cbn [q_world at_dev at_world]. intros ss w3 Hl3 Hf3.
  destruct (Z.ltb_spec ss 0) as [Hneg | Hss].
  { apply wp_ret, reads_fresh; [exact Hkeep | looks | reflexivity | reflexivity |].
    pose proof (value_range w2 QCA807X_PHY_SPECIFIC_STATUS). intros s Hw. faults. }
  assert (Hval : ss = value (q_world q) QCA807X_PHY_SPECIFIC_STATUS).
  { rewrite <- (looked_value (q_world q) w1), <- (looked_value w1 w2) by assumption. lia. }
  unfold QCA807X_SS_SPEED_AND_DUPLEX_RESOLVED. rewrite cbool_land_BIT by lia. apply wp_bind. destruct (Z.testbit ss 11) eqn:Hres.
  - apply wp_read. cbn [q_world at_dev at_world]. intros sfc w4 Hl4 Hf4. apply wp_ret.
    destruct (Z.ltb_spec sfc 0) as [Hneg | Hsfc].
    { apply wp_ret, reads_fresh; [exact Hkeep | looks | reflexivity | reflexivity |].
      pose proof (value_range w3 QCA807X_FUNCTION_CONTROL). intros s Hw. faults. }
    apply wp_set_dev, wp_dev. cbn [q_dev at_dev at_world]. set (d2 := with_status _ _ _ _ _).
    assert (Hd2 : forall s, status_speed true ss = Some s -> pd_speed d2 = s /\ pd_duplex d2 = b2z (Z.testbit ss 13)).
    { intros s Hs. unfold d2. cbn [pd_speed pd_duplex with_status]. split; [apply copper_speed_spec, Hs | apply status_duplex_spec]. }
    apply wp_bind. destruct (pd_autoneg d2 && pd_autoneg_complete d2); [apply wp_modify | apply wp_ret]; apply wp_ret;
      (apply reads_fresh; [exact Hkeep | cbn [q_world at_dev at_world]; looks | reflexivity | | cbv zeta; rewrite <- Hval; intros s _ _ Hs]).
    + exact (proj1 (qb_resolve_pause d2)).
    + cbn [q_dev at_dev at_world]. destruct (qb_resolve_pause d2) as (_ & -> & ->). apply Hd2, Hs.
    + reflexivity.
    + apply Hd2, Hs.
  - apply wp_ret, wp_dev, wp_bind. cbn [q_dev at_dev at_world]. set (d2 := with_lp _ _).
    destruct (pd_autoneg d2 && pd_autoneg_complete d2); [apply wp_modify | apply wp_ret]; apply wp_ret;
      (apply reads_fresh; [exact Hkeep | cbn [q_world at_dev at_world]; looks | reflexivity | | cbv zeta; rewrite <- Hval; intros s _ Hr; congruence]); [| reflexivity].
    exact (proj1 (qb_resolve_pause d2)).
Qed.

Lemma fiber_status_reads old_link q : wp (fiber_status old_link) (fun _ => reads_side old_link false q) never q.
Proof.
  apply wp_update.
  2: { intros rc w' Hrc Hl Hf. unfold cbool. rewrite (proj2 (Z.eqb_neq rc 0)) by lia. apply wp_ret.
       split; [exact Hl |]. split; [reflexivity |]. split; [left; split; [reflexivity | exact Hf] | intros Hw; faults]. }
  intros w1 Hl1 Hf1. cbn [cbool Z.eqb negb]. apply wp_dev. cbn [q_dev at_dev at_world pd_autoneg with_link pd_link].
  destruct (pd_autoneg (q_dev q) && old_link && qb_link (q_world q) (shown (q_world q))) eqn:Hkeep.
  { apply wp_ret. split; [exact Hl1 |]. split; [reflexivity |]. split; [right; reflexivity |]. intros _ Hs. rewrite Hs in Hkeep. cbn [at_dev q_dev]. rewrite Hs.
    split; [reflexivity | reflexivity | congruence]. }
  apply wp_set_dev, wp_dev. cbn [q_dev at_dev at_world pd_autoneg pd_autoneg_complete unknown_status with_link].
  apply wp_bind. apply (wp_mono _ (fun lpa q' => looked w1 (q_world q') /\ (lpa < 0 -> went_wrong w1 (q_world q')) /\
    pd_link (q_dev q') = qb_link (q_world q) (shown (q_world q)) /\ q_events q' = q_events q) _ never); [| | auto].
  - destruct (pd_autoneg (q_dev q) && qb_done (q_world q) (shown (q_world q))).
    + apply wp_read. cbn [q_world at_dev at_world]. intros lpa w2 Hl2 Hf2. destruct (Z.ltb_spec lpa 0) as [Hneg | Hlpa].
      * apply wp_ret. cbn [q_world q_dev q_events at_dev at_world]. split; [exact Hl2 |]. split; [| auto]. intros _.
        pose proof (value_range w1 MII_LPA). faults.
      * apply wp_set_dev, wp_set_dev, wp_ret. cbn [q_world q_dev q_events at_dev at_world].
        rewrite qb_resolve_linkmode. split; [exact Hl2 |]. split; [lia | auto].
    + apply wp_ret. cbn [q_world q_dev q_events at_dev at_world]. split; [apply looked_refl |]. split; [lia | auto].
  - intros lpa q2 (Hl2 & Hf2 & Hlink & He). 
    destruct (Z.ltb_spec lpa 0) as [Hneg | _].
    { apply wp_ret, reads_fresh; [exact Hkeep | looks | exact He | exact Hlink |]. intros s Hw. specialize (Hf2 Hneg). faults. }
    apply wp_read. intros ss w3 Hl3 Hf3. destruct (Z.ltb_spec ss 0) as [Hneg | Hss].
    { apply wp_ret, reads_fresh; [exact Hkeep | cbn [q_world at_world]; looks | exact He | exact Hlink |].
      pose proof (value_range (q_world q2) QCA807X_PHY_SPECIFIC_STATUS). intros s Hw. faults. }
    assert (Hval : ss = value (q_world q) QCA807X_PHY_SPECIFIC_STATUS).
    { rewrite <- (looked_value (q_world q) w1), <- (looked_value w1 (q_world q2)) by assumption. lia. }
    unfold QCA807X_SS_SPEED_AND_DUPLEX_RESOLVED. rewrite cbool_land_BIT by lia. apply wp_bind. destruct (Z.testbit ss 11) eqn:Hres.
    + apply wp_modify, wp_ret. apply reads_fresh; [exact Hkeep | cbn [q_world at_dev at_world]; looks | exact He | exact Hlink |].
      cbv zeta. rewrite <- Hval. intros s _ _ Hs. cbn [q_dev at_dev at_world pd_speed pd_duplex with_status]. split; [apply fiber_speed_spec, Hs | apply status_duplex_spec].
    + apply wp_ret, wp_ret, reads_fresh; [exact Hkeep | cbn [q_world at_world]; looks | exact He | exact Hlink |]. cbv zeta. rewrite <- Hval. intros s _ Hr. congruence.
Qed.

(** *** Selecting a side *)

(** Nothing but the chip configuration can have changed, and of that only the
    selection, unless a read failed and its error was written back. *)
Record selecting w w' : Prop := {
  se_faults : (qb_faults w <= qb_faults w')%nat;
  se_reg r : r <> QCA807X_CHIP_CONFIGURATION -> qb_reg w' r = qb_reg w r;
  se_side : qb_side w' = qb_side w;
  se_link : qb_link w' = qb_link w;
  se_done : qb_done w' = qb_done w;
  se_bits : (forall k, 0 <= k < 15 -> Z.testbit (qb_reg w' QCA807X_CHIP_CONFIGURATION) k = Z.testbit (qb_reg w QCA807X_CHIP_CONFIGURATION) k) \/
            went_wrong w w' /\ exists e, - 4096 < e < 0 /\ qb_reg w' QCA807X_CHIP_CONFIGURATION = u16 (Z.land e (Z.lnot QCA807X_BT_BX_REG_SEL))
}.

Lemma looked_selecting w w' : looked w w' -> selecting w w'.
Proof. intros [(A1 & A2 & A3 & A4) A5]. split; try assumption; [intros r _; rewrite A1; reflexivity | left; intros k _; rewrite A1; reflexivity]. Qed.

(** Writing back a page that was read: the value with its bit changed. *)
Lemma wp_select {B} v w0 (k : unit -> M (qphy W) B) Q E q : looked w0 (q_world q) ->
  (forall b, 0 <= b < 15 -> Z.testbit v b = Z.testbit (qb_reg w0 QCA807X_CHIP_CONFIGURATION) b) \/
    went_wrong w0 (q_world q) /\ (exists e, - 4096 < e < 0 /\ v = Z.land e (Z.lnot QCA807X_BT_BX_REG_SEL)) ->
  (forall w1, selecting w0 w1 -> (qb_faults (q_world q) <= qb_faults w1)%nat -> (went_well w0 w1 -> shown w1 = Z.testbit (u16 v) 15) ->
     wp (k tt) Q E (at_world w1 q)) ->
  wp (bind (_ <- write_reg QCA807X_CHIP_CONFIGURATION v ;; ret tt) k) Q E q.
Proof.
  intros Hl Hv Hk. unfold wp, write_reg, lib, bind, ret in *.
  pose proof (qb_write QCA807X_CHIP_CONFIGURATION (u16 v) (q_world q) eq_refl (u16_range v)) as Hw.
  destruct (phy_write _ _ _) as [rc w1]. destruct Hw as (A2 & A3 & A4 & Hw). destruct Hl as [(B1 & B2 & B3 & B4) B5].
  assert (Hdone : (forall s, qb_reg w1 s = if s =? QCA807X_CHIP_CONFIGURATION then u16 v else qb_reg (q_world q) s) ->
    (qb_faults (q_world q) <= qb_faults w1)%nat -> selecting w0 w1).
  { intros Hd Hf. split; try congruence; [lia | |].
    - intros r Hr. rewrite Hd, (proj2 (Z.eqb_neq _ _) Hr), B1. reflexivity.
    - rewrite Hd, Z.eqb_refl. destruct Hv as [Hv | [Hwr (e & He & ->)]]; [left | right].
      + intros b Hb. rewrite <- Hv by exact Hb. unfold u16. rewrite testbit_uwrap by lia. destruct (Z.ltb_spec b 16); [reflexivity | lia].
      + split; [unfold went_wrong in *; lia | eauto]. }
  destruct Hw as [(Hf & _ & Hd) | (Hf & _ & [Hd | Hd])].
  - apply Hk; [apply Hdone; [exact Hd | lia] | lia |]. intros _. unfold shown, page_bit. rewrite Hd, Z.eqb_refl. reflexivity.
  - apply Hk; [apply Hdone; [exact Hd | lia] | lia | unfold went_well; lia].
  - apply Hk; [| lia | unfold went_well; lia]. split; [lia | | | | | left]; intros; congruence.
Qed.

(** The outcome of reading the status: the PHY, and the device's link, which
    is that of the side the PHY shows in the end unless reading it failed;
    without a failure the side is [side]. *)
Definition outcome q (q' : qphy W) : Prop :=
  selecting (q_world q) (q_world q') /\ q_events q' = q_events q /\
  (q_dev q' = q_dev q \/ pd_link (q_dev q') = qb_link (q_world q') (shown (q_world q'))).
Definition side_read (side : bool) q (q' : qphy W) : Prop :=
  outcome q q' /\
  (went_well (q_world q) (q_world q') -> shown (q_world q') = side /\ status_read (pd_link (q_dev q)) side (q_world q) (q_dev q) (q_dev q')).

(** After a selection, the rest of the driver's work. *)
Lemma after_select side q w1 q' : selecting (q_world q) w1 -> (went_well (q_world q) w1 -> shown w1 = side) ->
  reads_side (pd_link (q_dev q)) side (at_world w1 q) q' -> side_read side q q'.
Proof.
  intros [S1 S2 S3 S4 S5 S6] Hside (Hl & He & Hd & Hs). cbn [q_dev q_events q_world at_world] in *.
  pose proof (looked_shown _ _ Hl) as Hsh. destruct Hl as [(A1 & A2 & A3 & A4) A5]. split.
  - split; [| split; [exact He |]].
    + split; try congruence; [lia | intros r Hr; rewrite A1; auto |]. rewrite A1. destruct S6 as [S6 | [S6 S7]]; [left; exact S6 | right].
      split; [unfold went_wrong in *; lia | exact S7].
    + rewrite Hsh, A3. destruct Hd as [[Hd _] | Hd]; [left | right]; exact Hd.
  - intros Hw. unfold went_well in *. specialize (Hside ltac:(lia)). split; [congruence |].
    destruct (Hs ltac:(lia) Hside) as [H1 H2 H3]. rewrite S3 in *. rewrite S4 in *. rewrite S5 in *. split; assumption.
Qed.

Lemma page_copper page : Z.testbit (u16 (page .| BIT 15)) 15 = true /\ forall k, 0 <= k < 15 -> Z.testbit (page .| BIT 15) k = Z.testbit page k.
Proof.
  split; [| intros k Hk]; unfold u16; rewrite ?testbit_uwrap, Z.lor_spec, testbit_BIT by lia.
  - cbn. apply orb_true_r.
  - destruct (Z.eqb_spec 15 k); [lia | apply orb_false_r].
Qed.

Lemma page_fiber page : Z.testbit (u16 (Z.land page (Z.lnot (BIT 15)))) 15 = false /\
  forall k, 0 <= k < 15 -> Z.testbit (Z.land page (Z.lnot (BIT 15))) k = Z.testbit page k.
Proof.
  split; [| intros k Hk]; unfold u16; rewrite ?testbit_uwrap, Z.land_spec, Z.lnot_spec, testbit_BIT by lia.
  - cbn. apply andb_false_r.
  - destruct (Z.eqb_spec 15 k); [lia | apply andb_true_r].
Qed.

(** The driver's code for a side, after some looking. *)
Lemma side_read_from side q w1 q' : looked (q_world q) w1 -> side_read side (at_world w1 q) q' -> side_read side q q'.
Proof.
  intros [(A1 & A2 & A3 & A4) A5] [([S1 S2 S3 S4 S5 S6] & He & Hd) Hs]. cbn [q_dev q_events q_world at_world] in *. split.
  - split; [| split; [exact He | exact Hd]]. split; try congruence; [lia | intros r Hr; rewrite S2, A1; auto |].
    rewrite A1 in S6. destruct S6 as [S6 | [S6 S7]]; [left; exact S6 | right]. split; [unfold went_wrong in *; lia | exact S7].
  - unfold went_well in *. intros Hw. destruct (Hs ltac:(lia)) as [Hsh [H1 H2 H3]]. split; [exact Hsh |].
    rewrite A2 in *. rewrite A3 in *. rewrite A4 in *. split; assumption.
Qed.

(** Every error number has the bit of the copper side. *)
Lemma error_bit e : - 4096 < e < 0 -> Z.testbit e 15 = true.
Proof. intros He. apply Z.testbit_true; [lia |]. change (2 ^ 15) with 32768. Z.div_mod_to_equations; lia. Qed.

Lemma read_copper q : wp (qca807x_read_copper_status true) (fun _ => side_read true q) never q.
Proof.
  unfold qca807x_read_copper_status. apply wp_dev, wp_assoc, wp_read. intros page w1 Hl1 Hf1. unfold QCA807X_BT_BX_REG_SEL.
  rewrite cbool_land_BIT by lia. destruct (Z.testbit page 15) eqn:Hp; cbn [negb].
  - apply wp_bind, wp_ret.
    eapply wp_mono; [apply copper_status_reads | intros r q' Hr | auto]. eapply after_select; [apply looked_selecting, Hl1 | | exact Hr].
    intros Hw. rewrite (looked_shown _ _ Hl1). destruct Hf1 as [[_ ->] | [Hf1 _]]; [exact Hp | faults].
  - destruct Hf1 as [[Hf1 ->] | [_ Hneg]]; [| rewrite (error_bit page Hneg) in Hp; discriminate].
    apply (wp_select _ (q_world q)); [exact Hl1 | left; apply page_copper |]. intros w2 Hs2 Hf2 Hsh.
    eapply wp_mono; [apply copper_status_reads | intros r q' Hr | auto].
    eapply after_select; [exact Hs2 | intros Hw; rewrite (Hsh Hw); apply page_copper | exact Hr].
Qed.

Lemma read_fiber q : wp (qca807x_read_fiber_status true) (fun _ => side_read false q) never q.
Proof.
  unfold qca807x_read_fiber_status. apply wp_dev, wp_read. intros page w1 Hl1 Hf1. unfold QCA807X_BT_BX_REG_SEL.
  rewrite cbool_land_BIT by lia. destruct (Z.testbit page 15) eqn:Hp.
  - apply (wp_select _ (q_world q)); [exact Hl1 | |].
    { destruct Hf1 as [[Hf1 ->] | [Hf1 Hneg]]; [left; apply page_fiber | right; split; [exact Hf1 | eauto]]. }
    intros w2 Hs2 Hf2 Hsh. eapply wp_mono; [apply fiber_status_reads | intros r q' Hr | auto].
    eapply after_select; [exact Hs2 | intros Hw; rewrite (Hsh Hw); apply page_fiber | exact Hr].
  - apply wp_bind, wp_ret.
    eapply wp_mono; [apply fiber_status_reads | intros r q' Hr | auto]. eapply after_select; [apply looked_selecting, Hl1 | | exact Hr].
    intros Hw. rewrite (looked_shown _ _ Hl1). destruct Hf1 as [[_ ->] | [Hf1 _]]; [exact Hp | faults].
Qed.

(** The medium a combo port has detected; copper comes first. *)
Definition medium (select_status : Z) : option bool :=
  if Z.testbit select_status 5 then Some true
  else if Z.testbit select_status 4 || Z.testbit select_status 3 then Some false
  else None.

(** C28: Reading the status of a combo port that supports fibre, on a bus any
    of whose accesses may fail.  It always succeeds.  No register but the chip
    configuration changes, and of that only the bit that selects the side,
    unless a read failed: then the error may be written there, less that bit.
    The link of the device is that of the side the PHY shows in the end, or
    the device is left as it was.  If no access failed: with a medium detected
    that side is its side, and link, speed and duplex are those of the side,
    unless the link was and stays up and autonegotiation is on; without one,
    nothing at all is done, and the link stays what it was. *)
Theorem read_status_follows_medium q :
  qb_reg (q_world q) QCA807X_CHIP_CONFIGURATION <> 0 -> ETHTOOL_LINK_MODE_FIBRE_BIT ∈ pd_supported (q_dev q) ->
  exists q', qca807x_read_status q = (Ok 0, q') /\ outcome q q' /\
    (went_well (q_world q) (q_world q') ->
     match medium (qb_reg (q_world q) QCA807X_MEDIA_SELECT_STATUS) with
     | Some side => shown (q_world q') = side /\ status_read (pd_link (q_dev q)) side (q_world q) (q_dev q) (q_dev q')
     | None => q_dev q' = q_dev q /\ looked (q_world q) (q_world q')
     end).
Proof.
  intros Hc Hf.
  assert (Hw : wp qca807x_read_status (fun r q' => r = 0 /\ outcome q q' /\ (went_well (q_world q) (q_world q') ->
    match medium (qb_reg (q_world q) QCA807X_MEDIA_SELECT_STATUS) with
    | Some side => shown (q_world q') = side /\ status_read (pd_link (q_dev q)) side (q_world q) (q_dev q) (q_dev q')
    | None => q_dev q' = q_dev q /\ looked (q_world q) (q_world q') end)) never q).
  { apply wp_read. intros cc w1 Hl1 Hf1. change (value _ QCA807X_CHIP_CONFIGURATION) with (qb_reg (q_world q) QCA807X_CHIP_CONFIGURATION) in Hf1.
    unfold cbool at 1. destruct (Z.eqb_spec cc 0) as [->|_]; [lia |]. cbn [negb].
    apply wp_assoc, wp_dev. cbn [q_dev at_world]. rewrite bool_decide_eq_true_2 by exact Hf. apply wp_assoc, wp_read. cbn [q_world at_world].
    intros val w2 Hl2 Hf2. assert (Hl : looked (q_world q) w2) by looks.
    assert (Hval : went_well (q_world q) w2 -> val = qb_reg (q_world q) QCA807X_MEDIA_SELECT_STATUS).
    { intros Hw. change (qb_reg (q_world q) QCA807X_MEDIA_SELECT_STATUS) with (value (q_world q) QCA807X_MEDIA_SELECT_STATUS).
      rewrite <- (looked_value _ _ _ Hl1). destruct Hf2 as [[_ ->] | [Hf2 _]]; [reflexivity | faults]. }
    assert (Hdone : forall side q', medium val = Some side -> side_read side (at_world w2 q) q' -> outcome q q' /\
      (went_well (q_world q) (q_world q') -> match medium (qb_reg (q_world q) QCA807X_MEDIA_SELECT_STATUS) with
       | Some side => shown (q_world q') = side /\ status_read (pd_link (q_dev q)) side (q_world q) (q_dev q) (q_dev q')
       | None => q_dev q' = q_dev q /\ looked (q_world q) (q_world q') end)).
    { intros side q' Hm Hs. destruct (side_read_from side q w2 q' Hl Hs) as [Ho Hr]. split; [exact Ho |]. intros Hw.
      destruct Hs as [[[Hsf _ _ _ _ _] _] _]. rewrite <- Hval, Hm; [exact (Hr Hw) |].
      cbn [q_world at_world] in Hsf. unfold went_well in *. pose proof (lk_faults _ _ Hl). lia. }
    unfold medium in Hdone at 1. unfold QCA807X_MEDIA_DETECTED_COPPER, QCA807X_MEDIA_DETECTED_1000_BASE_X, QCA807X_MEDIA_DETECTED_100_BASE_FX.
    rewrite !cbool_land_BIT by lia. destruct (Z.testbit val 5) eqn:H5.
    - apply wp_assoc, wp_bind. eapply wp_mono; [apply read_copper | intros r q' Hq | auto]. split; [reflexivity |]. exact (Hdone true q' eq_refl Hq).
    - destruct (Z.testbit val 4 || Z.testbit val 3) eqn:H43.
      + apply wp_assoc, wp_bind. eapply wp_mono; [apply read_fiber | intros r q' Hq | auto]. split; [reflexivity |]. exact (Hdone false q' eq_refl Hq).
      + apply wp_bind, wp_ret, wp_ret. split; [reflexivity |]. split.
        * split; [apply looked_selecting, Hl |]. split; [reflexivity | left; reflexivity].
        * cbn [q_world q_dev at_world]. intros Hw. rewrite <- (Hval Hw). unfold medium. rewrite H5, H43. split; [reflexivity | exact Hl]. }
  apply wp_never in Hw as (r & q' & E & -> & Hq). exists q'. split; [exact E | exact Hq].
Qed.
End Link.


(** ** A PHY of registers *)

Record phy_sim := {
  sim_reg : Z -> Z;
  sim_side : bool -> Z -> Z;
  sim_mmd : Z -> Z -> Z;
  sim_link : bool -> bool
}.

Definition sim_page (w : phy_sim) : bool := page_bit (sim_reg w QCA807X_CHIP_CONFIGURATION).
Definition sim_put (w : phy_sim) (r v : Z) : phy_sim :=
  {| sim_reg := fun s => if s =? r then v else sim_reg w s; sim_side := sim_side w; sim_mmd := sim_mmd w; sim_link := sim_link w |}.

#[export] Instance sim_lib : PhyLib phy_sim := {|
  phy_read r w := (if paged r then sim_side w (sim_page w) r else sim_reg w r, w);
  phy_write r v w := (0, sim_put w r v);
  phy_modify r m v w := (0, sim_put w r (u16 (Z.lor (Z.land (sim_reg w r) (Z.lnot m)) v)));
  phy_read_mmd d r w := (sim_mmd w d r, w);
  phy_write_mmd d r v w := (0, {| sim_reg := sim_reg w; sim_side := sim_side w;
    sim_mmd := fun e s => if (e =? d) && (s =? r) then v else sim_mmd w e s; sim_link := sim_link w |});
  genphy_soft_reset w := (0, w);
  genphy_update_link d w := (0, with_link (sim_link w (sim_page w)) true d, w);
  genphy_read_lpa d w := (0, with_lp (pd_lp_advertising d) d, w);
  phy_resolve_aneg_pause d := d;
  phy_resolve_aneg_linkmode d := d;
  phy_sfp_probe w := (0, w);
  devm_gpiochip_add_data _ w := (0, w)
|}.

#[export] Instance sim_hw : QcaHw phy_sim.
Proof.
  refine {| q_reg := sim_reg; q_side := sim_side; q_mmd := sim_mmd |};
    try reflexivity; intros; cbn; auto 6; eauto.
Defined.

(** The same on a bus that fails the accesses [fails]; each register access
    and each library call is one. *)
Record flaky_sim := { fl_sim : phy_sim; fl_accesses : nat; fl_faults : nat }.
Section Flaky.
Variable fails : nat -> bool.
Definition try_access {A} (err : A) (op : phy_sim -> A * phy_sim) (w : flaky_sim) : A * flaky_sim :=
  if fails (fl_accesses w) then (err, {| fl_sim := fl_sim w; fl_accesses := S (fl_accesses w); fl_faults := S (fl_faults w) |})
  else let (a, s) := op (fl_sim w) in (a, {| fl_sim := s; fl_accesses := S (fl_accesses w); fl_faults := fl_faults w |}).

Definition flaky_lib : PhyLib flaky_sim := {|
  phy_read r := try_access (- EIO) (fun s => let (v, s') := phy_read (PhyLib := sim_lib) r s in (u16 v, s'));
  phy_write r v := try_access (- EIO) (phy_write (PhyLib := sim_lib) r v);
  phy_modify r m v := try_access (- EIO) (phy_modify (PhyLib := sim_lib) r m v);
  phy_read_mmd d r := try_access (- EIO) (phy_read_mmd (PhyLib := sim_lib) d r);
  phy_write_mmd d r v := try_access (- EIO) (phy_write_mmd (PhyLib := sim_lib) d r v);
  genphy_soft_reset := try_access (- EIO) (genphy_soft_reset (PhyLib := sim_lib));
  genphy_update_link d := try_access (- EIO, d) (genphy_update_link (PhyLib := sim_lib) d);
  genphy_read_lpa d := try_access (- EIO, d) (genphy_read_lpa (PhyLib := sim_lib) d);
  phy_resolve_aneg_pause d := d;
  phy_resolve_aneg_linkmode d := d;
  phy_sfp_probe := try_access (- EIO) (phy_sfp_probe (PhyLib := sim_lib));
  devm_gpiochip_add_data n := try_access (- EIO) (devm_gpiochip_add_data (PhyLib := sim_lib) n)
|}.

Definition flaky_bus : QcaBus flaky_sim (L := flaky_lib).
Proof.
  assert (Hpage : forall s, page_bit (u16 (sim_reg s QCA807X_CHIP_CONFIGURATION)) = sim_page s).
  { intros s. unfold page_bit, sim_page, page_bit, u16. rewrite testbit_uwrap by lia. reflexivity. }
  refine (@Build_QcaBus flaky_sim flaky_lib (fun w r => u16 (sim_reg (fl_sim w) r)) (fun w side r => u16 (sim_side (fl_sim w) side r))
    (fun w => sim_link (fl_sim w)) (fun _ _ => true) fl_faults _ _ _ _ _ _ _); cbn [phy_read phy_write genphy_update_link genphy_read_lpa flaky_lib]; unfold try_access.
  - intros w r. split; [apply u16_range | intros side; apply u16_range].
  - intros r w. destruct (fails (fl_accesses w)); cbn [phy_read phy_write genphy_update_link genphy_read_lpa sim_lib fl_sim fl_faults fl_accesses]; (split; [repeat split |]); [right; split; [lia | split; reflexivity] | left].
    rewrite Hpage. destruct (paged r); auto.
  - intros r v w Hr Hv. destruct (fails (fl_accesses w)); cbn [phy_read phy_write genphy_update_link genphy_read_lpa sim_lib fl_sim fl_faults fl_accesses]; (split; [reflexivity |]; split; [reflexivity |]; split; [reflexivity |]).
    + right. split; [lia |]. split; [reflexivity | right; reflexivity].
    + left. split; [reflexivity |]. split; [reflexivity |]. intros s. cbn [sim_reg sim_put]. destruct (s =? r); [apply u16_small, Hv | reflexivity].
  - intros d w. destruct (fails (fl_accesses w)); cbn [phy_read phy_write genphy_update_link genphy_read_lpa sim_lib fl_sim fl_faults fl_accesses]; (split; [repeat split |]); [right; split; [lia | split; reflexivity] | left]. rewrite Hpage. auto.
  - intros d w. destruct (fails (fl_accesses w)); cbn [phy_read phy_write genphy_update_link genphy_read_lpa sim_lib fl_sim fl_faults fl_accesses]; (split; [repeat split |]; split; [| (right; split; [lia | reflexivity]) || (left; split; reflexivity)]).
    + exists (pd_lp_advertising d). destruct d; reflexivity.
    + eauto.
  - intros d. repeat split.
  - intros d. reflexivity.
Defined.
End Flaky.

(** A combo port with a fibre module: the copper side is selected, the fibre
    side is up at 1000 full duplex. *)
Definition combo : qphy phy_sim := {|
  q_dev := {| pd_link := false; pd_autoneg := true; pd_autoneg_complete := false; pd_speed := SPEED_UNKNOWN; pd_duplex := DUPLEX_UNKNOWN;
              pd_pause := 0; pd_asym_pause := 0; pd_mdix := 0; pd_mdix_ctrl := 0; pd_interrupts := true; pd_rate_matching := RATE_MATCH_NONE;
              pd_supported := {[ETHTOOL_LINK_MODE_FIBRE_BIT]}; pd_advertising := ∅; pd_lp_advertising := ∅ |};
  q_events := [];
  q_world := {| sim_reg := fun r => if r =? QCA807X_CHIP_CONFIGURATION then 0x8003 else if r =? QCA807X_MEDIA_SELECT_STATUS then 0x10 else 0;
                sim_side := fun copper r => if copper then 0 else if r =? QCA807X_PHY_SPECIFIC_STATUS then 0xa800 else 0x4020;
                sim_mmd := fun d r => if r =? QCA807X_CDT_MMD3_STATUS then 0x1234 else 0x0305;
                sim_link := negb |} |}.

Definition combo_flaky : qphy flaky_sim :=
  {| q_dev := q_dev combo; q_events := []; q_world := {| fl_sim := q_world combo; fl_accesses := 0; fl_faults := 0 |} |}.

(** Without a failure the fibre side is selected and its link is up at 1000;
    if reading the page fails the error goes to the chip configuration. *)
Lemma read_status_follows_medium_witness :
  (let LB := flaky_lib (fun _ => false) in let HB := flaky_bus (fun _ => false) in
   exists q', qca807x_read_status combo_flaky = (Ok 0, q') /\ outcome combo_flaky q' /\
     shown (q_world q') = false /\ status_read false false (q_world combo_flaky) (q_dev combo) (q_dev q') /\
     pd_speed (q_dev q') = SPEED_1000) /\
  (let LB := flaky_lib (Nat.eqb 2) in let HB := flaky_bus (Nat.eqb 2) in
   exists q', qca807x_read_status combo_flaky = (Ok 0, q') /\ outcome combo_flaky q' /\
     qb_reg (q_world q') QCA807X_CHIP_CONFIGURATION = 0x7ffb).
Proof.
  split; intros LB HB.
  - destruct (read_status_follows_medium combo_flaky) as (q' & E & Ho & Hw); [discriminate | exact (proj2 (elem_of_singleton _ _) eq_refl) |].
    exists q'. split; [exact E |]. split; [exact Ho |]. vm_compute in E. injection E as <-.
    destruct (Hw eq_refl) as [H1 H2]. split; [exact H1 |]. split; [exact H2 | reflexivity].
  - destruct (read_status_follows_medium combo_flaky) as (q' & E & Ho & _); [discriminate | exact (proj2 (elem_of_singleton _ _) eq_refl) |].
    exists q'. split; [exact E |]. split; [exact Ho |]. vm_compute in E. injection E as <-. reflexivity.
Defined.

(** Its cable test: good, open 4 m, a short within the pair 2.4 m, a short to another pair 4 m. *)
Example combo_cable : q_events (snd (qca807x_cable_test_report 12345 combo)) =
  [CableResult 0 1; CableResult 1 2; CableResult 2 3; CableResult 3 4; CableLength 1 400; CableLength 2 240; CableLength 3 400].
Proof. vm_compute. reflexivity. Qed.
