(* ===== verification/Mt2p5ge.v ===== *)
(** * The 2.5G PHY of the MT7988: [mediatek-2p5ge.c]

    The PHY runs a firmware, which the driver writes into its memory before
    anything else is configured. *)

From S2P Require Import Prelude CMonad Regmap Phylib.

Definition MT7988_2P5GE_PMB : string := "mediatek/mt7988/i2p5ge-phy-pmb.bin".

Definition MD32_EN : Z := BIT 0.
Definition PMEM_PRIORITY : Z := BIT 8.
Definition DMEM_PRIORITY : Z := BIT 16.
Definition BASE100T_STATUS_EXTEND : Z := 0x10.
Definition BASE1000T_STATUS_EXTEND : Z := 0x11.
Definition EXTEND_CTRL_AND_STATUS : Z := 0x16.
Definition PHY_AUX_CTRL_STATUS : Z := 0x1d.
Definition PHY_AUX_DPX_MASK : Z := GENMASK 5 5.
Definition PHY_AUX_SPEED_MASK : Z := GENMASK 4 2.
Definition MTK_PHY_LINK_STATUS_MISC : Z := 0xa2.
Definition MTK_PHY_FDX_ENABLE : Z := BIT 5.
Definition MTK_PHY_LPI_PCS_DSP_CTRL : Z := 0x121.
Definition MTK_PHY_LPI_SIG_EN_LO_THRESH100_MASK : Z := GENMASK 12 8.
Definition MTK_PHY_LED0_ON_CTRL : Z := 0x24.
Definition MTK_PHY_LED0_ON_LINK1000 : Z := BIT 0.
Definition MTK_PHY_LED0_ON_LINK100 : Z := BIT 1.
Definition MTK_PHY_LED0_ON_LINK10 : Z := BIT 2.
Definition MTK_PHY_LED0_ON_LINK2500 : Z := BIT 7.
Definition MTK_PHY_LED0_POLARITY : Z := BIT 14.
Definition MTK_PHY_LED1_ON_CTRL : Z := 0x26.
Definition MTK_PHY_LED1_ON_FDX : Z := BIT 4.
Definition MTK_PHY_LED1_ON_HDX : Z := BIT 5.
Definition MTK_PHY_LED1_POLARITY : Z := BIT 14.
Definition MTK_EXT_PAGE_ACCESS : Z := 0x1f.
Definition MTK_PHY_PAGE_STANDARD : Z := 0x0000.
Definition MTK_PHY_PAGE_EXTENDED_52B5 : Z := 0x52b5.
Definition PHY_AUX_SPD_10 : Z := 0.
Definition PHY_AUX_SPD_100 : Z := 1.
Definition PHY_AUX_SPD_1000 : Z := 2.
Definition PHY_AUX_SPD_2500 : Z := 3.

(** What the driver calls: the PHY library, with C's integers as results; the
    two register ranges of the firmware node, the memory [pmb] and the
    configuration register of the processor; the firmware loader. *)
Class MtkLib (W : Type) := {
  phy_read : Z -> W -> Z * W;
  phy_read_unlocked : Z -> W -> Z * W;
  phy_write_unlocked : Z -> Z -> W -> Z * W;
  phy_set_bits : Z -> Z -> W -> Z * W;
  phy_modify_changed : Z -> Z -> Z -> W -> Z * W;
  phy_read_mmd : Z -> Z -> W -> Z * W;
  phy_write_mmd : Z -> Z -> Z -> W -> Z * W;
  phy_set_bits_mmd : Z -> Z -> Z -> W -> Z * W;
  phy_modify_mmd : Z -> Z -> Z -> Z -> W -> Z * W;
  phy_select_page : Z -> W -> Z * W;
  phy_restore_page : Z -> Z -> W -> Z * W;
  of_find_compatible_node : string -> bool;
  of_iomap : Z -> bool;
  request_firmware : string -> W -> res (list Z) * W;
  md32_readw : W -> Z * W;
  md32_writew : Z -> W -> W;
  pmb_writel : Z -> Z -> W -> W;
  devm_pinctrl_get_select : string -> W -> Z * W;
  genphy_setup_forced : phydev -> W -> Z * W;
  genphy_c45_pma_setup_forced : phydev -> W -> Z * W;
  genphy_c45_an_config_aneg : phydev -> W -> Z * W;
  genphy_c45_check_and_restart_aneg : bool -> W -> Z * W;
  linkmode_adv_to_mii_ctrl1000_t : gset Z -> Z;
  genphy_read_abilities : phydev -> W -> Z * phydev * W;
  genphy_update_link : phydev -> W -> Z * phydev * W;
  genphy_c45_read_lpa : phydev -> W -> Z * phydev * W;
  mii_stat1000_mod_linkmode_lpa_t : gset Z -> Z -> gset Z
}.

(** [mp_fw_loaded]: the structure behind [phydev->priv], if there is one. *)
Record mphy (W : Type) := {
  mp_dev : phydev;
  mp_fw_loaded : option bool;
  mp_world : W
}.
Arguments mp_dev {W} _.
Arguments mp_fw_loaded {W} _.
Arguments mp_world {W} _.

(** The little-endian word at offset [i] of the firmware; [None] outside of
    it. *)
Definition fw_word (data : list Z) (i : Z) : option Z :=
  if (0 <=? i) && (i + 4 <=? Z.of_nat (length data)) then
    Some (geti 0 data i + 2 ^ 8 * geti 0 data (i + 1) + 2 ^ 16 * geti 0 data (i + 2) + 2 ^ 24 * geti 0 data (i + 3))
  else None.

Section Driver.
Context {W : Type} {L : MtkLib W}.

Definition lib (f : W -> Z * W) : M (mphy W) Z := fun m =>
  let (r, w) := f (mp_world m) in (Ok r, {| mp_dev := mp_dev m; mp_fw_loaded := mp_fw_loaded m; mp_world := w |}).
Definition genphy (f : phydev -> W -> Z * phydev * W) : M (mphy W) Z := fun m =>
  let '(r, d, w) := f (mp_dev m) (mp_world m) in (Ok r, {| mp_dev := d; mp_fw_loaded := mp_fw_loaded m; mp_world := w |}).
Definition io (f : W -> W) : M (mphy W) unit :=
  modify (fun m => {| mp_dev := mp_dev m; mp_fw_loaded := mp_fw_loaded m; mp_world := f (mp_world m) |}).
Definition set_dev (f : phydev -> phydev) : M (mphy W) unit :=
  modify (fun m => {| mp_dev := f (mp_dev m); mp_fw_loaded := mp_fw_loaded m; mp_world := mp_world m |}).
Definition set_fw_loaded (b : bool) : M (mphy W) unit :=
  modify (fun m => {| mp_dev := mp_dev m; mp_fw_loaded := Some b; mp_world := mp_world m |}).
Definition dev : M (mphy W) phydev := fun m => (Ok (mp_dev m), m).

(** A call whose result is dropped. *)
Definition lib_ (f : W -> Z * W) : M (mphy W) unit := _ <- lib f ;; ret tt.

Definition mtk_2p5ge_phy_read_page : M (mphy W) Z := lib (phy_read_unlocked MTK_EXT_PAGE_ACCESS).
Definition mtk_2p5ge_phy_write_page (page : Z) : M (mphy W) Z := lib (phy_write_unlocked MTK_EXT_PAGE_ACCESS page).

Definition mt7988_2p5ge_phy_probe (alloc : bool) : M (mphy W) Z :=
  if negb alloc then ret (- ENOMEM) else set_fw_loaded false ;; ret 0.

(** [for (i = 0; i < fw->size - 1; i += 4)]: the size is unsigned, so that of
    an empty firmware wraps. *)
Fixpoint load_words (fuel : nat) (data : list Z) (i : Z) : M (mphy W) unit :=
  if i <? u64 (Z.of_nat (length data) - 1) then
    match fuel with
    | O => fail EFAULT
    | S fuel' =>
        match fw_word data i with
        | None => fail EFAULT
        | Some v => io (pmb_writel i v) ;; load_words fuel' data (i + 4)
        end
    end
  else ret tt.

Definition load_firmware (data : list Z) : M (mphy W) unit := load_words (S (length data)) data 0.

(** The part of [mt7988_2p5ge_phy_config_init] that is done once. *)
Definition mt7988_load : M (mphy W) Z :=
  if negb (of_find_compatible_node "mediatek,2p5gphy-fw") then ret (- ENOENT) else
  if negb (of_iomap 0) then ret (- ENOMEM) else
  if negb (of_iomap 1) then ret (- ENOMEM) else
  fw <- (fun m => let (r, w) := request_firmware MT7988_2P5GE_PMB (mp_world m) in
                  (Ok r, {| mp_dev := mp_dev m; mp_fw_loaded := mp_fw_loaded m; mp_world := w |})) ;;
  match fw with
  | Err e => ret e
  | Ok data =>
      reg <- lib md32_readw ;;
      (if cbool (Z.land reg MD32_EN) then lib_ (phy_set_bits 0 (BIT 15)) else ret tt) ;;
      lib_ (phy_set_bits 0 (BIT 11)) ;;
      lib_ (phy_write_mmd MDIO_MMD_VEND1 0x800e 0x1100) ;;
      lib_ (phy_write_mmd MDIO_MMD_VEND1 0x800f 0x00df) ;;
      load_firmware data ;;
      io (md32_writew (u16 (Z.land reg (Z.lnot MD32_EN)))) ;;
      io (md32_writew (u16 (reg .| MD32_EN))) ;;
      lib_ (phy_set_bits 0 (BIT 15)) ;;
      set_fw_loaded true ;;
      ret 0
  end.

Definition mt7988_2p5ge_phy_config_init : M (mphy W) Z :=
  fun m =>
  match mp_fw_loaded m with
  | None => (Err (- EFAULT), m)
  | Some loaded =>
      (r <- (if negb loaded then mt7988_load else ret 0) ;;
       if negb (r =? 0) then ret r else
       lib_ (phy_set_bits_mmd MDIO_MMD_VEND2 MTK_PHY_LED0_ON_CTRL MTK_PHY_LED0_POLARITY) ;;
       lib_ (phy_set_bits_mmd MDIO_MMD_VEND2 MTK_PHY_LED0_ON_CTRL
               (MTK_PHY_LED0_ON_LINK10 .| MTK_PHY_LED0_ON_LINK100 .| MTK_PHY_LED0_ON_LINK1000 .| MTK_PHY_LED0_ON_LINK2500)) ;;
       lib_ (phy_set_bits_mmd MDIO_MMD_VEND2 MTK_PHY_LED1_ON_CTRL (MTK_PHY_LED1_ON_FDX .| MTK_PHY_LED1_ON_HDX)) ;;
       pinctrl <- lib (devm_pinctrl_get_select "i2p5gbe-led") ;;
       if pinctrl <? 0 then ret pinctrl else
       lib_ (phy_modify_mmd MDIO_MMD_VEND1 MTK_PHY_LPI_PCS_DSP_CTRL MTK_PHY_LPI_SIG_EN_LO_THRESH100_MASK 0) ;;
       lib_ (phy_select_page MTK_PHY_PAGE_EXTENDED_52B5) ;;
       lib_ (phy_write_unlocked 0x11 0xfbfa) ;;
       lib_ (phy_write_unlocked 0x12 0xc3) ;;
       lib_ (phy_write_unlocked 0x10 0x87f8) ;;
       lib_ (phy_restore_page MTK_PHY_PAGE_STANDARD 0) ;;
       ret 0) m
  end.

Definition mt7988_2p5ge_phy_config_aneg : M (mphy W) Z :=
  d <- dev ;;
  if negb (pd_autoneg d) then
    if negb (pd_duplex d =? DUPLEX_FULL) then lib (genphy_setup_forced d) else lib (genphy_c45_pma_setup_forced d)
  else
  r <- lib (genphy_c45_an_config_aneg d) ;;
  if r <? 0 then ret r else
  let changed := r >? 0 in
  d <- dev ;;
  let adv := linkmode_adv_to_mii_ctrl1000_t (pd_advertising d) in
  r <- lib (phy_modify_changed MII_CTRL1000 (ADVERTISE_1000FULL .| ADVERTISE_1000HALF) adv) ;;
  if r <? 0 then ret r else
  let changed := (r >? 0) || changed in
  lib (genphy_c45_check_and_restart_aneg changed).

Definition with_supported (s : gset Z) (d : phydev) : phydev :=
  {| pd_link := pd_link d; pd_autoneg := pd_autoneg d; pd_autoneg_complete := pd_autoneg_complete d;
     pd_speed := pd_speed d; pd_duplex := pd_duplex d; pd_pause := pd_pause d; pd_asym_pause := pd_asym_pause d;
     pd_mdix := pd_mdix d; pd_mdix_ctrl := pd_mdix_ctrl d; pd_interrupts := pd_interrupts d; pd_rate_matching := pd_rate_matching d;
     pd_supported := s; pd_advertising := pd_advertising d; pd_lp_advertising := pd_lp_advertising d |}.

Definition mt7988_2p5ge_phy_get_features : M (mphy W) Z :=
  r <- genphy genphy_read_abilities ;;
  if cbool r then ret r else
  set_dev (fun d => with_supported
    (mod_bit ETHTOOL_LINK_MODE_Autoneg_BIT true
    (mod_bit ETHTOOL_LINK_MODE_2500baseT_Full_BIT true
    (mod_bit ETHTOOL_LINK_MODE_1000baseT_Full_BIT true
    (mod_bit ETHTOOL_LINK_MODE_100baseT_Full_BIT true
    (mod_bit ETHTOOL_LINK_MODE_10baseT_Full_BIT true (pd_supported d)))))) d) ;;
  ret 0.

Definition with_speed (s : Z) (d : phydev) : phydev :=
  {| pd_link := pd_link d; pd_autoneg := pd_autoneg d; pd_autoneg_complete := pd_autoneg_complete d;
     pd_speed := s; pd_duplex := pd_duplex d; pd_pause := pd_pause d; pd_asym_pause := pd_asym_pause d;
     pd_mdix := pd_mdix d; pd_mdix_ctrl := pd_mdix_ctrl d; pd_interrupts := pd_interrupts d; pd_rate_matching := pd_rate_matching d;
     pd_supported := pd_supported d; pd_advertising := pd_advertising d; pd_lp_advertising := pd_lp_advertising d |}.

Definition with_duplex (x rate_matching : Z) (d : phydev) : phydev :=
  {| pd_link := pd_link d; pd_autoneg := pd_autoneg d; pd_autoneg_complete := pd_autoneg_complete d;
     pd_speed := pd_speed d; pd_duplex := x; pd_pause := pd_pause d; pd_asym_pause := pd_asym_pause d;
     pd_mdix := pd_mdix d; pd_mdix_ctrl := pd_mdix_ctrl d; pd_interrupts := pd_interrupts d; pd_rate_matching := rate_matching;
     pd_supported := pd_supported d; pd_advertising := pd_advertising d; pd_lp_advertising := pd_lp_advertising d |}.

Definition aux_speed (aux old : Z) : Z :=
  let s := FIELD_GET PHY_AUX_SPEED_MASK aux in
  if s =? PHY_AUX_SPD_10 then SPEED_10
  else if s =? PHY_AUX_SPD_100 then SPEED_100
  else if s =? PHY_AUX_SPD_1000 then SPEED_1000
  else if s =? PHY_AUX_SPD_2500 then SPEED_2500
  else old.

Definition mt7988_2p5ge_phy_read_status : M (mphy W) Z :=
  r <- genphy genphy_update_link ;;
  if cbool r then ret r else
  set_dev unknown_status ;;
  d <- dev ;;
  r <- (if pd_autoneg d && pd_autoneg_complete d then
          r <- genphy genphy_c45_read_lpa ;;
          if r <? 0 then ret r else
          r <- lib (phy_read MII_STAT1000) ;;
          if r <? 0 then ret r else
          set_dev (fun d => with_lp (mii_stat1000_mod_linkmode_lpa_t (pd_lp_advertising d) r) d) ;; ret 0
        else if negb (pd_autoneg d) then set_dev (with_lp ∅) ;; ret 0
        else ret 0) ;;
  if r <? 0 then ret r else
  aux <- lib (phy_read PHY_AUX_CTRL_STATUS) ;;
  if aux <? 0 then ret aux else
  set_dev (fun d => with_speed (aux_speed aux (pd_speed d)) d) ;;
  misc <- lib (phy_read_mmd MDIO_MMD_VEND1 MTK_PHY_LINK_STATUS_MISC) ;;
  if misc <? 0 then ret misc else
  set_dev (with_duplex (if cbool (Z.land misc MTK_PHY_FDX_ENABLE) then DUPLEX_FULL else DUPLEX_HALF) RATE_MATCH_PAUSE) ;;
  ret 0.

Definition mt7988_2p5ge_phy_get_rate_matching (iface : Z) : Z := RATE_MATCH_PAUSE.
End Driver.

(** * Theorems on [mediatek-2p5ge.c] *)

(** What is relied on of the hardware: the memory of the PHY's processor holds
    the words written to it, and other calls leave it alone. *)
Class MtkHw (W : Type) {L : MtkLib W} := {
  pmb_word : W -> Z -> Z;
  hw_pmb i v w j : pmb_word (pmb_writel i v w) j = if j =? i then v else pmb_word w j
}.

Section Mtk.
Context {W : Type} {L : MtkLib W} {H : MtkHw W}.
Implicit Types (m : mphy W).

(** The sizes the loop copes with: its last word begins before the last
    byte. *)
Definition fw_size_ok (n : Z) : bool := (0 <? n) && ((n mod 4 =? 0) || (n mod 4 =? 1)).

Definition written (data : list Z) (i : Z) m m' : Prop :=
  mp_dev m' = mp_dev m /\ mp_fw_loaded m' = mp_fw_loaded m /\
  forall j, pmb_word (mp_world m') j =
    if (i <=? j) && (j <? Z.of_nat (length data) - 1) && (j mod 4 =? 0) then default 0 (fw_word data j) else pmb_word (mp_world m) j.

Lemma fw_word_some data i : 0 <= i -> i + 4 <= Z.of_nat (length data) -> exists v, fw_word data i = Some v.
Proof. intros Hi Hl. unfold fw_word. rewrite !(proj2 (Z.leb_le _ _)) by lia. eexists. reflexivity. Qed.

Lemma load_words_ok data : fw_size_ok (Z.of_nat (length data)) = true -> Z.of_nat (length data) < 2 ^ 31 ->
  forall fuel i m, 0 <= i -> i mod 4 = 0 -> Z.of_nat (length data) <= i + Z.of_nat fuel ->
  exists m', load_words fuel data i m = (Ok tt, m') /\ written data i m m'.
Proof.
  intros Hs Hm. set (n := Z.of_nat (length data)) in *. unfold fw_size_ok in Hs.
  induction fuel as [| fuel IH]; intros i m Hi Hi4 Hf; cbn [load_words]; fold n; unfold u64; rewrite (uwrap_small 64 (n - 1)) by lia.
  - destruct (Z.ltb_spec i (n - 1)) as [Hlt | Hge]; [lia |]. exists m. split; [reflexivity |]. split; [reflexivity |]. split; [reflexivity |].
    intros j. fold n. destruct (Z.leb_spec i j), (Z.ltb_spec j (n - 1)); try lia; reflexivity.
  - destruct (Z.ltb_spec i (n - 1)) as [Hlt | Hge].
    + assert (Hw : i + 4 <= n) by (Z.to_euclidean_division_equations; lia). destruct (fw_word_some data i Hi Hw) as [v Hv]. rewrite Hv.
      set (m1 := {| mp_dev := mp_dev m; mp_fw_loaded := mp_fw_loaded m; mp_world := pmb_writel i v (mp_world m) |}).
      destruct (IH (i + 4) m1) as (m' & E & H1 & H2 & H3); [lia | Z.to_euclidean_division_equations; lia | lia |].
      exists m'. split; [exact E |]. split; [exact H1 |]. split; [exact H2 |]. intros j. rewrite H3. fold n. cbn [m1 mp_world]. rewrite hw_pmb.
      destruct (Z.eqb_spec j i) as [-> | Hne].
      * rewrite Hi4, Hv. destruct (Z.leb_spec (i + 4) i), (Z.leb_spec i i), (Z.ltb_spec i (n - 1)); try lia. reflexivity.
      * destruct (Z.eqb_spec (j mod 4) 0) as [Hj |]; [| rewrite !andb_false_r; reflexivity].
        destruct (Z.leb_spec (i + 4) j), (Z.leb_spec i j), (Z.ltb_spec j (n - 1)); try reflexivity; exfalso; Z.to_euclidean_division_equations; lia.
    + exists m. split; [reflexivity |]. split; [reflexivity |]. split; [reflexivity |].
      intros j. fold n. destruct (Z.leb_spec i j), (Z.ltb_spec j (n - 1)); try lia; reflexivity.
Qed.

Lemma load_words_overrun data : fw_size_ok (Z.of_nat (length data)) = false -> Z.of_nat (length data) < 2 ^ 31 ->
  forall fuel i m, 0 <= i -> i mod 4 = 0 -> i <= Z.of_nat (length data) ->
  exists m', load_words fuel data i m = (Err (- EFAULT), m').
Proof.
  intros Hs Hm. set (n := Z.of_nat (length data)) in *. unfold fw_size_ok in Hs.
  induction fuel as [| fuel IH]; intros i m Hi Hi4 Hl; cbn [load_words]; fold n.
  all: assert (Hlt : i <? u64 (n - 1) = true).
  1, 3: destruct (Z.eq_dec n 0) as [En | En]; [rewrite En in *; replace i with 0 by lia; reflexivity |];
    unfold u64; rewrite (uwrap_small 64 (n - 1)) by lia; apply Z.ltb_lt; Z.to_euclidean_division_equations; lia.
  - rewrite Hlt. exists m. reflexivity.
  - rewrite Hlt. destruct (fw_word data i) as [v |] eqn:Hv; [| exists m; reflexivity].
    unfold fw_word in Hv. fold n in Hv. destruct ((0 <=? i) && (i + 4 <=? n)) eqn:Hb; [| discriminate].
    set (m1 := {| mp_dev := mp_dev m; mp_fw_loaded := mp_fw_loaded m; mp_world := pmb_writel i v (mp_world m) |}).
    destruct (IH (i + 4) m1) as (m' & E); [lia | Z.to_euclidean_division_equations; lia | lia |]. exists m'. exact E.
Qed.

(** The loop that writes the firmware of the 2.5G PHY: for a firmware of
    any size it ends, without reading outside of the firmware exactly if the
    size is positive and leaves a remainder of 0 or 1 by four; then every word
    of the firmware that is complete is in the memory of the PHY at its
    offset, and nothing else of the memory has changed.  So a firmware of
    4k+1 bytes loses its last byte, one of 4k+2 or 4k+3 bytes, or none at
    all, makes the driver read past its end. *)
Theorem load_firmware_words data m : Z.of_nat (length data) < 2 ^ 31 ->
  if fw_size_ok (Z.of_nat (length data)) then
    exists m', load_firmware data m = (Ok tt, m') /\ written data 0 m m'
  else exists m', load_firmware data m = (Err (- EFAULT), m').
Proof.
  intros Hl. destruct (fw_size_ok _) eqn:Hs.
  - apply load_words_ok; [exact Hs | exact Hl | lia | reflexivity | lia].
  - apply load_words_overrun; [exact Hs | exact Hl | lia | reflexivity | lia].
Qed.

(** The link modes: no half duplex mode is taken away, whatever the comment
    says. *)
Lemma half_duplex_stays m : forall r m', mt7988_2p5ge_phy_get_features m = (Ok r, m') -> r = 0 ->
  pd_supported (snd (fst (genphy_read_abilities (mp_dev m) (mp_world m)))) ⊆ pd_supported (mp_dev m').
Proof.
  intros r m'. unfold mt7988_2p5ge_phy_get_features, bind, genphy. destruct (genphy_read_abilities _ _) as [[a d] w]. cbn [fst snd].
  unfold cbool. destruct (Z.eqb_spec a 0) as [-> |]; cbn; intros [= <- <-] Hr; [| lia]. cbn [mp_dev pd_supported with_supported mod_bit]. set_solver.
Qed.

(** The firmware is loaded once: with the flag set nothing of the loading is
    done. *)
Lemma loaded_once m : mp_fw_loaded m = Some true ->
  mp_fw_loaded (snd (mt7988_2p5ge_phy_config_init m)) = Some true.
Proof.
  intros Hm. unfold mt7988_2p5ge_phy_config_init. rewrite Hm. cbn [negb].
  assert (Hl : forall f, preserves (fun m => mp_fw_loaded m = Some true) (lib f)).
  { intros f m0 H0. unfold lib. destruct (f (mp_world m0)). exact H0. }
  assert (Hl' : forall f, preserves (fun m => mp_fw_loaded m = Some true) (lib_ f)) by (intros f; apply preserves_bind; [apply Hl | intros; apply preserves_ret]).
  match goal with |- mp_fw_loaded (snd (?p m)) = _ => enough (Hk : preserves (fun m => mp_fw_loaded m = Some true) p) by exact (Hk m Hm) end.
  repeat first [apply preserves_bind | apply Hl' | apply Hl | apply preserves_if | apply preserves_ret | intros].
Qed.
End Mtk.

(** ** A PHY that takes everything *)

#[export] Instance mem_lib : MtkLib (Z -> Z) := {|
  phy_read _ w := (0, w); phy_read_unlocked _ w := (0, w); phy_write_unlocked _ _ w := (0, w); phy_set_bits _ _ w := (0, w);
  phy_modify_changed _ _ _ w := (0, w); phy_read_mmd _ _ w := (0, w); phy_write_mmd _ _ _ w := (0, w); phy_set_bits_mmd _ _ _ w := (0, w);
  phy_modify_mmd _ _ _ _ w := (0, w); phy_select_page _ w := (0, w); phy_restore_page _ _ w := (0, w);
  of_find_compatible_node _ := true; of_iomap _ := true;
  request_firmware _ w := (Ok [1; 2; 3; 4; 5; 6; 7; 8], w);
  md32_readw w := (0, w); md32_writew _ w := w;
  pmb_writel i v w := fun j => if j =? i then v else w j;
  devm_pinctrl_get_select _ w := (0, w); genphy_setup_forced _ w := (0, w); genphy_c45_pma_setup_forced _ w := (0, w);
  genphy_c45_an_config_aneg _ w := (0, w); genphy_c45_check_and_restart_aneg _ w := (0, w); linkmode_adv_to_mii_ctrl1000_t _ := 0;
  genphy_read_abilities d w := (0, d, w); genphy_update_link d w := (0, d, w); genphy_c45_read_lpa d w := (0, d, w);
  mii_stat1000_mod_linkmode_lpa_t s _ := s
|}.

#[export] Instance mem_hw : MtkHw (Z -> Z) := {| pmb_word w := w; hw_pmb _ _ _ _ := eq_refl |}.

Definition blank_phy : mphy (Z -> Z) := {|
  mp_dev := {| pd_link := false; pd_autoneg := true; pd_autoneg_complete := false; pd_speed := SPEED_UNKNOWN; pd_duplex := DUPLEX_UNKNOWN;
               pd_pause := 0; pd_asym_pause := 0; pd_mdix := 0; pd_mdix_ctrl := 0; pd_interrupts := true; pd_rate_matching := RATE_MATCH_NONE;
               pd_supported := ∅; pd_advertising := ∅; pd_lp_advertising := ∅ |};
  mp_fw_loaded := Some false;
  mp_world := fun _ => 0 |}.

Example blank_phy_boots : let (r, m) := mt7988_2p5ge_phy_config_init blank_phy in
  r = Ok 0 /\ mp_fw_loaded m = Some true /\ map (mp_world m) [0; 4; 8] = [0x04030201; 0x08070605; 0].
Proof. vm_compute. auto. Qed.

Lemma load_firmware_words_witness :
  (exists m', load_firmware [1; 2; 3; 4; 5] blank_phy = (Ok tt, m') /\ written [1; 2; 3; 4; 5] 0 blank_phy m') /\
  exists m', load_firmware [1; 2; 3; 4; 5; 6] blank_phy = (Err (- EFAULT), m').
Proof.
  split; [apply (load_firmware_words [1; 2; 3; 4; 5] blank_phy) | apply (load_firmware_words [1; 2; 3; 4; 5; 6] blank_phy)]; reflexivity.
Defined.
