(* ===== verification/RockchipRng.v ===== *)
(** * The random number generator of Rockchip SoCs: [rockchip-rng.c] *)

From S2P Require Import Prelude CMonad Regmap.

(** [HIWORD_UPDATE(val, mask, shift)]: the upper half of the word says which
    bits of the lower half are written. *)
Definition HIWORD_UPDATE (val mask shift : Z) : Z := u32 (Z.shiftl val shift .| Z.shiftl mask (shift + 16)).
Definition SBF (s v : Z) : Z := Z.shiftl v s.

Definition ROCKCHIP_AUTOSUSPEND_DELAY : Z := 100.
Definition ROCKCHIP_POLL_PERIOD_US : Z := 100.
Definition ROCKCHIP_POLL_TIMEOUT_US : Z := 10000.
Definition RK_MAX_RNG_BYTE : Z := 32.

Definition CRYPTO_V1_CTRL : Z := 0x0008.
Definition CRYPTO_V1_RNG_START : Z := BIT 8.
Definition CRYPTO_V1_RNG_FLUSH : Z := BIT 9.
Definition CRYPTO_V1_TRNG_CTRL : Z := 0x0200.
Definition CRYPTO_V1_OSC_ENABLE : Z := BIT 16.
Definition CRYPTO_V1_TRNG_SAMPLE_PERIOD (x : Z) : Z := x.
Definition CRYPTO_V1_TRNG_DOUT_0 : Z := 0x0204.

Definition CRYPTO_V2_RNG_CTL : Z := 0x0400.
Definition CRYPTO_V2_RNG_64_BIT_LEN : Z := SBF 4 0x00.
Definition CRYPTO_V2_RNG_128_BIT_LEN : Z := SBF 4 0x01.
Definition CRYPTO_V2_RNG_192_BIT_LEN : Z := SBF 4 0x02.
Definition CRYPTO_V2_RNG_256_BIT_LEN : Z := SBF 4 0x03.
Definition CRYPTO_V2_RNG_FATESY_SOC_RING : Z := SBF 2 0x00.
Definition CRYPTO_V2_RNG_SLOWER_SOC_RING_0 : Z := SBF 2 0x01.
Definition CRYPTO_V2_RNG_SLOWER_SOC_RING_1 : Z := SBF 2 0x02.
Definition CRYPTO_V2_RNG_SLOWEST_SOC_RING : Z := SBF 2 0x03.
Definition CRYPTO_V2_RNG_ENABLE : Z := BIT 1.
Definition CRYPTO_V2_RNG_START : Z := BIT 0.
Definition CRYPTO_V2_RNG_SAMPLE_CNT : Z := 0x0404.
Definition CRYPTO_V2_RNG_DOUT_0 : Z := 0x0410.

(** What the driver calls: the clocks, runtime power management, the
    registers.  [poll_left]: the number of further reads for which the time of
    a poll is not up yet. *)
Class RngLib (W : Type) := {
  clk_bulk_prepare_enable : W -> Z * W;
  clk_bulk_disable_unprepare : W -> W;
  pm_runtime_get_sync : W -> Z * W;
  pm_runtime_put_noidle : W -> W;
  pm_runtime_mark_last_busy : W -> W;
  pm_runtime_put_sync_autosuspend : W -> W;
  raw_readl : Z -> W -> Z * W;
  raw_writel : Z -> Z -> W -> W;
  poll_left : W -> nat;
  devm_of_iomap : W -> Z * W;
  devm_clk_bulk_get_all : W -> Z * W;
  pm_runtime_enable : W -> W;
  pm_runtime_disable : W -> W;
  devm_hwrng_register : W -> Z * W
}.

(** The memory at [buf] and behind it, byte by byte. *)
Record rk_rng (W : Type) := { rk_buf : list Z; rk_world : W }.
Arguments rk_buf {W} _.
Arguments rk_world {W} _.

Inductive rng_version := V1 | V2.

Section Driver.
Context {W : Type} {L : RngLib W}.

Definition call (f : W -> Z * W) : M (rk_rng W) Z := fun d =>
  let (r, w) := f (rk_world d) in (Ok r, {| rk_buf := rk_buf d; rk_world := w |}).
Definition call_ (f : W -> W) : M (rk_rng W) unit := modify (fun d => {| rk_buf := rk_buf d; rk_world := f (rk_world d) |}).

Definition rk_rng_writel (val offset : Z) : M (rk_rng W) unit := call_ (raw_writel val offset).
Definition rk_rng_readl (offset : Z) : M (rk_rng W) Z := call (raw_readl offset).

Definition rk_rng_init : M (rk_rng W) Z :=
  r <- call clk_bulk_prepare_enable ;; if r <? 0 then ret r else ret 0.
Definition rk_rng_cleanup : M (rk_rng W) unit := call_ clk_bulk_disable_unprepare.

(** Storing the big-endian form of a word at [buf + i]; the memory has to
    be there. *)
Definition store_be32 (i v : Z) : M (rk_rng W) unit := fun d =>
  if (0 <=? i) && (i + 4 <=? Z.of_nat (length (rk_buf d))) then
    (Ok tt, {| rk_buf := seti (seti (seti (seti (rk_buf d) i (u8 (Z.shiftr v 24))) (i + 1) (u8 (Z.shiftr v 16)))
                               (i + 2) (u8 (Z.shiftr v 8))) (i + 3) (u8 v);
               rk_world := rk_world d |})
  else (Err (- EFAULT), d).

(** [for (i = 0; i < size; i += 4)], a turn for every word begun. *)
Definition rk_rng_read_regs (offset size : Z) : M (rk_rng W) unit :=
  for_each ((size + 3) / 4) (fun k =>
    v <- rk_rng_readl (offset + 4 * k) ;;
    store_be32 (4 * k) v).

(** [readl_poll_timeout] for a bit that clears: after the time is up the
    register is read once more. *)
Fixpoint poll_clear (left : nat) (offset bit : Z) : M (rk_rng W) Z :=
  v <- rk_rng_readl offset ;;
  if negb (cbool (Z.land v bit)) then ret 0 else
  match left with
  | O => v <- rk_rng_readl offset ;; ret (if negb (cbool (Z.land v bit)) then 0 else - ETIMEDOUT)
  | S left' => poll_clear left' offset bit
  end.

Definition readl_poll_timeout (offset bit : Z) : M (rk_rng W) Z := fun d => poll_clear (poll_left (rk_world d)) offset bit d.

Definition rk_rng_v1_read (max : Z) : M (rk_rng W) Z :=
  r <- call pm_runtime_get_sync ;;
  if r <? 0 then call_ pm_runtime_put_noidle ;; ret r else
  rk_rng_writel (CRYPTO_V1_OSC_ENABLE .| CRYPTO_V1_TRNG_SAMPLE_PERIOD 100) CRYPTO_V1_TRNG_CTRL ;;
  rk_rng_writel (HIWORD_UPDATE CRYPTO_V1_RNG_START CRYPTO_V1_RNG_START 0) CRYPTO_V1_CTRL ;;
  r <- readl_poll_timeout CRYPTO_V1_CTRL CRYPTO_V1_RNG_START ;;
  r <- (if r <? 0 then ret r else
        let n := Z.min max RK_MAX_RNG_BYTE in
        rk_rng_read_regs CRYPTO_V1_TRNG_DOUT_0 n ;; ret n) ;;
  rk_rng_writel (HIWORD_UPDATE 0 CRYPTO_V1_RNG_START 0) CRYPTO_V1_CTRL ;;
  call_ pm_runtime_mark_last_busy ;;
  call_ pm_runtime_put_sync_autosuspend ;;
  ret r.

Definition rk_rng_v2_read (max : Z) : M (rk_rng W) Z :=
  r <- call pm_runtime_get_sync ;;
  if r <? 0 then call_ pm_runtime_put_noidle ;; ret r else
  rk_rng_writel 100 CRYPTO_V2_RNG_SAMPLE_CNT ;;
  let reg_ctrl := CRYPTO_V2_RNG_256_BIT_LEN .| CRYPTO_V2_RNG_SLOWER_SOC_RING_0 .| CRYPTO_V2_RNG_ENABLE .| CRYPTO_V2_RNG_START in
  rk_rng_writel (HIWORD_UPDATE reg_ctrl 0xffff 0) CRYPTO_V2_RNG_CTL ;;
  r <- readl_poll_timeout CRYPTO_V2_RNG_CTL CRYPTO_V2_RNG_START ;;
  r <- (if r <? 0 then ret r else
        let n := Z.min max RK_MAX_RNG_BYTE in
        rk_rng_read_regs CRYPTO_V2_RNG_DOUT_0 n ;; ret n) ;;
  rk_rng_writel (HIWORD_UPDATE 0 0xffff 0) CRYPTO_V2_RNG_CTL ;;
  call_ pm_runtime_mark_last_busy ;;
  call_ pm_runtime_put_sync_autosuspend ;;
  ret r.

(** [soc_data->rk_rng_read] *)
Definition rk_rng_read (v : rng_version) (max : Z) : M (rk_rng W) Z :=
  match v with V1 => rk_rng_v1_read max | V2 => rk_rng_v2_read max end.

(** [rk_rng_dt_match] *)
Definition rk_rng_dt_match (compatible : string) : option rng_version :=
  if String.eqb compatible "rockchip,cryptov1-rng" then Some V1
  else if String.eqb compatible "rockchip,cryptov2-rng" then Some V2
  else None.

(** The version that is registered; [alloc]: whether the allocation
    succeeds. *)
Definition rk_rng_probe (alloc : bool) (compatible : string) : M (rk_rng W) (Z * option rng_version) :=
  if negb alloc then ret (- ENOMEM, None) else
  match rk_rng_dt_match compatible with
  | None => fail EFAULT
  | Some v =>
      mem <- call devm_of_iomap ;;
      if mem <? 0 then ret (mem, None) else
      clk_num <- call devm_clk_bulk_get_all ;;
      if clk_num <? 0 then ret (- ENODEV, None) else
      call_ pm_runtime_enable ;;
      r <- call devm_hwrng_register ;;
      (if negb (r =? 0) then call_ pm_runtime_disable else ret tt) ;;
      ret (r, if r =? 0 then Some v else None)
  end.

(** The callbacks of runtime power management. *)
Definition rk_rng_runtime_suspend : M (rk_rng W) Z := rk_rng_cleanup ;; ret 0.
Definition rk_rng_runtime_resume : M (rk_rng W) Z := rk_rng_init.
End Driver.

(** * Theorems on [rockchip-rng.c] *)

(** A register whose upper half is the write mask of the lower one. *)
Definition hiword (old val : Z) : Z := Z.lor (Z.land old (Z.lnot (Z.shiftr val 16))) (Z.land val (Z.shiftr val 16)).

Definition ctl_offset (v : rng_version) : Z := match v with V1 => CRYPTO_V1_CTRL | V2 => CRYPTO_V2_RNG_CTL end.
Definition start_bit (v : rng_version) : Z := match v with V1 => 8 | V2 => 0 end.

(** What is relied on: the usage count of runtime power management, which
    [pm_runtime_get_sync] raises even if it fails, and the control register of
    the generator. *)
Class RngHw (W : Type) {L : RngLib W} := {
  rg_usage : W -> Z;
  rg_ctl : W -> Z;
  rg_version : rng_version;
  hw_get w : rg_usage (snd (pm_runtime_get_sync w)) = rg_usage w + 1;
  hw_put_noidle w : rg_usage (pm_runtime_put_noidle w) = rg_usage w - 1;
  hw_put w : rg_usage (pm_runtime_put_sync_autosuspend w) = rg_usage w - 1 /\ rg_ctl (pm_runtime_put_sync_autosuspend w) = rg_ctl w;
  hw_busy w : rg_usage (pm_runtime_mark_last_busy w) = rg_usage w /\ rg_ctl (pm_runtime_mark_last_busy w) = rg_ctl w;
  hw_read o w : rg_usage (snd (raw_readl o w)) = rg_usage w;
  hw_write v o w : rg_usage (raw_writel v o w) = rg_usage w;
  hw_ctl v w : rg_ctl (raw_writel v (ctl_offset rg_version) w) = hiword (rg_ctl w) v
}.

Section Rng.
Context {W : Type} {L : RngLib W} {H : RngHw W}.
Implicit Types (d : rk_rng W).

(** The words of a request of [n] bytes, in bytes: rounded up to four. *)
Definition span (n : Z) : Z := 4 * ((n + 3) / 4).

Lemma span_range n : n <= span n < n + 4.
Proof. unfold span. Z.to_euclidean_division_equations. lia. Qed.

(** The same usage count, and the buffer from byte [n] on. *)
Record keeps_rest (n : Z) d d' : Prop := {
  kr_usage : rg_usage (rk_world d') = rg_usage (rk_world d);
  kr_length : length (rk_buf d') = length (rk_buf d);
  kr_rest i : n <= i -> geti 0 (rk_buf d') i = geti 0 (rk_buf d) i
}.

Lemma keeps_refl n d : keeps_rest n d d.
Proof. split; reflexivity. Qed.

Lemma keeps_trans n d1 d2 d3 : keeps_rest n d1 d2 -> keeps_rest n d2 d3 -> keeps_rest n d1 d3.
Proof. intros [A1 A2 A3] [B1 B2 B3]. split; [congruence | congruence |]. intros i Hi. rewrite B3, A3 by lia. reflexivity. Qed.

Lemma wp_call {B} (f : W -> Z * W) (k : Z -> M (rk_rng W) B) Q E d :
  wp (k (fst (f (rk_world d)))) Q E {| rk_buf := rk_buf d; rk_world := snd (f (rk_world d)) |} -> wp (bind (call f) k) Q E d.
Proof. unfold wp, bind, call. destruct (f (rk_world d)). auto. Qed.

Lemma wp_call_ {B} (f : W -> W) (k : unit -> M (rk_rng W) B) Q E d :
  wp (k tt) Q E {| rk_buf := rk_buf d; rk_world := f (rk_world d) |} -> wp (bind (call_ f) k) Q E d.
Proof. auto. Qed.

Lemma keeps_world n d w : rg_usage w = rg_usage (rk_world d) -> keeps_rest n d {| rk_buf := rk_buf d; rk_world := w |}.
Proof. intros Hu. split; [exact Hu | reflexivity | reflexivity]. Qed.

Lemma poll_keeps left o b n d : wp (poll_clear left o b) (fun r d' => (r = 0 \/ r = - ETIMEDOUT) /\ rk_buf d' = rk_buf d /\ keeps_rest n d d') never d.
Proof.
  assert (Hr : forall d0, keeps_rest n d0 {| rk_buf := rk_buf d0; rk_world := snd (raw_readl o (rk_world d0)) |}) by (intros d0; apply keeps_world, hw_read).
  revert d. induction left as [| left IH]; intros d; cbn [poll_clear]; apply wp_call; destruct (negb (cbool _)).
  - apply wp_ret. auto.
  - apply wp_call, wp_ret. split; [destruct (negb _); auto |]. split; [reflexivity |]. eapply keeps_trans; [apply Hr | apply Hr].
  - apply wp_ret. auto.
  - eapply wp_mono; [apply IH | cbv beta | auto]. intros r d' (H1 & H2 & H3). split; [exact H1 |]. split; [exact H2 |].
    eapply keeps_trans; [apply Hr | exact H3].
Qed.

Lemma store_keeps i v n d : 0 <= i -> i + 4 <= n -> n <= Z.of_nat (length (rk_buf d)) ->
  wp (store_be32 i v) (fun _ d' => keeps_rest n d d') never d.
Proof.
  intros Hi Hn Hl. unfold wp, store_be32. rewrite !(proj2 (Z.leb_le _ _)) by lia. cbn [andb].
  split; cbn [rk_buf rk_world]; [reflexivity | rewrite !seti_length; reflexivity |].
  intros j Hj. rewrite !geti_seti by (rewrite ?seti_length; lia).
  repeat match goal with |- context [?a =? ?b] => destruct (Z.eqb_spec a b); [lia |] end. reflexivity.
Qed.

Lemma regs_keep o n d : 0 <= n -> span n <= Z.of_nat (length (rk_buf d)) ->
  wp (rk_rng_read_regs o n) (fun _ d' => keeps_rest (span n) d d') never d.
Proof.
  intros Hn Hl. apply (wp_loop_acc (fun _ _ d' => keeps_rest (span n) d d')); [apply keeps_refl | | auto].
  intros j [] d1 Hj Hd1. apply wp_call. assert (Hs : 4 * j + 4 <= span n) by (unfold span; lia).
  set (d2 := {| rk_buf := _; rk_world := _ |}).
  assert (Hd2 : keeps_rest (span n) d d2) by (eapply keeps_trans; [exact Hd1 | apply keeps_world, hw_read]).
  eapply wp_mono; [apply (store_keeps (4 * j) _ (span n) d2) | cbv beta | auto]; [lia | exact Hs | rewrite (kr_length _ _ _ Hd2); exact Hl |].
  intros [] d3 Hd3. eapply keeps_trans; [exact Hd2 | exact Hd3].
Qed.

(** The outcome of a read: [r] is the number of bytes or an error. *)
Record read_done (max : Z) d r d' : Prop := {
  rd_usage : rg_usage (rk_world d') = rg_usage (rk_world d);
  rd_result : r = Z.min max RK_MAX_RNG_BYTE \/ r < 0;
  rd_error : r < 0 -> rk_buf d' = rk_buf d;
  rd_length : length (rk_buf d') = length (rk_buf d);
  rd_rest i : span (Z.min max RK_MAX_RNG_BYTE) <= i -> geti 0 (rk_buf d') i = geti 0 (rk_buf d) i;
  rd_stopped : 0 <= fst (pm_runtime_get_sync (rk_world d)) -> Z.testbit (rg_ctl (rk_world d')) (start_bit rg_version) = false
}.

(** Everything after the poll, for either version: the close word clears the
    start bit. *)
Lemma read_tail max close dout d d1 r : 0 <= max -> span (Z.min max RK_MAX_RNG_BYTE) <= Z.of_nat (length (rk_buf d)) ->
  (forall old, Z.testbit (hiword old close) (start_bit rg_version) = false) ->
  rg_usage (rk_world d1) = rg_usage (rk_world d) + 1 -> rk_buf d1 = rk_buf d -> r = 0 \/ r = - ETIMEDOUT ->
  wp (r <- (if r <? 0 then ret r else
            let n := Z.min max RK_MAX_RNG_BYTE in rk_rng_read_regs dout n ;; ret n) ;;
      rk_rng_writel close (ctl_offset rg_version) ;;
      call_ pm_runtime_mark_last_busy ;;
      call_ pm_runtime_put_sync_autosuspend ;;
      ret r) (fun r d' => read_done max d r d') never d1.
Proof.
  intros Hm Hl Hc Hu Hb Hr. set (n := Z.min max RK_MAX_RNG_BYTE) in *. assert (Hn : 0 <= n) by (unfold n, RK_MAX_RNG_BYTE; lia).
  apply wp_bind. apply (wp_mono _ (fun r' d2 => keeps_rest (span n) d1 d2 /\ (r' = n \/ r' < 0) /\ (r' < 0 -> rk_buf d2 = rk_buf d1)) _ never); [| | auto].
  - destruct (Z.ltb_spec r 0) as [Hneg | Hpos].
    + apply wp_ret. split; [apply keeps_refl |]. auto.
    + cbv zeta. apply wp_bind. eapply wp_mono; [apply regs_keep; [exact Hn | rewrite Hb; exact Hl] | cbv beta | auto].
      intros [] d2 Hd2. apply wp_ret. split; [exact Hd2 |]. split; [auto | lia].
  - intros r' d2 ([K1 K2 K3] & Hr' & He). apply wp_call_, wp_call_, wp_call_, wp_ret. cbn [rk_buf rk_world].
    destruct (hw_busy (raw_writel close (ctl_offset rg_version) (rk_world d2))) as [B1 B2].
    destruct (hw_put (pm_runtime_mark_last_busy (raw_writel close (ctl_offset rg_version) (rk_world d2)))) as [P1 P2].
    split; cbn [rk_buf rk_world]; [| exact Hr' | rewrite <- Hb; exact He | congruence | |].
    + rewrite P1, B1, hw_write, K1, Hu. lia.
    + intros i Hi. rewrite K3 by exact Hi. rewrite Hb. reflexivity.
    + intros _. rewrite P2, B2, hw_ctl. apply Hc.
Qed.

(** A generator that cannot be resumed. *)
Lemma read_unresumed max d r : r = fst (pm_runtime_get_sync (rk_world d)) -> r < 0 ->
  read_done max d r {| rk_buf := rk_buf d; rk_world := pm_runtime_put_noidle (snd (pm_runtime_get_sync (rk_world d))) |}.
Proof.
  intros -> Hr. split; cbn [rk_buf rk_world]; try reflexivity; [| auto | lia].
  rewrite hw_put_noidle, hw_get. lia.
Qed.

Lemma v1_close old : Z.testbit (hiword old (HIWORD_UPDATE 0 CRYPTO_V1_RNG_START 0)) 8 = false.
Proof. unfold hiword. rewrite Z.lor_spec, !Z.land_spec, Z.lnot_spec by lia. cbn. rewrite andb_false_r. reflexivity. Qed.

Lemma v2_close old : Z.testbit (hiword old (HIWORD_UPDATE 0 0xffff 0)) 0 = false.
Proof. unfold hiword. rewrite Z.lor_spec, !Z.land_spec, Z.lnot_spec by lia. cbn. rewrite andb_false_r. reflexivity. Qed.

(** C31: A read of the generator, of either version and whatever the chip and
    runtime power management answer: it ends; the usage count is what it was;
    the generator is stopped if it could be resumed; the result is an error,
    and then the buffer is as it was, or the number of bytes asked for, at
    most 32; and no byte is written behind the words of the request, four
    bytes each, the last of which reaches up to three bytes behind the
    request. *)
Theorem rng_read_balanced max d :
  0 <= max -> span (Z.min max RK_MAX_RNG_BYTE) <= Z.of_nat (length (rk_buf d)) ->
  exists r d', rk_rng_read rg_version max d = (Ok r, d') /\ read_done max d r d'.
Proof.
  intros Hm Hl. apply wp_never. pose proof (hw_get (rk_world d)) as Hg.
  destruct rg_version eqn:Ev; cbn [rk_rng_read]; apply wp_call; (destruct (Z.ltb_spec (fst (pm_runtime_get_sync (rk_world d))) 0) as [Hneg | Hpos];
    [apply wp_call_, wp_ret, read_unresumed; [reflexivity | exact Hneg] |]); apply wp_call_, wp_call_; cbv zeta; unfold readl_poll_timeout;
    apply wp_bind; (eapply wp_mono; [apply (poll_keeps _ _ _ 0) | cbv beta | auto]); intros r d1 (Hr & Hb & [K1 _ _]); cbn [rk_buf rk_world] in *;
    rewrite !hw_write in K1.
  - pose proof (read_tail max (HIWORD_UPDATE 0 CRYPTO_V1_RNG_START 0) CRYPTO_V1_TRNG_DOUT_0 d d1 r Hm Hl) as Ht. rewrite Ev in Ht.
    apply Ht; [intros old; apply v1_close | lia | exact Hb | exact Hr].
  - pose proof (read_tail max (HIWORD_UPDATE 0 0xffff 0) CRYPTO_V2_RNG_DOUT_0 d d1 r Hm Hl) as Ht. rewrite Ev in Ht.
    apply Ht; [intros old; apply v2_close | lia | exact Hb | exact Hr].
Qed.
End Rng.

(** ** A generator that needs some reads to finish *)

Record rng_sim := { sim_usage : Z; sim_ctl : Z; sim_busy : nat }.

#[export] Instance sim_rng : RngLib rng_sim := {|
  clk_bulk_prepare_enable w := (0, w); clk_bulk_disable_unprepare w := w;
  pm_runtime_get_sync w := (0, {| sim_usage := sim_usage w + 1; sim_ctl := sim_ctl w; sim_busy := sim_busy w |});
  pm_runtime_put_noidle w := {| sim_usage := sim_usage w - 1; sim_ctl := sim_ctl w; sim_busy := sim_busy w |};
  pm_runtime_mark_last_busy w := w;
  pm_runtime_put_sync_autosuspend w := {| sim_usage := sim_usage w - 1; sim_ctl := sim_ctl w; sim_busy := sim_busy w |};
  raw_readl o w :=
    if o =? CRYPTO_V2_RNG_CTL then
      match sim_busy w with
      | O => (Z.ldiff (sim_ctl w) 1, {| sim_usage := sim_usage w; sim_ctl := Z.ldiff (sim_ctl w) 1; sim_busy := O |})
      | S b => (sim_ctl w, {| sim_usage := sim_usage w; sim_ctl := sim_ctl w; sim_busy := b |})
      end
    else (0x01020304 + o - CRYPTO_V2_RNG_DOUT_0, w);
  raw_writel v o w := if o =? CRYPTO_V2_RNG_CTL then {| sim_usage := sim_usage w; sim_ctl := hiword (sim_ctl w) v; sim_busy := sim_busy w |} else w;
  poll_left _ := 5%nat;
  devm_of_iomap w := (0, w); devm_clk_bulk_get_all w := (2, w); pm_runtime_enable w := w; pm_runtime_disable w := w;
  devm_hwrng_register w := (0, w)
|}.

#[export] Instance sim_rng_hw : RngHw rng_sim.
Proof.
  refine {| rg_usage := sim_usage; rg_ctl := sim_ctl; rg_version := V2 |}; try reflexivity; try (intros; split; reflexivity).
  - intros o w. cbn. destruct (o =? CRYPTO_V2_RNG_CTL); [destruct (sim_busy w); reflexivity | reflexivity].
  - intros v o w. cbn. destruct (o =? CRYPTO_V2_RNG_CTL); reflexivity.
Defined.

Definition rng_device (busy : nat) : rk_rng rng_sim :=
  {| rk_buf := replicate 12 0xee; rk_world := {| sim_usage := 0; sim_ctl := 0; sim_busy := busy |} |}.

Lemma rng_read_balanced_witness :
  exists r d', rk_rng_read rg_version 6 (rng_device 3) = (Ok r, d') /\ read_done 6 (rng_device 3) r d'.
Proof. apply (rng_read_balanced 6 (rng_device 3)); [lia | vm_compute; discriminate]. Defined.

(** Six bytes asked for, eight written. *)
Example rng_overrun : let (r, d) := rk_rng_read V2 6 (rng_device 3) in
  r = Ok 6 /\ rk_buf d = [1; 2; 3; 4; 1; 2; 3; 8; 0xee; 0xee; 0xee; 0xee] /\ rk_world d = {| sim_usage := 0; sim_ctl := 0; sim_busy := 0 |}.
Proof. vm_compute. auto. Qed.

(** A generator that stays busy. *)
Example rng_timeout : let (r, d) := rk_rng_read V2 6 (rng_device 30) in r = Ok (- ETIMEDOUT) /\ sim_usage (rk_world d) = 0 /\ sim_ctl (rk_world d) = 0.
Proof. vm_compute. auto. Qed.
