(* ===== verification/UbootEnv.v ===== *)
(** * The U-Boot environment in RAM: [ubootenv-nvram.c]

    One reserved range of memory behind a character device that answers the
    few MTD requests the tools for the environment make. *)

From S2P Require Import Prelude CMonad.

Definition ENOTTY : Z := 25.
Definition PAGE_SIZE : Z := 4096.
Definition ULONG_MAX : Z := 2 ^ 64 - 1.
Definition MTD_NORFLASH : Z := 3.

(** [data->env]: what [devm_memremap] returned is a mapping or an encoded
    error, which is no null pointer. *)
Inductive env_ptr := EnvNull | EnvError (e : Z) | EnvMapped.

Record reserved_mem := { rm_base : Z; rm_size : Z }.

(** [drvdata] ([env], [rmem]), the memory itself, and what the kernel keeps:
    whether the range is mapped and the character device there. *)
Record uenv := {
  ue_env : env_ptr;
  ue_rmem : option reserved_mem;
  ue_mem : list Z;
  ue_mapped : bool;
  ue_registered : bool
}.

Inductive mtd_cmd := MEMISLOCKED | MEMERASE | MEMGETINFO | OtherCmd.

(** [type] and [size] of [struct mtd_info_user]; the size is a [u32]. *)
Record mtd_info_user := { mi_type : Z; mi_size : Z }.

(** The kernel's helpers for a file that is a buffer.  Writing: the buffer,
    the position and the bytes; the result, the buffer, the position.
    Reading: the buffer, the position and the count; the result, the bytes,
    the position.  Seeking: the position, the offset, the origin, the size;
    the result and the position. *)
Class BufferFile := {
  simple_write_to_buffer : list Z -> Z -> list Z -> Z * list Z * Z;
  simple_read_from_buffer : list Z -> Z -> Z -> Z * list Z * Z;
  fixed_size_llseek : Z -> Z -> Z -> Z -> Z * Z
}.

Definition set_env (p : env_ptr) : M uenv unit := modify (fun u =>
  {| ue_env := p; ue_rmem := ue_rmem u; ue_mem := ue_mem u; ue_mapped := ue_mapped u; ue_registered := ue_registered u |}).
Definition set_rmem (r : option reserved_mem) : M uenv unit := modify (fun u =>
  {| ue_env := ue_env u; ue_rmem := r; ue_mem := ue_mem u; ue_mapped := ue_mapped u; ue_registered := ue_registered u |}).
Definition set_mem (l : list Z) : M uenv unit := modify (fun u =>
  {| ue_env := ue_env u; ue_rmem := ue_rmem u; ue_mem := l; ue_mapped := ue_mapped u; ue_registered := ue_registered u |}).
Definition set_mapped (b : bool) : M uenv unit := modify (fun u =>
  {| ue_env := ue_env u; ue_rmem := ue_rmem u; ue_mem := ue_mem u; ue_mapped := b; ue_registered := ue_registered u |}).
Definition set_misc_registered (b : bool) : M uenv unit := modify (fun u =>
  {| ue_env := ue_env u; ue_rmem := ue_rmem u; ue_mem := ue_mem u; ue_mapped := ue_mapped u; ue_registered := b |}).

(** The memory behind a pointer that is not null, of which the code uses
    [data->rmem->size] bytes. *)
Definition env_memory : M uenv (list Z) :=
  u <- get_state ;;
  match ue_env u, ue_rmem u with
  | EnvMapped, Some r =>
      if ue_mapped u && (rm_size r =? Z.of_nat (length (ue_mem u))) then ret (ue_mem u) else fail EFAULT
  | _, _ => fail EFAULT
  end.

Definition is_null (p : env_ptr) : bool := match p with EnvNull => true | _ => false end.

Section Files.
Context {B : BufferFile}.

(** The result and the new position. *)
Definition ubootenv_write (buffer : list Z) (ppos : Z) : M uenv (Z * Z) :=
  u <- get_state ;;
  if is_null (ue_env u) then ret (- EIO, ppos) else
  mem <- env_memory ;;
  let '(r, mem, ppos) := simple_write_to_buffer mem ppos buffer in
  set_mem mem ;;
  ret (r, ppos).

(** The result, the bytes and the new position. *)
Definition ubootenv_read (count ppos : Z) : M uenv (Z * list Z * Z) :=
  u <- get_state ;;
  if is_null (ue_env u) then ret (0, [], ppos) else
  mem <- env_memory ;;
  ret (simple_read_from_buffer mem ppos count).

Definition ubootenv_llseek (off whence pos : Z) : M uenv (Z * Z) :=
  u <- get_state ;;
  match ue_rmem u with
  | None => fail EFAULT
  | Some r => ret (fixed_size_llseek pos off whence (rm_size r))
  end.
End Files.

(** [copy]: whether copying to user space succeeds. *)
Definition ubootenv_ioctl (cmd : mtd_cmd) (copy : bool) : M uenv (Z * option mtd_info_user) :=
  u <- get_state ;;
  match ue_rmem u with
  | None => fail EFAULT
  | Some r =>
      match cmd with
      | MEMISLOCKED | MEMERASE => ret (0, None)
      | MEMGETINFO =>
          if copy then ret (0, Some {| mi_type := MTD_NORFLASH; mi_size := u32 (rm_size r) |}) else ret (- EFAULT, None)
      | OtherCmd => ret (- ENOTTY, None)
      end
  end.

Definition PAGE_ALIGNED (x : Z) : bool := x mod PAGE_SIZE =? 0.

(** [np]: the node of the memory region, if there is one, with the range it
    describes, if there is one; [map]: what [devm_memremap] answers; [reg]:
    what [misc_register] answers. *)
Definition ubootenv_probe (np : option (option reserved_mem)) (map : res unit) (reg : Z) : M uenv Z :=
  u <- get_state ;;
  if negb (is_null (ue_env u)) then ret (- EINVAL) else
  match np with
  | None => ret (- ENODEV)
  | Some rmem =>
      set_rmem rmem ;;
      match rmem with
      | None => ret (- ENODEV)
      | Some r =>
          if (rm_size r =? 0) || (rm_size r >? ULONG_MAX) then ret (- EINVAL) else
          if negb (PAGE_ALIGNED (rm_base r)) || negb (PAGE_ALIGNED (rm_size r)) then ret (- EINVAL) else
          match map with
          | Ok _ => set_mapped true ;; set_env EnvMapped
          | Err e => set_env (EnvError e)
          end ;;
          (if reg =? 0 then set_misc_registered true else ret tt) ;;
          ret reg
      end
  end.

Definition ubootenv_remove : M uenv unit :=
  set_env EnvNull ;;
  set_misc_registered false.

(** * Theorems on [ubootenv-nvram.c]

    The life of the device against a file of fixed size whose contents stay
    when the device goes. *)

(** What is relied on of the kernel's helper for writing: a buffer keeps its
    size. *)
Class BufferFileOk {B : BufferFile} : Prop := {
  write_length mem pos bytes : length (snd (fst (simple_write_to_buffer mem pos bytes))) = length mem
}.

(** The driver core releases what a device has mapped when its probe fails
    and after it was removed; it probes a device that is not bound, and
    removes one that is.  A file is opened while the character device is
    there and may be used at any later time, also when the device is gone. *)
Record world := { wd_env : uenv; wd_bound : bool; wd_opened : bool }.

Inductive op :=
| OpProbe (np : option (option reserved_mem)) (map : res unit) (reg : Z)
| OpRemove
| OpOpen
| OpWrite (buffer : list Z) (ppos : Z)
| OpRead (count ppos : Z)
| OpSeek (off whence pos : Z)
| OpIoctl (cmd : mtd_cmd) (copy : bool).

(** What comes back: [Fault] is an access to memory that is not there. *)
Inductive answer :=
| Fault
| Nothing
| Code (r : Z)
| Position (r ppos : Z)
| Bytes (r : Z) (l : list Z) (ppos : Z)
| Info (r : Z) (i : option mtd_info_user).

Definition release (u : uenv) : uenv :=
  {| ue_env := ue_env u; ue_rmem := ue_rmem u; ue_mem := ue_mem u; ue_mapped := false; ue_registered := ue_registered u |}.

Section Life.
Context {B : BufferFile}.

(** A use of an open file. *)
Definition use {A} (m : M uenv A) (f : A -> answer) (w : world) : world * answer :=
  if wd_opened w then
    let (r, u) := m (wd_env w) in
    ({| wd_env := u; wd_bound := wd_bound w; wd_opened := true |}, match r with Ok a => f a | Err _ => Fault end)
  else (w, Nothing).

Definition step (o : op) (w : world) : world * answer :=
  match o with
  | OpProbe np map reg =>
      if wd_bound w then (w, Nothing) else
      let (r, u) := ubootenv_probe np map reg (wd_env w) in
      match r with
      | Ok 0 => ({| wd_env := u; wd_bound := true; wd_opened := wd_opened w |}, Code 0)
      | Ok e => ({| wd_env := release u; wd_bound := false; wd_opened := wd_opened w |}, Code e)
      | Err _ => ({| wd_env := release u; wd_bound := false; wd_opened := wd_opened w |}, Fault)
      end
  | OpRemove =>
      if wd_bound w then
        ({| wd_env := release (snd (ubootenv_remove (wd_env w))); wd_bound := false; wd_opened := wd_opened w |}, Nothing)
      else (w, Nothing)
  | OpOpen =>
      if ue_registered (wd_env w) then ({| wd_env := wd_env w; wd_bound := wd_bound w; wd_opened := true |}, Code 0) else (w, Code (- ENODEV))
  | OpWrite b p => use (ubootenv_write b p) (fun '(r, p) => Position r p) w
  | OpRead c p => use (ubootenv_read c p) (fun '(r, l, p) => Bytes r l p) w
  | OpSeek o wh p => use (ubootenv_llseek o wh p) (fun '(r, p) => Position r p) w
  | OpIoctl c copy => use (ubootenv_ioctl c copy) (fun '(r, i) => Info r i) w
  end.

Fixpoint life (os : list op) (w : world) : list answer :=
  match os with
  | [] => []
  | o :: os' => let (w', a) := step o w in a :: life os' w'
  end.

(** Nothing was probed yet. *)
Definition fresh (mem : list Z) : world :=
  {| wd_env := {| ue_env := EnvNull; ue_rmem := None; ue_mem := mem; ue_mapped := false; ue_registered := false |};
     wd_bound := false; wd_opened := false |}.

(** ** The specification: a file of fixed size *)

Record nvram := { nv_bound : bool; nv_opened : bool; nv_bytes : list Z }.

(** What a probe of the range says. *)
Definition range_code (np : option (option reserved_mem)) : Z :=
  match np with
  | Some (Some r) =>
      if (rm_size r =? 0) || (rm_size r >? ULONG_MAX) || negb (PAGE_ALIGNED (rm_base r) && PAGE_ALIGNED (rm_size r)) then - EINVAL else 0
  | _ => - ENODEV
  end.

Definition nv_use (s : nvram) (mem : list Z) (a : answer) : nvram * answer :=
  if nv_opened s then ({| nv_bound := nv_bound s; nv_opened := true; nv_bytes := mem |}, a) else (s, Nothing).

Definition nv_step (o : op) (s : nvram) : nvram * answer :=
  let n := Z.of_nat (length (nv_bytes s)) in
  match o with
  | OpProbe np _ _ =>
      if nv_bound s then (s, Nothing)
      else ({| nv_bound := range_code np =? 0; nv_opened := nv_opened s; nv_bytes := nv_bytes s |}, Code (range_code np))
  | OpRemove => ({| nv_bound := false; nv_opened := nv_opened s; nv_bytes := nv_bytes s |}, Nothing)
  | OpOpen => if nv_bound s then ({| nv_bound := true; nv_opened := true; nv_bytes := nv_bytes s |}, Code 0) else (s, Code (- ENODEV))
  | OpWrite b p =>
      if nv_bound s then
        let '(r, mem, p') := simple_write_to_buffer (nv_bytes s) p b in nv_use s mem (Position r p')
      else nv_use s (nv_bytes s) (Position (- EIO) p)
  | OpRead c p =>
      nv_use s (nv_bytes s) (if nv_bound s then let '(r, l, p') := simple_read_from_buffer (nv_bytes s) p c in Bytes r l p' else Bytes 0 [] p)
  | OpSeek off wh p => nv_use s (nv_bytes s) (let (r, p') := fixed_size_llseek p off wh n in Position r p')
  | OpIoctl c copy => nv_use s (nv_bytes s)
      match c with
      | MEMISLOCKED | MEMERASE => Info 0 None
      | MEMGETINFO => if copy then Info 0 (Some {| mi_type := MTD_NORFLASH; mi_size := u32 n |}) else Info (- EFAULT) None
      | OtherCmd => Info (- ENOTTY) None
      end
  end.

Fixpoint nv_life (os : list op) (s : nvram) : list answer :=
  match os with
  | [] => []
  | o :: os' => let (s', a) := nv_step o s in a :: nv_life os' s'
  end.

(** ** The refinement *)

Section Refinement.
Context {BO : BufferFileOk} (np : option (option reserved_mem)) (size : Z).
Hypothesis range_size : forall r, np = Some (Some r) -> rm_size r = size.

(** Every probe sees the same device tree, and the kernel maps the range and
    registers the device. *)
Definition op_fine (o : op) : Prop :=
  match o with OpProbe np' map reg => np' = np /\ map = Ok tt /\ reg = 0 | _ => True end.

Record implements (w : world) (s : nvram) : Prop := {
  im_bound : wd_bound w = nv_bound s;
  im_opened : wd_opened w = nv_opened s;
  im_mem : ue_mem (wd_env w) = nv_bytes s;
  im_size : Z.of_nat (length (nv_bytes s)) = size;
  im_env : ue_env (wd_env w) = if nv_bound s then EnvMapped else EnvNull;
  im_mapped : ue_mapped (wd_env w) = nv_bound s;
  im_registered : ue_registered (wd_env w) = nv_bound s;
  im_rmem : nv_bound s = true \/ nv_opened s = true -> exists r, np = Some (Some r) /\ ue_rmem (wd_env w) = Some r
}.

Lemma env_memory_bound w s : implements w s -> nv_bound s = true -> env_memory (wd_env w) = (Ok (nv_bytes s), wd_env w).
Proof.
  intros [H1 H2 H3 H4 H5 H6 H7 H8] Hb. rewrite Hb in *. destruct (H8 (or_introl eq_refl)) as (r & Hr & E).
  unfold env_memory, bind, get_state. rewrite H5, E, H6, H3, (range_size r Hr), <- H4, Z.eqb_refl. reflexivity.
Qed.

Lemma probe_fine u : ue_env u = EnvNull ->
  exists u', ubootenv_probe np (Ok tt) 0 u = (Ok (range_code np), u') /\ ue_mem u' = ue_mem u /\
    (range_code np = 0 -> ue_env u' = EnvMapped /\ ue_mapped u' = true /\ ue_registered u' = true /\ exists r, np = Some (Some r) /\ ue_rmem u' = Some r) /\
    (range_code np <> 0 -> ue_env u' = EnvNull /\ ue_registered u' = ue_registered u /\ forall r, np = Some (Some r) -> ue_rmem u' = Some r).
Proof.
  intros Hn. unfold ubootenv_probe, bind, get_state. rewrite Hn. cbn [is_null negb]. unfold range_code.
  destruct np as [[r |] |]; cbn; try (eexists; split; [reflexivity |]; split; [reflexivity |]; split; [discriminate |]; intros _; split; [exact Hn |]; split; [reflexivity | discriminate]).
  destruct ((rm_size r =? 0) || (rm_size r >? ULONG_MAX)); cbn [orb];
    [eexists; split; [reflexivity |]; split; [reflexivity |]; split; [discriminate |]; intros _; split; [exact Hn |]; split; [reflexivity | intros ? [= <-]; reflexivity] |].
  destruct (PAGE_ALIGNED (rm_base r)), (PAGE_ALIGNED (rm_size r)); cbn;
    (eexists; split; [reflexivity |]; split; [reflexivity |]; split; [try discriminate | try contradiction]);
    try (intros _; split; [exact Hn |]; split; [reflexivity | intros ? [= <-]; reflexivity]).
  - intros _. do 3 (split; [reflexivity |]). exists r. auto.
Qed.

Lemma probe_implements w s o : implements w s -> op_fine o -> match o with OpProbe _ _ _ => True | _ => False end ->
  snd (step o w) = snd (nv_step o s) /\ implements (fst (step o w)) (fst (nv_step o s)).
Proof.
  intros Hi Hf Ho. destruct o as [np' map reg | | | | | |]; try contradiction. destruct Hf as (-> & -> & ->). cbn [step nv_step].
  pose proof Hi as [H1 H2 H3 H4 H5 H6 H7 H8]. rewrite H1. destruct (nv_bound s) eqn:Hb; [auto |].
  destruct (probe_fine (wd_env w) H5) as (u' & E & Hm & Hok & Hbad). rewrite E. destruct (Z.eqb_spec (range_code np) 0) as [Hc | Hc].
  - rewrite Hc. destruct (Hok Hc) as (E1 & E2 & E3 & r & Hr & E4). split; [reflexivity |]. cbn [fst].
    split; cbn; try assumption; try congruence. intros _. exists r. auto.
  - destruct (Hbad Hc) as (E1 & E2 & E3).
    assert (Hx : forall A (a b : A), match range_code np with 0 => a | _ => b end = b) by (intros; destruct (range_code np); [contradiction | reflexivity | reflexivity]).
    rewrite Hx. split; [reflexivity |]. cbn [fst]. split; cbn; try assumption; try reflexivity; try congruence.
    intros [|Hop]; [discriminate |]. destruct (H8 (or_intror Hop)) as (r & Hr & _). exists r. split; [exact Hr | apply E3, Hr].
Qed.

(** Using a file that is open. *)
Lemma use_implements {A} (m : M uenv A) (f : A -> answer) w s mem a :
  implements w s -> Z.of_nat (length mem) = size ->
  (nv_opened s = true -> exists x u, m (wd_env w) = (Ok x, u) /\ f x = a /\ ue_mem u = mem /\ ue_env u = ue_env (wd_env w) /\
    ue_mapped u = ue_mapped (wd_env w) /\ ue_registered u = ue_registered (wd_env w) /\ ue_rmem u = ue_rmem (wd_env w)) ->
  snd (use m f w) = snd (nv_use s mem a) /\ implements (fst (use m f w)) (fst (nv_use s mem a)).
Proof.
  intros Hi Hl Hm. pose proof Hi as [H1 H2 H3 H4 H5 H6 H7 H8]. unfold use, nv_use. rewrite H2. destruct (nv_opened s) eqn:Ho; [| auto].
  destruct (Hm eq_refl) as (x & u & -> & Ef & E1 & E2 & E3 & E4 & E5). cbn [fst snd]. split; [exact Ef |].
  split; cbn; try congruence. intros _. rewrite E5. apply H8. auto.
Qed.

(** A use that changes nothing. *)
Lemma use_reads {A} (m : M uenv A) (f : A -> answer) w s a : implements w s ->
  (nv_opened s = true -> exists x, m (wd_env w) = (Ok x, wd_env w) /\ f x = a) ->
  snd (use m f w) = snd (nv_use s (nv_bytes s) a) /\ implements (fst (use m f w)) (fst (nv_use s (nv_bytes s) a)).
Proof.
  intros Hi Hm. apply use_implements; [exact Hi | apply Hi |]. intros Ho. destruct (Hm Ho) as (x & E & Ef).
  exists x, (wd_env w). repeat (split; [assumption || reflexivity || apply Hi |]). reflexivity.
Qed.

Lemma step_implements w s o : implements w s -> op_fine o ->
  snd (step o w) = snd (nv_step o s) /\ implements (fst (step o w)) (fst (nv_step o s)).
Proof.
  intros Hi Hf. destruct o; [apply probe_implements; [exact Hi | exact Hf | exact I] | ..]; cbn [step nv_step];
    pose proof Hi as [H1 H2 H3 H4 H5 H6 H7 H8].
  - rewrite H1. destruct (nv_bound s) eqn:Hb; split; try reflexivity.
    + split; cbn; try assumption; try reflexivity. intros [|Ho]; [discriminate | apply H8; auto].
    + cbn [fst]. split; cbn; rewrite ?Hb in *; assumption.
  - rewrite H7. destruct (nv_bound s) eqn:Hb; split; try reflexivity; [| exact Hi]. cbn [fst].
    split; cbn; rewrite ?H1, ?Hb in *; try assumption; try reflexivity. intros _. apply H8. auto.
  - destruct (nv_bound s) eqn:Hb.
    + pose proof (write_length (nv_bytes s) ppos buffer) as Hw. destruct (simple_write_to_buffer (nv_bytes s) ppos buffer) as [[r mem] p'] eqn:E. cbn in Hw.
      apply use_implements; [exact Hi | congruence |]. intros Ho. unfold ubootenv_write. unfold bind at 1, get_state at 1. rewrite H5. cbn [is_null].
      rewrite (bind_ok _ _ _ _ _ (env_memory_bound w s Hi Hb)), E. do 2 eexists. split; [reflexivity |]. cbn. auto 10.
    + apply use_reads; [exact Hi |]. intros Ho. unfold ubootenv_write, bind, get_state. rewrite H5. eexists. split; reflexivity.
  - apply use_reads; [exact Hi |]. intros Ho. unfold ubootenv_read. unfold bind at 1, get_state at 1. rewrite H5. destruct (nv_bound s) eqn:Hb; cbn [is_null].
    + rewrite (bind_ok _ _ _ _ _ (env_memory_bound w s Hi Hb)). eexists. split; [reflexivity |]. destruct (simple_read_from_buffer _ _ _) as [[r l] p']. reflexivity.
    + eexists. split; reflexivity.
  - apply use_reads; [exact Hi |]. intros Ho. unfold ubootenv_llseek, bind, get_state. destruct (H8 (or_intror Ho)) as (r & Hr & ->).
    rewrite (range_size r Hr), <- H4. eexists. split; [reflexivity |]. destruct (fixed_size_llseek _ _ _ _). reflexivity.
  - apply use_reads; [exact Hi |]. intros Ho. unfold ubootenv_ioctl, bind, get_state. destruct (H8 (or_intror Ho)) as (r & Hr & ->).
    rewrite (range_size r Hr), <- H4. destruct cmd; try (eexists; split; reflexivity). destruct copy; eexists; split; reflexivity.
Qed.

(** C17: The driver implements a file of fixed size: for every sequence of
    binding and unbinding the device, opening the file and writing, reading,
    seeking and asking in it, at any time and also while the device is gone,
    the answers are those of a file that keeps its bytes when the device goes,
    reads as empty and refuses writing with -EIO meanwhile; memory that is not
    there is never accessed.  This is so if the range of the device tree stays
    the same and can be mapped, and the character device can be registered,
    whenever the device is probed. *)
Theorem ubootenv_implements_nvram os mem : Z.of_nat (length mem) = size -> Forall op_fine os ->
  life os (fresh mem) = nv_life os {| nv_bound := false; nv_opened := false; nv_bytes := mem |}.
Proof.
  intros Hl Hf. assert (Hi : implements (fresh mem) {| nv_bound := false; nv_opened := false; nv_bytes := mem |})
    by (split; try reflexivity; [exact Hl | intros [|]; discriminate]).
  revert Hi. generalize (fresh mem) as w. generalize {| nv_bound := false; nv_opened := false; nv_bytes := mem |} as s.
  induction Hf as [| o os Ho Hf IH]; intros s w Hi; [reflexivity |]. cbn [life nv_life].
  destruct (step_implements w s o Hi Ho) as [E Hi']. destruct (step o w) as [w' a], (nv_step o s) as [s' b]. cbn [fst snd] in *.
  subst b. f_equal. apply IH, Hi'.
Qed.
End Refinement.
End Life.

(** ** The kernel's helpers, all bytes copied *)

#[export] Instance kernel_buffer : BufferFile := {|
  simple_write_to_buffer mem pos bytes :=
    let n := Z.of_nat (length mem) in
    if pos <? 0 then (- EINVAL, mem, pos)
    else if (n <=? pos) || (length bytes =? 0)%nat then (0, mem, pos)
    else
      let c := Z.min (Z.of_nat (length bytes)) (n - pos) in
      (c, take (Z.to_nat pos) mem ++ take (Z.to_nat c) bytes ++ drop (Z.to_nat (pos + c)) mem, pos + c);
  simple_read_from_buffer mem pos count :=
    let n := Z.of_nat (length mem) in
    if pos <? 0 then (- EINVAL, [], pos)
    else if (n <=? pos) || (count =? 0) then (0, [], pos)
    else
      let c := Z.min count (n - pos) in
      (c, take (Z.to_nat c) (drop (Z.to_nat pos) mem), pos + c);
  fixed_size_llseek pos off whence size :=
    let p := if whence =? 0 then off else if whence =? 1 then pos + off else size + off in
    if (p <? 0) || (size <? p) then (- EINVAL, pos) else (p, p)
|}.

#[export] Instance kernel_buffer_ok : BufferFileOk.
Proof.
  split. intros mem pos bytes. cbn. destruct (Z.ltb_spec pos 0); [reflexivity |].
  destruct (Z.leb_spec (Z.of_nat (length mem)) pos); [reflexivity |]. destruct (Nat.eqb_spec (length bytes) 0); [reflexivity |].
  cbn. rewrite !length_app, !length_take, length_drop. lia.
Qed.

Definition env_range : option (option reserved_mem) := Some (Some {| rm_base := 0x4300000; rm_size := 4096 |}).

(** The device comes, a file is opened and written, the device goes and comes
    back, and the file is read. *)
Definition env_session : list op := [
  OpProbe env_range (Ok tt) 0; OpOpen; OpWrite [97; 61; 49] 4094; OpWrite [97] 4096; OpRemove; OpRead 4 0; OpWrite [0] 0;
  OpProbe env_range (Ok tt) 0; OpRead 9 4094; OpSeek (-2) 2 0; OpIoctl MEMGETINFO true ].

Lemma ubootenv_implements_nvram_witness :
  life env_session (fresh (replicate 4096 0)) = nv_life env_session {| nv_bound := false; nv_opened := false; nv_bytes := replicate 4096 0 |} /\
  nv_life env_session {| nv_bound := false; nv_opened := false; nv_bytes := replicate 4096 0 |} =
    [Code 0; Code 0; Position 2 4096; Position 0 4096; Nothing; Bytes 0 [] 0; Position (- EIO) 0;
     Code 0; Bytes 2 [97; 61] 4096; Position 4094 4094; Info 0 (Some {| mi_type := MTD_NORFLASH; mi_size := 4096 |})].
Proof.
  split; [| vm_compute; reflexivity].
  apply (ubootenv_implements_nvram env_range 4096).
  - intros r [= <-]. reflexivity.
  - reflexivity.
  - repeat constructor.
Defined.

(** A mapping that fails: the error is taken for memory. *)
Example failed_mapping_faults :
  life [OpProbe env_range (Err (- ENOMEM)) 0; OpOpen; OpRead 1 0] (fresh (replicate 4096 0)) = [Code 0; Code 0; Fault].
Proof. vm_compute. reflexivity. Qed.

(** A registration that fails: the device cannot be bound any more. *)
Example failed_registration_sticks :
  life [OpProbe env_range (Ok tt) (- EBUSY); OpProbe env_range (Ok tt) 0] (fresh (replicate 4096 0)) = [Code (- EBUSY); Code (- EINVAL)].
Proof. vm_compute. reflexivity. Qed.
