(* ===== verification/B53Io.v ===== *)
(** * Access to the registers of a RoboSwitch: [b53_mdio.c], [b53_srab.c], [b53_mmap.c]

    A register is a page and a number in it; registers have 8, 16, 32, 48 or 64
    bits.  The main driver reaches them through [struct b53_io_ops], the class
    [B53Io]; this file has its three implementations. *)

From S2P Require Import Prelude CMonad Mdio.

(** The width of an access; [b53_read W8] is [b53_read8], and so on. *)
Inductive width := W8 | W16 | W32 | W48 | W64.
#[export] Instance width_eq_dec : EqDecision width.
Proof. solve_decision. Defined.

Definition bits (wd : width) : Z := match wd with W8 => 8 | W16 => 16 | W32 => 32 | W48 => 48 | W64 => 64 end.

(** [struct b53_io_ops], called through the wrappers of [b53_priv.h], and the
    field [current_page] of the device, which only the MDIO access uses. *)
Class B53Io (W : Type) := {
  b53_read : width -> Z -> Z -> M W Z;
  b53_write : width -> Z -> Z -> Z -> M W unit;
  io_phy_read16 : option (Z -> Z -> M W Z);
  io_phy_write16 : option (Z -> Z -> Z -> M W unit);
  io_set_current_page : Z -> W -> W
}.
Abbreviation b53_read8 := (b53_read W8).
Abbreviation b53_read16 := (b53_read W16).
Abbreviation b53_read32 := (b53_read W32).
Abbreviation b53_read48 := (b53_read W48).
Abbreviation b53_read64 := (b53_read W64).
Abbreviation b53_write8 := (b53_write W8).
Abbreviation b53_write16 := (b53_write W16).
Abbreviation b53_write32 := (b53_write W32).
Abbreviation b53_write48 := (b53_write W48).
Abbreviation b53_write64 := (b53_write W64).

(** ** MDIO: a pseudo PHY with the page, the register and four data words *)

Definition B53_PSEUDO_PHY : Z := 0x1e.
Definition REG_MII_PAGE : Z := 0x10.
Definition REG_MII_ADDR : Z := 0x11.
Definition REG_MII_DATA0 : Z := 0x18.
Definition REG_MII_DATA1 : Z := 0x19.
Definition REG_MII_DATA2 : Z := 0x1a.
Definition REG_MII_DATA3 : Z := 0x1b.
Definition REG_MII_PAGE_ENABLE : Z := BIT 0.
Definition REG_MII_ADDR_WRITE : Z := BIT 0.
Definition REG_MII_ADDR_READ : Z := BIT 1.

(** The bus, and the fields of the device this access uses. *)
Record b53_mdio (B : Type) := B53Mdio { md_bus : B; md_page : Z (* u8 current_page *) }.
Arguments B53Mdio {B}.
Arguments md_bus {B}.
Arguments md_page {B}.

Section Mdio.
Context {B : Type} {MB : MiiBus B}.
Abbreviation MD := (M (b53_mdio B)).

Definition md_set_page (p : Z) (s : b53_mdio B) : b53_mdio B := B53Mdio (md_bus s) p.

(** [mdiobus_read] and [mdiobus_write] return an [int], negative for an error. *)
Definition mdiobus_read (phy reg : Z) : MD Z := fun s =>
  let (v, b) := mii_read phy reg (md_bus s) in (Ok v, B53Mdio b (md_page s)).
(** [ret = mdiobus_write(...); if (ret) return ret;] *)
Definition mdiobus_write (phy reg val : Z) : MD unit := fun s =>
  let (e, b) := mii_write phy reg (u16 val) (md_bus s) in
  ((if e =? 0 then Ok tt else Err e), B53Mdio b (md_page s)).

Definition b53_mdio_op (page reg op : Z) : MD unit :=
  s <- get_state ;;
  (if negb (md_page s =? page) then
     mdiobus_write B53_PSEUDO_PHY REG_MII_PAGE (u16 (Z.lor (Z.shiftl page 8) REG_MII_PAGE_ENABLE)) ;;
     modify (md_set_page page)
   else ret tt) ;;
  mdiobus_write B53_PSEUDO_PHY REG_MII_ADDR (u16 (Z.lor (Z.shiftl reg 8) op)) ;;
  done <- search 5 (fun _ =>
    v <- mdiobus_read B53_PSEUDO_PHY REG_MII_ADDR ;;
    ret (if cbool (Z.land (u16 v) (Z.lor REG_MII_ADDR_WRITE REG_MII_ADDR_READ)) then None else Some tt)) ;;
  match done with Some _ => ret tt | None => fail EIO end.

Definition b53_mdio_read8 (page reg : Z) : MD Z :=
  b53_mdio_op page reg REG_MII_ADDR_READ ;;
  v <- mdiobus_read B53_PSEUDO_PHY REG_MII_DATA0 ;;
  ret (Z.land v 0xff).

Definition b53_mdio_read16 (page reg : Z) : MD Z :=
  b53_mdio_op page reg REG_MII_ADDR_READ ;;
  v <- mdiobus_read B53_PSEUDO_PHY REG_MII_DATA0 ;;
  ret (u16 v).

Definition b53_mdio_read32 (page reg : Z) : MD Z :=
  b53_mdio_op page reg REG_MII_ADDR_READ ;;
  lo <- mdiobus_read B53_PSEUDO_PHY REG_MII_DATA0 ;;
  hi <- mdiobus_read B53_PSEUDO_PHY REG_MII_DATA1 ;;
  ret (u32 (Z.lor (u32 lo) (Z.shiftl hi 16))).

(** [for (i = n - 1; i >= 0; i--) { temp <<= 16; temp |= mdiobus_read(...); }] *)
Fixpoint md_read_words (n : nat) (temp : Z) : MD Z :=
  match n with
  | O => ret temp
  | S i =>
      v <- mdiobus_read B53_PSEUDO_PHY (REG_MII_DATA0 + Z.of_nat i) ;;
      md_read_words i (u64 (Z.lor (u64 (Z.shiftl temp 16)) v))
  end.

Definition b53_mdio_read48 (page reg : Z) : MD Z :=
  b53_mdio_op page reg REG_MII_ADDR_READ ;; md_read_words 3 0.
Definition b53_mdio_read64 (page reg : Z) : MD Z :=
  b53_mdio_op page reg REG_MII_ADDR_READ ;; md_read_words 4 0.

Definition b53_mdio_write8 (page reg value : Z) : MD unit :=
  mdiobus_write B53_PSEUDO_PHY REG_MII_DATA0 (u8 value) ;;
  b53_mdio_op page reg REG_MII_ADDR_WRITE.
Definition b53_mdio_write16 (page reg value : Z) : MD unit :=
  mdiobus_write B53_PSEUDO_PHY REG_MII_DATA0 (u16 value) ;;
  b53_mdio_op page reg REG_MII_ADDR_WRITE.

(** [for (i = 0; i < n; i++) { write DATA0 + i, temp & 0xffff; temp >>= 16; }] *)
Definition md_write_words (n : nat) (value : Z) : MD unit :=
  loop_acc n 0 value (fun i temp =>
    mdiobus_write B53_PSEUDO_PHY (REG_MII_DATA0 + i) (Z.land temp 0xffff) ;;
    ret (Z.shiftr temp 16)) ;;
  ret tt.

Definition b53_mdio_write32 (page reg value : Z) : MD unit :=
  md_write_words 2 (u32 value) ;; b53_mdio_op page reg REG_MII_ADDR_WRITE.
Definition b53_mdio_write48 (page reg value : Z) : MD unit :=
  md_write_words 3 (u64 value) ;; b53_mdio_op page reg REG_MII_ADDR_WRITE.
Definition b53_mdio_write64 (page reg value : Z) : MD unit :=
  md_write_words 4 (u64 value) ;; b53_mdio_op page reg REG_MII_ADDR_WRITE.

Definition b53_mdio_phy_read16 (addr reg : Z) : MD Z := v <- mdiobus_read addr reg ;; ret (u16 v).
Definition b53_mdio_phy_write16 (addr reg value : Z) : MD unit := mdiobus_write addr reg value.

#[export] Instance b53_mdio_ops : B53Io (b53_mdio B) := {|
  b53_read wd := match wd with
    | W8 => b53_mdio_read8 | W16 => b53_mdio_read16 | W32 => b53_mdio_read32 | W48 => b53_mdio_read48 | W64 => b53_mdio_read64 end;
  b53_write wd := match wd with
    | W8 => b53_mdio_write8 | W16 => b53_mdio_write16 | W32 => b53_mdio_write32 | W48 => b53_mdio_write48 | W64 => b53_mdio_write64 end;
  io_phy_read16 := Some b53_mdio_phy_read16;
  io_phy_write16 := Some b53_mdio_phy_write16;
  io_set_current_page := md_set_page
|}.

(** [b53_phy_fixup.c]: [dev->phy_id] of the PHY at [addr]. *)
Definition B53_BRCM_OUI_1 : Z := 0x0143bc00.
Definition B53_BRCM_OUI_2 : Z := 0x03625c00.
Definition B53_BRCM_OUI_3 : Z := 0x00406300.

Definition b53_phy_fixup (addr phy_id : Z) : M B Z := fun b =>
  if negb (addr =? B53_PSEUDO_PHY) then (Ok phy_id, b) else
  let (hi, b1) := mii_read 0 2 b in
  let (lo, b2) := mii_read 0 3 b1 in
  let id := u32 (Z.lor (u32 (Z.shiftl hi 16)) lo) in
  (Ok (if (Z.land id 0xfffffc00 =? B53_BRCM_OUI_1) || (Z.land id 0xfffffc00 =? B53_BRCM_OUI_2)
          || (Z.land id 0xffffff00 =? B53_BRCM_OUI_3) then id else phy_id), b2).
End Mdio.

(** ** SRAB: a bridge that is shared with the switch's own processor *)

Definition B53_SRAB_CMDSTAT : Z := 0x2c.
Definition B53_SRAB_CMDSTAT_RST : Z := BIT 2.
Definition B53_SRAB_CMDSTAT_WRITE : Z := BIT 1.
Definition B53_SRAB_CMDSTAT_GORDYN : Z := BIT 0.
Definition B53_SRAB_CMDSTAT_PAGE : Z := 24.
Definition B53_SRAB_CMDSTAT_REG : Z := 16.
Definition B53_SRAB_WD_H : Z := 0x30.
Definition B53_SRAB_WD_L : Z := 0x34.
Definition B53_SRAB_RD_H : Z := 0x38.
Definition B53_SRAB_RD_L : Z := 0x3c.
Definition B53_SRAB_CTRLS : Z := 0x40.
Definition B53_SRAB_CTRLS_RCAREQ : Z := BIT 3.
Definition B53_SRAB_CTRLS_RCAGNT : Z := BIT 4.
Definition B53_SRAB_CTRLS_SW_INIT_DONE : Z := BIT 6.
Definition B53_SRAB_INTR : Z := 0x44.

(** [readl] and [writel] at an offset from the base of the bridge. *)
Class Mmio32 (W : Type) := {
  mmio_readl : Z -> W -> Z * W;
  mmio_writel : Z -> Z -> W -> W
}.

Section Srab.
Context {W : Type} {MM : Mmio32 W}.

Definition readl (off : Z) : M W Z := fun w => let (v, w') := mmio_readl off w in (Ok (u32 v), w').
Definition writel (val off : Z) : M W unit := modify (mmio_writel off (u32 val)).

(** [i]: the number of polls before the one that found the grant, 20 if none
    did; the error is returned for [i == 5]. *)
Definition b53_srab_request_grant : M W unit :=
  ctrls <- readl B53_SRAB_CTRLS ;;
  writel (Z.lor ctrls B53_SRAB_CTRLS_RCAREQ) B53_SRAB_CTRLS ;;
  granted <- search 20 (fun i =>
    ctrls <- readl B53_SRAB_CTRLS ;;
    ret (if cbool (Z.land ctrls B53_SRAB_CTRLS_RCAGNT) then Some i else None)) ;;
  let i := match granted with Some i => i | None => 20 end in
  if i =? 5 then fail EIO else ret tt.

Definition b53_srab_release_grant : M W unit :=
  ctrls <- readl B53_SRAB_CTRLS ;;
  writel (Z.ldiff ctrls B53_SRAB_CTRLS_RCAREQ) B53_SRAB_CTRLS.

Definition b53_srab_op (page reg op : Z) : M W unit :=
  writel (Z.lor (Z.lor (Z.lor (Z.shiftl page B53_SRAB_CMDSTAT_PAGE) (Z.shiftl reg B53_SRAB_CMDSTAT_REG))
                       B53_SRAB_CMDSTAT_GORDYN) op) B53_SRAB_CMDSTAT ;;
  done <- search 5 (fun _ =>
    cmdstat <- readl B53_SRAB_CMDSTAT ;;
    ret (if cbool (Z.land cmdstat B53_SRAB_CMDSTAT_GORDYN) then None else Some tt)) ;;
  match done with Some _ => ret tt | None => fail EIO end.

(** [err: b53_srab_release_grant(dev); return ret;] *)
Definition releasing {A} (m : M W A) : M W A := fun w =>
  let (r, w') := m w in
  match b53_srab_release_grant w' with (_, w'') => (r, w'') end.

Definition b53_srab_read8 (page reg : Z) : M W Z := releasing (
  b53_srab_request_grant ;;
  b53_srab_op page reg 0 ;;
  v <- readl B53_SRAB_RD_L ;;
  ret (Z.land v 0xff)).

Definition b53_srab_read16 (page reg : Z) : M W Z := releasing (
  b53_srab_request_grant ;;
  b53_srab_op page reg 0 ;;
  v <- readl B53_SRAB_RD_L ;;
  ret (Z.land v 0xffff)).

Definition b53_srab_read32 (page reg : Z) : M W Z := releasing (
  b53_srab_request_grant ;;
  b53_srab_op page reg 0 ;;
  readl B53_SRAB_RD_L).

Definition b53_srab_read48 (page reg : Z) : M W Z := releasing (
  b53_srab_request_grant ;;
  b53_srab_op page reg 0 ;;
  lo <- readl B53_SRAB_RD_L ;;
  hi <- readl B53_SRAB_RD_H ;;
  ret (u64 (lo + Z.shiftl (Z.land hi 0xffff) 32))).

Definition b53_srab_read64 (page reg : Z) : M W Z := releasing (
  b53_srab_request_grant ;;
  b53_srab_op page reg 0 ;;
  lo <- readl B53_SRAB_RD_L ;;
  hi <- readl B53_SRAB_RD_H ;;
  ret (u64 (lo + Z.shiftl hi 32))).

Definition b53_srab_write8 (page reg value : Z) : M W unit := releasing (
  b53_srab_request_grant ;;
  writel (u8 value) B53_SRAB_WD_L ;;
  b53_srab_op page reg B53_SRAB_CMDSTAT_WRITE).

Definition b53_srab_write16 (page reg value : Z) : M W unit := releasing (
  b53_srab_request_grant ;;
  writel (u16 value) B53_SRAB_WD_L ;;
  b53_srab_op page reg B53_SRAB_CMDSTAT_WRITE).

Definition b53_srab_write32 (page reg value : Z) : M W unit := releasing (
  b53_srab_request_grant ;;
  writel (u32 value) B53_SRAB_WD_L ;;
  b53_srab_op page reg B53_SRAB_CMDSTAT_WRITE).

Definition b53_srab_write48 (page reg value : Z) : M W unit := releasing (
  b53_srab_request_grant ;;
  writel (u32 value) B53_SRAB_WD_L ;;
  writel (u16 (Z.shiftr (u64 value) 32)) B53_SRAB_WD_H ;;
  b53_srab_op page reg B53_SRAB_CMDSTAT_WRITE).

Definition b53_srab_write64 (page reg value : Z) : M W unit := releasing (
  b53_srab_request_grant ;;
  writel (u32 value) B53_SRAB_WD_L ;;
  writel (u32 (Z.shiftr (u64 value) 32)) B53_SRAB_WD_H ;;
  b53_srab_op page reg B53_SRAB_CMDSTAT_WRITE).

Definition b53_srab_ops : B53Io W := {|
  b53_read wd := match wd with
    | W8 => b53_srab_read8 | W16 => b53_srab_read16 | W32 => b53_srab_read32 | W48 => b53_srab_read48 | W64 => b53_srab_read64 end;
  b53_write wd := match wd with
    | W8 => b53_srab_write8 | W16 => b53_srab_write16 | W32 => b53_srab_write32 | W48 => b53_srab_write48 | W64 => b53_srab_write64 end;
  io_phy_read16 := None;
  io_phy_write16 := None;
  io_set_current_page _ w := w
|}.
End Srab.

(** ** Memory-mapped registers, in either byte order *)

(** The accessors of the kernel at an offset from the base: [mm_get n big off]
    is [readb], [readw], [readl] for [n = 1, 2, 4], and [readw_be], [readl_be]
    with [big]. *)
Class MmioAny (W : Type) := {
  mm_get : Z -> bool -> Z -> W -> Z * W;
  mm_set : Z -> bool -> Z -> Z -> W -> W
}.

Section Mmap.
Context {W : Type} {MM : MmioAny W}.
(** [dev->pdata && dev->pdata->big_endian]. *)
Variable big_endian : bool.

Definition mm_read (n : Z) (big : bool) (off : Z) : M W Z := fun w => let (v, w') := mm_get n big off w in (Ok v, w').
Definition mm_write (n : Z) (big : bool) (val off : Z) : M W unit := modify (mm_set n big off val).

(** [regs + (page << 8) + reg] *)
Definition mm_addr (page reg : Z) : Z := Z.shiftl page 8 + reg.

Definition b53_mmap_read8 (page reg : Z) : M W Z := mm_read 1 false (mm_addr page reg).

Definition b53_mmap_read16 (page reg : Z) : M W Z :=
  if cbool (reg mod 2) then fail EINVAL else
  if big_endian then mm_read 2 true (mm_addr page reg) else mm_read 2 false (mm_addr page reg).

Definition b53_mmap_read32 (page reg : Z) : M W Z :=
  if cbool (reg mod 4) then fail EINVAL else
  if big_endian then mm_read 4 true (mm_addr page reg) else mm_read 4 false (mm_addr page reg).

(** The inner accesses are not checked; [junk] is what the variable holds. *)
Definition b53_mmap_read48 (junk page reg : Z) : M W Z :=
  if cbool (reg mod 2) then fail EINVAL else
  if cbool (reg mod 4) then
    lo <- unchecked junk (b53_mmap_read16 page reg) ;;
    hi <- unchecked junk (b53_mmap_read32 page (u8 (reg + 2))) ;;
    ret (Z.lor (u64 (Z.shiftl hi 16)) lo)
  else
    lo <- unchecked junk (b53_mmap_read32 page reg) ;;
    hi <- unchecked junk (b53_mmap_read16 page (u8 (reg + 4))) ;;
    ret (Z.lor (u64 (Z.shiftl hi 32)) lo).

Definition b53_mmap_read64 (junk page reg : Z) : M W Z :=
  if cbool (reg mod 4) then fail EINVAL else
  lo <- unchecked junk (b53_mmap_read32 page reg) ;;
  hi <- unchecked junk (b53_mmap_read32 page (u8 (reg + 4))) ;;
  ret (Z.lor (u64 (Z.shiftl hi 32)) lo).

Definition b53_mmap_write8 (page reg value : Z) : M W unit := mm_write 1 false (u8 value) (mm_addr page reg).

Definition b53_mmap_write16 (page reg value : Z) : M W unit :=
  if cbool (reg mod 2) then fail EINVAL else
  if big_endian then mm_write 2 true (u16 value) (mm_addr page reg) else mm_write 2 false (u16 value) (mm_addr page reg).

Definition b53_mmap_write32 (page reg value : Z) : M W unit :=
  if cbool (reg mod 4) then fail EINVAL else
  if big_endian then mm_write 4 true (u32 value) (mm_addr page reg) else mm_write 4 false (u32 value) (mm_addr page reg).

Definition b53_mmap_write48 (page reg value : Z) : M W unit :=
  let value := u64 value in
  if cbool (reg mod 2) then fail EINVAL else
  if cbool (reg mod 4) then
    let hi := u32 (Z.shiftr value 16) in
    let lo := u16 value in
    unchecked tt (b53_mmap_write16 page reg lo) ;;
    unchecked tt (b53_mmap_write32 page (u8 (reg + 2)) hi)
  else
    let hi := u16 (Z.shiftr value 32) in
    let lo := u32 value in
    unchecked tt (b53_mmap_write32 page reg lo) ;;
    unchecked tt (b53_mmap_write16 page (u8 (reg + 4)) hi).

Definition b53_mmap_write64 (page reg value : Z) : M W unit :=
  let value := u64 value in
  let hi := u32 (Z.shiftr value 32) in
  let lo := u32 value in
  if cbool (reg mod 4) then fail EINVAL else
  unchecked tt (b53_mmap_write32 page reg lo) ;;
  unchecked tt (b53_mmap_write32 page (u8 (reg + 4)) hi).

Definition b53_mmap_ops (junk : Z) : B53Io W := {|
  b53_read wd := match wd with
    | W8 => b53_mmap_read8 | W16 => b53_mmap_read16 | W32 => b53_mmap_read32
    | W48 => b53_mmap_read48 junk | W64 => b53_mmap_read64 junk end;
  b53_write wd := match wd with
    | W8 => b53_mmap_write8 | W16 => b53_mmap_write16 | W32 => b53_mmap_write32 | W48 => b53_mmap_write48 | W64 => b53_mmap_write64 end;
  io_phy_read16 := None;
  io_phy_write16 := None;
  io_set_current_page _ w := w
|}.
End Mmap.
