(* ===== verification/B53IoProps.v ===== *)
(** * The three ways to the registers of a RoboSwitch

    What is relied on of the switch behind each of them, and that an access of
    the driver is an access to the register: [B53IoOk] is what they promise to
    the main driver. *)

From S2P Require Import Prelude CMonad Mdio B53Io.

(** The switch as its own registers see it: a register has one width, and
    reading one may change the state, too. *)
Class RoboCore (C : Type) := {
  core_width : Z -> Z -> width;
  core_read : Z -> Z -> C -> Z * C;
  core_write : Z -> Z -> Z -> C -> C;
  core_read_range p r c : 0 <= fst (core_read p r c) < 2 ^ bits (core_width p r)
}.

Definition byte (x : Z) : Prop := 0 <= x < 256.
(** A page the driver uses: [0xff] means that none is known to be selected. *)
Definition a_page (p : Z) : Prop := 0 <= p < 255.

(** What an access promises: it is the access of the switch. *)
Class B53IoOk (W C : Type) {IO : B53Io W} {K : RoboCore C} := {
  io_rel : W -> C -> Prop;
  io_read_ok w c p r Q : io_rel w c -> a_page p -> byte r ->
    (forall w', io_rel w' (snd (core_read p r c)) -> Q (fst (core_read p r c)) w') ->
    wp (b53_read (core_width p r) p r) Q never w;
  io_write_ok w c p r v Q : io_rel w c -> a_page p -> byte r -> 0 <= v < 2 ^ bits (core_width p r) ->
    (forall w', io_rel w' (core_write p r v c) -> Q tt w') ->
    wp (b53_write (core_width p r) p r v) Q never w;
  io_forget_page w c : io_rel w c -> io_rel (io_set_current_page 0xff w) c
}.

(** ** Words *)

(** The value of four words of 16 bits. *)
Definition of_words (f : Z -> Z) : Z := f 0 + 2 ^ 16 * (f 1 + 2 ^ 16 * (f 2 + 2 ^ 16 * f 3)).

(** ** Sequences of accesses, some of which may fail *)

Inductive access :=
| Read (p r : Z)
| Write (p r v : Z).

Definition access_ok {C} {K : RoboCore C} (q : access) : Prop :=
  match q with
  | Read p r => a_page p /\ byte r
  | Write p r v => a_page p /\ byte r /\ 0 <= v < 2 ^ bits (core_width p r)
  end.

(** The driver's access, its error as a value. *)
Definition io_do {W C} {IO : B53Io W} {K : RoboCore C} (q : access) : M W (res Z) :=
  match q with
  | Read p r => catch (b53_read (core_width p r) p r)
  | Write p r v => catch (b53_write (core_width p r) p r v ;; ret 0)
  end.

(** The access on the registers. *)
Definition core_do {C} {K : RoboCore C} (q : access) (c : C) : Z * C :=
  match q with
  | Read p r => core_read p r c
  | Write p r v => (0, core_write p r v c)
  end.

(** What it may be there: one that succeeds is done, one that fails is done or
    not.  If something was [lost] on the way a read may have succeeded with a
    value that is not the register's. *)
Inductive core_step {C} {K : RoboCore C} (lost : Prop) (q : access) (c : C) : res Z -> C -> Prop :=
| step_done : core_step lost q c (Ok (fst (core_do q c))) (snd (core_do q c))
| step_misread v : lost -> (exists p r, q = Read p r) -> core_step lost q c (Ok v) (snd (core_do q c))
| step_not_done e : core_step lost q c (Err e) c
| step_done_unknown e : core_step lost q c (Err e) (snd (core_do q c)).

(** A run of accesses, each a step of the registers; [lost w w'] says what
    happened to the access that led from [w] to [w']. *)
Inductive core_steps {W C} {IO : B53Io W} {K : RoboCore C} (lost : W -> W -> Prop) : list access -> W -> C -> list (res Z) -> W -> C -> Prop :=
| steps_nil w c : core_steps lost [] w c [] w c
| steps_cons q qs w c r w1 c1 l w2 c2 : io_do q w = (Ok r, w1) -> core_step (lost w w1) q c r c1 ->
    core_steps lost qs w1 c1 l w2 c2 -> core_steps lost (q :: qs) w c (r :: l) w2 c2.

Definition is_ok {A} (r : res A) : Prop := match r with Ok _ => True | Err _ => False end.

(** Accesses that are steps of the registers, one by one. *)
Section Accesses.
Context {W C : Type} {IO : B53Io W} {K : RoboCore C} (lost : W -> W -> Prop) (related : W -> C -> Prop) (good : Prop).

Definition implements_access (q : access) : Prop := forall w c, related w c ->
  wp (io_do q) (fun r w' => exists c', core_step (lost w w') q c r c' /\ related w' c' /\ (good -> is_ok r)) never w.

(** From the two kinds of accesses with their error cases. *)
Definition failed (q : access) (c : C) (w' : W) : Prop := ~ good /\ (related w' c \/ related w' (snd (core_do q c))).

Lemma implements_of_wp q :
  match q with
  | Read p r => forall w c, related w c ->
      wp (b53_read (core_width p r) p r) (fun v w' => (v = fst (core_read p r c) \/ lost w w') /\ related w' (snd (core_read p r c)))
         (fun _ => failed q c) w
  | Write p r v => forall w c, related w c ->
      wp (b53_write (core_width p r) p r v) (fun _ w' => related w' (core_write p r v c)) (fun _ => failed q c) w
  end -> implements_access q.
Proof.
  intros H w c Hw. destruct q as [p r | p r v]; cbn [io_do]; specialize (H w c Hw); clear Hw; apply wp_catch.
  - eapply wp_mono; [exact H | |].
    + intros v w' [[-> | Hl] Hw]; (eexists; split; [| split; [exact Hw | exact (fun _ => I)]]);
        [apply (step_done _ (Read p r)) | apply (step_misread _ (Read p r)); eauto].
    + intros e w' [Hg [Hw | Hw]]; (eexists; split; [| split; [exact Hw | intros; contradiction]]); [apply step_not_done | apply step_done_unknown].
  - apply wp_bind. eapply wp_mono; [exact H | |].
    + intros [] w' Hw. apply wp_ret. eexists. split; [apply (step_done _ (Write p r v)) | split; [exact Hw | exact (fun _ => I)]].
    + intros e w' [Hg [Hw | Hw]]; (eexists; split; [| split; [exact Hw | intros; contradiction]]); [apply step_not_done | apply step_done_unknown].
Qed.

Lemma run_accesses qs w c : (forall q, access_ok q -> implements_access q) -> Forall access_ok qs -> related w c ->
  exists answers w' c', run_all io_do qs w = (Ok answers, w') /\ core_steps lost qs w c answers w' c' /\ related w' c' /\
    (good -> Forall is_ok answers).
Proof.
  intros H Hqs. revert w c. induction Hqs as [| q qs Hq _ IH]; intros w c Hr; cbn [run_all].
  - eexists [], w, c. split; [reflexivity |]. split; [constructor |]. auto.
  - destruct (wp_never _ _ _ (H q Hq w c Hr)) as (r & w1 & E & c1 & Hs & Hr1 & Hg).
    destruct (IH w1 c1 Hr1) as (l & w2 & c2 & E2 & Hs2 & Hr2 & Hg2).
    exists (r :: l), w2, c2. rewrite (bind_ok _ _ _ _ _ E), (bind_ok _ _ _ _ _ E2). split; [reflexivity |].
    split; [econstructor; eassumption |]. split; [exact Hr2 |]. intros Hgood. constructor; auto.
Qed.
End Accesses.

(** ** The pseudo PHY *)

(** [rp_page]: the page selected, if any; [rp_data]: the data words;
    [rp_busy]: for how many more reads the access is under way; [rp_failed]:
    how many reads the bus has failed, with a negative number for a value;
    [rp_good]: the bus never fails and an access is over by the fifth read.
    Until it is over the data words are not there to be read. *)
Class RoboPhy (B C : Type) {MB : MiiBus B} {K : RoboCore C} := {
  rp_good : Prop;
  rp_ok : B -> Prop;
  rp_page : B -> option Z;
  rp_data : B -> Z -> Z;
  rp_busy : B -> nat;
  rp_failed : B -> nat;
  rp_core : B -> C;
  rp_select b p : rp_ok b -> byte p ->
    let (e, b') := mii_write B53_PSEUDO_PHY REG_MII_PAGE (p * 256 + 1) b in
    rp_ok b' /\ rp_core b' = rp_core b /\ (forall i, rp_data b' i = rp_data b i) /\ rp_failed b' = rp_failed b /\
    (e = 0 /\ rp_page b' = Some p \/ e <> 0 /\ ~ rp_good /\ rp_page b' = rp_page b);
  rp_put b i v : rp_ok b -> 0 <= i < 4 -> 0 <= v < 65536 ->
    let (e, b') := mii_write B53_PSEUDO_PHY (REG_MII_DATA0 + i) v b in
    rp_ok b' /\ rp_core b' = rp_core b /\ rp_page b' = rp_page b /\ rp_failed b' = rp_failed b /\
    (e = 0 /\ (forall j, rp_data b' j = if j =? i then v else rp_data b j) \/ e <> 0 /\ ~ rp_good);
  (** Writing the number of a register starts the access. *)
  rp_start_write b p r : rp_ok b -> rp_page b = Some p -> byte r ->
    let (e, b') := mii_write B53_PSEUDO_PHY REG_MII_ADDR (r * 256 + 1) b in
    rp_ok b' /\ rp_page b' = rp_page b /\ rp_failed b' = rp_failed b /\
    (e = 0 /\ (rp_good -> (rp_busy b' < 5)%nat) /\
       rp_core b' = core_write p r (uwrap (bits (core_width p r)) (of_words (rp_data b))) (rp_core b) \/
     e <> 0 /\ ~ rp_good /\ rp_core b' = rp_core b);
  rp_start_read b p r : rp_ok b -> rp_page b = Some p -> byte r ->
    let (e, b') := mii_write B53_PSEUDO_PHY REG_MII_ADDR (r * 256 + 2) b in
    rp_ok b' /\ rp_page b' = rp_page b /\ rp_failed b' = rp_failed b /\
    (e = 0 /\ (rp_good -> (rp_busy b' < 5)%nat) /\ rp_core b' = snd (core_read p r (rp_core b)) /\
       uwrap (bits (core_width p r)) (of_words (rp_data b')) = fst (core_read p r (rp_core b)) \/
     e <> 0 /\ ~ rp_good /\ rp_core b' = rp_core b);
  rp_poll b : rp_ok b ->
    let (v, b') := mii_read B53_PSEUDO_PHY REG_MII_ADDR b in
    rp_ok b' /\ rp_page b' = rp_page b /\ rp_core b' = rp_core b /\ (forall i, rp_data b' i = rp_data b i) /\
    (rp_failed b' = rp_failed b /\ (cbool (Z.land (u16 v) 3) = true <-> rp_busy b <> O) /\ rp_busy b' = Nat.pred (rp_busy b) \/
     rp_failed b' = S (rp_failed b) /\ v < 0 /\ ~ rp_good);
  rp_get b i : rp_ok b -> 0 <= i < 4 ->
    let (v, b') := mii_read B53_PSEUDO_PHY (REG_MII_DATA0 + i) b in
    rp_ok b' /\ rp_page b' = rp_page b /\ rp_core b' = rp_core b /\ (forall j, rp_data b' j = rp_data b j) /\
    (rp_failed b' = rp_failed b /\ rp_busy b' = rp_busy b /\ (rp_busy b = O -> v = rp_data b i) \/
     rp_failed b' = S (rp_failed b) /\ v < 0 /\ ~ rp_good);
  rp_data_range b i : rp_ok b -> 0 <= i < 4 -> 0 <= rp_data b i < 65536
}.

Section MdioProps.
Context {B C : Type} {MB : MiiBus B} {K : RoboCore C} {HW : RoboPhy B C}.

Implicit Types (s : b53_mdio B) (c : C) (f : Z -> Z).

(** A page the driver remembers is selected. *)
Definition remembers s : Prop := md_page s <> 0xff -> rp_page (md_bus s) = Some (md_page s).

Definition md_related s c : Prop := rp_ok (md_bus s) /\ remembers s /\ rp_core (md_bus s) = c.

(** The bus failed a read between two states. *)
Definition lost_read s s' : Prop := ~ rp_good /\ (rp_failed (md_bus s) < rp_failed (md_bus s'))%nat.

Section Access.
(** How many reads had failed when the access began. *)
Variable n0 : nat.

(** With the data words at hand; [clean]: no read has failed since. *)
Definition clean s : Prop := rp_failed (md_bus s) = n0.
Definition md_at s c f : Prop := md_related s c /\ (forall i, 0 <= i < 4 -> rp_data (md_bus s) i = f i) /\
  (clean s \/ (n0 < rp_failed (md_bus s))%nat /\ ~ rp_good).
(** The switch has answered. *)
Definition ready s : Prop := clean s -> rp_busy (md_bus s) = O.

Lemma u16_command x op : byte x -> 0 <= op < 4 -> u16 (Z.lor (Z.shiftl x 8) op) = x * 256 + op.
Proof.
  intros Hx Ho. rewrite Z.lor_comm, lor_shiftl_add by lia. rewrite u16_small by (unfold byte in Hx; lia). lia.
Qed.

Lemma wp_mdiobus_write phy r v (Q : unit -> b53_mdio B -> Prop) E s : 0 <= v < 65536 ->
  (let (e, b') := mii_write phy r v (md_bus s) in
   if e =? 0 then Q tt (B53Mdio b' (md_page s)) else E e (B53Mdio b' (md_page s))) ->
  wp (mdiobus_write phy r v) Q E s.
Proof.
  intros Hv. unfold wp, mdiobus_write. rewrite u16_small by exact Hv. destruct (mii_write _ _ _ _) as [e b'].
  destruct (e =? 0); auto.
Qed.

(** Selecting the page, if it is not. *)
Lemma wp_b53_select s c f p (Q : unit -> b53_mdio B -> Prop) E : md_at s c f -> a_page p ->
  (forall s', md_at s' c f -> md_page s' = p -> Q tt s') ->
  (forall e s', ~ rp_good -> md_related s' c -> E e s') ->
  wp (if negb (md_page s =? p) then
        mdiobus_write B53_PSEUDO_PHY REG_MII_PAGE (u16 (Z.lor (Z.shiftl p 8) REG_MII_PAGE_ENABLE)) ;;
        modify (md_set_page p)
      else ret tt) Q E s.
Proof.
  intros [(Ho & Hm & Hc) [Hd Hf]] Hp HQ HE. unfold a_page in Hp. destruct (Z.eqb_spec (md_page s) p) as [He | Hne]; cbn [negb].
  - apply wp_ret, HQ; [| exact He]. split; [split; auto | split; [exact Hd | exact Hf]].
  - change REG_MII_PAGE_ENABLE with 1. rewrite u16_command by (unfold byte; lia). apply wp_bind, wp_mdiobus_write; [lia |].
    pose proof (rp_select (md_bus s) p Ho ltac:(unfold byte; lia)) as H. destruct (mii_write _ _ _ _) as [e b].
    destruct H as (H1 & H2 & H3 & Hn0 & [[-> H4] | (Hn & Hg & H4)]).
    + apply wp_modify, HQ; [| reflexivity]. split; [split; [exact H1 | split; [intros _; exact H4 | cbn [md_bus md_set_page]; congruence]] |].
      split; [intros i Hi; cbn [md_bus md_set_page]; rewrite H3; apply Hd, Hi |]. unfold clean. cbn [md_bus md_set_page]. rewrite Hn0. exact Hf.
    + apply Z.eqb_neq in Hn. rewrite Hn. apply HE; [exact Hg |]. repeat split; cbn [md_bus md_page]; [exact H1 | | congruence].
      unfold remembers in *. cbn [md_bus md_page]. rewrite H4. exact Hm.
Qed.

(** A read that leaves the switch as it is. *)
Lemma md_at_read s c f b : md_at s c f -> rp_ok b -> rp_page b = rp_page (md_bus s) -> rp_core b = rp_core (md_bus s) ->
  (forall i, rp_data b i = rp_data (md_bus s) i) ->
  rp_failed b = rp_failed (md_bus s) \/ rp_failed b = S (rp_failed (md_bus s)) /\ ~ rp_good -> md_at (B53Mdio b (md_page s)) c f.
Proof.
  intros [(Ho & Hm & Hc) [Hd Hf]] H1 H2 H3 H4 H5. split; [split; [exact H1 | split; [| cbn [md_bus]; congruence]] |].
  { unfold remembers in *. cbn [md_bus md_page]. rewrite H2. exact Hm. }
  split; [intros j Hj; cbn [md_bus]; rewrite H4; apply Hd, Hj |]. unfold clean in *. cbn [md_bus].
  destruct H5 as [-> | [-> Hg]]; [exact Hf |]. right. split; [| exact Hg]. destruct Hf as [Hf | [Hf _]]; lia.
Qed.

Lemma clean_before s c f (k : nat) : md_at s c f -> (rp_failed (md_bus s) <= k)%nat -> k = n0 -> clean s.
Proof. intros [_ [_ [H | [H _]]]] Hk ->; [exact H | lia]. Qed.

(** Waiting for the end of the access. *)
Lemma wp_wait s c f n i (Q : option unit -> b53_mdio B -> Prop) E : md_at s c f ->
  (forall r s', md_at s' c f -> (r = Some tt -> ready s') -> (r = None -> clean s' -> clean s /\ (n <= rp_busy (md_bus s))%nat) -> Q r s') ->
  wp (loop_until n i (fun _ =>
    v <- mdiobus_read B53_PSEUDO_PHY REG_MII_ADDR ;;
    ret (if cbool (Z.land (u16 v) (Z.lor REG_MII_ADDR_WRITE REG_MII_ADDR_READ)) then None else Some tt))) Q E s.
Proof.
  revert i s. induction n as [| n IH]; intros i s H HQ; cbn [loop_until].
  - apply wp_ret, HQ; [exact H | discriminate | intros _ Hc; split; [exact Hc | lia]].
  - pose proof H as [(Ho & _) _]. apply wp_bind, wp_bind. unfold wp at 1, mdiobus_read. pose proof (rp_poll (md_bus s) Ho) as Hp.
    change (Z.lor REG_MII_ADDR_WRITE REG_MII_ADDR_READ) with 3.
    destruct (mii_read _ _ _) as [v b]. destruct Hp as (H1 & H2 & H3 & H4 & H5).
    assert (H' : md_at (B53Mdio b (md_page s)) c f) by (apply md_at_read; try assumption; tauto).
    apply wp_ret. destruct (cbool (Z.land (u16 v) 3)).
    + apply IH; [exact H' |]. intros r s' Hs Hr Hn. apply HQ; [exact Hs | exact Hr |]. intros Er Hc. destruct (Hn Er Hc) as [Hc1 Hn1].
      unfold clean in *. cbn [md_bus] in *. destruct H5 as [(F & P & F') | (F & _)].
      * split; [congruence |]. pose proof (proj1 P eq_refl). lia.
      * pose proof (clean_before s c f (rp_failed (md_bus s)) H). destruct H as [_ [_ [E1 | [E1 _]]]]; unfold clean in *; lia.
    + apply wp_ret, HQ; [exact H' | | discriminate]. intros _ Hc. unfold clean in Hc. cbn [md_bus] in *.
      destruct H5 as [(F & P & F') | (F & _)].
      * rewrite F'. destruct (rp_busy (md_bus s)) as [| k]; [reflexivity |]. discriminate (proj2 P ltac:(discriminate)).
      * destruct H as [_ [_ [E1 | [E1 _]]]]; unfold clean in *; lia.
Qed.

(** The access itself: what starts it, and the wait. *)
Lemma wp_op s c f p r op c2 (P : (Z -> Z) -> Prop) (Q : unit -> b53_mdio B -> Prop) E : md_at s c f -> a_page p -> byte r ->
  0 <= op < 4 ->
  (forall s, md_at s c f -> md_page s = p ->
     let (e, b') := mii_write B53_PSEUDO_PHY REG_MII_ADDR (r * 256 + op) (md_bus s) in
     rp_failed b' = rp_failed (md_bus s) /\
     (e = 0 /\ md_related (B53Mdio b' p) c2 /\ P (rp_data b') /\ (rp_good -> (rp_busy b' < 5)%nat) \/
      e <> 0 /\ ~ rp_good /\ md_related (B53Mdio b' p) c)) ->
  (forall s' f2, md_at s' c2 f2 -> ready s' -> P f2 -> Q tt s') ->
  (forall e s', ~ rp_good -> md_related s' c \/ md_related s' c2 -> E e s') ->
  wp (b53_mdio_op p r op) Q E s.
Proof.
  intros H Hp Hr Hop Hstart HQ HE. unfold b53_mdio_op. apply wp_bind, wp_get_state, wp_bind.
  apply (wp_b53_select s c f); [exact H | exact Hp | |]; [| intros e s' Hg Hs; apply HE; auto].
  intros s1 H1 Hp1. rewrite u16_command by assumption. apply wp_bind, wp_mdiobus_write; [unfold byte in Hr; lia |].
  specialize (Hstart s1 H1 Hp1). rewrite Hp1. destruct (mii_write _ _ _ _) as [e b]. destruct Hstart as [Hn0 Hstart].
  destruct Hstart as [(-> & H2 & HP & Hb) | (Hn & Hg & H2)].
  - apply wp_bind. eapply (wp_wait _ c2 (rp_data b)).
    { split; [exact H2 |]. split; [reflexivity |]. unfold clean. cbn [md_bus]. rewrite Hn0. apply H1. }
    cbn [md_bus]. intros [[] |] s3 H3 Hy Hn; [apply wp_ret; eapply HQ; [exact H3 | apply Hy; reflexivity | exact HP] |].
    apply wp_fail, HE; [| right; apply H3]. intros Hg. specialize (Hb Hg). destruct (proj2 (proj2 H3)) as [Hc | [_ Hc]]; [| contradiction].
    destruct (Hn eq_refl Hc) as [_ Hn5]. lia.
  - apply Z.eqb_neq in Hn. rewrite Hn. apply HE; auto.
Qed.

Definition stored c p r f : C := core_write p r (uwrap (bits (core_width p r)) (of_words f)) c.

Lemma of_words_ext f g : (forall i, 0 <= i < 4 -> f i = g i) -> of_words f = of_words g.
Proof. intros H. unfold of_words. rewrite !H by lia. reflexivity. Qed.

Lemma wp_op_write s c f p r (Q : unit -> b53_mdio B -> Prop) E : md_at s c f -> a_page p -> byte r ->
  (forall s', md_related s' (stored c p r f) -> Q tt s') ->
  (forall e s', ~ rp_good -> md_related s' c \/ md_related s' (stored c p r f) -> E e s') ->
  wp (b53_mdio_op p r REG_MII_ADDR_WRITE) Q E s.
Proof.
  intros H Hp Hr HQ HE. eapply (wp_op s c f p r _ (stored c p r f) (fun _ => True)); try eassumption; [split; reflexivity || discriminate | |].
  2: { intros s' f2 [H2 _] _ _. apply HQ, H2. }
  intros s1 [(Ho & Hm & Hc) [Hd _]] Hp1. unfold a_page in Hp. pose proof (rp_start_write (md_bus s1) p r Ho ltac:(rewrite <- Hp1; apply Hm; lia) Hr) as Hs.
  change REG_MII_ADDR_WRITE with 1. destruct (mii_write _ _ _ _) as [e b]. destruct Hs as (H1 & H2 & H0 & Hs). split; [exact H0 |].
  assert (Hrem : remembers (B53Mdio b p)) by (intros _; cbn [md_bus md_page]; rewrite H2, <- Hp1; apply Hm; lia).
  destruct Hs as [(-> & H3 & H4) | (Hn & Hg & H4)]; [left | right].
  - split; [reflexivity |]. split; [| auto]. split; [exact H1 |]. split; [exact Hrem |]. cbn [md_bus]. unfold stored.
    rewrite H4, Hc, (of_words_ext _ f Hd). reflexivity.
  - split; [exact Hn |]. split; [exact Hg |]. split; [exact H1 |]. split; [exact Hrem | cbn [md_bus]; congruence].
Qed.

Lemma wp_op_read s c f p r (Q : unit -> b53_mdio B -> Prop) E : md_at s c f -> a_page p -> byte r ->
  (forall s' f, md_at s' (snd (core_read p r c)) f -> ready s' -> uwrap (bits (core_width p r)) (of_words f) = fst (core_read p r c) -> Q tt s') ->
  (forall e s', ~ rp_good -> md_related s' c \/ md_related s' (snd (core_read p r c)) -> E e s') ->
  wp (b53_mdio_op p r REG_MII_ADDR_READ) Q E s.
Proof.
  intros H Hp Hr HQ HE.
  eapply (wp_op s c f p r _ (snd (core_read p r c)) (fun f => uwrap (bits (core_width p r)) (of_words f) = fst (core_read p r c))); try eassumption;
    [split; reflexivity || discriminate |].
  intros s1 [(Ho & Hm & Hc) _] Hp1. unfold a_page in Hp. pose proof (rp_start_read (md_bus s1) p r Ho ltac:(rewrite <- Hp1; apply Hm; lia) Hr) as Hs.
  change REG_MII_ADDR_READ with 2. destruct (mii_write _ _ _ _) as [e b]. destruct Hs as (H1 & H2 & H0 & Hs). split; [exact H0 |].
  assert (Hrem : remembers (B53Mdio b p)) by (intros _; cbn [md_bus md_page]; rewrite H2, <- Hp1; apply Hm; lia).
  rewrite Hc in Hs. destruct Hs as [(-> & H3 & H4 & H5) | (Hn & Hg & H4)]; [left | right].
  - split; [reflexivity |]. split; [| auto]. split; [exact H1 |]. split; [exact Hrem | exact H4].
  - split; [exact Hn |]. split; [exact Hg |]. split; [exact H1 |]. split; [exact Hrem | exact H4].
Qed.

(** A data word, or what a failed read gives for one. *)
Lemma wp_get_word s c f i (Q : Z -> b53_mdio B -> Prop) E : md_at s c f -> ready s -> 0 <= i < 4 ->
  (forall v s', md_at s' c f -> ready s' -> (clean s' -> clean s /\ v = f i /\ 0 <= f i < 65536) -> Q v s') ->
  wp (mdiobus_read B53_PSEUDO_PHY (REG_MII_DATA0 + i)) Q E s.
Proof.
  intros H Hy Hi HQ. pose proof H as [(Ho & _) [Hd Hf]]. unfold wp, mdiobus_read. pose proof (rp_get (md_bus s) i Ho Hi) as Hg.
  pose proof (rp_data_range (md_bus s) i Ho Hi) as Hv. destruct (mii_read _ _ _) as [v b]. destruct Hg as (H1 & H2 & H3 & H4 & H5).
  apply HQ; [apply md_at_read; try assumption; tauto | |]; unfold ready, clean in *; cbn [md_bus] in *.
  - intros Hc. destruct H5 as [(F & F' & _) | (F & _)]; [rewrite F'; apply Hy; congruence |]. destruct Hf as [Hf | [Hf _]]; lia.
  - intros Hc. destruct H5 as [(F & F' & Hz) | (F & _)]; [| destruct Hf as [Hf | [Hf _]]; lia]. rewrite F in Hc. split; [exact Hc |].
    rewrite <- (Hd i Hi). split; [apply Hz, Hy, Hc | exact Hv].
Qed.

Lemma wp_put_word s c f i v (Q : unit -> b53_mdio B -> Prop) E : md_at s c f -> 0 <= i < 4 -> 0 <= v < 65536 ->
  (forall s', md_at s' c (fun j => if j =? i then v else f j) -> Q tt s') ->
  (forall e s', ~ rp_good -> md_related s' c -> E e s') ->
  wp (mdiobus_write B53_PSEUDO_PHY (REG_MII_DATA0 + i) v) Q E s.
Proof.
  intros [(Ho & Hm & Hc) [Hd Hf]] Hi Hv HQ HE. apply wp_mdiobus_write; [exact Hv |].
  pose proof (rp_put (md_bus s) i v Ho Hi Hv) as H. destruct (mii_write _ _ _ _) as [e b]. destruct H as (H1 & H2 & H3 & H0 & H).
  assert (Hrem : md_related (B53Mdio b (md_page s)) c).
  { repeat split; cbn [md_bus md_page]; [exact H1 | | congruence]. unfold remembers in *. cbn [md_bus md_page]. rewrite H3. exact Hm. }
  destruct H as [[-> H4] | [Hn Hg]].
  - apply HQ. split; [exact Hrem |]. unfold clean in *. cbn [md_bus]. rewrite H0. split; [| exact Hf].
    intros j Hj. rewrite H4, Hd by exact Hj. reflexivity.
  - apply Z.eqb_neq in Hn. rewrite Hn. apply HE; assumption.
Qed.

(** ** Values of several words *)

Lemma shift_in temp v : 0 <= temp < 2 ^ 48 -> 0 <= v < 65536 -> u64 (Z.lor (u64 (Z.shiftl temp 16)) v) = temp * 65536 + v.
Proof.
  intros Ht Hv. unfold u64. rewrite Z.shiftl_mul_pow2 by lia. rewrite (uwrap_small 64 (temp * 2 ^ 16)) by lia.
  rewrite <- Z.shiftl_mul_pow2, Z.lor_comm, lor_shiftl_add by lia. rewrite uwrap_small by lia. lia.
Qed.

(** The words from [n - 1] down, after what has been read. *)
Fixpoint down_from (n : nat) (temp : Z) f : Z :=
  match n with O => temp | S i => down_from i (temp * 65536 + f (Z.of_nat i)) f end.

Lemma wp_b53_read_words n temp s c f (Q : Z -> b53_mdio B -> Prop) E : md_at s c f -> ready s -> (n <= 4)%nat ->
  (clean s -> 0 <= temp < 2 ^ (16 * (4 - Z.of_nat n))) ->
  (forall v s', md_at s' c f ->
     (clean s' -> clean s /\ (forall i, 0 <= i < Z.of_nat n -> 0 <= f i < 65536) /\ v = down_from n temp f) -> Q v s') ->
  wp (md_read_words n temp) Q E s.
Proof.
  revert temp s. induction n as [| i IH]; intros temp s H Hy Hn Ht HQ; cbn [md_read_words down_from].
  - apply wp_ret, HQ; [exact H |]. intros Hc. split; [exact Hc |]. split; [lia | reflexivity].
  - apply wp_bind. eapply wp_get_word; [exact H | exact Hy | lia |]. intros v s' H' Hy' Hv.
    assert (Hp : 2 ^ (16 * (4 - Z.of_nat i)) = 2 ^ (16 * (4 - Z.of_nat (S i))) * 65536).
    { replace (16 * (4 - Z.of_nat i)) with (16 * (4 - Z.of_nat (S i)) + 16) by lia. rewrite Z.pow_add_r by lia. reflexivity. }
    assert (Hb : 2 ^ (16 * (4 - Z.of_nat (S i))) <= 2 ^ 48) by (apply Z.pow_le_mono_r; lia).
    assert (Hs : clean s' -> u64 (Z.lor (u64 (Z.shiftl temp 16)) v) = temp * 65536 + f (Z.of_nat i)).
    { intros Hc. destruct (Hv Hc) as (Hc0 & -> & Hr). apply shift_in; [specialize (Ht Hc0); lia | exact Hr]. }
    apply IH; [exact H' | exact Hy' | lia | |].
    + intros Hc. rewrite (Hs Hc). destruct (Hv Hc) as (Hc0 & _ & Hr). specialize (Ht Hc0). nia.
    + intros v2 s2 H2 Hv2. apply HQ; [exact H2 |]. intros Hc2. destruct (Hv2 Hc2) as (Hc1 & Hr2 & ->). destruct (Hv Hc1) as (Hc0 & _ & Hr).
      split; [exact Hc0 |]. rewrite (Hs Hc1). split; [| reflexivity].
      intros j Hj. destruct (Z.eq_dec j (Z.of_nat i)) as [-> |]; [exact Hr | apply Hr2; lia].
Qed.

Lemma wp_b53_write_words n value s c f (Q : unit -> b53_mdio B -> Prop) E : md_at s c f -> (n <= 4)%nat ->
  (forall s' g, md_at s' c g -> (forall i, 0 <= i < Z.of_nat n -> g i = value / 2 ^ (16 * i) mod 65536) -> Q tt s') ->
  (forall e s', ~ rp_good -> md_related s' c -> E e s') ->
  wp (md_write_words n value) Q E s.
Proof.
  intros H Hn HQ HE. unfold md_write_words. apply wp_bind.
  apply (wp_loop_acc (fun i acc s => acc = value / 2 ^ (16 * i) /\
     exists g, md_at s c g /\ forall j, 0 <= j < i -> g j = value / 2 ^ (16 * j) mod 65536)).
  - split; [change (2 ^ (16 * 0)) with 1; symmetry; apply Z.div_1_r |]. exists f. split; [exact H | lia].
  - intros i acc s1 Hi [-> (g & Hg & Hv)]. apply wp_bind. change 0xffff with (Z.ones 16). rewrite Z.land_ones by lia.
    eapply wp_put_word; [exact Hg | lia | apply Z.mod_pos_bound; lia | | exact HE]. intros s2 H2. apply wp_ret. split.
    + rewrite Z.shiftr_div_pow2, Z.div_div, <- Z.pow_add_r by lia. do 2 f_equal. lia.
    + eexists. split; [exact H2 |]. intros j Hj. cbv beta. destruct (Z.eqb_spec j i) as [-> |]; [reflexivity | apply Hv; lia].
  - intros acc s1 [_ (g & Hg & Hv)]. apply wp_ret. eapply HQ; [exact Hg | exact Hv].
Qed.

End Access.

(** ** The accesses *)

Lemma md_at_start s c : md_related s c -> md_at (rp_failed (md_bus s)) s c (rp_data (md_bus s)).
Proof. intros H. split; [exact H |]. split; [reflexivity | left; reflexivity]. Qed.

(** The value is right, unless a read was lost. *)
Lemma clean_or_lost s s' c f (v x : Z) : md_at (rp_failed (md_bus s)) s' c f -> (clean (rp_failed (md_bus s)) s' -> v = x) -> v = x \/ lost_read s s'.
Proof. intros (_ & _ & [Hc | [Hl Hg]]) Hv; [left; apply Hv, Hc | right; split; assumption]. Qed.

Lemma mdio_read_access p r s c : md_related s c -> a_page p -> byte r ->
  wp (b53_read (core_width p r) p r) (fun v s' => (v = fst (core_read p r c) \/ lost_read s s') /\ md_related s' (snd (core_read p r c)))
     (fun _ s' => ~ rp_good /\ (md_related s' c \/ md_related s' (snd (core_read p r c)))) s.
Proof.
  intros H Hp Hr. pose proof (md_at_start s c H) as Hs.
  destruct (core_width p r) eqn:Hw; cbn [b53_read b53_mdio_ops]; apply wp_bind; (eapply wp_op_read; [exact Hs | exact Hp | exact Hr | | auto]);
    intros s1 f H1 Hy1 Hv; rewrite Hw in Hv; cbn [bits] in Hv; unfold uwrap, of_words in Hv; rewrite <- Hv.
  - change REG_MII_DATA0 with (REG_MII_DATA0 + 0). apply wp_bind. eapply wp_get_word; [exact H1 | exact Hy1 | lia |]. intros v s2 H2 _ Hf.
    apply wp_ret. split; [| apply H2]. eapply clean_or_lost; [exact H2 |]. intros Hc. destruct (Hf Hc) as (_ & -> & Hr0).
    change 0xff with (Z.ones 8). rewrite Z.land_ones by lia. Z.div_mod_to_equations. lia.
  - change REG_MII_DATA0 with (REG_MII_DATA0 + 0). apply wp_bind. eapply wp_get_word; [exact H1 | exact Hy1 | lia |]. intros v s2 H2 _ Hf.
    apply wp_ret. split; [| apply H2]. eapply clean_or_lost; [exact H2 |]. intros Hc. destruct (Hf Hc) as (_ & -> & Hr0).
    unfold u16, uwrap. Z.div_mod_to_equations. lia.
  - change REG_MII_DATA1 with (REG_MII_DATA0 + 1). change REG_MII_DATA0 with (REG_MII_DATA0 + 0) at 1. apply wp_bind.
    eapply wp_get_word; [exact H1 | exact Hy1 | lia |]. intros v s2 H2 Hy2 H0. apply wp_bind. eapply wp_get_word; [exact H2 | exact Hy2 | lia |].
    intros v' s3 H3 _ Hf. apply wp_ret. split; [| apply H3]. eapply clean_or_lost; [exact H3 |]. intros Hc. destruct (Hf Hc) as (Hc2 & -> & Hr1).
    destruct (H0 Hc2) as (_ & -> & Hr0).
    rewrite (u32_small (f 0)), lor_shiftl_add by lia. unfold u32, uwrap. Z.div_mod_to_equations. lia.
  - eapply wp_b53_read_words; [exact H1 | exact Hy1 | lia | intros _; split; reflexivity || discriminate |]. intros v s2 H2 Hv2. split; [| apply H2].
    eapply clean_or_lost; [exact H2 |]. intros Hc. destruct (Hv2 Hc) as (_ & Hf & ->).
    pose proof (Hf 0 ltac:(lia)). pose proof (Hf 1 ltac:(lia)). pose proof (Hf 2 ltac:(lia)). cbn [down_from].
    change (Z.of_nat 2) with 2; change (Z.of_nat 1) with 1; change (Z.of_nat 0) with 0.
    Z.div_mod_to_equations. lia.
  - eapply wp_b53_read_words; [exact H1 | exact Hy1 | lia | intros _; split; reflexivity || discriminate |]. intros v s2 H2 Hv2. split; [| apply H2].
    eapply clean_or_lost; [exact H2 |]. intros Hc. destruct (Hv2 Hc) as (_ & Hf & ->).
    pose proof (Hf 0 ltac:(lia)). pose proof (Hf 1 ltac:(lia)). pose proof (Hf 2 ltac:(lia)). pose proof (Hf 3 ltac:(lia)).
    cbn [down_from].
    change (Z.of_nat 3) with 3; change (Z.of_nat 2) with 2; change (Z.of_nat 1) with 1; change (Z.of_nat 0) with 0. Z.div_mod_to_equations. lia.
Qed.

(** The word of a register, from the data words. *)
Lemma stored_value c p r f v : uwrap (bits (core_width p r)) (of_words f) = v -> stored c p r f = core_write p r v c.
Proof. intros <-. reflexivity. Qed.

Lemma words_value n f v : (0 < n <= 4)%nat -> 0 <= v < 2 ^ (16 * Z.of_nat n) ->
  (forall i, 0 <= i < Z.of_nat n -> f i = v / 2 ^ (16 * i) mod 65536) -> uwrap (16 * Z.of_nat n) (of_words f) = v.
Proof.
  intros Hn Hv Hf. destruct n as [| [| [| [| [|]]]]]; try lia; pose proof (Hf 0 ltac:(lia)) as H0;
    try pose proof (Hf 1 ltac:(lia)) as H1; try pose proof (Hf 2 ltac:(lia)) as H2; try pose proof (Hf 3 ltac:(lia)) as H3; clear Hf;
    unfold uwrap, of_words; cbn [Z.of_nat Pos.of_succ_nat Pos.succ Z.mul Pos.mul Pos.add] in *; Z.div_mod_to_equations; lia.
Qed.

Lemma mdio_write_access p r v s c : md_related s c -> a_page p -> byte r -> 0 <= v < 2 ^ bits (core_width p r) ->
  wp (b53_write (core_width p r) p r v) (fun _ s' => md_related s' (core_write p r v c))
     (fun _ s' => ~ rp_good /\ (md_related s' c \/ md_related s' (core_write p r v c))) s.
Proof.
  intros H Hp Hr Hv.
  assert (Hop : forall (s0 : nat) s f, md_at s0 s c f -> uwrap (bits (core_width p r)) (of_words f) = v ->
     wp (b53_mdio_op p r REG_MII_ADDR_WRITE) (fun _ s' => md_related s' (core_write p r v c))
       (fun _ s' => ~ rp_good /\ (md_related s' c \/ md_related s' (core_write p r v c))) s).
  { intros s0 s1 f H1 Hf. eapply wp_op_write; [exact H1 | exact Hp | exact Hr | |]; rewrite (stored_value c p r f v Hf); auto. }
  pose proof (md_at_start s c H) as H0.
  assert (Hfail : forall s', ~ rp_good -> md_related s' c -> ~ rp_good /\ (md_related s' c \/ md_related s' (core_write p r v c))) by auto.
  destruct (core_width p r); cbn [b53_write b53_mdio_ops bits] in *; unfold b53_mdio_write8, b53_mdio_write16, b53_mdio_write32,
    b53_mdio_write48, b53_mdio_write64; apply wp_bind.
  - change REG_MII_DATA0 with (REG_MII_DATA0 + 0). rewrite u8_small by exact Hv.
    eapply wp_put_word; [exact H0 | lia | lia | | auto]. intros s1 H1. eapply Hop; [exact H1 |]. unfold uwrap, of_words. cbv beta.
    change (0 =? 0) with true. cbv iota. Z.div_mod_to_equations. lia.
  - change REG_MII_DATA0 with (REG_MII_DATA0 + 0). rewrite u16_small by exact Hv.
    eapply wp_put_word; [exact H0 | lia | lia | | auto]. intros s1 H1. eapply Hop; [exact H1 |]. unfold uwrap, of_words. cbv beta.
    change (0 =? 0) with true. cbv iota. Z.div_mod_to_equations. lia.
  - rewrite u32_small by exact Hv. eapply wp_b53_write_words; [exact H0 | lia | | auto]. intros s1 g H1 Hg. eapply Hop; [exact H1 |].
    apply (words_value 2); [lia | exact Hv | exact Hg].
  - unfold u64. rewrite uwrap_small by lia. eapply wp_b53_write_words; [exact H0 | lia | | auto]. intros s1 g H1 Hg. eapply Hop; [exact H1 |].
    apply (words_value 3); [lia | exact Hv | exact Hg].
  - unfold u64. rewrite uwrap_small by lia. eapply wp_b53_write_words; [exact H0 | lia | | auto]. intros s1 g H1 Hg. eapply Hop; [exact H1 |].
    apply (words_value 4); [lia | exact Hv | exact Hg].
Qed.

Lemma mdio_access q : access_ok q -> implements_access lost_read md_related rp_good q.
Proof.
  intros Hq. apply implements_of_wp. destruct q as [p r | p r v]; intros s c H.
  - apply mdio_read_access; [exact H | apply Hq | apply Hq].
  - apply mdio_write_access; [exact H | apply Hq | apply Hq | apply Hq].
Qed.
End MdioProps.

(** ** The bridge *)

(** [sr_asked]: the driver has asked for the bridge; [sr_wait]: after how many
    polls it gets it; [sr_busy]: for how many polls an access takes; [sr_wd]:
    the words to write; [sr_rd]: the value last read; [sr_good]: the bridge is
    granted, but not with the sixth poll, and an access is over by the fifth. *)
Class SrabHw (W C : Type) {MM : Mmio32 W} {K : RoboCore C} := {
  sr_good : Prop;
  sr_ok : W -> Prop;
  sr_asked : W -> bool;
  sr_wait : W -> nat;
  sr_busy : W -> nat;
  sr_wd : W -> Z * Z;
  sr_rd : W -> Z;
  sr_core : W -> C;
  sr_ctrls w : sr_ok w ->
    let (v, w') := mmio_readl B53_SRAB_CTRLS w in
    sr_ok w' /\ sr_core w' = sr_core w /\ sr_asked w' = sr_asked w /\
    (sr_asked w = true -> (Z.testbit (u32 v) 4 = true <-> sr_wait w = O) /\ sr_wait w' = Nat.pred (sr_wait w));
  sr_ask w v : sr_ok w -> 0 <= v < 2 ^ 32 -> Z.testbit v 3 = true ->
    let w' := mmio_writel B53_SRAB_CTRLS v w in
    sr_ok w' /\ sr_core w' = sr_core w /\ sr_asked w' = true /\ (sr_wait w' < 20)%nat /\ (sr_good -> sr_wait w' <> 5%nat);
  sr_release w v : sr_ok w -> 0 <= v < 2 ^ 32 -> Z.testbit v 3 = false ->
    let w' := mmio_writel B53_SRAB_CTRLS v w in sr_ok w' /\ sr_core w' = sr_core w /\ sr_asked w' = false;
  (** What needs the grant. *)
  sr_held w := sr_ok w /\ sr_asked w = true /\ sr_wait w = O;
  sr_put w (high : bool) v : sr_held w -> 0 <= v < 2 ^ 32 ->
    let w' := mmio_writel (if high then B53_SRAB_WD_H else B53_SRAB_WD_L) v w in
    sr_held w' /\ sr_core w' = sr_core w /\ sr_wd w' = if high then (fst (sr_wd w), v) else (v, snd (sr_wd w));
  sr_start_write w p r : sr_held w -> byte p -> byte r ->
    let w' := mmio_writel B53_SRAB_CMDSTAT (p * 2 ^ 24 + r * 2 ^ 16 + 3) w in
    sr_held w' /\ (sr_good -> (sr_busy w' < 5)%nat) /\
    sr_core w' = core_write p r (uwrap (bits (core_width p r)) (fst (sr_wd w) + 2 ^ 32 * snd (sr_wd w))) (sr_core w);
  sr_start_read w p r : sr_held w -> byte p -> byte r ->
    let w' := mmio_writel B53_SRAB_CMDSTAT (p * 2 ^ 24 + r * 2 ^ 16 + 1) w in
    sr_held w' /\ (sr_good -> (sr_busy w' < 5)%nat) /\ sr_core w' = snd (core_read p r (sr_core w)) /\
    uwrap (bits (core_width p r)) (sr_rd w') = fst (core_read p r (sr_core w));
  sr_poll w : sr_held w ->
    let (v, w') := mmio_readl B53_SRAB_CMDSTAT w in
    sr_held w' /\ sr_core w' = sr_core w /\ sr_rd w' = sr_rd w /\
    (Z.testbit (u32 v) 0 = true <-> sr_busy w <> O) /\ sr_busy w' = Nat.pred (sr_busy w);
  sr_get w (high : bool) : sr_held w ->
    let (v, w') := mmio_readl (if high then B53_SRAB_RD_H else B53_SRAB_RD_L) w in
    sr_held w' /\ sr_core w' = sr_core w /\ sr_rd w' = sr_rd w /\ u32 v = u32 (if high then sr_rd w / 2 ^ 32 else sr_rd w)
}.

Section SrabProps.
Context {W C : Type} {MM : Mmio32 W} {K : RoboCore C} {HW : SrabHw W C}.
#[local] Existing Instance b53_srab_ops.

Implicit Types (w : W) (c : C).

(** Between accesses the driver does not hold the bridge. *)
Definition sr_related w c : Prop := sr_ok w /\ sr_asked w = false /\ sr_core w = c.
Definition sr_with w c : Prop := sr_held w /\ sr_core w = c.

Lemma wp_readl off (Q : Z -> W -> Prop) E w : (let (v, w') := mmio_readl off w in Q (u32 v) w') -> wp (readl off) Q E w.
Proof. unfold wp, readl. destruct (mmio_readl off w). exact (fun H => H). Qed.

Lemma wp_writel off v (Q : unit -> W -> Prop) E w : 0 <= v < 2 ^ 32 -> Q tt (mmio_writel off v w) -> wp (writel v off) Q E w.
Proof. intros Hv HQ. apply wp_modify. rewrite u32_small by exact Hv. exact HQ. Qed.

(** Polling for the grant. *)
Lemma wp_granted n i w c (Q : option Z -> W -> Prop) E : sr_ok w -> sr_asked w = true -> sr_core w = c -> (sr_wait w < n)%nat ->
  (forall w', sr_with w' c -> Q (Some (i + Z.of_nat (sr_wait w))) w') ->
  wp (loop_until n i (fun i =>
    ctrls <- readl B53_SRAB_CTRLS ;;
    ret (if cbool (Z.land ctrls B53_SRAB_CTRLS_RCAGNT) then Some i else None))) Q E w.
Proof.
  revert i w. induction n as [| n IH]; intros i w Ho Ha Hc Hn HQ; [lia |]. cbn [loop_until]. apply wp_bind, wp_bind, wp_readl.
  pose proof (sr_ctrls w Ho) as H. destruct (mmio_readl _ _) as [v w']. destruct H as (H1 & H2 & H3 & H4).
  destruct (H4 Ha) as [H5 H6]. apply wp_ret. unfold B53_SRAB_CTRLS_RCAGNT. rewrite cbool_land_BIT by lia.
  destruct (Z.testbit (u32 v) 4).
  - apply wp_ret. rewrite (proj1 H5 eq_refl) in HQ, H6. replace (Some i) with (Some (i + Z.of_nat 0)) by (f_equal; lia). apply HQ.
    split; [split; [exact H1 | split; [congruence | exact H6]] | congruence].
  - destruct (sr_wait w) as [| k] eqn:Hk; [pose proof (proj2 H5 eq_refl); discriminate |]. cbn [Nat.pred] in H6.
    apply IH; [exact H1 | congruence | congruence | lia |]. intros w2 H7. rewrite H6.
    replace (i + 1 + Z.of_nat k) with (i + Z.of_nat (S k)) by lia. apply HQ, H7.
Qed.

Lemma wp_request w c (Q : unit -> W -> Prop) E : sr_related w c -> (forall w', sr_with w' c -> Q tt w') ->
  (forall w', ~ sr_good -> sr_ok w' -> sr_core w' = c -> E (- EIO) w') -> wp b53_srab_request_grant Q E w.
Proof.
  intros (Ho & _ & Hc) HQ HE. unfold b53_srab_request_grant. apply wp_bind, wp_readl. pose proof (sr_ctrls w Ho) as H.
  destruct (mmio_readl _ _) as [v w1]. destruct H as (H1 & H2 & _). apply wp_bind.
  assert (Hv : 0 <= Z.lor (u32 v) B53_SRAB_CTRLS_RCAREQ < 2 ^ 32) by (apply lor_range; [lia | apply u32_range | apply BIT_range; lia]).
  apply wp_writel; [exact Hv |]. pose proof (sr_ask w1 _ H1 Hv) as Ha.
  destruct Ha as (H3 & H4 & H5 & H6 & H7); [unfold B53_SRAB_CTRLS_RCAREQ; rewrite Z.lor_spec, testbit_BIT by lia; apply orb_true_r |].
  apply wp_bind. eapply (wp_granted _ _ _ c); [exact H3 | exact H5 | congruence | exact H6 |]. intros w2 Hw.
  destruct (Z.eqb_spec (0 + Z.of_nat (sr_wait (mmio_writel B53_SRAB_CTRLS (Z.lor (u32 v) B53_SRAB_CTRLS_RCAREQ) w1))) 5) as [He |].
  - apply wp_fail, HE; [| apply Hw | apply Hw]. intros Hg. apply (H7 Hg). lia.
  - apply wp_ret, HQ, Hw.
Qed.

(** The bridge is given back on every path. *)
Lemma wp_releasing {A} (m : M W A) (Q : A -> W -> Prop) E w :
  wp m (fun a w' => sr_ok w' /\ forall w2, sr_related w2 (sr_core w') -> Q a w2)
       (fun e w' => sr_ok w' /\ forall w2, sr_related w2 (sr_core w') -> E e w2) w -> wp (releasing m) Q E w.
Proof.
  unfold wp at 1 2, releasing. destruct (m w) as [r w']. intros H.
  assert (Hrel : forall w', sr_ok w' -> let '(_, w2) := b53_srab_release_grant w' in sr_related w2 (sr_core w')).
  { clear. intros w Ho. unfold b53_srab_release_grant, bind, readl. pose proof (sr_ctrls w Ho) as H. destruct (mmio_readl _ _) as [v w1].
    destruct H as (H1 & H2 & _). unfold writel, modify. assert (Hv : 0 <= Z.ldiff (u32 v) B53_SRAB_CTRLS_RCAREQ < 2 ^ 32).
    { pose proof (u32_range v) as Hr. replace (Z.ldiff (u32 v) B53_SRAB_CTRLS_RCAREQ) with (uwrap 32 (Z.ldiff (u32 v) B53_SRAB_CTRLS_RCAREQ)); [apply uwrap_range; lia |].
      apply Z.bits_inj'. intros k Hk. rewrite testbit_uwrap, Z.ldiff_spec by lia. destruct (Z.ltb_spec k 32); [reflexivity |].
      rewrite (testbit_high (u32 v) 32 k) by lia. reflexivity. }
    rewrite u32_small by exact Hv. destruct (sr_release w1 _ H1 Hv) as (H3 & H4 & H5).
    - unfold B53_SRAB_CTRLS_RCAREQ. rewrite Z.ldiff_spec, testbit_BIT by lia. apply andb_false_r.
    - split; [exact H3 |]. split; [exact H5 | congruence]. }
  destruct r as [a | e]; destruct H as [Ho H]; specialize (Hrel w' Ho); destruct (b53_srab_release_grant w') as [_ w2]; apply H, Hrel.
Qed.

Lemma wp_sr_wait w c n i (Q : option unit -> W -> Prop) E : sr_with w c ->
  (forall r w', sr_with w' c -> sr_rd w' = sr_rd w -> (r = None -> (n <= sr_busy w)%nat) -> Q r w') ->
  wp (loop_until n i (fun _ =>
    cmdstat <- readl B53_SRAB_CMDSTAT ;;
    ret (if cbool (Z.land cmdstat B53_SRAB_CMDSTAT_GORDYN) then None else Some tt))) Q E w.
Proof.
  revert i w. induction n as [| n IH]; intros i w H HQ; cbn [loop_until].
  - apply wp_ret, HQ; [exact H | reflexivity | intros _; lia].
  - destruct H as [Hh Hc]. apply wp_bind, wp_bind, wp_readl. pose proof (sr_poll w Hh) as H. destruct (mmio_readl _ _) as [v w1].
    destruct H as (H1 & H2 & H3 & H4 & H5). apply wp_ret. unfold B53_SRAB_CMDSTAT_GORDYN. rewrite cbool_land_BIT by lia.
    destruct (Z.testbit (u32 v) 0).
    + apply IH; [split; [exact H1 | congruence] |]. intros r w2 Hw Hrd Hn. apply HQ; [exact Hw | congruence |]. intros Hr. specialize (Hn Hr).
      pose proof (proj1 H4 eq_refl). lia.
    + apply wp_ret, HQ; [split; [exact H1 | congruence] | exact H3 | discriminate].
Qed.

Lemma command_word p r op : byte p -> byte r -> (op = 0 \/ op = B53_SRAB_CMDSTAT_WRITE) ->
  let v := Z.lor (Z.lor (Z.lor (Z.shiftl p B53_SRAB_CMDSTAT_PAGE) (Z.shiftl r B53_SRAB_CMDSTAT_REG)) B53_SRAB_CMDSTAT_GORDYN) op in
  v = p * 2 ^ 24 + r * 2 ^ 16 + (1 + op) /\ 0 <= v < 2 ^ 32.
Proof.
  unfold byte. intros Hp Hr Hop. cbv zeta. unfold B53_SRAB_CMDSTAT_PAGE, B53_SRAB_CMDSTAT_REG.
  rewrite <- Z.lor_assoc. rewrite (Z.lor_comm (Z.shiftl p 24)), (Z.lor_comm _ (Z.lor B53_SRAB_CMDSTAT_GORDYN op)).
  assert (Ho : Z.lor B53_SRAB_CMDSTAT_GORDYN op = 1 + op /\ 0 <= 1 + op < 4) by (destruct Hop as [-> | ->]; split; reflexivity || (split; reflexivity || discriminate)).
  destruct Ho as [-> Ho]. rewrite Z.lor_assoc. rewrite (lor_shiftl_add (1 + op) r 16) by lia. rewrite lor_shiftl_add by lia. lia.
Qed.

(** The end of an access, from the state it leaves. *)
Lemma wp_sr_op w c p r op c2 v (Q : unit -> W -> Prop) E : sr_with w c -> byte p -> byte r -> (op = 0 \/ op = B53_SRAB_CMDSTAT_WRITE) ->
  (let w' := mmio_writel B53_SRAB_CMDSTAT (p * 2 ^ 24 + r * 2 ^ 16 + (1 + op)) w in
   sr_with w' c2 /\ sr_rd w' = v /\ (sr_good -> (sr_busy w' < 5)%nat)) ->
  (forall w', sr_with w' c2 -> sr_rd w' = v -> Q tt w') -> (forall w', ~ sr_good -> sr_with w' c2 -> E (- EIO) w') ->
  wp (b53_srab_op p r op) Q E w.
Proof.
  intros H Hp Hr Hop Hstart HQ HE. destruct (command_word p r op Hp Hr Hop) as [Hv Hv32]. unfold b53_srab_op. apply wp_bind, wp_writel; [exact Hv32 |].
  rewrite Hv. destruct Hstart as (H1 & H2 & H3). apply wp_bind. eapply wp_sr_wait; [exact H1 |]. intros [[] |] w2 Hw Hrd Hn.
  - apply wp_ret, HQ; [exact Hw | congruence].
  - apply wp_fail, HE; [| exact Hw]. intros Hg. specialize (H3 Hg). specialize (Hn eq_refl). lia.
Qed.

Lemma wp_sr_get w c (high : bool) (Q : Z -> W -> Prop) E : sr_with w c ->
  (forall w', sr_with w' c -> sr_rd w' = sr_rd w -> Q (u32 (if high then sr_rd w / 2 ^ 32 else sr_rd w)) w') ->
  wp (readl (if high then B53_SRAB_RD_H else B53_SRAB_RD_L)) Q E w.
Proof.
  intros [Hh Hc] HQ. apply wp_readl. pose proof (sr_get w high Hh) as H. destruct (mmio_readl _ _) as [v w1].
  destruct H as (H1 & H2 & H3 & ->). apply HQ; [split; [exact H1 | congruence] | exact H3].
Qed.

Lemma srab_failed q w' c : ~ sr_good -> sr_related w' c \/ sr_related w' (snd (core_do q c)) -> failed sr_related sr_good q c w'.
Proof. split; assumption. Qed.

(** A read, up to the word it returns. *)
Lemma srab_read p r w c (get : M W Z) : sr_related w c -> a_page p -> byte r ->
  (forall w' v, sr_with w' (snd (core_read p r c)) -> sr_rd w' = v ->
     wp get (fun a w2 => a = uwrap (bits (core_width p r)) v /\ sr_with w2 (snd (core_read p r c))) never w') ->
  wp (releasing (b53_srab_request_grant ;; b53_srab_op p r 0 ;; get))
     (fun a w' => a = fst (core_read p r c) /\ sr_related w' (snd (core_read p r c))) (fun _ => failed sr_related sr_good (Read p r) c) w.
Proof.
  intros H Hp Hr Hget. unfold a_page in Hp. apply wp_releasing, wp_bind. eapply wp_request; [exact H | |].
  - intros w1 H1. apply wp_bind. eapply (wp_sr_op w1 c p r 0 (snd (core_read p r c))); [exact H1 | unfold byte; lia | exact Hr | left; reflexivity | | |].
    + destruct H1 as [Hh <-]. destruct (sr_start_read w1 p r Hh ltac:(unfold byte; lia) Hr) as (H2 & H3 & H4 & H5). cbv zeta.
      change (1 + 0) with 1. split; [split; [exact H2 | exact H4] |]. split; [reflexivity | exact H3].
    + intros w2 H2 Hrd. eapply wp_mono; [apply Hget; [exact H2 | exact Hrd] | | intros ? ? []].
      intros a w3 [-> [Hh Hc]]. split; [apply Hh |]. intros w4 H4. rewrite Hc in H4. split; [| exact H4].
      destruct H1 as [Hh1 <-]. destruct (sr_start_read w1 p r Hh1 ltac:(unfold byte; lia) Hr) as (_ & _ & _ & Hv). exact Hv.
    + intros w2 Hg [Hh Hc]. split; [apply Hh |]. intros w3 H3. rewrite Hc in H3. apply srab_failed; [exact Hg | right; exact H3].
  - intros w1 Hg Ho Hc. split; [exact Ho |]. intros w2 H2. rewrite Hc in H2. apply srab_failed; [exact Hg | left; exact H2].
Qed.

(** A write: with the bridge at hand, and with the words put down. *)
Definition writes p r v c (w : W) : Prop :=
  wp (b53_srab_op p r B53_SRAB_CMDSTAT_WRITE)
     (fun _ w' => sr_ok w' /\ forall w2, sr_related w2 (sr_core w') -> sr_related w2 (core_write p r v c))
     (fun _ w' => sr_ok w' /\ forall w2, sr_related w2 (sr_core w') -> failed sr_related sr_good (Write p r v) c w2) w.

Lemma srab_write p r v w c (put : M W unit) : sr_related w c -> a_page p -> byte r ->
  (forall w', sr_with w' c -> wp put
     (fun _ w' => sr_ok w' /\ forall w2, sr_related w2 (sr_core w') -> sr_related w2 (core_write p r v c))
     (fun _ w' => sr_ok w' /\ forall w2, sr_related w2 (sr_core w') -> failed sr_related sr_good (Write p r v) c w2) w') ->
  wp (releasing (b53_srab_request_grant ;; put))
     (fun _ w' => sr_related w' (core_write p r v c)) (fun _ => failed sr_related sr_good (Write p r v) c) w.
Proof.
  intros H Hp Hr Hput. apply wp_releasing, wp_bind. eapply wp_request; [exact H | exact Hput |].
  intros w1 Hg Ho Hc. split; [exact Ho |]. intros w2 H2. rewrite Hc in H2. apply srab_failed; [exact Hg | left; exact H2].
Qed.

Lemma srab_store p r v w c : sr_with w c -> a_page p -> byte r ->
  uwrap (bits (core_width p r)) (fst (sr_wd w) + 2 ^ 32 * snd (sr_wd w)) = v -> writes p r v c w.
Proof.
  intros H2 Hp Hr Hv. unfold a_page in Hp.
  eapply (wp_sr_op w c p r _ (core_write p r v c)); [exact H2 | unfold byte; lia | exact Hr | right; reflexivity | | |].
  - destruct H2 as [Hh <-]. destruct (sr_start_write w p r Hh ltac:(unfold byte; lia) Hr) as (H3 & H4 & H5). cbv zeta.
    change (1 + B53_SRAB_CMDSTAT_WRITE) with 3. rewrite Hv in H5. split; [split; [exact H3 | exact H5] |]. split; [reflexivity | exact H4].
  - intros w3 [Hh Hc] _. split; [apply Hh |]. intros w4 H4. rewrite Hc in H4. exact H4.
  - intros w3 Hg [Hh Hc]. split; [apply Hh |]. intros w4 H4. rewrite Hc in H4. apply srab_failed; [exact Hg | right; exact H4].
Qed.

Lemma srab_get_32 w c v (Q : Z -> W -> Prop) E : sr_with w c -> sr_rd w = v ->
  (forall w', sr_with w' c -> sr_rd w' = v -> Q (v mod 2 ^ 32) w') -> wp (readl B53_SRAB_RD_L) Q E w.
Proof. intros H <- HQ. apply (wp_sr_get w c false); [exact H |]. exact HQ. Qed.

Lemma srab_get_high w c v (Q : Z -> W -> Prop) E : sr_with w c -> sr_rd w = v ->
  (forall w', sr_with w' c -> Q (v / 2 ^ 32 mod 2 ^ 32) w') -> wp (readl B53_SRAB_RD_H) Q E w.
Proof. intros H <- HQ. apply (wp_sr_get w c true); [exact H |]. auto. Qed.

Lemma srab_put_word w c (high : bool) v (Q : unit -> W -> Prop) E : sr_with w c -> 0 <= v < 2 ^ 32 ->
  (forall w', sr_with w' c -> sr_wd w' = (if high then (fst (sr_wd w), v) else (v, snd (sr_wd w))) -> Q tt w') ->
  wp (writel v (if high then B53_SRAB_WD_H else B53_SRAB_WD_L)) Q E w.
Proof.
  intros [Hh Hc] Hv HQ. apply wp_writel; [exact Hv |]. destruct (sr_put w high v Hh Hv) as (H1 & H2 & H3).
  apply HQ; [split; [exact H1 | congruence] | exact H3].
Qed.

(** The values of the two words, for [uwrap]. *)
Lemma mod_low v n : 0 <= n <= 32 -> (v mod 2 ^ 32) mod 2 ^ n = uwrap n v.
Proof. intros Hn. change (uwrap n (uwrap 32 v) = uwrap n v). bit_solve. Qed.

Lemma srab_read_access p r w c : sr_related w c -> a_page p -> byte r ->
  wp (b53_read (core_width p r) p r) (fun v w' => v = fst (core_read p r c) /\ sr_related w' (snd (core_read p r c)))
     (fun _ => failed sr_related sr_good (Read p r) c) w.
Proof.
  intros H Hp Hr. destruct (core_width p r) eqn:Hw; cbn [b53_read b53_srab_ops]; apply srab_read; try assumption;
    intros w1 v H1 Hv; rewrite Hw; cbn [bits].
  - apply wp_bind. eapply srab_get_32; [exact H1 | exact Hv |]. intros w2 H2 _. apply wp_ret. split; [| exact H2].
    change 0xff with (Z.ones 8). rewrite Z.land_ones by lia. apply mod_low. lia.
  - apply wp_bind. eapply srab_get_32; [exact H1 | exact Hv |]. intros w2 H2 _. apply wp_ret. split; [| exact H2].
    change 0xffff with (Z.ones 16). rewrite Z.land_ones by lia. apply mod_low. lia.
  - eapply srab_get_32; [exact H1 | exact Hv |]. intros w2 H2 _. split; [reflexivity | exact H2].
  - apply wp_bind. eapply srab_get_32; [exact H1 | exact Hv |]. intros w2 H2 Hv2. apply wp_bind.
    eapply srab_get_high; [exact H2 | exact Hv2 |]. intros w3 H3. apply wp_ret. split; [| exact H3].
    change 0xffff with (Z.ones 16). rewrite Z.land_ones, Z.shiftl_mul_pow2 by lia. unfold u64, uwrap. Z.div_mod_to_equations. lia.
  - apply wp_bind. eapply srab_get_32; [exact H1 | exact Hv |]. intros w2 H2 Hv2. apply wp_bind.
    eapply srab_get_high; [exact H2 | exact Hv2 |]. intros w3 H3. apply wp_ret. split; [| exact H3].
    rewrite Z.shiftl_mul_pow2 by lia. unfold u64, uwrap. Z.div_mod_to_equations. lia.
Qed.

Lemma srab_write_access p r v w c : sr_related w c -> a_page p -> byte r -> 0 <= v < 2 ^ bits (core_width p r) ->
  wp (b53_write (core_width p r) p r v) (fun _ w' => sr_related w' (core_write p r v c)) (fun _ => failed sr_related sr_good (Write p r v) c) w.
Proof.
  intros H Hp Hr Hv. destruct (core_width p r) eqn:Hw; cbn [b53_write b53_srab_ops bits] in *.
  1-3: apply srab_write; try assumption; intros w1 H1; rewrite ?u8_small, ?u16_small, ?u32_small by lia;
    apply wp_bind, (srab_put_word w1 c false); [exact H1 | lia |]; intros w2 H2 Hd; apply srab_store; try assumption;
    rewrite Hw, Hd; cbn [fst snd bits]; unfold uwrap; Z.div_mod_to_equations; lia.
  all: apply srab_write; try assumption; intros w1 H1; unfold u64; rewrite (uwrap_small 64 v), Z.shiftr_div_pow2 by lia;
    apply wp_bind, (srab_put_word w1 c false); [exact H1 | apply u32_range |]; intros w2 H2 Hd;
    apply wp_bind, (srab_put_word w2 c true); [exact H2 | pose proof (u16_range (v / 2 ^ 32)); pose proof (u32_range (v / 2 ^ 32)); lia |];
    intros w3 H3 Hd3; apply srab_store; try assumption; rewrite Hw, Hd3, Hd; cbn [fst snd bits]; unfold u16, u32, uwrap; Z.div_mod_to_equations; lia.
Qed.

Lemma srab_access q : access_ok q -> implements_access (fun _ _ => False) sr_related sr_good q.
Proof.
  intros Hq. apply implements_of_wp. destruct q as [p r | p r v]; intros w c H.
  - eapply wp_mono; [apply srab_read_access; [exact H | apply Hq | apply Hq] | intros x w' [-> Hw]; auto | auto].
  - apply srab_write_access; [exact H | apply Hq | apply Hq | apply Hq].
Qed.
End SrabProps.
