(* ===== verification/B53Access.v ===== *)
(** * Register accesses of a RoboSwitch, from the driver to the switch

    The theorems on the MDIO and SRAB accesses, what they promise to the main
    driver, the memory-mapped registers, and a pseudo PHY and a bridge on which
    the examples run. *)

From S2P Require Import Prelude CMonad Mdio B53Io B53IoProps.

(** ** MDIO *)

Section Mdio.
Context {B C : Type} {MB : MiiBus B} {K : RoboCore C} {HW : RoboPhy B C}.

(** C14: over MDIO every sequence of register accesses, of every width, is that
    sequence of accesses to the registers of the switch, whatever fails on
    the bus: each access that succeeds is done, one that fails is done or
    not, and the page the driver remembers stays the one selected.  A value
    that is read is that of the register unless the bus failed a read of
    that very access, which the driver does not notice ([lost_read]).
    Nothing fails on a bus that works and a switch that answers in time. *)
Theorem mdio_implements_registers qs (s : b53_mdio B) (c : C) : md_related s c -> Forall access_ok qs ->
  exists answers s' c', run_all io_do qs s = (Ok answers, s') /\ core_steps lost_read qs s c answers s' c' /\ md_related s' c' /\
    (rp_good -> Forall is_ok answers).
Proof. intros H Hq. apply (run_accesses lost_read md_related rp_good); [exact mdio_access | exact Hq | exact H]. Qed.

(** What a bus that works promises to the main driver. *)
Definition mdio_io_ok (Hgood : rp_good) : B53IoOk (b53_mdio B) C.
Proof.
  refine {| io_rel := md_related |}.
  - intros s c p r Q H Hp Hr HQ. eapply wp_mono; [apply mdio_read_access; eassumption | intros v w' [[-> | [Hg _]] Hw]; [auto | contradiction] | intros e w' [Hg _]; contradiction].
  - intros s c p r v Q H Hp Hr Hv HQ. eapply wp_mono; [apply mdio_write_access; eassumption | intros [] w' Hw; auto | intros e w' [Hg _]; contradiction].
  - intros s c (H1 & H2 & H3). split; [exact H1 |]. split; [intros Hn; contradiction | exact H3].
Defined.
End Mdio.

(** ** SRAB *)

Section Srab.
Context {W C : Type} {MM : Mmio32 W} {K : RoboCore C} {HW : SrabHw W C}.
#[local] Existing Instance b53_srab_ops.


Definition srab_io_ok (Hgood : sr_good) : B53IoOk W C.
Proof.
  refine {| io_rel := sr_related |}.
  - intros s c p r Q H Hp Hr HQ. eapply wp_mono; [apply srab_read_access; eassumption | intros v w' [-> Hw]; auto | intros e w' [Hg _]; contradiction].
  - intros s c p r v Q H Hp Hr Hv HQ. eapply wp_mono; [apply srab_write_access; eassumption | intros [] w' Hw; auto | intros e w' [Hg _]; contradiction].
  - intros s c H. exact H.
Defined.
End Srab.

(** ** A pseudo PHY in front of any switch

    Every access takes two polls. *)

Record pph (C : Type) := Pph { pp_page : option Z; pp_data : Z -> Z; pp_busy : nat; pp_core : C }.
Arguments Pph {C}.
Arguments pp_page {C}.
Arguments pp_data {C}.
Arguments pp_busy {C}.
Arguments pp_core {C}.

Section PseudoPhy.
Context {C : Type} {K : RoboCore C}.

Definition words_of (v i : Z) : Z := v / 2 ^ (16 * i) mod 65536.
Definition pph_start (v : Z) (b : pph C) : pph C :=
  match pp_page b with
  | None => b
  | Some p =>
      let r := v / 256 in
      if v mod 256 =? 1 then
        Pph (Some p) (pp_data b) 2 (core_write p r (uwrap (bits (core_width p r)) (of_words (pp_data b))) (pp_core b))
      else if v mod 256 =? 2 then
        let (x, c) := core_read p r (pp_core b) in Pph (Some p) (words_of x) 2 c
      else b
  end.

#[export] Instance pph_bus : MiiBus (pph C) := {|
  mii_read phy reg b :=
    if negb (phy =? B53_PSEUDO_PHY) then (0, b) else
    if reg =? REG_MII_ADDR then ((if Nat.eqb (pp_busy b) 0 then 0 else 3), Pph (pp_page b) (pp_data b) (Nat.pred (pp_busy b)) (pp_core b))
    else (pp_data b (reg - REG_MII_DATA0), b);
  mii_write phy reg v b :=
    if negb (phy =? B53_PSEUDO_PHY) then (0, b) else
    if reg =? REG_MII_PAGE then (0, Pph (Some (v / 256)) (pp_data b) (pp_busy b) (pp_core b)) else
    if reg =? REG_MII_ADDR then (0, pph_start v b) else
    (0, Pph (pp_page b) (fun j => if j =? reg - REG_MII_DATA0 then v else pp_data b j) (pp_busy b) (pp_core b))
|}.

Lemma words_of_range v i : 0 <= words_of v i < 65536.
Proof. apply Z.mod_pos_bound. lia. Qed.

Lemma of_words_of v n : n <= 64 -> 0 <= v < 2 ^ n -> 0 <= n -> uwrap n (of_words (words_of v)) = v.
Proof.
  intros Hn Hv H0. assert (Hv64 : 0 <= v < 2 ^ 64) by (pose proof (Z.pow_le_mono_r 2 n 64); lia).
  assert (of_words (words_of v) = v) as ->; [| apply uwrap_small, Hv].
  unfold of_words, words_of. change (2 ^ (16 * 0)) with 1. change (2 ^ (16 * 1)) with 65536. change (2 ^ (16 * 2)) with 4294967296.
  change (2 ^ (16 * 3)) with 281474976710656. Z.div_mod_to_equations. lia.
Qed.

Lemma bits_le wd : 0 <= bits wd <= 64.
Proof. destruct wd; cbn; lia. Qed.

Lemma data_reg i : 0 <= i < 4 -> (REG_MII_DATA0 + i =? REG_MII_PAGE) = false /\ (REG_MII_DATA0 + i =? REG_MII_ADDR) = false /\ REG_MII_DATA0 + i - REG_MII_DATA0 = i.
Proof. intros Hi. unfold REG_MII_DATA0, REG_MII_PAGE, REG_MII_ADDR. lia. Qed.

#[export] Instance pph_hw : RoboPhy (pph C) C.
Proof.
  refine {| rp_good := True; rp_ok b := forall i, 0 <= i < 4 -> 0 <= pp_data b i < 65536;
            rp_page := pp_page; rp_data := pp_data; rp_busy := pp_busy; rp_failed _ := O; rp_core := pp_core |}.
  - intros b p H Hp. split; [exact H |]. split; [reflexivity |]. split; [reflexivity |]. split; [reflexivity |]. left. split; [reflexivity |].
    cbn. f_equal. unfold byte in *. Z.div_mod_to_equations. lia.
  - intros b i v H Hi Hv. unfold mii_write. cbn [pph_bus]. destruct (data_reg i Hi) as (-> & -> & ->). cbn. split.
    + intros j Hj. destruct (j =? i); [lia | apply H, Hj].
    + split; [reflexivity |]. split; [reflexivity |]. split; [reflexivity |]. left. split; reflexivity.
  - intros b p r H Hp Hr. unfold mii_write. cbn [pph_bus]. unfold pph_start. rewrite Hp. unfold byte in *.
    replace ((r * 256 + 1) / 256) with r by (Z.div_mod_to_equations; lia).
    replace ((r * 256 + 1) mod 256) with 1 by (Z.div_mod_to_equations; lia). cbn -[of_words].
    split; [exact H |]. split; [reflexivity |]. split; [reflexivity |]. left. split; [reflexivity |]. split; [intros _; lia | reflexivity].
  - intros b p r H Hp Hr. unfold mii_write. cbn [pph_bus]. unfold pph_start. rewrite Hp. unfold byte in *.
    replace ((r * 256 + 2) / 256) with r by (Z.div_mod_to_equations; lia).
    replace ((r * 256 + 2) mod 256) with 2 by (Z.div_mod_to_equations; lia). pose proof (core_read_range p r (pp_core b)) as Hx.
    cbn -[words_of of_words]. destruct (core_read p r (pp_core b)) as [x c]. cbn -[words_of of_words] in *.
    split; [intros; apply words_of_range |]. split; [reflexivity |]. split; [reflexivity |]. left. split; [reflexivity |]. split; [intros _; lia |].
    split; [reflexivity |]. pose proof (bits_le (core_width p r)). apply of_words_of; lia.
  - intros b H. unfold mii_read. cbn [pph_bus]. change (negb (B53_PSEUDO_PHY =? B53_PSEUDO_PHY)) with false.
    change (REG_MII_ADDR =? REG_MII_ADDR) with true. cbv iota. cbn [pp_data pp_page pp_core pp_busy].
    repeat (split; [solve [exact H | reflexivity] |]). left. split; [reflexivity |]. split; [| reflexivity].
    destruct (pp_busy b); split; [intros E; vm_compute in E; discriminate | intros E; congruence | intros _; discriminate | reflexivity].
  - intros b i H Hi. unfold mii_read. cbn [pph_bus]. destruct (data_reg i Hi) as (_ & -> & ->). cbn.
    repeat (split; [solve [exact H | reflexivity] |]). left. repeat (split; [reflexivity |]). reflexivity.
  - intros b i H Hi. apply H, Hi.
Defined.

(** A bus that fails some of its reads; [faults n]: the [n]th read. *)
Record flaky (B : Type) := Flaky { fl_bus : B; fl_reads : nat; fl_failed : nat }.
Arguments Flaky {B}.
Arguments fl_bus {B}.
Arguments fl_reads {B}.
Arguments fl_failed {B}.
Variable faults : nat -> bool.

Definition flaky_bus {B} {MB : MiiBus B} : MiiBus (flaky B) := {|
  mii_read phy reg b :=
    if faults (fl_reads b) then (- EIO, Flaky (fl_bus b) (S (fl_reads b)) (S (fl_failed b))) else
    let (v, b') := mii_read phy reg (fl_bus b) in (v, Flaky b' (S (fl_reads b)) (fl_failed b));
  mii_write phy reg v b := let (e, b') := mii_write phy reg v (fl_bus b) in (e, Flaky b' (fl_reads b) (fl_failed b))
|}.

Definition flaky_hw : @RoboPhy (flaky (pph C)) C flaky_bus K.
Proof.
  refine (@Build_RoboPhy (flaky (pph C)) C flaky_bus K (forall n, faults n = false) (fun b => rp_ok (fl_bus b)) (fun b => rp_page (fl_bus b))
    (fun b => rp_data (fl_bus b)) (fun b => rp_busy (fl_bus b)) fl_failed (fun b => rp_core (fl_bus b)) _ _ _ _ _ _ _).
  - intros b p H Hp. pose proof (rp_select (fl_bus b) p H Hp) as Hl. cbn [mii_write flaky_bus]. destruct (mii_write _ _ _ (fl_bus b)) as [e b'].
    destruct Hl as (H1 & H2 & H3 & _ & [H4 | (_ & Hg & _)]); [| elim Hg; exact I]. cbn [fl_bus fl_failed]. auto 10.
  - intros b i v H Hi Hv. pose proof (rp_put (fl_bus b) i v H Hi Hv) as Hl. cbn [mii_write flaky_bus]. destruct (mii_write _ _ _ (fl_bus b)) as [e b'].
    destruct Hl as (H1 & H2 & H3 & _ & [H4 | (_ & Hg)]); [| elim Hg; exact I]. cbn [fl_bus fl_failed]. auto 10.
  - intros b p r H Hp Hr. pose proof (rp_start_write (fl_bus b) p r H Hp Hr) as Hl. cbn [mii_write flaky_bus]. destruct (mii_write _ _ _ (fl_bus b)) as [e b'].
    destruct Hl as (H1 & H2 & _ & [(H4 & H5 & H6) | (_ & Hg & _)]); [| elim Hg; exact I]. cbn [fl_bus fl_failed]. specialize (H5 I). auto 10.
  - intros b p r H Hp Hr. pose proof (rp_start_read (fl_bus b) p r H Hp Hr) as Hl. cbn [mii_write flaky_bus]. destruct (mii_write _ _ _ (fl_bus b)) as [e b'].
    destruct Hl as (H1 & H2 & _ & [(H4 & H5 & H6 & H7) | (_ & Hg & _)]); [| elim Hg; exact I]. cbn [fl_bus fl_failed]. specialize (H5 I). auto 10.
  - intros b H. pose proof (rp_poll (fl_bus b) H) as Hl. cbn [mii_read flaky_bus]. destruct (faults (fl_reads b)) eqn:Ef.
    + cbn [fl_bus fl_failed]. repeat (split; [solve [exact H | reflexivity] |]). right. split; [reflexivity |]. split; [reflexivity |]. intros Hg. rewrite Hg in Ef. discriminate.
    + destruct (mii_read _ _ (fl_bus b)) as [v b']. destruct Hl as (H1 & H2 & H3 & H4 & [(_ & H5 & H6) | (_ & _ & Hg)]); [| elim Hg; exact I]. cbn [fl_bus fl_failed]. auto 10.
  - intros b i H Hi. pose proof (rp_get (fl_bus b) i H Hi) as Hl. cbn [mii_read flaky_bus]. destruct (faults (fl_reads b)) eqn:Ef.
    + cbn [fl_bus fl_failed]. repeat (split; [solve [exact H | reflexivity] |]). right. split; [reflexivity |]. split; [reflexivity |]. intros Hg. rewrite Hg in Ef. discriminate.
    + destruct (mii_read _ _ (fl_bus b)) as [v b']. destruct Hl as (H1 & H2 & H3 & H4 & [(_ & H5 & H6) | (_ & _ & Hg)]); [| elim Hg; exact I]. cbn [fl_bus fl_failed]. auto 10.
  - intros b i H Hi. apply (rp_data_range (fl_bus b) i H Hi).
Defined.
End PseudoPhy.

(** ** A bridge in front of any switch

    It is granted after [delay] polls, and an access takes one. *)

Record bridge (C : Type) := Bridge {
  br_asked : bool; br_wait : nat; br_busy : nat; br_wd : Z * Z; br_rd : Z; br_core : C
}.
Arguments Bridge {C}.
Arguments br_asked {C}.
Arguments br_wait {C}.
Arguments br_busy {C}.
Arguments br_wd {C}.
Arguments br_rd {C}.
Arguments br_core {C}.

Section TheBridge.
Context {C : Type} {K : RoboCore C} (delay : nat).

Definition bridge_start (v : Z) (w : bridge C) : bridge C :=
  let p := v / 2 ^ 24 in let r := v / 2 ^ 16 mod 256 in
  if v mod 2 ^ 16 =? 3 then
    Bridge (br_asked w) (br_wait w) 1 (br_wd w) (br_rd w)
      (core_write p r (uwrap (bits (core_width p r)) (fst (br_wd w) + 2 ^ 32 * snd (br_wd w))) (br_core w))
  else let (x, c) := core_read p r (br_core w) in Bridge (br_asked w) (br_wait w) 1 (br_wd w) x c.

Definition bridge_mmio : Mmio32 (bridge C) := {|
  mmio_readl off w :=
    if off =? B53_SRAB_CTRLS then
      ((if br_asked w then if Nat.eqb (br_wait w) 0 then 24 else 8 else 0),
       Bridge (br_asked w) (Nat.pred (br_wait w)) (br_busy w) (br_wd w) (br_rd w) (br_core w))
    else if off =? B53_SRAB_CMDSTAT then
      ((if Nat.eqb (br_busy w) 0 then 0 else 1), Bridge (br_asked w) (br_wait w) (Nat.pred (br_busy w)) (br_wd w) (br_rd w) (br_core w))
    else ((if off =? B53_SRAB_RD_H then br_rd w / 2 ^ 32 else br_rd w), w);
  mmio_writel off v w :=
    if off =? B53_SRAB_CTRLS then
      if Z.testbit v 3 then Bridge true delay (br_busy w) (br_wd w) (br_rd w) (br_core w)
      else Bridge false (br_wait w) (br_busy w) (br_wd w) (br_rd w) (br_core w)
    else if off =? B53_SRAB_CMDSTAT then bridge_start v w
    else Bridge (br_asked w) (br_wait w) (br_busy w)
           (if off =? B53_SRAB_WD_H then (fst (br_wd w), v) else (v, snd (br_wd w))) (br_rd w) (br_core w)
|}.

Definition bridge_hw (Hd : (delay < 20)%nat) : @SrabHw (bridge C) C bridge_mmio K.
Proof.
  refine (@Build_SrabHw _ _ bridge_mmio _ (delay <> 5%nat) (fun _ => True) br_asked br_wait br_busy br_wd br_rd br_core
            _ _ _ _ _ _ _ _).
  - intros w _. cbn. repeat split; rewrite ?H; try destruct (br_wait w); cbn; intros; reflexivity || discriminate.
  - intros w v _ _ H. cbn -[Z.testbit]. rewrite H. repeat split; [exact Hd | intros Hn; exact Hn].
  - intros w v _ _ H. cbn -[Z.testbit]. rewrite H. repeat split.
  - intros w [|] v H Hv; cbn; repeat split; apply H.
  - intros w p r H Hp Hr. unfold byte in *. unfold mmio_writel. cbn [bridge_mmio]. change (B53_SRAB_CMDSTAT =? B53_SRAB_CTRLS) with false.
    change (B53_SRAB_CMDSTAT =? B53_SRAB_CMDSTAT) with true. cbv iota. unfold bridge_start.
    replace ((p * 2 ^ 24 + r * 2 ^ 16 + 3) / 2 ^ 24) with p by (Z.div_mod_to_equations; lia).
    replace ((p * 2 ^ 24 + r * 2 ^ 16 + 3) / 2 ^ 16 mod 256) with r by (Z.div_mod_to_equations; lia).
    replace ((p * 2 ^ 24 + r * 2 ^ 16 + 3) mod 2 ^ 16) with 3 by (Z.div_mod_to_equations; lia). cbv zeta. change (3 =? 3) with true. cbv iota.
    cbn [br_asked br_wait br_busy br_core]. split; [exact H |]. split; [lia | reflexivity].
  - intros w p r H Hp Hr. unfold byte in *. unfold mmio_writel. cbn [bridge_mmio]. change (B53_SRAB_CMDSTAT =? B53_SRAB_CTRLS) with false.
    change (B53_SRAB_CMDSTAT =? B53_SRAB_CMDSTAT) with true. cbv iota. unfold bridge_start.
    replace ((p * 2 ^ 24 + r * 2 ^ 16 + 1) / 2 ^ 24) with p by (Z.div_mod_to_equations; lia).
    replace ((p * 2 ^ 24 + r * 2 ^ 16 + 1) / 2 ^ 16 mod 256) with r by (Z.div_mod_to_equations; lia).
    replace ((p * 2 ^ 24 + r * 2 ^ 16 + 1) mod 2 ^ 16) with 1 by (Z.div_mod_to_equations; lia). cbv zeta. change (1 =? 3) with false. cbv iota.
    pose proof (core_read_range p r (br_core w)) as Hx. destruct (core_read p r (br_core w)) as [x c].
    cbn [fst snd br_asked br_wait br_busy br_core br_rd] in *. split; [exact H |]. split; [lia |]. split; [reflexivity | apply uwrap_small, Hx].
  - intros w H. cbn -[Z.testbit]. repeat (split; [solve [exact H | reflexivity] |]). split; [| reflexivity].
    destruct (br_busy w); split; [intros E; vm_compute in E; discriminate | intros E; congruence | intros _; discriminate | reflexivity].
  - intros w [|] H; cbn; repeat (split; [solve [exact H | reflexivity] |]); reflexivity.
Defined.
End TheBridge.

(** ** Memory-mapped registers

    What is relied on of the accessors: a word reads back as it was written
    with the same byte order, and ranges apart do not touch each other. *)

Definition a_size (n : Z) : Prop := n = 1 \/ n = 2 \/ n = 4.
Definition apart (a n b m : Z) : Prop := a + n <= b \/ b + m <= a.

Class MmioMemory (W : Type) {MM : MmioAny W} := {
  mm_same n big a v w : a_size n -> 0 <= v < 2 ^ (8 * n) -> fst (mm_get n big a (mm_set n big a v w)) = v;
  mm_other n big a v w m big' b : a_size n -> a_size m -> apart a n b m ->
    fst (mm_get m big' b (mm_set n big a v w)) = fst (mm_get m big' b w);
  mm_pure n big a w m big' b : fst (mm_get m big' b (snd (mm_get n big a w))) = fst (mm_get m big' b w);
  mm_range n big a w : a_size n -> 0 <= fst (mm_get n big a w) < 2 ^ (8 * n)
}.

(** The alignment the driver asks for, and the bytes of a register. *)
Definition alignment (wd : width) : Z := match wd with W8 => 1 | W16 | W48 => 2 | W32 | W64 => 4 end.
Definition bytes_of (wd : width) : Z := bits wd / 8.

Section Mmap.
Context {W : Type} {MM : MmioAny W} {HM : MmioMemory W}.
Variables (big_endian : bool) (junk : Z).
#[local] Instance mmap_io : B53Io W := b53_mmap_ops big_endian junk.

(** The value of a register, put together from the accesses of the driver. *)
Definition mm_word (n a : Z) (w : W) : Z := fst (mm_get n (if n =? 1 then false else big_endian) a w).
Definition mm_value (wd : width) (p r : Z) (w : W) : Z :=
  let a := mm_addr p r in
  match wd with
  | W8 => mm_word 1 a w
  | W16 => mm_word 2 a w
  | W32 => mm_word 4 a w
  | W48 => if r mod 4 =? 0 then mm_word 4 a w + 2 ^ 32 * mm_word 2 (a + 4) w else mm_word 2 a w + 2 ^ 16 * mm_word 4 (a + 2) w
  | W64 => mm_word 4 a w + 2 ^ 32 * mm_word 4 (a + 4) w
  end.

(** [w'] has the same contents as [w]. *)
Definition mm_equal (w' w : W) : Prop := forall n big a, fst (mm_get n big a w') = fst (mm_get n big a w).

Lemma mm_value_equal wd p r w' w : mm_equal w' w -> mm_value wd p r w' = mm_value wd p r w.
Proof. intros H. unfold mm_value, mm_word. rewrite !H. reflexivity. Qed.

Lemma wp_mm_read n big a (Q : Z -> W -> Prop) w : (forall w', mm_equal w' w -> Q (fst (mm_get n big a w)) w') -> wp (mm_read n big a) Q never w.
Proof.
  intros HQ. unfold wp, mm_read. pose proof (mm_pure n big a w) as H. destruct (mm_get n big a w) as [v w']. apply HQ. intros m b c. apply H.
Qed.

Lemma mm_equal_trans w3 w2 w1 : mm_equal w3 w2 -> mm_equal w2 w1 -> mm_equal w3 w1.
Proof. intros H1 H2 n big a. rewrite H1. apply H2. Qed.

Lemma wp_read16 p r (Q : Z -> W -> Prop) w : r mod 2 = 0 -> (forall w', mm_equal w' w -> Q (mm_word 2 (mm_addr p r) w) w') ->
  wp (b53_mmap_read16 big_endian p r) Q never w.
Proof.
  intros Hr HQ. unfold b53_mmap_read16. rewrite Hr. change (cbool 0) with false. cbv iota.
  unfold mm_word in HQ. change (2 =? 1) with false in HQ. destruct big_endian; apply wp_mm_read, HQ.
Qed.

Lemma wp_b53_read32 p r (Q : Z -> W -> Prop) w : r mod 4 = 0 -> (forall w', mm_equal w' w -> Q (mm_word 4 (mm_addr p r) w) w') ->
  wp (b53_mmap_read32 big_endian p r) Q never w.
Proof.
  intros Hr HQ. unfold b53_mmap_read32. rewrite Hr. change (cbool 0) with false. cbv iota.
  unfold mm_word in HQ. change (4 =? 1) with false in HQ. destruct big_endian; apply wp_mm_read, HQ.
Qed.

Lemma wp_write16 p r v (Q : unit -> W -> Prop) w : r mod 2 = 0 -> 0 <= v < 2 ^ 16 -> Q tt (mm_set 2 big_endian (mm_addr p r) v w) ->
  wp (b53_mmap_write16 big_endian p r v) Q never w.
Proof.
  intros Hr Hv HQ. unfold b53_mmap_write16. rewrite Hr, u16_small by exact Hv. change (cbool 0) with false. cbv iota.
  destruct big_endian; apply wp_modify, HQ.
Qed.

Lemma wp_b53_write32 p r v (Q : unit -> W -> Prop) w : r mod 4 = 0 -> 0 <= v < 2 ^ 32 -> Q tt (mm_set 4 big_endian (mm_addr p r) v w) ->
  wp (b53_mmap_write32 big_endian p r v) Q never w.
Proof.
  intros Hr Hv HQ. unfold b53_mmap_write32. rewrite Hr, u32_small by exact Hv. change (cbool 0) with false. cbv iota.
  destruct big_endian; apply wp_modify, HQ.
Qed.

(** An inner access, unchecked. *)
Lemma wp_inner {A} (d : A) (m : M W A) (Q : A -> W -> Prop) w : wp m Q never w -> wp (unchecked d m) Q never w.
Proof. intros H. apply wp_unchecked. eapply wp_mono; [exact H | auto | intros ? ? []]. Qed.

Lemma mm_addr_off p r k : mm_addr p (r + k) = mm_addr p r + k.
Proof. unfold mm_addr. lia. Qed.

(** A register within its page. *)
Definition in_page (wd : width) (r : Z) : Prop := 0 <= r /\ r + bytes_of wd <= 256 /\ r mod alignment wd = 0.

Lemma size_1 : a_size 1. Proof. left. reflexivity. Qed.
Lemma size_2 : a_size 2. Proof. right. left. reflexivity. Qed.
Lemma size_4 : a_size 4. Proof. right. right. reflexivity. Qed.

Lemma word_2 a w : 0 <= mm_word 2 a w < 2 ^ 16.
Proof. apply (mm_range 2), size_2. Qed.
Lemma word_4 a w : 0 <= mm_word 4 a w < 2 ^ 32.
Proof. apply (mm_range 4), size_4. Qed.
Lemma mm_word_equal n a w' w : mm_equal w' w -> mm_word n a w' = mm_word n a w.
Proof. intros H. apply H. Qed.

Lemma join_words k m lo hi : 0 <= k -> 0 <= m -> k + m <= 64 -> 0 <= lo < 2 ^ k -> 0 <= hi < 2 ^ m ->
  Z.lor (u64 (Z.shiftl hi k)) lo = lo + 2 ^ k * hi.
Proof.
  intros Hk Hm Hkm Hl Hh. assert (H : 2 ^ k * 2 ^ m <= 2 ^ 64) by (rewrite <- Z.pow_add_r by lia; apply Z.pow_le_mono_r; lia).
  unfold u64. rewrite Z.shiftl_mul_pow2, uwrap_small by nia. rewrite <- Z.shiftl_mul_pow2, Z.lor_comm, lor_shiftl_add by lia. lia.
Qed.

Lemma mmap_reads wd p r w : in_page wd r ->
  wp (b53_read wd p r) (fun v w' => v = mm_value wd p r w /\ mm_equal w' w) never w.
Proof.
  intros (H0 & H1 & H2). unfold mm_value. destruct wd; cbn [b53_read mmap_io b53_mmap_ops alignment bytes_of bits] in *.
  - apply wp_mm_read. intros w' Hw. auto.
  - apply wp_read16; [exact H2 | auto].
  - apply wp_b53_read32; [exact H2 | auto].
  - change (bytes_of W48) with 6 in H1. unfold b53_mmap_read48. rewrite H2. change (cbool 0) with false. cbv iota. unfold cbool.
    pose proof (word_2 (mm_addr p r) w). pose proof (word_4 (mm_addr p r) w).
    pose proof (word_2 (mm_addr p r + 4) w). pose proof (word_4 (mm_addr p r + 2) w).
    destruct (Z.eqb_spec (r mod 4) 0) as [Hr | Hr]; cbn [negb]; apply wp_bind, wp_inner.
    + apply wp_b53_read32; [exact Hr |]. intros w1 Hw1. apply wp_bind, wp_inner. rewrite u8_small by lia.
      apply wp_read16; [Z.div_mod_to_equations; lia |]. intros w2 Hw2. apply wp_ret. split; [| eapply mm_equal_trans; eassumption].
      rewrite mm_addr_off, (mm_word_equal _ _ w1 w Hw1). apply (join_words 32 16); lia.
    + apply wp_read16; [exact H2 |]. intros w1 Hw1. apply wp_bind, wp_inner. rewrite u8_small by lia.
      apply wp_b53_read32; [Z.div_mod_to_equations; lia |]. intros w2 Hw2. apply wp_ret. split; [| eapply mm_equal_trans; eassumption].
      rewrite mm_addr_off, (mm_word_equal _ _ w1 w Hw1). apply (join_words 16 32); lia.
  - change (bytes_of W64) with 8 in H1. unfold b53_mmap_read64. rewrite H2. change (cbool 0) with false. cbv iota. apply wp_bind, wp_inner.
    pose proof (word_4 (mm_addr p r) w). pose proof (word_4 (mm_addr p r + 4) w).
    apply wp_b53_read32; [exact H2 |]. intros w1 Hw1. apply wp_bind, wp_inner. rewrite u8_small by lia.
    apply wp_b53_read32; [Z.div_mod_to_equations; lia |]. intros w2 Hw2. apply wp_ret. split; [| eapply mm_equal_trans; eassumption].
    rewrite mm_addr_off, (mm_word_equal _ _ w1 w Hw1). apply (join_words 32 32); lia.
Qed.

(** What a write leaves in this register and in those apart from it. *)
Definition mm_holds (wd : width) (p r v : Z) (w w' : W) : Prop :=
  mm_value wd p r w' = v /\
  forall n a, a_size n -> apart (mm_addr p r) (bytes_of wd) a n -> mm_word n a w' = mm_word n a w.

Lemma set_same n a v w : a_size n -> n <> 1 -> 0 <= v < 2 ^ (8 * n) -> mm_word n a (mm_set n big_endian a v w) = v.
Proof. intros Hn H1 Hv. unfold mm_word. apply Z.eqb_neq in H1. rewrite H1. apply mm_same; assumption. Qed.
Lemma set_other n a v w m b big : a_size n -> a_size m -> apart a n b m -> mm_word m b (mm_set n big a v w) = mm_word m b w.
Proof. intros Hn Hm Ha. apply mm_other; assumption. Qed.

Ltac mm_simpl := repeat first
  [ rewrite set_same by (first [apply size_2 | apply size_4 | lia])
  | rewrite set_other by (first [assumption | apply size_1 | apply size_2 | apply size_4 | unfold apart in *; lia]) ].

Lemma mmap_writes wd p r v w : in_page wd r -> 0 <= v < 2 ^ bits wd -> wp (b53_write wd p r v) (fun _ => mm_holds wd p r v w) never w.
Proof.
  intros (H0 & H1 & H2) Hv. unfold mm_holds, mm_value.
  destruct wd; cbn [b53_write mmap_io b53_mmap_ops alignment bytes_of bits] in *.
  - unfold b53_mmap_write8. rewrite u8_small by exact Hv. apply wp_modify. change (bytes_of W8) with 1. split.
    + unfold mm_word. change (1 =? 1) with true. cbv iota. apply mm_same; [apply size_1 | exact Hv].
    + intros n a Hn Ha. mm_simpl. reflexivity.
  - change (bytes_of W16) with 2. apply wp_write16; [exact H2 | exact Hv |]. split; [mm_simpl; reflexivity |]. intros n a Hn Ha. mm_simpl. reflexivity.
  - change (bytes_of W32) with 4. apply wp_b53_write32; [exact H2 | exact Hv |]. split; [mm_simpl; reflexivity |]. intros n a Hn Ha. mm_simpl. reflexivity.
  - change (bytes_of W48) with 6 in *. unfold b53_mmap_write48. rewrite H2. change (cbool 0) with false. cbv iota zeta. unfold cbool.
    unfold u64. rewrite (uwrap_small 64 v), !Z.shiftr_div_pow2 by lia.
    destruct (Z.eqb_spec (r mod 4) 0) as [Hr | Hr]; cbn [negb]; apply wp_bind, wp_inner.
    + apply wp_b53_write32; [exact Hr | apply u32_range |]. apply wp_inner. rewrite u8_small by lia.
      pose proof (u32_range v). pose proof (u16_range (v / 2 ^ 32)).
      apply wp_write16; [Z.div_mod_to_equations; lia | lia |]. rewrite mm_addr_off. split.
      * mm_simpl. unfold u32, u16, uwrap. Z.div_mod_to_equations. lia.
      * intros n a Hn Ha. mm_simpl. reflexivity.
    + pose proof (u16_range v). pose proof (u32_range (v / 2 ^ 16)).
      apply wp_write16; [exact H2 | lia |]. apply wp_inner. rewrite u8_small by lia.
      apply wp_b53_write32; [Z.div_mod_to_equations; lia | lia |]. rewrite mm_addr_off. split.
      * mm_simpl. unfold u32, u16, uwrap. Z.div_mod_to_equations. lia.
      * intros n a Hn Ha. mm_simpl. reflexivity.
  - change (bytes_of W64) with 8 in *. unfold b53_mmap_write64. rewrite H2. change (cbool 0) with false. cbv iota zeta.
    unfold u64. rewrite (uwrap_small 64 v), !Z.shiftr_div_pow2 by lia. pose proof (u32_range v). pose proof (u32_range (v / 2 ^ 32)).
    apply wp_bind, wp_inner, wp_b53_write32; [exact H2 | lia |]. apply wp_inner. rewrite u8_small by lia.
    apply wp_b53_write32; [Z.div_mod_to_equations; lia | lia |]. rewrite mm_addr_off. split.
    + mm_simpl. unfold u32, uwrap. Z.div_mod_to_equations. lia.
    + intros n a Hn Ha. mm_simpl. reflexivity.
Qed.

(** A register whose bytes are apart from another's keeps its value. *)
Lemma mm_value_apart wd p r v w w' wd' p' r' : mm_holds wd p r v w w' ->
  apart (mm_addr p r) (bytes_of wd) (mm_addr p' r') (bytes_of wd') -> mm_value wd' p' r' w' = mm_value wd' p' r' w.
Proof.
  intros [_ H] Ha. unfold mm_value. destruct wd'; 
    [change (bytes_of W8) with 1 in Ha | change (bytes_of W16) with 2 in Ha | change (bytes_of W32) with 4 in Ha | change (bytes_of W48) with 6 in Ha | change (bytes_of W64) with 8 in Ha];
    try destruct (r' mod 4 =? 0);
    repeat (rewrite H by (first [apply size_1 | apply size_2 | apply size_4 | unfold apart in *; lia])); reflexivity.
Qed.

(** In either byte order a register reads back what was written to it, at each
    of the widths, registers apart from it keep their values, and an access
    that is not aligned is refused and touches nothing. *)
Theorem mmap_registers wd p r v w : 0 <= v < 2 ^ bits wd ->
  (in_page wd r ->
     exists w1 w2, b53_write wd p r v w = (Ok tt, w1) /\ b53_read wd p r w1 = (Ok v, w2) /\ mm_equal w2 w1 /\
       forall wd' p' r', apart (mm_addr p r) (bytes_of wd) (mm_addr p' r') (bytes_of wd') -> mm_value wd' p' r' w1 = mm_value wd' p' r' w) /\
  (r mod alignment wd <> 0 -> b53_write wd p r v w = (Err (- EINVAL), w) /\ b53_read wd p r w = (Err (- EINVAL), w)).
Proof.
  intros Hv. split.
  - intros Hr. destruct (wp_never _ _ _ (mmap_writes wd p r v w Hr Hv)) as ([] & w1 & E1 & Hw).
    destruct (wp_never _ _ _ (mmap_reads wd p r w1 Hr)) as (x & w2 & E2 & -> & He). exists w1, w2.
    rewrite (proj1 Hw) in E2. split; [exact E1 |]. split; [exact E2 |]. split; [exact He |]. intros wd' p' r'. apply mm_value_apart with v. exact Hw.
  - intros Hr. assert (H : forall n, r mod n <> 0 -> cbool (r mod n) = true) by (intros n Hn; unfold cbool; destruct (Z.eqb_spec (r mod n) 0); [contradiction | reflexivity]).
    destruct wd; cbn [alignment] in Hr; cbn [b53_read b53_write mmap_io b53_mmap_ops];
      unfold b53_mmap_write16, b53_mmap_read16, b53_mmap_write32, b53_mmap_read32, b53_mmap_write48, b53_mmap_read48, b53_mmap_write64, b53_mmap_read64;
      [elim Hr; apply Z.mod_1_r | rewrite (H _ Hr); split; reflexivity ..].
Qed.
End Mmap.

(** ** Examples

    Registers of all widths: register [r] of a page has the width of [r] among
    five. *)
Definition reg_file : Type := Z -> Z -> Z.
Definition reg_width (r : Z) : width :=
  match r mod 5 with 0 => W8 | 1 => W16 | 2 => W32 | 3 => W48 | _ => W64 end.
#[export] Instance reg_file_core : RoboCore reg_file.
Proof.
  refine {| core_width _ r := reg_width r;
            core_read p r c := (uwrap (bits (reg_width r)) (c p r), c);
            core_write p r v c := fun p' r' => if (p' =? p) && (r' =? r) then v else c p' r' |}.
  intros p r c. apply uwrap_range. destruct (reg_width r); cbn; lia.
Defined.

(** One register of each width, written, read, and the first read again. *)
Definition some_accesses : list access :=
  [Write 2 0 0xab; Write 2 1 0xabcd; Write 3 2 0xdeadbeef; Write 3 3 0x112233445566; Write 3 4 0x1122334455667788;
   Read 3 4; Read 3 3; Read 3 2; Read 2 1; Read 2 0].
Definition some_answers : list (res Z) :=
  [Ok 0; Ok 0; Ok 0; Ok 0; Ok 0; Ok 0x1122334455667788; Ok 0x112233445566; Ok 0xdeadbeef; Ok 0xabcd; Ok 0xab].

Lemma some_accesses_ok : Forall access_ok some_accesses.
Proof. unfold some_accesses. repeat constructor; vm_compute; intuition discriminate. Qed.

Definition a_pph : pph reg_file := Pph None (fun _ => 0) 0 (fun _ _ => 0).

(** The same on a bus that fails its twenty-second read: it is that of the last data
    word, and the driver takes the error for the register. *)
Definition one_fault (n : nat) : bool := Nat.eqb n 21.
Definition a_flaky : flaky (pph reg_file) := Flaky _ a_pph 0 0.

Lemma mdio_implements_registers_witness :
  (fst (run_all io_do some_accesses (B53Mdio a_pph 0xff)) = Ok some_answers /\
   exists answers s' c', run_all io_do some_accesses (B53Mdio a_pph 0xff) = (Ok answers, s') /\
     core_steps lost_read some_accesses (B53Mdio a_pph 0xff) (pp_core a_pph) answers s' c' /\ md_related s' c' /\ (rp_good -> Forall is_ok answers)) /\
  (let MB := flaky_bus one_fault in let HW := flaky_hw one_fault in
   fst (run_all io_do some_accesses (B53Mdio a_flaky 0xff)) = Ok [Ok 0; Ok 0; Ok 0; Ok 0; Ok 0; Ok 0xfffffffffffffffb; Ok 0x112233445566; Ok 0xdeadbeef; Ok 0xabcd; Ok 0xab] /\
   exists answers s' c', run_all io_do some_accesses (B53Mdio a_flaky 0xff) = (Ok answers, s') /\
     core_steps lost_read some_accesses (B53Mdio a_flaky 0xff) (pp_core a_pph) answers s' c' /\ md_related s' c').
Proof.
  split; [split; [vm_compute; reflexivity |] | intros MB HW; split; [vm_compute; reflexivity |]].
  - apply (mdio_implements_registers some_accesses (B53Mdio a_pph 0xff)); [| exact some_accesses_ok].
    split; [intros i _; split; reflexivity |]. split; [intros H; elim H; reflexivity | reflexivity].
  - destruct (mdio_implements_registers (HW := HW) some_accesses (B53Mdio a_flaky 0xff) (pp_core a_pph)) as (answers & s' & c' & H1 & H2 & H3 & _).
    { split; [intros i _; split; reflexivity |]. split; [intros H; elim H; reflexivity | reflexivity]. }
    { exact some_accesses_ok. }
    exists answers, s', c'. auto.
Defined.

Definition a_bridge : bridge reg_file := Bridge false 0 0 (0, 0) 0 (fun _ _ => 0).
#[local] Instance bridge_3 : Mmio32 (bridge reg_file) := bridge_mmio 3.
#[local] Instance bridge_3_hw : SrabHw (bridge reg_file) reg_file := bridge_hw 3 ltac:(lia).
#[local] Existing Instance b53_srab_ops.


(** A grant on the sixth poll is taken for none, and none at all for a grant. *)
Example sixth_poll_is_refused : fst (@b53_srab_read8 _ (bridge_mmio 5) 2 0 a_bridge) = Err (- EIO).
Proof. vm_compute. reflexivity. Qed.
Example twentieth_poll_is_taken : fst (@b53_srab_read8 _ (bridge_mmio 19) 2 0 a_bridge) = Ok 0.
Proof. vm_compute. reflexivity. Qed.
Example no_grant_is_taken : fst (@b53_srab_request_grant _ (bridge_mmio 1000) a_bridge) = Ok tt.
Proof. vm_compute. reflexivity. Qed.

(** Bytes, in either order. *)
Definition bytes : Type := Z -> Z.
Definition le_word (n : Z) (a : Z) (w : bytes) : Z :=
  if n =? 1 then u8 (w a) else
  if n =? 2 then u8 (w a) + 2 ^ 8 * u8 (w (a + 1))
  else u8 (w a) + 2 ^ 8 * (u8 (w (a + 1)) + 2 ^ 8 * (u8 (w (a + 2)) + 2 ^ 8 * u8 (w (a + 3)))).
(** The bytes of the [n] at [a], turned round. *)
Definition turned (n a : Z) (w : bytes) : bytes := fun b => if (a <=? b) && (b <? a + n) then w (2 * a + n - 1 - b) else w b.
Definition le_store (n a v : Z) (w : bytes) : bytes := fun b => if (a <=? b) && (b <? a + n) then v / 2 ^ (8 * (b - a)) else w b.
#[export] Instance bytes_mmio : MmioAny bytes := {|
  mm_get n big a w := (le_word n a (if big then turned n a w else w), w);
  mm_set n big a v w := let w' := le_store n a v w in if big then turned n a w' else w'
|}.

Lemma le_word_ext n a (w w' : bytes) : a_size n -> (forall b, a <= b < a + n -> w b = w' b) -> le_word n a w = le_word n a w'.
Proof. unfold a_size, le_word. intros [-> | [-> | ->]] H; cbn; rewrite !H by lia; reflexivity. Qed.
Lemma turned_twice n a (w : bytes) b : turned n a (turned n a w) b = w b.
Proof.
  unfold turned. destruct (Z.leb_spec a b); [destruct (Z.ltb_spec b (a + n)) |]; cbn [andb]; try reflexivity.
  replace ((a <=? 2 * a + n - 1 - b) && (2 * a + n - 1 - b <? a + n)) with true by lia. f_equal. lia.
Qed.
Lemma turned_apart m c (w w' : bytes) : (forall b, c <= b < c + m -> w b = w' b) ->
  forall b, c <= b < c + m -> turned m c w b = turned m c w' b.
Proof. intros H b Hb. unfold turned. replace ((c <=? b) && (b <? c + m)) with true by lia. apply H. lia. Qed.
Lemma le_store_word n a v (w : bytes) : a_size n -> 0 <= v < 2 ^ (8 * n) -> le_word n a (le_store n a v w) = v.
Proof.
  intros Hn Hv. transitivity (le_word n 0 (fun b => v / 2 ^ (8 * b))).
  - unfold a_size, le_word, le_store in *. destruct Hn as [-> | [-> | ->]]; cbn [Z.eqb Pos.eqb];
      repeat match goal with |- context [(?x <=? ?y) && ?c] => replace ((x <=? y) && c) with true by lia end;
      repeat first [reflexivity | f_equal; try lia].
  - destruct Hn as [-> | [-> | ->]]; cbn -[Z.div Z.modulo Z.pow] in *; unfold u8, uwrap; change (2 ^ 8) with 256;
      change (2 ^ (8 * 0)) with 1; change (2 ^ (8 * 1)) with 256; change (2 ^ (8 * 2)) with 65536; change (2 ^ (8 * 3)) with 16777216;
      Z.div_mod_to_equations; lia.
Qed.

#[export] Instance bytes_memory : MmioMemory bytes.
Proof.
  split; cbn [mm_get mm_set bytes_mmio fst snd].
  - intros n [|] a v w Hn Hv.
    + rewrite (le_word_ext n a _ (le_store n a v w) Hn) by (intros; apply turned_twice). apply le_store_word; assumption.
    + apply le_store_word; assumption.
  - intros n big a v w m big' b Hn Hm Ha.
    assert (H : forall x, b <= x < b + m -> (let w' := le_store n a v w in if big then turned n a w' else w') x = w x).
    { intros x Hx. unfold apart in Ha. cbv zeta. destruct big; unfold turned, le_store;
        replace ((a <=? x) && (x <? a + n)) with false by lia; reflexivity. }
    apply le_word_ext; [exact Hm |]. intros x Hx. destruct big'; [apply turned_apart; assumption | apply H, Hx].
  - reflexivity.
  - intros n big a w Hn. unfold a_size, le_word in *. cbv zeta.
    destruct Hn as [-> | [-> | ->]]; cbn [Z.eqb Pos.eqb]; change (8 * 1) with 8; change (8 * 2) with 16; change (8 * 4) with 32;
      change (2 ^ 8) with 256; change (2 ^ 16) with 65536; change (2 ^ 32) with 4294967296;
      repeat match goal with |- context [u8 ?x] =>
        let y := fresh "y" in pose proof (u8_range x); set (y := u8 x) in *; clearbody y end; lia.
Qed.

Lemma mmap_registers_witness :
  exists w1 w2, @b53_write _ (b53_mmap_ops true 0) W48 2 0x12 0x112233445566 (fun _ => 0) = (Ok tt, w1) /\
    @b53_read _ (b53_mmap_ops true 0) W48 2 0x12 w1 = (Ok 0x112233445566, w2).
Proof.
  destruct (mmap_registers true 0 W48 2 0x12 0x112233445566 (fun _ : Z => 0) ltac:(split; [discriminate | reflexivity])) as [H _].
  destruct (H ltac:(vm_compute; intuition discriminate)) as (w1 & w2 & H1 & H2 & _). exists w1, w2. split; [exact H1 | exact H2].
Defined.
