(* ===== verification/B53.v ===== *)
(** * The RoboSwitch driver: [b53_common.c]

    One driver for a family of switches.  Its headers [b53_regs.h] and
    [b53_priv.h] are not in the repository: the numbers they define are the
    class [B53Regs], the structure's macros and inline functions the class
    [B53Priv], and nothing is assumed of either here. *)

From S2P Require Import Prelude Text CMonad Regmap SmiCore Mdio B53Io.

Definition ENOTSUPP : Z := 524.

(** [b53_regs.h]: pages, registers and bits; and the numbers of the switches. *)
Class B53Regs := {
  B53_CTRL_PAGE : Z; B53_STAT_PAGE : Z; B53_MGMT_PAGE : Z; B53_ARLIO_PAGE : Z; B53_PVLAN_PAGE : Z; B53_VLAN_PAGE : Z;
  B53_JUMBO_PAGE : Z; B53_MIB_PAGE : Z -> Z; B53_PORT_MII_PAGE : Z -> Z;
  B53_PORT_CTRL : Z -> Z; B53_SWITCH_MODE : Z; B53_PORT_OVERRIDE_CTRL : Z; B53_GMII_PORT_OVERRIDE_CTRL : Z -> Z;
  B53_SOFTRESET : Z; B53_FAST_AGE_CTRL : Z;
  B53_LINK_STAT : Z; B53_DUPLEX_STAT_FE : Z; B53_DUPLEX_STAT_GE : Z; B53_DUPLEX_STAT_63XX : Z; B53_SPEED_STAT : Z;
  B53_STRAP_VALUE : Z; B53_REV_ID_25 : Z;
  B53_GLOBAL_CONFIG : Z; B53_DEVICE_ID : Z; B53_REV_ID : Z;
  B53_VT_ACCESS : Z; B53_VT_ACCESS_9798 : Z; B53_VT_ACCESS_63XX : Z;
  B53_VT_INDEX : Z; B53_VT_INDEX_9798 : Z; B53_VT_INDEX_63XX : Z;
  B53_VT_ENTRY : Z; B53_VT_ENTRY_9798 : Z; B53_VT_ENTRY_63XX : Z;
  B53_PVLAN_PORT_MASK : Z -> Z;
  B53_VLAN_CTRL0 : Z; B53_VLAN_CTRL1 : Z; B53_VLAN_CTRL3 : Z; B53_VLAN_CTRL3_63XX : Z;
  B53_VLAN_CTRL4 : Z; B53_VLAN_CTRL4_25 : Z; B53_VLAN_CTRL4_63XX : Z;
  B53_VLAN_CTRL5 : Z; B53_VLAN_CTRL5_25 : Z; B53_VLAN_CTRL5_63XX : Z;
  B53_VLAN_TABLE_ACCESS_25 : Z; B53_VLAN_TABLE_ACCESS_65 : Z; B53_VLAN_WRITE_25 : Z; B53_VLAN_WRITE_65 : Z;
  B53_VLAN_PORT_DEF_TAG : Z -> Z;
  B53_JUMBO_PORT_MASK : Z; B53_JUMBO_PORT_MASK_63XX : Z; B53_JUMBO_MAX_SIZE : Z; B53_JUMBO_MAX_SIZE_63XX : Z;
  PORT_CTRL_RX_BCST_EN : Z; PORT_CTRL_RX_MCST_EN : Z; PORT_CTRL_RX_UCST_EN : Z; PORT_CTRL_RX_DISABLE : Z; PORT_CTRL_TX_DISABLE : Z;
  SM_SW_FWD_EN : Z; SM_SW_FWD_MODE : Z;
  PORT_OVERRIDE_EN : Z; PORT_OVERRIDE_LINK : Z; PORT_OVERRIDE_FULL_DUPLEX : Z; PORT_OVERRIDE_RX_FLOW : Z; PORT_OVERRIDE_TX_FLOW : Z;
  PORT_OVERRIDE_RV_MII_25 : Z; PORT_OVERRIDE_SPEED_2000M : Z;
  GMII_PO_EN : Z; GMII_PO_LINK : Z; GMII_PO_RX_FLOW : Z; GMII_PO_TX_FLOW : Z;
  GMII_PO_SPEED_10M : Z; GMII_PO_SPEED_100M : Z; GMII_PO_SPEED_1000M : Z; GMII_PO_SPEED_2000M : Z;
  FAST_AGE_DONE : Z; FAST_AGE_DYNAMIC : Z; FAST_AGE_STATIC : Z;
  SPEED_PORT_FE : Z -> Z -> Z; SPEED_PORT_GE : Z -> Z -> Z; SPEED_STAT_10M : Z; SPEED_STAT_100M : Z; SPEED_STAT_1000M : Z;
  SV_GMII_CTRL_115 : Z; GC_RESET_MIB : Z; GC_MIB_AC_EN : Z;
  VTA_START_CMD : Z; VTA_CMD_WRITE : Z; VTA_CMD_CLEAR : Z; VTE_UNTAG_S : Z; VTA_RW_STATE_WR : Z; VTA_RW_OP_EN : Z;
  VA_UNTAG_MASK_25 : Z; VA_UNTAG_S_25 : Z; VA_VALID_25 : Z; VA_VALID_25_R4 : Z; VA_VID_HIGH_S : Z;
  VA_UNTAG_MASK_65 : Z; VA_UNTAG_S_65 : Z; VA_VALID_65 : Z;
  VC0_VLAN_EN : Z; VC0_VID_CHK_EN : Z; VC0_VID_HASH_VID : Z; VC0_RESERVED_1 : Z;
  VC1_RX_MCST_UNTAG_EN : Z; VC1_RX_MCST_FWD_EN : Z; VC1_RX_MCST_TAG_EN : Z; VC3_HIGH_8BIT_EN : Z;
  VC4_ING_VID_CHECK_S : Z; VC4_ING_VID_CHECK_MASK : Z; VC4_ING_VID_VIO_FWD : Z; VC4_ING_VID_VIO_DROP : Z; VC4_ING_VID_VIO_TO_IMP : Z;
  VC5_DROP_VTABLE_MISS : Z; VC5_VID_FFF_EN : Z;
  JMS_MIN_SIZE : Z; JMS_MAX_SIZE : Z; JPM_10_100_JUMBO_EN : Z;
  B53_CPU_PORT : Z; B53_CPU_PORT_25 : Z;
  BCM5325_DEVICE_ID : Z; BCM5365_DEVICE_ID : Z; BCM5395_DEVICE_ID : Z; BCM5397_DEVICE_ID : Z; BCM5398_DEVICE_ID : Z;
  BCM53115_DEVICE_ID : Z; BCM53125_DEVICE_ID : Z; BCM53128_DEVICE_ID : Z; BCM63XX_DEVICE_ID : Z;
  BCM53010_DEVICE_ID : Z; BCM53011_DEVICE_ID : Z; BCM53012_DEVICE_ID : Z; BCM53018_DEVICE_ID : Z; BCM53019_DEVICE_ID : Z
}.

(** Which of the three tables of operations the switch framework is given. *)
Inductive b53_sw_ops := Ops25 | Ops65 | Ops.

(** [struct b53_device], with the part of [struct switch_dev] in it, the
    access to the registers and the board. *)
Record b53_device (W : Type) := B53Device {
  b53_io : W;
  chip_id : Z;
  core_rev : Z;                (* u8 *)
  vta_regs : Z * Z * Z;
  duplex_reg : Z;
  jumbo_pm_reg : Z;
  jumbo_size_reg : Z;
  enabled_ports : Z;           (* u16 *)
  enable_vlan : Z;
  enable_jumbo : Z;
  allow_vid_4095 : Z;
  b53_pvids : list Z;          (* ports[i].pvid *)
  b53_vlans : list (Z * Z);    (* vlans[i].members, vlans[i].untag *)
  reset_gpio : Z;
  sw_name : option string;
  sw_alias : option string;
  sw_cpu_port : Z;
  sw_ports : Z;
  sw_vlans : Z;
  sw_ops : option b53_sw_ops
}.
Arguments B53Device {W}.
Arguments b53_io {W}.
Arguments chip_id {W}.
Arguments core_rev {W}.
Arguments vta_regs {W}.
Arguments duplex_reg {W}.
Arguments jumbo_pm_reg {W}.
Arguments jumbo_size_reg {W}.
Arguments enabled_ports {W}.
Arguments enable_vlan {W}.
Arguments enable_jumbo {W}.
Arguments allow_vid_4095 {W}.
Arguments b53_pvids {W}.
Arguments b53_vlans {W}.
Arguments reset_gpio {W}.
Arguments sw_name {W}.
Arguments sw_alias {W}.
Arguments sw_cpu_port {W}.
Arguments sw_ports {W}.
Arguments sw_vlans {W}.
Arguments sw_ops {W}.

(** [b53_priv.h]: the tests for a kind of switch or port, the macro
    [b53_for_each_port] ([port_from d i]: the port its loop visits first at or
    after [i]), the line of the reset, and what the fields of the structure
    keep of an [int]; and [gpio_set_value] of the kernel. *)
Class B53Priv (W : Type) := {
  is5325 : b53_device W -> bool;
  is5365 : b53_device W -> bool;
  is539x : b53_device W -> bool;
  is531x5 : b53_device W -> bool;
  is63xx : b53_device W -> bool;
  is5301x : b53_device W -> bool;
  is_cpu_port : b53_device W -> Z -> bool;
  is_imp_port : b53_device W -> Z -> bool;
  port_from : b53_device W -> Z -> option Z;
  b53_switch_get_reset_gpio : b53_device W -> Z;
  to_flag : Z -> Z;
  to_ports : Z -> Z;
  to_pvid : Z -> Z;
  gpio_set_value : Z -> Z -> W -> W
}.

(** Fields that change alone. *)
Section Fields.
Context {W : Type}.
Implicit Types d : b53_device W.

Definition with_b53_io (w : W) d := B53Device w (chip_id d) (core_rev d) (vta_regs d) (duplex_reg d) (jumbo_pm_reg d) (jumbo_size_reg d)
  (enabled_ports d) (enable_vlan d) (enable_jumbo d) (allow_vid_4095 d) (b53_pvids d) (b53_vlans d) (reset_gpio d)
  (sw_name d) (sw_alias d) (sw_cpu_port d) (sw_ports d) (sw_vlans d) (sw_ops d).
Definition with_chip (id rev : Z) d := B53Device (b53_io d) id rev (vta_regs d) (duplex_reg d) (jumbo_pm_reg d) (jumbo_size_reg d)
  (enabled_ports d) (enable_vlan d) (enable_jumbo d) (allow_vid_4095 d) (b53_pvids d) (b53_vlans d) (reset_gpio d)
  (sw_name d) (sw_alias d) (sw_cpu_port d) (sw_ports d) (sw_vlans d) (sw_ops d).
Definition with_flags (vlan jumbo vid4095 : Z) d := B53Device (b53_io d) (chip_id d) (core_rev d) (vta_regs d) (duplex_reg d) (jumbo_pm_reg d)
  (jumbo_size_reg d) (enabled_ports d) vlan jumbo vid4095 (b53_pvids d) (b53_vlans d) (reset_gpio d)
  (sw_name d) (sw_alias d) (sw_cpu_port d) (sw_ports d) (sw_vlans d) (sw_ops d).
Definition with_tables (pvids : list Z) (vlans : list (Z * Z)) d := B53Device (b53_io d) (chip_id d) (core_rev d) (vta_regs d) (duplex_reg d)
  (jumbo_pm_reg d) (jumbo_size_reg d) (enabled_ports d) (enable_vlan d) (enable_jumbo d) (allow_vid_4095 d) pvids vlans (reset_gpio d)
  (sw_name d) (sw_alias d) (sw_cpu_port d) (sw_ports d) (sw_vlans d) (sw_ops d).
Definition with_ports (ports cpu n : Z) d := B53Device (b53_io d) (chip_id d) (core_rev d) (vta_regs d) (duplex_reg d) (jumbo_pm_reg d)
  (jumbo_size_reg d) ports (enable_vlan d) (enable_jumbo d) (allow_vid_4095 d) (b53_pvids d) (b53_vlans d) (reset_gpio d)
  (sw_name d) (sw_alias d) cpu n (sw_vlans d) (sw_ops d).
Definition with_alias (a : option string) d := B53Device (b53_io d) (chip_id d) (core_rev d) (vta_regs d) (duplex_reg d) (jumbo_pm_reg d)
  (jumbo_size_reg d) (enabled_ports d) (enable_vlan d) (enable_jumbo d) (allow_vid_4095 d) (b53_pvids d) (b53_vlans d) (reset_gpio d)
  (sw_name d) a (sw_cpu_port d) (sw_ports d) (sw_vlans d) (sw_ops d).
Definition with_reset_gpio (g : Z) d := B53Device (b53_io d) (chip_id d) (core_rev d) (vta_regs d) (duplex_reg d) (jumbo_pm_reg d)
  (jumbo_size_reg d) (enabled_ports d) (enable_vlan d) (enable_jumbo d) (allow_vid_4095 d) (b53_pvids d) (b53_vlans d) g
  (sw_name d) (sw_alias d) (sw_cpu_port d) (sw_ports d) (sw_vlans d) (sw_ops d).
End Fields.

Section Driver.
Context {R : B53Regs} {W : Type} {IO : B53Io W} {H : B53Priv W}.
(** What an uninitialised variable holds, by its name. *)
Variable junk : string -> Z.

Abbreviation MB := (M (b53_device W)).

Definition on_io {A} (m : M W A) : MB A := fun d =>
  let (r, w) := m (b53_io d) in (r, with_b53_io w d).

(** [b53_read8(dev, page, reg, &var);] with the result dropped, and the like. *)
Definition fetch (wd : width) (var : string) (page reg : Z) : MB Z :=
  unchecked (uwrap (bits wd) (junk var)) (on_io (b53_read wd page reg)).
Definition put (wd : width) (page reg v : Z) : MB unit := unchecked tt (on_io (b53_write wd page reg (uwrap (bits wd) v))).

Definition dev : MB (b53_device W) := get_state.

(** [b53_for_each_port(dev, i)] around [body], which gives the loop variable's
    value at its end; [fuel] iterations at most. *)
Fixpoint each_port_from (fuel : nat) (i : Z) (body : Z -> MB Z) : MB unit :=
  match fuel with
  | O => ret tt
  | S fuel' =>
      d <- dev ;;
      match port_from d i with
      | None => ret tt
      | Some j => j' <- body j ;; each_port_from fuel' (j' + 1) body
      end
  end.
Definition each_port (body : Z -> MB Z) : MB unit := each_port_from 17 0 body.

(** ** The VLAN table *)

Definition b53_do_vlan_op (op : Z) : MB unit :=
  d <- dev ;;
  let access := fst (fst (vta_regs d)) in
  put W8 B53_ARLIO_PAGE access (Z.lor VTA_START_CMD op) ;;
  done <- search 10 (fun _ =>
    vta <- fetch W8 "vta" B53_ARLIO_PAGE access ;;
    ret (if cbool (Z.land vta VTA_START_CMD) then None else Some tt)) ;;
  match done with Some _ => ret tt | None => fail EIO end.

Definition b53_set_vlan_entry (vid members untag : Z) : MB unit :=
  d <- dev ;;
  if is5325 d then
    let entry :=
      if cbool members then
        let e := Z.lor (Z.shiftl (Z.land untag VA_UNTAG_MASK_25) VA_UNTAG_S_25) members in
        if 3 <=? core_rev d then Z.lor e (Z.lor VA_VALID_25_R4 (Z.shiftl vid VA_VID_HIGH_S)) else Z.lor e VA_VALID_25
      else 0 in
    put W32 B53_VLAN_PAGE B53_VLAN_WRITE_25 entry ;;
    put W16 B53_VLAN_PAGE B53_VLAN_TABLE_ACCESS_25 (Z.lor (Z.lor vid VTA_RW_STATE_WR) VTA_RW_OP_EN)
  else if is5365 d then
    let entry :=
      if cbool members then
        Z.lor (Z.lor (Z.shiftl (Z.land untag VA_UNTAG_MASK_65) VA_UNTAG_S_65) members) VA_VALID_65
      else 0 in
    put W16 B53_VLAN_PAGE B53_VLAN_WRITE_65 entry ;;
    put W16 B53_VLAN_PAGE B53_VLAN_TABLE_ACCESS_65 (Z.lor (Z.lor vid VTA_RW_STATE_WR) VTA_RW_OP_EN)
  else
    put W16 B53_ARLIO_PAGE (snd (fst (vta_regs d))) vid ;;
    put W32 B53_ARLIO_PAGE (snd (vta_regs d)) (Z.lor (Z.shiftl untag VTE_UNTAG_S) members) ;;
    unchecked tt (b53_do_vlan_op VTA_CMD_WRITE).

Definition b53_set_forwarding (enable : bool) : MB unit :=
  mgmt <- fetch W8 "mgmt" B53_CTRL_PAGE B53_SWITCH_MODE ;;
  put W8 B53_CTRL_PAGE B53_SWITCH_MODE (if enable then Z.lor mgmt SM_SW_FWD_EN else Z.ldiff mgmt SM_SW_FWD_EN).

(** The registers [vc3], [vc4] and [vc5] are kept in, and whether [vc3] has 16 bits. *)
Definition vc_regs (d : b53_device W) : (width * Z) * Z * Z :=
  if is5325 d || is5365 d then ((W8, B53_VLAN_CTRL3), B53_VLAN_CTRL4_25, B53_VLAN_CTRL5_25)
  else if is63xx d then ((W16, B53_VLAN_CTRL3_63XX), B53_VLAN_CTRL4_63XX, B53_VLAN_CTRL5_63XX)
  else ((W16, B53_VLAN_CTRL3), B53_VLAN_CTRL4, B53_VLAN_CTRL5).

Definition b53_enable_vlan (enable : bool) : MB unit :=
  mgmt <- fetch W8 "mgmt" B53_CTRL_PAGE B53_SWITCH_MODE ;;
  vc0 <- fetch W8 "vc0" B53_VLAN_PAGE B53_VLAN_CTRL0 ;;
  vc1 <- fetch W8 "vc1" B53_VLAN_PAGE B53_VLAN_CTRL1 ;;
  d <- dev ;;
  let '((wd3, reg3), reg4, reg5) := vc_regs d in
  vc4 <- unchecked 0 (on_io (b53_read8 B53_VLAN_PAGE reg4)) ;;
  vc5 <- fetch W8 "vc5" B53_VLAN_PAGE reg5 ;;
  let old := is5325 d || is5365 d in
  let mgmt := Z.ldiff mgmt SM_SW_FWD_MODE in
  let vc0 := if enable then
      let v := Z.lor vc0 (Z.lor (Z.lor VC0_VLAN_EN VC0_VID_CHK_EN) VC0_VID_HASH_VID) in
      if is5325 d then Z.ldiff v VC0_RESERVED_1 else v
    else Z.ldiff vc0 (Z.lor (Z.lor VC0_VLAN_EN VC0_VID_CHK_EN) VC0_VID_HASH_VID) in
  let vc1 := if enable then
      let v := Z.lor vc1 (Z.lor VC1_RX_MCST_UNTAG_EN VC1_RX_MCST_FWD_EN) in
      if old then Z.lor v VC1_RX_MCST_TAG_EN else v
    else
      let v := Z.ldiff vc1 (Z.lor VC1_RX_MCST_UNTAG_EN VC1_RX_MCST_FWD_EN) in
      if old then Z.ldiff v VC1_RX_MCST_TAG_EN else v in
  let vc4 := Z.lor (Z.ldiff vc4 VC4_ING_VID_CHECK_MASK)
    (Z.shiftl (if enable then VC4_ING_VID_VIO_DROP else if old then VC4_ING_VID_VIO_FWD else VC4_ING_VID_VIO_TO_IMP) VC4_ING_VID_CHECK_S) in
  let vc5 := if enable then
      let v := Z.lor vc5 VC5_DROP_VTABLE_MISS in
      if old then v else if cbool (allow_vid_4095 d) then Z.lor v VC5_VID_FFF_EN else Z.ldiff v VC5_VID_FFF_EN
    else
      let v := Z.ldiff vc5 VC5_DROP_VTABLE_MISS in
      if old then v else Z.ldiff v VC5_VID_FFF_EN in
  put W8 B53_VLAN_PAGE B53_VLAN_CTRL0 vc0 ;;
  put W8 B53_VLAN_PAGE B53_VLAN_CTRL1 vc1 ;;
  put wd3 B53_VLAN_PAGE reg3 (if is5325 d && enable then VC3_HIGH_8BIT_EN else 0) ;;
  put W8 B53_VLAN_PAGE reg4 vc4 ;;
  put W8 B53_VLAN_PAGE reg5 vc5 ;;
  put W8 B53_CTRL_PAGE B53_SWITCH_MODE mgmt.

Definition b53_set_jumbo (enable allow_10_100 : bool) : MB unit :=
  d <- dev ;;
  if is5325 d || is5365 d then fail EINVAL else
  let port_mask :=
    if enable then (if allow_10_100 then Z.lor (enabled_ports d) JPM_10_100_JUMBO_EN else enabled_ports d) else 0 in
  let max_size := if enable then JMS_MAX_SIZE else JMS_MIN_SIZE in
  put W32 B53_JUMBO_PAGE (jumbo_pm_reg d) port_mask ;;
  on_io (b53_write16 B53_JUMBO_PAGE (jumbo_size_reg d) (u16 max_size)).

Definition b53_flush_arl : MB unit :=
  put W8 B53_CTRL_PAGE B53_FAST_AGE_CTRL (Z.lor (Z.lor FAST_AGE_DONE FAST_AGE_DYNAMIC) FAST_AGE_STATIC) ;;
  done <- search 10 (fun _ =>
    fast_age_ctrl <- fetch W8 "fast_age_ctrl" B53_CTRL_PAGE B53_FAST_AGE_CTRL ;;
    ret (if cbool (Z.land fast_age_ctrl FAST_AGE_DONE) then None else Some tt)) ;;
  match done with Some _ => ret tt | None => fail EINVAL end.

(** The port's row of the port VLANs, and its control register. *)
Definition pvlan_mask_of (d : b53_device W) (i : Z) : Z :=
  if cbool (enable_vlan d) || is_cpu_port d i then 0x1ff
  else if is531x5 d || is5301x d then BIT (sw_cpu_port d)
  else BIT B53_CPU_PORT.

Definition port_ctrl_of (d : b53_device W) (i : Z) : Z :=
  if (chip_id d =? BCM5398_DEVICE_ID) && ((i =? 6) || (i =? 7)) then Z.lor PORT_CTRL_RX_DISABLE PORT_CTRL_TX_DISABLE
  else if i =? B53_CPU_PORT then Z.lor (Z.lor PORT_CTRL_RX_BCST_EN PORT_CTRL_RX_MCST_EN) PORT_CTRL_RX_UCST_EN
  else 0.

(** The loop variable changes in the body: port 5 of the old switches is 8. *)
Definition b53_enable_port (i : Z) : MB Z :=
  d <- dev ;;
  let pvlan_mask := u16 (pvlan_mask_of d i) in
  let i := if (is5325 d || is5365 d) && (i =? B53_CPU_PORT_25) then B53_CPU_PORT else i in
  put W16 B53_PVLAN_PAGE (B53_PVLAN_PORT_MASK i) pvlan_mask ;;
  (if negb (is63xx d) && negb (is5301x d && (i =? 6)) then put W8 B53_CTRL_PAGE (B53_PORT_CTRL i) (port_ctrl_of d i) else ret tt) ;;
  ret i.
Definition b53_enable_ports : MB unit := each_port b53_enable_port.

Definition b53_enable_mib : MB unit :=
  gc <- fetch W8 "gc" B53_MGMT_PAGE B53_GLOBAL_CONFIG ;;
  put W8 B53_MGMT_PAGE B53_GLOBAL_CONFIG (Z.ldiff gc (Z.lor GC_RESET_MIB GC_MIB_AC_EN)).

(** [dev->vlans[i]], [dev->ports[i].pvid]; [EFAULT] outside. *)
Definition vlan_at (i : Z) : MB (Z * Z) :=
  d <- dev ;; if in_array (b53_vlans d) i then ret (geti (0, 0) (b53_vlans d) i) else fail EFAULT.
Definition pvid_at (i : Z) : MB Z :=
  d <- dev ;; if in_array (b53_pvids d) i then ret (geti 0 (b53_pvids d) i) else fail EFAULT.

(** The loops of [b53_apply]: empty entries, entries with members, PVIDs. *)
Definition clear_entries : MB unit :=
  d <- dev ;;
  if is5325 d || is5365 d then loop_acc (Z.to_nat (sw_vlans d - 1)) 1 tt (fun i _ => b53_set_vlan_entry (u16 i) 0 0)
  else unchecked tt (b53_do_vlan_op VTA_CMD_CLEAR).

Definition fill_entries : MB unit :=
  d <- dev ;;
  for_each (sw_vlans d) (fun i =>
    vlan <- vlan_at i ;;
    if cbool (fst vlan) then b53_set_vlan_entry (u16 i) (u16 (fst vlan)) (u16 (snd vlan)) else ret tt).

Definition write_pvids (enabled : bool) : MB unit :=
  each_port (fun i =>
    pvid <- (if enabled then pvid_at i else ret 1) ;;
    put W16 B53_VLAN_PAGE (B53_VLAN_PORT_DEF_TAG i) pvid ;;
    ret i).

Definition b53_apply : MB unit :=
  clear_entries ;;
  d <- dev ;;
  let enabled := cbool (enable_vlan d) in
  b53_enable_vlan enabled ;;
  (if enabled then fill_entries else ret tt) ;;
  write_pvids enabled ;;
  b53_enable_ports ;;
  if negb (is5325 d) && negb (is5365 d) then unchecked tt (b53_set_jumbo (cbool (enable_jumbo d)) true) else ret tt.

(** ** Reset *)

Definition b53_switch_reset_gpio : MB unit :=
  d <- dev ;;
  let gpio := reset_gpio d in
  if gpio <? 0 then ret tt else
  modify (fun d => with_b53_io (gpio_set_value gpio 0 (b53_io d)) d) ;;
  modify (fun d => with_b53_io (gpio_set_value gpio 1 (b53_io d)) d) ;;
  modify (fun d => with_b53_io (io_set_current_page 0xff (b53_io d)) d).

(** A child of the node [ports] of the device tree; [pn_mode]: what the
    variable [mode] holds after [of_get_phy_mode]. *)
Record fixed_link := FixedLink { fl_speed : option Z; fl_full_duplex : bool; fl_pause : bool; fl_asym_pause : bool }.
Record port_node := PortNode { pn_reg : option Z; pn_label : option string; pn_fixed_link : option fixed_link; pn_mode : Z }.
(** The node of the device: its node [ports], and [lede,alias]. *)
Record switch_node := SwitchNode { sn_ports : option (list port_node); sn_alias : option string }.

Variable PHY_INTERFACE_MODE_REVMII : Z.

Definition fixed_link_bits (imp : bool) (fl : fixed_link) : Z :=
  let po := GMII_PO_LINK in
  let po := match fl_speed fl with
    | Some 10 => Z.lor po GMII_PO_SPEED_10M
    | Some 100 => Z.lor po GMII_PO_SPEED_100M
    | Some 2000 => Z.lor (Z.lor po (if imp then PORT_OVERRIDE_SPEED_2000M else GMII_PO_SPEED_2000M)) GMII_PO_SPEED_1000M
    | Some 1000 => Z.lor po GMII_PO_SPEED_1000M
    | _ => po
    end in
  let po := if fl_full_duplex fl then Z.lor po PORT_OVERRIDE_FULL_DUPLEX else po in
  let po := if fl_pause fl then Z.lor po GMII_PO_RX_FLOW else po in
  if fl_asym_pause fl then Z.lor po GMII_PO_TX_FLOW else po.

(** One port with a fixed link: [Some e] ends the loop with that error. *)
Definition b53_configure_port_of (port_num : Z) (fl : fixed_link) (mode : Z) : MB (option Z) :=
  d <- dev ;;
  let po := fixed_link_bits (is_imp_port d port_num) fl in
  if is_imp_port d port_num then
    let rev := is5325 d && (mode =? PHY_INTERFACE_MODE_REVMII) in
    let po := Z.lor po PORT_OVERRIDE_EN in
    let po := if rev then Z.lor po PORT_OVERRIDE_RV_MII_25 else po in
    put W8 B53_CTRL_PAGE B53_PORT_OVERRIDE_CTRL po ;;
    if rev then
      unchecked 0 (on_io (b53_read8 B53_CTRL_PAGE B53_PORT_OVERRIDE_CTRL)) ;;
      ret (Some EINVAL)
    else ret None
  else
    put W8 B53_CTRL_PAGE (B53_GMII_PORT_OVERRIDE_CTRL port_num) (Z.lor po GMII_PO_EN) ;;
    ret None.

Fixpoint configure_ports_loop (ports : list port_node) : MB unit :=
  match ports with
  | [] => ret tt
  | pn :: ports' =>
      r <- match pn_reg pn, pn_fixed_link pn with
           | Some port_num, Some fl => if B53_CPU_PORT <? port_num then ret None else b53_configure_port_of port_num fl (pn_mode pn)
           | _, _ => ret None
           end ;;
      match r with Some e => fail e | None => configure_ports_loop ports' end
  end.
Definition b53_configure_ports_of (node : switch_node) : MB unit :=
  configure_ports_loop (match sn_ports node with Some l => l | None => [] end).

(** [dev->ctrl[reg] |= bits] *)
Definition set_ctrl (var : string) (reg bits : Z) : MB unit :=
  v <- fetch W8 var B53_CTRL_PAGE reg ;; put W8 B53_CTRL_PAGE reg (Z.lor v bits).

Definition b53_configure_ports : MB unit :=
  d <- dev ;;
  let cpu_port := u8 (sw_cpu_port d) in
  let gmii := Z.lor (Z.lor (Z.lor GMII_PO_LINK GMII_PO_RX_FLOW) GMII_PO_TX_FLOW) GMII_PO_EN in
  if is5325 d then
    mii_port_override <- fetch W8 "mii_port_override" B53_CTRL_PAGE B53_PORT_OVERRIDE_CTRL ;;
    if cbool (Z.land mii_port_override PORT_OVERRIDE_RV_MII_25) then ret tt else
    put W8 B53_CTRL_PAGE B53_PORT_OVERRIDE_CTRL (Z.lor mii_port_override PORT_OVERRIDE_RV_MII_25) ;;
    mii_port_override <- unchecked mii_port_override (on_io (b53_read8 B53_CTRL_PAGE B53_PORT_OVERRIDE_CTRL)) ;;
    if cbool (Z.land mii_port_override PORT_OVERRIDE_RV_MII_25) then ret tt else fail EINVAL
  else if is531x5 d && (cpu_port =? B53_CPU_PORT) then
    set_ctrl "mii_port_override" B53_PORT_OVERRIDE_CTRL (Z.lor PORT_OVERRIDE_EN PORT_OVERRIDE_LINK) ;;
    if cbool (Z.land (enabled_ports d) (BIT 5)) then set_ctrl "gmii_po" (u8 (B53_GMII_PORT_OVERRIDE_CTRL 5)) gmii else ret tt
  else if is5301x d then
    if cpu_port =? 8 then
      set_ctrl "mii_port_override" B53_PORT_OVERRIDE_CTRL
        (Z.lor (Z.lor (Z.lor (Z.lor PORT_OVERRIDE_LINK PORT_OVERRIDE_RX_FLOW) PORT_OVERRIDE_TX_FLOW) PORT_OVERRIDE_SPEED_2000M) PORT_OVERRIDE_EN)
    else set_ctrl "gmii_po" (u8 (B53_GMII_PORT_OVERRIDE_CTRL cpu_port)) (Z.lor gmii GMII_PO_SPEED_2000M)
  else ret tt.

(** [node]: the node of the device in the device tree, if there is one. *)
Definition b53_switch_reset (node : option switch_node) : MB unit :=
  b53_switch_reset_gpio ;;
  d <- dev ;;
  (if is539x d then
     put W8 B53_CTRL_PAGE B53_SOFTRESET 0x83 ;;
     put W8 B53_CTRL_PAGE B53_SOFTRESET 0x00
   else ret tt) ;;
  mgmt <- fetch W8 "mgmt" B53_CTRL_PAGE B53_SWITCH_MODE ;;
  (if cbool (Z.land mgmt SM_SW_FWD_EN) then ret tt else
   let mgmt := Z.lor (Z.ldiff mgmt SM_SW_FWD_MODE) SM_SW_FWD_EN in
   put W8 B53_CTRL_PAGE B53_SWITCH_MODE mgmt ;;
   mgmt <- unchecked (u8 mgmt) (on_io (b53_read8 B53_CTRL_PAGE B53_SWITCH_MODE)) ;;
   if cbool (Z.land mgmt SM_SW_FWD_EN) then ret tt else fail EINVAL) ;;
  b53_enable_ports ;;
  match node with Some n => b53_configure_ports_of n | None => b53_configure_ports end ;;
  b53_enable_mib ;;
  b53_flush_arl.

(** ** The requests of the switch framework *)

Variable tagged_flag : Z.  (* [SWITCH_PORT_FLAG_TAGGED] *)

Definition b53_global_get_vlan_enable : MB Z := d <- dev ;; ret (enable_vlan d).
Definition b53_global_set_vlan_enable (i : Z) : MB unit := modify (fun d => with_flags (to_flag i) (enable_jumbo d) (allow_vid_4095 d) d).
Definition b53_global_get_jumbo_enable : MB Z := d <- dev ;; ret (enable_jumbo d).
Definition b53_global_set_jumbo_enable (i : Z) : MB unit := modify (fun d => with_flags (enable_vlan d) (to_flag i) (allow_vid_4095 d) d).
Definition b53_global_get_4095_enable : MB Z := d <- dev ;; ret (allow_vid_4095 d).
Definition b53_global_set_4095_enable (i : Z) : MB unit := modify (fun d => with_flags (enable_vlan d) (enable_jumbo d) (to_flag i) d).

Definition b53_global_get_ports : MB string := d <- dev ;; ret ("0x" +:+ hex_padded 4 (enabled_ports d)).

Definition b53_port_get_pvid (port : Z) : MB Z := pvid_at port.
(** [priv->ports[port].pvid = val;] *)
Definition set_pvid (port v : Z) : MB unit :=
  d <- dev ;;
  if in_array (b53_pvids d) port then modify (fun d => with_tables (seti (b53_pvids d) port (to_pvid v)) (b53_vlans d) d)
  else fail EFAULT.
Definition b53_port_set_pvid (port v : Z) : MB unit :=
  d <- dev ;;
  if (15 <? v) && is5325 d then fail EINVAL else
  if (v =? 4095) && negb (cbool (allow_vid_4095 d)) then fail EINVAL else
  set_pvid port v.

Definition b53_vlan_get_ports (port_vlan : Z) : MB (list switch_port) :=
  vlan <- vlan_at port_vlan ;;
  if negb (cbool (fst vlan)) then ret [] else
  d <- dev ;;
  loop_acc (Z.to_nat (sw_ports d)) 0 [] (fun i l =>
    if negb (cbool (Z.land (fst vlan) (BIT i))) then ret l else
    ret (l ++ [(i, if negb (cbool (Z.land (snd vlan) (BIT i))) then BIT tagged_flag else 0)])).

(** [*vlan = (members, untag);] *)
Definition set_vlan_at (i : Z) (v : Z * Z) : MB unit :=
  d <- dev ;;
  if in_array (b53_vlans d) i then modify (fun d => with_tables (b53_pvids d) (seti (b53_vlans d) i v) d) else fail EFAULT.

Fixpoint set_ports_loop (port_vlan : Z) (ports : list switch_port) : MB unit :=
  match ports with
  | [] => ret tt
  | (id, flags) :: ports' =>
      vlan <- vlan_at port_vlan ;;
      set_vlan_at port_vlan (to_ports (Z.lor (fst vlan) (BIT id)), snd vlan) ;;
      (if negb (cbool (Z.land flags (BIT tagged_flag))) then
         vlan <- vlan_at port_vlan ;;
         set_vlan_at port_vlan (fst vlan, to_ports (Z.lor (snd vlan) (BIT id))) ;;
         set_pvid id port_vlan
       else ret tt) ;;
      set_ports_loop port_vlan ports'
  end.

Definition b53_vlan_set_ports (port_vlan : Z) (ports : list switch_port) : MB unit :=
  d <- dev ;;
  if (port_vlan =? 0) && negb (is5325 d) && negb (is5365 d) then fail EINVAL else
  if (port_vlan =? 4095) && negb (cbool (allow_vid_4095 d)) then fail EINVAL else
  set_vlan_at port_vlan (0, 0) ;;
  set_ports_loop port_vlan ports ;;
  vlan <- vlan_at port_vlan ;;
  set_vlan_at port_vlan (to_ports (Z.land (fst vlan) (enabled_ports d)), to_ports (Z.land (snd vlan) (enabled_ports d))).

(** [struct switch_port_link] before and after. *)
Record b53_link := B53Link { bl_link : Z; bl_duplex : Z; bl_aneg : Z; bl_speed : Z }.
Variables SWITCH_PORT_SPEED_10 SWITCH_PORT_SPEED_100 SWITCH_PORT_SPEED_1000 : Z.

Definition b53_port_get_link (port : Z) (link : b53_link) : MB b53_link :=
  d <- dev ;;
  let old := is5325 d || is5365 d in
  if is_cpu_port d port then
    ret (B53Link 1 1 0 (if old then SWITCH_PORT_SPEED_100 else SWITCH_PORT_SPEED_1000))
  else if cbool (Z.land (enabled_ports d) (BIT port)) then
    lnk <- fetch W16 "lnk" B53_STAT_PAGE B53_LINK_STAT ;;
    duplex <- fetch W16 "duplex" B53_STAT_PAGE (duplex_reg d) ;;
    let lnk := Z.land (Z.shiftr lnk port) 1 in
    let duplex := Z.land (Z.shiftr duplex port) 1 in
    speed <- (if old then
                tmp <- fetch W16 "tmp" B53_STAT_PAGE B53_SPEED_STAT ;; ret (u32 (SPEED_PORT_FE tmp port))
              else
                speed <- fetch W32 "speed" B53_STAT_PAGE B53_SPEED_STAT ;; ret (u32 (SPEED_PORT_GE speed port))) ;;
    ret (if cbool lnk then
           B53Link lnk duplex 1
             (if speed =? SPEED_STAT_10M then SWITCH_PORT_SPEED_10
              else if speed =? SPEED_STAT_100M then SWITCH_PORT_SPEED_100
              else if speed =? SPEED_STAT_1000M then SWITCH_PORT_SPEED_1000 else bl_speed link)
         else B53Link lnk (bl_duplex link) 1 (bl_speed link))
  else ret (B53Link 0 (bl_duplex link) (bl_aneg link) (bl_speed link)).

(** [generic]: [switch_generic_set_link] of the framework. *)
Definition b53_port_set_link (generic : Z -> b53_link -> MB Z) (port : Z) (link : b53_link) : MB Z :=
  d <- dev ;;
  if is63xx d then fail ENOTSUPP else
  if port =? sw_cpu_port d then fail EINVAL else
  if negb (cbool (Z.land (BIT port) (enabled_ports d))) then fail EINVAL else
  if (bl_speed link =? SWITCH_PORT_SPEED_1000) && (is5325 d || is5365 d) then fail EINVAL else
  if (bl_speed link =? SWITCH_PORT_SPEED_1000) && negb (cbool (bl_duplex link)) then fail EINVAL else
  generic port link.

Definition b53_phy_read16 (addr reg : Z) : MB Z :=
  match io_phy_read16 with
  | Some read => on_io (read addr (u8 reg))
  | None => on_io (b53_read16 (B53_PORT_MII_PAGE addr) (u8 reg))
  end.
Definition b53_phy_write16 (addr reg value : Z) : MB unit :=
  match io_phy_write16 with
  | Some write => on_io (write addr (u8 reg) (u16 value))
  | None => on_io (b53_write16 (B53_PORT_MII_PAGE addr) (u8 reg) (u16 value))
  end.

Definition b53_global_reset_switch (node : option switch_node) : MB unit :=
  modify (with_flags 0 0 0) ;;
  d <- dev ;;
  modify (with_tables (repeat 0 (Z.to_nat (sw_ports d))) (repeat (0, 0) (Z.to_nat (sw_vlans d)))) ;;
  b53_switch_reset node.

Definition b53_global_apply_config : MB unit :=
  b53_set_forwarding false ;;
  unchecked tt b53_apply ;;
  b53_set_forwarding true.

Definition b53_global_reset_mib : MB unit :=
  gc <- fetch W8 "gc" B53_MGMT_PAGE B53_GLOBAL_CONFIG ;;
  put W8 B53_MGMT_PAGE B53_GLOBAL_CONFIG (Z.lor gc GC_RESET_MIB) ;;
  put W8 B53_MGMT_PAGE B53_GLOBAL_CONFIG (Z.ldiff gc GC_RESET_MIB).
End Driver.

(** ** Counters *)

Definition B53_BUF_SIZE : Z := 1188.

Record b53_mib_desc := MibDesc { mib_size : Z; mib_offset : Z; mib_desc_name : string }.

(** The empty entry at the end of each table is the end of the list. *)
Definition b53_mibs_65 : list b53_mib_desc := [
  MibDesc 8 0x00 "TxOctets"; MibDesc 4 0x08 "TxDropPkts"; MibDesc 4 0x10 "TxBroadcastPkts";
  MibDesc 4 0x14 "TxMulticastPkts"; MibDesc 4 0x18 "TxUnicastPkts"; MibDesc 4 0x1c "TxCollisions";
  MibDesc 4 0x20 "TxSingleCollision"; MibDesc 4 0x24 "TxMultipleCollision"; MibDesc 4 0x28 "TxDeferredTransmit";
  MibDesc 4 0x2c "TxLateCollision"; MibDesc 4 0x30 "TxExcessiveCollision"; MibDesc 4 0x38 "TxPausePkts";
  MibDesc 8 0x44 "RxOctets"; MibDesc 4 0x4c "RxUndersizePkts"; MibDesc 4 0x50 "RxPausePkts"; MibDesc 4 0x54 "Pkts64Octets";
  MibDesc 4 0x58 "Pkts65to127Octets"; MibDesc 4 0x5c "Pkts128to255Octets"; MibDesc 4 0x60 "Pkts256to511Octets";
  MibDesc 4 0x64 "Pkts512to1023Octets"; MibDesc 4 0x68 "Pkts1024to1522Octets"; MibDesc 4 0x6c "RxOversizePkts";
  MibDesc 4 0x70 "RxJabbers"; MibDesc 4 0x74 "RxAlignmentErrors"; MibDesc 4 0x78 "RxFCSErrors";
  MibDesc 8 0x7c "RxGoodOctets"; MibDesc 4 0x84 "RxDropPkts"; MibDesc 4 0x88 "RxUnicastPkts";
  MibDesc 4 0x8c "RxMulticastPkts"; MibDesc 4 0x90 "RxBroadcastPkts"; MibDesc 4 0x94 "RxSAChanges";
  MibDesc 4 0x98 "RxFragments"].

Definition b53_mibs_63xx : list b53_mib_desc := [
  MibDesc 8 0x00 "TxOctets"; MibDesc 4 0x08 "TxDropPkts"; MibDesc 4 0x0c "TxQoSPkts"; MibDesc 4 0x10 "TxBroadcastPkts";
  MibDesc 4 0x14 "TxMulticastPkts"; MibDesc 4 0x18 "TxUnicastPkts"; MibDesc 4 0x1c "TxCollisions";
  MibDesc 4 0x20 "TxSingleCollision"; MibDesc 4 0x24 "TxMultipleCollision"; MibDesc 4 0x28 "TxDeferredTransmit";
  MibDesc 4 0x2c "TxLateCollision"; MibDesc 4 0x30 "TxExcessiveCollision"; MibDesc 4 0x38 "TxPausePkts";
  MibDesc 8 0x3c "TxQoSOctets"; MibDesc 8 0x44 "RxOctets"; MibDesc 4 0x4c "RxUndersizePkts"; MibDesc 4 0x50 "RxPausePkts";
  MibDesc 4 0x54 "Pkts64Octets"; MibDesc 4 0x58 "Pkts65to127Octets"; MibDesc 4 0x5c "Pkts128to255Octets";
  MibDesc 4 0x60 "Pkts256to511Octets"; MibDesc 4 0x64 "Pkts512to1023Octets"; MibDesc 4 0x68 "Pkts1024to1522Octets";
  MibDesc 4 0x6c "RxOversizePkts"; MibDesc 4 0x70 "RxJabbers"; MibDesc 4 0x74 "RxAlignmentErrors";
  MibDesc 4 0x78 "RxFCSErrors"; MibDesc 8 0x7c "RxGoodOctets"; MibDesc 4 0x84 "RxDropPkts"; MibDesc 4 0x88 "RxUnicastPkts";
  MibDesc 4 0x8c "RxMulticastPkts"; MibDesc 4 0x90 "RxBroadcastPkts"; MibDesc 4 0x94 "RxSAChanges";
  MibDesc 4 0x98 "RxFragments"; MibDesc 4 0xa0 "RxSymbolErrors"; MibDesc 4 0xa4 "RxQoSPkts"; MibDesc 8 0xa8 "RxQoSOctets";
  MibDesc 4 0xb0 "Pkts1523to2047Octets"; MibDesc 4 0xb4 "Pkts2048to4095Octets"; MibDesc 4 0xb8 "Pkts4096to8191Octets";
  MibDesc 4 0xbc "Pkts8192to9728Octets"; MibDesc 4 0xc0 "RxDiscarded"].

Definition b53_mibs : list b53_mib_desc := [
  MibDesc 8 0x00 "TxOctets"; MibDesc 4 0x08 "TxDropPkts"; MibDesc 4 0x10 "TxBroadcastPkts";
  MibDesc 4 0x14 "TxMulticastPkts"; MibDesc 4 0x18 "TxUnicastPkts"; MibDesc 4 0x1c "TxCollisions";
  MibDesc 4 0x20 "TxSingleCollision"; MibDesc 4 0x24 "TxMultipleCollision"; MibDesc 4 0x28 "TxDeferredTransmit";
  MibDesc 4 0x2c "TxLateCollision"; MibDesc 4 0x30 "TxExcessiveCollision"; MibDesc 4 0x38 "TxPausePkts";
  MibDesc 8 0x50 "RxOctets"; MibDesc 4 0x58 "RxUndersizePkts"; MibDesc 4 0x5c "RxPausePkts"; MibDesc 4 0x60 "Pkts64Octets";
  MibDesc 4 0x64 "Pkts65to127Octets"; MibDesc 4 0x68 "Pkts128to255Octets"; MibDesc 4 0x6c "Pkts256to511Octets";
  MibDesc 4 0x70 "Pkts512to1023Octets"; MibDesc 4 0x74 "Pkts1024to1522Octets"; MibDesc 4 0x78 "RxOversizePkts";
  MibDesc 4 0x7c "RxJabbers"; MibDesc 4 0x80 "RxAlignmentErrors"; MibDesc 4 0x84 "RxFCSErrors";
  MibDesc 8 0x88 "RxGoodOctets"; MibDesc 4 0x90 "RxDropPkts"; MibDesc 4 0x94 "RxUnicastPkts";
  MibDesc 4 0x98 "RxMulticastPkts"; MibDesc 4 0x9c "RxBroadcastPkts"; MibDesc 4 0xa0 "RxSAChanges";
  MibDesc 4 0xa4 "RxFragments"; MibDesc 4 0xa8 "RxJumboPkts"; MibDesc 4 0xac "RxSymbolErrors"; MibDesc 4 0xc0 "RxDiscarded"].

Definition B63XX_MIB_TXB_ID : Z := 0.
Definition B63XX_MIB_RXB_ID : Z := 14.
Definition B53XX_MIB_TXB_ID : Z := 0.
Definition B53XX_MIB_RXB_ID : Z := 12.

(** [len += snprintf(dev->buf + len, B53_BUF_SIZE - len, ...)]: what does not
    fit is cut but counted; with [len] past the end the size wraps to one the
    kernel refuses, and nothing is printed. *)
Definition mib_emit (text : string) (acc : Z * string) : Z * string :=
  let (len, buf) := acc in
  let size := B53_BUF_SIZE - len in
  if size <? 0 then acc
  else (len + Z.of_nat (String.length text), buf +:+ String.substring 0 (Z.to_nat (size - 1)) text).

Definition mib_line (m : b53_mib_desc) (v : Z) : string :=
  pad_right 20 (mib_desc_name m) +:+ ": " +:+ decimal v +:+ newline.

Section Counters.
Context {R : B53Regs} {W : Type} {IO : B53Io W} {H : B53Priv W}.
Variable junk : string -> Z.

(** The table of the switch, the page number of the port, and the indices of
    the counters of bytes sent and received. *)
Definition mibs_of (d : b53_device W) (port : Z) : list b53_mib_desc * Z * (Z * Z) :=
  if is5365 d then (b53_mibs_65, if port =? 5 then 8 else port, (B53XX_MIB_TXB_ID, B53XX_MIB_RXB_ID))
  else if is63xx d then (b53_mibs_63xx, port, (B63XX_MIB_TXB_ID, B63XX_MIB_RXB_ID))
  else (b53_mibs, port, (B53XX_MIB_TXB_ID, B53XX_MIB_RXB_ID)).

Definition mib_fetch (wide : bool) (port offset : Z) : M (b53_device W) Z :=
  if wide then fetch junk W64 "val" (B53_MIB_PAGE port) offset else fetch junk W32 "val32" (B53_MIB_PAGE port) offset.

Fixpoint print_mibs (port : Z) (mibs : list b53_mib_desc) (acc : Z * string) : M (b53_device W) (Z * string) :=
  match mibs with
  | [] => ret acc
  | m :: mibs' =>
      v <- mib_fetch (mib_size m =? 8) port (mib_offset m) ;;
      print_mibs port mibs' (mib_emit (mib_line m v) acc)
  end.

(** The length handed on, and what is in the buffer. *)
Definition b53_port_get_mib (port : Z) : M (b53_device W) (Z * string) :=
  d <- dev ;;
  if negb (cbool (Z.land (BIT port) (enabled_ports d))) then fail 1 else
  let '(mibs, port, _) := mibs_of d port in
  print_mibs port mibs (0, EmptyString).

Definition b53_port_get_stats (port : Z) : M (b53_device W) (Z * Z) :=
  d <- dev ;;
  if negb (cbool (Z.land (BIT port) (enabled_ports d))) then fail EINVAL else
  let '(mibs, port, (txb_id, rxb_id)) := mibs_of d port in
  let wide := match mibs with m :: _ => mib_size m =? 8 | [] => false end in
  let offset i := match nth_error mibs (Z.to_nat i) with Some m => mib_offset m | None => 0 end in
  txb <- mib_fetch wide port (offset txb_id) ;;
  rxb <- mib_fetch wide port (offset rxb_id) ;;
  ret (txb, rxb).
End Counters.

(** ** The attributes and operations of the switch framework *)

Inductive attr_value := AttrInt (i : Z) | AttrText (len : Z) (text : string).

(** [struct switch_attr] of the switch, and of a port. *)
Record b53_attr (W : Type) := B53Attr {
  at_name : string; at_description : string; at_max : Z;
  at_set : option (Z -> M (b53_device W) unit); at_get : option (M (b53_device W) attr_value)
}.
Arguments B53Attr {W}.
Record b53_port_attr (W : Type) := B53PortAttr { pa_name : string; pa_description : string; pa_get : Z -> M (b53_device W) attr_value }.
Arguments B53PortAttr {W}.

Section Attributes.
Context {R : B53Regs} {W : Type} {IO : B53Io W} {H : B53Priv W}.
Variable junk : string -> Z.

Definition get_int (m : M (b53_device W) Z) : M (b53_device W) attr_value := v <- m ;; ret (AttrInt v).
Definition get_text (m : M (b53_device W) string) : M (b53_device W) attr_value :=
  t <- m ;; ret (AttrText (Z.of_nat (String.length t)) t).

Definition b53_global_ops_25 : list (b53_attr W) := [
  B53Attr "enable_vlan" "Enable VLAN mode" 1 (Some b53_global_set_vlan_enable) (Some (get_int b53_global_get_vlan_enable));
  B53Attr "ports" "Available ports (as bitmask)" 0 None (Some (get_text b53_global_get_ports))].
Definition b53_global_ops_65 : list (b53_attr W) := [
  B53Attr "enable_vlan" "Enable VLAN mode" 1 (Some b53_global_set_vlan_enable) (Some (get_int b53_global_get_vlan_enable));
  B53Attr "ports" "Available ports (as bitmask)" 0 None (Some (get_text b53_global_get_ports));
  B53Attr "reset_mib" "Reset MIB counters" 0 (Some (fun _ => b53_global_reset_mib junk)) None].
Definition b53_global_ops : list (b53_attr W) := [
  B53Attr "enable_vlan" "Enable VLAN mode" 1 (Some b53_global_set_vlan_enable) (Some (get_int b53_global_get_vlan_enable));
  B53Attr "ports" "Available Ports (as bitmask)" 0 None (Some (get_text b53_global_get_ports));
  B53Attr "reset_mib" "Reset MIB counters" 0 (Some (fun _ => b53_global_reset_mib junk)) None;
  B53Attr "enable_jumbo" "Enable Jumbo Frames" 1 (Some b53_global_set_jumbo_enable) (Some (get_int b53_global_get_jumbo_enable));
  B53Attr "allow_vid_4095" "Allow VID 4095" 1 (Some b53_global_set_4095_enable) (Some (get_int b53_global_get_4095_enable))].
Definition b53_port_ops : list (b53_port_attr W) := [
  B53PortAttr "mib" "Get port's MIB counters" (fun port => m <- b53_port_get_mib junk port ;; ret (AttrText (fst m) (snd m)))].
Definition b53_no_ops {A} : list A := [].

(** The attributes of the switch, of its ports and of its VLANs in each of the
    tables; the other operations are the same in all three. *)
Definition b53_switch_ops_of (ops : b53_sw_ops) : list (b53_attr W) * list (b53_port_attr W) * list (b53_attr W) :=
  match ops with
  | Ops25 => (b53_global_ops_25, b53_no_ops, b53_no_ops)
  | Ops65 => (b53_global_ops_65, b53_port_ops, b53_no_ops)
  | Ops => (b53_global_ops, b53_port_ops, b53_no_ops)
  end.
End Attributes.

(** ** Start-up *)

Record b53_chip_data := ChipData {
  cd_chip_id : Z; cd_dev_name : string; cd_alias : string; cd_vlans : Z; cd_enabled_ports : Z; cd_cpu_port : Z;
  cd_vta_regs : Z * Z * Z; cd_duplex_reg : Z; cd_jumbo_pm_reg : Z; cd_jumbo_size_reg : Z; cd_sw_ops : b53_sw_ops
}.

Section Startup.
Context {R : B53Regs} {W : Type} {IO : B53Io W} {H : B53Priv W}.
Variable junk : string -> Z.
Variable PHY_INTERFACE_MODE_REVMII : Z.

Abbreviation MB := (M (b53_device W)).

Definition B53_VTA_REGS : Z * Z * Z := (B53_VT_ACCESS, B53_VT_INDEX, B53_VT_ENTRY).
Definition B53_VTA_REGS_9798 : Z * Z * Z := (B53_VT_ACCESS_9798, B53_VT_INDEX_9798, B53_VT_ENTRY_9798).
Definition B53_VTA_REGS_63XX : Z * Z * Z := (B53_VT_ACCESS_63XX, B53_VT_INDEX_63XX, B53_VT_ENTRY_63XX).

Definition b53_switch_chips : list b53_chip_data := [
  ChipData BCM5325_DEVICE_ID "BCM5325" "bcm5325" 16 0x1f B53_CPU_PORT_25 (0, 0, 0) B53_DUPLEX_STAT_FE 0 0 Ops25;
  ChipData BCM5365_DEVICE_ID "BCM5365" "bcm5365" 256 0x1f B53_CPU_PORT_25 (0, 0, 0) B53_DUPLEX_STAT_FE 0 0 Ops65;
  ChipData BCM5395_DEVICE_ID "BCM5395" "bcm5395" 4096 0x1f B53_CPU_PORT B53_VTA_REGS B53_DUPLEX_STAT_GE B53_JUMBO_PORT_MASK B53_JUMBO_MAX_SIZE Ops;
  ChipData BCM5397_DEVICE_ID "BCM5397" "bcm5397" 4096 0x1f B53_CPU_PORT B53_VTA_REGS_9798 B53_DUPLEX_STAT_GE B53_JUMBO_PORT_MASK B53_JUMBO_MAX_SIZE Ops;
  ChipData BCM5398_DEVICE_ID "BCM5398" "bcm5398" 4096 0x7f B53_CPU_PORT B53_VTA_REGS_9798 B53_DUPLEX_STAT_GE B53_JUMBO_PORT_MASK B53_JUMBO_MAX_SIZE Ops;
  ChipData BCM53115_DEVICE_ID "BCM53115" "bcm53115" 4096 0x1f B53_CPU_PORT B53_VTA_REGS B53_DUPLEX_STAT_GE B53_JUMBO_PORT_MASK B53_JUMBO_MAX_SIZE Ops;
  ChipData BCM53125_DEVICE_ID "BCM53125" "bcm53125" 4096 0x1f B53_CPU_PORT B53_VTA_REGS B53_DUPLEX_STAT_GE B53_JUMBO_PORT_MASK B53_JUMBO_MAX_SIZE Ops;
  ChipData BCM53128_DEVICE_ID "BCM53128" "bcm53128" 4096 0x1ff B53_CPU_PORT B53_VTA_REGS B53_DUPLEX_STAT_GE B53_JUMBO_PORT_MASK B53_JUMBO_MAX_SIZE Ops;
  ChipData BCM63XX_DEVICE_ID "BCM63xx" "bcm63xx" 4096 0 B53_CPU_PORT B53_VTA_REGS_63XX B53_DUPLEX_STAT_63XX B53_JUMBO_PORT_MASK_63XX B53_JUMBO_MAX_SIZE_63XX Ops;
  ChipData BCM53010_DEVICE_ID "BCM53010" "bcm53011" 4096 0x1f B53_CPU_PORT_25 B53_VTA_REGS B53_DUPLEX_STAT_GE B53_JUMBO_PORT_MASK B53_JUMBO_MAX_SIZE Ops;
  ChipData BCM53011_DEVICE_ID "BCM53011" "bcm53011" 4096 0x1bf B53_CPU_PORT_25 B53_VTA_REGS B53_DUPLEX_STAT_GE B53_JUMBO_PORT_MASK B53_JUMBO_MAX_SIZE Ops;
  ChipData BCM53012_DEVICE_ID "BCM53012" "bcm53011" 4096 0x1bf B53_CPU_PORT_25 B53_VTA_REGS B53_DUPLEX_STAT_GE B53_JUMBO_PORT_MASK B53_JUMBO_MAX_SIZE Ops;
  ChipData BCM53018_DEVICE_ID "BCM53018" "bcm53018" 4096 0x1f B53_CPU_PORT_25 B53_VTA_REGS B53_DUPLEX_STAT_GE B53_JUMBO_PORT_MASK B53_JUMBO_MAX_SIZE Ops;
  ChipData BCM53019_DEVICE_ID "BCM53019" "bcm53019" 4096 0x1f B53_CPU_PORT_25 B53_VTA_REGS B53_DUPLEX_STAT_GE B53_JUMBO_PORT_MASK B53_JUMBO_MAX_SIZE Ops].

(** The first entry for the switch goes into the device; [jumbo_size_reg] is
    not among the fields that are copied. *)
Definition apply_chip (c : b53_chip_data) (d : b53_device W) : b53_device W :=
  B53Device (b53_io d) (chip_id d) (core_rev d) (cd_vta_regs c) (cd_duplex_reg c) (cd_jumbo_pm_reg c) (jumbo_size_reg d)
    (if cbool (enabled_ports d) then enabled_ports d else cd_enabled_ports c)
    (enable_vlan d) (enable_jumbo d) (allow_vid_4095 d) (b53_pvids d) (b53_vlans d) (reset_gpio d)
    (Some (cd_dev_name c)) (match sw_alias d with Some a => Some a | None => Some (cd_alias c) end)
    (cd_cpu_port c) (sw_ports d) (cd_vlans c) (Some (cd_sw_ops c)).

Fixpoint find_chip (chips : list b53_chip_data) (d : b53_device W) : b53_device W :=
  match chips with
  | [] => d
  | c :: chips' => if cd_chip_id c =? chip_id d then apply_chip c d else find_chip chips' d
  end.

(** The ports of the device tree, and the one labelled [cpu]; [port_num] is a
    [u32], [ports] a [u16]. *)
Fixpoint init_of_loop (nodes : list port_node) (ports cpu : Z) : Z * Z :=
  match nodes with
  | [] => (ports, cpu)
  | pn :: nodes' =>
      match pn_reg pn with
      | None => init_of_loop nodes' ports cpu
      | Some port_num =>
          if B53_CPU_PORT <? port_num then init_of_loop nodes' ports cpu
          else init_of_loop nodes' (u16 (Z.lor ports (BIT port_num)))
                 (match pn_label pn with Some l => if (l =? "cpu")%string then port_num else cpu | None => cpu end)
      end
  end.

Definition b53_switch_init_of (node : switch_node) : MB unit :=
  match sn_ports node with
  | None => fail EINVAL
  | Some nodes =>
      d <- dev ;;
      let (ports, cpu) := init_of_loop nodes 0 (sw_cpu_port d) in
      modify (with_ports ports cpu (sw_ports d)) ;;
      match sn_alias node with Some a => modify (with_alias (Some a)) | None => ret tt end
  end.

(** The number of the highest bit that is set, counted from one. *)
Definition fls (x : Z) : Z := if x <=? 0 then 0 else Z.log2 x + 1.

(** [bcm47xx]: [CONFIG_BCM47XX]; [alloc]: the three allocations succeed;
    [request]: what requesting the line of the reset returns. *)
Definition b53_switch_init (bcm47xx : bool) (node : option switch_node) (alloc : bool * bool * bool) (request : Z) : MB unit :=
  modify (find_chip b53_switch_chips) ;;
  d <- dev ;;
  if match sw_name d with Some _ => false | None => true end then fail EINVAL else
  (if is5325 d then
     vc4 <- fetch junk W8 "vc4" B53_VLAN_PAGE B53_VLAN_CTRL4_25 ;;
     let v := Z.land vc4 3 in
     if v =? 1 then ret tt
     else if v =? 3 then modify (fun d => with_ports (Z.ldiff (enabled_ports d) (BIT 4)) (sw_cpu_port d) (sw_ports d) d)
     else if bcm47xx then ret tt else fail EINVAL
   else if chip_id d =? BCM53115_DEVICE_ID then
     strap_value <- unchecked (u64 (junk "strap_value")) (on_io (b53_read48 B53_STAT_PAGE B53_STRAP_VALUE)) ;;
     if cbool (Z.land strap_value SV_GMII_CTRL_115) then modify (fun d => with_ports (enabled_ports d) 5 (sw_ports d) d) else ret tt
   else ret tt) ;;
  match node with Some n => b53_switch_init_of n | None => ret tt end ;;
  modify (fun d => let p := u16 (Z.lor (enabled_ports d) (BIT (sw_cpu_port d))) in with_ports p (sw_cpu_port d) (fls p) d) ;;
  d <- dev ;;
  let '(a1, a2, a3) := alloc in
  if negb a1 then fail ENOMEM else
  modify (fun d => with_tables (repeat 0 (Z.to_nat (sw_ports d))) (b53_vlans d) d) ;;
  if negb a2 then fail ENOMEM else
  modify (fun d => with_tables (b53_pvids d) (repeat (0, 0) (Z.to_nat (sw_vlans d))) d) ;;
  if negb a3 then fail ENOMEM else
  modify (fun d => with_reset_gpio (b53_switch_get_reset_gpio d) d) ;;
  d <- dev ;;
  if (0 <=? reset_gpio d) && cbool request then (fun d => (Err request, d)) else
  b53_switch_reset junk PHY_INTERFACE_MODE_REVMII node.

Definition b53_switch_detect : MB unit :=
  id8 <- on_io (b53_read8 B53_MGMT_PAGE B53_DEVICE_ID) ;;
  (if id8 =? 0 then
     put W16 B53_VLAN_PAGE B53_VLAN_TABLE_ACCESS_25 0xf ;;
     tmp <- fetch junk W16 "tmp" B53_VLAN_PAGE B53_VLAN_TABLE_ACCESS_25 ;;
     modify (fun d => with_chip (if tmp =? 0xf then BCM5325_DEVICE_ID else BCM5365_DEVICE_ID) (core_rev d) d)
   else if (id8 =? BCM5395_DEVICE_ID) || (id8 =? BCM5397_DEVICE_ID) || (id8 =? BCM5398_DEVICE_ID) then
     modify (fun d => with_chip id8 (core_rev d) d)
   else
     id32 <- on_io (b53_read32 B53_MGMT_PAGE B53_DEVICE_ID) ;;
     if existsb (Z.eqb id32) [BCM53115_DEVICE_ID; BCM53125_DEVICE_ID; BCM53128_DEVICE_ID; BCM53010_DEVICE_ID;
          BCM53011_DEVICE_ID; BCM53012_DEVICE_ID; BCM53018_DEVICE_ID; BCM53019_DEVICE_ID] then
       modify (fun d => with_chip id32 (core_rev d) d)
     else fail ENODEV) ;;
  d <- dev ;;
  rev <- (if chip_id d =? BCM5325_DEVICE_ID then on_io (b53_read8 B53_STAT_PAGE B53_REV_ID_25)
          else on_io (b53_read8 B53_MGMT_PAGE B53_REV_ID)) ;;
  modify (fun d => with_chip (chip_id d) rev d).

(** [pdata]: the chip, ports and alias of the platform data; [register]: what
    [register_switch] returns. *)
Definition b53_switch_register (bcm47xx : bool) (pdata : option (Z * Z * option string)) (node : option switch_node)
    (alloc : bool * bool * bool) (request register : Z) : MB Z :=
  match pdata with
  | Some (id, ports, alias) =>
      modify (fun d => with_alias alias (with_ports ports (sw_cpu_port d) (sw_ports d) (with_chip id (core_rev d) d)))
  | None => ret tt
  end ;;
  d <- dev ;;
  (if chip_id d =? 0 then
     r <- catch b53_switch_detect ;; match r with Ok _ => ret tt | Err _ => fail EINVAL end
   else ret tt) ;;
  b53_switch_init bcm47xx node alloc request ;;
  ret register.

(** The structure as it is allocated, over the access [w]. *)
Definition b53_switch_alloc (w : W) : b53_device W :=
  B53Device w 0 0 (0, 0, 0) 0 0 0 0 0 0 0 [] [] 0 None None 0 0 0 None.
End Startup.

(** ** The devices in front: [b53_mdio.c], and [b53_srab.c], [b53_mmap.c] *)

Section Phy.
Context {R : B53Regs} {B : Type} {MB : MiiBus B} {H : B53Priv (b53_mdio B)}.
Variable junk : string -> Z.
Variable PHY_INTERFACE_MODE_REVMII : Z.

(** [addr]: the address of the PHY; [alloc]: the device is allocated.  The
    result is the speed the PHY is said to support, and [phydev->priv]. *)
Definition b53_phy_probe (addr : Z) (alloc : bool) (bcm47xx : bool) (node : option switch_node) (allocs : bool * bool * bool)
    (request register : Z) (b : B) : res Z * option (b53_device (b53_mdio B)) :=
  if negb (addr =? B53_PSEUDO_PHY) && negb (addr =? 0) then (Err (- ENODEV), None) else
  if negb alloc then (Err (- ENOMEM), None) else
  match b53_switch_detect junk (b53_switch_alloc (B53Mdio b 0xff)) with
  | (Err e, _) => (Err e, None)
  | (Ok _, d) =>
      let speed := if is5325 d || is5365 d then 100 else 1000 in
      match b53_switch_register junk PHY_INTERFACE_MODE_REVMII bcm47xx None node allocs request register d with
      | (Err e, _) => (Err e, None)
      | (Ok r, d') => if cbool r then (Err r, None) else (Ok speed, Some d')
      end
  end.

(** [eth]: the name of the attached device. *)
Definition b53_phy_config_init (eth : string) : M (b53_device (b53_mdio B)) unit :=
  modify (fun d => with_b53_io (io_set_current_page 0xff (b53_io d)) d) ;;
  modify (with_alias (Some eth)).

(** The speed reported to the PHY layer; duplex is full and the link is up. *)
Definition b53_phy_read_status : M (b53_device (b53_mdio B)) Z :=
  d <- dev ;; ret (if is5325 d || is5365 d then 100 else 1000).

(** [priv]: [phydev->priv]; the result is what it holds then, and the device
    handed to [b53_switch_remove], if any. *)
Definition b53_phy_remove (priv : option (b53_device (b53_mdio B))) : option (b53_device (b53_mdio B)) * option (b53_device (b53_mdio B)) :=
  match priv with
  | None => (None, None)
  | Some d => (None, Some d)
  end.
End Phy.

(** The three PHY drivers by the PHYs they are for, identifier and mask. *)
Definition b53_phy_driver_id1 : Z * Z := (0x0143bc00, 0x1ffffc00).
Definition b53_phy_driver_id2 : Z * Z := (0x03625c00, 0x1ffffc00).
Definition b53_phy_driver_id3 : Z * Z := (0x00406300, 0x1fffff00).

Section Drivers.
(** What [phy_drivers_register] returns; the state is the drivers registered. *)
Variable register : Z * Z -> Z.
Definition phy_drivers_register (drv : Z * Z) : M (list (Z * Z)) Z := fun l =>
  if register drv =? 0 then (Ok 0, l ++ [drv]) else (Ok (register drv), l).
Definition phy_drivers_unregister (drv : Z * Z) : M (list (Z * Z)) unit := modify (List.filter (fun x => negb (bool_decide (x = drv)))).

Definition b53_phy_driver_register : M (list (Z * Z)) Z :=
  r <- phy_drivers_register b53_phy_driver_id1 ;;
  if cbool r then ret r else
  r <- phy_drivers_register b53_phy_driver_id2 ;;
  if cbool r then phy_drivers_unregister b53_phy_driver_id1 ;; ret r else
  r <- phy_drivers_register b53_phy_driver_id3 ;;
  if negb (cbool r) then ret 0 else
  phy_drivers_unregister b53_phy_driver_id2 ;;
  phy_drivers_unregister b53_phy_driver_id1 ;;
  ret r.

Definition b53_phy_driver_unregister : M (list (Z * Z)) unit :=
  phy_drivers_unregister b53_phy_driver_id3 ;;
  phy_drivers_unregister b53_phy_driver_id2 ;;
  phy_drivers_unregister b53_phy_driver_id1.
End Drivers.

Section Platform.
Context {R : B53Regs} {W : Type} {IO : B53Io W} {H : B53Priv W}.
Variable junk : string -> Z.
Variable PHY_INTERFACE_MODE_REVMII : Z.

(** The probes of the bridge and of the memory-mapped switch, over the access
    [w] built from the platform data. *)
Definition b53_platform_probe (pdata : option (Z * Z * option string)) (alloc : bool) (bcm47xx : bool) (node : option switch_node)
    (allocs : bool * bool * bool) (request register : Z) (w : W) : res Z * option (b53_device W) :=
  match pdata with
  | None => (Err (- EINVAL), None)
  | Some _ =>
      if negb alloc then (Err (- ENOMEM), None) else
      let (r, d) := b53_switch_register junk PHY_INTERFACE_MODE_REVMII bcm47xx pdata node allocs request register (b53_switch_alloc w) in
      (r, Some d)
  end.

(** [dev]: what [platform_get_drvdata] gives; the device handed to
    [b53_switch_remove]. *)
Definition b53_platform_remove (dev : option (b53_device W)) : option (b53_device W) :=
  match dev with Some d => Some d | None => None end.
End Platform.
