(* ===== verification/B53Hw.v ===== *)
(** * What is relied on of a RoboSwitch, and steps of the driver on it

    The registers by what they are for, at the places where the driver looks
    for them on the switch at hand; the VLAN table behind its command
    registers; and rules for the accesses of the driver, over any of the three
    ways to the registers. *)

From S2P Require Import Prelude CMonad Regmap Mdio B53Io B53IoProps B53.

(** ** The switch at hand *)

Inductive family := F25 | F65 | FVta.
#[export] Instance family_eq_dec : EqDecision family.
Proof. solve_decision. Defined.

(** What the driver knows of the places of the registers. *)
Record desc := Desc { ds_family : family; ds_63xx : bool; ds_rev : Z; ds_vta : Z * Z * Z; ds_jumbo : Z * Z }.

(** A register, by what it is for; [Row i]: the ports that [i] forwards to;
    [Tag i]: the VLAN of untagged frames that come in at [i]. *)
Inductive role :=
| Mode | Vc0 | Vc1 | Vc3 | Vc4 | Vc5
| PortCtrl (i : Z) | Row (i : Z) | Tag (i : Z)
| JumboMask | JumboSize
| VtIndex | VtEntry | VlanWrite.
#[export] Instance role_eq_dec : EqDecision role.
Proof. solve_decision. Defined.

(** [b53_priv.h]: the tests look at the number of the switch; ports are
    visited in ascending order; VLANs and port sets fit their fields. *)
Class B53PrivOk (W : Type) {H : B53Priv W} := {
  is5325_chip d d' : chip_id d = chip_id d' -> is5325 d = is5325 d';
  is5365_chip d d' : chip_id d = chip_id d' -> is5365 d = is5365 d';
  is63xx_chip d d' : chip_id d = chip_id d' -> is63xx d = is63xx d';
  is531x5_chip d d' : chip_id d = chip_id d' -> is531x5 d = is531x5 d';
  is5301x_chip d d' : chip_id d = chip_id d' -> is5301x d = is5301x d';
  is_cpu_port_eq d i : is_cpu_port d i = (i =? sw_cpu_port d);
  port_from_ok d i : 0 <= enabled_ports d < 2 ^ 16 -> 0 <= i ->
    match port_from d i with
    | Some j => i <= j /\ Z.testbit (enabled_ports d) j = true /\ forall k, i <= k < j -> Z.testbit (enabled_ports d) k = false
    | None => forall k, i <= k -> Z.testbit (enabled_ports d) k = false
    end;
  to_ports_eq x : 0 <= x < 2 ^ 9 -> to_ports x = x;
  to_pvid_eq x : 0 <= x < 4096 -> to_pvid x = x
}.

(** [b53_regs.h]: bits that do not get into each other's way. *)
Class B53RegsOk {R : B53Regs} := {
  cpu_ports : B53_CPU_PORT = 8 /\ B53_CPU_PORT_25 = 5;
  mode_bits : 0 <= SM_SW_FWD_EN < 2 ^ 8 /\ SM_SW_FWD_EN <> 0 /\ Z.land SM_SW_FWD_EN SM_SW_FWD_MODE = 0;
  vc0_bits : 0 <= Z.lor (Z.lor VC0_VLAN_EN VC0_VID_CHK_EN) VC0_VID_HASH_VID < 2 ^ 8 /\
    Z.land (Z.lor (Z.lor VC0_VLAN_EN VC0_VID_CHK_EN) VC0_VID_HASH_VID) VC0_RESERVED_1 = 0;
  vc5_bits : 0 <= VC5_DROP_VTABLE_MISS < 2 ^ 8 /\ Z.land VC5_DROP_VTABLE_MISS VC5_VID_FFF_EN = 0;
  vta_bits : 0 <= VTE_UNTAG_S /\ 9 <= VTE_UNTAG_S /\ 2 * VTE_UNTAG_S <= 32;
  va25_bits : 6 <= VA_UNTAG_S_25 /\ VA_UNTAG_MASK_25 = Z.ones VA_UNTAG_S_25 /\ 2 * VA_UNTAG_S_25 <= VA_VID_HIGH_S /\
    (exists n, 2 * VA_UNTAG_S_25 <= n < 32 /\ VA_VALID_25 = 2 ^ n) /\ (exists n, 2 * VA_UNTAG_S_25 <= n < 32 /\ VA_VALID_25_R4 = 2 ^ n);
  va65_bits : 6 <= VA_UNTAG_S_65 /\ VA_UNTAG_MASK_65 = Z.ones VA_UNTAG_S_65 /\
    exists n, 2 * VA_UNTAG_S_65 <= n < 16 /\ VA_VALID_65 = 2 ^ n
}.

Section Switch.
Context {R : B53Regs}.
Implicit Types s : desc.

Definition role_at s (q : role) : Z * Z :=
  match q with
  | Mode => (B53_CTRL_PAGE, B53_SWITCH_MODE)
  | Vc0 => (B53_VLAN_PAGE, B53_VLAN_CTRL0)
  | Vc1 => (B53_VLAN_PAGE, B53_VLAN_CTRL1)
  | Vc3 => (B53_VLAN_PAGE, match ds_family s with FVta => if ds_63xx s then B53_VLAN_CTRL3_63XX else B53_VLAN_CTRL3 | _ => B53_VLAN_CTRL3 end)
  | Vc4 => (B53_VLAN_PAGE, match ds_family s with FVta => if ds_63xx s then B53_VLAN_CTRL4_63XX else B53_VLAN_CTRL4 | _ => B53_VLAN_CTRL4_25 end)
  | Vc5 => (B53_VLAN_PAGE, match ds_family s with FVta => if ds_63xx s then B53_VLAN_CTRL5_63XX else B53_VLAN_CTRL5 | _ => B53_VLAN_CTRL5_25 end)
  | PortCtrl i => (B53_CTRL_PAGE, B53_PORT_CTRL i)
  | Row i => (B53_PVLAN_PAGE, B53_PVLAN_PORT_MASK i)
  | Tag i => (B53_VLAN_PAGE, B53_VLAN_PORT_DEF_TAG i)
  | JumboMask => (B53_JUMBO_PAGE, fst (ds_jumbo s))
  | JumboSize => (B53_JUMBO_PAGE, snd (ds_jumbo s))
  | VtIndex => (B53_ARLIO_PAGE, snd (fst (ds_vta s)))
  | VtEntry => (B53_ARLIO_PAGE, snd (ds_vta s))
  | VlanWrite => (B53_VLAN_PAGE, match ds_family s with F25 => B53_VLAN_WRITE_25 | _ => B53_VLAN_WRITE_65 end)
  end.

Definition role_width s (q : role) : width :=
  match q with
  | Mode | Vc0 | Vc1 | Vc4 | Vc5 | PortCtrl _ => W8
  | Vc3 => match ds_family s with FVta => W16 | _ => W8 end
  | Row _ | Tag _ | JumboSize | VtIndex => W16
  | JumboMask | VtEntry => W32
  | VlanWrite => match ds_family s with F25 => W32 | _ => W16 end
  end.

(** The registers this switch has. *)
Definition in_switch s (q : role) : bool :=
  match q with
  | PortCtrl i | Row i | Tag i => (0 <=? i) && (i <=? 8)
  | JumboMask | JumboSize | VtIndex | VtEntry => bool_decide (ds_family s = FVta)
  | VlanWrite => bool_decide (ds_family s <> FVta)
  | _ => true
  end.

(** The register that starts a command on the VLAN table. *)
Definition command_at s : Z * Z :=
  match ds_family s with
  | F25 => (B53_VLAN_PAGE, B53_VLAN_TABLE_ACCESS_25)
  | F65 => (B53_VLAN_PAGE, B53_VLAN_TABLE_ACCESS_65)
  | FVta => (B53_ARLIO_PAGE, fst (fst (ds_vta s)))
  end.
Definition table_size s : Z := match ds_family s with F25 => 16 | F65 => 256 | FVta => 4096 end.

(** What the driver writes to store [VlanWrite] as entry [vid], and to store
    [VtEntry] as the entry [VtIndex], or to clear them all. *)
Definition store_command (vid : Z) : Z := u16 (Z.lor (Z.lor vid VTA_RW_STATE_WR) VTA_RW_OP_EN).
Definition vta_command (op : Z) : Z := u8 (Z.lor VTA_START_CMD op).

(** [rs_reg]: the registers; [rs_table]: the words of the VLAN table;
    [rs_busy]: for how many more polls a command on the table is under way. *)
Class RoboSwitch s (C : Type) {K : RoboCore C} := {
  rs_reg : C -> role -> Z;
  rs_table : C -> Z -> Z;
  rs_busy : C -> nat;
  rs_place q : in_switch s q = true ->
    a_page (fst (role_at s q)) /\ byte (snd (role_at s q)) /\ core_width (fst (role_at s q)) (snd (role_at s q)) = role_width s q;
  rs_read c q : in_switch s q = true ->
    let (x, c') := core_read (fst (role_at s q)) (snd (role_at s q)) c in
    x = rs_reg c q /\ (forall q', rs_reg c' q' = rs_reg c q') /\ (forall i, rs_table c' i = rs_table c i) /\ rs_busy c' = rs_busy c;
  rs_write c q x : in_switch s q = true -> 0 <= x < 2 ^ bits (role_width s q) ->
    let c' := core_write (fst (role_at s q)) (snd (role_at s q)) x c in
    (forall q', rs_reg c' q' = if decide (q' = q) then x else rs_reg c q') /\ (forall i, rs_table c' i = rs_table c i) /\ rs_busy c' = rs_busy c;
  rs_command_place : a_page (fst (command_at s)) /\ byte (snd (command_at s)) /\
    core_width (fst (command_at s)) (snd (command_at s)) = (if decide (ds_family s = FVta) then W8 else W16);
  rs_store c vid : ds_family s <> FVta -> 0 <= vid < table_size s ->
    let c' := core_write (fst (command_at s)) (snd (command_at s)) (store_command vid) c in
    (forall q, rs_reg c' q = rs_reg c q) /\ (forall i, rs_table c' i = if decide (i = vid) then rs_reg c VlanWrite else rs_table c i) /\
    rs_busy c' = rs_busy c;
  rs_vta_write c : ds_family s = FVta -> rs_busy c = O -> 0 <= rs_reg c VtIndex < table_size s ->
    let c' := core_write (fst (command_at s)) (snd (command_at s)) (vta_command VTA_CMD_WRITE) c in
    (forall q, rs_reg c' q = rs_reg c q) /\
    (forall i, rs_table c' i = if decide (i = rs_reg c VtIndex) then rs_reg c VtEntry else rs_table c i) /\ (rs_busy c' < 10)%nat;
  rs_vta_clear c : ds_family s = FVta -> rs_busy c = O ->
    let c' := core_write (fst (command_at s)) (snd (command_at s)) (vta_command VTA_CMD_CLEAR) c in
    (forall q, rs_reg c' q = rs_reg c q) /\ (forall i, rs_table c' i = 0) /\ (rs_busy c' < 10)%nat;
  rs_vta_poll c : ds_family s = FVta ->
    let (x, c') := core_read (fst (command_at s)) (snd (command_at s)) c in
    (forall q, rs_reg c' q = rs_reg c q) /\ (forall i, rs_table c' i = rs_table c i) /\
    (cbool (Z.land x VTA_START_CMD) = true <-> rs_busy c <> O) /\ rs_busy c' = Nat.pred (rs_busy c)
}.
End Switch.

(** ** What the driver can know of the switch *)

Record view := View { v_reg : role -> Z; v_table : Z -> Z }.
Definition set_reg (q : role) (x : Z) (v : view) : view := View (fun q' => if decide (q' = q) then x else v_reg v q') (v_table v).
Definition set_entry (i x : Z) (v : view) : view := View (v_reg v) (fun j => if decide (j = i) then x else v_table v j).
Definition set_table (f : Z -> Z) (v : view) : view := View (v_reg v) f.

Section Rules.
Context {R : B53Regs} {W C : Type} {IO : B53Io W} {H : B53Priv W} {HP : B53PrivOk W}.
Context {K : RoboCore C} {IOK : B53IoOk W C} {s : desc} {HS : RoboSwitch s C}.
Variable junk : string -> Z.
Implicit Types (d : b53_device W) (v : view) (w : W).

Definition desc_of d : desc :=
  Desc (if is5325 d then F25 else if is5365 d then F65 else FVta) (is63xx d) (core_rev d) (vta_regs d) (jumbo_pm_reg d, jumbo_size_reg d).

(** No command is under way, and the switch is as [v] has it. *)
Definition shows w v : Prop := exists c : C, io_rel w c /\ rs_busy c = O /\
  (forall q, rs_reg c q = v_reg v q) /\ (forall i, rs_table c i = v_table v i).

(** The program run on the device [d] while the switch is as [v]: it does not
    fail, changes nothing of the device, and leaves the switch as [Q]. *)
Definition runs {A} (m : M (b53_device W) A) d v (Q : A -> view -> Prop) : Prop := forall w, shows w v ->
  wp m (fun a d' => exists w' v', d' = with_b53_io w' d /\ shows w' v' /\ Q a v') never (with_b53_io w d).

Lemma runs_ret {A} (a : A) d v (Q : A -> view -> Prop) : Q a v -> runs (ret a) d v Q.
Proof. intros HQ w Hw. apply wp_ret. eauto 10. Qed.

Lemma runs_mono {A} (m : M _ A) d v (Q Q' : A -> view -> Prop) : runs m d v Q -> (forall a v', Q a v' -> Q' a v') -> runs m d v Q'.
Proof. intros Hm HQ w Hw. eapply wp_mono; [apply Hm, Hw | | intros ? ? []]. intros a d' (w' & v' & H1 & H2 & H3). eauto 10. Qed.

Lemma runs_bind {A B} (m : M _ A) (k : A -> M _ B) d v Q : runs m d v (fun a v' => runs (k a) d v' Q) -> runs (bind m k) d v Q.
Proof. intros Hm w Hw. apply wp_bind. eapply wp_mono; [apply Hm, Hw | | intros ? ? []]. intros a d' (w' & v' & -> & H2 & H3). apply H3, H2. Qed.

Lemma runs_dev {B} (k : b53_device W -> M _ B) d v Q : (forall w, runs (k (with_b53_io w d)) d v Q) -> runs (bind dev k) d v Q.
Proof. intros Hk w Hw. apply wp_bind, wp_get_state, Hk, Hw. Qed.

Lemma runs_unchecked {A} (x : A) (m : M _ A) d v Q : runs m d v Q -> runs (unchecked x m) d v Q.
Proof. intros Hm w Hw. apply wp_unchecked. eapply wp_mono; [apply Hm, Hw | auto | intros ? ? []]. Qed.

(** [for (i = a; i < n; i++)] *)
Lemma runs_loop n i (body : Z -> M (b53_device W) unit) d v (I : Z -> view -> Prop) Q :
  I i v -> (forall j v, i <= j < i + Z.of_nat n -> I j v -> runs (body j) d v (fun _ => I (j + 1))) ->
  (forall v, I (i + Z.of_nat n) v -> Q tt v) -> runs (loop_acc n i tt (fun i _ => body i)) d v Q.
Proof.
  intros Hi Hb HQ w Hw.
  apply (wp_loop_acc (fun j _ d' => exists w' v', d' = with_b53_io w' d /\ shows w' v' /\ I j v')); [eauto 10 | |].
  - intros j [] d' Hj (w' & v' & -> & H2 & H3). exact (Hb j v' Hj H3 w' H2).
  - intros [] d' (w' & v' & -> & H2 & H3). eauto 10.
Qed.

(** An access of the driver is an access of the switch. *)
Lemma wp_b53_read wd p r d w (c : C) : io_rel w c -> a_page p -> byte r -> core_width p r = wd ->
  wp (on_io (b53_read wd p r))
     (fun x d' => exists w', d' = with_b53_io w' d /\ io_rel w' (snd (core_read p r c)) /\ x = fst (core_read p r c))
     never (with_b53_io w d).
Proof.
  intros Hw H1 H2 <-. unfold on_io, wp. cbn [b53_io with_b53_io].
  pose proof (io_read_ok w c p r (fun x w' => io_rel w' (snd (core_read p r c)) /\ x = fst (core_read p r c)) Hw H1 H2) as Hio.
  unfold wp in Hio. specialize (Hio (fun w' Hw' => conj Hw' eq_refl)).
  destruct (b53_read _ p r w) as [[a | e] w']; [| contradiction]. exists w'. split; [reflexivity | exact Hio].
Qed.

Lemma wp_b53_fetch wd p r name d w (c : C) : io_rel w c -> a_page p -> byte r -> core_width p r = wd ->
  wp (fetch junk wd name p r)
     (fun x d' => exists w', d' = with_b53_io w' d /\ io_rel w' (snd (core_read p r c)) /\ x = fst (core_read p r c))
     never (with_b53_io w d).
Proof. intros Hw H1 H2 H3. apply wp_unchecked. eapply wp_mono; [apply (wp_b53_read wd p r d w c); assumption | auto | intros ? ? []]. Qed.

Lemma wp_write wd p r x d w (c : C) : io_rel w c -> a_page p -> byte r -> core_width p r = wd ->
  wp (on_io (b53_write wd p r (uwrap (bits wd) x)))
     (fun _ d' => exists w', d' = with_b53_io w' d /\ io_rel w' (core_write p r (uwrap (bits wd) x) c)) never (with_b53_io w d).
Proof.
  intros Hw H1 H2 <-. unfold on_io, wp. cbn [b53_io with_b53_io]. set (y := uwrap _ x). assert (E : 0 <= y < 2 ^ bits (core_width p r)) by (apply uwrap_range; destruct (core_width p r); discriminate).
  pose proof (io_write_ok w c p r y (fun _ w' => io_rel w' (core_write p r y c)) Hw H1 H2 E (fun _ Hx => Hx)) as Hio. unfold wp in Hio.
  destruct (b53_write _ p r y w) as [[[] | e] w']; [| contradiction]. exists w'. split; [reflexivity | exact Hio].
Qed.

Lemma wp_b53_put wd p r x d w (c : C) : io_rel w c -> a_page p -> byte r -> core_width p r = wd ->
  wp (put wd p r x) (fun _ d' => exists w', d' = with_b53_io w' d /\ io_rel w' (core_write p r (uwrap (bits wd) x) c)) never (with_b53_io w d).
Proof. intros Hw H1 H2 H3. apply wp_unchecked. eapply wp_mono; [apply (wp_write wd p r x d w c); assumption | auto | intros ? ? []]. Qed.

(** A register. *)
Lemma runs_read q wd p r d v (Q : Z -> view -> Prop) : in_switch s q = true -> role_at s q = (p, r) -> role_width s q = wd ->
  (0 <= v_reg v q < 2 ^ bits wd -> Q (v_reg v q) v) -> runs (on_io (b53_read wd p r)) d v Q.
Proof.
  intros Hq Hat Hwd HQ w (c & Hw & Hb & Hr & Ht). destruct (rs_place q Hq) as (H1 & H2 & H3). pose proof (rs_read c q Hq) as Hc.
  rewrite Hat in *. cbn [fst snd] in *. rewrite Hwd in H3. pose proof (core_read_range p r c) as Hv. rewrite H3 in Hv.
  eapply wp_mono; [apply (wp_b53_read wd p r d w c); assumption | | intros ? ? []]. intros x d' (w' & -> & Hw' & ->).
  destruct (core_read p r c) as [x c']. destruct Hc as (-> & H5 & H6 & H7). cbn [fst snd] in *. rewrite Hr in *.
  exists w', v. split; [reflexivity |]. split; [| apply HQ, Hv]. exists c'. split; [exact Hw' |]. split; [congruence |].
  split; intros; rewrite ?H5, ?H6; auto.
Qed.

Lemma runs_fetch q wd p r name d v (Q : Z -> view -> Prop) : in_switch s q = true -> role_at s q = (p, r) -> role_width s q = wd ->
  (0 <= v_reg v q < 2 ^ bits wd -> Q (v_reg v q) v) -> runs (fetch junk wd name p r) d v Q.
Proof. intros Hq Hat Hwd HQ. apply runs_unchecked, (runs_read q); assumption. Qed.

Lemma runs_write q wd p r x d v (Q : unit -> view -> Prop) : in_switch s q = true -> role_at s q = (p, r) -> role_width s q = wd ->
  Q tt (set_reg q (uwrap (bits wd) x) v) -> runs (on_io (b53_write wd p r (uwrap (bits wd) x))) d v Q.
Proof.
  intros Hq Hat Hwd HQ w (c & Hw & Hb & Hr & Ht). destruct (rs_place q Hq) as (H1 & H2 & H3).
  assert (E : 0 <= uwrap (bits wd) x < 2 ^ bits wd) by (apply uwrap_range; destruct wd; discriminate).
  rewrite <- Hwd in E. pose proof (rs_write c q _ Hq E) as Hc. rewrite Hat, Hwd in *. cbn [fst snd] in *. destruct Hc as (H5 & H6 & H7).
  eapply wp_mono; [apply (wp_write wd p r x d w c); assumption | | intros ? ? []]. intros [] d' (w' & -> & Hw').
  eexists w', _. split; [reflexivity |]. split; [| exact HQ]. eexists. split; [exact Hw' |]. split; [congruence |].
  split; intros; rewrite ?H5, ?H6; cbn; rewrite ?Hr; auto.
Qed.

Lemma runs_put q wd p r x d v (Q : unit -> view -> Prop) : in_switch s q = true -> role_at s q = (p, r) -> role_width s q = wd ->
  Q tt (set_reg q (uwrap (bits wd) x) v) -> runs (put wd p r x) d v Q.
Proof. intros Hq Hat Hwd HQ. apply runs_unchecked, (runs_write q); assumption. Qed.

(** A command on the table that is over at once. *)
Lemma runs_store vid p r d v (Q : unit -> view -> Prop) : ds_family s <> FVta -> command_at s = (p, r) -> 0 <= vid < table_size s ->
  Q tt (set_entry vid (v_reg v VlanWrite) v) ->
  runs (put W16 p r (Z.lor (Z.lor vid VTA_RW_STATE_WR) VTA_RW_OP_EN)) d v Q.
Proof.
  intros Hs Hat Hvid HQ w (c & Hw & Hb & Hr & Ht). destruct rs_command_place as (H1 & H2 & H3). rewrite decide_False in H3 by exact Hs.
  destruct (rs_store c vid Hs Hvid) as (H5 & H6 & H7). rewrite Hat in *. cbn [fst snd] in *.
  eapply wp_mono; [apply (wp_b53_put W16 _ _ _ d w c); assumption | | intros ? ? []]. intros [] d' (w' & -> & Hw').
  eexists w', _. split; [reflexivity |]. split; [| exact HQ]. eexists. split; [exact Hw' |]. split; [rewrite <- Hb; exact H7 |].
  split; intros; [etransitivity; [apply H5 | apply Hr] | etransitivity; [apply H6 |]; cbn; rewrite Hr, Ht; reflexivity].
Qed.

(** One that takes some time: [b53_do_vlan_op] waits long enough. *)
Lemma runs_vlan_op op d v f (Q : unit -> view -> Prop) : ds_family s = FVta -> fst (fst (vta_regs d)) = fst (fst (ds_vta s)) ->
  (forall c, rs_busy c = O -> (forall q, rs_reg c q = v_reg v q) -> (forall i, rs_table c i = v_table v i) ->
     let c' := core_write (fst (command_at s)) (snd (command_at s)) (vta_command op) c in
     (forall q, rs_reg c' q = v_reg v q) /\ (forall i, rs_table c' i = f i) /\ (rs_busy c' < 10)%nat) ->
  Q tt (set_table f v) -> runs (b53_do_vlan_op junk op) d v Q.
Proof.
  intros Hs Hd Hc HQ w (c & Hw & Hb & Hr & Ht). destruct rs_command_place as (H1 & H2 & H3). rewrite decide_True in H3 by exact Hs.
  specialize (Hc c Hb Hr Ht). assert (Hat : command_at s = (B53_ARLIO_PAGE, fst (fst (vta_regs d)))) by (unfold command_at; rewrite Hs, Hd; reflexivity).
  rewrite Hat in *. cbn [fst snd] in *. unfold b53_do_vlan_op. apply wp_bind, wp_get_state, wp_bind. cbn [vta_regs with_b53_io].
  eapply wp_mono; [apply (wp_b53_put W8 _ _ _ d w c); assumption | | intros ? ? []]. intros [] d' (w1 & -> & Hw1). apply wp_bind. unfold search.
  set (c1 := core_write _ _ _ _) in *. destruct Hc as (H5 & H6 & H7).
  apply (wp_loop_until (fun j d' => exists w' c', d' = with_b53_io w' d /\ io_rel w' c' /\ (forall q, rs_reg c' q = v_reg v q) /\
    (forall i, rs_table c' i = f i) /\ Z.of_nat (rs_busy c') < 10 - j)).
  - eexists w1, c1. split; [reflexivity |]. split; [exact Hw1 |]. split; [exact H5 |]. split; [exact H6 | lia].
  - intros j d' Hj (w2 & c2 & -> & Hw2 & Hr2 & Ht2 & Hb2). apply wp_bind. pose proof (rs_vta_poll c2 Hs) as Hp. rewrite Hat in Hp. cbn [fst snd] in Hp.
    eapply wp_mono; [apply (wp_b53_fetch W8 _ _ _ d w2 c2); assumption | | intros ? ? []]. intros x d' (w3 & -> & Hw3 & ->).
    destruct (core_read _ _ c2) as [x c3]. cbn [fst snd] in *. destruct Hp as (H8 & H9 & H10 & H11). apply wp_ret.
    destruct (cbool (Z.land x VTA_START_CMD)).
    + exists w3, c3. split; [reflexivity |]. split; [exact Hw3 |]. split; [intros; rewrite H8; auto |]. split; [intros; rewrite H9; auto |].
      pose proof (proj1 H10 eq_refl). lia.
    + apply wp_ret. eexists w3, _. split; [reflexivity |]. split; [| exact HQ]. exists c3. split; [exact Hw3 |].
      split; [rewrite H11; destruct (rs_busy c2); [reflexivity | discriminate (proj2 H10 ltac:(discriminate))] |].
      split; intros; cbn; rewrite ?H8, ?H9; auto.
  - intros d' (w2 & c2 & -> & Hw2 & Hr2 & Ht2 & Hb2). exfalso. change (0 + Z.of_nat (Z.to_nat 10)) with 10 in Hb2. lia.
Qed.

(** ** Loops over the ports *)

Definition is_port d (i : Z) : Prop := Z.testbit (enabled_ports d) i = true.

(** An invariant on what is left to visit; the body may raise the variable. *)
Lemma runs_each_port_from n i d (body : Z -> M _ Z) v (I : Z -> view -> Prop) Q : 0 <= enabled_ports d < 2 ^ 16 ->
  0 <= i -> 17 <= Z.of_nat n + i -> I i v ->
  (forall i j v, 0 <= i <= j -> is_port d j -> (forall k, i <= k < j -> ~ is_port d k) -> I i v ->
     runs (body j) d v (fun j' v' => j <= j' /\ I (j' + 1) v')) ->
  (forall i v, 0 <= i -> (forall k, i <= k -> ~ is_port d k) -> I i v -> Q tt v) ->
  runs (each_port_from n i body) d v Q.
Proof.
  intros Hd H0 Hn Hi Hb HQ. revert i v H0 Hn Hi. induction n as [| n IH]; intros i v H0 Hn Hi; cbn [each_port_from].
  - apply runs_ret, (HQ i); [lia | | exact Hi]. intros k Hk. unfold is_port. rewrite (testbit_high _ 16) by lia. discriminate.
  - apply runs_dev. intros w. pose proof (port_from_ok (with_b53_io w d) i Hd H0) as Hp.
    destruct (port_from (with_b53_io w d) i) as [j |]; cbn [enabled_ports with_b53_io] in Hp.
    + destruct Hp as (Hij & Hj & Hk). apply runs_bind. eapply runs_mono.
      * apply (Hb i j); [lia | exact Hj | | exact Hi]. intros k Hkj. unfold is_port. rewrite Hk by exact Hkj. discriminate.
      * cbv beta. intros j' v' [Hjj HI]. apply IH; [lia | lia | exact HI].
    + apply runs_ret, (HQ i); [lia | | exact Hi]. intros k Hk. unfold is_port. rewrite Hp by exact Hk. discriminate.
Qed.

Lemma runs_each_port d (body : Z -> M _ Z) v (I : Z -> view -> Prop) Q : 0 <= enabled_ports d < 2 ^ 16 ->
  I 0 v ->
  (forall i j v, 0 <= i <= j -> is_port d j -> (forall k, i <= k < j -> ~ is_port d k) -> I i v ->
     runs (body j) d v (fun j' v' => j <= j' /\ I (j' + 1) v')) ->
  (forall i v, 0 <= i -> (forall k, i <= k -> ~ is_port d k) -> I i v -> Q tt v) ->
  runs (each_port body) d v Q.
Proof. intros Hd Hi. apply runs_each_port_from; [exact Hd | lia | lia | exact Hi]. Qed.
End Rules.
