(* ===== verification/B53Props.v ===== *)
(** * The RoboSwitch driver brings its configuration into force

    What applying the configuration does to the registers and to the VLAN table
    of the switch, and what the requests before it leave to be applied. *)

From S2P Require Import Prelude CMonad Regmap SmiCore Mdio B53Io B53IoProps B53 B53Hw.

(** ** Words of the VLAN table *)

Lemma fields_of_word n S m u x : 0 <= S -> 2 * S <= n -> 0 <= m < 2 ^ S -> 0 <= u < 2 ^ S ->
  (forall i, 0 <= i < 2 * S -> Z.testbit x i = false) ->
  let w := uwrap n (Z.lor (Z.lor (Z.shiftl u S) m) x) in
  Z.land w (Z.ones S) = m /\ Z.land (Z.shiftr w S) (Z.ones S) = u.
Proof.
  intros H0 Hn Hm Hu Hx. cbv zeta. split; apply Z.bits_inj'; intros i Hi; autorewrite with cbits.
  - destruct (Z.lt_ge_cases i S); [| rewrite (testbit_high m S) by lia]; repeat bit_known; bit_simpl; try reflexivity.
    rewrite Hx by lia. bit_simpl. reflexivity.
  - destruct (Z.lt_ge_cases i S); [| rewrite (testbit_high u S) by lia]; repeat bit_known; bit_simpl; try reflexivity.
    rewrite Hx by lia. bit_simpl. f_equal. lia.
Qed.

Lemma pow2_low k n i : 2 * k <= n -> 0 <= i < 2 * k -> Z.testbit (2 ^ n) i = false.
Proof. intros Hk Hi. rewrite Z.pow2_bits_eqb by lia. lia. Qed.

(** Bits that are set or cleared in a register. *)
Lemma land_set n x e : 0 <= e < 2 ^ n -> Z.land (uwrap n (Z.lor x e)) e = e.
Proof.
  intros He. apply Z.bits_inj'. intros i Hi. assert (Hn : 0 <= n) by (destruct (Z.lt_ge_cases n 0); [rewrite Z.pow_neg_r in He; lia | assumption]).
  rewrite Z.land_spec, testbit_uwrap, Z.lor_spec by lia. destruct (Z.ltb_spec i n); [destruct (Z.testbit x i), (Z.testbit e i); reflexivity |].
  rewrite (testbit_high e n) by lia. reflexivity.
Qed.
Lemma land_clear n x e : 0 <= n -> Z.land (uwrap n (Z.ldiff x e)) e = 0.
Proof.
  intros Hn. apply Z.bits_inj'. intros i Hi. rewrite Z.land_spec, testbit_uwrap, Z.ldiff_spec, Z.testbit_0_l by lia.
  destruct (i <? n), (Z.testbit x i), (Z.testbit e i); reflexivity.
Qed.
Lemma land_set_clear n x e f : 0 <= e < 2 ^ n -> Z.land e f = 0 -> Z.land (uwrap n (Z.ldiff (Z.lor x e) f)) e = e.
Proof.
  intros He Hf. transitivity (Z.land (uwrap n (Z.lor (Z.ldiff x f) e)) e); [| apply land_set, He]. do 2 f_equal.
  apply Z.bits_inj'. intros i Hi. apply (f_equal (fun y => Z.testbit y i)) in Hf. revert Hf.
  rewrite !Z.ldiff_spec, !Z.lor_spec, Z.ldiff_spec, Z.land_spec, Z.testbit_0_l.
  destruct (Z.testbit x i), (Z.testbit e i), (Z.testbit f i); intros; reflexivity || discriminate.
Qed.

Section Words.
Context {R : B53Regs} {HR : B53RegsOk}.
Implicit Types s : desc.

(** The word the driver writes, as in [b53_set_vlan_entry]. *)
Definition entry_word s (vid m u : Z) : Z :=
  match ds_family s with
  | F25 => u32 (if cbool m then
                  let e := Z.lor (Z.shiftl (Z.land u VA_UNTAG_MASK_25) VA_UNTAG_S_25) m in
                  if 3 <=? ds_rev s then Z.lor e (Z.lor VA_VALID_25_R4 (Z.shiftl vid VA_VID_HIGH_S)) else Z.lor e VA_VALID_25
                else 0)
  | F65 => u16 (if cbool m then
                  Z.lor (Z.lor (Z.shiftl (Z.land u VA_UNTAG_MASK_65) VA_UNTAG_S_65) m) VA_VALID_65
                else 0)
  | FVta => u32 (Z.lor (Z.shiftl u VTE_UNTAG_S) m)
  end.

(** The members and the untagged ports a word of the table stands for. *)
Definition valid_bit s : Z := match ds_family s with F25 => if 3 <=? ds_rev s then VA_VALID_25_R4 else VA_VALID_25 | _ => VA_VALID_65 end.
Definition untag_shift s : Z := match ds_family s with F25 => VA_UNTAG_S_25 | F65 => VA_UNTAG_S_65 | FVta => VTE_UNTAG_S end.
Definition vlan_of s (w : Z) : Z * Z :=
  if bool_decide (ds_family s <> FVta) && (Z.land w (valid_bit s) =? 0) then (0, 0)
  else (Z.land w (Z.ones (untag_shift s)), Z.land (Z.shiftr w (untag_shift s)) (Z.ones (untag_shift s))).

(** The ports of a switch fit the fields of the word. *)
Definition port_bits s : Z := match ds_family s with FVta => 9 | _ => 6 end.

Lemma vlan_of_zero s : vlan_of s 0 = (0, 0).
Proof. unfold vlan_of. rewrite Z.land_0_l, Z.shiftr_0_l, Z.land_0_l. destruct (_ && _); reflexivity. Qed.

Lemma fits s x : 0 <= x < 2 ^ port_bits s -> 0 <= x < 2 ^ untag_shift s.
Proof.
  intros Hx. destruct vta_bits as (_ & H1 & _), va25_bits as (H2 & _), va65_bits as (H3 & _).
  assert (H : port_bits s <= untag_shift s) by (unfold port_bits, untag_shift; destruct (ds_family s); lia).
  pose proof (Z.pow_le_mono_r 2 _ _ eq_refl H). lia.
Qed.

Lemma valid_set w n m : 0 <= m < n -> Z.testbit w m = true -> (Z.land (uwrap n w) (2 ^ m) =? 0) = false.
Proof.
  intros Hm Hw. apply Z.eqb_neq. intros E. apply (f_equal (fun x => Z.testbit x m)) in E.
  rewrite Z.land_spec, testbit_uwrap, Z.pow2_bits_true, Hw, Z.testbit_0_l in E by lia. replace (m <? n) with true in E by lia. discriminate.
Qed.

Lemma vlan_of_entry s vid m u : 0 <= m < 2 ^ port_bits s -> 0 <= u < 2 ^ port_bits s -> m <> 0 \/ u = 0 -> vlan_of s (entry_word s vid m u) = (m, u).
Proof.
  intros Hm Hu Hmu. pose proof (fits s m Hm) as Hm'. pose proof (fits s u Hu) as Hu'.
  unfold vlan_of, entry_word, valid_bit, untag_shift in *. unfold cbool. destruct (ds_family s).
  - destruct (Z.eqb_spec m 0) as [-> | Hm0]; cbn [negb]; [destruct Hmu as [[] | ->]; [reflexivity |] |].
    { change (u32 0) with 0. rewrite Z.land_0_l. reflexivity. }
    destruct va25_bits as (H1 & H2 & H3 & (n & Hn & En) & (n' & Hn' & En')). rewrite H2, land_ones_mask, (Z.mod_small u) by lia.
    destruct (3 <=? ds_rev s); cbv zeta.
    + rewrite bool_decide_true by discriminate. unfold u32. rewrite En', valid_set; [| lia |]. 
      2: { rewrite !Z.lor_spec, Z.pow2_bits_true by lia. bit_simpl. reflexivity. }
      cbn [andb]. destruct (fields_of_word 32 VA_UNTAG_S_25 m u (Z.lor (2 ^ n') (Z.shiftl vid VA_VID_HIGH_S))) as [E1 E2]; try lia; [| rewrite E1, E2; reflexivity].
      intros i Hi. rewrite Z.lor_spec, (pow2_low VA_UNTAG_S_25), Z.shiftl_spec, Z.testbit_neg_r by lia. reflexivity.
    + rewrite bool_decide_true by discriminate. unfold u32. rewrite En, valid_set; [| lia |].
      2: { rewrite !Z.lor_spec, Z.pow2_bits_true by lia. bit_simpl. reflexivity. }
      cbn [andb]. destruct (fields_of_word 32 VA_UNTAG_S_25 m u (2 ^ n)) as [E1 E2]; try lia; [| rewrite E1, E2; reflexivity].
      intros i Hi. apply (pow2_low VA_UNTAG_S_25); lia.
  - destruct (Z.eqb_spec m 0) as [-> | Hm0]; cbn [negb]; [destruct Hmu as [[] | ->]; [reflexivity |] |].
    { change (u16 0) with 0. rewrite Z.land_0_l. reflexivity. }
    destruct va65_bits as (H1 & H2 & (n & Hn & En)). rewrite H2, land_ones_mask, (Z.mod_small u) by lia.
    rewrite bool_decide_true by discriminate. unfold u16. rewrite En, valid_set; [| lia |].
    2: { rewrite !Z.lor_spec, Z.pow2_bits_true by lia. bit_simpl. reflexivity. }
    cbn [andb]. destruct (fields_of_word 16 VA_UNTAG_S_65 m u (2 ^ n)) as [E1 E2]; try lia; [| rewrite E1, E2; reflexivity].
    intros i Hi. apply (pow2_low VA_UNTAG_S_65); lia.
  - rewrite bool_decide_false by auto. cbn [andb]. destruct vta_bits as (H0 & H1 & H2).
    destruct (fields_of_word 32 VTE_UNTAG_S m u 0) as [E1 E2]; try lia; [intros; apply Z.testbit_0_l |].
    rewrite Z.lor_0_r in E1, E2. unfold u32. rewrite E1, E2. reflexivity.
Qed.
End Words.

(** ** Configurations *)

Section Config.
Context {R : B53Regs} {W : Type} {H : B53Priv W} {HP : B53PrivOk W}.
Implicit Types d : b53_device W.

Definition is_old d : bool := is5325 d || is5365 d.

(** A VLAN as it is kept: its members are ports, and so are the untagged ones,
    which are members. *)
Definition vlan_ok d (mu : Z * Z) : Prop :=
  Z.land (fst mu) (enabled_ports d) = fst mu /\ Z.land (snd mu) (fst mu) = snd mu.

Record wf d : Prop := {
  wf_enabled : 0 <= enabled_ports d < 2 ^ port_bits (desc_of d);
  wf_sw_ports : 0 <= sw_ports d <= 9;
  wf_ports_exist : enabled_ports d < 2 ^ sw_ports d;
  wf_cpu : 0 <= sw_cpu_port d <= 8;
  wf_pvids : Z.of_nat (length (b53_pvids d)) = sw_ports d /\ Forall (fun p => 0 <= p < 4096) (b53_pvids d);
  wf_size : Z.of_nat (length (b53_vlans d)) = sw_vlans d /\ sw_vlans d <= table_size (desc_of d);
  wf_vlans : Forall (vlan_ok d) (b53_vlans d)
}.

Lemma vlan_ok_range d mu : wf d -> vlan_ok d mu ->
  (0 <= fst mu < 2 ^ port_bits (desc_of d)) /\ (0 <= snd mu < 2 ^ port_bits (desc_of d)) /\ (fst mu <> 0 \/ snd mu = 0).
Proof.
  intros Hd [H1 H2]. pose proof (wf_enabled d Hd) as He.
  assert (Hb : 0 <= port_bits (desc_of d)) by (unfold port_bits; destruct (ds_family (desc_of d)); lia).
  assert (Hm : 0 <= fst mu < 2 ^ port_bits (desc_of d)) by (rewrite <- H1; apply land_range; assumption).
  split; [exact Hm |]. split; [rewrite <- H2; apply land_range; assumption |].
  destruct (Z.eq_dec (fst mu) 0) as [E | E]; [| auto]. right. rewrite <- H2, E. apply Z.land_0_r.
Qed.

Lemma port_bits_le d : port_bits (desc_of d) <= 9.
Proof. unfold port_bits. destruct (ds_family _); lia. Qed.

Lemma wf_enabled_9 d : wf d -> 0 <= enabled_ports d < 2 ^ 9.
Proof. intros Hd. pose proof (wf_enabled d Hd). pose proof (Z.pow_le_mono_r 2 _ _ eq_refl (port_bits_le d)). lia. Qed.

Lemma is_port_range d i : wf d -> is_port d i -> 0 <= i < sw_ports d.
Proof.
  intros Hd Hi. pose proof (wf_enabled d Hd). pose proof (wf_ports_exist d Hd). unfold is_port in Hi.
  destruct (Z.lt_ge_cases i 0); [rewrite Z.testbit_neg_r in Hi by lia; discriminate |].
  destruct (Z.lt_ge_cases i (sw_ports d)); [lia |]. rewrite (testbit_high _ (sw_ports d)) in Hi by lia. discriminate.
Qed.

Lemma is_port_old d i : wf d -> is_old d = true -> is_port d i -> i < 6.
Proof.
  intros Hd Ho Hi. pose proof (wf_enabled d Hd) as He. unfold port_bits, desc_of in He. cbn [ds_family] in He. unfold is_old in Ho.
  assert (E : 0 <= enabled_ports d < 2 ^ 6) by (destruct (is5325 d); [exact He |]; cbn [orb] in Ho; rewrite Ho in He; exact He).
  destruct (Z.lt_ge_cases i 6); [assumption |]. unfold is_port in Hi. rewrite (testbit_high _ 6) in Hi by lia. discriminate.
Qed.

(** The number the registers of port [i] have: port 5 of the old switches is
    their CPU port, number 8. *)
Definition hw_port d (i : Z) : Z := if is_old d && (i =? 5) then 8 else i.

Lemma hw_port_inj d i j : wf d -> is_port d i -> is_port d j -> hw_port d i = hw_port d j -> i = j.
Proof.
  intros Hd Hi Hj. pose proof (fun E => is_port_old d i Hd E Hi) as Hi6. pose proof (fun E => is_port_old d j Hd E Hj) as Hj6. unfold hw_port.
  destruct (is_old d); cbn [andb]; [| auto]. specialize (Hi6 eq_refl). specialize (Hj6 eq_refl). destruct (Z.eqb_spec i 5), (Z.eqb_spec j 5); lia.
Qed.

Lemma family_cases d : (is5325 d = true /\ ds_family (desc_of d) = F25) \/ (is5325 d = false /\ is5365 d = true /\ ds_family (desc_of d) = F65) \/
  (is5325 d = false /\ is5365 d = false /\ ds_family (desc_of d) = FVta).
Proof. unfold desc_of; cbn [ds_family]. destruct (is5325 d), (is5365 d); auto. Qed.
End Config.

(** ** What the programs leave in the switch *)

Section Apply.
Context {R : B53Regs} {HR : B53RegsOk} {W C : Type} {IO : B53Io W} {H : B53Priv W} {HP : B53PrivOk W}.
Context {K : RoboCore C} {IOK : B53IoOk W C}.
Variables (junk : string -> Z) (d : b53_device W).
Context {HS : RoboSwitch (desc_of d) C}.
Hypothesis Hwf : wf d.
Implicit Types (v : view) (w : W).
Abbreviation s := (desc_of d).

Lemma io_25 w : is5325 (with_b53_io w d) = is5325 d. Proof. apply is5325_chip. reflexivity. Qed.
Lemma io_65 w : is5365 (with_b53_io w d) = is5365 d. Proof. apply is5365_chip. reflexivity. Qed.
Lemma io_63xx w : is63xx (with_b53_io w d) = is63xx d. Proof. apply is63xx_chip. reflexivity. Qed.
Lemma io_531x5 w : is531x5 (with_b53_io w d) = is531x5 d. Proof. apply is531x5_chip. reflexivity. Qed.
Lemma io_5301x w : is5301x (with_b53_io w d) = is5301x d. Proof. apply is5301x_chip. reflexivity. Qed.
Lemma io_cpu w i : is_cpu_port (with_b53_io w d) i = (i =? sw_cpu_port d). Proof. rewrite is_cpu_port_eq. reflexivity. Qed.

(** Reads the device, and its fields are those of [d]. *)
Ltac run_dev := apply runs_dev; intros ?w;
  rewrite ?io_25, ?io_65, ?io_63xx, ?io_531x5, ?io_5301x;
  cbn [chip_id core_rev vta_regs duplex_reg jumbo_pm_reg jumbo_size_reg enabled_ports enable_vlan enable_jumbo allow_vid_4095
       b53_pvids b53_vlans sw_cpu_port sw_ports sw_vlans sw_ops with_b53_io].

(** The place of a register, where the family of the switch is known. *)
Ltac place rw := unfold in_switch, role_at, role_width; rw; reflexivity.

(** The registers commands on the table go through. *)
Definition scratch (q : role) : bool := match q with VtIndex | VtEntry | VlanWrite => true | _ => false end.

Lemma runs_set_vlan_entry vid m u v (Q : unit -> view -> Prop) : 0 <= vid < table_size s ->
  (forall v', (forall q, scratch q = false -> v_reg v' q = v_reg v q) ->
     (forall i, v_table v' i = if decide (i = vid) then entry_word s vid m u else v_table v i) -> Q tt v') ->
  runs (s := s) (b53_set_vlan_entry junk vid m u) d v Q.
Proof.
  intros Hvid HQ. unfold b53_set_vlan_entry. run_dev. destruct (family_cases d) as [[-> Hf] | [(-> & -> & Hf) | (-> & -> & Hf)]]; cbv zeta.
  - apply runs_bind, (runs_put VlanWrite); [place ltac:(rewrite Hf) .. |].
    apply (runs_store vid); [rewrite Hf; discriminate | unfold command_at; rewrite Hf; reflexivity | exact Hvid |].
    apply HQ; [intros q Hq; cbn; rewrite decide_False by (intros ->; discriminate); reflexivity |]. intros i. cbn. unfold entry_word. rewrite Hf. reflexivity.
  - apply runs_bind, (runs_put VlanWrite); [place ltac:(rewrite Hf) .. |].
    apply (runs_store vid); [rewrite Hf; discriminate | unfold command_at; rewrite Hf; reflexivity | exact Hvid |].
    apply HQ; [intros q Hq; cbn; rewrite decide_False by (intros ->; discriminate); reflexivity |]. intros i. cbn. unfold entry_word. rewrite Hf. reflexivity.
  - assert (Hv : u16 vid = vid) by (apply u16_small; unfold table_size in Hvid; rewrite Hf in Hvid; lia).
    apply runs_bind, (runs_put VtIndex); [place ltac:(rewrite ?Hf) .. |].
    apply runs_bind, (runs_put VtEntry); [place ltac:(rewrite ?Hf) .. |]. apply runs_unchecked.
    eapply (runs_vlan_op junk _ d _ (fun i => if decide (i = vid) then entry_word s vid m u else v_table v i)); [exact Hf | reflexivity | |].
    + intros c Hb Hr Ht. assert (Ei : rs_reg c VtIndex = vid) by (rewrite Hr; cbn; exact Hv).
      destruct (rs_vta_write c Hf Hb ltac:(rewrite Ei; exact Hvid)) as (H1 & H2 & H3).
      split; [intros q; rewrite H1; apply Hr |]. split; [| exact H3]. intros i. rewrite H2, Ei, Ht, Hr. unfold entry_word. rewrite Hf. reflexivity.
    + apply HQ; [| reflexivity]. intros q Hq. cbn. rewrite !decide_False by (intros ->; discriminate). reflexivity.
Qed.

Lemma entry_word_empty vid : entry_word s vid 0 0 = 0.
Proof. unfold entry_word. destruct (ds_family s); cbn [cbool]; rewrite ?Z.shiftl_0_l; reflexivity. Qed.

(** All entries are empty, but entry 0 of the old switches. *)
Lemma runs_clear_entries v (Q : unit -> view -> Prop) :
  (forall v', (forall q, scratch q = false -> v_reg v' q = v_reg v q) ->
     (forall i, 0 <= i < sw_vlans d -> v_table v' i = if is_old d && (i =? 0) then v_table v i else 0) -> Q tt v') ->
  runs (s := s) (clear_entries junk) d v Q.
Proof.
  intros HQ. unfold clear_entries. run_dev. destruct (wf_size d Hwf) as [Hlen Hsize].
  destruct (is5325 d || is5365 d) eqn:Ho.
  - assert (Hs : 0 <= sw_vlans d <= 256) by (unfold table_size in Hsize; destruct (family_cases d) as [[E Hf] | [(E & E2 & Hf) | (E & E2 & Hf)]];
      rewrite Hf in Hsize; rewrite ?E, ?E2 in Ho; try discriminate; lia).
    eapply (runs_loop _ _ _ d v (fun j v' => (forall q, scratch q = false -> v_reg v' q = v_reg v q) /\
      forall i, v_table v' i = if (1 <=? i) && (i <? j) then 0 else v_table v i)).
    + split; [auto |]. intros i. replace ((1 <=? i) && (i <? 1)) with false by lia. reflexivity.
    + intros j v1 Hj [Hr Ht]. assert (Ej : u16 j = j) by (apply u16_small; lia). rewrite Ej. apply runs_set_vlan_entry; [lia |].
      intros v2 Hr2 Ht2. split; [intros q Hq; rewrite Hr2 by exact Hq; apply Hr, Hq |]. intros i. rewrite Ht2, entry_word_empty, Ht.
      destruct (decide (i = j)) as [-> | Hne]; [replace ((1 <=? j) && (j <? j + 1)) with true by lia; reflexivity |].
      replace ((1 <=? i) && (i <? j + 1)) with ((1 <=? i) && (i <? j)) by lia. reflexivity.
    + intros v1 [Hr Ht]. apply HQ; [exact Hr |]. intros i Hi. rewrite Ht. unfold is_old. rewrite Ho. cbn [andb].
      destruct (Z.eqb_spec i 0) as [-> | Hne]; [reflexivity |]. assert (E : (1 <=? i) && (i <? 1 + Z.of_nat (Z.to_nat (sw_vlans d - 1))) = true) by (rewrite Z2Nat.id by lia; lia). rewrite E. reflexivity.
  - assert (Hf : ds_family s = FVta) by (unfold desc_of; cbn [ds_family]; destruct (is5325 d), (is5365 d); try discriminate; reflexivity).
    apply runs_unchecked, (runs_vlan_op junk _ d _ (fun _ => 0)); [exact Hf | reflexivity | |].
    + intros c Hb Hr Ht. destruct (rs_vta_clear c Hf Hb) as (H1 & H2 & H3). split; [intros q; rewrite H1; apply Hr | auto].
    + apply HQ; [reflexivity |]. intros i Hi. unfold is_old. rewrite Ho. reflexivity.
Qed.

Definition vlan (i : Z) : Z * Z := geti (0, 0) (b53_vlans d) i.

Lemma vlan_is_ok i : 0 <= i < sw_vlans d -> vlan_ok d (vlan i).
Proof.
  intros Hi. destruct (wf_size d Hwf) as [Hl _]. unfold vlan, geti. apply (Forall_nth (vlan_ok d)); [exact (wf_vlans d Hwf) | lia].
Qed.

Lemma runs_vlan_at i v (Q : Z * Z -> view -> Prop) : 0 <= i < sw_vlans d -> Q (vlan i) v -> runs (s := s) (vlan_at i) d v Q.
Proof.
  intros Hi HQ. unfold vlan_at. run_dev. destruct (wf_size d Hwf) as [Hl _]. unfold in_array. replace (_ && _) with true by lia. apply runs_ret, HQ.
Qed.

Lemma runs_fill_entries v (Q : unit -> view -> Prop) :
  (forall v', (forall q, scratch q = false -> v_reg v' q = v_reg v q) ->
     (forall i, 0 <= i < sw_vlans d -> v_table v' i = if cbool (fst (vlan i)) then entry_word s i (fst (vlan i)) (snd (vlan i)) else v_table v i) ->
     Q tt v') ->
  runs (s := s) (fill_entries junk) d v Q.
Proof.
  intros HQ. unfold fill_entries. run_dev. destruct (wf_size d Hwf) as [Hlen Hsize].
  eapply (runs_loop _ _ _ d v (fun j v' => (forall q, scratch q = false -> v_reg v' q = v_reg v q) /\
    forall i, 0 <= i < sw_vlans d -> v_table v' i = if (i <? j) && cbool (fst (vlan i)) then entry_word s i (fst (vlan i)) (snd (vlan i)) else v_table v i)).
  - split; [auto |]. intros i Hi. replace (i <? 0) with false by lia. reflexivity.
  - intros j v1 Hj [Hr Ht]. assert (Hj' : 0 <= j < sw_vlans d) by lia. apply runs_bind, runs_vlan_at; [exact Hj' |].
    assert (Hu16 : u16 j = j) by (apply u16_small; unfold table_size in Hsize; destruct (ds_family s); lia). rewrite Hu16.
    destruct (vlan_ok_range d _ Hwf (vlan_is_ok j Hj')) as (Hm & Hu & _). pose proof (Z.pow_le_mono_r 2 _ _ eq_refl (port_bits_le d)).
    rewrite !u16_small by lia.
    assert (Hstep : forall i, (i <? j + 1) = (i <? j) || (i =? j)) by (intros; lia).
    destruct (cbool (fst (vlan j))) eqn:Hc.
    + apply runs_set_vlan_entry; [lia |]. intros v2 Hr2 Ht2. split; [intros q Hq; rewrite Hr2 by exact Hq; apply Hr, Hq |].
      intros i Hi. rewrite Ht2, Ht, Hstep by exact Hi. destruct (decide (i = j)) as [-> | Hne]; [rewrite Z.eqb_refl, Bool.orb_true_r, Hc; reflexivity |].
      apply Z.eqb_neq in Hne. rewrite Hne, Bool.orb_false_r. reflexivity.
    + apply runs_ret. split; [exact Hr |]. intros i Hi. rewrite Ht, Hstep by exact Hi. destruct (Z.eqb_spec i j) as [-> | _]; [rewrite Hc, !Bool.andb_false_r; reflexivity |].
      rewrite Bool.orb_false_r. reflexivity.
  - intros v1 [Hr Ht]. apply HQ; [exact Hr |]. intros i Hi. rewrite Ht by exact Hi. rewrite Z2Nat.id by lia. replace (i <? 0 + sw_vlans d) with true by lia. reflexivity.
Qed.

(** The VLAN registers, from the configuration. *)
Definition filter_bits : Z := Z.lor (Z.lor VC0_VLAN_EN VC0_VID_CHK_EN) VC0_VID_HASH_VID.
Definition filtering v (on : bool) : Prop :=
  Z.land (v_reg v Vc0) filter_bits = (if on then filter_bits else 0) /\
  Z.land (v_reg v Vc5) VC5_DROP_VTABLE_MISS = (if on then VC5_DROP_VTABLE_MISS else 0).
Definition vlan_control (q : role) : bool := match q with Vc0 | Vc1 | Vc3 | Vc4 | Vc5 | Mode => true | _ => false end.

Lemma vc_regs_eq w : vc_regs (with_b53_io w d) = ((role_width s Vc3, snd (role_at s Vc3)), snd (role_at s Vc4), snd (role_at s Vc5)).
Proof.
  unfold vc_regs. rewrite io_25, io_65, io_63xx. unfold desc_of, role_width, role_at. cbn [ds_family ds_63xx].
  destruct (is5325 d), (is5365 d), (is63xx d); reflexivity.
Qed.

Lemma runs_enable_vlan on v (Q : unit -> view -> Prop) :
  (forall v', (forall q, vlan_control q = false -> v_reg v' q = v_reg v q) -> (forall i, v_table v' i = v_table v i) ->
     filtering v' on -> Z.land (v_reg v' Mode) SM_SW_FWD_MODE = 0 -> Q tt v') ->
  runs (s := s) (b53_enable_vlan junk on) d v Q.
Proof.
  intros HQ. unfold b53_enable_vlan. destruct vc0_bits as [Hb0 Hb0'], vc5_bits as [Hb5 Hb5'].
  apply runs_bind, (runs_fetch junk Mode); [reflexivity .. | intros _]. apply runs_bind, (runs_fetch junk Vc0); [reflexivity .. | intros _].
  apply runs_bind, (runs_fetch junk Vc1); [reflexivity .. | intros _]. run_dev. rewrite vc_regs_eq. cbv beta iota zeta.
  apply runs_bind, runs_unchecked, (runs_read Vc4); [reflexivity .. | intros _]. apply runs_bind, (runs_fetch junk Vc5); [reflexivity .. | intros _].
  apply runs_bind, (runs_put Vc0); [reflexivity .. |]. apply runs_bind, (runs_put Vc1); [reflexivity .. |].
  apply runs_bind, (runs_put Vc3); [reflexivity .. |]. apply runs_bind, (runs_put Vc4); [reflexivity .. |].
  apply runs_bind, (runs_put Vc5); [reflexivity .. |]. apply (runs_put Mode); [reflexivity .. |].
  apply HQ; cbn -[uwrap bits]; change (bits W8) with 8.
  - intros q Hq. destruct q; try discriminate; reflexivity.
  - reflexivity.
  - fold filter_bits. split; cbn -[uwrap]; destruct on; fold filter_bits.
    + destruct (is5325 d); [apply land_set_clear | apply land_set]; assumption.
    + apply land_clear. lia.
    + destruct (is5325 d || is5365 d); [apply land_set; assumption |].
      destruct (cbool (allow_vid_4095 d)); [rewrite <- Z.lor_assoc, (Z.lor_comm VC5_DROP_VTABLE_MISS), Z.lor_assoc; apply land_set | apply land_set_clear]; assumption.
    + destruct (is5325 d || is5365 d); [apply land_clear; lia |].
      rewrite Z.ldiff_ldiff_l, Z.lor_comm, <- Z.ldiff_ldiff_l. apply land_clear. lia.
  - apply land_clear. lia.
Qed.

(** The default VLANs of the ports. *)
Definition default_vlan (on : bool) (i : Z) : Z := if on then geti 0 (b53_pvids d) i else 1.

Lemma runs_write_pvids on v (Q : unit -> view -> Prop) :
  (forall v', (forall q, (match q with Tag _ => false | _ => true end) = true -> v_reg v' q = v_reg v q) -> (forall i, v_table v' i = v_table v i) ->
     (forall i, is_port d i -> v_reg v' (Tag i) = default_vlan on i) -> Q tt v') ->
  runs (s := s) (write_pvids on) d v Q.
Proof.
  intros HQ. unfold write_pvids. pose proof (wf_enabled_9 d Hwf) as He. destruct (wf_pvids d Hwf) as [Hl Hp].
  apply (runs_each_port d _ _ (fun i v' => (forall q, (match q with Tag _ => false | _ => true end) = true -> v_reg v' q = v_reg v q) /\
    (forall i, v_table v' i = v_table v i) /\ forall k, k < i -> is_port d k -> v_reg v' (Tag k) = default_vlan on k)); [lia | | |].
  - split; [auto |]. split; [auto |]. intros k Hk Hk'. pose proof (is_port_range d k Hwf Hk'). lia.
  - intros i j v1 Hij Hj Hgap (Hr & Ht & Hk). pose proof (is_port_range d j Hwf Hj) as Hj'. pose proof (wf_sw_ports d Hwf) as Hn.
    assert (Hrange : 0 <= default_vlan on j < 65536).
    { unfold default_vlan. destruct on; [| lia]. assert (0 <= geti 0 (b53_pvids d) j < 4096); [| lia].
      unfold geti. apply (Forall_nth (fun p => 0 <= p < 4096)); [exact Hp | lia]. }
    apply runs_bind. apply (runs_mono _ _ _ (fun p v' => p = default_vlan on j /\ v' = v1)).
    + destruct on; [| apply runs_ret; auto]. unfold pvid_at. run_dev. unfold in_array. replace (_ && _) with true by lia. apply runs_ret. auto.
    + intros p v' [-> ->]. apply runs_bind, (runs_put (Tag j)); [cbn; lia | reflexivity | reflexivity |]. apply runs_ret. split; [lia |].
      change (bits W16) with 16. rewrite uwrap_small by lia. split; [| split].
      * intros q Hq. cbn. rewrite decide_False by (intros ->; discriminate). apply Hr, Hq.
      * exact Ht.
      * intros k Hkj Hkp. cbn. destruct (decide (Tag k = Tag j)) as [[= ->] | Hne]; [reflexivity |]. apply Hk; [| exact Hkp].
        destruct (Z.lt_ge_cases k i); [assumption |]. destruct (Z.eq_dec k j) as [-> | Hkj']; [elim Hne; reflexivity |]. elim (Hgap k); [lia | exact Hkp].
  - intros i v1 _ Hrest (Hr & Ht & Hk). apply HQ; [exact Hr | exact Ht |]. intros k Hkp. apply Hk; [| exact Hkp].
    destruct (Z.lt_ge_cases k i); [assumption |]. elim (Hrest k); assumption.
Qed.

(** The ports a port forwards to. *)
Definition uplink : Z := if is531x5 d || is5301x d then sw_cpu_port d else B53_CPU_PORT.
Definition row (on : bool) (i : Z) : Z := if on || (i =? sw_cpu_port d) then 0x1ff else BIT uplink.
Definition forwards v (i j : Z) : bool := Z.testbit (v_reg v (Row (hw_port d i))) j.
Definition port_row (q : role) : bool := match q with Row _ | PortCtrl _ => true | _ => false end.

Lemma uplink_range : 0 <= uplink <= 8.
Proof. unfold uplink. pose proof (wf_cpu d Hwf). destruct cpu_ports as [-> _]. destruct (_ || _); lia. Qed.

Lemma row_range on i : 0 <= row on i < 65536.
Proof.
  unfold row. destruct (_ || _); [lia |]. pose proof uplink_range. pose proof (BIT_range uplink 16 ltac:(lia)). lia.
Qed.

Lemma hw_port_range i : 0 <= i <= 8 -> 0 <= hw_port d i <= 8.
Proof. unfold hw_port. destruct (_ && _); lia. Qed.

Lemma runs_enable_ports v (Q : unit -> view -> Prop) :
  (forall v', (forall q, port_row q = false -> v_reg v' q = v_reg v q) -> (forall i, v_table v' i = v_table v i) ->
     (forall i, is_port d i -> v_reg v' (Row (hw_port d i)) = row (cbool (enable_vlan d)) i) -> Q tt v') ->
  runs (s := s) b53_enable_ports d v Q.
Proof.
  intros HQ. unfold b53_enable_ports. pose proof (wf_enabled_9 d Hwf) as He. pose proof (wf_sw_ports d Hwf) as Hn. destruct cpu_ports as [Hcpu Hcpu25].
  apply (runs_each_port d _ _ (fun i v' => (forall q, port_row q = false -> v_reg v' q = v_reg v q) /\ (forall i, v_table v' i = v_table v i) /\
    forall k, k < i -> is_port d k -> v_reg v' (Row (hw_port d k)) = row (cbool (enable_vlan d)) k)); [lia | | |].
  - split; [auto |]. split; [auto |]. intros k Hk Hk'. pose proof (is_port_range d k Hwf Hk'). lia.
  - intros i j v1 Hij Hj Hgap (Hr & Ht & Hk). pose proof (is_port_range d j Hwf Hj) as Hj'. pose proof (hw_port_range j ltac:(lia)) as Hw.
    unfold b53_enable_port, pvlan_mask_of. run_dev. rewrite io_cpu. cbv zeta.
    replace (if cbool (enable_vlan d) || (j =? sw_cpu_port d) then 0x1ff else if is531x5 d || is5301x d then BIT (sw_cpu_port d) else BIT B53_CPU_PORT)
      with (row (cbool (enable_vlan d)) j) by (unfold row, uplink; destruct (is531x5 d || is5301x d); reflexivity).
    rewrite (u16_small (row _ j)) by apply row_range. rewrite Hcpu25, Hcpu. fold (is_old d). change (if is_old d && (j =? 5) then 8 else j) with (hw_port d j).
    apply runs_bind, (runs_put (Row (hw_port d j))); [cbn; lia | reflexivity | reflexivity |].
    set (v2 := set_reg _ _ _).
    assert (HI : forall x, (forall q, port_row q = false -> v_reg (set_reg (PortCtrl (hw_port d j)) x v2) q = v_reg v q) /\
      (forall q, port_row q = false -> v_reg v2 q = v_reg v q) /\
      forall k, k < j + 1 -> is_port d k -> v_reg v2 (Row (hw_port d k)) = row (cbool (enable_vlan d)) k).
    { intros x. subst v2. split; [| split].
      - intros q Hq. cbn. rewrite !decide_False by (intros ->; discriminate). apply Hr, Hq.
      - intros q Hq. cbn. rewrite decide_False by (intros ->; discriminate). apply Hr, Hq.
      - intros k Hkj Hkp. cbn -[u16 uwrap bits]. destruct (decide (Row (hw_port d k) = Row (hw_port d j))) as [[= E] | Hne].
        + rewrite (hw_port_inj d k j Hwf Hkp Hj E). apply u16_small, row_range.
        + apply Hk; [| exact Hkp]. destruct (Z.lt_ge_cases k i); [assumption |].
          destruct (Z.eq_dec k j) as [-> | Hkj']; [elim Hne; reflexivity |]. elim (Hgap k); [lia | exact Hkp]. }
    assert (Hend : forall v3, (forall k, is_port d k -> k < hw_port d j + 1 -> k < j + 1) ->
      (forall q, port_row q = false -> v_reg v3 q = v_reg v q) -> (forall i, v_table v3 i = v_table v i) ->
      (forall k, k < j + 1 -> is_port d k -> v_reg v3 (Row (hw_port d k)) = row (cbool (enable_vlan d)) k) ->
      j <= hw_port d j /\ (forall q, port_row q = false -> v_reg v3 q = v_reg v q) /\ (forall i, v_table v3 i = v_table v i) /\
      forall k, k < hw_port d j + 1 -> is_port d k -> v_reg v3 (Row (hw_port d k)) = row (cbool (enable_vlan d)) k).
    { intros v3 Hlt H1 H2 H3. split; [unfold hw_port; destruct (is_old d); cbn [andb]; [destruct (Z.eqb_spec j 5); lia | lia] |].
      split; [exact H1 |]. split; [exact H2 |]. intros k Hkj Hkp. apply H3; [apply Hlt |]; assumption. }
    assert (Hlt : forall k, is_port d k -> k < hw_port d j + 1 -> k < j + 1).
    { intros k Hkp. unfold hw_port. destruct (is_old d) eqn:Ho; cbn [andb]; [| auto]. destruct (Z.eqb_spec j 5); [| auto].
      pose proof (is_port_old d k Hwf Ho Hkp). lia. }
    apply runs_bind. destruct (negb (is63xx d) && negb (is5301x d && (hw_port d j =? 6))).
    + apply (runs_put (PortCtrl (hw_port d j))); [cbn; lia | reflexivity | reflexivity |]. apply runs_ret.
      apply Hend; [exact Hlt | apply HI | exact Ht |]. intros k Hkj Hkp. cbn. destruct (HI 0) as (_ & _ & HI3). apply HI3; assumption.
    + apply runs_ret, runs_ret. apply Hend; [exact Hlt | apply (HI 0) | exact Ht | apply (HI 0)].
  - intros i v1 _ Hrest (Hr & Ht & Hk). apply HQ; [exact Hr | exact Ht |]. intros k Hkp. apply Hk; [| exact Hkp].
    destruct (Z.lt_ge_cases k i); [assumption |]. elim (Hrest k); assumption.
Qed.

Lemma runs_set_jumbo on v (Q : unit -> view -> Prop) : ds_family s = FVta ->
  (forall v', (forall q, (match q with JumboMask | JumboSize => true | _ => false end) = false -> v_reg v' q = v_reg v q) ->
     (forall i, v_table v' i = v_table v i) -> Q tt v') ->
  runs (s := s) (b53_set_jumbo on true) d v Q.
Proof.
  intros Hf HQ. unfold b53_set_jumbo. run_dev. destruct (family_cases d) as [[_ E] | [(_ & _ & E) | (-> & -> & _)]]; [congruence .. |]. cbn [orb].
  apply runs_bind, (runs_put JumboMask); [place ltac:(rewrite ?Hf) .. |]. apply (runs_write JumboSize W16); [place ltac:(rewrite ?Hf) .. |].
  apply HQ; [| reflexivity]. intros q Hq. cbn. rewrite !decide_False by (intros ->; discriminate). reflexivity.
Qed.

Lemma runs_set_forwarding (on : bool) v (Q : unit -> view -> Prop) :
  (forall v', (forall q, q <> Mode -> v_reg v' q = v_reg v q) -> (forall i, v_table v' i = v_table v i) ->
     Z.land (v_reg v' Mode) SM_SW_FWD_EN = (if on then SM_SW_FWD_EN else 0) ->
     (Z.land (v_reg v Mode) SM_SW_FWD_MODE = 0 -> Z.land (v_reg v' Mode) SM_SW_FWD_MODE = 0) -> Q tt v') ->
  runs (s := s) (b53_set_forwarding junk on) d v Q.
Proof.
  intros HQ. unfold b53_set_forwarding. destruct mode_bits as (Hb & _ & Hb'). apply runs_bind, (runs_fetch junk Mode); [reflexivity .. | intros _].
  apply (runs_put Mode); [reflexivity .. |]. apply HQ; cbn -[uwrap bits]; rewrite ?(decide_True (P := Mode = Mode)) by reflexivity; change (bits W8) with 8.
  - intros q Hq. rewrite decide_False by exact Hq. reflexivity.
  - reflexivity.
  - destruct on; [apply land_set; exact Hb | apply land_clear; lia].
  - intros Hm. apply Z.bits_inj'. intros i Hi. apply (f_equal (fun y => Z.testbit y i)) in Hm, Hb'. revert Hm Hb'.
    rewrite !Z.land_spec, testbit_uwrap, Z.testbit_0_l by lia. destruct on; rewrite ?Z.lor_spec, ?Z.ldiff_spec;
      destruct (i <? 8), (Z.testbit (v_reg v Mode) i), (Z.testbit SM_SW_FWD_EN i), (Z.testbit SM_SW_FWD_MODE i); intros; reflexivity || discriminate.
Qed.

(** The entry the driver does not touch: it empties the table of a BCM5325 or
    BCM5365 from entry 1 on, and fills in only VLANs that have members. *)
Definition left_alone (i : Z) : bool := is_old d && (i =? 0) && negb (cbool (enable_vlan d) && cbool (fst (vlan 0))).

(** The switch does what the configuration of the device says, but for an
    entry that is left alone; [old] is the switch before. *)
Definition in_force (old v : view) : Prop :=
  let on := cbool (enable_vlan d) in
  Z.land (v_reg v Mode) (Z.lor SM_SW_FWD_EN SM_SW_FWD_MODE) = SM_SW_FWD_EN /\ filtering v on /\
  (forall i, is_port d i -> v_reg v (Tag i) = default_vlan on i) /\
  (forall i j, is_port d i -> 0 <= j <= 8 -> forwards v i j = true <-> on = true \/ i = sw_cpu_port d \/ j = uplink) /\
  (forall i, 0 <= i < sw_vlans d ->
     if left_alone i then v_table v i = v_table old i else vlan_of s (v_table v i) = if on then vlan i else (0, 0)).

Lemma row_testbit on i j : 0 <= j <= 8 -> Z.testbit (row on i) j = true <-> on = true \/ i = sw_cpu_port d \/ j = uplink.
Proof.
  intros Hj. unfold row. pose proof uplink_range as Hu. destruct on; cbn [orb].
  - change 0x1ff with (Z.ones 9). rewrite testbit_ones by lia. lia.
  - destruct (Z.eqb_spec i (sw_cpu_port d)).
    + change 0x1ff with (Z.ones 9). rewrite testbit_ones by lia. lia.
    + rewrite testbit_BIT by lia. split; [intros E; right; right; lia | intros [E | [E | E]]; [discriminate | contradiction | lia]].
Qed.

Ltac keep := repeat match goal with Hr : forall q, _ -> v_reg ?a q = v_reg _ q |- context [v_reg ?a ?q] => rewrite (Hr q) by (reflexivity || discriminate) end.

Lemma runs_apply v (Q : unit -> view -> Prop) :
  (forall v', filtering v' (cbool (enable_vlan d)) -> Z.land (v_reg v' Mode) SM_SW_FWD_MODE = 0 ->
     (forall i, is_port d i -> v_reg v' (Tag i) = default_vlan (cbool (enable_vlan d)) i) ->
     (forall i, is_port d i -> v_reg v' (Row (hw_port d i)) = row (cbool (enable_vlan d)) i) ->
     (forall i, 0 <= i < sw_vlans d -> v_table v' i =
        if cbool (enable_vlan d) && cbool (fst (vlan i)) then entry_word s i (fst (vlan i)) (snd (vlan i))
        else if is_old d && (i =? 0) then v_table v i else 0) -> Q tt v') ->
  runs (s := s) (b53_apply junk) d v Q.
Proof.
  intros HQ. unfold b53_apply. apply runs_bind, runs_clear_entries. intros v1 Hr1 Ht1. run_dev.
  set (on := cbool (enable_vlan d)) in *. apply runs_bind, runs_enable_vlan. intros v2 Hr2 Ht2 Hf2 Hm2.
  apply runs_bind. apply (runs_mono _ _ _ (fun _ v3 => (forall q, scratch q = false -> v_reg v3 q = v_reg v2 q) /\
    forall i, 0 <= i < sw_vlans d -> v_table v3 i =
      if on && cbool (fst (vlan i)) then entry_word s i (fst (vlan i)) (snd (vlan i)) else v_table v2 i)).
  { destruct on; [apply runs_fill_entries; intros v3 Hr3 Ht3; split; assumption | apply runs_ret; split; intros; reflexivity]. }
  intros [] v3 [Hr3 Ht3]. apply runs_bind, runs_write_pvids. intros v4 Hr4 Ht4 Hg4. apply runs_bind, runs_enable_ports. intros v5 Hr5 Ht5 Hp5. run_dev.
  assert (Hend : forall v6, (forall q, (match q with JumboMask | JumboSize => true | _ => false end) = false -> v_reg v6 q = v_reg v5 q) ->
     (forall i, v_table v6 i = v_table v5 i) -> Q tt v6).
  { intros v6 Hr6 Ht6. apply HQ.
    - unfold filtering. keep. exact Hf2.
    - keep. exact Hm2.
    - intros i Hi. keep. apply Hg4, Hi.
    - intros i Hi. keep. apply Hp5, Hi.
    - intros i Hi. rewrite Ht6, Ht5, Ht4, Ht3, Ht2, Ht1 by exact Hi. reflexivity. }
  destruct (negb (is5325 d) && negb (is5365 d)) eqn:Ho.
  - apply runs_unchecked, runs_set_jumbo; [| exact Hend]. unfold desc_of. cbn [ds_family]. destruct (is5325 d), (is5365 d); try discriminate. reflexivity.
  - apply runs_ret. apply Hend; reflexivity.
Qed.

Lemma runs_apply_config v : runs (s := s) (b53_global_apply_config junk) d v (fun _ v' => in_force v v').
Proof.
  unfold b53_global_apply_config. apply runs_bind, runs_set_forwarding. intros v1 Hr1 Ht1 _ _. apply runs_bind, runs_unchecked, runs_apply.
  intros v2 Hf Hm Hg Hp Ht. apply runs_set_forwarding. intros v3 Hr3 Ht3 Hfw Hm3. unfold in_force. split; [| split; [| split; [| split]]].
  - rewrite Z.land_lor_distr_r, Hfw, (Hm3 Hm). apply Z.lor_0_r.
  - unfold filtering. keep. exact Hf.
  - intros i Hi. keep. apply Hg, Hi.
  - intros i j Hi Hj. unfold forwards. keep. rewrite Hp by exact Hi. apply row_testbit, Hj.
  - intros i Hi. rewrite Ht3, Ht by exact Hi. destruct (vlan_ok_range d _ Hwf (vlan_is_ok i Hi)) as (Hm1 & Hu1 & Hmu). unfold left_alone.
    destruct (is_old d && (i =? 0)) eqn:Ho; cbn [andb].
    + apply andb_prop in Ho. destruct Ho as [_ Ho]. apply Z.eqb_eq in Ho. subst i.
      destruct (cbool (enable_vlan d)); cbn [andb negb]; [| apply Ht1].
      destruct (cbool (fst (vlan 0))); cbn [negb]; [rewrite vlan_of_entry by assumption; destruct (vlan 0); reflexivity | apply Ht1].
    + destruct (cbool (enable_vlan d)); cbn [andb]; [| apply vlan_of_zero].
      destruct (cbool (fst (vlan i))) eqn:Hz; [rewrite vlan_of_entry by assumption; destruct (vlan i); reflexivity |].
      assert (E : fst (vlan i) = 0) by (unfold cbool in Hz; destruct (Z.eqb_spec (fst (vlan i)) 0); [assumption | discriminate]).
      rewrite vlan_of_zero. destruct (vlan i) as [m u]. cbn [fst snd] in *. subst m. destruct Hmu as [[] | ->]; reflexivity.
Qed.
End Apply.

(** ** Requests *)

Inductive b53_request :=
| SetVlanEnable (i : Z)
| SetJumboEnable (i : Z)
| Set4095Enable (i : Z)
| SetPvid (port v : Z)
| SetPorts (port_vlan : Z) (ports : list switch_port).

Section Requests.
Context {R : B53Regs} {W : Type} {H : B53Priv W} {HP : B53PrivOk W}.
Variable tagged_flag : Z.
Implicit Types d : b53_device W.

Definition b53_config (q : b53_request) : M (b53_device W) unit :=
  match q with
  | SetVlanEnable i => b53_global_set_vlan_enable i
  | SetJumboEnable i => b53_global_set_jumbo_enable i
  | Set4095Enable i => b53_global_set_4095_enable i
  | SetPvid port v => b53_port_set_pvid port v
  | SetPorts port_vlan ports => b53_vlan_set_ports tagged_flag port_vlan ports
  end.

(** What the framework passes: ports of the switch, VLANs of twelve bits. *)
Definition request_ok d (q : b53_request) : Prop :=
  match q with
  | SetPvid port v => 0 <= v < 4096
  | SetPorts port_vlan ports => Forall (fun p => 0 <= fst p < sw_ports d) ports
  | _ => True
  end.

(** Only the configuration differs. *)
Definition reconfigured d d' : Prop := exists a b c p v, d' = with_tables p v (with_flags a b c d).

Lemma reconfigured_refl d : reconfigured d d.
Proof. destruct d. repeat eexists. Qed.
Lemma reconfigured_trans d1 d2 d3 : reconfigured d1 d2 -> reconfigured d2 d3 -> reconfigured d1 d3.
Proof. intros (a & b & c & p & v & ->) (a' & b' & c' & p' & v' & ->). repeat eexists. Qed.

Lemma reconfigured_desc d d' : reconfigured d d' -> desc_of d' = desc_of d.
Proof.
  intros (a & b & c & p & v & ->). unfold desc_of. set (d' := with_tables p v (with_flags a b c d)).
  rewrite (is5325_chip d' d eq_refl), (is5365_chip d' d eq_refl), (is63xx_chip d' d eq_refl). reflexivity.
Qed.

Lemma wf_reconfigured d d' : wf d -> reconfigured d d' ->
  length (b53_pvids d') = length (b53_pvids d) -> Forall (fun p => 0 <= p < 4096) (b53_pvids d') ->
  length (b53_vlans d') = length (b53_vlans d) -> Forall (vlan_ok d) (b53_vlans d') -> wf d'.
Proof.
  intros [H1 H2 H3 H4 [H5 _] [H7 H8] _] Hc Hp1 Hp2 Hv1 Hv2. pose proof (reconfigured_desc d d' Hc) as Hdesc. destruct Hc as (a & b & c & p & v & ->).
  split; rewrite ?Hdesc; cbn [enabled_ports sw_ports sw_cpu_port sw_vlans b53_pvids b53_vlans with_tables with_flags] in *; try assumption; rewrite ?Hp1, ?Hv1; auto.
Qed.

Lemma wf_flags a b c d : wf d -> wf (with_flags a b c d).
Proof.
  intros Hd. apply (wf_reconfigured d); [exact Hd | | reflexivity | apply (wf_pvids d Hd) | reflexivity | apply (wf_vlans d Hd)].
  exists a, b, c, (b53_pvids d), (b53_vlans d). reflexivity.
Qed.

Lemma Forall_seti {A} (P : A -> Prop) l i x : Forall P l -> P x -> Forall P (seti l i x).
Proof. intros Hl Hx. apply Forall_insert; assumption. Qed.

Lemma wf_set_pvid port v d : wf d -> 0 <= v < 4096 -> wf (with_tables (seti (b53_pvids d) port (to_pvid v)) (b53_vlans d) d).
Proof.
  intros Hd Hv. rewrite to_pvid_eq by exact Hv.
  apply (wf_reconfigured d); [exact Hd | | apply seti_length | | reflexivity | apply (wf_vlans d Hd)].
  - destruct d. repeat eexists.
  - apply Forall_seti; [apply (wf_pvids d Hd) | exact Hv].
Qed.

(** ** Setting the ports of a VLAN *)

Definition tagged (fl : Z) : bool := cbool (Z.land fl (BIT tagged_flag)).
(** The members, untagged ports and PVIDs the ports of a request add up to. *)
Definition add_port (vid : Z) (acc : (Z * Z) * list Z) (p : switch_port) : (Z * Z) * list Z :=
  let '((m, u), pvids) := acc in let (id, fl) := p in
  (Z.lor m (BIT id), if tagged fl then u else Z.lor u (BIT id), if tagged fl then pvids else seti pvids id vid).

Definition acc_ok (n : nat) (acc : (Z * Z) * list Z) : Prop :=
  let '((m, u), pvids) := acc in
  (0 <= m < 2 ^ 9 /\ 0 <= u < 2 ^ 9 /\ Z.land u m = u) /\ length pvids = n /\ Forall (fun p => 0 <= p < 4096) pvids.

Lemma add_port_ok vid n acc p : 0 <= vid < 4096 -> 0 <= fst p <= 8 -> acc_ok n acc -> acc_ok n (add_port vid acc p).
Proof.
  intros Hv Hp. destruct acc as [[m u] pv], p as [id fl]. cbn [fst] in Hp. intros ((H1 & H2 & H3) & H4 & H5). cbn [add_port acc_ok].
  pose proof (BIT_range id 9 ltac:(lia)) as Hb. split; [split; [apply lor_small; lia |] |].
  - split; [destruct (tagged fl); [exact H2 | apply lor_small; lia] |]. apply Z.bits_inj'. intros i Hi. apply (f_equal (fun y => Z.testbit y i)) in H3. revert H3.
    destruct (tagged fl); rewrite !Z.land_spec, !Z.lor_spec; destruct (Z.testbit m i), (Z.testbit u i), (Z.testbit (BIT id) i); intros; reflexivity || discriminate.
  - destruct (tagged fl); [auto |]. split; [rewrite seti_length; exact H4 | apply Forall_seti; assumption].
Qed.

Lemma set_ports_loop_eq vid ports d mu pvids : 0 <= vid < 4096 -> in_array (b53_vlans d) vid = true -> acc_ok (length (b53_pvids d)) (mu, pvids) ->
  sw_ports d <= 9 -> Z.of_nat (length (b53_pvids d)) = sw_ports d -> Forall (fun p => 0 <= fst p < sw_ports d) ports ->
  let acc := fold_left (add_port vid) ports (mu, pvids) in
  acc_ok (length (b53_pvids d)) acc /\
  set_ports_loop tagged_flag vid ports (with_tables pvids (seti (b53_vlans d) vid mu) d) =
    (Ok tt, with_tables (snd acc) (seti (b53_vlans d) vid (fst acc)) d).
Proof.
  intros Hv Hin Hok Hn Hl Hp. revert mu pvids Hok. induction Hp as [| [id fl] ports Hid _ IH]; intros mu pvids Hok; cbn [fold_left]; [split; [exact Hok | reflexivity] |].
  cbn [fst] in Hid. destruct mu as [m u]. pose proof (add_port_ok vid _ ((m, u), pvids) (id, fl) Hv ltac:(cbn; lia) Hok) as Hok'.
  assert (Hvl : forall pv x, vlan_at vid (with_tables pv (seti (b53_vlans d) vid x) d) = (Ok x, with_tables pv (seti (b53_vlans d) vid x) d)).
  { intros pv x. unfold vlan_at, dev, get_state, bind. cbn [b53_vlans with_tables]. unfold in_array in *. rewrite seti_length, Hin.
    unfold ret. rewrite geti_seti by lia. rewrite Z.eqb_refl. reflexivity. }
  assert (Hset : forall pv x y, set_vlan_at vid y (with_tables pv (seti (b53_vlans d) vid x) d) = (Ok tt, with_tables pv (seti (b53_vlans d) vid y) d)).
  { intros pv x y. unfold set_vlan_at, dev, get_state, bind. cbn [b53_vlans with_tables]. unfold in_array in *. rewrite seti_length, Hin.
    unfold modify, seti. cbn [b53_pvids with_tables b53_vlans]. unfold with_tables at 1. cbn. rewrite list_insert_insert_eq. reflexivity. }
  pose proof (BIT_range id 9 ltac:(lia)) as Hb. destruct Hok as ((H1 & H2 & H3) & H4 & H5). destruct Hok' as ((H1' & H2' & H3') & H4' & H5').
  specialize (IH (Z.lor m (BIT id), if tagged fl then u else Z.lor u (BIT id)) (if tagged fl then pvids else seti pvids id vid)
    (conj (conj H1' (conj H2' H3')) (conj H4' H5'))). destruct IH as [IHok IH]. split; [exact IHok |].
  cbn [set_ports_loop]. rewrite (bind_ok _ _ _ _ _ (Hvl _ _)). cbn [fst snd]. rewrite to_ports_eq by exact H1'.
  rewrite (bind_ok _ _ _ _ _ (Hset _ _ _)). cbn [add_port] in IH |- *. unfold tagged in *.
  destruct (cbool (Z.land fl (BIT tagged_flag))); cbn [negb].
  - exact IH.
  - assert (Hpv : set_pvid id vid (with_tables pvids (seti (b53_vlans d) vid (Z.lor m (BIT id), Z.lor u (BIT id))) d) =
      (Ok tt, with_tables (seti pvids id vid) (seti (b53_vlans d) vid (Z.lor m (BIT id), Z.lor u (BIT id))) d)).
    { unfold set_pvid, dev, get_state, bind. cbn [b53_pvids with_tables]. unfold in_array. replace (_ && _) with true by lia. rewrite to_pvid_eq by exact Hv. reflexivity. }
    rewrite <- IH. unfold bind at 1. unfold bind at 1. rewrite Hvl. unfold bind at 1. rewrite to_ports_eq by (cbn [fst snd]; apply lor_small; lia). cbn [fst snd].
    rewrite Hset, Hpv. reflexivity.
Qed.

(** What is left of the ports of a request: those that are enabled. *)
Definition vlan_set d (vid : Z) (ports : list switch_port) : Z * Z :=
  let mu := fst (fold_left (add_port vid) ports ((0, 0), b53_pvids d)) in
  (Z.land (fst mu) (enabled_ports d), Z.land (snd mu) (enabled_ports d)).
Definition pvids_set d (vid : Z) (ports : list switch_port) : list Z := snd (fold_left (add_port vid) ports ((0, 0), b53_pvids d)).

Definition vid_allowed d (vid : Z) : bool :=
  negb ((vid =? 0) && negb (is5325 d) && negb (is5365 d)) && negb ((vid =? 4095) && negb (cbool (allow_vid_4095 d))).

Lemma acc_start d : wf d -> acc_ok (length (b53_pvids d)) ((0, 0), b53_pvids d).
Proof. intros Hd. split; [split; [lia | split; [lia | reflexivity]] |]. split; [reflexivity | apply (wf_pvids d Hd)]. Qed.

Lemma vid_range d vid : wf d -> in_array (b53_vlans d) vid = true -> 0 <= vid < sw_vlans d /\ vid < 4096.
Proof.
  intros Hd Hin. destruct (wf_size d Hd) as [Hl Hs]. unfold in_array in Hin.
  assert (table_size (desc_of d) <= 4096) by (unfold table_size; destruct (ds_family _); lia). lia.
Qed.

Lemma b53_vlan_set_ports_eq vid ports d : wf d -> Forall (fun p => 0 <= fst p < sw_ports d) ports ->
  b53_vlan_set_ports tagged_flag vid ports d =
    if negb (vid_allowed d vid) then (Err (- EINVAL), d) else
    if negb (in_array (b53_vlans d) vid) then (Err (- EFAULT), d) else
    (Ok tt, with_tables (pvids_set d vid ports) (seti (b53_vlans d) vid (vlan_set d vid ports)) d).
Proof.
  intros Hd Hp. unfold b53_vlan_set_ports, vid_allowed, dev. unfold bind at 1, get_state.
  destruct ((vid =? 0) && negb (is5325 d) && negb (is5365 d)); cbn [negb andb]; [reflexivity |].
  destruct ((vid =? 4095) && negb (cbool (allow_vid_4095 d))); cbn [negb andb]; [reflexivity |].
  unfold set_vlan_at at 1, dev. destruct (in_array (b53_vlans d) vid) eqn:Hin; cbn [negb].
  2: { unfold bind at 1 2, get_state. rewrite Hin. reflexivity. }
  destruct (vid_range d vid Hd Hin) as [Hv1 Hv2]. pose proof (wf_sw_ports d Hd) as Hn. destruct (wf_pvids d Hd) as [Hl _].
  destruct (set_ports_loop_eq vid ports d (0, 0) (b53_pvids d) ltac:(lia) Hin (acc_start d Hd) ltac:(lia) Hl Hp) as [Hok E].
  unfold bind at 1 2, get_state. rewrite Hin. unfold modify. rewrite (bind_ok _ _ _ _ _ E).
  unfold pvids_set, vlan_set. destruct (fold_left (add_port vid) ports ((0, 0), b53_pvids d)) as [[m u] pv]. cbn [fst snd] in *.
  destruct Hok as ((H1 & H2 & _) & _). pose proof (wf_enabled_9 d Hd) as He. assert (Hin' : (0 <= vid < Z.of_nat (length (b53_vlans d)))) by (unfold in_array in Hin; lia).
  unfold vlan_at, dev, bind, get_state. cbn [b53_vlans with_tables]. unfold in_array in *. rewrite seti_length, Hin. unfold ret.
  rewrite geti_seti, Z.eqb_refl by lia. unfold set_vlan_at, dev, bind, get_state. cbn [b53_vlans b53_pvids enabled_ports with_tables fst snd].
  unfold in_array. rewrite seti_length, Hin. unfold modify. rewrite !to_ports_eq by (apply land_range; lia). cbn [fst snd]. unfold seti.
  cbn [b53_pvids b53_vlans with_tables]. rewrite list_insert_insert_eq. reflexivity.
Qed.

Lemma vlan_set_ok d vid ports : wf d -> 0 <= vid < 4096 -> Forall (fun p => 0 <= fst p < sw_ports d) ports ->
  vlan_ok d (vlan_set d vid ports) /\ length (pvids_set d vid ports) = length (b53_pvids d) /\ Forall (fun p => 0 <= p < 4096) (pvids_set d vid ports).
Proof.
  intros Hd Hv Hp. pose proof (wf_sw_ports d Hd) as Hn.
  assert (Hok : acc_ok (length (b53_pvids d)) (fold_left (add_port vid) ports ((0, 0), b53_pvids d))).
  { generalize (acc_start d Hd). generalize ((0, 0), b53_pvids d). induction Hp as [| p ports Hp1 _ IH]; intros acc Hacc; [exact Hacc |].
    cbn [fold_left]. apply IH, add_port_ok; [exact Hv | lia | exact Hacc]. }
  unfold vlan_set, pvids_set. destruct (fold_left _ _ _) as [[m u] pv]. destruct Hok as ((_ & _ & H3) & H4 & H5). split; [| auto].
  unfold vlan_ok. cbn [fst snd]. split; apply Z.bits_inj'; intros i Hi; [| apply (f_equal (fun y => Z.testbit y i)) in H3; revert H3]; rewrite !Z.land_spec;
    destruct (Z.testbit m i), (Z.testbit u i), (Z.testbit (enabled_ports d) i); intros; reflexivity || discriminate.
Qed.

(** A request changes the configuration at most, and leaves it well formed. *)
Lemma b53_config_wf q d : wf d -> request_ok d q -> let d' := snd (b53_config q d) in reconfigured d d' /\ wf d'.
Proof.
  intros Hd Hq. destruct q as [i | i | i | port v | vid ports]; cbv zeta; cbn [b53_config].
  1-3: split; [eexists _, _, _, (b53_pvids d), (b53_vlans d); reflexivity | apply wf_flags, Hd].
  - cbn in Hq. unfold b53_port_set_pvid, set_pvid, dev, bind, get_state.
    destruct (_ && is5325 d); [split; [apply reconfigured_refl | exact Hd] |]. destruct (_ && negb _); [split; [apply reconfigured_refl | exact Hd] |].
    destruct (in_array _ _); [| split; [apply reconfigured_refl | exact Hd]].
    split; [destruct d; repeat eexists | apply wf_set_pvid; assumption].
  - cbn in Hq. rewrite b53_vlan_set_ports_eq by assumption. destruct (vid_allowed d vid); cbn [negb]; [| split; [apply reconfigured_refl | exact Hd]].
    destruct (in_array (b53_vlans d) vid) eqn:Hin; cbn [negb snd]; [| split; [apply reconfigured_refl | exact Hd]].
    destruct (vid_range d vid Hd Hin) as [Hv1 Hv2]. destruct (vlan_set_ok d vid ports Hd ltac:(lia) Hq) as (H1 & H2 & H3).
    assert (Hr : reconfigured d (with_tables (pvids_set d vid ports) (seti (b53_vlans d) vid (vlan_set d vid ports)) d)) by (destruct d; repeat eexists).
    split; [exact Hr |]. apply (wf_reconfigured d); [exact Hd | exact Hr | exact H2 | exact H3 | apply seti_length |].
    apply Forall_seti; [apply (wf_vlans d Hd) | exact H1].
Qed.

Lemma request_ok_reconfigured d d' q : reconfigured d d' -> request_ok d q -> request_ok d' q.
Proof. intros (a & b & c & p & v & ->) Hq. destruct q; exact Hq. Qed.

Lemma b53_requests_wf qs d : wf d -> Forall (request_ok d) qs ->
  exists answers d', run_all (fun q => catch (b53_config q)) qs d = (Ok answers, d') /\ reconfigured d d' /\ wf d'.
Proof.
  intros Hd Hq. revert d Hd Hq. induction qs as [| q qs IH]; intros d Hd Hqs; cbn [run_all].
  - eexists [], d. split; [reflexivity |]. split; [apply reconfigured_refl | exact Hd].
  - apply Forall_cons in Hqs. destruct Hqs as [Hq Hqs]. destruct (b53_config_wf q d Hd Hq) as [Hr Hd']. unfold bind at 1, catch at 1.
    destruct (b53_config q d) as [r d1]. cbn [snd] in *.
    destruct (IH d1 Hd') as (l & d2 & E & Hr2 & Hd2); [eapply Forall_impl; [exact Hqs | intros; eapply request_ok_reconfigured; eassumption] |].
    exists (r :: l), d2. unfold bind at 1. rewrite E. split; [reflexivity |]. split; [eapply reconfigured_trans; eassumption | exact Hd2].
Qed.

(** ** Round trip *)

Definition is_member d (ports : list switch_port) (i : Z) : bool := Z.testbit (enabled_ports d) i && existsb (fun p => fst p =? i) ports.
Definition is_untagged (ports : list switch_port) (i : Z) : bool := existsb (fun p => (fst p =? i) && negb (tagged (snd p))) ports.

Lemma add_ports_bits vid ports acc i : Forall (fun p => 0 <= fst p) ports ->
  let acc' := fold_left (add_port vid) ports acc in
  Z.testbit (fst (fst acc')) i = Z.testbit (fst (fst acc)) i || existsb (fun p => fst p =? i) ports /\
  Z.testbit (snd (fst acc')) i = Z.testbit (snd (fst acc)) i || is_untagged ports i.
Proof.
  intros Hp. cbv zeta. revert acc. induction Hp as [| [id fl] ports Hid _ IH]; intros [[m u] pv]; cbn [fold_left existsb fst snd is_untagged];
    [rewrite !Bool.orb_false_r; auto |].
  destruct (IH (add_port vid (m, u, pv) (id, fl))) as [-> ->]. cbn [add_port fst snd] in *. rewrite Z.lor_spec, testbit_BIT by exact Hid.
  rewrite !Bool.orb_assoc. split; [reflexivity |]. destruct (tagged fl); cbn [negb andb]; rewrite ?Z.lor_spec, ?testbit_BIT by exact Hid;
    rewrite ?Bool.andb_false_r, ?Bool.andb_true_r, ?Bool.orb_false_r; reflexivity.
Qed.

Definition listing d (ports : list switch_port) : list switch_port :=
  map (fun i => (i, if is_untagged ports i then 0 else BIT tagged_flag)) (List.filter (is_member d ports) (upto (Z.to_nat (sw_ports d)))).

(** The ports that are read back from a VLAN are those it was set to, as far as
    they are enabled, in ascending order, each tagged as it was asked for. *)
Lemma b53_vlan_round_trip vid ports d : wf d -> Forall (fun p => 0 <= fst p < sw_ports d) ports ->
  vid_allowed d vid = true -> in_array (b53_vlans d) vid = true ->
  exists d', b53_vlan_set_ports tagged_flag vid ports d = (Ok tt, d') /\ wf d' /\ b53_vlan_get_ports tagged_flag vid d' = (Ok (listing d ports), d').
Proof.
  intros Hd Hp Hv Hin. pose proof (b53_config_wf (SetPorts vid ports) d Hd Hp) as [_ Hd']. cbn [b53_config] in Hd'.
  rewrite b53_vlan_set_ports_eq in * by assumption. rewrite Hv, Hin in *. cbn [negb snd] in *. eexists. split; [reflexivity |]. split; [exact Hd' |].
  destruct (vid_range d vid Hd Hin) as [Hr _]. assert (Hin' : 0 <= vid < Z.of_nat (length (b53_vlans d))) by (unfold in_array in Hin; lia).
  unfold b53_vlan_get_ports, vlan_at, dev, bind, get_state. cbn [b53_vlans with_tables]. unfold in_array in *. rewrite seti_length, Hin. unfold ret at 1.
  rewrite geti_seti, Z.eqb_refl by lia. set (d' := with_tables _ _ d). change (sw_ports d') with (sw_ports d).
  assert (Hbits : forall i, Z.testbit (fst (vlan_set d vid ports)) i = is_member d ports i /\
    (is_member d ports i = true -> Z.testbit (snd (vlan_set d vid ports)) i = is_untagged ports i)).
  { intros i. destruct (add_ports_bits vid ports ((0, 0), b53_pvids d) i) as [E1 E2]; [eapply Forall_impl; [exact Hp | cbn; lia] |].
    unfold vlan_set. cbn [fst snd] in *. rewrite !Z.land_spec, E1, E2, Z.testbit_0_l. unfold is_member. cbn [orb].
    split; [apply Bool.andb_comm |]. intros Hm. apply andb_prop in Hm. rewrite (proj1 Hm). apply Bool.andb_true_r. }
  unfold listing, upto. destruct (cbool (fst (vlan_set d vid ports))) eqn:Hz; cbn [negb].
  - rewrite (loop_acc_filter (is_member d ports) (fun i => (i, if is_untagged ports i then 0 else BIT tagged_flag))); [reflexivity |].
    intros j l Hj. rewrite !cbool_land_BIT by exact Hj. destruct (Hbits j) as [-> Hu]. destruct (is_member d ports j); cbn [negb]; [| reflexivity].
    rewrite Hu by reflexivity. destruct (is_untagged ports j); reflexivity.
  - assert (E : fst (vlan_set d vid ports) = 0) by (unfold cbool in Hz; destruct (Z.eqb_spec (fst (vlan_set d vid ports)) 0); [assumption | discriminate]).
    rewrite (filter_ext _ (fun _ => false)) by (intros i; rewrite <- (proj1 (Hbits i)), E; apply Z.testbit_0_l).
    unfold ret. induction (seq _ _); [reflexivity | assumption].
Qed.
End Requests.

(** ** The configuration in force *)

Section InForce.
Context {R : B53Regs} {HR : B53RegsOk} {W C : Type} {IO : B53Io W} {H : B53Priv W} {HP : B53PrivOk W}.
Context {K : RoboCore C} {IOK : B53IoOk W C}.

(** C13: after every sequence of configuration requests, whether they succeed
    or not, applying the configuration succeeds and puts it into force: the
    switch forwards, filters by VLAN if that is enabled, every port has its
    default VLAN, and without VLANs a port reaches the uplink only.  The table
    holds the VLANs of the device and no others, with one exception that the
    code makes and its comment "clear all vlan entries" does not: on a BCM5325
    or BCM5365 entry 0 stays exactly as it was unless VLANs are on and VLAN 0
    has members.  It is so over each of the ways to the registers. *)
Theorem b53_configuration_in_force (junk : string -> Z) (tagged_flag : Z) (d : b53_device W) (HS : RoboSwitch (desc_of d) C) (v : view) qs :
  wf d -> Forall (request_ok d) qs -> shows (s := desc_of d) (b53_io d) v ->
  exists answers d1 w' v', run_all (fun q => catch (b53_config tagged_flag q)) qs d = (Ok answers, d1) /\ reconfigured d d1 /\ wf d1 /\
    b53_global_apply_config junk d1 = (Ok tt, with_b53_io w' d1) /\ shows (s := desc_of d) w' v' /\ in_force d1 v v'.
Proof.
  intros Hd Hq Hv. destruct (b53_requests_wf tagged_flag qs d Hd Hq) as (l & d1 & E & Hr & Hd1). pose proof (reconfigured_desc d d1 Hr) as Hdesc.
  assert (Hio : d1 = with_b53_io (b53_io d) d1) by (destruct Hr as (? & ? & ? & ? & ? & ->); reflexivity).
  revert HS Hv. rewrite <- Hdesc. intros HS Hv. pose proof (runs_apply_config junk d1 Hd1 v (b53_io d) Hv) as Ha. rewrite <- Hio in Ha.
  destruct (wp_never _ _ _ Ha) as ([] & d2 & E2 & w' & v' & -> & Hs & Hf). exists l, d1, w', v'. auto 10.
Qed.
End InForce.

(** ** The PHY drivers *)

(** All three drivers are registered, or none is. *)
Lemma b53_phy_driver_register_all (register : Z * Z -> Z) : let (r, l) := b53_phy_driver_register register [] in
  match r with
  | Ok 0 => l = [b53_phy_driver_id1; b53_phy_driver_id2; b53_phy_driver_id3]
  | Ok _ => l = []
  | Err _ => False
  end.
Proof.
  unfold b53_phy_driver_register, phy_drivers_register, cbool. unfold bind.
  destruct (Z.eqb_spec (register b53_phy_driver_id1) 0) as [E1 | E1]; cbn.
  2: { rewrite (proj2 (Z.eqb_neq _ _) E1). cbn. destruct (register b53_phy_driver_id1); [elim E1 |..]; reflexivity. }
  destruct (Z.eqb_spec (register b53_phy_driver_id2) 0) as [E2 | E2]; cbn.
  2: { rewrite (proj2 (Z.eqb_neq _ _) E2). cbn. destruct (register b53_phy_driver_id2); [elim E2 |..]; reflexivity. }
  destruct (Z.eqb_spec (register b53_phy_driver_id3) 0) as [E3 | E3]; cbn; [reflexivity |].
  rewrite (proj2 (Z.eqb_neq _ _) E3). cbn. destruct (register b53_phy_driver_id3); [elim E3 |..]; reflexivity.
Qed.
