(* ===== verification/B53Counters.v ===== *)
(** * The counters of a RoboSwitch as text

    [b53_port_get_mib] prints a table of counters into a buffer of fixed size:
    which of the tables fit, and which counters are the bytes of a port. *)

From S2P Require Import Prelude Text CMonad Regmap SmiCore Mdio B53Io B53.

(** A table of counters with their values, one line each. *)
Fixpoint mib_text (mibs : list b53_mib_desc) (vals : list Z) : string :=
  match mibs, vals with
  | m :: mibs', v :: vals' => mib_line m v +:+ mib_text mibs' vals'
  | _, _ => EmptyString
  end.

(** The longest a line can be: a counter of 32 bits has ten digits at most, one
    of 64 bits twenty. *)
Definition line_max (m : b53_mib_desc) : nat :=
  Nat.max 20 (String.length (mib_desc_name m)) + 3 + (if mib_size m =? 8 then 20 else 10).
Definition text_max (mibs : list b53_mib_desc) : nat := list_sum (map line_max mibs).

Definition counter_range (m : b53_mib_desc) (v : Z) : Prop := 0 <= v < 2 ^ bits (if mib_size m =? 8 then W64 else W32).

Lemma length_decimal k v : (0 < k)%nat -> 0 <= v < 10 ^ Z.of_nat k -> (String.length (decimal v) <= k)%nat.
Proof.
  intros Hk Hv. unfold decimal. replace (v <? 0) with false by lia. apply length_digits; assumption.
Qed.

Lemma line_length m v : counter_range m v -> (String.length (mib_line m v) <= line_max m)%nat.
Proof.
  intros Hv. unfold mib_line, line_max, counter_range in *. rewrite !length_app_s, length_pad_right. change (String.length ": ") with 2%nat.
  change (String.length newline) with 1%nat.
  assert (String.length (decimal v) <= if (mib_size m =? 8)%Z then 20 else 10)%nat; [| lia].
  destruct (mib_size m =? 8); cbn [bits] in Hv; apply length_decimal; lia.
Qed.

(** The tables of the BCM5365 and of the common switches fit. *)
Definition fits_buffer (mibs : list b53_mib_desc) : Prop := Z.of_nat (text_max mibs) < B53_BUF_SIZE.
Lemma mibs_65_fit : fits_buffer b53_mibs_65.
Proof. vm_compute. reflexivity. Qed.
Lemma mibs_fit : fits_buffer b53_mibs.
Proof. vm_compute. reflexivity. Qed.
Lemma mibs_63xx_max : Z.of_nat (text_max b53_mibs_63xx) - B53_BUF_SIZE = 248.
Proof. vm_compute. reflexivity. Qed.

(** What is relied on of the way to the registers: a word that is read has no
    more bits than were asked for. *)
Definition reads_fit {W} (IO : B53Io W) : Prop := forall wd p r w v w', wd = W32 \/ wd = W64 ->
  b53_read wd p r w = (Ok v, w') -> 0 <= v < 2 ^ bits wd.

Lemma srab_reads_fit {W} {MM : Mmio32 W} : reads_fit b53_srab_ops.
Proof.
  assert (Hrel : forall A (m : M W A) w v w', releasing m w = (Ok v, w') -> exists w1, m w = (Ok v, w1)).
  { intros A m w v w'. unfold releasing. destruct (m w) as [r w1]. destruct (b53_srab_release_grant w1) as [r2 w2]. intros [= -> _]. eauto. }
  intros wd p r w v w' [-> | ->]; cbn [b53_read b53_srab_ops bits]; intros E; apply Hrel in E; destruct E as (w1 & E); revert E; unfold bind, readl, ret;
    destruct (b53_srab_request_grant w) as [[[] | ] w2]; try discriminate; destruct (b53_srab_op p r 0 w2) as [[[] | ] w3]; try discriminate.
  - destruct (mmio_readl B53_SRAB_RD_L w3) as [x w4]. intros [= <- _]. apply u32_range.
  - destruct (mmio_readl B53_SRAB_RD_L w3) as [x w4], (mmio_readl B53_SRAB_RD_H w4) as [y w5]. intros [= <- _]. apply uwrap_range. lia.
Qed.

Lemma mdio_reads_fit {B} {MB : MiiBus B} : reads_fit (b53_mdio_ops (B := B)).
Proof.
  intros wd p r w v w' [-> | ->]; cbn [b53_read b53_mdio_ops bits]; unfold b53_mdio_read32, b53_mdio_read64, bind;
    destruct (b53_mdio_op p r REG_MII_ADDR_READ w) as [[[] | ] w1]; try discriminate; unfold mdiobus_read, ret; cbn [md_read_words]; unfold bind, mdiobus_read, ret;
    repeat match goal with |- context [mii_read ?a ?b ?c] => destruct (mii_read a b c) as [? ?] end; intros [= <- _]; apply uwrap_range; lia.
Qed.

Section Counters.
Context {R : B53Regs} {W : Type} {IO : B53Io W} {H : B53Priv W}.
Variable junk : string -> Z.
Implicit Types d : b53_device W.

(** Whatever the access answers, a counter is a number of its width. *)
Lemma mib_fetch_total m port offset d : reads_fit IO ->
  exists v d', mib_fetch junk (mib_size m =? 8) port offset d = (Ok v, d') /\ counter_range m v.
Proof.
  intros Hio. unfold mib_fetch, counter_range, fetch, unchecked, on_io. destruct (mib_size m =? 8);
    match goal with |- context [b53_read ?wd ?p ?r ?w] => destruct (b53_read wd p r w) as [[v | e] w'] eqn:E end; eexists _, _; (split; [reflexivity |]);
    [eapply Hio; [right; reflexivity | exact E] | apply uwrap_range; discriminate | eapply Hio; [left; reflexivity | exact E] | apply uwrap_range; discriminate].
Qed.

Lemma print_mibs_text port mibs buf d : reads_fit IO -> Z.of_nat (String.length buf + text_max mibs) < B53_BUF_SIZE ->
  exists vals d', print_mibs junk port mibs (Z.of_nat (String.length buf), buf) d =
      (Ok (Z.of_nat (String.length (buf +:+ mib_text mibs vals)), buf +:+ mib_text mibs vals), d') /\
    Forall2 counter_range mibs vals.
Proof.
  intros Hio. revert buf d. induction mibs as [| m mibs IH]; intros buf d Hmax; cbn [print_mibs].
  - exists [], d. cbn [mib_text]. rewrite app_empty_r. split; [reflexivity | constructor].
  - destruct (mib_fetch_total m port (mib_offset m) d Hio) as (v & d1 & E & Hv). rewrite (bind_ok _ _ _ _ _ E).
    pose proof (line_length m v Hv) as Hl. change (text_max (m :: mibs)) with (line_max m + text_max mibs)%nat in Hmax.
    assert (Hemit : mib_emit (mib_line m v) (Z.of_nat (String.length buf), buf) =
      (Z.of_nat (String.length (buf +:+ mib_line m v)), buf +:+ mib_line m v)).
    { unfold mib_emit. replace (B53_BUF_SIZE - Z.of_nat (String.length buf) <? 0) with false by lia.
      rewrite substring_all by lia. rewrite length_app_s. f_equal. lia. }
    rewrite Hemit. destruct (IH (buf +:+ mib_line m v) d1) as (vals & d2 & E2 & Hvals); [rewrite length_app_s; lia |].
    exists (v :: vals), d2. cbn [mib_text]. rewrite <- app_assoc_s. split; [exact E2 | constructor; assumption].
Qed.

(** C30: on the switches other than the BCM63xx the counters of a port that is
    enabled are printed in full, one line each in the order of the table, and
    the text and its terminator stay inside the buffer, whatever the access to
    the switch answers; a port that is not enabled is refused. *)
Theorem b53_mib_text_complete port d : reads_fit IO -> is5365 d = true \/ is63xx d = false ->
  if cbool (Z.land (BIT port) (enabled_ports d)) then
    exists mibs vals d', b53_port_get_mib junk port d = (Ok (Z.of_nat (String.length (mib_text mibs vals)), mib_text mibs vals), d') /\
      mibs = (if is5365 d then b53_mibs_65 else b53_mibs) /\ Forall2 counter_range mibs vals /\
      Z.of_nat (String.length (mib_text mibs vals)) < B53_BUF_SIZE
  else b53_port_get_mib junk port d = (Err (-1), d).
Proof.
  intros Hio Hd. unfold b53_port_get_mib, dev. unfold bind, get_state.
  destruct (cbool (Z.land (BIT port) (enabled_ports d))); cbn [negb]; [| reflexivity].
  assert (Hm : exists p ids, mibs_of d port = (if is5365 d then b53_mibs_65 else b53_mibs, p, ids)).
  { unfold mibs_of. destruct (is5365 d); [eauto |]. destruct Hd as [[=] | ->]. eauto. }
  destruct Hm as (p & ids & ->). set (mibs := if is5365 d then b53_mibs_65 else b53_mibs).
  assert (Hfit : fits_buffer mibs) by (subst mibs; destruct (is5365 d); [exact mibs_65_fit | exact mibs_fit]).
  destruct (print_mibs_text p mibs EmptyString d Hio Hfit) as (vals & d' & E & Hv). exists mibs, vals, d'. split; [exact E |].
  split; [reflexivity |]. split; [exact Hv |]. assert (Hl : (String.length (mib_text mibs vals) <= text_max mibs)%nat); [| unfold fits_buffer in Hfit; lia].
  clear - Hv. induction Hv as [| m v mibs vals Hm _ IH]; [cbn; lia |]. cbn [mib_text]. rewrite length_app_s.
  change (text_max (m :: mibs)) with (line_max m + text_max mibs)%nat. pose proof (line_length m v Hm). lia.
Qed.

(** The statistics are the counters of bytes sent and received, of 64 bits. *)
Lemma b53_port_get_stats_octets port d : cbool (Z.land (BIT port) (enabled_ports d)) = true ->
  exists p tx rx, let mibs := fst (fst (mibs_of d port)) in In (MibDesc 8 tx "TxOctets") mibs /\ In (MibDesc 8 rx "RxOctets") mibs /\
    b53_port_get_stats junk port d =
      (txb <- fetch junk W64 "val" (B53_MIB_PAGE p) tx ;; rxb <- fetch junk W64 "val" (B53_MIB_PAGE p) rx ;; ret (txb, rxb)) d.
Proof.
  intros Hp. unfold b53_port_get_stats, dev. unfold bind at 1, get_state. rewrite Hp. cbn [negb]. unfold mibs_of.
  destruct (is5365 d); [| destruct (is63xx d)]; (eexists _, _, _; split; [| split; [| reflexivity]]; cbn; auto 30).
Qed.
End Counters.
