(* ===== verification/B53Demo.v ===== *)
(** * A RoboSwitch to run the driver on

    A BCM5395 behind a pseudo PHY: numbers for the registers, a switch with
    these registers and a VLAN table, and the theorems of the driver at
    concrete requests. *)

From S2P Require Import Prelude Text CMonad Regmap SmiCore Mdio B53Io B53IoProps B53Access B53 B53Hw B53Props B53Counters.

(** One numbering of the registers. *)
#[export] Instance robo_numbers : B53Regs := {|
  B53_CTRL_PAGE := 0x00; B53_STAT_PAGE := 0x01; B53_MGMT_PAGE := 0x02; B53_ARLIO_PAGE := 0x05; B53_PVLAN_PAGE := 0x31; B53_VLAN_PAGE := 0x34;
  B53_JUMBO_PAGE := 0x40; B53_MIB_PAGE i := 0x20 + i; B53_PORT_MII_PAGE i := 0x10 + i;
  B53_PORT_CTRL i := i; B53_SWITCH_MODE := 0x0b; B53_PORT_OVERRIDE_CTRL := 0x0e; B53_GMII_PORT_OVERRIDE_CTRL i := 0x58 + i;
  B53_SOFTRESET := 0x79; B53_FAST_AGE_CTRL := 0x88;
  B53_LINK_STAT := 0x00; B53_DUPLEX_STAT_FE := 0x06; B53_DUPLEX_STAT_GE := 0x08; B53_DUPLEX_STAT_63XX := 0x0c; B53_SPEED_STAT := 0x04;
  B53_STRAP_VALUE := 0x70; B53_REV_ID_25 := 0x50;
  B53_GLOBAL_CONFIG := 0x00; B53_DEVICE_ID := 0x30; B53_REV_ID := 0x40;
  B53_VT_ACCESS := 0x80; B53_VT_ACCESS_9798 := 0x60; B53_VT_ACCESS_63XX := 0x60;
  B53_VT_INDEX := 0x81; B53_VT_INDEX_9798 := 0x61; B53_VT_INDEX_63XX := 0x62;
  B53_VT_ENTRY := 0x83; B53_VT_ENTRY_9798 := 0x63; B53_VT_ENTRY_63XX := 0x64;
  B53_PVLAN_PORT_MASK i := 2 * i;
  B53_VLAN_CTRL0 := 0x00; B53_VLAN_CTRL1 := 0x01; B53_VLAN_CTRL3 := 0x03; B53_VLAN_CTRL3_63XX := 0x04;
  B53_VLAN_CTRL4 := 0x05; B53_VLAN_CTRL4_25 := 0x04; B53_VLAN_CTRL4_63XX := 0x06;
  B53_VLAN_CTRL5 := 0x06; B53_VLAN_CTRL5_25 := 0x05; B53_VLAN_CTRL5_63XX := 0x07;
  B53_VLAN_TABLE_ACCESS_25 := 0x06; B53_VLAN_TABLE_ACCESS_65 := 0x08; B53_VLAN_WRITE_25 := 0x08; B53_VLAN_WRITE_65 := 0x0a;
  B53_VLAN_PORT_DEF_TAG i := 0x10 + 2 * i;
  B53_JUMBO_PORT_MASK := 0x01; B53_JUMBO_PORT_MASK_63XX := 0x04; B53_JUMBO_MAX_SIZE := 0x05; B53_JUMBO_MAX_SIZE_63XX := 0x08;
  PORT_CTRL_RX_BCST_EN := BIT 2; PORT_CTRL_RX_MCST_EN := BIT 3; PORT_CTRL_RX_UCST_EN := BIT 4; PORT_CTRL_RX_DISABLE := BIT 0; PORT_CTRL_TX_DISABLE := BIT 1;
  SM_SW_FWD_EN := BIT 1; SM_SW_FWD_MODE := BIT 0;
  PORT_OVERRIDE_EN := BIT 7; PORT_OVERRIDE_LINK := BIT 0; PORT_OVERRIDE_FULL_DUPLEX := BIT 1; PORT_OVERRIDE_RX_FLOW := BIT 4; PORT_OVERRIDE_TX_FLOW := BIT 5;
  PORT_OVERRIDE_RV_MII_25 := BIT 4; PORT_OVERRIDE_SPEED_2000M := BIT 6;
  GMII_PO_EN := BIT 6; GMII_PO_LINK := BIT 0; GMII_PO_RX_FLOW := BIT 4; GMII_PO_TX_FLOW := BIT 5;
  GMII_PO_SPEED_10M := 0; GMII_PO_SPEED_100M := BIT 2; GMII_PO_SPEED_1000M := BIT 3; GMII_PO_SPEED_2000M := BIT 7;
  FAST_AGE_DONE := BIT 7; FAST_AGE_DYNAMIC := BIT 1; FAST_AGE_STATIC := BIT 0;
  SPEED_PORT_FE x i := Z.land (Z.shiftr x i) 1; SPEED_PORT_GE x i := Z.land (Z.shiftr x (2 * i)) 3; SPEED_STAT_10M := 0; SPEED_STAT_100M := 1; SPEED_STAT_1000M := 2;
  SV_GMII_CTRL_115 := BIT 27; GC_RESET_MIB := BIT 0; GC_MIB_AC_EN := BIT 5;
  VTA_START_CMD := BIT 7; VTA_CMD_WRITE := 0; VTA_CMD_CLEAR := 2; VTE_UNTAG_S := 9; VTA_RW_STATE_WR := BIT 12; VTA_RW_OP_EN := BIT 13;
  VA_UNTAG_MASK_25 := 0x3f; VA_UNTAG_S_25 := 6; VA_VALID_25 := BIT 20; VA_VALID_25_R4 := BIT 24; VA_VID_HIGH_S := 12;
  VA_UNTAG_MASK_65 := 0x7f; VA_UNTAG_S_65 := 7; VA_VALID_65 := BIT 14;
  VC0_VLAN_EN := BIT 7; VC0_VID_CHK_EN := BIT 6; VC0_VID_HASH_VID := BIT 5; VC0_RESERVED_1 := BIT 1;
  VC1_RX_MCST_UNTAG_EN := BIT 1; VC1_RX_MCST_FWD_EN := BIT 2; VC1_RX_MCST_TAG_EN := BIT 3; VC3_HIGH_8BIT_EN := BIT 3;
  VC4_ING_VID_CHECK_S := 6; VC4_ING_VID_CHECK_MASK := 0xc0; VC4_ING_VID_VIO_FWD := 0; VC4_ING_VID_VIO_DROP := 1; VC4_ING_VID_VIO_TO_IMP := 2;
  VC5_DROP_VTABLE_MISS := BIT 3; VC5_VID_FFF_EN := BIT 2;
  JMS_MIN_SIZE := 1518; JMS_MAX_SIZE := 9724; JPM_10_100_JUMBO_EN := BIT 24;
  B53_CPU_PORT := 8; B53_CPU_PORT_25 := 5;
  BCM5325_DEVICE_ID := 0x25; BCM5365_DEVICE_ID := 0x65; BCM5395_DEVICE_ID := 0x95; BCM5397_DEVICE_ID := 0x97; BCM5398_DEVICE_ID := 0x98;
  BCM53115_DEVICE_ID := 0x53115; BCM53125_DEVICE_ID := 0x53125; BCM53128_DEVICE_ID := 0x53128; BCM63XX_DEVICE_ID := 0x6300;
  BCM53010_DEVICE_ID := 0x53010; BCM53011_DEVICE_ID := 0x53011; BCM53012_DEVICE_ID := 0x53012; BCM53018_DEVICE_ID := 0x53018; BCM53019_DEVICE_ID := 0x53019
|}.

#[export] Instance robo_numbers_ok : B53RegsOk.
Proof.
  split; try (vm_compute; intuition discriminate).
  - split; [discriminate |]. split; [reflexivity |]. split; [discriminate |].
    split; [exists 20 | exists 24]; (split; [split; [discriminate | reflexivity] | reflexivity]).
  - split; [discriminate |]. split; [reflexivity |]. exists 14. split; [split; [discriminate | reflexivity] | reflexivity].
Qed.

(** The kinds of switches by their numbers; [chips l d]: [d] is one of them. *)
Definition chips {W} (l : list Z) (d : b53_device W) : bool := existsb (Z.eqb (chip_id d)) l.
Definition next_port {W} (d : b53_device W) (i : Z) : option Z := List.find (fun j => (i <=? j) && Z.testbit (enabled_ports d) j) (upto 16).
#[export] Instance robo_priv W : B53Priv W := {|
  is5325 := chips [0x25]; is5365 := chips [0x65]; is539x := chips [0x95; 0x97; 0x98]; is531x5 := chips [0x53115; 0x53125; 0x53128];
  is63xx := chips [0x6300]; is5301x := chips [0x53010; 0x53011; 0x53012; 0x53018; 0x53019];
  is_cpu_port d i := i =? sw_cpu_port d; is_imp_port d i := i =? 8; port_from := next_port;
  b53_switch_get_reset_gpio _ := -1; to_flag i := i mod 2; to_ports := uwrap 9; to_pvid := u16; gpio_set_value _ _ w := w
|}.

Lemma find_none_upto (f : Z -> bool) n i : List.find f (upto n) = None -> 0 <= i < Z.of_nat n -> f i = false.
Proof. intros Hf Hi. exact (List.find_none _ _ Hf i (in_upto n i Hi)). Qed.

Lemma find_some_first (f : Z -> bool) n a j : List.find f (map (fun k => a + Z.of_nat k) (seq 0 n)) = Some j ->
  f j = true /\ a <= j /\ forall k, a <= k < j -> f k = false.
Proof.
  revert a. induction n as [| n IH]; intros a; cbn [seq map List.find]; [discriminate |]. rewrite Z.add_0_r. destruct (f a) eqn:Ha.
  - intros [= <-]. split; [exact Ha |]. split; [lia |]. intros k Hk. lia.
  - rewrite <- seq_shift, map_map. intros E. destruct (IH (a + 1)) as (H1 & H2 & H3).
    { rewrite <- E. f_equal. apply map_ext. intros; lia. }
    split; [exact H1 |]. split; [lia |]. intros k Hk. destruct (Z.eq_dec k a) as [-> | Hne]; [exact Ha | apply H3; lia].
Qed.

#[export] Instance robo_priv_ok W : B53PrivOk W.
Proof.
  split; try (intros d d' E; cbn; unfold chips; rewrite E; reflexivity).
  - reflexivity.
  - intros d i He Hi. cbn [port_from robo_priv]. unfold next_port. destruct (List.find _ _) as [j |] eqn:E.
    + apply (find_some_first _ 16 0) in E. destruct E as (H1 & H2 & H3). apply andb_prop in H1. destruct H1 as [H1 H1'].
      split; [lia |]. split; [exact H1' |]. intros k Hk. specialize (H3 k ltac:(lia)). replace (i <=? k) with true in H3 by lia. exact H3.
    + intros k Hk. destruct (Z.lt_ge_cases k 16); [| apply (testbit_high _ 16); assumption].
      pose proof (find_none_upto _ _ k E ltac:(lia)) as Hf. cbv beta in Hf. replace (i <=? k) with true in Hf by lia. exact Hf.
  - intros x Hx. apply uwrap_small, Hx.
  - intros x Hx. apply u16_small. lia.
Qed.

(** ** The switch *)

Definition robo_desc : desc := Desc FVta false 0 (0x80, 0x81, 0x83) (0x01, 0x00).
Definition all_roles : list role :=
  [Mode; Vc0; Vc1; Vc3; Vc4; Vc5; JumboMask; JumboSize; VtIndex; VtEntry] ++ map PortCtrl (upto 9) ++ map Row (upto 9) ++ map Tag (upto 9).
Definition role_of (p r : Z) : option role := List.find (fun q => bool_decide (role_at robo_desc q = (p, r))) all_roles.

Lemma roles_found : forallb (fun q => bool_decide (role_of (fst (role_at robo_desc q)) (snd (role_at robo_desc q)) = Some q)) all_roles = true.
Proof. vm_compute. reflexivity. Qed.

Lemma in_all_roles q : in_switch robo_desc q = true -> In q all_roles.
Proof.
  unfold all_roles. rewrite !in_app_iff, !in_map_iff. destruct q as [| | | | | | i | i | i | | | | |]; intros Hq; try (left; cbn; tauto).
  1-3: right; cbn [in_switch] in Hq; assert (Hi : In i (upto 9)) by (apply in_upto; lia);
    first [left; eexists; split; [reflexivity | exact Hi] | right; first [left; eexists; split; [reflexivity | exact Hi] | right; eexists; split; [reflexivity | exact Hi]]].
  discriminate Hq.
Qed.

Lemma role_of_place q : in_switch robo_desc q = true -> role_of (fst (role_at robo_desc q)) (snd (role_at robo_desc q)) = Some q.
Proof.
  intros Hq. pose proof (proj1 (List.forallb_forall _ _) roles_found q (in_all_roles q Hq)) as H. cbv beta in H.
  apply bool_decide_eq_true in H. exact H.
Qed.

Record robo := Robo { ro_reg : role -> Z; ro_table : Z -> Z; ro_busy : nat }.
Definition robo_reg (c : robo) (q : role) : Z := uwrap (bits (role_width robo_desc q)) (ro_reg c q).
Definition is_command (p r : Z) : bool := (p =? 5) && (r =? 0x80).

#[export] Instance robo_core : RoboCore robo.
Proof.
  refine {|
    core_width p r := if is_command p r then W8 else match role_of p r with Some q => role_width robo_desc q | None => W8 end;
    core_read p r c :=
      if is_command p r then ((if Nat.eqb (ro_busy c) 0 then 0 else 0x80), Robo (ro_reg c) (ro_table c) (Nat.pred (ro_busy c)))
      else (match role_of p r with Some q => robo_reg c q | None => 0 end, c);
    core_write p r x c :=
      if is_command p r then
        if x =? 0x80 then Robo (ro_reg c) (fun i => if decide (i = robo_reg c VtIndex) then robo_reg c VtEntry else ro_table c i) 3
        else if x =? 0x82 then Robo (ro_reg c) (fun _ => 0) 9 else c
      else match role_of p r with
           | Some q => Robo (fun q' => if decide (q' = q) then x else ro_reg c q') (ro_table c) (ro_busy c)
           | None => c
           end
  |}.
  intros p r c. destruct (is_command p r); cbn [fst]; [destruct (Nat.eqb _ _); split; (discriminate || reflexivity) |].
  destruct (role_of p r) as [q |]; [apply uwrap_range; destruct (role_width robo_desc q); discriminate | split; (discriminate || reflexivity)].
Defined.

Lemma not_command q : in_switch robo_desc q = true -> is_command (fst (role_at robo_desc q)) (snd (role_at robo_desc q)) = false.
Proof.
  intros Hq. assert (H : forallb (fun q => negb (is_command (fst (role_at robo_desc q)) (snd (role_at robo_desc q)))) all_roles = true) by (vm_compute; reflexivity).
  pose proof (proj1 (List.forallb_forall _ _) H q (in_all_roles q Hq)) as Hn. apply Bool.negb_true_iff in Hn. exact Hn.
Qed.

Lemma role_place_ok q : in_switch robo_desc q = true -> a_page (fst (role_at robo_desc q)) /\ byte (snd (role_at robo_desc q)).
Proof.
  intros Hq. assert (H : forallb (fun q => let (p, r) := role_at robo_desc q in (0 <=? p) && (p <? 255) && (0 <=? r) && (r <? 256)) all_roles = true) by (vm_compute; reflexivity).
  pose proof (proj1 (List.forallb_forall _ _) H q (in_all_roles q Hq)) as Hn. cbv beta in Hn. destruct (role_at robo_desc q) as [p r]. cbn [fst snd]. unfold a_page, byte. lia.
Qed.

#[export] Instance robo_switch : RoboSwitch robo_desc robo.
Proof.
  refine {| rs_reg := robo_reg; rs_table := ro_table; rs_busy := ro_busy |}; unfold core_read, core_write, core_width; cbn [robo_core].
  - intros q Hq. destruct (role_place_ok q Hq). rewrite not_command, role_of_place by exact Hq. auto.
  - intros c q Hq. rewrite not_command, role_of_place by exact Hq. auto.
  - intros c q x Hq Hx. rewrite not_command, role_of_place by exact Hq. cbn. split; [| auto]. intros q'. unfold robo_reg. cbn [ro_reg].
    destruct (decide (q' = q)) as [-> |]; [apply uwrap_small, Hx | reflexivity].
  - repeat split; vm_compute; congruence.
  - intros c vid Hf. elim Hf. reflexivity.
  - intros c _ _ _. split; [reflexivity |]. split; [reflexivity | change (3 < 10)%nat; lia].
  - intros c _ _. split; [reflexivity |]. split; [reflexivity | change (9 < 10)%nat; lia].
  - intros c _. split; [reflexivity |]. split; [reflexivity |]. cbn. split; [| reflexivity]. destruct (ro_busy c); split; intros; (discriminate || congruence || reflexivity).
Defined.

(** ** The driver on it, over MDIO *)

#[export] Instance robo_io_ok : B53IoOk (b53_mdio (pph robo)) robo := mdio_io_ok (B := pph robo) I.

Definition a_robo : robo := Robo (fun _ => 0) (fun _ => 0x7ffff) 0.
(** A BCM5395 with the ports 0 to 4 and 8, and sixteen VLANs. *)
Definition a_device : b53_device (b53_mdio (pph robo)) :=
  B53Device (B53Mdio (Pph None (fun _ => 0) 0 a_robo) 0xff) 0x95 0 (0x80, 0x81, 0x83) 0x08 0x01 0x00 0x11f 0 0 0
    (repeat 0 9) (repeat (0, 0) 16) (-1) (Some "BCM5395"%string) (Some "bcm5395"%string) 8 9 16 (Some Ops).

Lemma a_device_desc : desc_of a_device = robo_desc.
Proof. reflexivity. Qed.

Definition a_switch : RoboSwitch (desc_of a_device) robo := robo_switch.

Lemma a_device_wf : wf a_device.
Proof.
  split; try (vm_compute; intuition discriminate).
  - split; [reflexivity |]. repeat constructor; discriminate.
  - repeat constructor.
Qed.

(** VLANs on; VLAN 2 of the ports 0 and 1 and, tagged, 8; another PVID for
    port 3; VLAN 0 is refused. *)
Definition some_requests : list b53_request :=
  [SetVlanEnable 1; SetPorts 2 [(0, 0); (1, 0); (8, 1)]; SetPvid 3 5; SetPorts 0 [(4, 0)]].

Definition no_junk (_ : string) : Z := 0.

Lemma b53_configuration_in_force_witness :
  wf a_device /\ Forall (request_ok a_device) some_requests /\
  exists answers d1 w' v', run_all (fun q => catch (b53_config 0 q)) some_requests a_device = (Ok answers, d1) /\ reconfigured a_device d1 /\ wf d1 /\
    b53_global_apply_config no_junk d1 = (Ok tt, with_b53_io w' d1) /\ shows (C := robo) (s := robo_desc) w' v' /\
    in_force d1 (View (robo_reg a_robo) (ro_table a_robo)) v'.
Proof.
  assert (Hq : Forall (request_ok a_device) some_requests).
  { repeat constructor; vm_compute; intuition discriminate. }
  split; [exact a_device_wf |]. split; [exact Hq |].
  apply (b53_configuration_in_force (C := robo) no_junk 0 a_device a_switch); [exact a_device_wf | exact Hq |].
  exists a_robo. split; [| split; [reflexivity | split; reflexivity]].
  split; [intros i _; split; [discriminate | reflexivity] |]. split; [intros Hn; elim Hn; reflexivity | reflexivity].
Defined.

(** What the switch holds then. *)
Definition robo_after : robo :=
  let '(_, d1) := run_all (fun q => catch (b53_config 0 q)) some_requests a_device in
  let '(_, d2) := b53_global_apply_config no_junk d1 in pp_core (md_bus (b53_io d2)).
Example the_table_after : map (fun i => vlan_of robo_desc (ro_table robo_after i)) [1; 2; 3] = [(0, 0); (0x103, 0x3); (0, 0)].
Proof. vm_compute. reflexivity. Qed.
Example the_pvids_after : map (fun i => robo_reg robo_after (Tag i)) [0; 1; 2; 3; 8] = [2; 2; 0; 5; 0].
Proof. vm_compute. reflexivity. Qed.
Example the_answers : fst (run_all (fun q => catch (b53_config 0 q)) some_requests a_device) = Ok [Ok tt; Ok tt; Ok tt; Err (- EINVAL)].
Proof. vm_compute. reflexivity. Qed.

(** ** Counters *)

Lemma b53_mib_text_complete_witness :
  reads_fit (b53_mdio_ops (B := pph robo)) /\
  exists mibs vals d', b53_port_get_mib no_junk 3 a_device = (Ok (Z.of_nat (String.length (mib_text mibs vals)), mib_text mibs vals), d') /\
    mibs = b53_mibs /\ Forall2 counter_range mibs vals /\ Z.of_nat (String.length (mib_text mibs vals)) < B53_BUF_SIZE.
Proof.
  split; [exact mdio_reads_fit |].
  exact (b53_mib_text_complete no_junk 3 a_device mdio_reads_fit (or_intror eq_refl)).
Defined.

(** A switch of the BCM63xx whose counters are high: the text does not fit, and
    the length that is handed on goes past the buffer. *)
Definition high_counters : B53Io unit := {|
  b53_read wd _ _ := ret (2 ^ bits wd - 1); b53_write _ _ _ _ := ret tt; io_phy_read16 := None; io_phy_write16 := None; io_set_current_page _ w := w |}.
Definition a_63xx : b53_device unit :=
  B53Device tt 0x6300 0 (0x60, 0x62, 0x64) 0x0c 0x04 0 0x11f 0 0 0 (repeat 0 9) (repeat (0, 0) 16) (-1) None None 8 9 16 (Some Ops).
Example mib_63xx_overflows : match fst (b53_port_get_mib (IO := high_counters) no_junk 3 a_63xx) with
                             | Ok (len, text) => B53_BUF_SIZE < len /\ Z.of_nat (String.length text) = B53_BUF_SIZE - 1
                             | Err _ => False
                             end.
Proof. vm_compute. split; reflexivity. Qed.
