(* ===== verification/Adm6996.v ===== *)
(** * The ADM6996 switch driver: [adm6996.c]

    A switch that is reached through an MDIO bus or through three GPIO lines
    that imitate the protocol of an EEPROM.  Its header [adm6996.h] is not in
    the repository: the numbers and macros it defines are the class [AdmRegs],
    and nothing is assumed of them here. *)

From S2P Require Import Prelude Text CMonad SmiCore Mdio.

(** [adm6996.h]. *)
Class AdmRegs := {
  ADM_NUM_PORTS : Z; ADM_NUM_VLANS : Z; ADM_PHY_PORTS : Z; ADM_CPU_PORT : Z; ADM_VLAN_MAX_ID : Z;
  ADM_SIG0 : Z; ADM_SIG0_MASK : Z; ADM_SIG0_VAL : Z; ADM_SIG1 : Z; ADM_SIG1_MASK : Z; ADM_SIG1_VAL : Z;
  PHYADDR : Z -> Z * Z;
  adm_portcfg : Z -> Z; ADM_PORTCFG_INIT : Z; ADM_PORTCFG_CPU : Z; ADM_PORTCFG_PVID_MASK : Z; ADM_PORTCFG_PVID : Z -> Z;
  ADM_P0_PVID : Z; ADM_P1_PVID : Z; ADM_OTBE_P2_PVID : Z; ADM_P3_P4_PVID : Z; ADM_P5_PVID : Z;
  ADM_P0_PVID_VAL : Z -> Z; ADM_P1_PVID_VAL : Z -> Z; ADM_P2_PVID_VAL : Z -> Z; ADM_P3_PVID_VAL : Z -> Z; ADM_P4_PVID_VAL : Z -> Z; ADM_P5_PVID_VAL : Z -> Z;
  ADM_P2_PVID_MASK : Z; ADM_OTBE_MASK : Z;
  ADM_IFNTE : Z; ADM_IFNTE_MASK : Z; ADM_VID_CHECK : Z; ADM_VID_CHECK_MASK : Z;
  ADM_SYSC0 : Z; ADM_NTTE : Z; ADM_RVID1 : Z; ADM_SYSC3 : Z; ADM_TBV : Z; ADM_MAC_CLONE : Z;
  ADM_VLAN_FILT_L : Z -> Z; ADM_VLAN_FILT_H : Z -> Z; ADM_VLAN_MAP : Z -> Z; ADM_VLAN_PRIOMAP : Z;
  ADM_VLAN_FILT_MEMBER_MASK : Z; ADM_VLAN_FILT_VALID : Z; ADM_VLAN_FILT_VID : Z -> Z;
  ADM_VLAN_FILT_MEMBER : Z -> Z; ADM_VLAN_FILT_TAGGED : Z -> Z; ADM_VLAN_FILT : Z -> Z;
  ADM_PHY_PORT : Z -> Z; ADM_PHYCFG_INIT : Z;
  ADM_PS0 : Z; ADM_PS1 : Z; ADM_PS2 : Z; ADM_PS_LS : Z; ADM_PS_SS : Z; ADM_PS_DS : Z; ADM_PS_FCS : Z;
  ADM_CL0 : Z; ADM_CL6 : Z; ADM_CL12 : Z; ADM_CL18 : Z; ADM_CL24 : Z; ADM_CL30 : Z; ADM_OFFSET_PORT : Z -> Z
}.

(** [enum adm6996_model]; the first is the zero of a new structure. *)
Inductive adm6996_model := NoModel | ADM6996FC | ADM6996M | ADM6996L.
#[export] Instance adm6996_model_eq_dec : EqDecision adm6996_model.
Proof. solve_decision. Defined.

Definition adm6996_model_name (m : adm6996_model) : option string :=
  match m with
  | NoModel => None
  | ADM6996FC => Some "ADM6996FC"
  | ADM6996M => Some "ADM6996M"
  | ADM6996L => Some "ADM6996L"
  end.

(** [priv->read] and [priv->write]. *)
Class AdmIo (W : Type) := {
  adm_read : Z -> W -> Z * W;
  adm_write : Z -> Z -> W -> W
}.

(** ** GPIO lines *)

(** The calls of the kernel on a line by its number. *)
Class Gpio (W : Type) := {
  gpio_set_value : Z -> Z -> W -> W;
  gpio_get_value : Z -> W -> Z * W;
  gpio_direction_output : Z -> Z -> W -> W;
  gpio_direction_input : Z -> W -> W
}.

Section Wire.
Context {W : Type} {G : Gpio W}.
Variables eecs eesk eedi : Z.

Definition gset (line v : Z) : M W unit := modify (gpio_set_value line v).
Definition gget (line : Z) : M W Z := fun w => let (v, w') := gpio_get_value line w in (Ok v, w').

(** [mask = 0x80; mask; mask >>= 1] *)
Definition bit_masks : list Z := [0x80; 0x40; 0x20; 0x10; 0x08; 0x04; 0x02; 0x01].

(** The inner loop; the result is the number of bits left. *)
Fixpoint write_byte (masks : list Z) (byte bits : Z) : M W Z :=
  match masks with
  | [] => ret bits
  | mask :: masks' =>
      if 0 <? bits then
        gset eesk 0 ;;
        gset eedi (Z.land mask byte) ;;
        gset eesk 1 ;;
        write_byte masks' byte (bits - 1)
      else ret bits
  end.
Fixpoint write_bytes (buf : list Z) (bits : Z) : M W unit :=
  match buf with
  | [] => ret tt
  | byte :: buf' => bits' <- write_byte bit_masks byte bits ;; write_bytes buf' bits'
  end.

Definition adm6996_gpio_write (cs : Z) (buf : list Z) (bits : Z) : M W unit :=
  let len := (bits + 7) / 8 in
  gset eecs cs ;;
  write_bytes (take (Z.to_nat len) buf) bits ;;
  gset eesk 0 ;;
  if cbool cs then gset eecs 0 else ret tt.

Fixpoint read_byte (masks : list Z) (byte bits : Z) : M W (Z * Z) :=
  match masks with
  | [] => ret (byte, bits)
  | mask :: masks' =>
      if 0 <? bits then
        gset eesk 0 ;;
        gp <- gget eedi ;;
        gset eesk 1 ;;
        read_byte masks' (if cbool (u8 gp) then Z.lor byte mask else byte) (bits - 1)
      else ret (byte, bits)
  end.
Fixpoint read_bytes (len : nat) (bits : Z) : M W (list Z) :=
  match len with
  | O => ret []
  | S len' =>
      r <- read_byte bit_masks 0 bits ;;
      l <- read_bytes len' (snd r) ;;
      ret (fst r :: l)
  end.

Definition adm6996_gpio_read (cs bits : Z) : M W (list Z) :=
  let len := (bits + 7) / 8 in
  gset eecs cs ;;
  buf <- read_bytes (Z.to_nat len) bits ;;
  gset eesk 0 ;;
  (if cbool cs then gset eecs 0 else ret tt) ;;
  ret buf.

Definition adm6996_gpio_adclk (clocks : Z) : M W unit :=
  for_each clocks (fun _ => gset eesk 1 ;; gset eesk 0).

Definition adm6996_read_gpio_reg (reg : Z) : M W Z :=
  let bits := [0xff; 0xff; 0xff; 0xff;
    u8 (Z.lor (Z.shiftl 0x06 4) (Z.lor (Z.shiftl (Z.land 0 0x01) 3) (Z.shiftr (Z.land reg 64) 6)));
    u8 (Z.shiftl (Z.land reg 63) 2)] in
  modify (gpio_direction_output eecs 0) ;;
  modify (gpio_direction_output eesk 0) ;;
  modify (gpio_direction_output eedi 0) ;;
  adm6996_gpio_write 0 bits 46 ;;
  modify (gpio_direction_input eedi) ;;
  adm6996_gpio_adclk 2 ;;
  rbits <- adm6996_gpio_read 0 32 ;;
  adm6996_gpio_adclk 2 ;;
  modify (gpio_direction_input eecs) ;;
  modify (gpio_direction_input eesk) ;;
  let rbit i := geti 0 rbits i in
  ret (u16 (if cbool (Z.land reg 0x01) then Z.lor (Z.shiftl (rbit 0) 8) (rbit 1) else Z.lor (Z.shiftl (rbit 2) 8) (rbit 3))).

Definition adm6996_write_gpio_reg (reg val : Z) : M W unit :=
  let bits := [
    u8 (Z.lor (Z.shiftl 0x05 5) (Z.shiftr reg 3));
    u8 (Z.lor (Z.shiftl reg 5) (u8 (Z.shiftr val 11)));
    u8 (Z.shiftr val 3);
    u8 (Z.shiftl val 5)] in
  modify (gpio_direction_output eecs 0) ;;
  modify (gpio_direction_output eesk 0) ;;
  modify (gpio_direction_output eedi 0) ;;
  adm6996_gpio_write 1 bits 27 ;;
  adm6996_gpio_adclk 2 ;;
  modify (gpio_direction_input eecs) ;;
  modify (gpio_direction_input eesk) ;;
  modify (gpio_direction_input eedi).

(** Neither fails; the value of the first is what it returns. *)
Definition adm_gpio_ops : AdmIo W := {|
  adm_read reg w := match adm6996_read_gpio_reg reg w with (Ok v, w') => (v, w') | (Err _, w') => (0, w') end;
  adm_write reg v w := snd (adm6996_write_gpio_reg reg (u16 v) w)
|}.
End Wire.

(** ** MDIO *)

Section Mii.
Context {R : AdmRegs} {B : Type} {MB : MiiBus B}.

Definition adm6996_read_mii_reg (reg : Z) (b : B) : Z * B :=
  let (phy, r) := PHYADDR reg in let (v, b') := mii_read phy r b in (u16 v, b').
Definition adm6996_write_mii_reg (reg val : Z) (b : B) : B :=
  let (phy, r) := PHYADDR reg in snd (mii_write phy r (u16 val) b).
#[export] Instance adm_mii_ops : AdmIo B := {| adm_read := adm6996_read_mii_reg; adm_write := adm6996_write_mii_reg |}.
End Mii.

(** ** The driver *)

(** [struct adm6996_priv], with the part of [struct switch_dev] in it. *)
Record adm6996_priv (W : Type) := AdmPriv {
  adm_io : W;
  model : adm6996_model;
  enable_vlan : bool;
  vlan_enabled : bool;
  addr : Z;                  (* u16 *)
  pvid : list Z;             (* u16 each *)
  tagged_ports : Z;          (* u8 *)
  vlan_id : list Z;          (* u16 each *)
  vlan_table : list Z;       (* u8 each *)
  vlan_tagged : list Z;      (* u8 each *)
  sw_name : option string;
  sw_alias : option string
}.
Arguments AdmPriv {W}.
Arguments adm_io {W}.
Arguments model {W}.
Arguments enable_vlan {W}.
Arguments vlan_enabled {W}.
Arguments addr {W}.
Arguments pvid {W}.
Arguments tagged_ports {W}.
Arguments vlan_id {W}.
Arguments vlan_table {W}.
Arguments vlan_tagged {W}.
Arguments sw_name {W}.
Arguments sw_alias {W}.

(** Fields that change alone. *)
Section Fields.
Context {W : Type}.
Implicit Types p : adm6996_priv W.
Definition with_adm_io (w : W) p := AdmPriv w (model p) (enable_vlan p) (vlan_enabled p) (addr p) (pvid p) (tagged_ports p)
  (vlan_id p) (vlan_table p) (vlan_tagged p) (sw_name p) (sw_alias p).
Definition with_model (m : adm6996_model) p := AdmPriv (adm_io p) m (enable_vlan p) (vlan_enabled p) (addr p) (pvid p) (tagged_ports p)
  (vlan_id p) (vlan_table p) (vlan_tagged p) (sw_name p) (sw_alias p).
Definition with_enable (e h : bool) p := AdmPriv (adm_io p) (model p) e h (addr p) (pvid p) (tagged_ports p)
  (vlan_id p) (vlan_table p) (vlan_tagged p) (sw_name p) (sw_alias p).
Definition with_addr (a : Z) p := AdmPriv (adm_io p) (model p) (enable_vlan p) (vlan_enabled p) a (pvid p) (tagged_ports p)
  (vlan_id p) (vlan_table p) (vlan_tagged p) (sw_name p) (sw_alias p).
Definition with_pvid (l : list Z) p := AdmPriv (adm_io p) (model p) (enable_vlan p) (vlan_enabled p) (addr p) l (tagged_ports p)
  (vlan_id p) (vlan_table p) (vlan_tagged p) (sw_name p) (sw_alias p).
Definition with_tagged_ports (t : Z) p := AdmPriv (adm_io p) (model p) (enable_vlan p) (vlan_enabled p) (addr p) (pvid p) t
  (vlan_id p) (vlan_table p) (vlan_tagged p) (sw_name p) (sw_alias p).
Definition with_vlans (ids ports tagged : list Z) p := AdmPriv (adm_io p) (model p) (enable_vlan p) (vlan_enabled p) (addr p) (pvid p) (tagged_ports p)
  ids ports tagged (sw_name p) (sw_alias p).
Definition with_name (n a : option string) p := AdmPriv (adm_io p) (model p) (enable_vlan p) (vlan_enabled p) (addr p) (pvid p) (tagged_ports p)
  (vlan_id p) (vlan_table p) (vlan_tagged p) n a.
End Fields.

Section Driver.
Context {R : AdmRegs} {W : Type} {IO : AdmIo W}.
Abbreviation MA := (M (adm6996_priv W)).

Definition adm : MA (adm6996_priv W) := get_state.

Definition r16 (reg : Z) : MA Z := fun p => let (v, w) := adm_read reg (adm_io p) in (Ok (u16 v), with_adm_io w p).
Definition w16 (reg val : Z) : MA unit := modify (fun p => with_adm_io (adm_write reg (u16 val) (adm_io p)) p).

(** [reg = r16(priv, r); reg = ...; w16(priv, r, reg);] *)
Definition rmw (reg : Z) (f : Z -> Z) : MA unit := v <- r16 reg ;; w16 reg (f v).

(** *** Requests of the switch framework *)

Definition adm6996_set_enable_vlan (i : Z) : MA unit :=
  if 1 <? i then fail EINVAL else modify (fun p => with_enable (cbool i) (vlan_enabled p) p).
Definition adm6996_get_enable_vlan : MA Z := p <- adm ;; ret (b2z (enable_vlan p)).

Definition adm6996_set_addr (i : Z) : MA unit := if 1023 <? i then fail EINVAL else modify (with_addr (u16 i)).
Definition adm6996_get_addr : MA Z := p <- adm ;; ret (addr p).
Definition adm6996_set_data (i : Z) : MA unit := if 65535 <? i then fail EINVAL else p <- adm ;; w16 (addr p) (u16 i).
Definition adm6996_get_data : MA Z := p <- adm ;; r16 (addr p).

(** [l[i]]; [EFAULT] outside. *)
Definition entry (l : list Z) (i : Z) : MA Z := if in_array l i then ret (geti 0 l i) else fail EFAULT.
Definition set_entry (l : list Z) (i v : Z) (store : list Z -> adm6996_priv W -> adm6996_priv W) : MA unit :=
  if in_array l i then modify (store (seti l i v)) else fail EFAULT.

Definition adm6996_set_pvid (port vlan : Z) : MA unit :=
  if ADM_VLAN_MAX_ID <? vlan then fail EINVAL else p <- adm ;; set_entry (pvid p) port (u16 vlan) with_pvid.
Definition adm6996_get_pvid (port : Z) : MA Z := p <- adm ;; entry (pvid p) port.

Definition adm6996_set_vid (port_vlan i : Z) : MA unit :=
  if ADM_VLAN_MAX_ID <? i then fail EINVAL else
  p <- adm ;; set_entry (vlan_id p) port_vlan (u16 i) (fun l p => with_vlans l (vlan_table p) (vlan_tagged p) p).
Definition adm6996_get_vid (port_vlan : Z) : MA Z := p <- adm ;; entry (vlan_id p) port_vlan.

Variable tagged_flag : Z.  (* [SWITCH_PORT_FLAG_TAGGED] *)

Definition adm6996_get_ports (port_vlan : Z) : MA (list switch_port) :=
  p <- adm ;;
  ports <- entry (vlan_table p) port_vlan ;;
  tagged <- entry (vlan_tagged p) port_vlan ;;
  loop_acc (Z.to_nat ADM_NUM_PORTS) 0 [] (fun i l =>
    if negb (cbool (Z.land ports (Z.shiftl 1 i))) then ret l else
    ret (l ++ [(i, if cbool (Z.land tagged (Z.shiftl 1 i)) then Z.shiftl 1 tagged_flag else 0)])).

(** [*ports = v], [*tagged = v]. *)
Definition set_table (i v : Z) : MA unit :=
  p <- adm ;; set_entry (vlan_table p) i v (fun l p => with_vlans (vlan_id p) l (vlan_tagged p) p).
Definition set_tagged (i v : Z) : MA unit :=
  p <- adm ;; set_entry (vlan_tagged p) i v (fun l p => with_vlans (vlan_id p) (vlan_table p) l p).

Fixpoint set_ports_loop (port_vlan : Z) (ports : list switch_port) : MA unit :=
  match ports with
  | [] => ret tt
  | (id, flags) :: ports' =>
      p <- adm ;;
      (if cbool (Z.land flags (Z.shiftl 1 tagged_flag)) then
         t <- entry (vlan_tagged p) port_vlan ;;
         set_tagged port_vlan (u8 (Z.lor t (Z.shiftl 1 id))) ;;
         modify (fun p => with_tagged_ports (u8 (Z.lor (tagged_ports p) (Z.shiftl 1 id))) p)
       else ret tt) ;;
      m <- entry (vlan_table p) port_vlan ;;
      set_table port_vlan (u8 (Z.lor m (Z.shiftl 1 id))) ;;
      set_ports_loop port_vlan ports'
  end.

Definition adm6996_set_ports (port_vlan : Z) (ports : list switch_port) : MA unit :=
  set_table port_vlan 0 ;;
  set_tagged port_vlan 0 ;;
  set_ports_loop port_vlan ports.

(** *** Writing the configuration out *)

Definition adm6996_enable_vlan : MA unit :=
  rmw ADM_OTBE_P2_PVID (fun reg => Z.ldiff reg ADM_OTBE_MASK) ;;
  rmw ADM_IFNTE (fun reg => Z.ldiff reg ADM_IFNTE_MASK) ;;
  rmw ADM_VID_CHECK (fun reg => Z.lor reg ADM_VID_CHECK_MASK) ;;
  rmw ADM_SYSC0 (fun reg => Z.ldiff (Z.lor reg ADM_NTTE) ADM_RVID1) ;;
  rmw ADM_SYSC3 (fun reg => Z.lor reg ADM_TBV).

Definition adm6996_enable_vlan_6996l : MA unit :=
  rmw ADM_SYSC3 (fun reg => Z.lor (Z.lor reg ADM_TBV) ADM_MAC_CLONE).

Definition adm6996_disable_vlan : MA unit :=
  for_each ADM_NUM_VLANS (fun i =>
    w16 (ADM_VLAN_FILT_L i) ADM_VLAN_FILT_MEMBER_MASK ;;
    w16 (ADM_VLAN_FILT_H i) (Z.lor ADM_VLAN_FILT_VALID (ADM_VLAN_FILT_VID 1))) ;;
  rmw ADM_OTBE_P2_PVID (fun reg => Z.lor reg ADM_OTBE_MASK) ;;
  rmw ADM_IFNTE (fun reg => Z.lor reg ADM_IFNTE_MASK) ;;
  rmw ADM_VID_CHECK (fun reg => Z.ldiff reg ADM_VID_CHECK_MASK) ;;
  rmw ADM_SYSC0 (fun reg => Z.lor (Z.ldiff reg ADM_NTTE) ADM_RVID1) ;;
  rmw ADM_SYSC3 (fun reg => Z.ldiff reg ADM_TBV).

Definition adm6996_disable_vlan_6996l : MA unit :=
  for_each ADM_NUM_VLANS (fun i => w16 (ADM_VLAN_MAP i) 0) ;;
  rmw ADM_SYSC3 (fun reg => Z.ldiff (Z.ldiff reg ADM_TBV) ADM_MAC_CLONE).

Definition is_l (p : adm6996_priv W) : bool := bool_decide (model p = ADM6996L).

Definition adm6996_apply_port_pvids : MA unit :=
  p <- adm ;;
  let pv i := geti 0 (pvid p) i in
  for_each ADM_NUM_PORTS (fun i =>
    rmw (adm_portcfg i) (fun reg =>
      let reg := Z.lor (Z.ldiff reg ADM_PORTCFG_PVID_MASK) (ADM_PORTCFG_PVID (pv i)) in
      if is_l p then
        if cbool (Z.land (tagged_ports p) (Z.shiftl 1 i)) then Z.lor reg (Z.shiftl 1 4) else Z.ldiff reg (Z.shiftl 1 4)
      else reg)) ;;
  w16 ADM_P0_PVID (ADM_P0_PVID_VAL (pv 0)) ;;
  w16 ADM_P1_PVID (ADM_P1_PVID_VAL (pv 1)) ;;
  rmw ADM_OTBE_P2_PVID (fun reg => Z.lor (Z.ldiff reg ADM_P2_PVID_MASK) (ADM_P2_PVID_VAL (pv 2))) ;;
  w16 ADM_P3_P4_PVID (Z.lor (ADM_P3_PVID_VAL (pv 3)) (ADM_P4_PVID_VAL (pv 4))) ;;
  rmw ADM_P5_PVID (fun reg => Z.lor (Z.ldiff reg ADM_P2_PVID_MASK) (ADM_P5_PVID_VAL (pv 5))).

Definition adm6996_apply_vlan_filters : MA unit :=
  p <- adm ;;
  for_each ADM_NUM_VLANS (fun i =>
    let ports := geti 0 (vlan_table p) i in
    if ports =? 0 then
      w16 (ADM_VLAN_FILT_H i) 0 ;;
      w16 (ADM_VLAN_FILT_L i) 0
    else
      w16 (ADM_VLAN_FILT_L i) (Z.lor (ADM_VLAN_FILT_MEMBER ports) (ADM_VLAN_FILT_TAGGED (geti 0 (vlan_tagged p) i))) ;;
      w16 (ADM_VLAN_FILT_H i) (Z.lor ADM_VLAN_FILT_VALID (ADM_VLAN_FILT_VID (geti 0 (vlan_id p) i)))).

Definition adm6996_apply_vlan_filters_6996l : MA unit :=
  p <- adm ;;
  for_each ADM_NUM_VLANS (fun i =>
    let ports := geti 0 (vlan_table p) i in
    if ports =? 0 then w16 (ADM_VLAN_MAP i) 0 else w16 (ADM_VLAN_MAP i) (ADM_VLAN_FILT ports)).

Definition adm6996_hw_apply : MA unit :=
  p <- adm ;;
  if negb (enable_vlan p) then
    if vlan_enabled p then
      (if is_l p then adm6996_disable_vlan_6996l else adm6996_disable_vlan) ;;
      modify (fun p => with_enable (enable_vlan p) false p)
    else ret tt
  else
    (if negb (vlan_enabled p) then
       (if is_l p then adm6996_enable_vlan_6996l else adm6996_enable_vlan) ;;
       modify (fun p => with_enable (enable_vlan p) true p)
     else ret tt) ;;
    adm6996_apply_port_pvids ;;
    if is_l p then adm6996_apply_vlan_filters_6996l else adm6996_apply_vlan_filters.

(** *** Reset *)

Definition adm6996_perform_reset : MA unit :=
  p <- adm ;;
  for_each (ADM_NUM_PORTS - 1) (fun i => w16 (adm_portcfg i) (Z.lor ADM_PORTCFG_INIT (ADM_PORTCFG_PVID 0))) ;;
  w16 (adm_portcfg 5) ADM_PORTCFG_CPU ;;
  (if bool_decide (model p = ADM6996M) || bool_decide (model p = ADM6996FC) then
     for_each ADM_PHY_PORTS (fun i => w16 (ADM_PHY_PORT i) ADM_PHYCFG_INIT)
   else ret tt) ;;
  modify (with_enable false false) ;;
  modify (with_pvid (tabulate ADM_NUM_PORTS (fun _ => 0))) ;;
  modify (with_vlans (tabulate ADM_NUM_VLANS u16) (tabulate ADM_NUM_VLANS (fun _ => 0)) (tabulate ADM_NUM_VLANS (fun _ => 0))) ;;
  if bool_decide (model p = ADM6996M) then
    w16 ADM_VLAN_PRIOMAP 0 ;;
    adm6996_disable_vlan ;;
    adm6996_apply_port_pvids
  else if is_l p then
    w16 ADM_VLAN_PRIOMAP 0 ;;
    adm6996_disable_vlan_6996l ;;
    adm6996_apply_port_pvids
  else ret tt.

Definition adm6996_reset_switch : MA unit := adm6996_perform_reset.

(** *** Status and counters *)

(** [struct switch_port_link] before and after. *)
Record adm_link := AdmLink { al_link : bool; al_aneg : bool; al_duplex : bool; al_tx_flow : bool; al_rx_flow : bool; al_speed : Z }.
Variables SWITCH_PORT_SPEED_10 SWITCH_PORT_SPEED_100 : Z.

Definition port_status (port : Z) : MA Z :=
  if port =? 0 then r16 ADM_PS0
  else if port =? 1 then reg <- r16 ADM_PS0 ;; ret (Z.shiftr reg 8)
  else if port =? 2 then r16 ADM_PS1
  else if port =? 3 then reg <- r16 ADM_PS1 ;; ret (Z.shiftr reg 8)
  else if port =? 4 then reg <- r16 ADM_PS1 ;; ret (Z.shiftr reg 12)
  else if port =? 5 then reg <- r16 ADM_PS2 ;; ret (Z.lor (Z.land reg 3) (Z.shiftr (Z.land reg 24) 1))
  else fail EINVAL.

Definition adm6996_get_port_link (port : Z) (link : adm_link) : MA adm_link :=
  if ADM_NUM_PORTS <=? port then fail EINVAL else
  reg <- port_status port ;;
  if negb (cbool (Z.land reg ADM_PS_LS)) then
    ret (AdmLink false (al_aneg link) (al_duplex link) (al_tx_flow link) (al_rx_flow link) (al_speed link))
  else
    let flow := cbool (Z.land reg ADM_PS_FCS) in
    ret (AdmLink true true (cbool (Z.land reg ADM_PS_DS)) flow flow
      (if cbool (Z.land reg ADM_PS_SS) then SWITCH_PORT_SPEED_100 else SWITCH_PORT_SPEED_10)).

Definition adm6996_mibs : list (Z * string) := [
  (ADM_CL0, "RxPacket"); (ADM_CL6, "RxByte"); (ADM_CL12, "TxPacket");
  (ADM_CL18, "TxByte"); (ADM_CL24, "Collision"); (ADM_CL30, "Error")]%string.
Definition ADM6996_MIB_RXB_ID : Z := 1.
Definition ADM6996_MIB_TXB_ID : Z := 3.

(** [reg = r16(...); reg += r16(... + 1) << 16;] *)
Definition adm_counter (offset port : Z) : MA Z :=
  lo <- r16 (offset + ADM_OFFSET_PORT port) ;;
  hi <- r16 (offset + ADM_OFFSET_PORT port + 1) ;;
  ret (u32 (lo + Z.shiftl hi 16)).

(** [len += snprintf(buf + len, sizeof(priv->buf) - len, ...)] *)
Definition adm_buf_size : Z := 2048.
Definition adm_emit (text : string) (acc : Z * string) : Z * string :=
  let (len, buf) := acc in
  let size := adm_buf_size - len in
  if size <? 0 then acc
  else (len + Z.of_nat (String.length text), buf +:+ String.substring 0 (Z.to_nat (size - 1)) text).

Fixpoint print_counters (port : Z) (mibs : list (Z * string)) (acc : Z * string) : MA (Z * string) :=
  match mibs with
  | [] => ret acc
  | (offset, name) :: mibs' =>
      reg <- adm_counter offset port ;;
      print_counters port mibs' (adm_emit (pad_right 12 name +:+ ": " +:+ decimal reg +:+ newline) acc)
  end.

Definition adm6996_sw_get_port_mib (port : Z) : MA (Z * string) :=
  if ADM_NUM_PORTS <=? port then fail EINVAL else
  print_counters port adm6996_mibs (adm_emit ("Port " +:+ decimal port +:+ " MIB counters" +:+ newline) (0, EmptyString)).

(** Bytes sent and received. *)
Definition adm6996_get_port_stats (port : Z) : MA (Z * Z) :=
  if ADM_NUM_PORTS <=? port then fail EINVAL else
  let offset id := fst (geti (0, EmptyString) adm6996_mibs id) in
  tx <- adm_counter (offset ADM6996_MIB_TXB_ID) port ;;
  rx <- adm_counter (offset ADM6996_MIB_RXB_ID) port ;;
  ret (tx, rx).

(** *** Start-up *)

(** The table of operations, one for all switches: the number of attributes of
    a port, and whether the status of a port can be asked for. *)
Record adm_ops := AdmOps { n_port_attr : Z; has_get_port_link : bool }.

Definition adm_detect : MA unit :=
  old <- r16 ADM_VID_CHECK ;;
  let test := Z.lxor old (Z.shiftl 1 12) in
  w16 ADM_VID_CHECK test ;;
  back <- r16 ADM_VID_CHECK ;;
  let test := Z.lxor test back in
  if cbool (Z.land test (Z.shiftl 1 12)) then modify (with_model ADM6996FC)
  else
    modify (with_model ADM6996M) ;;
    w16 ADM_VID_CHECK old.

(** [register]: what [register_switch] returns.  The result is what the
    function returns and the table of operations then.  The other fields of
    [struct switch_dev] it sets are constants of the header. *)
Definition adm6996_switch_init (alias : string) (register : Z) (ops : adm_ops) : MA (Z * adm_ops) :=
  p <- adm ;;
  (if bool_decide (model p = NoModel) then adm_detect else ret tt) ;;
  modify (fun p => with_name (adm6996_model_name (model p)) (Some alias) p) ;;
  p <- adm ;;
  let ops := if is_l p then AdmOps 0 false else ops in
  adm6996_perform_reset ;;
  ret (if bool_decide (model p = ADM6996M) || is_l p then register else - ENODEV, ops).

(** A new structure, of zeros. *)
Definition adm_new (w : W) (m : adm6996_model) : adm6996_priv W :=
  AdmPriv w m false false 0 (tabulate ADM_NUM_PORTS (fun _ => 0)) 0
    (tabulate ADM_NUM_VLANS (fun _ => 0)) (tabulate ADM_NUM_VLANS (fun _ => 0)) (tabulate ADM_NUM_VLANS (fun _ => 0)) None None.

(** [unregister_switch] is called. *)
Definition adm6996_remove (priv : option (adm6996_priv W)) : bool :=
  match priv with
  | Some p => bool_decide (model p = ADM6996M) || bool_decide (model p = ADM6996L)
  | None => false
  end.
Definition adm6996_gpio_remove := adm6996_remove.
End Driver.

Section PhyDriver.
Context {R : AdmRegs} {B : Type} {MB : MiiBus B}.

(** The modes in [supported] and [advertising]. *)
Definition ETHTOOL_LINK_MODE_100baseT_Full_BIT : Z := 3.
Definition adm_link_modes : list Z * list Z :=
  let supported := [ETHTOOL_LINK_MODE_100baseT_Full_BIT] in (supported, supported).

(** [phy_addr]: the address of the PHY; [alloc]: the structure is allocated; the
    result is what is returned, [pdev->priv], the table of operations and the
    link modes. *)
Definition adm6996_config_init (phy_addr : Z) (alloc : bool) (eth : string) (register : Z) (ops : adm_ops) (b : B) :
    Z * option (adm6996_priv B) * adm_ops * (list Z * list Z) * B :=
  let modes := adm_link_modes in
  if negb (phy_addr =? 0) then (0, None, ops, modes, b) else
  if negb alloc then (- ENOMEM, None, ops, modes, b) else
  match adm6996_switch_init eth register ops (adm_new b NoModel) with
  | (Ok (r, ops'), p) => (r, if r <? 0 then None else Some p, ops', modes, adm_io p)
  | (Err e, p) => (e, None, ops, modes, adm_io p)
  end.

(** The PHY as the kernel sees it; [apd_adjusted]: how often [adjust_link]
    was called. *)
Record adm_phy := AdmPhy {
  apd_speed : Z; apd_duplex : Z; apd_link : bool; apd_running : bool; apd_carrier : bool; apd_adjusted : nat
}.
Definition SPEED_100 : Z := 100.
Definition DUPLEX_FULL : Z := 1.
Definition adm6996_read_status (d : adm_phy) : Z * adm_phy :=
  (0, AdmPhy SPEED_100 DUPLEX_FULL true true true (S (apd_adjusted d))).
Definition adm6996_config_aneg (d : adm_phy) : Z * adm_phy := (0, d).
Definition adm6996_probe (d : adm_phy) : Z * adm_phy := (0, d).
Definition adm6996_soft_reset (d : adm_phy) : Z * adm_phy := (0, d).

(** [dev->phy_id] of the PHY at [phy_addr]. *)
Definition adm6996_fixup (phy_addr phy_id : Z) (b : B) : Z * B :=
  if 10 <? phy_addr then (phy_id, b) else
  let (v, b1) := mii_read (fst (PHYADDR ADM_SIG0)) (snd (PHYADDR ADM_SIG0)) b in
  if negb (u16 (Z.land v ADM_SIG0_MASK) =? ADM_SIG0_VAL) then (phy_id, b1) else
  let (v, b2) := mii_read (fst (PHYADDR ADM_SIG1)) (snd (PHYADDR ADM_SIG1)) b1 in
  if negb (u16 (Z.land v ADM_SIG1_MASK) =? ADM_SIG1_VAL) then (phy_id, b2) else
  (u32 (Z.lor (Z.shiftl ADM_SIG0_VAL 16) ADM_SIG1_VAL), b2).
End PhyDriver.

Section GpioDriver.
Context {R : AdmRegs} {W : Type} {G : Gpio W}.

(** [pdata]: the lines and the model; [requests]: what requesting the three
    lines returns, in the order of the calls. *)
Definition adm6996_gpio_probe (pdata : option (Z * Z * Z * adm6996_model)) (alloc : bool) (requests : Z * Z * Z) (name : string)
    (register : Z) (ops : adm_ops) (w : W) : Z * option (adm6996_priv W) * adm_ops * W :=
  match pdata with
  | None => (- EINVAL, None, ops, w)
  | Some (eecs, eedi, eesk, m) =>
      if negb alloc then (- ENOMEM, None, ops, w) else
      let '(r1, r2, r3) := requests in
      if cbool r1 then (r1, None, ops, w) else if cbool r2 then (r2, None, ops, w) else if cbool r3 then (r3, None, ops, w) else
      let IO := adm_gpio_ops (u8 eecs) (u8 eesk) (u8 eedi) in
      match adm6996_switch_init name register ops (adm_new w m) with
      | (Ok (r, ops'), p) => (r, if r <? 0 then None else Some p, ops', adm_io p)
      | (Err e, p) => (e, None, ops, adm_io p)
      end
  end.
End GpioDriver.

(** [phy] and [platform]: what registering the two drivers returns; the result
    is what is returned, and which of them are registered then. *)
Definition adm6996_init (phy platform : Z) : Z * (bool * bool) :=
  if cbool phy then (phy, (false, false)) else
  if cbool platform then (platform, (false, false)) else (0, (true, true)).
Definition adm6996_exit (registered : bool * bool) : bool * bool := (false, false).
