(* ===== verification/AdmWire.v ===== *)
(** * What the lines of an ADM6996 show

    A device at the other end of the three lines samples the data line and the
    select line at every rising edge of the clock.  What it sees of a register
    access of [adm6996.c], and what the driver takes for an answer. *)

From S2P Require Import Prelude CMonad SmiCore Mdio Adm6996.

(** ** Bits, the highest first *)

Definition msb (n x : Z) : list bool := tabulate n (fun i => Z.testbit x (n - 1 - i)).

Lemma msb_nil x : msb 0 x = [].
Proof. reflexivity. Qed.

Lemma msb_snoc n x : 0 <= n -> msb (n + 1) x = msb n (x / 2) ++ [Z.testbit x 0].
Proof.
  intros Hn. unfold msb. rewrite tabulate_snoc by exact Hn. f_equal.
  - unfold tabulate. apply map_ext_in. intros k Hk. apply in_seq in Hk.
    rewrite <- Z.div2_div, Z.div2_spec, Z.shiftr_spec by lia. f_equal. lia.
  - f_equal. f_equal. lia.
Qed.

Lemma msb_app n m x y : 0 <= n -> 0 <= m -> 0 <= y < 2 ^ m -> msb n x ++ msb m y = msb (n + m) (x * 2 ^ m + y).
Proof.
  intros Hn Hm. revert y. pattern m. apply natlike_ind; [| | exact Hm].
  - intros y Hy. change (2 ^ 0) with 1 in *. rewrite msb_nil, app_nil_r, Z.add_0_r. f_equal. lia.
  - clear m Hm. intros m Hm IH y Hy. rewrite <- Z.add_1_r in *. rewrite Z.pow_add_r in * by lia. change (2 ^ 1) with 2 in *.
    rewrite (msb_snoc m), Z.add_assoc, msb_snoc, app_assoc, IH by (try (split; [apply Z.div_pos | apply Z.div_lt_upper_bound]); lia). f_equal.
    + f_equal. replace (x * (2 ^ m * 2) + y) with (y + (x * 2 ^ m) * 2) by lia. rewrite Z.div_add by lia. lia.
    + f_equal. rewrite !Z.bit0_odd. replace (x * (2 ^ m * 2) + y) with (y + 2 * (x * 2 ^ m)) by lia. rewrite Z.odd_add_mul_2. reflexivity.
Qed.

Lemma msb_length n x : 0 <= n -> length (msb n x) = Z.to_nat n.
Proof. intros Hn. pose proof (tabulate_length n (fun i => Z.testbit x (n - 1 - i)) Hn). unfold msb. lia. Qed.

(** The highest [n] of [n + m] bits. *)
Lemma msb_take n m x : 0 <= n -> 0 <= m -> take (Z.to_nat n) (msb (n + m) x) = msb n (x / 2 ^ m).
Proof.
  intros Hn Hm. assert (Hp : 0 < 2 ^ m) by (apply Z.pow_pos_nonneg; lia).
  rewrite (Z.div_mod x (2 ^ m)) at 1 by lia. rewrite Z.mul_comm, <- msb_app by (try apply Z.mod_pos_bound; lia).
  rewrite take_app_length'; [reflexivity | symmetry; apply msb_length, Hn].
Qed.

Lemma byte_bits b : map (fun m => cbool (Z.land m b)) bit_masks = msb 8 b.
Proof.
  assert (H : forall m i, BIT i = m -> 0 <= i -> cbool (Z.land m b) = Z.testbit b i).
  { intros m i <- Hi. rewrite Z.land_comm. apply cbool_land_BIT, Hi. }
  unfold bit_masks. cbn [map].
  rewrite (H 0x80 7), (H 0x40 6), (H 0x20 5), (H 0x10 4), (H 0x08 3), (H 0x04 2), (H 0x02 1), (H 0x01 0) by (reflexivity || lia). reflexivity.
Qed.

(** ** Lines *)

(** What the driver did, the last first. *)
Inductive gpio_event :=
| SetLine (line v : Z)
| GetLine (line : Z)
| OutLine (line v : Z)
| InLine (line : Z).
Definition wire : Type := list gpio_event.

(** The lines; a line that is asked for gives what [answer] makes of all that
    happened. *)
Definition wire_gpio (answer : wire -> Z) : Gpio wire := {|
  gpio_set_value line v l := SetLine line v :: l;
  gpio_get_value line l := (answer l, GetLine line :: l);
  gpio_direction_output line v l := OutLine line v :: l;
  gpio_direction_input line l := InLine line :: l
|}.

Fixpoint level (line : Z) (l : wire) : bool :=
  match l with
  | [] => false
  | SetLine x v :: l' | OutLine x v :: l' => if x =? line then cbool v else level line l'
  | _ :: l' => level line l'
  end.
(** The driver drives the line. *)
Fixpoint driven (line : Z) (l : wire) : bool :=
  match l with
  | [] => false
  | OutLine x _ :: l' => if x =? line then true else driven line l'
  | InLine x :: l' => if x =? line then false else driven line l'
  | _ :: l' => driven line l'
  end.

Section Wire.
Variables eecs eesk eedi : Z.
Hypothesis lines_differ : eecs <> eesk /\ eecs <> eedi /\ eesk <> eedi.
Variable answer : wire -> Z.
#[local] Instance wire_inst : Gpio wire := wire_gpio answer.

(** Select and data at the rising edges of the clock, the first first. *)
Fixpoint samples (l : wire) : list (bool * bool) :=
  match l with
  | [] => []
  | SetLine x v :: l' =>
      if (x =? eesk) && cbool v && negb (level eesk l') then samples l' ++ [(level eecs l', level eedi l')] else samples l'
  | _ :: l' => samples l'
  end.

Ltac lines := destruct lines_differ as (?H1 & ?H2 & ?H3); cbn [samples level driven];
  rewrite ?Z.eqb_refl; repeat match goal with |- context [?x =? ?y] => replace (x =? y) with false by lia end.

(** From [l] to [l'] the device samples [bs], the select line as it was. *)
Definition sends (l l' : wire) (bs : list bool) : Prop :=
  samples l' = samples l ++ map (pair (level eecs l)) bs /\ level eecs l' = level eecs l /\ forall x, driven x l' = driven x l.

Lemma sends_nil l : sends l l [].
Proof. split; [cbn [map]; rewrite app_nil_r; reflexivity | auto]. Qed.
Lemma sends_app l l1 l2 a b : sends l l1 a -> sends l1 l2 b -> sends l l2 (a ++ b).
Proof.
  intros (H1 & H2 & H3) (H4 & H5 & H6). split; [rewrite H4, H1, H2, map_app, app_assoc; reflexivity |]. split; [congruence |].
  intros x. rewrite H6. apply H3.
Qed.

Lemma wp_gset line v (Q : unit -> wire -> Prop) E l : Q tt (SetLine line v :: l) -> wp (gset line v) Q E l.
Proof. exact (fun H => H). Qed.

(** A bit is put on the line while the clock is low. *)
Lemma send_bit v l : sends l (SetLine eesk 1 :: SetLine eedi v :: SetLine eesk 0 :: l) [cbool v].
Proof. split; [| split]; [lines; reflexivity | lines; reflexivity | intros x; reflexivity]. Qed.

Lemma wp_adm_write_byte masks byte bits l (Q : Z -> wire -> Prop) : 0 <= bits ->
  (forall l', sends l l' (take (Z.to_nat bits) (map (fun m => cbool (Z.land m byte)) masks)) -> Q (Z.max 0 (bits - Z.of_nat (length masks))) l') ->
  wp (write_byte eesk eedi masks byte bits) Q never l.
Proof.
  revert bits l. induction masks as [| m masks IH]; intros bits l Hb HQ; cbn [write_byte map length] in *.
  - apply wp_ret. replace bits with (Z.max 0 (bits - Z.of_nat 0)) by lia. apply HQ. rewrite take_nil. apply sends_nil.
  - destruct (Z.ltb_spec 0 bits).
    + apply wp_bind, wp_gset, wp_bind, wp_gset, wp_bind, wp_gset. apply IH; [lia |]. intros l' Hl.
      replace (Z.max 0 (bits - 1 - Z.of_nat (length masks))) with (Z.max 0 (bits - Z.of_nat (S (length masks)))) by lia. apply HQ.
      replace (Z.to_nat bits) with (S (Z.to_nat (bits - 1))) by lia. cbn [take].
      apply (sends_app _ _ _ [_]) with (1 := send_bit (Z.land m byte) l). exact Hl.
    + replace bits with 0 in * by lia. apply wp_ret. replace 0 with (Z.max 0 (0 - Z.of_nat (S (length masks)))) at 1 by lia. apply HQ. apply sends_nil.
Qed.

Lemma wp_write_bytes buf bits l (Q : unit -> wire -> Prop) : 0 <= bits ->
  (forall l', sends l l' (take (Z.to_nat bits) (flat_map (msb 8) buf)) -> Q tt l') ->
  wp (write_bytes eesk eedi buf bits) Q never l.
Proof.
  revert bits l. induction buf as [| byte buf IH]; intros bits l Hb HQ; cbn [write_bytes flat_map].
  - apply wp_ret, HQ. cbn [flat_map]. rewrite take_nil. apply sends_nil.
  - apply wp_bind, wp_adm_write_byte; [exact Hb |]. rewrite byte_bits. intros l1 H1. apply IH; [lia |]. intros l2 H2. apply HQ. cbn [flat_map].
    rewrite take_app. eapply sends_app; [exact H1 |]. rewrite msb_length by lia. change (Z.of_nat (length bit_masks)) with 8 in H2.
    replace (Z.to_nat bits - Z.to_nat 8)%nat with (Z.to_nat (Z.max 0 (bits - 8))) by lia. exact H2.
Qed.

(** A frame, with the select line at [cs] while it lasts; the clock is low at
    its end and the select line off. *)
Lemma wp_gpio_write cs buf bits l (Q : unit -> wire -> Prop) : 0 <= bits -> level eesk l = false ->
  (forall l', samples l' = samples l ++ map (pair (cbool cs)) (take (Z.to_nat bits) (flat_map (msb 8) (take (Z.to_nat ((bits + 7) / 8)) buf))) ->
     level eesk l' = false -> level eecs l' = false -> (forall x, driven x l' = driven x l) -> Q tt l') ->
  wp (adm6996_gpio_write eecs eesk eedi cs buf bits) Q never l.
Proof.
  intros Hb Hk HQ. unfold adm6996_gpio_write. apply wp_bind, wp_gset, wp_bind, wp_write_bytes; [exact Hb |]. intros l1 (H1 & H2 & H3).
  apply wp_bind, wp_gset. destruct lines_differ as (D1 & D2 & D3). cbn [samples level] in H1, H2. rewrite Z.eqb_refl in *.
  replace (eecs =? eesk) with false in * by lia. cbn [andb] in H1.
  assert (Hl : forall l2, samples l2 = samples l1 -> (forall x, driven x l2 = driven x l1) -> level eesk l2 = false -> level eecs l2 = false -> Q tt l2).
  { intros l2 E1 E2 E3 E4. apply HQ; [rewrite E1; exact H1 | exact E3 | exact E4 | intros x; rewrite E2; apply H3]. }
  destruct (cbool cs) eqn:Hcs; [apply wp_gset | apply wp_ret]; apply Hl; cbn [samples level driven]; rewrite ?Z.eqb_refl;
    replace (eecs =? eesk) with false by lia; replace (eesk =? eecs) with false by lia; auto.
Qed.

(** Clocks without data. *)
Lemma wp_adclk n l (Q : unit -> wire -> Prop) : 0 <= n -> level eesk l = false ->
  (forall l', samples l' = samples l ++ repeat (level eecs l, level eedi l) (Z.to_nat n) -> level eesk l' = false -> level eecs l' = level eecs l ->
     (forall x, driven x l' = driven x l) -> Q tt l') ->
  wp (adm6996_gpio_adclk eesk n) Q never l.
Proof.
  intros Hn Hk HQ. unfold adm6996_gpio_adclk, for_each.
  apply (wp_loop_acc (fun i _ l' => samples l' = samples l ++ repeat (level eecs l, level eedi l) (Z.to_nat i) /\ level eesk l' = false /\
    level eecs l' = level eecs l /\ level eedi l' = level eedi l /\ forall x, driven x l' = driven x l)).
  - rewrite app_nil_r. auto.
  - intros j [] l1 Hj (H1 & H2 & H3 & H4 & H5). apply wp_bind, wp_gset, wp_gset. destruct lines_differ as (D1 & D2 & D3).
    cbn [samples level driven]. rewrite Z.eqb_refl. replace (eesk =? eecs) with false by lia. replace (eesk =? eedi) with false by lia.
    cbn [andb cbool negb Z.eqb]. rewrite H2, H3, H4. cbn [negb andb]. replace (Z.to_nat (j + 1)) with (Z.to_nat j + 1)%nat by lia.
    rewrite repeat_app, H1, app_assoc. auto 10.
  - intros [] l1 (H1 & H2 & H3 & _ & H5). apply HQ; [| exact H2 | exact H3 | exact H5]. rewrite H1. do 3 f_equal. lia.
Qed.

(** ** Reading *)

Fixpoint from_bits (acc : Z) (bs : list bool) : Z := match bs with [] => acc | b :: bs' => from_bits (2 * acc + b2z b) bs' end.

Lemma from_bits_app acc a b : from_bits acc (a ++ b) = from_bits (from_bits acc a) b.
Proof. revert acc. induction a as [| x a IH]; intros acc; [reflexivity | apply IH]. Qed.

Lemma from_bits_msb n x : 0 <= n -> from_bits 0 (msb n x) = x mod 2 ^ n.
Proof.
  intros Hn. revert x. pattern n. apply natlike_ind; [intros x; symmetry; apply Z.mod_1_r | | exact Hn].
  clear n Hn. intros n Hn IH x. rewrite <- Z.add_1_r, msb_snoc, from_bits_app, IH by exact Hn. cbn [from_bits]. rewrite Z.pow_add_r by lia.
  change (2 ^ 1) with 2. rewrite Z.bit0_odd. assert (Hp : 0 < 2 ^ n) by (apply Z.pow_pos_nonneg; lia). rewrite (Z.mul_comm (2 ^ n) 2), Z.rem_mul_r by lia.
  rewrite Zmod_odd. destruct (Z.odd x); cbn [b2z]; lia.
Qed.

(** The answer to the clocks after [l0] has the bits [f]. *)
Definition answers (l0 : wire) (f : Z -> bool) : Prop := forall l rest, samples l = samples l0 ++ rest -> Z.of_nat (length rest) < 32 ->
  cbool (u8 (answer l)) = f (Z.of_nat (length rest)).

(** [k] clocks after [l0]. *)
Definition clocked (l0 l : wire) (k : Z) : Prop := (exists rest, samples l = samples l0 ++ rest /\ Z.of_nat (length rest) = k) /\
  level eecs l = level eecs l0 /\ forall x, driven x l = driven x l0.

Fixpoint gathered (f : Z -> bool) (k : Z) (masks : list Z) (byte : Z) : Z :=
  match masks with [] => byte | m :: masks' => gathered f (k + 1) masks' (if f k then Z.lor byte m else byte) end.

Lemma wp_adm_read_byte l0 f masks byte bits k l (Q : Z * Z -> wire -> Prop) : answers l0 f -> clocked l0 l k ->
  Z.of_nat (length masks) <= bits -> k + Z.of_nat (length masks) <= 32 ->
  (forall l', clocked l0 l' (k + Z.of_nat (length masks)) -> Q (gathered f k masks byte, bits - Z.of_nat (length masks)) l') ->
  wp (read_byte eesk eedi masks byte bits) Q never l.
Proof.
  intros Ha. revert byte bits k l. induction masks as [| m masks IH]; intros byte bits k l Hl Hb Hk HQ; cbn [read_byte length gathered] in *.
  - apply wp_ret. replace bits with (bits - Z.of_nat 0) by lia. apply HQ. rewrite Z.add_0_r. exact Hl.
  - replace (0 <? bits) with true by lia. apply wp_bind, wp_gset, wp_bind. destruct Hl as ((rest & H1 & H2) & H3 & H4). destruct lines_differ as (D1 & D2 & D3).
    unfold wp at 1, gget. cbn [gpio_get_value wire_inst wire_gpio].
    assert (E1 : samples (SetLine eesk 0 :: l) = samples l0 ++ rest) by (cbn [samples]; rewrite Z.eqb_refl; exact H1).
    rewrite (Ha _ _ E1) by lia. rewrite H2. apply wp_bind, wp_gset. apply (IH _ _ (k + 1)); [| lia | lia |].
    + split; [| split].
      * exists (rest ++ [(level eecs l, level eedi l)]). cbn [samples level]. rewrite !Z.eqb_refl. cbn [andb cbool negb Z.eqb].
        replace (eesk =? eecs) with false by lia. replace (eesk =? eedi) with false by lia. rewrite H1, app_assoc, length_app. cbn [length]. split; [reflexivity | lia].
      * cbn [level]. replace (eesk =? eecs) with false by lia. exact H3.
      * exact H4.
    + intros l' Hl'. replace (bits - 1 - Z.of_nat (length masks)) with (bits - Z.of_nat (S (length masks))) by lia. apply HQ.
      replace (k + Z.of_nat (S (length masks))) with (k + 1 + Z.of_nat (length masks)) by lia. exact Hl'.
Qed.

Lemma gathered_byte f k : gathered f k bit_masks 0 = from_bits 0 (map (fun i => f (k + i)) (upto 8)).
Proof.
  cbn [gathered bit_masks upto map seq from_bits].
  rewrite <- !Z.add_assoc. change (1 + (1 + (1 + (1 + (1 + (1 + 1)))))) with 7. change (1 + (1 + (1 + (1 + (1 + 1))))) with 6. change (1 + (1 + (1 + (1 + 1)))) with 5.
  change (1 + (1 + (1 + 1))) with 4. change (1 + (1 + 1)) with 3. change (1 + 1) with 2.
  change (Z.of_nat 0) with 0. change (Z.of_nat 1) with 1. change (Z.of_nat 2) with 2. change (Z.of_nat 3) with 3. change (Z.of_nat 4) with 4.
  change (Z.of_nat 5) with 5. change (Z.of_nat 6) with 6. change (Z.of_nat 7) with 7. rewrite Z.add_0_r.
  destruct (f k), (f (k + 1)), (f (k + 2)), (f (k + 3)), (f (k + 4)), (f (k + 5)), (f (k + 6)), (f (k + 7)); reflexivity.
Qed.

(** A word is shifted out from its highest bit. *)
Lemma gathered_word word k : 0 <= k <= 24 -> gathered (fun i => Z.testbit word (31 - i)) k bit_masks 0 = word / 2 ^ (24 - k) mod 256.
Proof.
  intros Hk. rewrite gathered_byte. change 256 with (2 ^ 8). rewrite <- from_bits_msb by lia. f_equal. unfold msb, tabulate, upto. rewrite map_map.
  apply map_ext_in. intros i Hi. apply in_seq in Hi. rewrite Z.div_pow2_bits by lia. f_equal. lia.
Qed.

Lemma wp_gpio_read l (word : Z) (Q : list Z -> wire -> Prop) : level eesk l = false -> level eecs l = false -> 
  answers l (fun i => Z.testbit word (31 - i)) ->
  (forall l', (exists rest, samples l' = samples l ++ rest /\ length rest = 32%nat) -> level eesk l' = false -> level eecs l' = false ->
     (forall x, driven x l' = driven x l) ->
     Q [word / 2 ^ 24 mod 256; word / 2 ^ 16 mod 256; word / 2 ^ 8 mod 256; word mod 256] l') ->
  wp (adm6996_gpio_read eecs eesk eedi 0 32) Q never l.
Proof.
  intros Hk Hcs Ha HQ. unfold adm6996_gpio_read. apply wp_bind, wp_gset. destruct lines_differ as (D1 & D2 & D3).
  set (l0 := SetLine eecs 0 :: l). assert (E0 : samples l0 = samples l) by (cbn [samples l0]; replace (eecs =? eesk) with false by lia; reflexivity).
  assert (Ha0 : answers l0 (fun i => Z.testbit word (31 - i))) by (intros l1 rest H1; apply Ha; rewrite <- E0; exact H1).
  assert (Hc0 : clocked l0 l0 0) by (split; [exists []; rewrite app_nil_r; auto | auto]).
  change (Z.to_nat ((32 + 7) / 8)) with 4%nat. cbn [read_bytes].
  assert (Hbyte : forall k bits l1 (Q' : Z * Z -> wire -> Prop), clocked l0 l1 k -> 8 <= bits -> 0 <= k <= 24 ->
    (forall l2, clocked l0 l2 (k + 8) -> Q' (word / 2 ^ (24 - k) mod 256, bits - 8) l2) -> wp (read_byte eesk eedi bit_masks 0 bits) Q' never l1).
  { intros k bits l1 Q' H1 H2 H3 H4. eapply (wp_adm_read_byte l0); [exact Ha0 | exact H1 | exact H2 | change (Z.of_nat (length bit_masks)) with 8; lia |].
    change (Z.of_nat (length bit_masks)) with 8. rewrite gathered_word by exact H3. exact H4. }
  apply wp_bind, wp_bind, (Hbyte 0); [exact Hc0 | lia | lia |]. intros l1 H1.
  apply wp_bind, wp_bind, (Hbyte 8); [exact H1 | cbn; lia | lia |]. intros l2 H2.
  apply wp_bind, wp_bind, (Hbyte 16); [exact H2 | cbn; lia | lia |]. intros l3 H3.
  apply wp_bind, wp_bind, (Hbyte 24); [exact H3 | cbn; lia | lia |]. intros l4 ((rest & H4 & H5) & H6 & H7).
  apply wp_bind, wp_ret, wp_ret, wp_ret, wp_ret, wp_ret, wp_bind, wp_gset, wp_bind. cbn [fst snd]. change (cbool 0) with false. cbv iota. apply wp_ret, wp_ret.
  change (24 - 0) with 24. change (24 - 8) with 16. change (24 - 16) with 8. change (2 ^ (24 - 24)) with 1. rewrite Z.div_1_r. apply HQ.
  - exists rest. cbn [samples]. rewrite Z.eqb_refl. cbn [andb cbool negb Z.eqb]. rewrite H4, E0. split; [reflexivity | lia].
  - cbn [level]. rewrite Z.eqb_refl. reflexivity.
  - cbn [level]. replace (eesk =? eecs) with false by lia. rewrite H6. cbn [level l0]. rewrite Z.eqb_refl. reflexivity.
  - exact H7.
Qed.

(** ** A register access *)

(** The driver lets go of the three lines. *)
Definition released (l : wire) : Prop := driven eecs l = false /\ driven eesk l = false /\ driven eedi l = false.

(** The frame of a write: [101], the register, the value. *)
Definition write_frame (reg val : Z) : list bool := msb 3 5 ++ msb 8 reg ++ msb 16 val.
(** The frame of a read: a preamble of ones, [0110], the address. *)
Definition read_frame (reg : Z) : list bool := msb 32 0xffffffff ++ msb 4 6 ++ msb 10 (reg mod 128).

Lemma bytes_msb a b c d : 0 <= b < 256 -> 0 <= c < 256 -> 0 <= d < 256 ->
  flat_map (msb 8) [a; b; c; d] = msb 32 (a * 2 ^ 24 + b * 2 ^ 16 + c * 2 ^ 8 + d).
Proof.
  intros Hb Hc Hd. cbn [flat_map]. rewrite app_nil_r, (msb_app 8 8 c d), (msb_app 8 (8 + 8) b), (msb_app 8 (8 + (8 + 8)) a) by lia.
  change (8 + (8 + (8 + 8))) with 32. f_equal. lia.
Qed.

Ltac zdiv := Z.to_euclidean_division_equations; lia.
Lemma u8_mod x : u8 x = x mod 256.
Proof. reflexivity. Qed.
Lemma shiftr_div x n : 0 <= n -> Z.shiftr x n = x / 2 ^ n.
Proof. apply Z.shiftr_div_pow2. Qed.

Lemma write_bytes_frame reg val : 0 <= reg < 256 -> 0 <= val < 65536 ->
  take (Z.to_nat 27) (flat_map (msb 8) [u8 (Z.lor (Z.shiftl 5 5) (Z.shiftr reg 3)); u8 (Z.lor (Z.shiftl reg 5) (u8 (Z.shiftr val 11))); u8 (Z.shiftr val 3); u8 (Z.shiftl val 5)])
  = write_frame reg val.
Proof.
  intros Hr Hv. rewrite !shiftr_div by lia. rewrite (Z.lor_comm (Z.shiftl 5 5)), (Z.lor_comm (Z.shiftl reg 5)).
  change (2 ^ 3) with 8. change (2 ^ 11) with 2048.
  rewrite (lor_shiftl_add (reg / 8) 5 5), (lor_shiftl_add (u8 (val / 2048)) reg 5), !u8_mod, Z.shiftl_mul_pow2 by (rewrite ?u8_mod; zdiv).
  rewrite bytes_msb by zdiv. unfold write_frame. rewrite msb_app, msb_app by lia.
  change 32 with (27 + 5) at 1. rewrite msb_take by lia. f_equal. change (2 ^ 24) with 16777216. change (2 ^ 16) with 65536. change (2 ^ 8) with 256. change (2 ^ 5) with 32. zdiv.
Qed.

Lemma read_bytes_frame reg : 0 <= reg ->
  take (Z.to_nat 46) (flat_map (msb 8) [0xff; 0xff; 0xff; 0xff;
    u8 (Z.lor (Z.shiftl 0x06 4) (Z.lor (Z.shiftl (Z.land 0 0x01) 3) (Z.shiftr (Z.land reg 64) 6))); u8 (Z.shiftl (Z.land reg 63) 2)])
  = read_frame reg.
Proof.
  intros Hr. change (Z.shiftl (Z.land 0 1) 3) with 0. rewrite Z.lor_0_l, shiftr_div, (Z.lor_comm (Z.shiftl 6 4)), (Z.shiftl_mul_pow2 (Z.land reg 63)) by lia.
  replace (Z.land reg 63) with (reg mod 64) by (change 63 with (Z.ones 6); rewrite Z.land_ones by lia; reflexivity).
  replace (Z.land reg 64 / 2 ^ 6) with (reg mod 128 / 64).
  2: { apply Z.bits_inj'. intros n Hn. change 64 with (2 ^ 6) at 1. change 128 with (2 ^ 7). rewrite !Z.div_pow2_bits, Z.land_spec by lia.
       change 64 with (2 ^ 6). rewrite Z.pow2_bits_eqb by lia. destruct (Z.eqb_spec 6 (n + 6)).
       - rewrite andb_true_r, Z.mod_pow2_bits_low by lia. reflexivity.
       - rewrite andb_false_r, Z.mod_pow2_bits_high by lia. reflexivity. }
  rewrite (lor_shiftl_add (reg mod 128 / 64) 6 4), !u8_mod by zdiv.
  set (x := (reg mod 128 / 64 + 6 * 2 ^ 4) mod 256). set (y := (reg mod 64 * 2 ^ 2) mod 256).
  change (flat_map (msb 8) [255; 255; 255; 255; x; y]) with (msb 32 0xffffffff ++ flat_map (msb 8) [x; y]).
  rewrite take_app, msb_length by lia. rewrite take_ge by (rewrite msb_length by lia; lia). unfold read_frame. f_equal.
  cbn [flat_map]. rewrite app_nil_r, !msb_app by (subst y; zdiv).
  replace (Z.to_nat 46 - Z.to_nat 32)%nat with (Z.to_nat 14) by lia. change (8 + 8) with (14 + 2). rewrite msb_take by lia.
  change (4 + 10) with 14. f_equal. subst x y. change (2 ^ 10) with 1024. change (2 ^ 8) with 256. change (2 ^ 4) with 16. change (2 ^ 2) with 4. zdiv.
Qed.

(** What a device sees of a write: the frame of 27 bits while it is selected,
    the highest bit first, each bit put on the line while the clock is low;
    two more clocks without it; then no line is driven. *)
Theorem gpio_write_on_the_wire reg val l : 0 <= reg < 256 -> 0 <= val < 65536 -> exists l' d,
  adm6996_write_gpio_reg eecs eesk eedi reg val l = (Ok tt, l') /\
  samples l' = samples l ++ map (pair true) (write_frame reg val) ++ [(false, d); (false, d)] /\ released l'.
Proof.
  intros Hr Hv.
  enough (H : wp (adm6996_write_gpio_reg eecs eesk eedi reg val) (fun _ l' => exists d, samples l' = samples l ++ map (pair true) (write_frame reg val) ++ [(false, d); (false, d)] /\ released l') never l).
  { revert H. unfold wp. destruct (adm6996_write_gpio_reg eecs eesk eedi reg val l) as [[[] | e] l']; [| contradiction]. intros (d & H). eauto. }
  unfold adm6996_write_gpio_reg. apply wp_bind, wp_modify, wp_bind, wp_modify, wp_bind, wp_modify. cbn [gpio_direction_output wire_inst wire_gpio].
  destruct lines_differ as (D1 & D2 & D3).
  apply wp_bind, wp_gpio_write; [lia | lines; reflexivity |]. intros l1 S1 K1 C1 V1.
  apply wp_bind, wp_adclk; [lia | exact K1 |]. intros l2 S2 K2 C2 V2.
  apply wp_bind, wp_modify, wp_bind, wp_modify, wp_modify. cbn [gpio_direction_input wire_inst wire_gpio].
  exists (level eedi l1). cbn [samples] in *. split.
  - rewrite S2, S1, C1. change (cbool 1) with true. rewrite <- app_assoc.
    change (Z.to_nat ((27 + 7) / 8)) with 4%nat. cbn [take]. rewrite write_bytes_frame by assumption. reflexivity.
  - unfold released. lines. auto.
Qed.

(** After the frame and two more clocks the device shifts [word] out. *)
Definition shifts_out (l : wire) (reg word : Z) : Prop := forall l1 rest,
  samples l1 = samples l ++ map (pair false) (read_frame reg) ++ rest -> 2 <= Z.of_nat (length rest) < 34 ->
  cbool (u8 (answer l1)) = Z.testbit word (33 - Z.of_nat (length rest)).

Lemma half_word hi lo : 0 <= hi < 256 -> 0 <= lo < 256 -> u16 (Z.lor (Z.shiftl hi 8) lo) = hi * 256 + lo.
Proof.
  intros Hh Hl. rewrite Z.lor_comm, lor_shiftl_add by lia. change (2 ^ 8) with 256. rewrite u16_small by lia. lia.
Qed.

(** C36: reading a register through three GPIO lines. The device sees the
    preamble and the frame of 46 bits, then two clocks; it is then asked for
    32 bits, and two more clocks follow. If it shifts a word out, the highest
    bit first, the driver returns the half of the word the parity of the
    register's number selects, and no line is driven afterwards. *)
Theorem gpio_read_on_the_wire reg word l : 0 <= reg -> 0 <= word < 2 ^ 32 -> shifts_out l reg word -> exists l' rest,
  adm6996_read_gpio_reg eecs eesk eedi reg l = (Ok (if Z.odd reg then word / 2 ^ 16 else word mod 2 ^ 16), l') /\
  samples l' = samples l ++ map (pair false) (read_frame reg) ++ rest /\ length rest = 36%nat /\ released l'.
Proof.
  intros Hr Hw Ho. set (v := if Z.odd reg then word / 2 ^ 16 else word mod 2 ^ 16).
  enough (H : wp (adm6996_read_gpio_reg eecs eesk eedi reg) (fun a l' => a = v /\ exists rest, samples l' = samples l ++ map (pair false) (read_frame reg) ++ rest /\
    length rest = 36%nat /\ released l') never l).
  { revert H. unfold wp. destruct (adm6996_read_gpio_reg eecs eesk eedi reg l) as [[a | e] l']; [| contradiction]. intros (-> & rest & H). eauto. }
  unfold adm6996_read_gpio_reg. apply wp_bind, wp_modify, wp_bind, wp_modify, wp_bind, wp_modify. cbn [gpio_direction_output wire_inst wire_gpio].
  destruct lines_differ as (D1 & D2 & D3).
  apply wp_bind, wp_gpio_write; [lia | lines; reflexivity |]. intros l1 S1 K1 C1 V1.
  apply wp_bind, wp_modify, wp_bind, wp_adclk; [lia | exact K1 |]. cbn [gpio_direction_input wire_inst wire_gpio]. intros l2 S2 K2 C2 V2.
  cbn [samples level] in S1, S2, C2. change (Z.to_nat ((46 + 7) / 8)) with 6%nat in S1. cbn [take] in S1. rewrite read_bytes_frame in S1 by exact Hr.
  change (cbool 0) with false in S1. rewrite S1, <- app_assoc in S2.
  apply wp_bind, (wp_gpio_read _ word); [exact K2 | rewrite C2; exact C1 | |].
  { intros l3 rest H3 Hlt. rewrite S2, <- !app_assoc in H3. rewrite (Ho _ _ H3); rewrite length_app, repeat_length; [f_equal |]; lia. }
  intros l3 (rest & S3 & N3) K3 C3 V3. apply wp_bind, wp_adclk; [lia | exact K3 |]. intros l4 S4 K4 C4 V4.
  apply wp_bind, wp_modify, wp_bind, wp_modify, wp_ret. cbn [gpio_direction_input wire_inst wire_gpio]. split.
  - change (Z.land reg 0x01) with (Z.land reg (BIT 0)). rewrite cbool_land_BIT, Z.bit0_odd by lia. subst v.
    change (2 ^ 24) with 16777216. change (2 ^ 16) with 65536. change (2 ^ 8) with 256. change (2 ^ 32) with 4294967296 in Hw.
    destruct (Z.odd reg); unfold geti;
      change (Z.to_nat 0) with 0%nat; change (Z.to_nat 1) with 1%nat; change (Z.to_nat 2) with 2%nat; change (Z.to_nat 3) with 3%nat; cbn [nth];
      rewrite half_word; zdiv.
  - rewrite S3, S2 in S4. rewrite <- !app_assoc in S4. cbn [samples]. eexists. split; [exact S4 |]. split; [rewrite !length_app, !repeat_length; lia |].
    unfold released. lines. rewrite V4, V3, V2. lines. auto.
Qed.
End Wire.

(** ** An example *)

(** A device that answers every read with one word. *)
Definition example_answer (l : wire) : Z := b2z (Z.testbit 0x12345678 (33 - (Z.of_nat (length (samples 1 2 3 l)) - 46))).

Lemma gpio_read_on_the_wire_witness :
  (exists l', adm6996_read_gpio_reg (G := wire_gpio example_answer) 1 2 3 0xa1 [] = (Ok 0x1234, l') /\ released 1 2 3 l') /\
  (exists l', adm6996_read_gpio_reg (G := wire_gpio example_answer) 1 2 3 0xa0 [] = (Ok 0x5678, l') /\ released 1 2 3 l').
Proof.
  assert (Ho : forall reg, shifts_out 1 2 3 example_answer [] reg 0x12345678).
  { intros reg l1 rest E Hr. unfold example_answer. rewrite E. cbn [samples app]. rewrite length_app, length_map. unfold read_frame.
    rewrite !length_app, !msb_length by lia. rewrite u8_small by (destruct (Z.testbit _ _); cbn; lia).
    match goal with |- cbool (b2z (Z.testbit _ ?a)) = Z.testbit _ ?c => replace a with c by lia end. destruct (Z.testbit _ _); reflexivity. }
  split.
  - destruct (gpio_read_on_the_wire 1 2 3 ltac:(lia) example_answer 0xa1 0x12345678 [] ltac:(lia) ltac:(lia) (Ho _)) as (l' & rest & E & _ & _ & F).
    exists l'. split; [exact E | exact F].
  - destruct (gpio_read_on_the_wire 1 2 3 ltac:(lia) example_answer 0xa0 0x12345678 [] ltac:(lia) ltac:(lia) (Ho _)) as (l' & rest & E & _ & _ & F).
    exists l'. split; [exact E | exact F].
Defined.
