(* ===== verification/AdmProps.v ===== *)
(** * The configuration of an ADM6996

    What the registers of the switch hold, over every sequence of requests
    after a reset, of both models the driver registers. *)

From S2P Require Import Prelude Text CMonad SmiCore Mdio Adm6996.

(** ** The switch *)

(** The registers of the configuration, by what they are for. *)
Inductive adm_role :=
| FiltL (i : Z) | FiltH (i : Z) | VlanMap (i : Z) | PortCfg (i : Z)
| P0Pvid | P1Pvid | P2Pvid | P34Pvid | P5Pvid
| Ifnte | VidCheck | Sysc0 | Sysc3.
#[export] Instance adm_role_eq_dec : EqDecision adm_role.
Proof. solve_decision. Defined.

Section Switch.
Context {R : AdmRegs}.

Definition adm_at (q : adm_role) : Z :=
  match q with
  | FiltL i => ADM_VLAN_FILT_L i
  | FiltH i => ADM_VLAN_FILT_H i
  | VlanMap i => ADM_VLAN_MAP i
  | PortCfg i => adm_portcfg i
  | P0Pvid => ADM_P0_PVID
  | P1Pvid => ADM_P1_PVID
  | P2Pvid => ADM_OTBE_P2_PVID
  | P34Pvid => ADM_P3_P4_PVID
  | P5Pvid => ADM_P5_PVID
  | Ifnte => ADM_IFNTE
  | VidCheck => ADM_VID_CHECK
  | Sysc0 => ADM_SYSC0
  | Sysc3 => ADM_SYSC3
  end.

(** The registers a switch has; [l]: it is an ADM6996L. *)
Definition in_adm (l : bool) (q : adm_role) : bool :=
  match q with
  | FiltL i | FiltH i => negb l && (0 <=? i) && (i <? ADM_NUM_VLANS)
  | VlanMap i => l && (0 <=? i) && (i <? ADM_NUM_VLANS)
  | PortCfg i => (0 <=? i) && (i <? ADM_NUM_PORTS)
  | Ifnte | VidCheck | Sysc0 => negb l
  | _ => true
  end.

(** [adm6996.h]: fields that stay within their masks. *)
Class AdmRegsOk := {
  tbv_word : 0 <= ADM_TBV < 65536;
  mac_clone_word : 0 <= ADM_MAC_CLONE < 65536;
  pvid_field v : 0 <= v < 65536 -> 0 <= ADM_PORTCFG_PVID v < 65536 /\ Z.ldiff (ADM_PORTCFG_PVID v) ADM_PORTCFG_PVID_MASK = 0;
  pvid_mask_bit4 : Z.testbit ADM_PORTCFG_PVID_MASK 4 = false;
  pvid_mask_word : 0 <= ADM_P2_PVID_MASK < 65536 /\ 0 <= ADM_PORTCFG_PVID_MASK < 65536;
  p2_field v : 0 <= v < 65536 -> 0 <= ADM_P2_PVID_VAL v < 65536 /\ Z.ldiff (ADM_P2_PVID_VAL v) ADM_P2_PVID_MASK = 0;
  p5_field v : 0 <= v < 65536 -> 0 <= ADM_P5_PVID_VAL v < 65536 /\ Z.ldiff (ADM_P5_PVID_VAL v) ADM_P2_PVID_MASK = 0
}.

(** Registers that keep what is written; a read changes none of them. *)
Class AdmSwitch (l : bool) (W : Type) {IO : AdmIo W} := {
  ad_reg : W -> adm_role -> Z;
  ad_range w q : 0 <= ad_reg w q < 65536;
  ad_read w q : in_adm l q = true -> fst (adm_read (adm_at q) w) = ad_reg w q;
  ad_quiet w r q : ad_reg (snd (adm_read r w)) q = ad_reg w q;
  ad_write w q x : in_adm l q = true -> 0 <= x < 65536 ->
    forall q', in_adm l q' = true -> ad_reg (adm_write (adm_at q) x w) q' = if decide (q' = q) then x else ad_reg w q'
}.
End Switch.

Section Registers.
Context {R : AdmRegs} {RO : AdmRegsOk} {W : Type} {IO : AdmIo W} {l : bool} {SW : AdmSwitch l W}.
Implicit Types (p : adm6996_priv W) (q : adm_role).

(** ** What a piece of the driver does to every register *)

Definition reg p q : Z := ad_reg (l := l) (adm_io p) q.
Definition becomes p (e : adm_role -> Z -> Z) p' : Prop := exists w', p' = with_adm_io w' p /\ forall q, in_adm l q = true -> reg p' q = e q (reg p q).
Definition transforms (m : M (adm6996_priv W) unit) (e : adm_role -> Z -> Z) : Prop := forall p, wp m (fun _ => becomes p e) never p.

Lemma reg_with w p q : reg (with_adm_io w p) q = ad_reg (l := l) w q.
Proof. reflexivity. Qed.
Lemma with_adm_io_twice w w' p : with_adm_io w (with_adm_io w' p) = with_adm_io w p.
Proof. reflexivity. Qed.

Lemma tr_w16 q v : in_adm l q = true -> transforms (w16 (adm_at q) v) (fun q' old => if decide (q' = q) then u16 v else old).
Proof.
  intros Hq p. unfold w16. apply wp_modify. eexists. split; [reflexivity |]. intros q' Hq'. rewrite reg_with.
  apply ad_write; [exact Hq | apply u16_range | exact Hq'].
Qed.

Lemma tr_rmw q f : in_adm l q = true -> transforms (rmw (adm_at q) f) (fun q' old => if decide (q' = q) then u16 (f old) else old).
Proof.
  intros Hq p. unfold rmw. apply wp_bind. unfold wp at 1, r16. pose proof (ad_read (adm_io p) q Hq) as H1. pose proof (ad_quiet (l := l) (adm_io p) (adm_at q)) as H2.
  destruct (adm_read (adm_at q) (adm_io p)) as [v w']. cbn [fst snd] in H1, H2. subst v. rewrite (u16_small (ad_reg _ _)) by apply ad_range.
  apply wp_modify. eexists. split; [apply with_adm_io_twice |]. intros q' Hq'. rewrite reg_with. cbn [adm_io with_adm_io].
  rewrite ad_write by (try apply u16_range; assumption). unfold reg. destruct (decide (q' = q)) as [-> |]; [reflexivity | apply H2].
Qed.

Lemma tr_mono m e e' : transforms m e -> (forall q x, in_adm l q = true -> 0 <= x < 65536 -> e q x = e' q x) -> transforms m e'.
Proof.
  intros H He p. eapply wp_mono; [apply H | | auto]. intros [] p' (w' & E & H'). exists w'. split; [exact E |]. intros q Hq.
  rewrite H' by exact Hq. apply He; [exact Hq | apply ad_range].
Qed.

Lemma tr_seq m1 m2 e1 e2 : transforms m1 e1 -> transforms m2 e2 -> transforms (m1 ;; m2) (fun q x => e2 q (e1 q x)).
Proof.
  intros H1 H2 p. apply wp_bind. eapply wp_mono; [apply H1 | | auto]. intros [] p1 (w1 & -> & E1).
  eapply wp_mono; [apply H2 | | auto]. intros [] p2 (w2 & -> & E2). exists w2. split; [apply with_adm_io_twice |].
  intros q Hq. rewrite E2, E1 by exact Hq. reflexivity.
Qed.

Lemma tr_ret : transforms (ret tt) (fun _ x => x).
Proof. intros p. apply wp_ret. exists (adm_io p). split; [destruct p; reflexivity | reflexivity]. Qed.

(** A loop whose round [i] is the only one that changes the registers of
    index [i]. *)
Definition one_round (n : Z) (e : Z -> adm_role -> Z -> Z) (q : adm_role) (x : Z) : Z :=
  fold_left (fun x i => e i q x) (upto (Z.to_nat n)) x.

Lemma upto_snoc n : upto (S n) = upto n ++ [Z.of_nat n].
Proof. unfold upto. rewrite seq_S, map_app. reflexivity. Qed.

Lemma tr_each n body e : 0 <= n -> (forall i, 0 <= i < n -> transforms (body i) (e i)) -> transforms (for_each n body) (one_round n e).
Proof.
  intros Hn Hb p. unfold for_each.
  apply (wp_loop_acc (fun i _ p' => exists w', p' = with_adm_io w' p /\ forall q, in_adm l q = true -> reg p' q = one_round i e q (reg p q))).
  - exists (adm_io p). split; [destruct p; reflexivity | reflexivity].
  - intros i [] p1 Hi (w1 & -> & E1). eapply wp_mono; [apply Hb; lia | | auto]. intros [] p2 (w2 & -> & E2). exists w2. split; [apply with_adm_io_twice |].
    intros q Hq. rewrite E2, E1 by exact Hq. unfold one_round. replace (Z.to_nat (i + 1)) with (S (Z.to_nat i)) by lia.
    rewrite upto_snoc, fold_left_app. cbn [fold_left]. f_equal. lia.
  - intros [] p' H. replace n with (0 + Z.of_nat (Z.to_nat n)) by lia. exact H.
Qed.

Lemma one_round_at n e q k x : 0 <= k < n -> (forall i y, i <> k -> e i q y = y) -> one_round n e q x = e k q x.
Proof.
  intros Hk He. unfold one_round. assert (H : forall m y, fold_left (fun x i => e i q x) (upto m) y = if k <? Z.of_nat m then e k q y else y).
  { induction m as [| m IH]; intros y; [rewrite (proj2 (Z.ltb_ge k (Z.of_nat 0))) by lia; reflexivity |].
    rewrite upto_snoc, fold_left_app, IH. cbn [fold_left].
    destruct (Z.eq_dec (Z.of_nat m) k) as [E |].
    - rewrite E, Z.ltb_irrefl. rewrite (proj2 (Z.ltb_lt k (Z.of_nat (S m)))) by lia. reflexivity.
    - rewrite He by assumption. destruct (Z.ltb_spec k (Z.of_nat m)), (Z.ltb_spec k (Z.of_nat (S m))); lia || reflexivity. }
  rewrite H, (proj2 (Z.ltb_lt k _)) by lia. reflexivity.
Qed.

Lemma one_round_none n e q x : (forall i y, e i q y = y) -> one_round n e q x = x.
Proof. intros He. unfold one_round. generalize (upto (Z.to_nat n)) as ks. induction ks as [| i ks IH]; [reflexivity |]. cbn [fold_left]. rewrite He. exact IH. Qed.

(** ** Switching VLANs on and off *)

Definition open_low : Z := u16 ADM_VLAN_FILT_MEMBER_MASK.
Definition open_high : Z := u16 (Z.lor ADM_VLAN_FILT_VALID (ADM_VLAN_FILT_VID 1)).

(** VLANs are off: every filter lets all ports through. *)
Definition adm_off p : Prop := Z.land (reg p Sysc3) ADM_TBV = 0 /\
  forall i, 0 <= i < ADM_NUM_VLANS -> if l then reg p (VlanMap i) = 0 else reg p (FiltL i) = open_low /\ reg p (FiltH i) = open_high.

Definition disabled q x : Z :=
  match q with
  | FiltL _ => open_low
  | FiltH _ => open_high
  | VlanMap _ => 0
  | P2Pvid => if l then x else u16 (Z.lor x ADM_OTBE_MASK)
  | Ifnte => u16 (Z.lor x ADM_IFNTE_MASK)
  | VidCheck => u16 (Z.ldiff x ADM_VID_CHECK_MASK)
  | Sysc0 => u16 (Z.lor (Z.ldiff x ADM_NTTE) ADM_RVID1)
  | Sysc3 => if l then u16 (Z.ldiff (Z.ldiff x ADM_TBV) ADM_MAC_CLONE) else u16 (Z.ldiff x ADM_TBV)
  | _ => x
  end.
Definition enabled q x : Z :=
  match q with
  | P2Pvid => if l then x else u16 (Z.ldiff x ADM_OTBE_MASK)
  | Ifnte => if l then x else u16 (Z.ldiff x ADM_IFNTE_MASK)
  | VidCheck => if l then x else u16 (Z.lor x ADM_VID_CHECK_MASK)
  | Sysc0 => if l then x else u16 (Z.ldiff (Z.lor x ADM_NTTE) ADM_RVID1)
  | Sysc3 => if l then u16 (Z.lor (Z.lor x ADM_TBV) ADM_MAC_CLONE) else u16 (Z.lor x ADM_TBV)
  | _ => x
  end.

Hypothesis vlans_fit : 0 <= ADM_NUM_VLANS.
Hypothesis ports_fit : 0 <= ADM_NUM_PORTS.

(** Decides which register a write in a sequence is to. *)
Ltac which := repeat match goal with |- context [decide (?a = ?b)] => destruct (decide (a = b)) end; try congruence.

Lemma in_index i n : 0 <= i < n -> (0 <=? i) && (i <? n) = true.
Proof. lia. Qed.

Lemma in_vlan i : 0 <= i < ADM_NUM_VLANS -> in_adm l (FiltL i) = negb l /\ in_adm l (FiltH i) = negb l /\ in_adm l (VlanMap i) = l.
Proof. intros Hi. cbn. rewrite <- !andb_assoc, in_index, !andb_true_r by exact Hi. auto. Qed.
Lemma vlan_in i : in_adm l (FiltL i) = true \/ in_adm l (FiltH i) = true \/ in_adm l (VlanMap i) = true -> 0 <= i < ADM_NUM_VLANS.
Proof. cbn. destruct l; cbn; lia. Qed.

(** The two words of a filter, in either order. *)
Definition filter_written (i lo hi : Z) q x : Z := match q with FiltL k => if k =? i then lo else x | FiltH k => if k =? i then hi else x | _ => x end.
Lemma tr_filter i lo hi : l = false -> 0 <= i < ADM_NUM_VLANS ->
  transforms (w16 (ADM_VLAN_FILT_L i) lo ;; w16 (ADM_VLAN_FILT_H i) hi) (filter_written i (u16 lo) (u16 hi)) /\
  transforms (w16 (ADM_VLAN_FILT_H i) hi ;; w16 (ADM_VLAN_FILT_L i) lo) (filter_written i (u16 lo) (u16 hi)).
Proof.
  intros Hl Hi. destruct (in_vlan i Hi) as (H1 & H2 & _). rewrite Hl in H1 at 2. rewrite Hl in H2 at 2.
  split; (eapply tr_mono; [eapply tr_seq; [first [exact (tr_w16 (FiltL i) lo H1) | exact (tr_w16 (FiltH i) hi H2)] | first [exact (tr_w16 (FiltL i) lo H1) | exact (tr_w16 (FiltH i) hi H2)]] |]);
    intros q x _ _; cbv beta; unfold filter_written; destruct q; which;
    repeat match goal with |- context [?a =? ?b] => destruct (Z.eqb_spec a b) end; congruence.
Qed.

Lemma filters_round lo hi q x : in_adm l q = true ->
  one_round ADM_NUM_VLANS (fun i => filter_written i (lo i) (hi i)) q x = match q with FiltL k => lo k | FiltH k => hi k | _ => x end.
Proof.
  intros Hq. destruct q; try (apply one_round_none; reflexivity);
    (rewrite (one_round_at _ _ _ i) by (try (apply vlan_in; auto); intros j y Hj; unfold filter_written; rewrite (proj2 (Z.eqb_neq i j)) by congruence; reflexivity));
    unfold filter_written; rewrite Z.eqb_refl; reflexivity.
Qed.

Ltac at_reg q := first [apply (tr_rmw q) | apply (tr_w16 q)]; cbn; try (match goal with H : l = _ |- _ => rewrite H end); reflexivity.

Lemma tr_disable : l = false -> transforms adm6996_disable_vlan disabled.
Proof.
  intros Hl. unfold adm6996_disable_vlan. eapply tr_mono.
  - eapply tr_seq; [apply (tr_each _ _ (fun i => filter_written i open_low open_high)); [exact vlans_fit |]; intros i Hi; apply tr_filter; assumption |].
    eapply tr_seq; [at_reg P2Pvid |]. eapply tr_seq; [at_reg Ifnte |]. eapply tr_seq; [at_reg VidCheck |]. eapply tr_seq; [at_reg Sysc0 |]. at_reg Sysc3.
  - intros q x Hq Hx. cbv beta. rewrite filters_round by exact Hq. unfold disabled. rewrite Hl. destruct q; which. cbn in Hq. rewrite Hl in Hq. discriminate.
Qed.

Lemma tr_disable_l : l = true -> transforms adm6996_disable_vlan_6996l disabled.
Proof.
  intros Hl. unfold adm6996_disable_vlan_6996l. eapply tr_mono.
  - eapply tr_seq; [| at_reg Sysc3].
    apply (tr_each _ _ (fun i q x => if decide (q = VlanMap i) then u16 0 else x)); [exact vlans_fit |]. intros i Hi. apply (tr_w16 (VlanMap i)).
    rewrite (proj2 (proj2 (in_vlan i Hi))). exact Hl.
  - intros q x Hq Hx. cbv beta. unfold disabled. rewrite Hl. destruct q; try (cbn in Hq; rewrite Hl in Hq; discriminate);
      try (rewrite one_round_none by (intros; which; reflexivity); which; reflexivity).
    rewrite (one_round_at _ _ _ i) by (try (apply vlan_in; auto); intros; which). which; reflexivity.
Qed.

Lemma tr_enable : l = false -> transforms adm6996_enable_vlan enabled.
Proof.
  intros Hl. unfold adm6996_enable_vlan. eapply tr_mono.
  - eapply tr_seq; [at_reg P2Pvid |]. eapply tr_seq; [at_reg Ifnte |]. eapply tr_seq; [at_reg VidCheck |]. eapply tr_seq; [at_reg Sysc0 |]. at_reg Sysc3.
  - intros q x Hq Hx. unfold enabled. rewrite Hl. destruct q; which.
Qed.

Lemma tr_enable_l : l = true -> transforms adm6996_enable_vlan_6996l enabled.
Proof.
  intros Hl. unfold adm6996_enable_vlan_6996l. eapply tr_mono; [at_reg Sysc3 |]. intros q x Hq Hx. unfold enabled. rewrite Hl. destruct q; which.
Qed.

(** ** Port VLAN ids and filters *)

(** The configuration the driver was asked for, in the registers. *)
Definition pvids_written p q x : Z :=
  let pv i := geti 0 (pvid p) i in
  match q with
  | PortCfg i =>
      let x := Z.lor (Z.ldiff x ADM_PORTCFG_PVID_MASK) (ADM_PORTCFG_PVID (pv i)) in
      u16 (if l then if Z.testbit (tagged_ports p) i then Z.lor x (BIT 4) else Z.ldiff x (BIT 4) else x)
  | P0Pvid => u16 (ADM_P0_PVID_VAL (pv 0))
  | P1Pvid => u16 (ADM_P1_PVID_VAL (pv 1))
  | P2Pvid => u16 (Z.lor (Z.ldiff x ADM_P2_PVID_MASK) (ADM_P2_PVID_VAL (pv 2)))
  | P34Pvid => u16 (Z.lor (ADM_P3_PVID_VAL (pv 3)) (ADM_P4_PVID_VAL (pv 4)))
  | P5Pvid => u16 (Z.lor (Z.ldiff x ADM_P2_PVID_MASK) (ADM_P5_PVID_VAL (pv 5)))
  | _ => x
  end.

Definition filter_low p i : Z :=
  if geti 0 (vlan_table p) i =? 0 then 0
  else u16 (Z.lor (ADM_VLAN_FILT_MEMBER (geti 0 (vlan_table p) i)) (ADM_VLAN_FILT_TAGGED (geti 0 (vlan_tagged p) i))).
Definition filter_high p i : Z :=
  if geti 0 (vlan_table p) i =? 0 then 0 else u16 (Z.lor ADM_VLAN_FILT_VALID (ADM_VLAN_FILT_VID (geti 0 (vlan_id p) i))).
Definition filter_map p i : Z := if geti 0 (vlan_table p) i =? 0 then 0 else u16 (ADM_VLAN_FILT (geti 0 (vlan_table p) i)).
Definition filters_written p q x : Z :=
  match q with FiltL i => filter_low p i | FiltH i => filter_high p i | VlanMap i => filter_map p i | _ => x end.

Lemma wp_adm {A} (k : adm6996_priv W -> M (adm6996_priv W) A) Q E p : wp (k p) Q E p -> wp (bind adm k) Q E p.
Proof. exact (fun H => H). Qed.

Lemma port_in i : in_adm l (PortCfg i) = true -> 0 <= i < ADM_NUM_PORTS.
Proof. cbn. lia. Qed.

(** A program that starts by looking at its own state. *)
Ltac from_state := apply wp_adm; cbv beta;
  match goal with |- wp ?m (fun _ => becomes ?p ?e) _ _ => let H := fresh in enough (H : transforms m e) by apply H end.

Lemma tr_port_cfg p i : is_l p = l -> 0 <= i < ADM_NUM_PORTS ->
  transforms (rmw (adm_portcfg i) (fun x =>
    let x := Z.lor (Z.ldiff x ADM_PORTCFG_PVID_MASK) (ADM_PORTCFG_PVID (geti 0 (pvid p) i)) in
    if is_l p then if cbool (Z.land (tagged_ports p) (Z.shiftl 1 i)) then Z.lor x (Z.shiftl 1 4) else Z.ldiff x (Z.shiftl 1 4) else x))
    (fun q x => if decide (q = PortCfg i) then pvids_written p q x else x).
Proof.
  intros Hl Hi. eapply tr_mono; [apply (tr_rmw (PortCfg i)); apply in_index, Hi |]. intros q x _ _. cbv beta. destruct (decide (q = PortCfg i)) as [-> |]; [| reflexivity].
  cbn [pvids_written]. rewrite Hl. change (Z.shiftl 1 i) with (BIT i). rewrite cbool_land_BIT by lia. reflexivity.
Qed.

Lemma apply_pvids p : is_l p = l -> wp adm6996_apply_port_pvids (fun _ => becomes p (pvids_written p)) never p.
Proof.
  intros Hl. from_state. eapply tr_mono.
  - eapply tr_seq; [apply (tr_each _ _ (fun i q x => if decide (q = PortCfg i) then pvids_written p q x else x)); [exact ports_fit |]; intros i Hi; apply tr_port_cfg; assumption |].
    eapply tr_seq; [at_reg P0Pvid |]. eapply tr_seq; [at_reg P1Pvid |]. eapply tr_seq; [at_reg P2Pvid |]. eapply tr_seq; [at_reg P34Pvid |]. at_reg P5Pvid.
  - intros q x Hq Hx. cbv beta. destruct q; try (rewrite one_round_none by (intros; which; reflexivity); which; reflexivity).
    rewrite (one_round_at _ _ _ i) by (try (apply port_in; assumption); intros; which). which; reflexivity.
Qed.

Lemma apply_filters p : l = false -> wp adm6996_apply_vlan_filters (fun _ => becomes p (filters_written p)) never p.
Proof.
  intros Hl. from_state. eapply tr_mono.
  - apply (tr_each _ _ (fun i => filter_written i (filter_low p i) (filter_high p i))); [exact vlans_fit |]. intros i Hi. unfold filter_low, filter_high.
    destruct (geti 0 (vlan_table p) i =? 0); [apply (tr_filter i 0 0) | apply tr_filter]; assumption.
  - intros q x Hq Hx. rewrite filters_round by exact Hq. destruct q; try reflexivity. cbn in Hq. rewrite Hl in Hq. discriminate.
Qed.

Lemma apply_filters_l p : l = true -> wp adm6996_apply_vlan_filters_6996l (fun _ => becomes p (filters_written p)) never p.
Proof.
  intros Hl. from_state. eapply tr_mono.
  - apply (tr_each _ _ (fun i q x => if decide (q = VlanMap i) then filter_map p i else x)); [exact vlans_fit |]. intros i Hi. unfold filter_map.
    destruct (geti 0 (vlan_table p) i =? 0); apply (tr_w16 (VlanMap i)); rewrite (proj2 (proj2 (in_vlan i Hi))); exact Hl.
  - intros q x Hq Hx. cbv beta. destruct q; try (cbn in Hq; rewrite Hl in Hq; discriminate); try (rewrite one_round_none by (intros; which; reflexivity); reflexivity).
    rewrite (one_round_at _ _ _ i) by (try (apply vlan_in; auto); intros; which). which; reflexivity.
Qed.

(** ** What is in force *)

Definition adm_on p : Prop := Z.land (reg p Sysc3) ADM_TBV = ADM_TBV.

(** The filters are those of the VLANs; ports have their VLAN ids, and on an
    ADM6996L their output is tagged as asked. *)
Definition vlans_in_force p : Prop := forall i, 0 <= i < ADM_NUM_VLANS ->
  if l then reg p (VlanMap i) = filter_map p i else reg p (FiltL i) = filter_low p i /\ reg p (FiltH i) = filter_high p i.
Definition pvids_in_force p : Prop :=
  let pv i := geti 0 (pvid p) i in
  (forall i, 0 <= i < ADM_NUM_PORTS -> Z.land (reg p (PortCfg i)) ADM_PORTCFG_PVID_MASK = ADM_PORTCFG_PVID (pv i) /\
     (l = true -> Z.testbit (reg p (PortCfg i)) 4 = Z.testbit (tagged_ports p) i)) /\
  reg p P0Pvid = u16 (ADM_P0_PVID_VAL (pv 0)) /\ reg p P1Pvid = u16 (ADM_P1_PVID_VAL (pv 1)) /\
  Z.land (reg p P2Pvid) ADM_P2_PVID_MASK = ADM_P2_PVID_VAL (pv 2) /\
  reg p P34Pvid = u16 (Z.lor (ADM_P3_PVID_VAL (pv 3)) (ADM_P4_PVID_VAL (pv 4))) /\
  Z.land (reg p P5Pvid) ADM_P2_PVID_MASK = ADM_P5_PVID_VAL (pv 5).

(** The model that has these registers. *)
Definition the_model : adm6996_model := if l then ADM6996L else ADM6996M.

(** What every request keeps. *)
Definition adm_inv p : Prop := model p = the_model /\ Forall (fun v => 0 <= v < 65536) (pvid p) /\ if vlan_enabled p then adm_on p else adm_off p.

Lemma flag_set x t : 0 <= t < 65536 -> Z.land (u16 (Z.lor x t)) t = t.
Proof.
  intros Ht. change 65536 with (2 ^ 16) in Ht. apply Z.bits_inj'. intros i Hi. unfold u16. rewrite Z.land_spec, testbit_uwrap, Z.lor_spec by lia.
  destruct (Z.ltb_spec i 16); [destruct (Z.testbit x i), (Z.testbit t i); reflexivity | rewrite (testbit_high t 16 i Ht) by lia; apply andb_false_r].
Qed.
Lemma flag_cleared x t : Z.land (u16 (Z.ldiff x t)) t = 0.
Proof.
  apply Z.bits_inj'. intros i Hi. unfold u16. rewrite Z.land_spec, testbit_uwrap, Z.ldiff_spec, Z.testbit_0_l by lia.
  destruct (i <? 16), (Z.testbit x i), (Z.testbit t i); reflexivity.
Qed.
Lemma field_bit v m i : Z.ldiff v m = 0 -> 0 <= i -> Z.testbit v i = true -> Z.testbit m i = true.
Proof. intros Hv Hi H. pose proof (Z.ldiff_spec v m i) as E. rewrite Hv, Z.testbit_0_l, H in E. destruct (Z.testbit m i); [reflexivity | discriminate]. Qed.
Lemma field_stored x v m : 0 <= v < 65536 -> Z.ldiff v m = 0 -> Z.land (u16 (Z.lor (Z.ldiff x m) v)) m = v.
Proof.
  intros Hv Hm. change 65536 with (2 ^ 16) in Hv. apply Z.bits_inj'. intros i Hi. pose proof (field_bit v m i Hm Hi) as Hb. unfold u16.
  rewrite Z.land_spec, testbit_uwrap, Z.lor_spec, Z.ldiff_spec by lia.
  destruct (Z.ltb_spec i 16); [| rewrite (testbit_high v 16 i Hv) by lia; reflexivity].
  destruct (Z.testbit x i), (Z.testbit v i), (Z.testbit m i); cbn; try reflexivity; discriminate (Hb eq_refl).
Qed.
Lemma bit4_apart x m : Z.testbit m 4 = false -> Z.land (u16 (Z.lor x (BIT 4))) m = Z.land (u16 x) m /\ Z.land (u16 (Z.ldiff x (BIT 4))) m = Z.land (u16 x) m.
Proof.
  intros Hm. split; apply Z.bits_inj'; intros i Hi; unfold u16; rewrite !Z.land_spec, !testbit_uwrap, ?Z.lor_spec, ?Z.ldiff_spec, testbit_BIT by lia;
    (destruct (Z.eqb_spec 4 i) as [<- |]; [rewrite Hm, !andb_false_r; reflexivity |]); rewrite ?orb_false_r, ?andb_true_r; reflexivity.
Qed.

Lemma pick {A} (a b : A) : (l = true /\ (if l then a else b) = a) \/ (l = false /\ (if l then a else b) = b).
Proof. clear SW. destruct l; auto. Qed.

Lemma off_disabled p p' : becomes p disabled p' -> adm_off p'.
Proof.
  intros (w & -> & H). split.
  - rewrite H by reflexivity. cbn [disabled]. edestruct (@pick Z) as [(_ & ->) | (_ & ->)]; [| apply flag_cleared].
    rewrite Z.ldiff_ldiff_l, Z.lor_comm, <- Z.ldiff_ldiff_l. apply flag_cleared.
  - intros i Hi. destruct (in_vlan i Hi) as (H1 & H2 & H3). edestruct (@pick Prop) as [(E & ->) | (E & ->)].
    + rewrite H by (rewrite H3; exact E). reflexivity.
    + split; rewrite H by (rewrite ?H1, ?H2, E; reflexivity); reflexivity.
Qed.

Lemma on_enabled p p' : becomes p enabled p' -> adm_on p'.
Proof.
  intros (w & -> & H). unfold adm_on. rewrite H by reflexivity. cbn [enabled]. edestruct (@pick Z) as [(_ & ->) | (_ & ->)]; [| apply flag_set, tbv_word].
  rewrite <- Z.lor_assoc, (Z.lor_comm ADM_TBV), Z.lor_assoc. apply flag_set, tbv_word.
Qed.

(** Values in a list of 16-bit words. *)
Lemma word_at (ws : list Z) i : Forall (fun v => 0 <= v < 65536) ws -> 0 <= geti 0 ws i < 65536.
Proof.
  intros Hw. unfold geti. destruct (nth_in_or_default (Z.to_nat i) ws 0) as [H | ->]; [| lia].
  rewrite Forall_forall in Hw. apply Hw, list_elem_of_In, H.
Qed.

Lemma pvids_stored p p' : is_l p = l -> Forall (fun v => 0 <= v < 65536) (pvid p) -> becomes p (pvids_written p) p' -> pvids_in_force p'.
Proof.
  intros Hl Hw (w & -> & H). unfold pvids_in_force. cbn [pvid tagged_ports with_adm_io]. pose proof (fun i => word_at (pvid p) i Hw) as Hv.
  split; [| rewrite !H by reflexivity; cbn [pvids_written]; repeat split; apply field_stored; apply p2_field || apply p5_field; apply Hv].
  intros i Hi. rewrite H by (apply in_index, Hi). cbn [pvids_written]. destruct (pvid_field _ (Hv i)) as (F1 & F2). split.
  - edestruct (@pick Z) as [(_ & ->) | (_ & ->)]; [| apply field_stored; assumption].
    destruct (bit4_apart (Z.lor (Z.ldiff (reg p (PortCfg i)) ADM_PORTCFG_PVID_MASK) (ADM_PORTCFG_PVID (geti 0 (pvid p) i))) _ pvid_mask_bit4) as (B1 & B2).
    destruct (Z.testbit (tagged_ports p) i); rewrite ?B1, ?B2; apply field_stored; assumption.
  - intros E. edestruct (@pick Z) as [(_ & ->) | (E' & _)]; [| congruence]. unfold u16. rewrite testbit_uwrap by lia.
    destruct (Z.testbit (tagged_ports p) i); rewrite ?Z.lor_spec, ?Z.ldiff_spec, testbit_BIT by lia; cbn [Z.eqb Pos.eqb Z.ltb Z.compare Pos.compare Pos.compare_cont andb negb];
    rewrite ?orb_true_r, ?andb_false_r; reflexivity.
Qed.

Lemma filters_stored p p' : becomes p (filters_written p) p' -> vlans_in_force p'.
Proof.
  intros (w & -> & H) i Hi. destruct (in_vlan i Hi) as (H1 & H2 & H3). edestruct (@pick Prop) as [(E & ->) | (E & ->)].
  - rewrite H by (rewrite H3; exact E). reflexivity.
  - split; rewrite H by (rewrite ?H1, ?H2, E; reflexivity); reflexivity.
Qed.

(** The three steps leave each other's registers alone. *)
Lemma filters_keep p p' : becomes p (filters_written p) p' -> (adm_on p -> adm_on p') /\ (pvids_in_force p -> pvids_in_force p').
Proof.
  intros (w & -> & H). unfold adm_on, pvids_in_force. cbn [pvid tagged_ports with_adm_io]. rewrite !H by reflexivity. cbn [filters_written]. split; [auto |].
  intros (H1 & H2). split; [| exact H2]. intros i Hi. rewrite H by (apply in_index, Hi). apply H1, Hi.
Qed.
Lemma pvids_keep p p' : becomes p (pvids_written p) p' -> (adm_on p -> adm_on p') /\ (adm_off p -> adm_off p').
Proof.
  intros (w & -> & H). unfold adm_on, adm_off. rewrite !H by reflexivity. cbn [pvids_written]. split; [auto |].
  intros (H1 & H2). split; [exact H1 |]. intros i Hi. specialize (H2 i Hi). destruct (in_vlan i Hi) as (E1 & E2 & E3).
  revert H2. edestruct (@pick Prop) as [(E & ->) | (E & ->)]; intros H2; edestruct (@pick Prop) as [(E' & ->) | (E' & ->)]; try congruence.
  - rewrite H by (rewrite E3; exact E). exact H2.
  - rewrite !H by (rewrite ?E1, ?E2, E; reflexivity). exact H2.
Qed.

Definition in_force p : Prop := if enable_vlan p then adm_on p /\ vlans_in_force p /\ pvids_in_force p else adm_off p.
(** Only registers and the mode are touched. *)
Definition applied p p' : Prop := exists w, p' = with_enable (enable_vlan p) (enable_vlan p) (with_adm_io w p).

Lemma run_disable p : is_l p = l ->
  wp (if is_l p then adm6996_disable_vlan_6996l else adm6996_disable_vlan) (fun _ => becomes p disabled) never p.
Proof. intros Hl. destruct (is_l p); [apply tr_disable_l | apply tr_disable]; congruence. Qed.
Lemma run_enable p : is_l p = l ->
  wp (if is_l p then adm6996_enable_vlan_6996l else adm6996_enable_vlan) (fun _ => becomes p enabled) never p.
Proof. intros Hl. destruct (is_l p); [apply tr_enable_l | apply tr_enable]; congruence. Qed.
Lemma run_filters p (b : bool) : b = l ->
  wp (if b then adm6996_apply_vlan_filters_6996l else adm6996_apply_vlan_filters) (fun _ => becomes p (filters_written p)) never p.
Proof. intros ->. edestruct (@pick (M (adm6996_priv W) unit)) as [(E & ->) | (E & ->)]; [apply apply_filters_l | apply apply_filters]; exact E. Qed.

Lemma mode_spec p : is_l p = l -> (if vlan_enabled p then adm_on p else adm_off p) -> enable_vlan p = true ->
  wp (if negb (vlan_enabled p) then
        (if is_l p then adm6996_enable_vlan_6996l else adm6996_enable_vlan) ;; modify (fun p => with_enable (enable_vlan p) true p)
      else ret tt) (fun _ p' => applied p p' /\ adm_on p') never p.
Proof.
  intros Hl Hm He. destruct (vlan_enabled p) eqn:Ev; cbn [negb].
  - apply wp_ret. split; [| exact Hm]. exists (adm_io p). destruct p; cbn in *. subst. reflexivity.
  - apply wp_bind. eapply wp_mono; [apply run_enable, Hl | | auto]. intros [] p1 H1. apply wp_modify. pose proof (on_enabled _ _ H1) as Ho.
    destruct H1 as (w & -> & _). split; [| exact Ho]. exists w. cbn. rewrite He. reflexivity.
Qed.

Lemma is_l_model p : model p = the_model -> is_l p = l.
Proof. unfold is_l, the_model. intros ->. clear SW. destruct l; reflexivity. Qed.

Lemma hw_apply_spec p : adm_inv p -> wp adm6996_hw_apply (fun _ p' => applied p p' /\ in_force p') never p.
Proof.
  intros (Hmod & Hw & Hm). pose proof (is_l_model p Hmod) as Hl. apply wp_adm. destruct (enable_vlan p) eqn:He; cbn [negb].
  - apply wp_bind. eapply wp_mono; [apply mode_spec; assumption | | auto]. intros [] p1 ((w1 & ->) & H1).
    apply wp_bind. eapply wp_mono; [apply apply_pvids; exact Hl | | auto]. intros [] p2 H2. pose proof (fun a b => pvids_stored _ _ a b H2) as P2. specialize (P2 Hl Hw).
    pose proof (proj1 (pvids_keep _ _ H2) H1) as O2. destruct H2 as (w2 & -> & _).
    eapply wp_mono; [apply run_filters, Hl | | auto]. intros [] p3 H3. pose proof (filters_keep _ _ H3) as (K1 & K2). pose proof (filters_stored _ _ H3) as F3.
    specialize (K1 O2). specialize (K2 P2). destruct H3 as (w3 & -> & _). split; [exists w3; rewrite He; reflexivity |].
    unfold in_force. cbn [enable_vlan with_adm_io with_enable]. rewrite He. auto.
  - destruct (vlan_enabled p) eqn:Ev.
    + apply wp_bind. eapply wp_mono; [apply run_disable, Hl | | auto]. intros [] p1 H1. apply wp_modify. pose proof (off_disabled _ _ H1) as Ho.
      destruct H1 as (w & -> & _). split; [exists w; cbn; rewrite He; reflexivity |]. unfold in_force. cbn [enable_vlan with_adm_io with_enable]. rewrite He. exact Ho.
    + apply wp_ret. split; [| unfold in_force; rewrite He; exact Hm]. exists (adm_io p). destruct p; cbn in *. subst. reflexivity.
Qed.

(** ** Requests *)

Definition defaults p : adm6996_priv W :=
  with_vlans (tabulate ADM_NUM_VLANS u16) (tabulate ADM_NUM_VLANS (fun _ => 0)) (tabulate ADM_NUM_VLANS (fun _ => 0))
    (with_pvid (tabulate ADM_NUM_PORTS (fun _ => 0)) (with_enable false false p)).

Definition io_only p p' : Prop := exists w, p' = with_adm_io w p.

Lemma io_refl p : io_only p p.
Proof. exists (adm_io p). destruct p. reflexivity. Qed.
Lemma io_w16 r v p : wp (w16 r v) (fun _ => io_only p) never p.
Proof. apply wp_modify. eexists. reflexivity. Qed.
Lemma io_each n p (a v : Z -> Z) : wp (for_each n (fun i => w16 (a i) (v i))) (fun _ => io_only p) never p.
Proof.
  apply (wp_loop_acc (fun _ _ => io_only p)); [apply io_refl | | auto]. intros j [] p1 _ (w & ->). eapply wp_mono; [apply io_w16 | | auto].
  intros [] p2 (w' & ->). exists w'. reflexivity.
Qed.

Lemma zeros_words n : Forall (fun v => 0 <= v < 65536) (tabulate n (fun _ => 0)).
Proof. apply Forall_forall. intros x Hx. apply list_elem_of_In in Hx. unfold tabulate in Hx. apply in_map_iff in Hx. destruct Hx as (k & <- & _). lia. Qed.

Lemma reset_spec p : model p = the_model ->
  wp adm6996_perform_reset (fun _ p' => (exists w, p' = with_adm_io w (defaults p)) /\ adm_off p' /\ pvids_in_force p') never p.
Proof.
  intros Hm. pose proof (is_l_model p Hm) as Hl. apply wp_adm. apply wp_bind. eapply wp_mono; [apply io_each | | auto]. intros [] p1 (w1 & ->).
  apply wp_bind. eapply wp_mono; [apply io_w16 | | auto]. intros [] p2 (w2 & ->).
  apply wp_bind. apply (wp_mono _ (fun _ => io_only p) _ never); [| | auto].
  { destruct (_ || _); [eapply wp_mono; [apply io_each | | auto]; intros [] p3 (w3 & ->) | apply wp_ret]; eexists; reflexivity. }
  intros [] p3 (w3 & ->). apply wp_bind, wp_modify, wp_bind, wp_modify, wp_bind, wp_modify.
  assert (Htail : forall w (m : M (adm6996_priv W) unit), (forall p0, is_l p0 = l -> wp m (fun _ => becomes p0 disabled) never p0) ->
    wp (w16 ADM_VLAN_PRIOMAP 0 ;; m ;; adm6996_apply_port_pvids)
       (fun _ p' => (exists w, p' = with_adm_io w (defaults p)) /\ adm_off p' /\ pvids_in_force p') never (with_adm_io w (defaults p))).
  { intros w m Hd. apply wp_bind. eapply wp_mono; [apply io_w16 | | auto]. intros [] p4 (w4 & ->).
    apply wp_bind. eapply wp_mono; [apply Hd, Hl | | auto]. intros [] p5 H5. pose proof (off_disabled _ _ H5) as O5. destruct H5 as (w5 & -> & _).
    eapply wp_mono; [apply apply_pvids, Hl | | auto]. intros [] p6 H6. pose proof (fun a b => pvids_stored _ _ a b H6) as P6.
    specialize (P6 Hl (zeros_words _)). pose proof (proj2 (pvids_keep _ _ H6) O5) as O6. destruct H6 as (w6 & -> & _). split; [exists w6; reflexivity | auto]. }
  rewrite Hl, Hm. unfold the_model. edestruct (@pick adm6996_model) as [(E & ->) | (E & ->)].
  - rewrite bool_decide_false by discriminate. edestruct (@pick (M (adm6996_priv W) unit)) as [(_ & ->) | (E' & _)]; [| congruence].
    apply Htail. intros p0 H0. apply tr_disable_l, E.
  - rewrite bool_decide_true by reflexivity. apply Htail. intros p0 H0. apply tr_disable, E.
Qed.

Variables tagged_flag SWITCH_PORT_SPEED_10 SWITCH_PORT_SPEED_100 : Z.

Inductive adm_request :=
| ReqEnableVlan (i : Z) | ReqPvid (port vlan : Z) | ReqVid (k vlan : Z) | ReqPorts (k : Z) (ports : list switch_port)
| ReqLink (port : Z) (before : adm_link) | ReqMib (port : Z) | ReqStats (port : Z) | ReqApply | ReqReset.

Definition adm_serve (r : adm_request) : M (adm6996_priv W) unit :=
  match r with
  | ReqEnableVlan i => adm6996_set_enable_vlan i
  | ReqPvid port vlan => adm6996_set_pvid port vlan
  | ReqVid k vlan => adm6996_set_vid k vlan
  | ReqPorts k ports => adm6996_set_ports tagged_flag k ports
  | ReqLink port before => adm6996_get_port_link SWITCH_PORT_SPEED_10 SWITCH_PORT_SPEED_100 port before ;; ret tt
  | ReqMib port => adm6996_sw_get_port_mib port ;; ret tt
  | ReqStats port => adm6996_get_port_stats port ;; ret tt
  | ReqApply => adm6996_hw_apply
  | ReqReset => adm6996_reset_switch
  end.
(** The state after requests, each whatever it returns. *)
Definition after (rs : list adm_request) p : adm6996_priv W := fold_left (fun p r => snd (adm_serve r p)) rs p.

Lemma inv_regs p p' : (forall q, reg p' q = reg p q) -> model p' = model p -> pvid p' = pvid p -> vlan_enabled p' = vlan_enabled p -> adm_inv p -> adm_inv p'.
Proof.
  intros Hq H1 H2 H3 (I1 & I2 & I3). unfold adm_inv. rewrite H1, H2, H3. split; [exact I1 |]. split; [exact I2 |]. unfold adm_on, adm_off in *.
  destruct (vlan_enabled p); rewrite !Hq; [exact I3 |]. destruct I3 as (I3 & I4). split; [exact I3 |]. intros i Hi. specialize (I4 i Hi). revert I4.
  edestruct (@pick Prop) as [(E & ->) | (E & ->)]; intros I4; edestruct (@pick Prop) as [(E' & ->) | (E' & ->)]; try congruence; rewrite !Hq; exact I4.
Qed.

Lemma keeps_r16 r : preserves adm_inv (r16 r).
Proof.
  intros p H. unfold r16. pose proof (ad_quiet (l := l) (adm_io p) r) as Q. destruct (adm_read r (adm_io p)) as [v w']. cbn [snd] in *.
  eapply inv_regs; [| | | | exact H]; try reflexivity. exact Q.
Qed.
Lemma keeps_adm : preserves adm_inv adm.
Proof. intros p H. exact H. Qed.
Lemma keeps_entry ws i : preserves adm_inv (entry ws i).
Proof. unfold entry. auto with preserves. Qed.
#[local] Hint Resolve keeps_r16 keeps_adm keeps_entry : preserves.

Lemma keeps_set_table i v : preserves adm_inv (set_table i v) /\ preserves adm_inv (set_tagged i v).
Proof. split; intros p H; unfold set_table, set_tagged, set_entry, adm, bind, get_state; destruct (in_array _ i); exact H. Qed.

Lemma keeps_set_ports k ports : preserves adm_inv (adm6996_set_ports tagged_flag k ports).
Proof.
  unfold adm6996_set_ports. apply preserves_bind; [apply keeps_set_table |]. intros _. apply preserves_bind; [apply keeps_set_table |]. intros _.
  induction ports as [| (id, flags) ports IH]; cbn [set_ports_loop]; [apply preserves_ret |]. apply preserves_bind; [apply keeps_adm |]. intros p0.
  apply preserves_bind; [apply preserves_if; [| apply preserves_ret]; apply preserves_bind; [apply keeps_entry |]; intros t0;
    apply preserves_bind; [apply keeps_set_table | intros _ p H; exact H] |].
  intros _. apply preserves_bind; [apply keeps_entry |]. intros m0. apply preserves_bind; [apply keeps_set_table | intros _; exact IH].
Qed.

Lemma keeps_counter offset port : preserves adm_inv (adm_counter offset port).
Proof. unfold adm_counter. auto 10 with preserves. Qed.
#[local] Hint Resolve keeps_counter : preserves.

Lemma keeps_mib port : preserves adm_inv (adm6996_sw_get_port_mib port).
Proof.
  unfold adm6996_sw_get_port_mib. apply preserves_if; [apply preserves_fail |]. generalize (adm_emit ("Port " +:+ decimal port +:+ " MIB counters" +:+ newline) (0, EmptyString)).
  induction adm6996_mibs as [| (offset, name) mibs IH]; intros acc; cbn [print_counters]; [apply preserves_ret |].
  apply preserves_bind; [apply keeps_counter | intros v; apply IH].
Qed.

Lemma keeps_link port before : preserves adm_inv (adm6996_get_port_link SWITCH_PORT_SPEED_10 SWITCH_PORT_SPEED_100 port before).
Proof. unfold adm6996_get_port_link, port_status. auto 20 with preserves. Qed.

Lemma words_set ws i v : Forall (fun v => 0 <= v < 65536) ws -> 0 <= v < 65536 -> Forall (fun v => 0 <= v < 65536) (seti ws i v).
Proof. intros H Hv. unfold seti. apply Forall_insert; assumption. Qed.

Lemma keeps_pvid port vlan : preserves adm_inv (adm6996_set_pvid port vlan).
Proof.
  intros p H. unfold adm6996_set_pvid, adm, bind, get_state, set_entry. destruct (_ <? _); [exact H |]. destruct (in_array _ _); [| exact H].
  destruct H as (H1 & H2 & H3). split; [exact H1 |]. split; [apply words_set; [exact H2 | apply u16_range] | exact H3].
Qed.

Lemma keeps_serve r : preserves adm_inv (adm_serve r).
Proof.
  destruct r; cbn [adm_serve]; try (apply preserves_bind; [| intros; apply preserves_ret]); auto using keeps_pvid, keeps_set_ports, keeps_link, keeps_mib.
  - intros p H. unfold adm6996_set_enable_vlan. destruct (1 <? i); exact H.
  - intros p H. unfold adm6996_set_vid, adm, bind, get_state, set_entry. destruct (_ <? _); [exact H |]. destruct (in_array _ _); exact H.
  - unfold adm6996_get_port_stats. auto 10 with preserves.
  - intros p H. pose proof (hw_apply_spec p H) as Hs. unfold wp in Hs. destruct (adm6996_hw_apply p) as [[[] | e] p']; [| contradiction].
    destruct Hs as ((w & ->) & Hf). destruct H as (H1 & H2 & H3). split; [exact H1 |]. split; [exact H2 |]. unfold in_force in Hf.
    cbn [enable_vlan vlan_enabled with_enable with_adm_io snd] in *. destruct (enable_vlan p); [apply Hf | exact Hf].
  - intros p H. unfold adm6996_reset_switch. pose proof (reset_spec p (proj1 H)) as Hs. unfold wp in Hs. destruct (adm6996_perform_reset p) as [[[] | e] p']; [| contradiction].
    destruct Hs as ((w & ->) & Ho & _). split; [apply H |]. split; [apply zeros_words | exact Ho].
Qed.

Lemma after_inv rs p : adm_inv p -> adm_inv (after rs p).
Proof. revert p. induction rs as [| r rs IH]; intros p H; cbn [after fold_left]; [exact H |]. apply IH, keeps_serve, H. Qed.

(** C35: the registers follow the configuration. Over every sequence of requests
    after a reset, whatever they return, the switch filters by VLAN exactly
    when the driver takes it to, and while it does not, every filter is open.
    Applying the configuration then succeeds and puts it in force: the
    filters, or the port maps of an ADM6996L, are those of the VLANs, the
    ports have their VLAN ids, and nothing of the configuration is changed. *)
Theorem adm_configuration_in_force rs p : model p = the_model ->
  let p1 := after rs (snd (adm6996_reset_switch p)) in
  (if vlan_enabled p1 then adm_on p1 else adm_off p1) /\
  exists p2, adm6996_hw_apply p1 = (Ok tt, p2) /\ applied p1 p2 /\ in_force p2.
Proof.
  intros Hm p1. assert (Hi : adm_inv p1).
  { apply after_inv. unfold adm6996_reset_switch. pose proof (reset_spec p Hm) as Hs. unfold wp in Hs. destruct (adm6996_perform_reset p) as [[[] | e] p']; [| contradiction].
    destruct Hs as ((w & ->) & Ho & _). split; [exact Hm |]. split; [apply zeros_words | exact Ho]. }
  split; [apply Hi |]. destruct (wp_never _ _ _ (hw_apply_spec p1 Hi)) as ([] & p2 & E & H). exists p2. split; [exact E | exact H].
Qed.

(** ** Which model it is *)

Lemma run_r16 q p : in_adm l q = true -> wp (r16 (adm_at q)) (fun v p' => v = reg p q /\ io_only p p' /\ forall q', reg p' q' = reg p q') never p.
Proof.
  intros Hq. unfold wp, r16. pose proof (ad_read (adm_io p) q Hq) as H1. pose proof (ad_quiet (l := l) (adm_io p) (adm_at q)) as H2.
  destruct (adm_read (adm_at q) (adm_io p)) as [v w']. cbn [fst snd] in *. subst v. split; [apply u16_small, ad_range |]. split; [eexists; reflexivity |].
  intros q'. apply H2.
Qed.

(** A switch that keeps bit 12 of the register is taken for an ADM6996M, and
    gets its register back. *)
Theorem adm_detect_keeps p : l = false -> wp adm_detect (fun _ p' => (exists w, p' = with_model ADM6996M (with_adm_io w p)) /\ reg p' VidCheck = reg p VidCheck) never p.
Proof.
  intros Hl. assert (Hin : in_adm l VidCheck = true) by (cbn; rewrite Hl; reflexivity). unfold adm_detect.
  apply wp_bind. eapply wp_mono; [apply (run_r16 VidCheck), Hin | | auto]. intros old p1 (-> & (w1 & ->) & E1).
  apply wp_bind. eapply wp_mono; [apply (tr_w16 VidCheck _ Hin) | | auto]. intros [] p2 (w2 & -> & E2). specialize (E2 VidCheck Hin).
  apply wp_bind. eapply wp_mono; [apply (run_r16 VidCheck), Hin | | auto]. intros back p3 (-> & (w3 & ->) & E3).
  set (x := reg p VidCheck) in *. assert (Hx : 0 <= x < 65536) by apply ad_range.
  assert (E : reg (with_adm_io w2 (with_adm_io w1 p)) VidCheck = Z.lxor x (Z.shiftl 1 12)).
  { rewrite E2. destruct (decide _) as [_ | N]; [| contradiction]. change 65536 with (2 ^ 16) in Hx. change (Z.shiftl 1 12) with (BIT 12). unfold u16. bit_solve. }
  rewrite E, Z.lxor_nilpotent. cbn [cbool Z.land negb Z.eqb].
  apply wp_bind, wp_modify. eapply wp_mono; [apply (tr_w16 VidCheck _ Hin) | | auto]. intros [] p4 (w4 & -> & E4). specialize (E4 VidCheck Hin).
  split; [exists w4; reflexivity |]. rewrite E4. destruct (decide _) as [_ | N]; [| contradiction]. apply u16_small, Hx.
Qed.
End Registers.

(** A switch that does not is taken for an ADM6996FC. *)
Theorem adm_detect_stuck {R : AdmRegs} {W} {IO : AdmIo W} (b : bool) (p : adm6996_priv W) :
  (forall w, Z.testbit (u16 (fst (adm_read ADM_VID_CHECK w))) 12 = b) -> wp adm_detect (fun _ p' => model p' = ADM6996FC) never p.
Proof.
  intros Hb. pose proof (Hb (adm_io p)) as H1. unfold wp, adm_detect, r16, w16, modify, bind. destruct (adm_read ADM_VID_CHECK (adm_io p)) as [v w]. cbn [fst adm_io with_adm_io] in *.
  pose proof (Hb (adm_write ADM_VID_CHECK (u16 (Z.lxor (u16 v) (Z.shiftl 1 12))) w)) as H2.
  destruct (adm_read ADM_VID_CHECK (adm_write _ _ w)) as [v' w']. cbn [fst] in H2. change (Z.shiftl 1 12) with (BIT 12).
  rewrite cbool_land_BIT, !Z.lxor_spec, testbit_BIT, H1, H2 by lia. destruct b; reflexivity.
Qed.

(** ** The ports of a VLAN *)

Section Ports.
Context {R : AdmRegs} {W : Type} {IO : AdmIo W}.
Variable tagged_flag : Z.
Implicit Types p : adm6996_priv W.

Definition is_tagged (x : switch_port) : bool := cbool (Z.land (snd x) (Z.shiftl 1 tagged_flag)).
Definition is_member (ports : list switch_port) (i : Z) : bool := existsb (fun x => fst x =? i) ports.
Definition is_tagged_member (ports : list switch_port) (i : Z) : bool := existsb (fun x => (fst x =? i) && is_tagged x) ports.

(** Adding ports to the two bytes of a VLAN and to [tagged_ports]. *)
Definition add_bits (x : switch_port) (b : Z) : Z := u8 (Z.lor b (Z.shiftl 1 (fst x))).

Lemma add_bits_fold (f : switch_port -> bool) ports b i : 0 <= b < 256 -> Forall (fun x => 0 <= fst x < 8) ports ->
  let b' := fold_left (fun b x => if f x then add_bits x b else b) ports b in
  0 <= b' < 256 /\ Z.testbit b' i = Z.testbit b i || existsb (fun x : switch_port => (fst x =? i) && f x) ports.
Proof.
  revert b. induction ports as [| x ports IH]; intros b Hb Hp; cbn [fold_left existsb]; [rewrite orb_false_r; auto |].
  inversion_clear Hp as [| ? ? Hx Hp'].
  assert (H : 0 <= (if f x then add_bits x b else b) < 256 /\ Z.testbit (if f x then add_bits x b else b) i = Z.testbit b i || ((fst x =? i) && f x)).
  { destruct (f x); [| rewrite andb_false_r, orb_false_r; auto]. split; [apply u8_range |]. unfold add_bits. change (Z.shiftl 1 (fst x)) with (BIT (fst x)).
    destruct (Z.lt_ge_cases i 0) as [Hi | Hi]; [rewrite !Z.testbit_neg_r by exact Hi; rewrite (proj2 (Z.eqb_neq (fst x) i)) by lia; reflexivity |].
    unfold u8. rewrite testbit_uwrap, Z.lor_spec, testbit_BIT, andb_true_r by lia. change 256 with (2 ^ 8) in Hb.
    destruct (Z.ltb_spec i 8); [reflexivity |]. rewrite (testbit_high b 8 i Hb), (proj2 (Z.eqb_neq (fst x) i)) by lia. reflexivity. }
  destruct (IH _ (proj1 H) Hp') as (H1 & H2). split; [exact H1 |]. rewrite H2, (proj2 H), orb_assoc. reflexivity.
Qed.

Definition ports_set k ports p : adm6996_priv W :=
  with_tagged_ports (fold_left (fun b x => if is_tagged x then add_bits x b else b) ports (tagged_ports p))
    (with_vlans (vlan_id p) (seti (vlan_table p) k (fold_left (fun b x => add_bits x b) ports (geti 0 (vlan_table p) k)))
       (seti (vlan_tagged p) k (fold_left (fun b x => if is_tagged x then add_bits x b else b) ports (geti 0 (vlan_tagged p) k))) p).

Definition has_row k p : Prop := in_array (vlan_table p) k = true /\ in_array (vlan_tagged p) k = true.

Lemma ports_set_nil k p : has_row k p -> ports_set k [] p = p.
Proof.
  unfold has_row, in_array. intros H. unfold ports_set. cbn [fold_left]. rewrite !seti_same by lia. destruct p. reflexivity.
Qed.

Lemma ports_set_cons k x ports p : has_row k p -> has_row k (ports_set k [x] p) /\ ports_set k ports (ports_set k [x] p) = ports_set k (x :: ports) p.
Proof.
  unfold has_row, in_array. intros H. unfold ports_set. cbn [fold_left vlan_table vlan_tagged with_vlans with_tagged_ports vlan_id tagged_ports].
  rewrite !seti_length, !geti_seti, !Z.eqb_refl by lia. split; [exact H |]. unfold with_vlans, with_tagged_ports. cbn. unfold seti. rewrite !list_insert_insert_eq. reflexivity.
Qed.

Lemma set_ports_step k x ports p : has_row k p -> set_ports_loop tagged_flag k (x :: ports) p = set_ports_loop tagged_flag k ports (ports_set k [x] p).
Proof.
  intros (H1 & H2). destruct x as [id flags]. cbn [set_ports_loop]. unfold ports_set. cbn [fold_left]. unfold is_tagged, add_bits. cbn [fst snd].
  destruct (cbool (Z.land flags (Z.shiftl 1 tagged_flag))).
  - unfold set_tagged, set_table, entry, set_entry, adm, bind, get_state, modify, ret. cbn.
    repeat (rewrite ?H1, ?H2; cbn). reflexivity.
  - unfold set_table, entry, set_entry, adm, bind, get_state, modify, ret. cbn.
    repeat (rewrite ?H1, ?H2; cbn). rewrite seti_same by (unfold in_array in H2; lia). destruct p; reflexivity.
Qed.

Lemma adm_set_ports_run k ports p : has_row k p -> set_ports_loop tagged_flag k ports p = (Ok tt, ports_set k ports p).
Proof.
  revert p. induction ports as [| x ports IH]; intros p H; [rewrite ports_set_nil by exact H; reflexivity |].
  destruct (ports_set_cons k x ports p H) as (H' & E). rewrite set_ports_step by exact H. rewrite IH by exact H'. rewrite E. reflexivity.
Qed.

(** The ports of [ports], each once, in the order of their numbers. *)
Definition listed (ports : list switch_port) : list switch_port :=
  map (fun i => (i, if is_tagged_member ports i then Z.shiftl 1 tagged_flag else 0)) (List.filter (is_member ports) (upto (Z.to_nat ADM_NUM_PORTS))).

Lemma get_ports_run k p m t : in_array (vlan_table p) k = true -> in_array (vlan_tagged p) k = true -> geti 0 (vlan_table p) k = m -> geti 0 (vlan_tagged p) k = t ->
  adm6996_get_ports tagged_flag k p =
    (Ok (map (fun i => (i, if Z.testbit t i then Z.shiftl 1 tagged_flag else 0)) (List.filter (Z.testbit m) (upto (Z.to_nat ADM_NUM_PORTS)))), p).
Proof.
  intros H1 H2 <- <-. unfold adm6996_get_ports, entry, adm, bind, get_state. rewrite H1. unfold ret at 1. rewrite H2. unfold ret at 1.
  rewrite (loop_acc_filter (Z.testbit (geti 0 (vlan_table p) k)) (fun i => (i, if Z.testbit (geti 0 (vlan_tagged p) k) i then Z.shiftl 1 tagged_flag else 0))); [reflexivity |].
  intros j ps Hj. change (Z.shiftl 1 j) with (BIT j). rewrite !cbool_land_BIT by lia. destruct (Z.testbit (geti 0 (vlan_table p) k) j); reflexivity.
Qed.

Lemma any_entry (ports : list switch_port) i : existsb (fun x => (fst x =? i) && true) ports = is_member ports i.
Proof. induction ports as [| x ports IH]; [reflexivity |]. cbn. rewrite andb_true_r. f_equal. exact IH. Qed.

(** What is set for a VLAN is read back, each port once and in order, tagged if
    one of its entries is; other VLANs are as before.  A port that was ever
    tagged stays in [tagged_ports]. *)
Theorem adm_ports_round_trip k ports p : has_row k p -> ADM_NUM_PORTS <= 8 -> Forall (fun x => 0 <= fst x < ADM_NUM_PORTS) ports -> 0 <= tagged_ports p < 256 ->
  exists p', adm6996_set_ports tagged_flag k ports p = (Ok tt, p') /\
    adm6996_get_ports tagged_flag k p' = (Ok (listed ports), p') /\
    (forall i, Z.testbit (tagged_ports p') i = Z.testbit (tagged_ports p) i || is_tagged_member ports i) /\
    forall j, 0 <= j -> j <> k -> geti 0 (vlan_table p') j = geti 0 (vlan_table p) j /\ geti 0 (vlan_tagged p') j = geti 0 (vlan_tagged p) j.
Proof.
  intros (H1 & H2) Hn Hp Ht. assert (Hp8 : Forall (fun x : switch_port => 0 <= fst x < 8) ports) by (eapply Forall_impl; [exact Hp | cbn; lia]).
  set (p0 := with_vlans (vlan_id p) (seti (vlan_table p) k 0) (seti (vlan_tagged p) k 0) p).
  assert (H0 : has_row k p0) by (unfold has_row, in_array, p0; cbn [vlan_table vlan_tagged with_vlans]; rewrite !seti_length; auto).
  assert (Hk : 0 <= k < Z.of_nat (length (vlan_table p)) /\ k < Z.of_nat (length (vlan_tagged p))) by (unfold in_array in *; lia).
  exists (ports_set k ports p0). split; [| split; [| split]].
  - unfold adm6996_set_ports, set_table, set_tagged, set_entry, adm, bind, get_state, modify. rewrite H1. cbn [vlan_tagged with_vlans]. rewrite H2.
    apply (adm_set_ports_run k ports p0 H0).
  - assert (Hm := fun i => add_bits_fold (fun _ => true) ports 0 i ltac:(lia) Hp8). assert (Hg := fun i => add_bits_fold is_tagged ports 0 i ltac:(lia) Hp8). cbn [andb] in Hm.
    erewrite get_ports_run; [| | | reflexivity | reflexivity]; [| unfold ports_set, in_array; cbn [vlan_table vlan_tagged with_vlans with_tagged_ports]; rewrite seti_length; apply H0 ..].
    unfold ports_set. cbn [vlan_table vlan_tagged with_vlans with_tagged_ports]. unfold p0. cbn [vlan_table vlan_tagged with_vlans].
    rewrite !geti_seti, !Z.eqb_refl by (rewrite ?seti_length; lia). unfold listed, is_member, is_tagged_member. do 2 f_equal.
    rewrite (List.filter_ext _ (fun i => existsb (fun x : switch_port => fst x =? i) ports)).
    + apply map_ext. intros i. rewrite (proj2 (Hg i)), Z.testbit_0_l. reflexivity.
    + intros i. rewrite (proj2 (Hm i)), Z.testbit_0_l. apply any_entry.
  - intros i. apply (add_bits_fold is_tagged ports (tagged_ports p) i Ht Hp8).
  - intros j Hj Hjk. unfold ports_set, p0. cbn [vlan_table vlan_tagged with_vlans with_tagged_ports].
    rewrite !geti_seti by (rewrite ?seti_length; lia). rewrite (proj2 (Z.eqb_neq j k)) by exact Hjk. auto.
Qed.
End Ports.

(** ** An example *)

(** A numbering of registers and fields as a switch of this kind has it. *)
#[local] Instance example_regs : AdmRegs := {|
  ADM_NUM_PORTS := 6; ADM_NUM_VLANS := 16; ADM_PHY_PORTS := 5; ADM_CPU_PORT := 5; ADM_VLAN_MAX_ID := 4094;
  ADM_SIG0 := 0xa0; ADM_SIG0_MASK := 0xffff; ADM_SIG0_VAL := 0x1023; ADM_SIG1 := 0xa1; ADM_SIG1_MASK := 0xffff; ADM_SIG1_VAL := 0x0007;
  PHYADDR r := (Z.shiftr r 5, Z.land r 31);
  adm_portcfg i := geti 0 [1; 3; 5; 7; 8; 9] i; ADM_PORTCFG_INIT := 0x840f; ADM_PORTCFG_CPU := 0x841f; ADM_PORTCFG_PVID_MASK := 0x3c00;
  ADM_PORTCFG_PVID n := Z.shiftl (Z.land n 0xf) 10;
  ADM_P0_PVID := 0x28; ADM_P1_PVID := 0x29; ADM_OTBE_P2_PVID := 0x2a; ADM_P3_P4_PVID := 0x2b; ADM_P5_PVID := 0x2c;
  ADM_P0_PVID_VAL n := Z.land (Z.shiftr n 4) 0xff; ADM_P1_PVID_VAL n := Z.land (Z.shiftr n 4) 0xff; ADM_P2_PVID_VAL n := Z.land (Z.shiftr n 4) 0xff;
  ADM_P3_PVID_VAL n := Z.land (Z.shiftr n 4) 0xff; ADM_P4_PVID_VAL n := Z.shiftl (Z.land (Z.shiftr n 4) 0xff) 8; ADM_P5_PVID_VAL n := Z.land (Z.shiftr n 4) 0xff;
  ADM_P2_PVID_MASK := 0xff; ADM_OTBE_MASK := 0x3f00;
  ADM_IFNTE := 0x20; ADM_IFNTE_MASK := 0x7e00; ADM_VID_CHECK := 0x26; ADM_VID_CHECK_MASK := 0xfc0;
  ADM_SYSC0 := 0x0a; ADM_NTTE := 0x80; ADM_RVID1 := 0x100; ADM_SYSC3 := 0x11; ADM_TBV := 0x20; ADM_MAC_CLONE := 0x10;
  ADM_VLAN_FILT_L n := 0x40 + 2 * n; ADM_VLAN_FILT_H n := 0x41 + 2 * n; ADM_VLAN_MAP n := 0x13 + n; ADM_VLAN_PRIOMAP := 0x0e;
  ADM_VLAN_FILT_MEMBER_MASK := 0x3f; ADM_VLAN_FILT_VALID := 0x8000; ADM_VLAN_FILT_VID n := Z.land n 0xfff;
  ADM_VLAN_FILT_MEMBER n := Z.land n 0x3f; ADM_VLAN_FILT_TAGGED n := Z.shiftl (Z.land n 0x3f) 6; ADM_VLAN_FILT n := Z.land n 0x3f;
  ADM_PHY_PORT i := 0x200 + 0x20 * i; ADM_PHYCFG_INIT := 0xa100;
  ADM_PS0 := 0xa2; ADM_PS1 := 0xa3; ADM_PS2 := 0xa4; ADM_PS_LS := 1; ADM_PS_SS := 2; ADM_PS_DS := 4; ADM_PS_FCS := 8;
  ADM_CL0 := 0xa8; ADM_CL6 := 0xb4; ADM_CL12 := 0xc0; ADM_CL18 := 0xcc; ADM_CL24 := 0xd8; ADM_CL30 := 0xe4; ADM_OFFSET_PORT i := 2 * i
|}.

#[local] Instance memory_io : AdmIo (Z -> Z) := {| adm_read r w := (u16 (w r), w); adm_write r v w := fun r' => if r' =? r then v else w r' |}.

Lemma example_field n a s : 0 <= a -> 0 <= s -> a + s <= 16 ->
  0 <= Z.shiftl (Z.land n (Z.ones a)) s < 65536 /\ Z.ldiff (Z.shiftl (Z.land n (Z.ones a)) s) (Z.shiftl (Z.ones a) s) = 0.
Proof.
  intros Ha Hs Hw. split; [| bit_solve].
  assert (H : uwrap 16 (Z.shiftl (Z.land n (Z.ones a)) s) = Z.shiftl (Z.land n (Z.ones a)) s) by bit_solve.
  rewrite <- H. apply (uwrap_range 16). lia.
Qed.

#[local] Instance example_regs_ok : AdmRegsOk.
Proof.
  split; cbn; try lia; try reflexivity; intros v Hv; [apply (example_field v 4 10) | apply (example_field (Z.shiftr v 4) 8 0) | apply (example_field (Z.shiftr v 4) 8 0)]; lia.
Qed.

Definition all_roles : list adm_role :=
  map FiltL (upto 16) ++ map FiltH (upto 16) ++ map VlanMap (upto 16) ++ map PortCfg (upto 6) ++
  [P0Pvid; P1Pvid; P2Pvid; P34Pvid; P5Pvid; Ifnte; VidCheck; Sysc0; Sysc3].

Lemma in_adm_roles l q : in_adm l q = true -> In q all_roles.
Proof.
  intros H. unfold all_roles. rewrite !in_app_iff. destruct q; cbn in H;
    try (match goal with i : Z |- _ => assert (Hi : In i (upto 16)) by (apply in_upto; destruct l; cbn in H; lia) end);
    [left; apply in_map, Hi | right; left; apply in_map, Hi | do 2 right; left; apply in_map, Hi | do 3 right; left; apply in_map, in_upto; lia | do 4 right; cbn; auto 10 ..].
Qed.

(** No two registers of a switch have one number. *)
Lemma example_numbers l : forallb (fun q => forallb (fun q' =>
  negb (in_adm l q) || negb (in_adm l q') || Bool.eqb (adm_at q' =? adm_at q) (bool_decide (q' = q))) all_roles) all_roles = true.
Proof. destruct l; vm_compute; reflexivity. Qed.

Lemma example_place l q q' : in_adm l q = true -> in_adm l q' = true -> (adm_at q' =? adm_at q) = bool_decide (q' = q).
Proof.
  intros H H'. pose proof (proj1 (forallb_forall _ _) (example_numbers l) q (in_adm_roles l q H)) as E. cbv beta in E.
  pose proof (proj1 (forallb_forall _ _) E q' (in_adm_roles l q' H')) as E'. cbv beta in E'. rewrite H, H' in E'. apply Bool.eqb_prop, E'.
Qed.

#[local] Program Instance example_switch l : AdmSwitch l (Z -> Z) := {| ad_reg w q := u16 (w (adm_at q)) |}.
Next Obligation. intros. apply (u16_range). Qed.
Next Obligation. reflexivity. Qed.
Next Obligation. reflexivity. Qed.
Next Obligation.
  intros l w q x Hq Hx q' Hq'. cbn [adm_write memory_io]. rewrite (example_place l q q' Hq Hq').
  destruct (decide (q' = q)) as [E | E]; [rewrite bool_decide_true by exact E; apply u16_small, Hx | rewrite bool_decide_false by exact E; reflexivity].
Qed.

(** VLAN 2 is given the id 100, port 0 untagged and port 5 tagged. *)
Definition example_requests : list adm_request :=
  [ReqEnableVlan 1; ReqVid 2 100; ReqPorts 2 [(0, 0); (5, 1)]; ReqPvid 0 100; ReqVid 99 1; ReqPvid 0 5000].
Definition example_state : adm6996_priv (Z -> Z) := adm_new (fun _ => 0xffff) ADM6996M.

Lemma adm_configuration_in_force_witness :
  model example_state = the_model (l := false) /\
  let p1 := after 0 10 100 example_requests (snd (adm6996_reset_switch example_state)) in
  exists p2, adm6996_hw_apply p1 = (Ok tt, p2) /\ in_force (l := false) p2 /\
    adm_io p2 0x44 = 0x821 /\ adm_io p2 0x45 = 0x8064 /\ adm_io p2 0x46 = 0 /\ adm_io p2 0x28 = 6.
Proof.
  split; [reflexivity |]. assert (H : model example_state = the_model (l := false)) by reflexivity.
  destruct (adm_configuration_in_force (R := example_regs) (SW := example_switch false) ltac:(cbn; lia) ltac:(cbn; lia) 0 10 100 example_requests example_state H) as (_ & p2 & E & _ & F).
  exists p2. split; [exact E |]. split; [exact F |].
  assert (E2 : p2 = snd (adm6996_hw_apply (after 0 10 100 example_requests (snd (adm6996_reset_switch example_state))))) by (rewrite E; reflexivity).
  rewrite E2. vm_compute. auto.
Defined.
